(* ===== verification/_CoqProject ===== *)
-Q . S2P
Prelude.v
Bytes.v
Text.v
Crypto.v
Floats.v
Value.v
Totp.v
Toy.v
RecoveryKit.v
Keyring.v
Model.v
Envelope.v
VaultStore.v
Session.v
FileBlob.v
Template.v
CloudTemplates.v
Provision.v
Vpn.v
Nm.v
Csv.v
AppLock.v
Watchdog.v
Pairing.v
Generator.v
Health.v
Passkey.v
NmHost.v
HostRegistry.v
Importers.v
VaultCmds.v
CrowdSec.v
CrowdSecClaims.v
VpnManager.v
VpnManagerClaims.v
NmHostClaims.v
ApiDb.v
ApiAuth.v
ApiRoutes.v
Router.v
ApiDemo.v
ApiFacts.v
ApiClaims.v
ApiVault.v
ApiLogin.v
ApiRelay.v
SyncClient.v
SyncFlows.v
SyncFlowClaims.v
Transfers.v
SettingsSync.v
SettingsClaims.v
Cloud.v
Netdata.v
Providers.v
ProvidersClaims.v
Servers.v
ServersClaims.v
Terminal.v
TerminalClaims.v
GoogleAuth.v
GoogleClaims.v
SyncServer.v
SyncServerClaims.v
SettingsFlows.v
SettingsFlowClaims.v
Tunnel.v
TunnelClaims.v
NodeImage.v
NodeImageClaims.v
SelfTest.v
Shell.v
VpnReports.v
Mocks.v
Seed.v
ApiStart.v
ApiStartClaims.v
HostImage.v
HostImageClaims.v
