(* ===== verification/Prelude.v ===== *)
(** * NorthKey: a password manager with its own sync server and disposable VPN nodes

    The repository holds a Rust core library ([crates/core]), a desktop application
    ([apps/desktop/src-tauri]), two small binaries ([crates/cli], [crates/nm-host]) and a sync server
    ([services/api]). This library translates them into executable definitions and proves what makes
    them correct.

    ** The program

    A vault is a table of sealed items on the device. Its key is wrapped under a master password, a
    printed recovery key, a phone or the platform's biometrics. Devices of one account exchange their
    vaults through the server, which stores one versioned blob per account it cannot read, and
    approves devices, relays unlock requests and files. Logins and passkeys are filled into web pages
    through a native-messaging host. The VPN part creates cloud nodes for a session, tunnels through
    one or several of them and destroys them; the server part watches the user's servers and shares
    their ban lists.

    ** The files, and what they model

    Foundations.
    - [Prelude]: Rust results with panics, the [let?] and [guard] notations, shared lemmas and tactics.
    - [Bytes], [Text], [Floats], [Value]: bytes, integers at their width, slices, [str] and UTF-8,
      [f64], [serde_json::Value].
    - [Toy]: a computable instance of the cryptographic classes, for witnesses only.

    Core library.
    - [Crypto] (crypto/, error.rs), [RecoveryKit] (recovery_kit/mod.rs), [Keyring] (keyring/),
      [Model], [Envelope], [VaultStore], [Session], [FileBlob], [Passkey] (vault/), [Totp] (totp.rs),
      [Generator] (generator/), [Health] (health/), [Pairing] (pairing/), [Nm] (nm/), [Csv] and
      [Importers] (import/), [Template] and [CloudTemplates] (the template engine's part and the two
      user-data texts of provision/cloudinit.rs), [Provision] (provision/, wg/), [Vpn] (cloud/provider.rs, cloud/mock.rs,
      vpn/session.rs, vpn/sweep.rs), [Watchdog] (cloud/watchdog.rs), [Cloud], [Netdata] and
      [Providers] with its theorems in [ProvidersClaims]
      (cloud/manager.rs, cloud/netdata.rs, cloud/hetzner.rs, cloud/linode.rs), [GoogleAuth] and
      [GoogleClaims] (auth/google.rs and the loopback listener of sync.rs), [VpnReports]
      (vpn/history.rs, vpn/metrics.rs, vpn/profiles.rs, vpn/speedtest.rs,
      cloud/latency.rs and the screens of vpn.rs), [Mocks] (the simulated fleet and traffic and the
      interfaces of platform/), [Seed] (seed.rs and the command-line tool).

    Desktop application.
    - [AppLock] (applock.rs, state.rs, the unlock commands of commands.rs): where the key lives and
      what opens it. [VaultCmds] (commands.rs): the commands behind the vault screens. [NmHost],
      [NmHostClaims] (nmhost.rs, nm-host/main.rs): the browser host; [HostRegistry] registering it with
      the browsers. [Shell] (main.rs, net.rs, hello.rs, applog.rs): the start and exit of the app, its
      log and its network tools. [CrowdSec], [CrowdSecClaims]
      (crowdsec.rs): bans over SSH. [VpnManager], [VpnManagerClaims] (vpn.rs,
      vpn/cost.rs): connects, chains, the always-on node, the kill switch. [Tunnel],
      [TunnelClaims] (vpn.rs): the tunnel controller over the commands it runs and the
      fetcher of a node's key.
      [SelfTest] (vpn.rs): the self-test on a throwaway node, and small queries.
      [NodeImage], [NodeImageClaims]: the files, firewall, callback script and switch that a node's
      user data sets up, against the client that talks to it.
      [Servers], [ServersClaims] (servers.rs): the fleet, its firewalls and the
      watchdog loop. [Terminal], [TerminalClaims] (ssh.rs, core ssh.rs): pinned host
      keys, single commands and terminal sessions.
    - sync.rs, run against the modelled handlers of the server: [SyncClient] the requests and the
      sync cycle; [SyncFlows], [SyncFlowClaims] backup, restore, sign-in and pairing;
      [Transfers] the file relay; [SettingsSync], [SettingsClaims]
      the settings that travel with the vault, and [SettingsFlows], [SettingsFlowClaims]
      the cycle with them in it; [SyncServer], [SyncServerClaims]
      deploying and destroying a server of one's own; [HostImage],
      [HostImageClaims] the machine it runs on: its scripts, its updates, and
      asking for one.

    Sync server.
    - [ApiDb] (error.rs, state.rs, migrations), [ApiAuth] (auth.rs, ratelimit.rs, security.rs),
      [ApiRoutes] (the handlers of routes.rs), [Router] (its route table, against the requests sync.rs
      makes); [ApiFacts] the lemmas of these; [ApiDemo] a concrete server for
      witnesses; [ApiClaims], [ApiVault], [ApiLogin], [ApiRelay] the theorems. [ApiStart],
      [ApiStartClaims] (config.rs, main.rs, lib.rs, the verifiers of auth.rs): how
      the server comes up and whose word it takes for a Google identity.

    ** How code becomes definitions

    A pure function is a function; a fallible one answers a [result], whose third constructor is a
    panic; a stateful one passes its state: the tables of the server, the rows of the local vault,
    the device of the app lock, the world of the VPN manager with the nodes at the provider, the
    firewall rules and the files. Each has a small monad of its own with the notation [let!]. Random
    draws, clocks and fresh identifiers are arguments; calls of the operating system that may fail
    consult an oracle in the state or an argument. Traits are classes ([KeyWrapper], [CloudProvider],
    [WgController], ...) with their promises as a second class ([CloudLaws], ...), so that clients are
    proved against the interface and the mocks of the source are instances of it. Crates that are
    not in the repository (ciphers, hashes, HMAC, P-256, JSON text, URL parsing, base64, zstd,
    zxcvbn, the random source, HTTP and SSH) are classes whose laws state documented behaviour; each
    law is used under its name and has an instance.

    Integers keep their width where the code can overflow: sizes in formats, counters of passkeys,
    TOTP periods, versions. Where the source loops until an outer event, the model takes the bound of
    the source: [push_document] tries twice, a connect polls as often as its configuration says, a
    tunnel waits for sixty looks and a node's key for ninety requests, the fleet plan stops at the
    bound of a run. Listing an account asks for pages until the provider names no further one; the
    model stops after ten thousand, and the theorem about it asks for fewer. The stdio loop of the
    browser host, the parsers and the decoder of broken UTF-8 recurse on their input; no theorem
    holds because fuel ran out.

    ** What the theorems show

    - The vault: sealed blobs open exactly when genuine, for the version, item and key they were
      sealed for; every key wrapper recovers its key; merging is last-writer-wins, keeps the
      well-formedness of the store and converges but for edits in the same second; exports, bundles, recovery keys and pairing
      messages survive their round trip.
    - The server: optimistic versioning, device approval, isolation of accounts, rotation of refresh
      tokens, the lockout of the second factor, the bound of the rate limiter, and that what the desktop
      asks for reaches the handler it is meant for.
    - Server and client together: a sync that reports success has published the merged vault,
      whatever other devices did meanwhile, and the cycle with the device's settings refines that
      one; a printed kit restores the vault elsewhere, files sent arrive, settings reach a new
      device whole, re-sharing them tells the truth; and the interleaving of two writes that stalls
      sync.
    - The desktop: a start opens its own vault or none; the vault key is never lost, but for one failure
      on Windows, and never released without the master password;
      autofill and the browser host keep origins apart; what is saved is what is shown and filled,
      and views carry no secrets.
    - The VPN and the servers, each under the conditions its theorem names (a provider that keeps its
      promises, files and a firewall that obey): failed connects leave no node that the sweep does not
      find, no paid node is hidden, no command forgets a blocking rule, chains stand whole or not at
      all, a tunnel that does not shake hands is removed, a node's key is taken only from a reply that
      proves it knows the session's secret; what each request of the Linode client does to the account,
      lost answers included; a deployed server is on record; root commands are confined, the plan of the
      shared ban list converges, outages and recoveries alternate, opening a port closes none.
    - Client and machine together: the two ends of every tunnel name each other's keys, the node's
      callback answers what the client accepts, a deployed server starts with what the app keeps, and
      updates leave it answering as long as bad images bring no migration.
    - The terminal and the sign-in: a server is recognised by the key it showed first until the user
      resets it, a lock ends every terminal that is open; a redirect is read exactly, and a forged one is refused.

    Where the code does less than it means to, the theorem says what it does and a lemma exhibits the
    failure: [Session.Autofill.autofill_crosses_ip_addresses], [SyncClient.lost_update_stalls_sync],
    [SyncClient.sync_once_undoes_deletion], [ApiLogin.totp_enroll_bypasses_second_factor],
    [AppLock.windows_change_loses_key], [VpnManagerClaims.deploy_can_hide_node],
    [ServersClaims.first_port_closes_others], [TerminalClaims.TermDemo.lock_race],
    [SyncServerClaims.destroy_drops_record], [ApiStartClaims.StartDemo.stranger_signs_in_as_owner],
    [NodeImageClaims.switch_fires_at_first_check], [HostImageClaims.unstartable_image_strands],
    [HostImageClaims.migration_defeats_rollback], [CrowdSecClaims.white_space_passes],
    [Shell.fallback_password_loses_key], [Shell.settings_lost], [Router.vault_fits_iff],
    [HostRegistry.uninstall_unchecked], [Seed.demo_costs_nanode] and others.

    ** Not modelled

    The operating-system services (keychain, biometric prompt, file system, firewall tool, processes)
    beyond the answers they give; HTTP, SSH and TLS, which appear as classes with a world; window
    handling, opening local programs and the recovery PDF, which compute nothing the rest depends on;
    the constant scripts of CrowdSec and of the update check and the sine of the simulated traffic,
    which are parameters; what a shell makes of words that are not literal. A handler of the server
    runs to completion between two statements of another only where stated ([vault_put_during] lets
    other requests in between the statements of [vault_put]). Time does not pass inside a request. *)

From stdpp Require Export prelude strings gmap pretty sorting.
From Stdlib Require Export ZArith Lia.
From Stdlib Require Export Strings.Byte.

(** * Rust results, with panics *)

(** A call that returns [Ok v] or [Err e], or panics. *)
Inductive result (A E : Type) : Type :=
| Ok (a : A)
| Err (e : E)
| Panic.
Arguments Ok {A E} a.
Arguments Err {A E} e.
Arguments Panic {A E}.

(** The [?] operator (a panic propagates like an early return). *)
Definition rbind {A B E} (c : result A E) (k : A -> result B E) : result B E :=
  match c with Ok a => k a | Err e => Err e | Panic => Panic end.

(** [Result::map_err]. *)
Definition map_err {A E F} (f : E -> F) (c : result A E) : result A F :=
  match c with Ok a => Ok a | Err e => Err (f e) | Panic => Panic end.

(** [Option::ok_or]. *)
Definition ok_or {A E} (o : option A) (e : E) : result A E :=
  match o with Some a => Ok a | None => Err e end.

(** [Result::ok]; a panic stays a panic at the caller, so it has no image here. *)
Definition is_ok {A E} (c : result A E) : bool :=
  match c with Ok _ => true | _ => false end.

(** [Iterator::map(f).collect::<Result<Vec<_>, _>>()]: stops at the first error. *)
Fixpoint collect {A B E} (f : A -> result B E) (l : list A) : result (list B) E :=
  match l with
  | [] => Ok []
  | x :: l => rbind (f x) (fun y => rbind (collect f l) (fun ys => Ok (y :: ys)))
  end.

Declare Scope rust_scope.
Delimit Scope rust_scope with rust.
Notation "'let?' x ':=' c 'in' k" := (rbind c (fun x => k))
  (at level 10, x pattern, c at level 100, k at level 200,
   format "'[v' 'let?'  x  ':='  c  'in' '/' k ']'") : rust_scope.
Notation "'guard' c 'else' e 'in' k" := (if c : bool then k else e)
  (at level 10, c at level 100, e at level 100, k at level 200,
   format "'[v' 'guard'  c  'else'  e  'in' '/' k ']'") : rust_scope.
Open Scope rust_scope.

Lemma Ok_inj {A E} (a b : A) : Ok (E := E) a = Ok b -> a = b.
Proof. congruence. Qed.

Lemma rbind_Ok {A B E} (c : result A E) (k : A -> result B E) b :
  rbind c k = Ok b <-> exists a, c = Ok a /\ k a = Ok b.
Proof.
  destruct c as [a|e|]; cbn; split; try discriminate; [by eauto| | |];
    intros (a' & Ha & Hk); [by injection Ha as -> | discriminate Ha ..].
Qed.

Lemma rbind_Err {A B E} (c : result A E) (k : A -> result B E) e :
  rbind c k = Err e <-> c = Err e \/ exists a, c = Ok a /\ k a = Err e.
Proof. destruct c; cbn; naive_solver. Qed.

Lemma rbind_no_panic {A B E} (c : result A E) (k : A -> result B E) :
  c <> Panic -> (forall a, c = Ok a -> k a <> Panic) -> rbind c k <> Panic.
Proof. destruct c; cbn; auto. Qed.

Lemma map_err_no_panic {A E F} (f : E -> F) (c : result A E) :
  c <> Panic -> map_err f c <> Panic.
Proof. destruct c; cbn; congruence. Qed.

Lemma ok_or_no_panic {A E} (o : option A) (e : E) : ok_or o e <> Panic.
Proof. destruct o; discriminate. Qed.

(** [[T]::chunks(k)]: pieces of [k] elements, the last one possibly shorter. *)
Fixpoint chunks_fuel {A} (fuel k : nat) (l : list A) : list (list A) :=
  match fuel, l with
  | S fuel, _ :: _ => take k l :: chunks_fuel fuel k (drop k l)
  | _, _ => []
  end.
Definition chunks {A} (k : nat) (l : list A) : list (list A) := chunks_fuel (length l) k l.

Lemma chunks_fuel_enough {A} k (l : list A) f g :
  (0 < k)%nat -> (length l <= f)%nat -> (length l <= g)%nat -> chunks_fuel f k l = chunks_fuel g k l.
Proof.
  intros Hk. revert l g; induction f as [|f IH]; intros [|x l] [|g] Hf Hg; cbn [chunks_fuel length] in *;
    try done; try lia.
  f_equal. apply IH; rewrite length_drop; cbn [length]; lia.
Qed.

Lemma chunks_app {A} k (l1 l2 : list A) :
  (0 < k)%nat -> length l1 = k -> chunks k (l1 ++ l2) = l1 :: chunks k l2.
Proof.
  intros Hk Hl. unfold chunks. destruct l1 as [|x l1]; [cbn in Hl; lia|].
  rewrite length_app, Hl. destruct k as [|k]; [lia|]. cbn [Nat.add chunks_fuel app].
  f_equal.
  - change (x :: l1 ++ l2) with ((x :: l1) ++ l2). by rewrite take_app_length'.
  - change (x :: l1 ++ l2) with ((x :: l1) ++ l2). rewrite drop_app_length' by done.
    apply chunks_fuel_enough; lia.
Qed.

Lemma chunks_concat {A} k (ls : list (list A)) :
  (0 < k)%nat -> Forall (fun l => length l = k) ls -> chunks k (concat ls) = ls.
Proof.
  intros Hk. induction 1 as [|l ls Hl Hls IH]; [done|]. cbn [concat]. by rewrite chunks_app, IH.
Qed.

(** A list of [k * n] elements is the concatenation of [n] pieces of [k]. *)
Lemma pieces {A} k n (l : list A) :
  length l = (k * n)%nat -> exists ls, l = concat ls /\ length ls = n /\ Forall (fun p => length p = k) ls.
Proof.
  revert l; induction n as [|n IH]; intros l Hl.
  - exists []. split; [|auto]. destruct l; [done|cbn in Hl; lia].
  - destruct (IH (drop k l)) as (ls & Hd & Hn & Hk); [rewrite length_drop; lia|].
    exists (take k l :: ls). cbn. rewrite <- Hd, take_drop, Hn. split; [done|]. split; [done|].
    constructor; [rewrite length_take; lia|done].
Qed.

Lemma collect_Ok {A B E} (f : A -> result B E) l l' :
  collect f l = Ok l' <-> Forall2 (fun x y => f x = Ok y) l l'.
Proof.
  revert l'; induction l as [|x l IH]; intros l'; cbn.
  - split; [intros [= <-]; constructor | inversion 1; auto].
  - rewrite rbind_Ok. split.
    + intros (y & Hy & (ys & Hys & [= <-])%rbind_Ok). constructor; [auto|]. by apply IH.
    + inversion 1 as [|? y ? ys Hy Hys]; subst. exists y. split; [auto|].
      apply IH in Hys. by rewrite Hys.
Qed.

Lemma collect_no_panic {A B E} (f : A -> result B E) l :
  (forall x, f x <> Panic) -> collect f l <> Panic.
Proof.
  intros Hf. induction l as [|x l IH]; cbn; [done|]. apply rbind_no_panic; [done|intros y _].
  by apply rbind_no_panic.
Qed.

(** [slice::sort_by(|a, b| key(b).cmp(&key(a)))]: stable, largest key first. *)
Section sort_desc.
Context {A : Type} (key : A -> Z).

Fixpoint insert_desc (x : A) (l : list A) : list A :=
  match l with
  | [] => [x]
  | y :: l' => if (key y <=? key x)%Z then x :: l else y :: insert_desc x l'
  end.

Definition sort_desc (l : list A) : list A := foldr insert_desc [] l.

Lemma insert_desc_perm x l : insert_desc x l ≡ₚ x :: l.
Proof.
  induction l as [|y l IH]; cbn; [done|]. destruct (_ <=? _)%Z; [done|]. rewrite IH. constructor.
Qed.

Lemma sort_desc_perm l : sort_desc l ≡ₚ l.
Proof. induction l as [|x l IH]; cbn; [done|]. by rewrite insert_desc_perm, IH. Qed.

Lemma insert_desc_sorted x l :
  StronglySorted (fun a b => key b <= key a)%Z l -> StronglySorted (fun a b => key b <= key a)%Z (insert_desc x l).
Proof.
  induction 1 as [|y l Hl IH Hy]; cbn; [repeat constructor|].
  destruct (Z.leb_spec (key y) (key x)).
  - constructor; [by constructor|]. constructor; [done|]. eapply Forall_impl; [exact Hy|]. cbn. lia.
  - constructor; [done|]. rewrite insert_desc_perm. constructor; [lia|done].
Qed.

Lemma sort_desc_sorted l : StronglySorted (fun a b => key b <= key a)%Z (sort_desc l).
Proof. induction l as [|x l IH]; cbn; [constructor|]. by apply insert_desc_sorted. Qed.

(** Stability: elements of equal key keep their order. *)
Lemma insert_desc_filter k x l :
  List.filter (fun y => key y =? k)%Z (insert_desc x l) = List.filter (fun y => key y =? k)%Z (x :: l).
Proof.
  induction l as [|y l IH]; [done|]. cbn [insert_desc]. destruct (Z.leb_spec (key y) (key x)); [done|].
  cbn. rewrite IH. cbn. destruct (Z.eqb_spec (key x) k), (Z.eqb_spec (key y) k); try done. lia.
Qed.

Lemma sort_desc_stable k l :
  List.filter (fun y => key y =? k)%Z (sort_desc l) = List.filter (fun y => key y =? k)%Z l.
Proof.
  induction l as [|x l IH]; [done|]. cbn [sort_desc foldr]. rewrite insert_desc_filter. cbn. by rewrite <- IH.
Qed.
End sort_desc.

(** ** Tactics *)

(** Take apart a hypothesis saying that a chain of [let?] and [guard] succeeded. *)
Ltac inv_result :=
  repeat match goal with
  | H : rbind _ _ = Ok _ |- _ =>
      let a := fresh "a" in let Ha := fresh "Ha" in
      apply rbind_Ok in H as (a & Ha & H)
  | H : (if ?b then _ else _) = Ok _ |- _ =>
      let E := fresh "Eg" in destruct b eqn:E; try discriminate H
  | H : Ok _ = Ok _ |- _ => injection H as H; subst
  | H : Err _ = Ok _ |- _ => discriminate H
  | H : Panic = Ok _ |- _ => discriminate H
  | H : ok_or ?o _ = Ok _ |- _ =>
      let E := fresh "Eo" in destruct o eqn:E; cbn in H; try discriminate H
  | H : map_err _ ?c = Ok _ |- _ =>
      let E := fresh "Em" in destruct c eqn:E; cbn in H; try discriminate H
  end.

(** Case on the scrutinee of the first [match] of the goal. *)
Ltac case_goal :=
  match goal with
  | |- context [match ?x with _ => _ end] => destruct x eqn:?; try discriminate; auto
  end.

(** Turn boolean tests into propositions. *)
Ltac bools :=
  repeat match goal with
  | H : bool_decide _ = true |- _ => apply bool_decide_eq_true in H
  | H : bool_decide _ = false |- _ => apply bool_decide_eq_false in H
  | H : negb _ = true |- _ => apply negb_true_iff in H
  | H : negb _ = false |- _ => apply negb_false_iff in H
  | H : _ && _ = true |- _ => apply andb_true_iff in H as [? ?]
  | H : _ || _ = false |- _ => apply orb_false_iff in H as [? ?]
  | H : (_ <=? _)%Z = true |- _ => apply Z.leb_le in H
  | H : (_ <=? _)%Z = false |- _ => apply Z.leb_gt in H
  | H : (_ <? _)%Z = true |- _ => apply Z.ltb_lt in H
  | H : (_ <? _)%Z = false |- _ => apply Z.ltb_ge in H
  | H : (_ =? _)%Z = true |- _ => apply Z.eqb_eq in H
  | H : (_ =? _)%Z = false |- _ => apply Z.eqb_neq in H
  | H : (_ <=? _)%nat = true |- _ => apply Nat.leb_le in H
  | H : (_ <=? _)%nat = false |- _ => apply Nat.leb_gt in H
  | H : (_ <? _)%nat = true |- _ => apply Nat.ltb_lt in H
  | H : (_ <? _)%nat = false |- _ => apply Nat.ltb_ge in H
  | H : (_ =? _)%nat = true |- _ => apply Nat.eqb_eq in H
  | H : (_ =? _)%nat = false |- _ => apply Nat.eqb_neq in H
  end.

Create HintDb rust.
Create Rewrite HintDb rust.
#[export] Hint Resolve map_err_no_panic ok_or_no_panic : rust.

(** * State and errors *)

(** A computation that reads and writes a state and may fail or panic; what it wrote before
    failing stays written. *)
Definition ST (S E A : Type) : Type := S -> result A E * S.

Definition ret {S E A} (a : A) : ST S E A := fun s => (Ok a, s).
Definition err {S E A} (e : E) : ST S E A := fun s => (Err e, s).
Definition lift {S E A} (r : result A E) : ST S E A := fun s => (r, s).
Definition mbind {S E A B} (c : ST S E A) (k : A -> ST S E B) : ST S E B := fun s =>
  match c s with
  | (Ok a, s) => k a s
  | (Err e, s) => (Err e, s)
  | (Panic, s) => (Panic, s)
  end.

Declare Scope st_scope.
Notation "'let!' x ':=' c 'in' k" := (mbind c (fun x => k))
  (at level 10, x pattern, c at level 100, k at level 200,
   format "'[v' 'let!'  x  ':='  c  'in' '/' k ']'") : st_scope.
Notation "'require' c 'else' e 'in' k" := (if c : bool then k else err e)
  (at level 10, c at level 100, e at level 100, k at level 200,
   format "'[v' 'require'  c  'else'  e  'in' '/' k ']'") : st_scope.
Open Scope st_scope.

Lemma mbind_Ok {S E A B} (c : ST S E A) (k : A -> ST S E B) s b s' :
  mbind c k s = (Ok b, s') <-> exists a s1, c s = (Ok a, s1) /\ k a s1 = (Ok b, s').
Proof.
  unfold mbind. destruct (c s) as [[a|e|] s1]; [naive_solver|..];
    (split; [done|]); intros (?&?&?&?); simplify_eq.
Qed.

(** Run a computation for its answer; the state it leaves need not be computed. *)
Lemma run_answer {S E A} (m : ST S E A) s r : fst (m s) = r -> m s = (r, snd (m s)).
Proof. intros <-. apply surjective_pairing. Qed.

Lemma run_ok {S E A} (m : ST S E A) s : is_ok (fst (m s)) = true -> exists a, m s = (Ok a, snd (m s)).
Proof. destruct (m s) as [[a|e|] s']; [|done..]. by exists a. Qed.
