(* ===== verification/Bytes.v ===== *)
(** Bytes, fixed-size arrays, little- and big-endian integers, slices that panic
    out of range, and text as a sequence of Unicode scalar values: the parts of the
    Rust language and of [std] that the modelled crates use. *)
From S2P Require Import Prelude.
From Stdlib Require Strings.String.
Local Open Scope Z_scope.

Abbreviation bytes := (list byte).

#[export] Instance byte_eq_dec : EqDecision byte := Byte.byte_eq_dec.
#[export] Instance byte_countable : Countable byte.
Proof.
  refine (inj_countable' Byte.to_N (fun n => default Byte.x00 (Byte.of_N n)) _).
  intros b. by rewrite Byte.of_to_N.
Defined.

(** * Bytes as integers *)

Definition byte_to_Z (b : byte) : Z := Z.of_N (Byte.to_N b).

(** [z as u8]. *)
Definition byte_of_Z (z : Z) : byte := default Byte.x00 (Byte.of_N (Z.to_N (z mod 256))).

Lemma byte_to_Z_range b : 0 <= byte_to_Z b < 256.
Proof. unfold byte_to_Z. pose proof (Byte.to_N_bounded b). lia. Qed.

Lemma byte_of_to_Z b : byte_of_Z (byte_to_Z b) = b.
Proof.
  unfold byte_of_Z. rewrite Z.mod_small by apply byte_to_Z_range.
  unfold byte_to_Z. by rewrite N2Z.id, Byte.of_to_N.
Qed.

Lemma byte_to_of_Z z : byte_to_Z (byte_of_Z z) = z mod 256.
Proof.
  unfold byte_of_Z, byte_to_Z. pose proof (Z.mod_pos_bound z 256 eq_refl).
  destruct (Byte.of_N (Z.to_N (z mod 256))) as [b|] eqn:E; cbn.
  - apply Byte.to_of_N in E. rewrite E. lia.
  - apply Byte.of_N_None_iff in E. lia.
Qed.

#[export] Instance byte_to_Z_inj : Inj (=) (=) byte_to_Z.
Proof. intros a b H. by rewrite <- (byte_of_to_Z a), H, byte_of_to_Z. Qed.

(** * Little-endian integers *)

(** [z.to_le_bytes()] at a width of [n] bytes, of a signed or an unsigned integer. *)
Fixpoint le_bytes (n : nat) (z : Z) : bytes :=
  match n with
  | O => []
  | S n => byte_of_Z z :: le_bytes n (z / 256)
  end.

(** [uN::from_le_bytes]. *)
Fixpoint le_val (l : bytes) : Z :=
  match l with
  | [] => 0
  | b :: l => byte_to_Z b + 256 * le_val l
  end.

Definition be_bytes (n : nat) (z : Z) : bytes := reverse (le_bytes n z).
Definition be_val (l : bytes) : Z := le_val (reverse l).

(** The two's-complement reading of an unsigned 64-bit integer. *)
Definition i64_of_u64 (u : Z) : Z := if u <? 2 ^ 63 then u else u - 2 ^ 64.
Definition i64_range (z : Z) : Prop := - 2 ^ 63 <= z < 2 ^ 63.

Lemma length_le_bytes n z : length (le_bytes n z) = n.
Proof. revert z; induction n; intros z; cbn; auto. Qed.

Lemma length_be_bytes n z : length (be_bytes n z) = n.
Proof. unfold be_bytes. by rewrite length_reverse, length_le_bytes. Qed.

Lemma le_val_le_bytes n z : le_val (le_bytes n z) = z mod 256 ^ Z.of_nat n.
Proof.
  revert z; induction n as [|n IH]; intros z; cbn [le_bytes le_val].
  - by rewrite Z.mod_1_r.
  - rewrite byte_to_of_Z, IH, Nat2Z.inj_succ, Z.pow_succ_r by lia.
    rewrite Z.rem_mul_r by lia. lia.
Qed.

Lemma le_val_range l : 0 <= le_val l < 256 ^ Z.of_nat (length l).
Proof.
  induction l as [|b l IH]; cbn [le_val length]; [lia|].
  rewrite Nat2Z.inj_succ, Z.pow_succ_r by lia. pose proof (byte_to_Z_range b). lia.
Qed.

Lemma le_bytes_le_val l : le_bytes (length l) (le_val l) = l.
Proof.
  induction l as [|b l IH]; cbn [le_val length le_bytes]; [done|].
  pose proof (byte_to_Z_range b) as Hb. f_equal.
  - apply (inj byte_to_Z). rewrite byte_to_of_Z, (Z.mul_comm 256), Z.mod_add by lia.
    by apply Z.mod_small.
  - etrans; [|apply IH]. f_equal. rewrite (Z.mul_comm 256), Z.div_add by lia.
    rewrite Z.div_small by lia. lia.
Qed.

Lemma le_val_inj l1 l2 : length l1 = length l2 -> le_val l1 = le_val l2 -> l1 = l2.
Proof. intros Hl Hv. by rewrite <- (le_bytes_le_val l1), Hl, Hv, le_bytes_le_val. Qed.

Lemma le_val_le_bytes_small n z :
  0 <= z < 256 ^ Z.of_nat n -> le_val (le_bytes n z) = z.
Proof. intros H. by rewrite le_val_le_bytes, Z.mod_small. Qed.

Lemma be_val_be_bytes_small n z :
  0 <= z < 256 ^ Z.of_nat n -> be_val (be_bytes n z) = z.
Proof.
  intros H. unfold be_val, be_bytes. by rewrite reverse_involutive, le_val_le_bytes_small.
Qed.

Lemma be_bytes_be_val l : be_bytes (length l) (be_val l) = l.
Proof.
  unfold be_bytes, be_val. rewrite <- (length_reverse l), le_bytes_le_val.
  apply reverse_involutive.
Qed.

Lemma i64_le_round_trip z : i64_range z -> i64_of_u64 (le_val (le_bytes 8 z)) = z.
Proof.
  intros Hz. unfold i64_range in Hz. rewrite le_val_le_bytes. change (256 ^ Z.of_nat 8) with (2 ^ 64).
  unfold i64_of_u64. destruct (Z.leb_spec 0 z).
  - rewrite Z.mod_small by lia. destruct (Z.ltb_spec z (2 ^ 63)); lia.
  - rewrite <- (Z.mod_unique z (2 ^ 64) (-1) (z + 2 ^ 64)) by lia.
    destruct (Z.ltb_spec (z + 2 ^ 64) (2 ^ 63)); lia.
Qed.

Lemma le_bytes_inj n z1 z2 :
  0 <= z1 < 256 ^ Z.of_nat n -> 0 <= z2 < 256 ^ Z.of_nat n ->
  le_bytes n z1 = le_bytes n z2 -> z1 = z2.
Proof.
  intros H1 H2 E. by rewrite <- (le_val_le_bytes_small n z1), E, le_val_le_bytes_small.
Qed.

#[export] Hint Rewrite length_le_bytes length_be_bytes : rust.

(** * Slices and indexing *)

Section slices.
Context {A E : Type}.
Implicit Types l : list A.

(** [&l[i..j]]: panics unless [i <= j <= l.len()]. *)
Definition slice l (i j : nat) : result (list A) E :=
  if bool_decide (i <= j /\ j <= length l)%nat then Ok (take (j - i) (drop i l)) else Panic.

(** [&l[i..]]. *)
Definition slice_from l (i : nat) : result (list A) E := slice l i (length l).

(** [l[i]]. *)
Definition index l (i : nat) : result A E :=
  match l !! i with Some x => Ok x | None => Panic end.

Lemma slice_ok l i j :
  (i <= j <= length l)%nat -> slice l i j = Ok (take (j - i) (drop i l)).
Proof. intros H. unfold slice. by rewrite bool_decide_true. Qed.

Lemma slice_from_ok l i : (i <= length l)%nat -> slice_from l i = Ok (drop i l).
Proof.
  intros H. unfold slice_from. rewrite slice_ok by lia. f_equal.
  apply take_ge. rewrite length_drop. lia.
Qed.

Lemma index_ok l i : (i < length l)%nat -> exists x, index l i = Ok x /\ l !! i = Some x.
Proof. intros [x Hx]%lookup_lt_is_Some. exists x. unfold index. by rewrite Hx. Qed.

Lemma index_lookup l i x : l !! i = Some x -> index l i = Ok x.
Proof. unfold index. by intros ->. Qed.

Lemma slice_Ok l i j s :
  slice l i j = Ok s <-> (i <= j <= length l)%nat /\ s = take (j - i) (drop i l).
Proof. unfold slice. case_bool_decide; naive_solver. Qed.

Lemma slice_from_Ok l i s :
  slice_from l i = Ok s <-> (i <= length l)%nat /\ s = drop i l.
Proof.
  split.
  - intros [H ->]%slice_Ok. split; [lia|]. apply take_ge. rewrite length_drop. lia.
  - intros [H ->]. by apply slice_from_ok.
Qed.

Lemma index_Ok l i x : index l i = Ok x <-> l !! i = Some x.
Proof. unfold index. case_match; naive_solver congruence. Qed.

Lemma slice_not_Err l i j e : slice l i j <> Err e.
Proof. unfold slice. by case_bool_decide. Qed.

Lemma slice_no_panic l i j : (i <= j <= length l)%nat -> slice l i j <> Panic.
Proof. intros H. by rewrite slice_ok. Qed.

Lemma slice_from_no_panic l i : (i <= length l)%nat -> slice_from l i <> Panic.
Proof. intros H. by rewrite slice_from_ok. Qed.

Lemma index_no_panic l i : (i < length l)%nat -> index l i <> Panic.
Proof. intros (x & H & _)%index_ok. by rewrite H. Qed.

(** Reading the parts of a concatenation whose first parts have known lengths. *)
Lemma slice_app l1 l2 l3 i j :
  i = length l1 -> j = (i + length l2)%nat -> slice (l1 ++ l2 ++ l3) i j = Ok l2.
Proof.
  intros -> ->. rewrite slice_ok by (rewrite !length_app; lia).
  f_equal. by rewrite drop_app_length, Nat.add_comm, Nat.add_sub, take_app_length.
Qed.

Lemma slice_from_app l1 l2 i : i = length l1 -> slice_from (l1 ++ l2) i = Ok l2.
Proof. intros ->. rewrite slice_from_ok by (rewrite length_app; lia). by rewrite drop_app_length. Qed.

Lemma take_take_drop l i j : l = take i l ++ take j (drop i l) ++ drop (i + j) l.
Proof. rewrite <- drop_drop, take_drop. by rewrite take_drop. Qed.

Lemma slice_prefix l1 l2 j : j = length l1 -> slice (l1 ++ l2) 0 j = Ok l1.
Proof. intros ->. apply (slice_app [] l1 l2); auto. Qed.
End slices.

(** * Fixed-size byte arrays [[u8; n]] *)

Record arr (n : nat) : Type := Arr {
  arr_bytes :> bytes;
  arr_ok : Is_true (length arr_bytes =? n)%nat;
}.
Arguments Arr {n} _ _.
Arguments arr_bytes {n} _.

Lemma length_arr {n} (a : arr n) : length a = n.
Proof. destruct a as [b Hb]; cbn. by apply Nat.eqb_eq, Is_true_true. Qed.

Lemma arr_eq {n} (a b : arr n) : arr_bytes a = arr_bytes b -> a = b.
Proof. destruct a, b; cbn. intros ->. f_equal. apply proof_irrel. Qed.

#[export] Instance arr_eq_dec n : EqDecision (arr n).
Proof.
  intros a b. destruct (decide (arr_bytes a = arr_bytes b)) as [H|H].
  - left. by apply arr_eq.
  - right. congruence.
Defined.

(** The canonical proof, so that arrays of equal closed bytes are convertible. *)
Definition canon {b : bool} : Is_true b -> Is_true b :=
  match b with true => fun _ => I | false => fun H => H end.

(** [<[u8; n]>::try_from(b)]. *)
Definition arr_of {n} (b : bytes) : option (arr n) :=
  match bool_dec (length b =? n)%nat true with
  | left H => Some (Arr b (canon (Is_true_true_2 _ H)))
  | right _ => None
  end.

Lemma arr_of_bytes {n} (a : arr n) : arr_of a = Some a.
Proof.
  unfold arr_of. destruct (bool_dec _ true) as [H|H].
  - f_equal. by apply arr_eq.
  - destruct H. apply Nat.eqb_eq, length_arr.
Qed.

Lemma arr_of_Some {n} b (a : arr n) : arr_of b = Some a -> arr_bytes a = b.
Proof. unfold arr_of. destruct (bool_dec _ true); by intros [= <-]. Qed.

Lemma arr_of_len {n} (b : bytes) : length b = n -> exists a : arr n, arr_of b = Some a /\ arr_bytes a = b.
Proof.
  intros H. unfold arr_of. destruct (bool_dec _ true) as [H'|H'].
  - by eexists.
  - destruct H'. by apply Nat.eqb_eq.
Qed.

Lemma arr_of_not_len {n} (b : bytes) : length b <> n -> @arr_of n b = None.
Proof.
  intros H. unfold arr_of. destruct (bool_dec _ true) as [H'|H']; [|done].
  by pose proof (proj1 (Nat.eqb_eq _ _) H').
Qed.

#[export] Instance arr_countable n : Countable (arr n).
Proof. refine (inj_countable arr_bytes arr_of _). intros a. apply arr_of_bytes. Defined.

(** [out.copy_from_slice(b)] into an array of [n] bytes: panics on another length. *)
Definition copy_from_slice {E} n (b : bytes) : result (arr n) E :=
  match arr_of b with Some a => Ok a | None => Panic end.

Lemma copy_from_slice_arr {E} {n} (a : arr n) : copy_from_slice (E:=E) n a = Ok a.
Proof. unfold copy_from_slice. by rewrite arr_of_bytes. Qed.

Lemma copy_from_slice_Ok {E} n b (a : arr n) :
  copy_from_slice (E:=E) n b = Ok a -> arr_bytes a = b.
Proof. unfold copy_from_slice. destruct (arr_of b) eqn:H; [|done]. intros [= <-]. by apply arr_of_Some. Qed.

Lemma copy_from_slice_not_Err {E} n b (e : E) : copy_from_slice n b <> Err e.
Proof. unfold copy_from_slice. by case_match. Qed.

Lemma copy_from_slice_no_panic {E} n (b : bytes) :
  length b = n -> copy_from_slice (E:=E) n b <> Panic.
Proof. intros (a & Ha & _)%arr_of_len. unfold copy_from_slice. by rewrite Ha. Qed.

Lemma copy_from_slice_len {E} n (b : bytes) :
  length b = n -> exists a, copy_from_slice (E:=E) n b = Ok a /\ arr_bytes a = b.
Proof. intros (a & Ha & Hb)%arr_of_len. exists a. unfold copy_from_slice. by rewrite Ha. Qed.

(** The array of [n] copies of a byte, for concrete inputs. *)
Definition arr_fill (n : nat) (b : byte) : arr n :=
  Arr (replicate n b) (canon (Is_true_true_2 _ (proj2 (Nat.eqb_eq _ _) (length_replicate n b)))).

#[export] Hint Rewrite @length_arr : rust.
#[export] Hint Resolve slice_no_panic slice_from_no_panic index_no_panic copy_from_slice_no_panic : rust.

(** Show that a chain of [let?] and [guard] never panics: every partial operation is in
    range because of the guards before it. *)
Ltac no_panic_side :=
  bools; repeat match goal with
  | H : slice _ _ _ = Ok _ |- _ => apply slice_Ok in H as [? ?]; subst
  | H : slice_from _ _ = Ok _ |- _ => apply slice_from_Ok in H as [? ?]; subst
  end; rewrite ?length_take, ?length_drop, ?length_app, ?length_arr; first [lia | cbn in *; lia].

Ltac no_panic :=
  repeat match goal with
  | |- rbind _ _ <> Panic => apply rbind_no_panic; [|intros ? ?]
  | |- (if ?b then _ else _) <> Panic => destruct b eqn:?
  | |- Ok _ <> Panic => discriminate
  | |- Err _ <> Panic => discriminate
  | |- (let '(_, _) := ?x in _) <> Panic => destruct x
  | |- slice _ _ _ <> Panic => apply slice_no_panic; no_panic_side
  | |- slice_from _ _ <> Panic => apply slice_from_no_panic; no_panic_side
  | |- index _ _ <> Panic => apply index_no_panic; no_panic_side
  | |- copy_from_slice _ _ <> Panic => apply copy_from_slice_no_panic; no_panic_side
  | |- _ => solve [auto with rust]
  end.

(** * Comparison without early exit *)

Lemma lor_xor_acc l acc :
  0 <= acc ->
  fold_left (fun diff p => Z.lor diff (Z.lxor (byte_to_Z p.1) (byte_to_Z p.2))) l acc = 0 <->
  acc = 0 /\ Forall (fun p => p.1 = p.2) l.
Proof.
  revert acc; induction l as [|[x y] l IH]; intros acc Ha; cbn [fold_left fst snd]; [naive_solver|].
  assert (Hx : 0 <= Z.lxor (byte_to_Z x) (byte_to_Z y)).
  { apply Z.lxor_nonneg. pose proof (byte_to_Z_range x). pose proof (byte_to_Z_range y). lia. }
  rewrite IH by (apply Z.lor_nonneg; lia). rewrite Z.lor_eq_0_iff, Z.lxor_eq_0_iff, Forall_cons. cbn.
  split; [intros [[? ?%(inj byte_to_Z)] ?]|intros (? & ? & ?)]; naive_solver.
Qed.

Lemma zip_all_eq {T} (a b : list T) : length a = length b -> Forall (fun p => p.1 = p.2) (zip a b) <-> a = b.
Proof.
  revert b; induction a as [|x a IH]; intros [|y b] Hl; try discriminate Hl; cbn; [naive_solver|].
  injection Hl as Hl. rewrite Forall_cons, IH by done. cbn. naive_solver.
Qed.

Lemma ct_compare a b :
  (if negb (length a =? length b)%nat then false
   else fold_left (fun diff p => Z.lor diff (Z.lxor (byte_to_Z p.1) (byte_to_Z p.2))) (zip a b) 0 =? 0)
  = bool_decide (a = b).
Proof.
  destruct (Nat.eqb_spec (length a) (length b)) as [Hl|Hl]; cbn [negb].
  - apply eq_true_iff_eq. rewrite Z.eqb_eq, bool_decide_eq_true, lor_xor_acc, zip_all_eq by (done || lia). naive_solver.
  - rewrite bool_decide_false; [done|congruence].
Qed.

(** * Shift registers *)

(** The value of a list of digits in base [2^k], most significant first. *)
Definition radix_val (k : Z) (vs : list Z) : Z := fold_left (fun a v => a * 2 ^ k + v) vs 0.

Lemma radix_val_snoc k vs v : radix_val k (vs ++ [v]) = radix_val k vs * 2 ^ k + v.
Proof. unfold radix_val. by rewrite fold_left_app. Qed.

Lemma lor_low a b k : 0 <= k -> 0 <= b < 2 ^ k -> Z.lor (a * 2 ^ k) b = a * 2 ^ k + b.
Proof.
  intros Hk Hb. rewrite <- Z.shiftl_mul_pow2 by lia. symmetry. rewrite Z.add_nocarry_lxor, Z.lxor_lor; [done|..];
    apply Z.bits_inj'; intros n Hn; rewrite Z.land_spec, Z.bits_0;
    (destruct (Z.ltb_spec n k); [rewrite Z.shiftl_spec_low by done; done|]);
    assert (Hz : Z.testbit b n = false) by (rewrite <- (Z.mod_small b (2 ^ k)) by lia; apply Z.mod_pow2_bits_high; lia);
    rewrite Hz; apply andb_false_r.
Qed.

(** Pushing [k] bits into a 32-bit register that holds [bits] pending ones. *)
Lemma push_u32 buffer bits k b :
  0 <= bits -> 0 <= k -> bits + k <= 32 -> 0 <= b < 2 ^ k ->
  Z.lor (Z.shiftl buffer k mod 2 ^ 32) b mod 2 ^ (bits + k) = buffer mod 2 ^ bits * 2 ^ k + b.
Proof.
  intros Hb Hk H32 Hv. rewrite Z.shiftl_mul_pow2 by lia.
  replace (2 ^ 32) with (2 ^ (32 - k) * 2 ^ k) by (rewrite <- Z.pow_add_r by lia; f_equal; lia).
  assert (0 < 2 ^ (32 - k)) by (apply Z.pow_pos_nonneg; lia).
  rewrite Z.mul_mod_distr_r by lia. rewrite lor_low by lia.
  set (x := buffer mod 2 ^ (32 - k)). rewrite Z.pow_add_r, (Z.mul_comm (2 ^ bits)) by lia.
  assert (0 < 2 ^ bits) by (apply Z.pow_pos_nonneg; lia).
  rewrite Z.rem_mul_r by lia. rewrite Z.add_comm, (Z.mul_comm (2 ^ k)).
  rewrite Z.div_add_l, (Z.div_small b), Z.add_0_r by lia.
  rewrite (Z.add_comm (x * _)), Z.mod_add, (Z.mod_small b) by lia. do 2 f_equal. unfold x.
  replace (2 ^ (32 - k)) with (2 ^ bits * 2 ^ (32 - k - bits)) by (rewrite <- Z.pow_add_r by lia; f_equal; lia).
  assert (0 < 2 ^ (32 - k - bits)) by (apply Z.pow_pos_nonneg; lia).
  rewrite Z.rem_mul_r by lia. rewrite Z.mul_comm, Z.mod_add by lia. apply Z.mod_mod. lia.
Qed.

(** Taking the [k] oldest of [bits] pending bits. *)
Lemma pop_bits buffer bits k :
  0 <= k <= bits -> 
  buffer mod 2 ^ bits = (Z.shiftr buffer (bits - k) mod 2 ^ k) * 2 ^ (bits - k) + buffer mod 2 ^ (bits - k).
Proof.
  intros Hk. rewrite Z.shiftr_div_pow2 by lia.
  replace (2 ^ bits) with (2 ^ (bits - k) * 2 ^ k) by (rewrite <- Z.pow_add_r by lia; f_equal; lia).
  assert (0 < 2 ^ (bits - k)) by (apply Z.pow_pos_nonneg; lia). assert (0 < 2 ^ k) by (apply Z.pow_pos_nonneg; lia).
  rewrite Z.rem_mul_r by lia. lia.
Qed.
