(* ===== verification/Text.v ===== *)
(** Rust text: a [str] is a sequence of Unicode scalar values ([char]s, as integers),
    with the [str] and [char] methods the modelled code calls, and UTF-8 as the byte
    view behind [len], [as_bytes] and [as_bytes().chunks]. *)
From S2P Require Import Prelude Bytes.
From Stdlib Require Ascii Strings.String.
Local Open Scope Z_scope.

Abbreviation text := (list Z).

(** A string or char literal of the source (ASCII). *)
Definition lit (s : string) : text :=
  map (fun a => Z.of_N (Ascii.N_of_ascii a)) (String.list_ascii_of_string s).
Definition chr (s : string) : Z := default 0 (head (lit s)).

(** * Characters *)

(** [char::is_whitespace] (the Unicode [White_Space] property). *)
Definition is_whitespace (c : Z) : bool :=
  ((9 <=? c) && (c <=? 13)) || (c =? 32) || (c =? 133) || (c =? 160) || (c =? 5760)
  || ((8192 <=? c) && (c <=? 8202)) || (c =? 8232) || (c =? 8233) || (c =? 8239)
  || (c =? 8287) || (c =? 12288).

Definition is_ascii_digit (c : Z) : bool := (48 <=? c) && (c <=? 57).
Definition to_ascii_uppercase (c : Z) : Z := if (97 <=? c) && (c <=? 122) then c - 32 else c.
Definition to_ascii_lowercase (c : Z) : Z := if (65 <=? c) && (c <=? 90) then c + 32 else c.

(** * Strings *)

(** [str::trim]. *)
Fixpoint trim_start (s : text) : text :=
  match s with
  | c :: s' => if is_whitespace c then trim_start s' else s
  | [] => []
  end.
Definition trim_end (s : text) : text := reverse (trim_start (reverse s)).
Definition trim (s : text) : text := trim_end (trim_start s).

(** [str::eq_ignore_ascii_case]. *)
Definition eq_ignore_ascii_case (a b : text) : bool :=
  bool_decide (map to_ascii_lowercase a = map to_ascii_lowercase b).

(** [str::split(c)]: always at least one piece. *)
Fixpoint split (c : Z) (s : text) : list text :=
  match s with
  | [] => [[]]
  | x :: s =>
      if x =? c then [] :: split c s
      else match split c s with
           | p :: ps => (x :: p) :: ps
           | [] => [[x]]
           end
  end.

(** [str::split_once(c)]. *)
Fixpoint split_once (c : Z) (s : text) : option (text * text) :=
  match s with
  | [] => None
  | x :: s =>
      if x =? c then Some ([], s)
      else match split_once c s with
           | Some (a, b) => Some (x :: a, b)
           | None => None
           end
  end.

(** [str::strip_prefix], [str::starts_with]. *)
Fixpoint strip_prefix (p s : text) : option text :=
  match p, s with
  | [], _ => Some s
  | x :: p, y :: s => if x =? y then strip_prefix p s else None
  | _ :: _, [] => None
  end.
Definition starts_with (p s : text) : bool := bool_decide (is_Some (strip_prefix p s)).

(** [str::contains(char)]. *)
Definition contains (c : Z) (s : text) : bool := existsb (Z.eqb c) s.

(** [[&str]::join(sep)]. *)
Fixpoint join (sep : text) (l : list text) : text :=
  match l with
  | [] => []
  | [x] => x
  | x :: l => x ++ sep ++ join sep l
  end.

(** [str::parse::<uN>()] for an unsigned type of maximum [max]: an optional [+], then at
    least one digit and nothing else; out of range is an error. *)
Fixpoint digits_val (acc : Z) (s : text) : option Z :=
  match s with
  | [] => Some acc
  | c :: s => if is_ascii_digit c then digits_val (10 * acc + (c - 48)) s else None
  end.
Definition parse_unsigned (max : Z) (s : text) : option Z :=
  let ds := match s with 43 :: s' => s' | _ => s end in
  match ds with
  | [] => None
  | _ => match digits_val 0 ds with
         | Some v => if v <=? max then Some v else None
         | None => None
         end
  end.

(** [str::parse::<i64>()]. *)
Definition parse_i64 (s : text) : option Z :=
  match s with
  | 45 :: ds => match parse_unsigned (2 ^ 63) ds with
                | Some v => match ds with 43 :: _ => None | _ => Some (- v) end
                | None => None
                end
  | _ => parse_unsigned (2 ^ 63 - 1) s
  end.

(** [str::trim_matches(c)] for one character. *)
Fixpoint trim_start_char (c : Z) (s : text) : text :=
  match s with
  | x :: s' => if x =? c then trim_start_char c s' else s
  | [] => []
  end.
Definition trim_matches (c : Z) (s : text) : text :=
  reverse (trim_start_char c (reverse (trim_start_char c s))).

(** Decimal digits, least width [w], zero-padded: [format!("{:0w$}", n)]. *)
Fixpoint dec_digits (fuel : nat) (n : Z) : text :=
  match fuel with
  | O => []
  | S fuel => (if n <? 10 then [] else dec_digits fuel (n / 10)) ++ [48 + n mod 10]
  end.
Definition show_dec (n : Z) : text := dec_digits (S (Z.to_nat (Z.log2 n))) n.
Definition show_padded (w : nat) (n : Z) : text :=
  let s := show_dec n in replicate (w - length s)%nat 48 ++ s.

(** * UTF-8 *)

Definition utf8_char (c : Z) : bytes :=
  map byte_of_Z
    (if c <? 128 then [c]
     else if c <? 2048 then [192 + c / 64; 128 + c mod 64]
     else if c <? 65536 then [224 + c / 4096; 128 + (c / 64) mod 64; 128 + c mod 64]
     else [240 + c / 262144; 128 + (c / 4096) mod 64; 128 + (c / 64) mod 64; 128 + c mod 64]).

(** [str::as_bytes]. *)
Definition utf8 (s : text) : bytes := concat (map utf8_char s).

(** A [String] interpolated into an error message: its UTF-8 bytes. *)
Definition to_string (s : text) : string := String.string_of_list_byte (utf8 s).

Definition is_ascii (c : Z) : Prop := 0 <= c < 128.

Lemma utf8_ascii s : Forall is_ascii s -> utf8 s = map byte_of_Z s.
Proof.
  unfold utf8. induction 1 as [|c s Hc _ IH]; cbn; [done|]. unfold is_ascii in Hc.
  unfold utf8_char at 1. destruct (Z.ltb_spec c 128); [|lia]. cbn. by rewrite IH.
Qed.

Lemma utf8_app s t : utf8 (s ++ t) = utf8 s ++ utf8 t.
Proof. unfold utf8. by rewrite map_app, concat_app. Qed.

Lemma utf8_char_length c : (1 <= length (utf8_char c))%nat.
Proof. unfold utf8_char. rewrite length_map. repeat case_match; cbn; lia. Qed.

Lemma utf8_length s : (length s <= length (utf8 s))%nat.
Proof.
  unfold utf8. induction s as [|c s IH]; cbn; [lia|].
  rewrite length_app. pose proof (utf8_char_length c). lia.
Qed.

(** A Unicode code point. *)
Definition is_char (c : Z) : Prop := 0 <= c < 1114112.

(** A non-ASCII character starts with a byte an ASCII string does not have. *)
Lemma utf8_char_ascii c b l : is_char c -> utf8_char c = b :: l -> byte_to_Z b < 128 -> is_ascii c /\ l = [].
Proof.
  intros Hc H Hb. unfold is_char in Hc. unfold utf8_char in H. unfold is_ascii.
  destruct (Z.ltb_spec c 128).
  - cbn in H. injection H as _ <-. split; [lia|done].
  - exfalso. assert (Hlow : exists k, 192 <= k < 256 /\ b = byte_of_Z k).
    { repeat case_match; cbn in H; injection H as <- _; bools;
        eexists; (split; [|reflexivity]); Z.to_euclidean_division_equations; lia. }
    destruct Hlow as (k & Hk & ->). rewrite byte_to_of_Z, Z.mod_small in Hb; lia.
Qed.

Lemma utf8_ascii_inj s g : Forall is_char s -> Forall is_ascii g -> utf8 s = utf8 g -> s = g.
Proof.
  intros Hs Hg. rewrite (utf8_ascii g Hg). revert g Hg.
  induction Hs as [|c s Hc Hs IH]; intros [|x g]; intros Hg; cbn; [done|done| |].
  - pose proof (utf8_char_length c). destruct (utf8_char c); [cbn in *; lia|done].
  - apply Forall_cons in Hg as [Hx Hg]. unfold is_ascii in Hx.
    destruct (utf8_char c) as [|b l] eqn:E; [pose proof (utf8_char_length c); rewrite E in *; cbn in *; lia|].
    cbn. intros [= -> H]. destruct (utf8_char_ascii c _ l Hc E) as [Hca ->].
    { rewrite byte_to_of_Z, Z.mod_small; lia. }
    cbn in H. apply IH in H as ->; [|done]. f_equal. unfold is_ascii in Hca. unfold utf8_char in E.
    destruct (Z.ltb_spec c 128); [|lia]. cbn in E. injection E as E%(f_equal byte_to_Z).
    rewrite !byte_to_of_Z, !Z.mod_small in E; lia.
Qed.

(** * Facts about the string methods *)

Lemma split_not_nil c s : split c s <> [].
Proof. destruct s as [|x s]; cbn; [done|]. repeat case_match; done. Qed.

Lemma join_split c s : join [c] (split c s) = s.
Proof.
  induction s as [|x s IH]; cbn; [done|]. destruct (Z.eqb_spec x c) as [->|Hne].
  - destruct (split c s) eqn:E; [by destruct (split_not_nil c s)|]. cbn. cbn in IH. by rewrite <- IH.
  - destruct (split c s) as [|p ps] eqn:E; [by destruct (split_not_nil c s)|].
    rewrite <- IH. by destruct ps.
Qed.

Lemma split_pieces c s : Forall (fun p => c ∉ p) (split c s).
Proof.
  induction s as [|x s IH]; cbn.
  - constructor; [set_solver|constructor].
  - destruct (Z.eqb_spec x c) as [->|Hne].
    + constructor; [set_solver|done].
    + destruct (split c s) as [|p ps]; [constructor; [set_solver|constructor]|].
      apply Forall_cons in IH as [Hp Hps]. constructor; [set_solver|done].
Qed.

Lemma split_no_sep c p : c ∉ p -> split c p = [p].
Proof.
  induction p as [|x p IH]; intros H; cbn; [done|]. destruct (Z.eqb_spec x c); [set_solver|].
  by rewrite IH by set_solver.
Qed.

Lemma split_app c p s : c ∉ p -> split c (p ++ c :: s) = p :: split c s.
Proof.
  induction p as [|x p IH]; intros H; cbn; [by rewrite Z.eqb_refl|].
  destruct (Z.eqb_spec x c); [set_solver|]. by rewrite IH by set_solver.
Qed.

Lemma split_join c ps : ps <> [] -> Forall (fun p => c ∉ p) ps -> split c (join [c] ps) = ps.
Proof.
  intros Hne H. induction H as [|p ps Hp Hps IH]; [done|]. destruct ps as [|q ps].
  - by apply split_no_sep.
  - change (join [c] (p :: q :: ps)) with (p ++ c :: join [c] (q :: ps)). rewrite split_app by done. by rewrite IH.
Qed.

Lemma split_once_none c s : c ∉ s -> split_once c s = None.
Proof. induction s as [|x s IH]; [done|]. intros [Hx Hs]%not_elem_of_cons. cbn. rewrite (proj2 (Z.eqb_neq _ _)) by done. by rewrite IH. Qed.

Lemma split_once_app c s t : c ∉ s -> split_once c (s ++ c :: t) = Some (s, t).
Proof.
  induction s as [|x s IH]; intros Hs; cbn; [by rewrite Z.eqb_refl|]. apply not_elem_of_cons in Hs as [Hx Hs].
  rewrite (proj2 (Z.eqb_neq _ _)) by done. by rewrite IH.
Qed.

Lemma strip_prefix_Some p s t : strip_prefix p s = Some t <-> s = p ++ t.
Proof.
  revert s; induction p as [|x p IH]; intros s; cbn; [naive_solver|].
  destruct s as [|y s]; [naive_solver|]. destruct (Z.eqb_spec x y) as [->|Hne].
  - rewrite IH. naive_solver.
  - naive_solver.
Qed.

Lemma trim_start_idemp s : trim_start (trim_start s) = trim_start s.
Proof. induction s as [|c s IH]; cbn; [done|]. destruct (is_whitespace c) eqn:E; [done|]. cbn. by rewrite E. Qed.

Lemma trim_start_suffix s : exists w, s = w ++ trim_start s /\ Forall (fun c => is_whitespace c = true) w.
Proof.
  induction s as [|c s (w & IH & Hw)]; cbn; [by exists []|].
  destruct (is_whitespace c) eqn:E.
  - exists (c :: w). cbn. rewrite <- IH. auto.
  - by exists [].
Qed.

Lemma trim_start_head c s : trim_start (c :: s) = c :: s -> is_whitespace c = false.
Proof.
  cbn. destruct (is_whitespace c); [|done]. intros H. destruct (trim_start_suffix s) as (w & Hs & _). apply (f_equal length) in H, Hs.
  rewrite length_app in Hs. cbn in H. lia.
Qed.

Lemma trim_idemp s : trim (trim s) = trim s.
Proof.
  unfold trim. set (u := trim_start s). assert (Hu : trim_start u = u) by apply trim_start_idemp.
  assert (Hs : trim_start (trim_end u) = trim_end u).
  { destruct (trim_start_suffix (reverse u)) as (w & Hw & _). apply (f_equal reverse) in Hw. rewrite reverse_involutive, reverse_app in Hw.
    fold (trim_end u) in Hw. destruct (trim_end u) as [|c r]; [done|]. rewrite Hw in Hu. cbn [app] in Hu. apply trim_start_head in Hu.
    cbn. by rewrite Hu. }
  rewrite Hs. unfold trim_end. by rewrite reverse_involutive, trim_start_idemp.
Qed.

Lemma trim_start_Forall P s : Forall P s -> Forall P (trim_start s).
Proof. induction 1 as [|c s Hc Hs IH]; cbn; [constructor|]. case_match; auto. Qed.

Lemma trim_Forall P s : Forall P s -> Forall P (trim s).
Proof. intros H. unfold trim, trim_end. by apply Forall_reverse, trim_start_Forall, Forall_reverse, trim_start_Forall. Qed.

(** * Decimal round trip *)

Lemma digits_val_app s t acc v : digits_val acc s = Some v -> digits_val acc (s ++ t) = digits_val v t.
Proof.
  revert acc; induction s as [|c s IH]; intros acc; cbn; [congruence|]. destruct (is_ascii_digit c); [apply IH|done].
Qed.

Lemma dec_digits_val fuel n : 0 <= n < 10 ^ Z.of_nat fuel -> digits_val 0 (dec_digits fuel n) = Some n.
Proof.
  revert n; induction fuel as [|fuel IH]; intros n Hn; [cbn; f_equal; lia|].
  rewrite Nat2Z.inj_succ, Z.pow_succ_r in Hn by lia. cbn [dec_digits].
  assert (Hd : forall acc, 0 <= acc -> n = 10 * acc + n mod 10 -> digits_val acc [48 + n mod 10] = Some n).
  { intros acc Ha E. cbn. unfold is_ascii_digit. pose proof (Z.mod_pos_bound n 10).
    rewrite !(proj2 (Z.leb_le _ _)) by lia. cbn. f_equal. lia. }
  destruct (Z.ltb_spec n 10).
  - apply Hd; [lia|]. rewrite Z.mod_small; lia.
  - rewrite (digits_val_app _ _ _ (n / 10)).
    + apply Hd; [apply Z.div_pos; lia|]. pose proof (Z.div_mod n 10). lia.
    + apply IH. split; [apply Z.div_pos; lia|]. apply Z.div_lt_upper_bound; lia.
Qed.

Lemma show_dec_val n : 0 <= n -> digits_val 0 (show_dec n) = Some n.
Proof.
  intros Hn. apply dec_digits_val. split; [done|]. rewrite Nat2Z.inj_succ, Z2Nat.id by apply Z.log2_nonneg.
  destruct (Z.eq_dec n 0) as [->|]; [done|].
  eapply Z.lt_le_trans; [apply Z.log2_spec; lia|]. apply Z.pow_le_mono_l. lia.
Qed.

Lemma dec_digits_digits fuel n : 0 <= n -> Forall (fun c => 48 <= c <= 57) (dec_digits fuel n).
Proof.
  revert n; induction fuel as [|fuel IH]; intros n Hn; cbn; [constructor|].
  apply Forall_app. split.
  - destruct (n <? 10); [constructor|]. apply IH. apply Z.div_pos; lia.
  - constructor; [|constructor]. pose proof (Z.mod_pos_bound n 10). lia.
Qed.

Lemma trim_matches_quoted c s :
  (forall x, head s = Some x -> x <> c) -> (forall x, last s = Some x -> x <> c) ->
  trim_matches c (c :: s ++ [c]) = s.
Proof.
  intros Hh Hl. unfold trim_matches. cbn [trim_start_char]. rewrite Z.eqb_refl.
  destruct s as [|x s].
  - cbn. by rewrite Z.eqb_refl.
  - cbn [app trim_start_char]. rewrite (proj2 (Z.eqb_neq x c)) by (by apply Hh).
    change (x :: s ++ [c]) with ((x :: s) ++ [c]). rewrite reverse_snoc. cbn [trim_start_char]. rewrite Z.eqb_refl.
    remember (reverse (x :: s)) as r eqn:E. assert (Er : reverse r = x :: s) by (subst r; apply reverse_involutive).
    destruct r as [|y r]; [done|]. cbn [trim_start_char]. rewrite (proj2 (Z.eqb_neq y c)); [done|].
    apply Hl. rewrite <- Er, reverse_cons. apply last_snoc.
Qed.

(** [Display] of an [i64]. *)
Definition show_i64 (z : Z) : text := if z <? 0 then 45 :: show_dec (- z) else show_dec z.

Lemma show_dec_cons n : exists c s, show_dec n = c :: s.
Proof. unfold show_dec. cbn [dec_digits]. destruct (if n <? 10 then _ else _); cbn; eauto. Qed.

Lemma show_dec_digits n : 0 <= n -> Forall (fun c => 48 <= c <= 57) (show_dec n).
Proof. intros H. by apply dec_digits_digits. Qed.

Lemma show_dec_printable n : 0 <= n -> Forall (fun c => 33 <= c <= 126) (show_dec n).
Proof. intros Hn. eapply Forall_impl; [by apply show_dec_digits|]. cbn. lia. Qed.

Lemma parse_unsigned_show_dec max n :
  0 <= n -> parse_unsigned max (show_dec n) = if n <=? max then Some n else None.
Proof.
  intros Hn. pose proof (show_dec_val n Hn) as Hv. pose proof (show_dec_digits n Hn) as Hd.
  destruct (show_dec_cons n) as (c & s & E). rewrite E in *. apply Forall_cons in Hd as [Hc _].
  unfold parse_unsigned.
  assert (match c :: s with 43 :: s' => s' | _ => c :: s end = c :: s) as Es.
  { assert (c ∈ [48; 49; 50; 51; 52; 53; 54; 55; 56; 57]) as Hin by (rewrite !elem_of_cons; lia).
    rewrite !elem_of_cons in Hin. destruct_or! Hin; subst; try done. by apply not_elem_of_nil in Hin. }
  by rewrite Es, Hv.
Qed.

Lemma parse_unsigned_show max n m : 0 <= n -> parse_unsigned max (show_dec n) = Some m -> m = n.
Proof. intros Hn. rewrite parse_unsigned_show_dec by done. destruct (n <=? max); congruence. Qed.

(** What is read back is what was printed. *)
Lemma parse_i64_show_i64 z m : parse_i64 (show_i64 z) = Some m -> m = z.
Proof.
  unfold show_i64. destruct (Z.ltb_spec z 0).
  - unfold parse_i64. destruct (parse_unsigned _ (show_dec (- z))) as [v|] eqn:E; [|done].
    apply parse_unsigned_show in E; [|lia]. destruct (show_dec_cons (- z)) as (c & s & ->).
    intros Hm. assert (m = - v); [|lia]. clear E. repeat (case_match; try done); by injection Hm as <-.
  - destruct (show_dec_cons z) as (c & s & E). pose proof (show_dec_digits z ltac:(lia)) as Hd.
    intros Hm. apply (parse_unsigned_show (2 ^ 63 - 1)); [lia|]. rewrite <- Hm. rewrite E in *.
    apply Forall_cons in Hd as [Hc _]. unfold parse_i64.
    assert (c ∈ [48; 49; 50; 51; 52; 53; 54; 55; 56; 57]) as Hin by (rewrite !elem_of_cons; lia).
    rewrite !elem_of_cons in Hin. destruct_or! Hin; subst; try done. by apply not_elem_of_nil in Hin.
Qed.

Lemma show_i64_chars z : Forall (fun c => c = 45 \/ 48 <= c <= 57) (show_i64 z).
Proof.
  unfold show_i64. destruct (Z.ltb_spec z 0).
  - constructor; [by left|]. eapply Forall_impl; [apply show_dec_digits; lia|]. cbn. lia.
  - eapply Forall_impl; [apply show_dec_digits; lia|]. cbn. lia.
Qed.

Lemma trim_matches_show_i64 c z : c <> 45 -> ~ (48 <= c <= 57) -> trim_matches c (c :: show_i64 z ++ [c]) = show_i64 z.
Proof.
  intros H1 H2. pose proof (show_i64_chars z) as H. rewrite Forall_forall in H.
  apply trim_matches_quoted; intros x Hx ->.
  - destruct (show_i64 z) as [|y s]; [done|]. injection Hx as ->. specialize (H c). destruct H; [by left|done..].
  - apply last_Some_elem_of in Hx. specialize (H c Hx). destruct H; done.
Qed.

Lemma trim_printable s : Forall (fun c => 33 <= c <= 126) s -> trim s = s.
Proof.
  assert (Hw : forall c, 33 <= c <= 126 -> is_whitespace c = false).
  { intros c Hc. unfold is_whitespace. repeat (rewrite orb_false_iff; split); bools; lia. }
  assert (Hs : forall s, Forall (fun c => 33 <= c <= 126) s -> trim_start s = s).
  { intros s0 [|c s1 Hc _]; cbn; [done|]. by rewrite Hw. }
  intros H. unfold trim, trim_end. rewrite (Hs s) by done. rewrite Hs by (by apply Forall_reverse). apply reverse_involutive.
Qed.
