(* ===== verification/Crypto.v ===== *)
(** [crates/core/src/error.rs] and [crates/core/src/crypto]: the crate's error type, the
    key and nonce types, the one AEAD every blob of the program goes through, the HKDF
    purpose labels and the Argon2id cost profiles.

    The primitives themselves (XChaCha20-Poly1305, HKDF-SHA256, Argon2id, SHA-256, HMAC)
    are crates outside the repository: they are the fields of [CryptoPrims], and
    [CryptoLaws] states the documented behaviour of the AEAD that the theorems use. Every
    random draw ([OsRng]) is an argument of the function that makes it. *)
From S2P Require Import Prelude Bytes Text.
Local Open Scope Z_scope.

(** * [CoreError] *)

Inductive CoreError : Type :=
| Decrypt
| Format (what : string) (detail : string)
| InvalidRecoveryKey
| Unauthorized (why : string)
| NotFound (what : string)
| State (why : string)
| Provision (stage : string) (detail : string)
| Invalid (why : string)
| Io (why : string)
| Serde (why : string)
| Storage (why : string)
| Network (why : string).

#[export] Instance CoreError_eq_dec : EqDecision CoreError.
Proof. solve_decision. Defined.

(** The [Display] text ([thiserror]'s [#[error]] attributes). *)
Definition display (e : CoreError) : string :=
  match e with
  | Decrypt => "decryption failed (wrong key or corrupted data)"
  | Format what detail => "malformed " +:+ what +:+ ": " +:+ detail
  | InvalidRecoveryKey => "invalid recovery key"
  | Unauthorized why => "key unwrap was not authorized: " +:+ why
  | NotFound what => "not found: " +:+ what
  | State why => "invalid state: " +:+ why
  | Provision stage detail => "provisioning failed at " +:+ stage +:+ ": " +:+ detail
  | Invalid why => "invalid input: " +:+ why
  | Io why => "io error: " +:+ why
  | Serde why => "serialization error: " +:+ why
  | Storage why => "storage error: " +:+ why
  | Network why => "network error: " +:+ why
  end.

Abbreviation Result A := (result A CoreError).

(** * Keys and nonces *)

Abbreviation Key32 := (arr 32).
Abbreviation Nonce24 := (arr 24).

(** * The third-party primitives *)

Class CryptoPrims : Type := {
  (** XChaCha20-Poly1305: key, nonce, associated data, message. *)
  aead_encrypt : Key32 -> Nonce24 -> bytes -> bytes -> bytes;
  aead_decrypt : Key32 -> Nonce24 -> bytes -> bytes -> option bytes;
  (** HKDF-SHA256 expanded to 32 bytes: input keying material, salt, info. *)
  hkdf_sha256 : bytes -> option bytes -> bytes -> Key32;
  (** Argon2id v0x13 with (memory KiB, iterations, parallelism), 32 bytes out. *)
  argon2id : Z * Z * Z -> bytes -> arr 16 -> Key32;
  sha256 : bytes -> arr 32;
  hmac_sha256 : bytes -> bytes -> arr 32;
}.

(** What the AEAD crate documents: decryption inverts encryption, the ciphertext is the
    message plus a 16-byte tag, and decryption only ever accepts a ciphertext that
    encryption of the decrypted message produces (the tag is recomputed and compared). *)
Class CryptoLaws (P : CryptoPrims) : Prop := {
  aead_dec_enc k n ad m : aead_decrypt k n ad (aead_encrypt k n ad m) = Some m;
  aead_len k n ad m : length (aead_encrypt k n ad m) = (length m + 16)%nat;
  aead_tidy k n ad c m : aead_decrypt k n ad c = Some m -> c = aead_encrypt k n ad m;
}.

(** * [crypto/kdf.rs] *)

Module Info.
Inductive t : Type :=
| WrapPlatform | WrapPhoneShare | WrapRecovery | VaultItem | VaultOuter
| PairChannelDesktopToPhone | PairChannelPhoneToDesktop | Export | FileTransfer | AuthLogin.

#[global] Instance eq_dec : EqDecision t.
Proof. solve_decision. Defined.

Definition as_str (i : t) : string :=
  match i with
  | WrapPlatform => "sentinel/v1/wrap/platform"
  | WrapPhoneShare => "sentinel/v1/wrap/phone-share"
  | WrapRecovery => "sentinel/v1/wrap/recovery"
  | VaultItem => "sentinel/v1/vault/item"
  | VaultOuter => "sentinel/v1/vault/outer"
  | PairChannelDesktopToPhone => "sentinel/v1/pair/chan/desktop->phone"
  | PairChannelPhoneToDesktop => "sentinel/v1/pair/chan/phone->desktop"
  | Export => "sentinel/v1/export"
  | FileTransfer => "sentinel/v1/file/blob"
  | AuthLogin => "sentinel/v1/auth/login"
  end.

Definition info_bytes (i : t) : bytes := utf8 (lit (as_str i)).

(** No label is a prefix of another one, so no two purposes share an HKDF info. *)
Lemma info_bytes_prefix_free i j : info_bytes i `prefix_of` info_bytes j -> i = j.
Proof.
  intros H. apply (bool_decide_pack _) in H.
  destruct i, j; solve [reflexivity | vm_compute in H; destruct H].
Qed.
End Info.

Module Argon2Profile.
Inductive t : Type := Production | Test.

Definition PRODUCTION : Z * Z * Z := (65536, 3, 4).
Definition TEST : Z * Z * Z := (8192, 1, 1).

Definition params (p : t) : Z * Z * Z :=
  match p with Production => PRODUCTION | Test => TEST end.

(** [env] is [SENTINEL_ARGON2_PROFILE]; [live_release] is the [cfg!] of a release build
    with a live feature. *)
Definition from_env_or_production (env : option string) (live_release : bool) : Result t :=
  if decide (env = Some "test") then
    if live_release then Panic else Ok Test
  else Ok Production.

(** A live release build never selects the weak profile: it runs on the production
    parameters or does not run. *)
Lemma live_release_is_production env p :
  from_env_or_production env true = Ok p -> params p = (65536, 3, 4).
Proof. unfold from_env_or_production. case_decide; by intros [= <-]. Qed.
End Argon2Profile.

(** * [crypto/mod.rs] and the derivations of [crypto/kdf.rs] *)

Module crypto.
Section crypto.
Context {P : CryptoPrims}.

Definition hkdf32 (ikm : bytes) (salt : option bytes) (info : Info.t) : Key32 :=
  hkdf_sha256 ikm salt (Info.info_bytes info).

Definition argon2id_kek (secret : bytes) (salt : arr 16) (profile : Argon2Profile.t) : Key32 :=
  argon2id (Argon2Profile.params profile) secret salt.

(** [nonce] is the fresh random nonce of the call. *)
Definition seal (nonce : Nonce24) (key : Key32) (aad plaintext : bytes) : Nonce24 * bytes :=
  (nonce, aead_encrypt key nonce aad plaintext).

Definition open (key : Key32) (aad : bytes) (nonce : Nonce24) (ciphertext : bytes) : Result bytes :=
  match aead_decrypt key nonce aad ciphertext with
  | Some pt => Ok pt
  | None => Err Decrypt
  end.

(** An AEAD forgery: a ciphertext made under one key and associated data is accepted
    under another key or associated data. A theorem that concludes with [forgery] is a
    reduction: the code accepts a wrong input only where the cipher itself is broken. *)
Definition forgery (k : Key32) (n : Nonce24) (ad : bytes) (k' : Key32) (n' : Nonce24) (ad' m : bytes) : Prop :=
  (k <> k' \/ n <> n' \/ ad <> ad') /\ is_Some (aead_decrypt k' n' ad' (aead_encrypt k n ad m)).

Lemma open_no_panic key aad nonce ct : open key aad nonce ct <> Panic.
Proof. unfold open. by case_match. Qed.

Lemma open_err key aad nonce ct e : open key aad nonce ct = Err e -> e = Decrypt.
Proof. unfold open. case_match; congruence. Qed.

Lemma open_Ok key aad nonce ct pt :
  open key aad nonce ct = Ok pt <-> aead_decrypt key nonce aad ct = Some pt.
Proof. unfold open. case_match; naive_solver congruence. Qed.

Context {L : CryptoLaws P}.

Lemma open_enc key aad nonce pt : open key aad nonce (aead_encrypt key nonce aad pt) = Ok pt.
Proof. apply open_Ok, aead_dec_enc. Qed.
End crypto.
End crypto.

#[export] Hint Resolve crypto.open_no_panic : rust.
