(* ===== verification/Floats.v ===== *)
(** [f64]: IEEE 754 binary64 as the Standard Library specifies it, without primitive floats, and
    the handful of operations the modelled code uses. *)
From S2P Require Import Prelude.
From Stdlib Require Import Floats.SpecFloat.
Local Open Scope Z_scope.

Abbreviation f64 := spec_float.

Module F64.
Definition prec : Z := 53.
Definition emax : Z := 1024.

Definition add (x y : f64) : f64 := SFadd prec emax x y.
Definition sub (x y : f64) : f64 := SFsub prec emax x y.
Definition mul (x y : f64) : f64 := SFmul prec emax x y.
Definition div (x y : f64) : f64 := SFdiv prec emax x y.
Definition ltb (x y : f64) : bool := SFltb x y.
Definition leb (x y : f64) : bool := SFleb x y.

(** [n as f64]: rounded to nearest, ties to even. *)
Definition of_Z (n : Z) : f64 := binary_normalize prec emax n 0 false.

(** A decimal literal [n / 10^k] of at most 15 digits: both parts are exact, so the quotient is
    the correctly rounded literal. *)
Definition dec (n : Z) (k : Z) : f64 := div (of_Z n) (of_Z (10 ^ k)).

Definition zero : f64 := S754_zero false.
End F64.

#[global] Instance f64_eq_dec : EqDecision f64.
Proof. solve_decision. Defined.
