(* ===== verification/Value.v ===== *)
(** [serde_json::Value] and what the code reads of it: indexing, the [as_*] accessors, and the
    derived [Deserialize] of plain structs. An object is its list of entries; lookups take the
    first, and insertion replaces, as in the crate's map. *)
From S2P Require Import Prelude Bytes Text Floats.
Local Open Scope Z_scope.

(** A number is an integer or a [f64], as the crate keeps it. *)
Inductive Value : Type :=
| Null
| Bool (b : bool)
| Int (z : Z)
| Float (f : f64)
| Str (s : text)
| Arr (l : list Value)
| Obj (l : list (text * Value)).

Module Js.
Fixpoint assoc {A} (k : text) (l : list (text * A)) : option A :=
  match l with
  | [] => None
  | (k', v) :: l => if bool_decide (k' = k) then Some v else assoc k l
  end.

(** [Map::insert]. *)
Fixpoint assoc_insert {A} (k : text) (v : A) (l : list (text * A)) : list (text * A) :=
  match l with
  | [] => [(k, v)]
  | (k', v') :: l => if bool_decide (k' = k) then (k, v) :: l else (k', v') :: assoc_insert k v l
  end.

(** [v.get(k)]; [v[k]] is [Null] when there is none. *)
Definition get (k : text) (v : Value) : option Value := match v with Obj l => assoc k l | _ => None end.
Definition ix (v : Value) (k : string) : Value := default Null (get (lit k) v).
(** [v[i]] on arrays. *)
Definition at_ (v : Value) (i : nat) : Value := match v with Arr l => default Null (l !! i) | _ => Null end.

Definition as_str (v : Value) : option text := match v with Str s => Some s | _ => None end.
Definition as_bool (v : Value) : option bool := match v with Bool b => Some b | _ => None end.
Definition as_array (v : Value) : option (list Value) := match v with Arr l => Some l | _ => None end.
Definition as_object (v : Value) : option (list (text * Value)) := match v with Obj l => Some l | _ => None end.
Definition as_i64 (v : Value) : option Z :=
  match v with Int z => if (- 2 ^ 63 <=? z) && (z <? 2 ^ 63) then Some z else None | _ => None end.
Definition as_u64 (v : Value) : option Z :=
  match v with Int z => if (0 <=? z) && (z <? 2 ^ 64) then Some z else None | _ => None end.
Definition as_f64 (v : Value) : option f64 :=
  match v with Int z => Some (F64.of_Z z) | Float f => Some f | _ => None end.
Definition is_null (v : Value) : bool := match v with Null => true | _ => false end.

(** A derived struct reads an object by field names, unknown ones ignored, or an array by position,
    no longer than the fields. *)
Definition struct_fields (names : list string) (v : Value) : option (list (option Value)) :=
  match v with
  | Obj l => Some (map (fun n => assoc (lit n) l) names)
  | Arr l => if (length l <=? length names)%nat
             then Some (map Some l ++ replicate (length names - length l) None) else None
  | _ => None
  end.

(** A field [String], one with [#[serde(default)]], an [Option<String>] and a [Vec<String>]. *)
Definition str (f : option Value) : option text := f ≫= as_str.
Definition str_default (f : option Value) : option text := match f with None => Some [] | Some v => as_str v end.
Definition str_option (f : option Value) : option (option text) :=
  match f with None | Some Null => Some None | Some v => Some <$> as_str v end.
Definition strs_of (v : Value) : option (list text) := as_array v ≫= mapM as_str.
Definition strs (f : option Value) : option (list text) := f ≫= strs_of.
Definition strs_default (f : option Value) : option (list text) := match f with None => Some [] | Some v => strs_of v end.

(** [json!({...})]. *)
Definition obj (l : list (string * Value)) : Value := Obj (map (fun p => (lit p.1, p.2)) l).
Definition opt_str (o : option text) : Value := match o with Some s => Str s | None => Null end.
End Js.

Lemma assoc_insert_eq {A} k (v : A) l : Js.assoc k (Js.assoc_insert k v l) = Some v.
Proof.
  induction l as [|[k' v'] l IH]; cbn; [by rewrite bool_decide_true|].
  case_bool_decide as E; cbn; [by rewrite bool_decide_true|]. by rewrite bool_decide_false.
Qed.

Lemma assoc_insert_ne {A} k k' (v : A) l : k <> k' -> Js.assoc k (Js.assoc_insert k' v l) = Js.assoc k l.
Proof.
  intros Hne. induction l as [|[k1 v1] l IH]; cbn; [by rewrite bool_decide_false|].
  case_bool_decide as E; cbn; [subst; by rewrite !bool_decide_false|]. by rewrite IH.
Qed.
