(* ===== verification/Totp.v ===== *)
(** [crates/core/src/totp.rs]: one-time codes for vault items (RFC 6238) and for the app lock:
    base32, [otpauth://] parsing, the code of a time and its verification. HMAC and the URL
    parser are parameters. Arithmetic overflow panics, as in a checked build. *)
From S2P Require Import Prelude Bytes Text Crypto.
Local Open Scope Z_scope.

(** The HMACs of the [hmac], [sha1] and [sha2] crates. *)
Class TotpHmac : Type := {
  hmac_sha1 : bytes -> bytes -> arr 20;
  hmac_sha2_256 : bytes -> bytes -> arr 32;
  hmac_sha2_512 : bytes -> bytes -> arr 64;
}.

(** [url::Url::parse] followed by [query_pairs()]. *)
Class QueryPairs : Type := { query_pairs : text -> option (list (text * text)) }.

Module TotpAlgo.
Inductive t : Type := Sha1 | Sha256 | Sha512.
End TotpAlgo.

Module Base32.
Definition ALPHABET : text := lit "ABCDEFGHIJKLMNOPQRSTUVWXYZ234567".

(** [while bits >= 5]: emit the five bits below position [bits]. *)
Fixpoint emit {E} (fuel : nat) (buffer bits : Z) (out : text) : result (Z * text) E :=
  match fuel with
  | O => Ok (bits, out)
  | S fuel =>
      if 5 <=? bits then
        let bits := bits - 5 in
        let? c := index ALPHABET (Z.to_nat (Z.land (Z.shiftr buffer bits) 31)) in
        emit fuel buffer bits (out ++ [c])
      else Ok (bits, out)
  end.

(** The buffer is a [u32]: the shift drops high bits. *)
Fixpoint encode_loop {E} (data : bytes) (buffer bits : Z) (out : text) : result (Z * Z * text) E :=
  match data with
  | [] => Ok (buffer, bits, out)
  | b :: data =>
      let buffer := Z.lor (Z.shiftl buffer 8 mod 2 ^ 32) (byte_to_Z b) in
      let? (bits, out) := emit 2 buffer (bits + 8) out in
      encode_loop data buffer bits out
  end.

Definition base32_encode {E} (data : bytes) : result text E :=
  let? (buffer, bits, out) := encode_loop data 0 0 [] in
  if 0 <? bits then
    let? c := index ALPHABET (Z.to_nat (Z.land (Z.shiftl buffer (5 - bits) mod 2 ^ 32) 31)) in
    Ok (out ++ [c])
  else Ok out.

Fixpoint decode_loop (s : text) (buf bits : Z) (out : bytes) : result bytes CoreError :=
  match s with
  | [] => Ok out
  | c :: s =>
      let up := to_ascii_uppercase c in
      let? val := ok_or (fst <$> list_find (fun x => x = up) ALPHABET) (Invalid "invalid base32 in TOTP secret") in
      let buf := Z.lor (Z.shiftl buf 5 mod 2 ^ 32) (Z.of_nat val) in
      let bits := bits + 5 in
      if 8 <=? bits then decode_loop s buf (bits - 8) (out ++ [byte_of_Z (Z.shiftr buf (bits - 8))])
      else decode_loop s buf bits out
  end.

Definition significant (c : Z) : bool := negb (c =? chr "=") && negb (is_whitespace c).

Definition base32_decode (s : text) : result bytes CoreError :=
  let? out := decode_loop (List.filter significant s) 0 0 [] in
  if bool_decide (out = []) then Err (Invalid "empty TOTP secret") else Ok out.
End Base32.

Module TotpSecret.
Record t : Type := MkTotpSecret { raw : bytes; algo : TotpAlgo.t; digits : Z; period : Z }.

(** The loop over the query's parameters. *)
Fixpoint read_params (ps : list (text * text)) (secret : option bytes) (a : TotpAlgo.t) (d p : Z)
    : result (option bytes * TotpAlgo.t * Z * Z) CoreError :=
  match ps with
  | [] => Ok (secret, a, d, p)
  | (k, v) :: ps =>
      if bool_decide (k = lit "secret") then
        let? b := Base32.base32_decode v in read_params ps (Some b) a d p
      else if bool_decide (k = lit "algorithm") then
        let up := map to_ascii_uppercase v in
        let a := if bool_decide (up = lit "SHA256") then TotpAlgo.Sha256
                 else if bool_decide (up = lit "SHA512") then TotpAlgo.Sha512 else TotpAlgo.Sha1 in
        read_params ps secret a d p
      else if bool_decide (k = lit "digits") then
        read_params ps secret a (default 6 (parse_unsigned 255 v)) p
      else if bool_decide (k = lit "period") then
        read_params ps secret a d (default 30 (parse_unsigned (2 ^ 32 - 1) v))
      else read_params ps secret a d p
  end.

Section ops.
Context {H : TotpHmac} {Q : QueryPairs}.

Definition parse_uri (uri : text) : result t CoreError :=
  let? pairs := ok_or (query_pairs uri) (Invalid "bad otpauth uri") in
  let? (secret, a, d, p) := read_params pairs None TotpAlgo.Sha1 6 30 in
  let? raw := ok_or secret (Invalid "otpauth uri missing secret") in
  Ok (MkTotpSecret raw a d p).

Definition parse (input : text) : result t CoreError :=
  if starts_with (lit "otpauth://") input then parse_uri input
  else let? raw := Base32.base32_decode input in Ok (MkTotpSecret raw TotpAlgo.Sha1 6 30).

Definition hmac (self : t) (msg : bytes) : bytes :=
  match algo self with
  | TotpAlgo.Sha1 => hmac_sha1 (raw self) msg
  | TotpAlgo.Sha256 => hmac_sha2_256 (raw self) msg
  | TotpAlgo.Sha512 => hmac_sha2_512 (raw self) msg
  end.

(** Dynamic truncation. *)
Definition truncate {E} (digest : bytes) : result Z E :=
  let? last := index digest (length digest - 1) in
  let offset := Z.to_nat (Z.land (byte_to_Z last) 15) in
  let? d0 := index digest offset in
  let? d1 := index digest (offset + 1) in
  let? d2 := index digest (offset + 2) in
  let? d3 := index digest (offset + 3) in
  Ok (Z.lor (Z.lor (Z.lor (Z.shiftl (Z.land (byte_to_Z d0) 127) 24) (Z.shiftl (byte_to_Z d1) 16))
               (Z.shiftl (byte_to_Z d2) 8)) (byte_to_Z d3)).

(** [unix / period] by zero and [10u32.pow(digits)] past 32 bits panic. *)
Definition code_at (self : t) (unix : Z) : result text CoreError :=
  guard negb (period self =? 0) else Panic in
  let counter := unix / period self in
  let digest := hmac self (be_bytes 8 counter) in
  let? bin := truncate digest in
  guard 10 ^ digits self <? 2 ^ 32 else Panic in
  Ok (show_padded (Z.to_nat (digits self)) (bin mod 10 ^ digits self)).

Definition remaining_ms (self : t) (unix_ms : Z) : result Z CoreError :=
  let period_ms := period self * 1000 in
  guard negb (period_ms =? 0) else Panic in
  Ok (period_ms - unix_ms mod period_ms).

(** [ct_eq] on the codes' bytes. *)
Definition ct_eq (a b : bytes) : bool :=
  if negb (length a =? length b)%nat then false
  else fold_left (fun diff p => Z.lor diff (Z.lxor (byte_to_Z p.1) (byte_to_Z p.2))) (zip a b) 0 =? 0.

Fixpoint verify_loop (self : t) (code : text) (unix : Z) (steps : list Z) : result bool CoreError :=
  match steps with
  | [] => Ok false
  | step :: steps =>
      let? c := code_at self (Z.max 0 (unix + step * period self)) in
      if ct_eq (utf8 c) (utf8 code) then Ok true else verify_loop self code unix steps
  end.

Definition verify_at (self : t) (code : text) (unix : Z) : result bool CoreError :=
  verify_loop self (trim code) unix [-1; 0; 1].
End ops.

(** A fresh secret from 20 random bytes, and the URI of a QR code. *)
Definition generate_base32_secret (b : arr 20) : result text CoreError := Base32.base32_encode b.

Definition otpauth_uri (secret_base32 account issuer : text) : text :=
  lit "otpauth://totp/" ++ issuer ++ lit ":" ++ account ++ lit "?secret=" ++ secret_base32
  ++ lit "&issuer=" ++ issuer ++ lit "&algorithm=SHA1&digits=6&period=30".
End TotpSecret.

(** * Base32 *)

Module Base32Facts.
Import Base32.

(** A value below 32, its letter, and the letter's value. *)
Lemma letter v : 0 <= v < 32 ->
  exists c, ALPHABET !! Z.to_nat v = Some c
    /\ fst <$> list_find (fun x => x = to_ascii_uppercase c) ALPHABET = Some (Z.to_nat v)
    /\ significant c = true /\ to_ascii_uppercase c = c.
Proof.
  intros Hv. assert (Hn : (Z.to_nat v < 32)%nat) by lia. revert Hn. generalize (Z.to_nat v). clear v Hv. intros n Hn.
  do 32 (destruct n as [|n]; [eexists; (split; [reflexivity|]); (split; [vm_compute; reflexivity|done])|]). lia.
Qed.

(** A text spells values. *)
Definition spells (out : text) (vs : list Z) : Prop :=
  Forall2 (fun c v => 0 <= v < 32 /\ ALPHABET !! Z.to_nat v = Some c) out vs.

Lemma spells_snoc out vs v c :
  spells out vs -> 0 <= v < 32 -> ALPHABET !! Z.to_nat v = Some c -> spells (out ++ [c]) (vs ++ [v]).
Proof. intros H Hv Hc. apply Forall2_app; [done|]. constructor; [done|constructor]. Qed.

Lemma land31 v : Z.land v 31 = v mod 2 ^ 5.
Proof. exact (Z.land_ones v 5 ltac:(lia)). Qed.

(** The pending bits plus what was emitted make up the input. *)
Record packed (k j : Z) (ds vs : list Z) (buffer bits : Z) : Prop := {
  packed_val : radix_val k ds = radix_val j vs * 2 ^ bits + buffer mod 2 ^ bits;
  packed_len : k * Z.of_nat (length ds) = j * Z.of_nat (length vs) + bits;
  packed_bits : 0 <= bits;
}.

Lemma packed_push k j ds vs buffer bits b :
  0 <= k -> bits + k <= 32 -> 0 <= b < 2 ^ k -> packed k j ds vs buffer bits ->
  packed k j (ds ++ [b]) vs (Z.lor (Z.shiftl buffer k mod 2 ^ 32) b) (bits + k).
Proof.
  intros Hk Hb32 Hb [Hv Hl H0]. split; [|rewrite length_app; cbn; lia|lia].
  rewrite radix_val_snoc, push_u32, Hv, Z.pow_add_r by lia. lia.
Qed.

Lemma packed_pop k j ds vs buffer bits v :
  0 <= j <= bits -> v = Z.shiftr buffer (bits - j) mod 2 ^ j -> packed k j ds vs buffer bits ->
  packed k j ds (vs ++ [v]) buffer (bits - j).
Proof.
  intros Hj -> [Hv Hl H0]. split; [|rewrite length_app; cbn; lia|lia].
  rewrite radix_val_snoc, Hv, (pop_bits buffer bits j) by lia.
  rewrite Z.mul_add_distr_r, <- Z.mul_assoc, <- Z.pow_add_r by lia. replace (j + (bits - j)) with bits by lia. lia.
Qed.

Lemma emit_ok {E} fuel ds vs buffer bits out :
  packed 8 5 ds vs buffer bits -> spells out vs -> bits < 5 + 5 * Z.of_nat fuel ->
  exists bits' out' vs', emit (E := E) fuel buffer bits out = Ok (bits', out')
    /\ packed 8 5 ds vs' buffer bits' /\ spells out' vs' /\ bits' < 5.
Proof.
  revert bits out vs; induction fuel as [|fuel IH]; intros bits out vs HP HS Hb; cbn [emit].
  { exists bits, out, vs. split_and!; [done..|lia]. }
  destruct (Z.leb_spec 5 bits); [|exists bits, out, vs; by split_and!].
  rewrite land31. set (v := _ mod 2 ^ 5). pose proof (Z.mod_pos_bound (Z.shiftr buffer (bits - 5)) (2 ^ 5) ltac:(lia)) as Hv.
  fold v in Hv. destruct (letter v Hv) as (c & Hc & _). rewrite (index_lookup _ _ _ Hc). cbn [rbind].
  apply (IH _ _ (vs ++ [v])); [by apply packed_pop|by apply spells_snoc|lia].
Qed.

Lemma encode_loop_ok {E} data ds vs buffer bits out :
  packed 8 5 ds vs buffer bits -> spells out vs -> bits < 5 ->
  exists buffer' bits' out' vs', encode_loop (E := E) data buffer bits out = Ok (buffer', bits', out')
    /\ packed 8 5 (ds ++ map byte_to_Z data) vs' buffer' bits' /\ spells out' vs' /\ bits' < 5.
Proof.
  revert ds vs buffer bits out; induction data as [|b data IH]; intros ds vs buffer bits out HP HS Hb; cbn [encode_loop map].
  { exists buffer, bits, out, vs. by rewrite app_nil_r. }
  pose proof (byte_to_Z_range b) as Hr. pose proof (packed_bits _ _ _ _ _ _ HP) as H0.
  apply (packed_push _ _ _ _ _ _ (byte_to_Z b)) in HP; [|lia..].
  destruct (emit_ok (E := E) 2 _ _ _ _ out HP HS) as (bits' & out' & vs' & -> & HP' & HS' & Hb'); [lia|]. cbn [rbind].
  destruct (IH _ _ _ _ _ HP' HS' Hb') as (b2 & bits2 & out2 & vs2 & -> & HP2 & HS2 & Hb2).
  exists b2, bits2, out2, vs2. by rewrite <- app_assoc in HP2.
Qed.

(** The encoder always answers, with letters that stand for the input padded by zero bits. *)
Lemma base32_encode_ok {E} data :
  exists t vs pad, base32_encode (E := E) data = Ok t /\ spells t vs /\ 0 <= pad < 5
    /\ 5 * Z.of_nat (length vs) = 8 * Z.of_nat (length data) + pad
    /\ radix_val 5 vs = radix_val 8 (map byte_to_Z data) * 2 ^ pad.
Proof.
  unfold base32_encode.
  destruct (encode_loop_ok (E := E) data [] [] 0 0 []) as (buffer & bits & out & vs & -> & HP & HS & Hb); [by split|constructor|lia|].
  cbn [rbind app] in *. destruct HP as [Hv Hl H0]. rewrite length_map in Hl. destruct (Z.ltb_spec 0 bits).
  - rewrite land31. set (v := _ mod 2 ^ 5).
    assert (Hv' : v = (buffer mod 2 ^ bits) * 2 ^ (5 - bits)).
    { unfold v. rewrite Z.shiftl_mul_pow2 by lia.
      rewrite (Z.mod_mod_divide _ (2 ^ 32) (2 ^ 5)) by (exists (2 ^ 27); reflexivity).
      replace (2 ^ 5) with (2 ^ bits * 2 ^ (5 - bits)) by (rewrite <- Z.pow_add_r by lia; f_equal; lia).
      apply Z.mul_mod_distr_r; apply Z.pow_nonzero; lia. }
    pose proof (Z.mod_pos_bound (Z.shiftl buffer (5 - bits) mod 2 ^ 32) (2 ^ 5) ltac:(lia)) as Hr. fold v in Hr.
    destruct (letter v Hr) as (c & Hc & _). rewrite (index_lookup _ _ _ Hc). cbn [rbind].
    exists (out ++ [c]), (vs ++ [v]), (5 - bits). split; [done|]. split; [by apply spells_snoc|]. split; [lia|].
    split; [rewrite length_app; cbn; lia|]. rewrite radix_val_snoc, Hv, Hv', Z.mul_add_distr_r, <- Z.mul_assoc, <- Z.pow_add_r by lia.
    replace (bits + (5 - bits)) with 5 by lia. lia.
  - assert (bits = 0) as -> by lia. exists out, vs, 0. split; [done|]. split; [done|]. split; [lia|]. split; [lia|].
    rewrite Hv, !Z.pow_0_r, Z.mod_1_r. lia.
Qed.

Lemma decode_loop_ok s ds out vs buf bits :
  packed 5 8 ds (map byte_to_Z out) buf bits -> bits < 8 -> spells s vs ->
  exists out' buf' bits', decode_loop s buf bits out = Ok out'
    /\ packed 5 8 (ds ++ vs) (map byte_to_Z out') buf' bits' /\ bits' < 8.
Proof.
  intros HP Hb HS. revert ds out buf bits HP Hb; induction HS as [|c v s vs [Hv Hc] HS IH]; intros ds out buf bits HP Hb; cbn [decode_loop].
  { exists out, buf, bits. by rewrite app_nil_r. }
  destruct (letter v Hv) as (c' & Hc' & Hf & _). rewrite Hc in Hc'. injection Hc' as <-. rewrite Hf. cbn [ok_or rbind].
  pose proof (packed_bits _ _ _ _ _ _ HP) as H0. rewrite Z2Nat.id by lia.
  apply (packed_push _ _ _ _ _ _ v) in HP; [|lia..]. set (buf' := Z.lor _ v) in *.
  destruct (Z.leb_spec 8 (bits + 5)).
  - destruct (IH (ds ++ [v]) (out ++ [byte_of_Z (Z.shiftr buf' (bits + 5 - 8))]) buf' (bits + 5 - 8))
      as (o & bf & bt & He & HP' & Hb'); [|lia|].
    + rewrite map_app. cbn [map]. rewrite byte_to_of_Z. apply packed_pop; [lia|done|done].
    + exists o, bf, bt. rewrite <- app_assoc in HP'. by split_and!.
  - destruct (IH (ds ++ [v]) out buf' (bits + 5)) as (o & bf & bt & He & HP' & Hb'); [done|lia|].
    exists o, bf, bt. rewrite <- app_assoc in HP'. by split_and!.
Qed.

Lemma radix_val_bytes_inj (a b : bytes) :
  length a = length b -> radix_val 8 (map byte_to_Z a) = radix_val 8 (map byte_to_Z b) -> a = b.
Proof.
  revert b; induction a as [|x a IH] using rev_ind; intros b Hl; destruct b as [|y b _] using rev_ind;
    rewrite ?length_app in Hl; cbn in Hl; try lia; [done|].
  rewrite !map_app. cbn [map]. rewrite !radix_val_snoc. pose proof (byte_to_Z_range x). pose proof (byte_to_Z_range y).
  intros Hv. change (2 ^ 8) with 256 in Hv. assert (byte_to_Z x = byte_to_Z y) as Hxy by lia.
  apply (inj byte_to_Z) in Hxy as ->. f_equal. apply IH; lia.
Qed.

Lemma upper_idem c : to_ascii_uppercase (to_ascii_uppercase c) = to_ascii_uppercase c.
Proof. unfold to_ascii_uppercase. repeat case_match; bools; lia. Qed.

(** Case does not matter. *)
Lemma decode_loop_upper s buf bits out : decode_loop (map to_ascii_uppercase s) buf bits out = decode_loop s buf bits out.
Proof.
  revert buf bits out; induction s as [|c s IH]; intros; cbn [decode_loop map]; [done|]. rewrite upper_idem.
  destruct (ok_or _ _) as [v|e|]; cbn; [|done..]. by rewrite !IH.
Qed.

Lemma spells_significant t vs : spells t vs -> List.filter significant t = t /\ map to_ascii_uppercase t = t.
Proof.
  induction 1 as [|c v t vs [Hv Hc] _ [IH1 IH2]]; [done|]. cbn.
  destruct (letter v Hv) as (c' & Hc' & _ & Hs & Hu). rewrite Hc in Hc'. injection Hc' as <-. by rewrite Hs, IH1, Hu, IH2.
Qed.

(** Reading back what was printed, with the case changed and blanks or padding put in. *)
Lemma decode_encode {E} data t s :
  data <> [] -> base32_encode (E := E) data = Ok t -> map to_ascii_uppercase (List.filter significant s) = t -> base32_decode s = Ok data.
Proof.
  intros Hne He Hs. destruct (base32_encode_ok (E := E) data) as (t' & vs & pad & He' & HS & Hp & Hl & Hv).
  rewrite He in He'. injection He' as <-. unfold base32_decode. rewrite <- decode_loop_upper, Hs.
  destruct (decode_loop_ok t [] [] vs 0 0) as (out & buf & bits & -> & [Hpv Hpl Hp0] & Hb); [by split|lia|done|].
  cbn [rbind app] in *. rewrite length_map in Hpl.
  assert (length out = length data /\ bits = pad) as [Hlen ->] by lia.
  assert (out = data) as ->; [|by rewrite bool_decide_false].
  apply radix_val_bytes_inj; [done|].
  pose proof (Z.mod_pos_bound buf (2 ^ pad) ltac:(apply Z.pow_pos_nonneg; lia)). assert (0 < 2 ^ pad) by (apply Z.pow_pos_nonneg; lia). nia.
Qed.
End Base32Facts.

(** * Parsing a typed secret *)

Section typed.
Context {H : TotpHmac} {Q : QueryPairs}.

(** A secret typed as base32 letters is never taken for a URI. *)
Lemma typed_not_uri s t vs :
  Base32Facts.spells t vs -> map to_ascii_uppercase (List.filter Base32.significant s) = t ->
  starts_with (lit "otpauth://") s = false.
Proof.
  intros HS <-. unfold starts_with. apply bool_decide_eq_false_2. intros [r Hr]. apply strip_prefix_Some in Hr as ->.
  rewrite List.filter_app, map_app in HS. apply Forall2_app_inv_l in HS as (v1 & v2 & HS & _ & _).
  assert (Hin : chr ":" ∈ map to_ascii_uppercase (List.filter Base32.significant (lit "otpauth://")))
    by (vm_compute; repeat constructor).
  apply list_elem_of_lookup in Hin as (i & Hi). destruct (Forall2_lookup_l _ _ _ _ _ HS Hi) as (v & _ & _ & Hc).
  apply list_elem_of_lookup_2 in Hc. vm_compute in Hc.
  repeat (apply elem_of_cons in Hc as [Hc|Hc]; [discriminate Hc|]). by apply not_elem_of_nil in Hc.
Qed.

Lemma parse_typed {E} data t s :
  data <> [] -> Base32.base32_encode (E := E) data = Ok t ->
  map to_ascii_uppercase (List.filter Base32.significant s) = t ->
  TotpSecret.parse s = Ok (TotpSecret.MkTotpSecret data TotpAlgo.Sha1 6 30).
Proof.
  intros Hne He Hs. unfold TotpSecret.parse.
  destruct (Base32Facts.base32_encode_ok (E := E) data) as (t' & vs & pad & He' & HS & _).
  rewrite He in He'. injection He' as <-. rewrite (typed_not_uri s t vs) by done.
  by rewrite (Base32Facts.decode_encode (E := E) data t s).
Qed.

Lemma parse_encoded {E} data t :
  data <> [] -> Base32.base32_encode (E := E) data = Ok t ->
  TotpSecret.parse t = Ok (TotpSecret.MkTotpSecret data TotpAlgo.Sha1 6 30).
Proof.
  intros Hne He. apply (parse_typed (E := E) data t); [done..|].
  destruct (Base32Facts.base32_encode_ok (E := E) data) as (t' & vs & pad & He' & HS & _).
  rewrite He in He'. injection He' as <-. apply Base32Facts.spells_significant in HS as [H1 H2]. by rewrite H1.
Qed.
End typed.

(** * What can panic *)

Section panics.
Context {H : TotpHmac}.

Lemma truncate_ok {E} (digest : bytes) :
  (20 <= length digest)%nat -> exists bin, TotpSecret.truncate (E := E) digest = Ok bin.
Proof.
  intros Hd. unfold TotpSecret.truncate.
  destruct (index_ok (E := E) digest (length digest - 1)) as (b & -> & _); [lia|]. cbn [rbind].
  assert (Ho : (Z.to_nat (Z.land (byte_to_Z b) 15) <= 15)%nat).
  { change 15 with (Z.ones 4). rewrite Z.land_ones by lia. pose proof (Z.mod_pos_bound (byte_to_Z b) (2 ^ 4)). lia. }
  set (o := Z.to_nat _) in *.
  destruct (index_ok (E := E) digest o) as (d0 & -> & _); [lia|].
  destruct (index_ok (E := E) digest (o + 1)) as (d1 & -> & _); [lia|].
  destruct (index_ok (E := E) digest (o + 2)) as (d2 & -> & _); [lia|].
  destruct (index_ok (E := E) digest (o + 3)) as (d3 & -> & _); [lia|]. cbn [rbind]. eauto.
Qed.

Lemma hmac_length self msg : (20 <= length (TotpSecret.hmac self msg))%nat.
Proof. unfold TotpSecret.hmac. destruct (TotpSecret.algo self); rewrite length_arr; lia. Qed.

Lemma pow10_u32 d : 0 <= d -> (10 ^ d <? 2 ^ 32) = (d <? 10).
Proof.
  intros Hd. apply eq_true_iff_eq. rewrite !Z.ltb_lt. split; intros H1.
  - destruct (Z.lt_ge_cases d 10) as [|Hg]; [done|]. apply (Z.pow_le_mono_r 10) in Hg; [|lia].
    assert (2 ^ 32 < 10 ^ 10) by reflexivity. lia.
  - assert (10 ^ d <= 10 ^ 9) by (apply Z.pow_le_mono_r; lia). assert (10 ^ 9 < 2 ^ 32) by reflexivity. lia.
Qed.

(** The parameters of a URI are not validated: a code is computed exactly when the period is
    not zero and there are fewer than ten digits, and otherwise the computation panics. *)
Lemma code_at_panics self unix :
  0 <= TotpSecret.digits self ->
  if (TotpSecret.period self =? 0) || (10 <=? TotpSecret.digits self)
  then TotpSecret.code_at self unix = Panic
  else exists code, TotpSecret.code_at self unix = Ok code.
Proof.
  intros Hd. unfold TotpSecret.code_at. destruct (TotpSecret.period self =? 0); cbn [negb orb]; [done|].
  destruct (truncate_ok (E := CoreError) (TotpSecret.hmac self (be_bytes 8 (unix / TotpSecret.period self)))) as [bin ->];
    [apply hmac_length|]. cbn [rbind]. rewrite pow10_u32 by done.
  destruct (Z.leb_spec 10 (TotpSecret.digits self)), (Z.ltb_spec (TotpSecret.digits self) 10); try lia; eauto.
Qed.
End panics.
