(* ===== verification/Toy.v ===== *)
(** A concrete instance of the third-party primitives, small enough to evaluate: a
    checksum as the authentication tag, the key-derivation output and the hash. It
    satisfies [CryptoLaws], so every theorem that assumes the laws has a model, and the
    witnesses run on it. Nothing else depends on it. *)
From S2P Require Import Prelude Bytes Text Crypto.
Local Open Scope Z_scope.

Definition arr_le (n : nat) (z : Z) : arr n :=
  Arr (le_bytes n z) (canon (Is_true_true_2 _ (proj2 (Nat.eqb_eq _ _) (length_le_bytes n z)))).

(** A polynomial checksum of a list of byte strings. *)
Definition toy_sum (l : list bytes) : Z :=
  fold_left (fun acc b => (acc * 257 + byte_to_Z b + 1) mod 65521) (concat l) 7.

Definition toy_tag (k : Key32) (n : Nonce24) (ad m : bytes) : bytes :=
  le_bytes 16 (toy_sum [arr_bytes k; arr_bytes n; le_bytes 8 (Z.of_nat (length ad)); ad; m]).

Definition toy_encrypt (k : Key32) (n : Nonce24) (ad m : bytes) : bytes := m ++ toy_tag k n ad m.

Definition toy_decrypt (k : Key32) (n : Nonce24) (ad c : bytes) : option bytes :=
  let m := take (length c - 16) c in
  if bool_decide (c = m ++ toy_tag k n ad m) then Some m else None.

#[export] Instance toy_prims : CryptoPrims := {|
  aead_encrypt := toy_encrypt;
  aead_decrypt := toy_decrypt;
  hkdf_sha256 ikm salt info := arr_le 32 (toy_sum [ikm; default [] salt; info]);
  argon2id p s salt := arr_le 32 (toy_sum [s; arr_bytes salt]);
  sha256 b := arr_le 32 (toy_sum [b]);
  hmac_sha256 k m := arr_le 32 (toy_sum [k; m]);
|}.

#[export] Instance toy_laws : CryptoLaws toy_prims.
Proof.
  split; cbn; unfold toy_encrypt, toy_decrypt, toy_tag; intros k n ad.
  - intros m. rewrite length_app, length_le_bytes, Nat.add_sub, take_app_length.
    by rewrite bool_decide_true.
  - intros m. by rewrite length_app, length_le_bytes.
  - intros c m. case_bool_decide as H; [|done]. by intros [= <-].
Qed.
