(* ===== verification/RecoveryKit.v ===== *)
(** [crates/core/src/recovery_kit/mod.rs]: the printed recovery key. A 128-bit key is
    written as 30 Crockford Base32 characters (version, 130-bit payload, 15-bit checksum)
    in six groups of five, and read back from whatever a human typed. *)
From S2P Require Import Prelude Bytes Text Crypto Toy.
Local Open Scope Z_scope.

(** A newtype over 16 bytes. *)
Abbreviation RecoveryKey := (arr 16).

Module RecoveryKit.
Definition CROCKFORD : text := lit "0123456789ABCDEFGHJKMNPQRSTVWXYZ".
Definition VERSION_CHAR : Z := chr "A".
Definition CHECKSUM_DOMAIN : bytes := utf8 (lit "SNTL-RK-v1").

(** ** Bits *)

(** [for i in (0..n).rev() { bits.push(((value >> i) & 1) as u8) }]. *)
Fixpoint push_bits (bits : list Z) (value : Z) (n : nat) : list Z :=
  match n with
  | O => bits
  | S i => push_bits (bits ++ [Z.land (Z.shiftr value (Z.of_nat i)) 1]) value i
  end.

(** [c.iter().fold(0u8, |acc, &b| (acc << 1) | b)]: the shift drops bit 8. *)
Definition fold_u8 (c : list Z) : Z :=
  fold_left (fun acc b => Z.lor (Z.shiftl acc 1 mod 256) b) c 0.

Definition bits_to_chars (bits : list Z) : Result text :=
  guard (length bits mod 5 =? 0)%nat else Panic in
  collect (fun c => index CROCKFORD (Z.to_nat (fold_u8 c))) (chunks 5 bits).

(** ** Reading *)

Definition is_separator (c : Z) : bool :=
  (c =? chr "-") || (c =? 32) || (c =? 9) || (c =? 10) || (c =? 13).

(** The ambiguous glyphs: [I], [L] read as [1], [O] as [0]. *)
Definition fold_glyph (c : Z) : Z :=
  if (c =? chr "I") || (c =? chr "L") then chr "1" else if c =? chr "O" then chr "0" else c.

Definition normalize (input : text) : Result text :=
  let cleaned := map to_ascii_uppercase (filter (fun c => negb (is_separator c)) input) in
  let body := default cleaned (strip_prefix (lit "SNTL") cleaned) in
  let out := map fold_glyph body in
  guard (length out =? 30)%nat
    else Err (Invalid ("recovery key must be 30 characters, got " +:+ pretty (length out))) in
  Ok out.

Definition char_to_val (c : Z) : Result Z :=
  match list_find (fun b => b = c) CROCKFORD with
  | Some (p, _) => Ok (Z.of_nat p)
  | None => Err (Invalid ("invalid recovery character: " +:+ to_string [c]))
  end.

(** ** Writing *)

(** Six groups of five, hyphenated, behind the prefix. *)
Definition group (data : text) : text :=
  lit "SNTL-" ++ join (lit "-") (chunks 5 data).

(** The six groups of a display form. The chunks are of the UTF-8 bytes; with anything but
    ASCII in the 30 characters there are more than six of them. *)
Definition groups (display : text) : Result (list bytes) :=
  let? data := normalize display in
  let g := chunks 5 (utf8 data) in
  guard (length g =? 6)%nat else Err (Invalid "recovery key must have six groups") in
  Ok g.

Section hash.
Context {P : CryptoPrims}.

(** The top 15 bits of the digest. *)
Definition checksum15 (key : bytes) : Result Z :=
  let d := sha256 (CHECKSUM_DOMAIN ++ key) in
  let? d0 := index d 0 in
  let? d1 := index d 1 in
  Ok (Z.land (Z.lor (Z.shiftl (byte_to_Z d0) 7 mod 65536) (Z.shiftr (byte_to_Z d1) 1)) 32767).

(** The 30 data characters of [encode]. *)
Definition encode_data (rk : RecoveryKey) : Result text :=
  let key := be_val rk in
  let? payload := bits_to_chars (push_bits (push_bits [] 0 2) key 128) in
  let? cs := checksum15 rk in
  let? checksum := bits_to_chars (push_bits [] cs 15) in
  Ok (VERSION_CHAR :: payload ++ checksum).

Definition encode (rk : RecoveryKey) : Result text :=
  let? data := encode_data rk in
  guard (length data =? 30)%nat else Panic in
  Ok (group data).

(** The five bits of a character's value, most significant first. *)
Definition bits5 (v : Z) : list Z :=
  map (fun i => Z.land (Z.shiftr v i) 1) [4; 3; 2; 1; 0].

(** [decode] past the normalization. *)
Definition decode_data (chars : text) : Result RecoveryKey :=
  let? c0 := index chars 0 in
  guard (c0 =? VERSION_CHAR) else Err InvalidRecoveryKey in
  let? payload := slice chars 1 27 in
  let? vs := collect char_to_val payload in
  let bits := concat (map bits5 vs) in
  let? b0 := index bits 0 in
  let? b1 := index bits 1 in
  guard (b0 =? 0) && (b1 =? 0) else Err InvalidRecoveryKey in
  let? kbits := slice bits 2 130 in
  let key := fold_left (fun key b => Z.lor (Z.shiftl key 1 mod 2 ^ 128) b) kbits 0 in
  let key_bytes := be_bytes 16 key in
  let? tail := slice chars 27 30 in
  let? cvs := collect char_to_val tail in
  let cs := fold_left (fun cs v => Z.lor (Z.shiftl cs 5 mod 65536) v) cvs 0 in
  let? expected := checksum15 key_bytes in
  guard (cs =? expected) else Err InvalidRecoveryKey in
  copy_from_slice 16 key_bytes.

Definition decode (display : text) : Result RecoveryKey :=
  let? chars := normalize display in
  decode_data chars.
End hash.

(** ** The onboarding challenge *)

Definition entered_folded (entered : text) : text :=
  map fold_glyph (map to_ascii_uppercase (trim entered)).

(** The loop over the two slots; [ok] accumulates the comparisons. *)
Fixpoint challenge_loop (want : list bytes) (slots : list (Z * text)) (ok : bool) : Result bool :=
  match slots with
  | [] => Ok ok
  | (idx, entered) :: slots =>
      if 6 <=? idx then Err (Invalid "group index out of range")
      else
        let? w := index want (Z.to_nat idx) in
        challenge_loop want slots (ok && bool_decide (w = utf8 (entered_folded entered)))
  end.

Definition verify_challenge (full_display : text) (indices : Z * Z) (entered : text * text) : Result bool :=
  let? want := groups full_display in
  challenge_loop want [(fst indices, fst entered); (snd indices, snd entered)] true.

(** ** Bit lists *)

Definition is_bit (b : Z) : Prop := b = 0 \/ b = 1.

(** The value of a big-endian bit list, and the [n] low bits of a value. *)
Definition bits_val (l : list Z) : Z := fold_left (fun acc b => 2 * acc + b) l 0.
Definition msb (n : nat) (v : Z) : list Z := push_bits [] v n.

Lemma land1 v : Z.land v 1 = v mod 2.
Proof. exact (Z.land_ones v 1 ltac:(lia)). Qed.

Lemma land1_bit v : is_bit (Z.land v 1).
Proof. rewrite land1. unfold is_bit. pose proof (Z.mod_pos_bound v 2). lia. Qed.

Lemma push_bits_app l v n : push_bits l v n = l ++ msb n v.
Proof.
  unfold msb. revert l; induction n as [|n IH]; intros l; cbn [push_bits]; [by rewrite app_nil_r|].
  rewrite IH, (IH ([] ++ _)). by rewrite app_nil_l, <- app_assoc.
Qed.

Lemma msb_S n v : msb (S n) v = Z.land (Z.shiftr v (Z.of_nat n)) 1 :: msb n v.
Proof. unfold msb at 1. cbn [push_bits]. by rewrite push_bits_app. Qed.

Lemma length_msb n v : length (msb n v) = n.
Proof. induction n as [|n IH]; [done|]. rewrite msb_S. cbn. by rewrite IH. Qed.

Lemma msb_bits n v : Forall is_bit (msb n v).
Proof. induction n; [constructor|]. rewrite msb_S. constructor; [apply land1_bit|done]. Qed.

Lemma bits_val_acc l acc : fold_left (fun acc b => 2 * acc + b) l acc = acc * 2 ^ Z.of_nat (length l) + bits_val l.
Proof.
  unfold bits_val. revert acc; induction l as [|b l IH]; intros acc; cbn [fold_left length]; [lia|].
  rewrite IH, (IH (2 * 0 + b)), Nat2Z.inj_succ, Z.pow_succ_r by lia. lia.
Qed.

Lemma bits_val_cons b l : bits_val (b :: l) = b * 2 ^ Z.of_nat (length l) + bits_val l.
Proof. unfold bits_val at 1. cbn [fold_left]. rewrite bits_val_acc. f_equal. Qed.

Lemma bits_val_range l : Forall is_bit l -> 0 <= bits_val l < 2 ^ Z.of_nat (length l).
Proof.
  induction 1 as [|b l Hb Hl IH]; [done|]. rewrite bits_val_cons. cbn [length].
  rewrite Nat2Z.inj_succ, Z.pow_succ_r by lia. destruct Hb as [-> | ->]; lia.
Qed.

Lemma bits_val_msb n v : bits_val (msb n v) = v mod 2 ^ Z.of_nat n.
Proof.
  induction n as [|n IH]; [by rewrite Z.mod_1_r|].
  rewrite msb_S, bits_val_cons, length_msb, IH, land1, Z.shiftr_div_pow2 by lia.
  rewrite Nat2Z.inj_succ, Z.pow_succ_r, (Z.mul_comm 2) by lia.
  rewrite Z.rem_mul_r by lia. lia.
Qed.

Lemma bits_val_inj l l' :
  Forall is_bit l -> Forall is_bit l' -> length l = length l' -> bits_val l = bits_val l' -> l = l'.
Proof.
  intros Hl. revert l'; induction Hl as [|b l Hb Hl IH]; intros [|b' l']; try done.
  intros [Hb' Hl']%Forall_cons [= Hn]. rewrite !bits_val_cons, Hn. intros Hv.
  pose proof (bits_val_range l Hl). pose proof (bits_val_range l' Hl'). rewrite Hn in *.
  assert (b = b') by (destruct Hb, Hb'; subst; lia). subst b'. f_equal. apply IH; [done..|lia].
Qed.

Lemma msb_bits_val l : Forall is_bit l -> msb (length l) (bits_val l) = l.
Proof.
  intros Hl. apply bits_val_inj; auto using msb_bits, length_msb.
  rewrite bits_val_msb. apply Z.mod_small. by apply bits_val_range.
Qed.

(** The wrapping machine fold computes the value as long as it fits the width. *)
Lemma fold_lor_val w l acc :
  0 <= w -> Forall is_bit l -> 0 <= acc -> acc * 2 ^ Z.of_nat (length l) + bits_val l < 2 ^ w ->
  fold_left (fun k b => Z.lor (Z.shiftl k 1 mod 2 ^ w) b) l acc = acc * 2 ^ Z.of_nat (length l) + bits_val l.
Proof.
  intros Hw Hl. revert acc; induction Hl as [|b l Hb Hl IH]; intros acc Ha; cbn [fold_left length].
  { unfold bits_val. cbn. lia. }
  rewrite bits_val_cons, Nat2Z.inj_succ, Z.pow_succ_r by lia. intros Hlt.
  pose proof (bits_val_range l Hl).
  assert (Hstep : Z.lor (Z.shiftl acc 1 mod 2 ^ w) b = 2 * acc + b).
  { rewrite Z.shiftl_mul_pow2, Z.mod_small by (destruct Hb; nia).
    destruct Hb as [-> | ->]; [rewrite Z.lor_0_r; lia|].
    change (2 ^ 1) with 2. rewrite Z.mul_comm. destruct acc; [done| |lia]. reflexivity. }
  rewrite Hstep, IH by (destruct Hb; nia). nia.
Qed.

(** ** Characters *)

(** Five bits, their character and its value determine each other. *)
Lemma char_of_bits c :
  length c = 5%nat -> Forall is_bit c ->
  exists ch v, index CROCKFORD (Z.to_nat (fold_u8 c)) = Ok (E:=CoreError) ch
    /\ char_to_val ch = Ok v /\ bits5 v = c.
Proof.
  intros Hl Hb. destruct c as [|b0 [|b1 [|b2 [|b3 [|b4 [|]]]]]]; try discriminate Hl.
  repeat match goal with H : Forall _ (_ :: _) |- _ => apply Forall_cons in H as [? ?] end.
  unfold is_bit in *. destruct_or!; subst; do 2 eexists; (split; [vm_compute; reflexivity|]);
    (split; [vm_compute; reflexivity|]); reflexivity.
Qed.

Lemma val_bits5 ch v :
  char_to_val ch = Ok v ->
  Forall is_bit (bits5 v) /\ index CROCKFORD (Z.to_nat (fold_u8 (bits5 v))) = Ok (E:=CoreError) ch.
Proof.
  unfold char_to_val. destruct (list_find _ CROCKFORD) as [[p x]|] eqn:E; [|done]. intros [= <-].
  apply list_find_Some in E as (Hp & <- & _). pose proof (lookup_lt_Some _ _ _ Hp) as Hlt.
  change (length CROCKFORD) with 32%nat in Hlt.
  split; [apply Forall_fmap, Forall_true; intros; apply land1_bit|]. apply index_Ok. rewrite <- Hp.
  clear Hp. do 32 (destruct p as [|p]; [reflexivity|]). lia.
Qed.

Lemma bits_of_chars chars vs :
  collect char_to_val chars = Ok vs ->
  Forall is_bit (concat (map bits5 vs)) /\ length (concat (map bits5 vs)) = (5 * length chars)%nat
  /\ bits_to_chars (concat (map bits5 vs)) = Ok chars.
Proof.
  intros H%collect_Ok.
  assert (Hl : Forall (fun l => length l = 5%nat) (map bits5 vs))
    by (apply Forall_forall; intros l (v & -> & _)%list_elem_of_fmap; reflexivity).
  assert (Hn : length (concat (map bits5 vs)) = (5 * length chars)%nat).
  { rewrite (Forall2_length _ _ _ H). clear H Hl. induction vs; cbn in *; lia. }
  split; [|split; [done|]].
  - clear Hl Hn. induction H as [|ch v chars vs Hv _ IH]; [constructor|]. cbn [map concat].
    apply Forall_app. split; [by eapply val_bits5|done].
  - unfold bits_to_chars. rewrite Hn, Nat.mul_comm, Nat.Div0.mod_mul, Nat.eqb_refl.
    rewrite chunks_concat by (auto; lia). apply collect_Ok. clear Hl Hn.
    induction H as [|ch v chars vs Hv _ IH]; constructor; [by apply val_bits5|done].
Qed.

Lemma chars_of_bits n bits :
  Forall is_bit bits -> length bits = (5 * n)%nat ->
  exists chars vs, bits_to_chars bits = Ok chars /\ length chars = n
    /\ collect char_to_val chars = Ok vs /\ concat (map bits5 vs) = bits.
Proof.
  intros Hb (ls & -> & Hn & Hls)%pieces.
  assert (exists chars vs,
    Forall2 (fun c ch => index CROCKFORD (Z.to_nat (fold_u8 c)) = Ok (E:=CoreError) ch) ls chars
    /\ Forall2 (fun ch v => char_to_val ch = Ok v) chars vs /\ concat (map bits5 vs) = concat ls)
    as (chars & vs & H1 & H2 & H3).
  { clear Hn. induction Hls as [|c ls Hc _ IH]; [by exists [], []|].
    cbn in Hb. apply Forall_app in Hb as [Hbc Hb]. destruct (IH Hb) as (chars & vs & ? & ? & ?).
    destruct (char_of_bits c Hc Hbc) as (ch & v & ? & ? & ?).
    exists (ch :: chars), (v :: vs). split; [by constructor|]. split; [by constructor|]. cbn [map concat]. by apply f_equal2. }
  exists chars, vs. split; [|split; [|split; [by apply collect_Ok|done]]].
  - unfold bits_to_chars. rewrite chunks_concat by (auto; lia).
    replace (length (concat ls)) with (n * 5)%nat
      by (subst n; clear -Hls; induction Hls; cbn; rewrite ?length_app; lia).
    rewrite Nat.Div0.mod_mul. by apply collect_Ok.
  - by rewrite <- (Forall2_length _ _ _ H1).
Qed.

Lemma bits_val_app l1 l2 : bits_val (l1 ++ l2) = bits_val l1 * 2 ^ Z.of_nat (length l2) + bits_val l2.
Proof. unfold bits_val at 1. by rewrite fold_left_app, bits_val_acc. Qed.

Lemma char_to_val_range ch v : char_to_val ch = Ok v -> 0 <= v < 32.
Proof.
  unfold char_to_val. destruct (list_find _ _) as [[p x]|] eqn:E; [|done]. intros [= <-].
  apply list_find_Some in E as (Hp%lookup_lt_Some & _). change (length CROCKFORD) with 32%nat in Hp. lia.
Qed.

Lemma bits_val_bits5 v : 0 <= v < 32 -> bits_val (bits5 v) = v.
Proof. intros H. change (bits5 v) with (msb 5 v). rewrite bits_val_msb. by apply Z.mod_small. Qed.

Lemma shl5_disjoint a v : 0 <= v < 32 -> Z.land (Z.shiftl a 5) v = 0.
Proof.
  intros Hv. apply Z.bits_inj'. intros i Hi. rewrite Z.land_spec, Z.bits_0.
  destruct (Z.ltb_spec i 5).
  - by rewrite Z.shiftl_spec_low.
  - apply andb_false_iff. right. rewrite <- (Z.mod_small v (2 ^ 5)) by lia. by apply Z.mod_pow2_bits_high.
Qed.

Lemma lor_shift5 a v : 0 <= a -> 0 <= v < 32 -> Z.lor (Z.shiftl a 5) v = 32 * a + v.
Proof.
  intros Ha Hv. rewrite <- Z.lxor_lor, <- Z.add_nocarry_lxor.
  - rewrite Z.shiftl_mul_pow2 by lia. lia.
  - apply shl5_disjoint; lia.
  - apply shl5_disjoint; lia.
Qed.

(** The checksum characters: the wrapping 16-bit fold of the values is the value of their bits. *)
Lemma fold5_val vs :
  length vs = 3%nat -> Forall (fun v => 0 <= v < 32) vs ->
  fold_left (fun cs v => Z.lor (Z.shiftl cs 5 mod 65536) v) vs 0 = bits_val (concat (map bits5 vs)).
Proof.
  intros Hn Hv. destruct vs as [|v1 [|v2 [|v3 [|]]]]; try discriminate Hn.
  repeat match goal with H : Forall _ (_ :: _) |- _ => apply Forall_cons in H as [? ?] end.
  cbn [fold_left map concat]. rewrite app_nil_r, !bits_val_app, !bits_val_bits5 by done.
  rewrite !length_app. change (length (bits5 _)) with 5%nat.
  change (Z.shiftl 0 5 mod 65536) with 0. rewrite Z.lor_0_l.
  rewrite (Z.mod_small (Z.shiftl v1 5)) by (rewrite Z.shiftl_mul_pow2; lia).
  rewrite lor_shift5, Z.mod_small, lor_shift5 by (rewrite ?Z.shiftl_mul_pow2; lia). cbn. lia.
Qed.

(** ** Encoding and decoding *)

Section codec.
Context {P : CryptoPrims}.

Lemma checksum15_ok key : exists cs, checksum15 key = Ok cs /\ 0 <= cs < 2 ^ 15.
Proof.
  unfold checksum15. set (d := sha256 _). pose proof (length_arr d) as Hd.
  destruct (index_ok (E:=CoreError) (arr_bytes d) 0) as (d0 & -> & _); [lia|].
  destruct (index_ok (E:=CoreError) (arr_bytes d) 1) as (d1 & -> & _); [lia|]. cbn [rbind].
  eexists; split; [done|]. change 32767 with (Z.ones 15). rewrite Z.land_ones by lia.
  apply Z.mod_pos_bound. lia.
Qed.

(** Big-endian bytes and the 128 bits. *)
Definition key_bits (rk : RecoveryKey) : list Z := [0; 0] ++ msb 128 (be_val rk).

Lemma length_concat_data payload checksum :
  length payload = 26%nat -> length checksum = 3%nat ->
  length (VERSION_CHAR :: payload ++ checksum) = 30%nat.
Proof. intros H1 H2. cbn. rewrite length_app. lia. Qed.

Lemma encode_data_ok rk :
  exists payload vs checksum cvs cs,
    encode_data rk = Ok (VERSION_CHAR :: payload ++ checksum)
    /\ (length payload = 26%nat /\ collect char_to_val payload = Ok vs /\ concat (map bits5 vs) = key_bits rk)
    /\ (length checksum = 3%nat /\ collect char_to_val checksum = Ok cvs /\ concat (map bits5 cvs) = msb 15 cs)
    /\ checksum15 rk = Ok cs /\ 0 <= cs < 2 ^ 15.
Proof.
  destruct (checksum15_ok rk) as (cs & Hcs & Hr).
  destruct (chars_of_bits 26 (key_bits rk)) as (payload & vs & Hp & Hpl & Hvs & Hbits).
  { apply Forall_app. split; [|apply msb_bits]. repeat constructor. }
  { unfold key_bits. by rewrite length_app, length_msb. }
  destruct (chars_of_bits 3 (msb 15 cs)) as (checksum & cvs & Hc & Hcl & Hcvs & Hcbits);
    [apply msb_bits|by rewrite length_msb|].
  exists payload, vs, checksum, cvs, cs. split; [|done].
  unfold encode_data. cbv zeta. rewrite (push_bits_app (push_bits [] 0 2)).
  change (push_bits [] 0 2) with [0; 0]. change ([0; 0] ++ msb 128 (be_val rk)) with (key_bits rk).
  rewrite Hp. cbn [rbind]. rewrite Hcs. cbn [rbind]. change (push_bits [] cs 15) with (msb 15 cs).
  by rewrite Hc.
Qed.

Lemma be_val_range (rk : RecoveryKey) : 0 <= be_val rk < 2 ^ 128.
Proof.
  unfold be_val. pose proof (le_val_range (reverse rk)) as H.
  rewrite length_reverse, length_arr in H. exact H.
Qed.

Lemma be_bytes_arr (rk : RecoveryKey) : be_bytes 16 (be_val rk) = rk.
Proof. pose proof (be_bytes_be_val rk) as H. by rewrite length_arr in H. Qed.

(** Decoding the canonical characters. *)
Lemma decode_data_encode rk data : encode_data rk = Ok data -> decode_data data = Ok rk.
Proof.
  destruct (encode_data_ok rk)
    as (payload & vs & checksum & cvs & cs & -> & (Hpl & Hvs & Hb) & (Hcl & Hcvs & Hcb) & Hcs & Hr).
  intros [= <-]. unfold decode_data. rewrite (index_lookup _ 0 VERSION_CHAR) by done. cbn [rbind].
  rewrite Z.eqb_refl. rewrite (slice_app [VERSION_CHAR] payload checksum) by (cbn; lia). cbn [rbind].
  rewrite Hvs. cbn [rbind]. cbv zeta. rewrite Hb.
  rewrite (index_lookup _ 0 0), (index_lookup _ 1 0) by done. cbn [rbind Z.eqb andb].
  rewrite <- (app_nil_r (key_bits rk)). unfold key_bits. rewrite <- app_assoc.
  rewrite slice_app by (rewrite ?length_msb; done). cbn [rbind].
  rewrite (fold_lor_val 128) by (rewrite ?bits_val_msb; auto using msb_bits; try lia; apply Z.mod_pos_bound; lia).
  rewrite bits_val_msb, Z.mod_small by apply be_val_range. rewrite Z.add_0_l.
  rewrite be_bytes_arr.
  change (VERSION_CHAR :: payload ++ checksum) with ([VERSION_CHAR] ++ payload ++ checksum).
  rewrite (app_assoc [VERSION_CHAR]), <- (app_nil_r checksum), slice_app by (cbn; rewrite ?Hpl; lia).
  cbn [rbind]. rewrite Hcvs. cbn [rbind]. rewrite Hcs. cbn [rbind].
  rewrite fold5_val, Hcb, bits_val_msb, Z.mod_small, Z.eqb_refl.
  - apply copy_from_slice_arr.
  - exact Hr.
  - apply collect_Ok, Forall2_length in Hcvs. lia.
  - apply collect_Ok in Hcvs. clear -Hcvs. induction Hcvs; constructor; eauto using char_to_val_range.
Qed.

Lemma two_bits_zero (l : list Z) b0 b1 : l !! 0%nat = Some b0 -> l !! 1%nat = Some b1 -> l = b0 :: b1 :: drop 2 l.
Proof. destruct l as [|x [|y l]]; cbn; intros [=]; intros [=]. by subst. Qed.

(** A 130-bit list with a zero pad is the bits of the key it folds to. *)
Lemma key_bits_fold bits (rk : RecoveryKey) :
  Forall is_bit bits -> length bits = 130%nat -> bits !! 0%nat = Some 0 -> bits !! 1%nat = Some 0 ->
  arr_bytes rk = be_bytes 16 (fold_left (fun key b => Z.lor (Z.shiftl key 1 mod 2 ^ 128) b) (drop 2 bits) 0) ->
  bits = key_bits rk.
Proof.
  intros Hb Hl H0 H1 Hrk. rewrite (two_bits_zero _ _ _ H0 H1). apply (Forall_drop _ 2) in Hb.
  assert (Hd : length (drop 2 bits) = 128%nat) by (rewrite length_drop; lia).
  pose proof (bits_val_range _ Hb) as Hr. rewrite Hd in Hr. change (2 ^ Z.of_nat 128) with (2 ^ 128) in Hr.
  rewrite (fold_lor_val 128), Z.add_0_l in Hrk by (done || lia).
  unfold key_bits. cbn [app]. do 2 f_equal. rewrite Hrk, be_val_be_bytes_small by exact Hr.
  rewrite <- Hd. by rewrite msb_bits_val.
Qed.

Lemma decode_data_inv chars rk :
  length chars = 30%nat -> decode_data chars = Ok rk -> encode_data rk = Ok chars.
Proof.
  intros Hl H. unfold decode_data in H. cbv zeta in H. inv_result. bools. subst.
  rename a1 into vs, a6 into cvs. apply index_Ok in Ha as Hc0, Ha2 as Hb0, Ha3 as Hb1.
  apply slice_Ok in Ha0 as [_ Hp]. apply slice_Ok in Ha4 as [_ Hk]. apply slice_Ok in Ha5 as [_ Ht].
  assert (Hchars : chars = VERSION_CHAR :: a0 ++ a5).
  { destruct chars as [|c chars]; [done|]. cbn in Hc0. injection Hc0 as ->. f_equal.
    subst. cbn [drop]. rewrite (take_ge (drop 26 chars)) by (rewrite length_drop; cbn in *; lia).
    by rewrite take_drop. }
  assert (Hpl : length a0 = 26%nat) by (subst a0; rewrite length_take, length_drop; lia).
  assert (Htl : length a5 = 3%nat) by (subst a5; rewrite length_take, length_drop; lia).
  pose proof (bits_of_chars _ _ Ha1) as (Hvb & Hvl & Hvc).
  pose proof (bits_of_chars _ _ Ha6) as (Hcb & Hcl & Hcc).
  apply copy_from_slice_Ok in H. rewrite Hk, take_ge in H by (rewrite length_drop, Hvl, Hpl; lia).
  apply key_bits_fold in H as Hkb; [|done|by rewrite Hvl, Hpl|done|done].
  assert (Hcs : checksum15 rk = Ok (bits_val (concat (map bits5 cvs)))).
  { rewrite H, <- fold5_val.
    - rewrite Hk, take_ge in Ha7 by (rewrite length_drop, Hvl, Hpl; lia). by rewrite Ha7.
    - apply collect_Ok, Forall2_length in Ha6. lia.
    - apply collect_Ok in Ha6. clear -Ha6. induction Ha6; constructor; eauto using char_to_val_range. }
  unfold encode_data. cbv zeta. rewrite push_bits_app. change (push_bits [] 0 2) with [0; 0].
  change ([0; 0] ++ msb 128 (be_val rk)) with (key_bits rk). rewrite <- Hkb, Hvc. cbn [rbind].
  rewrite Hcs. cbn [rbind]. change (push_bits [] ?v 15) with (msb 15 v).
  rewrite Htl in Hcl. change 15%nat with (5 * 3)%nat. rewrite <- Hcl, msb_bits_val, Hcc by done.
  cbn [rbind]. by rewrite Hchars.
Qed.

Lemma encode_data_shape rk data :
  encode_data rk = Ok data ->
  length data = 30%nat /\ head data = Some VERSION_CHAR /\ Forall (.∈ CROCKFORD) data.
Proof.
  destruct (encode_data_ok rk)
    as (payload & vs & checksum & cvs & cs & -> & (Hpl & Hvs & _) & (Hcl & Hcvs & _) & _).
  intros [= <-]. split; [by apply length_concat_data|]. split; [done|].
  assert (Hin : forall l vs, collect char_to_val l = Ok vs -> Forall (.∈ CROCKFORD) l).
  { clear. intros l vs H%collect_Ok. induction H as [|c v l vs Hc _ IH]; constructor; [|done].
    unfold char_to_val in Hc. destruct (list_find _ _) as [[p x]|] eqn:E; [|done].
    apply list_find_Some in E as (Hp & -> & _). by eapply list_elem_of_lookup_2. }
  constructor; [|apply Forall_app; eauto]. by apply (list_elem_of_lookup_2 _ 10).
Qed.
End codec.

(** ** What a human may type *)

(** [t] is [s] with separators strewn in and each character read through [reads]. *)
Inductive transcribes (reads : Z -> Z -> bool) : text -> text -> Prop :=
| tr_nil : transcribes reads [] []
| tr_sep c s t : is_separator c = true -> transcribes reads s t -> transcribes reads s (c :: t)
| tr_char c d s t : reads d c = true -> transcribes reads s t -> transcribes reads (c :: s) (d :: t).

(** Either case of a letter; for data also a confusable glyph. *)
Definition same_letter (d c : Z) : bool := negb (is_separator d) && (to_ascii_uppercase d =? c).
Definition reads_as (d c : Z) : bool :=
  negb (is_separator d) && (fold_glyph (to_ascii_uppercase d) =? c).

Definition cleaned (t : text) : text := map to_ascii_uppercase (filter (fun c => negb (is_separator c)) t).

Lemma cleaned_app s t : cleaned (s ++ t) = cleaned s ++ cleaned t.
Proof. unfold cleaned. by rewrite filter_app, map_app. Qed.

Lemma cleaned_cons c t :
  cleaned (c :: t) = if is_separator c then cleaned t else to_ascii_uppercase c :: cleaned t.
Proof. unfold cleaned. rewrite filter_cons. by destruct (is_separator c). Qed.

Lemma transcribes_letters s t : transcribes same_letter s t -> cleaned t = s.
Proof.
  induction 1 as [|c s t Hc _ IH|c d s t Hd _ IH]; [done| |]; rewrite cleaned_cons.
  - by rewrite Hc.
  - unfold same_letter in Hd. bools. rewrite H. by f_equal.
Qed.

Lemma transcribes_data s t : transcribes reads_as s t -> map fold_glyph (cleaned t) = s.
Proof.
  induction 1 as [|c s t Hc _ IH|c d s t Hd _ IH]; [done| |]; rewrite cleaned_cons.
  - by rewrite Hc.
  - unfold reads_as in Hd. bools. rewrite H. cbn. by f_equal.
Qed.

Lemma fold_glyph_A c : fold_glyph c = VERSION_CHAR -> c = VERSION_CHAR.
Proof. unfold fold_glyph. repeat case_match; done. Qed.

(** Without the prefix nothing is stripped: the first data character is the version. *)
Lemma strip_data t data :
  map fold_glyph (cleaned t) = data -> head data = Some VERSION_CHAR ->
  strip_prefix (lit "SNTL") (cleaned t) = None.
Proof.
  intros <- H. destruct (cleaned t) as [|c l]; [done|]. cbn in H. injection H as H%fold_glyph_A. by subst.
Qed.

Lemma normalize_transcription data t1 t2 :
  length data = 30%nat -> head data = Some VERSION_CHAR -> transcribes reads_as data t2 ->
  t1 = [] \/ transcribes same_letter (lit "SNTL") t1 ->
  normalize (t1 ++ t2) = Ok data.
Proof.
  intros Hl Hh Ht Hpre. unfold normalize. cbv zeta. fold (cleaned (t1 ++ t2)). rewrite cleaned_app.
  apply transcribes_data in Ht as Hd.
  assert (default (cleaned t1 ++ cleaned t2) (strip_prefix (lit "SNTL") (cleaned t1 ++ cleaned t2)) = cleaned t2)
    as ->.
  { destruct Hpre as [-> | ->%transcribes_letters].
    - change (cleaned [] ++ cleaned t2) with (cleaned t2). by rewrite (strip_data t2 data).
    - by rewrite (proj2 (strip_prefix_Some _ _ _) eq_refl). }
  by rewrite Hd, Hl.
Qed.

(** The printed form is such a transcription. *)
Lemma transcribes_self s :
  Forall (fun c => reads_as c c = true) s -> transcribes reads_as s s.
Proof. induction 1; [constructor|]. by apply tr_char. Qed.

Lemma crockford_reads c : c ∈ CROCKFORD -> reads_as c c = true.
Proof.
  assert (H : Forall (fun c => reads_as c c = true) CROCKFORD) by (repeat constructor).
  rewrite Forall_forall in H. apply H.
Qed.

Lemma transcribes_app r s1 s2 t1 t2 :
  transcribes r s1 t1 -> transcribes r s2 t2 -> transcribes r (s1 ++ s2) (t1 ++ t2).
Proof. intros H1 H2. induction H1; cbn; [done|by apply tr_sep|by apply tr_char]. Qed.

Lemma transcribes_join ls :
  Forall (Forall (.∈ CROCKFORD)) ls -> transcribes reads_as (concat ls) (join (lit "-") ls).
Proof.
  induction 1 as [|p ls Hp Hls IH]; [constructor|]. cbn [concat join].
  assert (Hpp : transcribes reads_as p p)
    by (apply transcribes_self; eapply Forall_impl; [exact Hp|apply crockford_reads]).
  destruct ls as [|q ls].
  - cbn. by rewrite app_nil_r.
  - apply transcribes_app; [done|]. by apply tr_sep.
Qed.

Lemma crockford_ascii s : Forall (.∈ CROCKFORD) s -> Forall is_ascii s.
Proof.
  intros H. eapply Forall_impl; [exact H|]. intros c Hc.
  assert (Ha : Forall (fun c => (0 <=? c) && (c <? 128) = true) CROCKFORD) by (repeat constructor).
  rewrite Forall_forall in Ha. apply Ha in Hc. bools. by split.
Qed.

(** Six groups of five. *)
Lemma data_groups rk `{CryptoPrims} data :
  encode_data rk = Ok data ->
  exists gs, chunks 5 data = gs /\ data = concat gs /\ length gs = 6%nat
    /\ Forall (fun g => length g = 5%nat) gs /\ Forall (Forall (.∈ CROCKFORD)) gs.
Proof.
  intros (Hl & _ & Hc)%encode_data_shape. destruct (pieces 5 6 data) as (gs & -> & Hn & H5); [done|].
  exists gs. rewrite chunks_concat by (auto; lia). repeat split; auto. clear -Hc.
  induction gs; [constructor|]. cbn in Hc. apply Forall_app in Hc as [? ?]. constructor; auto.
Qed.

Lemma chunks_map {A B} (f : A -> B) k l : chunks k (map f l) = map (map f) (chunks k l).
Proof.
  unfold chunks. rewrite length_map. generalize (length l) as n. intros n; revert l.
  induction n as [|n IH]; intros [|x l]; cbn [chunks_fuel map]; try done. f_equal.
  - change (f x :: map f l) with (map f (x :: l)). symmetry. apply fmap_take.
  - change (f x :: map f l) with (map f (x :: l)). rewrite <- IH. f_equal. symmetry. apply fmap_drop.
Qed.

Section claims.
Context {P : CryptoPrims}.

Lemma encode_ok rk : exists data, encode_data rk = Ok data /\ encode rk = Ok (group data).
Proof.
  destruct (encode_data_ok rk) as (payload & vs & checksum & cvs & cs & Hd & _).
  eexists; split; [exact Hd|]. pose proof (encode_data_shape _ _ Hd) as (Hl & _).
  unfold encode. rewrite Hd. cbn [rbind]. by rewrite Hl.
Qed.

Lemma normalize_group rk data : encode_data rk = Ok data -> normalize (group data) = Ok data.
Proof.
  intros Hd. pose proof (encode_data_shape _ _ Hd) as (Hl & Hh & _).
  destruct (data_groups _ _ Hd) as (gs & Hgs & -> & _ & _ & Hc). unfold group. rewrite Hgs.
  apply normalize_transcription; [done..|by apply transcribes_join|right].
  repeat (apply tr_char; [done|]). by apply tr_sep; [|constructor].
Qed.

Lemma groups_encode rk data :
  encode_data rk = Ok data -> groups (group data) = Ok (map utf8 (chunks 5 data)).
Proof.
  intros Hd. unfold groups. rewrite (normalize_group _ _ Hd). cbn [rbind].
  destruct (data_groups _ _ Hd) as (gs & -> & -> & Hn & H5 & Hc).
  assert (Ha : Forall (Forall is_ascii) gs) by (eapply Forall_impl; [exact Hc|apply crockford_ascii]).
  assert (Hac : Forall is_ascii (concat gs)) by (clear -Ha; induction Ha; [constructor|by apply Forall_app]).
  rewrite (utf8_ascii _ Hac), chunks_map, chunks_concat by (auto; lia).
  rewrite length_map, Hn. cbn [Nat.eqb]. f_equal. clear -Ha.
  induction Ha as [|g gs Hg _ IH]; cbn; [done|]. by rewrite utf8_ascii, IH.
Qed.

Lemma char_to_val_no_panic c : char_to_val c <> Panic.
Proof. unfold char_to_val. repeat case_match; done. Qed.

Lemma decode_data_total chars : length chars = 30%nat -> decode_data chars <> Panic.
Proof.
  intros Hl. unfold decode_data. cbv zeta.
  repeat first
    [ match goal with |- rbind _ _ <> Panic => apply rbind_no_panic; [|intros ? ?] end
    | match goal with |- (if ?b then _ else _) <> Panic => destruct b eqn:?; [|done] end ].
  - apply index_no_panic. lia.
  - apply slice_no_panic. lia.
  - apply collect_no_panic, char_to_val_no_panic.
  - apply bits_of_chars in H1 as (_ & H1 & _). apply slice_Ok in H0 as [_ ->].
    rewrite length_take, length_drop in H1. apply index_no_panic. lia.
  - apply bits_of_chars in H1 as (_ & H1 & _). apply slice_Ok in H0 as [_ ->].
    rewrite length_take, length_drop in H1. apply index_no_panic. lia.
  - apply bits_of_chars in H1 as (_ & H1 & _). apply slice_Ok in H0 as [_ ->].
    rewrite length_take, length_drop in H1. apply slice_no_panic. lia.
  - apply slice_no_panic. lia.
  - apply collect_no_panic, char_to_val_no_panic.
  - match goal with |- checksum15 ?k <> _ => destruct (checksum15_ok k) as (cs & -> & _) end. done.
  - apply copy_from_slice_no_panic, length_be_bytes.
Qed.

Lemma decode_total display : decode display <> Panic.
Proof.
  unfold decode. apply rbind_no_panic; [|intros data Hd].
  - unfold normalize. cbv zeta. by case_match.
  - apply decode_data_total. unfold normalize in Hd. cbv zeta in Hd. inv_result. by bools.
Qed.

Lemma entered_chars e : Forall is_char e -> Forall is_char (entered_folded e).
Proof.
  intros H. unfold entered_folded.
  assert (Ht : Forall is_char (trim e)) by (by apply trim_Forall).
  apply Forall_fmap, Forall_fmap. eapply Forall_impl; [exact Ht|]. intros c Hc. cbn.
  unfold is_char, fold_glyph, to_ascii_uppercase in *. repeat case_match; bools; cbn; lia.
Qed.

Lemma group_eq g e :
  Forall (.∈ CROCKFORD) g -> Forall is_char e ->
  bool_decide (utf8 g = utf8 (entered_folded e)) = bool_decide (g = entered_folded e).
Proof.
  intros Hg He. apply bool_decide_ext. split; [|by intros ->]. intros H. symmetry.
  apply utf8_ascii_inj; auto using entered_chars, crockford_ascii.
Qed.

Lemma challenge_loop_two gs i j e1 e2 :
  length gs = 6%nat -> Forall (Forall (.∈ CROCKFORD)) gs -> Forall is_char e1 -> Forall is_char e2 ->
  0 <= i < 6 -> 0 <= j < 6 ->
  challenge_loop (map utf8 gs) [(i, e1); (j, e2)] true
  = Ok (bool_decide (gs !! Z.to_nat i = Some (entered_folded e1) /\ gs !! Z.to_nat j = Some (entered_folded e2))).
Proof.
  intros Hn Hc H1 H2 Hi Hj. cbn [challenge_loop].
  destruct (lookup_lt_is_Some_2 gs (Z.to_nat i)) as [gi Hgi]; [lia|].
  destruct (lookup_lt_is_Some_2 gs (Z.to_nat j)) as [gj Hgj]; [lia|].
  rewrite !(proj2 (Z.leb_gt _ _)) by lia.
  rewrite (index_lookup _ (Z.to_nat i) (utf8 gi)) by (by rewrite list_lookup_fmap, Hgi).
  rewrite (index_lookup _ (Z.to_nat j) (utf8 gj)) by (by rewrite list_lookup_fmap, Hgj).
  cbn [rbind]. rewrite !group_eq by (done || by eapply (Forall_lookup_1 _ _ _ _ Hc)).
  cbn [andb]. f_equal. rewrite <- bool_decide_and, Hgi, Hgj. apply bool_decide_ext. naive_solver.
Qed.

(** C10: a recovery key survives printing and typing. [encode] always produces the 40-character
    display form, and [decode] gives the key back on every transcription of its data: with or
    without the [SNTL] prefix, with any separators, in either case, with [I]/[L] for [1] and
    [O] for [0]. *)
Theorem recovery_key_transcription rk :
  exists data, encode rk = Ok (group data) /\ length (group data) = 40%nat
    /\ decode (group data) = Ok rk
    /\ forall t1 t2, (t1 = [] \/ transcribes same_letter (lit "SNTL") t1) ->
         transcribes reads_as data t2 -> decode (t1 ++ t2) = Ok rk.
Proof.
  destruct (encode_ok rk) as (data & Hd & He). exists data. split; [done|].
  pose proof (encode_data_shape _ _ Hd) as (Hl & Hh & _). split; [|split].
  - destruct (data_groups _ _ Hd) as (gs & Hgs & _ & Hn & H5 & _). unfold group. rewrite Hgs.
    destruct gs as [|g1 [|g2 [|g3 [|g4 [|g5 [|g6 [|]]]]]]]; try discriminate Hn.
    repeat match goal with H : Forall _ (_ :: _) |- _ => apply Forall_cons in H as [? ?] end.
    cbn [join]. rewrite !length_app. cbn. lia.
  - unfold decode. rewrite (normalize_group _ _ Hd). by apply decode_data_encode.
  - intros t1 t2 Hpre Ht. unfold decode. rewrite (normalize_transcription data) by done.
    by apply decode_data_encode.
Qed.

(** [decode] accepts exactly the canonical data of a key. Whatever it returns, the input
    normalizes to the 30 characters [encode] writes for that key, so the version, the zero pad
    bits and the checksum of the input were all those of the key. It never panics. *)
Theorem decode_exact display rk :
  (decode display = Ok rk <-> exists data, encode_data rk = Ok data /\ normalize display = Ok data)
  /\ decode display <> Panic.
Proof.
  split; [split|].
  - unfold decode. intros H. inv_result. rename a into data. exists data. split; [|done].
    apply decode_data_inv; [|done]. unfold normalize in Ha. cbv zeta in Ha. inv_result. by bools.
  - intros (data & Hd & Hn). unfold decode. rewrite Hn. by apply decode_data_encode.
  - apply decode_total.
Qed.

(** The onboarding challenge. On the display form of a key and two group indices in range,
    [verify_challenge] answers whether each entered text, trimmed, upper-cased and with its
    ambiguous glyphs folded, is the group of that index. An index of 6 or more is an error. *)
Theorem verify_challenge_correct rk display i j e1 e2 :
  encode rk = Ok display -> Forall is_char e1 -> Forall is_char e2 ->
  0 <= i < 6 -> 0 <= j < 6 ->
  exists gs, display = lit "SNTL-" ++ join (lit "-") gs /\ length gs = 6%nat
    /\ verify_challenge display (i, j) (e1, e2)
       = Ok (bool_decide (gs !! Z.to_nat i = Some (entered_folded e1) /\ gs !! Z.to_nat j = Some (entered_folded e2)))
    /\ forall k, 6 <= k -> verify_challenge display (k, j) (e1, e2) = Err (Invalid "group index out of range").
Proof.
  intros He H1 H2 Hi Hj. destruct (encode_ok rk) as (data & Hd & He'). rewrite He in He'. injection He' as ->.
  destruct (data_groups _ _ Hd) as (gs & Hgs & _ & Hn & _ & Hc). exists gs. unfold group at 1. rewrite Hgs.
  do 2 (split; [done|]). unfold verify_challenge. rewrite (groups_encode _ _ Hd), Hgs. cbn [rbind fst snd].
  split; [by apply challenge_loop_two|]. intros k Hk. cbn [challenge_loop].
  by rewrite (proj2 (Z.leb_le _ _) Hk).
Qed.
End claims.

(** The challenge on a concrete key: groups 1 and 4, typed in lower case with blanks. *)
Definition demo_key : RecoveryKey := arr_fill 16 Byte.x5a.
Definition demo_display : text := Eval vm_compute in
  match encode demo_key with Ok t => t | _ => [] end.

Lemma verify_challenge_correct_witness :
  exists gs, demo_display = lit "SNTL-" ++ join (lit "-") gs /\ length gs = 6%nat
    /\ verify_challenge demo_display (1, 4) (lit " bd5md ", lit "tb9cp")
       = Ok (bool_decide (gs !! 1%nat = Some (entered_folded (lit " bd5md "))
                         /\ gs !! 4%nat = Some (entered_folded (lit "tb9cp"))))
    /\ forall k, 6 <= k ->
         verify_challenge demo_display (k, 4) (lit " bd5md ", lit "tb9cp") = Err (Invalid "group index out of range").
Proof.
  apply (verify_challenge_correct demo_key demo_display 1 4); [vm_compute; reflexivity| | |lia|lia];
    repeat constructor; vm_compute; discriminate.
Defined.
End RecoveryKit.
