(* ===== verification/Keyring.v ===== *)
(** [crates/core/src/keyring]: the wrapped vault key. [WrappedBlob] is the envelope
    ["SNTL" | ver | wrapper_type | params_len u16 LE | params | nonce(24) | ct(48)];
    the four wrappers derive their key-encryption key differently and share it. *)
From S2P Require Import Prelude Bytes Text Crypto Toy RecoveryKit.
Local Open Scope Z_scope.

Module WrapperType.
Inductive t : Type := Platform | Phone | Recovery | Password.

#[global] Instance eq_dec : EqDecision t.
Proof. solve_decision. Defined.

Definition code (w : t) : Z :=
  match w with Platform => 1 | Phone => 2 | Recovery => 3 | Password => 4 end.

Definition from_code (b : Z) : Result t :=
  match b with
  | 1 => Ok Platform
  | 2 => Ok Phone
  | 3 => Ok Recovery
  | 4 => Ok Password
  | other => Err (Format "wrapped blob" ("unknown wrapper_type " +:+ pretty other))
  end.

Lemma from_code_code w : from_code (code w) = Ok w.
Proof. by destruct w. Qed.

Lemma from_code_Ok b w : from_code b = Ok w -> b = code w.
Proof. destruct b as [|[[]|[]|]|]; cbn; try discriminate; try (intros [= <-]; reflexivity);
  destruct p; try discriminate; intros [= <-]; reflexivity. Qed.

Lemma from_code_no_panic b : from_code b <> Panic.
Proof. unfold from_code. repeat case_match; discriminate. Qed.

Lemma code_byte w : byte_to_Z (byte_of_Z (code w)) = code w.
Proof. by destruct w. Qed.
End WrapperType.

(** The vault key: a newtype over [Key32]. *)
Abbreviation VaultKey := (arr 32).

Record WrappedBlob_t : Type := MkBlob {
  wrapper : WrapperType.t;
  blob_bytes : bytes;
}.

Module WrappedBlob.
Definition MAGIC : bytes := utf8 (lit "SNTL").
Definition VERSION : byte := Byte.x01.

(** [(params.len() as u16)] keeps the low 16 bits of the length. *)
Definition header (w : WrapperType.t) (params : bytes) : bytes :=
  MAGIC ++ [VERSION] ++ [byte_of_Z (WrapperType.code w)]
  ++ le_bytes 2 (Z.of_nat (length params)) ++ params.

(** Parse and validate the envelope: [(params, nonce, ciphertext)]. *)
Definition parse (self : WrappedBlob_t) : Result (bytes * Nonce24 * bytes) :=
  let b := blob_bytes self in
  guard negb (length b <? 8)%nat else Err (Format "wrapped blob" "too short") in
  let? magic := slice b 0 4 in
  guard bool_decide (magic = MAGIC) else Err (Format "wrapped blob" "bad magic") in
  let? b4 := index b 4 in
  guard bool_decide (b4 = VERSION)
    else Err (Format "wrapped blob" ("unsupported version " +:+ pretty (byte_to_Z b4))) in
  let? b5 := index b 5 in
  let? wt := WrapperType.from_code (byte_to_Z b5) in
  guard bool_decide (wt = wrapper self)
    else Err (Format "wrapped blob" "wrapper_type mismatch") in
  let? b6 := index b 6 in
  let? b7 := index b 7 in
  let params_len := Z.to_nat (le_val [b6; b7]) in
  let header_end := (8 + params_len)%nat in
  guard (length b =? header_end + 24 + 48)%nat
    else Err (Format "wrapped blob" "bad length") in
  let? params := slice b 8 header_end in
  let? nb := slice b header_end (header_end + 24) in
  let? nonce := copy_from_slice 24 nb in
  let? ct := slice_from b (header_end + 24) in
  Ok (params, nonce, ct).

Definition params (self : WrappedBlob_t) : Result bytes :=
  let? (params, _, _) := parse self in Ok params.

Section with_crypto.
Context {P : CryptoPrims}.

Definition seal (nonce : Nonce24) (w : WrapperType.t) (kek : Key32) (params : bytes) (vk : VaultKey)
    : WrappedBlob_t :=
  let header := header w params in
  let '(nonce, ct) := crypto.seal nonce kek header vk in
  MkBlob w (header ++ nonce ++ ct).

Definition open (self : WrappedBlob_t) (kek : Key32) : Result VaultKey :=
  let? (_, nonce, ct) := parse self in
  let header_end := (length (blob_bytes self) - 24 - 48)%nat in
  let? header := slice (blob_bytes self) 0 header_end in
  let? pt := crypto.open kek header nonce ct in
  guard (length pt =? 32)%nat
    else Err (Format "wrapped blob" "unwrapped key not 32 bytes") in
  copy_from_slice 32 pt.
End with_crypto.

(** ** The layout *)

Lemma header_cons w p :
  header w p =
    Byte.x53 :: Byte.x4e :: Byte.x54 :: Byte.x4c :: VERSION :: byte_of_Z (WrapperType.code w)
    :: byte_of_Z (Z.of_nat (length p)) :: byte_of_Z (Z.of_nat (length p) / 256) :: p.
Proof. reflexivity. Qed.

Lemma length_header w p : length (header w p) = (8 + length p)%nat.
Proof. rewrite header_cons. reflexivity. Qed.

Definition header8 w (p : bytes) : bytes :=
  MAGIC ++ [VERSION] ++ [byte_of_Z (WrapperType.code w)] ++ le_bytes 2 (Z.of_nat (length p)).

Lemma header_split w p : header w p = header8 w p ++ p.
Proof. reflexivity. Qed.

Lemma length_header8 w p : length (header8 w p) = 8%nat.
Proof. reflexivity. Qed.

(** Past the magic, the version and the type, an assembled header leaves the length test. *)
Definition parse_body (b : bytes) (params_len : nat) : Result (bytes * Nonce24 * bytes) :=
  let header_end := (8 + params_len)%nat in
  guard (length b =? header_end + 24 + 48)%nat
    else Err (Format "wrapped blob" "bad length") in
  let? params := slice b 8 header_end in
  let? nb := slice b header_end (header_end + 24) in
  let? nonce := copy_from_slice 24 nb in
  let? ct := slice_from b (header_end + 24) in
  Ok (params, nonce, ct).

Lemma parse_header w p rest :
  parse (MkBlob w (header w p ++ rest))
  = parse_body (header w p ++ rest) (Z.to_nat (le_val (le_bytes 2 (Z.of_nat (length p))))).
Proof.
  unfold parse. cbv zeta. cbn [blob_bytes wrapper]. rewrite length_app, length_header.
  replace (8 + length p + length rest <? 8)%nat with false by (symmetry; apply Nat.ltb_ge; lia).
  cbn [negb]. rewrite (slice_ok _ 0 4) by (rewrite length_app, length_header; lia).
  cbn [rbind]. rewrite bool_decide_true by reflexivity.
  rewrite (index_lookup _ 4 VERSION), (index_lookup _ 5 (byte_of_Z (WrapperType.code w))),
    (index_lookup _ 6 (byte_of_Z (Z.of_nat (length p)))),
    (index_lookup _ 7 (byte_of_Z (Z.of_nat (length p) / 256))) by reflexivity.
  cbn [rbind]. rewrite bool_decide_true by done. rewrite WrapperType.code_byte, WrapperType.from_code_code.
  cbn [rbind]. rewrite bool_decide_true by done.
  unfold parse_body. cbv zeta. rewrite length_app, length_header. reflexivity.
Qed.

(** Parsing inverts assembling, on every envelope whose length field does not wrap. *)
Lemma parse_assemble w p (n : Nonce24) c :
  Z.of_nat (length p) < 65536 -> length c = 48%nat ->
  parse (MkBlob w (header w p ++ n ++ c)) = Ok (p, n, c).
Proof.
  intros Hp Hc. rewrite parse_header, le_val_le_bytes_small, Nat2Z.id by lia.
  unfold parse_body. cbv zeta. rewrite !length_app, length_header, length_arr, Hc.
  replace (_ =? _)%nat with true by (symmetry; apply Nat.eqb_eq; lia).
  rewrite header_split at 1. rewrite <- app_assoc.
  rewrite (slice_app _ p) by (rewrite ?length_header8; lia). cbn [rbind].
  rewrite (slice_app _ n) by (rewrite ?length_header, ?length_arr; lia).
  cbn [rbind]. rewrite copy_from_slice_arr. cbn [rbind].
  rewrite app_assoc, slice_from_app by (rewrite length_app, length_header, length_arr; lia). done.
Qed.

Lemma parse_oversize w p (n : Nonce24) c :
  65536 <= Z.of_nat (length p) -> length c = 48%nat ->
  parse (MkBlob w (header w p ++ n ++ c)) = Err (Format "wrapped blob" "bad length").
Proof.
  intros Hp Hc. rewrite parse_header, le_val_le_bytes. unfold parse_body. cbv zeta.
  rewrite !length_app, length_header, length_arr, Hc.
  pose proof (Z.mod_pos_bound (Z.of_nat (length p)) (256 ^ Z.of_nat 2)).
  change (256 ^ Z.of_nat 2) with 65536 in *.
  replace (_ =? _)%nat with false by (symmetry; apply Nat.eqb_neq; lia). done.
Qed.

Lemma parse_no_panic blob : parse blob <> Panic.
Proof. unfold parse. cbv zeta. no_panic. apply WrapperType.from_code_no_panic. Qed.

(** ... and accepts nothing else: a blob that parses is an assembled envelope. *)
Lemma parse_inv blob p (n : Nonce24) c :
  parse blob = Ok (p, n, c) ->
  blob_bytes blob = header (wrapper blob) p ++ n ++ c
  /\ Z.of_nat (length p) < 65536 /\ length c = 48%nat.
Proof.
  destruct blob as [w b]. unfold parse. cbv zeta. cbn [blob_bytes wrapper]. intros H. inv_result.
  bools. subst.
  apply WrapperType.from_code_Ok in Ha2. apply copy_from_slice_Ok in Ha7.
  repeat match goal with
  | H : slice _ _ _ = Ok _ |- _ => apply slice_Ok in H as [? ?]
  | H : slice_from _ _ = Ok _ |- _ => apply slice_from_Ok in H as [? ?]
  end.
  destruct b as [|c0 [|c1 [|c2 [|c3 [|c4 [|c5 [|c6 [|c7 b]]]]]]]]; try (cbn [length] in *; lia).
  cbn in Ha0, Ha1, Ha3, Ha4. injection Ha0 as ->. injection Ha1 as ->.
  injection Ha3 as ->. injection Ha4 as ->. pose proof (le_val_range [a3; a4]) as Hr.
  set (k := Z.to_nat (le_val [a3; a4])) in *. change (Z.of_nat (length [a3; a4])) with 2 in Hr.
  cbn [length] in Eg3. assert (Hb : length b = (k + 24 + 48)%nat) by lia.
  replace (8 + k - 8)%nat with k in * by lia. replace (8 + k + 24 - (8 + k))%nat with 24%nat in * by lia.
  change (drop 8 (_ :: _)) with b in *. change (drop (8 + k + 24) _) with (drop (k + 24) b) in *.
  change (drop (8 + k) _) with (drop k b) in *.
  assert (Hp : length p = k) by (subst p; rewrite length_take; lia).
  split; [|split; [lia | subst c; rewrite length_drop; lia]].
  unfold header. rewrite Hp. unfold k at 1. rewrite Z2Nat.id by lia.
  rewrite (le_bytes_le_val [a3; a4] : le_bytes 2 _ = _).
  change (take (4 - 0) _) with [c0; c1; c2; c3] in H4. rewrite H4.
  rewrite <- Ha2, byte_of_to_Z, Ha7, H0, H2, H6. cbn. repeat f_equal. apply take_take_drop.
Qed.
(** ** Sealing and opening *)

Section laws.
Context {P : CryptoPrims} {L : CryptoLaws P}.

Lemma seal_bytes n w kek p vk :
  seal n w kek p vk = MkBlob w (header w p ++ n ++ aead_encrypt kek n (header w p) (arr_bytes vk)).
Proof. reflexivity. Qed.

Lemma length_sealed (kek : Key32) (n : Nonce24) ad (vk : VaultKey) :
  length (aead_encrypt kek n ad (arr_bytes vk)) = 48%nat.
Proof. by rewrite aead_len, length_arr. Qed.

Lemma params_seal n w kek p vk : Z.of_nat (length p) < 65536 -> params (seal n w kek p vk) = Ok p.
Proof. intros Hp. unfold params. rewrite seal_bytes, parse_assemble by auto using length_sealed. done. Qed.

(** Opening an assembled envelope decrypts its ciphertext under its own header. *)
Lemma open_assembled w p (n : Nonce24) c kek :
  Z.of_nat (length p) < 65536 -> length c = 48%nat ->
  open (MkBlob w (header w p ++ n ++ c)) kek =
    (let? pt := crypto.open kek (header w p) n c in
     guard (length pt =? 32)%nat
       else Err (Format "wrapped blob" "unwrapped key not 32 bytes") in
     copy_from_slice 32 pt).
Proof.
  intros Hp Hc. unfold open. rewrite parse_assemble by done. cbn [rbind blob_bytes].
  rewrite slice_prefix by (rewrite !length_app, length_header, length_arr, Hc; lia). done.
Qed.

Lemma open_seal n w kek p vk :
  Z.of_nat (length p) < 65536 -> open (seal n w kek p vk) kek = Ok vk.
Proof.
  intros Hp. rewrite seal_bytes, open_assembled, crypto.open_enc by auto using length_sealed.
  cbn [rbind]. rewrite length_arr. apply copy_from_slice_arr.
Qed.

Lemma open_oversize n w kek p vk :
  65536 <= Z.of_nat (length p) ->
  open (seal n w kek p vk) kek = Err (Format "wrapped blob" "bad length").
Proof. intros Hp. unfold open. by rewrite seal_bytes, parse_oversize by auto using length_sealed. Qed.

Lemma open_inv blob kek vk :
  open blob kek = Ok vk ->
  exists n p, Z.of_nat (length p) < 65536 /\ blob = seal n (wrapper blob) kek p vk.
Proof.
  intros H. pose proof H as H0. unfold open in H0. inv_result. destruct a as [[p n] c].
  apply parse_inv in Ha as (Hb & Hp & Hc). clear H0. exists n, p. split; [done|].
  destruct blob as [w b]; cbn [blob_bytes wrapper] in *. subst b.
  rewrite open_assembled in H by done. inv_result. apply crypto.open_Ok, aead_tidy in Ha.
  apply copy_from_slice_Ok in H. rewrite seal_bytes. by rewrite H, Ha.
Qed.

Lemma blob_open_no_panic blob kek : open blob kek <> Panic.
Proof.
  destruct (parse blob) as [[[p n] c]|e|] eqn:E.
  - destruct blob as [w b]. apply parse_inv in E as (Hb & Hp & Hc). cbn [blob_bytes wrapper] in Hb. subst b.
    rewrite open_assembled by done. no_panic.
  - unfold open. by rewrite E.
  - by destruct (parse_no_panic blob).
Qed.

(** The header binds the wrapper type and the parameters. *)
Lemma header_inj w p w' p' :
  header w p = header w' p' -> w = w' /\ p = p'.
Proof.
  intros H. rewrite !header_cons in H. injection H as Hw _ _ Hp. split; [|done].
  apply (f_equal byte_to_Z) in Hw. rewrite !WrapperType.code_byte in Hw. by destruct w, w'.
Qed.

Lemma app3_inj (p p' : bytes) (n n' : Nonce24) (c c' : bytes) :
  length c = length c' -> p ++ n ++ c = p' ++ n' ++ c' -> p = p' /\ n = n' /\ c = c'.
Proof.
  intros Hc H. rewrite !app_assoc in H. apply app_inj_2 in H as [H ->]; [|done].
  apply app_inj_2 in H as [-> Hn]; [|by rewrite !length_arr]. by apply arr_eq in Hn.
Qed.

(** A blob keeping the nonce and the ciphertext of a sealed one opens under another key,
    another type or other parameters only by a forgery of the cipher. *)
Lemma open_rebound (n : Nonce24) w kek p (vk : VaultKey) w' p' kek' vk' :
  Z.of_nat (length p) < 65536 -> Z.of_nat (length p') < 65536 ->
  (w', p', kek') <> (w, p, kek) ->
  open (MkBlob w' (header w' p' ++ n ++ aead_encrypt kek n (header w p) (arr_bytes vk))) kek' = Ok vk' ->
  crypto.forgery kek n (header w p) kek' n (header w' p') (arr_bytes vk).
Proof.
  intros Hp Hp' Hne H. rewrite open_assembled in H by auto using length_sealed.
  inv_result. apply crypto.open_Ok in Ha. split; [|by eexists].
  destruct (decide (kek = kek')) as [->|]; [|by left]. right; right.
  intros [-> ->]%header_inj. by destruct Hne.
Qed.
End laws.
End WrappedBlob.
#[global] Arguments WrappedBlob.seal : simpl never.
#[global] Arguments WrappedBlob.open : simpl never.
#[global] Arguments WrappedBlob.params : simpl never.

(** * [keyring/password.rs], [keyring/recovery.rs], [keyring/phone.rs], [keyring/mock.rs] *)

(** The trait [KeyWrapper]: [S] is the shared state the wrapper reaches through its [Arc]s,
    [R] the random bytes one [wrap] draws. [env_step] is what the surroundings may do to
    that state between calls, [authorized] when an unwrap may be granted. *)
Class KeyWrapper (W S R : Type) : Type := {
  wrapper_type : W -> WrapperType.t;
  wrap : W -> R -> VaultKey -> S -> Result WrappedBlob_t * S;
  unwrap : W -> WrappedBlob_t -> S -> Result VaultKey * S;
  env_step : S -> S -> Prop;
  authorized : W -> S -> bool;
}.

(** What a client of the keyring relies on, whichever wrapper it holds. *)
Class KeyWrapperLaws (W S R : Type) {K : KeyWrapper W S R} : Prop := {
  wrap_type w r vk s b s' : wrap w r vk s = (Ok b, s') -> wrapper b = wrapper_type w;
  unwrap_wrap w r vk s b s' s'' :
    wrap w r vk s = (Ok b, s') -> rtc env_step s' s'' -> authorized w s'' = true ->
    fst (unwrap w b s'') = Ok vk;
  unwrap_authorized w b s vk : fst (unwrap w b s) = Ok vk -> authorized w s = true;
  unwrap_no_panic w b s : fst (unwrap w b s) <> Panic;
}.

Module PasswordWrapper.
Record t : Type := MkPasswordWrapper { password : bytes; profile : Argon2Profile.t }.

Section ops.
Context {P : CryptoPrims}.

Definition with_profile (password : text) (profile : Argon2Profile.t) : t :=
  MkPasswordWrapper (utf8 password) profile.

Definition derive_kek (self : t) (salt : arr 16) : Key32 :=
  crypto.argon2id_kek (password self) salt (profile self).

Definition login_proof_from_kek (kek : Key32) : Key32 := crypto.hkdf32 kek None Info.AuthLogin.

Definition login_proof (self : t) (salt : arr 16) : Key32 :=
  login_proof_from_kek (derive_kek self salt).

Definition wrap (self : t) (salt : arr 16) (nonce : Nonce24) (vk : VaultKey) : Result WrappedBlob_t :=
  let kek := derive_kek self salt in
  Ok (WrappedBlob.seal nonce WrapperType.Password kek salt vk).

Definition unwrap (self : t) (blob : WrappedBlob_t) : Result VaultKey :=
  let? params := WrappedBlob.params blob in
  guard (length params =? 16)%nat
    else Err (Format "password blob" "params must be a 16-byte salt") in
  let? salt := copy_from_slice 16 params in
  let kek := derive_kek self salt in
  WrappedBlob.open blob kek.
End ops.
End PasswordWrapper.

Module RecoveryWrapper.
Record t : Type := MkRecoveryWrapper { key : RecoveryKey; profile : Argon2Profile.t }.

Section ops.
Context {P : CryptoPrims}.

Definition derive_kek (self : t) (salt : arr 16) : Key32 :=
  let stretched := crypto.argon2id_kek (key self) salt (profile self) in
  crypto.hkdf32 stretched None Info.WrapRecovery.

Definition wrap (self : t) (salt : arr 16) (nonce : Nonce24) (vk : VaultKey) : Result WrappedBlob_t :=
  let kek := derive_kek self salt in
  Ok (WrappedBlob.seal nonce WrapperType.Recovery kek salt vk).

Definition unwrap (self : t) (blob : WrappedBlob_t) : Result VaultKey :=
  let? params := WrappedBlob.params blob in
  guard (length params =? 16)%nat
    else Err (Format "recovery blob" "params must be a 16-byte salt") in
  let? salt := copy_from_slice 16 params in
  let kek := derive_kek self salt in
  WrappedBlob.open blob kek.
End ops.
End RecoveryWrapper.

(** The trait [UnlockRelay], over the relay's shared state. *)
Class UnlockRelay (S : Type) : Type := {
  provision_share : arr 16 -> arr 32 -> S -> Result unit * S;
  request_share : arr 16 -> S -> Result bytes * S;
}.

Module PhoneShareWrapper.
Record t : Type := MkPhoneShareWrapper { pairing_id : arr 16 }.

Section ops.
Context {P : CryptoPrims} {S : Type} {relay : UnlockRelay S}.

Definition derive_kek (self : t) (share : bytes) : Key32 :=
  crypto.hkdf32 share (Some (arr_bytes (pairing_id self))) Info.WrapPhoneShare.

Definition wrap (self : t) (share : arr 32) (nonce : Nonce24) (vk : VaultKey) (s : S)
    : Result WrappedBlob_t * S :=
  let '(r, s) := provision_share (pairing_id self) share s in
  ((let? _ := r in
    let kek := derive_kek self share in
    Ok (WrappedBlob.seal nonce WrapperType.Phone kek (pairing_id self) vk)), s).

Definition unwrap (self : t) (blob : WrappedBlob_t) (s : S) : Result VaultKey * S :=
  match WrappedBlob.params blob with
  | Ok params =>
      if bool_decide (params = arr_bytes (pairing_id self)) then
        let '(r, s) := request_share (pairing_id self) s in
        ((let? share := r in
          let kek := derive_kek self share in
          WrappedBlob.open blob kek), s)
      else (Err (Format "phone blob" "pairing id mismatch"), s)
  | Err e => (Err e, s)
  | Panic => (Panic, s)
  end.
End ops.
End PhoneShareWrapper.

Module MockRelay.
Record t : Type := MkMockRelay { store : gmap (arr 16) (arr 32); approved : bool }.

Definition approving : t := MkMockRelay ∅ true.
Definition denying : t := MkMockRelay ∅ false.
Definition set_approved (v : bool) (self : t) : t := MkMockRelay (store self) v.

Definition provision_share (pairing_id : arr 16) (share : arr 32) (self : t) : Result unit * t :=
  (Ok tt, MkMockRelay (<[pairing_id := share]> (store self)) (approved self)).

Definition request_share (pairing_id : arr 16) (self : t) : Result bytes * t :=
  ((guard approved self else Err (Unauthorized "phone denied the unlock request") in
    let? share := ok_or (store self !! pairing_id) (NotFound "no share for this pairing") in
    Ok (arr_bytes share)), self).
End MockRelay.

#[export] Instance mock_relay : UnlockRelay MockRelay.t := {|
  provision_share := MockRelay.provision_share;
  request_share := MockRelay.request_share;
|}.

Module MockBiometricWrapper.
(** The configuration; the approval flag is the shared state. *)
Record t : Type := MkMockBiometricWrapper { kek : Key32; consume : bool }.

Definition approve (_ : bool) : bool := true.
Definition deny (_ : bool) : bool := false.

Definition check_authorized (self : t) (approved : bool) : Result unit * bool :=
  let '(ok, approved) :=
    if consume self then (approved, false) else (approved, approved) in
  (if ok : bool then Ok tt else Err (Unauthorized "biometric prompt not approved"), approved).

Section ops.
Context {P : CryptoPrims}.

Definition wrap (self : t) (nonce : Nonce24) (vk : VaultKey) (approved : bool)
    : Result WrappedBlob_t * bool :=
  let '(r, approved) := check_authorized self approved in
  ((let? _ := r in
    Ok (WrappedBlob.seal nonce WrapperType.Platform (kek self) [] vk)), approved).

Definition unwrap (self : t) (blob : WrappedBlob_t) (approved : bool) : Result VaultKey * bool :=
  let '(r, approved) := check_authorized self approved in
  ((let? _ := r in WrappedBlob.open blob (kek self)), approved).
End ops.
End MockBiometricWrapper.

(** * The wrappers implement the interface *)

Section instances.
Context {P : CryptoPrims}.

(** The draws of one [wrap]: a salt and a nonce. *)
#[export] Instance password_wrapper : KeyWrapper PasswordWrapper.t unit (arr 16 * Nonce24) := {|
  wrapper_type _ := WrapperType.Password;
  wrap w r vk s := (PasswordWrapper.wrap w (fst r) (snd r) vk, s);
  unwrap w b s := (PasswordWrapper.unwrap w b, s);
  env_step _ _ := False;
  authorized _ _ := true;
|}.

#[export] Instance recovery_wrapper : KeyWrapper RecoveryWrapper.t unit (arr 16 * Nonce24) := {|
  wrapper_type _ := WrapperType.Recovery;
  wrap w r vk s := (RecoveryWrapper.wrap w (fst r) (snd r) vk, s);
  unwrap w b s := (RecoveryWrapper.unwrap w b, s);
  env_step _ _ := False;
  authorized _ _ := true;
|}.

#[export] Instance biometric_wrapper : KeyWrapper MockBiometricWrapper.t bool Nonce24 := {|
  wrapper_type _ := WrapperType.Platform;
  wrap := MockBiometricWrapper.wrap;
  unwrap := MockBiometricWrapper.unwrap;
  env_step s s' := s' = MockBiometricWrapper.approve s \/ s' = MockBiometricWrapper.deny s;
  authorized _ s := s;
|}.

(** On the in-memory relay: between calls the phone may be set to approve or to deny. *)
#[export] Instance phone_wrapper : KeyWrapper PhoneShareWrapper.t MockRelay.t (arr 32 * Nonce24) := {|
  wrapper_type _ := WrapperType.Phone;
  wrap w r vk s := PhoneShareWrapper.wrap w (fst r) (snd r) vk s;
  unwrap w b s := PhoneShareWrapper.unwrap w b s;
  env_step s s' := exists v, s' = MockRelay.set_approved v s;
  authorized _ s := MockRelay.approved s;
|}.

Context {L : CryptoLaws P}.

Lemma length16_small (a : arr 16) : Z.of_nat (length a) < 65536.
Proof. rewrite length_arr. lia. Qed.
Local Hint Resolve length16_small WrappedBlob.blob_open_no_panic : rust.

Lemma params_no_panic b : WrappedBlob.params b <> Panic.
Proof. unfold WrappedBlob.params. no_panic. apply WrappedBlob.parse_no_panic. Qed.
Local Hint Resolve params_no_panic : rust.

Lemma rtc_False {A} (x y : A) : rtc (fun _ _ => False) x y -> x = y.
Proof. by destruct 1. Qed.

#[export] Instance password_laws : KeyWrapperLaws PasswordWrapper.t unit (arr 16 * Nonce24).
Proof.
  split; cbn; [by intros w [salt n] vk s b s' [= <- <-]| |done|].
  - intros w [salt n] vk s b s' s'' [= <- _] _ _. unfold PasswordWrapper.unwrap. cbn [fst snd].
    rewrite WrappedBlob.params_seal by auto with rust. cbn [rbind]. rewrite length_arr. cbn [Nat.eqb].
    rewrite copy_from_slice_arr. cbn [rbind]. apply WrappedBlob.open_seal. auto with rust.
  - intros w b _. unfold PasswordWrapper.unwrap. no_panic.
Qed.

#[export] Instance recovery_laws : KeyWrapperLaws RecoveryWrapper.t unit (arr 16 * Nonce24).
Proof.
  split; cbn; [by intros w [salt n] vk s b s' [= <- <-]| |done|].
  - intros w [salt n] vk s b s' s'' [= <- _] _ _. unfold RecoveryWrapper.unwrap. cbn [fst snd].
    rewrite WrappedBlob.params_seal by auto with rust. cbn [rbind]. rewrite length_arr. cbn [Nat.eqb].
    rewrite copy_from_slice_arr. cbn [rbind]. apply WrappedBlob.open_seal. auto with rust.
  - intros w b _. unfold RecoveryWrapper.unwrap. no_panic.
Qed.

#[export] Instance biometric_laws : KeyWrapperLaws MockBiometricWrapper.t bool Nonce24.
Proof.
  split; cbn; unfold MockBiometricWrapper.wrap, MockBiometricWrapper.unwrap,
    MockBiometricWrapper.check_authorized; intros w.
  - intros n vk s b s'. destruct (MockBiometricWrapper.consume w), s; cbn; by intros [= <- <-].
  - intros n vk s b s' s'' Hw _ ->.
    destruct (MockBiometricWrapper.consume w), s; cbn in Hw |- *; try discriminate Hw;
      injection Hw as <- _; apply WrappedBlob.open_seal; cbn; lia.
  - intros b s vk. by destruct (MockBiometricWrapper.consume w), s.
  - intros b s. destruct (MockBiometricWrapper.consume w), s; cbn; auto with rust.
Qed.

(** The share the phone holds does not change between calls. *)
Lemma relay_env_store s s' :
  rtc (@env_step _ _ _ phone_wrapper) s s' -> MockRelay.store s' = MockRelay.store s.
Proof. induction 1 as [|s s1 s' [v ->] _ IH]; [done|]. by rewrite IH. Qed.

#[export] Instance phone_laws : KeyWrapperLaws PhoneShareWrapper.t MockRelay.t (arr 32 * Nonce24).
Proof.
  split; cbn -[env_step insert lookup]; unfold PhoneShareWrapper.wrap, PhoneShareWrapper.unwrap;
    cbn -[env_step insert lookup]; intros w.
  - by intros [share n] vk s b s' [= <- <-].
  - intros [share n] vk s b s' s'' [= <- <-] Hs%relay_env_store Ha. cbn [fst snd] in *.
    rewrite WrappedBlob.params_seal, bool_decide_true by auto with rust. cbn -[insert lookup] in *.
    rewrite Ha, Hs, lookup_insert_eq. cbn [ok_or rbind]. apply WrappedBlob.open_seal. auto with rust.
  - intros b s vk. destruct (WrappedBlob.params b); [|done..]. case_bool_decide; [|done]. cbn.
    by destruct (MockRelay.approved s).
  - intros b s. destruct (WrappedBlob.params b) eqn:E; [|done|by destruct (params_no_panic b)].
    case_bool_decide; [|done]. cbn. no_panic.
Qed.
End instances.

(** * Claims *)

Section claims.
Context {P : CryptoPrims} {L : CryptoLaws P}.

(** C8: what a wrapped blob opens to. [open] returns a vault key exactly on the blobs [seal]
    makes for that key under that key-encryption key (of the blob's own wrapper type, with a
    parameter field of fewer than 65536 bytes); on every other byte string it returns an error,
    never a panic. *)
Theorem wrapped_blob_open_exact blob kek vk :
  (WrappedBlob.open blob kek = Ok vk <->
     exists nonce params, Z.of_nat (length params) < 65536
       /\ blob = WrappedBlob.seal nonce (wrapper blob) kek params vk)
  /\ WrappedBlob.open blob kek <> Panic.
Proof.
  split; [split|apply WrappedBlob.blob_open_no_panic].
  - apply WrappedBlob.open_inv.
  - intros (n & p & Hp & ->). by apply WrappedBlob.open_seal.
Qed.

(** The whole header is authenticated. If a sealed blob still opens after its wrapper type,
    its parameters or the key-encryption key was exchanged, the AEAD accepted a ciphertext under a
    key or associated data it was not made for. *)
Theorem wrapped_blob_header_bound (nonce : Nonce24) w kek params (vk : VaultKey) w' params' kek' vk' :
  Z.of_nat (length params) < 65536 -> Z.of_nat (length params') < 65536 ->
  (w', params', kek') <> (w, params, kek) ->
  WrappedBlob.open
    (MkBlob w' (WrappedBlob.header w' params' ++ nonce
                ++ drop (8 + length params + 24) (blob_bytes (WrappedBlob.seal nonce w kek params vk)))) kek'
    = Ok vk' ->
  crypto.forgery kek nonce (WrappedBlob.header w params) kek' nonce (WrappedBlob.header w' params') (arr_bytes vk).
Proof.
  intros Hp Hp' Hne. rewrite WrappedBlob.seal_bytes. cbn [blob_bytes].
  rewrite (app_assoc (WrappedBlob.header w params)), drop_app_length'
    by (rewrite length_app, WrappedBlob.length_header, length_arr; lia).
  by apply WrappedBlob.open_rebound.
Qed.

(** The length field is 16 bits wide. Sealing with 65536 bytes of parameters or more is not
    refused and produces a blob that can never be opened. *)
Theorem wrapped_blob_oversize_params nonce w kek params vk :
  65536 <= Z.of_nat (length params) ->
  WrappedBlob.open (WrappedBlob.seal nonce w kek params vk) kek = Err (Format "wrapped blob" "bad length").
Proof. apply WrappedBlob.open_oversize. Qed.

(** Every wrapper keeps the keyring's promise. The password, recovery, phone-share and
    platform wrappers produce blobs of their own type; after a successful [wrap], whatever the
    surroundings do to the approval state, an authorized [unwrap] gives the same vault key back;
    an [unwrap] succeeds only while authorized; and none of them panics. *)
Theorem key_wrappers_lawful :
  KeyWrapperLaws PasswordWrapper.t unit (arr 16 * Nonce24)
  /\ KeyWrapperLaws RecoveryWrapper.t unit (arr 16 * Nonce24)
  /\ KeyWrapperLaws MockBiometricWrapper.t bool Nonce24
  /\ KeyWrapperLaws PhoneShareWrapper.t MockRelay.t (arr 32 * Nonce24).
Proof. split_and!; apply _. Qed.
End claims.

(** * Concrete runs *)

Definition demo_vk : VaultKey := arr_fill 32 Byte.x42.
Definition demo_kek : Key32 := arr_fill 32 Byte.x01.
Definition demo_nonce : Nonce24 := arr_fill 24 Byte.x09.
Definition demo_salt : arr 16 := arr_fill 16 Byte.x07.
Definition demo_blob : WrappedBlob_t :=
  Eval vm_compute in WrappedBlob.seal demo_nonce WrapperType.Recovery demo_kek demo_salt demo_vk.

(** A second key with the same checksum under the concrete cipher. *)
Definition demo_kek' : Key32 :=
  default demo_kek (arr_of (Byte.x7d :: Byte.x01 :: Byte.x32 :: replicate 29 Byte.x01)).

Lemma wrapped_blob_open_exact_witness :
  ((WrappedBlob.open demo_blob demo_kek = Ok demo_vk <->
     exists nonce params, Z.of_nat (length params) < 65536
       /\ demo_blob = WrappedBlob.seal nonce (wrapper demo_blob) demo_kek params demo_vk)
   /\ WrappedBlob.open demo_blob demo_kek <> Panic)
  /\ WrappedBlob.open demo_blob demo_kek = Ok demo_vk.
Proof. split; [apply (wrapped_blob_open_exact demo_blob demo_kek demo_vk)|vm_compute; reflexivity]. Defined.

Lemma wrapped_blob_header_bound_witness :
  crypto.forgery demo_kek demo_nonce (WrappedBlob.header WrapperType.Platform [])
    demo_kek' demo_nonce (WrappedBlob.header WrapperType.Platform []) (arr_bytes demo_vk).
Proof.
  apply (wrapped_blob_header_bound demo_nonce WrapperType.Platform demo_kek [] demo_vk
           WrapperType.Platform [] demo_kek' demo_vk);
    [vm_compute; reflexivity|vm_compute; reflexivity| |vm_compute; reflexivity].
  by intros [=].
Defined.

Lemma wrapped_blob_oversize_params_witness :
  WrappedBlob.open (WrappedBlob.seal demo_nonce WrapperType.Phone demo_kek
                      (replicate (Z.to_nat 70000) Byte.x00) demo_vk) demo_kek
  = Err (Format "wrapped blob" "bad length").
Proof.
  apply (wrapped_blob_oversize_params demo_nonce WrapperType.Phone demo_kek
           (replicate (Z.to_nat 70000) Byte.x00) demo_vk).
  rewrite length_replicate. vm_compute. discriminate.
Defined.

(** With the concrete cipher the laws hold, and a password blob runs end to end. *)
Lemma key_wrappers_lawful_witness :
  KeyWrapperLaws PasswordWrapper.t unit (arr 16 * Nonce24)
  /\ (let w := PasswordWrapper.with_profile (lit "correct horse") Argon2Profile.Test in
      match PasswordWrapper.wrap w demo_salt demo_nonce demo_vk with
      | Ok b => PasswordWrapper.unwrap w b = Ok demo_vk
      | _ => False
      end).
Proof. split; [apply (key_wrappers_lawful (P:=toy_prims))|vm_compute; reflexivity]. Defined.
