(* ===== verification/Model.v ===== *)
(** [crates/core/src/vault/model.rs]: the plaintext items of a vault, and the codecs the
    vault's blobs go through. Serialization ([serde_json]), compression ([zstd]) and
    [base64] are crates outside the repository: classes with their documented round-trip
    laws. *)
From S2P Require Import Prelude Bytes Text Crypto Toy.
Local Open Scope Z_scope.

(** [uuid::Uuid]: 16 bytes. *)
Abbreviation Uuid := (arr 16).

(** * Items *)

Module ItemType.
Inductive t : Type := Login | Note | Card | Identity | Passkey.
#[global] Instance eq_dec : EqDecision t.
Proof. solve_decision. Defined.
End ItemType.

Module UrlMode.
Inductive t : Type := Domain | Host.
#[global] Instance eq_dec : EqDecision t.
Proof. solve_decision. Defined.
End UrlMode.

Module UrlMatch.
Record t : Type := MkUrlMatch { url : text; mode : UrlMode.t }.
#[global] Instance eq_dec : EqDecision t.
Proof. solve_decision. Defined.
End UrlMatch.

Module CustomField.
Record t : Type := MkCustomField { name : text; value : text; secret : bool }.
#[global] Instance eq_dec : EqDecision t.
Proof. solve_decision. Defined.
End CustomField.

Module Login.
Record t : Type := MkLogin {
  username : option text;
  password : option text;
  totp : option text;
}.
#[global] Instance eq_dec : EqDecision t.
Proof. solve_decision. Defined.
(** [Login::default()]. *)
Definition default : t := MkLogin None None None.
End Login.

Module Card.
Record t : Type := MkCard {
  cardholder : option text;
  number : option text;
  brand : option text;
  exp_month : option Z;
  exp_year : option Z;
  cvv : option text;
}.
#[global] Instance eq_dec : EqDecision t.
Proof. solve_decision. Defined.
End Card.

Module Identity.
Record t : Type := MkIdentity {
  full_name : option text;
  email : option text;
  phone : option text;
  address : option text;
}.
#[global] Instance eq_dec : EqDecision t.
Proof. solve_decision. Defined.
End Identity.

Module Passkey.
Record t : Type := MkPasskey {
  rp_id : text;
  rp_name : option text;
  user_name : text;
  user_display_name : option text;
  user_handle : text;
  credential_id : text;
  private_key : text;
  algorithm : Z;
  sign_count : Z;
}.
#[global] Instance eq_dec : EqDecision t.
Proof. solve_decision. Defined.
End Passkey.

Module Item.
Record t : Type := MkItem {
  id : Uuid;
  item_type : ItemType.t;
  title : text;
  tags : list text;
  urls : list UrlMatch.t;
  notes : option text;
  custom_fields : list CustomField.t;
  login : option Login.t;
  card : option Card.t;
  identity : option Identity.t;
  passkey : option Passkey.t;
  created_at : Z;
  updated_at : Z;
  password_changed_at : option Z;
}.
#[global] Instance eq_dec : EqDecision t.
Proof. solve_decision. Defined.
(** [uuid] is the fresh version-4 identifier. *)
Definition new_login (uuid : Uuid) (title : text) (now : Z) : t :=
  MkItem uuid ItemType.Login title [] [] None [] (Some Login.default) None None None now now (Some now).

Definition password (self : t) : option text := login self ≫= Login.password.
Definition username (self : t) : option text := login self ≫= Login.username.
End Item.


(** * Codecs *)

(** [serde_json::to_vec] and [from_slice] at a type; [inl] is the error's text. *)
Class Json (A : Type) : Type := {
  to_vec : A -> string + bytes;
  from_slice : bytes -> string + A;
}.

Class JsonLaws (A : Type) {S : Json A} : Prop := {
  from_slice_to_vec a b : to_vec a = inr b -> from_slice b = inr a;
}.

Class Zstd : Type := {
  encode_all : bytes -> string + bytes;
  decode_all : bytes -> string + bytes;
}.

Class ZstdLaws {S : Zstd} : Prop := {
  decode_all_encode_all a b : encode_all a = inr b -> decode_all b = inr a;
}.

(** The [STANDARD] engine. *)
Class Base64 : Type := {
  b64_encode : bytes -> text;
  b64_decode : text -> option bytes;
}.

Class Base64Laws {S : Base64} : Prop := {
  b64_decode_encode b : b64_decode (b64_encode b) = Some b;
  b64_printable b : Forall (fun c => 33 <= c <= 126) (b64_encode b);
  b64_nonempty b : b64_encode b = [] -> b = [];
}.

(** The [From] conversions and [map_err]s of their errors into [CoreError]. *)
Definition of_sum {A} (f : string -> CoreError) (x : string + A) : Result A :=
  match x with inl e => Err (f e) | inr a => Ok a end.

Lemma of_sum_Ok {A} f (x : string + A) a : of_sum f x = Ok a <-> x = inr a.
Proof. destruct x; cbn; naive_solver congruence. Qed.

Lemma of_sum_no_panic {A} f (x : string + A) : of_sum f x <> Panic.
Proof. by destruct x. Qed.
#[export] Hint Resolve of_sum_no_panic : rust.

(** * Concrete codecs, for concrete runs *)

(** Any countable type as bytes, through its encoding as a number. *)
Fixpoint pos_bytes (p : positive) : bytes :=
  match p with
  | xH => []
  | xO p => Byte.x00 :: pos_bytes p
  | xI p => Byte.x01 :: pos_bytes p
  end.

Fixpoint bytes_pos (b : bytes) : positive :=
  match b with
  | [] => xH
  | Byte.x00 :: b => xO (bytes_pos b)
  | _ :: b => xI (bytes_pos b)
  end.

Lemma bytes_pos_bytes p : bytes_pos (pos_bytes p) = p.
Proof. induction p; cbn; congruence. Qed.

Definition toy_json {A} `{Countable A} : Json A := {|
  to_vec a := inr (pos_bytes (encode a));
  from_slice b := match decode (bytes_pos b) with Some a => inr a | None => inl "toy" end;
|}.

Lemma toy_json_laws {A} `{Countable A} : JsonLaws A (S := toy_json).
Proof.
  split. intros a b. unfold to_vec, from_slice, toy_json. intros [= <-].
  by rewrite bytes_pos_bytes, decode_encode.
Qed.

(** A codec of the values of a table, which writes a value as its number; others do not serialize. *)
Section table.
Context {A : Type} `{EqDecision A}.

Fixpoint index_of (x : A) (l : list A) : option nat :=
  match l with [] => None | y :: l => if decide (y = x) then Some O else S <$> index_of x l end.

Lemma index_of_lookup x l n : index_of x l = Some n -> l !! n = Some x.
Proof.
  revert n. induction l as [|y l IH]; intros n; cbn; [done|]. case_decide as Hy; [by intros [= <-]; subst|].
  intros (m & Hm & ->)%fmap_Some. by apply IH.
Qed.

Definition table_json (table : list A) : Json A := {|
  to_vec x := match index_of x table with Some n => inr (replicate n Byte.x00) | None => inl "not in the table"%string end;
  from_slice b := match table !! length b with Some x => inr x | None => inl "not in the table"%string end;
|}.

Lemma table_json_laws table : JsonLaws A (S := table_json table).
Proof.
  split. intros a b. cbn. destruct (index_of a table) as [n|] eqn:Ei; [|done]. intros [= <-].
  by rewrite length_replicate, (index_of_lookup _ _ _ Ei).
Qed.
End table.

Definition toy_zstd : Zstd := {| encode_all b := inr b; decode_all b := inr b |}.
Lemma toy_zstd_laws : @ZstdLaws toy_zstd.
Proof. split; cbn. congruence. Qed.

(** Two letters per byte. *)
Fixpoint toy_b64_decode (t : text) : option bytes :=
  match t with
  | [] => Some []
  | h :: l :: t => cons (byte_of_Z ((h - 65) * 16 + (l - 65))) <$> toy_b64_decode t
  | [_] => None
  end.
Definition toy_base64 : Base64 := {|
  b64_encode b := flat_map (fun x => [65 + byte_to_Z x / 16; 65 + byte_to_Z x mod 16]) b;
  b64_decode := toy_b64_decode;
|}.
Lemma toy_base64_laws : @Base64Laws toy_base64.
Proof.
  split; cbn; intros b.
  - induction b as [|x b IH]; [done|]. cbn. rewrite IH. cbn. do 2 f_equal.
    rewrite <- (byte_of_to_Z x) at 3. f_equal. pose proof (Z.div_mod (byte_to_Z x) 16). lia.
  - induction b as [|x b IH]; [constructor|]. cbn. pose proof (byte_to_Z_range x).
    pose proof (Z.mod_pos_bound (byte_to_Z x) 16). pose proof (Z.div_pos (byte_to_Z x) 16).
    pose proof (Z.div_lt_upper_bound (byte_to_Z x) 16 16).
    repeat (constructor; [lia|]). exact IH.
  - by destruct b.
Qed.

#[export] Instance ItemType_countable : Countable ItemType.t.
Proof.
  refine (inj_countable'
    (fun x => match x with ItemType.Login => 0 | ItemType.Note => 1 | ItemType.Card => 2
              | ItemType.Identity => 3 | ItemType.Passkey => 4 end)
    (fun n => match n with 0 => ItemType.Login | 1 => ItemType.Note | 2 => ItemType.Card
              | 3 => ItemType.Identity | _ => ItemType.Passkey end) _). by intros [].
Defined.
#[export] Instance UrlMatch_countable : Countable UrlMatch.t.
Proof.
  refine (inj_countable' (fun x => (UrlMatch.url x, bool_decide (UrlMatch.mode x = UrlMode.Domain)))
    (fun x => UrlMatch.MkUrlMatch x.1 (if x.2 : bool then UrlMode.Domain else UrlMode.Host)) _).
  by intros [u []].
Defined.
#[export] Instance CustomField_countable : Countable CustomField.t.
Proof.
  refine (inj_countable' (fun x => (CustomField.name x, CustomField.value x, CustomField.secret x))
    (fun x => CustomField.MkCustomField x.1.1 x.1.2 x.2) _). by intros [].
Defined.
#[export] Instance Login_countable : Countable Login.t.
Proof.
  refine (inj_countable' (fun x => (Login.username x, Login.password x, Login.totp x))
    (fun x => Login.MkLogin x.1.1 x.1.2 x.2) _). by intros [].
Defined.
#[export] Instance Card_countable : Countable Card.t.
Proof.
  refine (inj_countable' (fun x => (Card.cardholder x, Card.number x, Card.brand x,
      Card.exp_month x, Card.exp_year x, Card.cvv x))
    (fun x => Card.MkCard x.1.1.1.1.1 x.1.1.1.1.2 x.1.1.1.2 x.1.1.2 x.1.2 x.2) _). by intros [].
Defined.
#[export] Instance Identity_countable : Countable Identity.t.
Proof.
  refine (inj_countable' (fun x => (Identity.full_name x, Identity.email x, Identity.phone x, Identity.address x))
    (fun x => Identity.MkIdentity x.1.1.1 x.1.1.2 x.1.2 x.2) _). by intros [].
Defined.
#[export] Instance Passkey_countable : Countable Passkey.t.
Proof.
  refine (inj_countable' (fun x => (Passkey.rp_id x, Passkey.rp_name x, Passkey.user_name x,
      Passkey.user_display_name x, Passkey.user_handle x, Passkey.credential_id x, Passkey.private_key x,
      Passkey.algorithm x, Passkey.sign_count x))
    (fun x => Passkey.MkPasskey x.1.1.1.1.1.1.1.1 x.1.1.1.1.1.1.1.2 x.1.1.1.1.1.1.2 x.1.1.1.1.1.2
       x.1.1.1.1.2 x.1.1.1.2 x.1.1.2 x.1.2 x.2) _). by intros [].
Defined.
#[export] Instance Item_countable : Countable Item.t.
Proof.
  refine (inj_countable' (fun x => (
      (Item.id x, Item.item_type x, Item.title x, Item.tags x, Item.urls x, Item.notes x, Item.custom_fields x),
      (Item.login x, Item.card x, Item.identity x, Item.passkey x, Item.created_at x, Item.updated_at x,
       Item.password_changed_at x)))
    (fun x => Item.MkItem x.1.1.1.1.1.1.1 x.1.1.1.1.1.1.2 x.1.1.1.1.1.2 x.1.1.1.1.2 x.1.1.1.2 x.1.1.2 x.1.2
       x.2.1.1.1.1.1.1 x.2.1.1.1.1.1.2 x.2.1.1.1.1.2 x.2.1.1.1.2 x.2.1.1.2 x.2.1.2 x.2.2) _). by intros [].
Defined.
