(* ===== verification/Envelope.v ===== *)
(** [crates/core/src/vault/envelope.rs] and [crates/core/src/vault/document.rs]: the sealed
    item ([0x01 | item_id(16) | updated_at i64 LE | nonce(24) | ct], the first 25 bytes
    authenticated) and the sync blob (["SVLT" | 0x01 | 0 0 0 | nonce(24) | ct], sealed for
    one server version). *)
From S2P Require Import Prelude Bytes Text Crypto Toy RecoveryKit Keyring Model.
Local Open Scope Z_scope.

(** A newtype over its bytes. *)
Abbreviation ItemEnvelope := bytes (only parsing).

Module Envelope.
Definition ITEM_VERSION : byte := Byte.x01.

Definition item_header (id_bytes : Uuid) (updated_at : Z) : bytes :=
  [ITEM_VERSION] ++ id_bytes ++ le_bytes 8 updated_at.

(** Extract [(item_id, updated_at)] without decrypting. *)
Definition envelope_meta (env : ItemEnvelope) : Result (Uuid * Z) :=
  guard negb (length env <? 25)%nat else Err (Format "item envelope" "too short for meta") in
  let? idb := slice env 1 17 in
  let? id := copy_from_slice 16 idb in
  let? tsb := slice env 17 25 in
  let? ts := copy_from_slice 8 tsb in
  Ok (id, i64_of_u64 (le_val ts)).

Section ops.
Context {P : CryptoPrims} {SI : Json Item.t}.

Definition item_key (vk : VaultKey) (item_id : Uuid) : Key32 :=
  crypto.hkdf32 vk (Some (arr_bytes item_id)) Info.VaultItem.

Definition seal_item (nonce : Nonce24) (vk : VaultKey) (item : Item.t) : Result ItemEnvelope :=
  let id_bytes := Item.id item in
  let header := item_header id_bytes (Item.updated_at item) in
  let? plaintext := of_sum Serde (to_vec item) in
  let key := item_key vk id_bytes in
  let '(nonce, ct) := crypto.seal nonce key header plaintext in
  Ok (header ++ nonce ++ ct).

Definition open_item (vk : VaultKey) (env : ItemEnvelope) : Result Item.t :=
  let b := env in
  guard negb (length b <? 25 + 24 + 16)%nat else Err (Format "item envelope" "too short") in
  let? b0 := index b 0 in
  guard bool_decide (b0 = ITEM_VERSION)
    else Err (Format "item envelope" ("unsupported version " +:+ pretty (byte_to_Z b0))) in
  let? idb := slice b 1 17 in
  let? id_bytes := copy_from_slice 16 idb in
  let? header := slice b 0 25 in
  let? nb := slice b 25 49 in
  let? nonce := copy_from_slice 24 nb in
  let? ct := slice_from b 49 in
  let key := item_key vk id_bytes in
  let? pt := crypto.open key header nonce ct in
  let? item := of_sum Serde (from_slice pt) in
  guard bool_decide (Item.id item = id_bytes) else Err (Format "item envelope" "item id mismatch") in
  Ok item.
End ops.

(** ** Layout *)

Lemma length_item_header id ts : length (item_header id ts) = 25%nat.
Proof. unfold item_header. rewrite !length_app, length_arr, length_le_bytes. done. Qed.

(** The parts of an assembled envelope. *)
Lemma meta_assembled id ts rest :
  i64_range ts -> envelope_meta (item_header id ts ++ rest) = Ok (id, ts).
Proof.
  intros Hts. unfold envelope_meta. rewrite length_app, length_item_header.
  replace (25 + length rest <? 25)%nat with false by (symmetry; apply Nat.ltb_ge; lia). cbn [negb].
  unfold item_header. rewrite <- !app_assoc.
  rewrite (slice_app [ITEM_VERSION] id) by (rewrite ?length_arr; done). cbn [rbind].
  rewrite copy_from_slice_arr. cbn [rbind]. rewrite (app_assoc [ITEM_VERSION]).
  rewrite (slice_app ([ITEM_VERSION] ++ id) (le_bytes 8 ts))
    by (rewrite ?length_app, ?length_arr, ?length_le_bytes; done). cbn [rbind].
  destruct (copy_from_slice_len (E:=CoreError) 8 (le_bytes 8 ts)) as (a & -> & Ha);
    [apply length_le_bytes|]. cbn [rbind]. by rewrite Ha, i64_le_round_trip.
Qed.

Lemma meta_no_panic env : envelope_meta env <> Panic.
Proof. unfold envelope_meta. no_panic. Qed.

(** A header is determined by what it says. *)
Lemma item_header_inj id ts id' ts' :
  i64_range ts -> i64_range ts' -> item_header id ts = item_header id' ts' -> id = id' /\ ts = ts'.
Proof.
  intros Hts Hts' H. pose proof (meta_assembled id ts [] Hts) as H1.
  rewrite H, meta_assembled in H1 by done. by injection H1.
Qed.

Section laws.
Context {P : CryptoPrims} {L : CryptoLaws P} {SI : Json Item.t}.

(** Opening an assembled envelope decrypts it under the key of the id its header names. *)
Lemma open_item_assembled vk id ts (nonce : Nonce24) ct :
  (16 <= length ct)%nat ->
  open_item vk (item_header id ts ++ nonce ++ ct) =
    (let? pt := crypto.open (item_key vk id) (item_header id ts) nonce ct in
     let? item := of_sum Serde (from_slice pt) in
     guard bool_decide (Item.id item = id) else Err (Format "item envelope" "item id mismatch") in
     Ok item).
Proof.
  intros Hct. unfold open_item. cbv zeta. rewrite !length_app, length_item_header, length_arr.
  replace (25 + (24 + length ct) <? 25 + 24 + 16)%nat with false by (symmetry; apply Nat.ltb_ge; lia).
  cbn [negb]. rewrite (index_lookup _ 0 ITEM_VERSION) by done. cbn [rbind].
  rewrite bool_decide_true by done.
  rewrite (slice_prefix (item_header id ts)) by (by rewrite length_item_header).
  rewrite (slice_app (item_header id ts) nonce ct 25 49) by (rewrite ?length_item_header, ?length_arr; lia).
  unfold item_header at 1. rewrite <- !app_assoc.
  rewrite (slice_app [ITEM_VERSION] id) by (rewrite ?length_arr; done). cbn [rbind].
  rewrite !copy_from_slice_arr. cbn [rbind]. rewrite (app_assoc (item_header id ts)).
  rewrite slice_from_app by (rewrite length_app, length_item_header, length_arr; done). done.
Qed.

Lemma seal_item_Ok nonce vk item env :
  seal_item nonce vk item = Ok env <->
  exists pt, to_vec item = inr pt
    /\ env = item_header (Item.id item) (Item.updated_at item) ++ nonce
              ++ aead_encrypt (item_key vk (Item.id item)) nonce
                   (item_header (Item.id item) (Item.updated_at item)) pt.
Proof.
  unfold seal_item. rewrite rbind_Ok. setoid_rewrite of_sum_Ok. cbn.
  split; intros (pt & Hpt & H); exists pt; (split; [done|]); [by injection H|by subst].
Qed.

Lemma item_ct_length k n ad m : (16 <= length (aead_encrypt k n ad m))%nat.
Proof. rewrite aead_len. lia. Qed.

Lemma open_item_no_panic vk env : open_item vk env <> Panic.
Proof. unfold open_item. cbv zeta. no_panic. Qed.
End laws.
End Envelope.

(** * The sync document *)

Module VaultDocument.
Record t : Type := MkVaultDocument {
  format : Z;
  items : list text;
  tombstones : list (Uuid * Z);
}.
#[global] Instance eq_dec : EqDecision t.
Proof. solve_decision. Defined.

Section ops.
Context {B : Base64}.

Definition from_envelopes (envs : list ItemEnvelope) (tombstones : list (Uuid * Z)) : t :=
  MkVaultDocument 1 (map b64_encode envs) tombstones.

Definition envelopes (self : t) : Result (list ItemEnvelope) :=
  collect (fun s => ok_or (b64_decode s) (Format "vault document" "item not base64")) (items self).

Lemma envelopes_from_envelopes {BL : Base64Laws} envs tombs :
  envelopes (from_envelopes envs tombs) = Ok envs.
Proof.
  unfold envelopes, from_envelopes. cbn. apply collect_Ok.
  induction envs; constructor; [by rewrite b64_decode_encode|done].
Qed.
End ops.
End VaultDocument.

Module Document.
Definition MAGIC : bytes := utf8 (lit "SVLT").
Definition VERSION : byte := Byte.x01.

(** The on-wire header does not carry the version. *)
Definition header (version : Z) : bytes := MAGIC ++ [VERSION] ++ [Byte.x00; Byte.x00; Byte.x00].

Section ops.
Context {P : CryptoPrims} {SD : Json VaultDocument.t} {ZS : Zstd}.

Definition encode_sync_blob (nonce : Nonce24) (vk : VaultKey) (doc : VaultDocument.t) (version : Z)
    : Result bytes :=
  let? json := of_sum Serde (to_vec doc) in
  let? compressed := of_sum Io (encode_all json) in
  let hdr := header version in
  let aad := hdr ++ le_bytes 8 version in
  let key := crypto.hkdf32 vk None Info.VaultOuter in
  let '(nonce, ct) := crypto.seal nonce key aad compressed in
  Ok (hdr ++ nonce ++ ct).

Definition decode_sync_blob (vk : VaultKey) (b : bytes) (expected_version : Z) : Result VaultDocument.t :=
  guard negb (length b <? 8 + 24)%nat else Err (Format "sync blob" "too short") in
  let? magic := slice b 0 4 in
  let? b4 := index b 4 in
  guard bool_decide (magic = MAGIC) && bool_decide (b4 = VERSION)
    else Err (Format "sync blob" "bad magic/version") in
  let? hdr := slice b 0 8 in
  let? nb := slice b 8 32 in
  let? nonce := copy_from_slice 24 nb in
  let? ct := slice_from b 32 in
  let aad := hdr ++ le_bytes 8 expected_version in
  let key := crypto.hkdf32 vk None Info.VaultOuter in
  let? pt := crypto.open key aad nonce ct in
  let? json := of_sum Io (decode_all pt) in
  of_sum Serde (from_slice json).
End ops.

Section laws.
Context {P : CryptoPrims} {L : CryptoLaws P} {SD : Json VaultDocument.t} {ZS : Zstd}.

Definition u64_range (v : Z) : Prop := 0 <= v < 2 ^ 64.

Definition outer_key (vk : VaultKey) : Key32 := crypto.hkdf32 vk None Info.VaultOuter.
Definition outer_aad (version : Z) : bytes := header version ++ le_bytes 8 version.

Lemma decode_assembled vk v (nonce : Nonce24) ct v' :
  decode_sync_blob vk (header v ++ nonce ++ ct) v' =
    (let? pt := crypto.open (outer_key vk) (outer_aad v') nonce ct in
     let? json := of_sum Io (decode_all pt) in
     of_sum Serde (from_slice json)).
Proof.
  unfold decode_sync_blob. rewrite !length_app, length_arr. change (length (header v)) with 8%nat.
  replace (8 + (24 + length ct) <? 8 + 24)%nat with false by (symmetry; apply Nat.ltb_ge; lia).
  cbn [negb]. rewrite (slice_ok _ 0 4) by (rewrite length_app; change (length (header v)) with 8%nat; lia).
  cbn [rbind]. rewrite (index_lookup _ 4 VERSION) by done. cbn [rbind].
  rewrite !bool_decide_true by done. cbn [andb].
  rewrite (slice_prefix (header v) _ 8) by done. cbn [rbind].
  rewrite (slice_app (header v) nonce ct 8 32) by (rewrite ?length_arr; done). cbn [rbind].
  rewrite copy_from_slice_arr. cbn [rbind]. rewrite (app_assoc (header v)).
  by rewrite slice_from_app by (rewrite length_app, length_arr; done).
Qed.

Lemma encode_sync_blob_Ok nonce vk doc v blob :
  encode_sync_blob nonce vk doc v = Ok blob <->
  exists json z, to_vec doc = inr json /\ encode_all json = inr z
    /\ blob = header v ++ nonce ++ aead_encrypt (outer_key vk) nonce (outer_aad v) z.
Proof.
  unfold encode_sync_blob. rewrite rbind_Ok. setoid_rewrite rbind_Ok. setoid_rewrite of_sum_Ok. cbn -[header].
  split.
  - intros (json & Hj & z & Hz & [= <-]). exists json, z. auto.
  - intros (json & z & Hj & Hz & ->). exists json. split; [done|]. exists z. auto.
Qed.

Lemma decode_no_panic vk b v : decode_sync_blob vk b v <> Panic.
Proof. unfold decode_sync_blob. no_panic. Qed.

Lemma outer_aad_inj v v' : u64_range v -> u64_range v' -> outer_aad v = outer_aad v' -> v = v'.
Proof. intros Hv Hv' H%app_inv_head. by apply (le_bytes_inj 8). Qed.

Lemma decode_encode_blob {SL : JsonLaws VaultDocument.t} {ZL : ZstdLaws} nonce vk doc v blob :
  encode_sync_blob nonce vk doc v = Ok blob -> decode_sync_blob vk blob v = Ok doc.
Proof.
  intros (json & z & Hj & Hz & ->)%encode_sync_blob_Ok. rewrite decode_assembled, crypto.open_enc. cbn [rbind].
  rewrite (decode_all_encode_all _ _ Hz). cbn. by rewrite (from_slice_to_vec _ _ Hj).
Qed.

(** Opening for another version takes a forgery. *)
Lemma decode_other_version nonce vk doc v blob v' doc' :
  u64_range v -> u64_range v' -> v <> v' -> encode_sync_blob nonce vk doc v = Ok blob ->
  decode_sync_blob vk blob v' = Ok doc' ->
  exists z, crypto.forgery (outer_key vk) nonce (outer_aad v) (outer_key vk) nonce (outer_aad v') z.
Proof.
  intros Hv Hv' Hne He H. apply encode_sync_blob_Ok in He as (json & z & _ & _ & ->).
  rewrite decode_assembled in H. inv_result. apply crypto.open_Ok in Ha. exists z.
  split; [|by eexists]. right; right. intros Heq. by apply Hne, outer_aad_inj.
Qed.
End laws.
End Document.

(** * Claims *)

Section claims.
Context {P : CryptoPrims} {L : CryptoLaws P} {SI : Json Item.t} {SIL : JsonLaws Item.t}.

(** A sealed item opens to itself, and its header gives the item's id and modification time
    without the key. *)
Theorem item_envelope_round_trip nonce vk item env :
  i64_range (Item.updated_at item) ->
  Envelope.seal_item nonce vk item = Ok env ->
  Envelope.open_item vk env = Ok item
  /\ Envelope.envelope_meta env = Ok (Item.id item, Item.updated_at item).
Proof.
  intros Hts (pt & Hpt & ->)%Envelope.seal_item_Ok. split; [|by apply Envelope.meta_assembled].
  rewrite Envelope.open_item_assembled, crypto.open_enc by apply Envelope.item_ct_length.
  cbn [rbind]. rewrite (from_slice_to_vec _ _ Hpt). cbn [of_sum rbind]. by rewrite bool_decide_true.
Qed.

(** A sealed item cannot be passed off as another one, nor dated differently, nor read with
    another key: if its ciphertext opens behind a header with another id or time, or under another
    item key, the cipher accepted a ciphertext it was not made for. *)
Theorem item_envelope_bound (nonce : Nonce24) vk item id' ts' vk' item' :
  i64_range (Item.updated_at item) -> i64_range ts' ->
  (id', ts', Envelope.item_key vk' id') <> (Item.id item, Item.updated_at item, Envelope.item_key vk (Item.id item)) ->
  (exists pt, to_vec item = inr pt
    /\ Envelope.open_item vk' (Envelope.item_header id' ts' ++ nonce
         ++ aead_encrypt (Envelope.item_key vk (Item.id item)) nonce
              (Envelope.item_header (Item.id item) (Item.updated_at item)) pt) = Ok item') ->
  exists pt, crypto.forgery (Envelope.item_key vk (Item.id item)) nonce
      (Envelope.item_header (Item.id item) (Item.updated_at item))
      (Envelope.item_key vk' id') nonce (Envelope.item_header id' ts') pt.
Proof.
  intros Hts Hts' Hne (pt & Hpt & H). exists pt.
  rewrite Envelope.open_item_assembled in H by apply Envelope.item_ct_length. inv_result.
  apply crypto.open_Ok in Ha. split; [|by eexists].
  destruct (decide (Envelope.item_key vk (Item.id item) = Envelope.item_key vk' id')) as [Hk|]; [|by left].
  right; right. intros Heq. apply Envelope.item_header_inj in Heq as [E1 E2]; [|done..].
  apply Hne. by rewrite Hk, E1, E2.
Qed.
End claims.

Section document_claims.
Context {P : CryptoPrims} {L : CryptoLaws P} {SD : Json VaultDocument.t} {SDL : JsonLaws VaultDocument.t}
  {ZS : Zstd} {ZL : ZstdLaws}.

(** Rollback protection. A document sealed for a server version opens for that version, and
    if it opens for another one the cipher accepted associated data it was not made with.
    Decoding never panics, whatever the server sends. *)
Theorem sync_blob_version_bound nonce vk doc v blob v' doc' :
  Document.u64_range v -> Document.u64_range v' ->
  Document.encode_sync_blob nonce vk doc v = Ok blob ->
  Document.decode_sync_blob vk blob v = Ok doc
  /\ (v <> v' -> Document.decode_sync_blob vk blob v' = Ok doc' ->
      exists z, crypto.forgery (Document.outer_key vk) nonce (Document.outer_aad v)
                  (Document.outer_key vk) nonce (Document.outer_aad v') z)
  /\ (forall b, Document.decode_sync_blob vk b v' <> Panic).
Proof.
  intros Hv Hv' He. split; [by eapply Document.decode_encode_blob|].
  split; [|intros b; apply Document.decode_no_panic].
  intros Hne H. by eapply Document.decode_other_version.
Qed.
End document_claims.

(** * Concrete runs *)

#[export] Instance VaultDocument_countable : Countable VaultDocument.t.
Proof.
  refine (inj_countable' (fun x => (VaultDocument.format x, VaultDocument.items x, VaultDocument.tombstones x))
    (fun x => VaultDocument.MkVaultDocument x.1.1 x.1.2 x.2) _). by intros [].
Defined.

Definition demo_item : Item.t := Item.new_login (arr_fill 16 Byte.x0a) (lit "GitHub") 1700000000.
Definition demo_env : bytes := Eval vm_compute in
  match Envelope.seal_item (SI := toy_json) demo_nonce demo_vk demo_item with Ok e => e | _ => [] end.

Lemma item_envelope_round_trip_witness :
  Envelope.open_item (SI := toy_json) demo_vk demo_env = Ok demo_item
  /\ Envelope.envelope_meta demo_env = Ok (arr_fill 16 Byte.x0a, 1700000000).
Proof.
  apply (item_envelope_round_trip (SI := toy_json) (SIL := toy_json_laws) demo_nonce demo_vk demo_item demo_env);
    [split; vm_compute; congruence|vm_compute; reflexivity].
Defined.

(** A later time under which the concrete checksum is the same. *)
Definition demo_ts' : Z := 1700000000 + 124 * 2 ^ 32 + 49 * 2 ^ 48.

Lemma item_envelope_bound_witness :
  exists pt, crypto.forgery (Envelope.item_key demo_vk (Item.id demo_item)) demo_nonce
      (Envelope.item_header (Item.id demo_item) 1700000000)
      (Envelope.item_key demo_vk (Item.id demo_item)) demo_nonce
      (Envelope.item_header (Item.id demo_item) demo_ts') pt.
Proof.
  apply (item_envelope_bound (SI := toy_json) demo_nonce demo_vk demo_item (Item.id demo_item) demo_ts'
           demo_vk demo_item); [split; vm_compute; congruence|split; vm_compute; congruence| |].
  - intros [=].
  - eexists. split; [reflexivity|vm_compute; reflexivity].
Defined.

Definition demo_doc : VaultDocument.t :=
  VaultDocument.MkVaultDocument 1 [] [(arr_fill 16 Byte.x0a, 42)].
Definition demo_sync_blob : bytes := Eval vm_compute in
  match Document.encode_sync_blob (SD := toy_json) (ZS := toy_zstd) demo_nonce demo_vk demo_doc 3 with
  | Ok b => b | _ => [] end.

Lemma sync_blob_version_bound_witness :
  Document.decode_sync_blob (SD := toy_json) (ZS := toy_zstd) demo_vk demo_sync_blob 3 = Ok demo_doc
  /\ Document.decode_sync_blob (SD := toy_json) (ZS := toy_zstd) demo_vk demo_sync_blob 2 = Err Decrypt.
Proof.
  split; [|vm_compute; reflexivity].
  apply (sync_blob_version_bound (SD := toy_json) (SDL := toy_json_laws) (ZS := toy_zstd) (ZL := toy_zstd_laws)
           demo_nonce demo_vk demo_doc 3 demo_sync_blob 2 demo_doc);
    [split; vm_compute; congruence|split; vm_compute; congruence|vm_compute; reflexivity].
Defined.
