(* ===== verification/VaultStore.v ===== *)
(** [crates/core/src/vault/store.rs]: the local vault, a SQLite file of sealed items and
    deletion marks that merges remote documents. The two tables are finite maps keyed by
    their primary key; a row of [items] is the sealed bytes and their modification time. *)
From S2P Require Import Prelude Bytes Text Crypto Toy RecoveryKit Keyring Model Envelope.
Local Open Scope Z_scope.

Module LocalVault.
Record t : Type := MkLocalVault {
  items : gmap Uuid (ItemEnvelope * Z);
  tombstones : gmap Uuid Z;
}.

Record MergeReport : Type := MkMergeReport { added : nat; updated : nat; deleted : nat; conflicts : nat }.
Definition MergeReport_default : MergeReport := MkMergeReport 0 0 0 0.

(** A new database. *)
Definition open : t := MkLocalVault ∅ ∅.

(** Insert or replace, and clear a tombstone of the id. *)
Definition upsert (self : t) (env : ItemEnvelope) : Result unit * t :=
  match Envelope.envelope_meta env with
  | Ok (id, updated_at) =>
      (Ok tt, MkLocalVault (<[id := (env, updated_at)]> (items self)) (base.delete id (tombstones self)))
  | Err e => (Err e, self)
  | Panic => (Panic, self)
  end.

Definition get (self : t) (id : Uuid) : option ItemEnvelope := fst <$> items self !! id.

(** [ORDER BY updated_at DESC]. *)
Definition newest_first (x y : ItemEnvelope * Z) : Prop := snd y <= snd x.
#[global] Instance newest_first_dec : RelDecision newest_first.
Proof. intros x y. unfold newest_first. apply _. Defined.

Definition list_envelopes (self : t) : list ItemEnvelope :=
  map fst (merge_sort newest_first (map snd (map_to_list (items self)))).

Definition delete (self : t) (id : Uuid) (deleted_at : Z) : t :=
  MkLocalVault (base.delete id (items self)) (<[id := deleted_at]> (tombstones self)).

Definition count (self : t) : nat := size (items self).

(** [SELECT updated_at FROM items WHERE id = ?1]. *)
Definition local_ts (self : t) (id : Uuid) : option Z := snd <$> items self !! id.

Section ops.
Context {B : Base64}.

Definition to_document (self : t) : VaultDocument.t :=
  VaultDocument.from_envelopes (list_envelopes self) (map_to_list (tombstones self)).

(** The loop over the remote items; an envelope without a header ends it with the error,
    after whatever was already written. *)
Fixpoint merge_items (envs : list ItemEnvelope) (report : MergeReport) (self : t) : Result MergeReport * t :=
  match envs with
  | [] => (Ok report, self)
  | env :: envs =>
      match Envelope.envelope_meta env with
      | Ok (id, remote_ts) =>
          match local_ts self id with
          | None =>
              match upsert self env with
              | (Ok _, self) =>
                  merge_items envs (MkMergeReport (S (added report)) (updated report) (deleted report) (conflicts report)) self
              | (Err e, self) => (Err e, self)
              | (Panic, self) => (Panic, self)
              end
          | Some l =>
              if l <? remote_ts then
                match upsert self env with
                | (Ok _, self) =>
                    merge_items envs (MkMergeReport (added report) (S (updated report)) (deleted report) (conflicts report)) self
                | (Err e, self) => (Err e, self)
                | (Panic, self) => (Panic, self)
                end
              else if remote_ts <? l then
                merge_items envs (MkMergeReport (added report) (updated report) (deleted report) (S (conflicts report))) self
              else merge_items envs report self
          end
      | Err e => (Err e, self)
      | Panic => (Panic, self)
      end
  end.

(** The loop over the remote tombstones. *)
Fixpoint merge_tombstones (tombs : list (Uuid * Z)) (report : MergeReport) (self : t) : MergeReport * t :=
  match tombs with
  | [] => (report, self)
  | (id, deleted_at) :: tombs =>
      match local_ts self id with
      | Some l =>
          if l <=? deleted_at then
            merge_tombstones tombs
              (MkMergeReport (added report) (updated report) (S (deleted report)) (conflicts report))
              (delete self id deleted_at)
          else merge_tombstones tombs report self
      | None => merge_tombstones tombs report self
      end
  end.

Definition merge (self : t) (remote : VaultDocument.t) : Result MergeReport * t :=
  match VaultDocument.envelopes remote with
  | Ok envs =>
      match merge_items envs MergeReport_default self with
      | (Ok report, self) =>
          let '(report, self) := merge_tombstones (VaultDocument.tombstones remote) report self in
          (Ok report, self)
      | (Err e, self) => (Err e, self)
      | (Panic, self) => (Panic, self)
      end
  | Err e => (Err e, self)
  | Panic => (Panic, self)
  end.
End ops.

(** ** Well-formedness *)

(** Every row is filed under what its envelope says, and no id is both alive and deleted. *)
Record wf (self : t) : Prop := {
  wf_meta id env ts : items self !! id = Some (env, ts) -> Envelope.envelope_meta env = Ok (id, ts);
  wf_disjoint id : is_Some (items self !! id) -> tombstones self !! id = None;
}.

Lemma open_wf : wf open.
Proof. split; cbn; [intros ??? H|intros ? [? H]]; by rewrite lookup_empty in H. Qed.

Lemma upsert_wf self env : wf self -> wf (snd (upsert self env)).
Proof.
  intros [Hm Hd]. unfold upsert. destruct (Envelope.envelope_meta env) as [[id ts]|e|] eqn:E; cbn; [|by split..].
  split; cbn.
  - intros id' env' ts'. destruct (decide (id' = id)) as [->|Hne].
    + rewrite lookup_insert_eq. by intros [= <- <-].
    + rewrite lookup_insert_ne by done. apply Hm.
  - intros id'. destruct (decide (id' = id)) as [->|Hne].
    + intros _. apply lookup_delete_eq.
    + rewrite lookup_insert_ne, lookup_delete_ne by done. apply Hd.
Qed.

Lemma delete_wf self id ts : wf self -> wf (delete self id ts).
Proof.
  intros [Hm Hd]. split; cbn.
  - intros id' env' ts' [_ H]%lookup_delete_Some. by apply Hm.
  - intros id' [x H]. apply lookup_delete_Some in H as [Hne H]. rewrite lookup_insert_ne by done. by apply Hd.
Qed.

(** ** What a merge computes *)

(** The remote rows of an id, in document order. *)
Definition remote_for (id : Uuid) (envs : list ItemEnvelope) : list (ItemEnvelope * Z) :=
  omap (fun env => match Envelope.envelope_meta env with
                   | Ok (i, ts) => if decide (i = id) then Some (env, ts) else None
                   | _ => None
                   end) envs.

(** Last writer wins, an equal time keeps what is there. *)
Definition lww (cur : option (ItemEnvelope * Z)) (x : ItemEnvelope * Z) : option (ItemEnvelope * Z) :=
  match cur with
  | None => Some x
  | Some (_, l) => if l <? snd x then Some x else cur
  end.

(** A row survives the tombstones of its id that are older than it. *)
Definition survive (tombs : list (Uuid * Z)) (id : Uuid) (row : option (ItemEnvelope * Z)) : option (ItemEnvelope * Z) :=
  match row with
  | Some (env, ts) => if existsb (fun t => bool_decide (t.1 = id) && (ts <=? t.2)) tombs then None else row
  | None => None
  end.

Definition has_meta (env : ItemEnvelope) : Prop := exists m, Envelope.envelope_meta env = Ok m.

Lemma upsert_ok self env id ts :
  Envelope.envelope_meta env = Ok (id, ts) ->
  upsert self env = (Ok tt, MkLocalVault (<[id := (env, ts)]> (items self)) (base.delete id (tombstones self))).
Proof. intros H. unfold upsert. by rewrite H. Qed.

(** Merging one remote row. *)
Definition step (self : t) (env : ItemEnvelope) : t :=
  match Envelope.envelope_meta env with
  | Ok (id, ts) =>
      match local_ts self id with
      | Some l => if l <? ts then snd (upsert self env) else self
      | None => snd (upsert self env)
      end
  | _ => self
  end.

Lemma merge_items_fold envs r self :
  Forall has_meta envs -> exists r', merge_items envs r self = (Ok r', fold_left step envs self).
Proof.
  intros H. revert r self. induction H as [|env envs [[id ts] Hm] _ IH]; intros r self; cbn; [by eexists|].
  unfold step at 2. rewrite Hm. destruct (local_ts self id) as [l|].
  - destruct (l <? ts); [rewrite (upsert_ok _ _ _ _ Hm); apply IH|]. destruct (ts <? l); apply IH.
  - rewrite (upsert_ok _ _ _ _ Hm). apply IH.
Qed.

Lemma step_lookup self env id :
  items (step self env) !! id = fold_left lww (remote_for id [env]) (items self !! id).
Proof.
  unfold step, remote_for. cbn. destruct (Envelope.envelope_meta env) as [[i ts]|e|] eqn:E; [|done..].
  unfold local_ts. destruct (decide (i = id)) as [->|Hne]; cbn.
  - destruct (items self !! id) as [[e l]|] eqn:El; cbn; [destruct (l <? ts)|];
      rewrite ?(upsert_ok _ _ _ _ E); cbn; by rewrite ?lookup_insert_eq, ?El.
  - destruct (items self !! i) as [[e l]|]; cbn; [destruct (l <? ts)|];
      rewrite ?(upsert_ok _ _ _ _ E); cbn; by rewrite ?lookup_insert_ne.
Qed.

Lemma remote_for_cons id env envs : remote_for id (env :: envs) = remote_for id [env] ++ remote_for id envs.
Proof.
  unfold remote_for. cbn. destruct (Envelope.envelope_meta env) as [[i ts]|e|]; [|done..].
  by destruct (decide (i = id)).
Qed.

Lemma steps_lookup envs self id :
  items (fold_left step envs self) !! id = fold_left lww (remote_for id envs) (items self !! id).
Proof.
  revert self; induction envs as [|env envs IH]; intros self; cbn [fold_left]; [done|].
  by rewrite IH, remote_for_cons, fold_left_app, step_lookup.
Qed.

Lemma merge_tombstones_lookup tombs r self id :
  items (snd (merge_tombstones tombs r self)) !! id = survive tombs id (items self !! id).
Proof.
  revert r self; induction tombs as [|[i d] tombs IH]; intros r self; cbn.
  - by destruct (items self !! id) as [[]|].
  - unfold local_ts. destruct (items self !! i) as [[e l]|] eqn:Ei; cbn.
    + destruct (l <=? d) eqn:Hl.
      * rewrite IH. cbn. destruct (decide (i = id)) as [->|Hne].
        -- rewrite lookup_delete_eq, Ei. cbn. by rewrite bool_decide_true, Hl by done.
        -- rewrite lookup_delete_ne by done. destruct (items self !! id) as [[]|]; [|done]. cbn.
           by rewrite bool_decide_false.
      * rewrite IH. destruct (decide (i = id)) as [->|Hne].
        -- by rewrite Ei; cbn; rewrite Hl, andb_false_r.
        -- destruct (items self !! id) as [[]|]; [|done]. cbn. by rewrite bool_decide_false.
    + rewrite IH. destruct (decide (i = id)) as [->|Hne]; [by rewrite Ei|].
      destruct (items self !! id) as [[]|]; [|done]. cbn. by rewrite bool_decide_false.
Qed.

Section merge.
Context {B : Base64}.

Lemma merge_ok self remote envs :
  VaultDocument.envelopes remote = Ok envs -> Forall has_meta envs ->
  exists r, merge self remote
    = (Ok r, snd (merge_tombstones (VaultDocument.tombstones remote) MergeReport_default (fold_left step envs self))).
Proof.
  intros He Hm. unfold merge. rewrite He. destruct (merge_items_fold envs MergeReport_default self Hm) as [r ->].
  destruct (merge_tombstones _ r _) as [r' s] eqn:E. exists r'. f_equal.
  assert (Hs : forall tombs r1 r2 st, snd (merge_tombstones tombs r1 st) = snd (merge_tombstones tombs r2 st)).
  { clear. induction tombs as [|[i d] tombs IH]; intros r1 r2 st; cbn; [done|].
    destruct (local_ts st i) as [l|]; [destruct (l <=? d)|]; apply IH. }
  by rewrite (Hs _ _ r), E.
Qed.

Lemma merge_wf self remote : wf self -> wf (snd (merge self remote)).
Proof.
  assert (Hi : forall envs r s, wf s -> wf (snd (merge_items envs r s))).
  { induction envs as [|env envs IH]; intros r s Hs; cbn; [done|].
    destruct (Envelope.envelope_meta env) as [[id ts]|e|] eqn:E; [|done..].
    pose proof (upsert_wf s env Hs) as Hu. rewrite (upsert_ok _ _ _ _ E) in *.
    destruct (local_ts s id) as [l|]; [|by apply IH]. destruct (l <? ts); [by apply IH|].
    destruct (ts <? l); by apply IH. }
  assert (Ht : forall tombs r s, wf s -> wf (snd (merge_tombstones tombs r s))).
  { induction tombs as [|[i d] tombs IH]; intros r s Hs; cbn; [done|].
    destruct (local_ts s i) as [l|]; [|by apply IH]. destruct (l <=? d); apply IH; auto using delete_wf. }
  intros Hs. unfold merge. destruct (VaultDocument.envelopes remote) as [envs| |]; [|done..].
  pose proof (Hi envs MergeReport_default self Hs) as H. destruct (merge_items envs _ self) as [[r| |] s']; [|done..].
  pose proof (Ht (VaultDocument.tombstones remote) r s' H) as H'. by destruct (merge_tombstones _ r s').
Qed.

Lemma merge_lookup self remote envs id :
  VaultDocument.envelopes remote = Ok envs -> Forall has_meta envs ->
  items (snd (merge self remote)) !! id
  = survive (VaultDocument.tombstones remote) id (fold_left lww (remote_for id envs) (items self !! id)).
Proof.
  intros He Hm. destruct (merge_ok self remote envs He Hm) as [r ->]. cbn [snd].
  by rewrite merge_tombstones_lookup, steps_lookup.
Qed.

(** ** The winner of a row *)

Lemma lww_max xs cur env ts :
  fold_left lww xs cur = Some (env, ts) ->
  Forall (fun x => snd x <= ts) xs /\ (forall e l, cur = Some (e, l) -> l <= ts).
Proof.
  revert cur; induction xs as [|[e' t'] xs IH]; intros cur H; cbn in H.
  - subst cur. split; [constructor|]. intros e l [= _ ->]. lia.
  - apply IH in H as [Hxs Hc]. destruct cur as [[e l]|]; cbn in *.
    + destruct (Z.ltb_spec l t').
      * pose proof (Hc _ _ eq_refl). split; [constructor; [cbn; lia|done]|]. intros ? ? [= <- <-]. lia.
      * pose proof (Hc _ _ eq_refl). split; [constructor; [cbn; lia|done]|]. intros ? ? [= <- <-]. lia.
    + pose proof (Hc _ _ eq_refl). split; [constructor; [cbn; lia|done]|done].
Qed.

Lemma lww_stable xs env ts :
  Forall (fun x => snd x <= ts) xs -> fold_left lww xs (Some (env, ts)) = Some (env, ts).
Proof.
  induction 1 as [|[e t'] xs Ht _ IH]; [done|]. cbn in *. destruct (Z.ltb_spec ts t'); [lia|done].
Qed.

Lemma lww_some xs cur : is_Some cur -> is_Some (fold_left lww xs cur).
Proof.
  revert cur; induction xs as [|x xs IH]; intros cur H; cbn; [done|]. apply IH.
  destruct H as [[e l] ->]. cbn. case_match; eauto.
Qed.

Lemma lww_in xs cur r : fold_left lww xs cur = Some r -> cur = Some r \/ r ∈ xs.
Proof.
  revert cur; induction xs as [|x xs IH]; intros cur H; cbn in H; [by left|].
  apply IH in H as [H|H]; [|set_solver]. destruct cur as [[e l]|]; cbn in H; [case_match|]; set_solver.
Qed.
End merge.

(** ** The document of a store *)

Lemma remote_for_perm id l l' : l ≡ₚ l' -> remote_for id l ≡ₚ remote_for id l'.
Proof. intros H. unfold remote_for. by rewrite H. Qed.

Lemma remote_for_rows id (m : gmap Uuid (ItemEnvelope * Z)) :
  (forall i e ts, m !! i = Some (e, ts) -> Envelope.envelope_meta e = Ok (i, ts)) ->
  remote_for id (map fst (map snd (map_to_list m))) ≡ₚ option_list (m !! id).
Proof.
  induction m as [|i [e ts] m Hi IH] using map_ind; intros Hm.
  - by rewrite map_to_list_empty, lookup_empty.
  - rewrite (remote_for_perm id _ (map fst (map snd ((i, (e, ts)) :: map_to_list m))))
      by (by rewrite map_to_list_insert).
    cbn [map]. rewrite remote_for_cons. unfold remote_for at 1. cbn.
    rewrite (Hm i e ts) by apply lookup_insert_eq.
    assert (IH' : remote_for id (map fst (map snd (map_to_list m))) ≡ₚ option_list (m !! id)).
    { apply IH. intros i' e' ts' H. apply Hm. rewrite lookup_insert_ne; [done|]. intros ->. by rewrite Hi in H. }
    destruct (decide (i = id)) as [->|Hne].
    + rewrite lookup_insert_eq, IH', Hi. done.
    + by rewrite lookup_insert_ne.
Qed.

Lemma list_envelopes_perm self : list_envelopes self ≡ₚ map fst (map snd (map_to_list (items self))).
Proof. unfold list_envelopes. by rewrite merge_sort_Permutation. Qed.

Lemma remote_for_document self id :
  wf self -> remote_for id (list_envelopes self) = option_list (items self !! id).
Proof.
  intros [Hm _]. pose proof (remote_for_rows id (items self) Hm) as H.
  rewrite <- (remote_for_perm id _ _ (list_envelopes_perm self)) in H.
  destruct (items self !! id) as [x|]; cbn in *.
  - by apply Permutation_singleton_r in H.
  - by apply Permutation_nil_r in H.
Qed.

Lemma list_envelopes_meta self : wf self -> Forall has_meta (list_envelopes self).
Proof.
  intros [Hm _]. rewrite list_envelopes_perm. apply Forall_fmap, Forall_fmap, Forall_forall.
  intros [i [e ts]] Hin%elem_of_map_to_list. exists (i, ts). by apply Hm.
Qed.

Section document.
Context {B : Base64} {BL : Base64Laws}.

(** Merging the document of a well-formed store, row by row. *)
Lemma merge_document_lookup self other id :
  wf other ->
  items (snd (merge self (to_document other))) !! id
  = survive (map_to_list (tombstones other)) id
      (match items other !! id with Some x => lww (items self !! id) x | None => items self !! id end).
Proof.
  intros Hw. rewrite (merge_lookup _ _ (list_envelopes other)).
  - rewrite remote_for_document by done. by destruct (items other !! id).
  - apply VaultDocument.envelopes_from_envelopes.
  - by apply list_envelopes_meta.
Qed.
End document.

Section claims.
Context {B : Base64}.

(** C3: what a merge computes. Whenever the document's envelopes all have a header, [merge]
    succeeds, and afterwards the row of every id is the newest of the local and the remote rows
    (the local one on equal times, else the first remote one), unless a remote tombstone at least
    as new as that row deletes it. The store's own tombstones play no part. *)
Theorem merge_last_writer_wins self remote envs :
  VaultDocument.envelopes remote = Ok envs -> Forall has_meta envs ->
  is_ok (fst (merge self remote)) = true
  /\ forall id, items (snd (merge self remote)) !! id
       = survive (VaultDocument.tombstones remote) id (fold_left lww (remote_for id envs) (items self !! id)).
Proof.
  intros He Hm. split; [|intros id; by apply merge_lookup].
  by destruct (merge_ok self remote envs He Hm) as [r ->].
Qed.

(** Merging is idempotent: merging the same document again leaves every row as it is. *)
Theorem merge_idempotent self remote envs id :
  VaultDocument.envelopes remote = Ok envs -> Forall has_meta envs ->
  items (snd (merge (snd (merge self remote)) remote)) !! id = items (snd (merge self remote)) !! id.
Proof.
  intros He Hm. rewrite !(merge_lookup _ remote envs) by done.
  set (xs := remote_for id envs). set (tombs := VaultDocument.tombstones remote).
  destruct (fold_left lww xs (items self !! id)) as [[env ts]|] eqn:E1.
  - apply lww_max in E1 as [Hxs Hl]. cbn. destruct (existsb _ tombs) eqn:Ht.
    + destruct (fold_left lww xs None) as [[e2 t2]|] eqn:E2; [|done].
      apply lww_in in E2 as [|Hin]; [done|]. cbn. rewrite Forall_forall in Hxs. apply Hxs in Hin. cbn in Hin.
      replace (existsb _ tombs) with true; [done|]. symmetry. apply existsb_exists in Ht as (x & Hx & Hx').
      apply existsb_exists. exists x. split; [done|]. bools. apply andb_true_iff. split; [by apply bool_decide_true|].
      apply Z.leb_le. lia.
    + rewrite lww_stable by done. cbn. by rewrite Ht.
  - cbn. destruct xs as [|x xs']; [done|]. exfalso. cbn in E1.
    destruct (lww_some xs' (lww (items self !! id) x)) as [r Hr]; [|by rewrite E1 in Hr].
    destruct (items self !! id) as [[]|]; cbn; [case_match|]; eauto.
Qed.

(** C29: every operation keeps the store well formed: rows are filed under the id and time their
    envelope carries, and no id is at once alive and deleted. *)
Theorem store_wf_preserved self :
  wf open
  /\ (wf self -> (forall env, wf (snd (upsert self env))) /\ (forall id ts, wf (delete self id ts))
                 /\ (forall remote, wf (snd (merge self remote)))).
Proof. split; [apply open_wf|]. intros H. auto using upsert_wf, delete_wf, merge_wf. Qed.

Lemma elem_of_remote_for id envs env ts :
  (env, ts) ∈ remote_for id envs <-> env ∈ envs /\ Envelope.envelope_meta env = Ok (id, ts).
Proof.
  unfold remote_for. rewrite list_elem_of_omap. split.
  - intros (e & He & H). destruct (Envelope.envelope_meta e) as [[i t]|e'|] eqn:Em; [|done..].
    case_decide; [|done]. simplify_eq. done.
  - intros [He Hm]. exists env. split; [done|]. rewrite Hm. by rewrite decide_True.
Qed.

Lemma merge_brings_back self id deleted_at env ts envs remote :
  wf self -> VaultDocument.envelopes remote = Ok envs -> Forall has_meta envs ->
  env ∈ envs -> Envelope.envelope_meta env = Ok (id, ts) ->
  (forall d, (id, d) ∉ VaultDocument.tombstones remote) ->
  let self' := snd (merge (delete self id deleted_at) remote) in
  (exists env' ts', get self' id = Some env' /\ env' ∈ envs /\ Envelope.envelope_meta env' = Ok (id, ts') /\ ts <= ts')
  /\ tombstones self' !! id = None.
Proof.
  intros Hwf He Hall Hin Hm Ht. cbv zeta.
  pose proof (merge_wf (delete self id deleted_at) remote (delete_wf _ id deleted_at Hwf)) as [Hw Hdisj].
  pose proof (merge_lookup (delete self id deleted_at) remote envs id He Hall) as Hl.
  cbn [items delete] in Hl. rewrite lookup_delete_eq in Hl.
  assert (Hr : (env, ts) ∈ remote_for id envs) by (by apply elem_of_remote_for).
  destruct (fold_left lww (remote_for id envs) None) as [[e t]|] eqn:Ef.
  2: { destruct (remote_for id envs) as [|x l]; [by apply not_elem_of_nil in Hr|]. cbn in Ef.
       destruct (lww_some l (Some x)) as [y Hy]; [by eexists|]. congruence. }
  destruct (lww_in _ _ _ Ef) as [|Hein]; [done|]. apply elem_of_remote_for in Hein as [Hein Hem].
  apply lww_max in Ef as [Hmax _]. rewrite Forall_forall in Hmax. specialize (Hmax _ Hr). cbn in Hmax.
  unfold survive in Hl. assert (existsb (fun t0 => bool_decide (t0.1 = id) && (t <=? t0.2)) (VaultDocument.tombstones remote) = false) as Hno.
  { apply not_true_iff_false. intros ([i d] & Hi & Hb)%existsb_exists. cbn in Hb. bools. subst i.
    by apply (Ht d), list_elem_of_In. }
  rewrite Hno in Hl. split.
  - exists e, t. unfold get. by rewrite Hl.
  - apply Hdisj. by rewrite Hl.
Qed.

(** A deletion does not survive a merge. After [delete], merging any document that still
    holds the item, and no remote tombstone for it, brings the item back whatever its age, and
    erases the local tombstone: the store's tombstones are never compared with remote items. *)
Theorem merge_resurrects_deleted self id deleted_at env ts envs remote :
  wf self -> VaultDocument.envelopes remote = Ok envs -> Forall has_meta envs ->
  env ∈ envs -> Envelope.envelope_meta env = Ok (id, ts) ->
  (forall d, (id, d) ∉ VaultDocument.tombstones remote) ->
  let self' := snd (merge (delete self id deleted_at) remote) in
  (exists env' ts', get self' id = Some env' /\ env' ∈ envs /\ Envelope.envelope_meta env' = Ok (id, ts') /\ ts <= ts')
  /\ tombstones self' !! id = None.
Proof. apply merge_brings_back. Qed.

(** C28: without deletions, two devices converge, item by item, except where both changed an item in the
    same second. If neither store has tombstones and each merges the other's document, then both end
    with the same row for an item exactly when they did not hold different envelopes of it with equal
    times before (times are in seconds, and at equal times each keeps its own). *)
Theorem merge_converges {BL : Base64Laws} a b id :
  wf a -> wf b -> tombstones a = ∅ -> tombstones b = ∅ ->
  items (snd (merge a (to_document b))) !! id = items (snd (merge b (to_document a))) !! id
  <-> (forall e1 e2 ts, items a !! id = Some (e1, ts) -> items b !! id = Some (e2, ts) -> e1 = e2).
Proof.
  intros Ha Hb Hta Htb. rewrite !merge_document_lookup by done. rewrite Hta, Htb, !map_to_list_empty.
  destruct (items a !! id) as [[e1 t1]|], (items b !! id) as [[e2 t2]|]; cbn; [|split; [intros; congruence|done]..].
  destruct (Z.ltb_spec t1 t2), (Z.ltb_spec t2 t1); cbn; try lia; [split; [intros; simplify_eq; lia|done]..|].
  assert (t1 = t2) as -> by lia. split; [intros; simplify_eq; done|]. intros Hag. by rewrite (Hag e1 e2 t2).
Qed.
End claims.

(** ** Concrete runs *)

Definition demo_id : Uuid := arr_fill 16 Byte.x0a.
Definition demo_row (ts : Z) : ItemEnvelope := Envelope.item_header demo_id ts.
Definition demo_remote (ts : Z) (tombs : list (Uuid * Z)) : VaultDocument.t :=
  VaultDocument.from_envelopes (B := toy_base64) [demo_row ts] tombs.
Definition demo_store : t := MkLocalVault {[demo_id := (demo_row 100, 100)]} ∅.

Lemma demo_store_wf : wf demo_store.
Proof.
  split; cbn.
  - intros id env ts [<- [= <- <-]]%lookup_singleton_Some. vm_compute. reflexivity.
  - intros id _. apply lookup_empty.
Qed.

Lemma demo_row_meta ts : i64_range ts -> has_meta (demo_row ts).
Proof.
  intros H. exists (demo_id, ts). unfold demo_row. rewrite <- (app_nil_r (Envelope.item_header demo_id ts)).
  by apply Envelope.meta_assembled.
Qed.

Lemma merge_last_writer_wins_witness :
  is_ok (fst (merge (B := toy_base64) demo_store (demo_remote 200 []))) = true
  /\ get (snd (merge (B := toy_base64) demo_store (demo_remote 200 []))) demo_id = Some (demo_row 200).
Proof.
  split; [|vm_compute; reflexivity].
  apply (merge_last_writer_wins (B := toy_base64) demo_store (demo_remote 200 []) [demo_row 200]);
    [vm_compute; reflexivity|].
  constructor; [apply demo_row_meta; split; vm_compute; congruence|constructor].
Defined.

Lemma merge_idempotent_witness :
  items (snd (merge (B := toy_base64) (snd (merge (B := toy_base64) demo_store (demo_remote 90 [(demo_id, 150)])))
                (demo_remote 90 [(demo_id, 150)]))) !! demo_id
  = items (snd (merge (B := toy_base64) demo_store (demo_remote 90 [(demo_id, 150)]))) !! demo_id.
Proof.
  apply (merge_idempotent (B := toy_base64) demo_store (demo_remote 90 [(demo_id, 150)]) [demo_row 90] demo_id);
    [vm_compute; reflexivity|].
  constructor; [apply demo_row_meta; split; vm_compute; congruence|constructor].
Defined.

Lemma store_wf_preserved_witness :
  wf open /\ (forall env, wf (snd (upsert demo_store env))).
Proof. split; [apply open_wf|]. apply (store_wf_preserved (B := toy_base64) demo_store), demo_store_wf. Defined.

Lemma merge_resurrects_deleted_witness :
  tombstones (delete demo_store demo_id 1000) !! demo_id = Some 1000
  /\ tombstones (snd (merge (B := toy_base64) (delete demo_store demo_id 1000) (demo_remote 100 []))) !! demo_id
    = None.
Proof.
  split; [vm_compute; reflexivity|].
  apply (merge_resurrects_deleted (B := toy_base64) demo_store demo_id 1000 (demo_row 100) 100 [demo_row 100]
           (demo_remote 100 []));
    [apply demo_store_wf|vm_compute; reflexivity| |by constructor|vm_compute; reflexivity|].
  - constructor; [|constructor]. apply demo_row_meta. split; vm_compute; congruence.
  - intros d. apply not_elem_of_nil.
Defined.

(** A later edit on the other device reaches both; one of the same second, with another content, neither. *)
Definition store_with (env : ItemEnvelope) (ts : Z) : t := MkLocalVault {[demo_id := (env, ts)]} ∅.
Lemma store_with_wf env ts : Envelope.envelope_meta env = Ok (demo_id, ts) -> wf (store_with env ts).
Proof. intros He. split; cbn; [by intros id e t [<- [= <- <-]]%lookup_singleton_Some|intros id _; apply lookup_empty]. Qed.
Definition twin : ItemEnvelope := demo_row 100 ++ [Byte.x01].
Lemma merge_converges_witness :
  let both a b := items (snd (merge (B := toy_base64) a (to_document (B := toy_base64) b))) !! demo_id
    = items (snd (merge (B := toy_base64) b (to_document (B := toy_base64) a))) !! demo_id in
  both demo_store (store_with (demo_row 200) 200) /\ ~ both demo_store (store_with twin 100).
Proof.
  split.
  - apply (merge_converges (B := toy_base64) (BL := toy_base64_laws)); [apply demo_store_wf|apply store_with_wf; vm_compute; reflexivity|done|done|].
    intros e1 e2 ts H1 H2. apply (lookup_singleton_Some demo_id demo_id (demo_row 100, 100)) in H1 as [_ [= _ Ht1]].
    apply (lookup_singleton_Some demo_id demo_id (demo_row 200, 200)) in H2 as [_ [= _ Ht2]]. congruence.
  - rewrite (merge_converges (B := toy_base64) (BL := toy_base64_laws)); [|apply demo_store_wf|apply store_with_wf; vm_compute; reflexivity|done|done].
    intros H. specialize (H (demo_row 100) twin 100 (lookup_singleton_eq _ _) (lookup_singleton_eq _ _)).
    apply (f_equal length) in H. vm_compute in H. discriminate H.
Defined.
End LocalVault.
