(* ===== verification/Session.v ===== *)
(** [crates/core/src/vault/session.rs]: the unlocked-vault session and the origin matching
    that decides which items may be filled into a page. URL parsing ([url::Url]) is a crate
    outside the repository: a parameter. *)
From S2P Require Import Prelude Bytes Text Crypto Toy RecoveryKit Keyring Model Envelope.
Local Open Scope Z_scope.

(** * The session *)

Module VaultSession.
Record t : Type := MkVaultSession { key_opt : option VaultKey }.

Definition locked : t := MkVaultSession None.
Definition unlocked (key : VaultKey) : t := MkVaultSession (Some key).
Definition is_locked (self : t) : bool := bool_decide (key_opt self = None).
Definition lock (self : t) : t := MkVaultSession None.
Definition key (self : t) : Result VaultKey := ok_or (key_opt self) (State "vault is locked").
Definition vault_key (self : t) : option VaultKey := key_opt self.

Section ops.
Context {P : CryptoPrims} {SI : Json Item.t}.

Definition seal (nonce : Nonce24) (self : t) (item : Item.t) : Result ItemEnvelope :=
  let? k := key self in Envelope.seal_item nonce k item.

Definition open (self : t) (env : ItemEnvelope) : Result Item.t :=
  let? k := key self in Envelope.open_item k env.
End ops.
End VaultSession.

(** * Origins *)

(** What the [url] crate reports of a URL; [port] is [None] for the scheme's default. *)
Record ParsedUrl : Type := MkParsedUrl { scheme : text; host_str : option text; port : option Z }.

Class UrlLib : Type := { url_parse : text -> option ParsedUrl }.

Record Origin : Type := MkOrigin { o_scheme : text; o_host : text; o_port : option Z }.

Module Autofill.
Definition TWO_LABEL_SUFFIXES : list text :=
  map lit ["co.uk"; "org.uk"; "gov.uk"; "ac.uk"; "co.jp"; "or.jp"; "ne.jp"; "com.au"; "net.au"; "org.au";
           "co.nz"; "com.br"; "com.mx"; "co.in"; "co.za"; "com.sg"].

Definition DOT : Z := chr ".".

(** [labels[labels.len() - k]]. *)
Definition label_from_end (labels : list text) (k : nat) : text := nth (length labels - k) labels [].

Definition registrable_domain (host : text) : text :=
  let labels := split DOT host in
  if (length labels <=? 2)%nat then host
  else
    let last2 := label_from_end labels 2 ++ [DOT] ++ label_from_end labels 1 in
    if bool_decide (last2 ∈ TWO_LABEL_SUFFIXES) && (3 <=? length labels)%nat
    then label_from_end labels 3 ++ [DOT] ++ last2
    else label_from_end labels 2 ++ [DOT] ++ label_from_end labels 1.

Section ops.
Context {U : UrlLib}.

Definition Origin_parse (s : text) : option Origin :=
  url ← url_parse s;
  host ← host_str url;
  Some (MkOrigin (scheme url) (map to_ascii_lowercase host) (port url)).

(** One saved URL against the page. *)
Definition url_matches (page : Origin) (u : UrlMatch.t) : bool :=
  match Origin_parse (UrlMatch.url u) with
  | None => false
  | Some saved =>
      if bool_decide (o_scheme saved = lit "https") && bool_decide (o_scheme page = lit "http") then false
      else if negb (bool_decide (o_port saved = o_port page)) then false
      else match UrlMatch.mode u with
           | UrlMode.Host => bool_decide (o_host saved = o_host page)
           | UrlMode.Domain => bool_decide (registrable_domain (o_host saved) = registrable_domain (o_host page))
           end
  end.

Definition origin_matches (urls : list UrlMatch.t) (page_origin : text) : bool :=
  match Origin_parse page_origin with
  | None => false
  | Some page => existsb (url_matches page) urls
  end.

Definition rank_matches (items : list (Item.t * ItemEnvelope)) (page_origin : text) : list Item.t :=
  let matched := List.filter (fun i => origin_matches (Item.urls i) page_origin) (map fst items) in
  sort_desc Item.updated_at matched.
End ops.

(** ** Registrable domains *)

Lemma label_from_end_app pre l k :
  (1 <= k <= length l)%nat -> label_from_end (pre ++ l) k = label_from_end l k.
Proof.
  intros H. unfold label_from_end. rewrite length_app, app_nth2 by lia. f_equal. lia.
Qed.

Lemma last_three (l : list text) : (3 <= length l)%nat -> exists pre a b c, l = pre ++ [a; b; c].
Proof.
  intros H. exists (take (length l - 3) l).
  destruct (drop (length l - 3) l) as [|a [|b [|c [|d r]]]] eqn:E;
    apply (f_equal length) in E as El; rewrite length_drop in El; cbn in El; try lia.
  exists a, b, c. by rewrite <- E, take_drop.
Qed.

(** The function on a host of three labels or more. *)
Lemma registrable_labels host pre a b c :
  split DOT host = pre ++ [a; b; c] ->
  registrable_domain host
  = if bool_decide (join [DOT] [b; c] ∈ TWO_LABEL_SUFFIXES) then join [DOT] [a; b; c] else join [DOT] [b; c].
Proof.
  intros E. unfold registrable_domain. cbv zeta. rewrite E, length_app, !label_from_end_app by (cbn; lia).
  replace (length pre + length [a; b; c] <=? 2)%nat with false by (symmetry; apply Nat.leb_gt; cbn; lia).
  replace (3 <=? length pre + length [a; b; c])%nat with true by (symmetry; apply Nat.leb_le; cbn; lia).
  by rewrite andb_true_r.
Qed.

Lemma registrable_short host : (length (split DOT host) <= 2)%nat -> registrable_domain host = host.
Proof. intros H%Nat.leb_le. unfold registrable_domain. cbv zeta. by rewrite H. Qed.

Lemma split_parts host pre l : split DOT host = pre ++ l -> Forall (fun p => DOT ∉ p) l.
Proof. intros E. pose proof (split_pieces DOT host) as H. rewrite E in H. by apply Forall_app in H as [_ H]. Qed.

Section claims.
Context {U : UrlLib}.

(** A host is its registrable domain, or ends in a dot and its registrable domain. *)
Lemma registrable_suffix host : exists pre, split DOT host = pre ++ split DOT (registrable_domain host).
Proof.
  destruct (le_lt_dec (length (split DOT host)) 2) as [Hs|Hs]; [rewrite registrable_short by done; by exists []|].
  destruct (last_three (split DOT host)) as (pre & a & b & c & E); [lia|].
  pose proof (split_parts _ _ _ E) as Hf. pose proof Hf as [_ Hf2]%Forall_cons.
  rewrite (registrable_labels _ _ _ _ _ E). case_bool_decide; rewrite split_join by done; [by exists pre|].
  exists (pre ++ [a]). by rewrite E, <- app_assoc.
Qed.

(** The registrable domain of a host is a fixed point, a dot-aligned suffix of the host, and
    is shared by all its subdomains: prefixing a label changes nothing, as long as the host has at
    least two labels and is not itself a listed public suffix. *)
Theorem registrable_domain_spec host label :
  registrable_domain (registrable_domain host) = registrable_domain host
  /\ (exists pre, split DOT host = pre ++ split DOT (registrable_domain host))
  /\ (DOT ∉ label -> (2 <= length (split DOT host))%nat -> host ∉ TWO_LABEL_SUFFIXES ->
      registrable_domain (label ++ DOT :: host) = registrable_domain host).
Proof.
  destruct (le_lt_dec (length (split DOT host)) 2) as [Hs|Hs]; (split; [|split; [apply registrable_suffix|]]).
  - by rewrite !(registrable_short host).
  - rewrite (registrable_short host) by done. intros Hl H2 Hns.
    destruct (split DOT host) as [|b [|c [|]]] eqn:E; cbn in Hs, H2; try lia.
    rewrite (registrable_labels _ [] label b c) by (by rewrite split_app, E).
    rewrite <- (join_split DOT host), E in Hns |- *. by rewrite bool_decide_false.
  - destruct (last_three (split DOT host)) as (pre & a & b & c & E); [lia|].
    pose proof (split_parts _ _ _ E) as Hf. pose proof Hf as [_ Hf2]%Forall_cons.
    rewrite (registrable_labels _ _ _ _ _ E). case_bool_decide as Hb.
    + rewrite (registrable_labels _ [] a b c) by (by rewrite split_join). by rewrite bool_decide_true.
    + apply registrable_short. by rewrite split_join.
  - destruct (last_three (split DOT host)) as (pre & a & b & c & E); [lia|]. intros Hl _ _.
    rewrite (registrable_labels _ _ _ _ _ E).
    by rewrite (registrable_labels _ (label :: pre) a b c) by (by rewrite split_app, E).
Qed.

(** The filling rule: an item may be filled into a page exactly when the page parses and one
    of the item's saved URLs does, with the same port, without an https credential meeting an http
    page, and with the same host (mode Host) or the same registrable domain (mode Domain). *)
Lemma origin_matches_spec urls page_origin :
  origin_matches urls page_origin = true <->
  exists page u saved, Origin_parse page_origin = Some page /\ u ∈ urls
    /\ Origin_parse (UrlMatch.url u) = Some saved
    /\ ~ (o_scheme saved = lit "https" /\ o_scheme page = lit "http")
    /\ o_port saved = o_port page
    /\ match UrlMatch.mode u with
       | UrlMode.Host => o_host saved = o_host page
       | UrlMode.Domain => registrable_domain (o_host saved) = registrable_domain (o_host page)
       end.
Proof.
  unfold origin_matches. destruct (Origin_parse page_origin) as [page|]; [|split; [done|]; by intros (?&?&?&?&_)].
  rewrite existsb_exists. split.
  - intros (u & Hin%list_elem_of_In & Hu). unfold url_matches in Hu. destruct (Origin_parse (UrlMatch.url u)) as [saved|] eqn:E; [|done].
    exists page, u, saved. destruct (bool_decide (_ = lit "https") && _) eqn:Eh; [done|].
    destruct (negb _) eqn:Ep; [done|]. bools. do 3 (split; [done|]). split.
    { intros [H1 H2]. rewrite !bool_decide_true in Eh by done. done. }
    split; [done|]. by destruct (UrlMatch.mode u); bools.
  - intros (page' & u & saved & [= <-] & Hin & E & Hh & Hp & Hm). exists u. split; [by apply list_elem_of_In|].
    unfold url_matches. rewrite E. rewrite <- bool_decide_and, bool_decide_false by done.
    rewrite (bool_decide_true (o_port _ = _)) by done. cbn. by destruct (UrlMatch.mode u); apply bool_decide_true.
Qed.

(** The candidates for a page are exactly the matching items, newest first; items of equal
    time keep the order of the vault. *)
Theorem rank_matches_spec items page_origin :
  let out := rank_matches items page_origin in
  out ≡ₚ List.filter (fun i => origin_matches (Item.urls i) page_origin) (map fst items)
  /\ StronglySorted (fun a b => Item.updated_at b <= Item.updated_at a) out
  /\ (forall ts, List.filter (fun i => Item.updated_at i =? ts) out
        = List.filter (fun i => Item.updated_at i =? ts)
            (List.filter (fun i => origin_matches (Item.urls i) page_origin) (map fst items))).
Proof.
  cbv zeta. split; [apply sort_desc_perm|]. split; [apply sort_desc_sorted|]. intros ts. apply sort_desc_stable.
Qed.

(** *** What a site is

    The rule the code approximates the public-suffix list with, written down apart from the code:
    two different names belong to one site when they end in the same three labels, the last two of
    them one of sixteen suffixes, or in the same two labels that are none of these. *)
Definition two_label_suffixes : list (list text) :=
  map (map lit)
    [["co"; "uk"]; ["org"; "uk"]; ["gov"; "uk"]; ["ac"; "uk"];
     ["co"; "jp"]; ["or"; "jp"]; ["ne"; "jp"]; ["com"; "au"]; ["net"; "au"]; ["org"; "au"];
     ["co"; "nz"]; ["com"; "br"]; ["com"; "mx"]; ["co"; "in"]; ["co"; "za"]; ["com"; "sg"]].

Definition same_site (h1 h2 : text) : Prop :=
  h1 = h2
  \/ (exists pre1 pre2 a b c, split DOT h1 = pre1 ++ [a; b; c] /\ split DOT h2 = pre2 ++ [a; b; c]
      /\ [b; c] ∈ two_label_suffixes)
  \/ (exists pre1 pre2 b c, split DOT h1 = pre1 ++ [b; c] /\ split DOT h2 = pre2 ++ [b; c]
      /\ [b; c] ∉ two_label_suffixes).

(** A domain name, as against an IPv4 literal: the last label is not a number. *)
Definition domain_name (h : text) : bool :=
  negb (forallb is_ascii_digit (label_from_end (split DOT h) 1)).

Lemma suffixes_table : map (split DOT) TWO_LABEL_SUFFIXES = two_label_suffixes.
Proof. by vm_compute. Qed.

Lemma suffixes_join : map (join [DOT]) two_label_suffixes = TWO_LABEL_SUFFIXES.
Proof. by vm_compute. Qed.

(** The table of the code, in labels. *)
Lemma listed_labels b c :
  DOT ∉ b -> DOT ∉ c -> join [DOT] [b; c] ∈ TWO_LABEL_SUFFIXES <-> [b; c] ∈ two_label_suffixes.
Proof.
  intros Hb Hc. split; intros H.
  - rewrite <- suffixes_table. apply list_elem_of_fmap. exists (join [DOT] [b; c]). split; [|done].
    symmetry. apply split_join; [done|]. by repeat constructor.
  - rewrite <- suffixes_join. apply list_elem_of_fmap. by exists [b; c].
Qed.

(** A host and the labels of its registrable domain. *)
Lemma registrable_cases h :
  let r := split DOT (registrable_domain h) in
  registrable_domain h = h /\ (length (split DOT h) <= 2)%nat
  \/ (exists pre a b c, split DOT h = pre ++ [a; b; c] /\ r = [a; b; c] /\ [b; c] ∈ two_label_suffixes)
  \/ (exists pre a b c, split DOT h = pre ++ [a; b; c] /\ r = [b; c] /\ [b; c] ∉ two_label_suffixes).
Proof.
  cbv zeta. destruct (le_lt_dec (length (split DOT h)) 2) as [Hs|Hs]; [left; by rewrite registrable_short|right].
  destruct (last_three (split DOT h)) as (pre & a & b & c & E); [lia|].
  pose proof (split_parts _ _ _ E) as Hf. pose proof Hf as [_ Hf2]%Forall_cons.
  pose proof Hf2 as [Hb [Hc _]%Forall_cons]%Forall_cons.
  rewrite (registrable_labels _ _ _ _ _ E). case_bool_decide as H; rewrite (listed_labels b c) in H by done;
    [left|right]; exists pre, a, b, c; by rewrite split_join.
Qed.

(** Equal registrable domains are one site. *)
Lemma registrable_same_site h1 h2 :
  registrable_domain h1 = registrable_domain h2 -> same_site h1 h2.
Proof.
  intros E. destruct (registrable_cases h1) as [[E1 L1]|[(p1&a1&b1&c1&S1&R1&I1)|(p1&a1&b1&c1&S1&R1&I1)]],
    (registrable_cases h2) as [[E2 L2]|[(p2&a2&b2&c2&S2&R2&I2)|(p2&a2&b2&c2&S2&R2&I2)]].
  - left. congruence.
  - exfalso. rewrite <- E, E1 in R2. rewrite R2 in L1. cbn in L1. lia.
  - right; right. exists [], (p2 ++ [a2]), b2, c2. rewrite <- app_assoc. split; [by rewrite <- E1, E|done].
  - exfalso. rewrite E, E2 in R1. rewrite R1 in L2. cbn in L2. lia.
  - right; left. exists p1, p2, a1, b1, c1. split; [done|]. rewrite E, R2 in R1. by simplify_eq.
  - exfalso. rewrite E, R2 in R1. done.
  - right; right. exists (p1 ++ [a1]), [], b1, c1. rewrite <- app_assoc. split; [done|]. split; [|done].
    by rewrite <- E2, <- E.
  - exfalso. rewrite E, R2 in R1. done.
  - right; right. exists (p1 ++ [a1]), (p2 ++ [a2]), b1, c1. rewrite <- !app_assoc.
    split; [done|]. rewrite E, R2 in R1. by simplify_eq.
Qed.

(** C31: filling stays within the site. Every item offered for a page is one of the vault's and
    has a saved URL with the page's port, that is not https on a plain-http page; the hosts are equal
    when that URL is matched by host; and when it is matched by domain and the page's host is a domain
    name, not an IPv4 literal, the hosts are equal, or share their last three labels, the last two
    being one of the sixteen listed suffixes, or share their last two labels, which are none of
    these. *)
Theorem autofill_candidates_safe items page_origin i :
  i ∈ rank_matches items page_origin ->
  i ∈ map fst items
  /\ exists page u saved, Origin_parse page_origin = Some page /\ u ∈ Item.urls i
     /\ Origin_parse (UrlMatch.url u) = Some saved
     /\ o_port saved = o_port page
     /\ ~ (o_scheme saved = lit "https" /\ o_scheme page = lit "http")
     /\ (UrlMatch.mode u = UrlMode.Host -> o_host saved = o_host page)
     /\ (UrlMatch.mode u = UrlMode.Domain -> domain_name (o_host page) = true ->
         same_site (o_host saved) (o_host page)).
Proof.
  unfold rank_matches. rewrite sort_desc_perm. intros Hi. apply list_elem_of_In, filter_In in Hi as [Hi Hm].
  split; [by apply list_elem_of_In|]. apply origin_matches_spec in Hm as (page & u & saved & Hp & Hu & Hs & Hh & Hport & Hmode).
  exists page, u, saved. do 5 (split; [done|]). destruct (UrlMatch.mode u); (split; intros ?; try done).
  intros _. by apply registrable_same_site.
Qed.
End claims.

(** ** Where the rule is too wide *)

(** A URL library on a few literal URLs. *)
Definition demo_urls : UrlLib := {|
  url_parse s :=
    match strip_prefix (lit "https://") s with
    | Some h => Some (MkParsedUrl (lit "https") (Some h) None)
    | None => match strip_prefix (lit "http://") s with
              | Some h => Some (MkParsedUrl (lit "http") (Some h) None)
              | None => None
              end
    end;
|}.

(** A login saved for the site, and one for another site. *)
Definition demo_item (title url : text) (ts : Z) : Item.t :=
  Item.MkItem (arr_fill 16 x00) ItemType.Login title [] [UrlMatch.MkUrlMatch url UrlMode.Domain] None []
    (Some Login.default) None None None ts ts None.

Definition demo_items : list (Item.t * ItemEnvelope) :=
  [(demo_item (lit "bank") (lit "https://www.bank.co.uk") 5, []);
   (demo_item (lit "mail") (lit "https://mail.org") 9, [])].

Lemma autofill_candidates_safe_witness :
  same_site (lit "www.bank.co.uk") (lit "login.bank.co.uk")
  /\ ~ same_site (lit "www.bank.co.uk") (lit "login.evil.co.uk").
Proof.
  split.
  - destruct (@autofill_candidates_safe demo_urls demo_items (lit "https://login.bank.co.uk")
                (demo_item (lit "bank") (lit "https://www.bank.co.uk") 5))
      as (_ & page & u & saved & Hp & Hu & Hs & _ & _ & _ & H).
    + apply list_elem_of_In. vm_compute. by left.
    + vm_compute in Hp. injection Hp as <-. apply list_elem_of_singleton in Hu as ->.
      vm_compute in Hs. injection Hs as <-. by apply H.
  - assert (H1 : split DOT (lit "www.bank.co.uk") = [lit "www"; lit "bank"] ++ [lit "co"; lit "uk"]) by by vm_compute.
    assert (H2 : split DOT (lit "login.evil.co.uk") = [lit "login"; lit "evil"] ++ [lit "co"; lit "uk"]) by by vm_compute.
    intros [H|[(p1&p2&a&b&c&E1&E2&_)|(p1&p2&b&c&E1&_&Hn)]]; [done| |].
    + rewrite H1 in E1. rewrite H2 in E2.
      apply (app_inj_2 [lit "www"] p1 [lit "bank"; lit "co"; lit "uk"]) in E1 as [_ E1]; [|done].
      apply (app_inj_2 [lit "login"] p2 [lit "evil"; lit "co"; lit "uk"]) in E2 as [_ E2]; [|done].
      rewrite <- E1 in E2. vm_compute in E2. discriminate E2.
    + rewrite H1 in E1. apply app_inj_2 in E1 as [_ E1]; [|done]. injection E1 as <- <-.
      apply Hn, list_elem_of_In. vm_compute. by left.
Defined.

Lemma registrable_domain_spec_witness :
  registrable_domain (lit "login.bank.co.uk") = registrable_domain (lit "bank.co.uk").
Proof.
  apply (registrable_domain_spec (lit "bank.co.uk") (lit "login")); [|vm_compute; lia|];
    by apply (bool_decide_unpack _); vm_compute.
Defined.

(** A public suffix outside the sixteen is taken for a site of its own: a login saved for one
    company of Korea is offered to every other, where the comment promises that an unsure answer
    requires more labels to match. *)
Theorem autofill_crosses_unlisted_suffixes :
  @origin_matches demo_urls
    [UrlMatch.MkUrlMatch (lit "https://bank.co.kr") UrlMode.Domain] (lit "https://evil.co.kr") = true.
Proof. vm_compute; reflexivity. Qed.

(** Address literals are cut like domain names. A credential saved for one IPv4 address in the
    default Domain mode is offered to any other address with the same last two numbers, contrary to
    the rule that there is never a match into an unrelated origin. *)
Theorem autofill_crosses_ip_addresses :
  @origin_matches demo_urls
    [UrlMatch.MkUrlMatch (lit "https://192.168.1.1") UrlMode.Domain] (lit "https://203.0.1.1") = true
  /\ registrable_domain (lit "192.168.1.1") = lit "1.1".
Proof. split; vm_compute; reflexivity. Qed.
End Autofill.

(** * The session state machine *)

Section session_claims.
Context {P : CryptoPrims} {SI : Json Item.t}.

(** After [lock] nothing can be sealed or opened, whatever came before, and a session
    unlocked with a key seals and opens with that key and no other. *)
Lemma session_lock_blocks s nonce item env k :
  VaultSession.is_locked (VaultSession.lock s) = true
  /\ VaultSession.vault_key (VaultSession.lock s) = None
  /\ VaultSession.seal nonce (VaultSession.lock s) item = Err (State "vault is locked")
  /\ VaultSession.open (VaultSession.lock s) env = Err (State "vault is locked")
  /\ VaultSession.seal nonce (VaultSession.unlocked k) item = Envelope.seal_item nonce k item
  /\ VaultSession.open (VaultSession.unlocked k) env = Envelope.open_item k env.
Proof. done. Qed.
End session_claims.
