(* ===== verification/FileBlob.v ===== *)
(** [crates/core/src/vault/fileblob.rs]: files sealed for the transfer relay, bundles of several
    files, and the optional passphrase layer. A [String] inside a bundle is its UTF-8 bytes. *)
From S2P Require Import Prelude Bytes Text Crypto Toy RecoveryKit Keyring Model.
Local Open Scope Z_scope.

(** [str::from_utf8]: the well-formed byte sequences of the Unicode standard. *)
Definition within (lo hi : Z) (b : byte) : bool := (lo <=? byte_to_Z b) && (byte_to_Z b <=? hi).
Fixpoint is_utf8 (b : bytes) : bool :=
  match b with
  | [] => true
  | x :: r =>
      if within 0 127 x then is_utf8 r
      else if within 194 223 x then
        match r with y :: r => within 128 191 y && is_utf8 r | _ => false end
      else if within 224 239 x then
        match r with
        | y :: z :: r =>
            within (if within 224 224 x then 160 else 128) (if within 237 237 x then 159 else 191) y
            && within 128 191 z && is_utf8 r
        | _ => false
        end
      else if within 240 244 x then
        match r with
        | y :: z :: w :: r =>
            within (if within 240 240 x then 144 else 128) (if within 244 244 x then 143 else 191) y
            && within 128 191 z && within 128 191 w && is_utf8 r
        | _ => false
        end
      else false
  end.

Module FileBlob.
Definition MAGIC : bytes := utf8 (lit "SFIL").
Definition VERSION : byte := Byte.x01.
Definition PASS_MAGIC : bytes := utf8 (lit "SPAS").
Definition PASS_VERSION : byte := Byte.x01.
Definition HDR_LEN : nat := 8.
Definition SALT_LEN : nat := 16.
Definition NONCE_LEN : nat := 24.

Record FileMeta : Type := MkFileMeta { filename : text; mime : text }.

Definition header : bytes := MAGIC ++ [VERSION] ++ [Byte.x00; Byte.x00; Byte.x00].
Definition pass_header : bytes := PASS_MAGIC ++ [PASS_VERSION] ++ [Byte.x00; Byte.x00; Byte.x00].

(** The checks and slices that [open_file] and [open_passphrase] begin with. *)
Definition split_blob (what : string) (magic : bytes) (version : byte) (b : bytes)
    : Result (bytes * arr 16 * Nonce24 * bytes) :=
  guard negb (length b <? HDR_LEN + SALT_LEN + NONCE_LEN)%nat else Err (Format what "too short") in
  let? m := slice b 0 4 in
  let? v := index b 4 in
  guard bool_decide (m = magic) && bool_decide (v = version) else Err (Format what "bad magic/version") in
  let? hdr := slice b 0 HDR_LEN in
  let? sb := slice b HDR_LEN (HDR_LEN + SALT_LEN) in
  let? salt := copy_from_slice 16 sb in
  let? nb := slice b (HDR_LEN + SALT_LEN) (HDR_LEN + SALT_LEN + NONCE_LEN) in
  let? nonce := copy_from_slice 24 nb in
  let? ct := slice_from b (HDR_LEN + SALT_LEN + NONCE_LEN) in
  Ok (hdr, salt, nonce, ct).

Section ops.
Context {P : CryptoPrims} {SM : Json FileMeta} {ZS : Zstd}.

(** [salt] and [nonce] are drawn at random. *)
Definition seal_file (salt : arr 16) (nonce : Nonce24) (vk : VaultKey) (meta : FileMeta) (data : bytes) : Result bytes :=
  let? meta_json := of_sum Serde (to_vec meta) in
  let plaintext := le_bytes 4 (Z.of_nat (length meta_json)) ++ meta_json ++ data in
  let? compressed := of_sum Io (encode_all plaintext) in
  let aad := header ++ salt in
  let key := crypto.hkdf32 vk (Some (arr_bytes salt)) Info.FileTransfer in
  let '(nonce, ct) := crypto.seal nonce key aad compressed in
  Ok (header ++ salt ++ nonce ++ ct).

Definition open_file (vk : VaultKey) (b : bytes) : Result (FileMeta * bytes) :=
  let? (hdr, salt, nonce, ct) := split_blob "file blob" MAGIC VERSION b in
  let aad := hdr ++ salt in
  let key := crypto.hkdf32 vk (Some (arr_bytes salt)) Info.FileTransfer in
  let? pt := crypto.open key aad nonce ct in
  let? plain := of_sum Io (decode_all pt) in
  guard negb (length plain <? 4)%nat else Err (Format "file blob" "no metadata length") in
  let? lb := slice plain 0 4 in
  let meta_len := Z.to_nat (le_val lb) in
  guard negb (length plain <? 4 + meta_len)%nat else Err (Format "file blob" "metadata truncated") in
  let? mb := slice plain 4 (4 + meta_len) in
  let? meta := of_sum Serde (from_slice mb) in
  let? data := slice_from plain (4 + meta_len) in
  Ok (meta, data).

Definition is_passphrase_wrapped (b : bytes) : bool :=
  (5 <=? length b)%nat && bool_decide (take 4 b = PASS_MAGIC) && bool_decide (b !! 4%nat = Some PASS_VERSION).

Definition seal_passphrase (salt : arr 16) (nonce : Nonce24) (passphrase : text) (inner : bytes)
    (profile : Argon2Profile.t) : bytes :=
  let aad := pass_header ++ salt in
  let key := crypto.argon2id_kek (utf8 passphrase) salt profile in
  let '(nonce, ct) := crypto.seal nonce key aad inner in
  pass_header ++ salt ++ nonce ++ ct.

Definition open_passphrase (passphrase : text) (b : bytes) (profile : Argon2Profile.t) : Result bytes :=
  let? (hdr, salt, nonce, ct) := split_blob "passphrase blob" PASS_MAGIC PASS_VERSION b in
  let aad := hdr ++ salt in
  let key := crypto.argon2id_kek (utf8 passphrase) salt profile in
  crypto.open key aad nonce ct.
End ops.

(** ** Bundles *)

Definition NKAR_MAGIC : bytes := utf8 (lit "NKAR").
Definition NKAR_VERSION : byte := Byte.x01.

Record BundleEntry : Type := MkBundleEntry { name : bytes; data : bytes }.

(** One iteration of the packing loop. *)
Definition pack_entry (e : BundleEntry) : bytes :=
  le_bytes 4 (Z.of_nat (length (name e))) ++ name e ++ le_bytes 8 (Z.of_nat (length (data e))) ++ data e.

Definition pack_bundle (entries : list BundleEntry) : bytes :=
  NKAR_MAGIC ++ [NKAR_VERSION] ++ le_bytes 4 (Z.of_nat (length entries)) ++ concat (map pack_entry entries).

Definition fmt (detail : string) : CoreError := Format "file bundle" detail.

(** [checked_add] at the width of [usize]. *)
Definition fits (len pos n : Z) : bool := (pos + n <? 2 ^ 64) && (pos + n <=? len).

Fixpoint unpack_loop (count : nat) (b : bytes) (pos : nat) (out : list BundleEntry) : Result (nat * list BundleEntry) :=
  match count with
  | O => Ok (pos, out)
  | S count =>
      let len := Z.of_nat (length b) in
      guard fits len (Z.of_nat pos) 4 else Err (fmt "truncated (name length)") in
      let? nb := slice b pos (pos + 4) in
      let nlen := le_val nb in
      let pos := (pos + 4)%nat in
      guard fits len (Z.of_nat pos) nlen else Err (fmt "truncated (name)") in
      let? name := slice b pos (pos + Z.to_nat nlen) in
      guard is_utf8 name else Err (fmt "name not utf-8") in
      let pos := (pos + Z.to_nat nlen)%nat in
      guard fits len (Z.of_nat pos) 8 else Err (fmt "truncated (data length)") in
      let? db := slice b pos (pos + 8) in
      let dlen := le_val db in
      let pos := (pos + 8)%nat in
      guard fits len (Z.of_nat pos) dlen else Err (fmt "truncated (data)") in
      let? data := slice b pos (pos + Z.to_nat dlen) in
      unpack_loop count b (pos + Z.to_nat dlen) (out ++ [MkBundleEntry name data])
  end.

Definition unpack_bundle (b : bytes) : Result (list BundleEntry) :=
  guard negb (length b <? 9)%nat && bool_decide (take 4 b = NKAR_MAGIC) else Err (fmt "bad magic") in
  let? v := index b 4 in
  guard bool_decide (v = NKAR_VERSION) else Err (fmt "unsupported version") in
  let? cb := slice b 5 9 in
  let? (pos, out) := unpack_loop (Z.to_nat (le_val cb)) b 9 [] in
  guard (pos =? length b)%nat else Err (fmt "trailing bytes") in
  Ok out.

(** ** Facts about bundles *)

Record wf_entry (e : BundleEntry) : Prop := {
  wf_name : is_utf8 (name e) = true;
  wf_name_len : Z.of_nat (length (name e)) < 2 ^ 32;
  wf_data_len : Z.of_nat (length (data e)) < 2 ^ 64;
}.

Lemma length_pack_entry e : length (pack_entry e) = (12 + length (name e) + length (data e))%nat.
Proof. unfold pack_entry. rewrite !length_app, !length_le_bytes. lia. Qed.

Lemma fits_spec len pos n : fits len pos n = true <-> pos + n < 2 ^ 64 /\ pos + n <= len.
Proof. unfold fits. by rewrite andb_true_iff, Z.ltb_lt, Z.leb_le. Qed.

(** A chunk read at a position where the buffer holds it. *)
Lemma slice_at (b x rest : bytes) pos n :
  (pos <= length b)%nat -> drop pos b = x ++ rest -> n = length x ->
  slice b pos (pos + n) = Ok (E := CoreError) x /\ drop (pos + n) b = rest /\ (pos + n <= length b)%nat.
Proof.
  intros Hp Hd ->. assert (Hl : (pos + length x <= length b)%nat).
  { apply (f_equal length) in Hd. rewrite length_drop, length_app in Hd. lia. }
  split; [|split; [|done]].
  - rewrite slice_ok by lia. replace (pos + length x - pos)%nat with (length x) by lia. by rewrite Hd, take_app_length.
  - by rewrite <- drop_drop, Hd, drop_app_length.
Qed.

Lemma unpack_loop_pack es b pos acc rest :
  Forall wf_entry es -> Z.of_nat (length b) < 2 ^ 64 -> (pos <= length b)%nat ->
  drop pos b = concat (map pack_entry es) ++ rest ->
  unpack_loop (length es) b pos acc = Ok ((pos + length (concat (map pack_entry es)))%nat, acc ++ es).
Proof.
  intros Hwf Hb. revert pos acc; induction Hwf as [|e es [Hu Hn Hd] _ IH]; intros pos acc Hp Hdrop.
  { cbn. by rewrite Nat.add_0_r, app_nil_r. }
  cbn [length map concat unpack_loop] in *. unfold pack_entry at 1 in Hdrop. rewrite <- !app_assoc in Hdrop.
  destruct (slice_at _ _ _ _ 4 Hp Hdrop) as (S1 & D1 & P1); [by rewrite length_le_bytes|].
  rewrite (proj2 (fits_spec _ _ _)), S1 by lia. cbn [rbind].
  rewrite le_val_le_bytes_small by (change (256 ^ Z.of_nat 4) with (2 ^ 32); lia). rewrite Nat2Z.id.
  destruct (slice_at _ _ _ _ _ P1 D1 eq_refl) as (S2 & D2 & P2). rewrite (proj2 (fits_spec _ _ _)), S2 by lia. cbn [rbind].
  rewrite Hu. destruct (slice_at _ _ _ _ 8 P2 D2) as (S3 & D3 & P3); [by rewrite length_le_bytes|].
  rewrite (proj2 (fits_spec _ _ _)), S3 by lia. cbn [rbind].
  rewrite le_val_le_bytes_small by (change (256 ^ Z.of_nat 8) with (2 ^ 64); lia). rewrite Nat2Z.id.
  destruct (slice_at _ _ _ _ _ P3 D3 eq_refl) as (S4 & D4 & P4). rewrite (proj2 (fits_spec _ _ _)), S4 by lia. cbn [rbind].
  rewrite IH by done. rewrite <- app_assoc, length_app, length_pack_entry. do 2 f_equal; [lia|by destruct e].
Qed.

(** A chunk that was read is what the buffer holds there. *)
Lemma slice_was (b x : bytes) pos n :
  slice b pos (pos + n) = Ok (E := CoreError) x -> length x = n /\ drop pos b = x ++ drop (pos + n) b /\ (pos + n <= length b)%nat.
Proof.
  intros [Hl ->]%slice_Ok. replace (pos + n - pos)%nat with n by lia. rewrite length_take, length_drop.
  split; [lia|]. split; [|lia]. by rewrite <- drop_drop, take_drop.
Qed.

Lemma le_bytes_of n (x : bytes) v : length x = n -> le_val x = v -> x = le_bytes n v.
Proof. intros <- <-. symmetry. apply le_bytes_le_val. Qed.

Lemma unpack_loop_Ok count b pos acc pos' out :
  unpack_loop count b pos acc = Ok (pos', out) -> (pos <= length b)%nat ->
  exists es, out = acc ++ es /\ length es = count /\ Forall wf_entry es
    /\ drop pos b = concat (map pack_entry es) ++ drop pos' b
    /\ (pos' <= length b)%nat /\ (es <> [] -> Z.of_nat pos' < 2 ^ 64).
Proof.
  revert pos acc; induction count as [|count IH]; intros pos acc H Hp; cbn [unpack_loop] in H.
  { injection H as <- <-. exists []. by rewrite app_nil_r. }
  inv_result. rewrite !fits_spec in *.
  repeat match goal with H : slice b _ _ = Ok _ |- _ => apply slice_was in H as (? & ? & ?) end.
  apply IH in H as (es & -> & Hlen & Hwf & Hdrop & Hp' & Hsmall); [|lia].
  match goal with H : drop pos b = ?x ++ _ |- _ => rename x into nb; rename H into D1 end.
  match goal with H : drop (pos + 4) b = ?x ++ _ |- _ => rename x into nm; rename H into D2 end.
  match goal with H : drop (pos + 4 + Z.to_nat (le_val nb)) b = ?x ++ _ |- _ => rename x into db; rename H into D3 end.
  match goal with H : drop (pos + 4 + Z.to_nat (le_val nb) + 8) b = ?x ++ _ |- _ => rename x into dt; rename H into D4 end.
  pose proof (le_val_range nb) as Rn. pose proof (le_val_range db) as Rd.
  assert (En : nb = le_bytes 4 (Z.of_nat (length nm))) by (apply le_bytes_of; lia).
  assert (Ed : db = le_bytes 8 (Z.of_nat (length dt))) by (apply le_bytes_of; lia).
  exists (MkBundleEntry nm dt :: es). rewrite <- app_assoc. split; [done|]. split; [cbn; lia|]. split.
  { constructor; [|done]. split; cbn; [done|..].
    - change (2 ^ 32) with (256 ^ Z.of_nat 4). replace 4%nat with (length nb) by done. lia.
    - change (2 ^ 64) with (256 ^ Z.of_nat 8). replace 8%nat with (length db) by done. lia. }
  split.
  { cbn [map concat]. unfold pack_entry at 1. cbn [name data]. rewrite <- En, <- Ed, <- !app_assoc.
    by rewrite D1, D2, D3, D4, Hdrop. }
  split; [done|]. intros _. destruct es as [|e es]; [|by apply Hsmall].
  cbn in Hdrop. apply (f_equal length) in Hdrop. rewrite !length_drop in Hdrop. lia.
Qed.

Lemma unpack_loop_no_panic count b pos out : unpack_loop count b pos out <> Panic.
Proof.
  revert pos out; induction count as [|count IH]; intros pos out; cbn [unpack_loop]; [done|].
  repeat first
    [ apply rbind_no_panic; [apply slice_no_panic; rewrite ?fits_spec in *; lia|intros ? ?]
    | match goal with |- (if ?c then _ else _) <> Panic => destruct c eqn:?; [|done] end ].
  apply IH.
Qed.

Lemma take_9 (b : bytes) :
  (9 <= length b)%nat -> take 4 b = NKAR_MAGIC -> b !! 4%nat = Some NKAR_VERSION ->
  b = NKAR_MAGIC ++ [NKAR_VERSION] ++ take 4 (drop 5 b) ++ drop 9 b.
Proof.
  intros Hl Ht Hv. rewrite <- Ht. rewrite <- (take_drop 4 b) at 1. f_equal.
  rewrite (drop_S b NKAR_VERSION 4) by done. cbn [app]. f_equal.
  rewrite <- (take_drop 4 (drop 5 b)) at 1. by rewrite drop_drop.
Qed.

(** ** Facts about sealed blobs *)

Lemma split_assembled what magic version salt (nonce : Nonce24) ct :
  length magic = 4%nat ->
  split_blob what magic version ((magic ++ [version] ++ [Byte.x00; Byte.x00; Byte.x00]) ++ arr_bytes salt ++ arr_bytes nonce ++ ct)
  = Ok (magic ++ [version] ++ [Byte.x00; Byte.x00; Byte.x00], salt, nonce, ct).
Proof.
  intros Hm. set (h := magic ++ _). assert (Hh : length h = 8%nat) by (unfold h; rewrite length_app; cbn; lia).
  unfold split_blob. rewrite !length_app, !length_arr, Hh. cbn [HDR_LEN SALT_LEN NONCE_LEN].
  rewrite (proj2 (Nat.ltb_ge _ _)) by (unfold HDR_LEN, SALT_LEN, NONCE_LEN; lia). cbn [negb].
  unfold h at 1. rewrite <- (app_assoc magic), slice_prefix by done. cbn [rbind].
  rewrite (index_lookup _ 4 version).
  2: { unfold h. rewrite <- app_assoc. rewrite lookup_app_r by lia. by rewrite Hm. }
  cbn [rbind]. rewrite !bool_decide_true by done. cbn [andb].
  rewrite (slice_prefix h) by done. cbn [rbind].
  rewrite (slice_app h (arr_bytes salt)) by (rewrite ?length_arr; done). cbn [rbind]. rewrite copy_from_slice_arr. cbn [rbind].
  rewrite (app_assoc h). rewrite (slice_app (h ++ salt) (arr_bytes nonce)) by (rewrite ?length_app, ?length_arr, ?Hh; done).
  cbn [rbind]. rewrite copy_from_slice_arr. cbn [rbind]. rewrite (app_assoc (h ++ salt)).
  by rewrite slice_from_app by (rewrite !length_app, !length_arr, Hh; done).
Qed.

Lemma split_no_panic what magic version b : split_blob what magic version b <> Panic.
Proof. unfold split_blob, HDR_LEN, SALT_LEN, NONCE_LEN. no_panic. Qed.
End FileBlob.
#[export] Hint Resolve FileBlob.split_no_panic : rust.

(** * Claims *)

Section claims.
Import FileBlob.

(** The bundle format is a bijection. A byte string unpacks to a list of files exactly when it is
    the packing of that list, with valid UTF-8 names and lengths that fit their fields; so packing
    round-trips, no two archives hold the same files, and nothing but an archive is accepted.
    Unpacking never panics, whatever the bytes are. *)
Theorem bundle_exact b es :
  (unpack_bundle b = Ok es <->
     b = pack_bundle es /\ Forall wf_entry es /\ Z.of_nat (length es) < 2 ^ 32 /\ Z.of_nat (length b) < 2 ^ 64)
  /\ unpack_bundle b <> Panic.
Proof.
  split; [split|].
  - intros H. unfold unpack_bundle in H. inv_result. destruct a1 as [pos out]. inv_result. bools. subst a pos.
    apply index_Ok in Ha. apply slice_Ok in Ha0 as [_ Hcb]. cbn in Hcb.
    apply unpack_loop_Ok in Ha1 as (es' & -> & Hc & Hwf & Hdrop & _ & Hsm); [|lia]. cbn [app].
    assert (Hlcb : length a0 = 4%nat) by (subst a0; rewrite length_take, length_drop; lia).
    pose proof (le_val_range a0) as Hr. rewrite Hlcb in Hr. change (256 ^ Z.of_nat 4) with (2 ^ 32) in Hr.
    assert (Ec : a0 = le_bytes 4 (Z.of_nat (length es'))) by (apply le_bytes_of; [done|lia]).
    rewrite drop_all, app_nil_r in Hdrop.
    split; [|split; [done|split; [lia|]]].
    + rewrite (take_9 b) by (done || lia). rewrite Hdrop, <- Hcb, Ec. done.
    + destruct es'; [|by apply Hsm]. cbn in Hdrop. apply (f_equal length) in Hdrop. rewrite length_drop in Hdrop. cbn in Hdrop. lia.
  - intros (-> & Hwf & Hn & Hlen). unfold unpack_bundle.
    set (b := pack_bundle es) in *.
    assert (Hb : b = NKAR_MAGIC ++ [NKAR_VERSION] ++ le_bytes 4 (Z.of_nat (length es)) ++ concat (map pack_entry es)) by done.
    assert (Hl9 : (9 <= length b)%nat) by (rewrite Hb, !length_app, length_le_bytes; change (length NKAR_MAGIC) with 4%nat; cbn; lia).
    rewrite (proj2 (Nat.ltb_ge _ _)) by done. rewrite (bool_decide_true (take 4 b = NKAR_MAGIC)) by reflexivity. cbn [negb andb].
    rewrite (index_lookup b 4 NKAR_VERSION) by reflexivity. cbn [rbind]. rewrite bool_decide_true by done.
    destruct (slice_at b (le_bytes 4 (Z.of_nat (length es))) (concat (map pack_entry es)) 5 4) as (S1 & D1 & P1);
      [lia|done|by rewrite length_le_bytes|]. change 9%nat with (5 + 4)%nat at 1. rewrite S1. cbn [rbind].
    rewrite le_val_le_bytes_small by (change (256 ^ Z.of_nat 4) with (2 ^ 32); lia). rewrite Nat2Z.id.
    rewrite (unpack_loop_pack es b 9 [] []) by (done || by rewrite app_nil_r). cbn [rbind app].
    assert (Hl : (9 + length (concat (map pack_entry es)) = length b)%nat)
      by (rewrite Hb, !length_app, length_le_bytes; change (length NKAR_MAGIC) with 4%nat; cbn; lia).
    rewrite Hl, Nat.eqb_refl. done.
  - unfold unpack_bundle. destruct (negb _ && _) eqn:E; [|done]. bools.
    apply rbind_no_panic; [apply index_no_panic; lia|]. intros v _. destruct (bool_decide _); [|done].
    apply rbind_no_panic; [apply slice_no_panic; lia|]. intros cb _.
    apply rbind_no_panic; [apply unpack_loop_no_panic|]. intros [pos out] _. by destruct (_ =? _)%nat.
Qed.

Context {P : CryptoPrims} {L : CryptoLaws P} {SM : Json FileMeta} {SL : JsonLaws FileMeta} {ZS : Zstd} {ZL : ZstdLaws}.

Lemma open_seal_file salt nonce vk meta dt blob :
  (forall j, to_vec meta = inr j -> Z.of_nat (length j) < 2 ^ 32) ->
  seal_file salt nonce vk meta dt = Ok blob -> open_file vk blob = Ok (meta, dt).
Proof.
  intros Hj H. unfold seal_file in H. inv_result. rewrite of_sum_Ok in *. cbn [crypto.seal] in H. apply Ok_inj in H as <-.
  specialize (Hj _ Ha). unfold open_file, header. rewrite split_assembled by done. cbn [rbind].
  rewrite crypto.open_enc. cbn [rbind]. rewrite (decode_all_encode_all _ _ Ha0). cbn [of_sum rbind].
  rewrite !length_app, length_le_bytes. rewrite (proj2 (Nat.ltb_ge _ _)) by lia. cbn [negb].
  rewrite slice_prefix by (by rewrite length_le_bytes). cbn [rbind].
  rewrite le_val_le_bytes_small by (change (256 ^ Z.of_nat 4) with (2 ^ 32); lia). rewrite Nat2Z.id.
  rewrite (proj2 (Nat.ltb_ge _ _)) by lia. cbn [negb].
  rewrite (slice_app (le_bytes 4 _) a dt) by (rewrite ?length_le_bytes; done). cbn [rbind].
  rewrite (from_slice_to_vec _ _ Ha). cbn [of_sum rbind]. rewrite app_assoc.
  by rewrite slice_from_app by (rewrite length_app, length_le_bytes; done).
Qed.

(** A file sent with a passphrase comes back. Sealed under the vault key and wrapped under the
    passphrase, it is recognised as wrapped, the passphrase gives back the inner blob, which is not
    taken for a wrapped one, and the vault key opens it to the same name, type and bytes. On
    arbitrary bytes neither opening step panics. *)
Theorem file_transfer_round_trip salt nonce vk meta dt blob salt' nonce' pass profile :
  (forall j, to_vec meta = inr j -> Z.of_nat (length j) < 2 ^ 32) ->
  seal_file salt nonce vk meta dt = Ok blob ->
  let wrapped := seal_passphrase salt' nonce' pass blob profile in
  is_passphrase_wrapped wrapped = true /\ open_passphrase pass wrapped profile = Ok blob
  /\ is_passphrase_wrapped blob = false /\ open_file vk blob = Ok (meta, dt)
  /\ forall b, open_passphrase pass b profile <> Panic /\ open_file vk b <> Panic.
Proof.
  intros Hj H. cbv zeta. split; [|split; [|split; [|split]]].
  - unfold is_passphrase_wrapped, seal_passphrase. cbn [crypto.seal]. rewrite !length_app. cbn [length pass_header].
    by rewrite !bool_decide_true.
  - unfold open_passphrase, seal_passphrase, pass_header. cbn [crypto.seal]. rewrite split_assembled by done. cbn [rbind].
    apply crypto.open_enc.
  - unfold seal_file in H. inv_result. cbn in H. injection H as <-. unfold is_passphrase_wrapped.
    rewrite (bool_decide_false (take 4 _ = _)) by done. by rewrite andb_false_r.
  - by eapply open_seal_file.
  - intros b. split.
    + unfold open_passphrase. apply rbind_no_panic; [apply split_no_panic|]. intros [[[hdr sl] n] ct] _. apply crypto.open_no_panic.
    + unfold open_file. apply rbind_no_panic; [apply split_no_panic|]. intros [[[hdr sl] n] ct] _. no_panic.
Qed.
End claims.

(** * Concrete runs *)

#[export] Instance FileMeta_eq : EqDecision FileBlob.FileMeta.
Proof. solve_decision. Defined.
#[export] Instance FileMeta_countable : Countable FileBlob.FileMeta.
Proof.
  refine (inj_countable' (fun x => (FileBlob.filename x, FileBlob.mime x)) (fun x => FileBlob.MkFileMeta x.1 x.2) _). by intros [].
Defined.

#[local] Instance meta_json : Json FileBlob.FileMeta := toy_json.
#[local] Existing Instance toy_zstd.

Definition demo_meta : FileBlob.FileMeta := FileBlob.MkFileMeta (lit "a.txt") (lit "t").
Definition demo_file : bytes := Eval vm_compute in
  match FileBlob.seal_file demo_salt demo_nonce demo_vk demo_meta [Byte.x61; Byte.x62] with Ok b => b | _ => [] end.

Lemma file_transfer_round_trip_witness :
  FileBlob.open_passphrase (lit "pw")
    (FileBlob.seal_passphrase demo_salt demo_nonce (lit "pw") demo_file Argon2Profile.Test) Argon2Profile.Test = Ok demo_file.
Proof.
  apply (file_transfer_round_trip (SL := toy_json_laws) (ZL := toy_zstd_laws) demo_salt demo_nonce demo_vk demo_meta
           [Byte.x61; Byte.x62] demo_file demo_salt demo_nonce (lit "pw") Argon2Profile.Test); [|vm_compute; reflexivity].
  intros j Hj. vm_compute in Hj. injection Hj as <-. vm_compute. reflexivity.
Defined.
