(* ===== verification/Template.v ===== *)
(** The template engine of cloud-init ([minijinja]) as a class, with the part of the language the
    templates of [provision/cloudinit.rs] use: text, variables and conditions that are not nested.
    The law says how such a template is rendered; [jinja] is an engine for this part. *)
From S2P Require Import Prelude Bytes Text.
Local Open Scope Z_scope.

(** A value of a [context!]. *)
Inductive JVal : Type := JText (t : text) | JInt (n : Z) | JBool (b : bool).

(** [Environment::add_template] (an error of the text) and [Template::render]. *)
Class Templates : Type := {
  add_template : string -> text -> option string;
  template_render : text -> list (string * JVal) -> string + text;
}.

(** * The language *)

Module Jinja.

Inductive tok : Type := TLit (t : text) | TVar (x : string) | TIf (x : string) | TEndif.

(** A text constant of a template: [^], [?] and [<] stand for the quotation mark, the dash and the
    ellipsis, which a constant cannot hold. *)
Definition quoted (c : Z) : Z :=
  if c =? chr "^" then 34 else if c =? chr "?" then 8212 else if c =? chr "<" then 8230 else c.
Definition tx (s : string) : tok := TLit (map quoted (lit s)).

Definition show_tok (t : tok) : text :=
  match t with
  | TLit s => s
  | TVar x => lit "{{ " ++ lit x ++ lit " }}"
  | TIf x => lit "{% if " ++ lit x ++ lit " %}"
  | TEndif => lit "{% endif %}"
  end.
Definition source (l : list tok) : text := concat (map show_tok l).

(** A template by its lines. *)
Definition NL : text := [10].
Fixpoint unlines (ls : list (list tok)) : list tok :=
  match ls with
  | [] => []
  | [l] => l
  | l :: ls => l ++ TLit NL :: unlines ls
  end.

Definition look (ctx : list (string * JVal)) (x : string) : option JVal :=
  snd <$> find (fun p => bool_decide (p.1 = x)) ctx.
Definition show_val (v : JVal) : text :=
  match v with JText t => t | JInt n => show_dec n | JBool b => if b then lit "true" else lit "false" end.
(** An empty string, zero and false do not count; an unknown name renders as nothing. *)
Definition truthy (v : JVal) : bool :=
  match v with JText t => negb (bool_decide (t = [])) | JInt n => negb (n =? 0) | JBool b => b end.
Definition show_var (ctx : list (string * JVal)) (x : string) : text := from_option show_val [] (look ctx x).
Definition holds (ctx : list (string * JVal)) (x : string) : bool := from_option truthy false (look ctx x).

Fixpoint eval (ctx : list (string * JVal)) (on : bool) (l : list tok) : text :=
  match l with
  | [] => []
  | TLit t :: l => (if on then t else []) ++ eval ctx on l
  | TVar x :: l => (if on then show_var ctx x else []) ++ eval ctx on l
  | TIf x :: l => eval ctx (holds ctx x) l
  | TEndif :: l => eval ctx true l
  end.

(** Text is only text when no brace opens a tag, names are names, conditions are not nested. *)
Definition opens (c : Z) : bool := bool_decide (c ∈ lit "{%#").
Definition name_char (c : Z) : bool := ((97 <=? c) && (c <=? 122)) || is_ascii_digit c || (c =? 95).
Definition is_name (x : string) : bool := negb (bool_decide (x = EmptyString)) && forallb name_char (lit x).
Fixpoint plain (s : text) : bool :=
  match s with
  | 123 :: (c :: _) as s' => negb (opens c) && plain s'
  | [123] => false
  | _ :: s' => plain s'
  | [] => true
  end.
Fixpoint well_formed (inside : bool) (pending : text) (l : list tok) : bool :=
  match l with
  | [] => plain pending && negb inside
  | TLit t :: l => well_formed inside (pending ++ t) l
  | TVar x :: l => plain pending && is_name x && well_formed inside [] l
  | TIf x :: l => plain pending && is_name x && negb inside && well_formed true [] l
  | TEndif :: l => plain pending && inside && well_formed false [] l
  end.

End Jinja.

(** The documented behaviour on such templates; one final line break is dropped, and nothing is
    escaped, as the names of the templates do not end in [.html]. *)
Class TemplateLaws {T : Templates} : Prop := {
  add_well_formed name l : Jinja.well_formed false [] l = true -> add_template name (Jinja.source l ++ Jinja.NL) = None;
  render_well_formed l ctx : Jinja.well_formed false [] l = true ->
    template_render (Jinja.source l ++ Jinja.NL) ctx = inr (Jinja.eval ctx true l);
}.

(** * An engine *)

Module JinjaEngine.
Import Jinja.

Fixpoint upto_close (close : text) (s : text) : option (text * text) :=
  match strip_prefix close s with
  | Some r => Some ([], r)
  | None => match s with [] => None | c :: s => (fun p => (c :: p.1, p.2)) <$> upto_close close s end
  end.
Definition to_str (t : text) : string := String.string_of_list_ascii (map (fun c => Ascii.ascii_of_N (Z.to_N c)) t).

Fixpoint lex (fuel : nat) (s : text) : list tok :=
  match fuel with
  | O => []
  | S fuel =>
      match strip_prefix (lit "{{ ") s ≫= upto_close (lit " }}") with
      | Some (x, r) => TVar (to_str x) :: lex fuel r
      | None =>
          match strip_prefix (lit "{% endif %}") s with
          | Some r => TEndif :: lex fuel r
          | None =>
              match strip_prefix (lit "{% if ") s ≫= upto_close (lit " %}") with
              | Some (x, r) => TIf (to_str x) :: lex fuel r
              | None => match s with [] => [] | c :: r => TLit [c] :: lex fuel r end
              end
          end
      end
  end.
Definition drop_last_nl (s : text) : text := match last s with Some 10 => removelast s | _ => s end.
Definition jinja : Templates := {|
  add_template _ _ := None;
  template_render s ctx := let s := drop_last_nl s in inr (eval ctx true (lex (S (length s)) s));
|}.

(** * The engine keeps the law *)

Definition each (t : text) : list tok := map (fun c => TLit [c]) t.
Definition explode (l : list tok) : list tok := concat (map (fun t => match t with TLit s => each s | t => [t] end) l).

Lemma eval_each ctx on t l : eval ctx on (each t ++ l) = (if on then t else []) ++ eval ctx on l.
Proof.
  induction t as [|c t IH]; [by destruct on|].
  change (each (c :: t) ++ l) with (TLit [c] :: (each t ++ l)). cbn [eval]. rewrite IH. by destruct on.
Qed.

Lemma eval_explode ctx on l : eval ctx on (explode l) = eval ctx on l.
Proof.
  revert on; induction l as [|[t|x|x|] l IH]; intros on; [done|..]; cbn [eval];
    [change (explode (TLit t :: l)) with (each t ++ explode l); by rewrite eval_each, IH|..].
  all: rewrite <- IH; reflexivity.
Qed.

Lemma to_str_lit x : to_str (lit x) = x.
Proof.
  unfold to_str, lit. rewrite map_map. rewrite <- (String.string_of_list_ascii_of_string x) at 2. f_equal.
  induction (String.list_ascii_of_string x) as [|a l IH]; [done|]. cbn. rewrite IH. by rewrite N2Z.id, Ascii.ascii_N_embedding.
Qed.

Lemma strip_prefix_app p r : strip_prefix p (p ++ r) = Some r.
Proof. induction p as [|c p IH]; [done|]. cbn. by rewrite Z.eqb_refl. Qed.

(** A name ends where its tag closes: names hold no space. *)
Lemma upto_close_name close x r :
  forallb name_char x = true -> upto_close (32 :: close) (x ++ (32 :: close) ++ r) = Some (x, r).
Proof.
  induction x as [|c x IH]; intros Hx.
  - cbn [app upto_close strip_prefix]. rewrite Z.eqb_refl. by rewrite strip_prefix_app.
  - cbn [forallb] in Hx. apply andb_true_iff in Hx as [Hc Hx]. cbn [app upto_close strip_prefix].
    destruct (Z.eqb_spec 32 c) as [<-|_]; [done|]. cbn [app] in IH. by rewrite IH.
Qed.

(** Constants as the characters they hold. *)
Ltac lits := repeat match goal with |- context [lit ?s] => let t := eval vm_compute in (lit s) in change (lit s) with t end.

(** A character of plain text is taken as it is. *)
Lemma lex_char c s n : c <> 123 -> lex (S n) (c :: s) = TLit [c] :: lex n s.
Proof. intros Hc. cbn [lex]. lits. cbn [strip_prefix]. by rewrite (proj2 (Z.eqb_neq 123 c)) by congruence. Qed.

Lemma lex_brace d s n : opens d = false -> lex (S n) (123 :: d :: s) = TLit [123] :: lex n (d :: s).
Proof.
  unfold opens. intros Hd%bool_decide_eq_false. cbn in Hd. rewrite !elem_of_cons in Hd.
  assert (123 <> d /\ 37 <> d) as [H1%Z.eqb_neq H2%Z.eqb_neq] by (split; intros <-; tauto).
  cbn [lex]. lits. cbn [strip_prefix]. rewrite Z.eqb_refl, H1, H2. reflexivity.
Qed.

Lemma plain_cons c p : c <> 123 -> plain (c :: p) = plain p.
Proof. intros Hc. cbn [plain]. repeat (destruct c as [|c|c]; try done). Qed.

Lemma lex_plain p rest n : plain p = true -> lex (length p + n) (p ++ rest) = each p ++ lex n rest.
Proof.
  revert n; induction p as [|c p IH]; intros n Hp; [done|]. cbn [length Nat.add].
  change (each (c :: p) ++ lex n rest) with (TLit [c] :: (each p ++ lex n rest)).
  destruct (Z.eq_dec c 123) as [->|Hc].
  - destruct p as [|d p]; [done|]. cbn [plain] in Hp. apply andb_true_iff in Hp as [Hd%negb_true_iff Hp].
    rewrite <- (IH n Hp). by apply lex_brace.
  - rewrite plain_cons in Hp by done. rewrite <- (IH n Hp). by apply lex_char.
Qed.

Lemma tag_read before close x r :
  forallb name_char (lit x) = true ->
  strip_prefix before (before ++ lit x ++ (32 :: close) ++ r) ≫= upto_close (32 :: close) = Some (lit x, r).
Proof. intros Hx. rewrite strip_prefix_app. exact (upto_close_name close (lit x) r Hx). Qed.

Lemma lex_tag t n rest :
  match t with TLit _ => False | TVar x | TIf x => is_name x = true | TEndif => True end ->
  lex (S n) (show_tok t ++ rest) = t :: lex n rest.
Proof.
  destruct t as [t|x|x|]; [done| | |reflexivity]; intros [_ Hx]%andb_true_iff; cbn [lex show_tok]; rewrite <- !app_assoc.
  - change (lit " }}") with (32 :: lit "}}"). rewrite tag_read by done. by rewrite to_str_lit.
  - change (lit " %}") with (32 :: lit "%}"). rewrite (tag_read (lit "{% if ")) by done. by rewrite to_str_lit.
Qed.

Lemma lex_source inside l pending n :
  well_formed inside pending l = true -> (length (pending ++ source l) <= n)%nat ->
  lex n (pending ++ source l) = each pending ++ explode l.
Proof.
  revert inside pending n. induction l as [|t l IH]; intros inside pending n Hw Hn.
  - cbn in Hw, Hn |- *. apply andb_true_iff in Hw as [Hw _]. rewrite app_nil_r in Hn.
    rewrite (Nat.le_add_sub _ _ Hn), lex_plain by done. by destruct (n - length pending)%nat.
  - assert (Hshow : (0 < length (show_tok t))%nat \/ exists s, t = TLit s) by (destruct t; cbn; eauto with lia).
    assert (Htag : plain pending = true -> match t with TLit _ => False | TVar x | TIf x => is_name x = true | TEndif => True end ->
        (exists b, well_formed b [] l = true) -> lex n (pending ++ source (t :: l)) = each pending ++ t :: explode l).
    { intros Hp Ht [b Hl]. change (source (t :: l)) with (show_tok t ++ source l) in *. rewrite !length_app in Hn.
      destruct Hshow as [Hs|[s ->]]; [|done]. destruct (n - length pending)%nat as [|k] eqn:Ek; [lia|].
      replace n with (length pending + S k)%nat by lia. rewrite lex_plain, (lex_tag t k (source l)) by done.
      f_equal. f_equal. change (source l) with ([] ++ source l). rewrite (IH b) by (done || cbn; lia). done. }
    destruct t as [t|x|x|]; cbn [well_formed] in Hw.
    + change (source (TLit t :: l)) with (t ++ source l) in *. rewrite app_assoc in *. rewrite (IH inside) by done.
      unfold each. rewrite map_app, <- app_assoc. reflexivity.
    + apply andb_true_iff in Hw as [[Hp Hx]%andb_true_iff Hw]. apply Htag; eauto.
    + apply andb_true_iff in Hw as [[[Hp Hx]%andb_true_iff _]%andb_true_iff Hw]. apply Htag; eauto.
    + apply andb_true_iff in Hw as [[Hp _]%andb_true_iff Hw]. apply Htag; eauto.
Qed.

Lemma drop_last_nl_source s : drop_last_nl (s ++ NL) = s.
Proof. unfold drop_last_nl, NL. rewrite last_snoc. apply removelast_last. Qed.

#[export] Instance jinja_laws : @TemplateLaws jinja.
Proof.
  split; [done|]. intros l ctx Hw. cbn [template_render jinja]. rewrite drop_last_nl_source. f_equal.
  change (source l) with ([] ++ source l). rewrite (lex_source false) by (done || lia). apply eval_explode.
Qed.
End JinjaEngine.

(** * Rendering line by line *)

Module JinjaLines.
Import Jinja.

Definition piece (var : string -> text) (t : tok) : text := match t with TLit s => s | TVar x => var x | _ => [] end.
Fixpoint text_of (var : string -> text) (l : list tok) : text :=
  match l with [] => [] | [t] => piece var t | t :: l => piece var t ++ text_of var l end.

Lemma text_of_cons var t l : text_of var (t :: l) = piece var t ++ text_of var l.
Proof. destruct l; [|done]. cbn. by rewrite app_nil_r. Qed.

(** The lines that follow a line in progress, [pend]; conditions stand on lines of their own. *)
Fixpoint go (var : string -> text) (cond : string -> bool) (on : bool) (pend : text) (ls : list (list tok)) : list text :=
  match ls with
  | [] => [pend]
  | l :: ls =>
      let pend0 := if on then [] else pend in
      let rest := match l with
        | [TIf x] => go var cond (cond x) pend0 ls
        | [TEndif] => go var cond true pend0 ls
        | _ => go var cond on (pend0 ++ if on then text_of var l else []) ls
        end in
      if on then pend :: rest else rest
  end.
Definition rendered (var : string -> text) (cond : string -> bool) (ls : list (list tok)) : list text :=
  match ls with [] => [[]] | l :: ls => go var cond true (text_of var l) ls end.

(** A line of text and variables only, or one condition. *)
Definition inline (t : tok) : bool := match t with TLit s => negb (contains 10 s) | TVar _ => true | _ => false end.
Definition one_line (l : list tok) : bool := match l with [TIf _] | [TEndif] => true | _ => forallb inline l end.

Lemma eval_inline ctx on l r :
  forallb inline l = true -> eval ctx on (l ++ r) = (if on then text_of (show_var ctx) l else []) ++ eval ctx on r.
Proof.
  induction l as [|t l IH]; intros Hl; [by destruct on|]. cbn [forallb] in Hl. apply andb_true_iff in Hl as [Ht Hl].
  rewrite text_of_cons. destruct t; try done; cbn [app eval piece]; rewrite IH by done; destruct on; by rewrite <- ?app_assoc.
Qed.

Lemma text_of_one_line var l : (forall x, 10 ∉ var x) -> forallb inline l = true -> 10 ∉ text_of var l.
Proof.
  intros Hv. induction l as [|t l IH]; intros Hl; [set_solver|]. cbn [forallb] in Hl. apply andb_true_iff in Hl as [Ht Hl].
  rewrite text_of_cons, elem_of_app. intros [Hin|Hin]; [|by apply IH].
  destruct t as [s|x|x|]; try done; [|by apply (Hv x)]. apply negb_true_iff in Ht. unfold contains in Ht.
  rewrite <- not_true_iff_false, existsb_exists in Ht. apply Ht. exists 10. split; [by apply list_elem_of_In|done].
Qed.

Definition tail_toks (ls : list (list tok)) : list tok := concat (map (cons (TLit NL)) ls).

Lemma unlines_cons l ls : unlines (l :: ls) = l ++ tail_toks ls.
Proof.
  revert l; induction ls as [|m ls IH]; intros l; [by rewrite app_nil_r|].
  change (unlines (l :: m :: ls)) with (l ++ TLit NL :: unlines (m :: ls)). by rewrite (IH m).
Qed.

Lemma split_tail ctx on pend ls :
  (forall x, 10 ∉ show_var ctx x) -> forallb one_line ls = true -> 10 ∉ pend ->
  split 10 (pend ++ eval ctx on (tail_toks ls)) = go (show_var ctx) (holds ctx) on pend ls.
Proof.
  intros Hv. revert on pend. induction ls as [|l ls IH]; intros on pend Hls Hp.
  - cbn. rewrite app_nil_r. by apply split_no_sep.
  - cbn [forallb] in Hls. apply andb_true_iff in Hls as [Hl Hls]. cbn [go]. set (pend0 := if on then [] else pend).
    assert (H0 : 10 ∉ pend0) by (unfold pend0; destruct on; set_solver).
    set (rest := match l with [TIf x] => _ | _ => _ end).
    enough (Hr : split 10 (pend0 ++ eval ctx on (l ++ tail_toks ls)) = rest).
    { rewrite <- Hr. change (tail_toks (l :: ls)) with (TLit NL :: l ++ tail_toks ls). cbn [eval]. unfold pend0.
      destruct on; [|done]. change (pend ++ NL ++ ?r) with (pend ++ 10 :: r). by apply split_app. }
    assert (Hin : forallb inline l = true -> split 10 (pend0 ++ eval ctx on (l ++ tail_toks ls))
        = go (show_var ctx) (holds ctx) on (pend0 ++ if on then text_of (show_var ctx) l else []) ls).
    { intros Hi. rewrite eval_inline by done. rewrite app_assoc. apply IH; [done|]. rewrite elem_of_app.
      intros [?|Hin]; [done|]. destruct on; [|by apply not_elem_of_nil in Hin]. by apply text_of_one_line in Hin. }
    unfold rest. destruct l as [|[s|x|x|] [|t l]]; try (apply Hin; exact Hl); cbn [app eval]; by apply IH.
Qed.

(** The lines of a rendered template. *)
Lemma rendered_lines ctx ls :
  ls <> [] -> match head ls with Some l => forallb inline l | None => false end = true ->
  (forall x, 10 ∉ show_var ctx x) -> forallb one_line ls = true ->
  split 10 (eval ctx true (unlines ls)) = rendered (show_var ctx) (holds ctx) ls.
Proof.
  intros Hne Hh Hv Hls. destruct ls as [|l ls]; [done|]. cbn [forallb] in Hls. apply andb_true_iff in Hls as [Hl Hls]. cbn in Hh.
  rewrite unlines_cons, eval_inline by done. cbn [rendered]. apply split_tail; [done..|]. by apply text_of_one_line.
Qed.
End JinjaLines.
