(* ===== verification/CloudTemplates.v ===== *)
(** The two cloud-init templates of [provision/cloudinit.rs], line by line: the node of a VPN session
    and the sync server. *)
From S2P Require Import Prelude Text Template.
Import Jinja.

(** * [TEMPLATE] *)

(** Packages. *)
Definition node_packages : list (list tok) := [
  [tx "#cloud-config"];
  [tx "package_update: true"];
  [tx "packages:"];
  [tx "  - wireguard-tools"];
  [tx "  - nftables"];
  [];
  [tx "write_files:"]].

(** The interface the client connects to. *)
Definition node_wg0 : list (list tok) := [
  [tx "  - path: /etc/wireguard/wg0.conf"];
  [tx "    permissions: '0600'"];
  [tx "    content: |"];
  [tx "      [Interface]"];
  [tx "      PrivateKey = "; TVar "server_privkey"];
  [tx "      Address = 10.66.0.1/24"];
  [tx "      ListenPort = "; TVar "listen_port"];
  [tx "      SaveConfig = false"];
  [];
  [tx "      [Peer]"];
  [tx "      PublicKey = "; TVar "client_pubkey"];
  [tx "      AllowedIPs = "; TVar "client_ip"; tx "/32"]].

(** The client of the next hop, on a chained node. *)
Definition node_wg1 : list (list tok) := [
  [TIf "next_hop"];
  [tx "  - path: /etc/wireguard/wg1.conf"];
  [tx "    permissions: '0600'"];
  [tx "    content: |"];
  [tx "      [Interface]"];
  [tx "      PrivateKey = "; TVar "nh_privkey"];
  [tx "      Address = "; TVar "nh_address"];
  [];
  [tx "      [Peer]"];
  [tx "      PublicKey = "; TVar "nh_peer_pubkey"];
  [tx "      Endpoint = "; TVar "nh_peer_endpoint"];
  [tx "      AllowedIPs = 0.0.0.0/0, ::/0"];
  [tx "      PersistentKeepalive = 25"];
  [TEndif]].

(** The firewall. *)
Definition node_firewall : list (list tok) := [
  [tx "  - path: /etc/nftables.conf"];
  [tx "    permissions: '0644'"];
  [tx "    content: |"];
  [tx "      #!/usr/sbin/nft -f"];
  [tx "      flush ruleset"];
  [tx "      table inet filter {"];
  [tx "        chain input {"];
  [tx "          type filter hook input priority 0; policy drop;"];
  [tx "          ct state established,related accept"];
  [tx "          iif ^lo^ accept"];
  [tx "          udp dport "; TVar "listen_port"; tx " accept"];
  [tx "          tcp dport 443 accept"];
  [tx "          # MUST be `iifname` (name match at runtime), NOT `iif` (interface INDEX resolved at"];
  [tx "          # load time). cloud-init loads this ruleset BEFORE wg-quick brings wg0 up, so `iif"];
  [tx "          # ^wg0^` errors ^Interface does not exist^ and ? because `nft -f` is atomic ? rejects"];
  [tx "          # the WHOLE file, including the NAT table below. With no masquerade the client's"];
  [tx "          # packets egress with a private source and never get a reply: the tunnel handshakes"];
  [tx "          # (so it looks ^connected^) but no real traffic flows."];
  [tx "          iifname ^wg0^ accept"];
  [tx "        }"];
  [tx "        chain forward { type filter hook forward priority 0; policy accept; }"];
  [tx "        chain output { type filter hook output priority 0; policy accept; }"];
  [tx "      }"];
  [tx "      table ip nat {"];
  [tx "        chain postrouting {"];
  [tx "          type nat hook postrouting priority 100; policy accept;"];
  [tx "          # Masquerade everything leaving via any interface EXCEPT the client tunnel ? so return"];
  [tx "          # traffic is NAT'd back regardless of what the provider names the public NIC (eth0, ens3,"];
  [tx "          # enp0s3, <). A hardcoded interface name would silently break NAT (client gets upload but"];
  [tx "          # zero download) on any host that doesn't use it. For a multi-hop node the egress is wg1,"];
  [tx "          # which this also covers. `"; TVar "egress_if"; tx "` is kept in the render context but no longer"];
  [tx "          # pinned here on purpose."];
  [tx "          oifname != ^wg0^ masquerade"];
  [tx "        }"];
  [tx "      }"];
  []].

(** The server of the public key. *)
Definition node_callback : list (list tok) := [
  [tx "  - path: /opt/sentinel/callback.py"];
  [tx "    permissions: '0755'"];
  [tx "    content: |"];
  [tx "      #!/usr/bin/env python3"];
  [tx "      # Serve the WG public key, authenticated by HMAC over (pubkey || ip) keyed by the"];
  [tx "      # hex-decoded callback key. Authenticity is the HMAC, not the transport (D11, T6):"];
  [tx "      # the pubkey is public and a tampered value fails the client's constant-time compare."];
  [tx "      # Guarded by the one-time bearer token so random scanners get nothing."];
  [tx "      import http.server, hmac, hashlib, json, urllib.request"];
  [tx "      TOKEN = ^"; TVar "callback_token"; tx "^"];
  [tx "      KEY = bytes.fromhex(^"; TVar "callback_hmac_key"; tx "^)"];
  [tx "      def pub():"];
  [tx "          with open(^/etc/wireguard/pub^) as f:"];
  [tx "              return f.read().strip()"];
  [tx "      def myip():"];
  [tx "          try:"];
  [tx "              return urllib.request.urlopen(^https://api.ipify.org^, timeout=10).read().decode().strip()"];
  [tx "          except Exception:"];
  [tx "              return ^^"];
  [tx "      class H(http.server.BaseHTTPRequestHandler):"];
  [tx "          def do_GET(self):"];
  [tx "              if self.headers.get(^Authorization^, ^^) != ^Bearer ^ + TOKEN:"];
  [tx "                  self.send_response(403); self.end_headers(); return"];
  [tx "              p = pub(); i = myip()"];
  [tx "              mac = hmac.new(KEY, (p + i).encode(), hashlib.sha256).hexdigest()"];
  [tx "              body = json.dumps({^pubkey^: p, ^ip^: i, ^mac^: mac}).encode()"];
  [tx "              self.send_response(200)"];
  [tx "              self.send_header(^Content-Type^, ^application/json^)"];
  [tx "              self.send_header(^Content-Length^, str(len(body)))"];
  [tx "              self.end_headers()"];
  [tx "              self.wfile.write(body)"];
  [tx "          def log_message(self, *a):"];
  [tx "              return"];
  [tx "      http.server.HTTPServer((^0.0.0.0^, 443), H).serve_forever()"];
  []].

(** The service of the callback. *)
Definition node_units : list (list tok) := [
  [tx "  - path: /etc/systemd/system/sentinel-callback.service"];
  [tx "    content: |"];
  [tx "      [Unit]"];
  [tx "      Description=SENTINEL pubkey callback"];
  [tx "      After=network-online.target wg-quick@wg0.service"];
  [tx "      [Service]"];
  [tx "      ExecStart=/usr/bin/python3 /opt/sentinel/callback.py"];
  [tx "      Restart=on-failure"];
  [tx "      [Install]"];
  [tx "      WantedBy=multi-user.target"]].

(** The dead-man switch. *)
Definition node_deadman : list (list tok) := [
  [TIf "deadman_secs"];
  [tx "  - path: /etc/systemd/system/sentinel-deadman.service"];
  [tx "    content: |"];
  [tx "      [Unit]"];
  [tx "      Description=SENTINEL dead-man switch"];
  [tx "      [Service]"];
  [tx "      Type=oneshot"];
  [tx "      ExecStart=/bin/bash -c 'hs=$(wg show wg0 latest-handshakes | awk ^{print \$2}^); now=$(date +%s); if [ -z ^$hs^ ] || [ $((now - hs)) -gt "; TVar "deadman_secs"; tx " ]; then shutdown -h now; fi'"];
  [];
  [tx "  - path: /etc/systemd/system/sentinel-deadman.timer"];
  [tx "    content: |"];
  [tx "      [Unit]"];
  [tx "      Description=Run the SENTINEL dead-man switch"];
  [tx "      [Timer]"];
  [tx "      OnBootSec=60"];
  [tx "      OnUnitActiveSec=60"];
  [tx "      [Install]"];
  [tx "      WantedBy=timers.target"];
  [TEndif];
  []].

(** The commands of the first boot. *)
Definition node_runcmd : list (list tok) := [
  [tx "runcmd:"];
  [tx "  - systemctl disable ssh || true"];
  [tx "  - systemctl stop ssh || true"];
  [tx "  - systemctl mask ssh.service || true"];
  [tx "  - umask 077; echo '"; TVar "server_privkey"; tx "' | wg pubkey > /etc/wireguard/pub || true"];
  [tx "  - sysctl -w net.ipv4.ip_forward=1"];
  [tx "  - echo 'net.ipv4.ip_forward=1' > /etc/sysctl.d/99-sentinel.conf"];
  [tx "  - nft -f /etc/nftables.conf"];
  [tx "  # MSS clamp is BEST-EFFORT and applied AFTER the ruleset loads, so that if this node's nftables"];
  [tx "  # build rejects the expression it can't fail `nft -f` and take masquerade down with it (which"];
  [tx "  # would break all return traffic). The client also sets MTU=1420, which handles throughput on its"];
  [tx "  # own; this is belt-and-suspenders for oversized-packet stalls."];
  [tx "  - nft add rule inet filter forward tcp flags syn tcp option maxseg size set rt mtu || true"];
  [tx "  - systemctl enable wg-quick@wg0"];
  [tx "  - systemctl start wg-quick@wg0"];
  [TIf "next_hop"];
  [tx "  - systemctl enable wg-quick@wg1"];
  [tx "  - systemctl start wg-quick@wg1"];
  [TEndif];
  [tx "  - systemctl daemon-reload"];
  [tx "  - systemctl enable --now sentinel-callback.service"];
  [TIf "deadman_secs"];
  [tx "  - systemctl enable --now sentinel-deadman.timer"];
  [TEndif]].

(** All of it; the last line of the constant ends in a line break. *)
Definition TEMPLATE_lines : list (list tok) :=
  node_packages ++ node_wg0 ++ node_wg1 ++ node_firewall ++ node_callback ++ node_units ++ node_deadman ++ node_runcmd.
Definition TEMPLATE : text := source (unlines TEMPLATE_lines) ++ NL.

(** * [SYNC_TEMPLATE] *)

(** Packages. *)
Definition sync_packages : list (list tok) := [
  [tx "#cloud-config"];
  [tx "package_update: true"];
  [tx "packages:"];
  [tx "  - openssl"];
  [tx "  - curl"];
  [];
  [tx "write_files:"]].

(** [start-api.sh]. *)
Definition sync_start : list (list tok) := [
  [tx "  # Starting the API container lives in its own script so first boot AND every later update run"];
  [tx "  # the exact same arguments ? an update is just ^pull, rm, start-api.sh^ and can never drift."];
  [tx "  - path: /opt/sentinel/start-api.sh"];
  [tx "    permissions: '0755'"];
  [tx "    content: |"];
  [tx "      #!/usr/bin/env bash"];
  [tx "      set -euo pipefail"];
  [tx "      docker run -d --name sentinel-api --restart=always --network sentinel \"];
  [tx "        -p 443:8787 \"];
  [tx "        -e SENTINEL_ENV=production \"];
  [tx "        -e SENTINEL_API_BIND=0.0.0.0:8787 \"];
  [tx "        -e SENTINEL_BOOTSTRAP_TOKEN="; TVar "bootstrap_token"; tx " \"];
  [tx "        -e SENTINEL_TOTP_ENC_KEY="; TVar "totp_enc_key"; tx " \"];
  [tx "        -e GOOGLE_OAUTH_CLIENT_ID="; TVar "google_client_id"; tx " \"];
  [tx "        -e SENTINEL_TLS_CERT_PEM=/tls/cert.pem \"];
  [tx "        -e SENTINEL_TLS_KEY_PEM=/tls/key.pem \"];
  [tx "        -e SENTINEL_JWT_ES256_PEM=/tls/jwt.pem \"];
  [tx "        -e SENTINEL_AUTO_MIGRATE=1 \"];
  [tx "        -e SENTINEL_UPDATE_FLAG_DIR=/flags \"];
  [tx "        -e DATABASE_URL=postgres://sentinel:"; TVar "db_password"; tx "@sentinel-db:5432/sentinel \"];
  [tx "        -v /opt/sentinel/tls:/tls:ro \"];
  [tx "        -v /opt/sentinel/flags:/flags \"];
  [tx "        "; TVar "image_ref"];
  []].

(** [update.sh]. *)
Definition sync_update : list (list tok) := [
  [tx "  # Pull the latest image and recreate the API container. Run by the daily timer and by the"];
  [tx "  # path unit the moment the app (via POST /v1/admin/update) drops the flag file. The API"];
  [tx "  # container never gets the Docker socket ? the host does the privileged work."];
  [tx "  #"];
  [tx "  # Safety: the box has no SSH (masked), so a bad image must never be able to strand it. The"];
  [tx "  # previous image is kept under the sentinel-api-prev tag; if the new container doesn't answer"];
  [tx "  # /healthz within ~60s, the updater rolls back to it. Only after the new image proves healthy"];
  [tx "  # does it become the new rollback point."];
  [tx "  - path: /opt/sentinel/update.sh"];
  [tx "    permissions: '0755'"];
  [tx "    content: |"];
  [tx "      #!/usr/bin/env bash"];
  [tx "      set -euo pipefail"];
  [tx "      rm -f /opt/sentinel/flags/update-requested"];
  [tx "      docker tag "; TVar "image_ref"; tx " sentinel-api-prev >/dev/null 2>&1 || true"];
  [tx "      docker pull "; TVar "image_ref"];
  [tx "      docker rm -f sentinel-api >/dev/null 2>&1 || true"];
  [tx "      /opt/sentinel/start-api.sh"];
  [tx "      for _ in $(seq 1 30); do"];
  [tx "        sleep 2"];
  [tx "        if curl -fsk https://localhost/healthz >/dev/null 2>&1; then"];
  [tx "          echo ^update healthy^"];
  [tx "          exit 0"];
  [tx "        fi"];
  [tx "      done"];
  [tx "      echo ^new image failed /healthz ? rolling back to previous image^ >&2"];
  [tx "      docker rm -f sentinel-api >/dev/null 2>&1 || true"];
  [tx "      docker tag sentinel-api-prev "; TVar "image_ref"];
  [tx "      /opt/sentinel/start-api.sh"];
  [tx "      exit 1"];
  []].

(** The units that run it. *)
Definition sync_units : list (list tok) := [
  [tx "  - path: /etc/systemd/system/sentinel-update.service"];
  [tx "    content: |"];
  [tx "      [Unit]"];
  [tx "      Description=NorthKey sync-server update (pull + recreate)"];
  [tx "      [Service]"];
  [tx "      Type=oneshot"];
  [tx "      ExecStart=/opt/sentinel/update.sh"];
  [];
  [tx "  - path: /etc/systemd/system/sentinel-update.path"];
  [tx "    content: |"];
  [tx "      [Unit]"];
  [tx "      Description=Run the update when the app requests it"];
  [tx "      [Path]"];
  [tx "      PathExists=/opt/sentinel/flags/update-requested"];
  [tx "      [Install]"];
  [tx "      WantedBy=multi-user.target"];
  [];
  [tx "  - path: /etc/systemd/system/sentinel-update.timer"];
  [tx "    content: |"];
  [tx "      [Unit]"];
  [tx "      Description=Daily NorthKey sync-server update"];
  [tx "      [Timer]"];
  [tx "      OnCalendar=daily"];
  [tx "      RandomizedDelaySec=1h"];
  [tx "      Persistent=true"];
  [tx "      [Install]"];
  [tx "      WantedBy=timers.target"];
  []].

(** [run.sh]. *)
Definition sync_run : list (list tok) := [
  [tx "  - path: /opt/sentinel/run.sh"];
  [tx "    permissions: '0755'"];
  [tx "    content: |"];
  [tx "      #!/usr/bin/env bash"];
  [tx "      set -euo pipefail"];
  [tx "      mkdir -p /opt/sentinel/tls /opt/sentinel/pgdata /opt/sentinel/flags"];
  [tx "      # The TLS cert+key are app-generated (base64 here) so the app can pin the exact cert; the"];
  [tx "      # JWT signing key is generated on-box (stable across restarts while the box lives)."];
  [tx "      echo ^"; TVar "tls_cert_b64"; tx "^ | base64 -d > /opt/sentinel/tls/cert.pem"];
  [tx "      echo ^"; TVar "tls_key_b64"; tx "^ | base64 -d > /opt/sentinel/tls/key.pem"];
  [tx "      openssl genpkey -algorithm EC -pkeyopt ec_paramgen_curve:P-256 -out /opt/sentinel/tls/jwt.pem"];
  [tx "      chown -R 10001:10001 /opt/sentinel/tls"];
  [tx "      chmod 640 /opt/sentinel/tls/*.pem"];
  [tx "      # The API runs as uid 10001 and must be able to write the update flag."];
  [tx "      chown 10001:10001 /opt/sentinel/flags"];
  [tx "      curl -fsSL https://get.docker.com | sh"];
  [tx "      docker network create sentinel || true"];
  [tx "      docker rm -f sentinel-db sentinel-api >/dev/null 2>&1 || true"];
  [tx "      docker run -d --name sentinel-db --restart=always --network sentinel \"];
  [tx "        -e POSTGRES_PASSWORD="; TVar "db_password"; tx " -e POSTGRES_USER=sentinel -e POSTGRES_DB=sentinel \"];
  [tx "        -v /opt/sentinel/pgdata:/var/lib/postgresql/data postgres:16"];
  [tx "      for i in $(seq 1 60); do docker exec sentinel-db pg_isready -U sentinel -q && break || sleep 2; done"];
  [tx "      /opt/sentinel/start-api.sh"];
  []].

(** The commands of the first boot. *)
Definition sync_runcmd : list (list tok) := [
  [tx "runcmd:"];
  [tx "  - systemctl disable ssh || true"];
  [tx "  - systemctl stop ssh || true"];
  [tx "  - systemctl mask ssh.service || true"];
  [tx "  - bash /opt/sentinel/run.sh"];
  [tx "  - systemctl daemon-reload"];
  [tx "  - systemctl enable --now sentinel-update.path"];
  [tx "  - systemctl enable --now sentinel-update.timer"]].

Definition SYNC_TEMPLATE_lines : list (list tok) :=
  sync_packages ++ sync_start ++ sync_update ++ sync_units ++ sync_run ++ sync_runcmd.
Definition SYNC_TEMPLATE : text := source (unlines SYNC_TEMPLATE_lines) ++ NL.

Lemma templates_well_formed : well_formed false [] (unlines TEMPLATE_lines) = true /\ well_formed false [] (unlines SYNC_TEMPLATE_lines) = true.
Proof. by vm_compute. Qed.
