(* ===== verification/Provision.v ===== *)
(** [crates/core/src/provision] and [crates/core/src/wg]: the cloud-init parameters of a fresh
    node, the authenticated callback that reports it is ready, and the WireGuard configuration
    files. The template engine, the key agreement and HMAC are parameters. *)
From S2P Require Import Prelude Bytes Text Crypto Toy RecoveryKit Keyring Model Template CloudTemplates.
Local Open Scope Z_scope.

(** * [provision/callback.rs] *)

Module Callback.
Record CallbackBody : Type := MkCallbackBody { pubkey : text; ip : text; mac : text }.

Definition bad (detail : string) : CoreError := Provision "callback" detail.

(** [format!("{b:02x}")] and its inverse, [u8::from_str_radix(s, 16)], which also takes a
    leading plus sign. *)
Definition hex_digit (v : Z) : Z := if v <? 10 then 48 + v else 87 + v.
Definition hex_encode (b : bytes) : text :=
  concat (map (fun x => [hex_digit (byte_to_Z x / 16); hex_digit (byte_to_Z x mod 16)]) b).

Definition hex_val (c : Z) : option Z :=
  if is_ascii_digit c then Some (c - 48)
  else if (97 <=? c) && (c <=? 102) then Some (c - 87)
  else if (65 <=? c) && (c <=? 70) then Some (c - 55)
  else None.

Definition from_str_radix16 (s : bytes) : option byte :=
  match map byte_to_Z s with
  | [43; l] => byte_of_Z <$> hex_val l
  | [h; l] => h ← hex_val h; l ← hex_val l; Some (byte_of_Z (16 * h + l))
  | _ => None
  end.

(** A position where a [str] may be cut. *)
Definition is_char_boundary (b : bytes) (i : nat) : bool :=
  match b !! i with
  | Some x => negb ((128 <=? byte_to_Z x) && (byte_to_Z x <? 192))
  | None => (i =? length b)%nat
  end.

(** [&s[i..i + 2]] on a [str]: panics inside a character. *)
Fixpoint hex_pairs (b : bytes) (i n : nat) : Result bytes :=
  match n with
  | O => Ok []
  | S n =>
      guard is_char_boundary b i && is_char_boundary b (i + 2) else Panic in
      let? p := slice b i (i + 2) in
      let? x := ok_or (from_str_radix16 p) (bad "bad hex") in
      let? r := hex_pairs b (i + 2) n in
      Ok (x :: r)
  end.

Definition hex_decode (s : text) : Result bytes :=
  let b := utf8 s in
  guard (length b mod 2 =? 0)%nat else Err (bad "odd hex length") in
  hex_pairs b 0 (length b / 2).

Section ops.
Context {P : CryptoPrims}.

(** [got.ct_eq(&expected)] compares the bytes. *)
Definition verify_callback (body : CallbackBody) (hmac_key_hex : text) : Result text :=
  let? key := hex_decode hmac_key_hex in
  let expected := arr_bytes (hmac_sha256 key (utf8 (pubkey body) ++ utf8 (ip body))) in
  let? got := hex_decode (mac body) in
  if negb (length got =? length expected)%nat || negb (bool_decide (got = expected))
  then Err (bad "pubkey HMAC mismatch (possible MITM)")
  else Ok (pubkey body).

Definition compute_mac (pubkey ip hmac_key_hex : text) : Result text :=
  let? key := hex_decode hmac_key_hex in
  Ok (hex_encode (hmac_sha256 key (utf8 pubkey ++ utf8 ip))).
End ops.

(** ** Hexadecimal *)

Lemma hex_val_digit v : 0 <= v < 16 -> hex_val (hex_digit v) = Some v /\ hex_digit v <> 43 /\ is_ascii (hex_digit v).
Proof.
  intros Hv. assert (v ∈ [0; 1; 2; 3; 4; 5; 6; 7; 8; 9; 10; 11; 12; 13; 14; 15]) as Hin by (rewrite !elem_of_cons; lia).
  rewrite !elem_of_cons in Hin. destruct_or! Hin; subst; try (split; [reflexivity|split; [discriminate|unfold is_ascii; vm_compute; split; congruence]]).
  by apply not_elem_of_nil in Hin.
Qed.

Lemma byte_nibbles x : 0 <= byte_to_Z x / 16 < 16 /\ 0 <= byte_to_Z x mod 16 < 16.
Proof.
  pose proof (byte_to_Z_range x). pose proof (Z.mod_pos_bound (byte_to_Z x) 16).
  split; [|lia]. split; [apply Z.div_pos; lia|apply Z.div_lt_upper_bound; lia].
Qed.

Lemma hex_encode_ascii b : Forall is_ascii (hex_encode b).
Proof.
  induction b as [|x b IH]; [constructor|]. destruct (byte_nibbles x) as [H1 H2].
  constructor; [by apply hex_val_digit|]. constructor; [by apply hex_val_digit|]. exact IH.
Qed.

Lemma length_hex_encode b : length (hex_encode b) = (2 * length b)%nat.
Proof. induction b as [|x b IH]; [done|]. unfold hex_encode in *. cbn in *. lia. Qed.

Lemma from_str_radix16_encoded x :
  from_str_radix16 [byte_of_Z (hex_digit (byte_to_Z x / 16)); byte_of_Z (hex_digit (byte_to_Z x mod 16))] = Some x.
Proof. destruct x; vm_compute; reflexivity. Qed.

Lemma ascii_boundary (s : text) i : Forall is_ascii s -> (i <= length s)%nat -> is_char_boundary (map byte_of_Z s) i = true.
Proof.
  intros Hs Hi. unfold is_char_boundary. rewrite length_map. destruct (map byte_of_Z s !! i) as [x|] eqn:E.
  - apply list_lookup_fmap_Some in E as (c & -> & Hc). rewrite Forall_forall in Hs.
    specialize (Hs c (list_elem_of_lookup_2 _ _ _ Hc)). unfold is_ascii in Hs. rewrite byte_to_of_Z, Z.mod_small by lia.
    rewrite (proj2 (Z.leb_gt 128 c)) by lia. done.
  - apply lookup_ge_None in E. rewrite length_map in E. apply Nat.eqb_eq. lia.
Qed.

Lemma hex_pairs_encoded pre b :
  (length pre mod 2 = 0)%nat -> Forall is_ascii pre ->
  hex_pairs (map byte_of_Z (pre ++ hex_encode b)) (length pre) (length b) = Ok b.
Proof.
  revert pre; induction b as [|x b IH]; intros pre Hl Hp; cbn [length hex_pairs]; [done|].
  assert (Ha : Forall is_ascii (pre ++ hex_encode (x :: b))) by (apply Forall_app; split; [done|apply hex_encode_ascii]).
  rewrite !ascii_boundary; [|done|rewrite length_app, length_hex_encode; cbn; lia|done|rewrite length_app; lia]. cbn [andb].
  set (d := [hex_digit (byte_to_Z x / 16); hex_digit (byte_to_Z x mod 16)]).
  change (hex_encode (x :: b)) with (d ++ hex_encode b).
  rewrite !map_app, (slice_app (map byte_of_Z pre)) by (rewrite ?length_map; done). cbn [rbind].
  unfold d at 1. cbn [map]. rewrite from_str_radix16_encoded. cbn [ok_or rbind].
  specialize (IH (pre ++ d)). rewrite length_app in IH. change (length d) with 2%nat in IH. rewrite <- map_app, <- map_app, app_assoc.
  rewrite IH; [done| |].
  - rewrite Nat.Div0.add_mod, Hl. done.
  - apply Forall_app. split; [done|]. destruct (byte_nibbles x) as [H1 H2].
    constructor; [by apply hex_val_digit|]. constructor; [by apply hex_val_digit|constructor].
Qed.

Lemma hex_decode_encode b : hex_decode (hex_encode b) = Ok b.
Proof.
  unfold hex_decode. rewrite utf8_ascii by apply hex_encode_ascii. rewrite length_map, length_hex_encode.
  rewrite (Nat.mul_comm 2), Nat.Div0.mod_mul, Nat.div_mul by lia. cbn [Nat.eqb].
  apply (hex_pairs_encoded [] b); [done|constructor].
Qed.
End Callback.

(** * [provision/cloudinit.rs] *)

Record NextHop : Type := MkNextHop { wg1_privkey : text; wg1_address : text; peer_pubkey : text; peer_endpoint : text }.

Module CloudInit.
Record CloudInitParams : Type := MkCloudInitParams {
  server_privkey : text;
  client_pubkey : text;
  client_ip : text;
  listen_port : Z;
  callback_token : text;
  callback_hmac_key : text;
  deadman_secs : Z;
  next_hop : option NextHop;
}.

Definition single (spriv cpub cip : text) (port : Z) (token hmac_key : text) (deadman : Z) : CloudInitParams :=
  MkCloudInitParams spriv cpub cip port token hmac_key deadman None.

(** The [context!] of a node. *)
Definition context (p : CloudInitParams) : list (string * JVal) :=
  let egress_if := match next_hop p with Some _ => lit "wg1" | None => lit "eth0" end in
  let '(nh_privkey, nh_address, nh_peer_pubkey, nh_peer_endpoint) :=
    match next_hop p with
    | Some n => (wg1_privkey n, wg1_address n, peer_pubkey n, peer_endpoint n)
    | None => ([], [], [], [])
    end in
  [("server_privkey", JText (server_privkey p)); ("client_pubkey", JText (client_pubkey p)); ("client_ip", JText (client_ip p));
   ("listen_port", JInt (listen_port p)); ("callback_token", JText (callback_token p));
   ("callback_hmac_key", JText (callback_hmac_key p)); ("deadman_secs", JInt (deadman_secs p));
   ("next_hop", JBool (bool_decide (is_Some (next_hop p)))); ("egress_if", JText egress_if);
   ("nh_privkey", JText nh_privkey); ("nh_address", JText nh_address); ("nh_peer_pubkey", JText nh_peer_pubkey);
   ("nh_peer_endpoint", JText nh_peer_endpoint)].

Section ops.
Context {T : Templates} {B : Base64}.

(** A template whose text the engine refuses. *)
Definition added (name : string) (tmpl : text) : Result unit :=
  match add_template name tmpl with Some e => Err (Provision "template" e) | None => Ok tt end.

Definition render (p : CloudInitParams) : Result text :=
  let? _ := added "cloud-init" TEMPLATE in
  of_sum (Provision "render") (template_render TEMPLATE (context p)).

Definition render_base64 (p : CloudInitParams) : Result text :=
  let? t := render p in Ok (b64_encode (utf8 t)).
End ops.
End CloudInit.

(** * [wg/keys.rs] and [wg/config.rs] *)

Module Wg.
(** X25519: the public key of a secret. *)
Class X25519 : Type := { x25519_public : arr 32 -> arr 32 }.

Record WgKeypair : Type := MkWgKeypair { secret : arr 32; public : arr 32 }.

Section keys.
Context {X : X25519} {B : Base64}.
Definition generate (random : arr 32) : WgKeypair := MkWgKeypair random (x25519_public random).
Definition private_base64 (k : WgKeypair) : text := b64_encode (secret k).
Definition public_base64 (k : WgKeypair) : text := b64_encode (public k).

Definition validate_key (b64 : text) : Result unit :=
  let? b := ok_or (b64_decode b64) (Invalid "wireguard key is not base64") in
  guard (length b =? 32)%nat else Err (Invalid "wireguard key must be 32 bytes") in
  Ok tt.
End keys.

Record ClientConf : Type := MkClientConf {
  client_private_key : text;
  client_address : text;
  dns : text;
  server_public_key : text;
  server_endpoint : text;
  allowed_ips : list text;
  keepalive : Z;
}.

Record ServerConf : Type := MkServerConf {
  server_private_key : text;
  server_address : text;
  sc_listen_port : Z;
  client_public_key : text;
  client_allowed_ip : text;
}.

Definition NL : text := [10].
Definition line (s : text) : text := s ++ NL.

Definition render_client_conf (c : ClientConf) : text :=
  let dns_line := if bool_decide (trim (dns c) = []) then [] else line (lit "DNS = " ++ dns c) in
  line (lit "[Interface]")
  ++ line (lit "PrivateKey = " ++ client_private_key c)
  ++ line (lit "Address = " ++ client_address c)
  ++ dns_line
  ++ line (lit "MTU = 1280")
  ++ line []
  ++ line (lit "[Peer]")
  ++ line (lit "PublicKey = " ++ server_public_key c)
  ++ line (lit "Endpoint = " ++ server_endpoint c)
  ++ line (lit "AllowedIPs = " ++ join (lit ", ") (allowed_ips c))
  ++ line (lit "PersistentKeepalive = " ++ show_dec (keepalive c)).

Definition render_server_conf (s : ServerConf) : text :=
  line (lit "[Interface]")
  ++ line (lit "PrivateKey = " ++ server_private_key s)
  ++ line (lit "Address = " ++ server_address s)
  ++ line (lit "ListenPort = " ++ show_dec (sc_listen_port s))
  ++ line (lit "# SaveConfig deliberately off " ++ [8212] ++ lit " the server keeps nothing at shutdown.")
  ++ line (lit "SaveConfig = false")
  ++ line []
  ++ line (lit "[Peer]")
  ++ line (lit "PublicKey = " ++ client_public_key s)
  ++ line (lit "AllowedIPs = " ++ client_allowed_ip s).

Definition full_tunnel : list text := [lit "0.0.0.0/0"; lit "::/0"].
End Wg.

(** * Claims *)

Section claims.
Import Callback.
Context {P : CryptoPrims}.

(** The readiness callback is authenticated. A body is accepted exactly when its mac spells, in
    hexadecimal, the HMAC of its public key followed by its address under the delivered key, and
    the key returned is the body's own; the mac the node computes is always accepted. *)
Theorem callback_authentic body key_hex key pk :
  hex_decode key_hex = Ok key ->
  (verify_callback body key_hex = Ok pk <->
     pk = pubkey body /\ hex_decode (mac body) = Ok (arr_bytes (hmac_sha256 key (utf8 (pubkey body) ++ utf8 (ip body)))))
  /\ exists m, compute_mac (pubkey body) (ip body) key_hex = Ok m
       /\ verify_callback (MkCallbackBody (pubkey body) (ip body) m) key_hex = Ok (pubkey body).
Proof.
  intros Hk.
  assert (Hv : forall b, verify_callback b key_hex = Ok pk <->
     pk = pubkey b /\ hex_decode (mac b) = Ok (arr_bytes (hmac_sha256 key (utf8 (pubkey b) ++ utf8 (ip b))))).
  { intros b. unfold verify_callback. rewrite Hk. cbn [rbind].
    destruct (hex_decode (mac b)) as [got|e|] eqn:Em; cbn [rbind]; [|naive_solver..].
    set (h := arr_bytes _). destruct (decide (got = h)) as [->|Hne].
    - rewrite Nat.eqb_refl, bool_decide_true by done. cbn. naive_solver.
    - rewrite (bool_decide_false (got = h)) by done. rewrite orb_true_r. naive_solver. }
  split; [apply Hv|]. unfold compute_mac. rewrite Hk. cbn [rbind]. eexists. split; [done|].
  unfold verify_callback. rewrite Hk. cbn [rbind mac pubkey ip]. rewrite hex_decode_encode. cbn [rbind].
  by rewrite Nat.eqb_refl, bool_decide_true.
Qed.

(** A mac that is not ASCII makes the verifier panic: [hex_decode] cuts the string every two
    bytes, and a cut inside a character is a panic, not an error. *)
Theorem callback_mac_panics pk address key_hex key :
  hex_decode key_hex = Ok key -> verify_callback (MkCallbackBody pk address [8364; 48]) key_hex = Panic.
Proof. intros Hk. unfold verify_callback. by rewrite Hk. Qed.
End claims.

Lemma callback_authentic_witness :
  exists m, Callback.compute_mac (lit "PUB") (lit "203.0.113.7") (lit "00112233") = Ok m
    /\ Callback.verify_callback (Callback.MkCallbackBody (lit "PUB") (lit "203.0.113.7") m) (lit "00112233") = Ok (lit "PUB").
Proof.
  apply (callback_authentic (Callback.MkCallbackBody (lit "PUB") (lit "203.0.113.7") []) (lit "00112233")
           [Byte.x00; Byte.x11; Byte.x22; Byte.x33] []).
  vm_compute. reflexivity.
Defined.
