(* ===== verification/Vpn.v ===== *)
(** [crates/core/src/cloud/{provider,mock}.rs], [wg/controller.rs] and [vpn/{session,sweep}.rs]:
    the cloud provider interface and its deterministic mock, the connect state machine, tear-down,
    the orphan sweep and the split-tunnel decision. What a connect draws at random are arguments;
    the states it reports are the trace it leaves. *)
From S2P Require Import Prelude Bytes Text Crypto Toy RecoveryKit Keyring Model Template Provision.
Local Open Scope Z_scope.

(** * The provider interface *)

Definition EPHEMERAL_TAG : text := lit "sentinel-ephemeral".
Definition SYNC_TAG : text := lit "sentinel-sync".
Definition PERSISTENT_VPN_TAG : text := lit "sentinel-vpn-persistent".

Module InstanceState.
Inductive t : Type := Provisioning | Booting | Running | Stopped | Deleting | Gone.
#[global] Instance eq_dec : EqDecision t.
Proof. solve_decision. Defined.
End InstanceState.

Record Instance_t : Type := MkInstance {
  inst_id : text;
  inst_region : text;
  inst_type : text;
  inst_state : InstanceState.t;
  ipv4 : option text;
  inst_tags : list text;
}.

Record InstanceSpec : Type := MkInstanceSpec {
  spec_region : text;
  spec_type : text;
  user_data : text;
  spec_label : text;
  spec_tags : list text;
}.

(** The traits, over the state of the world they act on. *)
Class CloudProvider (S : Type) : Type := {
  create : InstanceSpec -> ST S CoreError Instance_t;
  get : text -> ST S CoreError Instance_t;
  delete : text -> ST S CoreError unit;
  list_ephemeral : ST S CoreError (list Instance_t);
  shutdown : text -> ST S CoreError unit;
  boot : text -> ST S CoreError unit;
  reboot : text -> ST S CoreError unit;
}.

Class WgController (S : Type) : Type := {
  up : Wg.ClientConf -> ST S CoreError unit;
  down : ST S CoreError unit;
}.

Class ServerPubkeyFetcher (S : Type) : Type := { fetch : text -> text -> text -> ST S CoreError text }.

(** What a node created with these tags carries. *)
Definition effective_tags (tags : list text) : list text := if bool_decide (tags = []) then [EPHEMERAL_TAG] else tags.

(** The provider's promises, in terms of which nodes exist and how they are tagged. A node that
    exists is billed. *)
Class CloudLaws (S : Type) {C : CloudProvider S} : Type := {
  cloud_ok : S -> Prop;
  node : S -> text -> option (list text);
  create_spec spec s r s' : cloud_ok s -> create spec s = (r, s') ->
    cloud_ok s' /\
    match r with
    | Ok i => node s (inst_id i) = None
        /\ forall x, node s' x = if decide (x = inst_id i) then Some (effective_tags (spec_tags spec)) else node s x
    | Err _ => forall x, node s' x = node s x
    | Panic => False
    end;
  get_spec id s r s' : cloud_ok s -> get id s = (r, s') -> cloud_ok s' /\ (forall x, node s' x = node s x) /\ r <> Panic;
  delete_spec id s r s' : cloud_ok s -> delete id s = (r, s') ->
    cloud_ok s' /\
    match r with
    | Ok _ => forall x, node s' x = if decide (x = id) then None else node s x
    | Err _ => forall x, node s' x = node s x
    | Panic => False
    end;
  list_spec s r s' : cloud_ok s -> list_ephemeral s = (r, s') ->
    cloud_ok s' /\ (forall x, node s' x = node s x) /\
    match r with
    | Ok l => forall x, x ∈ map inst_id l <-> exists tags, node s x = Some tags /\ EPHEMERAL_TAG ∈ tags
    | Err _ => True
    | Panic => False
    end;
}.

(** Bringing a tunnel up and asking a node for its key do not create or destroy nodes. *)
Class FrameLaws (S : Type) {C : CloudProvider S} {L : CloudLaws S} {W : WgController S} {F : ServerPubkeyFetcher S} : Prop := {
  up_frame conf s r s' : cloud_ok s -> up conf s = (r, s') -> cloud_ok s' /\ (forall x, node s' x = node s x) /\ r <> Panic;
  down_frame s r s' : cloud_ok s -> down s = (r, s') -> cloud_ok s' /\ (forall x, node s' x = node s x) /\ r <> Panic;
  fetch_frame ip token key s r s' : cloud_ok s -> fetch ip token (Callback.hex_encode key) s = (r, s') ->
    cloud_ok s' /\ (forall x, node s' x = node s x) /\ r <> Panic;
}.

(** * [vpn/session.rs] *)

Module Session.
Inductive ConnectState : Type :=
| Idle
| CreatingInstance
| Booting
| ExchangingKeys
| StartingTunnel
| Connected (instance_id : text) (egress_ip : option text)
| Disconnecting
| Destroying
| Failed (stage : string) (reason : string).

Record Connection : Type := MkConnection { instance : Instance_t; client_conf : text }.

(** The random draws of a connect. *)
Record Secrets : Type := MkSecrets { client_secret : arr 32; server_secret : arr 32; token_b : arr 32; hmac_b : arr 32 }.

(** The world, the states reported so far, and [created]. *)
Record Run (S : Type) : Type := MkRun { world : S; trace : list ConnectState; created : option text }.
Arguments MkRun {S}. Arguments world {S}. Arguments trace {S}. Arguments created {S}.

Definition hex (b : bytes) : text := Callback.hex_encode b.

Definition stage_of (e : CoreError) : string := match e with Provision stage _ => stage | _ => "connect" end.

Section ops.
Context {S : Type} {C : CloudProvider S} {W : WgController S} {F : ServerPubkeyFetcher S}.
Context {T : Templates} {B : Base64} {X : Wg.X25519}.

Definition R (A : Type) : Type := ST (Run S) CoreError A.

Definition call {A} (m : ST S CoreError A) : R A := fun r =>
  let '(a, s) := m (world r) in (a, MkRun s (trace r) (created r)).
Definition emit (st : ConnectState) : R unit := fun r => (Ok tt, MkRun (world r) (trace r ++ [st]) (created r)).
Definition set_created (id : text) : R unit := fun r => (Ok tt, MkRun (world r) (trace r) (Some id)).

(** At most [n] polls; the first answer that is Running ends the wait. *)
Fixpoint boot_wait (n : nat) (id : text) (running : Instance_t) : R Instance_t :=
  match n with
  | O => ret running
  | Datatypes.S n =>
      let! cur := call (get id) in
      if bool_decide (inst_state cur = InstanceState.Running) then ret cur else boot_wait n id running
  end.

Definition conf_of (sec : Secrets) (ip : text) (allowed_ips : list text) : Wg.ClientConf :=
  Wg.MkClientConf (Wg.private_base64 (Wg.generate (client_secret sec))) (lit "10.66.0.2/32") (lit "1.1.1.1")
    (Wg.public_base64 (Wg.generate (server_secret sec))) (ip ++ lit ":51820") allowed_ips 25.

(** What the node is told, and the client's side of it. *)
Definition params_of (sec : Secrets) : CloudInit.CloudInitParams :=
  CloudInit.single (Wg.private_base64 (Wg.generate (server_secret sec))) (Wg.public_base64 (Wg.generate (client_secret sec)))
    (lit "10.66.0.2") 51820 (hex (token_b sec)) (hex (hmac_b sec)) 900.

Definition connect_inner (max_boot_polls : nat) (sec : Secrets) (region instance_type : text) (allowed_ips : list text)
    : R Connection :=
  let callback_token := hex (token_b sec) in
  let callback_hmac_key := hex (hmac_b sec) in
  let! cloud_init := lift (CloudInit.render_base64 (params_of sec)) in
  let! _ := emit CreatingInstance in
  let! inst := call (create (MkInstanceSpec region instance_type cloud_init (lit "sentinel-" ++ region) [])) in
  let! _ := set_created (inst_id inst) in
  let! _ := emit Booting in
  let! running := boot_wait max_boot_polls (inst_id inst) inst in
  require bool_decide (inst_state running = InstanceState.Running)
    else Provision "boot" "instance did not reach Running in time" in
  let! ip := lift (ok_or (ipv4 running) (Provision "boot" "no ipv4")) in
  let! _ := emit ExchangingKeys in
  let! _ := call (fetch ip callback_token callback_hmac_key) in
  let! _ := emit StartingTunnel in
  let conf := conf_of sec ip allowed_ips in
  let! _ := call (up conf) in
  let! _ := emit (Connected (inst_id running) (ipv4 running)) in
  ret (MkConnection running (Wg.render_client_conf conf)).

(** On an error, destroy whatever was created, whether or not the provider then agrees. *)
Definition cleanup (e : CoreError) : R unit :=
  let! _ := fun r =>
    match created r with
    | Some id =>
        let '(_, r) := emit Destroying r in
        let '(_, r) := call (delete id) r in
        (Ok tt, r)
    | None => (Ok tt, r)
    end in
  emit (Failed (stage_of e) (display e)).

Definition connect (max_boot_polls : nat) (sec : Secrets) (region instance_type : text) (allowed_ips : list text)
    (s : S) (tr : list ConnectState) : Result Connection * Run S :=
  match connect_inner max_boot_polls sec region instance_type allowed_ips (MkRun s tr None) with
  | (Err e, r) => (Err e, snd (cleanup e r))
  | (res, r) => (res, r)
  end.

Definition disconnect (instance_id : text) : R unit :=
  let! _ := emit Disconnecting in
  let! _ := fun r => (Ok tt, snd (call down r)) in
  let! _ := emit Destroying in
  let! _ := call (delete instance_id) in
  emit Idle.
End ops.

(** ** Split tunnelling *)

Definition looks_like_cidr (s : text) : bool :=
  match split_once (chr "/") (trim s) with
  | None => false
  | Some (addr, prefix) =>
      if bool_decide (addr = []) then false
      else match parse_unsigned (2 ^ 32 - 1) prefix with
           | Some bits => if bits <=? 128 then contains (chr ".") addr || contains (chr ":") addr else false
           | None => false
           end
  end.

Definition decide_allowed_ips (tunnel_mode : option text) (split_routes : list text) : list text :=
  if bool_decide (tunnel_mode = Some (lit "split")) then
    let cidrs := List.filter looks_like_cidr (map trim split_routes) in
    if bool_decide (cidrs = []) then Wg.full_tunnel else cidrs
  else Wg.full_tunnel.
End Session.

(** * [vpn/sweep.rs] *)

Module Sweep.
Section ops.
Context {S : Type} {C : CloudProvider S}.

(** The loop over the listed nodes; a failed deletion is skipped. *)
Fixpoint sweep_loop (keep : gset text) (l : list Instance_t) (reaped : list text) : ST S CoreError (list text) :=
  match l with
  | [] => ret reaped
  | inst :: l =>
      if bool_decide (inst_id inst ∈ keep) then sweep_loop keep l reaped
      else fun s =>
        match delete (inst_id inst) s with
        | (Ok _, s) => sweep_loop keep l (reaped ++ [inst_id inst]) s
        | (Err _, s) => sweep_loop keep l reaped s
        | (Panic, s) => (Panic, s)
        end
  end.

Definition orphan_sweep_keeping (keep : gset text) : ST S CoreError (list text) :=
  let! l := list_ephemeral in
  sweep_loop keep l [].

Definition orphan_sweep (keep : option text) : ST S CoreError (list text) :=
  orphan_sweep_keeping (match keep with Some k => {[k]} | None => ∅ end).
End ops.
End Sweep.

(** * The connect state machine *)

Module SessionFacts.
Import Session.
Section facts.
Context {S : Type} {C : CloudProvider S} {W : WgController S} {F : ServerPubkeyFetcher S}.
Context {T : Templates} {B : Base64} {X : Wg.X25519}.

Lemma call_run {A} (m : ST S CoreError A) r a r' :
  call m r = (a, r') -> m (world r) = (a, world r') /\ trace r' = trace r /\ created r' = created r.
Proof. unfold call. destruct (m (world r)) as [a0 s]. by intros [= <- <-]. Qed.

Lemma boot_wait_run n id inst r a r' :
  boot_wait n id inst r = (a, r') ->
  trace r' = trace r /\ created r' = created r.
Proof.
  revert r; induction n as [|n IH]; intros r; cbn [boot_wait]; [by intros [= <- <-]|].
  unfold mbind. destruct (call (get id) r) as [[cur|e|] r1] eqn:E; apply call_run in E as (_ & E1 & E2);
    [|by intros [= <- <-]..]. case_bool_decide; [by intros [= <- <-]|].
  intros [H1 H2]%IH. split; congruence.
Qed.

(** The states in the order a connect reports them, by how far it came. *)
Definition progress (n : nat) : list ConnectState := take n [CreatingInstance; Booting; ExchangingKeys; StartingTunnel].

(** What an attempt leaves in its trace. *)
Definition came_to (tr : list ConnectState) (r : Run S) (n : nat) : Prop :=
  trace r = tr ++ progress n /\ (created r = None <-> (n <= 1)%nat).

Lemma connect_inner_run n sec region ty ips s tr res r' :
  connect_inner n sec region ty ips (MkRun s tr None) = (res, r') ->
  match res with
  | Ok c => exists ip s1 r1, came_to tr r1 4 /\ created r' = created r1
      /\ trace r' = trace r1 ++ [Connected (inst_id (instance c)) (ipv4 (instance c))]
      /\ inst_state (instance c) = InstanceState.Running /\ ipv4 (instance c) = Some ip
      /\ client_conf c = Wg.render_client_conf (conf_of sec ip ips)
      /\ up (conf_of sec ip ips) s1 = (Ok tt, world r')
  | _ => exists k, (k <= 4)%nat /\ came_to tr r' k
  end.
Proof.
  unfold connect_inner. cbv zeta. unfold mbind at 1, lift at 1.
  destruct (CloudInit.render_base64 _) as [ci|e|].
  2,3: intros [= <- <-]; exists 0%nat; split; [lia|]; split; [by rewrite app_nil_r|cbn; split; [lia|done]].
  unfold mbind at 1. cbn [emit world trace created]. unfold mbind at 1.
  destruct (call (create _) _) as [[inst|e|] r1] eqn:E1; apply call_run in E1 as (_ & T1 & C1); cbn in T1, C1.
  2,3: intros [= <- <-]; exists 1%nat; split; [lia|]; split; [done|rewrite C1; split; [lia|done]].
  unfold mbind at 1. cbn [set_created world trace created]. unfold mbind at 1. cbn [emit world trace created]. unfold mbind at 1.
  destruct (boot_wait n (inst_id inst) inst _) as [[running|e|] r2] eqn:E2; apply boot_wait_run in E2 as [T2 C2]; cbn in T2, C2;
    rewrite T1, <- app_assoc in T2.
  2,3: intros [= <- <-]; exists 2%nat; split; [lia|]; split; [done|rewrite C2; split; [done|lia]].
  assert (H2 : came_to tr r2 2) by (split; [done|rewrite C2; split; [done|lia]]).
  case_bool_decide as Hrun; [|intros [= <- <-]; exists 2%nat; split; [lia|done]].
  unfold mbind at 1, lift. destruct (ipv4 running) as [ip|] eqn:Eip; cbn [ok_or]; [|intros [= <- <-]; exists 2%nat; split; [lia|done]].
  unfold mbind at 1. cbn [emit world trace created]. unfold mbind at 1.
  destruct (call (fetch _ _ _) _) as [[rdy|e|] r3] eqn:E3; apply call_run in E3 as (_ & T3 & C3); cbn in T3, C3;
    rewrite T2, <- app_assoc in T3; cbn [app] in T3.
  2,3: intros [= <- <-]; exists 3%nat; split; [lia|]; split; [done|rewrite C3, C2; split; [done|lia]].
  unfold mbind at 1. cbn [emit world trace created]. unfold mbind at 1.
  destruct (call (up _) _) as [[u|e|] r4] eqn:E4; apply call_run in E4 as (U4 & T4 & C4); cbn in T4, C4;
    rewrite T3, <- app_assoc in T4; cbn [app] in T4.
  2,3: intros [= <- <-]; exists 4%nat; split; [lia|]; split; [done|rewrite C4, C3, C2; split; [done|lia]].
  unfold mbind, emit, ret. intros [= <- <-]. exists ip, (world r3), r4. cbn. rewrite Eip. destruct u.
  split; [|done]. split; [done|]. rewrite C4, C3, C2. split; [done|lia].
Qed.

(** ** Legal histories *)

Inductive next : ConnectState -> ConnectState -> Prop :=
| next_create : next Idle CreatingInstance
| next_render_failed st re : next Idle (Failed st re)
| next_boot : next CreatingInstance Booting
| next_create_failed st re : next CreatingInstance (Failed st re)
| next_keys : next Booting ExchangingKeys
| next_tunnel : next ExchangingKeys StartingTunnel
| next_connected id ip : next StartingTunnel (Connected id ip)
| next_abort st : st = Booting \/ st = ExchangingKeys \/ st = StartingTunnel -> next st Destroying
| next_failed st re : next Destroying (Failed st re).

Fixpoint path (l : list ConnectState) : Prop :=
  match l with
  | a :: (b :: _) as l' => next a b /\ path l'
  | _ => True
  end.

Lemma cleanup_run e (r : Run S) :
  trace (snd (cleanup e r)) =
    trace r ++ (if created r then [Destroying] else []) ++ [Failed (stage_of e) (display e)]
  /\ match created r with
     | Some id => exists o, delete id (world r) = (o, world (snd (cleanup e r)))
     | None => world (snd (cleanup e r)) = world r
     end.
Proof.
  unfold cleanup, mbind. destruct (created r) as [id|] eqn:Ec; cbn; [|done]. rewrite Ec.
  cbn. destruct (call (delete id) _) as [o r1] eqn:E. apply call_run in E as (Hd & Ht & _). cbn in Hd, Ht |- *.
  rewrite Ht, <- app_assoc. split; [done|]. by exists o.
Qed.
End facts.
End SessionFacts.

(** * Nodes across a connect *)

Section nodes.
Import Session SessionFacts.
Context {S : Type} {C : CloudProvider S} {L : CloudLaws S} {W : WgController S} {F : ServerPubkeyFetcher S} {FL : FrameLaws S}.
Context {T : Templates} {B : Base64} {X : Wg.X25519}.

(** A step that leaves the nodes and [created] alone. *)
Definition quiet {A} (m : R A) : Prop :=
  forall r a r', cloud_ok (world r) -> m r = (a, r') ->
    cloud_ok (world r') /\ (forall x, node (world r') x = node (world r) x) /\ created r' = created r /\ a <> Panic.

Lemma quiet_bind {A A'} (m : R A) (k : A -> R A') : quiet m -> (forall a, quiet (k a)) -> quiet (mbind m k).
Proof.
  intros Hm Hk r a r' Hok H. unfold mbind in H. destruct (m r) as [[x|e|] r1] eqn:E; apply Hm in E as (H1 & H2 & H3 & H4); try done.
  - apply Hk in H as (H1' & H2' & H3' & H4'); [|done]. split_and!; try done; [|congruence]. intros y. by rewrite H2'.
  - injection H as <- <-. split_and!; done.
Qed.
Lemma quiet_ret {A} (x : A) : quiet (ret x).
Proof. intros r a r' Hok [= <- <-]. by split_and!. Qed.
Lemma quiet_err {A} e : quiet (err (A := A) e).
Proof. intros r a r' Hok [= <- <-]. by split_and!. Qed.
Lemma quiet_lift {A} (x : Result A) : x <> Panic -> quiet (lift x).
Proof. intros Hx r a r' Hok [= <- <-]. by split_and!. Qed.
Lemma quiet_emit st : quiet (emit (S := S) st).
Proof. intros r a r' Hok [= <- <-]. by split_and!. Qed.
Lemma quiet_call {A} (m : ST S CoreError A) :
  (forall s r s', cloud_ok s -> m s = (r, s') -> cloud_ok s' /\ (forall x, node s' x = node s x) /\ r <> Panic) -> quiet (call m).
Proof.
  intros Hm r a r' Hok (H & _ & Hc)%call_run. destruct (Hm _ _ _ Hok H) as (? & ? & ?). by split_and!.
Qed.
Lemma quiet_boot_wait n id inst : quiet (boot_wait n id inst).
Proof.
  induction n as [|n IH]; cbn [boot_wait]; [apply quiet_ret|]. apply quiet_bind.
  - apply quiet_call. intros s r s' Hok H. by eapply get_spec.
  - intros cur. case_bool_decide; [apply quiet_ret|done].
Qed.

(** The nodes that exist are those there were, and [created]. *)
Definition accounted (s : S) (r : Run S) : Prop :=
  cloud_ok (world r) /\
  match created r with
  | None => forall x, node (world r) x = node s x
  | Some id => node s id = None /\ forall x, node (world r) x = if decide (x = id) then Some [EPHEMERAL_TAG] else node s x
  end.

Lemma quiet_accounted {A} (m : R A) s r a r' : quiet m -> accounted s r -> m r = (a, r') -> accounted s r' /\ a <> Panic.
Proof.
  intros Hm [Hok Hn] H. destruct (Hm _ _ _ Hok H) as (H1 & H2 & H3 & H4). split; [|done]. split; [done|]. rewrite H3.
  destruct (created r); [destruct Hn as [? Hn]; split; [done|]|]; intros x; by rewrite H2.
Qed.

Lemma render_base64_no_panic p : CloudInit.render_base64 p <> Panic.
Proof.
  unfold CloudInit.render_base64. apply rbind_no_panic; [|done]. unfold CloudInit.render.
  apply rbind_no_panic; [unfold CloudInit.added; by destruct (add_template _ _)|intros; apply of_sum_no_panic].
Qed.

Lemma connect_inner_accounted n sec region ty ips s tr res r' :
  cloud_ok s -> connect_inner n sec region ty ips (MkRun s tr None) = (res, r') -> accounted s r' /\ res <> Panic.
Proof.
  intros Hok H. unfold connect_inner in H. cbv zeta in H. unfold mbind at 1, lift at 1 in H.
  destruct (CloudInit.render_base64 _) as [ci|e|] eqn:Er; [|injection H as <- <-; by split|by apply render_base64_no_panic in Er].
  unfold mbind at 1 in H. cbn [emit world trace created] in H. unfold mbind at 1 in H.
  destruct (call (create _) _) as [o r1] eqn:E1. apply call_run in E1 as (U1 & _ & C1). cbn in U1, C1.
  apply create_spec in U1 as [Hok1 U1]; [|done]. cbn [spec_tags] in U1.
  destruct o as [inst|e|]; [|injection H as <- <-; split; [by split; [|rewrite C1]|done]|done].
  unfold mbind at 1 in H. cbn [set_created world trace created] in H.
  assert (HA : accounted s (MkRun (world r1) (trace r1) (Some (inst_id inst)))) by done.
  revert HA H. generalize (MkRun (world r1) (trace r1) (Some (inst_id inst))). intros r2 HA H.
  eapply quiet_accounted in H; [exact H| |exact HA].
  apply quiet_bind; [apply quiet_emit|]. intros _. apply quiet_bind; [apply quiet_boot_wait|]. intros running.
  case_bool_decide; [|apply quiet_err]. apply quiet_bind; [apply quiet_lift; by destruct (ipv4 running)|]. intros ip.
  apply quiet_bind; [apply quiet_emit|]. intros _.
  apply quiet_bind; [apply quiet_call; intros; by eapply fetch_frame|]. intros _.
  apply quiet_bind; [apply quiet_emit|]. intros _.
  apply quiet_bind; [apply quiet_call; intros; by eapply up_frame|]. intros _.
  apply quiet_bind; [apply quiet_emit|]. intros _. apply quiet_ret.
Qed.

(** C9: a failed connect leaves no node behind. With any provider that keeps its promises, a connect
    that fails, at whatever stage, leaves exactly the nodes there were before, except that where the
    provider refuses the clean-up deletion of the new node, that node remains and carries the tag
    the orphan sweep looks for. A connect that succeeds adds exactly one node, which is running.
    Connecting never panics. *)
Theorem connect_leaves_no_orphan n sec region ty ips s tr res r' :
  cloud_ok s -> connect n sec region ty ips s tr = (res, r') ->
  match res with
  | Ok c => inst_state (instance c) = InstanceState.Running /\ exists id, node s id = None
      /\ forall x, node (world r') x = if decide (x = id) then Some [EPHEMERAL_TAG] else node s x
  | Err _ => (forall x, node (world r') x = node s x)
      \/ exists id sd e, delete id sd = (Err e, world r') /\ node s id = None
           /\ forall x, node (world r') x = if decide (x = id) then Some [EPHEMERAL_TAG] else node s x
  | Panic => False
  end.
Proof.
  intros Hok H. unfold connect in H. destruct (connect_inner _ _ _ _ _ _) as [res1 r1] eqn:E.
  pose proof (connect_inner_accounted _ _ _ _ _ _ _ _ _ Hok E) as [[Hok1 HA] Hp]. apply connect_inner_run in E.
  destruct res1 as [c|e|]; [| |done].
  - injection H as <- <-. destruct E as (ip & s1 & r2 & [_ Hc] & Hc2 & _ & Hrun & _). split; [done|].
    rewrite <- Hc2 in Hc. destruct (created r1) as [id|]; [by exists id|]. exfalso. destruct Hc as [Hc _]. specialize (Hc eq_refl). lia.
  - injection H as <- <-. destruct (cleanup_run e r1) as [_ Hd]. destruct (created r1) as [id|] eqn:Ec.
    + destruct HA as [Hnone HA]. destruct Hd as [o Hd]. destruct (delete_spec _ _ _ _ Hok1 Hd) as [_ Hdel].
      destruct o as [u|e'|]; [left|right|done].
      * intros x. rewrite Hdel, HA. case_decide; [subst; done|done].
      * exists id, (world r1), e'. split; [done|]. split; [done|]. intros x. by rewrite Hdel.
    + left. intros x. rewrite Hd. apply HA.
Qed.
End nodes.

Section traces.
Import Session SessionFacts.
Context {S : Type} {C : CloudProvider S} {W : WgController S} {F : ServerPubkeyFetcher S}.
Context {T : Templates} {B : Base64} {X : Wg.X25519}.

(** A connect walks its state machine. Whatever the provider, the tunnel and the node do, the
    states reported from Idle on are a path of the machine; they end in Connected with the node of
    the connection exactly when it succeeds, and in Failed with the stage of the error when it does
    not, passing through Destroying exactly when a node had been created. *)
Theorem connect_trace_legal n sec region ty ips s res r' :
  connect n sec region ty ips s [] = (res, r') ->
  path (Idle :: trace r') /\
  match res with
  | Ok c => last (trace r') = Some (Connected (inst_id (instance c)) (ipv4 (instance c))) /\ is_Some (ipv4 (instance c))
  | Err e => last (trace r') = Some (Failed (stage_of e) (display e))
      /\ (Destroying ∈ trace r' <-> Booting ∈ trace r')
  | Panic => True
  end.
Proof.
  intros H. unfold connect in H. destruct (connect_inner _ _ _ _ _ _) as [res1 r1] eqn:E. apply connect_inner_run in E.
  destruct res1 as [c|e|].
  - injection H as <- <-. destruct E as (ip & s1 & r2 & [Ht _] & _ & Ht2 & _ & Hip & _). rewrite Ht2, Ht. cbn.
    split; [by split_and!; constructor|]. split; [done|]. by rewrite Hip.
  - injection H as <- <-. destruct E as (k & Hk & Ht & Hc). destruct (cleanup_run e r1) as [-> _]. rewrite Ht.
    destruct k as [|[|[|[|[|k]]]]]; [..|lia];
      (destruct (created r1) as [id|];
        [try (exfalso; assert (Some id = None) by (apply Hc; lia); done)|try (exfalso; pose proof (proj1 Hc eq_refl); lia)]);
      cbn; (split; [split_and!; try done; once (constructor; auto)|]); (split; [done|]);
      rewrite ?elem_of_cons, ?elem_of_nil; naive_solver.
  - injection H as <- <-. destruct E as (k & Hk & Ht & Hc). rewrite Ht. split; [|done].
    destruct k as [|[|[|[|[|k]]]]]; [..|lia]; cbn; repeat match goal with |- _ /\ _ => split end; try done; constructor.
Qed.

(** The tunnel is sealed to the key that was provisioned. A connect that succeeds brought the
    tunnel up with the address of the running node and the public half of the very key whose
    private half went into the node's cloud-init, never a key reported by the node; the
    configuration returned is the one brought up. *)
Theorem connect_pins_provisioned_key n sec region ty ips s tr c r' :
  connect n sec region ty ips s tr = (Ok c, r') ->
  exists ip s1, ipv4 (instance c) = Some ip
    /\ up (conf_of sec ip ips) s1 = (Ok tt, world r')
    /\ Wg.server_public_key (conf_of sec ip ips) = Wg.public_base64 (Wg.generate (server_secret sec))
    /\ client_conf c = Wg.render_client_conf (conf_of sec ip ips).
Proof.
  intros H. unfold connect in H. destruct (connect_inner _ _ _ _ _ _) as [res1 r1] eqn:E. apply connect_inner_run in E.
  destruct res1 as [c1|e|]; [|done..]. injection H as <- <-.
  destruct E as (ip & s1 & r2 & _ & _ & _ & _ & Hip & Hconf & Hup). by exists ip, s1.
Qed.
End traces.

(** * The sweep and the split tunnel *)

Section sweep.
Import Sweep.
Context {S : Type} {C : CloudProvider S} {L : CloudLaws S}.

Lemma sweep_loop_run keep l reaped s r s' :
  cloud_ok s -> sweep_loop keep l reaped s = (r, s') ->
  exists new, r = Ok (reaped ++ new) /\ cloud_ok s'
    /\ (forall x, x ∈ new -> x ∈ map inst_id l /\ x ∉ keep)
    /\ (forall x, node s' x = if decide (x ∈ new) then None else node s x)
    /\ ((forall id s1, cloud_ok s1 -> fst (delete id s1) = Ok tt) -> forall x, x ∈ map inst_id l -> x ∉ keep -> x ∈ new).
Proof.
  revert reaped s; induction l as [|i l IH]; intros reaped s Hok; cbn [sweep_loop map].
  { intros [= <- <-]. exists []. rewrite app_nil_r. split_and!; try done. set_solver. }
  case_bool_decide as Hk.
  - intros H. destruct (IH _ _ Hok H) as (new & -> & Hok' & Hin & Hn & Hall). exists new. split_and!; try done.
    + intros x Hx. destruct (Hin x Hx). set_solver.
    + intros Hd x [->|Hx]%elem_of_cons Hnk; [done|]. by apply Hall.
  - destruct (delete (inst_id i) s) as [o s1] eqn:Ed. destruct (delete_spec _ _ _ _ Hok Ed) as [Hok1 Hd]. destruct o as [u|e|]; [| |done].
    + intros H. destruct (IH _ _ Hok1 H) as (new & -> & Hok' & Hin & Hn & Hall). exists (inst_id i :: new).
      rewrite <- app_assoc. split_and!; try done.
      * intros x [->|Hx]%elem_of_cons; [split; [by left|done]|]. destruct (Hin x Hx). split; [by right|done].
      * intros x. rewrite Hn, Hd. repeat case_decide; set_solver.
      * intros Hdel x [->|Hx]%elem_of_cons Hnk; [by left|]. right. by apply Hall.
    + intros H. destruct (IH _ _ Hok1 H) as (new & -> & Hok' & Hin & Hn & Hall). exists new. split_and!; try done.
      * intros x Hx. destruct (Hin x Hx). split; [by right|done].
      * intros x. by rewrite Hn, Hd.
      * intros Hdel. specialize (Hdel (inst_id i) s Hok). by rewrite Ed in Hdel.
Qed.

(** The orphan sweep destroys orphans and nothing else. What it reports as reaped were nodes
    tagged ephemeral that the caller did not ask to keep; those are gone and every other node,
    kept or durable, is untouched. If the provider honours every deletion, no ephemeral node
    outside the keep set is left. *)
Theorem orphan_sweep_exact keep s reaped s' :
  cloud_ok s -> orphan_sweep_keeping keep s = (Ok reaped, s') ->
  (forall x, x ∈ reaped -> x ∉ keep /\ exists tags, node s x = Some tags /\ EPHEMERAL_TAG ∈ tags)
  /\ (forall x, node s' x = if decide (x ∈ reaped) then None else node s x)
  /\ ((forall id s1, cloud_ok s1 -> fst (delete id s1) = Ok tt) ->
       forall x tags, node s x = Some tags -> EPHEMERAL_TAG ∈ tags -> x ∉ keep -> node s' x = None).
Proof.
  intros Hok H. unfold orphan_sweep_keeping in H. apply mbind_Ok in H as (l & s1 & Hl & H).
  destruct (list_spec _ _ _ Hok Hl) as (Hok1 & Hn1 & Hin).
  destruct (sweep_loop_run _ _ _ _ _ _ Hok1 H) as (new & [= ->] & _ & Hnew & Hn & Hall). cbn [app] in *.
  split; [|split].
  - intros x Hx. destruct (Hnew x Hx) as [Hm Hk]. split; [done|]. by apply Hin.
  - intros x. rewrite Hn. case_decide; [done|apply Hn1].
  - intros Hd x tags Ht He Hk. rewrite Hn, decide_True; [done|]. apply Hall; [done| |done]. apply Hin. by exists tags.
Qed.
End sweep.

(** The split-tunnel decision never routes nothing. The result is never empty; it is the full
    tunnel unless split mode has at least one route that looks like a CIDR, and then it is exactly
    the trimmed routes that do, in order. *)
Theorem allowed_ips_never_empty mode routes :
  Session.decide_allowed_ips mode routes <> []
  /\ (Session.decide_allowed_ips mode routes = Wg.full_tunnel
      \/ mode = Some (lit "split")
         /\ Session.decide_allowed_ips mode routes = List.filter Session.looks_like_cidr (map trim routes)
         /\ Forall (fun r => Session.looks_like_cidr r = true) (Session.decide_allowed_ips mode routes)).
Proof.
  unfold Session.decide_allowed_ips. case_bool_decide as Hm; [|split; [done|by left]].
  case_bool_decide as Hc; [split; [done|by left]|]. split; [done|]. right. split; [done|]. split; [done|].
  apply Forall_forall. intros x Hx%list_elem_of_In. by apply filter_In in Hx as [_ Hx].
Qed.

(** * The mock provider, controller and fetcher *)

Module MockCloud.
Record MockInstance : Type := MkMockInstance { inst : Instance_t; boot_polls_left : Z }.
Record t : Type := MkMockCloud {
  instances : gmap text MockInstance;
  next_id : Z;
  boot_polls : Z;
  fail_create : bool;
}.

Definition ORPHAN : text := lit "orphan-666".
Definition orphan : MockInstance :=
  MkMockInstance (MkInstance ORPHAN (lit "us-east") (lit "g6-nanode-1") InstanceState.Running
    (Some (lit "203.0.113.66")) [EPHEMERAL_TAG]) 0.

Definition new (polls : Z) : t := MkMockCloud {[ORPHAN := orphan]} 1000 polls false.
Definition set_fail_create (fail : bool) (self : t) : t :=
  MkMockCloud (instances self) (next_id self) (boot_polls self) fail.
Definition count (self : t) : nat := size (instances self).

Definition with_instances (f : gmap text MockInstance -> gmap text MockInstance) (self : t) : t :=
  MkMockCloud (f (instances self)) (next_id self) (boot_polls self) (fail_create self).

Definition id_of (n : Z) : text := lit "inst-" ++ show_dec n.

Definition create (spec : InstanceSpec) : ST t CoreError Instance_t := fun self =>
  if fail_create self then (Err (Provision "create" "mock create failure"), self)
  else
    let n := next_id self in
    let i := MkInstance (id_of n) (spec_region spec) (spec_type spec) InstanceState.Booting
      (Some (lit "203.0.113." ++ show_dec (n mod 250 + 1))) (effective_tags (spec_tags spec)) in
    (Ok i, MkMockCloud (<[id_of n := MkMockInstance i (boot_polls self)]> (instances self)) (n + 1)
             (boot_polls self) (fail_create self)).

Definition with_state (st : InstanceState.t) (i : Instance_t) : Instance_t :=
  MkInstance (inst_id i) (inst_region i) (inst_type i) st (ipv4 i) (inst_tags i).

(** One poll: the countdown, and Running when it reaches zero. *)
Definition poll (mi : MockInstance) : MockInstance :=
  if 0 <? boot_polls_left mi then
    let left := boot_polls_left mi - 1 in
    MkMockInstance (if left =? 0 then with_state InstanceState.Running (inst mi) else inst mi) left
  else mi.

(** [map.get_mut(id)]: a missing instance is an error. *)
Definition modify {A} (id : text) (f : MockInstance -> MockInstance) (out : MockInstance -> A) : ST t CoreError A := fun self =>
  match instances self !! id with
  | None => (Err (NotFound ("instance " +:+ to_string id)), self)
  | Some mi => (Ok (out (f mi)), with_instances (insert id (f mi)) self)
  end.

Definition get (id : text) : ST t CoreError Instance_t := modify id poll inst.
Definition delete (id : text) : ST t CoreError unit := fun self => (Ok tt, with_instances (base.delete id) self).
Definition list_ephemeral : ST t CoreError (list Instance_t) := fun self =>
  (Ok (map inst (List.filter (fun mi => existsb (fun t => bool_decide (t = EPHEMERAL_TAG)) (inst_tags (inst mi)))
                   (map snd (map_to_list (instances self))))), self).
Definition shutdown (id : text) : ST t CoreError unit :=
  modify id (fun mi => MkMockInstance (with_state InstanceState.Stopped (inst mi)) 0) (fun _ => tt).
Definition boot (id : text) : ST t CoreError unit := fun self =>
  modify id (fun mi => MkMockInstance
    (with_state (if boot_polls self =? 0 then InstanceState.Running else InstanceState.Booting) (inst mi))
    (boot_polls self)) (fun _ => tt) self.
Definition reboot (id : text) : ST t CoreError unit := boot id.

(** Instances are filed under their ids, which were all handed out before. *)
Definition ok (self : t) : Prop :=
  0 <= next_id self /\ forall k mi, instances self !! k = Some mi ->
    inst_id (inst mi) = k /\ (k = ORPHAN \/ exists n, k = id_of n /\ 0 <= n < next_id self).

Lemma id_of_inj n m : 0 <= n -> 0 <= m -> id_of n = id_of m -> n = m.
Proof.
  intros Hn Hm E%app_inv_head. pose proof (show_dec_val n Hn) as H1. rewrite E, (show_dec_val m Hm) in H1. congruence.
Qed.

Lemma id_of_fresh self : ok self -> instances self !! id_of (next_id self) = None.
Proof.
  intros [H0 H]. destruct (instances self !! id_of (next_id self)) as [mi|] eqn:E; [|done].
  destruct (H _ _ E) as [_ [Ho|(n & Hn & Hlt)]]; [by apply (f_equal head) in Ho|]. apply id_of_inj in Hn; lia.
Qed.

Lemma modify_ok {A} id f (out : MockInstance -> A) self r self' :
  (forall mi, inst_id (inst (f mi)) = inst_id (inst mi) /\ inst_tags (inst (f mi)) = inst_tags (inst mi)) ->
  ok self -> modify id f out self = (r, self') ->
  ok self' /\ (forall x, (inst_tags ∘ inst) <$> instances self' !! x = (inst_tags ∘ inst) <$> instances self !! x) /\ r <> Panic.
Proof.
  intros Hf [H0 Hok]. unfold modify. destruct (instances self !! id) as [mi|] eqn:E; intros [= <- <-]; [|by split; [split|split]].
  split; [|split; [|done]].
  - split; [done|]. cbn. intros k mi'. destruct (decide (k = id)) as [->|Hne].
    + rewrite lookup_insert_eq. intros [= <-]. rewrite (proj1 (Hf mi)). by apply Hok.
    + rewrite lookup_insert_ne by done. apply Hok.
  - intros x. cbn. destruct (decide (x = id)) as [->|Hne].
    + rewrite lookup_insert_eq, E. cbn. by rewrite (proj2 (Hf mi)).
    + by rewrite lookup_insert_ne.
Qed.

Lemma poll_keeps mi : inst_id (inst (poll mi)) = inst_id (inst mi) /\ inst_tags (inst (poll mi)) = inst_tags (inst mi).
Proof. unfold poll. repeat case_match; done. Qed.
End MockCloud.

#[export] Instance mock_cloud : CloudProvider MockCloud.t := {|
  create := MockCloud.create; get := MockCloud.get; delete := MockCloud.delete;
  list_ephemeral := MockCloud.list_ephemeral; shutdown := MockCloud.shutdown; boot := MockCloud.boot;
  reboot := MockCloud.reboot;
|}.

#[export] Instance mock_cloud_laws : CloudLaws MockCloud.t.
Proof.
  refine {| cloud_ok := MockCloud.ok; node s x := (inst_tags ∘ MockCloud.inst) <$> MockCloud.instances s !! x |}.
  - intros spec s r s' Hok. cbn. unfold MockCloud.create. destruct (MockCloud.fail_create s); intros [= <- <-]; [done|].
    pose proof (MockCloud.id_of_fresh s Hok) as Hf. destruct Hok as [H0 Hok]. split; [|split; [cbn [inst_id]; by rewrite Hf|]].
    + split; cbn [MockCloud.next_id MockCloud.instances]; [lia|]. intros k mi. destruct (decide (k = MockCloud.id_of (MockCloud.next_id s))) as [->|Hne].
      * rewrite lookup_insert_eq. intros [= <-]. split; [done|]. right. eexists. split; [done|lia].
      * rewrite lookup_insert_ne by done. intros Hk. destruct (Hok _ _ Hk) as [? [?|(n & ? & ?)]]; split; auto.
        right. exists n. split; [done|lia].
    + intros x. cbn [inst_id MockCloud.instances]. case_decide as E; [subst; by rewrite lookup_insert_eq|by rewrite lookup_insert_ne].
  - intros id s r s' Hok H. eapply MockCloud.modify_ok; [apply MockCloud.poll_keeps|done|exact H].
  - intros id s r s' [H0 Hok] [= <- <-]. split.
    + split; [done|]. cbn. intros k mi [_ Hk]%lookup_delete_Some. by apply Hok.
    + intros x. cbn. case_decide as E; [subst; by rewrite lookup_delete_eq|by rewrite lookup_delete_ne].
  - intros s r s' Hok [= <- <-]. split; [done|]. split; [done|]. intros x. rewrite map_map.
    destruct Hok as [_ Hok]. split.
    + intros (mi & -> & Hmi)%list_elem_of_fmap. apply list_elem_of_In, filter_In in Hmi as [Hmi He].
      apply list_elem_of_In, list_elem_of_fmap in Hmi as ([k mi'] & -> & Hk). apply elem_of_map_to_list in Hk. cbn in *.
      rewrite (proj1 (Hok _ _ Hk)), Hk. eexists. split; [done|]. apply existsb_exists in He as (tg & Ht & Hb). bools. subst tg.
      by apply list_elem_of_In.
    + intros (tags & (mi & Hk & ->)%fmap_Some & He). apply list_elem_of_fmap. exists mi.
      rewrite (proj1 (Hok _ _ Hk)). split; [done|]. apply list_elem_of_In, filter_In. split.
      * apply list_elem_of_In, list_elem_of_fmap. exists (x, mi). split; [done|]. by apply elem_of_map_to_list.
      * apply existsb_exists. exists EPHEMERAL_TAG. split; [by apply list_elem_of_In|by apply bool_decide_true].
Defined.

#[export] Instance mock_wg : WgController MockCloud.t := {| up _ s := (Ok tt, s); down s := (Ok tt, s) |}.

Definition MOCK_CALLBACK_PUBKEY : text := lit "MOCKSERVERPUBKEYbase64000000000000000000000=".

(** [MockPubkeyFetcher]: a node that signs its report, or one that never answers. *)
Definition mock_fetch {P : CryptoPrims} (fail : bool) (ip token key_hex : text) : Result text :=
  if fail then Err (Provision "keys" "callback timed out")
  else
    let? mac := Callback.compute_mac MOCK_CALLBACK_PUBKEY ip key_hex in
    Callback.verify_callback (Callback.MkCallbackBody MOCK_CALLBACK_PUBKEY ip mac) key_hex.

Definition mock_fetcher {P : CryptoPrims} (fail : bool) : ServerPubkeyFetcher MockCloud.t :=
  {| fetch ip token key s := (mock_fetch fail ip token key, s) |}.

(** The mock node's report verifies. *)
Lemma mock_fetch_ok {P : CryptoPrims} ip token key :
  mock_fetch false ip token (Callback.hex_encode key) = Ok MOCK_CALLBACK_PUBKEY.
Proof.
  unfold mock_fetch, Callback.compute_mac, Callback.verify_callback. rewrite !Callback.hex_decode_encode. cbn [rbind Callback.mac Callback.pubkey Callback.ip].
  rewrite Callback.hex_decode_encode. cbn [rbind]. by rewrite Nat.eqb_refl, bool_decide_true.
Qed.

Lemma mock_frame {P : CryptoPrims} fail : FrameLaws (F := mock_fetcher fail) MockCloud.t.
Proof.
  split; cbn; intros.
  - simplify_eq. by split_and!.
  - simplify_eq. by split_and!.
  - simplify_eq. split_and!; try done. destruct fail; [done|]. by rewrite mock_fetch_ok.
Qed.

(** The documented meaning of [boot_polls] is the number of polls answered Booting; it is one
    less, and an instance created with zero never runs. *)
Theorem mock_boot_polls_off_by_one spec self i self1 :
  MockCloud.fail_create self = false -> MockCloud.create spec self = (Ok i, self1) ->
  (MockCloud.boot_polls self = 1 -> exists i', fst (MockCloud.get (inst_id i) self1) = Ok i' /\ inst_state i' = InstanceState.Running)
  /\ (MockCloud.boot_polls self = 0 ->
      forall n, exists s, Nat.iter n (fun s => snd (MockCloud.get (inst_id i) s)) self1 = s
        /\ exists i', fst (MockCloud.get (inst_id i) s) = Ok i' /\ inst_state i' = InstanceState.Booting).
Proof.
  intros Hf H. unfold MockCloud.create in H. rewrite Hf in H. injection H as <- <-. cbn [inst_id].
  split; intros Hp.
  - unfold MockCloud.get, MockCloud.modify. cbn [MockCloud.instances]. rewrite lookup_insert_eq. cbn [fst].
    eexists. split; [reflexivity|]. by rewrite Hp.
  - set (id := MockCloud.id_of _). set (mi := MockCloud.MkMockInstance _ _).
    assert (Hpoll : MockCloud.poll mi = mi) by (unfold mi, MockCloud.poll; by rewrite Hp).
    assert (Hinv : forall n s, MockCloud.instances s !! id = Some mi ->
      MockCloud.instances (Nat.iter n (fun s => snd (MockCloud.get id s)) s) !! id = Some mi).
    { induction n as [|n IH]; intros s Hs; [done|]. rewrite Nat.iter_succ. unfold MockCloud.get at 1, MockCloud.modify. rewrite (IH s Hs). cbn.
      by rewrite lookup_insert_eq, Hpoll. }
    intros n. eexists. split; [reflexivity|]. unfold MockCloud.get at 1, MockCloud.modify.
    rewrite Hinv by apply lookup_insert_eq. cbn [fst]. eexists. split; [reflexivity|]. by rewrite Hpoll.
Qed.

(** * Concrete runs *)

Module VpnDemo.
#[export] Instance templates : Templates := {| add_template _ _ := None; template_render _ ctx := inr (concat (map (fun p => Jinja.show_val p.2) ctx)) |}.
#[export] Instance x25519 : Wg.X25519 := {| Wg.x25519_public k := k |}.
#[export] Existing Instance toy_base64.
Definition secrets : Session.Secrets :=
  Session.MkSecrets (arr_fill 32 Byte.x01) (arr_fill 32 Byte.x02) (arr_fill 32 Byte.x03) (arr_fill 32 Byte.x04).
Definition attempt (fail : bool) := Session.connect (F := mock_fetcher fail) 10 secrets (lit "us-east") (lit "g6-nanode-1")
  Wg.full_tunnel (MockCloud.new 2) [].

Lemma new_ok n : MockCloud.ok (MockCloud.new n).
Proof.
  split; [cbn; lia|]. cbn [MockCloud.new MockCloud.instances]. intros k mi [<- <-]%lookup_singleton_Some. split; [done|by left].
Qed.

Lemma succeeded : exists c, attempt false = (Ok c, snd (attempt false)).
Proof.
  assert (H : is_ok (fst (attempt false)) = true) by (vm_compute; reflexivity).
  destruct (attempt false) as [[c|e|] r]; [by exists c|discriminate H..].
Qed.
Lemma failed : attempt true = (Err (Provision "keys" "callback timed out"), snd (attempt true)).
Proof.
  assert (H : fst (attempt true) = Err (Provision "keys" "callback timed out")) by (vm_compute; reflexivity).
  rewrite <- H. apply surjective_pairing.
Qed.
Lemma swept : Sweep.orphan_sweep_keeping ∅ (MockCloud.new 2)
  = (Ok [MockCloud.ORPHAN], snd (Sweep.orphan_sweep_keeping ∅ (MockCloud.new 2))).
Proof. apply run_answer. vm_compute. reflexivity. Qed.
End VpnDemo.
Import VpnDemo.

Lemma connect_leaves_no_orphan_witness :
  (forall x, node (Session.world (snd (attempt true))) x = node (MockCloud.new 2) x)
  \/ exists id sd e, delete id sd = (Err e, Session.world (snd (attempt true))) /\ node (MockCloud.new 2) id = None
       /\ forall x, node (Session.world (snd (attempt true))) x
            = if decide (x = id) then Some [EPHEMERAL_TAG] else node (MockCloud.new 2) x.
Proof.
  exact (connect_leaves_no_orphan (L := mock_cloud_laws) (FL := mock_frame true) (F := mock_fetcher true) 10 secrets
           (lit "us-east") (lit "g6-nanode-1") Wg.full_tunnel (MockCloud.new 2) []
           (Err (Provision "keys" "callback timed out")) (snd (attempt true)) (new_ok 2) failed).
Defined.

Lemma connect_trace_legal_witness : SessionFacts.path (Session.Idle :: Session.trace (snd (attempt true))).
Proof.
  exact (proj1 (connect_trace_legal (F := mock_fetcher true) 10 secrets (lit "us-east") (lit "g6-nanode-1")
           Wg.full_tunnel (MockCloud.new 2) _ (snd (attempt true)) failed)).
Defined.

Lemma connect_pins_provisioned_key_witness :
  exists c ip, attempt false = (Ok c, snd (attempt false))
    /\ Session.client_conf c = Wg.render_client_conf (Session.conf_of secrets ip Wg.full_tunnel).
Proof.
  destruct succeeded as [c E].
  destruct (connect_pins_provisioned_key (F := mock_fetcher false) 10 secrets (lit "us-east") (lit "g6-nanode-1")
              Wg.full_tunnel (MockCloud.new 2) [] c (snd (attempt false)) E) as (ip & s1 & _ & _ & _ & H).
  exists c, ip. split; [exact E|exact H].
Defined.

Lemma orphan_sweep_exact_witness :
  node (snd (Sweep.orphan_sweep_keeping ∅ (MockCloud.new 2))) MockCloud.ORPHAN = None.
Proof.
  exact (proj2 (proj2 (orphan_sweep_exact (L := mock_cloud_laws) ∅ (MockCloud.new 2) [MockCloud.ORPHAN] _ (new_ok 2) swept))
           (fun id s1 _ => eq_refl) MockCloud.ORPHAN [EPHEMERAL_TAG] eq_refl (list_elem_of_here _ _)
           (not_elem_of_empty MockCloud.ORPHAN)).
Defined.
