(* ===== verification/Nm.v ===== *)
(** [crates/core/src/nm/{protocol,framing}.rs]: the native-messaging channel between the browser
    extension and the app: the envelope and its length-prefixed frames. *)
From S2P Require Import Prelude Bytes Text Crypto Toy RecoveryKit Keyring Model.
Local Open Scope Z_scope.

Module NmType.
Inductive t : Type :=
| Hello | StatusSubscribe | StatusEvent | VaultSearch | VaultFieldsGet | VaultTotpGet | VaultGenerate
| VaultSaveCandidate | VaultPasskeyRegister | VaultPasskeyAssert | LockEvent.
End NmType.

Module NmErrorCode.
Inductive t : Type := Locked | BadOrigin | NotFound | BadRequest | Internal.
End NmErrorCode.

Record NmError : Type := MkNmError { code : NmErrorCode.t; message : text }.

(** The payload is any JSON value; [V] is that type. *)
Record NmEnvelope (V : Type) : Type := MkNmEnvelope {
  id : text;
  kind : NmType.t;
  ok : option bool;
  payload : option V;
  err : option NmError;
}.
Arguments MkNmEnvelope {V}. Arguments payload {V}. Arguments err {V}. Arguments ok {V}.

(** A [LOCKED] reply carries no credential data. *)
Definition locked {V} (id : text) : NmEnvelope V :=
  MkNmEnvelope id NmType.LockEvent (Some false) None (Some (MkNmError NmErrorCode.Locked (lit "vault is locked"))).

Module Framing.
Definition MAX_MESSAGE_BYTES : Z := 1024 * 1024.

Inductive FrameError : Type := Incomplete | TooLarge (n : Z) | Malformed.

Section ops.
Context {V : Type} {J : Json (NmEnvelope V)}.

(** [expect]: a value that does not serialize is a panic. *)
Definition encode_frame (env : NmEnvelope V) : result bytes FrameError :=
  match to_vec env with
  | inr body => Ok (le_bytes 4 (Z.of_nat (length body)) ++ body)
  | inl _ => Panic
  end.

Definition decode_frame (buf : bytes) : result (NmEnvelope V * nat) FrameError :=
  guard negb (length buf <? 4)%nat else Err Incomplete in
  let? lb := slice buf 0 4 in
  let len := le_val lb in
  guard negb (MAX_MESSAGE_BYTES <? len) else Err (TooLarge len) in
  guard negb (length buf <? 4 + Z.to_nat len)%nat else Err Incomplete in
  let? body := slice buf 4 (4 + Z.to_nat len) in
  match from_slice body with
  | inr env => Ok (env, (4 + Z.to_nat len)%nat)
  | inl _ => Err Malformed
  end.
End ops.
End Framing.

Section claims.
Import Framing.
Context {V : Type} {J : Json (NmEnvelope V)} {JL : JsonLaws (NmEnvelope V)}.

(** Reading the prefix of a frame. *)
Lemma decode_prefixed (len : Z) (rest : bytes) :
  0 <= len < 2 ^ 32 ->
  decode_frame (le_bytes 4 len ++ rest) =
    if MAX_MESSAGE_BYTES <? len then Err (TooLarge len)
    else if (length rest <? Z.to_nat len)%nat then Err Incomplete
    else match from_slice (take (Z.to_nat len) rest) with
         | inr env => Ok (env, (4 + Z.to_nat len)%nat)
         | inl _ => Err Malformed
         end.
Proof.
  intros Hl. unfold decode_frame. rewrite !length_app, !length_le_bytes.
  rewrite (proj2 (Nat.ltb_ge (4 + length rest) 4)) by lia. cbn [negb].
  rewrite slice_prefix by (by rewrite length_le_bytes). cbn [rbind].
  rewrite le_val_le_bytes_small by (change (256 ^ Z.of_nat 4) with (2 ^ 32); lia).
  destruct (MAX_MESSAGE_BYTES <? len); cbn [negb]; [done|].
  destruct (Nat.ltb_spec (length rest) (Z.to_nat len)) as [Hs|Hs].
  - by rewrite (proj2 (Nat.ltb_lt _ _)) by lia.
  - rewrite (proj2 (Nat.ltb_ge (4 + length rest) (4 + Z.to_nat len))) by lia. cbn [negb].
    rewrite slice_ok by (rewrite length_app, length_le_bytes; lia). cbn [rbind].
    replace (4 + Z.to_nat len - 4)%nat with (Z.to_nat len) by lia.
    rewrite drop_app_ge by (by rewrite length_le_bytes). by rewrite length_le_bytes, drop_0.
Qed.

(** Frames survive a byte stream. A message that fits the 1 MiB cap is read back from its frame,
    whatever follows it in the buffer, and exactly its bytes are consumed; any proper prefix of the
    frame asks for more bytes; a longer message is always refused by the reader. Reading never
    panics, whatever the bytes are. *)
Theorem frame_stream env body frame :
  to_vec env = inr body -> Z.of_nat (length body) < 2 ^ 32 -> encode_frame env = Ok frame ->
  (Z.of_nat (length body) <= MAX_MESSAGE_BYTES ->
     (forall rest, decode_frame (frame ++ rest) = Ok (env, length frame))
     /\ (forall n, (n < length frame)%nat -> decode_frame (take n frame) = Err Incomplete))
  /\ (MAX_MESSAGE_BYTES < Z.of_nat (length body) ->
      forall rest, decode_frame (frame ++ rest) = Err (TooLarge (Z.of_nat (length body))))
  /\ forall buf, decode_frame (V := V) buf <> Panic.
Proof.
  intros Hb Hl He. unfold encode_frame in He. rewrite Hb in He. apply Ok_inj in He as <-.
  split; [|split].
  - intros Hm. rewrite length_app, length_le_bytes. split.
    + intros rest. rewrite <- app_assoc, decode_prefixed by lia. rewrite (proj2 (Z.ltb_ge _ _)) by done.
      rewrite Nat2Z.id, length_app, (proj2 (Nat.ltb_ge _ _)) by lia. rewrite take_app_length. by rewrite (from_slice_to_vec _ _ Hb).
    + intros n Hn. destruct (Nat.le_gt_cases 4 n).
      * rewrite take_app_ge by (by rewrite length_le_bytes). rewrite decode_prefixed by lia.
        rewrite (proj2 (Z.ltb_ge _ _)), Nat2Z.id by done. rewrite length_le_bytes, length_take.
        by rewrite (proj2 (Nat.ltb_lt _ _)) by lia.
      * unfold decode_frame. rewrite length_take, length_app, length_le_bytes.
        by rewrite (proj2 (Nat.ltb_lt _ _)) by lia.
  - intros Hm rest. rewrite <- app_assoc, decode_prefixed by lia. by rewrite (proj2 (Z.ltb_lt _ _)).
  - intros buf. unfold decode_frame. destruct (Nat.ltb_spec (length buf) 4); cbn [negb]; [done|].
    apply rbind_no_panic; [apply slice_no_panic; lia|]. intros lb _. destruct (_ <? _); cbn [negb]; [done|].
    destruct (Nat.ltb_spec (length buf) (4 + Z.to_nat (le_val lb))); cbn [negb]; [done|].
    apply rbind_no_panic; [apply slice_no_panic; lia|]. intros bd _. by destruct (from_slice bd).
Qed.
End claims.

(** * Concrete runs *)

#[local] Instance NmType_eq : EqDecision NmType.t.
Proof. solve_decision. Defined.
#[local] Instance NmErrorCode_eq : EqDecision NmErrorCode.t.
Proof. solve_decision. Defined.
#[local] Instance NmError_eq : EqDecision NmError.
Proof. solve_decision. Defined.
#[local] Instance NmEnvelope_eq : EqDecision (NmEnvelope unit).
Proof. solve_decision. Defined.
#[local] Instance NmType_countable : Countable NmType.t.
Proof.
  refine (inj_countable
    (fun x => match x with NmType.Hello => 0 | NmType.StatusSubscribe => 1 | NmType.StatusEvent => 2 | NmType.VaultSearch => 3
              | NmType.VaultFieldsGet => 4 | NmType.VaultTotpGet => 5 | NmType.VaultGenerate => 6 | NmType.VaultSaveCandidate => 7
              | NmType.VaultPasskeyRegister => 8 | NmType.VaultPasskeyAssert => 9 | NmType.LockEvent => 10 end)
    (fun n => [NmType.Hello; NmType.StatusSubscribe; NmType.StatusEvent; NmType.VaultSearch; NmType.VaultFieldsGet;
               NmType.VaultTotpGet; NmType.VaultGenerate; NmType.VaultSaveCandidate; NmType.VaultPasskeyRegister;
               NmType.VaultPasskeyAssert; NmType.LockEvent] !! Z.to_nat n) _). by intros [].
Defined.
#[local] Instance NmErrorCode_countable : Countable NmErrorCode.t.
Proof.
  refine (inj_countable
    (fun x => match x with NmErrorCode.Locked => 0 | NmErrorCode.BadOrigin => 1 | NmErrorCode.NotFound => 2
              | NmErrorCode.BadRequest => 3 | NmErrorCode.Internal => 4 end)
    (fun n => [NmErrorCode.Locked; NmErrorCode.BadOrigin; NmErrorCode.NotFound; NmErrorCode.BadRequest; NmErrorCode.Internal]
                !! Z.to_nat n) _). by intros [].
Defined.
#[local] Instance NmError_countable : Countable NmError.
Proof. refine (inj_countable' (fun x => (code x, message x)) (fun x => MkNmError x.1 x.2) _). by intros []. Defined.
#[local] Instance NmEnvelope_countable : Countable (NmEnvelope unit).
Proof.
  refine (inj_countable' (fun x => (id _ x, kind _ x, ok x, payload x, err x))
    (fun x => MkNmEnvelope x.1.1.1.1 x.1.1.1.2 x.1.1.2 x.1.2 x.2) _). by intros [].
Defined.
#[local] Instance nm_json : Json (NmEnvelope unit) := toy_json.

Definition demo_frame : bytes := Eval vm_compute in
  match Framing.encode_frame (V := unit) (locked (lit "1")) with Ok f => f | _ => [] end.

Lemma frame_stream_witness : Framing.decode_frame (demo_frame ++ [Byte.x2a]) = Ok (locked (lit "1"), length demo_frame).
Proof.
  apply (frame_stream (JL := toy_json_laws) (locked (lit "1")) (drop 4 demo_frame) demo_frame); [vm_compute; reflexivity..|].
  vm_compute. congruence.
Defined.
