(* ===== verification/Csv.v ===== *)
(** [crates/core/src/import/csv.rs]: the CSV reader and writer behind the importers and the
    exporter. *)
From S2P Require Import Prelude Bytes Text.
Local Open Scope Z_scope.

Module Csv.
Definition QUOTE : Z := 34.
Definition COMMA : Z := chr ",".
Definition LF : Z := 10.
Definition CR : Z := 13.

(** The variables of the loop. *)
Record state : Type := MkState { rows : list (list text); record : list text; field : text; in_quotes : bool }.

Definition push_char (c : Z) (s : state) : state := MkState (rows s) (record s) (field s ++ [c]) (in_quotes s).
Definition set_quotes (b : bool) (s : state) : state := MkState (rows s) (record s) (field s) b.
Definition end_field (s : state) : state := MkState (rows s) (record s ++ [field s]) [] (in_quotes s).
Definition end_record (s : state) : state := MkState (rows s ++ [record s ++ [field s]]) [] [] (in_quotes s).

(** The characters are consumed one at a time, an escaped quote two at a time. *)
Fixpoint parse_loop (input : text) (s : state) : state :=
  match input with
  | [] => s
  | c :: rest =>
      if in_quotes s then
        if c =? QUOTE then
          match rest with
          | d :: rest' => if d =? QUOTE then parse_loop rest' (push_char QUOTE s) else parse_loop rest (set_quotes false s)
          | [] => set_quotes false s
          end
        else parse_loop rest (push_char c s)
      else if c =? QUOTE then parse_loop rest (set_quotes true s)
      else if c =? COMMA then parse_loop rest (end_field s)
      else if c =? CR then parse_loop rest s
      else if c =? LF then parse_loop rest (end_record s)
      else parse_loop rest (push_char c s)
  end.

(** [rows.retain(|r| !(r.len() == 1 && r[0].is_empty()))]. *)
Definition blank (r : list text) : bool := bool_decide (r = [[]]).

Definition parse (input : text) : list (list text) :=
  let s := parse_loop input (MkState [] [] [] false) in
  let rows := if negb (bool_decide (field s = [])) || negb (bool_decide (record s = []))
              then rows s ++ [record s ++ [field s]] else rows s in
  List.filter (fun r => negb (blank r)) rows.

(** Every quote is doubled. *)
Definition escape (f : text) : text := concat (map (fun c => if c =? QUOTE then [QUOTE; QUOTE] else [c]) f).
Definition special (c : Z) : bool := (c =? COMMA) || (c =? QUOTE) || (c =? LF) || (c =? CR).
Definition quote (f : text) : text := if existsb special f then QUOTE :: escape f ++ [QUOTE] else f.
Definition write (rows : list (list text)) : text :=
  concat (map (fun row => join [COMMA] (map quote row) ++ [LF]) rows).

(** ** Reading back a field *)

Lemma parse_plain f rest s :
  in_quotes s = false -> existsb special f = false ->
  parse_loop (f ++ rest) s = parse_loop rest (MkState (rows s) (record s) (field s ++ f) false).
Proof.
  intros Hq. revert s Hq; induction f as [|c f IH]; intros s Hq Hf; cbn [app].
  { rewrite app_nil_r. destruct s. cbn in *. by subst. }
  cbn in Hf. apply orb_false_iff in Hf as [Hc Hf]. unfold special in Hc.
  rewrite !orb_false_iff in Hc. destruct Hc as [[[H1 H2] H3] H4]. cbn [parse_loop]. rewrite Hq, H1, H2, H3, H4.
  rewrite IH by done. cbn. by rewrite <- app_assoc.
Qed.

Lemma parse_escaped f rest s :
  in_quotes s = true ->
  parse_loop (escape f ++ rest) s = parse_loop rest (MkState (rows s) (record s) (field s ++ f) true).
Proof.
  revert s; induction f as [|c f IH]; intros s Hq; cbn [escape map concat app].
  { rewrite app_nil_r. destruct s. cbn in *. by subst. }
  change (concat (map _ f)) with (escape f). destruct (Z.eqb_spec c QUOTE) as [->|Hc]; cbn [app parse_loop].
  - rewrite Hq, Z.eqb_refl, IH by done. cbn. by rewrite <- app_assoc.
  - rewrite Hq, (proj2 (Z.eqb_neq c QUOTE)), IH by done. cbn. by rewrite <- app_assoc.
Qed.

(** A written field, followed by anything but a quote, is read into the current field. *)
Lemma parse_quote f c rest s :
  in_quotes s = false -> c <> QUOTE ->
  parse_loop (quote f ++ c :: rest) s = parse_loop (c :: rest) (MkState (rows s) (record s) (field s ++ f) false).
Proof.
  intros Hq Hc. unfold quote. destruct (existsb special f) eqn:Es; [|by apply parse_plain].
  cbn [app parse_loop]. rewrite Hq, Z.eqb_refl. rewrite <- app_assoc, parse_escaped by done. cbn [app].
  cbn [parse_loop in_quotes]. rewrite Z.eqb_refl, (proj2 (Z.eqb_neq c QUOTE)) by done. done.
Qed.

Lemma parse_row row rest rs rec :
  row <> [] ->
  parse_loop (join [COMMA] (map quote row) ++ LF :: rest) (MkState rs rec [] false)
  = parse_loop rest (MkState (rs ++ [rec ++ row]) [] [] false).
Proof.
  revert rec; induction row as [|f row IH]; intros rec Hne; [done|]. destruct row as [|g row].
  - cbn [map join]. rewrite parse_quote by done. done.
  - cbn [map join] in *. rewrite <- !app_assoc. cbn [app]. rewrite parse_quote by done. cbn [app field].
    cbn [parse_loop in_quotes]. change (COMMA =? QUOTE) with false. change (COMMA =? COMMA) with true.
    unfold end_field. cbn [rows record field in_quotes]. rewrite IH by done. by rewrite <- app_assoc.
Qed.

Lemma parse_write rws rs :
  Forall (fun r => r <> []) rws ->
  parse_loop (write rws) (MkState rs [] [] false) = MkState (rs ++ rws) [] [] false.
Proof.
  intros H. revert rs; induction H as [|r rws Hr _ IH]; intros rs; [cbn; by rewrite app_nil_r|].
  cbn [write map concat]. change (concat (map _ rws)) with (write rws).
  rewrite <- app_assoc. cbn [app]. rewrite parse_row by done. rewrite IH. by rewrite <- app_assoc.
Qed.
End Csv.

(** CSV round-trips. Rows of at least one field, whatever quotes, commas, line breaks or carriage
    returns the fields hold, are read back exactly as they were written, except that a row whose
    only field is empty is dropped. *)
Theorem csv_round_trip rws :
  Forall (fun r => r <> []) rws -> Csv.parse (Csv.write rws) = List.filter (fun r => negb (Csv.blank r)) rws.
Proof. intros H. unfold Csv.parse. by rewrite Csv.parse_write. Qed.

Definition demo_rows : list (list text) :=
  [[lit "a,b"; [34; 34; 10; 13]; []]; [[]]; [lit "x"]].

Lemma csv_round_trip_witness : Csv.parse (Csv.write demo_rows) = [[lit "a,b"; [34; 34; 10; 13]; []]; [lit "x"]].
Proof.
  transitivity (List.filter (fun r => negb (Csv.blank r)) demo_rows); [|vm_compute; reflexivity].
  apply (csv_round_trip demo_rows). repeat constructor; discriminate.
Defined.
