(* ===== verification/AppLock.v ===== *)
(** [apps/desktop/src-tauri/src/{applock,state}.rs], the unlock commands of [commands.rs] and the
    start of the browser host in [nmhost.rs]: where the vault key of the desktop app lives (the OS
    keychain, or a file wrapped under a master password) and what it takes to unlock.

    The device is the session in memory, the file [vault-key.wrap], the two keychain entries and
    [settings.json]. What the operating system answers to the calls of one command (which of them
    fail, the biometric prompt, the clock, the random draws) is its [Os]. *)
From S2P Require Import Prelude Bytes Text Crypto Totp Toy RecoveryKit Keyring Model Envelope Session.
Local Open Scope Z_scope.

(** A JSON value of [settings.json]: a boolean, or anything else by its text. *)
Inductive SettingVal : Type := VBool (b : bool) | VRaw (t : text).

(** [settings.json]: absent or not JSON, JSON but not an object, or an object. *)
Inductive Settings : Type := NoSettings | NotObject | Object (m : gmap string SettingVal).

Record Dev : Type := MkDev {
  session : VaultSession.t;
  wrap_file : option bytes;
  kc_key : option text;
  kc_totp : option text;
  settings : Settings;
}.

Record Os : Type := MkOs {
  windows : bool;
  kc_get_ok : bool; kc_set_ok : bool; kc_del_ok : bool;
  tmp_ok : bool; rename_ok : bool; remove_ok : bool; settings_write_ok : bool;
  hello_available : bool; hello_verify : option bool;
  os_now : Z;
  fresh_key : VaultKey; fresh_salt : arr 16; fresh_nonce : Nonce24; fresh_totp : arr 20;
}.

Inductive LockErr : Type := Say (m : string) | OsErr (what : string) | Core (what : string) (e : CoreError).

Definition K (A : Type) : Type := ST Dev LockErr A.

Definition read {A} (f : Dev -> A) : K A := fun d => (Ok (f d), d).
Definition modify (f : Dev -> Dev) : K unit := fun d => (Ok tt, f d).
Definition set_session (s : VaultSession.t) : K unit :=
  modify (fun d => MkDev s (wrap_file d) (kc_key d) (kc_totp d) (settings d)).
Definition set_wrap (w : option bytes) : K unit :=
  modify (fun d => MkDev (session d) w (kc_key d) (kc_totp d) (settings d)).
Definition set_kc_key (k : option text) : K unit :=
  modify (fun d => MkDev (session d) (wrap_file d) k (kc_totp d) (settings d)).
Definition set_kc_totp (t : option text) : K unit :=
  modify (fun d => MkDev (session d) (wrap_file d) (kc_key d) t (settings d)).
Definition set_settings (s : Settings) : K unit :=
  modify (fun d => MkDev (session d) (wrap_file d) (kc_key d) (kc_totp d) s).

(** The [qrcode] crate. *)
Class QrLib : Type := { qr_render : text -> string + text }.

(** * [state.rs] *)

Module state.
Definition settings_bool (key : string) (d : Dev) : bool :=
  match settings d with
  | Object m => match m !! key with Some (VBool b) => b | _ => false end
  | _ => false
  end.
Definition require_hello (d : Dev) : bool := settings_bool "requireHello" d.
Definition totp_enabled (d : Dev) : bool := settings_bool "applockTotpEnabled" d.
Definition password_protected (d : Dev) : bool := bool_decide (is_Some (wrap_file d)).

(** Write a sibling file, then rename it over the target; on Windows the target is removed
    first, and a failure to remove it is ignored. *)
Definition write_atomic (os : Os) (b : bytes) : K unit :=
  require tmp_ok os else OsErr "write temp" in
  let! _ := if windows os && remove_ok os then set_wrap None else ret tt in
  require rename_ok os else OsErr "replace file" in
  set_wrap (Some b).

Section ops.
Context {P : CryptoPrims} {B : Base64}.

Definition store_key (os : Os) (vk : VaultKey) : K unit :=
  require kc_set_ok os else OsErr "store vault key" in
  set_kc_key (Some (b64_encode vk)).

Definition delete_key (os : Os) : K unit :=
  require kc_del_ok os else OsErr "delete vault key" in
  set_kc_key None.

Definition totp_secret_store (os : Os) (secret : text) : K unit :=
  require kc_set_ok os else OsErr "store totp secret" in
  set_kc_totp (Some secret).

Definition totp_secret_load (os : Os) : K (option text) :=
  require kc_get_ok os else OsErr "keychain" in
  read kc_totp.

Definition totp_secret_delete (os : Os) : K unit :=
  require kc_del_ok os else OsErr "delete totp secret" in
  set_kc_totp None.

(** The key of a keychain entry. *)
Definition stored_key (b64 : text) : result VaultKey LockErr :=
  let? b := ok_or (b64_decode (trim b64)) (OsErr "decode stored key") in
  ok_or (arr_of b) (Say "stored vault key is not 32 bytes").

Definition load_key_strict (os : Os) : K VaultKey :=
  require kc_get_ok os else OsErr "keychain" in
  let! e := read kc_key in
  match e with
  | Some b64 => lift (stored_key b64)
  | None => err (OsErr "keychain")
  end.

Definition load_or_create_key (os : Os) : K VaultKey :=
  require kc_get_ok os else OsErr "keychain" in
  let! e := read kc_key in
  match e with
  | Some b64 => lift (stored_key b64)
  | None =>
      let! _ := store_key os (fresh_key os) in
      ret (fresh_key os)
  end.

(** A launch: locked when some protection is on, else unlocked with the keychain's key. *)
Definition new_persistent (os : Os) : K unit :=
  let! protected := read (fun d => password_protected d || require_hello d || totp_enabled d) in
  if protected : bool then set_session VaultSession.locked
  else let! vk := load_or_create_key os in set_session (VaultSession.unlocked vk).
End ops.
End state.

(** * [applock.rs] *)

Module applock.
Section ops.
Context {P : CryptoPrims} {B : Base64} {H : TotpHmac} {Q : QueryPairs} {QR : QrLib}.

(** [serde_json::json!({})] replaces what is not an object. *)
Definition set_settings_flag (os : Os) (key : string) (val : bool) : K unit :=
  let! cur := read settings in
  let m := match cur with Object m => m | _ => ∅ end in
  require settings_write_ok os else OsErr "write settings" in
  set_settings (Object (<[key := VBool val]> m)).

Definition check_totp (os : Os) (code : option text) : K unit :=
  let! on := read state.totp_enabled in
  if negb on then ret tt
  else
    let! s := state.totp_secret_load os in
    let! secret := lift (ok_or s (Say "authenticator is enabled but no secret is stored")) in
    let code := match code with Some c => if bool_decide (trim c = []) then None else Some (trim c) | None => None end in
    let! code := lift (ok_or code (Say "enter the 6-digit code from your authenticator app")) in
    let! t := lift (map_err (Core "totp") (TotpSecret.parse secret)) in
    let! ok := lift (map_err (Core "totp") (TotpSecret.verify_at t code (os_now os))) in
    require ok else Say "that authenticator code didn't match" in
    ret tt.

Definition open_with_password (blob : WrappedBlob_t) (password : text) : result VaultKey LockErr :=
  let? salt := map_err (Core "wrap") (WrappedBlob.params blob) in
  let? salt16 := ok_or (arr_of salt) (Say "corrupt password wrapper (bad salt)") in
  let kek := crypto.argon2id_kek (utf8 password) salt16 Argon2Profile.Production in
  map_err (fun _ => Say "wrong password") (WrappedBlob.open blob kek).

Definition read_wrap : K WrappedBlob_t :=
  let! w := read wrap_file in
  let! b := lift (ok_or w (Say "no master password is set")) in
  ret (MkBlob WrapperType.Password b).

Definition seal_new (os : Os) (password : text) (vk : VaultKey) : K unit :=
  let salt := fresh_salt os in
  let kek := crypto.argon2id_kek (utf8 password) salt Argon2Profile.Production in
  let blob := WrappedBlob.seal (fresh_nonce os) WrapperType.Password kek salt vk in
  state.write_atomic os (blob_bytes blob).

Definition auth_set_password (os : Os) (password : text) : K unit :=
  require (4 <=? length (utf8 (trim password)))%nat else Say "choose a password of at least 4 characters" in
  let! p := read state.password_protected in
  require negb p else Say "a master password is already set — use Change password" in
  let! vk := state.load_or_create_key os in
  let! _ := seal_new os password vk in
  let! _ := state.delete_key os in
  set_session (VaultSession.unlocked vk).

Definition auth_unlock_password (os : Os) (password : text) (code : option text) : K unit :=
  let! blob := read_wrap in
  let! vk := lift (open_with_password blob password) in
  let! _ := check_totp os code in
  set_session (VaultSession.unlocked vk).

Definition auth_change_password (os : Os) (old_password new_password : text) (code : option text) : K unit :=
  require (4 <=? length (utf8 (trim new_password)))%nat
    else Say "choose a new password of at least 4 characters" in
  let! blob := read_wrap in
  let! vk := lift (open_with_password blob old_password) in
  let! _ := check_totp os code in
  let! _ := seal_new os new_password vk in
  set_session (VaultSession.unlocked vk).

Definition auth_remove_password (os : Os) (password : text) (code : option text) : K unit :=
  let! blob := read_wrap in
  let! vk := lift (open_with_password blob password) in
  let! _ := check_totp os code in
  let! _ := state.store_key os vk in
  require remove_ok os else OsErr "remove wrapper" in
  let! _ := set_wrap None in
  set_session (VaultSession.unlocked vk).

Record TotpEnroll : Type := MkTotpEnroll { otpauth_uri : text; secret : text; qr_svg : text }.

Definition applock_totp_enroll (os : Os) : K TotpEnroll :=
  let! secret := lift (map_err (Core "totp") (TotpSecret.generate_base32_secret (fresh_totp os))) in
  let! _ := state.totp_secret_store os secret in
  let uri := TotpSecret.otpauth_uri secret (lit "vault") (lit "NorthKey") in
  let! svg := lift (match qr_render uri with inl e => Err (OsErr "qr") | inr s => Ok s end) in
  ret (MkTotpEnroll uri secret svg).

Definition applock_totp_confirm (os : Os) (code : text) : K unit :=
  let! s := state.totp_secret_load os in
  let! secret := lift (ok_or s (Say "start enrollment first")) in
  let! t := lift (map_err (Core "totp") (TotpSecret.parse secret)) in
  let! ok := lift (map_err (Core "totp") (TotpSecret.verify_at t (trim code) (os_now os))) in
  require ok else Say "that code didn't match — check your authenticator app" in
  set_settings_flag os "applockTotpEnabled" true.

Definition applock_totp_disable (os : Os) (code : text) : K unit :=
  let! s := state.totp_secret_load os in
  let! _ := match s with
            | Some secret =>
                let! t := lift (map_err (Core "totp") (TotpSecret.parse secret)) in
                let! ok := lift (map_err (Core "totp") (TotpSecret.verify_at t (trim code) (os_now os))) in
                require ok else Say "that code didn't match" in
                ret tt
            | None => ret tt
            end in
  let! _ := set_settings_flag os "applockTotpEnabled" false in
  state.totp_secret_delete os.
End ops.
End applock.

(** * The unlock commands of [commands.rs], and the browser host of [nmhost.rs] *)

Module commands.
Definition default_settings : gmap string SettingVal := list_to_map [
  ("theme", VRaw (lit "dark")); ("reducedMotion", VBool false); ("autoLockMinutes", VRaw (lit "10"));
  ("clipboardClearSeconds", VRaw (lit "30")); ("killSwitchDefault", VBool true);
  ("defaultRegion", VRaw (lit "us-east")); ("ssidAllowlist", VRaw (lit "[home,office]"));
  ("tunnelMode", VRaw (lit "full")); ("splitRoutes", VRaw (lit "[]")); ("telemetry", VBool false)].

(** Update the object of [settings.json]; JSON that is not an object is written back as it is. *)
Definition edit_settings (os : Os) (f : gmap string SettingVal -> gmap string SettingVal) : K unit :=
  let! cur := read settings in
  let new := match cur with NoSettings => Object (f default_settings) | NotObject => NotObject | Object m => Object (f m) end in
  require settings_write_ok os else OsErr "io" in
  set_settings new.

Definition settings_set (os : Os) (patch : gmap string SettingVal) : K unit :=
  edit_settings os (fun m => <["telemetry" := VBool false]> (patch ∪ m)).

Definition hello_set (os : Os) (enabled : bool) : K unit :=
  let! _ := if enabled then
              require hello_available os else Say "Windows Hello isn't set up on this device" in
              let! ok := lift (ok_or (hello_verify os) (OsErr "hello")) in
              require ok else Say "Windows Hello verification cancelled" in
              ret tt
            else ret tt in
  edit_settings os (<["requireHello" := VBool enabled]>).

Definition lock : K unit := let! s := read session in set_session (VaultSession.lock s).

Section ops.
Context {B : Base64}.

Definition reunlock (os : Os) : K unit :=
  let! p := read state.password_protected in
  require negb p else Say "a master password is set — unlock with your password" in
  let! vk := state.load_key_strict os in
  set_session (VaultSession.unlocked vk).

Definition unlock_platform (os : Os) : K unit :=
  let! h := read state.require_hello in
  let! _ := if h : bool then
              let! ok := lift (ok_or (hello_verify os) (OsErr "hello")) in
              require ok else Say "Windows Hello verification did not pass" in
              ret tt
            else ret tt in
  reunlock os.

(** The typed recovery key and the phone's request are not looked at. *)
Definition unlock_recovery (os : Os) (_key : text) : K unit := reunlock os.
Definition unlock_phone_await (os : Os) (_request_id : text) : K unit := reunlock os.
End ops.
End commands.

Module nmhost.
(** The session of the browser host, a process of its own on the same vault and keychain. *)
Definition open_vault {B : Base64} (os : Os) : K (option VaultSession.t) := fun d =>
  match state.load_or_create_key os d with
  | (Ok vk, d) => (Ok (Some (VaultSession.unlocked vk)), d)
  | (Err _, d) => (Ok None, d)
  | (Panic, d) => (Panic, d)
  end.
End nmhost.

(** * Runs of a device *)

Inductive Cmd : Type :=
| Launch | Lock | UnlockPlatform | UnlockRecovery (key : text) | UnlockPhone (request_id : text)
| SetPassword (pw : text) | UnlockPassword (pw : text) (code : option text)
| ChangePassword (old_pw new_pw : text) (code : option text) | RemovePassword (pw : text) (code : option text)
| TotpEnroll | TotpConfirm (code : text) | TotpDisable (code : text)
| HelloSet (on : bool) | SettingsSet (patch : gmap string SettingVal) | BrowserHost.

Section runs.
Context {P : CryptoPrims} {L : CryptoLaws P} {B : Base64} {BL : Base64Laws} {H : TotpHmac} {Q : QueryPairs} {QR : QrLib}.

Definition exec (c : Cmd) (os : Os) : K unit :=
  match c with
  | Launch => state.new_persistent os
  | Lock => commands.lock
  | UnlockPlatform => commands.unlock_platform os
  | UnlockRecovery k => commands.unlock_recovery os k
  | UnlockPhone r => commands.unlock_phone_await os r
  | SetPassword pw => applock.auth_set_password os pw
  | UnlockPassword pw code => applock.auth_unlock_password os pw code
  | ChangePassword o n code => applock.auth_change_password os o n code
  | RemovePassword pw code => applock.auth_remove_password os pw code
  | TotpEnroll => let! _ := applock.applock_totp_enroll os in ret tt
  | TotpConfirm code => applock.applock_totp_confirm os code
  | TotpDisable code => applock.applock_totp_disable os code
  | HelloSet on => commands.hello_set os on
  | SettingsSet p => commands.settings_set os p
  | BrowserHost => let! _ := nmhost.open_vault os in ret tt
  end.

(** The password a command presents to the wrapper, and its authenticator code. *)
Definition presented (c : Cmd) : option (text * option text) :=
  match c with
  | UnlockPassword pw code | RemovePassword pw code => Some (pw, code)
  | ChangePassword old _ code => Some (old, code)
  | _ => None
  end.

(** The vault key is where the next launch or the master password finds it, and the session has
    no other key. *)
Definition holds (vk : VaultKey) (d : Dev) : Prop :=
  (session d = VaultSession.locked \/ session d = VaultSession.unlocked vk)
  /\ match wrap_file d with
     | Some b => exists pw, applock.open_with_password (MkBlob WrapperType.Password b) pw = Ok vk
     | None => kc_key d = Some (b64_encode vk)
     end.

(** The file with the wrapper is replaced as documented. On Windows it is removed before the new one is
    renamed into its place, and the rename does not fail just then; elsewhere nothing is removed. *)
Definition replaces_whole (os : Os) : bool := negb (windows os && remove_ok os) || rename_ok os.

(** One command, whatever the operating system answers to it, a half replaced file on Windows apart; it
    may fail half way. A launch that fails leaves no app on this vault, so it is no step. The
    wrapper is not opened to another key than [vk] by a wrong password, which would be a forgery
    of the cipher. *)
Definition step (vk : VaultKey) (d d' : Dev) : Prop :=
  exists c os, replaces_whole os = true /\ snd (exec c os d) = d'
    /\ (c = Launch -> is_ok (fst (exec c os d)) = true)
    /\ forall b pw code vk', wrap_file d = Some b -> presented c = Some (pw, code) ->
         applock.open_with_password (MkBlob WrapperType.Password b) pw = Ok vk' -> vk' = vk.

(** ** The key is never lost *)

Lemma open_with_password_seal (nonce : Nonce24) pw (salt : arr 16) (vk : VaultKey) :
  applock.open_with_password (WrappedBlob.seal nonce WrapperType.Password
    (crypto.argon2id_kek (utf8 pw) salt Argon2Profile.Production) salt vk) pw = Ok vk.
Proof.
  unfold applock.open_with_password. rewrite WrappedBlob.params_seal by (rewrite length_arr; lia).
  cbn. rewrite arr_of_bytes. cbn. by rewrite WrappedBlob.open_seal by (rewrite length_arr; lia).
Qed.

Lemma stored_key_encode (vk : VaultKey) : state.stored_key (b64_encode vk) = Ok vk.
Proof.
  unfold state.stored_key. rewrite trim_printable by apply b64_printable. rewrite b64_decode_encode. cbn.
  by rewrite arr_of_bytes.
Qed.

(** Computations that touch neither the session nor the places of the key. *)
Definition aside {A} (m : K A) : Prop := forall d,
  session (snd (m d)) = session d /\ wrap_file (snd (m d)) = wrap_file d /\ kc_key (snd (m d)) = kc_key d.

Lemma aside_bind {A C} (m : K A) (k : A -> K C) : aside m -> (forall a, aside (k a)) -> aside (mbind m k).
Proof.
  intros Hm Hk d. unfold mbind. specialize (Hm d). destruct (m d) as [[a|e|] d1]; cbn in *; [|done..].
  destruct (Hk a d1) as (-> & -> & ->). done.
Qed.
Lemma aside_if {A} (b : bool) (m k : K A) : aside m -> aside k -> aside (if b then m else k).
Proof. by destruct b. Qed.
Lemma aside_lift {A} (r : result A LockErr) : aside (lift r).
Proof. done. Qed.
Lemma aside_read {A} (f : Dev -> A) : aside (read f).
Proof. done. Qed.

Ltac aside_tac :=
  repeat first
    [ apply aside_bind; [|intros ?] | apply aside_if | apply aside_lift | apply aside_read | done
    | match goal with |- aside (match ?x with _ => _ end) => destruct x end ].

Lemma check_totp_aside os code : aside (applock.check_totp os code).
Proof. unfold applock.check_totp, state.totp_secret_load. aside_tac. Qed.

Lemma aside_holds {A} vk (m : K A) d : aside m -> holds vk d -> holds vk (snd (m d)).
Proof. intros Hm. unfold holds. by destruct (Hm d) as (-> & -> & ->). Qed.

(** The commands on the second factor and the settings. *)
Definition minor (c : Cmd) : bool :=
  match c with TotpEnroll | TotpConfirm _ | TotpDisable _ | HelloSet _ | SettingsSet _ => true | _ => false end.

Lemma minor_aside c os : minor c = true -> aside (exec c os).
Proof.
  destruct c; try discriminate; intros _; cbn;
    unfold applock.applock_totp_enroll, applock.applock_totp_confirm, applock.applock_totp_disable,
      applock.set_settings_flag, commands.hello_set, commands.settings_set, commands.edit_settings,
      state.totp_secret_load, state.totp_secret_store, state.totp_secret_delete; aside_tac.
Qed.

(** The wrapper read by a password command opens to the key. *)
Lemma present_run vk d pw code os (k : VaultKey -> K unit) :
  holds vk d ->
  (forall b vk', wrap_file d = Some b -> applock.open_with_password (MkBlob WrapperType.Password b) pw = Ok vk' -> vk' = vk) ->
  (forall d', holds vk d' -> is_Some (wrap_file d') -> holds vk (snd (k vk d'))) ->
  holds vk (snd ((let! blob := applock.read_wrap in
                  let! vk := lift (applock.open_with_password blob pw) in
                  let! _ := applock.check_totp os code in k vk) d)).
Proof.
  intros Hd Hg Hk. unfold applock.read_wrap, mbind at 1 2 3, read. cbn.
  destruct (wrap_file d) as [b|] eqn:Ew; [|done]. cbn. unfold mbind at 1, lift.
  destruct (applock.open_with_password _ pw) as [vk'|e|] eqn:Eo; [|done..].
  apply (Hg b) in Eo as ->; [|done]. unfold mbind.
  pose proof (aside_holds vk _ d (check_totp_aside os code) Hd) as Hc.
  destruct (check_totp_aside os code d) as (_ & Hw & _).
  destruct (applock.check_totp os code d) as [[[]|e|] d1]; cbn in *; [|done..]. apply Hk; [done|]. rewrite Hw, Ew. by eexists.
Qed.

Lemma seal_new_holds vk os pw d :
  replaces_whole os = true -> holds vk d ->
  holds vk (snd (applock.seal_new os pw vk d))
  /\ (fst (applock.seal_new os pw vk d) = Ok tt -> exists b, wrap_file (snd (applock.seal_new os pw vk d)) = Some b
       /\ applock.open_with_password (MkBlob WrapperType.Password b) pw = Ok vk).
Proof.
  unfold replaces_whole. intros Hwin Hd. unfold applock.seal_new, state.write_atomic, mbind.
  pose proof (open_with_password_seal (fresh_nonce os) pw (fresh_salt os) vk).
  destruct (tmp_ok os); [|done]. cbn. destruct (windows os && remove_ok os), (rename_ok os); try done; cbn;
    unfold holds in *; cbn; (split; [split; [apply Hd|]|]; eauto).
Qed.

(** Reading the key, where the keychain has it and where it does not. *)
Lemma load_or_create_run vk os d :
  holds vk d ->
  holds vk (snd (state.load_or_create_key os d))
  /\ (wrap_file d = None -> snd (state.load_or_create_key os d) = d
      /\ forall k, fst (state.load_or_create_key os d) = Ok k -> k = vk).
Proof.
  intros Hd. unfold state.load_or_create_key, mbind, read. destruct (kc_get_ok os); [|done]. cbn.
  destruct (wrap_file d) as [b|] eqn:Ew.
  - split; [|done]. destruct (kc_key d) eqn:Ek; [done|].
    unfold state.store_key. destruct (kc_set_ok os); [|done]. unfold holds in *. cbn. rewrite Ew in *. done.
  - pose proof (proj2 Hd) as Hk. rewrite Ew in Hk. rewrite Hk. cbn. rewrite stored_key_encode. naive_solver.
Qed.

Lemma reunlock_holds vk os d : holds vk d -> holds vk (snd (commands.reunlock os d)).
Proof.
  intros Hd. unfold commands.reunlock, mbind at 1, read, state.password_protected. cbn.
  case_bool_decide as Hw; [done|]. apply eq_None_not_Some in Hw. cbn. pose proof (proj2 Hd) as Hk. rewrite Hw in Hk.
  unfold mbind, state.load_key_strict, mbind, read. destruct (kc_get_ok os); [|done]. cbn. rewrite Hk. cbn.
  rewrite stored_key_encode. cbn. unfold holds. cbn. rewrite Hw. auto.
Qed.

Lemma set_password_holds vk os pw d :
  replaces_whole os = true -> holds vk d -> holds vk (snd (applock.auth_set_password os pw d)).
Proof.
  intros Hwin Hd. unfold applock.auth_set_password. destruct (4 <=? _)%nat; [|done].
  unfold mbind at 1, read, state.password_protected. case_bool_decide as Hw; [done|]. apply eq_None_not_Some in Hw. cbn.
  destruct (load_or_create_run vk os d Hd) as [_ Hl]. destruct (Hl Hw) as [Hst Hv]. unfold mbind at 1.
  destruct (state.load_or_create_key os d) as [[k|e|] d1]; cbn in Hst; subst d1; [|done..].
  rewrite (Hv k eq_refl). destruct (seal_new_holds vk os pw d Hwin Hd) as [Hs Hb]. unfold mbind at 1.
  destruct (applock.seal_new os pw vk d) as [[[]|e|] d1]; cbn in *; [|done..]. destruct (Hb eq_refl) as (b & Hb1 & Hb2).
  unfold mbind, state.delete_key. destruct (kc_del_ok os); [|done]. cbn. unfold holds. cbn. rewrite Hb1. eauto.
Qed.

Lemma step_holds vk d d' : step vk d d' -> holds vk d -> holds vk d'.
Proof.
  intros (c & os & Hwin & <- & _ & Hg) Hd.
  destruct (minor c) eqn:Em; [by apply aside_holds; [apply minor_aside|]|].
  destruct c; try discriminate Em; cbn [exec presented] in *.
  - unfold state.new_persistent, mbind at 1, read. destruct (_ || _ || _) eqn:Ep.
    { unfold holds in *. cbn. naive_solver. }
    apply orb_false_iff in Ep as [Ep _]. apply orb_false_iff in Ep as [Ep%bool_decide_eq_false _].
    destruct (load_or_create_run vk os d Hd) as [_ Hl]. destruct Hl as [Hst Hv]; [by apply eq_None_not_Some|].
    unfold mbind. destruct (state.load_or_create_key os d) as [[k|e|] d1]; cbn in *; subst d1; [|done..].
    rewrite (Hv k eq_refl). unfold holds in *. cbn. naive_solver.
  - unfold holds in *. cbn. naive_solver.
  - unfold commands.unlock_platform, mbind at 1, read. destruct (state.require_hello d); [|by apply reunlock_holds].
    unfold mbind at 1 2, lift. destruct (hello_verify os) as [[|]|]; cbn; [by apply reunlock_holds|done..].
  - by apply reunlock_holds.
  - by apply reunlock_holds.
  - by apply set_password_holds.
  - apply present_run; [done|by eauto|]. intros d1 Hd1 _. unfold holds in *. cbn. naive_solver.
  - unfold applock.auth_change_password. destruct (4 <=? _)%nat; [|done].
    apply (present_run vk d old_pw code os (fun vk => let! _ := applock.seal_new os new_pw vk in set_session _)); [done|by eauto|].
    intros d1 Hd1 _. destruct (seal_new_holds vk os new_pw d1 Hwin Hd1) as [Hs _]. unfold mbind.
    destruct (applock.seal_new os new_pw vk d1) as [[[]|e|] d2]; cbn in *; [|done..]. unfold holds in *. cbn. naive_solver.
  - apply (present_run vk d pw code os (fun vk => let! _ := state.store_key os vk in _)); [done|by eauto|].
    intros d1 Hd1 [b Hb]. unfold mbind, state.store_key. destruct (kc_set_ok os); [|done]. cbn.
    destruct (remove_ok os); unfold holds in *; cbn; rewrite ?Hb in *; auto.
  - unfold mbind, nmhost.open_vault. destruct (load_or_create_run vk os d Hd) as [Hl _].
    by destruct (state.load_or_create_key os d) as [[k|e|] d1].
Qed.

(** The operating system at its best. *)
Definition calm : Os :=
  MkOs false true true true true true true true true (Some true) 0
    (arr_fill 32 x00) (arr_fill 16 x00) (arr_fill 24 x00) (arr_fill 20 x00).

(** C33: the vault key is never lost, but for one failure on Windows. From a device that holds its key,
    whatever app-lock commands and launches that come up follow one another, the browser host included,
    and whichever keychain and file operations fail in the middle of them, as long as no rename fails
    right after Windows removed the file it was to replace ([windows_change_loses_key]) and no wrong
    password opens the wrapper to another key: the key stays in the keychain or in the wrapper under
    some password, and the session never takes another key for it; and when no authenticator is
    required some command unlocks the vault with it. *)
Theorem vault_key_never_lost vk d d' :
  holds vk d -> rtc (step vk) d d' ->
  holds vk d'
  /\ (state.totp_enabled d' = false -> exists c, session (snd (exec c calm d')) = VaultSession.unlocked vk).
Proof.
  intros Hd Hr. assert (Hd' : holds vk d') by (induction Hr; eauto using step_holds). split; [done|].
  intros Ht. destruct Hd' as [_ Hw]. destruct (wrap_file d') as [b|] eqn:Ew.
  - destruct Hw as [pw Ho]. exists (UnlockPassword pw None).
    cbn. unfold applock.auth_unlock_password, applock.read_wrap, mbind, read. rewrite Ew. cbn. rewrite Ho. cbn.
    unfold applock.check_totp, mbind, read. by rewrite Ht.
  - exists UnlockPlatform. cbn. unfold commands.unlock_platform, mbind, read, commands.reunlock, state.load_key_strict, mbind, read.
    destruct (state.require_hello d'); cbn; unfold state.password_protected; rewrite Ew; cbn; rewrite Hw; cbn;
      by rewrite stored_key_encode.
Qed.

(** ** The master password is a real factor *)

Lemma check_totp_Ok os code d d1 :
  applock.check_totp os code d = (Ok tt, d1) ->
  state.totp_enabled d = true -> exists secret t c, kc_totp d = Some secret /\ TotpSecret.parse secret = Ok t
    /\ code = Some c /\ TotpSecret.verify_at t (trim c) (os_now os) = Ok true.
Proof.
  intros Hc Ht. unfold applock.check_totp in Hc. apply mbind_Ok in Hc as (on & ? & [= <- <-] & Hc). rewrite Ht in Hc.
  cbn [negb] in Hc. unfold state.totp_secret_load in Hc. destruct (kc_get_ok os); [|done].
  apply mbind_Ok in Hc as (o & ? & [= <- <-] & Hc). apply mbind_Ok in Hc as (secret & ? & [= Hs <-] & Hc).
  apply mbind_Ok in Hc as (c & ? & [= Hcode <-] & Hc). apply mbind_Ok in Hc as (t & ? & [= Hp <-] & Hc).
  apply mbind_Ok in Hc as ([] & ? & [= Hv <-] & Hc); [|done]. inv_result. exists secret, t.
  destruct code as [c'|]; [|done]. case_bool_decide; simplify_eq. by exists c'.
Qed.

(** What may follow the opening of the wrapper. *)
Definition installs (k : VaultKey -> K unit) : Prop := forall vk d r d', k vk d = (r, d') ->
  session d = VaultSession.locked -> session d' = VaultSession.locked \/ session d' = VaultSession.unlocked vk.

(** A command that opens the wrapper and leaves the session unlocked was given a password that
    opens it, and the code if one is required. *)
Lemma present_gate os pw code d b (k : VaultKey -> K unit) r d' :
  wrap_file d = Some b -> session d = VaultSession.locked ->
  (let! blob := applock.read_wrap in
   let! vk := lift (applock.open_with_password blob pw) in
   let! _ := applock.check_totp os code in k vk) d = (r, d') ->
  installs k -> session d' <> VaultSession.locked ->
  exists vk, applock.open_with_password (MkBlob WrapperType.Password b) pw = Ok vk
    /\ session d' = VaultSession.unlocked vk
    /\ (state.totp_enabled d = true -> exists secret t c, kc_totp d = Some secret /\ TotpSecret.parse secret = Ok t
          /\ code = Some c /\ TotpSecret.verify_at t (trim c) (os_now os) = Ok true).
Proof.
  intros Hw Hl Hrun Hk Hn. unfold applock.read_wrap, mbind at 1 2 3, read in Hrun. rewrite Hw in Hrun. cbn in Hrun.
  unfold mbind at 1, lift in Hrun.
  destruct (applock.open_with_password _ pw) as [vk|e|] eqn:Eo; [|by simplify_eq..]. exists vk. split; [done|].
  unfold mbind in Hrun. destruct (check_totp_aside os code d) as (Hs & _).
  destruct (applock.check_totp os code d) as [[[]|e|] d1] eqn:Ec; cbn in Hs; [|by simplify_eq; rewrite Hs in Hn..].
  rewrite Hl in Hs. destruct (Hk vk d1 r d' Hrun Hs); [done|]. split; [done|]. by eapply check_totp_Ok.
Qed.

Lemma wrong_password_forges (nonce : Nonce24) pw (salt : arr 16) (vk : VaultKey) pw' vk' :
  let kek p := crypto.argon2id_kek (utf8 p) salt Argon2Profile.Production in
  let hdr := WrappedBlob.header WrapperType.Password salt in
  applock.open_with_password (WrappedBlob.seal nonce WrapperType.Password (kek pw) salt vk) pw' = Ok vk' ->
  (kek pw' = kek pw /\ vk' = vk) \/ crypto.forgery (kek pw) nonce hdr (kek pw') nonce hdr (arr_bytes vk).
Proof.
  intros kek hdr Ho. unfold applock.open_with_password in Ho.
  rewrite WrappedBlob.params_seal in Ho by (rewrite length_arr; lia). cbn in Ho. rewrite arr_of_bytes in Ho. cbn in Ho.
  fold (kek pw') in Ho. destruct (decide (kek pw' = kek pw)) as [He|He].
  - left. split; [done|]. rewrite He, WrappedBlob.open_seal in Ho by (rewrite length_arr; lia). by injection Ho.
  - right. inv_result. eapply WrappedBlob.open_rebound; [rewrite length_arr; lia..| |exact Em]. intros [=]. done.
Qed.

Lemma seal_new_session os pw vk d : session (snd (applock.seal_new os pw vk d)) = session d.
Proof.
  unfold applock.seal_new, state.write_atomic, mbind. destruct (tmp_ok os); [|done]. cbn.
  destruct (windows os && remove_ok os); cbn; by destruct (rename_ok os).
Qed.

Lemma load_or_create_session os d : session (snd (state.load_or_create_key os d)) = session d.
Proof.
  unfold state.load_or_create_key, state.store_key, mbind, read. destruct (kc_get_ok os); [|done]. cbn.
  destruct (kc_key d); [done|]. by destruct (kc_set_ok os).
Qed.

Lemma only_password_commands c os d r d' b :
  wrap_file d = Some b -> session d = VaultSession.locked -> exec c os d = (r, d') -> session d' <> VaultSession.locked ->
  exists pw code k, presented c = Some (pw, code) /\ installs k
    /\ (let! blob := applock.read_wrap in
        let! vk := lift (applock.open_with_password blob pw) in
        let! _ := applock.check_totp os code in k vk) d = (r, d').
Proof.
  intros Hw Hl Hrun Hn. destruct (minor c) eqn:Em.
  { destruct (minor_aside c os Em d) as (Hs & _). rewrite Hrun in Hs. cbn in Hs. congruence. }
  assert (Hp : state.password_protected d = true) by (unfold state.password_protected; rewrite Hw; by apply bool_decide_eq_true).
  assert (Hre : snd (commands.reunlock os d) = d) by (unfold commands.reunlock, mbind at 1, read; by rewrite Hp).
  destruct c; try discriminate Em; cbn [exec presented] in *.
  - unfold state.new_persistent, mbind at 1, read in Hrun. rewrite Hp in Hrun. cbn in Hrun. injection Hrun as <- <-. by destruct Hn.
  - cbn in Hrun. injection Hrun as <- <-. by destruct Hn.
  - destruct Hn. rewrite <- Hl. unfold commands.unlock_platform, mbind at 1, read in Hrun.
    destruct (state.require_hello d); [destruct (hello_verify os) as [[|]|]|];
      first [ change (commands.reunlock os d = (r, d')) in Hrun; rewrite Hrun in Hre; cbn in Hre; congruence
            | by injection Hrun as <- <- ].
  - destruct Hn. rewrite <- Hl. unfold commands.unlock_recovery in Hrun. rewrite Hrun in Hre. cbn in Hre. congruence.
  - destruct Hn. rewrite <- Hl. unfold commands.unlock_phone_await in Hrun. rewrite Hrun in Hre. cbn in Hre. congruence.
  - destruct Hn. rewrite <- Hl. unfold applock.auth_set_password in Hrun.
    destruct (4 <=? _)%nat; [unfold mbind at 1, read in Hrun; rewrite Hp in Hrun|]; by injection Hrun as <- <-.
  - exists pw, code. eexists. split; [done|]. split; [|exact Hrun]. intros vk d1 r1 d2 [= <- <-]. auto.
  - unfold applock.auth_change_password in Hrun. destruct (4 <=? _)%nat; [|apply (f_equal snd) in Hrun; cbn in Hrun; congruence].
    exists old_pw, code. eexists. split; [done|]. split; [|exact Hrun]. intros vk d1 r1 d2. cbn. unfold mbind.
    pose proof (seal_new_session os new_pw vk d1) as Hs.
    destruct (applock.seal_new os new_pw vk d1) as [[[]|e|] d3]; cbn in Hs |- *; intros [= <- <-] Hl1; cbn; auto; left; congruence.
  - exists pw, code. eexists. split; [done|]. split; [|exact Hrun]. intros vk d1 r1 d2. cbn. unfold mbind, state.store_key.
    destruct (kc_set_ok os), (remove_ok os); cbn; intros [= <- <-]; auto.
  - destruct Hn. rewrite <- Hl. pose proof (load_or_create_session os d) as Hs. unfold mbind, nmhost.open_vault in Hrun.
    destruct (state.load_or_create_key os d) as [[k|e|] d1]; by injection Hrun as <- <-.
Qed.

(** C34: a master password is a real factor. While the wrapper holds the key sealed under a
    password, a locked device is unlocked by no command but the three that take a password; the
    one given derives the same key-encryption key and yields the vault key, or the cipher was
    forged; and if an authenticator is required, the code verified against its secret. *)
Theorem password_gate (nonce : Nonce24) pw (salt : arr 16) (vk : VaultKey) c os d r d' :
  let kek p := crypto.argon2id_kek (utf8 p) salt Argon2Profile.Production in
  let hdr := WrappedBlob.header WrapperType.Password salt in
  wrap_file d = Some (blob_bytes (WrappedBlob.seal nonce WrapperType.Password (kek pw) salt vk)) ->
  session d = VaultSession.locked -> exec c os d = (r, d') -> session d' <> VaultSession.locked ->
  exists pw' code, presented c = Some (pw', code)
    /\ ((kek pw' = kek pw /\ session d' = VaultSession.unlocked vk)
        \/ crypto.forgery (kek pw) nonce hdr (kek pw') nonce hdr (arr_bytes vk))
    /\ (state.totp_enabled d = true -> exists secret t c', kc_totp d = Some secret /\ TotpSecret.parse secret = Ok t
          /\ code = Some c' /\ TotpSecret.verify_at t (trim c') (os_now os) = Ok true).
Proof.
  intros kek hdr Hw Hl Hrun Hn.
  destruct (only_password_commands _ _ _ _ _ _ Hw Hl Hrun Hn) as (pw' & code & k & Hp & Hk & Hr).
  destruct (present_gate os pw' code d _ k r d' Hw Hl Hr Hk Hn) as (vk' & Ho & Hs & Ht).
  exists pw', code. split; [done|]. split; [|done].
  destruct (wrong_password_forges nonce pw salt vk pw' vk' Ho) as [[? ->]|?]; auto.
Qed.

(** ** Where the other locks do not hold *)

(** The authenticator and the biometric prompt guard only the commands that ask for them: on a
    device without a master password, "unlock with recovery key" accepts any text, and the browser
    host starts unlocked, whatever [settings.json] requires. *)
Lemma lock_without_password_bypassed vk key d :
  holds vk d -> wrap_file d = None ->
  session (snd (exec (UnlockRecovery key) calm d)) = VaultSession.unlocked vk
  /\ fst (nmhost.open_vault calm d) = Ok (Some (VaultSession.unlocked vk)).
Proof.
  intros [_ Hk] Hw. rewrite Hw in Hk. cbn.
  unfold commands.unlock_recovery, commands.reunlock, nmhost.open_vault, state.load_key_strict, state.load_or_create_key,
    state.password_protected, mbind, read. rewrite Hw. cbn. rewrite Hk. cbn. by rewrite stored_key_encode.
Qed.

(** Under a master password the keychain entry is gone, and the browser host makes a new key and
    serves the vault with it. *)
Lemma browser_host_mints_key os d b :
  wrap_file d = Some b -> kc_key d = None -> kc_get_ok os = true -> kc_set_ok os = true ->
  fst (nmhost.open_vault os d) = Ok (Some (VaultSession.unlocked (fresh_key os)))
  /\ kc_key (snd (nmhost.open_vault os d)) = Some (b64_encode (fresh_key os)).
Proof.
  intros Hw Hk Hg Hs. unfold nmhost.open_vault, state.load_or_create_key, state.store_key, mbind, read. by rewrite Hg, Hs, Hk.
Qed.

(** On Windows the old wrapper is removed before the new one is in place: a failed rename while
    changing the password leaves neither a wrapper nor a keychain entry. *)
Lemma windows_change_loses_key vk d b pw new os :
  wrap_file d = Some b -> applock.open_with_password (MkBlob WrapperType.Password b) pw = Ok vk -> kc_key d = None ->
  (4 <= length (utf8 (trim new)))%nat -> state.totp_enabled d = false ->
  windows os = true -> tmp_ok os = true -> remove_ok os = true -> rename_ok os = false ->
  let d' := snd (exec (ChangePassword pw new None) os d) in wrap_file d' = None /\ kc_key d' = None.
Proof.
  intros Hw Ho Hk Hn Ht H1 H2 H3 H4. cbn. unfold applock.auth_change_password. rewrite (proj2 (Nat.leb_le _ _) Hn).
  unfold applock.read_wrap, mbind, read. rewrite Hw. cbn. rewrite Ho. cbn. unfold applock.check_totp, mbind, read. rewrite Ht.
  cbn. unfold applock.seal_new, state.write_atomic, mbind. rewrite H1, H2, H3, H4. done.
Qed.

(** Enrolling asks for nothing: on a locked device that requires a code, it replaces the secret
    and shows the new one. *)
Lemma totp_enroll_while_locked d :
  (forall uri, exists svg, qr_render uri = inr svg) ->
  exists e, fst (applock.applock_totp_enroll calm d) = Ok e
    /\ kc_totp (snd (applock.applock_totp_enroll calm d)) = Some (applock.secret e)
    /\ session (snd (applock.applock_totp_enroll calm d)) = session d.
Proof.
  intros Hq. unfold applock.applock_totp_enroll, TotpSecret.generate_base32_secret.
  destruct (Base32.base32_encode (fresh_totp calm)) as [s|e|] eqn:E; [|vm_compute in E; discriminate E..].
  unfold mbind, lift. cbn. match goal with |- context [qr_render ?u] => destruct (Hq u) as [svg Hs]; rewrite Hs end.
  by eexists.
Qed.
End runs.

(** * A device, evaluated *)

Module LockDemo.
#[export] Existing Instance toy_base64.
#[export] Existing Instance toy_base64_laws.
#[export] Instance demo_hmac : TotpHmac := {|
  hmac_sha1 k m := arr_fill 20 (byte_of_Z (toy_sum [k; m]));
  hmac_sha2_256 k m := arr_fill 32 (byte_of_Z (toy_sum [k; m]));
  hmac_sha2_512 k m := arr_fill 64 (byte_of_Z (toy_sum [k; m])) |}.
#[export] Instance demo_query : QueryPairs := {| query_pairs _ := None |}.
#[export] Instance demo_qr : QrLib := {| qr_render u := inr u |}.

Definition key : VaultKey := arr_fill 32 x2a.
Definition pw : text := lit "correct horse".
Definition fresh_install : Dev := MkDev (VaultSession.unlocked key) None (Some (b64_encode key)) None NoSettings.

(** A keychain that refuses deletions. *)
Definition stubborn : Os :=
  MkOs false true true false true true true true true (Some true) 0
    (arr_fill 32 x00) (arr_fill 16 x07) (arr_fill 24 x00) (arr_fill 20 x00).

Definition protected : Dev := snd (exec (SetPassword pw) calm fresh_install).
Definition protected_locked : Dev := snd (exec Lock calm protected).
Definition half_way : Dev := snd (exec (SetPassword pw) stubborn fresh_install).
End LockDemo.
Import LockDemo.

Lemma vault_key_never_lost_witness :
  holds LockDemo.key (snd (exec (RemovePassword LockDemo.pw None) calm LockDemo.half_way)).
Proof.
  apply (vault_key_never_lost LockDemo.key LockDemo.fresh_install); [by split; [right|]|].
  eapply rtc_l; [|apply rtc_once]; [exists (SetPassword LockDemo.pw), LockDemo.stubborn|exists (RemovePassword LockDemo.pw None), calm];
    (do 3 (split; [done|])); [done|].
  intros b pw' code vk' Hb [= <- <-] Ho. vm_compute in Hb. injection Hb as <-. vm_compute in Ho. by injection Ho as <-.
Defined.

Lemma password_gate_witness : exists pw' code,
  presented (UnlockPassword LockDemo.pw None) = Some (pw', code).
Proof.
  edestruct (password_gate (fresh_nonce calm) LockDemo.pw (fresh_salt calm) LockDemo.key
               (UnlockPassword LockDemo.pw None) calm LockDemo.protected_locked) as (pw' & code & Hp & _);
    [..|by exists pw', code].
  - vm_compute. reflexivity.
  - reflexivity.
  - apply surjective_pairing.
  - vm_compute. discriminate.
Defined.
