(* ===== verification/Watchdog.v ===== *)
(** [crates/core/src/cloud/watchdog.rs]: the alert engine of the server watchdog. Every tick it
    turns one sample per server into the alerts to raise, with transitions, sustain and latches.
    The map of latches is iterated in the order of [gmap]; the order of a [HashMap] is not
    specified, and nothing below depends on it. *)
From S2P Require Import Prelude Bytes Text Crypto Floats Toy RecoveryKit Keyring Model Provision Vpn.
Local Open Scope Z_scope.

Record WatchdogCfg : Type := MkWatchdogCfg {
  cfg_cpu_pct : f64;
  cpu_sustain_ticks : Z;
  cfg_disk_pct : f64;
}.

Definition WatchdogCfg_default : WatchdogCfg := MkWatchdogCfg (F64.of_Z 90) 3 (F64.of_Z 90).

Record ServerSample : Type := MkServerSample {
  ss_key : text;
  ss_label : text;
  ss_state : InstanceState.t;
  ss_cpu_pct : option f64;
  ss_disk_used_pct : option f64;
  ss_netdata_alarms : option Z;
}.

Inductive Alert : Type :=
| Down (key label : text)
| Recovered (key label : text)
| CpuHigh (key label : text) (pct : f64)
| DiskHigh (key label : text) (pct : f64)
| NetdataAlarm (key label : text) (count : Z).

Record EntryState : Type := MkEntryState {
  was_running : bool;
  down_latched : bool;
  cpu_over_ticks : Z;
  cpu_latched : bool;
  disk_latched : bool;
  alarm_latched : bool;
}.

Definition EntryState_default : EntryState := MkEntryState false false 0 false false false.

Abbreviation WatchdogState := (gmap text EntryState).

Module Watchdog.
(** ** One sample *)

(** Down and recovered, on transitions. *)
Definition eval_down (s : ServerSample) (e : EntryState) : list Alert * EntryState :=
  let running := bool_decide (ss_state s = InstanceState.Running) in
  let set l := MkEntryState running l (cpu_over_ticks e) (cpu_latched e) (disk_latched e) (alarm_latched e) in
  if was_running e && negb running && negb (down_latched e) then ([Down (ss_key s) (ss_label s)], set true)
  else if down_latched e && running then ([Recovered (ss_key s) (ss_label s)], set false)
  else ([], set (down_latched e)).

(** CPU: sustained, latched; re-armed below the threshold. The counter is a [u32]. *)
Definition eval_cpu (cfg : WatchdogCfg) (s : ServerSample) (e : EntryState) : list Alert * EntryState :=
  let set n l := MkEntryState (was_running e) (down_latched e) n l (disk_latched e) (alarm_latched e) in
  match ss_cpu_pct s with
  | Some p =>
      if F64.leb (cfg_cpu_pct cfg) p then
        let n := (cpu_over_ticks e + 1) mod 2 ^ 32 in
        if (cpu_sustain_ticks cfg <=? n) && negb (cpu_latched e)
        then ([CpuHigh (ss_key s) (ss_label s) p], set n true)
        else ([], set n (cpu_latched e))
      else ([], set 0 false)
  | None => ([], e)
  end.

(** Disk: at once, latched; re-armed five points under the threshold. *)
Definition eval_disk (cfg : WatchdogCfg) (s : ServerSample) (e : EntryState) : list Alert * EntryState :=
  let set l := MkEntryState (was_running e) (down_latched e) (cpu_over_ticks e) (cpu_latched e) l (alarm_latched e) in
  match ss_disk_used_pct s with
  | Some p =>
      if F64.leb (cfg_disk_pct cfg) p then
        if disk_latched e then ([], e) else ([DiskHigh (ss_key s) (ss_label s) p], set true)
      else if F64.ltb p (F64.sub (cfg_disk_pct cfg) (F64.of_Z 5)) then ([], set false)
      else ([], e)
  | None => ([], e)
  end.

(** Netdata: latched on any active alarm, re-armed when clear. *)
Definition eval_alarm (s : ServerSample) (e : EntryState) : list Alert * EntryState :=
  let set l := MkEntryState (was_running e) (down_latched e) (cpu_over_ticks e) (cpu_latched e) (disk_latched e) l in
  match ss_netdata_alarms s with
  | Some n =>
      if 0 <? n then
        if alarm_latched e then ([], e) else ([NetdataAlarm (ss_key s) (ss_label s) n], set true)
      else ([], set false)
  | None => ([], e)
  end.

Definition eval_entry (cfg : WatchdogCfg) (s : ServerSample) (e : EntryState) : list Alert * EntryState :=
  let '(a1, e) := eval_down s e in
  let '(a2, e) := eval_cpu cfg s e in
  let '(a3, e) := eval_disk cfg s e in
  let '(a4, e) := eval_alarm s e in
  (a1 ++ a2 ++ a3 ++ a4, e).

Fixpoint eval_samples (cfg : WatchdogCfg) (samples : list ServerSample) (st : WatchdogState)
    : list Alert * WatchdogState :=
  match samples with
  | [] => ([], st)
  | s :: samples =>
      let '(a, e) := eval_entry cfg s (default EntryState_default (st !! ss_key s)) in
      let '(b, st) := eval_samples cfg samples (<[ss_key s := e]> st) in
      (a ++ b, st)
  end.

(** ** Servers that vanished *)

Definition provider_of (p key : text) : bool := starts_with (p ++ lit ":") key.

Definition is_missing (present : list text) (providers_ok : list text) (ke : text * EntryState) : bool :=
  was_running ke.2 && negb (down_latched ke.2) && negb (bool_decide (ke.1 ∈ present))
  && existsb (fun p => provider_of p ke.1) providers_ok.

Definition mark_down (e : EntryState) : EntryState :=
  MkEntryState false true (cpu_over_ticks e) (cpu_latched e) (disk_latched e) (alarm_latched e).

Definition missing (st : WatchdogState) (samples : list ServerSample) (providers_ok : list text) : list text :=
  map fst (List.filter (is_missing (map ss_key samples) providers_ok) (map_to_list st)).

Definition evaluate (cfg : WatchdogCfg) (samples : list ServerSample) (providers_ok : list text) (st : WatchdogState)
    : list Alert * WatchdogState :=
  let gone := missing st samples providers_ok in
  let '(b, st) := eval_samples cfg samples (fold_left (fun st k => alter mark_down k st) gone st) in
  (map (fun k => Down k k) gone ++ b, st).

(** The alerts of a sequence of ticks. *)
Fixpoint run (cfg : WatchdogCfg) (ticks : list (list ServerSample * list text)) (st : WatchdogState) : list Alert * WatchdogState :=
  match ticks with
  | [] => ([], st)
  | (samples, ok) :: ticks =>
      let '(a, st) := evaluate cfg samples ok st in
      let '(b, st) := run cfg ticks st in
      (a ++ b, st)
  end.

(** ** Alerts of one server, in order *)

(** Its down ([true]) and recovered ([false]) alerts. *)
Definition updown (k : text) (l : list Alert) : list bool :=
  flat_map (fun a => match a with
    | Down k' _ => if decide (k' = k) then [true] else []
    | Recovered k' _ => if decide (k' = k) then [false] else []
    | _ => []
    end) l.
#[local] Arguments updown : simpl never.

(** Read a sequence that alternates, from a latch to a latch. *)
Fixpoint alternates (latched : bool) (l : list bool) : option bool :=
  match l with
  | [] => Some latched
  | x :: l => if Bool.eqb x latched then None else alternates x l
  end.

Definition entry (st : WatchdogState) (k : text) : EntryState := default EntryState_default (st !! k).

Lemma updown_app k l1 l2 : updown k (l1 ++ l2) = updown k l1 ++ updown k l2.
Proof. apply flat_map_app. Qed.

Lemma alternates_app b l1 l2 c : alternates b l1 = Some c -> alternates b (l1 ++ l2) = alternates c l2.
Proof.
  revert b; induction l1 as [|x l1 IH]; intros b; cbn; [by intros [= ->]|]. destruct (Bool.eqb x b); [done|]. apply IH.
Qed.

Lemma entry_insert st k k' e : entry (<[k := e]> st) k' = if decide (k = k') then e else entry st k'.
Proof. unfold entry. case_decide; [subst; by rewrite lookup_insert_eq|by rewrite lookup_insert_ne]. Qed.

Lemma eval_cpu_updown cfg s e k :
  updown k (fst (eval_cpu cfg s e)) = [] /\ down_latched (snd (eval_cpu cfg s e)) = down_latched e.
Proof. unfold eval_cpu. repeat case_match; done. Qed.
Lemma eval_disk_updown cfg s e k :
  updown k (fst (eval_disk cfg s e)) = [] /\ down_latched (snd (eval_disk cfg s e)) = down_latched e.
Proof. unfold eval_disk. repeat case_match; done. Qed.
Lemma eval_alarm_updown s e k :
  updown k (fst (eval_alarm s e)) = [] /\ down_latched (snd (eval_alarm s e)) = down_latched e.
Proof. unfold eval_alarm. repeat case_match; done. Qed.

Lemma eval_entry_updown cfg s e k :
  updown k (fst (eval_entry cfg s e)) = updown k (fst (eval_down s e))
  /\ down_latched (snd (eval_entry cfg s e)) = down_latched (snd (eval_down s e)).
Proof.
  unfold eval_entry. destruct (eval_down s e) as [a1 e1].
  pose proof (eval_cpu_updown cfg s e1 k) as [H1 H2]. destruct (eval_cpu cfg s e1) as [a2 e2].
  pose proof (eval_disk_updown cfg s e2 k) as [H3 H4]. destruct (eval_disk cfg s e2) as [a3 e3].
  pose proof (eval_alarm_updown s e3 k) as [H5 H6]. destruct (eval_alarm s e3) as [a4 e4]. cbn in *.
  rewrite !updown_app, H1, H3, H5, !app_nil_r. split; congruence.
Qed.

Lemma eval_down_updown s e k :
  alternates (down_latched e) (updown (ss_key s) (fst (eval_down s e))) = Some (down_latched (snd (eval_down s e)))
  /\ (ss_key s <> k -> updown k (fst (eval_down s e)) = []).
Proof.
  unfold eval_down, updown. destruct (was_running e), (down_latched e) eqn:Hd, (bool_decide _); cbn;
    rewrite ?(decide_True (P := ss_key s = ss_key s)) by done; cbn; rewrite ?Hd; split; try done; intros; by rewrite decide_False.
Qed.

Lemma eval_samples_updown cfg samples st k :
  alternates (down_latched (entry st k)) (updown k (fst (eval_samples cfg samples st)))
  = Some (down_latched (entry (snd (eval_samples cfg samples st)) k)).
Proof.
  revert st; induction samples as [|s samples IH]; intros st; cbn; [done|]. fold (entry st (ss_key s)).
  destruct (eval_entry_updown cfg s (entry st (ss_key s)) k) as [H1 H2].
  destruct (eval_down_updown s (entry st (ss_key s)) k) as [H3 H4].
  destruct (eval_entry cfg s (entry st (ss_key s))) as [a e]. cbn in H1, H2.
  specialize (IH (<[ss_key s := e]> st)). destruct (eval_samples cfg samples _) as [b st']. cbn in *.
  rewrite updown_app, H1. rewrite entry_insert in IH. case_decide as Hk.
  - subst k. rewrite H2 in IH. by rewrite (alternates_app _ _ _ _ H3).
  - by rewrite H4.
Qed.

(** ** Vanished servers *)

Lemma missing_spec st samples ok k :
  k ∈ missing st samples ok <->
  exists e, st !! k = Some e /\ is_missing (map ss_key samples) ok (k, e) = true.
Proof.
  unfold missing. rewrite list_elem_of_In, in_map_iff. split.
  - intros ([k' e] & <- & [Hin He]%filter_In). exists e. split; [|done]. by apply elem_of_map_to_list, list_elem_of_In.
  - intros (e & Hk & He). exists (k, e). split; [done|]. apply filter_In. split; [|done].
    by apply list_elem_of_In, elem_of_map_to_list.
Qed.

Lemma missing_NoDup st samples ok : NoDup (missing st samples ok).
Proof.
  unfold missing. assert (H : NoDup (map fst (map_to_list st))) by apply NoDup_fst_map_to_list.
  induction (map_to_list st) as [|[k e] l IH]; cbn in *; [constructor|]. apply NoDup_cons in H as [H1 H2].
  destruct (is_missing _ _ _); [|auto]. cbn. constructor; [|auto]. intros Hin. apply H1.
  apply list_elem_of_In, in_map_iff in Hin as (x & <- & [Hx _]%filter_In). by apply list_elem_of_In, in_map.
Qed.

Lemma mark_all_lookup (gone : list text) (st : WatchdogState) k :
  NoDup gone -> fold_left (fun st k => alter mark_down k st) gone st !! k
  = if decide (k ∈ gone) then mark_down <$> st !! k else st !! k.
Proof.
  revert st; induction gone as [|g gone IH]; intros st Hn; cbn; [by rewrite decide_False by apply not_elem_of_nil|].
  apply NoDup_cons in Hn as [Hg Hn]. rewrite IH by done. destruct (decide (k = g)) as [->|Hne].
  - rewrite decide_False, decide_True by set_solver. apply lookup_alter_eq.
  - rewrite lookup_alter_ne by done. destruct (decide (k ∈ gone)).
    + by rewrite decide_True by set_solver.
    + by rewrite decide_False by set_solver.
Qed.

Lemma updown_gone (gone : list text) k : NoDup gone -> updown k (map (fun k => Down k k) gone) = if decide (k ∈ gone) then [true] else [].
Proof.
  induction gone as [|g gone IH]; intros Hn; [by rewrite decide_False by apply not_elem_of_nil|].
  apply NoDup_cons in Hn as [Hg Hn]. change (g :: gone) with ([g] ++ gone) at 1. rewrite map_app, updown_app, IH by done.
  unfold updown. cbn. destruct (decide (g = k)) as [->|Hne]; cbn.
  - by rewrite decide_False, decide_True by set_solver.
  - destruct (decide (k ∈ gone)); [rewrite decide_True|rewrite decide_False]; set_solver.
Qed.

Lemma evaluate_updown cfg samples ok st k :
  alternates (down_latched (entry st k)) (updown k (fst (evaluate cfg samples ok st)))
  = Some (down_latched (entry (snd (evaluate cfg samples ok st)) k)).
Proof.
  unfold evaluate. set (gone := missing st samples ok). set (st1 := fold_left _ gone st).
  pose proof (eval_samples_updown cfg samples st1 k) as H. destruct (eval_samples cfg samples st1) as [b st2]. cbn in *.
  rewrite updown_app, updown_gone by apply missing_NoDup.
  assert (Hst : entry st1 k = if decide (k ∈ gone) then mark_down (entry st k) else entry st k).
  { unfold entry, st1. rewrite mark_all_lookup by apply missing_NoDup. case_decide as Hg; [|done].
    apply missing_spec in Hg as (e & -> & _). done. }
  rewrite Hst in H. destruct (decide (k ∈ gone)) as [Hg|Hg]; cbn; [|done].
  apply missing_spec in Hg as (e & He & Hm). unfold is_missing in Hm. bools. unfold entry at 1. rewrite He. cbn in *.
  by replace (down_latched e) with false.
Qed.

Lemma run_updown cfg ticks st k :
  alternates (down_latched (entry st k)) (updown k (fst (run cfg ticks st))) = Some (down_latched (entry (snd (run cfg ticks st)) k)).
Proof.
  revert st; induction ticks as [|[samples ok] ticks IH]; intros st; cbn; [done|].
  pose proof (evaluate_updown cfg samples ok st k) as H. destruct (evaluate cfg samples ok st) as [a st1].
  specialize (IH st1). destruct (run cfg ticks st1) as [b st2]. cbn in *. by rewrite updown_app, (alternates_app _ _ _ _ H).
Qed.

Lemma entry_empty k : entry ∅ k = EntryState_default.
Proof. unfold entry. by rewrite lookup_empty. Qed.

(** A server that is not seen and whose provider failed. *)
Lemma eval_samples_absent cfg samples st k :
  k ∉ map ss_key samples ->
  updown k (fst (eval_samples cfg samples st)) = [] /\ snd (eval_samples cfg samples st) !! k = st !! k.
Proof.
  revert st; induction samples as [|s samples IH]; intros st Hk; cbn in *; [done|]. apply not_elem_of_cons in Hk as [Hk Hks].
  fold (entry st (ss_key s)). destruct (eval_entry_updown cfg s (entry st (ss_key s)) k) as [H1 _].
  destruct (eval_down_updown s (entry st (ss_key s)) k) as [_ H2].
  destruct (eval_entry cfg s (entry st (ss_key s))) as [a e]. cbn in H1. destruct (IH (<[ss_key s := e]> st) Hks) as [H3 H4].
  destruct (eval_samples cfg samples _) as [b st']. cbn in *. rewrite updown_app, H1, H2, H3 by done.
  by rewrite H4, lookup_insert_ne.
Qed.

Lemma evaluate_absent cfg samples ok st k :
  k ∉ map ss_key samples -> Forall (fun p => provider_of p k = false) ok ->
  updown k (fst (evaluate cfg samples ok st)) = [] /\ snd (evaluate cfg samples ok st) !! k = st !! k.
Proof.
  intros Hk Hok. unfold evaluate. set (gone := missing st samples ok).
  assert (Hg : k ∉ gone).
  { intros (e & _ & Hm)%missing_spec. unfold is_missing in Hm. bools. apply existsb_exists in H0 as (p & Hp & Hpk).
    rewrite Forall_forall in Hok. rewrite Hok in Hpk; [done|by apply list_elem_of_In]. }
  destruct (eval_samples_absent cfg samples (fold_left (fun st k => alter mark_down k st) gone st) k Hk) as [H1 H2].
  destruct (eval_samples cfg samples _) as [b st']. cbn in *.
  rewrite updown_app, H1, updown_gone, decide_False by (done || apply missing_NoDup). split; [done|].
  by rewrite H2, mark_all_lookup, decide_False by (done || apply missing_NoDup).
Qed.

(** ** CPU alerts *)

(** The CPU alerts of a server, and its known readings in order. *)
Definition cpu_alerts (k : text) (l : list Alert) : nat :=
  length (List.filter (fun a => match a with CpuHigh k' _ _ => bool_decide (k' = k) | _ => false end) l).
#[local] Arguments cpu_alerts : simpl never.

Definition sample_readings (k : text) (samples : list ServerSample) : list f64 :=
  omap (fun s => if bool_decide (ss_key s = k) then ss_cpu_pct s else None) samples.

Definition readings (k : text) (ticks : list (list ServerSample * list text)) : list f64 :=
  concat (map (fun t => sample_readings k t.1) ticks).

(** The lengths of the maximal stretches of readings over the threshold, the first one already
    [c] long. *)
Fixpoint stretches (over : f64 -> bool) (c : Z) (l : list f64) : list Z :=
  match l with
  | [] => [c]
  | p :: l => if over p then stretches over (c + 1) l else c :: stretches over 0 l
  end.

Definition is_over (cfg : WatchdogCfg) (p : f64) : bool := F64.leb (cfg_cpu_pct cfg) p.
Definition long (cfg : WatchdogCfg) (c : Z) : bool := Z.max 1 (cpu_sustain_ticks cfg) <=? c.
Definition long_stretches (cfg : WatchdogCfg) (c : Z) (l : list f64) : nat :=
  length (List.filter (long cfg) (stretches (is_over cfg) c l)).

(** The latch is the counter's, and the counter does not wrap within the next [n] readings. *)
Definition cpu_inv (cfg : WatchdogCfg) (n : nat) (e : EntryState) : Prop :=
  0 <= cpu_over_ticks e /\ cpu_over_ticks e + Z.of_nat n < 2 ^ 32 /\ cpu_latched e = long cfg (cpu_over_ticks e).

Lemma cpu_alerts_app k l1 l2 : cpu_alerts k (l1 ++ l2) = (cpu_alerts k l1 + cpu_alerts k l2)%nat.
Proof. unfold cpu_alerts. by rewrite List.filter_app, length_app. Qed.

Lemma eval_entry_cpu cfg s e k :
  cpu_alerts k (fst (eval_entry cfg s e)) = cpu_alerts k (fst (eval_cpu cfg s e))
  /\ cpu_over_ticks (snd (eval_entry cfg s e)) = cpu_over_ticks (snd (eval_cpu cfg s e))
  /\ cpu_latched (snd (eval_entry cfg s e)) = cpu_latched (snd (eval_cpu cfg s e)).
Proof.
  unfold eval_entry. destruct (eval_down s e) as [a1 e1] eqn:E1.
  assert (H1 : cpu_alerts k a1 = 0%nat /\ cpu_over_ticks e1 = cpu_over_ticks e /\ cpu_latched e1 = cpu_latched e).
  { unfold eval_down in E1. repeat case_match; by simplify_eq. }
  assert (H2 : fst (eval_cpu cfg s e1) = fst (eval_cpu cfg s e)
    /\ cpu_over_ticks (snd (eval_cpu cfg s e1)) = cpu_over_ticks (snd (eval_cpu cfg s e))
    /\ cpu_latched (snd (eval_cpu cfg s e1)) = cpu_latched (snd (eval_cpu cfg s e))).
  { destruct H1 as (_ & Hc & Hl). unfold eval_cpu. rewrite Hc, Hl. repeat case_match; done. }
  destruct (eval_cpu cfg s e1) as [a2 e2]. destruct (eval_disk cfg s e2) as [a3 e3] eqn:E3.
  assert (H3 : cpu_alerts k a3 = 0%nat /\ cpu_over_ticks e3 = cpu_over_ticks e2 /\ cpu_latched e3 = cpu_latched e2).
  { unfold eval_disk in E3. repeat case_match; by simplify_eq. }
  destruct (eval_alarm s e3) as [a4 e4] eqn:E4.
  assert (H4 : cpu_alerts k a4 = 0%nat /\ cpu_over_ticks e4 = cpu_over_ticks e3 /\ cpu_latched e4 = cpu_latched e3).
  { unfold eval_alarm in E4. repeat case_match; by simplify_eq. }
  cbn in *. rewrite !cpu_alerts_app. destruct H1 as (-> & _), H2 as (-> & <- & <-), H3 as (-> & <- & <-), H4 as (-> & <- & <-).
  split; [lia|done].
Qed.

(** One sample of the server takes its reading off the reference. *)
Lemma eval_cpu_step cfg s e n rest :
  let l := match ss_cpu_pct s with Some p => [p] | None => [] end in
  let e' := snd (eval_cpu cfg s e) in
  cpu_inv cfg (length l + n) e ->
  cpu_inv cfg n e'
  /\ (cpu_alerts (ss_key s) (fst (eval_cpu cfg s e)) + Nat.b2n (cpu_latched e) + long_stretches cfg (cpu_over_ticks e') rest
     = Nat.b2n (cpu_latched e') + long_stretches cfg (cpu_over_ticks e) (l ++ rest))%nat.
Proof.
  unfold eval_cpu, cpu_inv. destruct (ss_cpu_pct s) as [p|]; cbn; [|intros; split; done].
  intros (H0 & Hw & Hl). unfold long_stretches. cbn. fold (is_over cfg p). destruct (is_over cfg p).
  - rewrite Z.mod_small by lia. set (c := cpu_over_ticks e) in *.
    assert (Hx : (cpu_sustain_ticks cfg <=? c + 1) && negb (cpu_latched e) = long cfg (c + 1) && negb (long cfg c)).
    { rewrite Hl. unfold long. destruct (_ <=? c) eqn:E1, (_ <=? c + 1) eqn:E2, (cpu_sustain_ticks cfg <=? c + 1) eqn:E3; bools; cbn; try done; lia. }
    assert (Hm : long cfg c = true -> long cfg (c + 1) = true) by (unfold long; intros; bools; apply Z.leb_le; lia).
    rewrite Hx, Hl. destruct (long cfg (c + 1)) eqn:E2, (long cfg c) eqn:E1; try (by specialize (Hm eq_refl)); cbn;
      rewrite ?E2; unfold cpu_alerts; cbn; rewrite ?bool_decide_true by done; cbn; (split; [repeat split; try lia; congruence|lia]).
  - cbn. split; [split; [lia|split; [lia|]]|].
    + unfold long. symmetry. apply Z.leb_gt. lia.
    + unfold cpu_alerts. cbn. rewrite Hl. destruct (long cfg (cpu_over_ticks e)); cbn; lia.
Qed.

Lemma other_cpu cfg s e k : ss_key s <> k -> cpu_alerts k (fst (eval_cpu cfg s e)) = 0%nat.
Proof.
  intros Hk. unfold eval_cpu. repeat case_match; try done. unfold cpu_alerts. cbn. by rewrite bool_decide_false.
Qed.

Lemma eval_samples_cpu cfg samples st k n rest :
  let l := sample_readings k samples in
  let st' := snd (eval_samples cfg samples st) in
  cpu_inv cfg (length l + n) (entry st k) ->
  cpu_inv cfg n (entry st' k)
  /\ (cpu_alerts k (fst (eval_samples cfg samples st)) + Nat.b2n (cpu_latched (entry st k))
       + long_stretches cfg (cpu_over_ticks (entry st' k)) rest
     = Nat.b2n (cpu_latched (entry st' k)) + long_stretches cfg (cpu_over_ticks (entry st k)) (l ++ rest))%nat.
Proof.
  revert st; induction samples as [|s samples IH]; intros st; cbn; [intros H; split; done|].
  fold (entry st (ss_key s)). destruct (eval_entry_cpu cfg s (entry st (ss_key s)) k) as (Ha & Ht & Hl).
  destruct (eval_entry cfg s (entry st (ss_key s))) as [a e]. cbn in Ha, Ht, Hl.
  specialize (IH (<[ss_key s := e]> st)). destruct (eval_samples cfg samples _) as [b st']. cbn in *.
  rewrite cpu_alerts_app, Ha. rewrite entry_insert in IH. case_decide as Hk; [subst k|].
  - rewrite bool_decide_true by done. intros Hi.
    destruct (eval_cpu_step cfg s (entry st (ss_key s)) (length (sample_readings (ss_key s) samples) + n)
                (sample_readings (ss_key s) samples ++ rest)) as [Hi' Heq].
    { by destruct (ss_cpu_pct s). }
    destruct IH as [H1 H2].
    { unfold cpu_inv in *. by rewrite Ht, Hl. }
    split; [done|]. rewrite Ht, Hl in H2. destruct (ss_cpu_pct s); cbn in *; fold (sample_readings (ss_key s) samples) in *; lia.
  - rewrite bool_decide_false by done. fold (sample_readings k samples). intros Hi. rewrite other_cpu by done. by apply IH.
Qed.

Lemma gone_cpu (gone : list text) k : cpu_alerts k (map (fun k => Down k k) gone) = 0%nat.
Proof. by induction gone. Qed.

Lemma mark_down_cpu (gone : list text) (st : WatchdogState) k :
  NoDup gone -> let st1 := fold_left (fun st k => alter mark_down k st) gone st in
  cpu_over_ticks (entry st1 k) = cpu_over_ticks (entry st k) /\ cpu_latched (entry st1 k) = cpu_latched (entry st k).
Proof. intros Hn. unfold entry. rewrite mark_all_lookup by done. case_decide; [|done]. by destruct (st !! k). Qed.

Lemma run_cpu cfg ticks st k :
  cpu_inv cfg (length (readings k ticks)) (entry st k) ->
  (cpu_alerts k (fst (run cfg ticks st)) + Nat.b2n (cpu_latched (entry st k))
   = long_stretches cfg (cpu_over_ticks (entry st k)) (readings k ticks))%nat.
Proof.
  revert st; induction ticks as [|[samples ok] ticks IH]; intros st; cbn.
  { intros (_ & _ & Hl). unfold long_stretches. cbn. rewrite Hl. destruct (long _ _); done. }
  fold (readings k ticks). rewrite length_app. intros Hi. unfold evaluate.
  set (gone := missing st samples ok). pose proof (mark_down_cpu gone st k (missing_NoDup _ _ _)) as [H1 H2].
  set (st1 := fold_left _ gone st) in *.
  destruct (eval_samples_cpu cfg samples st1 k (length (readings k ticks)) (readings k ticks)) as [Hi1 Heq].
  { unfold cpu_inv in *. by rewrite H1, H2. }
  destruct (eval_samples cfg samples st1) as [b st2]. cbn in *. specialize (IH st2 Hi1).
  destruct (run cfg ticks st2) as [c st3]. cbn in *. rewrite !cpu_alerts_app.
  rewrite gone_cpu, H1, H2 in *. fold (sample_readings k samples).
  fold (long_stretches cfg (cpu_over_ticks (entry st k)) (sample_readings k samples ++ readings k ticks)). lia.
Qed.
End Watchdog.

Import Watchdog.

(** A server's outages are reported one at a time. From a watchdog that knows nothing, whatever
    the ticks bring, the down and recovered alerts of a server alternate, the first being down: no
    outage is announced twice and nothing recovers that was not down. A server that is absent from a tick whose provider did not answer
    raises nothing and keeps its latches. *)
Theorem watchdog_outages_alternate cfg ticks samples ok k :
  let '(alerts, st) := run cfg ticks ∅ in
  is_Some (alternates false (updown k alerts))
  /\ (k ∉ map ss_key samples -> Forall (fun p => provider_of p k = false) ok ->
      updown k (fst (evaluate cfg samples ok st)) = [] /\ snd (evaluate cfg samples ok st) !! k = st !! k).
Proof.
  pose proof (run_updown cfg ticks ∅ k) as H. destruct (run cfg ticks ∅) as [alerts st]. split; [by eexists|].
  intros Hk Hok. by apply evaluate_absent.
Qed.

(** Sustain and latch, counted. Over any ticks, the CPU alerts of a server are exactly as many
    as the maximal stretches of its known readings over the threshold that last the configured
    number of ticks: a shorter spike raises none, a longer one raises one, and only a reading
    under the threshold re-arms. *)
Theorem watchdog_cpu_once_per_stretch cfg ticks k :
  Z.of_nat (length (readings k ticks)) < 2 ^ 32 ->
  cpu_alerts k (fst (run cfg ticks ∅)) = long_stretches cfg 0 (readings k ticks).
Proof.
  intros Hn. pose proof (run_cpu cfg ticks ∅ k) as H. rewrite entry_empty in H. cbn in H. rewrite <- H; [lia|].
  split; [done|]. split; [cbn; lia|]. cbn. unfold long. symmetry. apply Z.leb_gt. lia.
Qed.

(** A server that is pegged for four ticks, calms down, and vanishes while its provider answers. *)
Definition demo_sample (cpu : Z) : ServerSample :=
  MkServerSample (lit "linode:7") (lit "web") InstanceState.Running (Some (F64.of_Z cpu)) None None.
Definition demo_ticks : list (list ServerSample * list text) :=
  map (fun c => ([demo_sample c], [lit "linode"])) [95; 96; 97; 98; 10; 99] ++ [([], [lit "linode"])].

Lemma watchdog_cpu_once_per_stretch_witness :
  cpu_alerts (lit "linode:7") (fst (run WatchdogCfg_default demo_ticks ∅)) = 1%nat.
Proof.
  rewrite (watchdog_cpu_once_per_stretch WatchdogCfg_default demo_ticks (lit "linode:7")); [reflexivity|].
  vm_compute. reflexivity.
Defined.

Lemma watchdog_outages_alternate_witness :
  updown (lit "linode:7") (fst (evaluate WatchdogCfg_default [] [lit "hetzner"] (snd (run WatchdogCfg_default (take 2 demo_ticks) ∅)))) = [].
Proof.
  pose proof (watchdog_outages_alternate WatchdogCfg_default (take 2 demo_ticks) [] [lit "hetzner"] (lit "linode:7")) as H.
  destruct (run WatchdogCfg_default (take 2 demo_ticks) ∅) as [alerts st]. destruct H as [_ H]. apply H.
  - apply not_elem_of_nil.
  - repeat constructor.
Defined.
