(* ===== verification/Pairing.v ===== *)
(** [crates/core/src/pairing]: the end-to-end channel between the desktop and the phone. P-256 and
    IETF ChaCha20-Poly1305 are crates outside the repository: classes with their documented laws. *)
From S2P Require Import Prelude Bytes Text Crypto Toy.
Local Open Scope Z_scope.

(** The [p256] crate: key pairs, the 65-byte SEC1 form of a public key, and the x coordinate of the
    Diffie-Hellman point. *)
Class P256 : Type := {
  SecretKey : Type;
  PublicKey : Type;
  public_key : SecretKey -> PublicKey;
  to_sec1_bytes : PublicKey -> bytes;
  from_sec1_bytes : bytes -> option PublicKey;
  diffie_hellman : SecretKey -> PublicKey -> arr 32;
}.

Class P256Laws (C : P256) : Prop := {
  sec1_length p : length (to_sec1_bytes p) = 65%nat;
  from_to_sec1 p : from_sec1_bytes (to_sec1_bytes p) = Some p;
  to_sec1_inj p q : to_sec1_bytes p = to_sec1_bytes q -> p = q;
  dh_comm a b : diffie_hellman a (public_key b) = diffie_hellman b (public_key a);
}.

(** The [chacha20poly1305] crate at its 12-byte nonce. *)
Class ChaCha : Type := {
  cc_encrypt : Key32 -> arr 12 -> bytes -> bytes -> bytes;
  cc_decrypt : Key32 -> arr 12 -> bytes -> bytes -> option bytes;
}.

Class ChaChaLaws (C : ChaCha) : Prop := {
  cc_dec_enc k n ad m : cc_decrypt k n ad (cc_encrypt k n ad m) = Some m;
  cc_len k n ad m : length (cc_encrypt k n ad m) = (length m + 16)%nat;
}.

Module Pairing.
Record QrPayload : Type := MkQrPayload {
  qr_v : Z; qr_pairing_id : text; relay_url : text; desktop_pub : text; qr_expires : Z }.
Record PairedDevice : Type := MkPairedDevice { pd_pairing_id : text; phone_pub : text; pd_created_at : Z }.

Inductive Role : Type := Desktop | Phone.

Section channel.
Context {E : P256} {P : CryptoPrims} {CC : ChaCha}.

Record PairKey : Type := MkPairKey { pk_secret : SecretKey; pk_public : PublicKey }.

Definition generate (random : SecretKey) : PairKey := MkPairKey random (public_key random).
Definition public_sec1 (k : PairKey) : bytes := to_sec1_bytes (pk_public k).

Definition parse_public (sec1 : bytes) : Result PublicKey :=
  ok_or (from_sec1_bytes sec1) (Invalid "bad P-256 public key").

Definition transcript (qr_payload desktop_pub phone_pub : bytes) : bytes := qr_payload ++ desktop_pub ++ phone_pub.

Definition verification_code (transcript : bytes) : text :=
  let d := sha256 transcript in
  let n := be_val (take 4 d) mod 1000000 in
  show_padded 6 n.

Record Channel : Type := MkChannel { send_key : Key32; recv_key : Key32 }.

Definition establish (role : Role) (my : PairKey) (peer_pub : PublicKey) (transcript : bytes) : Channel :=
  let x := diffie_hellman (pk_secret my) peer_pub in
  let salt := sha256 transcript in
  let d2p := crypto.hkdf32 x (Some (arr_bytes salt)) Info.PairChannelDesktopToPhone in
  let p2d := crypto.hkdf32 x (Some (arr_bytes salt)) Info.PairChannelPhoneToDesktop in
  match role with
  | Desktop => MkChannel d2p p2d
  | Phone => MkChannel p2d d2p
  end.

Definition AAD : bytes := utf8 (lit "pair").

(** [nb] is the fresh random nonce. *)
Definition seal (nb : arr 12) (self : Channel) (plaintext : bytes) : bytes :=
  nb ++ cc_encrypt (send_key self) nb AAD plaintext.

Definition open (self : Channel) (combined : bytes) : Result bytes :=
  guard negb (length combined <? 12 + 16)%nat else Err (Format "pair box" "too short") in
  let? nb := slice combined 0 12 in
  let? nonce := copy_from_slice 12 nb in
  let? ct := slice_from combined 12 in
  ok_or (cc_decrypt (recv_key self) nonce AAD ct) Decrypt.
End channel.
End Pairing.

(** A box made under one key is accepted under another one. *)
Definition cc_forgery {CC : ChaCha} (k : Key32) (n : arr 12) (k' : Key32) (ad m : bytes) : Prop :=
  k <> k' /\ is_Some (cc_decrypt k' n ad (cc_encrypt k n ad m)).

Section claims.
Context {E : P256} {EL : P256Laws E} {P : CryptoPrims} {CC : ChaCha} {CL : ChaChaLaws CC}.
Import Pairing.

Lemma open_sealed (c c' : Channel) (nb : arr 12) m :
  open c' (seal nb c m) = ok_or (cc_decrypt (recv_key c') nb AAD (cc_encrypt (send_key c) nb AAD m)) Decrypt.
Proof.
  unfold open, seal. rewrite (proj2 (Nat.ltb_ge _ _)) by (rewrite length_app, length_arr, cc_len; lia). cbn [negb].
  rewrite slice_prefix by (by rewrite length_arr). cbn [rbind]. rewrite copy_from_slice_arr. cbn [rbind].
  rewrite (slice_from_app _ _ 12) by (by rewrite length_arr). done.
Qed.

(** The two ends of a pairing understand each other and no one else. With the keys exchanged in
    SEC1 form and the same transcript, what either end seals the other opens. The transcript
    determines the QR payload and both keys, so an exchanged key changes what the verification code
    and the channel keys are derived from. A box sent back to its sender, or opened by a channel
    with another receiving key, is accepted only if the keys of the two directions coincide or the
    cipher is forged. Opening never panics. *)
Theorem pairing_channel_secure (d p : SecretKey) qr nb m :
  let dk := generate d in let pk := generate p in
  let t := transcript qr (public_sec1 dk) (public_sec1 pk) in
  let desktop := establish Desktop dk (pk_public pk) t in
  let phone := establish Phone pk (pk_public dk) t in
  parse_public (public_sec1 pk) = Ok (pk_public pk)
  /\ open phone (seal nb desktop m) = Ok m /\ open desktop (seal nb phone m) = Ok m
  /\ (forall qr' dk' pk', transcript qr' (public_sec1 dk') (public_sec1 pk') = t ->
        qr' = qr /\ pk_public dk' = pk_public dk /\ pk_public pk' = pk_public pk)
  /\ (forall c m', open c (seal nb desktop m) = Ok m' ->
        recv_key c = recv_key phone \/ cc_forgery (send_key desktop) nb (recv_key c) AAD m)
  /\ forall c b, open c b <> Panic.
Proof.
  intros dk pk t desktop phone.
  assert (Hk : send_key desktop = recv_key phone /\ send_key phone = recv_key desktop).
  { unfold desktop, phone, establish. cbn. by rewrite dh_comm. }
  destruct Hk as [Hk1 Hk2]. repeat match goal with |- _ /\ _ => split end.
  - unfold parse_public, public_sec1. by rewrite from_to_sec1.
  - by rewrite open_sealed, Hk1, cc_dec_enc.
  - by rewrite open_sealed, Hk2, cc_dec_enc.
  - intros qr' dk' pk'. unfold t, transcript, public_sec1. rewrite !app_assoc. intros Ht.
    apply app_inj_2 in Ht as [Ht Hp]; [|by rewrite !sec1_length]. apply app_inj_2 in Ht as [-> Hd]; [|by rewrite !sec1_length].
    by apply to_sec1_inj in Hp as ->, Hd as ->.
  - intros c m' Ho. rewrite open_sealed in Ho. rewrite <- Hk1. destruct (decide (recv_key c = send_key desktop)); [by left|].
    right. split; [done|]. by destruct (cc_decrypt _ _ _ _); [eexists|].
  - intros c b. unfold open. no_panic.
Qed.
End claims.

(** A toy curve and cipher on which the claim is evaluated. *)
Module PairDemo.
Definition toy_p256 : P256 := {|
  SecretKey := byte; PublicKey := byte; public_key s := s;
  to_sec1_bytes p := repeat p 65; from_sec1_bytes b := head b;
  diffie_hellman a b := arr_fill 32 (byte_of_Z (byte_to_Z a * byte_to_Z b)) |}.
Definition cc_tag (k : Key32) (n : arr 12) (ad m : bytes) : bytes :=
  le_bytes 16 (toy_sum [arr_bytes k; arr_bytes n; le_bytes 8 (Z.of_nat (length ad)); ad; m]).
Definition toy_chacha : ChaCha := {|
  cc_encrypt k n ad m := m ++ cc_tag k n ad m;
  cc_decrypt k n ad c :=
    let m := take (length c - 16) c in if bool_decide (c = m ++ cc_tag k n ad m) then Some m else None |}.

Lemma toy_p256_laws : P256Laws toy_p256.
Proof.
  split; cbn [toy_p256 PublicKey SecretKey to_sec1_bytes from_sec1_bytes diffie_hellman public_key].
  - intros p. apply repeat_length.
  - done.
  - intros p q H. by injection H.
  - intros a b. by rewrite Z.mul_comm.
Qed.

Lemma toy_chacha_laws : ChaChaLaws toy_chacha.
Proof.
  split; cbn [toy_chacha cc_encrypt cc_decrypt]; unfold cc_tag; intros k n ad m.
  - rewrite length_app, length_le_bytes, Nat.add_sub, take_app_length. by rewrite bool_decide_true.
  - by rewrite length_app, length_le_bytes.
Qed.

Definition end_key (s : byte) : Pairing.PairKey (E := toy_p256) := Pairing.generate (E := toy_p256) s.
End PairDemo.

Lemma pairing_channel_secure_witness :
  Pairing.parse_public (E := PairDemo.toy_p256) (Pairing.public_sec1 (PairDemo.end_key x05))
  = Ok (Pairing.pk_public (PairDemo.end_key x05)).
Proof.
  apply (pairing_channel_secure (E := PairDemo.toy_p256) (EL := PairDemo.toy_p256_laws)
           (CC := PairDemo.toy_chacha) (CL := PairDemo.toy_chacha_laws)
           x03 x05 (utf8 (lit "qr")) (arr_fill 12 x01) (utf8 (lit "share"))).
Defined.
