(* ===== verification/Generator.v ===== *)
(** [crates/core/src/generator]: random passwords and passphrases. The operating system's random
    source and [zxcvbn] are parameters: a draw below a bound and a shuffle, numbered by the call. *)
From S2P Require Import Prelude Bytes Text Crypto Floats.
Local Open Scope Z_scope.

(** The [rand] crate: the [i]-th draw of [gen_range(0..n)] and a shuffle. *)
Class Rng : Type := {
  gen_range : nat -> nat -> nat;
  shuffle : list Z -> list Z;
}.
Class RngLaws (R : Rng) : Prop := {
  gen_range_lt i n : (0 < n)%nat -> (gen_range i n < n)%nat;
  shuffle_perm l : shuffle l ≡ₚ l;
}.

(** The base-2 logarithm of the floating-point library. *)
Class Libm : Type := { log2 : f64 -> f64 }.

(** The [zxcvbn] crate: a score from 0 to 4 and its display of the crack time. *)
Class Zxcvbn : Type := { zxcvbn : text -> list text -> Z * text }.

Module Generator.
Record PasswordSpec : Type := MkPasswordSpec {
  length_ : nat; lower : bool; upper : bool; digits : bool; symbols : bool; exclude_ambiguous : bool }.

Definition PasswordSpec_default : PasswordSpec := MkPasswordSpec 20 true true true true false.

Definition LOWER : text := lit "abcdefghijkmnpqrstuvwxyz".
Definition LOWER_AMBIG : text := lit "l o".
Definition UPPER : text := lit "ABCDEFGHJKLMNPQRSTUVWXYZ".
Definition DIGITS : text := lit "23456789".
Definition DIGITS_AMBIG : text := lit "0 1".
Definition SYMBOLS : text := lit "!@#$%^&*()-_=+[]{};:,.?".

(** [str::split_whitespace]. *)
Fixpoint words_of (word : text) (s : text) : list text :=
  match s with
  | [] => match word with [] => [] | _ => [reverse word] end
  | c :: s => if is_whitespace c then match word with [] => words_of [] s | _ => reverse word :: words_of [] s end
              else words_of (c :: word) s
  end.
Definition split_whitespace (s : text) : list text := words_of [] s.

Definition push_class (spec : PasswordSpec) (base ambiguous : text) : list Z :=
  if exclude_ambiguous spec then base else base ++ omap head (split_whitespace ambiguous).

Definition classes (spec : PasswordSpec) : list (list Z) :=
  (if lower spec then [push_class spec LOWER LOWER_AMBIG] else [])
  ++ (if upper spec then [push_class spec UPPER (lit "I O")] else [])
  ++ (if digits spec then [push_class spec DIGITS DIGITS_AMBIG] else [])
  ++ (if symbols spec then [push_class spec SYMBOLS []] else []).

Section ops.
Context {R : Rng}.

(** [v[rng.gen_range(0..v.len())]], where an empty range and an index out of range panic. *)
Definition choose {A} (i : nat) (v : list A) : Result A :=
  guard (0 <? length v)%nat else Panic in
  match v !! gen_range i (length v) with Some x => Ok x | None => Panic end.

(** One character of each class, in order. *)
Fixpoint one_each (i : nat) (cs : list (list Z)) : Result (list Z) :=
  match cs with
  | [] => Ok []
  | c :: cs => let? x := choose i c in let? l := one_each (S i) cs in Ok (x :: l)
  end.

(** The rest, from the union. *)
Fixpoint fill (i n : nat) (union : list Z) : Result (list Z) :=
  match n with
  | O => Ok []
  | S n => let? x := choose i union in let? l := fill (S i) n union in Ok (x :: l)
  end.

Definition password (spec : PasswordSpec) : Result text :=
  let cs := classes spec in
  guard negb (length cs =? 0)%nat else Err (Invalid "no character classes enabled") in
  guard negb (length_ spec <? length cs)%nat
    else Err (Invalid ("length " +:+ pretty (length_ spec) +:+ " too short for " +:+ pretty (length cs) +:+ " required classes")) in
  let? out := one_each 0 cs in
  let? rest := fill (length cs) (length_ spec - length out) (concat cs) in
  Ok (shuffle (out ++ rest)).
End ops.

(** ** Passphrases *)

Definition WORDS : list text := map lit [
  "able"; "acid"; "acorn"; "actor"; "agile"; "album"; "alert"; "alien"; "alloy"; "amber"; "anchor"; "angle";
  "ankle"; "apple"; "apron"; "arbor"; "arch"; "arena"; "armor"; "arrow"; "aspen"; "atlas"; "atom"; "aunt";
  "autumn"; "axis"; "bacon"; "badge"; "bagel"; "baker"; "balmy"; "banjo"; "barge"; "basil"; "batch"; "beach";
  "beam"; "beard"; "beaver"; "bench"; "berry"; "bison"; "blade"; "blaze"; "bloom"; "board"; "bolt"; "bonus";
  "boot"; "boulder"; "brave"; "bread"; "brick"; "bridge"; "brisk"; "bronze"; "brook"; "broom"; "brush";
  "bubble"; "bunny"; "cabin"; "cable"; "cactus"; "camel"; "candle"; "canoe"; "canyon"; "carbon"; "cargo";
  "carol"; "carrot"; "castle"; "cedar"; "cello"; "chalk"; "charm"; "cherry"; "chess"; "chime"; "cider";
  "cinema"; "circle"; "citrus"; "clamp"; "clay"; "cliff"; "cloak"; "clover"; "cobra"; "cocoa"; "comet";
  "compass"; "copper"; "coral"; "cotton"; "cougar"; "crane"; "crater"; "crayon"; "cream"; "crest"; "cricket";
  "crimson"; "crisp"; "crown"; "crystal"; "cube"; "curtain"; "cyan"; "daisy"; "dance"; "dawn"; "delta";
  "denim"; "desert"; "diamond"; "dolphin"; "domino"; "donut"; "dragon"; "dream"; "drift"; "drum"; "dusk";
  "eagle"; "east"; "ebony"; "echo"; "eclipse"; "elbow"; "ember"; "emerald"; "engine"; "ethos"; "fable";
  "falcon"; "fancy"; "feather"; "fern"; "fiber"; "fiddle"; "finch"; "flame"; "flint"; "float"; "flora";
  "fluke"; "flute"; "foggy"; "forest"; "fossil"; "fox"; "frost"; "galaxy"; "garden"; "garlic"; "gecko";
  "ginger"; "glacier"; "glide"; "globe"; "glow"; "gnome"; "golden"; "gopher"; "grape"; "grass"; "gravel";
  "grove"; "guitar"; "hammer"; "harbor"; "harvest"; "hazel"; "hedge"; "helm"; "heron"; "hickory"; "hollow";
  "honey"; "hornet"; "husky"; "igloo"; "index"; "indigo"; "iris"; "island"; "ivory"; "jacket"; "jaguar";
  "jasmine"; "jelly"; "jewel"; "jigsaw"; "jolly"; "jungle"; "juniper"; "kayak"; "kelp"; "kettle"; "kitten";
  "koala"; "ladder"; "lagoon"; "lantern"; "lava"; "leaf"; "ledger"; "lemon"; "lentil"; "lever"; "lilac";
  "linen"; "lizard"; "llama"; "lobster"; "locket"; "lotus"; "lunar"; "lynx"; "magnet"; "maple"; "marble";
  "marsh"; "meadow"; "melon"; "meteor"; "mint"; "mirror"; "mist"; "mocha"; "moose"; "mosaic"; "moss";
  "mountain"; "muffin"; "mural"; "mushroom"; "nebula"; "nectar"; "needle"; "nickel"; "noble"; "north";
  "nugget"; "oak"; "oasis"; "ocean"; "olive"; "onyx"; "opal"; "orbit"; "orchid"; "otter"; "oval"; "owl";
  "oxide"; "oyster"; "paddle"; "palace"; "panda"; "papaya"; "parrot"; "pasta"; "peach"; "pearl"; "pebble";
  "penguin"; "pepper"; "petal"; "pewter"; "phoenix"; "piano"; "pigeon"; "pilot"; "pine"; "planet"; "plum";
  "pocket"; "pollen"; "pond"; "poppy"; "portal"; "potato"; "prairie"; "prism"; "puffin"; "pumpkin"; "quartz";
  "quiet"; "quilt"; "quiver"; "rabbit"; "radar"; "raft"; "rain"; "ranch"; "raven"; "reef"; "relic"; "ribbon";
  "ridge"; "river"; "robin"; "rocket"; "rose"; "ruby"; "rudder"; "rustic"; "saddle"; "salmon"; "sand";
  "sapphire"; "satin"; "scarf"; "scout"; "sculpt"; "seal"; "sequoia"; "shadow"; "shell"; "shrub"; "silk";
  "silver"; "sketch"; "sled"; "slope"; "snail"; "snow"; "socket"; "solar"; "sonnet"; "spark"; "sparrow";
  "spice"; "spiral"; "spruce"; "squid"; "stag"; "stone"; "storm"; "stream"; "sugar"; "summit"; "sunset";
  "swan"; "sword"; "syrup"; "tango"; "teak"; "temple"; "thistle"; "thunder"; "tiger"; "timber"; "toast";
  "topaz"; "torch"; "tower"; "trail"; "trout"; "tulip"; "tundra"; "turtle"; "twig"; "umber"; "unity";
  "urchin"; "valley"; "vanilla"; "velvet"; "vine"; "violet"; "viper"; "vista"; "vortex"; "walnut"; "walrus";
  "wander"; "wasp"; "water"; "wave"; "weasel"; "wheat"; "whisker"; "willow"; "window"; "winter"; "wizard";
  "wolf"; "wombat"; "wood"; "yarn"; "yeast"; "yield"; "yodel"; "zebra"; "zenith"; "zephyr"; "zinc"; "zodiac"].

Record PassphraseSpec : Type := MkPassphraseSpec {
  pp_words : nat; separator : text; capitalize : bool; include_number : bool }.

Definition PassphraseSpec_default : PassphraseSpec := MkPassphraseSpec 6 (lit "-") true true.

Definition unique_word_count : nat := length WORDS.

Definition capitalized (w : text) : text :=
  match w with [] => [] | c :: w => to_ascii_uppercase c :: w end.

Section phrases.
Context {R : Rng} {M : Libm}.

Definition bits_per_word : f64 := log2 (F64.of_Z (Z.of_nat unique_word_count)).

Fixpoint draw_words (spec : PassphraseSpec) (i n : nat) : Result (list text) :=
  match n with
  | O => Ok []
  | S n =>
      let? w := choose i WORDS in
      let? l := draw_words spec (S i) n in
      Ok ((if capitalize spec then capitalized w else w) :: l)
  end.

Definition passphrase (spec : PassphraseSpec) : Result (text * f64) :=
  guard negb (pp_words spec =? 0)%nat else Err (Invalid "passphrase needs at least one word") in
  let? parts := draw_words spec 0 (pp_words spec) in
  let phrase := join (separator spec) parts in
  let entropy := F64.mul (F64.of_Z (Z.of_nat (pp_words spec))) bits_per_word in
  if include_number spec then
    let n := gen_range (pp_words spec) 1000 in
    Ok (phrase ++ separator spec ++ show_dec (Z.of_nat n), F64.add entropy (log2 (F64.of_Z 1000)))
  else Ok (phrase, entropy).
End phrases.

(** ** Strength *)

Record Strength : Type := MkStrength { score : Z; crack_display : text }.

Definition assess {Zx : Zxcvbn} (password : text) (user_inputs : list text) : Strength :=
  let '(s, d) := zxcvbn password user_inputs in MkStrength s d.

Definition is_weak {Zx : Zxcvbn} (password : text) (user_inputs : list text) : bool :=
  score (assess password user_inputs) <? 3.

(** ** Facts *)

Section facts.
Context {R : Rng} {RL : RngLaws R}.

Lemma choose_Ok {A} i (v : list A) : v <> [] -> exists x, choose i v = Ok x /\ x ∈ v.
Proof.
  intros Hv. unfold choose. assert (Hn : (0 < length v)%nat) by (destruct v; [done|cbn; lia]).
  rewrite (proj2 (Nat.ltb_lt _ _) Hn).
  destruct (lookup_lt_is_Some_2 v (gen_range i (length v))) as [x Hx]; [by apply gen_range_lt|].
  rewrite Hx. exists x. split; [done|]. by apply list_elem_of_lookup_2 in Hx.
Qed.

Lemma one_each_Ok i cs : Forall (fun c => c <> []) cs -> exists l, one_each i cs = Ok l /\ Forall2 (fun x c => x ∈ c) l cs.
Proof.
  revert i; induction cs as [|c cs IH]; intros i Hcs; cbn; [by exists []|]. apply Forall_cons in Hcs as [Hc Hcs].
  destruct (choose_Ok i c Hc) as (x & -> & Hx). destruct (IH (S i) Hcs) as (l & -> & Hl). cbn. eauto.
Qed.

Lemma fill_Ok i n u : u <> [] -> exists l, fill i n u = Ok l /\ length l = n /\ Forall (fun x => x ∈ u) l.
Proof.
  intros Hu. revert i; induction n as [|n IH]; intros i; cbn; [by exists []|].
  destruct (choose_Ok i u Hu) as (x & -> & Hx). destruct (IH (S i)) as (l & -> & Hl & Hf). cbn.
  exists (x :: l). split; [done|]. split; [cbn; lia|]. by constructor.
Qed.

Lemma classes_nonempty spec : Forall (fun c => c <> []) (classes spec).
Proof.
  unfold classes, push_class. destruct spec as [n [] [] [] [] []]; cbn; repeat constructor; discriminate.
Qed.

Lemma draw_words_Ok spec i n :
  exists ws, draw_words spec i n = Ok (map (fun w => if capitalize spec then capitalized w else w) ws)
    /\ length ws = n /\ Forall (fun w => w ∈ WORDS) ws.
Proof.
  revert i; induction n as [|n IH]; intros i; cbn [draw_words]; [by exists []|].
  destruct (choose_Ok i WORDS) as (w & -> & Hw); [done|]. destruct (IH (S i)) as (ws & -> & Hl & Hf). cbn [rbind].
  exists (w :: ws). split; [done|]. split; [cbn; lia|]. by constructor.
Qed.
End facts.
End Generator.

Section claims.
Context {R : Rng} {RL : RngLaws R} {M : Libm}.
Import Generator.

(** Generated passwords meet their specification. With at least one class and a length that
    has room for one character of each, a password is returned, of exactly that length, with a
    character of every enabled class and none of any other; with ambiguous glyphs excluded it has
    none of [l o I O 0 1]. Otherwise the request is refused. It never panics. *)
Theorem password_meets_spec spec :
  (classes spec <> [] /\ (length (classes spec) <= length_ spec)%nat -> exists pw, password spec = Ok pw
     /\ length pw = length_ spec
     /\ Forall (fun c => exists x, x ∈ pw /\ x ∈ c) (classes spec)
     /\ Forall (fun x => x ∈ concat (classes spec)) pw
     /\ (exclude_ambiguous spec = true -> Forall (fun x => x ∉ lit "loIO01") pw))
  /\ (classes spec = [] \/ (length_ spec < length (classes spec))%nat -> exists e, password spec = Err e).
Proof.
  split.
  - intros [Hc Hl]. unfold password. destruct (length (classes spec) =? 0)%nat eqn:E0; bools.
    { by apply length_zero_iff_nil in E0. }
    rewrite (proj2 (Nat.ltb_ge _ _)) by done. cbn [negb].
    destruct (one_each_Ok 0 (classes spec) (classes_nonempty spec)) as (out & Ho & Hout). rewrite Ho. cbn [rbind].
    assert (Hlen := Forall2_length _ _ _ Hout).
    destruct (fill_Ok (length (classes spec)) (length_ spec - length out) (concat (classes spec))) as (rest & -> & Hr & Hf).
    { destruct (classes spec) as [|[|x c] cs] eqn:E; [done| |done]. pose proof (classes_nonempty spec) as Hn. rewrite E in Hn.
      by apply Forall_cons in Hn as [? _]. }
    cbn [rbind]. exists (shuffle (out ++ rest)). split; [done|].
    assert (Hin : Forall (fun x => x ∈ concat (classes spec)) (out ++ rest)).
    { apply Forall_app. split; [|done]. clear -Hout. induction Hout; cbn; constructor; [set_solver|].
      eapply Forall_impl; [exact IHHout|]. set_solver. }
    split; [rewrite shuffle_perm, length_app; lia|]. split; [|split].
    + assert (Hall : Forall (fun c => exists x, x ∈ out ++ rest /\ x ∈ c) (classes spec)).
      { clear -Hout. induction Hout as [|x c l cs Hx _ IH]; constructor; [exists x; set_solver|].
        eapply Forall_impl; [exact IH|]. intros c' (y & Hy & Hc). exists y. set_solver. }
      eapply Forall_impl; [exact Hall|]. intros c (x & Hx & Hxc). exists x. by rewrite shuffle_perm.
    + by rewrite shuffle_perm.
    + intros He. rewrite shuffle_perm. eapply Forall_impl; [exact Hin|]. intros x Hx Hbad.
      assert (Hd : Forall (fun x => x ∉ concat (classes spec)) (lit "loIO01")).
      { unfold classes, push_class. rewrite He. apply (bool_decide_unpack _). by destruct (lower spec), (upper spec), (digits spec), (symbols spec); vm_compute. }
      rewrite Forall_forall in Hd. by apply (Hd x).
  - intros H. unfold password. destruct (length (classes spec) =? 0)%nat eqn:E0; [by eexists|]. cbn [negb].
    destruct H as [H|H]; [by rewrite H in E0|]. rewrite (proj2 (Nat.ltb_lt _ _) H). by eexists.
Qed.

(** Generated passphrases are words of the list. The list has no duplicates, so the entropy
    counted per word is that of a uniform choice; a phrase of [n] words is [n] list words,
    capitalized or not, joined by the separator, with a number below 1000 appended on request. *)
Theorem passphrase_shape spec :
  NoDup WORDS /\ unique_word_count = 402%nat
  /\ (pp_words spec = 0%nat -> exists e, passphrase spec = Err e)
  /\ (pp_words spec <> 0%nat -> exists ws n h, passphrase spec = Ok (join (separator spec)
        (map (fun w => if capitalize spec then capitalized w else w) ws)
        ++ (if include_number spec then separator spec ++ show_dec n else []), h)
      /\ length ws = pp_words spec /\ Forall (fun w => w ∈ WORDS) ws /\ 0 <= n < 1000).
Proof.
  split; [by apply (bool_decide_unpack _); vm_compute|]. split; [done|]. unfold passphrase. split.
  - intros ->. by eexists.
  - intros Hn. rewrite (proj2 (Nat.eqb_neq _ _) Hn). cbn [negb].
    destruct (draw_words_Ok spec 0 (pp_words spec)) as (ws & -> & Hl & Hf). cbn [rbind].
    exists ws, (Z.of_nat (gen_range (pp_words spec) 1000)). pose proof (gen_range_lt (pp_words spec) 1000).
    destruct (include_number spec); eexists; (split; [rewrite ?app_nil_r; reflexivity|]); (split; [done|]); split; [done|lia|done|lia].
Qed.
End claims.

(** A random source that always draws the first element. *)
Module GenDemo.
#[export] Instance first_rng : Rng := {| gen_range _ _ := 0%nat; shuffle l := l |}.
#[export] Instance first_rng_laws : RngLaws first_rng.
Proof. split; cbn; [lia|done]. Qed.
#[export] Instance flat_libm : Libm := {| log2 x := x |}.
End GenDemo.
Import GenDemo.

Lemma password_meets_spec_witness :
  exists pw, Generator.password Generator.PasswordSpec_default = Ok pw /\ length pw = 20%nat.
Proof.
  destruct (password_meets_spec Generator.PasswordSpec_default) as [H _].
  destruct H as (pw & H1 & H2 & _); [split; [discriminate|vm_compute; lia]|]. by exists pw.
Defined.

Lemma passphrase_shape_witness :
  exists ws n h, Generator.passphrase Generator.PassphraseSpec_default
    = Ok (join (lit "-") (map Generator.capitalized ws) ++ lit "-" ++ show_dec n, h).
Proof.
  destruct (passphrase_shape Generator.PassphraseSpec_default) as (_ & _ & _ & H).
  destruct H as (ws & n & h & H & _); [discriminate|]. by exists ws, n, h.
Defined.
