(* ===== verification/Health.v ===== *)
(** [crates/core/src/health]: the password audit and the k-anonymity breach lookup. SHA-1, the HTTP
    client and the strength estimate are parameters. The groups of reused passwords come in the
    order of [gmap]; the order of a [HashMap] is not specified, and nothing below depends on it. *)
From S2P Require Import Prelude Bytes Text Crypto Floats Toy RecoveryKit Keyring Model Generator.
Local Open Scope Z_scope.

Class Sha1 : Type := { sha1 : bytes -> arr 20 }.

(** * [hibp.rs] *)

Module Hibp.
(** [format!("{b:02X}")]. *)
Definition hex_upper (n : Z) : Z := if n <? 10 then 48 + n else 55 + n.
Definition hex02 (b : byte) : text := [hex_upper (byte_to_Z b / 16); hex_upper (byte_to_Z b mod 16)].

Definition sha1_prefix_suffix {S : Sha1} (password : text) : text * text :=
  let hex := concat (map hex02 (sha1 (utf8 password))) in
  (take 5 hex, drop 5 hex).

(** [str::lines]: split at line feeds, drop a final empty line and one trailing carriage return. *)
Definition strip_cr (l : text) : text :=
  match reverse l with 13 :: r => reverse r | _ => l end.
Fixpoint drop_last_empty (ls : list text) : list text :=
  match ls with [] => [] | [[]] => [] | l :: ls => l :: drop_last_empty ls end.
Definition lines (s : text) : list text := map strip_cr (drop_last_empty (split 10 s)).

Fixpoint count_in (ls : list text) (suffix : text) : Z :=
  match ls with
  | [] => 0
  | l :: ls =>
      match split_once 58 (trim l) with
      | Some (s, c) => if eq_ignore_ascii_case s suffix then default 0 (parse_unsigned (2 ^ 32 - 1) (trim c)) else count_in ls suffix
      | None => count_in ls suffix
      end
  end.

Definition count_from_range (body suffix : text) : Z := count_in (lines body) suffix.

(** The trait, and its three implementations. *)
Definition HibpClient : Type := text -> Result Z.

Definition MockHibp : HibpClient := fun password =>
  Ok (if decide (password = lit "password") then 9659365
      else if decide (password = lit "123456") then 37359195
      else if decide (password = lit "hunter2-reused") then 4210
      else if decide (password = lit "qwerty") then 3912816
      else 0).

Definition NoHibp : HibpClient := fun _ => Ok 0.

(** [get url] is the body of the response, or the client's error. *)
Definition RealHibp {S : Sha1} (get : text -> string + text) : HibpClient := fun password =>
  let '(prefix, suffix) := sha1_prefix_suffix password in
  let url := lit "https://api.pwnedpasswords.com/range/" ++ prefix in
  match get url with
  | inl e => Err (Network e)
  | inr body => Ok (count_from_range body suffix)
  end.
End Hibp.

(** * [audit.rs] *)

Module Audit.
Definition ReusedGroup : Type := list Uuid.

Record AuditReport : Type := MkAuditReport {
  reused : list ReusedGroup;
  weak : list (Uuid * Z);
  old : list (Uuid * Z);
  breached : list (Uuid * Z);
  score : Z;
}.

Definition OLD_THRESHOLD_DAYS : Z := 180.
Definition SECS_PER_DAY : Z := 86400.

(** [x as i32]. *)
Definition as_i32 (x : Z) : Z := (x + 2 ^ 31) mod 2 ^ 32 - 2 ^ 31.

Definition compute_score (total_items : nat) (r : AuditReport) : Z :=
  if (total_items =? 0)%nat then 100
  else
    let reused_items := list_sum (map (fun g => length g) (reused r)) in
    let n (k : nat) := as_i32 (Z.of_nat k) in
    let penalties := as_i32 (n reused_items * 8 + n (length (weak r)) * 6 + n (length (breached r)) * 12 + n (length (old r)) * 3) in
    Z.max 0 (Z.min 100 (as_i32 (100 - penalties))).

(** The map from a password to the items that have it, in order. *)
Definition by_password (items : list Item.t) : gmap text (list Uuid) :=
  fold_left (fun m it => match Item.password it with
                         | Some pw => <[pw := default [] (m !! pw) ++ [Item.id it]]> m
                         | None => m
                         end) items ∅.

Section audit.
Context {Zx : Zxcvbn}.

Definition weak_of (it : Item.t) (pw : text) : list (Uuid * Z) :=
  let user_inputs := match Item.username it with Some u => [u] | None => [] end ++ [Item.title it] in
  let s := Generator.assess pw user_inputs in
  if Generator.score s <? 3 then [(Item.id it, Generator.score s)] else [].

Definition old_of (now : Z) (it : Item.t) : list (Uuid * Z) :=
  match Item.password_changed_at it with
  | Some changed =>
      let age_days := Z.quot (now - changed) SECS_PER_DAY in
      if OLD_THRESHOLD_DAYS <? age_days then [(Item.id it, age_days)] else []
  | None => []
  end.

Definition breached_of (hibp : Hibp.HibpClient) (it : Item.t) (pw : text) : list (Uuid * Z) :=
  match hibp pw with
  | Ok count => if 0 <? count then [(Item.id it, count)] else []
  | _ => []
  end.

Fixpoint scan (now : Z) (hibp : Hibp.HibpClient) (items : list Item.t) (r : AuditReport) : AuditReport :=
  match items with
  | [] => r
  | it :: items =>
      match Item.password it with
      | None => scan now hibp items r
      | Some pw => scan now hibp items
          (MkAuditReport (reused r) (weak r ++ weak_of it pw) (old r ++ old_of now it)
             (breached r ++ breached_of hibp it pw) (score r))
      end
  end.

Definition run_audit (items : list Item.t) (now : Z) (hibp : Hibp.HibpClient) : AuditReport :=
  let groups := List.filter (fun ids => (1 <? length ids)%nat) (map snd (map_to_list (by_password items))) in
  let report := scan now hibp items (MkAuditReport groups [] [] [] 0) in
  MkAuditReport (reused report) (weak report) (old report) (breached report) (compute_score (length items) report).
End audit.
End Audit.

(** * The range lookup *)

Section hibp_claims.
Context {S1 : Sha1}.
Import Hibp.

Lemma drop_last_cons l ls : ls <> [] -> drop_last_empty (l :: ls) = l :: drop_last_empty ls.
Proof. destruct l, ls; done. Qed.

Lemma lines_crlf l rest : 10 ∉ l -> lines (l ++ [13; 10] ++ rest) = l :: lines rest.
Proof.
  intros Hl. unfold lines. replace (l ++ [13; 10] ++ rest) with ((l ++ [13]) ++ 10 :: rest) by (by rewrite <- app_assoc).
  rewrite split_app by set_solver. rewrite drop_last_cons by apply split_not_nil. cbn [map]. f_equal.
  unfold strip_cr. rewrite reverse_snoc. apply reverse_involutive.
Qed.

(** The response format: one line [SUFFIX:COUNT] per known suffix. *)
Definition range_line (e : text * Z) : text := fst e ++ [58] ++ show_dec (snd e).
Definition range_body (es : list (text * Z)) : text := concat (map (fun e => range_line e ++ [13; 10]) es).

(** Suffixes are printable and have no colon; counts are 32-bit. *)
Definition range_entry (e : text * Z) : Prop :=
  Forall (fun c => 33 <= c <= 126 /\ c <> 58) (fst e) /\ 0 <= snd e < 2 ^ 32.

Lemma count_in_range es suffix rest :
  Forall range_entry es ->
  count_in (lines (range_body es ++ rest)) suffix
  = match List.find (fun e => eq_ignore_ascii_case (fst e) suffix) es with
    | Some e => snd e
    | None => count_in (lines rest) suffix
    end.
Proof.
  induction es as [|[sf n] es IH]; intros Hes; [done|]. apply Forall_cons in Hes as [[Hs Hn] Hes]. cbn in Hs, Hn.
  unfold range_body. cbn [map concat]. fold (range_body es). rewrite <- !app_assoc, lines_crlf.
  2:{ unfold range_line. cbn. rewrite elem_of_app, elem_of_cons. intros [Hin|[Hin|Hin]]; [|done|].
      - rewrite Forall_forall in Hs. apply Hs in Hin. lia.
      - assert (Hp := show_dec_printable n ltac:(lia)). rewrite Forall_forall in Hp. apply Hp in Hin. lia. }
  cbn [count_in List.find fst snd]. rewrite trim_printable.
  2:{ unfold range_line. cbn. apply Forall_app. split; [eapply Forall_impl; [exact Hs|]; cbn; lia|].
      constructor; [lia|]. apply show_dec_printable. lia. }
  unfold range_line. cbn [fst snd app]. rewrite split_once_app.
  2:{ intros Hin. rewrite Forall_forall in Hs. apply Hs in Hin. lia. }
  destruct (eq_ignore_ascii_case sf suffix); [|by apply IH].
  rewrite trim_printable by (apply show_dec_printable; lia). rewrite parse_unsigned_show_dec, (proj2 (Z.leb_le _ _)) by lia. done.
Qed.

(** The breach lookup is private and exact. The URL asked for carries five characters of the
    hash and nothing else of the password; the rest of the 40 is compared here; and on a response
    in the documented format the count returned is that of the line with the password's suffix,
    in either case of letters, or 0 when there is none. *)
Theorem hibp_lookup_exact get password es :
  Forall range_entry es ->
  let '(prefix, suffix) := sha1_prefix_suffix password in
  length prefix = 5%nat /\ length suffix = 35%nat
  /\ prefix ++ suffix = concat (map hex02 (sha1 (utf8 password)))
  /\ (get (lit "https://api.pwnedpasswords.com/range/" ++ prefix) = inr (range_body es) ->
      RealHibp get password = Ok (match List.find (fun e => eq_ignore_ascii_case (fst e) suffix) es with
                                  | Some e => snd e | None => 0 end)).
Proof.
  intros Hes. destruct (sha1_prefix_suffix password) as [prefix suffix] eqn:E. pose proof E as E0.
  unfold sha1_prefix_suffix in E. injection E as <- <-.
  assert (Hl : length (concat (map hex02 (sha1 (utf8 password)))) = 40%nat).
  { assert (Hn := length_arr (sha1 (utf8 password))). revert Hn. generalize (arr_bytes (sha1 (utf8 password))).
    intros l Hn. replace 40%nat with (2 * length l)%nat by lia. clear. induction l; cbn; lia. }
  split; [rewrite length_take; lia|]. split; [rewrite length_drop; lia|]. split; [apply take_drop|].
  intros Hg. unfold RealHibp. rewrite E0, Hg. f_equal. unfold count_from_range.
  rewrite <- (app_nil_r (range_body es)), count_in_range by done. done.
Qed.
End hibp_claims.

(** * The audit *)

Section audit_claims.
Context {Zx : Zxcvbn}.
Import Audit.

(** The items with a password, in order. *)
Definition ids_with (pw : text) (items : list Item.t) : list Uuid :=
  map Item.id (List.filter (fun it => bool_decide (Item.password it = Some pw)) items).

Lemma by_password_snoc items it :
  by_password (items ++ [it]) = match Item.password it with
    | Some pw => <[pw := default [] (by_password items !! pw) ++ [Item.id it]]> (by_password items)
    | None => by_password items
    end.
Proof. unfold by_password. by rewrite fold_left_app. Qed.

Lemma by_password_lookup items pw :
  by_password items !! pw = let l := ids_with pw items in if bool_decide (l = []) then None else Some l.
Proof.
  induction items as [|it items IH] using rev_ind; [done|]. rewrite by_password_snoc. unfold ids_with in *.
  rewrite List.filter_app, map_app. cbn [List.filter]. destruct (Item.password it) as [pw'|] eqn:Ep.
  - destruct (decide (pw' = pw)) as [->|Hne].
    + rewrite (bool_decide_true (Some pw = Some pw)) by done. rewrite lookup_insert_eq, IH. cbn.
      rewrite (bool_decide_false (_ ++ _ = [])) by (by intros [_ ?]%app_nil). f_equal. by case_bool_decide as H; [rewrite H|].
    + rewrite (bool_decide_false (Some pw' = Some pw)) by congruence. cbn. rewrite app_nil_r, lookup_insert_ne by done. exact IH.
  - rewrite (bool_decide_false (None = Some pw)) by congruence. cbn. rewrite app_nil_r. exact IH.
Qed.

Lemma scan_lists now hibp items r :
  let f {A} (g : Item.t -> text -> list A) := flat_map (fun it => match Item.password it with Some pw => g it pw | None => [] end) items in
  let r' := scan now hibp items r in
  reused r' = reused r /\ weak r' = weak r ++ f weak_of /\ old r' = old r ++ f (fun it _ => old_of now it)
  /\ breached r' = breached r ++ f (breached_of hibp).
Proof.
  cbv zeta. revert r; induction items as [|it items IH]; intros r; cbn; [by rewrite !app_nil_r|].
  destruct (Item.password it) as [pw|]; [|apply IH]. destruct (IH (MkAuditReport (reused r) (weak r ++ weak_of it pw)
    (old r ++ old_of now it) (breached r ++ breached_of hibp it pw) (score r))) as (-> & -> & -> & ->). cbn.
  by rewrite <- !app_assoc.
Qed.

Lemma elem_of_scan {A} (g : Item.t -> text -> list A) items (x : A) :
  x ∈ flat_map (fun it => match Item.password it with Some pw => g it pw | None => [] end) items
  <-> exists it pw, it ∈ items /\ Item.password it = Some pw /\ x ∈ g it pw.
Proof.
  rewrite list_elem_of_In, in_flat_map. split.
  - intros (it & Hi & Hx). destruct (Item.password it) as [pw|] eqn:E; [|done]. exists it, pw.
    by rewrite !list_elem_of_In.
  - intros (it & pw & Hi & Hp & Hx). exists it. rewrite Hp. by rewrite <- !list_elem_of_In.
Qed.

Lemma as_i32_small x : - 2 ^ 31 <= x < 2 ^ 31 -> as_i32 x = x.
Proof. intros H. unfold as_i32. rewrite Z.mod_small; lia. Qed.

Lemma length_ids pw items : (length (ids_with pw items) <= length items)%nat.
Proof. unfold ids_with. rewrite length_map. apply filter_length_le. Qed.

(** The entries of a map from passwords to items, counted. *)
Definition entries (m : gmap text (list Uuid)) : nat := list_sum (map (fun g => length g) (map snd (map_to_list m))).

Lemma list_sum_perm (l l' : list nat) : Permutation l l' -> list_sum l = list_sum l'.
Proof. unfold list_sum. induction 1; cbn; lia. Qed.

Lemma entries_insert_fresh m k g : m !! k = None -> entries (<[k := g]> m) = (length g + entries m)%nat.
Proof.
  intros Hk. unfold entries. rewrite (list_sum_perm _ (map (fun g => length g) (map snd ((k, g) :: map_to_list m)))); [done|].
  by rewrite map_to_list_insert.
Qed.

Lemma entries_push m k x : entries (<[k := default [] (m !! k) ++ [x]]> m) = S (entries m).
Proof.
  destruct (m !! k) as [g|] eqn:E; cbn.
  - rewrite <- (insert_delete_id m k g E) at 2. rewrite <- (insert_delete_eq m).
    rewrite !entries_insert_fresh by apply lookup_delete_eq. rewrite length_app. cbn. lia.
  - rewrite entries_insert_fresh by done. done.
Qed.

Lemma entries_by_password items : (entries (by_password items) <= length items)%nat.
Proof.
  induction items as [|it items IH] using rev_ind; [done|]. rewrite by_password_snoc, length_app. cbn.
  destruct (Item.password it); [rewrite entries_push|]; lia.
Qed.

Lemma list_sum_filter (P : list Uuid -> bool) gs :
  (list_sum (map (fun g => length g) (List.filter P gs)) <= list_sum (map (fun g => length g) gs))%nat.
Proof. unfold list_sum. induction gs as [|g gs IH]; cbn; [done|]. destruct (P g); cbn; lia. Qed.

Lemma length_flat_map_le {A} (g : Item.t -> text -> list A) items :
  (forall it pw, length (g it pw) <= 1)%nat ->
  (length (flat_map (fun it => match Item.password it with Some pw => g it pw | None => [] end) items) <= length items)%nat.
Proof.
  intros Hg. induction items as [|it items IH]; cbn; [done|]. rewrite length_app.
  destruct (Item.password it) as [pw|]; cbn; [specialize (Hg it pw)|]; lia.
Qed.

Lemma elem_of_groups items g :
  g ∈ List.filter (fun ids => (1 <? length ids)%nat) (map snd (map_to_list (by_password items)))
  <-> (2 <= length g)%nat /\ exists pw, g = ids_with pw items.
Proof.
  rewrite list_elem_of_In, filter_In, in_map_iff, Nat.ltb_lt. split.
  - intros [([pw ids] & <- & Hin) Hl]. split; [done|]. exists pw. apply list_elem_of_In, elem_of_map_to_list in Hin.
    rewrite by_password_lookup in Hin. cbv zeta in Hin. cbn. by case_bool_decide; simplify_eq.
  - intros [Hl [pw ->]]. split; [|done]. exists (pw, ids_with pw items). split; [done|].
    apply list_elem_of_In, elem_of_map_to_list. rewrite by_password_lookup. cbv zeta. rewrite bool_decide_false; [done|].
    intros E. rewrite E in Hl. cbn in Hl. lia.
Qed.

(** What the report must hold: the items of each list, and the score as the documented formula. *)
Definition report_spec (items : list Item.t) (now : Z) (hibp : Hibp.HibpClient) (r : AuditReport) : Prop :=
  (forall g, g ∈ reused r <-> (2 <= length g)%nat /\ exists pw, g = ids_with pw items)
  /\ (forall i s, (i, s) ∈ weak r <-> exists it pw, it ∈ items /\ Item.password it = Some pw /\ Item.id it = i
        /\ s = Generator.score (Generator.assess pw (match Item.username it with Some u => [u] | None => [] end ++ [Item.title it]))
        /\ s < 3)
  /\ (forall i d, (i, d) ∈ old r <-> exists it pw t, it ∈ items /\ Item.password it = Some pw /\ Item.id it = i
        /\ Item.password_changed_at it = Some t /\ d = Z.quot (now - t) 86400 /\ 180 < d)
  /\ (forall i c, (i, c) ∈ breached r <-> exists it pw, it ∈ items /\ Item.password it = Some pw /\ Item.id it = i
        /\ hibp pw = Ok c /\ 0 < c).

Lemma run_audit_lists items now hibp : report_spec items now hibp (run_audit items now hibp).
Proof.
  unfold run_audit, report_spec. cbn [reused weak old breached].
  destruct (scan_lists now hibp items (MkAuditReport (List.filter (fun ids => (1 <? length ids)%nat)
    (map snd (map_to_list (by_password items)))) [] [] [] 0)) as (-> & -> & -> & ->).
  cbn [reused weak old breached app]. split; [apply elem_of_groups|]. split_and!; intros i x; rewrite elem_of_scan.
  - split; intros (it & pw & Hi & Hp & H); exists it, pw; (split; [done|]; split; [done|]); unfold weak_of in *; revert H.
    + destruct (_ <? 3) eqn:E; [|by intros ?%elem_of_nil]. intros [= -> ->]%list_elem_of_singleton. split_and!; try done. lia.
    + intros (<- & -> & H). rewrite (proj2 (Z.ltb_lt _ _) H). by apply list_elem_of_singleton.
  - unfold old_of, OLD_THRESHOLD_DAYS, SECS_PER_DAY. split.
    + intros (it & pw & Hi & Hp & H). destruct (Item.password_changed_at it) as [t|] eqn:Et; [|by apply elem_of_nil in H].
      destruct (180 <? _) eqn:E; [|by apply elem_of_nil in H]. apply list_elem_of_singleton in H as [= -> ->].
      exists it, pw, t. split_and!; try done. lia.
    + intros (it & pw & t & Hi & Hp & <- & Ht & -> & Hd). exists it, pw. split_and!; try done.
      rewrite Ht, (proj2 (Z.ltb_lt _ _) Hd). by apply list_elem_of_singleton.
  - split; intros (it & pw & Hi & Hp & H); exists it, pw; (split; [done|]; split; [done|]); unfold breached_of in *; revert H.
    + destruct (hibp pw) as [c|?|?]; [|by intros ?%elem_of_nil..]. destruct (0 <? c) eqn:E; [|by intros ?%elem_of_nil].
      intros [= -> ->]%list_elem_of_singleton. split_and!; try done. lia.
    + intros (<- & -> & H). rewrite (proj2 (Z.ltb_lt _ _) H). by apply list_elem_of_singleton.
Qed.

(** The penalty points of a report. *)
Definition points (r : AuditReport) : Z :=
  Z.of_nat (list_sum (map (fun g : ReusedGroup => length g) (reused r))) * 8 + Z.of_nat (length (weak r)) * 6
  + Z.of_nat (length (breached r)) * 12 + Z.of_nat (length (old r)) * 3.

Lemma points_bound items now hibp : 0 <= points (run_audit items now hibp) <= 29 * Z.of_nat (length items).
Proof.
  unfold run_audit, points. cbn [reused weak old breached].
  destruct (scan_lists now hibp items (MkAuditReport (List.filter (fun ids => (1 <? length ids)%nat)
    (map snd (map_to_list (by_password items)))) [] [] [] 0)) as (-> & -> & -> & ->).
  cbn [reused weak old breached app].
  assert (H1 := list_sum_filter (fun ids => (1 <? length ids)%nat) (map snd (map_to_list (by_password items)))).
  assert (H2 := entries_by_password items). unfold entries in H2.
  assert (H3 := length_flat_map_le weak_of items ltac:(intros; unfold weak_of; case_match; cbn; lia)).
  assert (H4 := length_flat_map_le (breached_of hibp) items ltac:(intros; unfold breached_of; repeat case_match; cbn; lia)).
  assert (H5 := length_flat_map_le (fun it _ => old_of now it) items ltac:(intros; unfold old_of; repeat case_match; cbn; lia)).
  unfold ReusedGroup in *. lia.
Qed.

Lemma compute_score_points n r :
  (0 < n)%nat -> 0 <= points r < 2 ^ 31 - 100 -> compute_score n r = Z.max 0 (100 - points r).
Proof.
  intros Hn Hp. unfold compute_score. destruct n as [|n]; [lia|]. cbn [Nat.eqb]. unfold points in *. cbv zeta. unfold ReusedGroup in *.
  rewrite !(as_i32_small (Z.of_nat _)) by lia. rewrite (as_i32_small (_ + _)) by lia. rewrite as_i32_small by lia. lia.
Qed.

Lemma score_run_audit items now hibp :
  score (run_audit items now hibp) = compute_score (length items) (run_audit items now hibp).
Proof. unfold run_audit. cbn [score]. unfold compute_score. cbn [reused weak old breached]. reflexivity. Qed.

(** The audit reports exactly what it says. The reused groups are the sets of two or more items
    with one password; the weak, old and breached lists have the items of score below 3, of age above
    180 days and of a positive breach count (an error of the lookup reports nothing), each with that
    number; and for a vault of up to 74 million items the 32-bit arithmetic of the score does not
    overflow: it is 100 less the penalties, no less than 0, so 100 exactly when there is no issue. *)
Theorem audit_exact items now hibp :
  29 * Z.of_nat (length items) < 2 ^ 31 - 100 ->
  let r := run_audit items now hibp in
  report_spec items now hibp r
  /\ score r = Z.max 0 (100 - points r)
  /\ 0 <= score r <= 100
  /\ (score r = 100 <-> reused r = [] /\ weak r = [] /\ old r = [] /\ breached r = []).
Proof.
  intros Hn. cbv zeta. assert (Hb := points_bound items now hibp). assert (Hl := run_audit_lists items now hibp).
  assert (Hs : score (run_audit items now hibp) = Z.max 0 (100 - points (run_audit items now hibp))).
  { destruct items as [|it items']; [done|]. rewrite score_run_audit. apply compute_score_points; [cbn|]; lia. }
  split; [exact Hl|]. split; [exact Hs|]. split; [lia|]. rewrite Hs. destruct Hl as [Hr _].
  revert Hb Hr. generalize (run_audit items now hibp). intros r Hb Hr. unfold points in *. split.
  - intros H. assert (Hg : reused r = []).
    { destruct (reused r) as [|g gs] eqn:E; [done|]. destruct (Hr g) as [[H2 _] _]; [left|]. cbn in H. lia. }
    rewrite Hg in *. cbn in H. split_and!; [done|apply length_zero_iff_nil; lia..].
  - intros (-> & -> & -> & ->). done.
Qed.
End audit_claims.

(** * Concrete instances *)

#[export] Instance len_sha1 : Sha1 := {| sha1 b := arr_le 20 (Z.of_nat (length b)) |}.
#[export] Instance len_zxcvbn : Zxcvbn := {| zxcvbn pw _ := (if (length pw <? 12)%nat then 1 else 4, []) |}.

Definition demo_suffix : text := snd (Hibp.sha1_prefix_suffix (lit "hunter2")).
Definition demo_entries : list (text * Z) := [(replicate 35 65, 3); (demo_suffix, 17043)].
Definition demo_get (url : text) : string + text :=
  if decide (url = lit "https://api.pwnedpasswords.com/range/" ++ fst (Hibp.sha1_prefix_suffix (lit "hunter2")))
  then inr (range_body demo_entries) else inl "connection refused"%string.

Lemma demo_entries_ok : Forall range_entry demo_entries.
Proof. apply (bool_decide_unpack _). vm_compute. exact I. Defined.

Lemma hibp_lookup_exact_witness : Hibp.RealHibp demo_get (lit "hunter2") = Ok 17043.
Proof.
  refine (eq_trans (proj2 (proj2 (proj2 (hibp_lookup_exact demo_get (lit "hunter2") demo_entries demo_entries_ok))) _) _);
    vm_compute; reflexivity.
Defined.

Definition demo_item (n : Z) (pw : text) (changed : Z) : Item.t :=
  let it := Item.new_login (arr_le 16 n) (lit "site") changed in
  Item.MkItem (Item.id it) (Item.item_type it) (Item.title it) [] [] None [] (Some (Login.MkLogin None (Some pw) None))
    None None None changed changed (Some changed).
Definition demo_items : list Item.t :=
  [demo_item 1 (lit "password") 1700000000; demo_item 2 (lit "correct horse battery") 1600000000;
   demo_item 3 (lit "password") 1700000000].

Lemma audit_exact_witness :
  let r := Audit.run_audit demo_items 1700000000 Hibp.MockHibp in
  report_spec demo_items 1700000000 Hibp.MockHibp r /\ Audit.score r = 45.
Proof.
  assert (H := audit_exact demo_items 1700000000 Hibp.MockHibp ltac:(vm_compute; reflexivity)).
  split; [exact (proj1 H)|]. vm_compute. reflexivity.
Defined.
