(* ===== verification/Passkey.v ===== *)
(** [crates/core/src/vault/passkey.rs] and [webauthn.rs]: minting a passkey and assembling the
    WebAuthn registration and assertion. ECDSA over P-256 and the base64url engine are crates
    outside the repository: classes with their documented laws. The theorems read the bytes with a
    reference CBOR reader and a relying party's parser, both written from RFC 8949 and WebAuthn. *)
From S2P Require Import Prelude Bytes Text Crypto Toy RecoveryKit Keyring Model.
Local Open Scope Z_scope.

(** [p256::ecdsa]: signatures are in DER. *)
Class Ecdsa : Type := {
  SigningKey : Type;
  VerifyingKey : Type;
  sk_to_bytes : SigningKey -> arr 32;
  sk_from_bytes : arr 32 -> option SigningKey;
  verifying_key : SigningKey -> VerifyingKey;
  to_encoded_point : VerifyingKey -> bytes;
  from_encoded_point : bytes -> option VerifyingKey;
  sign : SigningKey -> bytes -> bytes;
  verify : VerifyingKey -> bytes -> bytes -> bool;
}.

Class EcdsaLaws (E : Ecdsa) : Prop := {
  sk_from_to_bytes k : sk_from_bytes (sk_to_bytes k) = Some k;
  point_length p : length (to_encoded_point p) = 65%nat;
  point_tag p : head (to_encoded_point p) = Some (byte_of_Z 4);
  from_to_point p : from_encoded_point (to_encoded_point p) = Some p;
  verify_sign k m : verify (verifying_key k) m (sign k m) = true;
}.

(** The [URL_SAFE_NO_PAD] engine. *)
Class Base64Url : Type := {
  url_encode : bytes -> text;
  url_decode : text -> option bytes;
}.

Class Base64UrlLaws {U : Base64Url} : Prop := {
  url_decode_encode b : url_decode (url_encode b) = Some b;
}.

(** * [passkey.rs] *)

Module passkey.
Section passkey.
Context {E : Ecdsa} {B : Base64} {U : Base64Url}.

Definition ALG_ES256 : Z := -7.

(** [key] and [cred] are the random signing key and credential identifier. *)
Definition mint_passkey (key : SigningKey) (cred : arr 16) (rp_id : text) (rp_name : option text) (user_name : text)
    (user_display_name : option text) (user_handle : bytes) : Passkey.t :=
  let private_key := b64_encode (sk_to_bytes key) in
  Passkey.MkPasskey rp_id rp_name user_name user_display_name (url_encode user_handle) (url_encode cred)
    private_key ALG_ES256 0.

Definition signing_key (pk : Passkey.t) : Result SigningKey :=
  let? raw := ok_or (b64_decode (Passkey.private_key pk)) (Format "passkey private key" "not valid base64") in
  guard (length raw =? 32)%nat else
    Err (Format "passkey private key" ("expected 32 bytes, got " +:+ pretty (length raw))) in
  let? field := copy_from_slice 32 raw in
  ok_or (sk_from_bytes field) (Format "passkey private key" "not a valid P-256 scalar").

Definition public_key_sec1 (pk : Passkey.t) : Result bytes :=
  let? sk := signing_key pk in
  Ok (to_encoded_point (verifying_key sk)).
End passkey.
End passkey.

(** * [webauthn.rs] *)

Module webauthn.
Definition AAGUID : bytes := arr_fill 16 (byte_of_Z 0).
Definition FLAG_UP : Z := 1.
Definition FLAG_UV : Z := 4.
Definition FLAG_AT : Z := 64.

Definition cbor_head (out : bytes) (major arg : Z) : bytes :=
  let mt := Z.shiftl major 5 in
  if arg <? 24 then out ++ [byte_of_Z (Z.lor mt arg)]
  else if arg <? 256 then out ++ [byte_of_Z (Z.lor mt 24)] ++ [byte_of_Z arg]
  else if arg <? 65536 then out ++ [byte_of_Z (Z.lor mt 25)] ++ be_bytes 2 arg
  else if arg <? 4294967296 then out ++ [byte_of_Z (Z.lor mt 26)] ++ be_bytes 4 arg
  else out ++ [byte_of_Z (Z.lor mt 27)] ++ be_bytes 8 arg.

Definition cbor_int (out : bytes) (v : Z) : bytes :=
  if v <? 0 then cbor_head out 1 (-1 - v) else cbor_head out 0 v.
Definition cbor_bytes (out b : bytes) : bytes := cbor_head out 2 (Z.of_nat (length b)) ++ b.
Definition cbor_text (out : bytes) (s : text) : bytes := cbor_head out 3 (Z.of_nat (length (utf8 s))) ++ utf8 s.
Definition cbor_map_head (out : bytes) (entries : Z) : bytes := cbor_head out 5 entries.

Definition cose_es256_key (sec1 : bytes) : Result bytes :=
  guard negb (negb (length sec1 =? 65)%nat || negb (bool_decide (sec1 !! 0%nat = Some (byte_of_Z 4)))) else
    Err (Format "passkey public key" "expected 65-byte uncompressed SEC1 point") in
  let? x := slice sec1 1 33 in
  let? y := slice sec1 33 65 in
  let out := cbor_map_head [] 5 in
  let out := cbor_int out 1 in
  let out := cbor_int out 2 in
  let out := cbor_int out 3 in
  let out := cbor_int out (-7) in
  let out := cbor_int out (-1) in
  let out := cbor_int out 1 in
  let out := cbor_int out (-2) in
  let out := cbor_bytes out x in
  let out := cbor_int out (-3) in
  let out := cbor_bytes out y in
  Ok out.

Section webauthn.
Context {P : CryptoPrims} {E : Ecdsa} {B : Base64} {U : Base64Url}.

Definition rp_id_hash (rp_id : text) : arr 32 := sha256 (utf8 rp_id).

Definition authenticator_data (rp_id : text) (flags sign_count : Z) (attested : option bytes) : bytes :=
  rp_id_hash rp_id ++ [byte_of_Z flags] ++ be_bytes 4 sign_count ++ match attested with Some a => a | None => [] end.

Definition attested_credential_data (cred_id cose_key : bytes) : bytes :=
  AAGUID ++ be_bytes 2 (Z.of_nat (length cred_id)) ++ cred_id ++ cose_key.

Definition attestation_object (auth_data : bytes) : bytes :=
  let out := cbor_map_head [] 3 in
  let out := cbor_text out (lit "fmt") in
  let out := cbor_text out (lit "none") in
  let out := cbor_text out (lit "attStmt") in
  let out := cbor_map_head out 0 in
  let out := cbor_text out (lit "authData") in
  cbor_bytes out auth_data.

Definition credential_id_bytes (pk : Passkey.t) : Result bytes :=
  ok_or (url_decode (Passkey.credential_id pk)) (Format "passkey credential id" "not valid base64url").

Definition registration_attestation (pk : Passkey.t) : Result (bytes * bytes) :=
  let? sec1 := passkey.public_key_sec1 pk in
  let? cose := cose_es256_key sec1 in
  let? cred_id := credential_id_bytes pk in
  let acd := attested_credential_data cred_id cose in
  let auth_data := authenticator_data (Passkey.rp_id pk) (Z.lor (Z.lor FLAG_UP FLAG_UV) FLAG_AT)
                     (Passkey.sign_count pk) (Some acd) in
  Ok (auth_data, attestation_object auth_data).

Definition assertion (pk : Passkey.t) (sign_count : Z) (client_data_json : bytes) : Result (bytes * bytes) :=
  let auth_data := authenticator_data (Passkey.rp_id pk) (Z.lor FLAG_UP FLAG_UV) sign_count None in
  let client_hash := sha256 client_data_json in
  let signed := auth_data ++ client_hash in
  let? sk := passkey.signing_key pk in
  Ok (auth_data, sign sk signed).
End webauthn.
End webauthn.

(** * A reference reader: RFC 8949, the data items CTAP2 allows *)

Inductive cbor : Type :=
| CInt (z : Z)
| CBytes (b : bytes)
| CText (b : bytes)
| CMap (l : list (cbor * cbor)).

(** The argument in the [n] bytes that follow a head. *)
Definition read_arg (n : nat) (b : bytes) : option (Z * bytes) :=
  if (length b <? n)%nat then None else Some (be_val (take n b), drop n b).

Definition read_head (b : bytes) : option (Z * Z * bytes) :=
  match b with
  | [] => None
  | first :: b =>
      let major := Z.shiftr (byte_to_Z first) 5 in
      let info := Z.land (byte_to_Z first) 31 in
      let arg := if info <? 24 then Some (info, b) else if info =? 24 then read_arg 1 b else if info =? 25 then read_arg 2 b
                 else if info =? 26 then read_arg 4 b else if info =? 27 then read_arg 8 b else None in
      (fun '(a, b) => (major, a, b)) <$> arg
  end.

Fixpoint read_pairs (read : bytes -> option (cbor * bytes)) (n : nat) (b : bytes) : option (list (cbor * cbor) * bytes) :=
  match n with
  | O => Some ([], b)
  | S n =>
      match read b with
      | Some (k, b) =>
          match read b with
          | Some (v, b) => (fun '(l, b) => ((k, v) :: l, b)) <$> read_pairs read n b
          | None => None
          end
      | None => None
      end
  end.

(** [depth] bounds the nesting; CTAP2 messages nest at most four levels. *)
Fixpoint read (depth : nat) (b : bytes) : option (cbor * bytes) :=
  match depth with
  | O => None
  | S depth =>
      match read_head b with
      | None => None
      | Some (major, arg, b) =>
          if major =? 0 then Some (CInt arg, b)
          else if major =? 1 then Some (CInt (-1 - arg), b)
          else if Z.of_nat (length b) <? arg then None
          else if major =? 2 then Some (CBytes (take (Z.to_nat arg) b), drop (Z.to_nat arg) b)
          else if major =? 3 then Some (CText (take (Z.to_nat arg) b), drop (Z.to_nat arg) b)
          else if major =? 5 then (fun '(l, b) => (CMap l, b)) <$> read_pairs (read depth) (Z.to_nat arg) b
          else None
      end
  end.

(** What a relying party takes from a registration. *)
Record Registration : Type := MkRegistration {
  reg_rp_hash : bytes; reg_flags : Z; reg_count : Z; reg_aaguid : bytes; reg_cred : bytes; reg_point : bytes }.

Definition read_auth_data (d : bytes) : option Registration :=
  if (length d <? 55)%nat then None
  else
    let n := Z.to_nat (be_val (take 2 (drop 53 d))) in
    match read 4 (drop n (drop 55 d)) with
    | Some (CMap [(CInt 1, CInt 2); (CInt 3, CInt (-7)); (CInt (-1), CInt 1); (CInt (-2), CBytes x); (CInt (-3), CBytes y)], []) =>
        Some (MkRegistration (take 32 d) (default 0 (byte_to_Z <$> d !! 32%nat)) (be_val (take 4 (drop 33 d)))
                (take 16 (drop 37 d)) (take n (drop 55 d)) (byte_of_Z 4 :: x ++ y))
    | _ => None
    end.

Definition read_attestation (att : bytes) : option Registration :=
  match read 4 att with
  | Some (CMap [(CText k1, CText v1); (CText k2, CMap []); (CText k3, CBytes d)], []) =>
      if bool_decide (k1 = utf8 (lit "fmt") /\ v1 = utf8 (lit "none") /\ k2 = utf8 (lit "attStmt") /\ k3 = utf8 (lit "authData"))
      then read_auth_data d else None
  | _ => None
  end.

(** * The CBOR writer *)

Section cbor_facts.
Import webauthn.

Lemma cbor_head_app out major arg : cbor_head out major arg = out ++ cbor_head [] major arg.
Proof. unfold cbor_head. by repeat case_match. Qed.

Lemma head_byte major info : 0 <= major < 8 -> 0 <= info < 32 ->
  let b := byte_to_Z (byte_of_Z (Z.lor (Z.shiftl major 5) info)) in Z.shiftr b 5 = major /\ Z.land b 31 = info.
Proof.
  intros Hm Hi. cbv zeta. rewrite byte_to_of_Z, Z.shiftl_mul_pow2, (lor_low major info 5), Z.mod_small by lia.
  rewrite Z.shiftr_div_pow2 by lia. change 31 with (Z.ones 5). rewrite Z.land_ones by lia.
  split; [symmetry; apply (Z.div_unique _ _ _ info)|symmetry; apply (Z.mod_unique _ _ major)]; lia.
Qed.

Lemma read_arg_app n a rest : 0 <= a < 256 ^ Z.of_nat n -> read_arg n (be_bytes n a ++ rest) = Some (a, rest).
Proof.
  intros Ha. unfold read_arg. rewrite length_app, length_be_bytes, (proj2 (Nat.ltb_ge _ _)) by lia.
  rewrite (take_app_length' _ rest n), (drop_app_length' _ rest n) by (by rewrite length_be_bytes).
  by rewrite be_val_be_bytes_small.
Qed.

Lemma be_bytes_1 a : be_bytes 1 a = [byte_of_Z a].
Proof. done. Qed.

Lemma read_head_cbor_head major arg rest :
  0 <= major < 8 -> 0 <= arg < 2 ^ 64 -> read_head (cbor_head [] major arg ++ rest) = Some (major, arg, rest).
Proof.
  intros Hm Ha. unfold cbor_head. rewrite <- (be_bytes_1 arg).
  repeat case_match; rewrite ?Z.ltb_lt, ?Z.ltb_ge in *; cbn [app]; rewrite <- ?app_assoc; cbn [app];
    unfold read_head; [edestruct (head_byte major arg) as [-> ->]; [lia..|]|edestruct (head_byte major 24) as [-> ->]; [lia..|]
    |edestruct (head_byte major 25) as [-> ->]; [lia..|]|edestruct (head_byte major 26) as [-> ->]; [lia..|]
    |edestruct (head_byte major 27) as [-> ->]; [lia..|]]; [|cbn -[be_bytes read_arg]; rewrite read_arg_app by lia; done..].
  by rewrite (proj2 (Z.ltb_lt _ _)) by lia.
Qed.

(** The hand-written CBOR head is canonical. Every major type and 64-bit argument is read back by
    the reference reader with the rest of the input untouched, and no other byte string that the
    reader takes for the same head is shorter. *)
Theorem cbor_head_canonical major arg :
  0 <= major < 8 -> 0 <= arg < 2 ^ 64 ->
  (forall out rest, exists h, cbor_head out major arg ++ rest = out ++ h ++ rest /\ read_head (h ++ rest) = Some (major, arg, rest))
  /\ (forall b rest, read_head (b ++ rest) = Some (major, arg, rest) -> (length (cbor_head [] major arg) <= length b)%nat).
Proof.
  intros Hm Ha. split.
  - intros out rest. exists (cbor_head [] major arg). split; [by rewrite cbor_head_app, app_assoc|]. by apply read_head_cbor_head.
  - intros b rest Hr. assert (Hlen : forall n c t, read_arg n c = Some (arg, t) ->
      arg < 256 ^ Z.of_nat n /\ length c = (n + length t)%nat).
    { intros n c t. unfold read_arg. destruct (Nat.ltb_spec (length c) n); [done|]. intros [= <- <-].
      rewrite length_drop. split; [|lia]. unfold be_val. eapply Z.lt_le_trans; [apply le_val_range|].
      rewrite length_reverse, length_take. apply Z.pow_le_mono_r; lia. }
    unfold read_head in Hr. destruct (b ++ rest) as [|f t] eqn:E; [done|]. apply (f_equal length) in E. rewrite length_app in E. cbn in E.
    apply fmap_Some in Hr as ([a t'] & Hr & [= _ -> ->]). unfold cbor_head.
    repeat case_match; rewrite ?Z.ltb_lt, ?Z.ltb_ge, ?Z.eqb_eq in *; simplify_eq; cbn [app length]; rewrite ?length_be_bytes;
      try lia; apply Hlen in Hr; lia.
Qed.

(** Reading what the writers write; the rest of the input is left. *)
Lemma read_cbor_int d v rest :
  - 2 ^ 63 <= v < 2 ^ 63 -> read (S d) (cbor_int [] v ++ rest) = Some (CInt v, rest).
Proof.
  intros Hv. unfold cbor_int. cbn [read]. destruct (Z.ltb_spec v 0); rewrite read_head_cbor_head by lia; cbn; [|done].
  by replace (-1 - (-1 - v)) with v by lia.
Qed.

Lemma read_cbor_str d major b rest :
  0 <= major < 8 -> Z.of_nat (length b) < 2 ^ 64 ->
  read (S d) (cbor_head [] major (Z.of_nat (length b)) ++ b ++ rest)
  = if major =? 2 then Some (CBytes b, rest) else if major =? 3 then Some (CText b, rest)
    else read (S d) (cbor_head [] major (Z.of_nat (length b)) ++ b ++ rest).
Proof.
  intros Hm Hl. destruct (Z.eqb_spec major 2) as [->|]; [|destruct (Z.eqb_spec major 3) as [->|]; [|done]];
    cbn [read]; rewrite read_head_cbor_head by lia; cbn -[Z.of_nat Z.ltb];
    rewrite (proj2 (Z.ltb_ge _ _)) by (rewrite length_app; lia); by rewrite Nat2Z.id, take_app_length, drop_app_length.
Qed.

Lemma read_cbor_bytes d b rest :
  Z.of_nat (length b) < 2 ^ 64 -> read (S d) (cbor_bytes [] b ++ rest) = Some (CBytes b, rest).
Proof. intros Hl. unfold cbor_bytes. rewrite <- app_assoc, read_cbor_str by lia. done. Qed.

Lemma read_cbor_text d s rest :
  Z.of_nat (length (utf8 s)) < 2 ^ 64 -> read (S d) (cbor_text [] s ++ rest) = Some (CText (utf8 s), rest).
Proof. intros Hl. unfold cbor_text. rewrite <- app_assoc, read_cbor_str by lia. done. Qed.

Lemma read_map d n rest :
  Z.of_nat n <= Z.of_nat (length rest) -> Z.of_nat n < 2 ^ 64 ->
  read (S d) (cbor_map_head [] (Z.of_nat n) ++ rest) = (fun '(l, b) => (CMap l, b)) <$> read_pairs (read d) n rest.
Proof.
  intros Hn Hl. unfold cbor_map_head. cbn [read]. rewrite read_head_cbor_head by lia. cbn -[Z.of_nat Z.ltb].
  by rewrite (proj2 (Z.ltb_ge _ _)), Nat2Z.id by lia.
Qed.

Lemma read_pairs_cons read n b k b1 v b2 :
  read b = Some (k, b1) -> read b1 = Some (v, b2) ->
  read_pairs read (S n) b = (fun '(l, b) => ((k, v) :: l, b)) <$> read_pairs read n b2.
Proof. intros H1 H2. cbn. by rewrite H1, H2. Qed.

Lemma cbor_int_app out v : cbor_int out v = out ++ cbor_int [] v.
Proof. unfold cbor_int. case_match; apply cbor_head_app. Qed.
Lemma cbor_bytes_app out b : cbor_bytes out b = out ++ cbor_bytes [] b.
Proof. unfold cbor_bytes. by rewrite cbor_head_app, <- app_assoc. Qed.
Lemma cbor_text_app out s : cbor_text out s = out ++ cbor_text [] s.
Proof. unfold cbor_text. by rewrite cbor_head_app, <- app_assoc. Qed.
Lemma cbor_map_app out n : cbor_map_head out n = out ++ cbor_map_head [] n.
Proof. apply cbor_head_app. Qed.

End cbor_facts.

(** Successive writes as a concatenation. *)
Ltac flatten_cbor :=
  repeat match goal with
  | |- context [webauthn.cbor_int ?o ?v] => lazymatch o with [] => fail | _ => rewrite (cbor_int_app o v) end
  | |- context [webauthn.cbor_bytes ?o ?v] => lazymatch o with [] => fail | _ => rewrite (cbor_bytes_app o v) end
  | |- context [webauthn.cbor_text ?o ?v] => lazymatch o with [] => fail | _ => rewrite (cbor_text_app o v) end
  | |- context [webauthn.cbor_map_head ?o ?v] => lazymatch o with [] => fail | _ => rewrite (cbor_map_app o v) end
  end.

Section cose_facts.
Import webauthn.

Lemma length_cbor_head out major arg : (length out < length (cbor_head out major arg))%nat.
Proof. unfold cbor_head. repeat case_match; rewrite !length_app; cbn; lia. Qed.

Definition cose_map (x y : bytes) : cbor :=
  CMap [(CInt 1, CInt 2); (CInt 3, CInt (-7)); (CInt (-1), CInt 1); (CInt (-2), CBytes x); (CInt (-3), CBytes y)].

Lemma read_cose d sec1 :
  length sec1 = 65%nat -> head sec1 = Some (byte_of_Z 4) ->
  exists x y cose, sec1 = byte_of_Z 4 :: x ++ y /\ length x = 32%nat /\ length y = 32%nat
    /\ cose_es256_key sec1 = Ok cose /\ length cose = 77%nat /\ forall rest, read (S (S d)) (cose ++ rest) = Some (cose_map x y, rest).
Proof.
  intros Hl Hh. destruct sec1 as [|t p]; [done|]. cbn in Hh, Hl. injection Hh as ->.
  assert (Hx : length (take 32 p) = 32%nat) by (rewrite length_take; lia).
  assert (Hy : length (drop 32 p) = 32%nat) by (rewrite length_drop; lia).
  rewrite <- (take_drop 32 p). set (x := take 32 p) in *. set (y := drop 32 p) in *. clearbody x y. clear p Hl.
  exists x, y. unfold cose_es256_key. cbn [length]. rewrite length_app, Hx, Hy. cbn [Nat.add Nat.eqb negb orb lookup list_lookup].
  rewrite bool_decide_true by done. cbn [negb].
  assert (Hs1 : slice (E := CoreError) (byte_of_Z 4 :: x ++ y) 1 33 = Ok x).
  { apply (slice_app [byte_of_Z 4] x y); cbn; lia. }
  assert (Hs2 : slice (E := CoreError) (byte_of_Z 4 :: x ++ y) 33 65 = Ok y).
  { rewrite <- (app_nil_r y) at 1. apply (slice_app (byte_of_Z 4 :: x) y []); cbn; lia. }
  rewrite Hs1, Hs2. clear Hs1 Hs2. cbn [rbind]. cbv zeta. eexists. do 4 (split; [done|]). split.
  - flatten_cbor. unfold cbor_bytes. rewrite Hx, Hy. rewrite !length_app, Hx, Hy. done.
  - intros rest. flatten_cbor. rewrite <- !app_assoc.
    change 5 with (Z.of_nat 5).
    rewrite read_map; [|change 5%nat with (length (concat (map (cbor_int []) [1; 2; 3; -7; -1])));
      cbn [map concat]; rewrite !length_app; cbn [length]; lia|lia].
    repeat (erewrite read_pairs_cons; [|apply read_cbor_int; lia|first [apply read_cbor_int; lia|apply read_cbor_bytes; lia]]).
    done.
Qed.
End cose_facts.

(** * Registration and assertion *)

Section webauthn_claims.
Context {P : CryptoPrims} {E : Ecdsa} {B : Base64} {U : Base64Url}.
Context {EL : EcdsaLaws E} {BL : Base64Laws} {UL : Base64UrlLaws}.
Import webauthn.

Lemma signing_key_mint key cred rp nm un dn uh :
  passkey.signing_key (passkey.mint_passkey key cred rp nm un dn uh) = Ok key.
Proof.
  unfold passkey.signing_key, passkey.mint_passkey. cbn [Passkey.private_key]. rewrite b64_decode_encode. cbn [ok_or rbind].
  rewrite length_arr. cbn [Nat.eqb]. rewrite copy_from_slice_arr. cbn [rbind]. by rewrite sk_from_to_bytes.
Qed.

Lemma length_AAGUID : length AAGUID = 16%nat.
Proof. done. Qed.

Lemma read_written_auth_data (h : arr 32) f n (cred : arr 16) sec1 cose :
  length sec1 = 65%nat -> head sec1 = Some (byte_of_Z 4) -> cose_es256_key sec1 = Ok cose -> 0 <= f < 256 -> 0 <= n < 2 ^ 32 ->
  read_auth_data (h ++ [byte_of_Z f] ++ be_bytes 4 n ++ attested_credential_data cred cose)
  = Some (MkRegistration h f n AAGUID cred sec1).
Proof.
  intros Hl Hh Hc Hf Hn. destruct (read_cose 2 sec1 Hl Hh) as (x & y & c & Hs & Hx & Hy & Hc' & Hlc & Hread).
  rewrite Hc in Hc'. injection Hc' as <-. unfold attested_credential_data. rewrite length_arr. change (Z.of_nat 16) with 16.
  unfold read_auth_data. rewrite !length_app, !length_arr, !length_be_bytes, Hlc, length_AAGUID. cbn [length Nat.add Nat.ltb Nat.leb].
  assert (H32 := length_arr h). assert (H16 := length_arr cred). destruct h as [h ?], cred as [cred ?]. cbn in H32, H16.
  set (N := be_bytes 4 n). set (C := be_bytes 2 16). assert (HN : length N = 4%nat) by apply length_be_bytes.
  assert (HC : length C = 2%nat) by apply length_be_bytes. assert (HA := length_AAGUID).
  cbn [arr_bytes].
  set (d := h ++ [byte_of_Z f] ++ N ++ AAGUID ++ C ++ cred ++ cose).
  assert (D33 : drop 33 d = N ++ AAGUID ++ C ++ cred ++ cose) by (unfold d; rewrite (app_assoc h); apply drop_app_length'; rewrite length_app; cbn; lia).
  assert (D37 : drop 37 d = AAGUID ++ C ++ cred ++ cose).
  { change 37%nat with (33 + 4)%nat. rewrite <- drop_drop, D33. by apply drop_app_length'. }
  assert (D53 : drop 53 d = C ++ cred ++ cose).
  { change 53%nat with (37 + 16)%nat. rewrite <- drop_drop, D37. by apply drop_app_length'. }
  assert (D55 : drop 55 d = cred ++ cose).
  { change 55%nat with (53 + 2)%nat. rewrite <- drop_drop, D53. by apply drop_app_length'. }
  rewrite D53, D55, D37, D33, !take_app_length' by done. unfold C. rewrite be_val_be_bytes_small by lia.
  rewrite (drop_app_length' cred cose) by done.
  specialize (Hread []). rewrite app_nil_r in Hread. rewrite Hread. unfold cose_map. unfold N. rewrite be_val_be_bytes_small by lia.
  assert (Hd : d !! 32%nat = Some (byte_of_Z f)) by (unfold d; by rewrite lookup_app_r, H32 by lia).
  rewrite Hd. cbn [fmap option_fmap option_map default]. rewrite byte_to_of_Z, Z.mod_small by lia.
  unfold d. rewrite (take_app_length' h) by done. by rewrite Hs.
Qed.

Lemma read_written_attestation d : Z.of_nat (length d) < 2 ^ 64 -> read_attestation (attestation_object d) = read_auth_data d.
Proof.
  intros Hd. unfold attestation_object. cbv zeta. flatten_cbor. rewrite <- !app_assoc. unfold read_attestation.
  change 3 with (Z.of_nat 3). rewrite read_map; [|change 3%nat with (length (utf8 (lit "fmt"))); rewrite !length_app;
    change (length (cbor_text [] (lit "fmt"))) with (1 + length (utf8 (lit "fmt")))%nat; lia|lia].
  rewrite <- (app_nil_r (cbor_bytes [] d)).
  erewrite read_pairs_cons; [|apply read_cbor_text; vm_compute; done|apply read_cbor_text; vm_compute; done].
  erewrite read_pairs_cons; [|apply read_cbor_text; vm_compute; done|apply (read_map 2 0); cbn; lia].
  erewrite read_pairs_cons; [|apply read_cbor_text; vm_compute; done|apply read_cbor_bytes; done].
  cbn [read_pairs fmap option_fmap option_map]. by rewrite bool_decide_true.
Qed.

(** The registration of a minted passkey, as a relying party reads it. *)
Lemma registration_read key cred rp nm un dn uh :
  exists auth att, registration_attestation (passkey.mint_passkey key cred rp nm un dn uh) = Ok (auth, att)
    /\ read_attestation att = Some (MkRegistration (rp_id_hash rp) 69 0 AAGUID cred (to_encoded_point (verifying_key key)))
    /\ read_auth_data auth = Some (MkRegistration (rp_id_hash rp) 69 0 AAGUID cred (to_encoded_point (verifying_key key))).
Proof.
  set (pk := passkey.mint_passkey key cred rp nm un dn uh). assert (Hk := signing_key_mint key cred rp nm un dn uh). fold pk in Hk.
  set (p := to_encoded_point (verifying_key key)).
  assert (Hp : length p = 65%nat) by apply point_length. assert (Ht : head p = Some (byte_of_Z 4)) by apply point_tag.
  destruct (read_cose 2 p Hp Ht) as (x & y & cose & _ & _ & _ & Hc & Hlc & _).
  assert (Hr := read_written_auth_data (rp_id_hash rp) 69 0 cred p cose Hp Ht Hc ltac:(lia) ltac:(lia)).
  eexists _, _. split.
  { unfold registration_attestation, passkey.public_key_sec1. rewrite Hk. cbn [rbind]. fold p. rewrite Hc. cbn [rbind].
    unfold credential_id_bytes, pk, passkey.mint_passkey. cbn [Passkey.credential_id Passkey.rp_id Passkey.sign_count].
    rewrite url_decode_encode. reflexivity. }
  split; [|exact Hr]. rewrite read_written_attestation; [exact Hr|]. unfold authenticator_data, attested_credential_data.
  rewrite !length_app, !length_arr, !length_be_bytes, length_AAGUID, Hlc. cbn. lia.
Qed.

(** The assertion of a passkey whose key is usable. *)
Lemma assertion_signed pk key n client :
  passkey.signing_key pk = Ok key -> 0 <= n < 2 ^ 32 ->
  exists data sig, assertion pk n client = Ok (data, sig)
    /\ length data = 37%nat /\ take 32 data = rp_id_hash (Passkey.rp_id pk) /\ data !! 32%nat = Some (byte_of_Z 5)
    /\ be_val (drop 33 data) = n /\ verify (verifying_key key) (data ++ sha256 client) sig = true.
Proof.
  intros Hk Hn. eexists _, _. split; [unfold assertion; rewrite Hk; reflexivity|]. unfold authenticator_data. rewrite app_nil_r.
  split; [by rewrite !length_app, length_arr, length_be_bytes|].
  split; [by rewrite take_app_length' by (by rewrite length_arr)|].
  split; [by rewrite lookup_app_r, length_arr by (rewrite length_arr; lia)|]. split; [|apply verify_sign].
  rewrite app_assoc, drop_app_length' by (by rewrite length_app, length_arr). apply be_val_be_bytes_small. lia.
Qed.

(** Registration and assertion fit together. A minted passkey registers; a relying party that
    parses the attestation object finds the hash of the identifier, the flags 0x45, counter 0, the
    zero AAGUID, the credential identifier and the public point of the minted key; and under that
    point the signature of every later assertion, at any counter and for any client data, verifies
    over the authenticator data and the client-data hash, the data naming the same party, the flags
    0x05 and the counter in 37 bytes. *)
Theorem passkey_registers_and_signs key cred rp nm un dn uh :
  let pk := passkey.mint_passkey key cred rp nm un dn uh in
  exists auth att reg, registration_attestation pk = Ok (auth, att)
    /\ read_attestation att = Some reg /\ read_auth_data auth = Some reg
    /\ reg = MkRegistration (rp_id_hash rp) 69 0 AAGUID cred (to_encoded_point (verifying_key key))
    /\ exists vk, from_encoded_point (reg_point reg) = Some vk
      /\ forall n client, 0 <= n < 2 ^ 32 -> exists data sig,
        assertion pk n client = Ok (data, sig)
        /\ length data = 37%nat /\ take 32 data = reg_rp_hash reg /\ data !! 32%nat = Some (byte_of_Z 5)
        /\ be_val (drop 33 data) = n
        /\ verify vk (data ++ sha256 client) sig = true.
Proof.
  cbv zeta. destruct (registration_read key cred rp nm un dn uh) as (auth & att & H1 & H2 & H3).
  eexists auth, att, _. do 4 (split; [done|]). exists (verifying_key key). split; [apply from_to_point|].
  intros n client Hn. apply (assertion_signed (passkey.mint_passkey key cred rp nm un dn uh) key); [apply signing_key_mint|done].
Qed.
End webauthn_claims.

(** * Concrete instances *)

(** The public key is the secret one, and signing reveals it: enough to run the code. *)
Definition plain_point (k : arr 32) : bytes := byte_of_Z 4 :: k ++ le_bytes 32 0.
Definition plain_unpoint (b : bytes) : option (arr 32) := arr_of (take 32 (drop 1 b)).
#[export] Instance plain_ecdsa : Ecdsa := {|
  SigningKey := arr 32; VerifyingKey := arr 32;
  sk_to_bytes k := k; sk_from_bytes k := Some k; verifying_key k := k;
  to_encoded_point := plain_point; from_encoded_point := plain_unpoint;
  sign k m := le_bytes 8 (toy_sum [arr_bytes k; m]);
  verify k m s := bool_decide (s = le_bytes 8 (toy_sum [arr_bytes k; m]));
|}.
#[export] Instance plain_ecdsa_laws : EcdsaLaws plain_ecdsa.
Proof.
  split; cbn; try done.
  - intros p. by rewrite length_app, length_arr.
  - intros p. unfold plain_unpoint, plain_point. cbn [drop]. rewrite drop_0, take_app_length' by (by rewrite length_arr). apply arr_of_bytes.
  - intros k m. by apply bool_decide_true.
Qed.
#[export] Existing Instance toy_base64.
#[export] Existing Instance toy_base64_laws.
#[export] Instance toy_base64url : Base64Url := {| url_encode := @b64_encode toy_base64; url_decode := @b64_decode toy_base64 |}.
#[export] Instance toy_base64url_laws : Base64UrlLaws.
Proof. split. apply (@b64_decode_encode toy_base64 toy_base64_laws). Qed.

Lemma cbor_head_canonical_witness :
  read_head (webauthn.cbor_head [] 2 300 ++ [byte_of_Z 9]) = Some (2, 300, [byte_of_Z 9])
  /\ (length (webauthn.cbor_head [] 2 300) <= 3)%nat.
Proof.
  assert (H := cbor_head_canonical 2 300 ltac:(lia) ltac:(lia)). split; [vm_compute; reflexivity|].
  apply (proj2 H [byte_of_Z 89; byte_of_Z 1; byte_of_Z 44] []). vm_compute. reflexivity.
Defined.

Lemma passkey_registers_and_signs_witness :
  exists auth att reg,
    webauthn.registration_attestation (passkey.mint_passkey (arr_le 32 5 : @SigningKey plain_ecdsa) (arr_le 16 9) (lit "example.com") None (lit "alice") None [])
    = Ok (auth, att) /\ read_attestation att = Some reg /\ reg_count reg = 0.
Proof.
  destruct (passkey_registers_and_signs (arr_le 32 5 : @SigningKey plain_ecdsa) (arr_le 16 9) (lit "example.com") None (lit "alice") None [])
    as (auth & att & reg & H1 & H2 & _ & H3 & _).
  exists auth, att, reg. split; [exact H1|]. split; [exact H2|]. rewrite H3. reflexivity.
Defined.
