(* ===== verification/NmHost.v ===== *)
(** [apps/desktop/src-tauri/src/nmhost.rs]: the browser-autofill host inside the desktop binary, and
    [crates/nm-host/src/main.rs], the stand-alone host that only ever answers locked. Both share the
    stdio loop. [uuid] text, Unicode lower case and the clock, identifiers and keys drawn at random
    are parameters. *)
From S2P Require Import Prelude Bytes Text Crypto Floats Value Totp Toy RecoveryKit Keyring Model Envelope VaultStore Session Nm Generator Passkey.
Local Open Scope Z_scope.

(** [Uuid::parse_str] and [Uuid::to_string]. *)
Class UuidText : Type := { uuid_parse : text -> option Uuid; uuid_show : Uuid -> text }.
Class UuidTextLaws {U : UuidText} : Prop := { uuid_parse_show u : uuid_parse (uuid_show u) = Some u }.

(** [str::to_lowercase]: the Unicode tables of the Standard Library. *)
Class Unicode : Type := { to_lowercase : text -> text }.

(** [str::split_once] and [str::contains] at a string, [str::ends_with]. *)
Fixpoint split_once_str (p s : text) : option (text * text) :=
  match strip_prefix p s with
  | Some t => Some ([], t)
  | None => match s with
            | [] => None
            | c :: s => (fun '(a, b) => (c :: a, b)) <$> split_once_str p s
            end
  end.
Definition contains_str (p s : text) : bool := bool_decide (is_Some (split_once_str p s)).
Definition ends_with (p s : text) : bool := starts_with (reverse p) (reverse s).

Abbreviation Reply := (NmEnvelope Value) (only parsing).

(** * The loop *)

Module Serve.
Section loop.
Context {J : Json Reply} {S : Type}.
(** The reply to one request, and the write of a frame after those already written. *)
Variable handle : Reply -> ST S CoreError Reply.
Variable pipe : list bytes -> bool.

(** Where the loop is: asking for more input, or returned. *)
Inductive Stop : Type := More (buf : bytes) | Closed | IoError | Crash | OutOfFuel.

(** The inner loop: answer the complete frames of the buffer. [fuel] bounds the frames. *)
Fixpoint drain (fuel : nat) (buf : bytes) (out : list bytes) (s : S) : Stop * list bytes * S :=
  match fuel with
  | O => (OutOfFuel, out, s)
  | Datatypes.S fuel =>
      match Framing.decode_frame (V := Value) buf with
      | Ok (env, consumed) =>
          match handle env s with
          | (Ok reply, s) =>
              match Framing.encode_frame reply with
              | Ok frame => if pipe out then drain fuel (drop consumed buf) (out ++ [frame]) s else (IoError, out, s)
              | _ => (Crash, out, s)
              end
          | (_, s) => (Crash, out, s)
          end
      | Err Framing.Incomplete => (More buf, out, s)
      | Err (Framing.TooLarge _) | Err Framing.Malformed => (Closed, out, s)
      | Panic => (Crash, out, s)
      end
  end.

(** The outer loop over what [read] returns: [None] is an error, an empty chunk or the end of the
    list the closed port. The answer is the loop's own result. *)
Fixpoint outer (input : list (option bytes)) (buf : bytes) (out : list bytes) (s : S) : Stop * list bytes * S :=
  match drain (Datatypes.S (length buf)) buf out s with
  | (More buf, out, s) =>
      match input with
      | [] => (Closed, out, s)
      | None :: _ => (IoError, out, s)
      | Some [] :: _ => (Closed, out, s)
      | Some chunk :: input => outer input (buf ++ chunk) out s
      end
  | r => r
  end.

Definition serve (input : list (option bytes)) (s : S) : Stop * list bytes * S := outer input [] [] s.
End loop.
End Serve.

(** * The desktop host *)

Module Host.
(** The unlocked vault. *)
Record Host : Type := MkHost { session : VaultSession.t; vault : LocalVault.t }.

Definition EXTENSION_ID : text := lit "pbcngnmfielibgghcofedjmojogohcdf".
Definition STORE_EXTENSION_ID : option text := None.
Definition allowed_ids : list text := [EXTENSION_ID] ++ match STORE_EXTENSION_ID with Some s => [s] | None => [] end.

Definition detect (args : list text) : bool :=
  existsb (fun a => starts_with (lit "chrome-extension://") a || bool_decide (a = lit "--nm-host")) args.

Definition host_of (url : text) : text :=
  let after := match split_once_str (lit "://") url with Some (_, r) => r | None => url end in
  map to_ascii_lowercase (default after (head (split (chr "/") after))).

Definition ok (id : text) (kind : NmType.t) (payload : Value) : Reply :=
  MkNmEnvelope id kind (Some true) (Some payload) None.
Definition error (id : text) (kind : NmType.t) (code : NmErrorCode.t) (message : string) : Reply :=
  MkNmEnvelope id kind (Some false) None (Some (MkNmError code (lit message))).

Definition rp_id_matches_origin (rp_id origin : text) : bool :=
  if bool_decide (rp_id = []) then false
  else match split_once_str (lit "://") origin with
  | None => false
  | Some (scheme, rest) =>
      let h := default rest (head (split (chr "/") rest)) in
      let host := map to_ascii_lowercase (default rest (head (split (chr ":") h))) in
      let is_local := bool_decide (host = lit "localhost") || bool_decide (host = lit "127.0.0.1")
                      || ends_with (lit ".localhost") host in
      let scheme_ok := eq_ignore_ascii_case scheme (lit "https")
                       || (eq_ignore_ascii_case scheme (lit "http") && is_local) in
      if negb scheme_ok then false
      else
        let rp := map to_ascii_lowercase rp_id in
        bool_decide (host = rp) || ends_with (lit "." ++ rp) host
  end.

(** The requests. *)
Record SearchReq : Type := MkSearchReq { sr_query : text; sr_origin : text }.
Record FieldsReq : Type := MkFieldsReq { fr_id : text; fr_fields : list text; fr_origin : text; fr_reason : text }.
Record TotpGetRequest : Type := MkTotpGetRequest { tr_id : text; tr_origin : text }.
Record SaveCandidateRequest : Type := MkSaveCandidateRequest {
  sc_origin : text; sc_username : text; sc_password : text; sc_title : text }.
Record PasskeyRegisterReq : Type := MkPasskeyRegisterReq {
  pr_origin : text; pr_rp_id : text; pr_rp_name : option text; pr_user_name : text;
  pr_user_display_name : option text; pr_user_handle : text }.
Record PasskeyAssertReq : Type := MkPasskeyAssertReq {
  pa_origin : text; pa_rp_id : text; pa_client_data_json : text; pa_allow : list text }.

Definition VaultSearchRequest_de (v : Value) : option SearchReq :=
  match Js.struct_fields ["query"; "origin"] v with
  | Some [q; o] => q ← Js.str q; o ← Js.str o; Some (MkSearchReq q o)
  | _ => None
  end.
Definition VaultFieldsGetRequest_de (v : Value) : option FieldsReq :=
  match Js.struct_fields ["id"; "fields"; "origin"; "reason"] v with
  | Some [i; f; o; r] => i ← Js.str i; f ← Js.strs f; o ← Js.str o; r ← Js.str r; Some (MkFieldsReq i f o r)
  | _ => None
  end.
Definition TotpGetRequest_de (v : Value) : option TotpGetRequest :=
  match Js.struct_fields ["id"; "origin"] v with
  | Some [i; o] => i ← Js.str i; o ← Js.str_default o; Some (MkTotpGetRequest i o)
  | _ => None
  end.
Definition SaveCandidateRequest_de (v : Value) : option SaveCandidateRequest :=
  match Js.struct_fields ["origin"; "username"; "password"; "title"] v with
  | Some [o; u; p; t] =>
      o ← Js.str o; u ← Js.str_default u; p ← Js.str p; t ← Js.str_default t; Some (MkSaveCandidateRequest o u p t)
  | _ => None
  end.
Definition PasskeyRegisterReq_de (v : Value) : option PasskeyRegisterReq :=
  match Js.struct_fields ["origin"; "rpId"; "rpName"; "userName"; "userDisplayName"; "userHandleB64u"] v with
  | Some [o; r; rn; u; ud; uh] =>
      o ← Js.str o; r ← Js.str r; rn ← Js.str_option rn; u ← Js.str u; ud ← Js.str_option ud; uh ← Js.str uh;
      Some (MkPasskeyRegisterReq o r rn u ud uh)
  | _ => None
  end.
Definition PasskeyAssertReq_de (v : Value) : option PasskeyAssertReq :=
  match Js.struct_fields ["origin"; "rpId"; "clientDataJson"; "allowCredentialIdsB64u"] v with
  | Some [o; r; c; a] =>
      o ← Js.str o; r ← Js.str r; c ← Js.str c; a ← Js.strs_default a; Some (MkPasskeyAssertReq o r c a)
  | _ => None
  end.

Definition parse {T} (de : Value -> option T) (env : Reply) : Reply + T :=
  match de (default Null (payload env)) with
  | Some r => inr r
  | None => inl (error (id _ env) (kind _ env) NmErrorCode.BadRequest "bad request payload")
  end.

Definition match_quality (item : Item.t) (origin : text) (rank : nat) : f64 :=
  let page_host := host_of origin in
  let exact := existsb (fun u => bool_decide (host_of (UrlMatch.url u) = page_host) && negb (bool_decide (page_host = [])))
                 (Item.urls item) in
  let base := if exact then F64.of_Z 1 else F64.dec 75 2 in
  let q := F64.sub base (F64.mul (F64.of_Z (Z.of_nat rank)) (F64.dec 2 2)) in
  if F64.ltb q (F64.dec 1 1) then F64.dec 1 1 else q.

(** What one request draws from the clock and the random generators. *)
Record Draw {E : Ecdsa} : Type := MkDraw { now : Z; nonce : Nonce24; uuid : Uuid; key : SigningKey; cred : arr 16 }.

Section host.
Context {P : CryptoPrims} {SI : Json Item.t} {U : UrlLib} {TH : TotpHmac} {Q : QueryPairs} {UT : UuidText} {UC : Unicode}
  {E : Ecdsa} {B : Base64} {BU : Base64Url} {R : Rng}.
Variable app_version : text.

Definition load_items (host : Host) : list Item.t :=
  omap (fun e => match VaultSession.open (session host) e with Ok it => Some it | _ => None end)
    (LocalVault.list_envelopes (vault host)).

Definition lookup (host : Host) (id : text) : (NmErrorCode.t * string) + Item.t :=
  match uuid_parse id with
  | None => inl (NmErrorCode.BadRequest, "bad item id"%string)
  | Some uid =>
      match LocalVault.get (vault host) uid with
      | None => inl (NmErrorCode.NotFound, "no such item"%string)
      | Some env =>
          match VaultSession.open (session host) env with
          | Ok it => inr it
          | _ => inl (NmErrorCode.Internal, "decrypt failed"%string)
          end
      end
  end.

(** The clock's seconds [as u64]. A panic of [code_at] is one of the host. *)
Definition totp_code (now : Z) (item : Item.t) : Result (option text) :=
  match Item.login item ≫= Login.totp with
  | None => Ok None
  | Some uri =>
      match TotpSecret.parse uri with
      | Ok secret => let? code := TotpSecret.code_at secret (now mod 2 ^ 64) in Ok (Some code)
      | Err _ => Ok None
      | Panic => Panic
      end
  end.

Definition CAPS : list Value :=
  map (fun s => Str (lit s)) ["vault.search"; "vault.fields.get"; "vault.totp.get"; "vault.generate"; "vault.save_candidate";
       "vault.passkey.register"; "vault.passkey.assert"].

Definition hello (host : option Host) (id : text) : Reply :=
  ok id NmType.Hello (Js.obj [("caps", Arr CAPS); ("appVersion", Str app_version);
                              ("locked", Bool (match host with None => true | Some _ => false end))])%string.

(** [VaultSearchResultItem]: absent options are left out. *)
Definition result_item (origin : text) (p : nat * Item.t) : Value :=
  let '(rank, it) := p in
  Js.obj ([("id", Str (uuid_show (Item.id it))); ("title", Str (Item.title it))]%string
    ++ match Item.username it with Some u => [("username"%string, Str u)] | None => [] end
    ++ match head (Item.urls it) with Some u => [("faviconDomain"%string, Str (host_of (UrlMatch.url u)))] | None => [] end
    ++ [("matchQuality"%string, Float (match_quality it origin rank))]).

Definition search (host : Host) (env : Reply) : Reply :=
  match parse VaultSearchRequest_de env with
  | inl e => e
  | inr req =>
      let matched := List.filter (fun it => Autofill.origin_matches (Item.urls it) (sr_origin req)) (load_items host) in
      let matched := sort_desc Item.updated_at matched in
      let q := to_lowercase (trim (sr_query req)) in
      let shown := List.filter (fun it => bool_decide (q = []) || contains_str q (to_lowercase (Item.title it))
                     || match Item.username it with Some u => contains_str q (to_lowercase u) | None => false end) matched in
      ok (id _ env) NmType.VaultSearch
        (Js.obj [("items", Arr (map (result_item (sr_origin req)) (imap (fun i it => (i, it)) shown)))])%string
  end.

Fixpoint release (now : Z) (item : Item.t) (fields : list text) (out : list (text * Value)) : Result (list (text * Value)) :=
  match fields with
  | [] => Ok out
  | field :: fields =>
      let put (k : text) (o : option text) := match o with Some x => Js.assoc_insert k (Str x) out | None => out end in
      if bool_decide (field = lit "username") then release now item fields (put (lit "username") (Item.username item))
      else if bool_decide (field = lit "password") then release now item fields (put (lit "password") (Item.password item))
      else if bool_decide (field = lit "totp") then
        let? code := totp_code now item in release now item fields (put (lit "totp") code)
      else release now item fields out
  end.

Definition fields (now : Z) (host : Host) (env : Reply) : Result Reply :=
  match parse VaultFieldsGetRequest_de env with
  | inl e => Ok e
  | inr req =>
      match lookup host (fr_id req) with
      | inl e => Ok (error (id _ env) (kind _ env) e.1 e.2)
      | inr item =>
          if negb (Autofill.origin_matches (Item.urls item) (fr_origin req))
          then Ok (error (id _ env) (kind _ env) NmErrorCode.BadOrigin "origin does not match this item")
          else
            let? out := release now item (fr_fields req) [] in
            Ok (ok (id _ env) NmType.VaultFieldsGet (Js.obj [("fields", Obj out)])%string)
      end
  end.

Definition totp (now : Z) (host : Host) (env : Reply) : Result Reply :=
  match parse TotpGetRequest_de env with
  | inl e => Ok e
  | inr req =>
      match lookup host (tr_id req) with
      | inl e => Ok (error (id _ env) (kind _ env) e.1 e.2)
      | inr item =>
          if negb (Autofill.origin_matches (Item.urls item) (tr_origin req))
          then Ok (error (id _ env) (kind _ env) NmErrorCode.BadOrigin "origin does not match this item")
          else
            let? code := totp_code now item in
            match code with
            | Some code => Ok (ok (id _ env) NmType.VaultTotpGet (Js.obj [("code", Str code)])%string)
            | None => Ok (error (id _ env) (kind _ env) NmErrorCode.NotFound "item has no TOTP")
            end
      end
  end.

Definition generate (id : text) : Result Reply :=
  match Generator.password Generator.PasswordSpec_default with
  | Ok password => Ok (ok id NmType.VaultGenerate (Js.obj [("password", Str password)])%string)
  | Err _ => Ok (error id NmType.VaultGenerate NmErrorCode.Internal "generate failed")
  | Panic => Panic
  end.

(** Seal and store; the errors of both as replies. *)
Definition store (d : Draw) (host : Host) (env : Reply) (item : Item.t) (done : Reply) : Result Reply * Host :=
  match VaultSession.seal (nonce d) (session host) item with
  | Ok sealed =>
      match LocalVault.upsert (vault host) sealed with
      | (Ok _, v) => (Ok done, MkHost (session host) v)
      | (Err _, v) => (Ok (error (id _ env) (kind _ env) NmErrorCode.Internal "vault write failed"), MkHost (session host) v)
      | (Panic, v) => (Panic, MkHost (session host) v)
      end
  | Err _ => (Ok (error (id _ env) (kind _ env) NmErrorCode.Internal "seal failed"), host)
  | Panic => (Panic, host)
  end.

(** An existing login with a new password. *)
Definition with_password (it : Item.t) (password : text) (now : Z) : Item.t :=
  let login := default Login.default (Item.login it) in
  Item.MkItem (Item.id it) (Item.item_type it) (Item.title it) (Item.tags it) (Item.urls it) (Item.notes it)
    (Item.custom_fields it) (Some (Login.MkLogin (Login.username login) (Some password) (Login.totp login)))
    (Item.card it) (Item.identity it) (Item.passkey it) (Item.created_at it) now (Some now).

(** A new login for the page. *)
Definition new_candidate (d : Draw) (req : SaveCandidateRequest) : Item.t :=
  let title := if bool_decide (trim (sc_title req) = []) then host_of (sc_origin req) else sc_title req in
  let it := Item.new_login (uuid d) title (now d) in
  let login := default Login.default (Item.login it) in
  let username := if bool_decide (sc_username req = []) then Login.username login else Some (sc_username req) in
  Item.MkItem (Item.id it) (Item.item_type it) (Item.title it) (Item.tags it)
    [UrlMatch.MkUrlMatch (sc_origin req) UrlMode.Domain] (Item.notes it) (Item.custom_fields it)
    (Some (Login.MkLogin username (Some (sc_password req)) (Login.totp login)))
    (Item.card it) (Item.identity it) (Item.passkey it) (Item.created_at it) (Item.updated_at it) (Item.password_changed_at it).

Definition saved (env : Reply) (action : string) (i : Uuid) : Reply :=
  ok (id _ env) NmType.VaultSaveCandidate
    (Js.obj [("saved", Bool true); ("action", Str (lit action)); ("id", Str (uuid_show i))])%string.

Definition save_candidate (d : Draw) (host : Host) (env : Reply) : Result Reply * Host :=
  match parse SaveCandidateRequest_de env with
  | inl e => (Ok e, host)
  | inr req =>
      if bool_decide (sc_password req = [])
      then (Ok (error (id _ env) (kind _ env) NmErrorCode.BadRequest "no password to save"), host)
      else
        let existing := List.find (fun it => bool_decide (Item.item_type it = ItemType.Login)
                          && Autofill.origin_matches (Item.urls it) (sc_origin req)
                          && bool_decide (default [] (Item.username it) = sc_username req)) (load_items host) in
        match existing with
        | Some it =>
            if bool_decide (Item.password it = Some (sc_password req)) then (Ok (saved env "unchanged" (Item.id it)), host)
            else
              let it := with_password it (sc_password req) (now d) in
              store d host env it (saved env "updated" (Item.id it))
        | None =>
            let it := new_candidate d req in
            store d host env it (saved env "created" (Item.id it))
        end
  end.

Definition passkey_item (d : Draw) (req : PasskeyRegisterReq) (pk : Passkey.t) : Item.t :=
  let it := Item.new_login (uuid d) (pr_user_name req ++ lit " @ " ++ pr_rp_id req) (now d) in
  Item.MkItem (Item.id it) ItemType.Passkey (Item.title it) (Item.tags it)
    [UrlMatch.MkUrlMatch (pr_origin req) UrlMode.Domain] (Item.notes it) (Item.custom_fields it) None
    (Item.card it) (Item.identity it) (Some pk) (Item.created_at it) (Item.updated_at it) None.

Definition passkey_register (d : Draw) (host : Host) (env : Reply) : Result Reply * Host :=
  match parse PasskeyRegisterReq_de env with
  | inl e => (Ok e, host)
  | inr req =>
      if negb (rp_id_matches_origin (pr_rp_id req) (pr_origin req))
      then (Ok (error (id _ env) (kind _ env) NmErrorCode.BadOrigin "rpId is not valid for this origin"), host)
      else match url_decode (pr_user_handle req) with
      | None => (Ok (error (id _ env) (kind _ env) NmErrorCode.BadRequest "bad user handle"), host)
      | Some user_handle =>
          let pk := passkey.mint_passkey (key d) (cred d) (pr_rp_id req) (pr_rp_name req) (pr_user_name req)
                      (pr_user_display_name req) user_handle in
          match webauthn.registration_attestation pk with
          | Ok (auth_data, attestation) =>
              store d host env (passkey_item d req pk)
                (ok (id _ env) NmType.VaultPasskeyRegister
                   (Js.obj [("credentialIdB64u", Str (Passkey.credential_id pk));
                            ("attestationObjectB64u", Str (url_encode attestation));
                            ("authenticatorDataB64u", Str (url_encode auth_data))])%string)
          | Err _ => (Ok (error (id _ env) (kind _ env) NmErrorCode.Internal "attestation failed"), host)
          | Panic => (Panic, host)
          end
      end
  end.

(** [sign_count.wrapping_add(1)]. *)
Definition bumped (pk : Passkey.t) : Passkey.t :=
  Passkey.MkPasskey (Passkey.rp_id pk) (Passkey.rp_name pk) (Passkey.user_name pk) (Passkey.user_display_name pk)
    (Passkey.user_handle pk) (Passkey.credential_id pk) (Passkey.private_key pk) (Passkey.algorithm pk)
    ((Passkey.sign_count pk + 1) mod 2 ^ 32).

Definition with_passkey (it : Item.t) (pk : Passkey.t) (now : Z) : Item.t :=
  Item.MkItem (Item.id it) (Item.item_type it) (Item.title it) (Item.tags it) (Item.urls it) (Item.notes it)
    (Item.custom_fields it) (Item.login it) (Item.card it) (Item.identity it) (Some pk) (Item.created_at it) now
    (Item.password_changed_at it).

(** Whether an item is a passkey the request may use. *)
Definition usable (req : PasskeyAssertReq) (it : Item.t) : bool :=
  bool_decide (Item.item_type it = ItemType.Passkey)
  && match Item.passkey it with
     | Some p => bool_decide (Passkey.rp_id p = pa_rp_id req)
                 && (bool_decide (pa_allow req = []) || bool_decide (Passkey.credential_id p ∈ pa_allow req))
     | None => false
     end.

(** The counter is stored at best effort: a failed write changes nothing of the reply. *)
Definition keep (d : Draw) (host : Host) (item : Item.t) : Result unit * Host :=
  match VaultSession.seal (nonce d) (session host) item with
  | Ok sealed => let '(_, v) := LocalVault.upsert (vault host) sealed in (Ok tt, MkHost (session host) v)
  | Err _ => (Ok tt, host)
  | Panic => (Panic, host)
  end.

Definition passkey_assert (d : Draw) (host : Host) (env : Reply) : Result Reply * Host :=
  match parse PasskeyAssertReq_de env with
  | inl e => (Ok e, host)
  | inr req =>
      if negb (rp_id_matches_origin (pa_rp_id req) (pa_origin req))
      then (Ok (error (id _ env) (kind _ env) NmErrorCode.BadOrigin "rpId is not valid for this origin"), host)
      else match head (sort_desc Item.updated_at (List.filter (usable req) (load_items host))) with
      | None => (Ok (error (id _ env) (kind _ env) NmErrorCode.NotFound "no passkey for this site"), host)
      | Some item =>
          match Item.passkey item with
          | None => (Panic, host)
          | Some pk =>
              let pk := bumped pk in
              match webauthn.assertion pk (Passkey.sign_count pk) (utf8 (pa_client_data_json req)) with
              | Ok (auth_data, sig) =>
                  match keep d host (with_passkey item pk (now d)) with
                  | (Ok _, host) =>
                      (Ok (ok (id _ env) NmType.VaultPasskeyAssert
                             (Js.obj [("credentialIdB64u", Str (Passkey.credential_id pk));
                                      ("authenticatorDataB64u", Str (url_encode auth_data));
                                      ("signatureB64u", Str (url_encode sig));
                                      ("userHandleB64u", Str (Passkey.user_handle pk))])%string), host)
                  | (Err e, host) => (Err e, host)
                  | (Panic, host) => (Panic, host)
                  end
              | Err _ => (Ok (error (id _ env) (kind _ env) NmErrorCode.Internal "assertion failed"), host)
              | Panic => (Panic, host)
              end
          end
      end
  end.

(** Route one request; without a vault every credential request is answered [locked]. *)
Definition handle (d : Draw) (env : Reply) : ST (option Host) CoreError Reply := fun host =>
  let read (f : Host -> Result Reply) :=
    match host with None => (Ok (locked (id _ env)), host) | Some h => (f h, host) end in
  let write (f : Host -> Result Reply * Host) :=
    match host with None => (Ok (locked (id _ env)), host) | Some h => let '(r, h) := f h in (r, Some h) end in
  match kind _ env with
  | NmType.Hello => (Ok (hello host (id _ env)), host)
  | NmType.VaultSearch => read (fun h => Ok (search h env))
  | NmType.VaultFieldsGet => read (fun h => fields (now d) h env)
  | NmType.VaultTotpGet => read (fun h => totp (now d) h env)
  | NmType.VaultGenerate => (generate (id _ env), host)
  | NmType.VaultSaveCandidate => write (fun h => save_candidate d h env)
  | NmType.VaultPasskeyRegister => write (fun h => passkey_register d h env)
  | NmType.VaultPasskeyAssert => write (fun h => passkey_assert d h env)
  | _ => (Ok (error (id _ env) (kind _ env) NmErrorCode.BadRequest "unsupported request"), host)
  end.
End host.

(** The whole host: request [n] uses the draws [d n]. *)
Definition run {P : CryptoPrims} {SI : Json Item.t} {U : UrlLib} {TH : TotpHmac} {Q : QueryPairs} {UT : UuidText}
    {UC : Unicode} {E : Ecdsa} {B : Base64} {BU : Base64Url} {R : Rng} {J : Json Reply} (app_version : text) (d : nat -> Draw)
    (pipe : list bytes -> bool) (input : list (option bytes)) (host : option Host)
    : Serve.Stop * list bytes * (nat * option Host) :=
  Serve.serve (fun env '(n, h) => let '(r, h) := handle app_version (d n) env h in (r, (S n, h))) pipe input (O, host).
End Host.

(** * The stand-alone host *)

Module StandAlone.
Definition handle (app_version : text) (env : Reply) : Reply :=
  match kind _ env with
  | NmType.Hello =>
      MkNmEnvelope (id _ env) NmType.Hello (Some true)
        (Some (Js.obj [("caps", Arr (map (fun s => Str (lit s)) ["vault.search"; "vault.fields.get"; "vault.totp.get"]));
                       ("appVersion", Str app_version); ("locked", Bool true)])%string) None
  | _ => locked (id _ env)
  end.

Definition run {J : Json Reply} (app_version : text) (pipe : list bytes -> bool) (input : list (option bytes))
    : Serve.Stop * list bytes * unit :=
  Serve.serve (fun env s => (Ok (handle app_version env), s)) pipe input tt.
End StandAlone.

(** * The loop does not depend on how the bytes arrive *)

Section loop_claims.
Context {J : Json Reply} {S : Type}.
Variable handle : Reply -> ST S CoreError Reply.
Variable pipe : list bytes -> bool.
Import Serve.

Lemma decode_frame_Ok buf env n :
  Framing.decode_frame (V := Value) buf = Ok (env, n) -> (4 <= n <= length buf)%nat.
Proof.
  unfold Framing.decode_frame. intros H. inv_result. bools. destruct (from_slice a0); [done|]. injection H as <- <-. lia.
Qed.

(** A buffer that holds a whole frame, or the head of one that is refused, reads the same with more
    bytes behind it. *)
Lemma decode_frame_app buf rest :
  Framing.decode_frame (V := Value) buf <> Err Framing.Incomplete ->
  Framing.decode_frame (V := Value) (buf ++ rest) = Framing.decode_frame buf.
Proof.
  intros H. assert (Hl : (4 <= length buf)%nat).
  { destruct (Nat.le_gt_cases 4 (length buf)) as [|Hs]; [done|]. destruct H. unfold Framing.decode_frame.
    by rewrite (proj2 (Nat.ltb_lt _ _)) by lia. }
  assert (Hh : length (take 4 buf) = 4%nat) by (rewrite length_take; lia). assert (Hb := take_drop 4 buf).
  revert Hh Hb. generalize (take 4 buf) (drop 4 buf). intros h t Hh <-. assert (Hr := le_val_range h). rewrite Hh in Hr.
  replace h with (le_bytes 4 (le_val h)) in H |- * by (rewrite <- Hh; apply le_bytes_le_val). rewrite <- app_assoc.
  rewrite (decode_prefixed _ t) in H |- * by (cbn in *; lia). rewrite decode_prefixed by (cbn in *; lia).
  destruct (_ <? le_val h); [done|]. destruct (Nat.ltb_spec (length t) (Z.to_nat (le_val h))); [done|].
  rewrite length_app, (proj2 (Nat.ltb_ge _ _)) by lia. by rewrite take_app_le by lia.
Qed.

Lemma drain_fuel f g buf out s :
  (length buf < f)%nat -> (length buf < g)%nat -> drain handle pipe f buf out s = drain handle pipe g buf out s.
Proof.
  revert g buf out s; induction f as [|f IH]; intros [|g] buf out s Hf Hg; try lia. cbn.
  destruct (Framing.decode_frame buf) as [[env n]|[]|] eqn:E; try done. apply decode_frame_Ok in E.
  destruct (handle env s) as [[reply|?|] s']; try done. destruct (Framing.encode_frame reply); try done.
  destruct (pipe out); [|done]. apply IH; rewrite length_drop; lia.
Qed.

Lemma drain_not_out f buf out s stop out' s' :
  (length buf < f)%nat -> drain handle pipe f buf out s = (stop, out', s') -> stop <> OutOfFuel.
Proof.
  revert buf out s; induction f as [|f IH]; intros buf out s Hf; [lia|]. cbn.
  destruct (Framing.decode_frame buf) as [[env n]|[]|] eqn:E; try (by intros [= <- <- <-]). apply decode_frame_Ok in E.
  destruct (handle env s) as [[reply|?|] s1]; try (by intros [= <- <- <-]).
  destruct (Framing.encode_frame reply); try (by intros [= <- <- <-]).
  destruct (pipe out); [|by intros [= <- <- <-]]. apply IH. rewrite length_drop. lia.
Qed.

(** Bytes that arrive later are read where the loop waits. *)
Lemma drain_app f g buf rest out s :
  (length buf < f)%nat -> (length buf + length rest < g)%nat ->
  drain handle pipe g (buf ++ rest) out s
  = match drain handle pipe f buf out s with
    | (More b, out, s) => drain handle pipe (Datatypes.S (length b + length rest)) (b ++ rest) out s
    | r => r
    end.
Proof.
  revert g buf out s; induction f as [|f IH]; intros [|g] buf out s Hf Hg; try lia. cbn [drain].
  assert (Hd : Framing.decode_frame (V := Value) buf = Err Framing.Incomplete
               \/ Framing.decode_frame (V := Value) buf <> Err Framing.Incomplete)
    by (destruct (Framing.decode_frame buf) as [?|[]|]; by (by left + by right)).
  destruct Hd as [E|E].
  - rewrite E. exact (drain_fuel (Datatypes.S g) (Datatypes.S (length buf + length rest)) (buf ++ rest) out s
      ltac:(rewrite length_app; lia) ltac:(rewrite length_app; lia)).
  - rewrite decode_frame_app by done.
    destruct (Framing.decode_frame buf) as [[env n]|[]|] eqn:E1; try done. apply decode_frame_Ok in E1.
    destruct (handle env s) as [[reply|?|] s']; try done. destruct (Framing.encode_frame reply); try done.
    destruct (pipe out); [|done]. rewrite drop_app_le by lia. apply IH; rewrite length_drop; lia.
Qed.

(** The specification: read the whole stream at once. *)
Definition spec (stream : bytes) (out : list bytes) (s : S) : Stop * list bytes * S :=
  match drain handle pipe (Datatypes.S (length stream)) stream out s with
  | (More _, out, s) => (Closed, out, s)
  | r => r
  end.

Lemma outer_spec chunks buf out s :
  Forall (fun c => c <> []) chunks -> outer handle pipe (map Some chunks) buf out s = spec (buf ++ concat chunks) out s.
Proof.
  revert buf out s; induction chunks as [|c chunks IH]; intros buf out s Hc.
  - cbn. rewrite app_nil_r. done.
  - apply Forall_cons in Hc as [Hc Hcs]. cbn [map concat outer]. unfold spec.
    rewrite (drain_app (Datatypes.S (length buf))) by (rewrite ?length_app; lia).
    destruct (drain handle pipe (Datatypes.S (length buf)) buf out s) as [[[] out'] s']; try done.
    destruct c as [|b c]; [done|]. rewrite IH by done. unfold spec. rewrite <- app_assoc.
    by rewrite (drain_fuel (Datatypes.S (length (buf0 ++ (b :: c) ++ concat chunks))) (Datatypes.S (length buf0 + length ((b :: c) ++ concat chunks))))
      by (rewrite !length_app; lia).
Qed.

(** C37: the stdio loop answers the byte stream, not its chunks. Whatever the handler does, however
    the browser's bytes are cut into reads and wherever the pipe breaks, the frames written, the
    handler's final state and the way the loop ends are those of reading the whole stream at once;
    the loop always ends, and the bound on its turns is never reached. *)
Theorem serve_chunking chunks s :
  Forall (fun c => c <> []) chunks ->
  exists stop out s', serve handle pipe (map Some chunks) s = (stop, out, s')
    /\ spec (concat chunks) [] s = (stop, out, s') /\ stop <> OutOfFuel /\ forall b, stop <> More b.
Proof.
  intros Hc. unfold serve. rewrite outer_spec by done. cbn [app].
  assert (Hn := drain_not_out (Datatypes.S (length (concat chunks))) (concat chunks) [] s).
  unfold spec. destruct (drain _ _ _ _ _ _) as [[stop out] s']. specialize (Hn stop out s' ltac:(lia) eq_refl).
  destruct stop; eexists _, _, _; (split; [reflexivity|]); (split; [reflexivity|]); done.
Qed.
End loop_claims.
