(* ===== verification/HostRegistry.v ===== *)
(** [apps/desktop/src-tauri/src/nmhost.rs], turning autofill on and off: the host manifest, its
    registration with the browsers in the Windows registry or in their folders, and the copy of the
    extension that the user loads; with what a browser then finds. *)
From S2P Require Import Prelude Bytes Text Crypto Floats Value Totp Toy RecoveryKit Keyring Model Envelope VaultStore Session Nm Generator Passkey NmHost.
Local Open Scope Z_scope.

Module Reg.
(** * The manifest *)

(** [str::replace] of a non-empty pattern; [skip] counts down a match. *)
Fixpoint replace_from (pat by_ : text) (skip : nat) (s : text) : text :=
  match s with
  | [] => []
  | c :: r =>
      match skip with
      | S k => replace_from pat by_ k r
      | O => if starts_with pat s then by_ ++ replace_from pat by_ (length pat - 1) r else c :: replace_from pat by_ 0 r
      end
  end.
Definition replace_str (pat by_ s : text) : text := replace_from pat by_ 0 s.
(** [str::replace] of one character. *)
Definition replace_char (c : Z) (by_ s : text) : text := concat (map (fun x => if x =? c then by_ else [x]) s).

Definition HOST_NAME : text := lit "com.sentinel.host".
Definition PATH_MARK : text := lit "__SENTINEL_NM_HOST_PATH__".
Definition ORIGINS_MARK : text := lit "__SENTINEL_ALLOWED_ORIGINS__".
Definition quote : text := [34].
Definition quoted_lit (s : string) : text := quote ++ lit s ++ quote.
Definition manifest_lines : list text :=
  [lit "{";
   lit "  " ++ quoted_lit "name" ++ lit ": " ++ quoted_lit "com.sentinel.host" ++ lit ",";
   lit "  " ++ quoted_lit "description" ++ lit ": " ++ quoted_lit "SENTINEL native messaging host" ++ lit ",";
   lit "  " ++ quoted_lit "path" ++ lit ": " ++ quote ++ PATH_MARK ++ quote ++ lit ",";
   lit "  " ++ quoted_lit "type" ++ lit ": " ++ quoted_lit "stdio" ++ lit ",";
   lit "  " ++ quoted_lit "allowed_origins" ++ lit ": " ++ ORIGINS_MARK;
   lit "}"; []].
Definition HOST_MANIFEST_TMPL : text := join [10] manifest_lines.

Definition escaped (exe : text) : text := replace_char 34 (lit "\" ++ quote) (replace_char 92 (lit "\\") exe).
Definition origin_of (id : text) : text := lit "chrome-extension://" ++ id ++ lit "/".
Definition origins : text := join (lit ", ") (map (fun id => quote ++ origin_of id ++ quote) Host.allowed_ids).
(** [exe]: the path of this program, or why it is unknown. *)
Definition render_manifest (exe : text + text) : result text text :=
  match exe with
  | inr e => Err (lit "current exe: " ++ e)
  | inl exe =>
      Ok (replace_str ORIGINS_MARK (lit "[" ++ origins ++ lit "]") (replace_str PATH_MARK (escaped exe) HOST_MANIFEST_TMPL))
  end.

(** * The machine *)

(** The files by path, and the keys of the registry under the user with their default value. *)
Record Machine : Type := MkMachine { files : gmap (list Z) (list Z); keys : gmap (list Z) (option (list Z)) }.
Definition set_file p t m := MkMachine (<[p := t]> (files m)) (keys m).
Definition drop_file p m := MkMachine (delete p (files m)) (keys m).
Definition set_key k v m := MkMachine (files m) (<[k := v]> (keys m)).

(** What the operating system says. A refused write has a reason and leaves the file as it was or cut. *)
Inductive Family : Type := Windows | MacOs | OtherUnix.
Record Env : Type := MkEnv {
  family : Family; exe : text + text; data_dir : text; config_dir : option text; temp_dir : text;
  no_dir : text -> option text; no_write : text -> option (text * option text); stays : text -> bool;
  no_create : text -> option text; no_set : text -> option text; no_delete : text -> option text }.

Section ops.
Variable e : Env.
Definition sep : text := match family e with Windows => lit "\" | _ => lit "/" end.
Definition under (dir name : text) : text := dir ++ sep ++ name.
Definition file_name : text := HOST_NAME ++ lit ".json".
Definition stable : text := under (data_dir e) file_name.

Definition R (A : Type) : Type := ST Machine text A.
Definition act (f : Machine -> Machine) : R unit := fun m => (Ok tt, f m).
Definition create_dir_all (dir : text) : result unit text := match no_dir e dir with Some why => Err why | None => Ok tt end.
Definition write (path t : text) : R unit := fun m =>
  match no_write e path with
  | None => (Ok tt, set_file path t m)
  | Some (why, rest) => (Err why, match rest with Some s => set_file path s m | None => m end)
  end.
Definition remove_file (path : text) : R unit := act (fun m => if stays e path then m else drop_file path m).
Definition said (pre : text) {A} (r : R A) : R A := fun m => match r m with (Err why, m) => (Err (pre ++ why), m) | r => r end.

(** ** The registry *)
Definition registry_keys : list text :=
  [lit "Software\Google\Chrome\NativeMessagingHosts\com.sentinel.host";
   lit "Software\Microsoft\Edge\NativeMessagingHosts\com.sentinel.host"].
Definition create_subkey (k : text) : R unit :=
  match no_create e k with Some why => Prelude.err why | None => act (fun m => match keys m !! k with Some _ => m | None => set_key k None m end) end.
Definition set_value (k v : text) : R unit :=
  match no_set e k with Some why => Prelude.err why | None => act (set_key k (Some v)) end.
(** A key that is not there is no error. *)
Definition delete_subkey_all (k : text) : R unit := fun m =>
  match keys m !! k with
  | None => (Ok tt, m)
  | Some _ => match no_delete e k with Some why => (Err why, m) | None => (Ok tt, MkMachine (files m) (delete k (keys m))) end
  end.

Fixpoint each (l : list text) (f : text -> R unit) : R unit :=
  match l with [] => ret tt | x :: l => let! _ := f x in each l f end.

Definition register_windows : R unit :=
  each registry_keys (fun base =>
    let! _ := said (lit "create " ++ base ++ lit ": ") (create_subkey base) in
    said (lit "set " ++ base ++ lit ": ") (set_value base stable)).
Definition unregister_windows : R unit := each registry_keys (fun base => said (lit "delete " ++ base ++ lit ": ") (delete_subkey_all base)).
Definition value_set (m : Machine) (k : text) : bool := match keys m !! k with Some (Some (_ :: _)) => true | _ => false end.

(** ** The folders *)
Definition browser_host_dirs : list text :=
  let base := default (temp_dir e) (config_dir e) in
  map (fun d => under base (lit d))
    match family e with
    | MacOs => ["Google/Chrome/NativeMessagingHosts"; "Microsoft Edge/NativeMessagingHosts"; "Chromium/NativeMessagingHosts"]%string
    | _ => ["google-chrome/NativeMessagingHosts"; "chromium/NativeMessagingHosts"; "microsoft-edge/NativeMessagingHosts"]%string
    end.
Definition register_unix (manifest : text) : R unit :=
  each browser_host_dirs (fun dir =>
    let! _ := said (lit "create " ++ dir ++ lit ": ") (lift (create_dir_all dir)) in
    said (lit "write " ++ dir ++ lit ": ") (write (under dir file_name) manifest)).
Definition unregister_unix : R unit := each browser_host_dirs (fun dir => remove_file (under dir file_name)).

(** ** The commands *)
Definition register (manifest : text) : R unit := match family e with Windows => register_windows | _ => register_unix manifest end.
Definition unregister : R unit := match family e with Windows => unregister_windows | _ => unregister_unix end.
Definition is_installed (m : Machine) : bool :=
  match family e with
  | Windows => existsb (value_set m) registry_keys
  | _ => existsb (fun dir => bool_decide (is_Some (files m !! under dir file_name))) browser_host_dirs
  end.

Definition autofill_install : R unit :=
  let! manifest := lift (render_manifest (exe e)) in
  let! _ := said (lit "create data dir: ") (lift (create_dir_all (data_dir e))) in
  let! _ := said (lit "write host manifest: ") (write stable manifest) in
  register manifest.
Definition autofill_uninstall : R unit := let! _ := unregister in remove_file stable.
Definition autofill_status (m : Machine) : bool := is_installed m.
End ops.

(** * The extension *)

(** A file or a folder with its entries. *)
Inductive Node : Type := File (b : bytes) | Folder (l : list (list Z * Node)).
Fixpoint put (name : list Z) (n : Node) (l : list (list Z * Node)) : list (list Z * Node) :=
  match l with
  | [] => [(name, n)]
  | (k, v) :: l => if bool_decide (k = name) then (name, n) :: l else (k, v) :: put name n l
  end.
Fixpoint entry (name : list Z) (l : list (list Z * Node)) : option Node :=
  match l with [] => None | (k, v) :: l => if bool_decide (k = name) then Some v else entry name l end.

(** [copy_dir_all] of a folder's entries into [dst], which may be there. [bad]: the paths, from the
    destination down, at which a call fails. The answer comes with what is at the destination then. *)
Fixpoint copy_node (bad : list (list Z) -> option text) (at_ : list (list Z)) (src : Node) (dst : option Node) : result unit text * option Node :=
  match bad at_ with
  | Some why => (Err why, dst)
  | None =>
      match src with
      | File b => match dst with Some (Folder _) => (Err (lit "is a directory"), dst) | _ => (Ok tt, Some (File b)) end
      | Folder l =>
          match dst with
          | Some (File _) => (Err (lit "not a directory"), dst)
          | _ =>
              let '(r, d) :=
                (fix go (l : list (list Z * Node)) (d : list (list Z * Node)) : result unit text * list (list Z * Node) :=
                   match l with
                   | [] => (Ok tt, d)
                   | (name, n) :: l =>
                       match copy_node bad (at_ ++ [name]) n (entry name d) with
                       | (Ok _, n') => go l (from_option (fun x => put name x d) d n')
                       | (r, n') => (r, from_option (fun x => put name x d) d n')
                       end
                   end) l (match dst with Some (Folder d) => d | _ => [] end) in
              (r, Some (Folder d))
          end
      end
  end.

(** The candidates are folders of the app's resources; [sticky] is a destination that cannot be removed. *)
Definition has_manifest (n : Node) : bool :=
  match n with Folder l => bool_decide (is_Some (entry (lit "manifest.json") l)) | File _ => false end.
Definition autofill_prepare (resource_dir : text + list (option Node)) (bad : list (list Z) -> option text) (sticky : bool) (dest_path : text)
    (dest : option Node) : result text text * option Node :=
  match resource_dir with
  | inl why => (Err (lit "resource dir: " ++ why), dest)
  | inr candidates =>
      match List.find has_manifest (omap (fun c => c) candidates) with
      | None => (Err (lit "bundled extension not found (only available in an installed build)"), dest)
      | Some src =>
          match copy_node bad [] src (if sticky then dest else None) with
          | (Ok _, d) => (Ok dest_path, d)
          | (Err why, d) => (Err (lit "copy extension: " ++ why), d)
          | (Panic, d) => (Panic, d)
          end
      end
  end.
End Reg.

(** * What a browser reads *)

Module Browser.
Import Reg.
(** A JSON string after its opening quote, and what follows its closing one; [\u] is not needed. *)
Definition unescape (c : Z) : option Z :=
  if bool_decide (c ∈ [34; 92; 47]) then Some c
  else if c =? 98 then Some 8 else if c =? 102 then Some 12 else if c =? 110 then Some 10
  else if c =? 114 then Some 13 else if c =? 116 then Some 9 else None.
Fixpoint read_string (s : text) : option (text * text) :=
  match s with
  | [] => None
  | c :: r =>
      if c =? 34 then Some ([], r)
      else if c =? 92 then
        match r with
        | x :: r => x ← unescape x; '(t, r) ← read_string r; Some (x :: t, r)
        | [] => None
        end
      else if c <? 32 then None
      else '(t, r) ← read_string r; Some (c :: t, r)
  end.
(** A JSON array of strings, as [join] writes it. *)
Fixpoint read_strings (fuel : nat) (s : text) : option (list text) :=
  match fuel with
  | O => None
  | S n =>
      q ← strip_prefix quote s;
      '(t, r) ← read_string q;
      if bool_decide (r = lit "]") then Some [t] else r ← strip_prefix (lit ", ") r; cons t <$> read_strings n r
  end.
Definition member (name : string) (manifest : text) : option text :=
  head (omap (strip_prefix (lit "  " ++ quoted_lit name ++ lit ": ")) (split 10 manifest)).
Definition program_of (manifest : text) : option text :=
  r ← member "path" manifest; q ← strip_prefix quote r; fst <$> read_string q.
Definition admitted (manifest : text) : option (list text) :=
  r ← member "allowed_origins" manifest; q ← strip_prefix (lit "[") r; read_strings (length q) q.

(** Where a browser looks for the manifest of a host: under its registry key, or in its folder. *)
Definition browsers (e : Env) : list text := match family e with Windows => registry_keys | _ => browser_host_dirs e end.
Definition found (e : Env) (m : Machine) (b : text) : option text :=
  match family e with
  | Windows => match keys m !! b with Some (Some path) => files m !! path | _ => None end
  | _ => files m !! under e b file_name
  end.
(** The files and keys that belong to the registration. *)
Definition ours (e : Env) : list text :=
  stable e :: match family e with Windows => [] | _ => map (fun d => under e d file_name) (browser_host_dirs e) end.
Definition our_keys (e : Env) : list text := match family e with Windows => registry_keys | _ => [] end.
End Browser.

Section manifest.
Import Reg Browser.

Lemma starts_with_app pat a c r : c ∉ pat -> starts_with pat (a ++ c :: r) = starts_with pat a.
Proof.
  unfold starts_with. intros Hc. apply bool_decide_ext. revert a.
  induction pat as [|x pat IH]; intros [|y a]; cbn; [done..| |].
  - apply not_elem_of_cons in Hc as [Hx _]. destruct (x =? c) eqn:E; [lia|]. split; [by intros [? [=]]|by intros [? [=]]].
  - apply not_elem_of_cons in Hc as [_ Hc]. destruct (x =? y); [by apply IH|done].
Qed.

Lemma contains_str_cons pat x a : contains_str pat (x :: a) = false -> starts_with pat (x :: a) = false /\ contains_str pat a = false.
Proof.
  unfold contains_str, starts_with. cbn [split_once_str]. intros H. apply bool_decide_eq_false in H.
  destruct (strip_prefix pat (x :: a)) eqn:E; [destruct H; by eexists|].
  split; [by apply bool_decide_eq_false; intros [? [=]]|].
  apply bool_decide_eq_false. intros [[p q] Hq]. apply H. rewrite Hq. by eexists.
Qed.

(** A text without the pattern, up to a character that the pattern does not have, is left alone. *)
Lemma replace_passes pat by_ a c r :
  pat <> [] -> c ∉ pat -> contains_str pat a = false -> replace_str pat by_ (a ++ c :: r) = a ++ c :: replace_str pat by_ r.
Proof.
  unfold replace_str. intros Hp Hc. induction a as [|x a IH]; intros Ha.
  - cbn [app replace_from]. pose proof (starts_with_app pat [] c r Hc) as E. cbn [app] in E. rewrite E. by destruct pat.
  - apply contains_str_cons in Ha as [Hs Ha]. cbn [app replace_from].
    pose proof (starts_with_app pat (x :: a) c r Hc) as E. cbn [app] in E. rewrite E, Hs, IH by done. done.
Qed.

Lemma escaped_cons c t : escaped (c :: t) = (if c =? 92 then [92; 92] else if c =? 34 then [92; 34] else [c]) ++ escaped t.
Proof.
  unfold escaped, replace_char. cbn [map concat]. rewrite map_app, concat_app. f_equal.
  destruct (c =? 92) eqn:E92; [by vm_compute|]. cbn [map concat]. destruct (c =? 34); by rewrite app_nil_r.
Qed.

Lemma read_escaped t r : Forall (fun c => 32 <= c) t -> read_string (escaped t ++ 34 :: r) = Some (t, r).
Proof.
  induction 1 as [|c t Hc Ht IH]; [done|].
  rewrite escaped_cons, <- app_assoc. destruct (c =? 92) eqn:E92; [apply Z.eqb_eq in E92 as ->; cbn; by rewrite IH|].
  destruct (c =? 34) eqn:E34; [apply Z.eqb_eq in E34 as ->; cbn; by rewrite IH|].
  cbn [app read_string]. rewrite E34, E92. destruct (c <? 32) eqn:E32; [lia|]. by rewrite IH.
Qed.

Lemma escaped_one_line t : Forall (fun c => 32 <= c) t -> 10 ∉ escaped t.
Proof.
  induction 1 as [|c t Hc Ht IH]; [by apply not_elem_of_nil|]. rewrite escaped_cons, not_elem_of_app. split; [|done].
  destruct (c =? 92); [|destruct (c =? 34)]; rewrite ?not_elem_of_cons; split_and!; try lia; by apply not_elem_of_nil.
Qed.

Definition manifest_of (p : text) : text :=
  join [10] [lit "{";
   lit "  " ++ quoted_lit "name" ++ lit ": " ++ quoted_lit "com.sentinel.host" ++ lit ",";
   lit "  " ++ quoted_lit "description" ++ lit ": " ++ quoted_lit "SENTINEL native messaging host" ++ lit ",";
   lit "  " ++ quoted_lit "path" ++ lit ": " ++ quote ++ escaped p ++ quote ++ lit ",";
   lit "  " ++ quoted_lit "type" ++ lit ": " ++ quoted_lit "stdio" ++ lit ",";
   lit "  " ++ quoted_lit "allowed_origins" ++ lit ": " ++ lit "[" ++ origins ++ lit "]";
   lit "}"; []].

(** The path of a program that can be written: no control character, and not the other mark. *)
Record plain_path (p : text) : Prop := { printable : Forall (fun c => 32 <= c) p; unmarked : contains_str ORIGINS_MARK (escaped p) = false }.

Lemma rendered_manifest p : plain_path p -> render_manifest (inl p) = Ok (manifest_of p).
Proof.
  intros [_ Hm]. unfold render_manifest. f_equal.
  set (by_ := lit "[" ++ origins ++ lit "]").
  assert (E : exists pre post, replace_str PATH_MARK (escaped p) HOST_MANIFEST_TMPL = (pre ++ [34]) ++ escaped p ++ 34 :: post
      /\ (forall x, replace_str ORIGINS_MARK by_ ((pre ++ [34]) ++ x) = (pre ++ [34]) ++ replace_str ORIGINS_MARK by_ x)
      /\ manifest_of p = (pre ++ [34]) ++ escaped p ++ 34 :: replace_str ORIGINS_MARK by_ post).
  { eexists (firstn 94 HOST_MANIFEST_TMPL), _.
    split; [vm_compute; reflexivity|]. split; [intros x; vm_compute; reflexivity|].
    unfold manifest_of. cbn [join]. rewrite <- !app_assoc. vm_compute. reflexivity. }
  destruct E as (pre & post & -> & Hpre & ->). rewrite Hpre, replace_passes; [done|done| |done].
  apply (bool_decide_unpack _). vm_compute. exact I.
Qed.

(** A browser reads from the manifest the program's path as it is and exactly the allowed extensions. *)
Lemma manifest_read p : plain_path p -> program_of (manifest_of p) = Some p /\ admitted (manifest_of p) = Some (map origin_of Host.allowed_ids).
Proof.
  intros [Hp _]. pose proof (escaped_one_line p Hp) as Hx. pose proof (fun r => read_escaped p r Hp) as Hr.
  unfold program_of, admitted, member. unfold manifest_of.
  revert Hx Hr. generalize (escaped p) as x. intros x Hx Hr. rewrite split_join; [|done|].
  2: { repeat (constructor; [first [by apply (bool_decide_unpack _); vm_compute|idtac]|]); [|constructor].
       rewrite !not_elem_of_app. split_and!; try done; apply (bool_decide_unpack _); by vm_compute. }
  split; [|vm_compute; reflexivity].
  match goal with |- context [head ?l] => assert (E : head l = Some (quote ++ x ++ quote ++ lit ",")) by (vm_compute; reflexivity); rewrite E end.
  cbn. by rewrite Hr.
Qed.
End manifest.

(** * Turning autofill on and off *)

Section registration.
Import Reg Browser.
Variable e : Env.

Lemma elem_map (f : text -> text) x l : x ∈ l -> f x ∈ map f l.
Proof. induction 1; cbn; [left|by right]. Qed.

(** What a command can change: the files [F] and the keys [Q]. *)
Definition touches (F Q : list text) {A} (r : R A) : Prop := forall m a m', r m = (a, m') ->
  (forall p, p ∉ F -> files m' !! p = files m !! p) /\ (forall k, k ∉ Q -> keys m' !! k = keys m !! k).
Lemma touches_bind F Q {A B} (r : R A) (f : A -> R B) : touches F Q r -> (forall a, touches F Q (f a)) -> touches F Q (mbind r f).
Proof.
  unfold touches, mbind. intros Hr Hf m a m'. destruct (r m) as [[x|w|] m1] eqn:E; [|by intros [= <- <-]; eapply Hr..].
  intros H. destruct (Hr _ _ _ E) as [H1 H2]. destruct (Hf x _ _ _ H) as [H3 H4]. split; intros; [rewrite H3|rewrite H4]; auto.
Qed.
Lemma touches_lift F Q {A} (r : result A text) : touches F Q (lift r).
Proof. by intros m a m' [= <- <-]. Qed.
Lemma touches_said F Q pre {A} (r : R A) : touches F Q r -> touches F Q (said pre r).
Proof. unfold touches, said. intros Hr m a m'. destruct (r m) as [[x|w|] m1] eqn:E; intros [= <- <-]; eapply Hr; exact E. Qed.
Lemma touches_each F Q l f : (forall x, x ∈ l -> touches F Q (f x)) -> touches F Q (each l f).
Proof. induction l as [|x l IH]; intros Hf; [by intros m a m' [= <- <-]|]. apply touches_bind; [apply Hf; left|intros _; apply IH; intros; apply Hf; by right]. Qed.
Lemma touches_write F Q p t : p ∈ F -> touches F Q (write e p t).
Proof.
  intros Hp m a m'. unfold write, set_file. destruct (no_write e p) as [[why [s|]]|]; intros [= <- <-]; (split; [|done]); intros q Hq; cbn; try done;
    by rewrite lookup_insert_ne by (intros ->; done).
Qed.
Lemma touches_remove F Q p : p ∈ F -> touches F Q (remove_file e p).
Proof.
  intros Hp m a m' [= <- <-]. destruct (stays e p); [done|]. split; [|done]. intros q Hq. cbn. by rewrite lookup_delete_ne by (intros ->; done).
Qed.
Lemma touches_key F Q k f : k ∈ Q -> (forall m, files (f m) = files m /\ forall j, j <> k -> keys (f m) !! j = keys m !! j) -> touches F Q (act f).
Proof. intros Hk Hf m a m' [= <- <-]. destruct (Hf m) as [-> Hj]. split; [done|]. intros j Hj'. apply Hj. by intros ->. Qed.
Lemma touches_create F Q k : k ∈ Q -> touches F Q (create_subkey e k).
Proof.
  intros Hk. unfold create_subkey. destruct (no_create e k); [by intros m a m' [= <- <-]|]. apply (touches_key _ _ k); [done|]. intros m.
  destruct (keys m !! k); [done|]. split; [done|]. intros j Hj. by apply lookup_insert_ne.
Qed.
Lemma touches_set F Q k v : k ∈ Q -> touches F Q (set_value e k v).
Proof.
  intros Hk. unfold set_value. destruct (no_set e k); [by intros m a m' [= <- <-]|]. apply (touches_key _ _ k); [done|]. intros m.
  split; [done|]. intros j Hj. by apply lookup_insert_ne.
Qed.
Lemma touches_delete F Q k : k ∈ Q -> touches F Q (delete_subkey_all e k).
Proof.
  intros Hk m a m'. unfold delete_subkey_all. destruct (keys m !! k); [|by intros [= <- <-]].
  destruct (no_delete e k); intros [= <- <-]; [done|]. split; [done|]. intros j Hj. cbn. apply lookup_delete_ne. by intros ->.
Qed.
#[local] Hint Resolve touches_bind touches_lift touches_said touches_each touches_write touches_remove touches_create touches_set touches_delete : touches.

Lemma install_touches : touches (ours e) (our_keys e) (autofill_install e).
Proof.
  unfold autofill_install, ours, our_keys. apply touches_bind; [auto with touches|]. intros t. apply touches_bind; [auto with touches|]. intros _.
  apply touches_bind; [apply touches_said, touches_write; left|]. intros _. unfold register, register_windows, register_unix.
  destruct (family e); apply touches_each; intros x Hx; apply touches_bind; intros; auto with touches;
    apply touches_said, touches_write; right; by apply (elem_map (fun d => under e d file_name)).
Qed.
Lemma uninstall_touches : touches (ours e) (our_keys e) (autofill_uninstall e).
Proof.
  unfold autofill_uninstall, ours, our_keys. apply touches_bind; [|intros _; apply touches_remove; left].
  unfold unregister, unregister_windows, unregister_unix. destruct (family e); apply touches_each; intros x Hx; auto with touches;
    apply touches_remove; right; by apply (elem_map (fun d => under e d file_name)).
Qed.

(** A loop that succeeds has brought about, for each of its elements, what one round brings about and
    the others keep. *)
Lemma each_post (P : text -> Machine -> Prop) f l m m' :
  (forall x m m', f x m = (Ok tt, m') -> P x m') -> (forall x y m m', f y m = (Ok tt, m') -> P x m -> P x m') ->
  each l f m = (Ok tt, m') -> forall x, x ∈ l -> P x m'.
Proof.
  intros Hone Hkeep. assert (Hk : forall x l m, each l f m = (Ok tt, m') -> P x m -> P x m').
  { clear l m. intros x l. induction l as [|y l IH]; intros m; [by intros [= <-]|]. intros ([] & m1 & H1 & H2)%mbind_Ok Hx. eauto. }
  revert m. induction l as [|y l IH]; intros m; [by intros _ x ?%not_elem_of_nil|].
  intros ([] & m1 & H1 & H2)%mbind_Ok x [->|Hx]%elem_of_cons; eauto.
Qed.

Lemma said_Ok pre {A} (r : R A) m a m' : said pre r m = (Ok a, m') -> r m = (Ok a, m').
Proof. unfold said. by destruct (r m) as [[x|w|] m1]. Qed.
Lemma write_Ok p t m u m' : write e p t m = (Ok u, m') -> m' = set_file p t m.
Proof. unfold write. by destruct (no_write e p) as [[why rest]|]; intros [= <-]. Qed.

Lemma register_windows_Ok m m' :
  register_windows e m = (Ok tt, m') -> forall k, k ∈ registry_keys -> keys m' !! k = Some (Some (stable e)).
Proof.
  apply (each_post (fun k m => keys m !! k = Some (Some (stable e)))).
  - intros k m1 m2 (u & m3 & _ & H%said_Ok)%mbind_Ok. unfold set_value in H. destruct (no_set e k); [done|]. injection H as <-. apply lookup_insert_eq.
  - intros k j m1 m2 (u & m3 & H1%said_Ok & H2%said_Ok)%mbind_Ok Hk.
    unfold create_subkey in H1. destruct (no_create e j); [done|]. injection H1 as _ <-.
    unfold set_value in H2. destruct (no_set e j); [done|]. injection H2 as <-. cbn. destruct (decide (j = k)) as [->|Hj]; [apply lookup_insert_eq|].
    rewrite lookup_insert_ne by done. destruct (keys m1 !! j) eqn:E; [exact Hk|]. cbn. by rewrite lookup_insert_ne.
Qed.
Lemma register_unix_Ok t m m' :
  register_unix e t m = (Ok tt, m') -> forall d, d ∈ browser_host_dirs e -> files m' !! under e d file_name = Some t.
Proof.
  apply (each_post (fun d m => files m !! under e d file_name = Some t)).
  - intros d m1 m2 (u & m3 & _ & ->%said_Ok%write_Ok)%mbind_Ok. apply lookup_insert_eq.
  - intros d d' m1 m2 (u & m3 & H1%said_Ok & ->%said_Ok%write_Ok)%mbind_Ok Hd. unfold lift in H1. injection H1 as _ <-.
    unfold set_file. cbn [files]. destruct (decide (under e d' file_name = under e d file_name)) as [->|Hn]; [apply lookup_insert_eq|by rewrite lookup_insert_ne].
Qed.

Lemma no_lookup {V} (m : gmap text V) k : bool_decide (is_Some (m !! k)) = false <-> m !! k = None.
Proof. rewrite bool_decide_eq_false. symmetry. apply eq_None_not_Some. Qed.

(** Turning autofill on takes effect: when the command reports success, the status says so, and every
    browser finds a manifest that names this program by its path, as it is, and admits exactly the
    extensions of this app; started by one of them, the program serves it instead of opening its window. *)
Theorem install_takes_effect p m m' :
  exe e = inl p -> plain_path p -> autofill_install e m = (Ok tt, m') ->
  autofill_status e m' = true
  /\ forall b, b ∈ browsers e -> exists t, found e m' b = Some t /\ program_of t = Some p
       /\ exists l, admitted t = Some l /\ l = map origin_of Host.allowed_ids /\ forall o args, o ∈ l -> o ∈ args -> Host.detect args = true.
Proof.
  intros Hexe Hp. unfold autofill_install. rewrite Hexe, rendered_manifest by done.
  intros (t & m1 & H1 & (u & m2 & H2%said_Ok & (u' & m3 & ->%said_Ok%write_Ok & H4)%mbind_Ok)%mbind_Ok)%mbind_Ok.
  injection H1 as <- <-. injection H2 as _ <-. destruct (manifest_read p Hp) as [Hprog Hadm].
  assert (Hdet : forall o args, o ∈ map origin_of Host.allowed_ids -> o ∈ args -> Host.detect args = true).
  { intros o args Ho%list_elem_of_singleton Ha. apply existsb_exists. exists o. split; [by apply list_elem_of_In|]. by rewrite Ho. }
  assert (Hfound : forall b, b ∈ browsers e -> found e m' b = Some (manifest_of p)).
  { unfold found, browsers, register in *. destruct (family e) eqn:Ef; intros b Hb; [|by eapply register_unix_Ok..].
    rewrite (register_windows_Ok _ _ H4 b Hb).
    assert (Ht : touches [] registry_keys (register_windows e)).
    { apply touches_each. intros x Hx. apply touches_bind; [by apply touches_said, touches_create|]. intros _. by apply touches_said, touches_set. }
    destruct (Ht _ _ _ H4) as [-> _]; [apply lookup_insert_eq|apply not_elem_of_nil]. }
  split; [|intros b Hb; exists (manifest_of p); by eauto 10].
  unfold autofill_status, is_installed, found, browsers in *. destruct (family e) eqn:Ef.
  { apply existsb_exists. exists (lit "Software\Google\Chrome\NativeMessagingHosts\com.sentinel.host").
    split; [by left|]. unfold value_set. unfold register in H4. rewrite Ef in H4. rewrite (register_windows_Ok _ _ H4) by left.
    unfold stable, under, sep. rewrite Ef. by destruct (data_dir e). }
  all: destruct (browser_host_dirs e) as [|d l] eqn:Ed; [unfold browser_host_dirs in Ed; by rewrite Ef in Ed|].
  all: cbn [existsb]; rewrite bool_decide_true; [done|]; rewrite Hfound by left; by eexists.
Qed.

Lemma unregister_clears m m' :
  (forall p, stays e p = false) -> autofill_uninstall e m = (Ok tt, m') ->
  (forall p, p ∈ ours e -> files m' !! p = None) /\ (forall k, k ∈ our_keys e -> keys m' !! k = None).
Proof.
  intros Hst (u & m1 & H1 & H2)%mbind_Ok. unfold remove_file, act in H2. rewrite Hst in H2. injection H2 as <-.
  unfold unregister in H1. unfold ours, our_keys. destruct u.
  assert (Hu : family e <> Windows -> unregister_unix e m = (Ok tt, m1) -> forall d, d ∈ browser_host_dirs e -> files m1 !! under e d file_name = None).
  { intros _. apply (each_post (fun d m => files m !! under e d file_name = None)); unfold remove_file, act.
    - intros x m2 m3. rewrite Hst. intros [= <-]. apply lookup_delete_eq.
    - intros x y m2 m3. rewrite Hst. intros [= <-] Hx. unfold drop_file. cbn [files]. apply lookup_delete_None. by right. }
  assert (Hd : forall q, files m1 !! q = None \/ q = stable e -> files (drop_file (stable e) m1) !! q = None)
    by (intros q [Hq| ->]; apply lookup_delete_None; auto).
  destruct (family e) eqn:Ef.
  - split; [intros q ->%list_elem_of_singleton; by auto|]. cbn. revert H1. apply (each_post (fun k m => keys m !! k = None)).
    + intros k m2 m3 H%said_Ok. unfold delete_subkey_all in H. destruct (keys m2 !! k) eqn:E; [|by injection H as <-].
      destruct (no_delete e k); [done|]. injection H as <-. apply lookup_delete_eq.
    + intros k j m2 m3 H%said_Ok Hk. unfold delete_subkey_all in H. destruct (keys m2 !! j) eqn:E; [|by injection H as <-].
      destruct (no_delete e j); [done|]. injection H as <-. apply lookup_delete_None. by right.
  - split; [|by intros k ?%not_elem_of_nil]. intros q [->|Hq]%elem_of_cons; [by auto|]. apply Hd. left. apply list_elem_of_In, in_map_iff in Hq as (d & <- & Hq%list_elem_of_In).
    by apply Hu.
  - split; [|by intros k ?%not_elem_of_nil]. intros q [->|Hq]%elem_of_cons; [by auto|]. apply Hd. left. apply list_elem_of_In, in_map_iff in Hq as (d & <- & Hq%list_elem_of_In).
    by apply Hu.
Qed.

(** Turning autofill on and off again leaves no trace: however far the first command got, once the
    second reports success on a machine whose files can be removed, the files and the registry are what
    they were, and the status says that nothing is installed. *)
Theorem install_leaves_no_trace m m1 m2 r :
  (forall p, p ∈ ours e -> files m !! p = None) -> (forall k, k ∈ our_keys e -> keys m !! k = None) -> (forall p, stays e p = false) ->
  autofill_install e m = (r, m1) -> autofill_uninstall e m1 = (Ok tt, m2) ->
  m2 = m /\ autofill_status e m2 = false.
Proof.
  intros Hf Hk Hst Hi Hu. destruct (install_touches _ _ _ Hi) as [F1 K1]. destruct (uninstall_touches _ _ _ Hu) as [F2 K2].
  destruct (unregister_clears _ _ Hst Hu) as [F3 K3].
  assert (E : m2 = m).
  { destruct m as [fs ks], m2 as [fs2 ks2]. cbn in *. f_equal; apply map_eq; intros q.
    - destruct (decide (q ∈ ours e)) as [Hq|Hq]; [by rewrite F3, Hf|by rewrite F2, F1].
    - destruct (decide (q ∈ our_keys e)) as [Hq|Hq]; [by rewrite K3, Hk|by rewrite K2, K1]. }
  split; [done|]. subst m2. unfold autofill_status, is_installed, ours, our_keys in *. destruct (family e).
  - apply not_true_is_false. intros H%existsb_exists. destruct H as (k & Hin%list_elem_of_In & H). unfold value_set in H. by rewrite Hk in H.
  - apply not_true_is_false. intros H%existsb_exists. destruct H as (d & Hin%list_elem_of_In & [t H]%bool_decide_eq_true).
    rewrite Hf in H; [done|]. right. by apply (elem_map (fun d => under e d file_name)).
  - apply not_true_is_false. intros H%existsb_exists. destruct H as (d & Hin%list_elem_of_In & [t H]%bool_decide_eq_true).
    rewrite Hf in H; [done|]. right. by apply (elem_map (fun d => under e d file_name)).
Qed.

(** Outside Windows, turning autofill off reports success also when a manifest could not be removed. *)
Lemma uninstall_unchecked m : family e <> Windows -> (forall p, stays e p = true) -> autofill_uninstall e m = (Ok tt, m).
Proof.
  intros Hf Hs. assert (Hr : forall q, remove_file e q m = (Ok tt, m)) by (intros q; unfold remove_file, act; by rewrite Hs).
  assert (Hl : forall l, each l (fun dir => remove_file e (under e dir file_name)) m = (Ok tt, m)).
  { induction l as [|d l IH]; [done|]. cbn [each]. unfold mbind. by rewrite Hr. }
  unfold autofill_uninstall, unregister, unregister_unix. destruct (family e); [done| |]; unfold mbind; by rewrite Hl.
Qed.
End registration.

(** * The copy of the extension *)

Section copy.
Import Reg.
(** A folder lists no name twice. *)
Fixpoint distinct_names (n : Node) : Prop :=
  match n with
  | File _ => True
  | Folder l => NoDup (map fst l) /\ (fix all (l : list (list Z * Node)) : Prop := match l with [] => True | (_, n) :: l => distinct_names n /\ all l end) l
  end.

Definition copy_entries (bad : list (list Z) -> option text) (at_ : list (list Z)) : list (list Z * Node) -> list (list Z * Node) -> result unit text * list (list Z * Node) :=
  fix go l d :=
    match l with
    | [] => (Ok tt, d)
    | (name, n) :: l =>
        match copy_node bad (at_ ++ [name]) n (entry name d) with
        | (Ok _, n') => go l (from_option (fun x => put name x d) d n')
        | (r, n') => (r, from_option (fun x => put name x d) d n')
        end
    end.

Lemma entry_none name l : name ∉ map fst l -> entry name l = None.
Proof. induction l as [|[k v] l IH]; [done|]. cbn. intros [Hk Hl]%not_elem_of_cons. rewrite bool_decide_false by done. by apply IH. Qed.
Lemma put_none name n l : name ∉ map fst l -> put name n l = l ++ [(name, n)].
Proof. induction l as [|[k v] l IH]; [done|]. cbn. intros [Hk Hl]%not_elem_of_cons. rewrite bool_decide_false by done. by rewrite IH. Qed.

Lemma Node_forest (P : Node -> Prop) :
  (forall b, P (File b)) -> (forall l, Forall (fun kn => P kn.2) l -> P (Folder l)) -> forall n, P n.
Proof. intros HF HD. fix IH 1. intros [b|l]; [apply HF|]. apply HD. induction l as [|[k n] l IHl]; constructor; [apply IH|exact IHl]. Qed.

Definition whole (bad : list (list Z) -> option text) (n : Node) : Prop := forall at_ r d, distinct_names n ->
  copy_node bad at_ n None = (r, d) -> (forall u, r = Ok u -> d = Some n) /\ ((forall q, bad q = None) -> r = Ok tt).

Lemma entries_whole bad at_ l done_ r d :
  Forall (fun kn => whole bad kn.2) l -> NoDup (map fst (done_ ++ l)) -> distinct_names (Folder l) ->
  copy_entries bad at_ l done_ = (r, d) -> (forall u, r = Ok u -> d = done_ ++ l) /\ ((forall q, bad q = None) -> r = Ok tt).
Proof.
  intros Hl. revert done_. induction Hl as [|[k n] l Hn Hl IH]; intros done_ Hd Hf H; [injection H as <- <-; by rewrite app_nil_r|].
  cbn [copy_entries] in H. destruct Hf as [Hnd [Hdn Hdl]]. cbn [map fst] in Hnd. apply NoDup_cons in Hnd as [_ Hnd].
  assert (Hk : k ∉ map fst done_) by (rewrite map_app in Hd; apply NoDup_app in Hd as (_ & Hd & _); intros Hk; apply (Hd k Hk); left).
  rewrite entry_none in H by done. destruct (copy_node bad (at_ ++ [k]) n None) as [r1 d1] eqn:E. destruct (Hn _ _ _ Hdn E) as [H1 H2].
  destruct r1 as [u|w|]; [|injection H as <- <-; split; [done|]; intros Hb; by specialize (H2 Hb)..].
  rewrite (H1 u eq_refl) in H. cbn [from_option] in H. rewrite put_none in H by done.
  apply IH in H; [|by rewrite <- app_assoc|by split]. by rewrite <- app_assoc in H.
Qed.

Lemma copy_whole bad n : whole bad n.
Proof.
  induction n as [b|l Hl] using Node_forest; intros at_ r d Hn H; cbn [copy_node] in H; destruct (bad at_) as [why|] eqn:Eb.
  1, 3: injection H as <- <-; split; [done|]; intros Hb; by rewrite Hb in Eb.
  - injection H as <- <-. by split; [intros|].
  - change ((let '(r, d) := copy_entries bad at_ l [] in (r, Some (Folder d))) = (r, d)) in H.
    destruct (copy_entries bad at_ l []) as [r1 d1] eqn:E. injection H as <- <-.
    destruct (entries_whole bad at_ l [] _ _ Hl (proj1 Hn) Hn E) as [H1 H2]. split; [|done]. intros u Hu. by rewrite (H1 u Hu).
Qed.

(** The folder the user is told to load is the bundled extension, file for file: when the command
    reports success and the old copy could be removed; and without errors of the file system it does. *)
Theorem prepared_is_bundle candidates bad dest_path dest src :
  List.find has_manifest (omap (fun c => c) candidates) = Some src -> distinct_names src ->
  (forall t d, autofill_prepare (inr candidates) bad false dest_path dest = (Ok t, d) -> t = dest_path /\ d = Some src)
  /\ ((forall q, bad q = None) -> autofill_prepare (inr candidates) bad false dest_path dest = (Ok dest_path, Some src)).
Proof.
  intros Hf Hn. unfold autofill_prepare. rewrite Hf. destruct (copy_node bad [] src None) as [r d] eqn:E.
  destruct (copy_whole bad src _ _ _ Hn E) as [H1 H2]. split.
  - destruct r as [u|w|]; [|done..]. intros t d' [= <- <-]. split; [done|]. by apply (H1 u).
  - intros Hb. specialize (H2 Hb). subst r. by rewrite (H1 tt eq_refl).
Qed.
End copy.

(** * Concrete machines *)

Module RegDemo.
Import Reg Browser.
Definition env (f : Family) : Env :=
  MkEnv f (inl (lit "C:\Program Files\NorthKey\NorthKey.exe")) (lit "C:\Users\me\AppData\com.sentinel.desktop") None (lit "C:\Temp")
    (fun _ => None) (fun _ => None) (fun _ => false) (fun _ => None) (fun _ => None) (fun _ => None).
Definition clean_machine : Machine := MkMachine {[lit "C:\notes.txt" := lit "mine"]} {[lit "Software\Other" := None]}.
Definition installed (f : Family) : Machine := (autofill_install (env f) clean_machine).2.
Lemma ran f : autofill_install (env f) clean_machine = (Ok tt, installed f).
Proof. by destruct f. Qed.
Lemma demo_path : plain_path (lit "C:\Program Files\NorthKey\NorthKey.exe").
Proof. split; [|vm_compute; reflexivity]. apply (bool_decide_unpack _). vm_compute. exact I. Qed.

Lemma install_takes_effect_witness : autofill_status (env Windows) (installed Windows) = true.
Proof. exact (proj1 (install_takes_effect (env Windows) _ _ _ eq_refl demo_path (ran Windows))). Defined.

Lemma install_leaves_no_trace_witness : (autofill_uninstall (env Windows) (installed Windows)).2 = clean_machine.
Proof.
  refine (proj1 (install_leaves_no_trace (env Windows) clean_machine (installed Windows) _ (Ok tt) _ _ (fun _ => eq_refl) (ran Windows) _)).
  - intros p Hp. apply list_elem_of_singleton in Hp as ->. by vm_compute.
  - intros k Hk. repeat (apply elem_of_cons in Hk as [->|Hk]; [by vm_compute|]). by apply not_elem_of_nil in Hk.
  - by vm_compute.
Defined.

Definition bundle : Node := Folder [(lit "manifest.json", File [Byte.x7b]); (lit "host", Folder [(lit "x.tmpl", File [Byte.x7d])])].
Lemma prepared_is_bundle_witness :
  autofill_prepare (inr [None; Some bundle]) (fun _ => None) false (lit "ext") (Some (File [])) = (Ok (lit "ext"), Some bundle).
Proof.
  refine (proj2 (prepared_is_bundle [None; Some bundle] (fun _ => None) (lit "ext") (Some (File [])) bundle eq_refl _) (fun _ => eq_refl)).
  cbn -[lit]. split_and!; try done; apply (bool_decide_unpack _); by vm_compute.
Defined.
End RegDemo.
