(* ===== verification/Importers.v ===== *)
(** [crates/core/src/import/{chrome,bitwarden,export}.rs]: the importers, over the modelled CSV, and
    the exporter. Parsing of JSON text is a parameter; what the derived deserializers read of the
    value is modelled. [fresh i] is the random identifier of the [i]-th item. *)
From S2P Require Import Prelude Bytes Text Crypto Floats Value Toy RecoveryKit Keyring Model Csv.
Local Open Scope Z_scope.

(** [serde_json::from_str] into a [Value]. *)
Class JsonText : Type := { json_parse : text -> string + Value }.

Module Importers.
(** A cell of a row, when its column exists and it is not empty. *)
Definition get (row : list text) (idx : option nat) : option text :=
  i ← idx; s ← row !! i; if bool_decide (s = []) then None else Some s.

Definition position (p : text -> bool) (header : list text) : option nat := fst <$> list_find (fun h => p h = true) header.

(** ** Chrome *)

Definition chrome_row (fresh : Uuid) (now : Z) (header row : list text) : Item.t :=
  let col (name : string) := position (fun h => eq_ignore_ascii_case h (lit name)) header in
  let title := match get row (col "name"%string) with Some t => t | None => default [] (get row (col "url"%string)) end in
  let it := Item.new_login fresh title now in
  let urls := match get row (col "url"%string) with
              | Some url => [UrlMatch.MkUrlMatch url UrlMode.Domain] | None => Item.urls it end in
  Item.MkItem (Item.id it) (Item.item_type it) (Item.title it) (Item.tags it) urls (get row (col "note"%string))
    (Item.custom_fields it)
    (Some (Login.MkLogin (get row (col "username"%string)) (get row (col "password"%string)) None))
    (Item.card it) (Item.identity it) (Item.passkey it) (Item.created_at it) (Item.updated_at it) (Item.password_changed_at it).

Definition parse_chrome_csv (fresh : nat -> Uuid) (input : text) (now : Z) : Result (list Item.t) :=
  match Csv.parse input with
  | [] => Ok []
  | header :: rows => Ok (imap (fun i row => chrome_row (fresh i) now header row) rows)
  end.

(** ** Bitwarden *)

Definition item_type (kind : Z) : ItemType.t :=
  if kind =? 2 then ItemType.Note else if kind =? 3 then ItemType.Card else if kind =? 4 then ItemType.Identity else ItemType.Login.

Record BwLogin : Type := MkBwLogin {
  bl_username : option text; bl_password : option text; bl_totp : option text; bl_uris : option (list (option text)) }.
Record BwItem : Type := MkBwItem { bw_kind : Z; bw_name : option text; bw_notes : option text; bw_login : option BwLogin }.

(** An [Option] of a struct or a list. *)
Definition opt_de {A} (de : Value -> option A) (f : option Value) : option (option A) :=
  match f with None | Some Null => Some None | Some v => Some <$> de v end.

Definition u8 (f : option Value) : option Z :=
  match f with Some (Int z) => if (0 <=? z) && (z <? 256) then Some z else None | _ => None end.

Definition BwUri_de (v : Value) : option (option text) :=
  match Js.struct_fields ["uri"%string] v with Some [u] => Js.str_option u | _ => None end.
Definition BwLogin_de (v : Value) : option BwLogin :=
  match Js.struct_fields ["username"; "password"; "totp"; "uris"]%string v with
  | Some [u; p; t; us] =>
      u ← Js.str_option u; p ← Js.str_option p; t ← Js.str_option t;
      us ← opt_de (fun v => Js.as_array v ≫= mapM BwUri_de) us; Some (MkBwLogin u p t us)
  | _ => None
  end.
Definition BwItem_de (v : Value) : option BwItem :=
  match Js.struct_fields ["type"; "name"; "notes"; "login"]%string v with
  | Some [k; n; no; l] =>
      k ← u8 k; n ← Js.str_option n; no ← Js.str_option no; l ← opt_de BwLogin_de l; Some (MkBwItem k n no l)
  | _ => None
  end.
Definition BwExport_de (v : Value) : option (list BwItem) :=
  match Js.struct_fields ["items"%string] v with Some [Some l] => Js.as_array l ≫= mapM BwItem_de | _ => None end.

Definition bw_item (fresh : Uuid) (now : Z) (bw : BwItem) : Item.t :=
  let it := Item.new_login fresh (default [] (bw_name bw)) now in
  let '(urls, login) := match bw_login bw with
    | Some l => (map (fun url => UrlMatch.MkUrlMatch url UrlMode.Domain) (omap (fun u => u) (default [] (bl_uris l))),
                 Some (Login.MkLogin (bl_username l) (bl_password l) (bl_totp l)))
    | None => (Item.urls it, None)
    end in
  Item.MkItem (Item.id it) (item_type (bw_kind bw)) (Item.title it) (Item.tags it) urls (bw_notes bw) (Item.custom_fields it) login
    (Item.card it) (Item.identity it) (Item.passkey it) (Item.created_at it) (Item.updated_at it) (Item.password_changed_at it).

Definition parse_bitwarden_json {J : JsonText} (fresh : nat -> Uuid) (json : text) (now : Z) : Result (list Item.t) :=
  match json_parse json with
  | inl e => Err (Invalid ("bitwarden json: " +:+ e))
  | inr v =>
      match BwExport_de v with
      | Some items => Ok (imap (fun i bw => bw_item (fresh i) now bw) items)
      | None => Err (Invalid "bitwarden json: ")
      end
  end.

Definition bitwarden_row (fresh : Uuid) (now : Z) (header row : list text) : Item.t :=
  let col (name : string) := position (fun h => bool_decide (h = lit name)) header in
  let it := Item.new_login fresh (default [] (get row (col "name"%string))) now in
  let '(ty, urls, login) :=
    if bool_decide (get row (col "type"%string) = Some (lit "note")) then (ItemType.Note, Item.urls it, None)
    else (Item.item_type it,
          match get row (col "login_uri"%string) with Some u => [UrlMatch.MkUrlMatch u UrlMode.Domain] | None => Item.urls it end,
          Some (Login.MkLogin (get row (col "login_username"%string)) (get row (col "login_password"%string)) (get row (col "login_totp"%string)))) in
  Item.MkItem (Item.id it) ty (Item.title it) (Item.tags it) urls (get row (col "notes"%string)) (Item.custom_fields it) login
    (Item.card it) (Item.identity it) (Item.passkey it) (Item.created_at it) (Item.updated_at it) (Item.password_changed_at it).

Definition parse_bitwarden_csv (fresh : nat -> Uuid) (input : text) (now : Z) : Result (list Item.t) :=
  match Csv.parse input with
  | [] => Ok []
  | header :: rows => Ok (imap (fun i row => bitwarden_row (fresh i) now header row) rows)
  end.

(** ** Export *)

Definition MAGIC : bytes := utf8 (lit "SEXP").
Definition VERSION : byte := Byte.x01.

Section export.
Context {P : CryptoPrims} {SI : Json (list Item.t)}.

Definition export_key (passphrase : text) (salt : arr 16) (profile : Argon2Profile.t) : Key32 :=
  crypto.hkdf32 (crypto.argon2id_kek (utf8 passphrase) salt profile) None Info.Export.

(** [salt] and [nonce] are drawn at random. *)
Definition export_encrypted (salt : arr 16) (nonce : Nonce24) (items : list Item.t) (passphrase : text) (profile : Argon2Profile.t)
    : Result bytes :=
  guard negb (bool_decide (passphrase = [])) else Err (Invalid "export passphrase required") in
  let kek := export_key passphrase salt profile in
  let? json := of_sum Serde (to_vec items) in
  let header := MAGIC ++ [VERSION] ++ salt in
  let '(nonce, ct) := crypto.seal nonce kek header json in
  Ok (header ++ nonce ++ ct).

Definition import_encrypted (b : bytes) (passphrase : text) (profile : Argon2Profile.t) : Result (list Item.t) :=
  guard negb (length b <? 5 + 16 + 24)%nat else Err (Format "encrypted export" "too short") in
  let? magic := slice b 0 4 in
  let? b4 := index b 4 in
  guard bool_decide (magic = MAGIC) && bool_decide (b4 = VERSION) else Err (Format "encrypted export" "bad magic/version") in
  let? sb := slice b 5 21 in
  let? salt := copy_from_slice 16 sb in
  let? header := slice b 0 21 in
  let? nb := slice b 21 45 in
  let? nonce := copy_from_slice 24 nb in
  let? ct := slice_from b 45 in
  let kek := export_key passphrase salt profile in
  let? pt := crypto.open kek header nonce ct in
  of_sum Serde (from_slice pt).
End export.

Definition csv_header : list text := map lit ["name"; "url"; "username"; "password"; "totp"; "notes"].

Definition csv_row (it : Item.t) : list text :=
  let '(user, pass, totp) := match Item.login it with
    | Some l => (default [] (Login.username l), default [] (Login.password l), default [] (Login.totp l))
    | None => ([], [], [])
    end in
  [Item.title it; match head (Item.urls it) with Some u => UrlMatch.url u | None => [] end; user; pass; totp; default [] (Item.notes it)].

Definition export_plain_csv (items : list Item.t) : text := Csv.write (csv_header :: map csv_row items).
End Importers.

(** * The encrypted export *)

Section encrypted.
Context {P : CryptoPrims} {L : CryptoLaws P} {SI : Json (list Item.t)} {SL : JsonLaws (list Item.t)}.
Import Importers.

Definition export_header (salt : arr 16) : bytes := MAGIC ++ [VERSION] ++ salt.

Lemma length_export_header salt : length (export_header salt) = 21%nat.
Proof. unfold export_header. rewrite !length_app, length_arr. done. Qed.

Lemma import_assembled (salt : arr 16) (nonce : Nonce24) ct pass profile :
  import_encrypted (export_header salt ++ nonce ++ ct) pass profile
  = (let? pt := crypto.open (export_key pass salt profile) (export_header salt) nonce ct in of_sum Serde (from_slice pt)).
Proof.
  unfold import_encrypted. rewrite !length_app, length_export_header, length_arr.
  rewrite (proj2 (Nat.ltb_ge _ _)) by lia. cbn [negb].
  rewrite (slice_ok _ 0 4) by (rewrite length_app, length_export_header; lia). cbn [rbind].
  rewrite (index_lookup _ 4 VERSION) by done. cbn [rbind]. rewrite !bool_decide_true by done. cbn [andb].
  rewrite (slice_app (MAGIC ++ [VERSION]) salt (nonce ++ ct) 5 21) by (rewrite ?length_arr; done).
  cbn [rbind]. rewrite copy_from_slice_arr. cbn [rbind].
  rewrite (slice_prefix (export_header salt)) by (by rewrite length_export_header). cbn [rbind].
  rewrite (slice_app (export_header salt) nonce ct 21 45) by (rewrite ?length_export_header, ?length_arr; done). cbn [rbind].
  rewrite copy_from_slice_arr. cbn [rbind]. rewrite (app_assoc (export_header salt)).
  rewrite slice_from_app by (rewrite length_app, length_export_header, length_arr; done). done.
Qed.

(** An encrypted export comes back. Under a passphrase that is not empty the export decrypts to
    the same items with that passphrase; if it opens with another one whose key differs, or after its
    salt was changed, the cipher was forged; an empty passphrase exports nothing; and importing
    arbitrary bytes never panics. *)
Theorem encrypted_export_round_trip salt nonce items pass profile b :
  export_encrypted salt nonce items pass profile = Ok b ->
  import_encrypted b pass profile = Ok items /\ pass <> []
  /\ (forall pass' items', export_key pass' salt profile <> export_key pass salt profile ->
       import_encrypted b pass' profile = Ok items' ->
       exists json, crypto.forgery (export_key pass salt profile) nonce (export_header salt)
                      (export_key pass' salt profile) nonce (export_header salt) json)
  /\ (forall b' pass', import_encrypted b' pass' profile <> Panic).
Proof.
  intros H. unfold export_encrypted in H. destruct (bool_decide (pass = [])) eqn:Ep; [done|]. bools. cbn [negb] in H.
  apply rbind_Ok in H as (a & Ha & H). apply of_sum_Ok in Ha. unfold crypto.seal in H. apply Ok_inj in H as <-.
  change (MAGIC ++ [VERSION] ++ arr_bytes salt) with (export_header salt).
  change ((MAGIC ++ [VERSION] ++ arr_bytes salt) ++ _) with (export_header salt ++ arr_bytes nonce
    ++ aead_encrypt (export_key pass salt profile) nonce (export_header salt) a). split; [|split; [done|split]].
  - rewrite import_assembled, crypto.open_enc. cbn [rbind]. by rewrite (from_slice_to_vec _ _ Ha).
  - intros pass' items' Hk Hi. rewrite import_assembled in Hi. apply rbind_Ok in Hi as (pt & Hpt & _). exists a.
    unfold crypto.open in Hpt. split; [by left; intros ?; apply Hk|]. case_match eqn:E; [|done]. by eexists.
  - intros b' pass'. unfold import_encrypted. no_panic.
Qed.
End encrypted.

(** * The plain export *)

Section plain.
Import Importers.

Definition filled (s : text) : option text := if bool_decide (s = []) then None else Some s.

(** What of an item the Chrome importer finds in the plain export. *)
Definition reimported (fresh : Uuid) (now : Z) (it : Item.t) : Item.t :=
  let url := match head (Item.urls it) with Some u => UrlMatch.url u | None => [] end in
  Item.MkItem fresh ItemType.Login (if bool_decide (Item.title it = []) then url else Item.title it) []
    (match filled url with Some u => [UrlMatch.MkUrlMatch u UrlMode.Domain] | None => [] end) None []
    (Some (Login.MkLogin (filled (default [] (Item.username it))) (filled (default [] (Item.password it))) None))
    None None None now now (Some now).

Lemma chrome_row_export fresh now it : chrome_row fresh now csv_header (csv_row it) = reimported fresh now it.
Proof.
  unfold chrome_row, reimported, csv_row. cbv zeta.
  assert (H : forall n k, position (fun h => eq_ignore_ascii_case h (lit n)) csv_header = k ->
    forall row, get row (position (fun h => eq_ignore_ascii_case h (lit n)) csv_header) = get row k) by (by intros ?? ->).
  rewrite !(H "name"%string (Some 0%nat)), !(H "url"%string (Some 1%nat)), (H "username"%string (Some 2%nat)),
    (H "password"%string (Some 3%nat)), (H "note"%string None) by (vm_compute; reflexivity).
  unfold Item.username, Item.password, get, filled. destruct (Item.login it) as [l|]; cbn;
    generalize (match head (Item.urls it) with Some u => UrlMatch.url u | None => [] end) as url; intros url;
    repeat case_bool_decide; subst; cbn; congruence.
Qed.

(** The plain CSV export, read by the Chrome importer, gives back every item in order with its
    title, first address, user name and password, whatever commas, quotes or line breaks they hold;
    one-time-code secrets, notes and everything that is not a login are not in that round trip. *)
Theorem plain_export_reimports fresh items now :
  parse_chrome_csv fresh (export_plain_csv items) now = Ok (imap (fun i it => reimported (fresh i) now it) items).
Proof.
  unfold parse_chrome_csv, export_plain_csv. rewrite csv_round_trip.
  2:{ constructor; [done|]. apply Forall_map, Forall_true. intros it. unfold csv_row. by destruct (Item.login it). }
  cbn [List.filter]. replace (Csv.blank csv_header) with false by (vm_compute; reflexivity). cbn [negb].
  assert (Hf : List.filter (fun r => negb (Csv.blank r)) (map csv_row items) = map csv_row items).
  { induction items as [|it items IH]; [done|]. cbn [map List.filter].
    replace (Csv.blank (csv_row it)) with false
      by (symmetry; apply bool_decide_eq_false_2; unfold csv_row; by destruct (Item.login it) as [[]|]).
    cbn [negb]. by rewrite IH. }
  rewrite Hf. f_equal. clear Hf. revert fresh; induction items as [|it items IH]; intros fresh; [done|]. cbn [map imap].
  rewrite chrome_row_export. f_equal. apply (IH (fun i => fresh (S i))).
Qed.
End plain.

Definition demo_list : list Item.t := [Item.new_login (arr_fill 16 Byte.x0a) (lit "a,b") 5].
#[local] Instance list_json : Json (list Item.t) := table_json [demo_list].
#[local] Instance list_json_laws : JsonLaws (list Item.t) := table_json_laws [demo_list].

Definition demo_export : bytes := Eval vm_compute in
  match Importers.export_encrypted (arr_le 16 3) (arr_le 24 4) demo_list (lit "pw") Argon2Profile.Production with Ok b => b | _ => [] end.

Lemma encrypted_export_round_trip_witness : Importers.import_encrypted demo_export (lit "pw") Argon2Profile.Production = Ok demo_list.
Proof.
  apply (encrypted_export_round_trip (arr_le 16 3) (arr_le 24 4) demo_list (lit "pw") Argon2Profile.Production demo_export).
  vm_compute. reflexivity.
Defined.
