(* ===== verification/VaultCmds.v ===== *)
(** The vault commands of [apps/desktop/src-tauri/src/commands.rs]: what the user interface calls to
    list, show, reveal, save, delete and import items, with the generator and the audit. The clock,
    fresh identifiers, the formatting of times and JSON text are parameters. *)
From S2P Require Import Prelude Bytes Text Crypto Floats Value Totp Toy RecoveryKit Keyring Model Envelope VaultStore Session Generator Health Passkey NmHost Csv Importers.
Local Open Scope Z_scope.

(** [commands::ApiError]: a core error by its text, or a code and a message. *)
Inductive CmdError : Type := FromCore (e : CoreError) | Coded (code message : string).

(** [OffsetDateTime] formatted as RFC 3339; empty when the time is out of range. *)
Class Rfc3339 : Type := { iso : Z -> text }.

Definition SYSTEM_TAG : text := lit "northkey:system".

Module Cmd.
(** The state behind the mutex. *)
Record Inner : Type := MkInner { session : VaultSession.t; vault : LocalVault.t }.

Definition R (A : Type) : Type := ST Inner CmdError A.

Definition core {A} (r : Result A) : result A CmdError := map_err FromCore r.
Definition look {A} (f : Inner -> A) : R A := fun s => (Ok (f s), s).

Definition host_of (url : text) : text :=
  let after := match split_once_str (lit "://") url with Some (_, r) => r | None => url end in
  default after (head (split (chr "/") after)).

Definition type_str (t : ItemType.t) : text :=
  match t with
  | ItemType.Login => lit "login" | ItemType.Note => lit "note" | ItemType.Card => lit "card"
  | ItemType.Identity => lit "identity" | ItemType.Passkey => lit "passkey"
  end.
Definition type_from_str (s : text) : ItemType.t :=
  if bool_decide (s = lit "note") then ItemType.Note else if bool_decide (s = lit "card") then ItemType.Card
  else if bool_decide (s = lit "identity") then ItemType.Identity else if bool_decide (s = lit "passkey") then ItemType.Passkey
  else ItemType.Login.
Definition mode_str (m : UrlMode.t) : text := match m with UrlMode.Domain => lit "domain" | UrlMode.Host => lit "host" end.

Record ItemSummary : Type := MkItemSummary {
  s_id : text; s_kind : text; s_title : text; s_username : option text; s_tags : list text; s_favicon_domain : option text;
  s_has_totp : bool; s_updated_at : text; s_password_changed_at : option text }.
Record CardOut : Type := MkCardOut { co_brand : text; co_last4 : option text; co_exp_month : option Z; co_exp_year : option Z }.
Record IdentityOut : Type := MkIdentityOut { io_full_name : option text; io_email : option text; io_phone : option text }.
Record PasskeyOut : Type := MkPasskeyOut {
  po_rp_id : text; po_rp_name : option text; po_user_name : text; po_user_display_name : option text; po_credential_id : text;
  po_algorithm : Z; po_sign_count : Z }.
Record ItemDetail : Type := MkItemDetail {
  d_summary : ItemSummary; d_urls : list (text * text); d_notes : option text; d_custom_fields : list (text * text * bool);
  d_card : option CardOut; d_identity : option IdentityOut; d_passkey : option PasskeyOut }.

(** What the editor sends. *)
Record CardIn : Type := MkCardIn {
  ci_cardholder : option text; ci_number : option text; ci_brand : option text; ci_exp_month : option Z; ci_exp_year : option Z;
  ci_cvv : option text }.
Record IdentityIn : Type := MkIdentityIn {
  ii_full_name : option text; ii_email : option text; ii_phone : option text; ii_address : option text }.
Record ItemInput : Type := MkItemInput {
  in_id : option text; in_kind : text; in_title : text; in_username : option text; in_password : option text;
  in_urls : list (text * text); in_notes : option text; in_tags : list text; in_totp_uri : option text;
  in_custom_fields : list (text * text * bool); in_card : option CardIn; in_identity : option IdentityIn }.
Definition CardIn_default : CardIn := MkCardIn None None None None None None.
Definition IdentityIn_default : IdentityIn := MkIdentityIn None None None None.

Section cmds.
Context {P : CryptoPrims} {SI : Json Item.t} {TH : TotpHmac} {Q : QueryPairs} {UT : UuidText} {F : Rfc3339}.

Definition parse_uid (id : text) : result Uuid CmdError := ok_or (uuid_parse id) (Coded "bad_id" "bad item id").

Definition summary_of (it : Item.t) : ItemSummary :=
  MkItemSummary (uuid_show (Item.id it)) (type_str (Item.item_type it)) (Item.title it) (Item.username it) (Item.tags it)
    ((fun u => host_of (UrlMatch.url u)) <$> head (Item.urls it))
    (bool_decide (is_Some (Item.login it ≫= Login.totp))) (iso (Item.updated_at it)) (iso <$> Item.password_changed_at it).

(** The loop over the envelopes; one that does not open fails the command. *)
Fixpoint list_loop (s : VaultSession.t) (envs : list ItemEnvelope) : result (list ItemSummary) CmdError :=
  match envs with
  | [] => Ok []
  | env :: envs =>
      let? it := core (VaultSession.open s env) in
      if existsb (fun t => bool_decide (t = SYSTEM_TAG)) (Item.tags it) then list_loop s envs
      else let? out := list_loop s envs in Ok (summary_of it :: out)
  end.

Definition vault_list : R (list ItemSummary) :=
  let! inner := look (fun s => s) in
  lift (list_loop (session inner) (LocalVault.list_envelopes (vault inner))).

(** The last four characters. *)
Definition last4 (n : text) : text := reverse (take 4 (reverse n)).

Definition detail_of (it : Item.t) : ItemDetail :=
  MkItemDetail (summary_of it) (map (fun u => (UrlMatch.url u, mode_str (UrlMatch.mode u))) (Item.urls it)) (Item.notes it)
    (map (fun c => (CustomField.name c, CustomField.value c, CustomField.secret c)) (Item.custom_fields it))
    ((fun c => MkCardOut (default [] (Card.brand c)) (last4 <$> Card.number c) (Card.exp_month c) (Card.exp_year c)) <$> Item.card it)
    ((fun d => MkIdentityOut (Identity.full_name d) (Identity.email d) (Identity.phone d)) <$> Item.identity it)
    ((fun p => MkPasskeyOut (Passkey.rp_id p) (Passkey.rp_name p) (Passkey.user_name p) (Passkey.user_display_name p)
                 (Passkey.credential_id p) (Passkey.algorithm p) (Passkey.sign_count p)) <$> Item.passkey it).

(** The item of an id. *)
Definition load (id : text) : R Item.t :=
  let! uid := lift (parse_uid id) in
  let! inner := look (fun s => s) in
  let! env := lift (ok_or (LocalVault.get (vault inner) uid) (Coded "not_found" "no such item")) in
  lift (core (VaultSession.open (session inner) env)).

Definition vault_get (id : text) : R ItemDetail := let! it := load id in ret (detail_of it).

Definition field_of (it : Item.t) (field : text) : text :=
  if bool_decide (field = lit "password") then default [] (Item.password it)
  else if bool_decide (field = lit "username") then default [] (Item.username it)
  else if bool_decide (field = lit "totp") then default [] (Item.login it ≫= Login.totp)
  else if bool_decide (field = lit "number") then default [] (Item.card it ≫= Card.number)
  else if bool_decide (field = lit "cvv") then default [] (Item.card it ≫= Card.cvv)
  else [].
Definition vault_reveal_field (id field : text) : R text := let! it := load id in ret (field_of it field).

Definition nonempty (o : option text) : option text := match o with Some [] => None | _ => o end.

(** The item a save builds from the input and the item it replaces. *)
Definition built (uid : Uuid) (ts : Z) (prior : option Item.t) (item : ItemInput) : Item.t :=
  let kind := type_from_str (in_kind item) in
  let created_at := match prior with Some p => Item.created_at p | None => ts end in
  let urls := map (fun u => UrlMatch.MkUrlMatch u.1 (if bool_decide (u.2 = lit "host") then UrlMode.Host else UrlMode.Domain))
                (List.filter (fun u => negb (bool_decide (trim u.1 = []))) (in_urls item)) in
  let custom_fields := map (fun c => CustomField.MkCustomField c.1.1 c.1.2 c.2) (in_custom_fields item) in
  let '(login, card, identity, password_changed_at) :=
    match kind with
    | ItemType.Login =>
        let password_changed_at :=
          match prior, in_password item with
          | Some p, Some np => if bool_decide (Item.password p = Some np) then Item.password_changed_at p else Some ts
          | _, None => prior ≫= Item.password_changed_at
          | _, _ => Some ts
          end in
        (Some (Login.MkLogin (nonempty (in_username item)) (nonempty (in_password item)) (nonempty (in_totp_uri item))),
         None, None, password_changed_at)
    | ItemType.Card =>
        let c := default CardIn_default (in_card item) in
        (None, Some (Card.MkCard (ci_cardholder c) (ci_number c) (ci_brand c) (ci_exp_month c) (ci_exp_year c) (ci_cvv c)), None, None)
    | ItemType.Identity =>
        let d := default IdentityIn_default (in_identity item) in
        (None, None, Some (Identity.MkIdentity (ii_full_name d) (ii_email d) (ii_phone d) (ii_address d)), None)
    | ItemType.Note | ItemType.Passkey => (None, None, None, None)
    end in
  let passkey := match kind with ItemType.Passkey => prior ≫= Item.passkey | _ => None end in
  Item.MkItem uid kind (in_title item) (in_tags item) urls (nonempty (in_notes item)) custom_fields login card identity passkey
    created_at ts password_changed_at.

(** Seal and store. *)
Definition put (nonce : Nonce24) (it : Item.t) : R unit := fun s =>
  match core (VaultSession.seal nonce (session s) it) with
  | Ok env => let '(r, v) := LocalVault.upsert (vault s) env in (core r, MkInner (session s) v)
  | Err e => (Err e, s)
  | Panic => (Panic, s)
  end.

(** The item a save replaces. *)
Definition prior_of (id : option text) : R (option Item.t) :=
  match id with
  | None => ret None
  | Some id =>
      let! uid := lift (parse_uid id) in
      let! inner := look (fun s => s) in
      match LocalVault.get (vault inner) uid with
      | Some env => let! it := lift (core (VaultSession.open (session inner) env)) in ret (Some it)
      | None => ret None
      end
  end.

Definition vault_save (ts : Z) (fresh : Uuid) (nonce : Nonce24) (item : ItemInput) : R text :=
  let! prior := prior_of (in_id item) in
  let! uid := match in_id item with Some id => lift (parse_uid id) | None => ret fresh end in
  let it := built uid ts prior item in
  let! _ := put nonce it in
  ret (uuid_show uid).

Definition vault_delete (now : Z) (id : text) : R unit :=
  let! uid := lift (parse_uid id) in
  fun s => (Ok tt, MkInner (session s) (LocalVault.delete (vault s) uid now)).

Record TotpOut : Type := MkTotpOut { to_code : text; to_remaining_ms : Z }.
Definition vault_totp (now : Z) (id : text) : R TotpOut :=
  let! it := load id in
  let! uri := lift (ok_or (Item.login it ≫= Login.totp) (Coded "no_totp" "item has no TOTP")) in
  let! secret := lift (core (TotpSecret.parse uri)) in
  let! code := lift (core (TotpSecret.code_at secret (now mod 2 ^ 64))) in
  let! rem := lift (core (TotpSecret.remaining_ms secret (now mod 2 ^ 64 * 1000))) in
  ret (MkTotpOut code rem).

Record PasskeyCreated : Type := MkPasskeyCreated { pc_id : text; pc_credential_id : text; pc_public_key_b64 : text }.
Definition vault_passkey_create {E : Ecdsa} {B : Base64} {BU : Base64Url} (ts : Z) (fresh : Uuid) (nonce : Nonce24) (key : SigningKey)
    (cred : arr 16) (rp_id : text) (rp_name : option text) (user_name : text) (user_display_name : option text) (user_handle_b64u : text)
    : R PasskeyCreated :=
  let! user_handle := lift (ok_or (url_decode user_handle_b64u) (Coded "bad_handle" "user handle is not base64url")) in
  let pk := passkey.mint_passkey key cred rp_id rp_name user_name user_display_name user_handle in
  let! public_key := lift (core (passkey.public_key_sec1 pk)) in
  let item := Item.MkItem fresh ItemType.Passkey (user_name ++ lit " @ " ++ rp_id) [] [] None [] None None None (Some pk) ts ts None in
  let! _ := put nonce item in
  ret (MkPasskeyCreated (uuid_show (Item.id item)) (Passkey.credential_id pk) (b64_encode public_key)).

Record Generated : Type := MkGenerated { g_value : text; g_score : Z; g_crack_display : text }.
Definition generated {Zx : Zxcvbn} (value : text) : Generated :=
  let st := Generator.assess value [] in MkGenerated value (Generator.score st) (Generator.crack_display st).
Definition generator_password {Rg : Rng} {Zx : Zxcvbn} (spec : Generator.PasswordSpec) : R Generated :=
  let! value := lift (core (Generator.password spec)) in ret (generated value).
Definition generator_passphrase {Rg : Rng} {M : Libm} {Zx : Zxcvbn} (spec : Generator.PassphraseSpec) : R Generated :=
  let! value := lift (core (Generator.passphrase spec)) in ret (generated (fst value)).

Record AuditOut : Type := MkAuditOut {
  ao_reused : list (nat * list text); ao_weak : list (text * Z); ao_old : list (text * Z); ao_breached : list (text * Z); ao_score : Z }.
Definition audit_with {Zx : Zxcvbn} (now : Z) (hibp : Hibp.HibpClient) : R AuditOut :=
  let! inner := look (fun s => s) in
  let items := omap (fun e => match VaultSession.open (session inner) e with Ok it => Some it | _ => None end)
                 (LocalVault.list_envelopes (vault inner)) in
  let report := Audit.run_audit items now hibp in
  let named (l : list (Uuid * Z)) := map (fun p => (uuid_show p.1, p.2)) l in
  ret (MkAuditOut (imap (fun i g => (i, map uuid_show g)) (Audit.reused report)) (named (Audit.weak report)) (named (Audit.old report))
         (named (Audit.breached report)) (Audit.score report)).
Definition health_audit {Zx : Zxcvbn} {S1 : Sha1} (get : text -> string + text) (now : Z) : R AuditOut :=
  audit_with now (Hibp.RealHibp get).
Definition health_audit_fast {Zx : Zxcvbn} (now : Z) : R AuditOut := audit_with now Hibp.NoHibp.

(** The loop over the parsed items; a failed one is counted and skipped. *)
Fixpoint import_loop (nonce : nat -> Nonce24) (n : nat) (items : list Item.t) (imported skipped : nat) : R (nat * nat) := fun s =>
  match items with
  | [] => (Ok (imported, skipped), s)
  | it :: items =>
      match put (nonce n) it s with
      | (Ok _, s) => import_loop nonce (S n) items (S imported) skipped s
      | (Err _, s) => import_loop nonce (S n) items imported (S skipped) s
      | (Panic, s) => (Panic, s)
      end
  end.

Definition vault_import {J : JsonText} (ts : Z) (fresh : nat -> Uuid) (nonce : nat -> Nonce24) (kind content : text) : R (nat * nat) :=
  let! items :=
    if bool_decide (kind = lit "bitwarden_json") then lift (core (Importers.parse_bitwarden_json fresh content ts))
    else if bool_decide (kind = lit "bitwarden_csv") then lift (core (Importers.parse_bitwarden_csv fresh content ts))
    else if bool_decide (kind = lit "chrome_csv") then lift (core (Importers.parse_chrome_csv fresh content ts))
    else err (Coded "bad_kind" "unsupported import format") in
  import_loop nonce O items O O.
End cmds.
End Cmd.

(** * What the commands promise *)

Section cmd_claims.
Context {P : CryptoPrims} {L : CryptoLaws P} {SI : Json Item.t} {SL : JsonLaws Item.t} {TH : TotpHmac} {Q : QueryPairs}
  {UT : UuidText} {UTL : UuidTextLaws} {F : Rfc3339}.
Import Cmd.

(** Storing an item in an unlocked vault: it serializes, and is then what its identifier loads, or
    it does not and nothing changed. No other row changes either way. *)
Lemma put_spec nonce it s k r s' :
  session s = VaultSession.unlocked k -> i64_range (Item.updated_at it) -> put nonce it s = (r, s') ->
  session s' = session s
  /\ (forall j, j <> Item.id it -> LocalVault.get (vault s') j = LocalVault.get (vault s) j)
  /\ match to_vec it with
     | inr _ => r = Ok tt /\ load (uuid_show (Item.id it)) s' = (Ok it, s')
     | inl e => r = Err (FromCore (Serde e)) /\ s' = s
     end.
Proof.
  intros Hs Hr. unfold put. rewrite Hs. unfold VaultSession.seal. cbn [VaultSession.key VaultSession.unlocked VaultSession.key_opt ok_or rbind].
  destruct (to_vec it) as [e|pt] eqn:Ht.
  - unfold Envelope.seal_item. rewrite Ht. cbn. by intros [= <- <-].
  - assert (Es := proj2 (Envelope.seal_item_Ok nonce k it _) (ex_intro _ pt (conj Ht eq_refl))). rewrite Es. revert Es.
    generalize (Envelope.item_header (Item.id it) (Item.updated_at it) ++ arr_bytes nonce ++ aead_encrypt
      (Envelope.item_key k (Item.id it)) nonce (Envelope.item_header (Item.id it) (Item.updated_at it)) pt). intros sealed Es.
    destruct (item_envelope_round_trip nonce k it _ Hr Es) as [Ho Hm]. cbn [core map_err].
    rewrite (LocalVault.upsert_ok _ _ _ _ Hm). intros [= <- <-]. cbn [session vault].
    split; [done|]. split; [|split; [done|]].
    + intros j Hj. unfold LocalVault.get. cbn. by rewrite lookup_insert_ne.
    + unfold load, mbind, lift, look, parse_uid. rewrite uuid_parse_show. cbn [ok_or vault session]. unfold LocalVault.get.
      cbn [LocalVault.items]. rewrite lookup_insert_eq. cbn [fmap option_fmap option_map fst ok_or].
      unfold VaultSession.open. cbn. by rewrite Ho.
Qed.

Lemma prior_of_state id s r s' : prior_of id s = (r, s') -> s' = s.
Proof.
  unfold prior_of, mbind, lift, look, ret. destruct id as [id|]; [|by intros [= _ <-]].
  destruct (parse_uid id); [|by intros [= _ <-]..]. destruct (LocalVault.get _ _); [|by intros [= _ <-]].
  destruct (core _); by intros [= _ <-].
Qed.

(** The item a successful save names. *)
Lemma vault_save_ok ts fresh nonce input s k i s' :
  session s = VaultSession.unlocked k -> i64_range ts -> vault_save ts fresh nonce input s = (Ok i, s') ->
  exists uid prior, i = uuid_show uid /\ prior_of (in_id input) s = (Ok prior, s)
    /\ match in_id input with Some t => uuid_parse t = Some uid | None => uid = fresh end
    /\ load i s' = (Ok (built uid ts prior input), s')
    /\ (forall j, j <> uid -> LocalVault.get (vault s') j = LocalVault.get (vault s) j).
Proof.
  intros Hs Hts H. unfold vault_save in H. apply mbind_Ok in H as (prior & s1 & Hp & H).
  assert (Hs1 := prior_of_state _ _ _ _ Hp). subst s1. apply mbind_Ok in H as (uid & s1 & Hu & H).
  assert (s1 = s /\ match in_id input with Some t => uuid_parse t = Some uid | None => uid = fresh end) as [-> Hid].
  { destruct (in_id input) as [t|]; unfold lift, ret in Hu; [|by injection Hu as -> ->]. injection Hu as Hu ->. split; [done|].
    unfold parse_uid in Hu. destruct (uuid_parse t); [|done]. by injection Hu as ->. }
  apply mbind_Ok in H as (? & s2 & Hput & H). unfold ret in H. injection H as <- <-.
  assert (Hb : Item.updated_at (built uid ts prior input) = ts /\ Item.id (built uid ts prior input) = uid).
  { unfold built. by destruct (type_from_str _). }
  destruct Hb as [Hbt Hbi]. apply (put_spec _ _ _ k) in Hput as (_ & Hrest & Hput); [|done|by rewrite Hbt].
  destruct (to_vec _) in Hput; [by destruct Hput|]. destruct Hput as [_ Hl]. rewrite Hbi in *.
  exists uid, prior. split_and!; done.
Qed.

(** A save is exactly what the editor sees next. In an unlocked vault a save that returns an
    identifier (the given one, or a fresh one) makes that identifier show and reveal the saved item:
    the non-empty fields of the input, the creation time of the item it replaces, the moment of the
    save as its change time, and the password's age kept when the password is the same and reset when
    it is another. No other row changes. *)
Theorem vault_save_shown ts fresh nonce input s k i s' :
  session s = VaultSession.unlocked k -> i64_range ts -> vault_save ts fresh nonce input s = (Ok i, s') ->
  exists uid prior, i = uuid_show uid /\ prior_of (in_id input) s = (Ok prior, s)
    /\ let b := built uid ts prior input in
       vault_get i s' = (Ok (detail_of b), s')
       /\ (forall f, vault_reveal_field i f s' = (Ok (field_of b f), s'))
       /\ Item.updated_at b = ts
       /\ Item.created_at b = match prior with Some p => Item.created_at p | None => ts end
       /\ (Item.item_type b = ItemType.Login -> field_of b (lit "password") = default [] (in_password input)
           /\ field_of b (lit "username") = default [] (in_username input)
           /\ forall p, prior = Some p -> Item.password_changed_at b =
                match in_password input with
                | Some np => if decide (Item.password p = Some np) then Item.password_changed_at p else Some ts
                | None => Item.password_changed_at p
                end)
       /\ (forall j, j <> uid -> LocalVault.get (vault s') j = LocalVault.get (vault s) j).
Proof.
  intros Hs Hts H. destruct (vault_save_ok _ _ _ _ _ _ _ _ Hs Hts H) as (uid & prior & -> & Hp & _ & Hl & Hrest).
  exists uid, prior. do 2 (split; [done|]). cbv zeta. split_and!.
  - unfold vault_get, mbind. by rewrite Hl.
  - intros f. unfold vault_reveal_field, mbind. by rewrite Hl.
  - unfold built. by destruct (type_from_str _).
  - unfold built. by destruct (type_from_str _).
  - unfold built. destruct (type_from_str _); cbn [Item.item_type]; try done. intros _. split; [|split].
    + unfold field_of. rewrite bool_decide_true by done. cbn. by destruct (in_password input) as [[]|].
    + unfold field_of. rewrite bool_decide_false, bool_decide_true by done. cbn. by destruct (in_username input) as [[]|].
    + intros p ->. cbn. destruct (in_password input); [|done]. case_bool_decide as E1; case_decide; done.
  - done.
Qed.

(** An edit that does not send the one-time-code secret again erases it. The editor never does: what
    it is shown of an item says only that there is a secret. *)
Lemma edit_drops_totp ts fresh nonce input s k i s' :
  session s = VaultSession.unlocked k -> i64_range ts -> in_totp_uri input = None -> vault_save ts fresh nonce input s = (Ok i, s') ->
  vault_reveal_field i (lit "totp") s' = (Ok [], s').
Proof.
  intros Hs Hts Ht H. destruct (vault_save_ok _ _ _ _ _ _ _ _ Hs Hts H) as (uid & prior & -> & _ & _ & Hl & _).
  unfold vault_reveal_field, mbind. rewrite Hl. unfold ret. do 2 f_equal. unfold field_of.
  rewrite !(bool_decide_false (lit "totp" = _)) by done. rewrite bool_decide_true by done.
  unfold built. rewrite Ht. by destruct (type_from_str _).
Qed.

(** An item with what the interface must not be told taken out. *)
Definition scrub (it : Item.t) : Item.t :=
  Item.MkItem (Item.id it) (Item.item_type it) (Item.title it) (Item.tags it) (Item.urls it) (Item.notes it) (Item.custom_fields it)
    ((fun l => Login.MkLogin (Login.username l) None ((fun _ => []) <$> Login.totp l)) <$> Item.login it)
    ((fun c => Card.MkCard None (last4 <$> Card.number c) (Card.brand c) (Card.exp_month c) (Card.exp_year c) None) <$> Item.card it)
    ((fun d => Identity.MkIdentity (Identity.full_name d) (Identity.email d) (Identity.phone d) None) <$> Item.identity it)
    ((fun p => Passkey.MkPasskey (Passkey.rp_id p) (Passkey.rp_name p) (Passkey.user_name p) (Passkey.user_display_name p) []
                 (Passkey.credential_id p) [] (Passkey.algorithm p) (Passkey.sign_count p)) <$> Item.passkey it)
    0 (Item.updated_at it) (Item.password_changed_at it).

Lemma last4_idemp n : last4 (last4 n) = last4 n.
Proof. unfold last4. rewrite reverse_involutive, take_take. done. Qed.

Lemma summary_scrub it : summary_of (scrub it) = summary_of it.
Proof.
  unfold summary_of, scrub, Item.username. cbn. f_equal.
  - by destruct (Item.login it).
  - apply bool_decide_ext. destruct (Item.login it) as [[? ? [?|]]|]; cbn; split; intros [? ?]; by eauto.
Qed.

Lemma detail_scrub it : detail_of (scrub it) = detail_of it.
Proof.
  unfold detail_of. rewrite summary_scrub. unfold scrub. cbn. f_equal.
  - destruct (Item.card it) as [c|]; [|done]. cbn. do 2 f_equal. destruct (Card.number c); [|done]. cbn. by rewrite last4_idemp.
  - by destruct (Item.identity it).
  - by destruct (Item.passkey it).
Qed.

(** Two vaults that differ in secrets only: row by row, what opens opens to items equal when scrubbed. *)
Definition secrets_aside (s1 s2 : Inner) : Prop :=
  forall i, match load i s1, load i s2 with
            | (Ok a, _), (Ok b, _) => scrub a = scrub b
            | (r1, _), (r2, _) => r1 = r2
            end.

(** Showing an item tells no secret. What the interface is given of an item, in the list and in
    the detail view, is a function of the item without its password, one-time-code secret, card number
    but four digits, card holder and code, postal address, private key and user handle: two vaults
    that differ only there are shown the same. Revealing is a command of its own. (The values of
    custom fields are shown, the ones marked secret too.) *)
Theorem shown_without_secrets s1 s2 i :
  secrets_aside s1 s2 ->
  fst (vault_get i s1) = fst (vault_get i s2)
  /\ forall it, summary_of it = summary_of (scrub it) /\ detail_of it = detail_of (scrub it).
Proof.
  intros H. split; [|intros it; by rewrite summary_scrub, detail_scrub]. specialize (H i). unfold vault_get, mbind, ret.
  destruct (load i s1) as [[a|e|] ?], (load i s2) as [[b|e'|] ?]; cbn in *; try done; [|by injection H as ->].
  by rewrite <- (detail_scrub a), H, detail_scrub.
Qed.
End cmd_claims.

(** * Importing *)

Section import_claims.
Context {P : CryptoPrims} {L : CryptoLaws P} {SI : Json Item.t} {SL : JsonLaws Item.t} {TH : TotpHmac} {Q : QueryPairs}
  {UT : UuidText} {UTL : UuidTextLaws} {F : Rfc3339} {J : JsonText}.
Import Cmd.

Definition serializes (it : Item.t) : bool := match to_vec it with inr _ => true | inl _ => false end.

Lemma load_same i s s' :
  session s' = session s -> (forall u, uuid_parse i = Some u -> LocalVault.get (vault s') u = LocalVault.get (vault s) u) ->
  fst (load i s') = fst (load i s).
Proof.
  intros Hs Hg. unfold load, mbind, lift, look, parse_uid. destruct (uuid_parse i) as [u|]; [|done]. cbn. rewrite (Hg u) by done.
  rewrite Hs. destruct (LocalVault.get _ _); done.
Qed.

Lemma import_loop_spec nonce items n a b s k :
  session s = VaultSession.unlocked k -> Forall (fun it => i64_range (Item.updated_at it)) items -> NoDup (map Item.id items) ->
  exists s', import_loop nonce n items a b s
      = (Ok ((a + length (List.filter serializes items))%nat, (b + length (List.filter (fun it => negb (serializes it)) items))%nat), s')
    /\ session s' = session s
    /\ (forall j, j ∉ map Item.id items -> LocalVault.get (vault s') j = LocalVault.get (vault s) j)
    /\ (forall it, it ∈ items -> serializes it = true -> fst (load (uuid_show (Item.id it)) s') = Ok it).
Proof.
  revert n a b s; induction items as [|it items IH]; intros n a b s Hs Hr Hd.
  - exists s. cbn. rewrite !Nat.add_0_r. split_and!; try done. by intros it ?%elem_of_nil.
  - apply Forall_cons in Hr as [Hr1 Hr]. apply NoDup_cons in Hd as [Hn Hd]. cbn [import_loop List.filter].
    destruct (put (nonce n) it s) as [r s1] eqn:Ep. destruct (put_spec _ _ _ _ _ _ Hs Hr1 Ep) as (Hs1 & Hrest & Hput).
    assert (Hs1k : session s1 = VaultSession.unlocked k) by congruence. unfold serializes in *.
    destruct (to_vec it) as [e|pt] eqn:Et.
    + destruct Hput as [-> ->]. destruct (IH (S n) a (S b) s Hs1k Hr Hd) as (s' & -> & H1 & H2 & H3).
      exists s'. cbn [negb length]. split; [do 3 f_equal; lia|]. split; [done|]. split.
      * intros j Hj. apply H2. set_solver.
      * intros x [->|Hx]%elem_of_cons; [by rewrite Et|]. by apply H3.
    + destruct Hput as [-> Hl]. destruct (IH (S n) (S a) b s1 Hs1k Hr Hd) as (s' & -> & H1 & H2 & H3).
      exists s'. cbn [negb length]. split; [do 3 f_equal; lia|]. split; [congruence|]. split.
      * intros j Hj. rewrite H2 by set_solver. apply Hrest. set_solver.
      * intros x [->|Hx]%elem_of_cons; [|by apply H3]. intros _. rewrite (load_same _ s1).
        -- by rewrite Hl.
        -- done.
        -- intros u Hu. rewrite uuid_parse_show in Hu. injection Hu as <-. by apply H2.
Qed.

Definition parsed (kind : text) (fresh : nat -> Uuid) (content : text) (ts : Z) : Result (list Item.t) :=
  if bool_decide (kind = lit "bitwarden_json") then Importers.parse_bitwarden_json fresh content ts
  else if bool_decide (kind = lit "bitwarden_csv") then Importers.parse_bitwarden_csv fresh content ts
  else Importers.parse_chrome_csv fresh content ts.

Definition kinds : list text := map lit ["bitwarden_json"; "bitwarden_csv"; "chrome_csv"].

(** The first [n] fresh identifiers differ. *)
Definition distinct (fresh : nat -> Uuid) (n : nat) : Prop :=
  forall i j, (i < n)%nat -> (j < n)%nat -> fresh i = fresh j -> i = j.

(** Every importer gives the items the fresh identifiers, in order, and the time of the import. *)
Lemma imap_fresh {A} (f : nat -> A -> Item.t) (fresh : nat -> Uuid) ts (l : list A) :
  (forall i x, Item.id (f i x) = fresh i) -> (forall i x, Item.updated_at (f i x) = ts) -> distinct fresh (length l) ->
  Forall (fun it => Item.updated_at it = ts) (imap f l) /\ NoDup (map Item.id (imap f l))
  /\ forall u, u ∈ map Item.id (imap f l) -> exists i, (i < length l)%nat /\ u = fresh i.
Proof.
  revert f fresh; induction l as [|x l IH]; intros f fresh Hid Ht Hd; cbn.
  { split_and!; [constructor|constructor|]. by intros u ?%elem_of_nil. }
  destruct (IH (f ∘ S) (fresh ∘ S)) as (H1 & H2 & H3); [intros; apply Hid|intros; apply Ht| |].
  { intros i j Hi Hj He. apply Hd in He; [|cbn; lia..]. lia. }
  split_and!; [by constructor| |].
  - constructor; [|done]. intros (i & Hi & He)%H3. rewrite Hid in He. apply Hd in He; cbn; lia.
  - intros u [->|Hu]%elem_of_cons; [exists 0%nat; rewrite Hid; split; [lia|done]|].
    apply H3 in Hu as (i & Hi & ->). exists (S i). split; [lia|done].
Qed.

Lemma parsed_fresh kind fresh content ts items :
  parsed kind fresh content ts = Ok items -> distinct fresh (length items) ->
  Forall (fun it => Item.updated_at it = ts) items /\ NoDup (map Item.id items)
  /\ forall u, u ∈ map Item.id items -> exists i, (i < length items)%nat /\ u = fresh i.
Proof.
  intros Hp Hd. assert (Hfin : forall {A} (f : nat -> A -> Item.t) l, items = imap f l ->
    (forall i x, Item.id (f i x) = fresh i) -> (forall i x, Item.updated_at (f i x) = ts) ->
    Forall (fun it => Item.updated_at it = ts) items /\ NoDup (map Item.id items)
    /\ forall u, u ∈ map Item.id items -> exists i, (i < length items)%nat /\ u = fresh i).
  { intros A f l -> H1 H2. rewrite length_imap in *. by apply imap_fresh. }
  revert Hp. unfold parsed. case_bool_decide; [|case_bool_decide].
  - unfold Importers.parse_bitwarden_json. destruct (json_parse content); [done|]. destruct (Importers.BwExport_de _); [|done].
    intros Hq. apply Ok_inj, eq_sym in Hq. eapply Hfin; [done|..]; intros i x; unfold Importers.bw_item; by destruct (Importers.bw_login x).
  - unfold Importers.parse_bitwarden_csv. destruct (Csv.parse content) as [|h rows]; intros Hq; apply Ok_inj, eq_sym in Hq.
    + apply (Hfin unit (fun i _ => Item.new_login (fresh i) [] ts) []); done.
    + eapply Hfin; [done|..]; intros i x; unfold Importers.bitwarden_row; by case_bool_decide.
  - unfold Importers.parse_chrome_csv. destruct (Csv.parse content) as [|h rows]; intros Hq; apply Ok_inj, eq_sym in Hq.
    + apply (Hfin unit (fun i _ => Item.new_login (fresh i) [] ts) []); done.
    + by eapply Hfin.
Qed.

(** An import lands. In an unlocked vault and with fresh distinct identifiers, importing any of
    the three formats either fails as the parser does, or reports as imported exactly the items that
    serialize and as skipped the others; every imported item is then what its identifier loads; and
    no row that was there before changes. *)
Theorem import_lands kind fresh nonce content ts s k items :
  kind ∈ kinds -> session s = VaultSession.unlocked k -> i64_range ts ->
  parsed kind fresh content ts = Ok items -> distinct fresh (length items) ->
  exists s', vault_import ts fresh nonce kind content s
      = (Ok (length (List.filter serializes items), length (List.filter (fun it => negb (serializes it)) items)), s')
    /\ (forall it, it ∈ items -> serializes it = true -> fst (load (uuid_show (Item.id it)) s') = Ok it)
    /\ (forall j, (forall i, (i < length items)%nat -> j <> fresh i) -> LocalVault.get (vault s') j = LocalVault.get (vault s) j).
Proof.
  intros Hk Hs Hts Hp Hdis. destruct (parsed_fresh _ _ _ _ _ Hp Hdis) as (Ht & Hd & Hf).
  destruct (import_loop_spec nonce items 0 0 0 s k Hs) as (s' & Hl & _ & Hrest & Hload); [|done|].
  { eapply Forall_impl; [exact Ht|]. by intros ? ->. }
  exists s'. split; [|split; [done|]].
  - cbn [Nat.add] in Hl. rewrite <- Hl. unfold vault_import, parsed in *.
    repeat (apply elem_of_cons in Hk as [->|Hk]); [..|by apply elem_of_nil in Hk];
      repeat match goal with
      | |- context [bool_decide (?a = ?b)] => first [rewrite (bool_decide_true (a = b)) by done | rewrite (bool_decide_false (a = b)) by done]
      | H : context [bool_decide (?a = ?b)] |- _ => first [rewrite (bool_decide_true (a = b)) in H by done | rewrite (bool_decide_false (a = b)) in H by done]
      end; unfold mbind, lift; by rewrite Hp.
  - intros j Hj. apply Hrest. intros (i & Hi & ->)%Hf. by apply (Hj i).
Qed.
End import_claims.

(** * Concrete runs *)

Module CmdDemo.
#[export] Instance hmac : TotpHmac := {|
  hmac_sha1 k m := arr_fill 20 (byte_of_Z (toy_sum [k; m]));
  hmac_sha2_256 k m := arr_fill 32 (byte_of_Z (toy_sum [k; m]));
  hmac_sha2_512 k m := arr_fill 64 (byte_of_Z (toy_sum [k; m])) |}.
#[export] Instance query : QueryPairs := {| query_pairs _ := None |}.
#[export] Instance uuid_text : UuidText := {| uuid_parse s := arr_of (map byte_of_Z s); uuid_show u := map byte_to_Z (arr_bytes u) |}.
#[export] Instance uuid_text_laws : UuidTextLaws.
Proof.
  split. intros u. cbn. rewrite map_map. rewrite (map_ext _ (fun b => b)) by apply byte_of_to_Z. rewrite map_id. apply arr_of_bytes.
Qed.
#[export] Instance plain_time : Rfc3339 := {| iso t := show_i64 t |}.
#[export] Instance no_text : JsonText := {| json_parse _ := inl "no JSON"%string |}.

Definition vk : VaultKey := arr_fill 32 Byte.x2a.
Definition fresh (n : nat) : Uuid := arr_le 16 (Z.of_nat n mod 2 ^ 128).
Definition input : Cmd.ItemInput :=
  Cmd.MkItemInput None (lit "login") (lit "Bank") (Some (lit "ann")) (Some (lit "pw1")) [] None [] (Some (lit "JBSWY3DP")) [] None None.
Definition first_save : Item.t := Cmd.built (fresh 3) 100 None input.
Definition other_secret : Item.t :=
  Item.MkItem (fresh 3) ItemType.Login (lit "Bank") [] [] None []
    (Some (Login.MkLogin (Some (lit "ann")) (Some (lit "other")) (Some (lit "GEZDGNBV")))) None None None 100 100 (Some 100).
Definition csv : text := Importers.export_plain_csv [first_save].
Definition table : list Item.t := [first_save; other_secret; reimported (fresh 0) 200 first_save].
#[export] Instance item_json : Json Item.t := table_json table.
#[export] Instance item_json_laws : JsonLaws Item.t := table_json_laws table.

Definition empty : Cmd.Inner := Cmd.MkInner (VaultSession.unlocked vk) LocalVault.open.
Definition row_of (it : Item.t) : ItemEnvelope := match Envelope.seal_item (arr_le 24 1) vk it with Ok e => e | _ => [] end.
Definition row1 : ItemEnvelope := Eval vm_compute in row_of first_save.
Definition row2 : ItemEnvelope := Eval vm_compute in row_of other_secret.
Definition with_row (e : ItemEnvelope) : Cmd.Inner :=
  Cmd.MkInner (VaultSession.unlocked vk) (LocalVault.MkLocalVault {[fresh 3 := (e, 100)]} ∅).
End CmdDemo.

Section runs.
Import CmdDemo Cmd.

Lemma vault_save_shown_witness :
  exists i s', vault_save 100 (fresh 3) (arr_le 24 1) input empty = (Ok i, s') /\ fst (vault_reveal_field i (lit "password") s') = Ok (lit "pw1").
Proof.
  exists (uuid_show (fresh 3)), (snd (vault_save 100 (fresh 3) (arr_le 24 1) input empty)).
  assert (H : vault_save 100 (fresh 3) (arr_le 24 1) input empty = (Ok (uuid_show (fresh 3)), snd (vault_save 100 (fresh 3) (arr_le 24 1) input empty)))
    by (apply run_answer; vm_compute; reflexivity).
  split; [exact H|]. destruct (vault_save_shown 100 (fresh 3) (arr_le 24 1) input empty vk _ _ eq_refl ltac:(split; vm_compute; congruence) H)
    as (uid & prior & _ & Hp & _ & Hr & _ & _ & Hf & _).
  rewrite Hr. exact (f_equal Ok (proj1 (Hf eq_refl))).
Defined.

Lemma shown_without_secrets_witness :
  fst (vault_get (uuid_show (fresh 3)) (with_row row1)) = fst (vault_get (uuid_show (fresh 3)) (with_row row2)).
Proof.
  apply (shown_without_secrets (with_row row1) (with_row row2)). intros i. unfold load, mbind, lift, look, parse_uid.
  destruct (uuid_parse i) as [u|]; [|reflexivity]. cbn [ok_or with_row vault session]. unfold LocalVault.get. cbn [LocalVault.items].
  destruct (decide (u = fresh 3)) as [->|Hne].
  - rewrite !lookup_singleton_eq. vm_compute. reflexivity.
  - rewrite !lookup_singleton_ne by congruence. reflexivity.
Defined.

Lemma import_lands_witness :
  exists s', vault_import 200 fresh (fun n => arr_le 24 (Z.of_nat n)) (lit "chrome_csv") csv empty = (Ok (1%nat, 0%nat), s').
Proof.
  destruct (import_lands (lit "chrome_csv") fresh (fun n => arr_le 24 (Z.of_nat n)) csv 200 empty vk [reimported (fresh 0) 200 first_save])
    as (s' & Hs & _).
  - right. right. left.
  - reflexivity.
  - split; vm_compute; congruence.
  - vm_compute. reflexivity.
  - intros i j Hi Hj _. cbn in Hi, Hj. lia.
  - exists s'. rewrite Hs. reflexivity.
Defined.
End runs.
