(* ===== verification/CrowdSec.v ===== *)
(** [apps/desktop/src-tauri/src/crowdsec.rs]: banning addresses on the user's servers over SSH, the
    ban pool shared by the fleet, and the readers of [cscli]'s output. Running a command on a server,
    parsing of IP addresses and of JSON text are parameters; the constant installation script is one
    too. *)
From S2P Require Import Prelude Bytes Text Crypto Floats Value Toy RecoveryKit Keyring Model Session Generator Health Passkey NmHost Csv Importers.
From Stdlib Require Import Floats.SpecFloat.
Local Open Scope Z_scope.

(** [IpAddr::from_str]. *)
Class IpText : Type := { ip_ok : text -> bool }.

Record ExecOut : Type := MkExecOut { stdout : text; stderr : text; exit_code : Z }.

(** [crate::ssh::exec] on a world [W] of servers: provider, id, host, command. *)
Class Ssh (W : Type) : Type := { exec : text -> text -> text -> text -> ST W text ExecOut }.

Module CrowdSec.
(** ** Validation *)

Definition is_ascii_hexdigit (c : Z) : bool :=
  is_ascii_digit c || ((65 <=? c) && (c <=? 70)) || ((97 <=? c) && (c <=? 102)).
Definition is_ascii_alphanumeric (c : Z) : bool :=
  is_ascii_digit c || ((65 <=? c) && (c <=? 90)) || ((97 <=? c) && (c <=? 122)).

Definition valid_ip_or_cidr {I : IpText} (s : text) : bool :=
  let s := trim s in
  if bool_decide (s = []) || (43 <? length (utf8 s))%nat then false
  else if negb (forallb (fun c => is_ascii_hexdigit c || (c =? chr ".") || (c =? chr ":") || (c =? chr "/")) s) then false
  else match split_once (chr "/") s with
       | Some (addr, bits) => ip_ok addr && match parse_unsigned 255 bits with Some b => b <=? 128 | None => false end
       | None => ip_ok s
       end.

Definition valid_scenario (s : text) : bool :=
  let s := trim s in
  negb (bool_decide (s = [])) && (length (utf8 s) <=? 128)%nat
  && forallb (fun c => is_ascii_alphanumeric c || (c =? chr "/") || (c =? chr "-") || (c =? chr "_") || (c =? chr ".")) s.

Definition PERM_DURATION : text := lit "876000h".

(** [cscli]'s command lines. *)
Definition duration_of (minutes : Z) : text := if minutes =? 0 then PERM_DURATION else show_dec minutes ++ lit "m".
Definition ban_cmd (ip : text) (minutes : Z) : text :=
  lit "cscli decisions add --ip " ++ ip ++ lit " --duration " ++ duration_of minutes ++ lit " --reason 'NorthKey manual' 2>&1".
Definition unban_cmd (ip : text) : text := lit "cscli decisions delete --ip " ++ ip ++ lit " 2>&1".
Definition simulation_cmd (training : bool) (scenario : text) : text :=
  lit "cscli simulation " ++ lit (if training then "enable" else "disable") ++ lit " " ++ scenario
  ++ lit " 2>&1 && systemctl reload crowdsec 2>/dev/null; echo done".

(** ** Readers *)

Record CsAlert : Type := MkAlert {
  al_id : Z; al_source_ip : text; al_scenario : text; al_message : text; al_created_at : text; al_simulated : bool; al_country : text }.
Record Decision : Type := MkDecision {
  de_id : Z; de_source_ip : text; de_scenario : text; de_action : text; de_duration : text; de_origin : text }.
Record Scenario : Type := MkScenario { sc_name : text; sc_simulated : bool }.

Definition str_at (k : string) (v : Value) : text := default [] (Js.get (lit k) v ≫= Js.as_str).
Definition int_at (k : string) (v : Value) : Z := default 0 (Js.get (lit k) v ≫= Js.as_i64).

Section readers.
Context {J : JsonText}.

(** The elements of a JSON array, or none. *)
Definition json_array (json : text) : list Value :=
  match json_parse (trim json) with inr (Arr l) => l | _ => [] end.

Definition parse_alerts (json : text) : list CsAlert :=
  map (fun a => MkAlert (int_at "id" a)
                  (default [] (Js.get (lit "source") a ≫= fun s => Js.get (lit "value") s ≫= Js.as_str))
                  (str_at "scenario" a) (str_at "message" a) (str_at "created_at" a)
                  (default false (Js.get (lit "simulated") a ≫= Js.as_bool))
                  (default [] (Js.get (lit "source") a ≫= fun s => Js.get (lit "cn") s ≫= Js.as_str)))
    (json_array json).

Definition decision_of (src : text) (d : Value) : Decision :=
  MkDecision (int_at "id" d) (default src (Js.get (lit "value") d ≫= Js.as_str)) (str_at "scenario" d) (str_at "type" d)
    (str_at "duration" d) (str_at "origin" d).
Definition parse_decisions (json : text) : list Decision :=
  flat_map (fun a =>
    let src := default [] (Js.get (lit "source") a ≫= fun s => Js.get (lit "value") s ≫= Js.as_str) in
    match Js.get (lit "decisions") a ≫= Js.as_array with
    | Some ds => map (decision_of src) ds
    | None => []
    end) (json_array json).

(** Every [name] with a slash, anywhere in the value. *)
Fixpoint collect_scenario_names (v : Value) : list text :=
  match v with
  | Obj l =>
      (match Js.assoc (lit "name") l with Some (Str n) => if contains (chr "/") n then [n] else [] | _ => [] end)
      ++ flat_map (fun p => collect_scenario_names p.2) l
  | Arr l => flat_map collect_scenario_names l
  | _ => []
  end.

(** [sort] and [dedup] on strings: by code points, which is the order of their bytes. *)
Fixpoint text_ltb (a b : text) : bool :=
  match a, b with
  | _, [] => false
  | [], _ :: _ => true
  | x :: a, y :: b => (x <? y) || ((x =? y) && text_ltb a b)
  end.
Fixpoint insert_text (x : text) (l : list text) : list text :=
  match l with [] => [x] | y :: l' => if text_ltb y x then y :: insert_text x l' else x :: l end.
Definition sort_texts (l : list text) : list text := foldr insert_text [] l.
Fixpoint dedup (l : list text) : list text :=
  match l with
  | x :: ((y :: _) as l') => if bool_decide (x = y) then dedup l' else x :: dedup l'
  | _ => l
  end.

(** One line of [simulation.yaml]: the global flag, or an exclusion. *)
Definition sim_line (line : text) (st : bool * list text) : bool * list text :=
  let t := trim line in
  if starts_with (lit "#") t then st
  else
    let t := trim (default [] (head (split (chr "#") t))) in
    match strip_prefix (lit "simulation:") t with
    | Some v => (bool_decide (trim v ∈ map lit ["true"; "on"; "yes"]), st.2)
    | None =>
        match strip_prefix (lit "-") t with
        | Some v => let v := trim_matches 39 (trim_matches 34 (trim v)) in if bool_decide (v = []) then st else (st.1, st.2 ++ [v])
        | None => st
        end
    end.

Definition parse_scenarios (raw : text) : list Scenario :=
  let '(json_part, sim_part) := match split_once_str (lit "---NKSIM---") raw with Some p => p | None => (raw, []) end in
  let names := match json_parse (trim json_part) with inr v => collect_scenario_names v | inl _ => [] end in
  let names := dedup (sort_texts names) in
  let '(global_sim, listed) := fold_left (fun st line => sim_line line st) (Hibp.lines sim_part) (false, []) in
  map (fun name => let in_list := bool_decide (name ∈ listed) in MkScenario name (if global_sim then negb in_list else in_list)) names.
End readers.

(** The entries of the [ip:] block. *)
Fixpoint allow_lines (ls : list text) (in_ip : bool) : list text :=
  match ls with
  | [] => []
  | line :: ls =>
      let t := trim line in
      if starts_with (lit "ip:") t then allow_lines ls true
      else
        let in_ip := if starts_with (lit "cidr:") t || (in_ip && negb (starts_with (lit "-") t) && negb (bool_decide (t = [])))
                     then false else in_ip in
        if in_ip && starts_with (lit "-") t then
          let val := trim (trim_matches 34 (trim (trim_start_char (chr "-") t))) in
          if bool_decide (val = []) then allow_lines ls in_ip else val :: allow_lines ls in_ip
        else allow_lines ls in_ip
  end.
Definition parse_allowlist (yaml : text) : list text := allow_lines (Hibp.lines yaml) false.

Definition ip_line (e : text) : text := lit "    - " ++ [34] ++ e ++ [34; 10].
(** The file the script writes, up to its end marker. *)
Definition allowlist_yaml (entries : list text) : text :=
  lit "name: northkey/whitelist" ++ [10] ++ lit "description: " ++ [34] ++ lit "NorthKey never-ban allowlist" ++ [34; 10]
  ++ lit "whitelist:" ++ [10] ++ lit "  reason: " ++ [34] ++ lit "NorthKey allowlist" ++ [34; 10] ++ lit "  ip:" ++ [10]
  ++ concat (map ip_line entries) ++ lit "  cidr:" ++ [10]
  ++ concat (map (fun c => ip_line (lit c)) ["127.0.0.0/8"; "10.0.0.0/8"; "172.16.0.0/12"; "192.168.0.0/16"]).
Definition allowlist_script (entries : list text) : text :=
  lit "cat > /etc/crowdsec/parsers/s02-enrich/northkey-whitelist.yaml <<'YAML'" ++ [10] ++ allowlist_yaml entries
  ++ lit "YAML" ++ [10] ++ lit "systemctl reload crowdsec 2>/dev/null; echo done".

(** ** Durations *)

(** [str::parse::<f64>] on digits and dots: the nearest [f64] to the decimal. *)
Definition all_digits (s : text) : bool := forallb is_ascii_digit s.
Definition decimal (s : text) : option f64 :=
  let '(whole, frac) := match split_once (chr ".") s with Some p => p | None => (s, []) end in
  if all_digits whole && all_digits frac && negb (bool_decide (whole ++ frac = [])) then
    match digits_val 0 (whole ++ frac) with
    | Some (Zpos n) =>
        let '(q, e, l) := SFdiv_core_binary F64.prec F64.emax (Zpos n) 0 (10 ^ Z.of_nat (length frac)) 0 in
        Some (binary_round_aux F64.prec F64.emax false q e l)
    | Some _ => Some F64.zero
    | None => None
    end
  else None.

Definition u32_max : Z := 2 ^ 32 - 1.
(** [x.ceil() as u32], which saturates. *)
Definition ceil_u32 (x : f64) : Z :=
  match x with
  | S754_finite false m e => Z.min u32_max (if 0 <=? e then Zpos m * 2 ^ e else - ((- Zpos m) / 2 ^ (- e)))
  | S754_infinity false => u32_max
  | _ => 0
  end.

Fixpoint duration_secs (s : text) (num : text) (total : f64) : option f64 :=
  match s with
  | [] => Some total
  | c :: s =>
      if is_ascii_digit c || (c =? chr ".") then duration_secs s (num ++ [c]) total
      else
        match decimal num with
        | None => None
        | Some v =>
            if c =? chr "h" then duration_secs s [] (F64.add total (F64.mul v (F64.of_Z 3600)))
            else if c =? chr "m" then duration_secs s [] (F64.add total (F64.mul v (F64.of_Z 60)))
            else if c =? chr "s" then duration_secs s [] (F64.add total v)
            else None
        end
  end.

Definition parse_duration_mins (s : text) : option (Z * bool) :=
  let s := trim s in
  if bool_decide (s = []) || starts_with (lit "-") s then None
  else match duration_secs s [] F64.zero with
       | None => None
       | Some total =>
           if F64.leb total F64.zero then None
           else let mins := ceil_u32 (F64.div total (F64.of_Z 60)) in Some (Z.max mins 5, 100000 * 60 <=? mins)
       end.

(** ** The fleet *)

Definition ServerBans : Type := list (text * Z * bool).

Definition longer (e : Z * bool) (mins : Z) (perm : bool) : Z * bool := (Z.max e.1 mins, e.2 || perm).
Definition add_ban (u : gmap text (Z * bool)) (b : text * Z * bool) : gmap text (Z * bool) :=
  let '(ip, mins, perm) := b in <[ip := longer (default (0, false) (u !! ip)) mins perm]> u.
Definition union_of (per_server : list (text * ServerBans)) : gmap text (Z * bool) :=
  fold_left (fun u s => fold_left add_ban s.2 u) per_server ∅.

Fixpoint insert_ban (b : text * Z * bool) (l : ServerBans) : ServerBans :=
  match l with [] => [b] | c :: l' => if text_ltb c.1.1 b.1.1 then c :: insert_ban b l' else b :: l end.
(** [sort] of triples with distinct first components. *)
Definition sort_bans (l : ServerBans) : ServerBans := foldr insert_ban [] l.

Definition ips (bans : ServerBans) : list text := map (fun b => b.1.1) bans.
Definition missing_of (u : gmap text (Z * bool)) (bans : ServerBans) : ServerBans :=
  take 100 (sort_bans (map (fun e => (e.1, e.2.1, e.2.2)) (List.filter (fun e => negb (bool_decide (e.1 ∈ ips bans))) (map_to_list u)))).

Definition plan_fleet_additions (per_server : list (text * ServerBans)) : list (text * ServerBans) :=
  let u := union_of per_server in
  map (fun s => (s.1, missing_of u s.2)) per_server.

Record Server : Type := MkServer { provider : text; sid : text; host : text; label : text }.
Definition key_of (s : Server) : text := provider s ++ lit ":" ++ sid s.

Definition fleet_line (b : text * Z * bool) : text :=
  let '(ip, mins, perm) := b in
  lit "cscli decisions add --ip " ++ ip ++ lit " --duration " ++ (if perm : bool then PERM_DURATION else show_dec mins ++ lit "m")
  ++ lit " --reason 'NorthKey fleet sync' 2>&1" ++ [10].
Definition fleet_cmd (missing : ServerBans) : text := concat (map fleet_line missing).

(** ** Commands *)

(** The device: whether the vault is locked, which servers are marked protected, whether bans are
    shared, and the servers themselves. *)
Record Sec (W : Type) : Type := MkSec { locked : bool; protected : gset text; ban_sync : bool; world : W }.
Arguments MkSec {W}. Arguments locked {W}. Arguments protected {W}. Arguments ban_sync {W}. Arguments world {W}.

Section ops.
Context {W : Type} {S : Ssh W} {I : IpText} {J : JsonText}.

Definition M (A : Type) : Type := ST (Sec W) text A.

Definition run_on (pr i h cmd : text) : M ExecOut := fun s =>
  let '(r, w) := exec pr i h cmd (world s) in (r, MkSec (locked s) (protected s) (ban_sync s) w).

Definition unlocked (msg : string) : M unit := fun s => if locked s then (Err (lit msg), s) else (Ok tt, s).

Definition require_host (h : text) : M text :=
  if bool_decide (trim h = []) then err (lit "This server has no public IP address.") else ret (trim h).

Definition not_valid (ip : text) : text := [8220] ++ ip ++ [8221] ++ lit " is not a valid IP address.".

Definition crowdsec_ban (pr i h ip : text) (minutes : Z) : M unit :=
  let! _ := unlocked "Unlock your vault first." in
  require valid_ip_or_cidr ip else not_valid ip in
  let! h := require_host h in
  let! out := run_on pr i h (ban_cmd ip minutes) in
  require exit_code out =? 0 else (lit "Ban failed: " ++ trim (stdout out)) in
  ret tt.

Definition crowdsec_unban (pr i h ip : text) : M unit :=
  let! _ := unlocked "Unlock your vault first." in
  require valid_ip_or_cidr ip else not_valid ip in
  let! h := require_host h in
  let! out := run_on pr i h (unban_cmd ip) in
  require exit_code out =? 0 else (lit "Unban failed: " ++ trim (stdout out)) in
  ret tt.

Definition set_simulation (pr i h scenario : text) (training : bool) : M unit :=
  let! _ := unlocked "Unlock your vault first." in
  require valid_scenario scenario else lit "Invalid scenario name." in
  let! h := require_host h in
  let! out := run_on pr i h (simulation_cmd training scenario) in
  require exit_code out =? 0 else (lit "Could not change scenario mode: " ++ trim (stdout out)) in
  ret tt.
Definition crowdsec_promote (pr i h scenario : text) : M unit := set_simulation pr i h scenario false.
Definition crowdsec_demote (pr i h scenario : text) : M unit := set_simulation pr i h scenario true.

Fixpoint check_entries (entries : list text) : M unit :=
  match entries with
  | [] => ret tt
  | e :: es => require valid_ip_or_cidr e else ([8220] ++ e ++ [8221] ++ lit " is not a valid IP or CIDR.") in check_entries es
  end.
Definition crowdsec_allowlist_set (pr i h : text) (entries : list text) : M unit :=
  let! _ := unlocked "Unlock your vault first." in
  let! _ := check_entries entries in
  let! h := require_host h in
  let! out := run_on pr i h (allowlist_script entries) in
  require exit_code out =? 0 else (lit "Could not update the allowlist: " ++ trim (stdout out)) in
  ret tt.

(** A read-only query and its reader. *)
Definition query {A} (cmd : text) (f : text -> A) (pr i h : text) : M A :=
  let! _ := unlocked "Unlock your vault first." in
  let! h := require_host h in
  let! out := run_on pr i h cmd in
  ret (f (stdout out)).

Definition decisions_cmd : text := lit "cscli decisions list -o json 2>/dev/null || echo '[]'".
Definition crowdsec_alerts (pr i h : text) (limit : Z) : M (list CsAlert) :=
  query (lit "cscli alerts list --limit " ++ show_dec (Z.max 1 (Z.min limit 200)) ++ lit " -o json 2>/dev/null || echo '[]'")
    parse_alerts pr i h.
Definition crowdsec_decisions (pr i h : text) : M (list Decision) := query decisions_cmd parse_decisions pr i h.
Definition crowdsec_scenarios (pr i h : text) : M (list Scenario) :=
  query (lit "cscli scenarios list -o json 2>/dev/null || echo '{}'; echo '---NKSIM---'; cat /etc/crowdsec/simulation.yaml 2>/dev/null || true")
    parse_scenarios pr i h.
Definition crowdsec_allowlist_get (pr i h : text) : M (list text) :=
  query (lit "cat /etc/crowdsec/parsers/s02-enrich/northkey-whitelist.yaml 2>/dev/null || true") parse_allowlist pr i h.

(** What one server has banned itself. *)
Definition local_bans (out : text) : ServerBans :=
  omap (fun d => if negb (bool_decide (de_origin d = lit "CAPI")) && bool_decide (de_action d = lit "ban") && valid_ip_or_cidr (de_source_ip d)
                 then (fun mp => (de_source_ip d, mp.1, mp.2)) <$> parse_duration_mins (de_duration d) else None)
    (parse_decisions out).

Fixpoint gather (fleet : list Server) (per_server : list (text * ServerBans)) (log : text) : M (list (text * ServerBans) * text) := fun s =>
  match fleet with
  | [] => (Ok (per_server, log), s)
  | v :: fleet =>
      match run_on (provider v) (sid v) (host v) decisions_cmd s with
      | (Ok out, s) => gather fleet (per_server ++ [(key_of v, local_bans (stdout out))]) log s
      | (Err e, s) => gather fleet per_server (log ++ label v ++ lit ": unreachable (" ++ e ++ lit ")" ++ [10]) s
      | (Panic, s) => (Panic, s)
      end
  end.

Fixpoint push (plan : list (text * ServerBans)) (fleet : list Server) (propagated : Z) (log : text) : M (Z * text) := fun s =>
  match fleet with
  | [] => (Ok (propagated, log), s)
  | v :: fleet =>
      match Js.assoc (key_of v) (reverse plan) with
      | Some ((_ :: _) as missing) =>
          match run_on (provider v) (sid v) (host v) (fleet_cmd missing) s with
          | (Ok _, s) =>
              push plan fleet (propagated + Z.of_nat (length missing))
                (log ++ label v ++ lit ": added " ++ show_dec (Z.of_nat (length missing)) ++ lit " shared bans" ++ [10]) s
          | (Err e, s) => push plan fleet propagated (log ++ label v ++ lit ": push failed (" ++ e ++ lit ")" ++ [10]) s
          | (Panic, s) => (Panic, s)
          end
      | _ => push plan fleet propagated log s
      end
  end.

Record FleetSyncOut : Type := MkFleetSyncOut { fs_servers : Z; fs_propagated : Z; fs_log : text }.
Definition fleet_sync_given (fleet : list Server) : M FleetSyncOut :=
  let! gl := gather fleet [] [] in
  let '(per_server, log) := gl in
  let! pl := push (plan_fleet_additions per_server) fleet 0 log in
  ret (MkFleetSyncOut (Z.of_nat (length per_server)) pl.1 pl.2).

(** The servers the clouds list, with an address, that are marked protected. *)
Definition protected_fleet (listed : list (Server * option text)) (s : Sec W) : list Server :=
  omap (fun p => match p.2 with
                 | Some ip => if bool_decide (key_of p.1 ∈ protected s) then Some (MkServer (provider p.1) (sid p.1) ip (label p.1)) else None
                 | None => None
                 end) listed.

Definition crowdsec_fleet_sync (listed : list (Server * option text)) : M FleetSyncOut := fun s =>
  if locked s then (Err (lit "Unlock your vault first."), s)
  else match protected_fleet listed s with
       | [] => (Err (lit "No protected servers yet " ++ [8212] ++ lit " protect one from its Security tab first."), s)
       | fleet => fleet_sync_given fleet s
       end.

(** Run one command everywhere; count the servers where it succeeded. *)
Fixpoint everywhere (cmd : text) (fleet : list Server) (done : Z) : M Z := fun s =>
  match fleet with
  | [] => (Ok done, s)
  | v :: fleet =>
      match run_on (provider v) (sid v) (host v) cmd s with
      | (Ok out, s) => everywhere cmd fleet (if exit_code out =? 0 then done + 1 else done) s
      | (Err _, s) => everywhere cmd fleet done s
      | (Panic, s) => (Panic, s)
      end
  end.
Definition crowdsec_fleet_ban (listed : list (Server * option text)) (ip : text) (minutes : Z) : M Z := fun s =>
  if locked s then (Err (lit "Unlock your vault first."), s)
  else if negb (valid_ip_or_cidr ip) then (Err (not_valid ip), s)
  else everywhere (ban_cmd ip minutes) (protected_fleet listed s) 0 s.
Definition crowdsec_fleet_unban (listed : list (Server * option text)) (ip : text) : M Z := fun s =>
  if locked s then (Err (lit "Unlock your vault first."), s)
  else if negb (valid_ip_or_cidr ip) then (Err (not_valid ip), s)
  else everywhere (unban_cmd ip) (protected_fleet listed s) 0 s.

Record DeployOut : Type := MkDeployOut { dp_ok : bool; dp_log : text; dp_admin_ip : text }.

Definition OK_MARK : text := lit "NORTHKEY_CROWDSEC_OK".
Definition admin_ip (combined : text) : text :=
  match omap (strip_prefix (lit "NORTHKEY_CROWDSEC_OK admin_ip=")) (Hibp.lines combined) with
  | x :: _ => x
  | [] => match split_once_str (lit "admin_ip=") combined with
          | Some (_, rest) =>
              let part := match split_once_str (lit "admin_ip=") rest with Some (a, _) => a | None => rest end in
              default [] (head (Generator.split_whitespace part))
          | None => []
          end
  end.
Definition last_lines (n : nat) (t : text) : text := join [10] (reverse (take n (reverse (Hibp.lines t)))).

Definition crowdsec_deploy (install_script : text) (listed : list (Server * option text)) (pr i h : text) : M DeployOut :=
  let! _ := unlocked "Unlock your vault before protecting a server." in
  let! h := require_host h in
  let! out := run_on pr i h install_script in
  let combined := stdout out ++ [10] ++ stderr out in
  require negb (contains_str (lit "NORTHKEY_APT_BUSY") combined) else
    (lit "This server is busy installing its own system updates, so its package manager is locked. That usually finishes within a few minutes "
     ++ [8212] ++ lit " wait a little and click Protect this server again.") in
  let ok := (exit_code out =? 0) && contains_str OK_MARK combined in
  let! _ := if ok then fun s =>
      let s := MkSec (locked s) ({[pr ++ lit ":" ++ i]} ∪ protected s) (ban_sync s) (world s) in
      if ban_sync s then match fleet_sync_given (protected_fleet listed s) s with (Panic, s) => (Panic, s) | (_, s) => (Ok tt, s) end
      else (Ok tt, s)
    else ret tt in
  ret (MkDeployOut ok (last_lines 40 combined) (admin_ip combined)).

Record StatusOut : Type := MkStatusOut {
  st_protected : bool; st_agent : text; st_bouncer : text; st_active_bans : Z; st_community_bans : Z }.
Definition status_cmd : text :=
  lit "systemctl is-active crowdsec 2>/dev/null || echo not-installed; systemctl is-active crowdsec-firewall-bouncer 2>/dev/null || echo not-installed; echo NK_DECISIONS; cscli decisions list -o json 2>/dev/null || echo '[]'; echo NK_CAPI; cscli decisions list -a -o json 2>/dev/null || echo '[]'".
Definition status_of (protected : bool) (out : text) : StatusOut :=
  let '(hd, rest) := match split_once_str (lit "NK_DECISIONS") out with Some p => p | None => (out, lit "[]") end in
  let '(dec, all) := match split_once_str (lit "NK_CAPI") rest with Some p => p | None => (rest, lit "[]") end in
  let ls := Hibp.lines hd in
  MkStatusOut protected (trim (default (lit "unknown") (ls !! 0%nat))) (trim (default (lit "unknown") (ls !! 1%nat)))
    (Z.of_nat (length (parse_decisions dec)))
    (Z.of_nat (length (List.filter (fun d => bool_decide (de_origin d = lit "CAPI")) (parse_decisions all)))).
Definition crowdsec_status (pr i h : text) : M StatusOut := fun s =>
  let p := bool_decide (pr ++ lit ":" ++ i ∈ protected s) in query status_cmd (status_of p) pr i h s.
End ops.
End CrowdSec.
