(* ===== verification/CrowdSecClaims.v ===== *)
(** What the CrowdSec client promises: the commands it runs as root on a server carry, white
    space around an argument apart, nothing but address and scenario characters, the shared ban pool is exactly the strongest ban of every
    address and its plan reaches every server, and the allowlist it writes is the one it reads back. *)
From S2P Require Import Prelude Bytes Text Crypto Floats Value Toy RecoveryKit Keyring Model Session Generator Health Passkey NmHost Csv Importers CrowdSec.
Local Open Scope Z_scope.
Import CrowdSec.

(** ** The fleet plan *)

(** Reference: the bans of one address in a list, their longest time, and whether one is permanent. *)
Definition bans_on (ip : text) (l : ServerBans) : ServerBans := List.filter (fun b => bool_decide (b.1.1 = ip)) l.
Definition longest (l : ServerBans) : Z := foldr (fun b m => Z.max b.1.2 m) 0 l.
Definition permanent (l : ServerBans) : bool := existsb snd l.
Definition all_bans (per_server : list (text * ServerBans)) : ServerBans := concat (map snd per_server).

Lemma union_all per_server : union_of per_server = fold_left add_ban (all_bans per_server) ∅.
Proof.
  unfold union_of, all_bans. generalize (∅ : gmap text (Z * bool)).
  induction per_server as [|s l IH]; intros u; cbn; [done|]. by rewrite fold_left_app, IH.
Qed.

Lemma add_bans_dom l u ip : is_Some (fold_left add_ban l u !! ip) <-> is_Some (u !! ip) \/ ip ∈ ips l.
Proof.
  revert u; induction l as [|[[a m] p] l IH]; intros u; cbn [fold_left ips map].
  - split; [by left|]. intros [?|Hx]; [done|]. by apply elem_of_nil in Hx.
  - rewrite IH. unfold add_ban. rewrite elem_of_cons. cbn [fst snd].
    destruct (decide (a = ip)) as [->|].
    + rewrite lookup_insert_eq. naive_solver eauto.
    + rewrite lookup_insert_ne by done. naive_solver congruence.
Qed.

Lemma add_bans_val l u ip : (forall e, u !! ip = Some e -> 0 <= e.1) ->
  default (0, false) (fold_left add_ban l u !! ip)
  = (Z.max (default (0, false) (u !! ip)).1 (longest (bans_on ip l)), (default (0, false) (u !! ip)).2 || permanent (bans_on ip l)).
Proof.
  revert u; induction l as [|[[a m] p] l IH]; intros u Hu; cbn [fold_left bans_on List.filter].
  - cbn. destruct (u !! ip) as [[m p]|] eqn:E; [|done]. cbn. specialize (Hu _ eq_refl). cbn in Hu.
    rewrite orb_false_r. f_equal. lia.
  - rewrite IH; unfold add_ban; destruct (decide (a = ip)) as [->|].
    + rewrite lookup_insert_eq. cbn [fst]. rewrite bool_decide_true by done. cbn.
      by rewrite orb_assoc, Z.max_assoc.
    + rewrite lookup_insert_ne by done. cbn [fst]. by rewrite bool_decide_false.
    + rewrite lookup_insert_eq. intros ? [= <-]. cbn. destruct (u !! ip) as [[]|]; cbn in *; [specialize (Hu _ eq_refl); cbn in Hu|]; lia.
    + by rewrite lookup_insert_ne.
Qed.

(** The union is the strongest ban of every banned address. *)
Lemma union_spec per_server ip m p :
  union_of per_server !! ip = Some (m, p)
  <-> ip ∈ ips (all_bans per_server)
      /\ m = longest (bans_on ip (all_bans per_server)) /\ p = permanent (bans_on ip (all_bans per_server)).
Proof.
  rewrite union_all.
  pose proof (add_bans_dom (all_bans per_server) ∅ ip) as Hd.
  pose proof (add_bans_val (all_bans per_server) ∅ ip ltac:(intros ? Hx; by rewrite lookup_empty in Hx)) as Hv.
  assert (Hl : 0 <= longest (bans_on ip (all_bans per_server))).
  { generalize (bans_on ip (all_bans per_server)). intros l. induction l as [|b l IH]; unfold longest; cbn [foldr]; [done|fold (longest l); lia]. }
  rewrite lookup_empty in Hd, Hv. cbn in Hv.
  destruct (fold_left add_ban _ ∅ !! ip) as [[m' p']|] eqn:E; cbn in Hv.
  - injection Hv as -> ->. rewrite Z.max_r by done.
    assert (ip ∈ ips (all_bans per_server)) by (by destruct (proj1 Hd (ex_intro _ _ eq_refl)) as [[? [=]]|?]).
    split; [intros [= <- <-]; auto|]. by intros (_ & -> & ->).
  - split; [done|]. intros (Hi & _). by destruct (proj2 Hd (or_intror Hi)).
Qed.

(** *** One server's share *)

Definition by_ip (b c : text * Z * bool) : Prop := text_ltb b.1.1 c.1.1 = true.

Lemma insert_ban_perm b l : insert_ban b l ≡ₚ b :: l.
Proof. induction l as [|c l IH]; cbn; [done|]. destruct (text_ltb _ _); [|done]. rewrite IH. constructor. Qed.
Lemma sort_bans_perm l : sort_bans l ≡ₚ l.
Proof. induction l as [|b l IH]; cbn; [done|]. by rewrite insert_ban_perm, IH. Qed.

Lemma text_ltb_total a b : text_ltb a b = false -> a = b \/ text_ltb b a = true.
Proof.
  revert b; induction a as [|x a IH]; intros [|y b]; cbn; [by left|done|by right|].
  intros [H1 H2]%orb_false_iff. destruct (Z.ltb_spec y x); [by right|].
  assert (x = y) as -> by (bools; lia). rewrite Z.eqb_refl in *. cbn in *. destruct (IH _ H2) as [->|]; auto.
Qed.
Lemma text_ltb_trans a b c : text_ltb a b = true -> text_ltb b c = true -> text_ltb a c = true.
Proof.
  revert b c; induction a as [|x a IH]; intros [|y b] [|z c]; cbn; try done.
  rewrite !orb_true_iff, !andb_true_iff, !Z.ltb_lt, !Z.eqb_eq. intros [?|[-> ?]] [?|[-> ?]]; try (left; lia). right. eauto.
Qed.

Lemma insert_ban_sorted b l : b.1.1 ∉ ips l -> StronglySorted by_ip l -> StronglySorted by_ip (insert_ban b l).
Proof.
  intros Hb. induction 1 as [|c l Hl IH Hc]; cbn; [repeat constructor|].
  cbn in Hb. rewrite not_elem_of_cons in Hb. destruct Hb as [Hne Hb].
  destruct (text_ltb c.1.1 b.1.1) eqn:E.
  - constructor; [by apply IH|]. rewrite insert_ban_perm. by constructor.
  - destruct (text_ltb_total _ _ E) as [?|Hlt]; [by subst; congruence|].
    constructor; [by constructor|]. constructor; [done|]. eapply Forall_impl; [exact Hc|].
    intros d Hd. by eapply text_ltb_trans.
Qed.
Lemma sort_bans_sorted l : NoDup (ips l) -> StronglySorted by_ip (sort_bans l).
Proof.
  induction l as [|b l IH]; cbn; [constructor|]. intros [Hb Hl]%NoDup_cons. apply insert_ban_sorted; [|by apply IH].
  unfold ips in *. by rewrite sort_bans_perm.
Qed.

(** The bans a server lacks, before the bound of one run. *)
Definition lacking (u : gmap text (Z * bool)) (bans : ServerBans) : ServerBans :=
  map (fun e => (e.1, e.2.1, e.2.2)) (List.filter (fun e => negb (bool_decide (e.1 ∈ ips bans))) (map_to_list u)).

Lemma missing_lacking u bans : missing_of u bans = take 100 (sort_bans (lacking u bans)).
Proof. done. Qed.

Lemma elem_of_kept {A} (f : A -> bool) l x : x ∈ List.filter f l <-> x ∈ l /\ f x = true.
Proof. by rewrite !list_elem_of_In, filter_In. Qed.

Lemma elem_of_lacking u bans ip m p :
  (ip, m, p) ∈ lacking u bans <-> u !! ip = Some (m, p) /\ ip ∉ ips bans.
Proof.
  unfold lacking. rewrite list_elem_of_fmap. setoid_rewrite elem_of_kept. split.
  - intros ([a [m' p']] & [= -> -> ->] & Hi%elem_of_map_to_list & Hn). bools. by split.
  - intros [Hu Hn]. exists (ip, (m, p)). split; [done|]. split; [by apply elem_of_map_to_list|].
    by apply negb_true_iff, bool_decide_eq_false.
Qed.

Lemma lacking_NoDup u bans : NoDup (ips (lacking u bans)).
Proof.
  unfold lacking, ips. rewrite map_map. cbn [fst]. pose proof (NoDup_fst_map_to_list u) as H. revert H.
  induction (map_to_list u) as [|e l IH]; cbn [List.filter map fmap list_fmap]; [constructor|].
  intros [He Hl]%NoDup_cons. specialize (IH Hl). destruct (negb _); [|done]. cbn [map]. constructor; [|done].
  intros (y & Hy & Hi)%list_elem_of_fmap. apply elem_of_kept in Hi as [Hi _]. apply He. rewrite Hy. by apply list_elem_of_fmap_2.
Qed.

Lemma missing_subset u bans b : b ∈ missing_of u bans -> b ∈ lacking u bans.
Proof. rewrite missing_lacking. intros H. apply elem_of_take in H as (i & Hi & _). rewrite <- sort_bans_perm. by eapply list_elem_of_lookup_2. Qed.

Lemma missing_length u bans : length (missing_of u bans) = Nat.min 100 (length (lacking u bans)).
Proof. by rewrite missing_lacking, length_take, sort_bans_perm. Qed.

(** What one server's share of the plan must be, given all the bans of the fleet. *)
Record share (all : ServerBans) (s p : text * ServerBans) : Prop := {
  share_key : p.1 = s.1;
  share_sorted : StronglySorted by_ip p.2;
  share_bound : (length p.2 <= 100)%nat;
  share_strongest : forall ip m pm, (ip, m, pm) ∈ p.2 ->
    ip ∉ ips s.2 /\ ip ∈ ips all /\ m = longest (bans_on ip all) /\ pm = permanent (bans_on ip all);
  share_complete : forall ip, ip ∈ ips all -> ip ∉ ips s.2 -> ip ∉ ips p.2 ->
    length p.2 = 100%nat /\ Forall (fun b => text_ltb b.1.1 ip = true) p.2 }.

Lemma sorted_take_drop l n b c : StronglySorted by_ip l -> b ∈ take n l -> c ∈ drop n l -> by_ip b c.
Proof.
  intros Hs Hb Hc. rewrite <- (take_drop n l) in Hs. eapply StronglySorted_app_1_elem_of; eauto.
Qed.

Lemma elem_of_ips ip l : ip ∈ ips l <-> exists m p, (ip, m, p) ∈ l.
Proof.
  unfold ips. rewrite list_elem_of_fmap. split; [intros ([[a m] p] & -> & ?); eauto|].
  intros (m & p & ?). by exists (ip, m, p).
Qed.

Lemma missing_share per_server s :
  share (all_bans per_server) s (s.1, missing_of (union_of per_server) s.2).
Proof.
  set (u := union_of per_server). pose proof (sort_bans_sorted _ (lacking_NoDup u s.2)) as Hs.
  split; cbn [fst snd].
  - done.
  - rewrite missing_lacking. rewrite <- (take_drop 100 (sort_bans _)) in Hs. by eapply StronglySorted_app_1_l.
  - rewrite missing_length. lia.
  - intros ip m pm [Hu Hn]%missing_subset%elem_of_lacking. apply union_spec in Hu as (?&?&?). done.
  - intros ip Hall Hn Hm. assert (Hl : exists c, c ∈ lacking u s.2 /\ c.1.1 = ip).
    { exists (ip, longest (bans_on ip (all_bans per_server)), permanent (bans_on ip (all_bans per_server))).
      split; [|done]. apply elem_of_lacking. split; [|done]. by apply union_spec. }
    destruct Hl as (c & Hc & <-). rewrite <- (sort_bans_perm (lacking u s.2)) in Hc.
    rewrite <- (take_drop 100 (sort_bans _)) in Hc. apply elem_of_app in Hc as [Hc|Hc].
    + destruct Hm. apply (list_elem_of_fmap_2 (fun b : text * Z * bool => b.1.1)) in Hc. by rewrite missing_lacking.
    + split.
      * rewrite missing_length. pose proof (length_drop (sort_bans (lacking u s.2)) 100) as Hd.
        rewrite (Permutation_length (sort_bans_perm (lacking u s.2))) in Hd. destruct (drop 100 _); [by apply elem_of_nil in Hc|]. cbn in Hd. lia.
      * apply Forall_forall. intros b Hb. by eapply sorted_take_drop.
Qed.

(** For every server the plan of a fleet sync adds, in the order of addresses and at most 100 per
    run, bans of addresses this server has not banned and some server of the fleet has, each with the
    longest time any server gives it and permanent exactly when it is permanent somewhere; an address
    still left out means the run's 100 places went to smaller addresses. *)
Theorem fleet_plan_exact per_server :
  Forall2 (share (all_bans per_server)) per_server (plan_fleet_additions per_server).
Proof. unfold plan_fleet_additions. apply Forall2_fmap_r, Forall_Forall2_diag, Forall_true. intros s. apply missing_share. Qed.

(** *** Convergence *)

(** An ideal pass: every server takes what the plan adds to it. The program's own pass ([fleet_sync])
    goes on after a push that fails and does not look at the exit codes, so that a pass of its may
    land in part; the theorems on passes are about the plan. *)
Definition pass (per_server : list (text * ServerBans)) : list (text * ServerBans) :=
  zip_with (fun s p => (s.1, s.2 ++ p.2)) per_server (plan_fleet_additions per_server).

Lemma pass_map per_server :
  pass per_server = map (fun s => (s.1, s.2 ++ missing_of (union_of per_server) s.2)) per_server.
Proof.
  unfold pass, plan_fleet_additions. generalize (union_of per_server). intros u.
  induction per_server as [|s l IH]; cbn; [done|]. by rewrite IH.
Qed.

Lemma longest_spec l : (forall b, b ∈ l -> b.1.2 <= longest l) /\ (forall z, 0 <= z -> (forall b, b ∈ l -> b.1.2 <= z) -> longest l <= z).
Proof.
  induction l as [|b l' [IH1 IH2]]; unfold longest; cbn [foldr]; [|fold (longest l')].
  - split; [intros b Hb; by apply elem_of_nil in Hb|done].
  - split; [intros c [->|Hc]%elem_of_cons; [lia|specialize (IH1 _ Hc); lia]|].
    intros z Hz H. apply Z.max_lub; [apply H; left|]. apply IH2; [done|]. intros c Hc. apply H. by right.
Qed.
Lemma longest_nonneg l : 0 <= longest l.
Proof. induction l as [|b l' IH]; unfold longest; cbn [foldr]; [done|fold (longest l'); lia]. Qed.
Lemma permanent_spec l : permanent l = true <-> exists b, b ∈ l /\ b.2 = true.
Proof. unfold permanent. rewrite existsb_exists. by setoid_rewrite list_elem_of_In. Qed.

Lemma elem_of_bans_on ip l b : b ∈ bans_on ip l <-> b ∈ l /\ b.1.1 = ip.
Proof. unfold bans_on. by rewrite elem_of_kept, bool_decide_eq_true. Qed.

Lemma elem_of_all per_server b : b ∈ all_bans per_server <-> exists s, s ∈ per_server /\ b ∈ s.2.
Proof.
  unfold all_bans. induction per_server as [|s l IH]; cbn [map concat].
  - split; [intros H; by apply elem_of_nil in H|intros (s & Hs & _); by apply elem_of_nil in Hs].
  - rewrite elem_of_app, IH. setoid_rewrite elem_of_cons. naive_solver.
Qed.

(** A pass adds only strongest bans, and drops none. *)
Lemma pass_added per_server b : b ∈ all_bans (pass per_server) ->
  b ∈ all_bans per_server \/ union_of per_server !! b.1.1 = Some (b.1.2, b.2).
Proof.
  rewrite pass_map, !elem_of_all. intros (t & (s & -> & Hs)%list_elem_of_fmap & Hb). cbn [snd] in Hb.
  apply elem_of_app in Hb as [Hb|Hb]; [by left; eauto|right].
  destruct b as [[ip m] p]. apply missing_subset, elem_of_lacking in Hb as [Hb _]. done.
Qed.
Lemma pass_kept per_server b : b ∈ all_bans per_server -> b ∈ all_bans (pass per_server).
Proof.
  rewrite pass_map, !elem_of_all. intros (s & Hs & Hb). eexists. split; [by apply list_elem_of_fmap_2|].
  cbn. apply elem_of_app. by left.
Qed.

Lemma pass_union per_server : union_of (pass per_server) = union_of per_server.
Proof.
  apply map_eq. intros ip. apply option_eq. intros [m p]. rewrite !union_spec.
  assert (Hin : ip ∈ ips (all_bans (pass per_server)) <-> ip ∈ ips (all_bans per_server)).
  { rewrite !elem_of_ips. split; [|intros (?&?&?%pass_kept); eauto].
    intros (m' & p' & [H|H]%pass_added); [eauto|]. cbn in H. apply union_spec in H as [H%elem_of_ips _]. done. }
  assert (Hb : forall b, b ∈ bans_on ip (all_bans (pass per_server)) ->
    b ∈ bans_on ip (all_bans per_server)
    \/ b.1.2 = longest (bans_on ip (all_bans per_server)) /\ b.2 = permanent (bans_on ip (all_bans per_server))).
  { intros b [[H|H]%pass_added <-]%elem_of_bans_on; [left; by apply elem_of_bans_on|right].
    by apply union_spec in H as (_ & -> & ->). }
  assert (Hk : forall b, b ∈ bans_on ip (all_bans per_server) -> b ∈ bans_on ip (all_bans (pass per_server))).
  { intros b [H ?]%elem_of_bans_on. apply elem_of_bans_on. split; [by apply pass_kept|done]. }
  assert (longest (bans_on ip (all_bans (pass per_server))) = longest (bans_on ip (all_bans per_server))) as ->.
  { apply Z.le_antisymm; apply longest_spec; try apply longest_nonneg; intros b H.
    - destruct (Hb _ H) as [?|[-> _]]; [by apply longest_spec|done].
    - by apply longest_spec, Hk. }
  assert (permanent (bans_on ip (all_bans (pass per_server))) = permanent (bans_on ip (all_bans per_server))) as ->.
  { apply eq_true_iff_eq. rewrite permanent_spec. split.
    - intros (b & H & Ht). destruct (Hb _ H) as [?|[_ <-]]; [apply permanent_spec; eauto|done].
    - intros (b & H & Ht)%permanent_spec. eauto. }
  by rewrite Hin.
Qed.

(** A pass fills up to 100 of a server's gaps. *)
Lemma lacking_after u bans :
  length (lacking u (bans ++ missing_of u bans)) = (length (lacking u bans) - 100)%nat.
Proof.
  assert (H : lacking u bans ≡ₚ missing_of u bans ++ lacking u (bans ++ missing_of u bans)).
  { apply NoDup_Permutation.
    - eapply NoDup_fmap_1, lacking_NoDup.
    - apply NoDup_app. split; [|split].
      + rewrite missing_lacking. apply (sublist_NoDup _ (sort_bans (lacking u bans))); [|apply sublist_take].
        rewrite sort_bans_perm. eapply NoDup_fmap_1, lacking_NoDup.
      + intros [[ip m] p] Hm [_ Hn]%elem_of_lacking. apply Hn. unfold ips. rewrite map_app, elem_of_app. right.
        apply elem_of_ips. eauto.
      + eapply NoDup_fmap_1, lacking_NoDup.
    - intros [[ip m] p]. rewrite elem_of_app, !elem_of_lacking. unfold ips. rewrite map_app, not_elem_of_app. fold (ips bans).
      fold (ips (missing_of u bans)). split.
      + intros [Hu Hn]. destruct (decide (ip ∈ ips (missing_of u bans))) as [Hi|]; [left|by right].
        apply elem_of_ips in Hi as (m' & p' & Hi). pose proof (missing_subset _ _ _ Hi) as [Hu' _]%elem_of_lacking. by simplify_eq.
      + intros [H%missing_subset%elem_of_lacking|(?&?&?)]; done. }
  apply Permutation_length in H. rewrite length_app, missing_length in H. lia.
Qed.

Lemma iter_pass n per_server :
  union_of (Nat.iter n pass per_server) = union_of per_server
  /\ Forall (fun s => (length (lacking (union_of per_server) s.2) <= size (union_of per_server) - 100 * n)%nat)
       (Nat.iter n pass per_server).
Proof.
  induction n as [|n [IHu IH]]; cbn [Nat.iter nat_rect].
  - split; [done|]. apply Forall_true. intros s. unfold lacking. rewrite length_map, <- length_map_to_list.
    pose proof (filter_length_le (fun e => negb (bool_decide (e.1 ∈ ips s.2))) (map_to_list (union_of per_server))). lia.
  - fold (Nat.iter n pass per_server). split; [by rewrite pass_union|]. rewrite pass_map, IHu. apply Forall_fmap.
    eapply Forall_impl; [exact IH|]. intros s Hs. cbv beta in Hs. unfold compose. cbn [snd]. rewrite lacking_after. etrans; [apply Nat.sub_le_mono_r, Hs|lia].
Qed.

(** A server that lacks nothing is left as it is. *)
Lemma pass_done per_server : Forall (fun s => lacking (union_of per_server) s.2 = []) per_server -> pass per_server = per_server.
Proof.
  intros H. rewrite pass_map. etrans; [|apply map_id]. apply map_ext_in. intros s Hs%list_elem_of_In.
  rewrite Forall_forall in H. unfold ServerBans in *. rewrite missing_lacking, (H _ Hs). cbn. rewrite app_nil_r. by destruct s.
Qed.

(** C40: the shared pool reaches every server: when the pool has at most [100 n] addresses, after [n]
    ideal passes, in which every push lands, every server has banned exactly the addresses any server had banned at the
    start, and another pass changes nothing. *)
Theorem fleet_converges n per_server :
  (size (union_of per_server) <= 100 * n)%nat ->
  Forall (fun s => forall ip, ip ∈ ips s.2 <-> ip ∈ ips (all_bans per_server)) (Nat.iter n pass per_server)
  /\ pass (Nat.iter n pass per_server) = Nat.iter n pass per_server.
Proof.
  intros Hn. destruct (iter_pass n per_server) as [Hu Hl].
  assert (Hz : Forall (fun s => lacking (union_of per_server) s.2 = []) (Nat.iter n pass per_server)).
  { eapply Forall_impl; [exact Hl|]. cbn. intros s Hs. apply length_zero_iff_nil. lia. }
  split; [|apply pass_done; by rewrite Hu].
  rewrite Forall_forall in Hz |- *. intros s Hs ip.
  assert (Hd : forall jp, is_Some (union_of per_server !! jp) <-> jp ∈ ips (all_bans per_server)).
  { intros jp. rewrite union_all, add_bans_dom, lookup_empty. split; [|by right]. by intros [[? ?]|]. }
  rewrite <- Hd. split.
  - intros (m & p & Hi)%elem_of_ips. rewrite <- Hu, union_all, add_bans_dom. right. apply elem_of_ips. exists m, p.
    apply elem_of_all. eauto.
  - intros [[m p] Hi]. destruct (decide (ip ∈ ips s.2)) as [|Hx]; [done|].
    assert (H : (ip, m, p) ∈ lacking (union_of per_server) s.2) by (by apply elem_of_lacking).
    rewrite (Hz _ Hs) in H. by apply elem_of_nil in H.
Qed.

(** Three servers, one of them empty, share their bans in one pass. *)
Lemma fleet_converges_witness :
  let fleet := [(lit "a", [(lit "1.1.1.1", 10, false); (lit "2.2.2.2", 5, true)]); (lit "b", [(lit "1.1.1.1", 30, false)]); (lit "c", [])] in
  Nat.iter 1 pass fleet !! 2%nat = Some (lit "c", [(lit "1.1.1.1", 30, false); (lit "2.2.2.2", 5, true)])
  /\ pass (Nat.iter 1 pass fleet) = Nat.iter 1 pass fleet.
Proof.
  intros fleet. split; [vm_compute; reflexivity|]. apply (fleet_converges 1 fleet). apply Nat.leb_le. vm_compute. reflexivity.
Defined.

(** ** Commands *)

Lemma trim_split s : exists w1 w2, s = w1 ++ trim s ++ w2
  /\ Forall (fun c => is_whitespace c = true) w1 /\ Forall (fun c => is_whitespace c = true) w2.
Proof.
  destruct (trim_start_suffix s) as (w1 & E1 & H1). destruct (trim_start_suffix (reverse (trim_start s))) as (w2 & E2 & H2).
  exists w1, (reverse w2). split; [|split; [done|by apply Forall_reverse]].
  rewrite E1 at 1. f_equal. unfold trim, trim_end. rewrite <- reverse_app, <- E2. by rewrite reverse_involutive.
Qed.

(** The characters an address or a scenario name is made of: none of them means anything to a shell. *)
Definition plain_char (c : Z) : bool :=
  is_ascii_alphanumeric c || (c =? chr ".") || (c =? chr ":") || (c =? chr "/") || (c =? chr "-") || (c =? chr "_").
Definition confined (arg : text) : Prop :=
  arg <> [] /\ (length arg <= 128)%nat /\ Forall (fun c => plain_char c = true) arg.

Lemma confined_trim s : trim s <> [] -> (length (utf8 (trim s)) <= 128)%nat -> Forall (fun c => plain_char c = true) (trim s) -> confined (trim s).
Proof. intros Hne Hl Hf. pose proof (utf8_length (trim s)). repeat split; try done. lia. Qed.

Lemma forallb_plain (f : Z -> bool) s : (forall c, f c = true -> plain_char c = true) -> forallb f s = true -> Forall (fun c => plain_char c = true) s.
Proof. intros Hf H. rewrite forallb_forall in H. apply Forall_forall. intros c Hc%list_elem_of_In. auto. Qed.

Ltac plain_chars := unfold plain_char, is_ascii_alphanumeric, is_ascii_hexdigit; intros c; rewrite !orb_true_iff, ?andb_true_iff, ?Z.leb_le; intuition lia.

Section ops.
Context {W : Type} {S : Ssh W} {I : IpText} {J : JsonText}.

Lemma valid_ip_confined ip : valid_ip_or_cidr ip = true -> confined (trim ip).
Proof.
  unfold valid_ip_or_cidr. destruct (bool_decide _ || _) eqn:E; [done|]. destruct (negb _) eqn:Ef; [done|]. intros _. bools.
  apply confined_trim; [done|lia|]. eapply forallb_plain; [|exact Ef]. plain_chars.
Qed.
Lemma valid_scenario_confined n : valid_scenario n = true -> confined (trim n).
Proof.
  unfold valid_scenario. intros H. bools. apply confined_trim; [done|lia|]. eapply forallb_plain; [|eassumption]. plain_chars.
Qed.

(** The operations that change a server. *)
Inductive Op : Type :=
| Ban (ip : text) (minutes : Z)
| Unban (ip : text)
| Mode (scenario : text) (training : bool)
| Allow (entries : list text).

Definition run_op (op : Op) (pr i h : text) : M (W := W) unit :=
  match op with
  | Ban ip minutes => crowdsec_ban pr i h ip minutes
  | Unban ip => crowdsec_unban pr i h ip
  | Mode sc training => set_simulation pr i h sc training
  | Allow entries => crowdsec_allowlist_set pr i h entries
  end.
Definition op_args (op : Op) : list text :=
  match op with Ban ip _ | Unban ip => [ip] | Mode sc _ => [sc] | Allow es => es end.
Definition op_valid (op : Op) : bool :=
  match op with Mode sc _ => valid_scenario sc | _ => forallb valid_ip_or_cidr (op_args op) end.
Definition op_cmd (op : Op) : text :=
  match op with
  | Ban ip minutes => ban_cmd ip minutes
  | Unban ip => unban_cmd ip
  | Mode sc training => simulation_cmd training sc
  | Allow es => allowlist_script es
  end.

Lemma op_confined op : op_valid op = true -> Forall (fun a => confined (trim a)) (op_args op).
Proof.
  assert (Hl : forall l, forallb valid_ip_or_cidr l = true -> Forall (fun a => confined (trim a)) l).
  { intros l H. rewrite forallb_forall in H. apply Forall_forall. intros x Hx%list_elem_of_In. by apply valid_ip_confined, H. }
  destruct op; cbn [op_valid op_args]; try apply Hl. intros ?%valid_scenario_confined. by constructor.
Qed.

Lemma check_entries_err es (s : Sec W) : forallb valid_ip_or_cidr es = false -> exists e, check_entries (W := W) es s = (Err e, s).
Proof.
  induction es as [|e es IH]; cbn; [done|]. destruct (valid_ip_or_cidr e); cbn; [apply IH|]. intros _. unfold err. eauto.
Qed.

Lemma check_entries_ok es (s : Sec W) : forallb valid_ip_or_cidr es = true -> check_entries (W := W) es s = (Ok tt, s).
Proof. induction es as [|e es IH]; cbn; [done|]. destruct (valid_ip_or_cidr e); [apply IH|done]. Qed.

(** What the operations share once their arguments are accepted. *)
Definition send (pr i h cmd msg : text) : M (W := W) unit :=
  let! h := require_host h in
  let! out := run_on pr i h cmd in
  require exit_code out =? 0 else (msg ++ trim (stdout out)) in
  ret tt.

Lemma send_outcome pr i h cmd msg (s : Sec W) :
  if bool_decide (trim h = []) then exists e, send pr i h cmd msg s = (Err e, s)
  else exists r, send pr i h cmd msg s = (r, snd (run_on pr i (trim h) cmd s))
       /\ (is_ok r = true <-> exists out, fst (run_on pr i (trim h) cmd s) = Ok out /\ exit_code out = 0).
Proof.
  unfold send, require_host, mbind. destruct (bool_decide _); [unfold err; eauto|]. cbn [ret].
  destruct (run_on pr i (trim h) cmd s) as [[out|e|] s'] eqn:Er; cbn [fst snd].
  - destruct (Z.eqb_spec (exit_code out) 0); eexists; (split; [reflexivity|]); cbn; split; try done; eauto.
    intros (? & [= <-] & ?). done.
  - eexists; split; [reflexivity|]. split; [done|]. by intros (? & ? & _).
  - eexists; split; [reflexivity|]. split; [done|]. by intros (? & ? & _).
Qed.

Lemma run_op_locked op pr i h (s : Sec W) : locked s = true -> exists e, run_op op pr i h s = (Err e, s).
Proof.
  intros El. destruct op; cbn; unfold crowdsec_ban, crowdsec_unban, set_simulation, crowdsec_allowlist_set, unlocked, mbind;
    rewrite El; eauto.
Qed.

Lemma unlocked_bind {A} msg (k : unit -> M (W := W) A) (s : Sec W) : locked s = false -> mbind (unlocked msg) k s = k tt s.
Proof. intros El. unfold mbind, unlocked. by rewrite El. Qed.

Lemma run_op_unlocked op pr i h (s : Sec W) : locked s = false ->
  if op_valid op then exists msg, run_op op pr i h s = send pr i h (op_cmd op) msg s
  else exists e, run_op op pr i h s = (Err e, s).
Proof.
  intros El. destruct op; cbn [op_valid op_args forallb run_op op_cmd];
    unfold crowdsec_ban, crowdsec_unban, set_simulation, crowdsec_allowlist_set; rewrite unlocked_bind, ?andb_true_r by done.
  - destruct (valid_ip_or_cidr ip); [by eexists|unfold err; eauto].
  - destruct (valid_ip_or_cidr ip); [by eexists|unfold err; eauto].
  - destruct (valid_scenario scenario); [by eexists|unfold err; eauto].
  - destruct (forallb _ _) eqn:Ef; unfold mbind at 1.
    + rewrite check_entries_ok by done. by eexists.
    + destruct (check_entries_err _ s Ef) as [e ->]. eauto.
Qed.

(** C39: an operation that changes a server is refused, with nothing sent anywhere, when the vault is
    locked, an argument is invalid or the server has no address; otherwise it runs exactly its own
    command, once, on that server, and it succeeds exactly when the command reports exit code 0. Every
    argument in that command which came without white space around it is 1 to 128 letters, digits and
    [.:/-_]; what [white_space_passes] shows of the others is outside this. *)
Theorem commands_confined op pr i h (s : Sec W) :
  if locked s || negb (op_valid op) || bool_decide (trim h = []) then exists e, run_op op pr i h s = (Err e, s)
  else Forall (fun a => trim a = a -> confined a) (op_args op)
    /\ exists r, run_op op pr i h s = (r, snd (run_on pr i (trim h) (op_cmd op) s))
       /\ (is_ok r = true <-> exists out, fst (run_on pr i (trim h) (op_cmd op) s) = Ok out /\ exit_code out = 0).
Proof.
  destruct (locked s) eqn:El; cbn [orb]; [by apply run_op_locked|].
  pose proof (run_op_unlocked op pr i h s El) as H. destruct (op_valid op) eqn:Ev; cbn [negb orb]; [|done].
  destruct H as [msg ->]. pose proof (send_outcome pr i h (op_cmd op) msg s) as Hs.
  destruct (bool_decide _); [done|]. split; [|done]. eapply Forall_impl; [by apply op_confined|]. cbn. by intros a H ->%symmetry.
Qed.
End ops.

(** White space around an argument is validated away and sent all the same: a line feed after an
    address ends the command there, so that the ban's duration is run as a command of its own. *)
Theorem white_space_passes :
  let I := Build_IpText (fun _ => true) in
  let ip := lit "203.0.113.7" ++ [10] in
  valid_ip_or_cidr ip = true
  /\ split 10 (ban_cmd ip 60) = [lit "cscli decisions add --ip 203.0.113.7"; lit " --duration 60m --reason 'NorthKey manual' 2>&1"].
Proof. split; vm_compute; reflexivity. Qed.

(** ** The allowlist *)

Lemma lines_lf l rest : 10 ∉ l -> last l <> Some 13 -> Hibp.lines (l ++ 10 :: rest) = l :: Hibp.lines rest.
Proof.
  intros Hl Hc. unfold Hibp.lines. rewrite split_app by done. rewrite drop_last_cons by apply split_not_nil. cbn [map]. f_equal.
  unfold Hibp.strip_cr. destruct (reverse l) as [|c r] eqn:E; [done|]. destruct (decide (c = 13)) as [->|Hne].
  - destruct Hc. rewrite <- (reverse_involutive l), E, reverse_cons. apply last_snoc.
  - destruct c as [|p|p]; [done| |done]. repeat (destruct p as [p|p|]; try done).
Qed.

Lemma trim_between x s y : is_whitespace x = false -> is_whitespace y = false -> trim (x :: s ++ [y]) = x :: s ++ [y].
Proof.
  intros Hx Hy. unfold trim, trim_end. cbn [trim_start]. rewrite Hx.
  change (x :: s ++ [y]) with ((x :: s) ++ [y]). rewrite reverse_snoc. cbn [trim_start]. rewrite Hy.
  by rewrite <- reverse_snoc, reverse_involutive.
Qed.

(** An entry as the validator accepts it, and typed without surrounding white space. *)
Definition entry_ok (e : text) : Prop := trim e = e /\ e <> [] /\ Forall (fun c => plain_char c = true) e.

Lemma plain_char_not c x : plain_char c = true -> plain_char x = false -> c <> x.
Proof. congruence. Qed.
Lemma entry_no e x : entry_ok e -> plain_char x = false -> x ∉ e.
Proof. intros (_ & _ & He) Hx Hi. rewrite Forall_forall in He. by rewrite (He _ Hi) in Hx. Qed.

Definition entry_row (e : text) : text := lit "    - " ++ 34 :: e ++ [34].

Lemma allow_entry e ls : entry_ok e -> allow_lines (entry_row e :: ls) true = e :: allow_lines ls true.
Proof.
  intros He. cbn [allow_lines].
  assert (trim (entry_row e) = chr "-" :: chr " " :: 34 :: e ++ [34]) as ->.
  { change (trim (chr "-" :: (chr " " :: 34 :: e) ++ [34]) = chr "-" :: chr " " :: 34 :: e ++ [34]). by rewrite trim_between. }
  set (t := chr "-" :: _).
  assert (starts_with (lit "ip:") t = false) as -> by reflexivity.
  assert (starts_with (lit "cidr:") t = false) as -> by reflexivity.
  assert (starts_with (lit "-") t = true) as -> by reflexivity. cbn [orb andb negb].
  change (trim (trim_start_char (chr "-") t)) with (trim (34 :: e ++ [34])).
  rewrite trim_between by done. rewrite trim_matches_quoted.
  - destruct He as (-> & Hne & _). by rewrite bool_decide_false.
  - intros x Hx ->. apply (entry_no e 34 He eq_refl). destruct e; [done|]. injection Hx as ->. left.
  - intros x Hx ->. apply (entry_no e 34 He eq_refl). by apply last_Some_elem_of.
Qed.

Lemma allow_entries es ls : Forall entry_ok es -> allow_lines (map entry_row es ++ ls) true = es ++ allow_lines ls true.
Proof. induction 1 as [|e es He _ IH]; [done|]. cbn [map app]. by rewrite allow_entry, IH. Qed.

Definition unlines (ls : list text) : text := concat (map (fun l => l ++ [10]) ls).
Definition line_ok (l : text) : Prop := 10 ∉ l /\ last l <> Some 13.

Lemma lines_unlines ls : Forall line_ok ls -> Hibp.lines (unlines ls) = ls.
Proof.
  induction 1 as [|l ls [Hl Hc] _ IH]; [done|]. unfold unlines. cbn [map concat]. rewrite <- app_assoc. cbn [app].
  by rewrite lines_lf; [f_equal| |].
Qed.

(** A line outside the [ip:] block. *)
Lemma allow_skip l ls : starts_with (lit "ip:") (trim l) = false -> allow_lines (l :: ls) false = allow_lines ls false.
Proof. intros H. cbn [allow_lines]. rewrite H. cbn [andb]. by destruct (_ || false). Qed.

Definition yaml_head : list text :=
  [lit "name: northkey/whitelist"; lit "description: " ++ [34] ++ lit "NorthKey never-ban allowlist" ++ [34]; lit "whitelist:";
   lit "  reason: " ++ [34] ++ lit "NorthKey allowlist" ++ [34]; lit "  ip:"].
Definition yaml_tail : list text :=
  lit "  cidr:" :: map (fun c => entry_row (lit c)) ["127.0.0.0/8"; "10.0.0.0/8"; "172.16.0.0/12"; "192.168.0.0/16"].

Lemma yaml_unlines es : allowlist_yaml es = unlines (yaml_head ++ map entry_row es ++ yaml_tail).
Proof.
  unfold unlines. rewrite !map_app, !concat_app, map_map.
  assert (map (fun e => entry_row e ++ [10]) es = map ip_line es) as ->.
  { apply map_ext. intros e. unfold entry_row, ip_line. rewrite <- app_assoc. cbn [app]. by rewrite <- app_assoc. }
  reflexivity.
Qed.

Lemma yaml_lines_ok es : Forall entry_ok es -> Forall line_ok (yaml_head ++ map entry_row es ++ yaml_tail).
Proof.
  assert (Hd : forall l, bool_decide (10 ∉ l) && bool_decide (last l <> Some 13) = true -> line_ok l) by (intros l H; bools; by split).
  intros He. rewrite !Forall_app. split; [|split].
  - repeat constructor; apply Hd; vm_compute; reflexivity.
  - apply Forall_fmap. eapply Forall_impl; [exact He|]. intros e H. unfold compose, entry_row. split.
    + pose proof (entry_no e 10 H eq_refl). rewrite not_elem_of_app, not_elem_of_cons, not_elem_of_app, list_elem_of_singleton.
      repeat split; try done. intros Hx. apply (bool_decide_eq_true_2 (10 ∈ lit "    - ")) in Hx. by vm_compute in Hx.
    + change (lit "    - " ++ 34 :: e ++ [34]) with ((lit "    - " ++ 34 :: e) ++ [34]). by rewrite last_snoc.
  - repeat constructor; apply Hd; vm_compute; reflexivity.
Qed.

(** Reading back the allowlist file just written gives the entries, in their order, whenever they
    were typed without surrounding white space, and none of the fixed private ranges. *)
Theorem allowlist_round_trip {I : IpText} es :
  Forall (fun e => valid_ip_or_cidr e = true /\ trim e = e) es -> parse_allowlist (allowlist_yaml es) = es.
Proof.
  intros H. assert (He : Forall entry_ok es).
  { eapply Forall_impl; [exact H|]. intros e [Hv Ht]. unfold valid_ip_or_cidr in Hv. rewrite Ht in Hv.
    destruct (bool_decide _ || _) eqn:E; [done|]. destruct (negb _) eqn:Ef; [done|]. bools. split; [done|]. split; [done|].
    eapply forallb_plain; [|exact Ef]. plain_chars. }
  unfold parse_allowlist. rewrite yaml_unlines, lines_unlines by (by apply yaml_lines_ok).
  unfold yaml_head. cbn [app]. rewrite !allow_skip by reflexivity.
  change (allow_lines (lit "  ip:" :: map entry_row es ++ yaml_tail) false) with (allow_lines (map entry_row es ++ yaml_tail) true).
  rewrite allow_entries by done. etrans; [|apply app_nil_r]. f_equal.
Qed.

Lemma allowlist_round_trip_witness :
  let I := Build_IpText (fun _ => true) in
  let es := [lit "203.0.113.7"; lit "2001:db8::/32"] in
  valid_ip_or_cidr (lit "2001:db8::/32") = true /\ parse_allowlist (allowlist_yaml es) = es.
Proof.
  intros I es. split; [vm_compute; reflexivity|]. apply (allowlist_round_trip es). repeat constructor; vm_compute; reflexivity.
Defined.
