(* ===== verification/VpnManager.v ===== *)
(** [apps/desktop/src-tauri/src/vpn.rs]: the desktop's VPN manager over the cloud, tunnel and
    callback interfaces: single-hop and multi-hop connects, the always-on node, kept nodes, the kill
    switch, the untrusted-network poller and session history. Files are what reading them yields;
    [faults] decides which of the coming file, keychain and firewall calls fail. The metrics stream
    and the self-test are not part of it. *)
From S2P Require Import Prelude Bytes Text Crypto Floats Value Toy RecoveryKit Keyring Model Template Provision Vpn Health NmHost.
Local Open Scope Z_scope.

(** [WgController::counters]: received and sent bytes. *)
Class WgCounters (S : Type) : Type := { counters : f64 -> ST S CoreError (Z * Z) }.

Module Mgr.
Definition MAX_HOPS : nat := 3.
Definition MAX_KEPT_NODES : nat := 5.
Definition AUTOCONNECT_DEBOUNCE_SECS : Z := 300.
Definition DEFAULT_INSTANCE_TYPE : text := lit "g6-nanode-1".
Definition WG_PORT : text := lit "51820".
Definition TUNNEL : text := lit "sentinel".
Definition WG_DOWNLOAD_URL : text := lit "https://www.wireguard.com/install/".

(** ** Data *)

Record TypeRow : Type := MkTypeRow { ty_id : text; ty_label : text; vcpus : Z; memory_mb : Z; hourly_usd : f64 }.
Definition INSTANCE_TYPES : list TypeRow :=
  [MkTypeRow (lit "g6-nanode-1") (lit "Nanode 1GB") 1 1024 (F64.dec 75 4);
   MkTypeRow (lit "g6-standard-2") (lit "Linode 4GB") 2 4096 (F64.dec 36 3);
   MkTypeRow (lit "g6-standard-4") (lit "Linode 8GB") 4 8192 (F64.dec 72 3);
   MkTypeRow (lit "g6-dedicated-4") (lit "Dedicated 8GB") 4 8192 (F64.dec 108 3)].
Definition hourly_for (instance_type : text) : f64 :=
  match List.find (fun t => bool_decide (ty_id t = instance_type)) INSTANCE_TYPES with
  | Some t => hourly_usd t
  | None => F64.dec 75 4
  end.

(** [vpn/cost.rs]. *)
Definition accrued_usd (hourly elapsed_secs : f64) : f64 := F64.mul hourly (F64.div elapsed_secs (F64.of_Z 3600)).
Definition accrued (hourly : f64) (started_at now : Z) : f64 := accrued_usd hourly (F64.of_Z (Z.max (now - started_at) 0)).

Record VpnActive : Type := MkVpnActive {
  instance_id : text;
  chain : list text;
  region : text;
  instance_type : text;
  egress_ip : option text;
  started_at : Z;
  persistent : bool;
}.

Record PersistentVpnRecord : Type := MkRecord {
  rec_id : text;
  rec_ipv4 : text;
  rec_type : text;
  rec_region : text;
  created_at : Z;
  server_pubkey : text;
  client_ip : text;
  listen_port : Z;
}.

Record SessionRecord : Type := MkSession {
  se_id : text; se_region : text; se_type : text; se_started : Z; se_ended : Z; bytes_rx : Z; bytes_tx : Z; cost_usd : f64;
  peak_cpu_pct : Z; down_mbps : Z; up_mbps : Z;
}.

(** A kill-switch rule: what it does and the arguments that restrict it. *)
Record Rule : Type := MkRule { allows : bool; args : list text }.

(** The device and the world. *)
Record t (S : Type) : Type := MkMgr {
  vpn : option VpnActive;
  kept_file : option (gset text);
  record : option PersistentVpnRecord;
  wg_key : option text;
  settings : option Value;
  token : option text;
  connecting : bool;
  last_manual_disconnect : Z;
  rules : list Rule;
  history : gmap text SessionRecord;
  events : list (text * Value);
  faults : list bool;
  world : S;
}.
Arguments MkMgr {S}. Arguments vpn {S}. Arguments kept_file {S}. Arguments record {S}. Arguments wg_key {S}. Arguments settings {S}.
Arguments token {S}. Arguments connecting {S}. Arguments last_manual_disconnect {S}. Arguments rules {S}. Arguments history {S}.
Arguments events {S}. Arguments faults {S}. Arguments world {S}.

Section setters.
Context {S : Type}.
Definition set_vpn v (s : t S) : t S := MkMgr v (kept_file s) (record s) (wg_key s) (settings s) (token s) (connecting s) (last_manual_disconnect s) (rules s) (history s) (events s) (faults s) (world s).
Definition set_kept v (s : t S) : t S := MkMgr (vpn s) v (record s) (wg_key s) (settings s) (token s) (connecting s) (last_manual_disconnect s) (rules s) (history s) (events s) (faults s) (world s).
Definition set_record v (s : t S) : t S := MkMgr (vpn s) (kept_file s) v (wg_key s) (settings s) (token s) (connecting s) (last_manual_disconnect s) (rules s) (history s) (events s) (faults s) (world s).
Definition set_wg_key v (s : t S) : t S := MkMgr (vpn s) (kept_file s) (record s) v (settings s) (token s) (connecting s) (last_manual_disconnect s) (rules s) (history s) (events s) (faults s) (world s).
Definition set_settings v (s : t S) : t S := MkMgr (vpn s) (kept_file s) (record s) (wg_key s) v (token s) (connecting s) (last_manual_disconnect s) (rules s) (history s) (events s) (faults s) (world s).
Definition set_tok v (s : t S) : t S := MkMgr (vpn s) (kept_file s) (record s) (wg_key s) (settings s) v (connecting s) (last_manual_disconnect s) (rules s) (history s) (events s) (faults s) (world s).
Definition set_connecting v (s : t S) : t S := MkMgr (vpn s) (kept_file s) (record s) (wg_key s) (settings s) (token s) v (last_manual_disconnect s) (rules s) (history s) (events s) (faults s) (world s).
Definition set_last v (s : t S) : t S := MkMgr (vpn s) (kept_file s) (record s) (wg_key s) (settings s) (token s) (connecting s) v (rules s) (history s) (events s) (faults s) (world s).
Definition set_rules v (s : t S) : t S := MkMgr (vpn s) (kept_file s) (record s) (wg_key s) (settings s) (token s) (connecting s) (last_manual_disconnect s) v (history s) (events s) (faults s) (world s).
Definition set_history v (s : t S) : t S := MkMgr (vpn s) (kept_file s) (record s) (wg_key s) (settings s) (token s) (connecting s) (last_manual_disconnect s) (rules s) v (events s) (faults s) (world s).
Definition set_events v (s : t S) : t S := MkMgr (vpn s) (kept_file s) (record s) (wg_key s) (settings s) (token s) (connecting s) (last_manual_disconnect s) (rules s) (history s) v (faults s) (world s).
Definition set_faults v (s : t S) : t S := MkMgr (vpn s) (kept_file s) (record s) (wg_key s) (settings s) (token s) (connecting s) (last_manual_disconnect s) (rules s) (history s) (events s) v (world s).
Definition set_world v (s : t S) : t S := MkMgr (vpn s) (kept_file s) (record s) (wg_key s) (settings s) (token s) (connecting s) (last_manual_disconnect s) (rules s) (history s) (events s) (faults s) v.
End setters.

(** What the machine is: a Windows one, WireGuard installed, the process elevated. *)
Record Machine : Type := MkMachine { windows : bool; wireguard_installed : bool; is_elevated : bool }.

(** ** What the interface is told *)

Definition stage_of_state (s : Session.ConnectState) : text * text * option text :=
  match s with
  | Session.Idle => (lit "idle", [], None)
  | Session.CreatingInstance => (lit "creatingInstance", lit "Provisioning exit node" ++ [8230], None)
  | Session.Booting => (lit "booting", lit "Booting server" ++ [8230], None)
  | Session.ExchangingKeys => (lit "exchangingKeys", lit "Exchanging keys" ++ [8230], None)
  | Session.StartingTunnel => (lit "startingTunnel", lit "Bringing the tunnel up" ++ [8230], None)
  | Session.Connected _ ip => (lit "connected", lit "Secured", ip)
  | Session.Disconnecting => (lit "disconnecting", lit "Disconnecting" ++ [8230], None)
  | Session.Destroying => (lit "destroying", lit "Destroying exit node" ++ [8230], None)
  | Session.Failed _ reason => (lit "failed", lit reason, None)
  end.
Definition state_json (s : Session.ConnectState) (region instance_type : text) : Value :=
  let '(stage, detail, egress) := stage_of_state s in
  Js.obj [("stage", Str stage); ("region", Str region); ("instanceType", Str instance_type); ("detail", Str detail);
          ("egressIp", Js.opt_str egress)].

Section ops.
Context {S : Type} {C : CloudProvider S} {Wc : WgController S} {K : WgCounters S} {F : ServerPubkeyFetcher S}.
Context {T : Templates} {B : Base64} {X : Wg.X25519}.
Context (mc : Machine) (max_boot_polls : nat).

Definition M (A : Type) : Type := ST (t S) text A.

Definition gets {A} (f : t S -> A) : M A := fun s => (Ok (f s), s).
Definition modify (f : t S -> t S) : M unit := fun s => (Ok tt, f s).

(** A call on the world, its error a value. *)
Definition on {A} (m : ST S CoreError A) : M (A + CoreError) := fun s =>
  match m (world s) with
  | (Ok a, w) => (Ok (inl a), set_world w s)
  | (Err e, w) => (Ok (inr e), set_world w s)
  | (Panic, w) => (Panic, set_world w s)
  end.
Definition ignore {A} (m : ST S CoreError A) : M unit := let! _ := on m in ret tt.
(** [.map_err(|e| e.to_string())?]. *)
Definition told (e : CoreError) : text := lit (display e).
Definition try {A} (m : ST S CoreError A) : M A :=
  let! r := on m in match r with inl a => ret a | inr e => err (told e) end.

(** Whether the next call to the operating system succeeds. *)
Definition fate : M bool := fun s => match faults s with [] => (Ok true, s) | b :: l => (Ok b, set_faults l s) end.
Definition os_error : text := lit "os error".

Definition emit_ev (name : string) (v : Value) : M unit := modify (fun s => set_events (events s ++ [(lit name, v)]) s).
Definition emit_state (st : Session.ConnectState) (region instance_type : text) : M unit :=
  emit_ev "vpn:state" (state_json st region instance_type).
Definition progress (stage detail : string) : M unit :=
  emit_ev "vpn:persistent" (Js.obj [("stage", Str (lit stage)); ("detail", Str (lit detail ++ [8230]))]).

(** ** The token, the kept nodes and the record of the always-on node *)

Definition get_token : M (option text) := gets (fun s =>
  match token s with Some k => let k := trim k in if bool_decide (k = []) then None else Some k | None => None end).
Definition set_token (k : text) : M unit :=
  if bool_decide (trim k = []) then let! ok := fate in if ok then modify (set_tok None) else ret tt
  else let! ok := fate in if ok then modify (set_tok (Some (trim k))) else err os_error.
Definition need_token : M text :=
  let! k := get_token in match k with Some k => ret k | None => err (lit "no Linode token configured") end.

Definition kept_ids : M (gset text) := gets (fun s => default ∅ (kept_file s)).
Definition write_kept (ids : gset text) : M unit := let! ok := fate in if ok then modify (set_kept (Some ids)) else ret tt.
Definition kept_add (id : text) : M unit := let! ids := kept_ids in write_kept ({[id]} ∪ ids).
Definition kept_remove (id : text) : M unit := let! ids := kept_ids in write_kept (ids ∖ {[id]}).

Definition load_persistent_record : M (option PersistentVpnRecord) := gets record.
Definition save_persistent_record (r : PersistentVpnRecord) : M bool :=
  let! ok := fate in if ok then let! _ := modify (set_record (Some r)) in ret true else ret false.
Definition delete_persistent_record : M unit := let! ok := fate in if ok then modify (set_record None) else ret tt.
Definition persist_wg_key_store (k : text) : M unit := let! ok := fate in if ok then modify (set_wg_key (Some k)) else err os_error.
Definition persist_wg_key_load : M (option text) := gets (fun s =>
  match wg_key s with Some k => let k := trim k in if bool_decide (k = []) then None else Some k | None => None end).
Definition persist_wg_key_del : M unit := let! ok := fate in if ok then modify (set_wg_key None) else ret tt.

(** The bundle that follows the user to other devices. *)
Definition persistent_sync_export : M (option (PersistentVpnRecord * text)) :=
  let! r := load_persistent_record in
  match r with
  | Some r => if bool_decide (trim (rec_id r) = []) then ret None
              else let! k := persist_wg_key_load in ret (Some (r, default [] k))
  | None => ret None
  end.
Definition persistent_sync_import (bundle : option (PersistentVpnRecord * text)) : M unit :=
  let! r := load_persistent_record in
  match r, bundle with
  | None, Some (r, key) =>
      if bool_decide (trim (rec_id r) = []) then ret tt
      else
        let! saved := save_persistent_record r in
        if saved && negb (bool_decide (trim key = [])) then
          let! ok := fate in if ok then modify (set_wg_key (Some (trim key))) else ret tt
        else ret tt
  | _, _ => ret tt
  end.

(** ** The kill switch *)

Definition netsh_add (r : Rule) : M unit :=
  let! ok := fate in if ok then modify (fun s => set_rules (rules s ++ [r]) s) else err (lit "netsh failed").
(** Delete by name removes every rule; the group form adds nothing. *)
Definition killswitch_clear_all : M unit :=
  if windows mc then
    let! ok := fate in
    let! _ := if ok then modify (set_rules []) else ret tt in
    let! _ := fate in ret tt
  else ret tt.

Definition killswitch_engage (endpoint_ip : text) : M unit :=
  let! _ := killswitch_clear_all in
  let! _ := netsh_add (MkRule true [lit "remoteip=127.0.0.0/8"]) in
  let! _ := netsh_add (MkRule true [lit "remoteip=LocalSubnet,10.0.0.0/8,172.16.0.0/12,192.168.0.0/16,169.254.0.0/16,224.0.0.0/4,255.255.255.255"]) in
  let! _ := if bool_decide (endpoint_ip = []) then ret tt
            else netsh_add (MkRule true [lit "protocol=UDP"; lit "remoteip=" ++ endpoint_ip; lit "remoteport=" ++ WG_PORT]) in
  let! _ := fun s => match netsh_add (MkRule true [lit "service=WireGuardTunnel$" ++ TUNNEL]) s with
                     | (Panic, s) => (Panic, s) | (_, s) => (Ok tt, s) end in
  netsh_add (MkRule false [lit "remoteip=any"]).
Definition killswitch_engage_for (endpoint_ip : text) : M unit := if windows mc then killswitch_engage endpoint_ip else ret tt.

Definition killswitch_enabled : M bool := gets (fun s =>
  default false (settings s ≫= fun v => Js.get (lit "killSwitchDefault") v ≫= Js.as_bool)).
(** Engage once the tunnel is up; a failure clears what was set. *)
Definition arm (endpoint_ip : text) : M unit :=
  let! on := killswitch_enabled in
  if on then fun s =>
    match killswitch_engage_for endpoint_ip s with
    | (Err _, s) => killswitch_clear_all s
    | r => r
    end
  else ret tt.
Definition killswitch_clear : M unit := killswitch_clear_all.

Definition str_list (v : Value) (k : string) : list text :=
  match Js.get (lit k) v ≫= Js.as_array with Some l => omap Js.as_str l | None => [] end.
Definition settings_or_empty : M Value := gets (fun s => default (Obj []) (settings s)).
Definition resolve_allowed_ips : M (list text) :=
  let! v := settings_or_empty in
  ret (Session.decide_allowed_ips (Js.get (lit "tunnelMode") v ≫= Js.as_str) (str_list v "splitRoutes")).

(** ** Connecting *)

Definition preflight_vpn : M unit :=
  if negb (wireguard_installed mc) then
    err (lit "WireGuard isn't installed on this PC, so the tunnel can't come up. Install it from " ++ WG_DOWNLOAD_URL
         ++ lit " (on Windows, then launch NorthKey as Administrator) and try Connect again " ++ [8212] ++ lit " no server was created.")
  else if windows mc && negb (is_elevated mc) then
    err (lit "NorthKey needs to run as Administrator to create the WireGuard tunnel. Close NorthKey, right-click it, choose "
         ++ [34] ++ lit "Run as administrator" ++ [34] ++ lit ", then Connect again " ++ [8212] ++ lit " no server was created.")
  else ret tt.

(** The flag that keeps two attempts from overlapping, cleared on every way out. *)
Definition exclusive {A} (msg : text) (body : M A) : M A := fun s =>
  if connecting s then (Err msg, s)
  else let '(r, s) := body (set_connecting true s) in (r, set_connecting false s).
Definition in_progress : text := lit "a connection attempt is already in progress".

Definition idle_only (msg : text) : M unit := fun s => match vpn s with Some _ => (Err msg, s) | None => (Ok tt, s) end.
Definition sweep : M unit := let! keep := kept_ids in ignore (Sweep.orphan_sweep_keeping keep).

(** The core connect, with the states it reports. *)
Definition core_connect (sec : Session.Secrets) (region instance_type : text) (allowed : list text) : M (Session.Connection + CoreError) := fun s =>
  let '(r, run) := Session.connect max_boot_polls sec region instance_type allowed (world s) [] in
  let s := set_events (events s ++ map (fun st => (lit "vpn:state", state_json st region instance_type)) (Session.trace run))
             (set_world (Session.world run) s) in
  match r with Ok c => (Ok (inl c), s) | Err e => (Ok (inr e), s) | Panic => (Panic, s) end.

Definition connect_real (now : Z) (sec : Session.Secrets) (region instance_type : text) : M unit :=
  exclusive in_progress
    (let! _ := idle_only (lit "already connected") in
     let! _ := preflight_vpn in
     let! _ := need_token in
     let! _ := sweep in
     let! allowed := resolve_allowed_ips in
     let! r := core_connect sec region instance_type allowed in
     match r with
     | inr e => let! _ := killswitch_clear_all in err (told e)
     | inl conn =>
         let i := Session.instance conn in
         let! _ := match ipv4 i with Some ip => arm ip | None => ret tt end in
         modify (set_vpn (Some (MkVpnActive (inst_id i) [inst_id i] region instance_type (ipv4 i) now false)))
     end).

(** *** The always-on node *)

Definition set_persistent_active (now : Z) (r : PersistentVpnRecord) : M unit :=
  let! _ := arm (rec_ipv4 r) in
  let! _ := modify (set_vpn (Some (MkVpnActive (rec_id r) [rec_id r] (rec_region r) (rec_type r) (Some (rec_ipv4 r)) now true))) in
  emit_state (Session.Connected (rec_id r) (Some (rec_ipv4 r))) (rec_region r) (rec_type r).

Definition persistent_conf (r : PersistentVpnRecord) (privkey : text) (allowed : list text) : Wg.ClientConf :=
  Wg.MkClientConf privkey (client_ip r ++ lit "/32") (lit "1.1.1.1") (server_pubkey r)
    (rec_ipv4 r ++ lit ":" ++ show_dec (listen_port r)) allowed 25.
Definition bring_up_persistent_tunnel (r : PersistentVpnRecord) (privkey : text) (allowed : list text) : M unit :=
  try (up (persistent_conf r privkey allowed)).

(** At most [n] polls; errors are ignored and the first answer that is Running ends the wait. *)
Fixpoint poll_running (n : nat) (id : text) (running : Instance_t) : M Instance_t :=
  match n with
  | O => ret running
  | Datatypes.S n =>
      let! r := on (get id) in
      match r with
      | inl cur => if bool_decide (inst_state cur = InstanceState.Running) then ret cur else poll_running n id running
      | inr _ => poll_running n id running
      end
  end.

Definition provision_persistent_ready (inst : Instance_t) (callback_token callback_hmac_key : text) : M text :=
  let! _ := progress "booting" "waiting for the node to boot" in
  let! running := poll_running max_boot_polls (inst_id inst) inst in
  require bool_decide (inst_state running = InstanceState.Running) else lit "the node did not boot in time" in
  let! ip := match ipv4 running with Some ip => ret ip | None => err (lit "the node never reported an IP") end in
  let! _ := progress "provisioning" "waiting for the server to finish installing" in
  let! _ := try (fetch ip callback_token callback_hmac_key) in
  ret ip.

(** [rand_hex]: as many random ids as needed, cut to size. *)
Definition rand_hex (draw : nat -> arr 16) (n : nat) : text :=
  take (2 * n) (concat (map (fun i => Callback.hex_encode (draw i)) (seq 0 ((n + 15) / 16)))).

Record DeploySecrets : Type := MkDeploySecrets {
  d_client : arr 32; d_server : arr 32; d_token : nat -> arr 16; d_hmac : nat -> arr 16 }.

Definition gone_404 (e : CoreError) : bool := contains_str (lit "404") (told e).

Definition forget_record : M unit := let! _ := delete_persistent_record in persist_wg_key_del.
Definition cleanup_failed_persistent (id : text) : M unit :=
  let! r := on (delete id) in
  match r with
  | inl _ => forget_record
  | inr e => if gone_404 e then forget_record else ret tt
  end.

(** Wait for a recorded node and connect to it, or tear it down. *)
Definition finish_deploy (now : Z) (inst : Instance_t) (callback_token callback_hmac_key client_priv : text)
    (rec_at : text -> PersistentVpnRecord) : M unit := fun s =>
  match provision_persistent_ready inst callback_token callback_hmac_key s with
  | (Err e, s) => (let! _ := cleanup_failed_persistent (inst_id inst) in err e) s
  | (Panic, s) => (Panic, s)
  | (Ok ip, s) =>
      (let! _ := save_persistent_record (rec_at ip) in
       let! _ := progress "connecting" "starting the tunnel" in
       let! allowed := resolve_allowed_ips in
       let! _ := bring_up_persistent_tunnel (rec_at ip) client_priv allowed in
       let! _ := set_persistent_active now (rec_at ip) in
       emit_ev "vpn:persistent" (Js.obj [("stage", Str (lit "ready")); ("detail", Str (lit "always-on VPN ready"))])) s
  end.
(** A node just made is recorded before anything else; if that fails it is deleted, whatever the answer. *)
Definition record_and_finish (now : Z) (inst : Instance_t) (callback_token callback_hmac_key client_priv : text)
    (rec_at : text -> PersistentVpnRecord) : M unit :=
  let! saved := save_persistent_record (rec_at (default [] (ipv4 inst))) in
  if negb saved then
    let! _ := ignore (delete (inst_id inst)) in
    let! _ := persist_wg_key_del in
    err os_error
  else finish_deploy now inst callback_token callback_hmac_key client_priv rec_at.

Definition persistent_deploy_impl (now : Z) (sec : DeploySecrets) (region instance_type : text) : M unit :=
  exclusive in_progress
    (let! known := load_persistent_record in
     let! _ := match known with
               | Some _ => err (lit "an always-on VPN node is already set up " ++ [8212] ++ lit " destroy it first.")
               | None => ret tt end in
     let! _ := idle_only (lit "disconnect the current VPN before deploying an always-on node.") in
     let! _ := preflight_vpn in
     let! _ := need_token in
     let! _ := sweep in
     let client_priv := Wg.private_base64 (Wg.generate (d_client sec)) in
     let callback_token := rand_hex (d_token sec) 32 in
     let callback_hmac_key := rand_hex (d_hmac sec) 32 in
     let! cloud_init := lift (map_err told (CloudInit.render_base64 (CloudInit.single
       (Wg.private_base64 (Wg.generate (d_server sec))) (Wg.public_base64 (Wg.generate (d_client sec)))
       (lit "10.66.0.2") 51820 callback_token callback_hmac_key 0))) in
     let! _ := persist_wg_key_store client_priv in
     let! _ := progress "creating" "creating the node" in
     let! made := on (create (MkInstanceSpec region instance_type cloud_init (lit "sentinel-vpn") [PERSISTENT_VPN_TAG])) in
     match made with
     | inr e => let! _ := persist_wg_key_del in err (told e)
     | inl inst =>
         let rec_at ip := MkRecord (inst_id inst) ip instance_type region now (Wg.public_base64 (Wg.generate (d_server sec)))
                            (lit "10.66.0.2") 51820 in
         record_and_finish now inst callback_token callback_hmac_key client_priv rec_at
     end).

Definition persistent_connect_impl (now : Z) : M unit :=
  exclusive in_progress
    (let! _ := idle_only (lit "already connected") in
     let! _ := preflight_vpn in
     let! known := load_persistent_record in
     let! r := match known with Some r => ret r | None => err (lit "no always-on VPN node is set up " ++ [8212] ++ lit " deploy one first.") end in
     let! key := persist_wg_key_load in
     let! privkey := match key with
                     | Some k => ret k
                     | None => err (lit "the always-on node's tunnel key is missing " ++ [8212] ++ lit " destroy and redeploy it.") end in
     let! _ := need_token in
     let! got := on (get (rec_id r)) in
     let! inst := match got with
                  | inl i => ret i
                  | inr e => err (lit "could not reach the always-on node (" ++ told e ++ lit ") " ++ [8212] ++ lit " it may have been destroyed.") end in
     let! _ := if bool_decide (inst_state inst = InstanceState.Running) then ret tt
               else let! _ := ignore (boot (rec_id r)) in let! _ := poll_running max_boot_polls (rec_id r) inst in ret tt in
     let! allowed := resolve_allowed_ips in
     let! _ := bring_up_persistent_tunnel r privkey allowed in
     set_persistent_active now r).

Definition is_persistent (s : t S) : bool := match vpn s with Some v => persistent v | None => false end.
Definition persistent_destroy_impl : M unit :=
  exclusive (lit "a VPN connection attempt is in progress " ++ [8212] ++ lit " try Destroy again in a moment.")
    (let! mine := gets is_persistent in
     let! _ := if mine then
         let! _ := modify (set_vpn None) in
         let! _ := ignore down in
         killswitch_clear_all
       else ret tt in
     let! known := load_persistent_record in
     match known with
     | None => persist_wg_key_del
     | Some r =>
         let! k := get_token in
         match k with
         | None => err (lit "Add your Linode token back (Settings " ++ [8594] ++ lit " Real VPN) to destroy the always-on node. Nothing was deleted and its details are kept, so you can retry.")
         | Some _ =>
             let! d := on (delete (rec_id r)) in
             match d with
             | inl _ => forget_record
             | inr e =>
                 if gone_404 e then forget_record
                 else err (lit "Couldn't destroy the always-on node (" ++ told e ++ lit "). Its details are kept so you can try Destroy again "
                           ++ [8212] ++ lit " or remove the 'sentinel-vpn' node in your Linode dashboard.")
             end
         end
     end).

(** *** Multi-hop *)

Fixpoint destroy_chain (ids : list text) : M unit :=
  match ids with [] => ret tt | id :: ids => let! _ := ignore (delete id) in destroy_chain ids end.

Record HopSecrets : Type := MkHopSecrets {
  h_client : arr 32; h_server : nat -> arr 32; h_wg1 : nat -> arr 32; h_token : nat -> nat -> arr 16; h_hmac : nat -> nat -> arr 16 }.

(** The parameters of hop [i], its next hop known unless it is the exit. *)
Definition hop_params (sec : HopSecrets) (i : nat) (downstream : option (text * text)) : CloudInit.CloudInitParams :=
  let '(peer_pubkey, peer_ip) :=
    if (i =? 0)%nat then (Wg.public_base64 (Wg.generate (h_client sec)), lit "10.66.0.2")
    else (Wg.public_base64 (Wg.generate (h_wg1 sec (i - 1))), lit "10.67.0.2") in
  CloudInit.MkCloudInitParams (Wg.private_base64 (Wg.generate (h_server sec i))) peer_pubkey peer_ip 51820
    (rand_hex (h_token sec i) 16) (rand_hex (h_hmac sec i) 32) 900
    (match downstream with
     | Some (npub, nip) =>
         Some (MkNextHop (Wg.private_base64 (Wg.generate (h_wg1 sec i))) (lit "10.67.0.2/32") npub (nip ++ lit ":51820"))
     | None => None
     end).

(** Give up: every node made so far is destroyed. *)
Definition abandon {A} (created : list text) (e : text) : M A := let! _ := destroy_chain created in err e.

(** Hop [i] is made and waited for; the answer is its id and address. *)
Definition make_hop (sec : HopSecrets) (regions : list text) (itype label : text) (i : nat) (downstream : option (text * text))
    (created : list text) : M (text * text) :=
  match CloudInit.render_base64 (hop_params sec i downstream) with
  | Panic => fun s => (Panic, s)
  | Err e => abandon created (told e)
  | Ok ud =>
      let! made := on (create (MkInstanceSpec (default [] (regions !! i)) itype ud (lit "sentinel-hop" ++ show_dec (Z.of_nat i)) [])) in
      match made with
      | inr e => abandon created (told e)
      | inl inst =>
          let created := created ++ [inst_id inst] in
          let! _ := emit_state Session.Booting label itype in
          let! running := poll_running max_boot_polls (inst_id inst) inst in
          if bool_decide (inst_state running = InstanceState.Running) then
            match ipv4 running with
            | Some ip => ret (inst_id inst, ip)
            | None => abandon created (lit "hop " ++ show_dec (Z.of_nat i) ++ lit " reported no IP")
            end
          else abandon created (lit "hop " ++ show_dec (Z.of_nat i) ++ lit " did not boot in time")
      end
  end.

(** From the exit to the entry: the hops made so far, and the next one's key and address. *)
Fixpoint make_chain (sec : HopSecrets) (regions : list text) (itype label : text) (todo : nat) (downstream : option (text * text))
    (created : list text) (ips : list text) : M (list text * list text) :=
  match todo with
  | O => ret (created, ips)
  | Datatypes.S i =>
      let! hop := make_hop sec regions itype label i downstream created in
      make_chain sec regions itype label i (Some (Wg.public_base64 (Wg.generate (h_server sec i)), hop.2))
        (created ++ [hop.1]) (ips ++ [hop.2])
  end.

Definition entry_conf (sec : HopSecrets) (entry_ip : text) (allowed : list text) : Wg.ClientConf :=
  Wg.MkClientConf (Wg.private_base64 (Wg.generate (h_client sec))) (lit "10.66.0.2/32") (lit "1.1.1.1")
    (Wg.public_base64 (Wg.generate (h_server sec 0))) (entry_ip ++ lit ":51820") allowed 25.

Definition multihop_run (now : Z) (sec : HopSecrets) (regions : list text) (instance_type : option text) : M unit :=
  require negb (length regions <? 2)%nat else lit "multi-hop needs at least 2 regions" in
  require negb (MAX_HOPS <? length regions)%nat else (lit "at most 3 hops (cost = N" ++ [215] ++ lit " a node)") in
  let itype := default DEFAULT_INSTANCE_TYPE instance_type in
  exclusive in_progress
    (let! _ := idle_only (lit "already connected") in
     let! _ := preflight_vpn in
     let! _ := need_token in
     let! _ := sweep in
     let n := length regions in
     let label := default [] (regions !! 0%nat) ++ [32; 8594; 32] ++ default [] (regions !! (n - 1)%nat) in
     let! _ := emit_state Session.CreatingInstance label itype in
     let! made := make_chain sec regions itype label n None [] [] in
     let '(created, ips) := made in
     let entry_ip := default [] (last ips) in
     let! _ := emit_state Session.ExchangingKeys label itype in
     let! _ := emit_state Session.StartingTunnel label itype in
     let! allowed := resolve_allowed_ips in
     let! upped := on (up (entry_conf sec entry_ip allowed)) in
     match upped with
     | inr e => let! _ := killswitch_clear_all in abandon created (told e)
     | inl _ =>
         let! _ := arm entry_ip in
         let chain := reverse created in
         let entry_id := default [] (head chain) in
         let! _ := modify (set_vpn (Some (MkVpnActive entry_id chain label itype (head ips) now false))) in
         emit_state (Session.Connected entry_id (head ips)) label itype
     end).

(** ** Disconnecting *)

Definition last_counters (v : VpnActive) (now : Z) : M (Z * Z) :=
  let! r := on (counters (F64.of_Z (now - started_at v))) in ret (match r with inl c => c | inr _ => (0, 0) end).

(** [INSERT OR REPLACE], when the database opens and takes it. *)
Definition record_session (v : VpnActive) (last : Z * Z) (ended : Z) : M unit :=
  let! ok := fate in
  if ok then
    modify (fun s => set_history (<[instance_id v := MkSession (instance_id v) (region v) (instance_type v) (started_at v) ended
      (i64_of_u64 last.1) (i64_of_u64 last.2) (accrued (hourly_for (instance_type v)) (started_at v) ended) 0 0 0]> (history s)) s)
  else ret tt.

(** The core disconnect, with the states it reports. *)
Definition core_disconnect (v : VpnActive) : M (unit + CoreError) := fun s =>
  let '(r, run) := Session.disconnect (instance_id v) (Session.MkRun (world s) [] None) in
  let s := set_events (events s ++ map (fun st => (lit "vpn:state", state_json st (region v) (instance_type v))) (Session.trace run))
             (set_world (Session.world run) s) in
  match r with Ok _ => (Ok (inl tt), s) | Err e => (Ok (inr e), s) | Panic => (Panic, s) end.

Definition take_vpn : M (option VpnActive) := fun s => (Ok (vpn s), set_vpn None s).

Definition vpn_disconnect (now ended : Z) : M unit :=
  let! _ := modify (set_last now) in
  let! _ := killswitch_clear_all in
  let! active := take_vpn in
  match active with
  | None => ret tt
  | Some v =>
      let! last := last_counters v now in
      if persistent v then
        let! _ := ignore down in
        let! _ := emit_state Session.Idle (region v) (instance_type v) in
        record_session v last ended
      else
        let! res := core_disconnect v in
        let! _ := destroy_chain (List.filter (fun id => negb (bool_decide (id = instance_id v))) (chain v)) in
        let! _ := record_session v last ended in
        match res with inl _ => ret tt | inr e => err (told e) end
  end.

Definition vpn_disconnect_keep (now ended : Z) : M unit :=
  let! _ := modify (set_last now) in
  let! _ := killswitch_clear_all in
  let! active := take_vpn in
  match active with
  | None => err (lit "not connected")
  | Some v =>
      if (1 <? length (chain v))%nat then
        let! _ := modify (set_vpn (Some v)) in
        err (lit "keep isn't supported for a multi-hop chain " ++ [8212] ++ lit " use Disconnect to destroy it")
      else
        let! kept := kept_ids in
        if (MAX_KEPT_NODES <=? size kept)%nat then
          let! _ := modify (set_vpn (Some v)) in
          err (lit "already keeping 5 nodes " ++ [8212] ++ lit " destroy one first (each kept node keeps billing)")
        else
          let! last := last_counters v now in
          let! _ := ignore down in
          let! power := on (shutdown (instance_id v)) in
          let! _ := kept_add (instance_id v) in
          let! _ := emit_state Session.Idle (region v) (instance_type v) in
          let! _ := record_session v last ended in
          match power with inl _ => ret tt | inr e => err (told e) end
  end.

Definition is_current (id : text) (s : t S) : bool := match vpn s with Some v => bool_decide (instance_id v = id) | None => false end.
Definition vpn_node_action (id action : text) : M unit :=
  let! _ := need_token in
  let! current := gets (is_current id) in
  let! _ := if current then
      let! _ := modify (set_vpn None) in
      let! _ := killswitch_clear_all in
      ignore down
    else ret tt in
  if bool_decide (action = lit "start") then try (boot id)
  else if bool_decide (action = lit "reboot") then try (reboot id)
  else if bool_decide (action = lit "stop") then
    let! r := on (shutdown id) in
    match r with
    | inl _ => let! kept := kept_ids in if (size kept <? MAX_KEPT_NODES)%nat then kept_add id else ret tt
    | inr e => err (told e)
    end
  else if bool_decide (action = lit "delete") then
    let! r := on (delete id) in
    let! _ := kept_remove id in
    match r with inl _ => ret tt | inr e => err (told e) end
  else err (lit "unknown node action: " ++ action).

Definition vpn_nodes_destroy_all : M nat :=
  let! _ := need_token in
  let! _ := killswitch_clear_all in
  let! active := take_vpn in
  let! _ := match active with Some _ => ignore down | None => ret tt end in
  let! reaped := try (Sweep.orphan_sweep_keeping ∅) in
  let! _ := write_kept ∅ in
  ret (length reaped).

Definition sweep_on_launch : M unit := let! k := get_token in match k with Some _ => sweep | None => ret tt end.
(** [vpn_repair_tunnel]; scrubbing leftover routes and DNS policy is not modelled. *)
Definition vpn_repair_tunnel : M unit := let! _ := ignore down in killswitch_clear_all.

(** ** What is shown *)

Record NodeOut : Type := MkNodeOut {
  n_id : text; n_region : text; n_type : text; n_state : text; n_kept : bool; n_current : bool; n_hourly : f64 }.
Definition state_label (s : InstanceState.t) : text :=
  lit (match s with
       | InstanceState.Provisioning => "provisioning" | InstanceState.Booting => "booting" | InstanceState.Running => "running"
       | InstanceState.Stopped => "stopped" | InstanceState.Deleting => "deleting" | InstanceState.Gone => "gone" end).
Definition vpn_nodes : M (list NodeOut) :=
  let! _ := need_token in
  let! current := gets (fun s => instance_id <$> vpn s) in
  let! kept := kept_ids in
  let! l := try list_ephemeral in
  ret (map (fun i => MkNodeOut (inst_id i) (inst_region i) (inst_type i) (state_label (inst_state i)) (bool_decide (inst_id i ∈ kept))
                       (bool_decide (current = Some (inst_id i))) (hourly_for (inst_type i))) l).

Record CostSummary : Type := MkCostSummary { node_count : nat; running_nodes : nat; stopped_nodes : nat; total_hourly : f64 }.
Definition vpn_cost_summary : M CostSummary :=
  let! _ := need_token in
  let! l := try list_ephemeral in
  let has st i := bool_decide (inst_state i = st) in
  ret (MkCostSummary (length l)
         (length (List.filter (fun i => negb (has InstanceState.Stopped i || has InstanceState.Deleting i || has InstanceState.Gone i)) l))
         (length (List.filter (has InstanceState.Stopped) l))
         (fold_left (fun h i => F64.add h (hourly_for (inst_type i))) l F64.zero)).

Record CostOut : Type := MkCostOut { co_hourly : f64; co_accrued : f64 }.
Definition vpn_cost_estimate (now : Z) : M CostOut := gets (fun s =>
  match vpn s with
  | Some v => let h := hourly_for (instance_type v) in MkCostOut h (accrued h (started_at v) now)
  | None => MkCostOut F64.zero F64.zero
  end).
Record StateOut : Type := MkStateOut { so_stage : text; so_region : option text; so_type : option text; so_egress : option text }.
Definition vpn_state : M StateOut := gets (fun s =>
  match vpn s with
  | Some v => MkStateOut (lit "connected") (Some (region v)) (Some (instance_type v)) (egress_ip v)
  | None => MkStateOut (lit "idle") None None None
  end).

(** ** Untrusted networks *)

Record NetSettings : Type := MkNetSettings { auto_connect : bool; trusted : list text; default_region : text }.
Definition read_net_settings : M NetSettings :=
  let! v := settings_or_empty in
  ret (MkNetSettings (default false (Js.get (lit "autoConnectUntrusted") v ≫= Js.as_bool)) (str_list v "ssidAllowlist")
         (default (lit "us-east") (Js.get (lit "defaultRegion") v ≫= Js.as_str))).
Definition ssid_is_trusted (ssid : text) (trusted : list text) : bool := existsb (fun t => eq_ignore_ascii_case t ssid) trusted.

Record NetStatus : Type := MkNetStatus { ns_ssid : option text; ns_trusted : bool; ns_auto : bool }.
Definition net_status (ssid : option text) : M NetStatus :=
  let! cfg := read_net_settings in
  ret (MkNetStatus ssid (match ssid with Some s => ssid_is_trusted s (trusted cfg) | None => false end) (auto_connect cfg)).
Definition net_set (auto : bool) (trusted_ssids : list text) : M unit :=
  let! v := settings_or_empty in
  let cleaned := List.filter (fun s => negb (bool_decide (s = []))) (map trim trusted_ssids) in
  let v := match v with
           | Obj l => Obj (Js.assoc_insert (lit "ssidAllowlist") (Arr (map Str cleaned))
                             (Js.assoc_insert (lit "autoConnectUntrusted") (Bool auto) l))
           | v => v
           end in
  let! ok := fate in if ok then modify (set_settings (Some v)) else err os_error.

(** One tick, on the network [ssid] (none when not on Wi-Fi); the outcome of a connect is not looked at. *)
Definition silently (m : M unit) : M unit := fun s => match m s with (Panic, s) => (Panic, s) | (_, s) => (Ok tt, s) end.
Definition autoconnect_tick (now : Z) (ssid : option text) (sec : Session.Secrets) : M unit :=
  let! cfg := read_net_settings in
   let! k := get_token in
   let! active := gets vpn in
   let! last := gets last_manual_disconnect in
   let! known := load_persistent_record in
   if negb (auto_connect cfg) then ret tt
   else match k, active with
   | Some _, None =>
       if (0 <? last) && (now - last <? AUTOCONNECT_DEBOUNCE_SECS) then ret tt
       else match ssid with
       | None => ret tt
       | Some name =>
           if ssid_is_trusted name (trusted cfg) then ret tt
           else match known with
           | Some _ => silently (persistent_connect_impl now)
           | None => silently (connect_real now sec (default_region cfg) DEFAULT_INSTANCE_TYPE)
           end
       end
   | _, _ => ret tt
   end.
End ops.
End Mgr.
