(* ===== verification/VpnManagerClaims.v ===== *)
(** What the VPN manager promises over any lawful provider: a node it pays for is always one the user
    can see and destroy, traffic is never left blocked without a tunnel, kept nodes are bounded, a
    failed chain leaves nothing behind, and the poller only acts where it may. *)
From S2P Require Import Prelude Bytes Text Crypto Floats Value Toy RecoveryKit Keyring Model Template Provision Vpn Health NmHost VpnManager.
Local Open Scope Z_scope.
Import Mgr.

Create HintDb mgr.

(** Powering nodes and reading counters do not create or destroy nodes. *)
Class PowerLaws (S : Type) {C : CloudProvider S} {L : CloudLaws S} {K : WgCounters S} : Prop := {
  shutdown_frame id s r s' : cloud_ok s -> shutdown id s = (r, s') -> cloud_ok s' /\ (forall x, node s' x = node s x);
  boot_frame id s r s' : cloud_ok s -> boot id s = (r, s') -> cloud_ok s' /\ (forall x, node s' x = node s x);
  reboot_frame id s r s' : cloud_ok s -> reboot id s = (r, s') -> cloud_ok s' /\ (forall x, node s' x = node s x);
  counters_frame t s r s' : cloud_ok s -> counters t s = (r, s') -> cloud_ok s' /\ (forall x, node s' x = node s x);
}.

(** ** Steps that make no hidden node *)

Section nodes.
Context {S : Type} {C : CloudProvider S} {L : CloudLaws S} {Wc : WgController S} {K : WgCounters S} {F : ServerPubkeyFetcher S}.
Context {FL : FrameLaws S} {PL : PowerLaws S}.
Context {T : Templates} {B : Base64} {X : Wg.X25519}.
Context (mc : Machine) (polls : nat).

(** A change of the world whose new nodes all carry the ephemeral tag. *)
Definition tame_world (w w' : S) : Prop :=
  cloud_ok w -> cloud_ok w' /\ forall x tags, node w' x = Some tags -> node w x = Some tags \/ EPHEMERAL_TAG ∈ tags.
Definition tame {A} (m : ST S CoreError A) : Prop := forall w r w', m w = (r, w') -> tame_world w w'.

#[global] Instance tame_world_pre : PreOrder tame_world.
Proof.
  split; [by intros w Hw; split; [|auto]|]. intros a b c H1 H2 Ha. destruct (H1 Ha) as [Hb N1]. destruct (H2 Hb) as [Hc N2].
  split; [done|]. intros x tags Hx. destruct (N2 _ _ Hx) as [Hx'|]; [by apply N1|by right].
Qed.

Lemma tame_frame {A} (m : ST S CoreError A) :
  (forall w r w', cloud_ok w -> m w = (r, w') -> cloud_ok w' /\ forall x, node w' x = node w x) -> tame m.
Proof. intros H w r w' E Hw. destruct (H _ _ _ Hw E) as [? Hn]. split; [done|]. intros x tags. rewrite Hn. auto. Qed.

Lemma tame_bind {A A'} (m : ST S CoreError A) (k : A -> ST S CoreError A') : tame m -> (forall a, tame (k a)) -> tame (mbind m k).
Proof.
  intros Hm Hk w r w' H. unfold mbind in H. destruct (m w) as [[a|e|] w1] eqn:E; apply Hm in E.
  - apply Hk in H. by etrans.
  - by injection H as <- <-.
  - by injection H as <- <-.
Qed.

Lemma tame_get id : tame (get id).
Proof. apply tame_frame. intros w r w' Hw H. destruct (get_spec _ _ _ _ Hw H) as (? & ? & _). done. Qed.
Lemma tame_delete id : tame (delete id).
Proof.
  intros w r w' H Hw. destruct (delete_spec _ _ _ _ Hw H) as [? Hn]. split; [done|]. intros x tags.
  destruct r as [u|e|]; [rewrite Hn; case_decide; [done|auto]|rewrite Hn; auto|done].
Qed.
Lemma tame_create spec : spec_tags spec = [] -> tame (create spec).
Proof.
  intros Ht w r w' H Hw. destruct (create_spec _ _ _ _ Hw H) as [? Hn]. split; [done|]. intros x tags.
  destruct r as [i|e|]; [|rewrite Hn; auto|done]. destruct Hn as [_ Hn]. rewrite Hn, Ht. case_decide; [|auto].
  intros [= <-]. right. left.
Qed.
Lemma tame_list : tame list_ephemeral.
Proof. apply tame_frame. intros w r w' Hw H. destruct (list_spec _ _ _ Hw H) as (? & ? & _). done. Qed.
Lemma tame_up conf : tame (up conf).
Proof. apply tame_frame. intros w r w' Hw H. destruct (up_frame _ _ _ _ Hw H) as (? & ? & _). done. Qed.
Lemma tame_down : tame down.
Proof. apply tame_frame. intros w r w' Hw H. destruct (down_frame _ _ _ Hw H) as (? & ? & _). done. Qed.
Lemma tame_fetch ip tok key : tame (fetch ip tok (Callback.hex_encode key)).
Proof. apply tame_frame. intros w r w' Hw H. destruct (fetch_frame _ _ _ _ _ _ Hw H) as (? & ? & _). done. Qed.
Lemma tame_shutdown id : tame (shutdown id).
Proof. apply tame_frame. intros w r w' Hw H. exact (shutdown_frame _ _ _ _ Hw H). Qed.
Lemma tame_boot id : tame (boot id).
Proof. apply tame_frame. intros w r w' Hw H. exact (boot_frame _ _ _ _ Hw H). Qed.
Lemma tame_reboot id : tame (reboot id).
Proof. apply tame_frame. intros w r w' Hw H. exact (reboot_frame _ _ _ _ Hw H). Qed.
Lemma tame_counters x : tame (counters x).
Proof. apply tame_frame. intros w r w' Hw H. exact (counters_frame _ _ _ _ Hw H). Qed.

Lemma tame_sweep keep : tame (Sweep.orphan_sweep_keeping keep).
Proof.
  unfold Sweep.orphan_sweep_keeping. apply tame_bind; [apply tame_list|]. intros l. generalize (@nil text).
  induction l as [|i l IH]; intros reaped; cbn [Sweep.sweep_loop]; [by intros w r w' [= <- <-]|].
  case_bool_decide as Hk; [apply IH|]. intros w r w'. destruct (delete (inst_id i) w) as [[u|e|] w1] eqn:E; apply tame_delete in E.
  - intros H. etrans; [exact E|]. exact (IH _ _ _ _ H).
  - intros H. etrans; [exact E|]. exact (IH _ _ _ _ H).
  - by intros [= <- <-].
Qed.

(** A connect adds at most one node, an ephemeral one. *)
Lemma tame_connect n sec region ty ips w r run :
  Session.connect n sec region ty ips w [] = (r, run) -> tame_world w (Session.world run).
Proof.
  intros H Hw. unfold Session.connect in H. destruct (Session.connect_inner _ _ _ _ _ _) as [res r1] eqn:E.
  destruct (connect_inner_accounted _ _ _ _ _ _ _ _ _ Hw E) as [[Hok HA] _].
  assert (HT : tame_world w (Session.world r1)).
  { intros _. split; [done|]. intros x tags. destruct (Session.created r1) as [id|]; [|rewrite HA; auto].
    destruct HA as [_ HA]. rewrite HA. case_decide; [intros [= <-]; right; left|auto]. }
  destruct res as [c|e|]; injection H as <- <-; [by apply HT| |by apply HT].
  destruct (SessionFacts.cleanup_run e r1) as [_ Hd]. destruct (Session.created r1) as [id|]; [|rewrite Hd; by apply HT].
  destruct Hd as [o Hd]. apply tame_delete in Hd. by apply (tame_world_pre.(PreOrder_Transitive) _ _ _ HT Hd).
Qed.

Lemma tame_disconnect id w r run :
  Session.disconnect id (Session.MkRun w [] None) = (r, run) -> tame_world w (Session.world run).
Proof.
  unfold Session.disconnect, mbind, Session.emit, Session.call. cbn [Session.world Session.trace Session.created].
  destruct (down w) as [d w1] eqn:E1. apply tame_down in E1. cbn [snd Session.world Session.trace Session.created].
  destruct (delete id w1) as [[u|e|] w2] eqn:E2; apply tame_delete in E2; intros [= <- <-]; cbn [Session.world]; by etrans.
Qed.
End nodes.
#[export] Hint Resolve tame_get tame_delete tame_list tame_up tame_down tame_fetch tame_shutdown tame_boot tame_reboot tame_counters tame_sweep : mgr.

(** ** Relations the building blocks respect *)

Section calm.
Context {S : Type} {C : CloudProvider S} {L : CloudLaws S} {Wc : WgController S} {K : WgCounters S} {F : ServerPubkeyFetcher S}.
Context {FL : FrameLaws S} {PL : PowerLaws S}.
Context {T : Templates} {B : Base64} {X : Wg.X25519}.
Context (mc : Machine) (polls : nat).

(** The operating system obeys, and the provider is lawful. *)
Definition sound (s : t S) : Prop := faults s = [] /\ cloud_ok (world s).

(** A relation that looks at neither the interface, the history nor the secrets, and at the world only
    through tame changes. *)
Class Calm (R : relation (t S)) : Prop := {
  #[global] calm_pre :: PreOrder R;
  calm_unsound s s' : ~ sound s -> R s s';
  calm_events v s : R s (set_events v s);
  calm_wg_key v s : R s (set_wg_key v s);
  calm_history v s : R s (set_history v s);
  calm_last v s : R s (set_last v s);
  calm_settings v s : R s (set_settings v s);
  calm_token v s : R s (set_tok v s);
  calm_connecting v s : R s (set_connecting v s);
  calm_world w s : tame_world (world s) w -> R s (set_world w s);
}.

Definition obeys (R : relation (t S)) {A} (m : M (S := S) A) : Prop := forall s r s', m s = (r, s') -> R s s'.

Context (R : relation (t S)) {HR : Calm R}.

Lemma obeys_ret {A} (a : A) : obeys R (ret a).
Proof. by intros s r s' [= <- <-]. Qed.
Lemma obeys_err {A} e : obeys R (err (A := A) e).
Proof. by intros s r s' [= <- <-]. Qed.
Lemma obeys_lift {A} (x : result A text) : obeys R (lift x).
Proof. by intros s r s' [= <- <-]. Qed.
Lemma obeys_gets {A} (f : t S -> A) : obeys R (gets f).
Proof. by intros s r s' [= <- <-]. Qed.
Lemma obeys_modify f : (forall s, R s (f s)) -> obeys R (modify f).
Proof. by intros Hf s r s' [= <- <-]. Qed.
Lemma obeys_bind {A A'} (m : M A) (k : A -> M A') : obeys R m -> (forall a, obeys R (k a)) -> obeys R (mbind m k).
Proof.
  intros Hm Hk s r s' H. unfold mbind in H. destruct (m s) as [[a|e|] s1] eqn:E; apply Hm in E.
  - apply Hk in H. by etrans.
  - by injection H as <- <-.
  - by injection H as <- <-.
Qed.
Lemma obeys_on {A} (m : ST S CoreError A) : tame m -> obeys R (on m).
Proof. intros Hm s r s'. unfold on. destruct (m (world s)) as [[a|e|] w] eqn:E; intros [= <- <-]; apply calm_world; by eapply Hm. Qed.
Lemma obeys_fate : obeys R fate.
Proof.
  intros s r s'. unfold fate. destruct (faults s) eqn:E; intros [= <- <-]; [done|]. apply calm_unsound. unfold sound. rewrite E. by intros [? _].
Qed.
Lemma obeys_ignore {A} (m : ST S CoreError A) : tame m -> obeys R (ignore m).
Proof. intros Hm. apply obeys_bind; [by apply obeys_on|]. intros _. apply obeys_ret. Qed.
Lemma obeys_try {A} (m : ST S CoreError A) : tame m -> obeys R (try m).
Proof. intros Hm. apply obeys_bind; [by apply obeys_on|]. intros [a|e]; [apply obeys_ret|apply obeys_err]. Qed.
Lemma obeys_emit n v : obeys R (emit_ev n v).
Proof. apply obeys_modify. intros s. apply calm_events. Qed.
Lemma obeys_exclusive {A} msg (m : M A) : obeys R m -> obeys R (exclusive msg m).
Proof.
  intros Hm s r s'. unfold exclusive. destruct (connecting s); [by intros [= <- <-]|].
  destruct (m (set_connecting true s)) as [r1 s1] eqn:E. intros [= <- <-]. apply Hm in E.
  etrans; [apply (calm_connecting true)|]. etrans; [exact E|]. apply calm_connecting.
Qed.
Lemma obeys_idle_only msg : obeys R (idle_only msg).
Proof. intros s r s'. unfold idle_only. destruct (vpn s); by intros [= <- <-]. Qed.
Lemma obeys_silently (m : M unit) : obeys R m -> obeys R (silently m).
Proof. intros Hm s r s'. unfold silently. destruct (m s) as [[a|e|] s1] eqn:E; intros [= <- <-]; by eapply Hm. Qed.
End calm.

#[export] Hint Resolve obeys_ret obeys_err obeys_lift obeys_gets obeys_fate obeys_emit obeys_idle_only obeys_on obeys_ignore obeys_try : mgr.

(** Walk through a computation made of building blocks. *)
Ltac obey :=
  repeat first
    [ progress intros
    | match goal with
      | |- obeys _ (mbind _ _) => apply obeys_bind
      | |- obeys _ (modify _) => apply obeys_modify
      | |- obeys _ (exclusive _ _) => apply obeys_exclusive
      | |- obeys _ (silently _) => apply obeys_silently
      | |- obeys _ (match ?x with _ => _ end) => destruct x
      end
    | solve [first [apply calm_events | apply calm_wg_key | apply calm_history | apply calm_last | apply calm_settings | apply calm_token]]
    | solve [eauto with mgr] ].

Section blocks.
Context {S : Type} {C : CloudProvider S} {L : CloudLaws S} {Wc : WgController S} {K : WgCounters S} {F : ServerPubkeyFetcher S}.
Context {FL : FrameLaws S} {PL : PowerLaws S}.
Context {T : Templates} {B : Base64} {X : Wg.X25519}.
Context (mc : Machine) (polls : nat) (R : relation (t S)) {HR : Calm R}.

Lemma obeys_preflight : obeys R (preflight_vpn mc).
Proof. unfold preflight_vpn. obey. Qed.
Lemma obeys_need_token : obeys R need_token.
Proof. unfold need_token, get_token. obey. Qed.
Lemma obeys_sweep : obeys R sweep.
Proof. unfold sweep, kept_ids. obey. Qed.
Lemma obeys_allowed : obeys R resolve_allowed_ips.
Proof. unfold resolve_allowed_ips, settings_or_empty. obey. Qed.
Lemma obeys_wg_key_del : obeys R persist_wg_key_del.
Proof. unfold persist_wg_key_del. obey. Qed.
Lemma obeys_wg_key_store k : obeys R (persist_wg_key_store k).
Proof. unfold persist_wg_key_store. obey. Qed.
Lemma obeys_poll n id i : obeys R (poll_running n id i).
Proof. induction n as [|n IH]; cbn [poll_running]; obey. Qed.

Lemma rand_hex_bytes draw n : exists b, rand_hex draw n = Callback.hex_encode b.
Proof.
  unfold rand_hex. assert (H : forall l, exists b, concat (map (fun i => Callback.hex_encode (draw i)) l) = Callback.hex_encode b).
  { intros l. exists (concat (map (fun i => arr_bytes (draw i)) l)). induction l as [|i l IH]; [done|]. cbn [map concat].
    rewrite IH. unfold Callback.hex_encode. by rewrite map_app, concat_app. }
  destruct (H (seq 0 ((n + 15) / 16))) as [b ->]. exists (take n b). clear H.
  revert n; induction b as [|x b IH]; intros [|n]; [done..|]. replace (2 * Datatypes.S n)%nat with (Datatypes.S (Datatypes.S (2 * n))) by lia.
  cbn [take]. unfold Callback.hex_encode. cbn [map concat app take]. do 2 f_equal. apply IH.
Qed.

Lemma obeys_progress a b : obeys R (progress a b).
Proof. by apply obeys_emit. Qed.
Lemma obeys_emit_state st a b : obeys R (emit_state st a b).
Proof. by apply obeys_emit. Qed.
Lemma obeys_bring_up r k ips : obeys R (bring_up_persistent_tunnel r k ips).
Proof. unfold bring_up_persistent_tunnel. obey. Qed.
Lemma obeys_core_connect sec region ty ips : obeys R (core_connect polls sec region ty ips).
Proof.
  intros s r s'. unfold core_connect. destruct (Session.connect _ _ _ _ _ _ _) as [o run] eqn:E. apply tame_connect in E.
  destruct o; intros [= <- <-]; (etrans; [by apply calm_world|apply calm_events]).
Qed.
Lemma obeys_core_disconnect v : obeys R (core_disconnect v).
Proof.
  intros s r s'. unfold core_disconnect. destruct (Session.disconnect _ _) as [o run] eqn:E. apply tame_disconnect in E.
  destruct o; intros [= <- <-]; (etrans; [by apply calm_world|apply calm_events]).
Qed.
Lemma obeys_destroy_chain ids : obeys R (destroy_chain ids).
Proof. induction ids as [|id ids IH]; cbn [destroy_chain]; obey. Qed.
Lemma obeys_last_counters v now : obeys R (last_counters v now).
Proof. unfold last_counters. obey. Qed.
Lemma obeys_record_session v l e : obeys R (record_session v l e).
Proof. unfold record_session. obey. Qed.
End blocks.
#[export] Hint Resolve obeys_preflight obeys_need_token obeys_sweep obeys_allowed obeys_wg_key_del obeys_wg_key_store obeys_poll obeys_progress
  obeys_emit_state obeys_bring_up obeys_core_connect obeys_core_disconnect obeys_destroy_chain obeys_last_counters obeys_record_session : mgr.

Section more_blocks.
Context {S : Type} {C : CloudProvider S} {L : CloudLaws S} {Wc : WgController S} {K : WgCounters S} {F : ServerPubkeyFetcher S}.
Context {FL : FrameLaws S} {PL : PowerLaws S}.
Context {T : Templates} {B : Base64} {X : Wg.X25519}.
Context (mc : Machine) (polls : nat) (R : relation (t S)) {HR : Calm R}.

Lemma obeys_ready inst tok hm : obeys R (provision_persistent_ready polls inst tok (rand_hex hm 32)).
Proof. unfold provision_persistent_ready. destruct (rand_hex_bytes hm 32) as [b ->]. obey. Qed.
Lemma obeys_give_up {A} ids e : obeys R (abandon (A := A) ids e).
Proof. unfold abandon. obey. Qed.
Lemma obeys_make_hop sec regions ty label i d ids : obeys R (make_hop polls sec regions ty label i d ids).
Proof.
  unfold make_hop. destruct (CloudInit.render_base64 _) as [ud|e|]; [|by apply obeys_give_up|by intros s r s' [= <- <-]].
  apply obeys_bind; [done|by apply obeys_on, tame_create|]. intros [inst|e]; [|by apply obeys_give_up]. obey; by apply obeys_give_up.
Qed.
Lemma obeys_make_chain sec regions ty label n d ids ips : obeys R (make_chain polls sec regions ty label n d ids ips).
Proof.
  revert d ids ips; induction n as [|n IH]; intros d ids ips; cbn [make_chain]; [by apply obeys_ret|].
  apply obeys_bind; [done|by apply obeys_make_hop|]. intros hop. apply IH.
Qed.
End more_blocks.
#[export] Hint Resolve obeys_ready obeys_give_up obeys_make_chain : mgr.

(** ** Commands *)

Inductive Cmd : Type :=
| Connect (now : Z) (sec : Session.Secrets) (region instance_type : text)
| Multihop (now : Z) (sec : HopSecrets) (regions : list text) (instance_type : option text)
| Deploy (now : Z) (sec : DeploySecrets) (region instance_type : text)
| ConnectAlwaysOn (now : Z)
| DestroyAlwaysOn
| Disconnect (now ended : Z)
| DisconnectKeep (now ended : Z)
| NodeAction (id action : text)
| DestroyAll
| Tick (now : Z) (ssid : option text) (sec : Session.Secrets)
| Launch
| ClearKillswitch
| Repair
| SetToken (token : text)
| NetSet (auto : bool) (trusted : list text)
| Import (bundle : option (PersistentVpnRecord * text)).

Section commands.
Context {S : Type} {C : CloudProvider S} {L : CloudLaws S} {Wc : WgController S} {K : WgCounters S} {F : ServerPubkeyFetcher S}.
Context {FL : FrameLaws S} {PL : PowerLaws S}.
Context {T : Templates} {B : Base64} {X : Wg.X25519}.
Context (mc : Machine) (polls : nat).

Definition run_cmd (c : Cmd) : M (S := S) unit :=
  match c with
  | Connect now sec region ty => connect_real mc polls now sec region ty
  | Multihop now sec regions ty => multihop_run mc polls now sec regions ty
  | Deploy now sec region ty => persistent_deploy_impl mc polls now sec region ty
  | ConnectAlwaysOn now => persistent_connect_impl mc polls now
  | DestroyAlwaysOn => persistent_destroy_impl mc
  | Disconnect now ended => vpn_disconnect mc now ended
  | DisconnectKeep now ended => vpn_disconnect_keep mc now ended
  | NodeAction id action => vpn_node_action mc id action
  | DestroyAll => let! _ := vpn_nodes_destroy_all mc in ret tt
  | Tick now ssid sec => autoconnect_tick mc polls now ssid sec
  | Launch => sweep_on_launch
  | ClearKillswitch => killswitch_clear mc
  | Repair => vpn_repair_tunnel mc
  | SetToken k => set_token k
  | NetSet auto ssids => net_set auto ssids
  | Import b => persistent_sync_import b
  end.

(** *** Nodes *)

Definition no_new_hidden (s s' : t S) : Prop :=
  sound s -> sound s' /\ record s' = record s
    /\ forall x tags, node (world s') x = Some tags -> node (world s) x = Some tags \/ EPHEMERAL_TAG ∈ tags.

#[local] Instance no_new_hidden_calm : Calm no_new_hidden.
Proof.
  split; try (intros; intros Hs; by split_and!; auto).
  - split; [intros s Hs; split_and!; auto|]. intros a b c H1 H2 Ha. destruct (H1 Ha) as (Hb & R1 & N1). destruct (H2 Hb) as (Hc & R2 & N2).
    split; [done|]. split; [congruence|]. intros x tags Hx. destruct (N2 _ _ Hx); [by apply N1|by right].
  - intros w s Hw [Hf Hok]. destruct (Hw Hok) as [Hok' Hn]. by split_and!.
Qed.

Lemma hidden_vpn v s : no_new_hidden s (set_vpn v s).
Proof. intros Hs. split_and!; auto. Qed.
Lemma hidden_rules v s : no_new_hidden s (set_rules v s).
Proof. intros Hs. split_and!; auto. Qed.
Lemma hidden_kept v s : no_new_hidden s (set_kept v s).
Proof. intros Hs. split_and!; auto. Qed.
#[local] Hint Resolve no_new_hidden_calm hidden_vpn hidden_rules hidden_kept : mgr.

Lemma hidden_clear : obeys no_new_hidden (killswitch_clear_all mc).
Proof. unfold killswitch_clear_all. obey. Qed.
Lemma hidden_netsh r : obeys no_new_hidden (netsh_add r).
Proof. unfold netsh_add. obey. Qed.
#[local] Hint Resolve hidden_clear hidden_netsh : mgr.
Lemma hidden_engage ip : obeys no_new_hidden (killswitch_engage_for mc ip).
Proof.
  unfold killswitch_engage_for, killswitch_engage. obey.
  intros s r s'. destruct (netsh_add _ s) as [[u|e|] s1] eqn:E; apply hidden_netsh in E; by intros [= <- <-].
Qed.
Lemma hidden_arm ip : obeys no_new_hidden (arm mc ip).
Proof.
  unfold arm, killswitch_enabled. apply obeys_bind; [apply _|by apply obeys_gets, _|]. intros [|]; [|by apply obeys_ret, _].
  intros s r s'. destruct (killswitch_engage_for mc ip s) as [[u|e|] s1] eqn:E; apply hidden_engage in E; try by intros [= <- <-].
  intros H. apply hidden_clear in H. by etrans.
Qed.
#[local] Hint Resolve hidden_arm : mgr.
Lemma hidden_take : obeys no_new_hidden take_vpn.
Proof. intros s r s' [= <- <-]. apply hidden_vpn. Qed.
Lemma hidden_write_kept ids : obeys no_new_hidden (write_kept ids).
Proof. unfold write_kept. obey. Qed.
#[local] Hint Resolve hidden_take hidden_write_kept : mgr.
Lemma hidden_set_active now r : obeys no_new_hidden (set_persistent_active mc now r).
Proof. unfold set_persistent_active. obey. Qed.
#[local] Hint Resolve hidden_set_active : mgr.

Lemma hidden_connect now sec region ty : obeys no_new_hidden (connect_real mc polls now sec region ty).
Proof. unfold connect_real. obey. Qed.
Lemma hidden_connect_always_on now : obeys no_new_hidden (persistent_connect_impl mc polls now).
Proof. unfold persistent_connect_impl, load_persistent_record, persist_wg_key_load. obey. Qed.
#[local] Hint Resolve hidden_connect hidden_connect_always_on : mgr.

(** Every command but those of the always-on node. *)
Definition ordinary (c : Cmd) : bool := match c with Deploy _ _ _ _ | DestroyAlwaysOn | Import _ => false | _ => true end.
Lemma hidden_ordinary c : ordinary c = true -> obeys no_new_hidden (run_cmd c).
Proof.
  intros Hc. destruct c; try discriminate; cbn [run_cmd].
  - unfold connect_real. obey.
  - unfold multihop_run. obey.
  - obey.
  - unfold vpn_disconnect. obey.
  - unfold vpn_disconnect_keep, kept_add, kept_ids. obey.
  - unfold vpn_node_action, kept_add, kept_remove, kept_ids. obey.
  - unfold vpn_nodes_destroy_all. obey.
  - unfold autoconnect_tick, read_net_settings, settings_or_empty, get_token, load_persistent_record. obey.
  - unfold sweep_on_launch, get_token. obey.
  - unfold killswitch_clear. obey.
  - unfold vpn_repair_tunnel. obey.
  - unfold set_token. obey.
  - unfold net_set, settings_or_empty. obey.
Qed.

(** *** The always-on node *)

(** A deletion refused with 404 is of a node that is not there. *)
Class Honest404 : Prop := {
  delete_404 id w e w' : cloud_ok w -> delete id w = (Err e, w') -> gone_404 e = true -> node w' id = None }.
Context {H4 : Honest404}.

(** Every node is another service's, carries the tag the node list and the sweep go by, or is the
    recorded always-on node. *)
Definition accounted_for (P : text -> Prop) (s : t S) : Prop :=
  sound s /\ forall x tags, node (world s) x = Some tags ->
    P x \/ EPHEMERAL_TAG ∈ tags \/ exists r, record s = Some r /\ rec_id r = x.

Context (P : text -> Prop).

Definition no_record (s : t S) : Prop := accounted_for P s /\ record s = None.
Definition recorded (id : text) (s : t S) : Prop := accounted_for P s /\ exists r, record s = Some r /\ rec_id r = id.

Lemma accounted_step s s' : no_new_hidden s s' -> accounted_for P s -> accounted_for P s' /\ record s' = record s.
Proof.
  intros H [Hs Ha]. destruct (H Hs) as (Hs' & Hr & Hn). split; [|done]. split; [done|]. intros x tags Hx. rewrite Hr.
  destruct (Hn _ _ Hx) as [Hx'|]; auto.
Qed.
Lemma no_record_step s s' : no_new_hidden s s' -> no_record s -> no_record s'.
Proof. intros H [Ha Hr]. destruct (accounted_step _ _ H Ha) as [? ?]. split; [done|congruence]. Qed.
Lemma recorded_step id s s' : no_new_hidden s s' -> recorded id s -> recorded id s'.
Proof. intros H [Ha (r & Hr & Hi)]. destruct (accounted_step _ _ H Ha) as [? ?]. split; [done|]. exists r. split; congruence. Qed.

(** From [Q], whatever happens, every node is accounted for. *)
Definition leads (Q : t S -> Prop) {A} (m : M (S := S) A) : Prop := forall s r s', Q s -> m s = (r, s') -> accounted_for P s'.

Lemma leads_obeys Q {A} (m : M A) :
  (forall s s', no_new_hidden s s' -> Q s -> Q s') -> (forall s, Q s -> accounted_for P s) -> obeys no_new_hidden m -> leads Q m.
Proof. intros Hq Ha Hm s r s' Hs E. apply Ha. eapply Hq; [|exact Hs]. by eapply Hm. Qed.

Lemma leads_bind Q {A A'} (m : M A) (k : A -> M A') :
  (forall s s', no_new_hidden s s' -> Q s -> Q s') -> (forall s, Q s -> accounted_for P s) ->
  obeys no_new_hidden m -> (forall a, leads Q (k a)) -> leads Q (mbind m k).
Proof.
  intros Hq Ha Hm Hk s r s' Hs E. unfold mbind in E. destruct (m s) as [[a|e|] s1] eqn:E1; apply Hm in E1; apply (Hq _ _ E1) in Hs.
  - by eapply Hk.
  - injection E as <- <-. by apply Ha.
  - injection E as <- <-. by apply Ha.
Qed.

Lemma leads_exclusive Q {A} msg (m : M A) :
  (forall s s', no_new_hidden s s' -> Q s -> Q s') -> (forall s, Q s -> accounted_for P s) -> leads Q m -> leads Q (exclusive msg m).
Proof.
  intros Hq Ha Hm s r s' Hs. unfold exclusive. destruct (connecting s); [intros [= <- <-]; by apply Ha|].
  destruct (m (set_connecting true s)) as [r1 s1] eqn:E. intros [= <- <-].
  eapply (accounted_step s1); [apply (calm_connecting (R := no_new_hidden) false)|]. eapply Hm; [|exact E].
  eapply Hq; [apply (calm_connecting (R := no_new_hidden) true)|done].
Qed.

Lemma forget_run (s : t S) : faults s = [] -> forget_record s = (Ok tt, set_wg_key None (set_record None s)).
Proof. intros Hf. unfold forget_record, delete_persistent_record, persist_wg_key_del, mbind, fate. rewrite Hf. cbn. by rewrite Hf. Qed.

(** Once the recorded node is gone its record may go too. *)
Lemma forget_accounted id s r s' :
  recorded id s -> node (world s) id = None -> forget_record s = (r, s') -> accounted_for P s'.
Proof.
  intros [[Hs Ha] (rc & Hr & Hi)] Hn. rewrite forget_run by apply Hs. intros [= <- <-]. split; [done|]. cbn. intros x tags Hx.
  destruct (Ha _ _ Hx) as [?|[?|(r' & Hr' & Hi')]]; [auto..|]. by simplify_eq.
Qed.

Lemma delete_recorded id s o w :
  recorded id s -> delete id (world s) = (o, w) ->
  recorded id (set_world w s) /\ match o with Ok _ => node w id = None | Err e => gone_404 e = true -> node w id = None | Panic => True end.
Proof.
  intros Hs E. split; [eapply recorded_step; [|exact Hs]; apply calm_world; by eapply tame_delete|].
  destruct Hs as [[[_ Hok] _] _]. destruct (delete_spec _ _ _ _ Hok E) as [_ Hd]. destruct o as [u|e|]; [rewrite Hd; by rewrite decide_True| |done].
  by eapply delete_404.
Qed.

Lemma cleanup_leads id : leads (recorded id) (cleanup_failed_persistent id).
Proof.
  intros s r s' Hs. unfold cleanup_failed_persistent, mbind, on. destruct (delete id (world s)) as [o w] eqn:E.
  destruct (delete_recorded _ _ _ _ Hs E) as [Hs' Hn]. destruct o as [u|e|]; [by apply forget_accounted with id| |intros [= <- <-]; apply Hs'].
  destruct (gone_404 e); [apply forget_accounted with id; [done|by apply Hn]|intros [= <- <-]; apply Hs'].
Qed.

Lemma no_record_accounted s : no_record s -> accounted_for P s.
Proof. by intros [? _]. Qed.
Lemma recorded_accounted id s : recorded id s -> accounted_for P s.
Proof. by intros [? _]. Qed.

Lemma leads_none {A} (m : M A) : obeys no_new_hidden m -> leads no_record m.
Proof. apply leads_obeys; [exact no_record_step|exact no_record_accounted]. Qed.
Lemma leads_none_bind {A A'} (m : M A) (k : A -> M A') :
  obeys no_new_hidden m -> (forall a, leads no_record (k a)) -> leads no_record (mbind m k).
Proof. apply leads_bind; [exact no_record_step|exact no_record_accounted]. Qed.
Lemma leads_rec id {A} (m : M A) : obeys no_new_hidden m -> leads (recorded id) m.
Proof. apply leads_obeys; [apply recorded_step|apply recorded_accounted]. Qed.
Lemma leads_rec_bind id {A A'} (m : M A) (k : A -> M A') :
  obeys no_new_hidden m -> (forall a, leads (recorded id) (k a)) -> leads (recorded id) (mbind m k).
Proof. apply leads_bind; [apply recorded_step|apply recorded_accounted]. Qed.

Lemma save_run r (s : t S) : faults s = [] -> save_persistent_record r s = (Ok true, set_record (Some r) s).
Proof. intros Hf. unfold save_persistent_record, mbind, fate. by rewrite Hf. Qed.

(** Recording a node accounts for it. *)
Lemma save_recorded r id s :
  sound s -> rec_id r = id ->
  (forall x tags, node (world s) x = Some tags -> P x \/ EPHEMERAL_TAG ∈ tags \/ x = id) -> recorded id (set_record (Some r) s).
Proof.
  intros Hs Hi Hn. split; [|by exists r]. split; [done|]. cbn. intros x tags Hx. destruct (Hn _ _ Hx) as [?|[?| ->]]; auto.
  right. right. by exists r.
Qed.

(** After the node is made and recorded: wait for it, or tear it down. *)
Lemma deploy_tail_leads now inst tok hm key (rec_at : text -> PersistentVpnRecord) :
  (forall ip, rec_id (rec_at ip) = inst_id inst) ->
  leads (recorded (inst_id inst)) (finish_deploy mc polls now inst tok (rand_hex hm 32) key rec_at).
Proof.
  intros Hrec s r s' Hs. unfold finish_deploy. destruct (provision_persistent_ready _ _ _ _ s) as [[ip|e|] s1] eqn:E;
    apply (obeys_ready polls no_new_hidden) in E; apply (recorded_step _ _ _ E) in Hs.
  - unfold mbind at 1. rewrite save_run by apply Hs. eapply (leads_rec (inst_id inst)); [obey|].
    apply save_recorded; [apply Hs|done|]. destruct Hs as [[Hs Ha] (rc & Hr & Hi)]. intros x tags Hx.
    destruct (Ha _ _ Hx) as [?|[?|(r' & Hr' & Hi')]]; [auto..|]. right. right. congruence.
  - unfold mbind. destruct (cleanup_failed_persistent _ s1) as [[u|e'|] s2] eqn:E2; intros [= <- <-]; by eapply cleanup_leads.
  - intros [= <- <-]. apply Hs.
Qed.

Lemma leads_load {A} (k : option PersistentVpnRecord -> M A) :
  (forall r, leads (recorded (rec_id r)) (fun s => k (Some r) s)) -> leads no_record (k None) ->
  leads (accounted_for P) (mbind load_persistent_record k).
Proof.
  intros H1 H2 s r s' Ha. unfold mbind, load_persistent_record, gets. destruct (record s) as [rc|] eqn:Er; intros E.
  - apply (H1 rc) in E; [done|]. split; [done|by exists rc].
  - apply H2 in E; [done|]. by split.
Qed.

(** Making the node and recording it, from a device with no record. *)
Lemma create_leads now spec tok hm key (rec_for : Instance_t -> text -> PersistentVpnRecord) :
  (forall inst ip, rec_id (rec_for inst ip) = inst_id inst) ->
  leads no_record (let! made := on (create spec) in
    match made with
    | inr e => let! _ := persist_wg_key_del in err (told e)
    | inl inst => record_and_finish mc polls now inst tok (rand_hex hm 32) key (rec_for inst)
    end).
Proof.
  intros Hk s r s' Hs. unfold mbind at 1, on. destruct (create spec (world s)) as [o w] eqn:E.
  destruct Hs as [[[Hf Hok] Ha] Hr]. destruct (create_spec _ _ _ _ Hok E) as [Hok' Hn]. destruct o as [inst|e|]; [| |done].
  - unfold record_and_finish, mbind at 1. rewrite save_run by done. cbn [negb].
    apply deploy_tail_leads; [done|]. apply save_recorded; [done|done|]. cbn. destruct Hn as [_ Hn]. intros x tags. rewrite Hn.
    case_decide; [auto|]. intros Hx. destruct (Ha _ _ Hx) as [?|[?|(rc & Hrc & _)]]; [auto..|congruence].
  - intros H. eapply leads_none; [|exact (conj (conj (conj Hf Hok' : sound (set_world w s)) (fun x tags Hx => Ha x tags (eq_trans (eq_sym (Hn x)) Hx))) Hr)|exact H]. obey.
Qed.

Lemma deploy_leads now sec region ty : leads (accounted_for P) (persistent_deploy_impl mc polls now sec region ty).
Proof.
  unfold persistent_deploy_impl. apply leads_exclusive; [intros s s' H Ha; by eapply accounted_step|done|].
  apply leads_load; [intros r; apply leads_rec; intros s o s' [= <- <-]; reflexivity|].
  apply leads_none_bind; [obey|]. intros _. apply leads_none_bind; [obey|]. intros _. apply leads_none_bind; [obey|]. intros _.
  apply leads_none_bind; [obey|]. intros _. apply leads_none_bind; [obey|]. intros _. cbv zeta.
  apply leads_none_bind; [obey|]. intros ci. apply leads_none_bind; [obey|]. intros _. apply leads_none_bind; [obey|]. intros _.
  by apply (create_leads now _ _ _ _ (fun inst ip => MkRecord (inst_id inst) ip ty region now _ (lit "10.66.0.2") 51820)).
Qed.

Lemma destroy_leads : leads (accounted_for P) (persistent_destroy_impl mc).
Proof.
  unfold persistent_destroy_impl. apply leads_exclusive; [intros s s' H Ha; by eapply accounted_step|done|].
  apply leads_bind; [intros s s' H Ha; by eapply accounted_step|done|obey|]. intros mine.
  apply leads_bind; [intros s s' H Ha; by eapply accounted_step|done|obey|]. intros _.
  apply leads_load; [|apply leads_none; obey]. intros rc. apply leads_rec_bind; [unfold get_token; obey|]. intros [k|]; [|apply leads_rec; obey].
  intros s r s' Hs. unfold mbind, on. destruct (delete (rec_id rc) (world s)) as [o w] eqn:E.
  destruct (delete_recorded _ _ _ _ Hs E) as [Hs' Hn]. destruct o as [u|e|].
  - by apply forget_accounted with (rec_id rc).
  - destruct (gone_404 e); [apply forget_accounted with (rec_id rc); [done|by apply Hn]|intros [= <- <-]; apply Hs'].
  - intros [= <- <-]. apply Hs'.
Qed.

Lemma import_leads b : leads (accounted_for P) (persistent_sync_import b).
Proof.
  unfold persistent_sync_import. apply leads_load; [intros r; apply leads_rec; obey|]. destruct b as [[r key]|]; [|apply leads_none; obey].
  case_bool_decide; [apply leads_none; obey|]. intros s o s' [[Hs Ha] Hr]. unfold mbind at 1. rewrite save_run by apply Hs.
  eapply (leads_rec (rec_id r)); [obey|]. apply save_recorded; [done|done|]. intros x tags Hx.
  destruct (Ha _ _ Hx) as [?|[?|(rc & Hrc & _)]]; [auto..|congruence].
Qed.

Lemma cmd_accounted c s r s' : accounted_for P s -> run_cmd c s = (r, s') -> accounted_for P s'.
Proof.
  destruct (ordinary c) eqn:Ec.
  - intros Ha E. eapply accounted_step; [|exact Ha]. by eapply hidden_ordinary.
  - destruct c; try discriminate; [apply deploy_leads|apply destroy_leads|apply import_leads].
Qed.

Definition step (s s' : t S) : Prop := exists c r, run_cmd c s = (r, s').
End commands.

Section manager.
Context {S : Type} {C : CloudProvider S} {L : CloudLaws S} {Wc : WgController S} {K : WgCounters S} {F : ServerPubkeyFetcher S}.
Context {FL : FrameLaws S} {PL : PowerLaws S} {T : Templates} {B : Base64} {X : Wg.X25519} {H4 : Honest404}.
Context (mc : Machine) (polls : nat).

(** C11: no paid node is ever hidden, as long as files and keychain can be written and the provider keeps
    its promises, among them that an error whose text has a 404 in it means the node is gone: then,
    whatever commands follow each other and however else they end, every node that exists is one of
    another service, carries the tag by which the node list shows it and the sweep destroys it, or is
    the always-on node on record; in particular a node that failed to come up is not forgotten when
    the provider refuses to delete it. Without these conditions see [deploy_can_hide_node] and
    [destroy_misreads_404]. *)
Theorem no_hidden_node (P : text -> Prop) (s s' : t S) :
  accounted_for P s -> rtc (step mc polls) s s' -> accounted_for P s'.
Proof. intros Ha. induction 1 as [|a b c (cmd & r & E) _ IH]; [done|]. apply IH. by eapply cmd_accounted. Qed.
End manager.

(** ** The kill switch and the kept nodes *)

Section killswitch.
Context {S : Type} {C : CloudProvider S} {L : CloudLaws S} {Wc : WgController S} {K : WgCounters S} {F : ServerPubkeyFetcher S}.
Context {FL : FrameLaws S} {PL : PowerLaws S} {T : Templates} {B : Base64} {X : Wg.X25519}.
Context (mc : Machine) (polls : nat).

(** Same tunnel, same rules, same kept nodes. *)
Definition same_core (s s' : t S) : Prop :=
  sound s -> sound s' /\ vpn s' = vpn s /\ rules s' = rules s /\ kept_file s' = kept_file s.

#[local] Instance same_core_calm : Calm same_core.
Proof.
  split; try (intros; intros Hs; by split_and!; auto).
  - split; [intros s Hs; split_and!; auto|]. intros a b c H1 H2 Ha. destruct (H1 Ha) as (Hb & V1 & R1 & K1). destruct (H2 Hb) as (Hc & V2 & R2 & K2).
    split_and!; try congruence; done.
  - intros w s Hw [Hf Hok]. destruct (Hw Hok) as [Hok' Hn]. by split_and!.
Qed.
#[local] Hint Resolve same_core_calm : mgr.

Definition kept_few (s : t S) : Prop := (size (default ∅ (kept_file s)) <= MAX_KEPT_NODES)%nat.
(** No rule without a tunnel, none at all off Windows, and at most five kept nodes. *)
Definition guarded (s : t S) : Prop :=
  sound s /\ (vpn s = None \/ windows mc = false -> rules s = []) /\ kept_few s.
(** No rule at all. *)
Definition open_net (s : t S) : Prop := sound s /\ rules s = [] /\ kept_few s.

(** Rules off Windows aside, nothing is said of them. *)
Definition loose (s : t S) : Prop := sound s /\ (windows mc = false -> rules s = []) /\ kept_few s.
Definition idle (s : t S) : Prop := guarded s /\ vpn s = None.
(** With a place left among the kept nodes. *)
Definition room (Q : t S -> Prop) (s : t S) : Prop := Q s /\ (size (default ∅ (kept_file s)) < MAX_KEPT_NODES)%nat.

Lemma open_guarded s : open_net s -> guarded s.
Proof. intros (? & ? & ?). by split_and!. Qed.
Lemma guarded_loose s : guarded s -> loose s.
Proof. intros (? & Hr & ?). split_and!; auto. Qed.

(** Predicates that only look at what [same_core] keeps. *)
Definition stable (Q : t S -> Prop) : Prop := forall s s', same_core s s' -> Q s -> Q s'.
Lemma guarded_stable : stable guarded.
Proof. intros s s' H (Hs & Hr & Hk). destruct (H Hs) as (Hs' & V & R & E). unfold guarded, kept_few. rewrite V, R, E. by split_and!. Qed.
Lemma open_stable : stable open_net.
Proof. intros s s' H (Hs & Hr & Hk). destruct (H Hs) as (Hs' & V & R & E). unfold open_net, kept_few. rewrite R, E. by split_and!. Qed.
Lemma loose_stable : stable loose.
Proof. intros s s' H (Hs & Hr & Hk). destruct (H Hs) as (Hs' & V & R & E). unfold loose, kept_few. rewrite R, E. by split_and!. Qed.
Lemma idle_stable : stable idle.
Proof. intros s s' H [Hg Hv]. split; [by eapply guarded_stable|]. destruct Hg as (Hs & _). by destruct (H Hs) as (_ & -> & _). Qed.
Lemma room_stable Q : (forall s, Q s -> sound s) -> stable Q -> stable (room Q).
Proof. intros Hq HQ s s' H [Hs Hr]. split; [by eapply HQ|]. destruct (H (Hq _ Hs)) as (_ & _ & _ & ->). done. Qed.

(** [m] leads from [Q] to [Q']. *)
Definition moves (Q Q' : t S -> Prop) {A} (m : M (S := S) A) : Prop := forall s r s', Q s -> m s = (r, s') -> Q' s'.

Lemma moves_bind (Q Q1 Q' : t S -> Prop) {A A'} (m : M A) (k : A -> M A') :
  (forall s, Q1 s -> Q' s) -> moves Q Q1 m -> (forall a, moves Q1 Q' (k a)) -> moves Q Q' (mbind m k).
Proof.
  intros H1 Hm Hk s r s' Hs E. unfold mbind in E. destruct (m s) as [[a|e|] s1] eqn:E1; apply (Hm _ _ _ Hs) in E1.
  - by eapply Hk.
  - injection E as <- <-. auto.
  - injection E as <- <-. auto.
Qed.
Lemma moves_core Q {A} (m : M A) : stable Q -> obeys same_core m -> moves Q Q m.
Proof. intros HQ Hm s r s' Hs E. eapply HQ; [|exact Hs]. by eapply Hm. Qed.
Lemma moves_weaken (Q Q' Q1 Q1' : t S -> Prop) {A} (m : M A) :
  (forall s, Q1 s -> Q s) -> (forall s, Q' s -> Q1' s) -> moves Q Q' m -> moves Q1 Q1' m.
Proof. intros H1 H2 Hm s r s' Hs E. eauto. Qed.
Lemma moves_step Q {A A'} (m : M A) (k : A -> M A') : stable Q -> (forall s, Q s -> guarded s) ->
  obeys same_core m -> (forall a, moves Q guarded (k a)) -> moves Q guarded (mbind m k).
Proof. intros HQ Hg Hm Hk. eapply moves_bind; [exact Hg|by apply moves_core|done]. Qed.
Lemma moves_exclusive Q {A} msg (m : M A) : stable Q -> (forall s, Q s -> guarded s) -> moves Q guarded m -> moves Q guarded (exclusive msg m).
Proof.
  intros HQ Hg Hm s r s' Hs. unfold exclusive. destruct (connecting s); [intros [= <- <-]; auto|].
  destruct (m (set_connecting true s)) as [r1 s1] eqn:E. intros [= <- <-].
  eapply guarded_stable; [apply (calm_connecting (R := same_core) false)|]. eapply Hm; [|exact E].
  eapply HQ; [apply (calm_connecting (R := same_core) true)|done].
Qed.
Lemma moves_idle {A} msg (k : unit -> M A) : moves idle guarded (k tt) -> moves guarded guarded (mbind (idle_only msg) k).
Proof.
  intros Hk s r s' Hs. unfold mbind, idle_only. destruct (vpn s) eqn:Ev; [by intros [= <- <-]|]. apply Hk. by split.
Qed.

(** Clearing leaves no rule, since off Windows there was none. *)
Lemma moves_clear : moves loose open_net (killswitch_clear_all mc).
Proof.
  intros s r s' (Hs & Hr & Hk). unfold killswitch_clear_all. destruct (windows mc) eqn:Ew; [|intros [= <- <-]; split_and!; auto].
  destruct Hs as [Hf Hok]. unfold mbind, fate. rewrite Hf. cbn. rewrite Hf. intros [= <- <-]. by split.
Qed.

(** With an obedient system, engaging sets rules and nothing else. *)
Lemma netsh_run r (s : t S) : faults s = [] -> netsh_add r s = (Ok tt, set_rules (rules s ++ [r]) s).
Proof. intros Hf. unfold netsh_add, mbind, fate. by rewrite Hf. Qed.
Lemma clear_rules (s : t S) : faults s = [] -> exists rs, killswitch_clear_all mc s = (Ok tt, set_rules rs s).
Proof.
  intros Hf. unfold killswitch_clear_all. destruct (windows mc); [exists []|exists (rules s); by destruct s].
  unfold mbind, fate. rewrite Hf. cbn. by rewrite Hf.
Qed.
Lemma engage_run ip (s : t S) : sound s -> exists rs, killswitch_engage mc ip s = (Ok tt, set_rules rs s).
Proof.
  intros [Hf Hok]. unfold killswitch_engage. destruct (clear_rules s Hf) as [rs Hc]. unfold mbind at 1. rewrite Hc. unfold mbind at 1.
  rewrite netsh_run by done. unfold mbind at 1. rewrite netsh_run by done.
  case_bool_decide; unfold mbind at 1; [cbn [ret]|rewrite netsh_run by done]; unfold mbind;
    rewrite netsh_run by done; rewrite netsh_run by done; eexists; reflexivity.
Qed.
Lemma arm_run ip (s : t S) : guarded s -> exists rs, arm mc ip s = (Ok tt, set_rules rs s) /\ (windows mc = false -> rs = []).
Proof.
  intros (Hs & Hr & _). unfold arm, mbind, killswitch_enabled, gets. destruct (default false _); [|exists (rules s); split; [by destruct s|auto]].
  unfold killswitch_engage_for. destruct (windows mc) eqn:Ew; [|exists (rules s); split; [by destruct s|auto]].
  destruct (engage_run ip s Hs) as [rs ->]. by exists rs.
Qed.
(** Arming is followed by the tunnel being noted. *)
Lemma moves_note v : moves loose guarded (modify (set_vpn (Some v))).
Proof. intros s r s' (Hs & Hr & Hk) [= <- <-]. split_and!; [done| |done]. cbn. intros [?|?]; [done|auto]. Qed.
Lemma moves_arm ip : moves guarded loose (arm mc ip).
Proof.
  intros s r s' Hs E. destruct (arm_run ip s Hs) as (rs & E' & Hw). rewrite E' in E. injection E as <- <-.
  destruct Hs as (Hs & _ & Hk). by split_and!.
Qed.
Lemma open_take : moves open_net open_net take_vpn.
Proof. intros s r s' (? & ? & ?) [= <- <-]. by split_and!. Qed.
Lemma open_set_vpn v : moves open_net open_net (modify (set_vpn v)).
Proof. intros s r s' (? & ? & ?) [= <- <-]. by split_and!. Qed.
Lemma write_kept_run ids (s : t S) : faults s = [] -> write_kept ids s = (Ok tt, set_kept (Some ids) s).
Proof. intros Hf. unfold write_kept, mbind, fate. by rewrite Hf. Qed.
Lemma guarded_kept ids s : (size ids <= MAX_KEPT_NODES)%nat -> guarded s -> guarded (set_kept (Some ids) s).
Proof. intros Hi (? & ? & ?). by split_and!. Qed.
Lemma moves_kept_add id : moves (room guarded) guarded (kept_add id).
Proof.
  intros s r s' [Hg Hr]. unfold kept_add, mbind, kept_ids, gets. rewrite write_kept_run by apply Hg. intros [= <- <-].
  apply guarded_kept; [|done]. pose proof (size_union_alt {[id]} (default ∅ (kept_file s) : gset text)) as Hu.
  rewrite size_singleton in Hu. pose proof (subseteq_size (default ∅ (kept_file s) ∖ {[id]}) (default ∅ (kept_file s)) ltac:(set_solver)). lia.
Qed.
Lemma moves_kept_remove id : moves guarded guarded (kept_remove id).
Proof.
  intros s r s' Hg. unfold kept_remove, mbind, kept_ids, gets. rewrite write_kept_run by apply Hg. intros [= <- <-].
  apply guarded_kept; [|done]. destruct Hg as (_ & _ & Hk). unfold kept_few in Hk. etrans; [|exact Hk]. apply subseteq_size. set_solver.
Qed.

(** Likewise, and [m] does not fail. *)
Definition runs (Q Q' : t S -> Prop) {A} (m : M (S := S) A) : Prop := forall s r s', Q s -> m s = (r, s') -> Q' s' /\ is_ok r = true.
Lemma moves_then (Q Q1 Q' : t S -> Prop) {A A'} (m : M A) (k : A -> M A') : runs Q Q1 m -> (forall a, moves Q1 Q' (k a)) -> moves Q Q' (mbind m k).
Proof.
  intros Hm Hk s r s' Hs E. unfold mbind in E. destruct (m s) as [o s1] eqn:E1. destruct (Hm _ _ _ Hs E1) as [H1 Ho].
  destruct o; [by eapply Hk|done..].
Qed.
Lemma runs_modify (Q Q' : t S -> Prop) f : (forall s, Q s -> Q' (f s)) -> runs Q Q' (modify f).
Proof. intros Hf s r s' Hs [= <- <-]. auto. Qed.
Lemma runs_clear : runs loose open_net (killswitch_clear_all mc).
Proof.
  intros s r s' Hs E. split; [by eapply moves_clear|]. destruct Hs as ([Hf _] & _). destruct (clear_rules s Hf) as [rs E']. rewrite E' in E. by injection E as <- <-.
Qed.
Lemma runs_arm ip : runs guarded loose (arm mc ip).
Proof. intros s r s' Hs E. split; [by eapply moves_arm|]. destruct (arm_run ip s Hs) as (rs & E' & _). rewrite E' in E. by injection E as <- <-. Qed.
Lemma runs_down : runs loose loose (ignore down).
Proof.
  intros s r s' Hs E. assert (Hm : obeys same_core (ignore (S := S) down)) by obey. split; [eapply loose_stable; [by eapply Hm|done]|].
  unfold ignore, mbind, on in E. destruct Hs as ([_ Hok] & _). destruct (down (world s)) as [[u|e|] w] eqn:Ed;
    [by injection E as <- <-|by injection E as <- <-|]. by destruct (down_frame _ _ _ Hok Ed) as (_ & _ & ?).
Qed.
Lemma loose_set_vpn v s : loose s -> loose (set_vpn v s).
Proof. intros (? & ? & ?). by split_and!. Qed.

Lemma idle_guarded s : idle s -> guarded s.
Proof. by intros [? _]. Qed.
Lemma open_loose s : open_net s -> loose s.
Proof. intros ?%open_guarded. by apply guarded_loose. Qed.
#[local] Hint Resolve guarded_stable idle_stable open_stable idle_guarded open_guarded guarded_loose open_loose : mgr.

(** A step that changes nothing of the core; the last one. *)
Ltac stay Q := eapply (moves_step Q); [by eauto with mgr..|obey|intros ?].
Ltac stop Q := eapply (moves_weaken Q Q); [by eauto with mgr..|apply moves_core; [by eauto with mgr|obey]].

Lemma moves_armed ip v : moves guarded guarded (let! _ := arm mc ip in modify (set_vpn (Some v))).
Proof. eapply moves_then; [apply runs_arm|intros _; apply moves_note]. Qed.
Lemma moves_clear_err {A} (e : text) : moves guarded guarded (let! _ := killswitch_clear_all mc in err (A := A) e).
Proof.
  eapply (moves_weaken loose guarded); [exact guarded_loose|by intros s Hs; exact Hs|].
  eapply moves_then; [apply runs_clear|]. intros _. stop open_net.
Qed.

Lemma guarded_connect now sec region ty : moves guarded guarded (connect_real mc polls now sec region ty).
Proof.
  unfold connect_real. apply moves_exclusive; [exact guarded_stable|done|]. apply moves_idle.
  stay idle. stay idle. stay idle. stay idle. stay idle. eapply moves_weaken; [exact idle_guarded|by intros s Hs; exact Hs|].
  destruct a3 as [conn|e]; [|apply moves_clear_err].
  destruct (ipv4 (Session.instance conn)) as [ip|]; [apply moves_armed|].
  eapply moves_weaken; [exact guarded_loose|by intros s Hs; exact Hs|apply moves_note].
Qed.

Lemma guarded_multihop now sec regions ty : moves guarded guarded (multihop_run mc polls now sec regions ty).
Proof.
  unfold multihop_run. destruct (negb _); [|stop guarded]. destruct (negb _); [|stop guarded].
  apply moves_exclusive; [exact guarded_stable|done|]. apply moves_idle. eapply moves_weaken; [exact idle_guarded|by intros s Hs; exact Hs|].
  stay guarded. stay guarded. stay guarded. cbv zeta. stay guarded. stay guarded. destruct a3 as [created ips].
  stay guarded. stay guarded. stay guarded. stay guarded. destruct a6 as [u|e].
  - eapply moves_then; [apply runs_arm|]. intros _. eapply (moves_bind loose guarded guarded); [done|apply moves_note|]. intros _. stop guarded.
  - eapply (moves_weaken loose guarded); [exact guarded_loose|by intros s Hs; exact Hs|].
    eapply moves_then; [apply runs_clear|]. intros _. stop open_net.
Qed.

Lemma core_record v s : same_core s (set_record v s).
Proof. intros Hs. split_and!; auto. Qed.
#[local] Hint Resolve core_record : mgr.
Lemma core_save r : obeys same_core (save_persistent_record r).
Proof. unfold save_persistent_record. obey. Qed.
Lemma core_forget : obeys same_core forget_record.
Proof. unfold forget_record, delete_persistent_record. obey. Qed.
#[local] Hint Resolve core_save core_forget : mgr.
Lemma core_cleanup id : obeys same_core (cleanup_failed_persistent id).
Proof. unfold cleanup_failed_persistent. obey. Qed.
#[local] Hint Resolve core_cleanup : mgr.

Lemma guarded_set_active now r : moves guarded guarded (set_persistent_active mc now r).
Proof.
  unfold set_persistent_active. eapply moves_then; [apply runs_arm|]. intros _.
  eapply (moves_bind loose guarded guarded); [done|apply moves_note|]. intros _. stop guarded.
Qed.
Lemma guarded_finish now inst tok hm key rec_at : moves guarded guarded (finish_deploy mc polls now inst tok (rand_hex hm 32) key rec_at).
Proof.
  intros s r s' Hs. unfold finish_deploy. destruct (provision_persistent_ready _ _ _ _ s) as [[ip|e|] s1] eqn:E;
    apply (obeys_ready polls same_core) in E; apply (guarded_stable _ _ E) in Hs; [| |by intros [= <- <-]].
  - revert s1 E r s' Hs. intros s1 _ r s' Hs. apply (fun H => H : moves guarded guarded _); [|done].
    stay guarded. stay guarded. stay guarded. stay guarded. eapply (moves_bind guarded guarded guarded); [done|apply guarded_set_active|].
    intros _. stop guarded.
  - apply (fun H => H : moves guarded guarded _); [|done]. stop guarded.
Qed.
Lemma guarded_create spec : moves guarded guarded (on (create spec)).
Proof.
  intros s r s' ((Hf & Hok) & Hr & Hk). unfold on. destruct (create spec (world s)) as [o w] eqn:E.
  destruct (create_spec _ _ _ _ Hok E) as [Hok' Hn]. destruct o; [| |done]; intros [= <- <-]; by split_and!.
Qed.
Lemma guarded_deploy now sec region ty : moves guarded guarded (persistent_deploy_impl mc polls now sec region ty).
Proof.
  unfold persistent_deploy_impl. apply moves_exclusive; [exact guarded_stable|done|]. unfold load_persistent_record. stay guarded.
  stay guarded. stay guarded. stay guarded. stay guarded. stay guarded. cbv zeta. stay guarded. stay guarded. stay guarded.
  eapply (moves_bind guarded guarded guarded); [done|apply guarded_create|]. intros [inst|e]; [|stop guarded].
  unfold record_and_finish. stay guarded. destruct (negb _); [stop guarded|]. apply guarded_finish.
Qed.

Lemma guarded_connect_always_on now : moves guarded guarded (persistent_connect_impl mc polls now).
Proof.
  unfold persistent_connect_impl, load_persistent_record, persist_wg_key_load. apply moves_exclusive; [exact guarded_stable|done|].
  do 12 stay guarded. apply guarded_set_active.
Qed.

(** Taking the tunnel away and clearing the rules. *)
Lemma guarded_destroy : moves guarded guarded (persistent_destroy_impl mc).
Proof.
  unfold persistent_destroy_impl. apply moves_exclusive; [exact guarded_stable|done|]. stay guarded.
  eapply (moves_bind guarded guarded guarded); [done| |intros _; unfold load_persistent_record, get_token; stop guarded].
  destruct a; [|stop guarded]. eapply (moves_weaken loose guarded); [exact guarded_loose|by intros s Hs; exact Hs|].
  eapply moves_then; [by apply runs_modify, loose_set_vpn|]. intros _. eapply moves_then; [apply runs_down|]. intros _.
  eapply moves_weaken; [by intros s Hs; exact Hs|exact open_guarded|apply moves_clear].
Qed.

Lemma guarded_clear_then {A} (k : M A) : moves open_net guarded k -> moves guarded guarded (let! _ := killswitch_clear_all mc in k).
Proof.
  intros Hk. eapply (moves_weaken loose guarded); [exact guarded_loose|by intros s Hs; exact Hs|].
  eapply moves_then; [apply runs_clear|]. by intros _.
Qed.

Lemma guarded_disconnect now ended : moves guarded guarded (vpn_disconnect mc now ended).
Proof.
  unfold vpn_disconnect. stay guarded. apply guarded_clear_then. eapply (moves_bind open_net open_net guarded); [exact open_guarded|apply open_take|].
  intros [v|]; [|stop open_net]. stop open_net.
Qed.

Lemma guarded_keep now ended : moves guarded guarded (vpn_disconnect_keep mc now ended).
Proof.
  unfold vpn_disconnect_keep. stay guarded. apply guarded_clear_then. eapply (moves_bind open_net open_net guarded); [exact open_guarded|apply open_take|].
  intros [v|]; [|stop open_net].
  destruct (1 <? _)%nat; [eapply (moves_bind open_net open_net guarded); [exact open_guarded|apply open_set_vpn|]; intros _; stop open_net|].
  intros s r s' Hs. unfold mbind at 1, kept_ids, gets. destruct (Nat.leb_spec MAX_KEPT_NODES (size (default ∅ (kept_file s)))) as [_|Hlt].
  - revert s r s' Hs. change (moves open_net guarded (let! _ := modify (set_vpn (Some v)) in
      err (A := unit) (lit "already keeping 5 nodes " ++ [8212] ++ lit " destroy one first (each kept node keeps billing)"))).
    eapply (moves_bind open_net open_net guarded); [exact open_guarded|apply open_set_vpn|]. intros _. stop open_net.
  - assert (Hr : room guarded s) by (split; [by apply open_guarded|done]). clear Hs Hlt. revert s r s' Hr.
    assert (HQ : stable (room guarded)) by (apply room_stable; [by intros s (? & _)|exact guarded_stable]).
    assert (Hg : forall s, room guarded s -> guarded s) by (by intros s [? _]).
    intros s r s' Hr. apply (fun H => H : moves (room guarded) guarded _); [|done].
    eapply (moves_step (room guarded)); [done..|obey|intros last]. eapply (moves_step (room guarded)); [done..|obey|intros _].
    eapply (moves_step (room guarded)); [done..|obey|intros power].
    eapply (moves_bind (room guarded) guarded guarded); [done|apply moves_kept_add|intros _]. stop guarded.
Qed.

Lemma guarded_node_action id action : moves guarded guarded (vpn_node_action mc id action).
Proof.
  unfold vpn_node_action. stay guarded. stay guarded. eapply (moves_bind guarded guarded guarded); [done| |intros _].
  { destruct a0; [|stop guarded]. eapply (moves_weaken loose guarded); [exact guarded_loose|by intros s Hs; exact Hs|].
    eapply moves_then; [by apply runs_modify, loose_set_vpn|]. intros _. eapply moves_then; [apply runs_clear|]. intros _. stop open_net. }
  case_bool_decide; [stop guarded|]. case_bool_decide; [stop guarded|]. case_bool_decide; [|case_bool_decide; [|stop guarded]].
  - stay guarded. destruct a1 as [u|e]; [|stop guarded]. intros s r s' Hs. unfold mbind, kept_ids, gets.
    destruct (Nat.ltb_spec (size (default ∅ (kept_file s))) MAX_KEPT_NODES); [by apply moves_kept_add|]. by intros [= <- <-].
  - stay guarded. eapply (moves_bind guarded guarded guarded); [done|apply moves_kept_remove|]. intros _. stop guarded.
Qed.

Lemma guarded_destroy_all : moves guarded guarded (vpn_nodes_destroy_all mc).
Proof.
  unfold vpn_nodes_destroy_all. stay guarded. apply guarded_clear_then.
  eapply (moves_bind open_net open_net guarded); [exact open_guarded|apply open_take|]. intros active. stay open_net. stay open_net.
  eapply (moves_weaken guarded guarded); [exact open_guarded|done|]. eapply (moves_bind guarded guarded guarded); [done| |intros _; stop guarded].
  intros s r s' Hg. rewrite write_kept_run by apply Hg. intros [= <- <-]. apply guarded_kept; [|done]. rewrite size_empty. unfold MAX_KEPT_NODES. lia.
Qed.

Lemma guarded_silently m : moves guarded guarded m -> moves guarded guarded (silently m).
Proof. intros Hm s r s' Hs. unfold silently. destruct (m s) as [[u|e|] s1] eqn:E; intros [= <- <-]; by eapply Hm. Qed.

Lemma guarded_tick now ssid sec : moves guarded guarded (autoconnect_tick mc polls now ssid sec).
Proof.
  unfold autoconnect_tick, read_net_settings, settings_or_empty, get_token, load_persistent_record.
  stay guarded. stay guarded. stay guarded. stay guarded. stay guarded.
  destruct (negb _); [stop guarded|]. destruct a0; [|stop guarded]. destruct a1; [stop guarded|]. destruct (_ && _); [stop guarded|].
  destruct ssid as [name|]; [|stop guarded]. destruct (ssid_is_trusted _ _); [stop guarded|].
  destruct a3; apply guarded_silently; [apply guarded_connect_always_on|apply guarded_connect].
Qed.

Lemma cmd_guarded c : moves guarded guarded (run_cmd mc polls c).
Proof.
  destruct c; cbn [run_cmd].
  - apply guarded_connect.
  - apply guarded_multihop.
  - apply guarded_deploy.
  - apply guarded_connect_always_on.
  - apply guarded_destroy.
  - apply guarded_disconnect.
  - apply guarded_keep.
  - apply guarded_node_action.
  - eapply (moves_bind guarded guarded guarded); [done|apply guarded_destroy_all|]. intros ?. stop guarded.
  - apply guarded_tick.
  - unfold sweep_on_launch, get_token. stop guarded.
  - eapply moves_weaken; [exact guarded_loose|exact open_guarded|apply moves_clear].
  - unfold vpn_repair_tunnel. stay guarded. eapply moves_weaken; [exact guarded_loose|exact open_guarded|apply moves_clear].
  - unfold set_token. stop guarded.
  - unfold net_set, settings_or_empty. stop guarded.
  - unfold persistent_sync_import, load_persistent_record. stop guarded.
Qed.

Lemma steps_guarded s s' : guarded s -> rtc (step mc polls) s s' -> guarded s'.
Proof. intros Hg. induction 1 as [|a b c (cmd & r & E) _ IH]; [done|]. apply IH. by eapply cmd_guarded. Qed.

(** C12: no command forgets the kill switch, and kept nodes are bounded. From a machine without blocking
    rules and with at most five kept nodes, with a firewall that does what it is told and files that can
    be written, whatever commands follow each other and however they end: whenever no tunnel is noted
    there is no rule that blocks traffic, and at most five nodes are kept. *)
Theorem killswitch_never_strands (s s' : t S) :
  sound s -> rules s = [] -> (size (default ∅ (kept_file s)) <= MAX_KEPT_NODES)%nat -> rtc (step mc polls) s s' ->
  (vpn s' = None -> rules s' = []) /\ (size (default ∅ (kept_file s')) <= MAX_KEPT_NODES)%nat.
Proof.
  intros Hs Hr Hk Hst. destruct (steps_guarded s s') as (_ & H1 & H2); [by split_and!|done|]. split; [auto|exact H2].
Qed.
End killswitch.

(** ** Chains *)

Section chains.
Context {S : Type} {C : CloudProvider S} {L : CloudLaws S} {Wc : WgController S} {K : WgCounters S} {F : ServerPubkeyFetcher S}.
Context {FL : FrameLaws S} {PL : PowerLaws S} {T : Templates} {B : Base64} {X : Wg.X25519}.
Context (mc : Machine) (polls : nat).

(** The provider carries out every deletion. *)
Definition deletes_honoured : Prop := forall id w, cloud_ok w -> fst (delete id w) = Ok tt.

(** The nodes are those of [w0] and the hops made so far. *)
Definition built (w0 : S) (created : list text) (w : S) : Prop :=
  cloud_ok w /\ NoDup created /\ (forall x, x ∈ created -> node w0 x = None)
  /\ forall x, node w x = if decide (x ∈ created) then Some [EPHEMERAL_TAG] else node w0 x.

Lemma built_same w0 ids w w' : built w0 ids w -> cloud_ok w' -> (forall x, node w' x = node w x) -> built w0 ids w'.
Proof. intros (H1 & H2 & H3 & H4) Hok Hn. split_and!; try done. intros x. by rewrite Hn. Qed.

Lemma poll_nodes n id i (s : t S) r s' : cloud_ok (world s) -> poll_running n id i s = (r, s') ->
  is_ok r = true /\ cloud_ok (world s') /\ forall x, node (world s') x = node (world s) x.
Proof.
  revert s; induction n as [|n IH]; intros s Hok; cbn [poll_running]; [by intros [= <- <-]|]. unfold mbind, on.
  destruct (get id (world s)) as [[cur|e|] w] eqn:E; destruct (get_spec _ _ _ _ Hok E) as (Hok' & Hn & Hp); [| |done].
  - case_bool_decide; [by intros [= <- <-]|]. intros (? & ? & Hn')%IH; [|done]. split_and!; try done. intros x. by rewrite Hn'.
  - intros (? & ? & Hn')%IH; [|done]. split_and!; try done. intros x. by rewrite Hn'.
Qed.

Lemma destroy_chain_nodes ids (s : t S) r s' : deletes_honoured -> cloud_ok (world s) -> destroy_chain ids s = (r, s') ->
  r = Ok tt /\ cloud_ok (world s') /\ forall x, node (world s') x = if decide (x ∈ ids) then None else node (world s) x.
Proof.
  intros Hd. revert s; induction ids as [|id ids IH]; intros s Hok; cbn [destroy_chain]; [by intros [= <- <-]|].
  unfold ignore, mbind, on. destruct (delete id (world s)) as [o w] eqn:E. pose proof (Hd id _ Hok) as Ho. rewrite E in Ho. cbn in Ho. subst o.
  destruct (delete_spec _ _ _ _ Hok E) as [Hok' Hn]. cbn [ret]. intros (-> & Hok2 & Hn2)%IH; [|done]. split_and!; try done.
  intros x. rewrite Hn2. cbn [world set_world]. rewrite Hn. repeat case_decide; set_solver.
Qed.

Lemma give_up_nodes {A} w0 ids e (s : t S) r s' : deletes_honoured -> built w0 ids (world s) -> abandon (A := A) ids e s = (r, s') ->
  r = Err e /\ cloud_ok (world s') /\ forall x, node (world s') x = node w0 x.
Proof.
  intros Hd (Hok & _ & Hnew & Hn). unfold abandon, mbind. destruct (destroy_chain ids s) as [o s1] eqn:E.
  apply destroy_chain_nodes in E as (-> & Hok1 & Hn1); [|done..]. intros [= <- <-]. split_and!; try done.
  intros x. rewrite Hn1, Hn. repeat case_decide; [|done]. by rewrite Hnew.
Qed.

Lemma make_hop_nodes sec regions ty label i d w0 ids (s : t S) r s' :
  deletes_honoured -> built w0 ids (world s) -> make_hop polls sec regions ty label i d ids s = (r, s') ->
  match r with
  | Ok hop => built w0 (ids ++ [hop.1]) (world s')
  | Err _ => cloud_ok (world s') /\ forall x, node (world s') x = node w0 x
  | Panic => False
  end.
Proof.
  intros Hd Hb. assert (Hg : forall e s r s', built w0 ids (world s) -> abandon (A := text * text) ids e s = (r, s') ->
    match r with Ok hop => built w0 (ids ++ [hop.1]) (world s') | Err _ => cloud_ok (world s') /\ forall x, node (world s') x = node w0 x | Panic => False end).
  { intros e s0 r0 s0' Hb0 H. by apply (give_up_nodes w0) in H as (-> & ? & ?). }
  unfold make_hop. destruct (CloudInit.render_base64 _) as [ud|e|] eqn:Er; [|by apply Hg|by apply render_base64_no_panic in Er].
  unfold mbind at 1, on. destruct (create _ (world s)) as [o w] eqn:E. pose proof Hb as (Hok & Hnd & Hnew & Hn).
  destruct (create_spec _ _ _ _ Hok E) as [Hok' Hc]. destruct o as [inst|e|]; [| |done].
  2:{ apply Hg. by eapply built_same. }
  destruct Hc as [Hf Hc].
  assert (Hb' : built w0 (ids ++ [inst_id inst]) w).
  { assert (Hni : inst_id inst ∉ ids) by (intros Hi; rewrite Hn, decide_True in Hf; done).
    split_and!; [done| | |].
    - apply NoDup_app. split_and!; [done| |apply NoDup_singleton]. set_solver.
    - intros x [?| ->%list_elem_of_singleton]%elem_of_app; [auto|]. rewrite Hn, decide_False in Hf; done.
    - intros x. rewrite Hc. cbn [spec_tags]. case_decide as E1; [subst; rewrite decide_True; [done|set_solver]|].
      rewrite Hn. repeat case_decide; set_solver. }
  assert (Hg' : forall e s r s', built w0 (ids ++ [inst_id inst]) (world s) -> abandon (A := text * text) (ids ++ [inst_id inst]) e s = (r, s') ->
    match r with Ok hop => built w0 (ids ++ [hop.1]) (world s') | Err _ => cloud_ok (world s') /\ forall x, node (world s') x = node w0 x | Panic => False end).
  { intros e s0 r0 s0' Hb0 H. by apply (give_up_nodes w0) in H as (-> & ? & ?). }
  unfold mbind at 1. cbn [emit_state emit_ev modify]. unfold emit_state, emit_ev, modify. unfold mbind at 1.
  destruct (poll_running polls (inst_id inst) inst _) as [o s1] eqn:Ep. apply poll_nodes in Ep as (Ho & Hok1 & Hn1); [|exact Hok'].
  cbn in Hn1. destruct o as [running|e|]; [|done..]. assert (Hb1 : built w0 (ids ++ [inst_id inst]) (world s1)) by (by eapply built_same).
  case_bool_decide; [|by apply Hg']. destruct (ipv4 running) as [ip|]; [|by apply Hg']. by intros [= <- <-].
Qed.

Lemma make_chain_nodes sec regions ty label w0 n d ids ips (s : t S) r s' :
  deletes_honoured -> built w0 ids (world s) -> make_chain polls sec regions ty label n d ids ips s = (r, s') ->
  match r with
  | Ok made => built w0 made.1 (world s') /\ length made.1 = (length ids + n)%nat /\ length made.2 = (length ips + n)%nat
  | Err _ => cloud_ok (world s') /\ forall x, node (world s') x = node w0 x
  | Panic => False
  end.
Proof.
  intros Hd. revert d ids ips s; induction n as [|n IH]; intros d ids ips s Hb; cbn [make_chain].
  - intros [= <- <-]. cbn. split_and!; [done|lia..].
  - unfold mbind. destruct (make_hop _ _ _ _ _ _ _ _ s) as [[hop|e|] s1] eqn:E; apply (make_hop_nodes _ _ _ _ _ _ w0) in E; try done;
      [|intros [= <- <-]; done].
    intros H. apply IH in H; [|done]. destruct r as [made|e|]; [|done..]. rewrite !length_app in H. cbn in H.
    destruct H as (? & ? & ?). split_and!; [done|lia..].
Qed.

(** Neither the tunnel nor the node list changes: what a refused command leaves. *)
Definition refused (s s' : t S) : Prop := vpn s' = vpn s /\ forall x tags, node (world s') x = Some tags -> node (world s) x = Some tags.
(** Nodes are only lost. *)
Definition fewer (w w' : S) : Prop := cloud_ok w' /\ forall x, node w' x = node w x \/ node w' x = None.

Lemma sweep_nodes (s : t S) r s' : cloud_ok (world s) -> sweep s = (r, s') -> r = Ok tt /\ vpn s' = vpn s /\ faults s' = faults s /\ fewer (world s) (world s').
Proof.
  intros Hok. unfold sweep, ignore, mbind, kept_ids, gets, on. cbn [fst snd].
  destruct (Sweep.orphan_sweep_keeping _ (world s)) as [o w] eqn:E.
  assert (H : o <> Panic /\ fewer (world s) w).
  { unfold Sweep.orphan_sweep_keeping, mbind in E. destruct (list_ephemeral (world s)) as [ol w1] eqn:El.
    destruct (list_spec _ _ _ Hok El) as (Hok1 & Hn1 & Hl). destruct ol as [l|e|]; [| |done].
    - destruct (sweep_loop_run _ _ _ _ _ _ Hok1 E) as (new & -> & Hok2 & _ & Hn2 & _). split; [done|]. split; [done|].
      intros x. rewrite Hn2. case_decide; [by right|left; by rewrite Hn1].
    - injection E as <- <-. split; [done|]. split; [done|]. auto. }
  destruct H as [Hp Hf]. destruct o; [| |done]; intros [= <- <-]; done.
Qed.

Lemma pure_preflight (s : t S) : exists r, preflight_vpn mc s = (r, s) /\ r <> Panic.
Proof. unfold preflight_vpn. repeat case_match; eexists; (split; [reflexivity|done]). Qed.
Lemma pure_token (s : t S) : exists r, need_token s = (r, s) /\ r <> Panic.
Proof. unfold need_token, mbind, get_token, gets. destruct (token s) as [k|]; [destruct (bool_decide _)|]; eexists; (split; [reflexivity|done]). Qed.

(** The part of a multi-hop connect after its guards. *)
Definition hop_body (now : Z) (sec : HopSecrets) (regions : list text) (itype label : text) : M (S := S) unit :=
  let! _ := emit_state Session.CreatingInstance label itype in
  let! made := make_chain polls sec regions itype label (length regions) None [] [] in
  let '(created, ips) := made in
  let entry_ip := default [] (last ips) in
  let! _ := emit_state Session.ExchangingKeys label itype in
  let! _ := emit_state Session.StartingTunnel label itype in
  let! allowed := resolve_allowed_ips in
  let! upped := on (up (entry_conf sec entry_ip allowed)) in
  match upped with
  | inr e => let! _ := killswitch_clear_all mc in abandon created (told e)
  | inl _ =>
      let! _ := arm mc entry_ip in
      let chain := reverse created in
      let entry_id := default [] (head chain) in
      let! _ := modify (set_vpn (Some (MkVpnActive entry_id chain label itype (head ips) now false))) in
      emit_state (Session.Connected entry_id (head ips)) label itype
  end.

(** A chain that stands: its nodes and no others were added. *)
Definition stands (w : S) (n : nat) (s' : t S) : Prop :=
  exists v, vpn s' = Some v /\ persistent v = false /\ length (chain v) = n /\ head (chain v) = Some (instance_id v) /\ built w (chain v) (world s').

Lemma arm_rules ip (s : t S) : faults s = [] -> cloud_ok (world s) -> exists rs, arm mc ip s = (Ok tt, set_rules rs s).
Proof.
  intros Hf Hok. unfold arm, mbind, killswitch_enabled, gets. destruct (default false _); [|exists (rules s); by destruct s].
  unfold killswitch_engage_for. destruct (windows mc); [|exists (rules s); by destruct s].
  destruct (engage_run mc ip s (conj Hf Hok)) as [rs ->]. by exists rs.
Qed.

Definition same_vpn (s s' : t S) : Prop := sound s -> sound s' /\ vpn s' = vpn s.
#[local] Instance same_vpn_calm : Calm same_vpn.
Proof.
  split; try (intros; intros Hs; by split_and!; auto).
  - split; [by intros s Hs|]. intros a b c H1 H2 Ha. destruct (H1 Ha) as [Hb V1]. destruct (H2 Hb) as [Hc V2]. split; [done|congruence].
  - intros w s Hw [Hf Hok]. destruct (Hw Hok) as [Hok' Hn]. by split_and!.
Qed.

Lemma built_reverse w0 ids w : built w0 ids w -> built w0 (reverse ids) w.
Proof.
  intros (H1 & H2 & H3 & H4). split_and!; [done|by rewrite reverse_Permutation| |]; [intros x; rewrite elem_of_reverse; auto|].
  intros x. rewrite H4. repeat case_decide; [done| | |done]; exfalso; by rewrite elem_of_reverse in *.
Qed.

Lemma hop_body_spec now sec regions itype label (s : t S) r s' :
  deletes_honoured -> sound s -> regions <> [] -> hop_body now sec regions itype label s = (r, s') ->
  match r with
  | Ok _ => stands (world s) (length regions) s'
  | Err _ => vpn s' = vpn s /\ forall x, node (world s') x = node (world s) x
  | Panic => False
  end.
Proof.
  intros Hd [Hf Hok] Hne. unfold hop_body. unfold mbind at 1. unfold emit_state at 1, emit_ev at 1, modify at 1. unfold mbind at 1.
  set (s1 := set_events _ s). assert (Hb : built (world s) [] (world s1)) by (split_and!; [done|constructor|set_solver|done]).
  destruct (make_chain _ _ _ _ _ _ _ _ _ s1) as [o s2] eqn:E.
  pose proof (obeys_make_chain polls same_vpn _ _ _ _ _ _ _ _ s1 _ _ E (conj Hf Hok)) as [[Hf2 Hok2] Hv2]. cbn in Hv2.
  apply (make_chain_nodes _ _ _ _ (world s)) in E; [|done..]. destruct o as [[created ips]|e|]; [|intros [= <- <-]; by destruct E|done].
  destruct E as (Hb2 & Hlen & _). cbn in Hb2, Hlen. unfold mbind at 1. unfold emit_state at 1, emit_ev at 1, modify at 1.
  unfold mbind at 1. unfold emit_state at 1, emit_ev at 1, modify at 1. unfold mbind at 1, resolve_allowed_ips, settings_or_empty, gets, mbind at 1, ret at 1.
  unfold mbind at 1, on. cbn [world set_events]. match goal with |- context [up ?conf (world s2)] => generalize conf; intros cf end.
  destruct (up cf (world s2)) as [o w] eqn:Eu. destruct (up_frame _ _ _ _ Hok2 Eu) as (Hok3 & Hn3 & Hp).
  pose proof (built_same _ _ _ _ Hb2 Hok3 Hn3) as Hb3. destruct o as [u|e|]; [| |done].
  - unfold mbind at 1. match goal with |- context [arm mc ?ip ?st] => destruct (arm_rules ip st Hf2 Hok3) as [rs ->] end.
    unfold mbind, modify, emit_state, emit_ev. intros [= <- <-]. eexists. split_and!; [reflexivity|done|by cbn; rewrite length_reverse| |].
    + cbn. destruct created as [|c0 created _] using rev_ind; [by destruct regions|]. by rewrite reverse_snoc.
    + by apply built_reverse.
  - unfold mbind at 1. match goal with |- context [killswitch_clear_all mc ?st] => destruct (clear_rules mc st Hf2) as [rs ->] end.
    match goal with |- abandon _ _ ?st = _ -> _ => intros H; pose proof (obeys_give_up same_vpn _ _ st _ _ H (conj Hf2 Hok3)) as [_ Hv] end.
    apply (give_up_nodes (world s)) in H as (-> & _ & Hn); [|done..]. split; [by rewrite Hv|done].
Qed.

(** A multi-hop connect stands whole or not at all. With a provider that carries out deletions, a
    connect over two or three regions that succeeds has added exactly one new ephemeral node per
    region and notes all of them, entry first, so that disconnecting can destroy them; one that fails,
    at whatever hop and stage, leaves the tunnel as it was and not one node more than before. *)
Theorem multihop_all_or_nothing now sec regions ty (s s' : t S) r :
  sound s -> deletes_honoured -> multihop_run mc polls now sec regions ty s = (r, s') ->
  match r with
  | Ok _ => exists w, fewer (world s) w /\ stands w (length regions) s' /\ (2 <= length regions <= MAX_HOPS)%nat
  | Err _ => refused s s'
  | Panic => False
  end.
Proof.
  intros [Hf Hok] Hd. assert (Hr0 : forall s' : t S, vpn s' = vpn s -> world s' = world s -> refused s s') by (intros ? E1 E2; split; [done|by rewrite E2]).
  unfold multihop_run. destruct (Nat.ltb_spec (length regions) 2) as [|H2]; cbn [negb]; [intros [= <- <-]; by apply Hr0|].
  destruct (Nat.ltb_spec MAX_HOPS (length regions)) as [|H3]; cbn [negb]; [intros [= <- <-]; by apply Hr0|].
  unfold exclusive. destruct (connecting s); [intros [= <- <-]; by apply Hr0|]. set (s1 := set_connecting true s).
  unfold mbind at 1, idle_only. destruct (vpn s1) eqn:Ev; [intros [= <- <-]; by apply Hr0|].
  unfold mbind at 1. destruct (pure_preflight s1) as (r1 & -> & Hp1). destruct r1; [|intros [= <- <-]; by apply Hr0|done].
  unfold mbind at 1. destruct (pure_token s1) as (r2 & -> & Hp2). destruct r2; [|intros [= <- <-]; by apply Hr0|done].
  unfold mbind at 1. destruct (sweep s1) as [o s2] eqn:Es. apply sweep_nodes in Es as (-> & Hv2 & Hf2 & Hw2); [|done].
  match goal with |- (let '(_, _) := ?e in _) = _ -> _ =>
    change e with (hop_body now sec regions (default DEFAULT_INSTANCE_TYPE ty)
      (default [] (regions !! 0%nat) ++ [32; 8594; 32] ++ default [] (regions !! (length regions - 1)%nat)) s2) end.
  destruct (hop_body _ _ _ _ _ s2) as [o s3] eqn:Eb. intros [= <- <-].
  apply hop_body_spec in Eb; [|done|split; [by rewrite Hf2|apply Hw2]|by intros ->; cbn in H2; lia].
  destruct o as [u|e|]; [| |done].
  - exists (world s2). split; [done|]. split; [|lia]. destruct Eb as (v & ? & ? & ? & ? & ?). by exists v.
  - destruct Eb as [Hv Hn]. split; [cbn; by rewrite Hv, Hv2|]. cbn. intros x tags. rewrite Hn. destruct Hw2 as [_ Hw2].
    destruct (Hw2 x) as [-> | ->]; [done|done].
Qed.

Lemma core_disconnect_nodes v (s : t S) r s' : deletes_honoured -> cloud_ok (world s) -> core_disconnect v s = (r, s') ->
  r = Ok (inl tt) /\ vpn s' = vpn s /\ faults s' = faults s /\ cloud_ok (world s')
  /\ forall x, node (world s') x = if decide (x = instance_id v) then None else node (world s) x.
Proof.
  intros Hd Hok. unfold core_disconnect, Session.disconnect, mbind, Session.emit, Session.call. cbn [Session.world Session.trace Session.created].
  destruct (down (world s)) as [d w1] eqn:E1. destruct (down_frame _ _ _ Hok E1) as (Hok1 & Hn1 & _). cbn [snd Session.world Session.trace Session.created].
  destruct (delete (instance_id v) w1) as [o w2] eqn:E2. pose proof (Hd (instance_id v) _ Hok1) as Ho. rewrite E2 in Ho. cbn in Ho. subst o.
  destruct (delete_spec _ _ _ _ Hok1 E2) as [Hok2 Hn2]. intros [= <- <-]. split_and!; try done. cbn. intros x. rewrite Hn2. case_decide; [done|apply Hn1].
Qed.

Lemma record_session_run v l e (s : t S) : faults s = [] -> exists h, record_session v l e s = (Ok tt, set_history h s) /\ is_Some (h !! instance_id v).
Proof. intros Hf. unfold record_session, mbind, fate. rewrite Hf. eexists. split; [reflexivity|]. rewrite lookup_insert_eq. eauto. Qed.

Lemma last_counters_run v now (s : t S) r s' : cloud_ok (world s) -> last_counters v now s = (r, s') ->
  r <> Panic -> is_ok r = true /\ vpn s' = vpn s /\ faults s' = faults s /\ cloud_ok (world s') /\ forall x, node (world s') x = node (world s) x.
Proof.
  intros Hok. unfold last_counters, mbind, on. destruct (counters _ (world s)) as [o w] eqn:E. destruct (counters_frame _ _ _ _ Hok E) as [Hok' Hn].
  destruct o; intros [= <- <-] Hp; done.
Qed.

(** Disconnecting stops the meter of what it should and of nothing else. With a provider that
    carries out deletions and counters that can be read or fail, a disconnect from a throw-away
    connection, single or multi-hop, succeeds, leaves no tunnel noted, destroys every node of the
    chain and no other node, and files the session; from the always-on node it drops the tunnel and
    destroys nothing. *)
Theorem disconnect_stops_billing now ended v (s s' : t S) r :
  sound s -> deletes_honoured -> (forall el w, fst (counters el w) <> Panic) -> vpn s = Some v -> instance_id v ∈ chain v ->
  vpn_disconnect mc now ended s = (r, s') ->
  r = Ok tt /\ vpn s' = None /\ is_Some (history s' !! instance_id v)
  /\ forall x, node (world s') x = if decide (x ∈ chain v /\ persistent v = false) then None else node (world s) x.
Proof.
  intros [Hf Hok] Hd Hc Hv Hi. unfold vpn_disconnect. unfold mbind at 1, modify at 1. unfold mbind at 1.
  destruct (clear_rules mc (set_last now s) Hf) as [rs ->]. unfold mbind at 1, take_vpn. cbn [vpn set_rules set_last]. rewrite Hv.
  unfold mbind at 1. match goal with |- context [last_counters v now ?st] => set (s1 := st) end.
  destruct (last_counters v now s1) as [o s2] eqn:E. assert (Ho : o <> Panic).
  { unfold last_counters, mbind, on in E. pose proof (Hc (F64.of_Z (now - started_at v)) (world s1)) as Hp.
    destruct (counters _ (world s1)) as [[]]; [by injection E as <- <-|by injection E as <- <-|done]. }
  destruct (last_counters_run v now s1 o s2 Hok E Ho) as (Hok' & Hv2 & Hf2 & Hok2 & Hn2). destruct o as [last|e|]; [|done..].
  cbn in Hn2, Hf2. rewrite Hf in Hf2. destruct (persistent v) eqn:Ep.
  - unfold ignore, mbind at 1, mbind at 1, on. destruct (down (world s2)) as [d w] eqn:Ed. destruct (down_frame _ _ _ Hok2 Ed) as (Hok3 & Hn3 & Hp3).
    destruct d as [u|e|]; [| |done]; cbn [ret]; unfold mbind, emit_state, emit_ev, modify;
      (match goal with |- context [record_session v last ended ?st] => destruct (record_session_run v last ended st Hf2) as (h & -> & Hh) end);
      intros [= <- <-]; (split_and!; [done|by cbn; rewrite Hv2|done|]); intros x; cbn; rewrite decide_False by naive_solver; by rewrite Hn3, Hn2.
  - unfold mbind at 1. destruct (core_disconnect v s2) as [o s3] eqn:E3.
    apply core_disconnect_nodes in E3 as (-> & Hv3 & Hf3 & Hok3 & Hn3); [|done..]. unfold mbind at 1.
    destruct (destroy_chain _ s3) as [o s4] eqn:E4. pose proof (obeys_destroy_chain same_vpn _ s3 _ _ E4) as Hsv.
    destruct Hsv as [[Hf4 _] Hv4]; [split; [by rewrite Hf3|done]|].
    apply destroy_chain_nodes in E4 as (-> & Hok4 & Hn4); [|done..]. unfold mbind.
    destruct (record_session_run v last ended s4 Hf4) as (h & -> & Hh). intros [= <- <-]. split_and!; [done|cbn; by rewrite Hv4, Hv3, Hv2|done|].
    intros x. cbn. rewrite Hn4, Hn3, Hn2.
    assert (Hm : x ∈ List.filter (fun id => negb (bool_decide (id = instance_id v))) (chain v) <-> x ∈ chain v /\ x <> instance_id v)
      by (by rewrite list_elem_of_In, filter_In, <- list_elem_of_In, negb_true_iff, bool_decide_eq_false).
    repeat case_decide; naive_solver.
Qed.
End chains.

(** * Concrete runs *)

(** The VPN manager run against the mock provider, and three things it does not promise: recording an
    always-on node can fail together with deleting it, any error text with 404 in it counts as a
    deletion, and a refused keep disarms the kill switch of a tunnel that stays up. *)
Import Mgr VpnDemo.

#[export] Instance mock_counters : WgCounters MockCloud.t := {| counters _ s := (Ok (0, 0), s) |}.

Lemma mock_power : PowerLaws MockCloud.t.
Proof.
  assert (Hm : forall id f (out : MockCloud.MockInstance -> unit) s r s',
    (forall mi, inst_id (MockCloud.inst (f mi)) = inst_id (MockCloud.inst mi) /\ inst_tags (MockCloud.inst (f mi)) = inst_tags (MockCloud.inst mi)) ->
    cloud_ok s -> MockCloud.modify id f out s = (r, s') -> cloud_ok s' /\ forall x, node s' x = node s x).
  { intros id f out s r s' Hf Hs H. destruct (MockCloud.modify_ok _ _ _ _ _ _ Hf Hs H) as (? & ? & _). by split. }
  split; [intros id s r s'; by apply Hm..|]. intros x s r s' Hs [= <- <-]. by split.
Qed.

Lemma mock_404 : Honest404 (S := MockCloud.t).
Proof. split. intros id w e w' _ H. discriminate H. Qed.

Module MgrDemo.
Definition pc : Machine := MkMachine true true true.
Definition fresh : t MockCloud.t :=
  MkMgr None None None None (Some (Js.obj [("killSwitchDefault", Bool true)])) (Some (lit "token")) false 0 [] ∅ [] [] (MockCloud.new 2).
Definition hops : HopSecrets :=
  MkHopSecrets (arr_fill 32 Byte.x05) (fun _ => arr_fill 32 Byte.x06) (fun _ => arr_fill 32 Byte.x07)
    (fun _ _ => arr_fill 16 Byte.x08) (fun _ _ => arr_fill 16 Byte.x09).
Definition deploys : DeploySecrets :=
  MkDeploySecrets (arr_fill 32 Byte.x05) (arr_fill 32 Byte.x06) (fun _ => arr_fill 16 Byte.x08) (fun _ => arr_fill 16 Byte.x09).
Definition chained := multihop_run pc 10 100 hops [lit "us-east"; lit "eu-west"] None fresh.
Definition unchained := vpn_disconnect pc 200 210 (snd chained).
Definition deployed := persistent_deploy_impl (F := mock_fetcher false) pc 10 100 deploys (lit "us-east") (lit "g6-nanode-1") fresh.
End MgrDemo.
Import MgrDemo.

Lemma fresh_sound : sound fresh.
Proof. split; [done|apply new_ok]. Qed.
Lemma mock_deletes : deletes_honoured (S := MockCloud.t).
Proof. done. Qed.
Lemma chained_ok : chained = (Ok tt, snd chained).
Proof. apply run_answer. vm_compute. reflexivity. Qed.
Lemma unchained_ok : unchained = (Ok tt, snd unchained).
Proof. apply run_answer. vm_compute. reflexivity. Qed.
Lemma deployed_ok : deployed = (Ok tt, snd deployed).
Proof. apply run_answer. vm_compute. reflexivity. Qed.

Lemma fresh_accounted : accounted_for (fun _ => False) fresh.
Proof.
  split; [apply fresh_sound|]. intros x tags (mi & Hmi & ->)%fmap_Some. cbn [fresh world MockCloud.new MockCloud.instances] in Hmi.
  apply lookup_singleton_Some in Hmi as [<- <-]. right. left. left.
Qed.

(** An always-on node is deployed and the tunnel to it dropped. *)
Lemma no_hidden_node_witness :
  record (snd deployed) <> None
  /\ accounted_for (fun _ => False) (snd (vpn_disconnect pc 200 210 (snd deployed))).
Proof.
  split; [vm_compute; discriminate|].
  apply (no_hidden_node (FL := mock_frame false) (PL := mock_power) (H4 := mock_404) (F := mock_fetcher false) pc 10 (fun _ => False) fresh).
  - exact fresh_accounted.
  - apply rtc_l with (snd deployed); [|apply rtc_once].
    + exists (Deploy 100 deploys (lit "us-east") (lit "g6-nanode-1")), (Ok tt). exact deployed_ok.
    + exists (Disconnect 200 210), (fst (vpn_disconnect pc 200 210 (snd deployed))). apply surjective_pairing.
Defined.

(** A chain is built with the kill switch on and taken down. *)
Lemma killswitch_never_strands_witness :
  rules (snd chained) <> [] /\ rules (snd unchained) = [].
Proof.
  split; [vm_compute; discriminate|].
  apply (killswitch_never_strands (FL := mock_frame false) (PL := mock_power) (F := mock_fetcher false) pc 10 fresh (snd unchained)).
  - exact fresh_sound.
  - reflexivity.
  - apply Nat.leb_le. reflexivity.
  - apply rtc_l with (snd chained); [|apply rtc_once].
    + exists (Multihop 100 hops [lit "us-east"; lit "eu-west"] None), (Ok tt). exact chained_ok.
    + exists (Disconnect 200 210), (Ok tt). exact unchained_ok.
  - vm_compute. reflexivity.
Defined.

Lemma multihop_all_or_nothing_witness : exists w, stands w 2 (snd chained).
Proof.
  destruct (multihop_all_or_nothing (FL := mock_frame false) (PL := mock_power) (F := mock_fetcher false) pc 10 100 hops
              [lit "us-east"; lit "eu-west"] None fresh (snd chained) (Ok tt) fresh_sound mock_deletes chained_ok) as (w & _ & H & _).
  exists w. exact H.
Defined.

Definition chained_active : VpnActive := Eval vm_compute in default (MkVpnActive [] [] [] [] None 0 false) (vpn (snd chained)).
Lemma chained_sound : sound (snd chained).
Proof.
  pose proof (hidden_ordinary (FL := mock_frame false) (PL := mock_power) (F := mock_fetcher false) pc 10
    (Multihop 100 hops [lit "us-east"; lit "eu-west"] None) eq_refl fresh (Ok tt) (snd chained) chained_ok fresh_sound) as [H _]. exact H.
Qed.

Lemma disconnect_stops_billing_witness :
  length (chain chained_active) = 2%nat /\ fst unchained = Ok tt /\ vpn (snd unchained) = None.
Proof.
  split; [vm_compute; reflexivity|].
  destruct (disconnect_stops_billing (FL := mock_frame false) (PL := mock_power) pc 200 210 chained_active (snd chained)
              (snd unchained) (Ok tt) chained_sound mock_deletes ltac:(intros; discriminate) ltac:(vm_compute; reflexivity)
              ltac:(left) unchained_ok) as (_ & H & _).
  split; [rewrite unchained_ok; reflexivity|exact H].
Defined.

(** ** What is not promised *)

(** The mock with deletions that fail for a reason [why] gives for each id. *)
Definition refusing (why : text -> string) : CloudProvider MockCloud.t :=
  {| create := MockCloud.create; get := MockCloud.get; delete id s := (Err (Network (why id)), s);
     list_ephemeral := MockCloud.list_ephemeral; shutdown := MockCloud.shutdown; boot := MockCloud.boot; reboot := MockCloud.reboot |}.

(** When the record cannot be written and the provider then refuses the deletion, whose outcome is
    not looked at, an always-on node exists that no record names and no sweep may touch. *)
Lemma deploy_can_hide_node :
  let s := MkMgr None None None None None (Some (lit "token")) false 0 [] ∅ [] [true; false] (MockCloud.new 2) in
  let s' := snd (persistent_deploy_impl (C := refusing (fun _ => "timeout")) (F := mock_fetcher false) pc 10 100 deploys (lit "us-east") (lit "g6-nanode-1") s) in
  record s' = None /\ node (world s') (MockCloud.id_of 1000) = Some [PERSISTENT_VPN_TAG].
Proof. vm_compute. split; reflexivity. Qed.

(** An error that names the node, as those of the HTTP client do with its address, is taken for a
    confirmed deletion when the id happens to contain 404. *)
Lemma destroy_misreads_404 :
  let s := MkMgr None None (Some (MkRecord (lit "40412") [] [] [] 0 [] [] 51820)) None None (Some (lit "token")) false 0 [] ∅ [] []
    (MockCloud.MkMockCloud {[lit "40412" := MockCloud.MkMockInstance (MkInstance (lit "40412") [] [] InstanceState.Running None [PERSISTENT_VPN_TAG]) 0]} 1000 2 false) in
  let why id := "error sending request for url (https://api.linode.com/v4/linode/instances/" +:+ to_string id +:+ ")" in
  let r := persistent_destroy_impl (C := refusing why) pc s in
  fst r = Ok tt /\ record (snd r) = None /\ node (world (snd r)) (lit "40412") = Some [PERSISTENT_VPN_TAG].
Proof. vm_compute. split_and!; reflexivity. Qed.

(** A keep that is refused leaves the tunnel up and its kill switch gone. *)
Lemma refused_keep_disarms :
  let s := snd chained in
  let r := vpn_disconnect_keep pc 200 210 s in
  is_ok (fst r) = false /\ vpn (snd r) = vpn s /\ existsb (fun x => negb (allows x)) (rules s) = true /\ rules (snd r) = [].
Proof. vm_compute. split_and!; reflexivity. Qed.
