(* ===== verification/NmHostClaims.v ===== *)
(** What the browser host promises: no flow across origins, what is saved is filled, a passkey
    registered through it signs in through it, and the gate on relying-party identifiers. *)
From S2P Require Import Prelude Bytes Text Crypto Floats Value Totp Toy RecoveryKit Keyring Model Envelope VaultStore Session Nm Generator Passkey NmHost.
Local Open Scope Z_scope.

Section flow.
Context {P : CryptoPrims} {SI : Json Item.t} {U : UrlLib} {TH : TotpHmac} {Q : QueryPairs} {UT : UuidText} {UC : Unicode}
  {E : Ecdsa} {B : Base64} {BU : Base64Url} {R : Rng}.
Import Host.

Definition fillable (o : text) (it : Item.t) : bool := Autofill.origin_matches (Item.urls it) o.

(** Two vaults under the same key, with rows under the same identifiers, that agree on every item
    satisfying [p]. *)
Definition same_for (p : Item.t -> bool) (h1 h2 : Host) : Prop :=
  session h1 = session h2
  /\ (forall i, match lookup h1 i, lookup h2 i with
                | inr a, inr b => a = b \/ (p a = false /\ p b = false)
                | inl e1, inl e2 => e1 = e2
                | _, _ => False
                end)
  /\ List.filter p (load_items h1) = List.filter p (load_items h2).

(** The items a request has a claim to: those that fill on the origin it names; for a passkey
    assertion the passkeys of its relying party, when the origin may speak for that party; for any
    other request, and for one whose payload does not parse, none. *)
Definition concerns (env : Reply) (it : Item.t) : bool :=
  let v := default Null (payload env) in
  match kind _ env with
  | NmType.VaultSearch => from_option (fun r => fillable (sr_origin r) it) false (VaultSearchRequest_de v)
  | NmType.VaultFieldsGet => from_option (fun r => fillable (fr_origin r) it) false (VaultFieldsGetRequest_de v)
  | NmType.VaultTotpGet => from_option (fun r => fillable (tr_origin r) it) false (TotpGetRequest_de v)
  | NmType.VaultSaveCandidate => from_option (fun r => fillable (sc_origin r) it) false (SaveCandidateRequest_de v)
  | NmType.VaultPasskeyAssert =>
      from_option (fun r => rp_id_matches_origin (pa_rp_id r) (pa_origin r) && usable r it) false (PasskeyAssertReq_de v)
  | _ => false
  end.

Lemma parse_cases {T} (de : Value -> option T) env :
  (exists req, de (default Null (payload env)) = Some req /\ parse de env = inr req)
  \/ (de (default Null (payload env)) = None /\ exists e, parse de env = inl e).
Proof. unfold parse. destruct (de _) as [req|]; [left|right]; eauto. Qed.

Lemma find_filtered (p q : Item.t -> bool) l :
  List.find (fun it => p it && q it) l = List.find p (List.filter q l).
Proof. induction l as [|x l IH]; cbn; [done|]. destruct (q x); cbn; [rewrite andb_true_r|rewrite andb_false_r]; by rewrite IH. Qed.

(** The reply of a write depends on the session, not on the rest of the vault. *)
Lemma store_reply d h1 h2 env it done :
  session h1 = session h2 -> fst (store d h1 env it done) = fst (store d h2 env it done).
Proof.
  intros Hs. unfold store. rewrite Hs. destruct (VaultSession.seal _ _ _); [|done..].
  unfold LocalVault.upsert. by destruct (Envelope.envelope_meta _) as [[]|?|].
Qed.

Lemma save_find o u l :
  List.find (fun it => bool_decide (Item.item_type it = ItemType.Login) && Autofill.origin_matches (Item.urls it) o
                         && bool_decide (default [] (Item.username it) = u)) l
  = List.find (fun it => bool_decide (Item.item_type it = ItemType.Login) && bool_decide (default [] (Item.username it) = u))
      (List.filter (fillable o) l).
Proof.
  rewrite <- find_filtered. induction l as [|x l IH]; [done|]. cbn. unfold fillable in *.
  destruct (Autofill.origin_matches _ _), (bool_decide (Item.item_type x = _)), (bool_decide (default [] _ = _)); cbn; by rewrite ?IH.
Qed.

Lemma keep_reply d h1 h2 it : session h1 = session h2 -> fst (keep d h1 it) = fst (keep d h2 it).
Proof.
  intros Hs. unfold keep. rewrite Hs. destruct (VaultSession.seal _ _ _); [|done..].
  by destruct (LocalVault.upsert (vault h1) _), (LocalVault.upsert (vault h2) _).
Qed.

(** The item an assertion signs with is one the request has a claim to. *)
Lemma assert_alike d h1 h2 env :
  kind _ env = NmType.VaultPasskeyAssert -> same_for (concerns env) h1 h2 ->
  fst (passkey_assert d h1 env) = fst (passkey_assert d h2 env).
Proof.
  intros Ek (Hs & _ & Hf). unfold passkey_assert.
  destruct (parse_cases PasskeyAssertReq_de env) as [(req & Hde & ->)|(_ & e & ->)]; [|done].
  destruct (rp_id_matches_origin _ _) eqn:Eg; cbn [negb]; [|done].
  assert (Hc : forall it, concerns env it = usable req it).
  { intros it. unfold concerns. cbv zeta. rewrite Ek, Hde. cbn [from_option]. by rewrite Eg. }
  rewrite !(filter_ext _ _ Hc) in Hf. rewrite Hf. destruct (head _) as [it|]; [|done].
  destruct (Item.passkey it) as [pk|]; [|done]. cbv zeta. destruct (webauthn.assertion _ _ _) as [[]|?|]; [|done..].
  pose proof (keep_reply d h1 h2 (with_passkey it (bumped pk) (now d)) Hs) as Hk.
  destruct (keep d h1 _) as [r1 ?], (keep d h2 _) as [r2 ?]. cbn in Hk. subst r2. by destruct r1.
Qed.

Lemma save_alike d h1 h2 env :
  kind _ env = NmType.VaultSaveCandidate -> same_for (concerns env) h1 h2 ->
  fst (save_candidate d h1 env) = fst (save_candidate d h2 env).
Proof.
  intros Ek (Hs & _ & Hf). unfold save_candidate.
  destruct (parse_cases SaveCandidateRequest_de env) as [(req & Hde & ->)|(_ & e & ->)]; [|done].
  assert (Hc : forall it, concerns env it = fillable (sc_origin req) it).
  { intros it. unfold concerns. cbv zeta. by rewrite Ek, Hde. }
  rewrite !(filter_ext _ _ Hc) in Hf. case_bool_decide; [done|]. rewrite !save_find, Hf.
  destruct (List.find _ _) as [it|]; [case_bool_decide; [done|]|]; by apply store_reply.
Qed.

Lemma register_alike d h1 h2 env :
  session h1 = session h2 -> fst (passkey_register d h1 env) = fst (passkey_register d h2 env).
Proof.
  intros Hs. unfold passkey_register. destruct (parse _ env); [done|]. destruct (negb _); [done|].
  destruct (url_decode _); [|done]. cbv zeta. destruct (webauthn.registration_attestation _) as [[]|?|]; [|done..].
  by apply store_reply.
Qed.

(** What a request for one item learns: of two items without a claim, the same refusal. *)
Lemma lookup_alike p h1 h2 i :
  same_for p h1 h2 ->
  lookup h1 i = lookup h2 i
  \/ exists a b, lookup h1 i = inr a /\ lookup h2 i = inr b /\ p a = false /\ p b = false.
Proof.
  intros (_ & Hl & _). specialize (Hl i). destruct (lookup h1 i), (lookup h2 i); try done; [by subst; left|].
  destruct Hl as [->|[? ?]]; [by left|right]. by eexists _, _.
Qed.

Lemma fields_alike t h1 h2 env :
  kind _ env = NmType.VaultFieldsGet -> same_for (concerns env) h1 h2 -> fields t h1 env = fields t h2 env.
Proof.
  intros Ek Hsf. unfold fields.
  destruct (parse_cases VaultFieldsGetRequest_de env) as [(req & Hde & ->)|(_ & e & ->)]; [|done].
  destruct (lookup_alike _ _ _ (fr_id req) Hsf) as [->|(a & b & -> & -> & Ha & Hb)]; [done|].
  unfold concerns in Ha, Hb. cbv zeta in Ha, Hb. rewrite Ek, Hde in Ha, Hb. cbn [from_option] in Ha, Hb. unfold fillable in *. by rewrite Ha, Hb.
Qed.

Lemma totp_alike t h1 h2 env :
  kind _ env = NmType.VaultTotpGet -> same_for (concerns env) h1 h2 -> totp t h1 env = totp t h2 env.
Proof.
  intros Ek Hsf. unfold totp.
  destruct (parse_cases TotpGetRequest_de env) as [(req & Hde & ->)|(_ & e & ->)]; [|done].
  destruct (lookup_alike _ _ _ (tr_id req) Hsf) as [->|(a & b & -> & -> & Ha & Hb)]; [done|].
  unfold concerns in Ha, Hb. cbv zeta in Ha, Hb. rewrite Ek, Hde in Ha, Hb. cbn [from_option] in Ha, Hb. unfold fillable in *. by rewrite Ha, Hb.
Qed.

Lemma search_alike h1 h2 env :
  kind _ env = NmType.VaultSearch -> same_for (concerns env) h1 h2 -> search h1 env = search h2 env.
Proof.
  intros Ek (_ & _ & Hf). unfold search.
  destruct (parse_cases VaultSearchRequest_de env) as [(req & Hde & ->)|(_ & e & ->)]; [|done].
  assert (Hc : forall it, concerns env it = Autofill.origin_matches (Item.urls it) (sr_origin req)).
  { intros it. unfold concerns. cbv zeta. by rewrite Ek, Hde. }
  rewrite !(filter_ext _ _ Hc) in Hf. by rewrite Hf.
Qed.

(** C35: no flow across origins. The reply to any request, passkey requests included, depends on an
    open vault only through its key, the identifiers it has rows under, and the items the request has
    a claim to: two vaults alike in these, whatever the passwords in their other items, answer it
    the same. With no vault open the answer to every credential request is [locked], which carries
    no payload, and nothing is stored. *)
Theorem no_cross_origin_flow v d env h1 h2 :
  same_for (concerns env) h1 h2 ->
  fst (handle v d env (Some h1)) = fst (handle v d env (Some h2))
  /\ (kind _ env ∈ [NmType.VaultSearch; NmType.VaultFieldsGet; NmType.VaultTotpGet; NmType.VaultSaveCandidate;
                     NmType.VaultPasskeyRegister; NmType.VaultPasskeyAssert] ->
      handle v d env None = (Ok (locked (id _ env)), None) /\ payload (locked (V := Value) (id _ env)) = None).
Proof.
  intros Hsf. pose proof (proj1 Hsf) as Hs. unfold handle. split.
  - destruct (kind _ env) eqn:Ek; try done; cbn [fst].
    + by rewrite (search_alike h1 h2 env Ek Hsf).
    + by apply (fields_alike _ h1 h2).
    + by apply (totp_alike _ h1 h2).
    + pose proof (save_alike d h1 h2 env Ek Hsf) as H. by destruct (save_candidate d h1 env), (save_candidate d h2 env).
    + pose proof (register_alike d h1 h2 env Hs) as H. by destruct (passkey_register d h1 env), (passkey_register d h2 env).
    + pose proof (assert_alike d h1 h2 env Ek Hsf) as H. by destruct (passkey_assert d h1 env), (passkey_assert d h2 env).
  - intros Hk. by repeat (apply elem_of_cons in Hk as [->|Hk]); [..|apply elem_of_nil in Hk].
Qed.
End flow.

(** * Saving and filling *)

Section saving.
Context {P : CryptoPrims} {L : CryptoLaws P} {SI : Json Item.t} {SL : JsonLaws Item.t} {U : UrlLib} {TH : TotpHmac}
  {Q : QueryPairs} {UT : UuidText} {UTL : UuidTextLaws} {UC : Unicode} {E : Ecdsa} {B : Base64} {BU : Base64Url} {R : Rng}.
Import Host.

(** An item that opens names the identifier its row is filed under. *)
Lemma open_item_meta vk env it : Envelope.open_item vk env = Ok it -> exists ts, Envelope.envelope_meta env = Ok (Item.id it, ts).
Proof.
  unfold Envelope.open_item, Envelope.envelope_meta. intros H. inv_result. bools. subst.
  destruct (Nat.ltb_spec (length env) 25) as [Hs|_]; [lia|]. cbn [negb].
  match goal with H1 : slice env 1 17 = Ok _, H2 : copy_from_slice 16 _ = Ok _ |- _ => rewrite H1; cbn [rbind]; rewrite H2 end.
  cbn [rbind]. rewrite (slice_ok env 17 25) by lia. cbn [rbind].
  destruct (copy_from_slice_len (E := CoreError) 8 (take (25 - 17) (drop 17 env))) as (a & -> & _).
  { rewrite length_take, length_drop. lia. }
  cbn [rbind]. eauto.
Qed.

Lemma load_items_lookup h k it :
  LocalVault.wf (vault h) -> session h = VaultSession.unlocked k -> it ∈ load_items h ->
  lookup h (uuid_show (Item.id it)) = inr it.
Proof.
  intros Hwf Hs Hin. unfold load_items in Hin. apply list_elem_of_omap in Hin as (env & Hin & Ho).
  destruct (VaultSession.open _ env) as [it'|?|] eqn:Eo; [|done..]. injection Ho as ->.
  rewrite LocalVault.list_envelopes_perm, map_map in Hin. apply list_elem_of_In, in_map_iff in Hin as ([i [e ts]] & Hi & Hm).
  cbn in Hi. subst e. apply list_elem_of_In, elem_of_map_to_list in Hm.
  assert (Hi := LocalVault.wf_meta _ Hwf _ _ _ Hm). assert (Ho := Eo). unfold VaultSession.open in Ho. rewrite Hs in Ho.
  apply open_item_meta in Ho as [ts' Ho]. rewrite Hi in Ho. injection Ho as -> ->.
  unfold lookup. rewrite uuid_parse_show. unfold LocalVault.get. rewrite Hm. cbn. by rewrite Eo.
Qed.

(** A write that succeeds: the item is there under its identifier, and only that row changed. *)
Lemma store_ok d h k env it done r h' :
  session h = VaultSession.unlocked k -> i64_range (Item.updated_at it) ->
  store d h env it done = (Ok r, h') -> Nm.ok r = Some true ->
  r = done /\ session h' = session h /\ lookup h' (uuid_show (Item.id it)) = inr it
  /\ (LocalVault.wf (vault h) -> LocalVault.wf (vault h'))
  /\ (forall j, j <> Item.id it -> LocalVault.get (vault h') j = LocalVault.get (vault h) j).
Proof.
  intros Hs Hr. unfold store. rewrite Hs. unfold VaultSession.seal. cbn [VaultSession.key VaultSession.unlocked VaultSession.key_opt ok_or rbind].
  destruct (Envelope.seal_item (nonce d) k it) as [sealed|?|] eqn:Es; [|by intros [= <- <-]|done].
  destruct (item_envelope_round_trip (nonce d) k it sealed Hr Es) as [Ho Hm].
  assert (Hw := LocalVault.upsert_wf (vault h) sealed).
  rewrite (LocalVault.upsert_ok _ _ _ _ Hm) in Hw |- *. intros [= <- <-] _. cbn [session vault] in *. split_and!; try done.
  - unfold lookup. rewrite uuid_parse_show. unfold LocalVault.get. cbn. rewrite lookup_insert_eq. cbn.
    unfold VaultSession.open. cbn. by rewrite Ho.
  - intros j Hj. unfold LocalVault.get. cbn. by rewrite lookup_insert_ne.
Qed.

(** A page matches the URL it is saved under. *)
Lemma fillable_self o p : Autofill.Origin_parse o = Some p -> Autofill.origin_matches [UrlMatch.MkUrlMatch o UrlMode.Domain] o = true.
Proof.
  intros Hp. apply Autofill.origin_matches_spec. exists p, (UrlMatch.MkUrlMatch o UrlMode.Domain), p. cbn.
  split_and!; try done; [by left|]. intros [H1 H2]. rewrite H1 in H2. discriminate H2.
Qed.

(** The reply to a request for the two login fields of an item. *)
Definition login_fields (it : Item.t) : list (text * Value) :=
  match Item.username it with Some u => [(lit "username", Str u)] | None => [] end
  ++ match Item.password it with Some p => [(lit "password", Str p)] | None => [] end.

Definition fields_env (i : text) (o : text) (rid : text) : Reply :=
  MkNmEnvelope rid NmType.VaultFieldsGet None
    (Some (Js.obj [("id", Str i); ("fields", Arr [Str (lit "username"); Str (lit "password")]);
                   ("origin", Str o); ("reason", Str (lit "fill"))])%string) None.

Lemma fields_reply now h i it o rid :
  lookup h i = inr it -> fillable o it = true ->
  fields now h (fields_env i o rid) = Ok (Host.ok rid NmType.VaultFieldsGet (Js.obj [("fields", Obj (login_fields it))])%string).
Proof.
  intros Hl Hf. assert (Hp : parse VaultFieldsGetRequest_de (fields_env i o rid)
    = inr (MkFieldsReq i [lit "username"; lit "password"] o (lit "fill"))) by (vm_compute; reflexivity).
  unfold fields. rewrite Hp. cbn [fr_id fr_origin fr_fields]. rewrite Hl. unfold fillable in Hf. rewrite Hf. cbn [negb release].
  rewrite (bool_decide_true (lit "username" = lit "username")), (bool_decide_false (lit "password" = lit "username")),
    (bool_decide_true (lit "password" = lit "password")) by done. cbn [rbind]. unfold login_fields.
  by destruct (Item.username it), (Item.password it).
Qed.

(** What a save leaves behind: an item of the page with the given login. *)
Definition saved_login (req : SaveCandidateRequest) (it : Item.t) : Prop :=
  Item.password it = Some (sc_password req) /\ default [] (Item.username it) = sc_username req
  /\ fillable (sc_origin req) it = true.

Lemma save_candidate_ok d h k env req p r h' :
  parse SaveCandidateRequest_de env = inr req -> Autofill.Origin_parse (sc_origin req) = Some p ->
  session h = VaultSession.unlocked k -> LocalVault.wf (vault h) -> i64_range (now d) ->
  save_candidate d h env = (Ok r, h') -> Nm.ok r = Some true ->
  exists action it, r = saved env action (Item.id it) /\ saved_login req it
    /\ session h' = session h /\ LocalVault.wf (vault h') /\ lookup h' (uuid_show (Item.id it)) = inr it
    /\ (forall j, j <> Item.id it -> LocalVault.get (vault h') j = LocalVault.get (vault h) j).
Proof.
  intros Hp Ho Hs Hwf Hn. unfold save_candidate. rewrite Hp. case_bool_decide; [by intros [= <- <-]|].
  destruct (List.find _ _) as [it|] eqn:Ef.
  - apply find_some in Ef as [Hin Hc]. bools. apply list_elem_of_In in Hin. case_bool_decide as Epw.
    + intros [= <- <-] _. exists "unchanged"%string, it. split_and!; try done. by eapply load_items_lookup.
    + intros Hst Hok. apply (store_ok d h k) in Hst as (-> & Hs1 & Hl1 & Hw1 & Hk1); [|done..].
      exists "updated"%string, (with_password it (sc_password req) (now d)). split_and!; try done; [|by apply Hw1].
      split_and!; [done| |done]. unfold with_password, Item.username in *. cbn in *. by destruct (Item.login it).
  - intros Hst Hok. apply (store_ok d h k) in Hst as (-> & Hs1 & Hl1 & Hw1 & Hk1); [|done..].
    exists "created"%string, (new_candidate d req). split_and!; try done; [|by apply Hw1].
    split_and!; [done| |by eapply fillable_self]. unfold new_candidate, Item.username. cbn.
    case_bool_decide as Eu; [by rewrite Eu|done].
Qed.

(** What is saved is filled. When an unlocked host answers a save request with success, whether
    it updated a login, created one or found it unchanged, the reply names an item such that a field
    request of the same page for it returns exactly the saved password, with the saved user name when
    there is one; and no other row of the vault changed. *)
Theorem saved_is_filled v d d' env req p h k r h' rid :
  kind _ env = NmType.VaultSaveCandidate ->
  parse SaveCandidateRequest_de env = inr req -> Autofill.Origin_parse (sc_origin req) = Some p ->
  session h = VaultSession.unlocked k -> LocalVault.wf (vault h) -> i64_range (now d) ->
  handle v d env (Some h) = (Ok r, Some h') -> Nm.ok r = Some true ->
  exists action i u, r = saved env action i /\ default [] u = sc_username req
    /\ handle v d' (fields_env (uuid_show i) (sc_origin req) rid) (Some h')
       = (Ok (Host.ok rid NmType.VaultFieldsGet
               (Js.obj [("fields"%string, Obj (match u with Some u => [(lit "username", Str u)] | None => [] end
                                               ++ [(lit "password", Str (sc_password req))]))])), Some h')
    /\ (forall j, j <> i -> LocalVault.get (vault h') j = LocalVault.get (vault h) j).
Proof.
  intros Hk Hp Ho Hs Hwf Hn Hh Hok. unfold handle in Hh. rewrite Hk in Hh.
  destruct (save_candidate d h env) as [r0 h0] eqn:Es. injection Hh as -> ->.
  destruct (save_candidate_ok d h k env req p r h' Hp Ho Hs Hwf Hn Es Hok) as (action & it & -> & (Hpw & Hu & Hf) & _ & _ & Hl & Hrest).
  exists action, (Item.id it), (Item.username it). split_and!; try done.
  unfold handle. cbn [kind fields_env]. fold (fields_env (uuid_show (Item.id it)) (sc_origin req) rid).
  rewrite (fields_reply (now d') h' _ it) by done. unfold login_fields. by rewrite Hpw.
Qed.
End saving.

(** * Passkeys through the host *)

Section passkeys.
Context {P : CryptoPrims} {L : CryptoLaws P} {SI : Json Item.t} {SL : JsonLaws Item.t} {U : UrlLib} {TH : TotpHmac}
  {Q : QueryPairs} {UT : UuidText} {UTL : UuidTextLaws} {UC : Unicode} {E : Ecdsa} {EL : EcdsaLaws E} {B : Base64} {BL : Base64Laws}
  {BU : Base64Url} {BUL : Base64UrlLaws} {R : Rng}.
Import Host.

Lemma elem_of_load_items h it :
  it ∈ load_items h <-> exists j env ts, LocalVault.items (vault h) !! j = Some (env, ts) /\ VaultSession.open (session h) env = Ok it.
Proof.
  unfold load_items. rewrite list_elem_of_omap. setoid_rewrite LocalVault.list_envelopes_perm. setoid_rewrite map_map.
  setoid_rewrite list_elem_of_In. setoid_rewrite in_map_iff. setoid_rewrite <- list_elem_of_In. split.
  - intros (env & ([j [e ts]] & He & Hm) & Ho). cbn in He. subst e. apply elem_of_map_to_list in Hm. exists j, env, ts. split; [done|].
    by destruct (VaultSession.open _ env); simplify_eq.
  - intros (j & env & ts & Hm & Ho). exists env. rewrite Ho. split; [|done]. exists (j, (env, ts)). by rewrite elem_of_map_to_list.
Qed.

(** What is loaded after storing an item: that item, and some of what was there. *)
Lemma store_loads d h k env it done r h' :
  session h = VaultSession.unlocked k -> i64_range (Item.updated_at it) ->
  store d h env it done = (Ok r, h') -> Nm.ok r = Some true ->
  it ∈ load_items h' /\ forall x, x ∈ load_items h' -> x = it \/ x ∈ load_items h.
Proof.
  intros Hs Hr. unfold store. rewrite Hs. unfold VaultSession.seal. cbn [VaultSession.key VaultSession.unlocked VaultSession.key_opt ok_or rbind].
  destruct (Envelope.seal_item (nonce d) k it) as [sealed|?|] eqn:Es; [|by intros [= <- <-]|done].
  destruct (item_envelope_round_trip (nonce d) k it sealed Hr Es) as [Ho Hm].
  rewrite (LocalVault.upsert_ok _ _ _ _ Hm). intros [= <- <-] _. setoid_rewrite elem_of_load_items. cbn [session vault LocalVault.items].
  rewrite Hs. split.
  - exists (Item.id it), sealed, (Item.updated_at it). split; [apply lookup_insert_eq|done].
  - intros x (j & e & ts & Hj & Hx). destruct (decide (j = Item.id it)) as [->|Hne].
    + rewrite lookup_insert_eq in Hj. injection Hj as <- <-. left. cbn in Hx. rewrite Ho in Hx. by injection Hx.
    + rewrite lookup_insert_ne in Hj by done. right. eauto.
Qed.

(** With one usable passkey, that is the one used. *)
Lemma head_usable req l it :
  it ∈ l -> usable req it = true -> (forall x, x ∈ l -> usable req x = true -> x = it) ->
  head (sort_desc Item.updated_at (List.filter (usable req) l)) = Some it.
Proof.
  intros Hin Hu Hone. destruct (sort_desc _ _) as [|x xs] eqn:Es.
  - assert (Hp := sort_desc_perm Item.updated_at (List.filter (usable req) l)). rewrite Es in Hp. apply Permutation_nil in Hp.
    assert (H0 : it ∈ List.filter (usable req) l) by (apply list_elem_of_In, filter_In; split; [by apply list_elem_of_In|done]).
    rewrite Hp in H0. by apply elem_of_nil in H0.
  - cbn. f_equal. assert (Hx : x ∈ List.filter (usable req) l) by (rewrite <- (sort_desc_perm Item.updated_at), Es; left).
    apply list_elem_of_In, filter_In in Hx as [Hx Hux]. apply Hone; [by apply list_elem_of_In|done].
Qed.

Lemma signing_key_bumped pk : passkey.signing_key (bumped pk) = passkey.signing_key pk.
Proof. done. Qed.

Lemma keep_ok d h k it :
  session h = VaultSession.unlocked k -> i64_range (Item.updated_at it) ->
  exists h', keep d h it = (Ok tt, h') /\ ((exists pt, to_vec it = inr pt) -> lookup h' (uuid_show (Item.id it)) = inr it).
Proof.
  intros Hs Hr. unfold keep. rewrite Hs. unfold VaultSession.seal. cbn [VaultSession.key VaultSession.unlocked VaultSession.key_opt ok_or rbind].
  destruct (Envelope.seal_item (nonce d) k it) as [sealed|e|] eqn:Es.
  - destruct (item_envelope_round_trip (nonce d) k it _ Hr Es) as [Ho Hm]. rewrite (LocalVault.upsert_ok _ _ _ _ Hm).
    eexists. split; [done|]. intros _. unfold lookup. rewrite uuid_parse_show. unfold LocalVault.get. cbn [vault LocalVault.items].
    rewrite lookup_insert_eq. cbn. unfold VaultSession.open. cbn. by rewrite Ho.
  - exists h. split; [done|]. intros [pt Hpt].
    by rewrite (proj2 (Envelope.seal_item_Ok (nonce d) k it _) (ex_intro _ pt (conj Hpt eq_refl))) in Es.
  - unfold Envelope.seal_item in Es. destruct (to_vec it); cbn in Es; done.
Qed.

(** A request of the page to sign in with the credential it registered. *)
Definition assert_env (req : PasskeyRegisterReq) (client rid : text) (credential : text) : Reply :=
  MkNmEnvelope rid NmType.VaultPasskeyAssert None
    (Some (Js.obj [("origin", Str (pr_origin req)); ("rpId", Str (pr_rp_id req)); ("clientDataJson", Str client);
                   ("allowCredentialIdsB64u", Arr [Str credential])])%string) None.

Lemma assert_env_parse req client rid credential :
  parse PasskeyAssertReq_de (assert_env req client rid credential) = inr (MkPasskeyAssertReq (pr_origin req) (pr_rp_id req) client [credential]).
Proof. vm_compute. reflexivity. Qed.

(** C36: a passkey registered through the host signs in through it. When the host answers a
    registration with success, the reply carries an attestation object in which a relying party finds
    the credential and its public key; a later sign-in request of the same page for that credential
    is answered with a signature that verifies under that key over data with counter 1; and the
    counter 1 is what the vault then holds, if the item serializes. The credential is new to the
    vault. *)
Theorem passkey_signs_in v d d' env req h k r h1 rid client :
  let credential := url_encode (cred d) in
  kind _ env = NmType.VaultPasskeyRegister -> parse PasskeyRegisterReq_de env = inr req ->
  session h = VaultSession.unlocked k -> i64_range (now d) -> i64_range (now d') ->
  (forall x, x ∈ load_items h -> usable (MkPasskeyAssertReq (pr_origin req) (pr_rp_id req) client [credential]) x = false) ->
  handle v d env (Some h) = (Ok r, Some h1) -> Nm.ok r = Some true ->
  exists att auth data sig reg vk h2,
    r = Host.ok (id _ env) NmType.VaultPasskeyRegister
          (Js.obj [("credentialIdB64u", Str credential); ("attestationObjectB64u", Str (url_encode att));
                   ("authenticatorDataB64u", Str (url_encode auth))])%string
    /\ read_attestation att = Some reg /\ reg_cred reg = cred d /\ from_encoded_point (reg_point reg) = Some vk
    /\ (exists handle_b64, handle v d' (assert_env req client rid credential) (Some h1)
       = (Ok (Host.ok rid NmType.VaultPasskeyAssert
                (Js.obj [("credentialIdB64u", Str credential); ("authenticatorDataB64u", Str (url_encode data));
                         ("signatureB64u", Str (url_encode sig)); ("userHandleB64u", Str handle_b64)])%string), Some h2))
    /\ take 32 data = reg_rp_hash reg /\ be_val (drop 33 data) = 1 /\ verify vk (data ++ sha256 (utf8 client)) sig = true
    /\ exists it pk, Item.id it = uuid d /\ Item.passkey it = Some pk /\ Passkey.sign_count pk = 1
       /\ ((exists pt, to_vec it = inr pt) -> lookup h2 (uuid_show (uuid d)) = inr it).
Proof.
  cbv zeta. intros Hk Hp Hs Hn Hn' Hfresh Hh Hok. unfold handle in Hh. rewrite Hk in Hh.
  destruct (passkey_register d h env) as [r0 h0] eqn:Er. injection Hh as -> ->. unfold passkey_register in Er. rewrite Hp in Er.
  destruct (rp_id_matches_origin _ _) eqn:Eg; cbn [negb] in Er; [|by injection Er as <- <-].
  destruct (url_decode (pr_user_handle req)) as [uh|]; [|by injection Er as <- <-].
  set (pk := passkey.mint_passkey _ _ _ _ _ _ _) in Er.
  destruct (registration_read (key d) (cred d) (pr_rp_id req) (pr_rp_name req) (pr_user_name req) (pr_user_display_name req) uh)
    as (auth & att & Ha & Hread & _). fold pk in Ha. rewrite Ha in Er. set (it := passkey_item d req pk) in Er.
  assert (Hload := store_loads d h k env it _ r h1 Hs Hn Er Hok). destruct Hload as [Hin Hload].
  apply (store_ok d h k) in Er as (-> & Hs1 & Hl1 & _ & _); [|done..].
  set (areq := MkPasskeyAssertReq (pr_origin req) (pr_rp_id req) client [url_encode (cred d)]) in *.
  assert (Hu : usable areq it = true).
  { unfold usable, it, passkey_item, pk, passkey.mint_passkey. cbn. rewrite !(bool_decide_true (_ = _)) by done.
    by rewrite (bool_decide_true (_ ∈ _)) by left. }
  assert (Hhead : head (sort_desc Item.updated_at (List.filter (usable areq) (load_items h1))) = Some it).
  { apply head_usable; [done..|]. intros x [->|Hx]%Hload Hux; [done|]. by rewrite (Hfresh x Hx) in Hux. }
  destruct (assertion_signed (bumped pk) (key d) 1 (utf8 client)) as (data & sig & Has & _ & Hrp & _ & Hcnt & Hver); [by apply signing_key_mint|lia|].
  destruct (keep_ok d' h1 k (with_passkey it (bumped pk) (now d'))) as (h2 & Hkeep & Hl2); [by rewrite Hs1|done|].
  eexists att, auth, data, sig, _, (verifying_key (key d)), h2. split; [done|]. split; [exact Hread|].
  split; [done|]. split; [apply from_to_point|]. split.
  - exists (Passkey.user_handle pk). unfold handle. cbn [kind assert_env]. fold (assert_env req client rid (url_encode (cred d))).
    unfold passkey_assert. rewrite assert_env_parse. fold areq. cbn [pa_rp_id pa_origin areq]. rewrite Eg. cbn [negb]. rewrite Hhead.
    change (Item.passkey it) with (Some pk). cbv beta iota zeta. change (Passkey.sign_count (bumped pk)) with 1.
    change (pa_client_data_json areq) with client. rewrite Has, Hkeep. done.
  - split_and!; try done. exists (with_passkey it (bumped pk) (now d')), (bumped pk). done.
Qed.
End passkeys.

(** * The gate on relying-party identifiers *)

Section gate.
Import Host.

Lemma ends_with_app p s : ends_with p s = true <-> exists t, s = t ++ p.
Proof.
  unfold ends_with, starts_with. rewrite bool_decide_eq_true. unfold is_Some. setoid_rewrite strip_prefix_Some. split.
  - intros [t Ht]. exists (reverse t). by rewrite <- (reverse_involutive s), Ht, reverse_app, reverse_involutive.
  - intros [t ->]. exists (reverse t). apply reverse_app.
Qed.

(** The host of an origin as the gate takes it: up to the first slash, up to the first colon. *)
Definition gate_host (rest : text) : text :=
  map to_ascii_lowercase (default rest (head (split (chr ":") (default rest (head (split (chr "/") rest)))))).

Definition local_host (h : text) : Prop := h = lit "localhost" \/ h = lit "127.0.0.1" \/ exists t, h = t ++ lit ".localhost".

(** The relying-party gate is exact: an identifier passes for an origin when it is not empty, the
    scheme is https (or http on a local host, in any case of letters), and the identifier is the host
    or what follows one of its dots. *)
Theorem rp_gate_exact rp origin :
  rp_id_matches_origin rp origin = true <->
  rp <> [] /\ exists scheme rest, split_once_str (lit "://") origin = Some (scheme, rest)
    /\ (eq_ignore_ascii_case scheme (lit "https") = true
        \/ eq_ignore_ascii_case scheme (lit "http") = true /\ local_host (gate_host rest))
    /\ (gate_host rest = map to_ascii_lowercase rp \/ exists t, gate_host rest = t ++ lit "." ++ map to_ascii_lowercase rp).
Proof.
  unfold rp_id_matches_origin. case_bool_decide as H0; [split; [done|]; by intros [? _]|].
  destruct (split_once_str _ origin) as [[scheme rest]|]; [|split; [done|]; by intros (_ & ? & ? & ? & _)].
  cbv zeta. fold (gate_host rest). set (h := gate_host rest). set (rp' := map to_ascii_lowercase rp).
  assert (Hl : bool_decide (h = lit "localhost") || bool_decide (h = lit "127.0.0.1") || ends_with (lit ".localhost") h = true <-> local_host h).
  { unfold local_host. rewrite !orb_true_iff, !bool_decide_eq_true, ends_with_app. tauto. }
  assert (Hh : bool_decide (h = rp') || ends_with (lit "." ++ rp') h = true <-> h = rp' \/ exists t, h = t ++ lit "." ++ rp').
  { by rewrite orb_true_iff, bool_decide_eq_true, ends_with_app. }
  transitivity ((eq_ignore_ascii_case scheme (lit "https") = true \/ eq_ignore_ascii_case scheme (lit "http") = true /\ local_host h)
                /\ (h = rp' \/ exists t, h = t ++ lit "." ++ rp')).
  - rewrite <- Hh, <- Hl. destruct (eq_ignore_ascii_case scheme _), (eq_ignore_ascii_case scheme _), (_ || _ || _); cbn; naive_solver.
  - split; [intros [? ?]; split; [done|]; by exists scheme, rest|]. by intros (_ & ? & ? & [= <- <-] & ? & ?).
Qed.

(** The gate takes a public suffix for an identifier, which a browser refuses. *)
Lemma rp_gate_public_suffix :
  rp_id_matches_origin (lit "com") (lit "https://evil.com") = true
  /\ rp_id_matches_origin (lit "co.uk") (lit "https://shop.co.uk") = true.
Proof. split; vm_compute; reflexivity. Qed.
End gate.

(** * Concrete runs *)

Module HostDemo.
#[export] Existing Instances toy_base64 toy_base64_laws Autofill.demo_urls.
#[export] Instance hmac : TotpHmac := {|
  hmac_sha1 k m := arr_fill 20 (byte_of_Z (toy_sum [k; m]));
  hmac_sha2_256 k m := arr_fill 32 (byte_of_Z (toy_sum [k; m]));
  hmac_sha2_512 k m := arr_fill 64 (byte_of_Z (toy_sum [k; m])) |}.
#[export] Instance query : QueryPairs := {| query_pairs _ := None |}.
#[export] Instance uuid_text : UuidText := {| uuid_parse s := arr_of (map byte_of_Z s); uuid_show u := map byte_to_Z (arr_bytes u) |}.
#[export] Instance uuid_text_laws : UuidTextLaws.
Proof.
  split. intros u. cbn. rewrite map_map. rewrite (map_ext _ (fun b => b)) by apply byte_of_to_Z. rewrite map_id. apply arr_of_bytes.
Qed.
#[export] Instance ascii_lower : Unicode := {| to_lowercase := map to_ascii_lowercase |}.

(** A codec of one message, enough to run the loop. *)
Definition unit_json : Json Reply := {| to_vec _ := inr [Byte.x2a]; from_slice _ := inr (locked []) |}.

Definition vk : VaultKey := arr_fill 32 Byte.x2a.
Definition draw (n : Z) : Host.Draw :=
  @Host.MkDraw plain_ecdsa (1700000000 + n) (arr_le 24 n) (arr_le 16 (n + 1)) (arr_le 32 (n + 7)) (arr_le 16 (n + 9)).
Definition empty_host : Host.Host := Host.MkHost (VaultSession.unlocked vk) LocalVault.open.

(** A login of another site; the requests of a shop. *)
Definition login (pw : text) : Item.t :=
  Item.MkItem (arr_le 16 77) ItemType.Login (lit "bank") [] [UrlMatch.MkUrlMatch (lit "https://bank.co.uk") UrlMode.Domain] None []
    (Some (Login.MkLogin None (Some pw) None)) None None None 5 5 None.
Definition req (kind : NmType.t) (l : list (string * Value)) : Reply := MkNmEnvelope (lit "7") kind None (Some (Js.obj l)) None.
Definition save_req : Host.SaveCandidateRequest :=
  Host.MkSaveCandidateRequest (lit "https://shop.com") (lit "ann") (lit "s3cret") [].
Definition save_env : Reply := req NmType.VaultSaveCandidate
  [("origin", Str (lit "https://shop.com")); ("username", Str (lit "ann")); ("password", Str (lit "s3cret"))]%string.
Definition register_req : Host.PasskeyRegisterReq :=
  Host.MkPasskeyRegisterReq (lit "https://shop.com") (lit "shop.com") None (lit "ann") None (b64_encode [Byte.x01]).
Definition register_env : Reply := req NmType.VaultPasskeyRegister
  [("origin", Str (lit "https://shop.com")); ("rpId", Str (lit "shop.com")); ("userName", Str (lit "ann"));
   ("userHandleB64u", Str (b64_encode [Byte.x01]))]%string.
Definition minted : Passkey.t :=
  passkey.mint_passkey (E := plain_ecdsa) (arr_le 32 7) (arr_le 16 9) (lit "shop.com") None (lit "ann") None [Byte.x01].

(** The items of the runs, and a codec that writes an item as its number. *)
Definition table : list Item.t :=
  [login (lit "one"); login (lit "two"); Host.new_candidate (draw 0) save_req; Host.passkey_item (draw 0) register_req minted;
   Host.with_passkey (Host.passkey_item (draw 0) register_req minted) (Host.bumped minted) 1700000001].
#[export] Instance item_json : Json Item.t := table_json table.
#[export] Instance item_json_laws : JsonLaws Item.t := table_json_laws table.

Definition seal_login (pw : text) : ItemEnvelope :=
  match VaultSession.seal (arr_le 24 1) (VaultSession.unlocked vk) (login pw) with Ok e => e | _ => [] end.
Definition sealed_one : ItemEnvelope := Eval vm_compute in seal_login (lit "one").
Definition sealed_two : ItemEnvelope := Eval vm_compute in seal_login (lit "two").
Definition host_with (e : ItemEnvelope) : Host.Host :=
  Host.MkHost (VaultSession.unlocked vk) (LocalVault.MkLocalVault {[arr_le 16 77 := (e, 5)]} ∅).

Definition saved_host : Host.Host := snd (Host.save_candidate (draw 0) empty_host save_env).
Definition registered_host : Host.Host := snd (Host.passkey_register (draw 0) empty_host register_env).
End HostDemo.

Section runs.
Import HostDemo GenDemo Host.

Lemma same_for_demo : same_for (fillable (lit "https://shop.com")) (host_with sealed_one) (host_with sealed_two).
Proof.
  split; [reflexivity|]. split; [|vm_compute; reflexivity]. intros i. unfold lookup.
  destruct (uuid_parse i) as [u|]; [|reflexivity]. unfold LocalVault.get. cbn [host_with vault LocalVault.items].
  destruct (decide (u = arr_le 16 77)) as [->|Hne].
  - rewrite !lookup_singleton_eq. vm_compute. right. split; reflexivity.
  - rewrite !lookup_singleton_ne by congruence. reflexivity.
Defined.

Lemma no_cross_origin_flow_witness :
  let env := req NmType.VaultFieldsGet [("id", Str (uuid_show (arr_le 16 77))); ("fields", Arr [Str (lit "password")]);
                                        ("origin", Str (lit "https://shop.com")); ("reason", Str [])]%string in
  fst (handle [] (draw 0) env (Some (host_with sealed_one))) = fst (handle [] (draw 0) env (Some (host_with sealed_two))).
Proof.
  apply (no_cross_origin_flow [] (draw 0) (req NmType.VaultFieldsGet _)). exact same_for_demo.
Defined.

(** Two frames of length one in three reads, each answered. *)
Lemma serve_chunking_witness :
  exists stop out s, Serve.serve (J := unit_json) (fun env s => (Ok env, S s)) (fun _ => true)
      (map Some [[Byte.x01]; [Byte.x00; Byte.x00; Byte.x00; Byte.x2a; Byte.x01; Byte.x00]; [Byte.x00; Byte.x00; Byte.x2a]]) O
    = (stop, out, s) /\ stop <> Serve.OutOfFuel /\ s = 2%nat.
Proof.
  destruct (serve_chunking (J := unit_json) (fun env s => (Ok env, S s)) (fun _ => true)
    [[Byte.x01]; [Byte.x00; Byte.x00; Byte.x00; Byte.x2a; Byte.x01; Byte.x00]; [Byte.x00; Byte.x00; Byte.x2a]] O)
    as (stop & out & s & H1 & H2 & H3 & _); [by repeat constructor|].
  exists stop, out, s. split; [exact H1|]. split; [exact H3|]. vm_compute in H2. by injection H2.
Defined.

Lemma saved_is_filled_witness :
  exists action i u, Ok (Host.saved save_env action i) = fst (handle [] (draw 0) save_env (Some empty_host)) /\ u = Some (lit "ann")
    /\ fst (handle [] (draw 1) (fields_env (uuid_show i) (lit "https://shop.com") (lit "8")) (Some saved_host))
       = Ok (Host.ok (lit "8") NmType.VaultFieldsGet (Js.obj [("fields"%string, Obj ([(lit "username", Str (lit "ann"))]
           ++ [(lit "password", Str (lit "s3cret"))]))])).
Proof.
  destruct (saved_is_filled [] (draw 0) (draw 1) save_env save_req
    (MkOrigin (lit "https") (lit "shop.com") None) empty_host vk (saved save_env "created" (uuid (draw 0))) saved_host (lit "8"))
    as (action & i & u & Hr & Hu & Hh & _);
    [reflexivity|vm_compute; reflexivity|vm_compute; reflexivity|reflexivity|apply LocalVault.open_wf|split; vm_compute; congruence
    |vm_compute; reflexivity|reflexivity|].
  exists action, i, u. destruct u as [u|]; [|vm_compute in Hu; discriminate Hu]. cbn in Hu. subst u.
  split; [rewrite <- Hr; vm_compute; reflexivity|]. split; [reflexivity|]. apply (f_equal fst) in Hh. exact Hh.
Defined.

Lemma passkey_signs_in_witness :
  exists data sig vk, verify (Ecdsa := plain_ecdsa) vk (data ++ sha256 (utf8 (lit "{}"))) sig = true /\ be_val (drop 33 data) = 1.
Proof.
  destruct (passkey_signs_in [] (draw 0) (draw 1) register_env register_req empty_host vk
    (match fst (passkey_register (draw 0) empty_host register_env) with Ok r => r | _ => locked [] end) registered_host (lit "9") (lit "{}"))
    as (att & auth & data & sig & reg & vk & h2 & _ & _ & _ & _ & _ & _ & Hc & Hv & _);
    [reflexivity|vm_compute; reflexivity|reflexivity|split; vm_compute; congruence|split; vm_compute; congruence| |vm_compute; reflexivity|vm_compute; reflexivity|].
  - intros x Hx. vm_compute in Hx. apply elem_of_nil in Hx. destruct Hx.
  - exists data, sig, vk. split; [exact Hv|exact Hc].
Defined.
End runs.
