(* ===== verification/ApiDb.v ===== *)
(** [services/api/src/{error,state,config}.rs] and the schema of [services/api/migrations]:
    the sync server's error type, its database and the monad its handlers run in.

    A table is a finite map from its primary key to its row; a query reads it, an update
    replaces it. A statement is one step of the handler; concurrency between handlers is
    expressed by the statements' order. Times ([timestamptz], [OffsetDateTime], [Instant])
    are microseconds; the time of a request is one argument. A primary key drawn by
    [gen_random_uuid()] is an argument of the handler that inserts the row; inserting under a
    key in use, or referring to a row that is not there, is a database error ([Internal]). *)
From S2P Require Import Prelude Bytes Text Crypto Toy RecoveryKit Keyring Model.
Local Open Scope Z_scope.

Definition SEC : Z := 1000000.
Definition MINUTE : Z := 60 * SEC.
Definition DAY : Z := 86400 * SEC.

(** [OffsetDateTime::unix_timestamp]. *)
Definition unix (t : Z) : Z := t / SEC.

(** * [error.rs] *)

Inductive ApiError : Type :=
| Unauthorized
| Forbidden
| NotFound
| BadRequest (m : string)
| VersionConflict (current : Z)
| RateLimited
| LockedOut
| Internal.

#[export] Instance ApiError_eq_dec : EqDecision ApiError.
Proof. solve_decision. Defined.

(** Status and code of the response. *)
Definition parts (e : ApiError) : Z * string :=
  match e with
  | Unauthorized => (401, "unauthorized")
  | Forbidden => (403, "forbidden")
  | NotFound => (404, "not_found")
  | BadRequest _ => (400, "bad_request")
  | VersionConflict _ => (409, "version_conflict")
  | RateLimited => (429, "rate_limited")
  | LockedOut => (429, "locked_out")
  | Internal => (500, "internal")
  end.

(** * The schema *)

Module DeviceStatus.
Inductive t : Type := Pending | Approved | Revoked.
#[global] Instance eq_dec : EqDecision t.
Proof. solve_decision. Defined.
End DeviceStatus.

Module UnlockState.
Inductive t : Type := Pending | Approved | Denied | Expired.
#[global] Instance eq_dec : EqDecision t.
Proof. solve_decision. Defined.
End UnlockState.

Module TransferState.
Inductive t : Type := Pending | Delivered | Expired.
#[global] Instance eq_dec : EqDecision t.
Proof. solve_decision. Defined.
End TransferState.

Record Account : Type := MkAccount {
  google_sub : text;
  email : text;
  totp_secret_enc : option bytes;
  totp_confirmed_at : option Z;
  acc_created_at : Z;
  is_bootstrap_owner : bool;
  pw_auth_salt : option bytes;
  pw_auth_hash : option bytes;
}.

Record Device : Type := MkDevice {
  dev_account : Uuid;
  dev_name : text;
  dev_platform : text;
  dev_status : DeviceStatus.t;
  phone_pub_p256 : option bytes;
  push_token : option text;
  approved_by : option Uuid;
  dev_created_at : Z;
}.

Record WrappedKey : Type := MkWrappedKey { wk_device : option Uuid; wk_blob : bytes; wk_created_at : Z }.

Record VaultRow : Type := MkVaultRow {
  version : Z;
  ciphertext : bytes;
  vault_updated_at : Z;
  updated_by : option Uuid;
}.

Record RefreshToken : Type := MkRefreshToken {
  rt_account : Uuid;
  rt_device : Uuid;
  token_hash : bytes;
  parent_id : option Uuid;
  rt_expires_at : Z;
  revoked_at : option Z;
  rt_created_at : Z;
}.

Record Lockout : Type := MkLockout { failed_count : Z; locked_until : option Z }.

Record UnlockRequest : Type := MkUnlockRequest {
  ur_account : Uuid;
  desktop_device_id : Uuid;
  phone_device_id : Uuid;
  ur_kind : text;
  request_payload : bytes;
  response_payload : option bytes;
  ur_state : UnlockState.t;
  ur_created_at : Z;
  ur_expires_at : Z;
}.

Record SecurityEvent : Type := MkSecurityEvent {
  ev_account : option Uuid;
  ev_kind : string;
  ev_ip : option text;
  ev_detail : option text;
  ev_created_at : Z;
}.

Record FileTransfer : Type := MkFileTransfer {
  ft_account : Uuid;
  sender_device_id : Uuid;
  recipient_device_id : option Uuid;
  size_bytes : Z;
  ft_ciphertext : bytes;
  ft_state : TransferState.t;
  ft_created_at : Z;
  ft_expires_at : Z;
  delete_on_download : bool;
  permanent : bool;
}.

Record EnrollCode : Type := MkEnrollCode {
  ec_account : Uuid;
  code_hash : bytes;
  ec_created_at : Z;
  ec_expires_at : Z;
  used_at : option Z;
}.

Record Db : Type := MkDb {
  accounts : gmap Uuid Account;
  devices : gmap Uuid Device;
  wrapped_keys : gmap (Uuid * Z * option Uuid) WrappedKey;
  vaults : gmap Uuid VaultRow;
  refresh_tokens : gmap Uuid RefreshToken;
  totp_lockouts : gmap Uuid Lockout;
  unlock_requests : gmap Uuid UnlockRequest;
  security_events : list SecurityEvent;
  banned_ips : gmap text (option Z);
  file_transfers : gmap Uuid FileTransfer;
  enroll_codes : gmap Uuid EnrollCode;
}.

Definition set_accounts f (d : Db) : Db :=
  MkDb (f (accounts d)) (devices d) (wrapped_keys d) (vaults d) (refresh_tokens d) (totp_lockouts d)
    (unlock_requests d) (security_events d) (banned_ips d) (file_transfers d) (enroll_codes d).
Definition set_devices f (d : Db) : Db :=
  MkDb (accounts d) (f (devices d)) (wrapped_keys d) (vaults d) (refresh_tokens d) (totp_lockouts d)
    (unlock_requests d) (security_events d) (banned_ips d) (file_transfers d) (enroll_codes d).
Definition set_wrapped_keys f (d : Db) : Db :=
  MkDb (accounts d) (devices d) (f (wrapped_keys d)) (vaults d) (refresh_tokens d) (totp_lockouts d)
    (unlock_requests d) (security_events d) (banned_ips d) (file_transfers d) (enroll_codes d).
Definition set_vaults f (d : Db) : Db :=
  MkDb (accounts d) (devices d) (wrapped_keys d) (f (vaults d)) (refresh_tokens d) (totp_lockouts d)
    (unlock_requests d) (security_events d) (banned_ips d) (file_transfers d) (enroll_codes d).
Definition set_refresh_tokens f (d : Db) : Db :=
  MkDb (accounts d) (devices d) (wrapped_keys d) (vaults d) (f (refresh_tokens d)) (totp_lockouts d)
    (unlock_requests d) (security_events d) (banned_ips d) (file_transfers d) (enroll_codes d).
Definition set_totp_lockouts f (d : Db) : Db :=
  MkDb (accounts d) (devices d) (wrapped_keys d) (vaults d) (refresh_tokens d) (f (totp_lockouts d))
    (unlock_requests d) (security_events d) (banned_ips d) (file_transfers d) (enroll_codes d).
Definition set_unlock_requests f (d : Db) : Db :=
  MkDb (accounts d) (devices d) (wrapped_keys d) (vaults d) (refresh_tokens d) (totp_lockouts d)
    (f (unlock_requests d)) (security_events d) (banned_ips d) (file_transfers d) (enroll_codes d).
Definition set_security_events f (d : Db) : Db :=
  MkDb (accounts d) (devices d) (wrapped_keys d) (vaults d) (refresh_tokens d) (totp_lockouts d)
    (unlock_requests d) (f (security_events d)) (banned_ips d) (file_transfers d) (enroll_codes d).
Definition set_banned_ips f (d : Db) : Db :=
  MkDb (accounts d) (devices d) (wrapped_keys d) (vaults d) (refresh_tokens d) (totp_lockouts d)
    (unlock_requests d) (security_events d) (f (banned_ips d)) (file_transfers d) (enroll_codes d).
Definition set_file_transfers f (d : Db) : Db :=
  MkDb (accounts d) (devices d) (wrapped_keys d) (vaults d) (refresh_tokens d) (totp_lockouts d)
    (unlock_requests d) (security_events d) (banned_ips d) (f (file_transfers d)) (enroll_codes d).
Definition set_enroll_codes f (d : Db) : Db :=
  MkDb (accounts d) (devices d) (wrapped_keys d) (vaults d) (refresh_tokens d) (totp_lockouts d)
    (unlock_requests d) (security_events d) (banned_ips d) (file_transfers d) (f (enroll_codes d)).

Definition empty_db : Db := MkDb ∅ ∅ ∅ ∅ ∅ ∅ ∅ [] ∅ ∅ ∅.

(** * Server state, configuration and requests *)

(** The database and the in-memory rate limiter (the hit times of each key). *)
Record Srv : Type := MkSrv { db : Db; limiter : gmap text (list Z) }.

Definition set_db f (s : Srv) : Srv := MkSrv (f (db s)) (limiter s).

Record Config : Type := MkConfig {
  google_client_id : option text;
  bootstrap_token : option text;
  totp_enc_key : Key32;
  production : bool;
  trust_forwarded_for : bool;
  autoban_threshold : Z;
  autoban_window_secs : Z;
  autoban_minutes : Z;
  update_flag_dir : option text;
}.

(** What a handler sees of the connection and the clock. *)
Record Req : Type := MkReq {
  x_forwarded_for : option text;
  peer : option text;
  now : Z;
}.

(** [Auth] and [PendingAuth]: a caller whose token was verified. *)
Record Auth : Type := MkAuth { account : Uuid; device : Uuid }.

(** * The handler monad *)

Definition M (A : Type) : Type := ST Srv ApiError A.

Definition query {A} (f : Db -> A) : M A := fun s => (Ok (f (db s)), s).
Definition update (f : Db -> Db) : M unit := fun s => (Ok tt, set_db f s).

(** [INSERT]: a duplicate primary key is a database error. *)
Definition insert_row {K V} `{Countable K} (set : (gmap K V -> gmap K V) -> Db -> Db) (get : Db -> gmap K V)
    (k : K) (v : V) : M unit :=
  let! t := query get in
  match t !! k with
  | Some _ => err Internal
  | None => update (set (insert k v))
  end.

(** [UPDATE ... WHERE id = $k]. *)
Definition alter_row {K V} `{Countable K} (set : (gmap K V -> gmap K V) -> Db -> Db) (k : K) (f : V -> V) : M unit :=
  update (set (alter f k)).

(** [fetch_one]: no row is [RowNotFound], which the error type turns into [NotFound]. *)
Definition fetch_one {A} (f : Db -> option A) : M A :=
  let! o := query f in
  match o with Some a => ret a | None => err NotFound end.

(** [fetch_optional(...).ok_or(e)]. *)
Definition fetch_or {A} (e : ApiError) (f : Db -> option A) : M A :=
  let! o := query f in
  match o with Some a => ret a | None => err e end.

(** ** Reasoning *)

Lemma fetch_or_Ok {A} e (f : Db -> option A) s a s' :
  fetch_or e f s = (Ok a, s') <-> f (db s) = Some a /\ s' = s.
Proof. unfold fetch_or, mbind, query. destruct (f (db s)); cbn; unfold ret, err; naive_solver. Qed.

Lemma insert_row_Ok {K V} `{Countable K} set (get : Db -> gmap K V) k v s u s' :
  insert_row set get k v s = (Ok u, s') <-> get (db s) !! k = None /\ s' = set_db (set (insert k v)) s.
Proof.
  unfold insert_row, mbind, query. destruct (get (db s) !! k); unfold err, update; destruct u; naive_solver.
Qed.

(** Split a successful run of a handler into its statements. *)
Ltac inv_run :=
  repeat match goal with
  | H : mbind _ _ _ = (Ok _, _) |- _ =>
      let a := fresh "a" in let s := fresh "s" in let Ha := fresh "Ha" in
      apply mbind_Ok in H as (a & s & Ha & H)
  | H : (if ?b then _ else _) _ = (Ok _, _) |- _ =>
      let E := fresh "Eg" in destruct b eqn:E; try discriminate H
  | H : (match ?o with Some _ => _ | None => _ end) _ = (Ok _, _) |- _ =>
      let E := fresh "Eo" in destruct o eqn:E; try discriminate H
  | H : ret _ _ = (Ok _, _) |- _ => unfold ret in H; injection H; clear H; intros; subst
  | H : err _ _ = (Ok _, _) |- _ => discriminate H
  | H : update _ _ = (Ok _, _) |- _ => unfold update in H; injection H; clear H; intros; subst
  | H : alter_row _ _ _ _ = (Ok _, _) |- _ => unfold alter_row, update in H; injection H; clear H; intros; subst
  | H : query _ _ = (Ok _, _) |- _ => unfold query in H; injection H; clear H; intros; subst
  | H : fetch_or _ _ _ = (Ok _, _) |- _ => apply fetch_or_Ok in H as [? ?]; subst
  | H : fetch_one _ _ = (Ok _, _) |- _ => apply (fetch_or_Ok NotFound) in H as [? ?]; subst
  | H : insert_row _ _ _ _ _ = (Ok _, _) |- _ => apply insert_row_Ok in H as [? ?]; subst
  | x : unit |- _ => destruct x
  end.

(** Read a table of an updated server. *)
Ltac dbsimpl :=
  cbn [db limiter set_db accounts devices wrapped_keys vaults refresh_tokens totp_lockouts unlock_requests security_events banned_ips file_transfers enroll_codes set_accounts set_devices set_wrapped_keys set_vaults set_refresh_tokens set_totp_lockouts set_unlock_requests set_security_events set_banned_ips set_file_transfers set_enroll_codes fst snd].
Ltac dbsimpl_in H :=
  cbn [db limiter set_db accounts devices wrapped_keys vaults refresh_tokens totp_lockouts unlock_requests security_events banned_ips file_transfers enroll_codes set_accounts set_devices set_wrapped_keys set_vaults set_refresh_tokens set_totp_lockouts set_unlock_requests set_security_events set_banned_ips set_file_transfers set_enroll_codes fst snd] in H.
