(* ===== verification/ApiAuth.v ===== *)
(** [services/api/src/auth.rs], [ratelimit.rs] and [security.rs]: tokens, the second factor,
    the sliding-window rate limiter, the attack monitor and the guard of the sign-in
    endpoints. The JWT, UUID and hash crates are parameters. *)
From S2P Require Import Prelude Bytes Text Crypto Totp Toy RecoveryKit Keyring Model ApiDb.
Local Open Scope Z_scope.

(** * Third-party code *)

Record AccessClaims : Type := MkAccessClaims { sub : text; dev : text; iat : Z; exp : Z; tok : text }.

(** [jsonwebtoken] with the server's key pair, [uuid]'s text form, HMAC-SHA1, and the
    grammar of IP addresses ([parse::<IpAddr>()] followed by [to_string()]). *)
Class AuthLibs : Type := {
  jwt_encode : AccessClaims -> option text;
  jwt_decode : Z -> text -> option AccessClaims;
  uuid_to_string : Uuid -> text;
  uuid_parse : text -> option Uuid;
  totp_hmac :: TotpHmac;
  url_safe_b64 : bytes -> text;
  ip_opt : text -> option text;
}.

(** A token decodes to the claims it was made from until it expires (with the crate's
    default leeway of 60 seconds); identifiers print and parse back. *)
Class AuthLaws (A : AuthLibs) : Prop := {
  jwt_decode_encode c t now : jwt_encode c = Some t -> now <= exp c + 60 -> jwt_decode now t = Some c;
  uuid_parse_to_string u : uuid_parse (uuid_to_string u) = Some u;
}.

(** * [auth.rs] *)

Module auth.
Definition ACCESS_TTL_SECS : Z := 600.
Definition PENDING_TTL_SECS : Z := 300.

(** The loop accumulates the differing bits. *)
Definition constant_time_eq (a b : bytes) : bool :=
  if negb (length a =? length b)%nat then false
  else fold_left (fun diff p => Z.lor diff (Z.lxor (byte_to_Z p.1) (byte_to_Z p.2))) (zip a b) 0 =? 0.

Section libs.
Context {A : AuthLibs} {P : CryptoPrims}.

Definition issue (account device : Uuid) (now ttl : Z) (tok : text) : result text ApiError :=
  let claims := MkAccessClaims (uuid_to_string account) (uuid_to_string device) now (now + ttl) tok in
  ok_or (jwt_encode claims) Internal.

Definition issue_access (account device : Uuid) (now : Z) : result text ApiError :=
  issue account device now ACCESS_TTL_SECS (lit "access").

Definition issue_pending (account device : Uuid) (now : Z) : result text ApiError :=
  issue account device now PENDING_TTL_SECS (lit "pending").

(** [now] is the clock the crate compares [exp] with. *)
Definition verify_with_kind (now : Z) (token kind : text) : result AccessClaims ApiError :=
  let? claims := ok_or (jwt_decode now token) Unauthorized in
  guard bool_decide (tok claims = kind) else Err Unauthorized in
  Ok claims.

Definition verify_access (now : Z) (token : text) : result AccessClaims ApiError :=
  verify_with_kind now token (lit "access").
Definition verify_pending (now : Z) (token : text) : result AccessClaims ApiError :=
  verify_with_kind now token (lit "pending").

(** [state.rs]: the extractors [Auth] and [PendingAuth] on an Authorization header. *)
Definition bearer (authorization : option text) : result text ApiError :=
  match authorization with
  | Some h => ok_or (strip_prefix (lit "Bearer ") h) Unauthorized
  | None => Err Unauthorized
  end.

Definition claims_auth (claims : AccessClaims) : result Auth ApiError :=
  let? account := ok_or (uuid_parse (sub claims)) Unauthorized in
  let? device := ok_or (uuid_parse (dev claims)) Unauthorized in
  Ok (MkAuth account device).

Definition Auth_from_request (now : Z) (authorization : option text) : result Auth ApiError :=
  let? t := bearer authorization in
  let? claims := verify_access now t in
  claims_auth claims.

Definition PendingAuth_from_request (now : Z) (authorization : option text) : result Auth ApiError :=
  let? t := bearer authorization in
  let? claims := verify_pending now t in
  claims_auth claims.

(** A fresh refresh token of 32 random bytes, and the hash that is stored. *)
Definition hash_refresh (token : text) : bytes := sha256 (utf8 token).
Definition mint_refresh (b : arr 32) : text * bytes :=
  let token := url_safe_b64 b in (token, hash_refresh token).

(** Six digits of HMAC-SHA1 over the 30-second counter; [i64] division truncates. *)
Definition totp_code (secret : bytes) (unix : Z) : result text ApiError :=
  let counter := Z.quot unix 30 mod 2 ^ 64 in
  let digest := hmac_sha1 secret (be_bytes 8 counter) in
  let? last := index digest (length digest - 1) in
  let offset := Z.to_nat (Z.land (byte_to_Z last) 15) in
  let? d0 := index digest offset in
  let? d1 := index digest (offset + 1) in
  let? d2 := index digest (offset + 2) in
  let? d3 := index digest (offset + 3) in
  let bin := Z.lor (Z.lor (Z.lor (Z.shiftl (Z.land (byte_to_Z d0) 127) 24) (Z.shiftl (byte_to_Z d1) 16))
                      (Z.shiftl (byte_to_Z d2) 8)) (byte_to_Z d3) in
  Ok (show_padded 6 (bin mod 1000000)).

(** The steps -1, 0, +1, stopping at the first match. *)
Fixpoint totp_try (secret : bytes) (code : text) (unix : Z) (steps : list Z) : result bool ApiError :=
  match steps with
  | [] => Ok false
  | step :: steps =>
      let? c := totp_code secret (unix + step * 30) in
      if constant_time_eq (utf8 c) (utf8 code) then Ok true else totp_try secret code unix steps
  end.

Definition totp_verify (secret : bytes) (code : text) (unix : Z) : result bool ApiError :=
  totp_try secret (trim code) unix [-1; 0; 1].

(** The encoder is the same loop as the core's. *)
Definition base32_encode (data : bytes) : result text ApiError := Base32.base32_encode data.

Definition otpauth_uri (secret : bytes) (account_email issuer : text) : result text ApiError :=
  let? b32 := base32_encode secret in
  Ok (lit "otpauth://totp/" ++ issuer ++ lit ":" ++ account_email ++ lit "?secret=" ++ b32
      ++ lit "&issuer=" ++ issuer ++ lit "&algorithm=SHA1&digits=6&period=30").
End libs.
End auth.

(** * [ratelimit.rs] *)

Module RateLimiter.
(** Keep the hits younger than [window], then record this one when fewer than [max] are left. *)
Definition check (map : gmap text (list Z)) (now : Z) (key : text) (max : nat) (window : Z)
    : bool * gmap text (list Z) :=
  let hits := List.filter (fun t => now - t <? window) (default [] (map !! key)) in
  if (max <=? length hits)%nat then (false, <[key := hits]> map)
  else (true, <[key := hits ++ [now]]> map).
End RateLimiter.

(** * [security.rs] *)

Module security.
Definition FAILURE_KINDS : list string :=
  ["login_fail_bootstrap"; "google_reject"; "totp_fail"; "refresh_reuse"].

Section libs.
Context {A : AuthLibs}.

Definition record (rq : Req) (account : option Uuid) (kind : string) (ip : text) (detail : option text) : M unit :=
  update (set_security_events (fun l => MkSecurityEvent account kind (ip_opt ip) detail (now rq) :: l)).

Definition ban_active (rq : Req) (until : option Z) : bool :=
  match until with None => true | Some u => now rq <? u end.

Definition is_banned (rq : Req) (ip : text) : M bool :=
  match ip_opt ip with
  | None => ret false
  | Some ip => query (fun d => match banned_ips d !! ip with Some u => ban_active rq u | None => false end)
  end.

(** The events the ban counts. *)
Definition failures (rq : Req) (window_secs : Z) (ip_lit : text) (l : list SecurityEvent) : nat :=
  length (List.filter (fun e => bool_decide (ev_ip e = Some ip_lit)
                               && (now rq - window_secs * SEC <? ev_created_at e)
                               && bool_decide (ev_kind e ∈ FAILURE_KINDS)) l).

Definition recent_login (rq : Req) (ip_lit : text) (l : list SecurityEvent) : bool :=
  existsb (fun e => bool_decide (ev_ip e = Some ip_lit) && bool_decide (ev_kind e = "login_ok")
                    && (now rq - DAY <? ev_created_at e)) l.

Definition maybe_autoban (cfg : Config) (rq : Req) (ip : text) : M unit :=
  if autoban_threshold cfg =? 0 then ret tt
  else match ip_opt ip with
  | None => ret tt
  | Some ip_lit =>
      let! fails := query (fun d => failures rq (autoban_window_secs cfg) ip_lit (security_events d)) in
      if Z.of_nat fails <? autoban_threshold cfg then ret tt
      else
        let! owner := query (fun d => recent_login rq ip_lit (security_events d)) in
        if owner : bool then ret tt
        else
          let reason := lit "auto: " ++ show_dec (Z.of_nat fails) ++ lit " failed attempts in window" in
          let! _ := update (set_banned_ips (insert ip_lit (Some (now rq + autoban_minutes cfg * MINUTE)))) in
          record rq None "auto_ban" ip (Some reason)
  end.

Definition ban (rq : Req) (ip : text) (minutes : option Z) : M unit :=
  match ip_opt ip with
  | None => ret tt
  | Some ip_lit =>
      match minutes with
      | Some m => if 0 <? m then update (set_banned_ips (insert ip_lit (Some (now rq + m * MINUTE))))
                  else update (set_banned_ips (insert ip_lit None))
      | None => update (set_banned_ips (insert ip_lit None))
      end
  end.

Definition unban (ip : text) : M unit :=
  match ip_opt ip with
  | Some ip_lit => update (set_banned_ips (delete ip_lit))
  | None => ret tt
  end.
End libs.
End security.

(** * The guard of the sign-in endpoints ([routes.rs]) *)

Module Guard.
(** The first [X-Forwarded-For] hop when the proxy is trusted, else the peer address. *)
Definition client_ip (cfg : Config) (rq : Req) : text :=
  let fallback := default (lit "local") (peer rq) in
  if trust_forwarded_for cfg then
    match x_forwarded_for rq with
    | Some h => let fwd := trim (default [] (head (split (chr ",") h))) in
                if bool_decide (fwd = []) then fallback else fwd
    | None => fallback
    end
  else fallback.

Definition check_limit (rq : Req) (key : text) (max : nat) (secs : Z) : M bool := fun s =>
  let '(ok, map) := RateLimiter.check (limiter s) (now rq) key max (secs * SEC) in
  (Ok ok, MkSrv (db s) map).

Definition rate_limit (cfg : Config) (rq : Req) (action : text) (max : nat) (secs : Z) : M unit :=
  let! ok := check_limit rq (action ++ lit ":" ++ client_ip cfg rq) max secs in
  if ok : bool then ret tt else err RateLimited.

Section libs.
Context {A : AuthLibs}.

Definition ip_guard (cfg : Config) (rq : Req) (action : text) (max : nat) (secs : Z) : M text :=
  let ip := client_ip cfg rq in
  let! banned := security.is_banned rq ip in
  if banned : bool then
    let! _ := security.record rq None "banned_block" ip (Some action) in
    err Forbidden
  else
    let! ok := check_limit rq (action ++ lit ":" ++ ip) max secs in
    if ok : bool then ret ip
    else
      let! _ := security.record rq None "rate_limited" ip (Some action) in
      let! _ := security.maybe_autoban cfg rq ip in
      err RateLimited.
End libs.
End Guard.
