(* ===== verification/ApiRoutes.v ===== *)
(** [services/api/src/routes.rs]: the handlers of the sync server. Each handler is the whole
    body of the source function: its guards in order, its statements, its errors. Bodies and
    path arguments are arguments, the extractors' results ([Auth], [PendingAuth]) too; what a
    handler draws at random is its [Draw]. *)
From S2P Require Import Prelude Bytes Text Crypto Totp Toy RecoveryKit Keyring Model ApiDb ApiAuth.
Local Open Scope Z_scope.

(** The fresh identifiers and random bytes of one request. *)
Record Draw : Type := MkDraw {
  new_account : Uuid;
  new_device : Uuid;
  new_token : Uuid;
  new_row : Uuid;
  token_bytes : arr 32;
  totp_secret : arr 20;
  seal_nonce : Nonce24;
}.

Record DeviceReq : Type := MkDeviceReq { dr_name : text; dr_platform : text }.
Record TokensResp : Type := MkTokens { access_token : text; refresh_token : text; expires_in : Z }.

(** The first row satisfying a condition. *)
Definition find_row {V} (p : Uuid -> V -> bool) (m : gmap Uuid V) : option (Uuid * V) :=
  head (List.filter (fun r => p r.1 r.2) (map_to_list m)).

(** [UPDATE ... SET ... WHERE]. *)
Definition update_where {V} (p : V -> bool) (f : V -> V) (m : gmap Uuid V) : gmap Uuid V :=
  (fun v => if p v then f v else v) <$> m.

Module routes.
Section handlers.
Context {A : AuthLibs} {P : CryptoPrims} {B : Base64}.
Variable cfg : Config.

Definition valid_platform (p : text) : bool :=
  bool_decide (p ∈ [lit "windows"; lit "macos"; lit "linux"; lit "ios"]).

(** [name.len() > 64 || !valid_platform(platform)]. *)
Definition device_ok (d : DeviceReq) : bool :=
  negb (64 <? Z.of_nat (length (utf8 (dr_name d)))) && valid_platform (dr_platform d).

Definition insert_device (rq : Req) (dw : Draw) (acc : Uuid) (d : DeviceReq) (st : DeviceStatus.t) : M Uuid :=
  let! _ := insert_row set_devices devices (new_device dw)
              (MkDevice acc (dr_name d) (dr_platform d) st None None None (now rq)) in
  ret (new_device dw).

(** ** Sessions *)

Definition mint_session (rq : Req) (dw : Draw) (acc dev : Uuid) (parent : option Uuid) : M TokensResp :=
  let! access := lift (auth.issue_access acc dev (unix (now rq))) in
  let '(token, hash) := auth.mint_refresh (token_bytes dw) in
  let expires := now rq + 30 * DAY in
  let! dup := query (fun d => find_row (fun _ r => bool_decide (token_hash r = hash)) (refresh_tokens d)) in
  match dup with
  | Some _ => err Internal
  | None =>
      let! _ := insert_row set_refresh_tokens refresh_tokens (new_token dw)
                  (MkRefreshToken acc dev hash parent expires None (now rq)) in
      ret (MkTokens access token 600)
  end.

Definition BOOTSTRAP_SUB : text := lit "bootstrap:local".

(** Insert by [google_sub], or refresh the e-mail of the row that has it. *)
Definition upsert_account (rq : Req) (dw : Draw) (sub em : text) (owner : bool) : M Uuid :=
  let! row := query (fun d => find_row (fun _ a => bool_decide (google_sub a = sub)) (accounts d)) in
  match row with
  | Some (id, a) =>
      let! _ := alter_row set_accounts id (fun a => MkAccount (google_sub a) em (totp_secret_enc a)
        (totp_confirmed_at a) (acc_created_at a) (is_bootstrap_owner a) (pw_auth_salt a) (pw_auth_hash a)) in
      ret id
  | None =>
      let! _ := insert_row set_accounts accounts (new_account dw)
                  (MkAccount sub em None None (now rq) owner None None) in
      ret (new_account dw)
  end.

Record GoogleClaims : Type := MkGoogleClaims { g_sub : text; g_email : text }.

(** [verify] is the configured Google verifier. *)
Definition auth_google (verify : text -> result GoogleClaims ApiError) (rq : Req) (dw : Draw)
    (id_token : text) (dreq : DeviceReq) : M (text * bool) :=
  let! ip := Guard.ip_guard cfg rq (lit "auth_google") 10 60 in
  require device_ok dreq else BadRequest "invalid device" in
  match verify id_token with
  | Panic => lift Panic
  | Err e =>
      let! _ := security.record rq None "google_reject" ip None in
      let! _ := security.maybe_autoban cfg rq ip in
      err e
  | Ok claims =>
      let! rekeyed := query (fun d =>
        if existsb (fun r => negb (bool_decide (google_sub r.2 = BOOTSTRAP_SUB))) (map_to_list (accounts d)) then None
        else find_row (fun _ a => bool_decide (google_sub a = BOOTSTRAP_SUB)) (accounts d)) in
      let! acc :=
        match rekeyed with
        | Some (id, _) =>
            let! _ := alter_row set_accounts id (fun a => MkAccount (g_sub claims) (g_email claims)
              (totp_secret_enc a) (totp_confirmed_at a) (acc_created_at a) (is_bootstrap_owner a)
              (pw_auth_salt a) (pw_auth_hash a)) in
            ret id
        | None => upsert_account rq dw (g_sub claims) (g_email claims) false
        end in
      let! dev := insert_device rq dw acc dreq DeviceStatus.Pending in
      let! totp_confirmed := fetch_one (fun d => totp_confirmed_at <$> accounts d !! acc) in
      let! pending_token := lift (auth.issue_pending acc dev (unix (now rq))) in
      ret (pending_token, bool_decide (totp_confirmed = None))
  end.

(** The account of the built-in login: the flagged one, else the only one (which it flags),
    else a synthetic one. *)
Definition bootstrap_account (rq : Req) (dw : Draw) : M Uuid :=
  let! flagged := query (fun d => find_row (fun _ a => is_bootstrap_owner a) (accounts d)) in
  match flagged with
  | Some (id, _) => ret id
  | None =>
      let! adopted := query (fun d => if (size (accounts d) =? 1)%nat then head (map_to_list (accounts d)) else None) in
      match adopted with
      | Some (id, _) =>
          let! _ := alter_row set_accounts id (fun a => MkAccount (google_sub a) (email a) (totp_secret_enc a)
            (totp_confirmed_at a) (acc_created_at a) true (pw_auth_salt a) (pw_auth_hash a)) in
          ret id
      | None =>
          let! first := query (fun d => (size (accounts d) =? 0)%nat) in
          upsert_account rq dw BOOTSTRAP_SUB (lit "personal@sentinel.local") first
      end
  end.

Definition auth_bootstrap (rq : Req) (dw : Draw) (token : text) (dreq : DeviceReq) : M TokensResp :=
  let! ip := Guard.ip_guard cfg rq (lit "auth_bootstrap") 10 60 in
  match bootstrap_token cfg with
  | None => err Unauthorized
  | Some expected =>
      if negb (auth.constant_time_eq (utf8 token) (utf8 expected)) then
        let! _ := security.record rq None "login_fail_bootstrap" ip None in
        let! _ := security.maybe_autoban cfg rq ip in
        err Unauthorized
      else
        require device_ok dreq else BadRequest "invalid device" in
        let! acc := bootstrap_account rq dw in
        let! dev := insert_device rq dw acc dreq DeviceStatus.Approved in
        let! tokens := mint_session rq dw acc dev None in
        let! _ := security.record rq (Some acc) "login_ok" ip (Some (lit "bootstrap")) in
        ret tokens
  end.

(** ** The second factor *)

Definition TOTP_AAD : bytes := utf8 (lit "totp").

Definition seal_secret (dw : Draw) (secret : bytes) : bytes :=
  let '(nonce, ct) := crypto.seal (seal_nonce dw) (totp_enc_key cfg) TOTP_AAD secret in
  nonce ++ ct.

Definition open_secret (blob : bytes) : result bytes ApiError :=
  guard negb (length blob <? 24)%nat else Err Internal in
  let? nb := slice blob 0 24 in
  let? nonce := copy_from_slice 24 nb in
  let? ct := slice_from blob 24 in
  map_err (fun _ => Internal) (crypto.open (totp_enc_key cfg) TOTP_AAD nonce ct).

(** [base32], a copy of [auth::base32_encode] in this file. *)
Definition base32 (data : bytes) : result text ApiError := Base32.base32_encode data.

Record EnrollResp : Type := MkEnrollResp { er_otpauth_uri : text; secret_base32 : text }.

Definition totp_enroll (dw : Draw) (p : Auth) : M EnrollResp :=
  let secret := arr_bytes (totp_secret dw) in
  let enc := seal_secret dw secret in
  let! em := fetch_one (fun d => email <$> accounts d !! account p) in
  let! _ := alter_row set_accounts (account p) (fun a => MkAccount (google_sub a) (email a) (Some enc)
    (totp_confirmed_at a) (acc_created_at a) (is_bootstrap_owner a) (pw_auth_salt a) (pw_auth_hash a)) in
  let! b32 := lift (base32 secret) in
  let! uri := lift (auth.otpauth_uri secret em (lit "SENTINEL")) in
  ret (MkEnrollResp uri b32).

(** [INSERT ... ON CONFLICT]: one more failure; the fifth locks for 15 minutes. *)
Definition bump_lockout (rq : Req) (o : option Lockout) : Lockout :=
  match o with
  | None => MkLockout 1 None
  | Some l => MkLockout (failed_count l + 1)
                (if 5 <=? failed_count l + 1 then Some (now rq + 15 * MINUTE) else None)
  end.

Definition check_totp_code (rq : Req) (acc : Uuid) (ip code : text) : M unit :=
  let! locked := query (fun d => totp_lockouts d !! acc ≫= locked_until) in
  if match locked with Some until => now rq <? until | None => false end then
    let! _ := security.record rq (Some acc) "totp_lockout" ip None in
    err LockedOut
  else
    let! enc := fetch_one (fun d => totp_secret_enc <$> accounts d !! acc) in
    let! enc := lift (ok_or enc (BadRequest "totp not enrolled")) in
    let! secret := lift (open_secret enc) in
    let! ok := lift (auth.totp_verify secret code (unix (now rq))) in
    if negb ok then
      let! _ := update (set_totp_lockouts (fun t => <[acc := bump_lockout rq (t !! acc)]> t)) in
      let! _ := security.record rq (Some acc) "totp_fail" ip None in
      let! _ := security.maybe_autoban cfg rq ip in
      err Unauthorized
    else update (set_totp_lockouts (delete acc)).

Definition totp_verify (rq : Req) (dw : Draw) (p : Auth) (code : text) : M TokensResp :=
  let! ip := Guard.ip_guard cfg rq (lit "totp:" ++ uuid_to_string (account p)) 10 60 in
  let! _ := check_totp_code rq (account p) ip code in
  let! _ := alter_row set_accounts (account p) (fun a => MkAccount (google_sub a) (email a) (totp_secret_enc a)
    (Some (default (now rq) (totp_confirmed_at a))) (acc_created_at a) (is_bootstrap_owner a)
    (pw_auth_salt a) (pw_auth_hash a)) in
  let! _ := alter_row set_devices (device p) (fun d => MkDevice (dev_account d) (dev_name d) (dev_platform d)
    DeviceStatus.Approved (phone_pub_p256 d) (push_token d) (approved_by d) (dev_created_at d)) in
  let! tokens := mint_session rq dw (account p) (device p) None in
  let! _ := security.record rq (Some (account p)) "login_ok" ip (Some (lit "totp")) in
  ret tokens.

(** ** Master password *)

Definition require_approved_device (dev : Uuid) : M unit :=
  let! status := fetch_or Unauthorized (fun d => dev_status <$> devices d !! dev) in
  require bool_decide (status = DeviceStatus.Approved) else Forbidden in
  ret tt.

Definition pw_auth_account : M (Uuid * bytes * bytes) :=
  let! rows := query (fun d => omap (fun r => salt ← pw_auth_salt r.2; hash ← pw_auth_hash r.2; Some (r.1, salt, hash))
                                 (map_to_list (accounts d))) in
  match rows with
  | [] => err NotFound
  | [r] => ret r
  | _ => err (BadRequest "multiple accounts have password sign-in on this server — sign in with Google")
  end.

Definition password_params (rq : Req) : M (text * Z * Z * Z) :=
  let! _ := Guard.ip_guard cfg rq (lit "pw_params") 30 60 in
  let! (_, salt, _) := pw_auth_account in
  ret (b64_encode salt, 65536, 3, 4).

Definition b64_or (e : string) (t : text) : M bytes := lift (ok_or (b64_decode t) (BadRequest e)).

Definition password_enroll (a : Auth) (salt_b64 verifier_b64 : text) : M unit :=
  let! _ := require_approved_device (device a) in
  let! salt := b64_or "bad salt" salt_b64 in
  let! verifier := b64_or "bad verifier" verifier_b64 in
  require (length salt =? 16)%nat && (length verifier =? 32)%nat
    else BadRequest "salt must be 16 bytes, verifier 32" in
  let hash := arr_bytes (sha256 verifier) in
  alter_row set_accounts (account a) (fun r => MkAccount (google_sub r) (email r) (totp_secret_enc r)
    (totp_confirmed_at r) (acc_created_at r) (is_bootstrap_owner r) (Some salt) (Some hash)).

Definition auth_password (rq : Req) (dw : Draw) (proof_b64 : text) (code : option text) (dreq : DeviceReq)
    : M TokensResp :=
  let! ip := Guard.ip_guard cfg rq (lit "auth_password") 10 60 in
  require device_ok dreq else BadRequest "invalid device" in
  let! (acc, _, stored_hash) := pw_auth_account in
  let! proof := b64_or "bad proof" proof_b64 in
  let hash := arr_bytes (sha256 proof) in
  if negb (auth.constant_time_eq hash stored_hash) then
    let! _ := security.record rq (Some acc) "login_fail_password" ip None in
    let! _ := security.maybe_autoban cfg rq ip in
    err Unauthorized
  else
    let! totp_on := fetch_one (fun d => totp_confirmed_at <$> accounts d !! acc) in
    let! _ :=
      match totp_on with
      | None => ret tt
      | Some _ =>
          match trim <$> code with
          | Some (_ :: _ as c) => check_totp_code rq acc ip c
          | _ => err (BadRequest "totp_required")
          end
      end in
    let! dev := insert_device rq dw acc dreq DeviceStatus.Approved in
    let! tokens := mint_session rq dw acc dev None in
    let! _ := security.record rq (Some acc) "login_ok" ip (Some (lit "password")) in
    ret tokens.

(** ** Refresh and logout *)

Definition revoke (rq : Req) (r : RefreshToken) : RefreshToken :=
  MkRefreshToken (rt_account r) (rt_device r) (token_hash r) (parent_id r) (rt_expires_at r)
    (Some (now rq)) (rt_created_at r).

Definition of_device (acc dev : Uuid) (r : RefreshToken) : bool :=
  bool_decide (rt_account r = acc) && bool_decide (rt_device r = dev).

Definition auth_refresh (rq : Req) (dw : Draw) (token : text) : M TokensResp :=
  let! ip := Guard.ip_guard cfg rq (lit "auth_refresh") 30 60 in
  let hash := auth.hash_refresh token in
  let! (id, row) := fetch_or Unauthorized
    (fun d => find_row (fun _ r => bool_decide (token_hash r = hash)) (refresh_tokens d)) in
  match revoked_at row with
  | Some _ =>
      let! _ := update (set_refresh_tokens (update_where (of_device (rt_account row) (rt_device row)) (revoke rq))) in
      let! _ := security.record rq (Some (rt_account row)) "refresh_reuse" ip None in
      let! _ := security.maybe_autoban cfg rq ip in
      err Unauthorized
  | None =>
      require negb (rt_expires_at row <? now rq) else Unauthorized in
      let! _ := alter_row set_refresh_tokens id (revoke rq) in
      mint_session rq dw (rt_account row) (rt_device row) (Some id)
  end.

Definition unrevoked (r : RefreshToken) : bool := bool_decide (revoked_at r = None).

Definition auth_logout (rq : Req) (a : Auth) : M unit :=
  update (set_refresh_tokens (update_where (fun r => of_device (account a) (device a) r && unrevoked r) (revoke rq))).

(** ** The vault *)

Definition vault_get (a : Auth) : M (option (Z * text)) :=
  let! _ := require_approved_device (device a) in
  let! row := query (fun d => vaults d !! account a) in
  match row with
  | None => ret None
  | Some v => ret (Some (version v, b64_encode (ciphertext v)))
  end.

(** The checks of [vault_put] before its first statement on the table. *)
Definition vault_put_check (a : Auth) (if_match : option text) (ciphertext_b64 : text) : M (Z * bytes) :=
  let! _ := require_approved_device (device a) in
  let! m := lift (ok_or (if_match ≫= fun s => parse_i64 (trim_matches 34 s)) (BadRequest "If-Match header required")) in
  let! ct := b64_or "ciphertext_b64 not base64" ciphertext_b64 in
  require negb (Z.of_nat (length ct) <? 32) && negb (33554432 <? Z.of_nat (length ct))
    else BadRequest "ciphertext size out of range" in
  ret (m, ct).

(** [SELECT version FROM vaults]. *)
Definition vault_put_read (a : Auth) : M (option Z) := query (fun d => version <$> vaults d !! account a).

(** The rest, from the version that was read. The trigger of the table accepts the update:
    it adds one to whatever version the row has. *)
Definition vault_put_write (rq : Req) (a : Auth) (if_match : Z) (ct : bytes) (current : option Z) : M Z :=
  match current with
  | None =>
      require if_match =? 0 else VersionConflict 0 in
      let! _ := insert_row set_vaults vaults (account a) (MkVaultRow 1 ct (now rq) (Some (device a))) in
      ret 1
  | Some v =>
      require if_match =? v else VersionConflict v in
      let! _ := alter_row set_vaults (account a) (fun r => MkVaultRow (version r + 1) ct (now rq) (Some (device a))) in
      ret (v + 1)
  end.

(** The handler. [others] is what the requests of other clients do to the server between its two
    statements; [vault_put] is the handler when none comes in between. *)
Definition vault_put_during (others : Srv -> Srv) (rq : Req) (a : Auth) (if_match : option text) (ciphertext_b64 : text) : M Z :=
  let! (m, ct) := vault_put_check a if_match ciphertext_b64 in
  let! current := vault_put_read a in
  let! _ := (fun s => (Ok tt, others s)) in
  vault_put_write rq a m ct current.
Definition vault_put : Req -> Auth -> option text -> text -> M Z := vault_put_during (fun s => s).

(** ** Wrapped keys *)

Definition wrapped_get (a : Auth) (wt : Z) : M (Z * text) :=
  let! _ := require_approved_device (device a) in
  let! blob := fetch_or NotFound (fun d =>
    head (omap (fun r => if bool_decide (r.1.1 = (account a, wt)) then Some (wk_blob r.2) else None)
            (map_to_list (wrapped_keys d)))) in
  ret (wt, b64_encode blob).

Definition wrapped_put (rq : Req) (a : Auth) (wt : Z) (blob_b64 : text) (device_id : option Uuid) : M unit :=
  let! _ := require_approved_device (device a) in
  require (1 <=? wt) && (wt <=? 4) else BadRequest "wrapper_type must be 1..4" in
  let! blob := b64_or "blob_b64 not base64" blob_b64 in
  require negb (length blob <? 80)%nat && negb (512 <? length blob)%nat
          && bool_decide (take 4 blob = WrappedBlob.MAGIC)
    else BadRequest "invalid wrapped-key blob" in
  let! known := query (fun d => match device_id with Some id => bool_decide (is_Some (devices d !! id)) | None => true end) in
  require known else Internal in
  update (set_wrapped_keys (insert (account a, wt, device_id) (MkWrappedKey device_id blob (now rq)))).

Definition wrapped_delete (a : Auth) (wt : Z) : M unit :=
  let! _ := require_approved_device (device a) in
  update (set_wrapped_keys (base.filter (fun r => r.1.1 <> (account a, wt)))).

(** ** Enrollment codes *)

Definition enroll_code_mint (rq : Req) (dw : Draw) (a : Auth) : M (text * Z) :=
  let! _ := require_approved_device (device a) in
  let! _ := Guard.rate_limit cfg rq (lit "enroll-mint:" ++ uuid_to_string (account a)) 10 3600 in
  let '(token, hash) := auth.mint_refresh (token_bytes dw) in
  let expires := now rq + 5 * MINUTE in
  let! dup := query (fun d => find_row (fun _ r => bool_decide (code_hash r = hash)) (enroll_codes d)) in
  match dup with
  | Some _ => err Internal
  | None =>
      let! _ := insert_row set_enroll_codes enroll_codes (new_row dw)
                  (MkEnrollCode (account a) hash (now rq) expires None) in
      ret (token, unix expires)
  end.

Definition redeemable (rq : Req) (hash : bytes) (r : EnrollCode) : bool :=
  bool_decide (code_hash r = hash) && bool_decide (used_at r = None) && (now rq <? ec_expires_at r).

Definition auth_enroll (rq : Req) (dw : Draw) (code : text) (dreq : DeviceReq) : M TokensResp :=
  let! ip := Guard.ip_guard cfg rq (lit "auth_enroll") 10 60 in
  require device_ok dreq else BadRequest "invalid device" in
  let hash := auth.hash_refresh (trim code) in
  let! row := query (fun d => find_row (fun _ r => redeemable rq hash r) (enroll_codes d)) in
  match row with
  | None =>
      let! _ := security.record rq None "enroll_fail" ip None in
      let! _ := security.maybe_autoban cfg rq ip in
      err Unauthorized
  | Some (id, r) =>
      let! _ := alter_row set_enroll_codes id (fun r =>
        MkEnrollCode (ec_account r) (code_hash r) (ec_created_at r) (ec_expires_at r) (Some (now rq))) in
      let! dev := insert_device rq dw (ec_account r) dreq DeviceStatus.Approved in
      let! tokens := mint_session rq dw (ec_account r) dev None in
      let! _ := security.record rq (Some (ec_account r)) "login_ok" ip (Some (lit "enroll")) in
      ret tokens
  end.

(** ** Devices *)

Record DeviceInfo : Type := MkDeviceInfo {
  di_id : Uuid; di_device : Device; di_phone_pub_b64 : option text; di_created_at : Z; di_current : bool }.

Definition devices_list (a : Auth) : M (list DeviceInfo) :=
  let! rows := query (fun d =>
    sort_desc (fun r => - dev_created_at r.2)
      (List.filter (fun r => bool_decide (dev_account r.2 = account a)) (map_to_list (devices d)))) in
  ret (map (fun r => MkDeviceInfo r.1 r.2 (b64_encode <$> phone_pub_p256 r.2) (unix (dev_created_at r.2))
                       (bool_decide (r.1 = device a))) rows).

(** [UPDATE devices ... WHERE id = $1 AND account_id = $2]: the rows touched. *)
Definition device_rows (a : Auth) (id : Uuid) (p : Device -> bool) (d : Db) : nat :=
  match devices d !! id with
  | Some r => if bool_decide (dev_account r = account a) && p r then 1%nat else 0%nat
  | None => 0%nat
  end.

Definition alter_device (a : Auth) (id : Uuid) (p : Device -> bool) (f : Device -> Device) : M nat :=
  let! n := query (device_rows a id p) in
  let! _ := alter_row set_devices id (fun r => if bool_decide (dev_account r = account a) && p r then f r else r) in
  ret n.

Definition device_approve (a : Auth) (id : Uuid) : M unit :=
  let! _ := require_approved_device (device a) in
  let! n := alter_device a id (fun _ => true) (fun r => MkDevice (dev_account r) (dev_name r) (dev_platform r)
    DeviceStatus.Approved (phone_pub_p256 r) (push_token r) (Some (device a)) (dev_created_at r)) in
  require negb (n =? 0)%nat else NotFound in
  ret tt.

Definition device_revoke (rq : Req) (a : Auth) (id : Uuid) : M unit :=
  let! _ := require_approved_device (device a) in
  let! _ := alter_device a id (fun _ => true) (fun r => MkDevice (dev_account r) (dev_name r) (dev_platform r)
    DeviceStatus.Revoked (phone_pub_p256 r) (push_token r) (approved_by r) (dev_created_at r)) in
  update (set_refresh_tokens (update_where (fun r => bool_decide (rt_device r = id) && unrevoked r) (revoke rq))).

Definition device_pin (a : Auth) (phone_pub_b64 : text) : M unit :=
  let! pub_key := b64_or "phone_pub not base64" phone_pub_b64 in
  require (length pub_key =? 65)%nat && bool_decide (head pub_key = Some Byte.x04)
    else BadRequest "phone_pub must be a 65-byte SEC1 uncompressed point" in
  let! n := alter_device a (device a) (fun r => bool_decide (dev_platform r = lit "ios"))
    (fun r => MkDevice (dev_account r) (dev_name r) (dev_platform r) (dev_status r) (Some pub_key)
                (push_token r) (approved_by r) (dev_created_at r)) in
  require negb (n =? 0)%nat else BadRequest "only an iOS device can pin a key" in
  ret tt.

Definition push_register (a : Auth) (token : text) : M unit :=
  require negb (512 <? Z.of_nat (length (utf8 token))) else BadRequest "token too long" in
  let! _ := alter_device a (device a) (fun _ => true)
    (fun r => MkDevice (dev_account r) (dev_name r) (dev_platform r) (dev_status r) (phone_pub_p256 r)
                (Some token) (approved_by r) (dev_created_at r)) in
  ret tt.

(** ** The unlock relay *)

Definition unlock_create (rq : Req) (dw : Draw) (a : Auth) (phone : Uuid) (kind payload_b64 : text) : M Uuid :=
  let! _ := require_approved_device (device a) in
  let! _ := Guard.rate_limit cfg rq (lit "unlock:" ++ uuid_to_string (account a)) 5 60 in
  require bool_decide (kind = lit "unlock") || bool_decide (kind = lit "new_device") else BadRequest "bad kind" in
  let! payload := b64_or "payload not base64" payload_b64 in
  require negb (4096 <? Z.of_nat (length payload)) else BadRequest "payload too large" in
  let! known := query (fun d => bool_decide (is_Some (devices d !! phone))) in
  require known else Internal in
  let! _ := insert_row set_unlock_requests unlock_requests (new_row dw)
    (MkUnlockRequest (account a) (device a) phone kind payload None UnlockState.Pending (now rq) (now rq + 2 * MINUTE)) in
  ret (new_row dw).

Record UnlockInfo : Type := MkUnlockInfo {
  ui_state : UnlockState.t; ui_kind : text; ui_phone : Uuid; ui_request_b64 : text; ui_response_b64 : option text }.

(** One look at the row: it expires lazily. *)
Definition unlock_poll (t : Z) (a : Auth) (id : Uuid) : M UnlockInfo :=
  let! r := fetch_or NotFound (fun d =>
    r ← unlock_requests d !! id; if bool_decide (ur_account r = account a) then Some r else None) in
  let expired := bool_decide (ur_state r = UnlockState.Pending) && (ur_expires_at r <? t) in
  let! _ := if expired then alter_row set_unlock_requests id (fun r =>
              MkUnlockRequest (ur_account r) (desktop_device_id r) (phone_device_id r) (ur_kind r)
                (request_payload r) (response_payload r) UnlockState.Expired (ur_created_at r) (ur_expires_at r))
            else ret tt in
  let st := if expired then UnlockState.Expired else ur_state r in
  ret (MkUnlockInfo st (ur_kind r) (phone_device_id r) (b64_encode (request_payload r))
         (if bool_decide (st = UnlockState.Pending) then None else b64_encode <$> response_payload r)).

(** Up to three polls, 50 ms apart, with no other request in between. *)
Fixpoint unlock_get_loop (n : nat) (t : Z) (a : Auth) (id : Uuid) : M UnlockInfo :=
  let! i := unlock_poll t a id in
  match n with
  | S n => if bool_decide (ui_state i = UnlockState.Pending) then unlock_get_loop n (t + 50000) a id else ret i
  | O => ret i
  end.
Definition unlock_get (rq : Req) (a : Auth) (id : Uuid) : M UnlockInfo := unlock_get_loop 2 (now rq) a id.

(** The request the caller may answer. *)
Definition answerable (a : Auth) (r : UnlockRequest) : bool :=
  bool_decide (ur_account r = account a) && bool_decide (phone_device_id r = device a)
  && bool_decide (ur_state r = UnlockState.Pending).

Definition unlock_respond (a : Auth) (id : Uuid) (state : text) (response_payload_b64 : option text) : M unit :=
  let! _ := require_approved_device (device a) in
  require bool_decide (state = lit "approved") || bool_decide (state = lit "denied")
    else BadRequest "state must be approved|denied" in
  let! resp :=
    match response_payload_b64 with
    | Some b => let! p := b64_or "payload not base64" b in ret (Some p)
    | None => ret None
    end in
  require match resp with Some r => negb (4096 <? Z.of_nat (length r)) | None => true end
    else BadRequest "payload too large" in
  let! n := query (fun d => match unlock_requests d !! id with
                            | Some r => if answerable a r then 1%nat else 0%nat | None => 0%nat end) in
  let st := if bool_decide (state = lit "approved") then UnlockState.Approved else UnlockState.Denied in
  let! _ := alter_row set_unlock_requests id (fun r =>
    if answerable a r then
      MkUnlockRequest (ur_account r) (desktop_device_id r) (phone_device_id r) (ur_kind r)
        (request_payload r) resp st (ur_created_at r) (ur_expires_at r)
    else r) in
  require negb (n =? 0)%nat else Forbidden in
  ret tt.

(** ** File transfers *)

Definition TRANSFER_MAX_CIPHERTEXT : Z := 25 * 1024 * 1024.
Definition TRANSFER_MAX_PENDING_BYTES : Z := 250 * 1024 * 1024.

(** The rows the quota counts. *)
Definition live (rq : Req) (acc : Uuid) (r : FileTransfer) : bool :=
  bool_decide (ft_account r = acc) && negb (bool_decide (ft_state r = TransferState.Expired)) && (now rq <? ft_expires_at r).

Definition used_bytes (rq : Req) (acc : Uuid) (m : gmap Uuid FileTransfer) : Z :=
  map_fold (fun _ r sum => (if live rq acc r then Z.of_nat (length (ft_ciphertext r)) else 0) + sum) 0 m.

Definition clamp (v lo hi : Z) : Z := Z.max lo (Z.min hi v).

Record TransferReq : Type := MkTransferReq {
  tr_recipient : option Uuid; tr_size : Z; tr_ciphertext_b64 : text; tr_delete_on_download : bool;
  tr_permanent : bool; tr_ttl_days : option Z }.

Definition transfer_create (rq : Req) (dw : Draw) (a : Auth) (req : TransferReq) : M Uuid :=
  let! _ := require_approved_device (device a) in
  let! _ := Guard.rate_limit cfg rq (lit "transfer:" ++ uuid_to_string (account a)) 20 3600 in
  let! ct := b64_or "ciphertext not base64" (tr_ciphertext_b64 req) in
  require negb (bool_decide (ct = [])) && negb (TRANSFER_MAX_CIPHERTEXT <? Z.of_nat (length ct))
    else BadRequest "file too large (25 MiB max)" in
  require negb (tr_size req <? 0) else BadRequest "bad size" in
  let! ok := query (fun d =>
    match tr_recipient req with
    | Some r => match devices d !! r with Some dv => bool_decide (dev_account dv = account a) | None => false end
    | None => true
    end) in
  require ok else BadRequest "unknown recipient device" in
  let! used := query (fun d => used_bytes rq (account a) (file_transfers d)) in
  require negb (TRANSFER_MAX_PENDING_BYTES <? used + Z.of_nat (length ct))
    else BadRequest "storage quota exceeded — delete old transfers" in
  let days := if tr_permanent req then 36500 else clamp (default 1 (tr_ttl_days req)) 1 365 in
  let! _ := insert_row set_file_transfers file_transfers (new_row dw)
    (MkFileTransfer (account a) (device a) (tr_recipient req) (tr_size req) ct TransferState.Pending (now rq)
       (now rq + days * DAY) (tr_delete_on_download req) (tr_permanent req)) in
  ret (new_row dw).

Definition expire (r : FileTransfer) : FileTransfer :=
  MkFileTransfer (ft_account r) (sender_device_id r) (recipient_device_id r) (size_bytes r) (ft_ciphertext r)
    TransferState.Expired (ft_created_at r) (ft_expires_at r) (delete_on_download r) (permanent r).

(** The sender, a named recipient, or any device when there is none. *)
Definition addressed (a : Auth) (r : FileTransfer) : bool :=
  bool_decide (sender_device_id r = device a) || bool_decide (recipient_device_id r = None)
  || bool_decide (recipient_device_id r = Some (device a)).

Definition not_expired (r : FileTransfer) : bool := negb (bool_decide (ft_state r = TransferState.Expired)).

Definition transfer_list (rq : Req) (a : Auth) : M (list (Uuid * FileTransfer)) :=
  let! _ := update (set_file_transfers (update_where
    (fun r => bool_decide (ft_account r = account a) && not_expired r && negb (permanent r) && (ft_expires_at r <? now rq))
    expire)) in
  query (fun d => sort_desc (fun r => ft_created_at r.2)
    (List.filter (fun r => bool_decide (ft_account r.2 = account a) && not_expired r.2 && addressed a r.2)
       (map_to_list (file_transfers d)))).

Definition transfer_download (rq : Req) (a : Auth) (id : Uuid) : M (Uuid * Z * text) :=
  let! r := fetch_or NotFound (fun d =>
    r ← file_transfers d !! id;
    if bool_decide (ft_account r = account a) && not_expired r then Some r else None) in
  if negb (permanent r) && (ft_expires_at r <? now rq) then
    let! _ := alter_row set_file_transfers id expire in
    err NotFound
  else
    require addressed a r else Forbidden in
    let! _ :=
      if bool_decide (sender_device_id r = device a) then ret tt
      else if delete_on_download r then update (set_file_transfers (delete id))
      else alter_row set_file_transfers id (fun r =>
        if bool_decide (ft_state r = TransferState.Pending)
        then MkFileTransfer (ft_account r) (sender_device_id r) (recipient_device_id r) (size_bytes r)
               (ft_ciphertext r) TransferState.Delivered (ft_created_at r) (ft_expires_at r)
               (delete_on_download r) (permanent r)
        else r) in
    ret (sender_device_id r, size_bytes r, b64_encode (ft_ciphertext r)).

Definition transfer_delete (a : Auth) (id : Uuid) : M unit :=
  let! n := query (fun d => match file_transfers d !! id with
                            | Some r => if bool_decide (ft_account r = account a) && addressed a r then 1%nat else 0%nat
                            | None => 0%nat end) in
  let! _ := update (set_file_transfers (fun m => if (n =? 0)%nat then m else delete id m)) in
  require negb (n =? 0)%nat else NotFound in
  ret tt.

(** ** The attack monitor *)

Definition security_events_list (since limit : option Z) : M (list SecurityEvent) :=
  let limit := clamp (default 100 limit) 1 500 in
  let since := default 0 since in
  query (fun d => take (Z.to_nat limit)
    (sort_desc ev_created_at (List.filter (fun e => since * SEC <? ev_created_at e) (security_events d)))).

Definition security_summary (rq : Req) : M (list (string * nat) * nat * bool) :=
  let! rows := query (fun d =>
    let recent := List.filter (fun e => now rq - DAY <? ev_created_at e) (security_events d) in
    map (fun k => (k, length (List.filter (fun e => bool_decide (ev_kind e = k)) recent)))
      (remove_dups (map ev_kind recent))) in
  let! banned := query (fun d => length (List.filter (fun r => security.ban_active rq r.2) (map_to_list (banned_ips d)))) in
  ret (rows, banned, 0 <? autoban_threshold cfg).

Definition security_ban (rq : Req) (_ : Auth) (ip : text) (minutes : option Z) : M unit := security.ban rq ip minutes.
Definition security_unban (_ : Auth) (ip : text) : M unit := security.unban ip.
End handlers.
End routes.
