(* ===== verification/Router.v ===== *)
(** [services/api/src/routes.rs], the router, against the requests [sync.rs] makes: which handler a
    method and path reach, what body it takes, and whether the two programs mean the same. [axum]'s
    default limit on bodies and the length of base64 are parameters with their documented laws. *)
From S2P Require Import Prelude Bytes Text Crypto Totp Toy RecoveryKit Keyring Model Envelope VaultStore Session AppLock Passkey ApiDb ApiAuth ApiRoutes.
Local Open Scope Z_scope.

Module Router.
Inductive Method : Type := GET | HEAD | POST | PUT | DELETE.
#[export] Instance Method_eq : EqDecision Method. Proof. solve_decision. Defined.

Inductive Handler : Type :=
| healthz | auth_google | auth_bootstrap | totp_enroll | totp_verify | auth_refresh | auth_logout | vault_get | vault_put
| wrapped_get | wrapped_put | wrapped_delete | enroll_code_mint | auth_enroll | meta | password_params | password_enroll | auth_password
| devices_list | device_pin | device_approve | device_revoke | unlock_create | unlock_get | unlock_respond | push_register
| transfer_list | transfer_create | transfer_download | transfer_delete | admin_update
| security_events_list | security_summary | security_ban | security_unban.

(** A path of the table: literal segments and parameters. *)
Inductive Seg : Type := Word (s : string) | Param.
Definition Route : Type := list Seg * list (Method * Handler).
Definition at_ (ws : list string) : list Seg := map Word ws.
Definition router : list Route :=
  [(at_ ["healthz"], [(GET, healthz)]);
   (at_ ["v1"; "auth"; "google"], [(POST, auth_google)]);
   (at_ ["v1"; "auth"; "bootstrap"], [(POST, auth_bootstrap)]);
   (at_ ["v1"; "auth"; "totp"; "enroll"], [(POST, totp_enroll)]);
   (at_ ["v1"; "auth"; "totp"; "verify"], [(POST, totp_verify)]);
   (at_ ["v1"; "auth"; "refresh"], [(POST, auth_refresh)]);
   (at_ ["v1"; "auth"; "logout"], [(POST, auth_logout)]);
   (at_ ["v1"; "vault"], [(GET, vault_get); (PUT, vault_put)]);
   (at_ ["v1"; "wrapped-keys"] ++ [Param], [(GET, wrapped_get); (PUT, wrapped_put); (DELETE, wrapped_delete)]);
   (at_ ["v1"; "enroll-codes"], [(POST, enroll_code_mint)]);
   (at_ ["v1"; "auth"; "enroll"], [(POST, auth_enroll)]);
   (at_ ["v1"; "meta"], [(GET, meta)]);
   (at_ ["v1"; "auth"; "password"; "params"], [(GET, password_params)]);
   (at_ ["v1"; "auth"; "password"; "enroll"], [(POST, password_enroll)]);
   (at_ ["v1"; "auth"; "password"], [(POST, auth_password)]);
   (at_ ["v1"; "devices"], [(GET, devices_list)]);
   (at_ ["v1"; "devices"; "pin"], [(POST, device_pin)]);
   (at_ ["v1"; "devices"] ++ [Param; Word "approve"], [(POST, device_approve)]);
   (at_ ["v1"; "devices"] ++ [Param], [(DELETE, device_revoke)]);
   (at_ ["v1"; "unlock-requests"], [(POST, unlock_create)]);
   (at_ ["v1"; "unlock-requests"] ++ [Param], [(GET, unlock_get)]);
   (at_ ["v1"; "unlock-requests"] ++ [Param; Word "respond"], [(POST, unlock_respond)]);
   (at_ ["v1"; "push"; "register"], [(POST, push_register)]);
   (at_ ["v1"; "transfers"], [(GET, transfer_list); (POST, transfer_create)]);
   (at_ ["v1"; "transfers"] ++ [Param], [(GET, transfer_download); (DELETE, transfer_delete)]);
   (at_ ["v1"; "admin"; "update"], [(POST, admin_update)]);
   (at_ ["v1"; "security-events"], [(GET, security_events_list)]);
   (at_ ["v1"; "security-summary"], [(GET, security_summary)]);
   (at_ ["v1"; "security-events"; "ban"], [(POST, security_ban)]);
   (at_ ["v1"; "security-events"; "unban"], [(POST, security_unban)])].

(** ** Dispatch *)

(** The parameters of a path that fits; a parameter is not empty. *)
Fixpoint fits (segs : list Seg) (path : list text) : option (list text) :=
  match segs, path with
  | [], [] => Some []
  | Word w :: segs, p :: path => if bool_decide (p = lit w) then fits segs path else None
  | Param :: segs, p :: path => if bool_decide (p = []) then None else cons p <$> fits segs path
  | _, _ => None
  end.
(** A route without parameters goes before one with them. *)
Definition is_word (s : Seg) : bool := match s with Word _ => true | Param => false end.
Definition fixed (r : Route) : bool := forallb is_word r.1.
Definition by_priority : list Route := List.filter fixed router ++ List.filter (fun r => negb (fixed r)) router.
Definition segments (target : text) : option (list text) :=
  let path := match split_once (chr "?") target with Some (p, _) => p | None => target end in
  match strip_prefix (lit "/") path with Some p => Some (split (chr "/") p) | None => None end.

Inductive Outcome : Type := To (h : Handler) (params : list text) | MethodNotAllowed | NoRoute.
(** [get] answers HEAD too. *)
Definition method_of (m : Method) : Method := match m with HEAD => GET | m => m end.
Definition dispatch (m : Method) (target : text) : Outcome :=
  match segments target with
  | None => NoRoute
  | Some path =>
      match head (omap (fun r => (fun ps => (r.2, ps)) <$> fits r.1 path) by_priority) with
      | None => NoRoute
      | Some (handlers, ps) =>
          match List.find (fun mh => bool_decide (mh.1 = method_of m)) handlers with
          | Some (_, h) => To h ps
          | None => MethodNotAllowed
          end
      end
  end.

(** ** Bodies *)

Class Axum : Type := { default_body_limit : Z }.
(** The documented default: 2 MiB. *)
Class AxumLaws {X : Axum} : Prop := { default_2_MiB : default_body_limit = 2 * 1024 * 1024 }.

Definition body_limit {X : Axum} (h : Handler) : Z :=
  match h with transfer_list | transfer_create => 40 * 1024 * 1024 | _ => default_body_limit end.
(** A longer body is answered 413 before the handler runs. *)
Definition admits {X : Axum} (h : Handler) (body_len : Z) : bool := body_len <=? body_limit h.

(** * What the desktop sends *)

Inductive Call : Type :=
| Refresh | Logout | GetVault | PutVault | PutWrappedKey (wt : Z) | GetWrappedKey (wt : Z)
| CreateTransfer | ListTransfers | DownloadTransfer (id : text) | DeleteTransfer (id : text)
| Google | TotpEnroll | TotpVerify | Probe | ProbeParams | PasswordParams | PasswordSignIn | PasswordEnroll
| DevicesList | DeviceRevoke (id : text) | SecurityEvents (since : option Z) | SecuritySummary | Ban (ip : text) | Unban (ip : text)
| Bootstrap | Health | Update | EnrollCode.

(** The target of a request, from the root of the server. *)
Definition v1 (path : string) : text := lit "/v1" ++ lit path.
Definition target_of (c : Call) : Method * text :=
  match c with
  | Refresh => (POST, v1 "/auth/refresh")
  | Logout => (POST, v1 "/auth/logout")
  | GetVault => (GET, v1 "/vault")
  | PutVault => (PUT, v1 "/vault")
  | PutWrappedKey wt => (PUT, v1 "/wrapped-keys/" ++ show_dec wt)
  | GetWrappedKey wt => (GET, v1 "/wrapped-keys/" ++ show_dec wt)
  | CreateTransfer => (POST, v1 "/transfers")
  | ListTransfers => (GET, v1 "/transfers")
  | DownloadTransfer id => (GET, v1 "/transfers/" ++ id)
  | DeleteTransfer id => (DELETE, v1 "/transfers/" ++ id)
  | Google => (POST, v1 "/auth/google")
  | TotpEnroll => (POST, v1 "/auth/totp/enroll")
  | TotpVerify => (POST, v1 "/auth/totp/verify")
  | Probe => (GET, v1 "/meta")
  | ProbeParams | PasswordParams => (GET, v1 "/auth/password/params")
  | PasswordSignIn => (POST, v1 "/auth/password")
  | PasswordEnroll => (POST, v1 "/auth/password/enroll")
  | DevicesList => (GET, v1 "/devices")
  | DeviceRevoke id => (DELETE, v1 "/devices/" ++ id)
  | SecurityEvents since => (GET, match since with Some s => v1 "/security-events?since=" ++ show_i64 s | None => v1 "/security-events" end)
  | SecuritySummary => (GET, v1 "/security-summary")
  | Ban _ => (POST, v1 "/security-events/ban")
  | Unban _ => (POST, v1 "/security-events/unban")
  | Bootstrap => (POST, v1 "/auth/bootstrap")
  | Health => (GET, lit "/healthz")
  | Update => (POST, v1 "/admin/update")
  | EnrollCode => (POST, v1 "/enroll-codes")
  end.

(** The body of a vault upload: an object of one member, whose text needs no escape. *)
Definition vault_body {B : Base64} (ct : bytes) : text :=
  lit "{" ++ [34] ++ lit "ciphertext_b64" ++ [34] ++ lit ":" ++ [34] ++ b64_encode ct ++ [34] ++ lit "}".
End Router.

(** * The two programs agree *)

Section claims.
Import Router.

(** The handler a call is meant for, and the parameters it is to get. *)
Definition meant (c : Call) : Handler * list text :=
  match c with
  | Refresh => (auth_refresh, []) | Logout => (auth_logout, []) | GetVault => (vault_get, []) | PutVault => (vault_put, [])
  | PutWrappedKey wt => (wrapped_put, [show_dec wt]) | GetWrappedKey wt => (wrapped_get, [show_dec wt])
  | CreateTransfer => (transfer_create, []) | ListTransfers => (transfer_list, [])
  | DownloadTransfer id => (transfer_download, [id]) | DeleteTransfer id => (transfer_delete, [id])
  | Google => (auth_google, []) | TotpEnroll => (totp_enroll, []) | TotpVerify => (totp_verify, [])
  | Probe => (meta, []) | ProbeParams | PasswordParams => (password_params, []) | PasswordSignIn => (auth_password, [])
  | PasswordEnroll => (password_enroll, []) | DevicesList => (devices_list, []) | DeviceRevoke id => (device_revoke, [id])
  | SecurityEvents _ => (security_events_list, []) | SecuritySummary => (security_summary, [])
  | Ban _ => (security_ban, []) | Unban _ => (security_unban, []) | Bootstrap => (auth_bootstrap, []) | Health => (healthz, [])
  | Update => (admin_update, []) | EnrollCode => (enroll_code_mint, [])
  end.
(** An identifier made of the characters a URL leaves alone, that is no dot segment and no word of the
    table: the client puts it into the URL as it is and the server finds it there as it was. The
    server's own identifiers are UUIDs. *)
Definition unreserved (c : Z) : bool :=
  is_ascii_digit c || ((65 <=? c) && (c <=? 90)) || ((97 <=? c) && (c <=? 122)) || bool_decide (c ∈ lit "-._~").
Definition plain_id (id : text) : Prop :=
  id <> [] /\ Forall (fun c => unreserved c = true) id /\ id ∉ [lit "pin"; lit "."; lit ".."].

(** It has no character that means something to a URL or to the route table. *)
Lemma plain_id_parts id :
  plain_id id -> id <> [] /\ chr "/" ∉ id /\ chr "?" ∉ id /\ id <> lit "pin".
Proof.
  intros (Hne & Hf & Hn). rewrite Forall_forall in Hf. split_and!; [done|intros H%Hf; by vm_compute in H..|].
  intros ->. apply Hn. by left.
Qed.

Definition plain_call (c : Call) : Prop :=
  match c with
  | PutWrappedKey wt | GetWrappedKey wt => 0 <= wt
  | DownloadTransfer id | DeleteTransfer id | DeviceRevoke id => plain_id id
  | _ => True
  end.

Lemma join_no c sep ws : c ∉ sep -> Forall (fun w => c ∉ w) ws -> c ∉ join sep ws.
Proof.
  intros Hs. induction 1 as [|w ws Hw Hws IH]; [apply not_elem_of_nil|]. destruct ws; [done|].
  change (join sep (w :: l :: ws)) with (w ++ sep ++ join sep (l :: ws)). by rewrite !not_elem_of_app.
Qed.

(** The segments of a path, with or without a query. *)
Lemma segments_join ws q :
  ws <> [] -> Forall (fun w => 47 ∉ w) ws -> Forall (fun w => 63 ∉ w) ws ->
  segments (47 :: join [47] ws) = Some ws /\ segments (47 :: join [47] ws ++ 63 :: q) = Some ws.
Proof.
  intros Hne Hs Hq. assert (Hn : 63 ∉ 47 :: join [47] ws) by (apply not_elem_of_cons; split; [done|]; apply join_no; [apply (bool_decide_unpack _); by vm_compute|done]).
  unfold segments. change (chr "?") with 63. rewrite split_once_none by done.
  change (47 :: join [47] ws ++ 63 :: q) with ((47 :: join [47] ws) ++ 63 :: q). rewrite split_once_app by done.
  change (strip_prefix (lit "/") (47 :: join [47] ws)) with (Some (join [47] ws)). change (chr "/") with 47. cbv iota beta. by rewrite split_join.
Qed.

Lemma digits_no c n : 0 <= n -> c < 48 \/ 57 < c -> c ∉ show_dec n.
Proof. intros Hn Hc Hin. pose proof (show_dec_digits n Hn) as H. rewrite Forall_forall in H. apply H in Hin. lia. Qed.

(** A path of three segments under [v1] whose last one is a parameter. *)
Lemma dispatch_param m (w : string) id :
  w ∈ ["wrapped-keys"; "transfers"; "devices"]%string -> plain_id id ->
  dispatch m (v1 "/" ++ lit w ++ lit "/" ++ id)
  = match List.find (fun mh => bool_decide (mh.1 = method_of m))
      (if bool_decide (w = "devices"%string) then [(DELETE, device_revoke)]
       else if bool_decide (w = "transfers"%string) then [(GET, transfer_download); (DELETE, transfer_delete)]
       else [(GET, wrapped_get); (PUT, wrapped_put); (DELETE, wrapped_delete)]) with
    | Some (_, h) => To h [id]
    | None => MethodNotAllowed
    end.
Proof.
  intros Hw (Hne & Hs & Hq & Hp)%plain_id_parts. unfold dispatch.
  assert (Hwords : 47 ∉ lit w /\ 63 ∉ lit w).
  { repeat (apply elem_of_cons in Hw as [->|Hw]; [split; apply (bool_decide_unpack _); by vm_compute|]). by apply not_elem_of_nil in Hw. }
  assert (E : segments (v1 "/" ++ lit w ++ lit "/" ++ id) = Some [lit "v1"; lit w; id]).
  { refine (proj1 (segments_join [lit "v1"; lit w; id] [] _ _ _)); [done|..]; repeat constructor; try (by apply Hwords); try done; apply (bool_decide_unpack _); by vm_compute. }
  rewrite E. set (f := fun r : Route => (fun ps => (r.2, ps)) <$> fits r.1 [lit "v1"; lit w; id]).
  assert (Eh : head (omap f by_priority) = Some (if bool_decide (w = "devices"%string) then [(DELETE, device_revoke)]
       else if bool_decide (w = "transfers"%string) then [(GET, transfer_download); (DELETE, transfer_delete)]
       else [(GET, wrapped_get); (PUT, wrapped_put); (DELETE, wrapped_delete)], [id])).
  { apply elem_of_cons in Hw as [->|Hw]; [destruct id; [done|]; vm_compute; reflexivity|].
    apply elem_of_cons in Hw as [->|Hw]; [destruct id; [done|]; vm_compute; reflexivity|]. apply list_elem_of_singleton in Hw as ->.
    assert (Hb : by_priority = take 15 by_priority ++ (at_ ["v1"; "devices"; "pin"], [(POST, device_pin)]) :: drop 16 by_priority) by (vm_compute; reflexivity).
    rewrite Hb, omap_app. assert (H0 : omap f (take 15 by_priority) = []) by (vm_compute; reflexivity). rewrite H0. cbn [app].
    assert (H1 : f (at_ ["v1"; "devices"; "pin"], [(POST, device_pin)]) = None).
    { unfold f. cbn [fst snd at_ map fits]. rewrite !bool_decide_true by done. by rewrite bool_decide_false. }
    unfold omap at 1. cbn [list_omap]. rewrite H1. destruct id; [done|]. vm_compute. reflexivity. }
  cbv iota beta. match goal with |- context [head ?o] => change (head o) with (head (omap f by_priority)) end. by rewrite Eh.
Qed.

(** C38: every kind of request the desktop makes is dispatched by the route table to the handler it is
    meant for, the identifier of a transfer or a device, when it is made of letters, digits and [-._~]
    and is none of [pin], [.] and [..], arriving as the parameter it was. *)
Theorem client_requests_routed c :
  plain_call c -> dispatch (target_of c).1 (target_of c).2 = To (meant c).1 (meant c).2.
Proof.
  assert (Hd : forall n, 0 <= n -> plain_id (show_dec n)).
  { intros n Hn. pose proof (show_dec_digits n Hn) as H. split_and!.
    - destruct (show_dec_cons n) as (x & s & ->). done.
    - eapply Forall_impl; [exact H|]. intros x Hx. unfold unreserved, is_ascii_digit. cbn beta in Hx.
      replace ((48 <=? x) && (x <=? 57)) with true by (symmetry; apply andb_true_intro; split; apply Z.leb_le; lia). done.
    - intros E. apply list_elem_of_In in E as [E|[E|[E|[]]]];
        [refine (digits_no 112 n Hn _ _)|refine (digits_no 46 n Hn _ _)..]; try lia;
        rewrite <- E; apply (bool_decide_unpack _); by vm_compute. }
  destruct c as [| | | |wt|wt| | |id|id| | | | | | | | | |id|since| |ip|ip| | | |]; intros Hc.
  1-4, 7-8, 11-19, 22-28: vm_compute; reflexivity.
  - exact (eq_trans (dispatch_param PUT "wrapped-keys" (show_dec wt) ltac:(left) (Hd wt Hc)) eq_refl).
  - exact (eq_trans (dispatch_param GET "wrapped-keys" (show_dec wt) ltac:(left) (Hd wt Hc)) eq_refl).
  - exact (eq_trans (dispatch_param GET "transfers" id ltac:(right; left) Hc) eq_refl).
  - exact (eq_trans (dispatch_param DELETE "transfers" id ltac:(right; left) Hc) eq_refl).
  - exact (eq_trans (dispatch_param DELETE "devices" id ltac:(right; right; left) Hc) eq_refl).
  - destruct since as [s|]; [|vm_compute; reflexivity]. unfold dispatch. cbn [target_of fst snd].
    assert (E : segments (v1 "/security-events?since=" ++ show_i64 s) = Some [lit "v1"; lit "security-events"]).
    { refine (proj2 (segments_join [lit "v1"; lit "security-events"] (lit "since=" ++ show_i64 s) _ _ _)); [done|..];
        repeat constructor; apply (bool_decide_unpack _); by vm_compute. }
    rewrite E. vm_compute. reflexivity.
Qed.
End claims.

(** * Bodies *)

(** The length of standard base64 with padding. *)
Class Base64Length {B : Base64} : Prop := { b64_length b : Z.of_nat (length (b64_encode b)) = 4 * ((Z.of_nat (length b) + 2) / 3) }.

Section bodies.
Import Router.
Context {X : Axum} {XL : AxumLaws} {B : Base64} {BL : Base64Laws} {BN : Base64Length}.

Lemma vault_body_size ct : Z.of_nat (length (utf8 (vault_body ct))) = 21 + 4 * ((Z.of_nat (length ct) + 2) / 3).
Proof.
  assert (E : utf8 (b64_encode ct) = map byte_of_Z (b64_encode ct)).
  { apply utf8_ascii. eapply Forall_impl; [apply b64_printable|]. unfold is_ascii. cbn. lia. }
  unfold vault_body. rewrite !utf8_app, !length_app, E, length_map, <- b64_length. vm_compute (length (utf8 (lit "{"))).
  vm_compute (length (utf8 (lit "ciphertext_b64"))). vm_compute (length (utf8 [34])). vm_compute (length (utf8 (lit ":"))). vm_compute (length (utf8 (lit "}"))). lia.
Qed.

(** Of the vaults the handler accepts, up to 32 MiB, only those up to 1.5 MiB reach it: the route of
    the vault keeps the default limit on bodies. *)
Lemma vault_fits_iff ct : admits vault_put (Z.of_nat (length (utf8 (vault_body ct)))) = true <-> Z.of_nat (length ct) <= 1572846.
Proof. unfold admits, body_limit. rewrite default_2_MiB, Z.leb_le, vault_body_size. Z.to_euclidean_division_equations. lia. Qed.

(** Uploads of files fit their route: the largest ciphertext the handler takes, with anything else the
    request says in less than six megabytes, is within the limit. *)
Lemma transfers_fit ct rest :
  Z.of_nat (length ct) <= routes.TRANSFER_MAX_CIPHERTEXT -> rest <= 6 * 1000 * 1000 ->
  admits transfer_create (rest + Z.of_nat (length (b64_encode ct))) = true.
Proof. unfold admits, body_limit, routes.TRANSFER_MAX_CIPHERTEXT. rewrite b64_length, Z.leb_le. Z.to_euclidean_division_equations. lia. Qed.
End bodies.

(** * A concrete encoder *)

Module RouterDemo.
Import Router.
#[export] Instance axum : Axum := {| default_body_limit := 2097152 |}.
#[export] Instance axum_laws : AxumLaws.
Proof. by constructor. Qed.

Lemma client_requests_routed_witness : dispatch DELETE (lit "/v1/devices/0b4e") = To device_revoke [lit "0b4e"].
Proof. exact (client_requests_routed (DeviceRevoke (lit "0b4e")) ltac:(split_and!; try done; apply (bool_decide_unpack _); by vm_compute)). Defined.

(** The characters of standard base64, three bytes at a time. *)
Definition symbol (n : Z) : Z :=
  if n <? 26 then 65 + n else if n <? 52 then 71 + n else if n <? 62 then n - 4 else if n =? 62 then 43 else 47.
Fixpoint encode (b : list Z) : text :=
  match b with
  | x :: y :: z :: r => [symbol (x / 4); symbol (x mod 4 * 16 + y / 16); symbol (y mod 16 * 4 + z / 64); symbol (z mod 64)] ++ encode r
  | [x; y] => [symbol (x / 4); symbol (x mod 4 * 16 + y / 16); symbol (y mod 16 * 4); 61]
  | [x] => [symbol (x / 4); symbol (x mod 4 * 16); 61; 61]
  | [] => []
  end.
Lemma encode_length n : forall b, (length b <= n)%nat -> Z.of_nat (length (encode b)) = 4 * ((Z.of_nat (length b) + 2) / 3).
Proof.
  induction n as [|n IH]; intros [|x [|y [|z b]]] Hn; cbn in Hn; try done; try lia.
  cbn [encode app length]. rewrite !Nat2Z.inj_succ, IH by lia. Z.to_euclidean_division_equations. lia.
Qed.
Definition standard : Base64 := {| b64_encode b := encode (map byte_to_Z b); b64_decode _ := None |}.
Lemma standard_length : @Base64Length standard.
Proof. constructor. intros b. cbn. rewrite (encode_length (length b)), length_map; [done|by rewrite length_map]. Qed.
End RouterDemo.
