(* ===== verification/ApiDemo.v ===== *)
(** A concrete instance of the server's third-party code and a small server, on which the
    theorems about the server are evaluated. Nothing else depends on it. *)
From S2P Require Import Prelude Bytes Text Crypto Totp Toy RecoveryKit Keyring Model ApiDb ApiAuth ApiRoutes.
Local Open Scope Z_scope.

#[export] Instance AccessClaims_countable_eq : EqDecision AccessClaims.
Proof. solve_decision. Defined.
#[export] Instance AccessClaims_countable : Countable AccessClaims.
Proof.
  refine (inj_countable' (fun c => (sub c, dev c, iat c, exp c, tok c))
    (fun x => MkAccessClaims x.1.1.1.1 x.1.1.1.2 x.1.1.2 x.1.2 x.2) _). by intros [].
Defined.

(** A value as one character, and back. *)
Definition toy_show {X} `{Countable X} (x : X) : text := [Z.pos (encode x)].
Definition toy_read {X} `{Countable X} (t : text) : option X :=
  match t with [Z.pos p] => decode p | _ => None end.

Definition toy_hmac : TotpHmac := {|
  hmac_sha1 k m := arr_le 20 (toy_sum [k; m]);
  hmac_sha2_256 k m := arr_le 32 (toy_sum [k; m]);
  hmac_sha2_512 k m := arr_le 64 (toy_sum [k; m]);
|}.

Definition toy_auth : AuthLibs := {|
  jwt_encode c := Some (toy_show c);
  jwt_decode now t := c ← toy_read t; if (now <=? exp c + 60) then Some c else None;
  uuid_to_string u := toy_show u;
  uuid_parse := toy_read;
  totp_hmac := toy_hmac;
  url_safe_b64 := @b64_encode toy_base64;
  ip_opt t := if bool_decide (t = []) then None else Some t;
|}.

Lemma toy_auth_laws : AuthLaws toy_auth.
Proof.
  split; cbn.
  - intros c t now [= <-] Hn. unfold toy_read, toy_show. rewrite decode_encode. cbn.
    by rewrite (proj2 (Z.leb_le _ _)).
  - intros u. unfold toy_read, toy_show. apply decode_encode.
Qed.

Module Demo.
Definition cfg : Config :=
  MkConfig None (Some (lit "boot")) (arr_fill 32 Byte.x05) false false 5 600 30 None.
Definition at_sec (t : Z) : Req := MkReq None (Some (lit "10.0.0.9")) (t * SEC).
Definition draw (b : byte) : Draw :=
  MkDraw (arr_fill 16 b) (arr_fill 16 b) (arr_fill 16 b) (arr_fill 16 b) (arr_fill 32 b) (arr_fill 20 b) (arr_fill 24 b).
Definition laptop : DeviceReq := MkDeviceReq (lit "laptop") (lit "linux").

(** Account 1 with the approved device 1, and an approved phone 2. *)
Definition acc1 : Uuid := arr_fill 16 Byte.x01.
Definition dev1 : Uuid := arr_fill 16 Byte.x01.
Definition dev2 : Uuid := arr_fill 16 Byte.x02.
Definition acc3 : Uuid := arr_fill 16 Byte.x03.
Definition me : Auth := MkAuth acc1 dev1.
Definition phone : Auth := MkAuth acc1 dev2.
Definition stranger : Auth := MkAuth acc3 dev1.

Definition row (dev : text) : Device := MkDevice acc1 dev (lit "linux") DeviceStatus.Approved None None None 0.
Definition account_row : Account := MkAccount (lit "sub") (lit "a@b.c") None None 0 true None None.
Definition base_db : Db :=
  set_devices (fun _ => <[dev1 := row (lit "laptop")]> (<[dev2 := row (lit "phone")]> ∅))
    (set_accounts (fun _ => {[acc1 := account_row]}) empty_db).
Definition s0 : Srv := MkSrv base_db ∅.
End Demo.
