(* ===== verification/ApiFacts.v ===== *)
(** Facts about the sync server's building blocks: row selection, the guard's footprint,
    the comparison, the second factor and the limiter. *)
From S2P Require Import Prelude Bytes Text Crypto Totp Toy RecoveryKit Keyring Model ApiDb ApiAuth ApiRoutes.
Local Open Scope Z_scope.

#[global] Arguments auth.totp_verify : simpl never.
#[global] Arguments auth.totp_code : simpl never.
#[global] Arguments security.maybe_autoban : simpl never.
#[global] Arguments RateLimiter.check : simpl never.
#[global] Arguments routes.open_secret : simpl never.
#[global] Arguments update_where : simpl never.

(** * Rows *)

Lemma find_row_Some {V} p (m : gmap Uuid V) k v : find_row p m = Some (k, v) -> m !! k = Some v /\ p k v = true.
Proof.
  unfold find_row. intros H. destruct (List.filter _ (map_to_list m)) as [|x l] eqn:E; [done|]. cbn in H. injection H as ->.
  assert (Hin : In (k, v) (List.filter (fun r => p r.1 r.2) (map_to_list m))) by (rewrite E; by left).
  apply filter_In in Hin as [Hin%list_elem_of_In Hp]. by apply elem_of_map_to_list in Hin.
Qed.

Lemma find_row_None {V} p (m : gmap Uuid V) :
  find_row p m = None <-> forall k v, m !! k = Some v -> p k v = false.
Proof.
  unfold find_row. split.
  - intros H k v Hk. destruct (p k v) eqn:Ep; [|done]. exfalso.
    assert (Hin : In (k, v) (List.filter (fun r => p r.1 r.2) (map_to_list m))).
    { apply filter_In. split; [|done]. by apply list_elem_of_In, elem_of_map_to_list. }
    by destruct (List.filter _ (map_to_list m)).
  - intros H. destruct (List.filter _ (map_to_list m)) as [|[k v] l] eqn:E; [done|]. exfalso.
    assert (Hin : In (k, v) (List.filter (fun r => p r.1 r.2) (map_to_list m))) by (rewrite E; by left).
    apply filter_In in Hin as [Hin%list_elem_of_In Hp]. apply elem_of_map_to_list in Hin. cbn in Hp.
    by rewrite (H _ _ Hin) in Hp.
Qed.

(** When at most one row satisfies the condition, that row is the one found. *)
Lemma find_row_unique {V} p (m : gmap Uuid V) k v :
  m !! k = Some v -> p k v = true -> (forall k' v', m !! k' = Some v' -> p k' v' = true -> k' = k) ->
  find_row p m = Some (k, v).
Proof.
  intros Hk Hp Hu. destruct (find_row p m) as [[k' v']|] eqn:E.
  - apply find_row_Some in E as [Hk' Hp']. assert (k' = k) as -> by eauto. congruence.
  - rewrite find_row_None in E. specialize (E _ _ Hk). congruence.
Qed.

Lemma update_where_lookup {V} p f (m : gmap Uuid V) k :
  update_where p f m !! k = (fun v => if p v : bool then f v else v) <$> m !! k.
Proof. unfold update_where. apply lookup_fmap. Qed.

(** * The footprint of the guard *)

(** Everything but the attack monitor's two tables. *)
Definition core (d : Db) : Db := set_security_events (fun _ => []) (set_banned_ips (fun _ => ∅) d).

Lemma core_eq d d' :
  core d = core d' ->
  accounts d = accounts d' /\ devices d = devices d' /\ wrapped_keys d = wrapped_keys d' /\ vaults d = vaults d'
  /\ refresh_tokens d = refresh_tokens d' /\ totp_lockouts d = totp_lockouts d'
  /\ unlock_requests d = unlock_requests d' /\ file_transfers d = file_transfers d' /\ enroll_codes d = enroll_codes d'.
Proof. unfold core. cbn. intros [=]. by split_and!. Qed.

Section footprint.
Context {A : AuthLibs}.

Lemma record_core rq acc k ip dt s : core (db (snd (security.record rq acc k ip dt s))) = core (db s).
Proof. done. Qed.

Lemma record_ok rq acc k ip dt s : fst (security.record rq acc k ip dt s) = Ok tt.
Proof. done. Qed.

Lemma maybe_autoban_core cfg rq ip s :
  fst (security.maybe_autoban cfg rq ip s) = Ok tt
  /\ core (db (snd (security.maybe_autoban cfg rq ip s))) = core (db s).
Proof.
  unfold security.maybe_autoban. destruct (_ =? 0); [done|]. destruct (ip_opt ip); [|done].
  unfold mbind, query. cbn. destruct (_ <? _); [done|]. by destruct (security.recent_login _ _ _).
Qed.

Lemma is_banned_run rq ip s : exists b, security.is_banned rq ip s = (Ok b, s).
Proof. unfold security.is_banned, query, ret. destruct (ip_opt ip); eauto. Qed.

Lemma ip_guard_core cfg rq action max secs s r s' :
  Guard.ip_guard cfg rq action max secs s = (r, s') ->
  core (db s') = core (db s)
  /\ match r with Ok ip => ip = Guard.client_ip cfg rq | Err e => e = Forbidden \/ e = RateLimited | Panic => False end.
Proof.
  intros H. unfold Guard.ip_guard in H. cbv zeta in H. unfold mbind at 1 in H.
  destruct (is_banned_run rq (Guard.client_ip cfg rq) s) as [b Hb]. rewrite Hb in H. destruct b; cbn in H.
  - injection H as <- <-. split; [done|by left].
  - unfold mbind at 1, Guard.check_limit in H. destruct (RateLimiter.check _ _ _ _ _) as [ok m].
    destruct ok; [injection H as <- <-; by split|]. unfold mbind at 1 in H. cbn in H.
    set (s1 := set_db _ _) in H. unfold mbind in H.
    destruct (maybe_autoban_core cfg rq (Guard.client_ip cfg rq) s1) as [H1 H2].
    destruct (security.maybe_autoban cfg rq _ s1) as [r1 s2]. cbn in H1, H2. subst r1. cbn in H.
    injection H as <- <-. split; [by rewrite H2|by right].
Qed.
End footprint.

(** * The comparison *)

Lemma constant_time_eq_dec a b : auth.constant_time_eq a b = bool_decide (a = b).
Proof. apply ct_compare. Qed.

(** * The second factor *)

Section totp.
Context {A : AuthLibs}.

Lemma byte_low4 b : (Z.to_nat (Z.land (byte_to_Z b) 15) <= 15)%nat.
Proof.
  change 15 with (Z.ones 4). rewrite Z.land_ones by lia. pose proof (Z.mod_pos_bound (byte_to_Z b) (2 ^ 4)). lia.
Qed.

Lemma show_padded_digits w n : 0 <= n -> Forall (fun c => 48 <= c <= 57) (show_padded w n).
Proof.
  intros Hn. unfold show_padded. apply Forall_app. split; [|by apply dec_digits_digits].
  apply Forall_replicate. lia.
Qed.

(** The code is always computed, and is made of digits. *)
Lemma totp_code_ok secret t :
  exists code, auth.totp_code secret t = Ok code /\ Forall (fun c => 48 <= c <= 57) code.
Proof.
  unfold auth.totp_code. cbv zeta. set (d := hmac_sha1 _ _). pose proof (length_arr d) as Hd.
  destruct (index_ok (E:=ApiError) (arr_bytes d) (length d - 1)) as (b & -> & _); [lia|]. cbn [rbind].
  pose proof (byte_low4 b) as Ho. set (o := Z.to_nat _) in *.
  destruct (index_ok (E:=ApiError) (arr_bytes d) o) as (d0 & -> & _); [lia|].
  destruct (index_ok (E:=ApiError) (arr_bytes d) (o + 1)) as (d1 & -> & _); [lia|].
  destruct (index_ok (E:=ApiError) (arr_bytes d) (o + 2)) as (d2 & -> & _); [lia|].
  destruct (index_ok (E:=ApiError) (arr_bytes d) (o + 3)) as (d3 & -> & _); [lia|].
  cbn [rbind]. eexists. split; [done|]. apply show_padded_digits, Z.mod_pos_bound. lia.
Qed.

Lemma digits_ascii code : Forall (fun c => 48 <= c <= 57) code -> Forall is_ascii code.
Proof. intros H. eapply Forall_impl; [exact H|]. unfold is_ascii. cbn. lia. Qed.

Lemma totp_verify_Ok secret code t :
  Forall is_char code ->
  exists b, auth.totp_verify secret code t = Ok b
    /\ (b = true <-> exists step, step ∈ [-1; 0; 1] /\ auth.totp_code secret (t + step * 30) = Ok (trim code)).
Proof.
  intros Hc. unfold auth.totp_verify. apply trim_Forall in Hc. generalize dependent (trim code). clear code.
  intros code Hc. induction [-1; 0; 1] as [|step steps IH]; cbn [auth.totp_try].
  - exists false. split; [done|]. split; [done|]. intros (? & []%not_elem_of_nil & _).
  - destruct (totp_code_ok secret (t + step * 30)) as (c & E & Hd). rewrite E. cbn [rbind].
    rewrite constant_time_eq_dec. case_bool_decide as Heq.
    + exists true. split; [done|]. split; [|done]. intros _. exists step. split; [set_solver|]. rewrite E. f_equal.
      symmetry. apply utf8_ascii_inj; [done|by apply digits_ascii|done].
    + destruct IH as (b & -> & Hb). exists b. split; [done|]. rewrite Hb. split.
      * intros (st & ? & ?). exists st. set_solver.
      * intros (st & [->|?]%elem_of_cons & Hs); [|by exists st]. exfalso. rewrite E in Hs. by injection Hs as ->.
Qed.

(** The core and the server compute the same six digits. *)
Lemma client_server_code raw t :
  0 <= t < 2 ^ 63 ->
  exists c, auth.totp_code raw t = Ok c
    /\ TotpSecret.code_at (TotpSecret.MkTotpSecret raw TotpAlgo.Sha1 6 30) t = Ok c.
Proof.
  intros Ht. unfold TotpSecret.code_at, auth.totp_code, TotpSecret.hmac. cbn [TotpSecret.period TotpSecret.digits TotpSecret.algo TotpSecret.raw].
  change (negb (30 =? 0)) with true. change (10 ^ 6 <? 2 ^ 32) with true.
  rewrite Z.quot_div_nonneg by lia.
  assert (0 <= t / 30 < 2 ^ 64) by (split; [apply Z.div_pos; lia|apply Z.div_lt_upper_bound; lia]).
  rewrite (Z.mod_small (t / 30)) by done. cbv zeta. set (d := hmac_sha1 _ _).
  destruct (truncate_ok (E := CoreError) d) as [bin Hb]; [by rewrite length_arr|]. rewrite Hb. cbn [rbind].
  exists (show_padded 6 (bin mod 1000000)). split; [|done]. unfold TotpSecret.truncate in Hb.
  inv_result. cbn [length arr_bytes] in *. apply index_Ok in Ha, Ha0, Ha1, Ha2, Ha3.
  by rewrite (index_lookup _ _ _ Ha); cbn [rbind]; rewrite (index_lookup _ _ _ Ha0), (index_lookup _ _ _ Ha1),
    (index_lookup _ _ _ Ha2), (index_lookup _ _ _ Ha3).
Qed.
End totp.

(** * The limiter over a run *)

Section limiter.
Variables (key : text) (max : nat) (window : Z).

(** The calls for one key at successive times: which of them were allowed. *)
Fixpoint run_checks (m : gmap text (list Z)) (calls : list Z) : list Z * gmap text (list Z) :=
  match calls with
  | [] => ([], m)
  | t :: calls =>
      let '(ok, m') := RateLimiter.check m t key max window in
      let '(rest, m'') := run_checks m' calls in
      ((if ok : bool then [t] else []) ++ rest, m'')
  end.

Definition recent (t : Z) (l : list Z) : list Z := List.filter (fun x => t - x <? window) l.

Lemma recent_recent t t' l : t <= t' -> recent t' (recent t l) = recent t' l.
Proof.
  intros Ht. unfold recent. induction l as [|x l IH]; [done|]. cbn.
  destruct (Z.ltb_spec (t - x) window); cbn; [by rewrite IH|].
  destruct (Z.ltb_spec (t' - x) window); [lia|done].
Qed.

Lemma recent_app t l l' : recent t (l ++ l') = recent t l ++ recent t l'.
Proof. unfold recent. apply List.filter_app. Qed.

Lemma recent_length_mono t t' l : t <= t' -> (length (recent t' l) <= length (recent t l))%nat.
Proof.
  intros Ht. unfold recent. induction l as [|x l IH]; [done|]. cbn.
  destruct (Z.ltb_spec (t - x) window), (Z.ltb_spec (t' - x) window); cbn; lia.
Qed.

(** At time [t0] the stored hits are, from then on, the allowed calls, and they are within
    the limit. *)
Definition tracks (m : gmap text (list Z)) (past : list Z) (t0 : Z) : Prop :=
  (forall t, t0 <= t -> recent t (default [] (m !! key)) = recent t past)
  /\ (length (recent t0 past) <= max)%nat.

Lemma check_tracks m past t0 t ok m' :
  tracks m past t0 -> t0 <= t -> RateLimiter.check m t key max window = (ok, m') ->
  tracks m' (past ++ if ok : bool then [t] else []) t.
Proof.
  intros [Hr Hl] Ht H. unfold RateLimiter.check in H. change (List.filter _ ?l) with (recent t l) in H.
  rewrite (Hr t Ht) in H. destruct (Nat.leb_spec max (length (recent t past))); injection H as <- <-.
  - rewrite app_nil_r. split; [|pose proof (recent_length_mono t0 t past Ht); lia].
    intros t' Ht'. rewrite lookup_insert_eq. cbn. by apply recent_recent.
  - split.
    + intros t' Ht'. rewrite lookup_insert_eq. change (default [] (Some ?x)) with x.
      rewrite !recent_app. by rewrite recent_recent.
    + rewrite recent_app, length_app. unfold recent at 2. cbn. destruct (_ <? _); cbn; lia.
Qed.

Lemma run_checks_tracks calls m past t0 t :
  tracks m past t0 -> StronglySorted Z.le (t0 :: calls) -> Forall (fun c => c <= t) (t0 :: calls) ->
  (length (recent t (past ++ fst (run_checks m calls))) <= max)%nat.
Proof.
  revert m past t0; induction calls as [|c calls IH]; intros m past t0 HT Hs Hle; cbn [run_checks].
  - cbn. rewrite app_nil_r. apply Forall_cons in Hle as [Hle _]. destruct HT as [_ HT].
    pose proof (recent_length_mono t0 t past Hle). lia.
  - apply StronglySorted_inv in Hs as [Hs H0]. apply Forall_cons in H0 as [H0 _]. apply Forall_cons in Hle as [_ Hle].
    destruct (RateLimiter.check m c key max window) as [ok m'] eqn:E.
    pose proof (check_tracks _ _ _ _ _ _ HT H0 E) as HT'. specialize (IH m' _ c HT' Hs Hle).
    destruct (run_checks m' calls) as [rest m'']. cbn in *. by rewrite <- app_assoc in IH.
Qed.
End limiter.
