(* ===== verification/ApiClaims.v ===== *)
(** What the sync server guarantees, and where it does not: device approval, sessions and
    token rotation, the second factor, the vault's versions, the relay and the quotas. *)
From S2P Require Import Prelude Bytes Text Crypto Totp Toy RecoveryKit Keyring Model ApiDb ApiAuth ApiRoutes ApiDemo ApiFacts.
Local Open Scope Z_scope.

(** * Device approval *)

Definition approved (s : Srv) (dev : Uuid) : Prop :=
  exists d, devices (db s) !! dev = Some d /\ dev_status d = DeviceStatus.Approved.

(** The handler refuses, and leaves the server as it was. *)
Definition blocked {T} (m : M T) (s : Srv) : Prop :=
  exists e, (e = Unauthorized \/ e = Forbidden) /\ m s = (Err e, s).

Lemma blocked_bind {T U} (c : M T) (k : T -> M U) s : blocked c s -> blocked (mbind c k) s.
Proof. intros (e & He & H). exists e. split; [done|]. unfold mbind. by rewrite H. Qed.

Lemma require_blocked dev s : ~ approved s dev -> blocked (routes.require_approved_device dev) s.
Proof.
  intros H. unfold routes.require_approved_device, fetch_or, mbind, query. unfold blocked. cbn.
  destruct (devices (db s) !! dev) as [d|] eqn:E; cbn; [|by exists Unauthorized; auto].
  rewrite bool_decide_false; [by exists Forbidden; auto|]. intros Ha. apply H. by exists d.
Qed.

Lemma require_Ok dev s u s' :
  routes.require_approved_device dev s = (Ok u, s') <-> approved s dev /\ s' = s.
Proof.
  unfold routes.require_approved_device. destruct u. split.
  - intros H. inv_run. bools. subst. split; [|done].
    match goal with H : _ <$> _ = Some _ |- _ => apply fmap_Some in H as (d & Hd & Hs) end. by exists d.
  - intros [(d & Hd & Ha) ->]. unfold fetch_or, mbind, query. rewrite Hd. cbn. by rewrite Ha.
Qed.

(** The check in all its outcomes. *)
Lemma require_run dev s r s' :
  routes.require_approved_device dev s = (r, s') ->
  s' = s /\ match r with
            | Ok _ => approved s dev
            | Err e => ~ approved s dev /\ (e = Unauthorized \/ e = Forbidden)
            | Panic => False
            end.
Proof.
  destruct r as [u|e|].
  - intros [Ha ->]%require_Ok. done.
  - intros H. assert (Hn : ~ approved s dev).
    { intros Ha. assert (H' : routes.require_approved_device dev s = (Ok tt, s)) by (by apply require_Ok). congruence. }
    apply require_blocked in Hn as Hb. destruct Hb as (e' & He & Hb). rewrite Hb in H. injection H as <- <-. done.
  - unfold routes.require_approved_device, fetch_or, mbind, query.
    destruct (dev_status <$> _); unfold ret, err; [case_bool_decide|]; done.
Qed.

Section approval.
Context {A : AuthLibs} {P : CryptoPrims} {B : Base64} (cfg : Config).

(** C4: a device that is not approved (pending, revoked or unknown) cannot read or write the
    vault or the wrapped keys, enable password sign-in, mint enrollment codes, approve or revoke
    devices, use the unlock relay or upload a transfer: each handler answers Unauthorized or
    Forbidden and changes nothing. *)
Theorem unapproved_device_blocked s a rq dw :
  ~ approved s (device a) ->
  blocked (routes.vault_get a) s
  /\ (forall m ct, blocked (routes.vault_put rq a m ct) s)
  /\ (forall wt, blocked (routes.wrapped_get a wt) s)
  /\ (forall wt b d, blocked (routes.wrapped_put rq a wt b d) s)
  /\ (forall wt, blocked (routes.wrapped_delete a wt) s)
  /\ (forall x y, blocked (routes.password_enroll a x y) s)
  /\ blocked (routes.enroll_code_mint cfg rq dw a) s
  /\ (forall id, blocked (routes.device_approve a id) s)
  /\ (forall id, blocked (routes.device_revoke rq a id) s)
  /\ (forall ph k p, blocked (routes.unlock_create cfg rq dw a ph k p) s)
  /\ (forall id st p, blocked (routes.unlock_respond a id st p) s)
  /\ (forall req, blocked (routes.transfer_create cfg rq dw a req) s).
Proof.
  intros H%require_blocked. split_and!; intros; try (apply blocked_bind; exact H).
  unfold routes.vault_put, routes.vault_put_during, routes.vault_put_check. apply blocked_bind, blocked_bind, H.
Qed.

(** Revoking a device works: once an approved device of the account revokes it, the device
    is refused by every handler that checks approval, and all its refresh tokens are revoked. *)
Theorem device_revoke_effective s a rq id d s' :
  routes.device_revoke rq a id s = (Ok tt, s') ->
  devices (db s) !! id = Some d -> dev_account d = account a ->
  ~ approved s' id
  /\ (forall k r, refresh_tokens (db s') !! k = Some r -> rt_device r = id -> revoked_at r <> None).
Proof.
  intros H Hd Ha. unfold routes.device_revoke, routes.alter_device in H. inv_run.
  apply require_Ok in Ha0 as [_ ->]. split.
  - intros (d' & Hd' & Hs). dbsimpl_in Hd'. rewrite lookup_alter_eq, Hd in Hd'. cbn in Hd'.
    rewrite bool_decide_true in Hd' by done. cbn in Hd'. injection Hd' as <-. done.
  - intros k r Hk Hr. dbsimpl_in Hk. rewrite update_where_lookup in Hk.
    destruct (refresh_tokens (db s) !! k) as [r0|]; [|done]. cbn in Hk. injection Hk as <-.
    unfold routes.unrevoked in *. case_match eqn:E; [done|].
    rewrite (bool_decide_true (rt_device r0 = id)) in E by done. cbn in E. by bools.
Qed.
End approval.

(** * Sessions *)

(** Token hashes are unique (a constraint of the table). *)
Definition hashes_unique (m : gmap Uuid RefreshToken) : Prop :=
  forall i j r r', m !! i = Some r -> m !! j = Some r' -> token_hash r = token_hash r' -> i = j.

Lemma hashes_unique_alter f i m :
  (forall r, token_hash (f r) = token_hash r) -> hashes_unique m -> hashes_unique (alter f i m).
Proof.
  intros Hf Hu.
  assert (Hback : forall k r, alter f i m !! k = Some r -> exists r0, m !! k = Some r0 /\ token_hash r0 = token_hash r).
  { intros k r. destruct (decide (k = i)) as [->|Hne].
    - rewrite lookup_alter_eq. intros (r0 & Hr0 & ->)%fmap_Some. exists r0. by rewrite Hf.
    - rewrite lookup_alter_ne by done. eauto. }
  intros j k r r' (r0 & Hj & Hj')%Hback (r1 & Hk & Hk')%Hback Heq. apply (Hu j k r0 r1); congruence.
Qed.

Lemma hashes_unique_insert k t m :
  (forall j r, m !! j = Some r -> token_hash r <> token_hash t) -> hashes_unique m -> hashes_unique (<[k := t]> m).
Proof.
  intros Ht Hu i j r r'. destruct (decide (i = k)) as [->|Hi], (decide (j = k)) as [->|Hj]; [done|..].
  - rewrite lookup_insert_eq, lookup_insert_ne by done. intros [= <-] Hj' Heq. by destruct (Ht j r' Hj').
  - rewrite lookup_insert_ne, lookup_insert_eq by done. intros Hi' [= <-] Heq. by destruct (Ht i r Hi').
  - rewrite !lookup_insert_ne by done. apply Hu.
Qed.

Section sessions.
Context {A : AuthLibs} {P : CryptoPrims} {B : Base64} (cfg : Config).

Lemma mint_session_Ok rq dw acc dev parent s tk s' :
  routes.mint_session rq dw acc dev parent s = (Ok tk, s') ->
  let hash := auth.hash_refresh (refresh_token tk) in
  refresh_tokens (db s) !! new_token dw = None
  /\ (forall k r, refresh_tokens (db s) !! k = Some r -> token_hash r <> hash)
  /\ s' = set_db (set_refresh_tokens (insert (new_token dw)
            (MkRefreshToken acc dev hash parent (now rq + 30 * DAY) None (now rq)))) s.
Proof.
  intros H. unfold routes.mint_session in H. apply mbind_Ok in H as (acc' & s1 & Ha & H).
  unfold lift in Ha. injection Ha as Ha ->. destruct (auth.mint_refresh (token_bytes dw)) as [token hash] eqn:Em.
  unfold auth.mint_refresh in Em. injection Em as <- <-. inv_run.
  match goal with H : find_row _ _ = None |- _ => rewrite find_row_None in H; rename H into Hno end.
  split; [done|]. split; [|done].
  intros k r Hk Heq. specialize (Hno k r Hk). bools. by apply Hno.
Qed.

(** A token found by its hash is the one row that has it. *)
Lemma find_token s i r :
  hashes_unique (refresh_tokens (db s)) -> refresh_tokens (db s) !! i = Some r ->
  find_row (fun _ x => bool_decide (token_hash x = token_hash r)) (refresh_tokens (db s)) = Some (i, r).
Proof.
  intros Hu Hi. apply find_row_unique; [done|by apply bool_decide_true|].
  intros j r' Hj Hh. bools. by eapply Hu.
Qed.

(** What presenting a revoked token does. *)
Lemma replay_revoked rq dw token s i r :
  hashes_unique (refresh_tokens (db s)) -> refresh_tokens (db s) !! i = Some r ->
  token_hash r = auth.hash_refresh token -> revoked_at r <> None ->
  exists e s', routes.auth_refresh cfg rq dw token s = (Err e, s')
    /\ (e = Forbidden \/ e = RateLimited \/ e = Unauthorized)
    /\ (e = Unauthorized -> forall k r', refresh_tokens (db s') !! k = Some r' ->
          rt_account r' = rt_account r -> rt_device r' = rt_device r -> revoked_at r' <> None).
Proof.
  intros Hu Hi Hh Hr. unfold routes.auth_refresh. unfold mbind at 1.
  destruct (Guard.ip_guard cfg rq (lit "auth_refresh") 30 60 s) as [g s1] eqn:Eg.
  apply ip_guard_core in Eg as [Hc Hg]. apply core_eq in Hc as (_ & _ & _ & _ & Hc & _).
  destruct g as [ip|e|]; [|exists e, s1; naive_solver|done].
  unfold mbind at 1, fetch_or at 1, mbind at 1, query. cbv zeta. rewrite <- Hh, Hc, (find_token s i r) by done. cbn.
  destruct (revoked_at r) as [t|] eqn:Er; [|done]. unfold mbind at 1. cbn. unfold mbind at 1. cbn.
  set (s2 := set_db _ (set_db _ s1)). unfold mbind.
  destruct (maybe_autoban_core cfg rq ip s2) as [H1 H2]. destruct (security.maybe_autoban cfg rq ip s2) as [o s3].
  cbn in H1, H2. subst o. exists Unauthorized, s3. split; [done|]. split; [auto|]. intros _ k r' Hk Ha Hd.
  apply core_eq in H2 as (_ & _ & _ & _ & H2 & _). rewrite H2 in Hk. dbsimpl_in Hk.
  rewrite update_where_lookup in Hk. destruct (refresh_tokens (db s1) !! k) as [r0|]; [|done]. cbn in Hk.
  injection Hk as <-. unfold routes.of_device in *. case_match eqn:E; [done|].
  by rewrite !bool_decide_true in E by done.
Qed.

(** C6: refresh tokens rotate and cannot be replayed. A successful refresh revokes the presented
    token and stores exactly one new one for the same account and device, whose parent it is.
    Presenting the old token again, at any later time and whatever happened to the limiter, never
    yields a session; unless the guard already refused the caller, it revokes every token of that
    device, the new one included. *)
Theorem refresh_rotation rq dw token s tk s1 :
  hashes_unique (refresh_tokens (db s)) ->
  routes.auth_refresh cfg rq dw token s = (Ok tk, s1) ->
  (exists i r, refresh_tokens (db s) !! i = Some r /\ token_hash r = auth.hash_refresh token
     /\ revoked_at r = None /\ now rq <= rt_expires_at r
     /\ (forall k, refresh_tokens (db s1) !! k =
          if decide (k = new_token dw) then
            Some (MkRefreshToken (rt_account r) (rt_device r) (auth.hash_refresh (refresh_token tk)) (Some i)
                    (now rq + 30 * DAY) None (now rq))
          else if decide (k = i) then Some (routes.revoke rq r) else refresh_tokens (db s) !! k)
     /\ forall rq2 dw2, exists e s2, routes.auth_refresh cfg rq2 dw2 token s1 = (Err e, s2)
          /\ (e = Unauthorized -> forall k r', refresh_tokens (db s2) !! k = Some r' ->
                rt_account r' = rt_account r -> rt_device r' = rt_device r -> revoked_at r' <> None)).
Proof.
  intros Hu H. unfold routes.auth_refresh in H. apply mbind_Ok in H as (ip & s0 & Hg & H).
  apply ip_guard_core in Hg as [Hc _]. apply core_eq in Hc as (_ & _ & _ & _ & Hc & _).
  apply mbind_Ok in H as ([i r] & s0' & Hf & H). apply fetch_or_Ok in Hf as [Hf ->]. rewrite Hc in Hf.
  apply find_row_Some in Hf as [Hi Hh]. bools. cbn [fst snd] in H.
  destruct (revoked_at r) as [t|] eqn:Er.
  { exfalso. apply mbind_Ok in H as (? & s2 & _ & H). apply mbind_Ok in H as (? & s3 & _ & H).
    by apply mbind_Ok in H as (? & s4 & _ & H). }
  destruct (negb (rt_expires_at r <? now rq)) eqn:Ex; [|done]. bools.
  apply mbind_Ok in H as ([] & s2 & Hrev & H). inv_run. apply mint_session_Ok in H as (Hnew & Hfresh & ->). dbsimpl_in Hnew. dbsimpl_in Hfresh.
  assert (Hlook : forall k, refresh_tokens (db (set_db (set_refresh_tokens (insert (new_token dw)
      (MkRefreshToken (rt_account r) (rt_device r) (auth.hash_refresh (refresh_token tk)) (Some i)
         (now rq + 30 * DAY) None (now rq)))) (set_db (set_refresh_tokens (alter (routes.revoke rq) i)) s0))) !! k =
    if decide (k = new_token dw) then
      Some (MkRefreshToken (rt_account r) (rt_device r) (auth.hash_refresh (refresh_token tk)) (Some i)
              (now rq + 30 * DAY) None (now rq))
    else if decide (k = i) then Some (routes.revoke rq r) else refresh_tokens (db s) !! k).
  { intros k. dbsimpl. rewrite Hc. case_decide as E1; [subst; apply lookup_insert_eq|]. rewrite lookup_insert_ne by done.
    case_decide as E2; [subst; by rewrite lookup_alter_eq, Hi|]. by rewrite lookup_alter_ne by done. }
  exists i, r. do 4 (split; [done|]). split; [exact Hlook|]. intros rq2 dw2. rewrite Hc in Hnew, Hfresh.
  assert (Hni : i <> new_token dw) by (intros ->; by rewrite lookup_alter_eq, Hi in Hnew).
  match goal with |- exists e s2, routes.auth_refresh _ _ _ _ ?st = _ /\ _ => set (s1 := st) in * end.
  destruct (replay_revoked rq2 dw2 token s1 i (routes.revoke rq r)) as (e & s' & He & _ & Hall).
  - unfold s1. dbsimpl. apply hashes_unique_insert; cbn [token_hash]; rewrite Hc; [done|].
    by apply hashes_unique_alter.
  - rewrite Hlook, decide_False, decide_True by done. reflexivity.
  - done.
  - done.
  - exists e, s'. split; [exact He|exact Hall].
Qed.
End sessions.

(** * Concrete runs *)

#[local] Existing Instances toy_auth toy_base64.

Lemma demo_approved dev : dev = Demo.dev1 \/ dev = Demo.dev2 -> approved Demo.s0 dev.
Proof. intros [->| ->]; eexists; (split; [vm_compute; reflexivity|done]). Qed.

Definition unknown : Auth := MkAuth Demo.acc1 (arr_fill 16 Byte.x09).

Lemma unapproved_device_blocked_witness : blocked (routes.vault_get unknown) Demo.s0.
Proof.
  apply (unapproved_device_blocked Demo.cfg Demo.s0 unknown (Demo.at_sec 100) (Demo.draw Byte.x07)).
  intros (d & Hd & _). vm_compute in Hd. discriminate Hd.
Defined.

Lemma device_revoke_effective_witness :
  ~ approved (snd (routes.device_revoke (Demo.at_sec 100) Demo.me Demo.dev2 Demo.s0)) Demo.dev2.
Proof.
  apply (device_revoke_effective Demo.s0 Demo.me (Demo.at_sec 100) Demo.dev2 (Demo.row (lit "phone")));
    [apply run_answer|..]; vm_compute; reflexivity.
Defined.

(** A refresh token of device 1, presented and rotated. *)
Definition demo_token : text := fst (auth.mint_refresh (arr_fill 32 Byte.x0b)).
Definition demo_session : Srv :=
  set_db (set_refresh_tokens (fun _ => {[arr_fill 16 Byte.x0b :=
    MkRefreshToken Demo.acc1 Demo.dev1 (auth.hash_refresh demo_token) None (1000 * SEC) None 0]})) Demo.s0.

Lemma refresh_rotation_witness :
  exists tk s1, routes.auth_refresh Demo.cfg (Demo.at_sec 100) (Demo.draw Byte.x0c) demo_token demo_session = (Ok tk, s1)
    /\ exists e s2, routes.auth_refresh Demo.cfg (Demo.at_sec 200) (Demo.draw Byte.x0d) demo_token s1 = (Err e, s2).
Proof.
  destruct (run_ok (routes.auth_refresh Demo.cfg (Demo.at_sec 100) (Demo.draw Byte.x0c) demo_token) demo_session) as [tk E];
    [vm_compute; reflexivity|]. exists tk. eexists. split; [exact E|].
  assert (Hu : hashes_unique (refresh_tokens (db demo_session))).
  { intros i j r r' Hi Hj _. unfold demo_session in Hi, Hj. cbn in Hi, Hj.
    apply lookup_singleton_Some in Hi as [<- _]. by apply lookup_singleton_Some in Hj as [<- _]. }
  destruct (refresh_rotation Demo.cfg (Demo.at_sec 100) (Demo.draw Byte.x0c) demo_token demo_session tk _ Hu E)
    as (i & r & _ & _ & _ & _ & _ & Hr).
  destruct (Hr (Demo.at_sec 200) (Demo.draw Byte.x0d)) as (e & s2 & He & _). by exists e, s2.
Defined.
