(* ===== verification/ApiVault.v ===== *)
(** The vault table of the sync server: optimistic versioning, what it guarantees when
    requests follow one another and what it does not when they interleave, and the isolation
    of accounts. *)
From S2P Require Import Prelude Bytes Text Crypto Totp Toy RecoveryKit Keyring Model ApiDb ApiAuth ApiRoutes ApiDemo ApiFacts ApiClaims.
Local Open Scope Z_scope.

Lemma alter_insert_row {V} (f : V -> V) (m : gmap Uuid V) k v : m !! k = Some v -> alter f k m = <[k := f v]> m.
Proof.
  intros H. apply map_eq. intros j. destruct (decide (j = k)) as [->|Hj].
  - by rewrite lookup_alter_eq, lookup_insert_eq, H.
  - by rewrite lookup_alter_ne, lookup_insert_ne.
Qed.

Section vault.
Context {A : AuthLibs} {P : CryptoPrims} {B : Base64}.

Definition current_version (s : Srv) (acc : Uuid) : option Z := version <$> vaults (db s) !! acc.

(** What a PUT brings: the version it was made for and the sealed document, if they can be used. *)
Definition put_request (m : option text) (ctb : text) : option (Z * bytes) :=
  im ← m ≫= (fun x => parse_i64 (trim_matches 34 x)); ct ← b64_decode ctb;
  if (32 <=? Z.of_nat (length ct)) && (Z.of_nat (length ct) <=? 33554432) then Some (im, ct) else None.

Lemma approved_dec s dev : approved s dev \/ ~ approved s dev.
Proof.
  unfold approved. destruct (devices (db s) !! dev) as [d|] eqn:E; [|right; by intros (? & ? & ?)].
  destruct (decide (dev_status d = DeviceStatus.Approved)); [left; eauto|]. right. by intros (? & [= <-] & ?).
Qed.

Lemma check_refused a m ctb s :
  ~ approved s (device a) \/ put_request m ctb = None ->
  exists e, routes.vault_put_check a m ctb s = (Err e, s)
    /\ (approved s (device a) /\ (exists why, e = BadRequest why) \/ ~ approved s (device a) /\ (e = Unauthorized \/ e = Forbidden)).
Proof.
  intros H. unfold put_request in H. unfold routes.vault_put_check, mbind at 1.
  destruct (routes.require_approved_device (device a) s) as [o s1] eqn:E. apply require_run in E as [-> Ho].
  destruct o as [u|e|]; [|exists e; tauto|done].
  destruct H as [H|H]; [done|]. unfold mbind, lift, ok_or, routes.b64_or.
  destruct (m ≫= _) as [im|]; [|by (eexists; split; [reflexivity|left; eauto])]. cbn in H |- *. unfold lift, ok_or. destruct (b64_decode ctb) as [ct|]; [|by (eexists; split; [reflexivity|left; eauto])].
  cbn in H. rewrite !Z.leb_antisym in H. destruct (negb _ && negb _); [done|by (eexists; split; [reflexivity|left; eauto])].
Qed.

Lemma check_passed a m ctb s im ct :
  approved s (device a) -> put_request m ctb = Some (im, ct) -> routes.vault_put_check a m ctb s = (Ok (im, ct), s).
Proof.
  intros Ha H. unfold put_request in H. unfold routes.vault_put_check, mbind at 1. rewrite (proj2 (require_Ok (device a) s tt s)) by done.
  unfold mbind, lift, ok_or, routes.b64_or.
  destruct (m ≫= _) as [im'|]; [|done]. cbn in H |- *. unfold lift, ok_or. destruct (b64_decode ctb) as [ct'|]; [|done].
  cbn in H. rewrite !Z.leb_antisym in H. destruct (negb _ && negb _); [by injection H as -> ->|done].
Qed.

Lemma put_write_run rq a im ct s0 s :
  vaults (db s) !! account a = vaults (db s0) !! account a ->
  routes.vault_put_write rq a im ct (current_version s0 (account a)) s
  = let cur := default 0 (current_version s0 (account a)) in
    if im =? cur then (Ok (cur + 1), set_db (set_vaults (insert (account a) (MkVaultRow (cur + 1) ct (now rq) (Some (device a))))) s)
    else (Err (VersionConflict cur), s).
Proof.
  unfold current_version. intros Hs. destruct (vaults (db s0) !! account a) as [row|]; cbn; unfold routes.vault_put_write; destruct (_ =? _); try done.
  - unfold mbind, alter_row, update, ret, set_db, set_vaults. by rewrite (alter_insert_row _ _ _ _ Hs).
  - unfold insert_row, mbind, query, update, ret. by rewrite Hs.
Qed.

Lemma put_during_run others rq a m ctb s :
  vaults (db (others s)) !! account a = vaults (db s) !! account a ->
  let cur := default 0 (current_version s (account a)) in
  (forall im ct, approved s (device a) -> put_request m ctb = Some (im, ct) ->
     routes.vault_put_during others rq a m ctb s
     = if im =? cur then (Ok (cur + 1), set_db (set_vaults (insert (account a) (MkVaultRow (cur + 1) ct (now rq) (Some (device a))))) (others s))
       else (Err (VersionConflict cur), others s))
  /\ (~ approved s (device a) \/ put_request m ctb = None ->
     exists e, routes.vault_put_during others rq a m ctb s = (Err e, s)
       /\ (approved s (device a) /\ (exists why, e = BadRequest why) \/ ~ approved s (device a) /\ (e = Unauthorized \/ e = Forbidden))).
Proof.
  intros Hs. cbv zeta. unfold routes.vault_put_during. split.
  - intros im ct Ha Hr. unfold mbind at 1. rewrite (check_passed a m ctb s im ct) by done.
    unfold mbind, routes.vault_put_read, query. by apply put_write_run.
  - intros H. destruct (check_refused a m ctb s H) as (e & He & Hk). exists e. unfold mbind at 1. by rewrite He.
Qed.

(** C1: the vault is written by optimistic versioning. Let a PUT come in while no other request writes
    that vault between its two statements (which nothing prevents: see [vault_put_lost_update]). If the
    device is approved, If-Match is an integer and the body is base64 of 32 bytes to 32 MiB, then it
    succeeds exactly when If-Match is the current version, 0 if there is no vault: it answers the next
    version and leaves exactly that version and that ciphertext for the account, and nothing else of its
    own; and otherwise it answers a conflict that names the current version and writes nothing. A device
    that is not approved is answered unauthorized or forbidden, any other request that a bad one, and
    nothing changes. *)
Theorem vault_put_optimistic others rq a m ctb s :
  vaults (db (others s)) !! account a = vaults (db s) !! account a ->
  let cur := default 0 (current_version s (account a)) in
  (forall im ct, approved s (device a) -> put_request m ctb = Some (im, ct) ->
     routes.vault_put_during others rq a m ctb s
     = if im =? cur then (Ok (cur + 1), set_db (set_vaults (insert (account a) (MkVaultRow (cur + 1) ct (now rq) (Some (device a))))) (others s))
       else (Err (VersionConflict cur), others s))
  /\ (~ approved s (device a) \/ put_request m ctb = None ->
     exists e, routes.vault_put_during others rq a m ctb s = (Err e, s)
       /\ (approved s (device a) /\ (exists why, e = BadRequest why) \/ ~ approved s (device a) /\ (e = Unauthorized \/ e = Forbidden))).
Proof. apply put_during_run. Qed.

(** What a PUT that runs by itself did, by its answer. *)
Lemma vault_put_run rq a m ctb s r s' :
  routes.vault_put rq a m ctb s = (r, s') ->
  match r with
  | Ok v => exists ct, m ≫= (fun x => parse_i64 (trim_matches 34 x)) = Some (default 0 (current_version s (account a)))
      /\ v = default 0 (current_version s (account a)) + 1
      /\ b64_decode ctb = Some ct /\ 32 <= Z.of_nat (length ct) <= 33554432
      /\ s' = set_db (set_vaults (insert (account a) (MkVaultRow v ct (now rq) (Some (device a))))) s
  | Err (VersionConflict c) => s' = s /\ c = default 0 (current_version s (account a))
      /\ m ≫= (fun x => parse_i64 (trim_matches 34 x)) <> Some c
  | Err _ => s' = s
  | Panic => False
  end.
Proof.
  destruct (put_during_run (fun s => s) rq a m ctb s eq_refl) as [Hok Hno]. fold routes.vault_put in Hok, Hno. intros H.
  assert (Hno' : ~ approved s (device a) \/ put_request m ctb = None -> match r with Err (VersionConflict _) => False | Err _ => s' = s | _ => False end).
  { intros Hb. destruct (Hno Hb) as (e & He & Hk). rewrite He in H. injection H as <- <-.
    by destruct Hk as [[_ [? ->]]|[_ [-> | ->]]]. }
  clear Hno. destruct (approved_dec s (device a)) as [Ha|Ha]; [|specialize (Hno' (or_introl Ha)); destruct r as [|[]|]; done].
  destruct (put_request m ctb) as [[im ct]|] eqn:Er; [|specialize (Hno' (or_intror eq_refl)); destruct r as [|[]|]; done].
  rewrite (Hok im ct Ha eq_refl) in H. unfold put_request in Er. destruct (m ≫= _) as [im'|]; [|done]. cbn in Er.
  destruct (b64_decode ctb) as [ct'|]; [|done]. cbn in Er. destruct (_ && _) eqn:Eb; [|done]. injection Er as -> ->. bools.
  destruct (Z.eqb_spec im (default 0 (current_version s (account a)))) as [->|Hne]; injection H as <- <-; [|by split_and!; congruence].
  exists ct. by split_and!.
Qed.

(** Interleaved PUTs lose an update. Between the SELECT and the UPDATE of one request nothing
    locks the row, and the UPDATE does not repeat the version test: two clients that both read
    version [v] with If-Match [v] are both answered [v + 1], the first ciphertext is gone, and the
    stored row carries version [v + 2], which no client sealed its document for. *)
Lemma vault_put_lost_update rq1 rq2 a b v ct0 t0 u0 ct1 ct2 s :
  account b = account a ->
  vaults (db s) !! account a = Some (MkVaultRow v ct0 t0 u0) ->
  exists s1 s2,
    routes.vault_put_read a s = (Ok (Some v), s) /\ routes.vault_put_read b s = (Ok (Some v), s)
    /\ routes.vault_put_write rq1 a v ct1 (Some v) s = (Ok (v + 1), s1)
    /\ routes.vault_put_write rq2 b v ct2 (Some v) s1 = (Ok (v + 1), s2)
    /\ vaults (db s2) !! account a = Some (MkVaultRow (v + 2) ct2 (now rq2) (Some (device b))).
Proof.
  intros Hab Hv. unfold routes.vault_put_read, query. rewrite Hab, Hv. do 2 eexists.
  do 2 (split; [done|]). unfold routes.vault_put_write. rewrite !Z.eqb_refl.
  split; [reflexivity|]. split; [reflexivity|]. dbsimpl. rewrite Hab, !lookup_alter_eq, Hv. cbn. do 2 f_equal. lia.
Qed.
End vault.

(** * Isolation of accounts *)

(** Everything of account [b] is as it was: its row, vault, wrapped keys and lockout, and each of its
    devices, refresh tokens, unlock requests, transfers and enrolment codes; save, where [x] names a
    device, the refresh tokens of that device. *)
Record keeps (x : option Uuid) (b : Uuid) (d d' : Db) : Prop := {
  keeps_account : accounts d' !! b = accounts d !! b;
  keeps_vault : vaults d' !! b = vaults d !! b;
  keeps_wrapped wt dv : wrapped_keys d' !! (b, wt, dv) = wrapped_keys d !! (b, wt, dv);
  keeps_devices id r : devices d !! id = Some r -> dev_account r = b -> devices d' !! id = Some r;
  keeps_unlocks id r : unlock_requests d !! id = Some r -> ur_account r = b -> unlock_requests d' !! id = Some r;
  keeps_transfers id r : file_transfers d !! id = Some r -> ft_account r = b -> file_transfers d' !! id = Some r;
  keeps_tokens id r : refresh_tokens d !! id = Some r -> rt_account r = b -> x <> Some (rt_device r) -> refresh_tokens d' !! id = Some r;
  keeps_lockout : totp_lockouts d' !! b = totp_lockouts d !! b;
  keeps_codes id r : enroll_codes d !! id = Some r -> ec_account r = b -> enroll_codes d' !! id = Some r;
}.

#[export] Instance keeps_preorder x b : PreOrder (keeps x b).
Proof.
  split.
  - intros d. by split.
  - intros d1 d2 d3 [] []. split; try congruence; eauto.
Qed.

Definition keeps_from {T} (x : option Uuid) (b : Uuid) (m : M T) (s : Srv) : Prop :=
  forall r s', m s = (r, s') -> keeps x b (db s) (db s').

Section isolation.
Context {A : AuthLibs} {P : CryptoPrims} {B : Base64} (cfg : Config) (x : option Uuid) (b : Uuid).

Lemma kf_bind {T U} (c : M T) (k : T -> M U) s :
  keeps_from x b c s -> (forall y s1, c s = (Ok y, s1) -> keeps_from x b (k y) s1) -> keeps_from x b (mbind c k) s.
Proof.
  intros Hc Hk r s' H. unfold mbind in H. destruct (c s) as [[y|e|] s1] eqn:E.
  - etrans; [by eapply Hc|]. by eapply Hk.
  - injection H as <- <-. by eapply Hc.
  - injection H as <- <-. by eapply Hc.
Qed.

Lemma kf_pure {T} (m : M T) s : (forall r s', m s = (r, s') -> s' = s) -> keeps_from x b m s.
Proof. intros H r s' Hm. by rewrite (H _ _ Hm). Qed.

Lemma kf_ret {T} (y : T) s : keeps_from x b (ret y) s.
Proof. by intros r s' [= <- <-]. Qed.
Lemma kf_err {T} e s : keeps_from x b (err (A := T) e) s.
Proof. by intros r s' [= <- <-]. Qed.
Lemma kf_lift {T} (y : result T ApiError) s : keeps_from x b (lift y) s.
Proof. by intros r s' [= <- <-]. Qed.
Lemma kf_query {T} (f : Db -> T) s : keeps_from x b (query f) s.
Proof. by intros r s' [= <- <-]. Qed.
Lemma kf_update f s : keeps x b (db s) (f (db s)) -> keeps_from x b (update f) s.
Proof. by intros H r s' [= <- <-]. Qed.
Lemma kf_require dev s : keeps_from x b (routes.require_approved_device dev) s.
Proof. apply kf_pure. intros r s' [-> _]%require_run. done. Qed.
Lemma kf_rate_limit rq ac mx sc s : keeps_from x b (Guard.rate_limit cfg rq ac mx sc) s.
Proof.
  apply kf_bind; [|intros [] s1 _; [apply kf_ret|apply kf_err]].
  intros r s' H. unfold Guard.check_limit in H. destruct (RateLimiter.check _ _ _ _ _). by injection H as <- <-.
Qed.
Lemma kf_fetch_or {T} e (f : Db -> option T) s : keeps_from x b (fetch_or e f) s.
Proof. apply kf_bind; [apply kf_query|]. intros [y|] s1 _; [apply kf_ret|apply kf_err]. Qed.
Lemma kf_if {T} (c : bool) (m1 m2 : M T) s : keeps_from x b m1 s -> keeps_from x b m2 s -> keeps_from x b (if c then m1 else m2) s.
Proof. by destruct c. Qed.

(** A fresh row never replaces one. *)
Lemma lookup_insert_fresh {V} (m : gmap Uuid V) k v j w : m !! k = None -> m !! j = Some w -> <[k := v]> m !! j = Some w.
Proof. intros Hk Hj. rewrite lookup_insert_ne; [done|]. intros ->. congruence. Qed.

Lemma lookup_alter_keep {V} (f : V -> V) (m : gmap Uuid V) k j w :
  m !! j = Some w -> (k = j -> f w = w) -> alter f k m !! j = Some w.
Proof.
  intros Hj Hf. destruct (decide (k = j)) as [->|Hne].
  - rewrite lookup_alter_eq, Hj. cbn. by rewrite Hf.
  - by rewrite lookup_alter_ne.
Qed.
End isolation.

Ltac keep_tac :=
  repeat match goal with
  | |- keeps_from _ _ (ret _) _ => apply kf_ret
  | |- keeps_from _ _ (err _) _ => apply kf_err
  | |- keeps_from _ _ (lift _) _ => apply kf_lift
  | |- keeps_from _ _ (query _) _ => apply kf_query
  | |- keeps_from _ _ (routes.require_approved_device _) _ => apply kf_require
  | |- keeps_from _ _ (Guard.rate_limit _ _ _ _ _) _ => apply kf_rate_limit
  | |- keeps_from _ _ (fetch_or _ _) _ => apply kf_fetch_or
  | |- keeps_from _ _ (mbind _ _) _ => apply kf_bind; [|intros ? ? ?]
  | |- keeps_from _ _ (let '(_, _) := ?x in _) _ => destruct x eqn:?
  | |- keeps_from _ _ (if _ then _ else _) _ => apply kf_if
  | |- keeps_from _ _ (match ?x with _ => _ end) _ => destruct x
  end.

Section isolation_claim.
Context {A : AuthLibs} {P : CryptoPrims} {B : Base64} (cfg : Config).

Lemma alter_device_keeps x b a id p f s :
  b <> account a -> keeps_from x b (routes.alter_device a id p f) s.
Proof.
  intros Hb. unfold routes.alter_device. keep_tac. apply kf_update. split; dbsimpl; try done.
  intros j r Hj Hr. apply lookup_alter_keep; [done|]. intros _. rewrite bool_decide_false; [done|congruence].
Qed.

Lemma insert_unlock_keeps x b k v s : keeps_from x b (insert_row set_unlock_requests unlock_requests k v) s.
Proof.
  intros r s' H. unfold insert_row, mbind, query in H. destruct (unlock_requests (db s) !! k) eqn:E;
    injection H as <- <-; [done|]. split; dbsimpl; try done. intros. by apply lookup_insert_fresh.
Qed.

Lemma insert_transfer_keeps x b k v s : keeps_from x b (insert_row set_file_transfers file_transfers k v) s.
Proof.
  intros r s' H. unfold insert_row, mbind, query in H. destruct (file_transfers (db s) !! k) eqn:E;
    injection H as <- <-; [done|]. split; dbsimpl; try done. intros. by apply lookup_insert_fresh.
Qed.

Lemma insert_code_keeps x b k v s : keeps_from x b (insert_row set_enroll_codes enroll_codes k v) s.
Proof.
  intros r s' H. unfold insert_row, mbind, query in H. destruct (enroll_codes (db s) !! k) eqn:E;
    injection H as <- <-; [done|]. split; dbsimpl; try done. intros. by apply lookup_insert_fresh.
Qed.

Lemma vault_put_keeps x b rq a m ct s : b <> account a -> keeps_from x b (routes.vault_put rq a m ct) s.
Proof.
  intros Hb r s' H. apply vault_put_run in H. destruct r as [v|[]|]; [|naive_solver..].
  destruct H as (c & _ & _ & _ & _ & ->). split; dbsimpl; try done. by rewrite lookup_insert_ne.
Qed.

Lemma unlock_poll_keeps x b t a id s : b <> account a -> keeps_from x b (routes.unlock_poll t a id) s.
Proof.
  intros Hb. unfold routes.unlock_poll. apply kf_bind; [apply kf_fetch_or|]. intros r s1 Hr.
  apply fetch_or_Ok in Hr as [Hr ->]. keep_tac. apply kf_update. split; dbsimpl; try done.
  intros j r' Hj Hr'. apply lookup_alter_keep; [done|]. intros ->. exfalso. rewrite Hj in Hr. cbn in Hr.
  case_bool_decide; [congruence|done].
Qed.

Lemma unlock_get_keeps x b n t a id s : b <> account a -> keeps_from x b (routes.unlock_get_loop n t a id) s.
Proof.
  intros Hb. revert t s; induction n as [|n IH]; intros t s; cbn [routes.unlock_get_loop];
    (apply kf_bind; [by apply unlock_poll_keeps|]; intros i s1 _); [apply kf_ret|].
  apply kf_if; [apply IH|apply kf_ret].
Qed.

Lemma transfer_download_keeps x b rq a id s : b <> account a -> keeps_from x b (routes.transfer_download rq a id) s.
Proof.
  intros Hb. unfold routes.transfer_download. apply kf_bind; [apply kf_fetch_or|]. intros r s1 Hr.
  apply fetch_or_Ok in Hr as [Hr ->].
  assert (Hid : forall j r', file_transfers (db s) !! j = Some r' -> ft_account r' = b -> id <> j).
  { intros j r' Hj Hr' ->. rewrite Hj in Hr. cbn in Hr. destruct (_ && _) eqn:E; [|done]. bools. congruence. }
  keep_tac; apply kf_update; split; dbsimpl; try done; intros j r' Hj Hr'.
  - rewrite lookup_alter_ne by eauto. done.
  - rewrite lookup_delete_ne by eauto. done.
  - rewrite lookup_alter_ne by eauto. done.
Qed.

(** C5: accounts are isolated. No request made with a token of one account, whatever its arguments,
    touches another account's row, vault, wrapped keys, lockout, devices, refresh tokens, unlock
    requests, transfers or enrolment codes; with one exception, that revoking a device by its
    identifier may end the sessions of that device in another account. *)
Theorem account_isolation b a rq dw s :
  b <> account a ->
  (forall m ct, keeps_from None b (routes.vault_put rq a m ct) s)
  /\ (forall wt bl d, keeps_from None b (routes.wrapped_put rq a wt bl d) s)
  /\ (forall wt, keeps_from None b (routes.wrapped_delete a wt) s)
  /\ (forall x y, keeps_from None b (routes.password_enroll a x y) s)
  /\ keeps_from None b (routes.enroll_code_mint cfg rq dw a) s
  /\ (forall id, keeps_from None b (routes.device_approve a id) s)
  /\ (forall id, keeps_from (Some id) b (routes.device_revoke rq a id) s)
  /\ (forall p, keeps_from None b (routes.device_pin a p) s)
  /\ (forall t, keeps_from None b (routes.push_register a t) s)
  /\ (forall ph k p, keeps_from None b (routes.unlock_create cfg rq dw a ph k p) s)
  /\ (forall id, keeps_from None b (routes.unlock_get rq a id) s)
  /\ (forall id st p, keeps_from None b (routes.unlock_respond a id st p) s)
  /\ (forall req, keeps_from None b (routes.transfer_create cfg rq dw a req) s)
  /\ keeps_from None b (routes.transfer_list rq a) s
  /\ (forall id, keeps_from None b (routes.transfer_download rq a id) s)
  /\ (forall id, keeps_from None b (routes.transfer_delete a id) s)
  /\ keeps_from None b (routes.auth_logout rq a) s.
Proof.
  intros Hb. split_and!; intros.
  - by apply vault_put_keeps.
  - unfold routes.wrapped_put, routes.b64_or. keep_tac. apply kf_update. split; dbsimpl; try done.
    intros. rewrite lookup_insert_ne; [done|]. congruence.
  - unfold routes.wrapped_delete. keep_tac. apply kf_update. split; dbsimpl; try done. intros wt' dv.
    destruct (wrapped_keys (db _) !! (b, wt', dv)) eqn:E.
    + rewrite map_lookup_filter_Some. cbn. split; [done|congruence].
    + rewrite map_lookup_filter_None. by left.
  - unfold routes.password_enroll, routes.b64_or. keep_tac. apply kf_update. split; dbsimpl; try done.
    by rewrite lookup_alter_ne.
  - unfold routes.enroll_code_mint. keep_tac. apply insert_code_keeps.
  - unfold routes.device_approve. keep_tac. by apply alter_device_keeps.
  - unfold routes.device_revoke. keep_tac; [by apply alter_device_keeps|]. apply kf_update. split; dbsimpl; try done. intros j r Hj Hr Hx.
    rewrite update_where_lookup, Hj. cbn. rewrite bool_decide_false; [done|congruence].
  - unfold routes.device_pin, routes.b64_or. keep_tac. by apply alter_device_keeps.
  - unfold routes.push_register. keep_tac. by apply alter_device_keeps.
  - unfold routes.unlock_create, routes.b64_or. keep_tac. apply insert_unlock_keeps.
  - by apply unlock_get_keeps.
  - unfold routes.unlock_respond, routes.b64_or. keep_tac; apply kf_update; split; dbsimpl; try done;
      intros j r Hj Hr; (apply lookup_alter_keep; [done|]); intros _; unfold routes.answerable;
      (rewrite bool_decide_false; [done|congruence]).
  - unfold routes.transfer_create, routes.b64_or. keep_tac; apply insert_transfer_keeps.
  - unfold routes.transfer_list. keep_tac. apply kf_update. split; dbsimpl; try done. intros j r Hj Hr.
    rewrite update_where_lookup, Hj. cbn. rewrite bool_decide_false; [done|congruence].
  - by apply transfer_download_keeps.
  - unfold routes.transfer_delete. apply kf_bind; [apply kf_query|]. intros n s1 Hn. injection Hn as <- <-.
    keep_tac. apply kf_update. split; dbsimpl; try done. intros j r Hj Hr. case_match eqn:E; [done|].
    rewrite lookup_delete_ne; [done|]. intros ->. rewrite Hj in E. rewrite bool_decide_false in E by congruence. done.
  - apply kf_update. split; dbsimpl; try done. intros j r Hj Hr _. rewrite update_where_lookup, Hj. cbn. unfold routes.of_device.
    rewrite bool_decide_false; [done|congruence].
Qed.

(** The one leak between accounts is revocation of sessions: [device_revoke] restricts the
    device update to the caller's account but revokes refresh tokens by device id alone, so an
    approved device of any account ends the sessions of any device whose id it knows. *)
Theorem device_revoke_crosses_accounts rq a id k r s :
  approved s (device a) ->
  refresh_tokens (db s) !! k = Some r -> rt_device r = id -> rt_account r <> account a -> revoked_at r = None ->
  exists s', routes.device_revoke rq a id s = (Ok tt, s') /\ refresh_tokens (db s') !! k = Some (routes.revoke rq r).
Proof.
  intros Ha Hk Hd Hacc Hr. unfold routes.device_revoke, routes.alter_device, mbind.
  rewrite (proj2 (require_Ok (device a) s tt s)) by done. cbn -[update_where lookup alter]. eexists. split; [reflexivity|].
  dbsimpl. rewrite update_where_lookup, Hk. cbn. unfold routes.unrevoked.
  by rewrite !bool_decide_true.
Qed.
End isolation_claim.

(** * Concrete runs *)

#[local] Existing Instances toy_auth toy_base64.

Definition demo_ct : bytes := replicate 40 Byte.x61.
Definition demo_vault : Srv :=
  set_db (set_vaults (fun _ => {[Demo.acc1 := MkVaultRow 4 demo_ct 0 (Some Demo.dev1)]})) Demo.s0.

(** While another device is being approved, the owner's PUT for version 4 becomes version 5. *)
Lemma vault_put_optimistic_witness :
  let others := fun s => snd (routes.device_approve Demo.me Demo.dev2 s) in
  routes.vault_put_during others (Demo.at_sec 100) Demo.me (Some [34; 52; 34]) (b64_encode demo_ct) demo_vault
  = (Ok 5, set_db (set_vaults (insert Demo.acc1 (MkVaultRow 5 demo_ct (100 * SEC) (Some Demo.dev1)))) (others demo_vault)).
Proof.
  intros others. destruct (vault_put_optimistic others (Demo.at_sec 100) Demo.me (Some [34; 52; 34]) (b64_encode demo_ct) demo_vault
    ltac:(vm_compute; reflexivity)) as [H _].
  assert (Ha : approved demo_vault (device Demo.me)) by (eexists; split; reflexivity).
  etransitivity; [exact (H 4 demo_ct Ha ltac:(vm_compute; reflexivity))|]. reflexivity.
Defined.

Lemma account_isolation_witness :
  vaults (db (snd (routes.vault_put (Demo.at_sec 100) Demo.stranger (Some [34; 48; 34]) (b64_encode demo_ct) demo_vault)))
    !! Demo.acc1 = Some (MkVaultRow 4 demo_ct 0 (Some Demo.dev1)).
Proof.
  destruct (account_isolation Demo.cfg Demo.acc1 Demo.stranger (Demo.at_sec 100) (Demo.draw Byte.x0e) demo_vault)
    as [H _]; [by intros [=]|].
  destruct (H (Some [34; 48; 34]) (b64_encode demo_ct) _ _ (surjective_pairing _)) as [_ Hv _ _ _ _].
  rewrite Hv. reflexivity.
Defined.

(** A session of another account whose device id the caller knows. *)
Definition demo_foreign : RefreshToken := MkRefreshToken Demo.acc3 (arr_fill 16 Byte.x08) [] None (1000 * SEC) None 0.
Definition demo_victim : Srv :=
  set_db (set_refresh_tokens (fun _ => {[arr_fill 16 Byte.x0b := demo_foreign]})) Demo.s0.

Lemma device_revoke_crosses_accounts_witness :
  exists s', routes.device_revoke (Demo.at_sec 100) Demo.me (arr_fill 16 Byte.x08) demo_victim = (Ok tt, s')
    /\ refresh_tokens (db s') !! arr_fill 16 Byte.x0b = Some (routes.revoke (Demo.at_sec 100) demo_foreign).
Proof.
  apply (device_revoke_crosses_accounts (Demo.at_sec 100) Demo.me (arr_fill 16 Byte.x08) (arr_fill 16 Byte.x0b)
           demo_foreign demo_victim); [|reflexivity|reflexivity|by intros [=]|reflexivity].
  apply demo_approved. by left.
Defined.
