(* ===== verification/ApiLogin.v ===== *)
(** Sign-in on the sync server: the second factor and its lockout, enrollment codes, the
    built-in login, the rate limiter and the attack monitor. *)
From S2P Require Import Prelude Bytes Text Crypto Totp Toy RecoveryKit Keyring Model ApiDb ApiAuth ApiRoutes ApiDemo ApiFacts ApiClaims ApiVault.
Local Open Scope Z_scope.

(** * The second factor *)

Section totp.
Context {A : AuthLibs} {P : CryptoPrims} {B : Base64} (cfg : Config).

(** Codes are compared exactly, in constant time, within one step of the clock. Verification
    never panics and accepts precisely the six-digit codes of the previous, the current and the
    next 30-second step, up to surrounding blanks; the constant-time comparison is equality. *)
Theorem totp_verify_window secret code t x y :
  Forall is_char code ->
  (exists b, auth.totp_verify secret code t = Ok b
     /\ (b = true <-> exists step, step ∈ [-1; 0; 1] /\ auth.totp_code secret (t + step * 30) = Ok (trim code)))
  /\ auth.constant_time_eq x y = bool_decide (x = y).
Proof. intros H. split; [by apply totp_verify_Ok|apply constant_time_eq_dec]. Qed.

Definition locked_at (s : Srv) (acc : Uuid) (t : Z) : Prop :=
  exists l until, totp_lockouts (db s) !! acc = Some l /\ locked_until l = Some until /\ t < until.

Lemma check_totp_locked rq acc ip code s :
  locked_at s acc (now rq) ->
  exists s', routes.check_totp_code cfg rq acc ip code s = (Err LockedOut, s') /\ core (db s') = core (db s).
Proof.
  intros (l & u & Hl & Hu & Ht). unfold routes.check_totp_code, mbind at 1, query at 1. rewrite Hl. cbn [mbind option_bind].
  cbn. rewrite Hu, (proj2 (Z.ltb_lt _ _) Ht). eexists. split; [reflexivity|done].
Qed.

Lemma open_secret_Err blob e : routes.open_secret cfg blob = Err e -> e = Internal.
Proof.
  unfold routes.open_secret. destruct (negb _); [|congruence].
  intros [H|(nb & _ & [H|(n & _ & [H|(ct & _ & H)]%rbind_Err)]%rbind_Err)]%rbind_Err.
  - by apply slice_not_Err in H.
  - by apply copy_from_slice_not_Err in H.
  - by apply slice_not_Err in H.
  - destruct (crypto.open _ _ _ _); cbn in H; congruence.
Qed.

Lemma totp_verify_not_Err sec code t e : auth.totp_verify sec code t <> Err e.
Proof.
  unfold auth.totp_verify. induction [-1; 0; 1] as [|st l IH]; cbn [auth.totp_try]; [done|].
  destruct (totp_code_ok sec (t + st * 30)) as (c & -> & _). cbn [rbind]. by destruct (auth.constant_time_eq _ _).
Qed.

(** A refused code is counted. *)
Lemma check_totp_fails rq acc ip code s s' :
  routes.check_totp_code cfg rq acc ip code s = (Err Unauthorized, s') ->
  totp_lockouts (db s') = <[acc := routes.bump_lockout rq (totp_lockouts (db s) !! acc)]> (totp_lockouts (db s)).
Proof.
  unfold routes.check_totp_code, mbind at 1, query at 1.
  destruct (match totp_lockouts (db s) !! acc ≫= locked_until with Some u => now rq <? u | None => false end) eqn:El.
  { unfold mbind. cbn. discriminate. }
  intros H. unfold mbind at 1, fetch_one, mbind at 1, query in H.
  destruct (totp_secret_enc <$> accounts (db s) !! acc) as [enc|]; [|discriminate H]. cbn in H.
  unfold mbind at 1, lift in H. destruct enc as [enc|]; cbn in H; [|discriminate H].
  unfold mbind at 1 in H. destruct (routes.open_secret cfg enc) as [sec|e|] eqn:Eo; [|exfalso|discriminate H].
  2: { injection H as -> _. by apply open_secret_Err in Eo. }
  cbn in H. destruct (auth.totp_verify sec code (unix (now rq))) as [ok|e|] eqn:Ev; [|exfalso|discriminate H].
  2: { injection H as -> _. by apply totp_verify_not_Err in Ev. }
  destruct ok; cbn -[security.maybe_autoban] in H; [discriminate H|].
  match type of H with context [security.maybe_autoban _ _ _ ?st] => set (s2 := st) in H end.
  unfold mbind in H. destruct (maybe_autoban_core cfg rq ip s2) as [H1 H2].
  destruct (security.maybe_autoban cfg rq ip s2) as [o s3]. cbn in H1, H2. subst o. injection H as <-.
  apply core_eq in H2 as (_ & _ & _ & _ & _ & H2 & _). by rewrite H2.
Qed.

(** [n] refused codes for an account, the last at time [t], with anything in between that does
    not touch the account's lockout row. *)
Inductive wrong_codes (acc : Uuid) : nat -> Z -> Srv -> Srv -> Prop :=
| wrong_none t s s' :
    totp_lockouts (db s') !! acc = totp_lockouts (db s) !! acc -> wrong_codes acc 0 t s s'
| wrong_one n t rq ip code s s1 s2 s3 :
    wrong_codes acc n t s s1 ->
    routes.check_totp_code cfg rq acc ip code s1 = (Err Unauthorized, s2) ->
    totp_lockouts (db s3) !! acc = totp_lockouts (db s2) !! acc ->
    wrong_codes acc (S n) (now rq) s s3.

Lemma wrong_codes_count acc n t s s' :
  totp_lockouts (db s) !! acc = None -> wrong_codes acc n t s s' ->
  totp_lockouts (db s') !! acc =
    match n with
    | O => None
    | S _ => Some (MkLockout (Z.of_nat n) (if 5 <=? Z.of_nat n then Some (t + 15 * MINUTE) else None))
    end.
Proof.
  intros H0. induction 1 as [t s s' Hs|n t rq ip code s s1 s2 s3 _ IH Hc Hs]; [congruence|].
  specialize (IH H0). rewrite Hs, (check_totp_fails _ _ _ _ _ _ Hc), lookup_insert_eq, IH.
  destruct n as [|n]; [done|]. unfold routes.bump_lockout. cbn [failed_count].
  replace (Z.of_nat (S n) + 1) with (Z.of_nat (S (S n))) by lia. done.
Qed.

(** C7: five wrong codes lock the second factor. From the fifth refused code on, and until 15
    minutes after the last one, every code is refused unseen, the right one included, and nothing
    but the event log changes. *)
Theorem totp_lockout acc n t s s' rq ip code :
  totp_lockouts (db s) !! acc = None -> wrong_codes acc n t s s' -> (5 <= n)%nat ->
  now rq < t + 15 * MINUTE ->
  exists s'', routes.check_totp_code cfg rq acc ip code s' = (Err LockedOut, s'') /\ core (db s'') = core (db s').
Proof.
  intros H0 Hw Hn Ht. apply check_totp_locked. apply wrong_codes_count in Hw; [|done].
  destruct n as [|n]; [lia|]. rewrite (proj2 (Z.leb_le 5 (Z.of_nat (S n)))) in Hw by lia.
  by repeat eexists.
Qed.

Lemma open_seal_secret {L : CryptoLaws P} dw secret : routes.open_secret cfg (routes.seal_secret cfg dw secret) = Ok secret.
Proof.
  unfold routes.open_secret, routes.seal_secret, crypto.seal.
  rewrite length_app, length_arr.
  replace (24 + _ <? 24)%nat with false by (symmetry; apply Nat.ltb_ge; lia). cbn [negb].
  rewrite slice_prefix by (by rewrite length_arr). cbn [rbind]. rewrite copy_from_slice_arr. cbn [rbind].
  rewrite slice_from_app by (by rewrite length_arr). cbn [rbind]. by rewrite crypto.open_enc.
Qed.

Lemma digit_not_blank c : 48 <= c <= 57 -> is_whitespace c = false.
Proof.
  intros H. assert (c ∈ [48; 49; 50; 51; 52; 53; 54; 55; 56; 57]) as Hin by (rewrite !elem_of_cons; lia).
  rewrite !elem_of_cons in Hin. destruct_or! Hin; subst; try reflexivity. by apply not_elem_of_nil in Hin.
Qed.

Lemma trim_start_digits s : Forall (fun c => 48 <= c <= 57) s -> trim_start s = s.
Proof. destruct 1 as [|c s Hc Hs]; cbn; [done|]. by rewrite digit_not_blank. Qed.

Lemma trim_digits s : Forall (fun c => 48 <= c <= 57) s -> trim s = s.
Proof.
  intros H. unfold trim, trim_end. rewrite (trim_start_digits s) by done.
  rewrite trim_start_digits by (by apply Forall_reverse). apply reverse_involutive.
Qed.

(** The current code of the stored secret is accepted. *)
Lemma check_totp_accepts rq acc ip code enc secret row s :
  accounts (db s) !! acc = Some row -> totp_secret_enc row = Some enc ->
  routes.open_secret cfg enc = Ok secret -> auth.totp_code secret (unix (now rq)) = Ok code ->
  ~ locked_at s acc (now rq) ->
  routes.check_totp_code cfg rq acc ip code s = (Ok tt, set_db (set_totp_lockouts (delete acc)) s).
Proof.
  intros Hrow Henc Hopen Hcode Hlock. unfold routes.check_totp_code, mbind at 1, query at 1.
  assert (match totp_lockouts (db s) !! acc ≫= locked_until with Some u => now rq <? u | None => false end = false) as ->.
  { destruct (totp_lockouts (db s) !! acc) as [l|] eqn:El; cbn; [|done].
    destruct (locked_until l) as [u|] eqn:Eu; [|done]. apply Z.ltb_ge. destruct (Z.le_gt_cases u (now rq)); [done|].
    destruct Hlock. by exists l, u. }
  unfold mbind at 1, fetch_one, mbind at 1, query. rewrite Hrow. cbn. rewrite Henc. cbn.
  unfold mbind, lift. rewrite Hopen.
  destruct (totp_code_ok secret (unix (now rq))) as (c & Hc & Hd). rewrite Hcode in Hc. injection Hc as <-.
  destruct (totp_verify_Ok secret code (unix (now rq))) as (b & -> & Hb).
  { eapply Forall_impl; [exact Hd|]. unfold is_char. cbn. lia. }
  destruct b; [done|]. exfalso. assert (false = true); [|done]. apply Hb. exists 0. split; [set_solver|].
  rewrite trim_digits by done. by rewrite Z.mul_0_l, Z.add_0_r.
Qed.

Lemma arr_nonempty {n} (a : arr (S n)) : arr_bytes a <> [].
Proof. intros E. pose proof (length_arr a) as Hl. by rewrite E in Hl. Qed.

(** An authenticator app and the server agree. A secret that the server shows as base32, typed
    into the vault in any case and with any blanks or padding, parses there to the same secret, and
    the code the app then computes at time [t] is accepted by the server at any time [u] up to 30
    seconds away. *)
Theorem authenticator_interop {Q : QueryPairs} secret shown typed t u :
  secret <> [] -> auth.base32_encode secret = Ok shown ->
  map to_ascii_uppercase (List.filter Base32.significant typed) = shown ->
  0 <= t < 2 ^ 63 -> 30 <= u -> Z.abs (t - u) <= 30 ->
  exists item code, TotpSecret.parse typed = Ok item /\ TotpSecret.code_at item t = Ok code
    /\ auth.totp_verify secret code u = Ok true.
Proof.
  intros Hne He Hty Ht Hu Htu. unfold auth.base32_encode in He.
  destruct (client_server_code secret t Ht) as (c & Hs & Hc).
  eexists _, c. split; [by eapply (parse_typed (E := ApiError))|]. split; [done|].
  destruct (totp_code_ok secret t) as (c' & Hs' & Hd). rewrite Hs in Hs'. injection Hs' as <-.
  destruct (totp_verify_Ok secret c u) as (b & -> & Hb).
  { eapply Forall_impl; [exact Hd|]. unfold is_char. cbn. lia. }
  destruct b; [done|]. exfalso. assert (false = true); [|done]. apply Hb. rewrite trim_digits by done.
  assert (Hcode : forall x, 0 <= x -> x / 30 = t / 30 -> auth.totp_code secret x = Ok c).
  { intros x Hx Hq. rewrite <- Hs. unfold auth.totp_code. rewrite !Z.quot_div_nonneg, Hq by lia. done. }
  pose proof (Z.div_mod t 30). pose proof (Z.div_mod u 30). pose proof (Z.mod_pos_bound t 30). pose proof (Z.mod_pos_bound u 30).
  assert (t / 30 = u / 30 - 1 \/ t / 30 = u / 30 \/ t / 30 = u / 30 + 1) as [E|[E|E]] by lia.
  - exists (-1). split; [left|]. apply Hcode; [lia|]. rewrite E. symmetry. apply Z.div_unique with (u mod 30); lia.
  - exists 0. split; [right; left|]. apply Hcode; [lia|]. rewrite E. symmetry. apply Z.div_unique with (u mod 30); lia.
  - exists 1. split; [do 2 right; left|]. apply Hcode; [lia|]. rewrite E. symmetry. apply Z.div_unique with (u mod 30); lia.
Qed.

(** The second factor can be replaced by whoever passes the first. [totp_enroll] asks only for
    the pending token that a Google sign-in yields and overwrites the account's secret, confirmed or
    not; entering the secret the response shows into an authenticator gives a code that is then
    accepted in place of the owner's. *)
Theorem totp_enroll_bypasses_second_factor {L : CryptoLaws P} {Q : QueryPairs} dw p rq ip row s :
  accounts (db s) !! account p = Some row -> ~ locked_at s (account p) (now rq) -> 0 <= unix (now rq) < 2 ^ 63 ->
  exists resp item code s1 s2,
    routes.totp_enroll cfg dw p s = (Ok resp, s1)
    /\ TotpSecret.parse (routes.secret_base32 resp) = Ok item
    /\ TotpSecret.code_at item (unix (now rq)) = Ok code
    /\ routes.check_totp_code cfg rq (account p) ip code s1 = (Ok tt, s2).
Proof.
  intros Hrow Hlock Ht. destruct (client_server_code (totp_secret dw) (unix (now rq)) Ht) as (code & Hcode & Hc).
  destruct (Base32Facts.base32_encode_ok (E := ApiError) (totp_secret dw)) as (b32 & _ & _ & Hb & _).
  unfold routes.totp_enroll, mbind at 1, fetch_one, mbind at 1, query. rewrite Hrow. cbn [fmap option_fmap option_map].
  unfold mbind, alter_row, update, lift, routes.base32, auth.otpauth_uri, auth.base32_encode. rewrite !Hb. cbn [rbind].
  eexists _, _, code, _, _. split; [reflexivity|]. split.
  { apply (parse_encoded (E := ApiError) (totp_secret dw)); [apply arr_nonempty|exact Hb]. }
  split; [exact Hc|]. eapply check_totp_accepts.
  - dbsimpl. rewrite lookup_alter_eq, Hrow. reflexivity.
  - reflexivity.
  - apply open_seal_secret.
  - done.
  - done.
Qed.
End totp.

(** * Enrollment codes *)

(** Code hashes are unique (a constraint of the table). *)
Definition codes_unique (m : gmap Uuid EnrollCode) : Prop :=
  forall i j r r', m !! i = Some r -> m !! j = Some r' -> code_hash r = code_hash r' -> i = j.

Section enroll.
Context {A : AuthLibs} {P : CryptoPrims} {B : Base64} (cfg : Config).

(** Tables that a session does not write. *)
Lemma mint_session_codes rq dw acc dev parent s tk s' :
  routes.mint_session rq dw acc dev parent s = (Ok tk, s') -> enroll_codes (db s') = enroll_codes (db s).
Proof. by intros (_ & _ & ->)%mint_session_Ok. Qed.

Lemma insert_device_Ok rq dw acc d st s dev s' :
  routes.insert_device rq dw acc d st s = (Ok dev, s') ->
  dev = new_device dw /\ devices (db s) !! dev = None
  /\ s' = set_db (set_devices (insert dev (MkDevice acc (dr_name d) (dr_platform d) st None None None (now rq)))) s.
Proof. unfold routes.insert_device. intros H. inv_run. done. Qed.

(** An enrollment code works once. A successful redemption found an unused, unexpired code,
    marks it used, and enrolls an approved device on the account that minted it; from then on the
    same code never yields a session again. *)
Theorem enroll_code_single_use rq dw code d s tk s1 :
  codes_unique (enroll_codes (db s)) ->
  routes.auth_enroll cfg rq dw code d s = (Ok tk, s1) ->
  (exists i r, enroll_codes (db s) !! i = Some r /\ code_hash r = auth.hash_refresh (trim code)
     /\ used_at r = None /\ now rq < ec_expires_at r
     /\ approved s1 (new_device dw)
     /\ (dev_account <$> devices (db s1) !! new_device dw) = Some (ec_account r))
  /\ forall rq2 dw2 d2, is_ok (fst (routes.auth_enroll cfg rq2 dw2 code d2 s1)) = false.
Proof.
  intros Hu H. unfold routes.auth_enroll in H. apply mbind_Ok in H as (ip & s0 & Hg & H).
  apply ip_guard_core in Hg as [Hc _]. apply core_eq in Hc as (_ & _ & _ & _ & _ & _ & _ & _ & Hc).
  destruct (routes.device_ok d) eqn:Ed; [|done]. cbv zeta in H.
  apply mbind_Ok in H as (row & s0' & Hq & H). unfold query in Hq. injection Hq as <- <-. rewrite Hc in H.
  destruct (find_row _ (enroll_codes (db s))) as [[i r]|] eqn:Ef.
  2: { exfalso. apply mbind_Ok in H as (? & s2 & _ & H). by apply mbind_Ok in H as (? & s3 & _ & H). }
  apply find_row_Some in Ef as [Hi Hr]. unfold routes.redeemable in Hr. bools.
  apply mbind_Ok in H as ([] & s2 & Hal & H). inv_run.
  match goal with H : routes.insert_device _ _ _ _ _ _ = _ |- _ => apply insert_device_Ok in H as (-> & Hd & ->) end.
  match goal with H : routes.mint_session _ _ _ _ _ _ = _ |- _ => apply mint_session_Ok in H as (_ & _ & ->) end.
  match goal with H : security.record _ _ _ _ _ _ = _ |- _ => unfold security.record, update in H; injection H as <- end.
  split.
  - exists i, r. do 4 (split; [done|]). unfold approved. dbsimpl. rewrite lookup_insert_eq. split; [by eexists|done].
  - intros rq2 dw2 d2. unfold routes.auth_enroll, mbind at 1.
    match goal with |- context [Guard.ip_guard cfg rq2 ?a ?b ?c ?st] => set (s1 := st);
      destruct (Guard.ip_guard cfg rq2 a b c s1) as [g s3] eqn:Eg end.
    apply ip_guard_core in Eg as [Hc3 Hg3]. destruct g as [ip3|e|]; [|done..].
    destruct (routes.device_ok d2); [|done]. cbv zeta. unfold mbind at 1, query.
    apply core_eq in Hc3 as (_ & _ & _ & _ & _ & _ & _ & _ & Hc3).
    destruct (find_row _ (enroll_codes (db s3))) as [[j r']|] eqn:Ef.
    + exfalso. apply find_row_Some in Ef as [Hj Hr']. rewrite Hc3 in Hj. unfold s1 in Hj. dbsimpl_in Hj.
      rewrite Hc in Hj. unfold routes.redeemable in Hr'. bools.
      destruct (decide (j = i)) as [->|Hji].
      * rewrite lookup_alter_eq, Hi in Hj. cbn in Hj. injection Hj as <-. done.
      * rewrite lookup_alter_ne in Hj by done. apply Hji. eapply Hu; [done|done|congruence].
    + unfold mbind. cbn. match goal with |- context [security.maybe_autoban cfg rq2 ip3 ?st] =>
        destruct (maybe_autoban_core cfg rq2 ip3 st) as [Hab _]; destruct (security.maybe_autoban cfg rq2 ip3 st) end.
      cbn in Hab. by subst.
Qed.
End enroll.

(** * The rate limiter and the attack monitor *)

Section monitor.
Context {A : AuthLibs} {P : CryptoPrims} {B : Base64} (cfg : Config).

(** C30: the rate limiter keeps its promise. For any sequence of calls of one key in time order,
    starting from a key without history, the calls it allows within the trailing window are never
    more than the limit, at whatever time one looks. *)
Theorem rate_limiter_bound key max window m calls t :
  m !! key = None -> StronglySorted Z.le calls -> Forall (fun c => c <= t) calls ->
  (length (recent window t (fst (run_checks key max window m calls))) <= max)%nat.
Proof.
  intros Hm Hs Ht. destruct calls as [|c calls]; [cbn; lia|].
  rewrite <- (app_nil_l (fst _)). apply (run_checks_tracks key max window (c :: calls) m [] c t).
  - split; [|cbn; lia]. intros t' _. by rewrite Hm.
  - apply StronglySorted_inv in Hs as [Hs Hc]. constructor; [by constructor|]. constructor; [lia|done].
  - apply Forall_cons in Ht as [Hc Ht]. by repeat constructor.
Qed.

(** No event of the address counts towards a ban. *)
Definition uncounted (ip : text) (s : Srv) : Prop :=
  Forall (fun e => ev_ip e = ip_opt ip -> ev_kind e ∉ security.FAILURE_KINDS) (security_events (db s)).

Lemma failures_none rq w ip_lit l :
  Forall (fun e => ev_ip e = Some ip_lit -> ev_kind e ∉ security.FAILURE_KINDS) l ->
  security.failures rq w ip_lit l = 0%nat.
Proof.
  unfold security.failures. induction 1 as [|e l He _ IH]; [done|]. cbn.
  destruct (bool_decide (ev_ip e = Some ip_lit)) eqn:Ei; cbn [andb]; [|done].
  rewrite (bool_decide_false (_ ∈ _)) by (apply He; by bools). by rewrite andb_false_r.
Qed.

Lemma maybe_autoban_idle rq ip s :
  0 < autoban_threshold cfg -> uncounted ip s -> security.maybe_autoban cfg rq ip s = (Ok tt, s).
Proof.
  intros Ht Hu. unfold security.maybe_autoban. rewrite (proj2 (Z.eqb_neq _ _)) by lia.
  destruct (ip_opt ip) as [l|] eqn:E; [|done]. unfold mbind, query. unfold uncounted in Hu. rewrite E in Hu.
  rewrite failures_none by done. by rewrite (proj2 (Z.ltb_lt _ _)).
Qed.

(** Guessing the master password never bans. The kind recorded for a wrong password is not
    among the failure kinds the monitor counts: with auto-ban on, a wrong proof from an address
    without other failures is answered Unauthorized, leaves the ban list as it is, and leaves the
    address with nothing counted, so any number of further guesses does the same. *)
Theorem password_guessing_never_banned rq dw proof_b64 code d s acc salt hash proof s0 :
  0 < autoban_threshold cfg ->
  Guard.ip_guard cfg rq (lit "auth_password") 10 60 s = (Ok (Guard.client_ip cfg rq), s0) ->
  routes.device_ok d = true -> routes.pw_auth_account s0 = (Ok (acc, salt, hash), s0) ->
  b64_decode proof_b64 = Some proof -> arr_bytes (sha256 proof) <> hash ->
  uncounted (Guard.client_ip cfg rq) s0 ->
  exists s', routes.auth_password cfg rq dw proof_b64 code d s = (Err Unauthorized, s')
    /\ banned_ips (db s') = banned_ips (db s0) /\ uncounted (Guard.client_ip cfg rq) s'.
Proof.
  intros Ht Hg Hd Hpw Hp Hne Hu. unfold routes.auth_password, mbind at 1. rewrite Hg, Hd.
  unfold mbind at 1. rewrite Hpw. unfold mbind at 1, routes.b64_or, lift. rewrite Hp. cbn [ok_or].
  cbv zeta. rewrite constant_time_eq_dec, bool_decide_false by done. cbn [negb].
  unfold mbind at 1. cbn. set (s1 := set_db _ s0).
  assert (Hu1 : uncounted (Guard.client_ip cfg rq) s1).
  { constructor; [|done]. cbn. intros _ Hin. repeat (apply elem_of_cons in Hin as [[=]|Hin]).
    by apply not_elem_of_nil in Hin. }
  unfold mbind. rewrite maybe_autoban_idle by done. exists s1. done.
Qed.
End monitor.

(** * Concrete runs *)

#[local] Existing Instances toy_auth toy_base64.

Definition demo_secret : bytes := arr_fill 20 Byte.x07.

Lemma totp_verify_window_witness : auth.totp_verify demo_secret (lit " 539712 ") 1000 = Ok true.
Proof.
  destruct (totp_verify_window demo_secret (lit " 539712 ") 1000 [] []) as [(b & Hb & Hs) _].
  - apply Forall_forall. intros c Hc. vm_compute in Hc. unfold is_char.
    repeat (apply elem_of_cons in Hc as [->|Hc]; [lia|]). by apply not_elem_of_nil in Hc.
  - rewrite Hb. f_equal. apply Hs. exists 0. split; [right; left|vm_compute; reflexivity].
Defined.

(** An account with a confirmed second factor. *)
Definition demo_enrolled : Srv :=
  set_db (set_accounts (fun _ => {[Demo.acc1 :=
    MkAccount (lit "sub") (lit "a@b.c") (Some (routes.seal_secret Demo.cfg (Demo.draw Byte.x07) demo_secret))
      (Some 0) 0 true None None]})) Demo.s0.

Definition demo_try (n : Z) (s : Srv) : Srv :=
  snd (routes.check_totp_code Demo.cfg (Demo.at_sec n) Demo.acc1 (lit "10.0.0.9") (lit "999999") s).
Definition demo_after (n : nat) : Srv :=
  nat_rect (fun _ => Srv) demo_enrolled (fun n s => demo_try (1000 + Z.of_nat n) s) n.

Lemma demo_wrong n : (n <= 5)%nat -> wrong_codes Demo.cfg Demo.acc1 n ((999 + Z.of_nat n) * SEC) demo_enrolled (demo_after n).
Proof.
  induction n as [|n IH]; intros Hn; [by constructor|].
  replace ((999 + Z.of_nat (S n)) * SEC) with (now (Demo.at_sec (1000 + Z.of_nat n))) by (cbn [Demo.at_sec now]; lia).
  eapply (wrong_one _ _ _ _ (Demo.at_sec (1000 + Z.of_nat n)) (lit "10.0.0.9") (lit "999999")); [apply IH; lia| |reflexivity].
  apply run_answer.
  destruct n as [|[|[|[|[|n]]]]]; [vm_compute; reflexivity..|lia].
Qed.

Lemma totp_lockout_witness :
  exists s'', routes.check_totp_code Demo.cfg (Demo.at_sec 1500) Demo.acc1 (lit "10.0.0.9") (lit "752384") (demo_after 5)
    = (Err LockedOut, s'').
Proof.
  destruct (totp_lockout Demo.cfg Demo.acc1 5 ((999 + 5) * SEC) demo_enrolled (demo_after 5) (Demo.at_sec 1500)
              (lit "10.0.0.9") (lit "752384")) as (s'' & Hs & _);
    [reflexivity|apply (demo_wrong 5); lia|lia|vm_compute; reflexivity|by exists s''].
Defined.

#[local] Instance no_urls : QueryPairs := {| query_pairs _ := None |}.

Lemma authenticator_interop_witness :
  exists item code, TotpSecret.parse (lit "fr tg 6===") = Ok item /\ TotpSecret.code_at item 1000 = Ok code
    /\ auth.totp_verify [Byte.x2c; Byte.x66; Byte.x6f] code 1025 = Ok true.
Proof.
  apply (authenticator_interop [Byte.x2c; Byte.x66; Byte.x6f] (lit "FRTG6") (lit "fr tg 6===") 1000 1025);
    [done|vm_compute; reflexivity|vm_compute; reflexivity|lia|lia|lia].
Defined.

Lemma totp_enroll_bypasses_second_factor_witness :
  exists resp item code s1 s2,
    routes.totp_enroll Demo.cfg (Demo.draw Byte.x0c) Demo.me demo_enrolled = (Ok resp, s1)
    /\ TotpSecret.parse (routes.secret_base32 resp) = Ok item
    /\ TotpSecret.code_at item 1000 = Ok code
    /\ routes.check_totp_code Demo.cfg (Demo.at_sec 1000) Demo.acc1 (lit "10.0.0.9") code s1 = (Ok tt, s2).
Proof.
  apply (totp_enroll_bypasses_second_factor Demo.cfg (Demo.draw Byte.x0c) Demo.me (Demo.at_sec 1000) (lit "10.0.0.9")
              (MkAccount (lit "sub") (lit "a@b.c") (Some (routes.seal_secret Demo.cfg (Demo.draw Byte.x07) demo_secret))
                (Some 0) 0 true None None) demo_enrolled).
  - reflexivity.
  - intros (l & u & Hl & _). vm_compute in Hl. discriminate Hl.
  - split; vm_compute; congruence.
Defined.

(** One enrollment code. *)
Definition demo_code : text := fst (auth.mint_refresh (arr_fill 32 Byte.x0b)).
Definition demo_code_srv : Srv :=
  set_db (set_enroll_codes (fun _ => {[arr_fill 16 Byte.x0b :=
    MkEnrollCode Demo.acc1 (auth.hash_refresh demo_code) 0 (300 * SEC) None]})) Demo.s0.

Lemma enroll_code_single_use_witness :
  exists s1, is_ok (fst (routes.auth_enroll Demo.cfg (Demo.at_sec 100) (Demo.draw Byte.x0c) demo_code Demo.laptop demo_code_srv)) = true
    /\ is_ok (fst (routes.auth_enroll Demo.cfg (Demo.at_sec 101) (Demo.draw Byte.x0d) demo_code Demo.laptop s1)) = false.
Proof.
  destruct (run_ok (routes.auth_enroll Demo.cfg (Demo.at_sec 100) (Demo.draw Byte.x0c) demo_code Demo.laptop) demo_code_srv)
    as [tk E]; [vm_compute; reflexivity|]. eexists. split; [vm_compute; reflexivity|].
  assert (Hu : codes_unique (enroll_codes (db demo_code_srv))).
  { intros i j r r' Hi Hj _. unfold demo_code_srv in Hi, Hj. cbn in Hi, Hj.
    apply lookup_singleton_Some in Hi as [<- _]. by apply lookup_singleton_Some in Hj as [<- _]. }
  apply (enroll_code_single_use Demo.cfg (Demo.at_sec 100) (Demo.draw Byte.x0c) demo_code Demo.laptop demo_code_srv tk _ Hu E).
Defined.

Lemma rate_limiter_bound_witness :
  (length (recent 60%Z 30%Z (fst (run_checks (lit "k") 2 60%Z ∅ [10%Z; 20%Z; 30%Z]))) <= 2)%nat
  /\ fst (run_checks (lit "k") 2 60 ∅ [10; 20; 30]) = [10; 20].
Proof.
  split; [|vm_compute; reflexivity].
  apply (rate_limiter_bound (lit "k") 2 60 ∅ [10; 20; 30] 30); [reflexivity| |].
  - repeat (constructor; [|repeat (constructor; [lia|]); constructor]). constructor.
  - repeat (constructor; [lia|]). constructor.
Defined.

(** An account with password sign-in, and a wrong proof. *)
Definition demo_password : Srv :=
  set_db (set_accounts (fun _ => {[Demo.acc1 :=
    MkAccount (lit "sub") (lit "a@b.c") None None 0 true (Some []) (Some [])]})) Demo.s0.
Definition demo_limited : Srv :=
  snd (Guard.ip_guard Demo.cfg (Demo.at_sec 100) (lit "auth_password") 10 60 demo_password).

Lemma password_guessing_never_banned_witness :
  exists s', routes.auth_password Demo.cfg (Demo.at_sec 100) (Demo.draw Byte.x0c) (lit "AA") None Demo.laptop demo_password
      = (Err Unauthorized, s')
    /\ banned_ips (db s') = banned_ips (db demo_limited).
Proof.
  destruct (password_guessing_never_banned Demo.cfg (Demo.at_sec 100) (Demo.draw Byte.x0c) (lit "AA") None Demo.laptop
              demo_password Demo.acc1 [] [] [Byte.x00] demo_limited) as (s' & H & Hb & _);
    [..|exists s'; split; [exact H|exact Hb]].
  - reflexivity.
  - apply run_answer. vm_compute. reflexivity.
  - vm_compute. reflexivity.
  - vm_compute. reflexivity.
  - vm_compute. reflexivity.
  - intros H. apply (f_equal length) in H. discriminate H.
  - vm_compute. constructor.
Defined.
