(* ===== verification/ApiRelay.v ===== *)
(** The two relays of the sync server: unlock requests answered by the phone, and file
    transfers between an account's devices. *)
From S2P Require Import Prelude Bytes Text Crypto Totp Toy RecoveryKit Keyring Model ApiDb ApiAuth ApiRoutes ApiDemo ApiFacts ApiClaims ApiVault.
Local Open Scope Z_scope.

(** * Unlock requests *)

Section unlock.
Context {A : AuthLibs} {P : CryptoPrims} {B : Base64} (cfg : Config).

(** The answer the handler stores. *)
Definition answered (st : text) (resp : option bytes) (r : UnlockRequest) : UnlockRequest :=
  MkUnlockRequest (ur_account r) (desktop_device_id r) (phone_device_id r) (ur_kind r) (request_payload r) resp
    (if bool_decide (st = lit "approved") then UnlockState.Approved else UnlockState.Denied) (ur_created_at r)
    (ur_expires_at r).

Lemma unlock_respond_Ok a id st p s u s' :
  routes.unlock_respond a id st p s = (Ok u, s') ->
  exists r resp, approved s (device a) /\ unlock_requests (db s) !! id = Some r /\ routes.answerable a r = true
    /\ unlock_requests (db s') = <[id := answered st resp r]> (unlock_requests (db s)).
Proof.
  intros H. unfold routes.unlock_respond in H. apply mbind_Ok in H as ([] & s0 & Hq & H).
  apply require_Ok in Hq as [Ha ->]. destruct (bool_decide (st = lit "approved") || _); [|done].
  apply mbind_Ok in H as (resp & s1 & Hresp & H).
  assert (s1 = s) as ->.
  { destruct p as [b|]; inv_run; [|done]. unfold routes.b64_or, lift in *. by simplify_eq. }
  destruct (match resp with Some r => _ | None => true end); [|done].
  apply mbind_Ok in H as (n & s2 & Hn & H). unfold query in Hn. injection Hn as Hn <-. cbv zeta in H.
  apply mbind_Ok in H as ([] & s3 & Hal & H). unfold alter_row, update in Hal. injection Hal as <-.
  destruct (negb (n =? 0)%nat) eqn:En; [|done]. unfold ret in H. injection H as _ <-. subst n.
  destruct (unlock_requests (db s) !! id) as [r|] eqn:Er; [|done].
  destruct (routes.answerable a r) eqn:Ean; [|done]. exists r, resp. do 3 (split; [done|]).
  dbsimpl. rewrite (alter_insert_row _ _ _ _ Er). by rewrite Ean.
Qed.

(** An unlock request is answered once, by the phone it names. An answer is accepted only from
    an approved device that is the request's own phone, on the same account, while the request is
    pending; after it no further answer is accepted from anyone. *)
Theorem unlock_answered_once a id st p s s' :
  routes.unlock_respond a id st p s = (Ok tt, s') ->
  approved s (device a)
  /\ (exists r, unlock_requests (db s) !! id = Some r /\ ur_account r = account a
        /\ phone_device_id r = device a /\ ur_state r = UnlockState.Pending)
  /\ forall a2 st2 p2 s2, routes.unlock_respond a2 id st2 p2 s' <> (Ok tt, s2).
Proof.
  intros (r & resp & Ha & Hr & Han & Hs)%unlock_respond_Ok. split; [done|]. split.
  - exists r. unfold routes.answerable in Han. by bools.
  - intros a2 st2 p2 s2 (r2 & resp2 & _ & Hr2 & Han2 & _)%unlock_respond_Ok.
    rewrite Hs, lookup_insert_eq in Hr2. injection Hr2 as <-. unfold routes.answerable in Han2. bools.
    cbn in *. by destruct (bool_decide _).
Qed.

(** The two-minute lifetime of an unlock request binds only those who ask. [unlock_respond]
    does not look at the expiry: as long as nobody has polled the request since, its phone's answer
    is accepted and stored however late it comes. *)
Theorem unlock_answer_ignores_expiry a id r s :
  approved s (device a) -> unlock_requests (db s) !! id = Some r -> ur_account r = account a ->
  phone_device_id r = device a -> ur_state r = UnlockState.Pending ->
  exists s', routes.unlock_respond a id (lit "approved") None s = (Ok tt, s')
    /\ unlock_requests (db s') !! id = Some (answered (lit "approved") None r).
Proof.
  intros Ha Hr Hacc Hph Hst.
  assert (Han : routes.answerable a r = true) by (unfold routes.answerable; by rewrite !bool_decide_true).
  unfold routes.unlock_respond, mbind at 1. rewrite (proj2 (require_Ok (device a) s tt s)) by done.
  rewrite bool_decide_true by done. cbn [orb]. unfold mbind, ret, query. rewrite Hr, Han. cbn [Nat.eqb negb].
  eexists. split; [reflexivity|]. dbsimpl. by rewrite lookup_alter_eq, Hr; cbn; rewrite Han.
Qed.
End unlock.

(** * File transfers *)

Section transfers.
Context {A : AuthLibs} {P : CryptoPrims} {B : Base64} (cfg : Config).

Lemma used_bytes_insert rq acc m k r :
  m !! k = None ->
  routes.used_bytes rq acc (<[k := r]> m)
  = (if routes.live rq acc r then Z.of_nat (length (ft_ciphertext r)) else 0) + routes.used_bytes rq acc m.
Proof.
  intros Hk. unfold routes.used_bytes. rewrite map_fold_insert_L; [done| |done].
  intros. lia.
Qed.

(** The storage quota holds. A transfer that is accepted is non-empty, at most 25 MiB, from an
    approved device, for a device of the same account or for all of them, and afterwards the
    account's live transfers together are within 250 MiB. *)
Theorem transfer_quota rq dw a req s id s' :
  routes.transfer_create cfg rq dw a req s = (Ok id, s') ->
  exists ct r, approved s (device a) /\ b64_decode (routes.tr_ciphertext_b64 req) = Some ct
    /\ 0 < Z.of_nat (length ct) <= routes.TRANSFER_MAX_CIPHERTEXT
    /\ file_transfers (db s') !! id = Some r /\ ft_ciphertext r = ct /\ ft_account r = account a
    /\ (forall d, recipient_device_id r = Some d -> exists dv, devices (db s) !! d = Some dv /\ dev_account dv = account a)
    /\ routes.used_bytes rq (account a) (file_transfers (db s')) <= routes.TRANSFER_MAX_PENDING_BYTES.
Proof.
  intros H. unfold routes.transfer_create in H. apply mbind_Ok in H as ([] & s0 & Hq & H).
  apply require_Ok in Hq as [Ha ->]. apply mbind_Ok in H as ([] & s1 & Hl & H).
  assert (Hdb : db s1 = db s).
  { unfold Guard.rate_limit, mbind, Guard.check_limit in Hl. destruct (RateLimiter.check _ _ _ _ _) as [[] m]; [|done].
    by injection Hl as <-. }
  apply mbind_Ok in H as (ct & s2 & Hct & H). unfold routes.b64_or, lift in Hct. injection Hct as Hct <-.
  destruct (b64_decode (routes.tr_ciphertext_b64 req)) as [ct'|] eqn:Eb; cbn in Hct; [injection Hct as ->|done].
  destruct (negb (bool_decide (ct = [])) && _) eqn:Esz; [|done]. destruct (negb (routes.tr_size req <? 0)); [|done].
  apply mbind_Ok in H as (ok & s3 & Hok & H). unfold query in Hok. injection Hok as Hok <-. destruct ok; [|done].
  apply mbind_Ok in H as (used & s4 & Hu & H). unfold query in Hu. injection Hu as Hu <-.
  destruct (negb _) eqn:Equota; [|done]. cbv zeta in H. inv_run.
  match goal with H : file_transfers _ !! _ = None |- _ => rename H into Hnone end.
  bools. exists ct. eexists. split; [done|]. split; [done|]. split.
  { split; [|done]. destruct ct; [done|]. cbn [length]. lia. }
  dbsimpl. rewrite lookup_insert_eq. split; [reflexivity|]. do 2 (split; [done|]). split.
  - cbn. intros d Hd. rewrite Hd, Hdb in Hok. destruct (devices (db s) !! d) as [dv|]; [|done]. bools. by exists dv.
  - rewrite used_bytes_insert by done. cbn [ft_ciphertext]. destruct (routes.live _ _ _); lia.
Qed.

(** Who may download what. A download that succeeds is of an unexpired transfer of the caller's
    account, sent by the caller, addressed to it or to every device. When a recipient fetches a
    transfer marked delete-on-download the row is gone, so nobody gets it a second time; otherwise
    the ciphertext stays as it was. *)
Theorem transfer_download_rules rq a id s snd_dev size ct s' :
  routes.transfer_download rq a id s = (Ok (snd_dev, size, ct), s') ->
  exists r, file_transfers (db s) !! id = Some r /\ ft_account r = account a
    /\ ft_state r <> TransferState.Expired /\ (permanent r = true \/ now rq <= ft_expires_at r)
    /\ (sender_device_id r = device a \/ recipient_device_id r = None \/ recipient_device_id r = Some (device a))
    /\ ct = b64_encode (ft_ciphertext r)
    /\ if bool_decide (sender_device_id r <> device a) && delete_on_download r
       then file_transfers (db s') !! id = None
            /\ forall rq2 a2, fst (routes.transfer_download rq2 a2 id s') = Err NotFound
       else ft_ciphertext <$> file_transfers (db s') !! id = Some (ft_ciphertext r).
Proof.
  intros H. unfold routes.transfer_download in H. apply mbind_Ok in H as (r & s0 & Hf & H).
  apply fetch_or_Ok in Hf as [Hf ->]. destruct (file_transfers (db s) !! id) as [r0|] eqn:Er; [|done]. cbn in Hf.
  destruct (bool_decide (ft_account r0 = account a) && routes.not_expired r0) eqn:Ea; [|done]. injection Hf as ->.
  destruct (negb (permanent r) && (ft_expires_at r <? now rq)) eqn:Ex.
  { by apply mbind_Ok in H as (? & ? & _ & H). }
  destruct (routes.addressed a r) eqn:Ead; [|done]. exists r. split; [done|]. unfold routes.not_expired in Ea. bools.
  split; [done|]. split; [done|]. split.
  { destruct (permanent r); [by left|]. right. cbn in Ex. by bools. }
  split. { unfold routes.addressed in Ead. rewrite !orb_true_iff, !bool_decide_eq_true in Ead. naive_solver. }
  apply mbind_Ok in H as (u & s1 & Hu & H). unfold ret in H. injection H as _ _ <- <-. split; [done|].
  destruct (bool_decide (sender_device_id r = device a)) eqn:Es; bools.
  - rewrite (bool_decide_false (_ <> _)) by (by intros Hx). cbn [andb]. unfold ret in Hu. injection Hu as _ <-. by rewrite Er.
  - rewrite (bool_decide_true (_ <> _)) by done. cbn [andb]. destruct (delete_on_download r).
    + injection Hu as _ <-. dbsimpl. rewrite lookup_delete_eq. split; [done|]. intros rq2 a2.
      unfold routes.transfer_download, mbind at 1, fetch_or, mbind at 1, query. dbsimpl. by rewrite lookup_delete_eq.
    + injection Hu as _ <-. dbsimpl. rewrite lookup_alter_eq, Er. cbn. by destruct (bool_decide _).
Qed.
End transfers.

(** * Concrete runs *)

#[local] Existing Instances toy_auth toy_base64.

(** A pending request of device 1 for phone 2, long expired. *)
Definition demo_request : UnlockRequest :=
  MkUnlockRequest Demo.acc1 Demo.dev1 Demo.dev2 (lit "unlock") [] None UnlockState.Pending 0 (120 * SEC).
Definition demo_pending : Srv :=
  set_db (set_unlock_requests (fun _ => {[arr_fill 16 Byte.x0a := demo_request]})) Demo.s0.

Lemma unlock_answered_once_witness :
  exists s', routes.unlock_respond Demo.phone (arr_fill 16 Byte.x0a) (lit "denied") None demo_pending = (Ok tt, s')
    /\ forall s2, routes.unlock_respond Demo.phone (arr_fill 16 Byte.x0a) (lit "approved") None s' <> (Ok tt, s2).
Proof.
  assert (H : routes.unlock_respond Demo.phone (arr_fill 16 Byte.x0a) (lit "denied") None demo_pending = (Ok tt, _))
    by (apply run_answer; vm_compute; reflexivity).
  eexists. split; [exact H|]. intros s2.
  apply (unlock_answered_once Demo.phone (arr_fill 16 Byte.x0a) (lit "denied") None demo_pending _ H).
Defined.

Lemma unlock_answer_ignores_expiry_witness :
  ur_expires_at demo_request < 100000 * SEC /\
  exists s', routes.unlock_respond Demo.phone (arr_fill 16 Byte.x0a) (lit "approved") None demo_pending = (Ok tt, s').
Proof.
  split; [vm_compute; reflexivity|].
  destruct (unlock_answer_ignores_expiry Demo.phone (arr_fill 16 Byte.x0a) demo_request demo_pending)
    as (s' & H & _); [|reflexivity..|exists s'; exact H].
  apply demo_approved. by right.
Defined.

Definition demo_upload : routes.TransferReq :=
  routes.MkTransferReq (Some Demo.dev2) 5 (b64_encode [Byte.x61; Byte.x62]) true false None.
Definition demo_uploaded : Srv :=
  snd (routes.transfer_create Demo.cfg (Demo.at_sec 100) (Demo.draw Byte.x0a) Demo.me demo_upload Demo.s0).

Lemma demo_upload_runs :
  routes.transfer_create Demo.cfg (Demo.at_sec 100) (Demo.draw Byte.x0a) Demo.me demo_upload Demo.s0
  = (Ok (arr_fill 16 Byte.x0a), demo_uploaded).
Proof. apply run_answer. vm_compute. reflexivity. Qed.

Lemma transfer_quota_witness :
  routes.used_bytes (Demo.at_sec 100) Demo.acc1 (file_transfers (db demo_uploaded)) <= routes.TRANSFER_MAX_PENDING_BYTES.
Proof.
  destruct (transfer_quota Demo.cfg (Demo.at_sec 100) (Demo.draw Byte.x0a) Demo.me demo_upload Demo.s0
              (arr_fill 16 Byte.x0a) demo_uploaded demo_upload_runs) as (ct & r & _ & _ & _ & _ & _ & _ & _ & H).
  exact H.
Defined.

Lemma transfer_download_rules_witness :
  exists s', routes.transfer_download (Demo.at_sec 200) Demo.phone (arr_fill 16 Byte.x0a) demo_uploaded
      = (Ok (Demo.dev1, 5, b64_encode [Byte.x61; Byte.x62]), s')
    /\ file_transfers (db s') !! arr_fill 16 Byte.x0a = None.
Proof.
  assert (H : routes.transfer_download (Demo.at_sec 200) Demo.phone (arr_fill 16 Byte.x0a) demo_uploaded
              = (Ok (Demo.dev1, 5, b64_encode [Byte.x61; Byte.x62]), _)) by (apply run_answer; vm_compute; reflexivity).
  eexists. split; [exact H|].
  destruct (transfer_download_rules (Demo.at_sec 200) Demo.phone (arr_fill 16 Byte.x0a) demo_uploaded _ _ _ _ H)
    as (r & Hr & _ & _ & _ & _ & _ & Hif).
  vm_compute in Hr. injection Hr as <-. exact (proj1 Hif).
Defined.
