(* ===== verification/SyncClient.v ===== *)
(** [apps/desktop/src-tauri/src/sync.rs], the client side of vault sync: the authenticated HTTP
    client with its token refresh, [push_document] and [sync_once], run against the server's own
    handlers. The world is the server, the keychain's two tokens, the unlocked vault key and the
    local vault. Before each request other devices may do anything to the server ([others]);
    each request has its own clock and random draws. [sync_device_settings], which moves values
    between the vault and the OS keychain, is a parameter here ([settings]); [SettingsFlows] puts the
    real one in its place. *)
From S2P Require Import Prelude Bytes Text Crypto Totp Toy RecoveryKit Keyring Model Envelope VaultStore.
From S2P Require Import ApiDb ApiAuth ApiRoutes ApiDemo ApiFacts ApiClaims ApiVault.
Local Open Scope Z_scope.

(** The error strings. *)
Inductive SyncErr : Type :=
| Locked
| NotSignedIn
| SessionExpired
| Transport
| RefreshFailed (status : Z)
| HttpStatus (what : string) (status : Z)
| BadBody
| CoreErr (e : CoreError)
| ConflictPersisted.

Inductive PutResult : Type := PutOk (v : Z) | PutConflict (current : Z).

Record World : Type := MkWorld {
  srv : Srv;
  kc_access : option text;
  kc_refresh : option text;
  session_key : option VaultKey;
  vault : LocalVault.t;
  tick : nat;
}.

Definition C (A : Type) : Type := ST World SyncErr A.

(** A keychain entry is stored and read trimmed; a blank one is none. *)
Definition kc_value (o : option text) : option text :=
  match o with
  | Some s => if bool_decide (trim s = []) then None else Some (trim s)
  | None => None
  end.

Record SyncNowOut : Type := MkSyncNowOut { pushed : bool; pulled : bool; out_version : Z }.

Module Api.
Section client.
Context {A : AuthLibs} {P : CryptoPrims} {B : Base64} {SD : Json VaultDocument.t} {ZS : Zstd}.
Variable cfg : Config.
Variables (rqs : nat -> Req) (dws : nat -> Draw) (nonces : nat -> Nonce24).
Variable others : nat -> Srv -> Srv.
Variable settings : LocalVault.t -> LocalVault.t.

(** One HTTP exchange. A handler that panics drops the connection. *)
Definition send {T} (f : Req -> Draw -> M T) : C (result T ApiError) := fun w =>
  let '(r, s) := f (rqs (tick w)) (dws (tick w)) (others (tick w) (srv w)) in
  (match r with Panic => Err Transport | r => Ok r end,
   MkWorld s (kc_access w) (kc_refresh w) (session_key w) (vault w) (S (tick w))).

Definition kc_get (f : World -> option text) (e : SyncErr) : C text := fun w => (ok_or (kc_value (f w)) e, w).
Definition kc_set_tokens (t : TokensResp) : C unit := fun w =>
  (Ok tt, MkWorld (srv w) (kc_value (Some (access_token t))) (kc_value (Some (refresh_token t)))
            (session_key w) (vault w) (tick w)).

Definition refresh : C unit :=
  let! rt := kc_get kc_refresh SessionExpired in
  let! resp := send (fun rq dw => routes.auth_refresh cfg rq dw rt) in
  match resp with
  | Ok t => kc_set_tokens t
  | Err e => err (RefreshFailed (parts e).1)
  | Panic => err Transport
  end.

(** The request with the [Authorization] header the server's extractor reads. *)
Definition build {T} (f : Req -> Draw -> Auth -> M T) (access : text) (rq : Req) (dw : Draw) : M T :=
  let! a := lift (auth.Auth_from_request (unix (now rq)) (Some (lit "Bearer " ++ access))) in
  f rq dw a.

(** On 401, refresh once and retry. *)
Definition authed {T} (f : Req -> Draw -> Auth -> M T) : C (result T ApiError) :=
  let! access := kc_get kc_access NotSignedIn in
  let! resp := send (build f access) in
  match resp with
  | Err Unauthorized =>
      let! _ := refresh in
      let! access2 := kc_get kc_access NotSignedIn in
      send (build f access2)
  | resp => ret resp
  end.

Definition get_vault : C (option (Z * bytes)) :=
  let! resp := authed (fun _ _ a => routes.vault_get a) in
  match resp with
  | Ok None => ret None
  | Ok (Some (v, ciphertext_b64)) =>
      match b64_decode (trim ciphertext_b64) with
      | Some ct => ret (Some (v, ct))
      | None => err BadBody
      end
  | Err e => err (HttpStatus "GET /vault" (parts e).1)
  | Panic => err Transport
  end.

Definition put_vault (if_match : Z) (ciphertext : bytes) : C PutResult :=
  let! resp := authed (fun rq _ a =>
    routes.vault_put rq a (Some (34 :: show_i64 if_match ++ [34])) (b64_encode ciphertext)) in
  match resp with
  | Ok v => ret (PutOk v)
  | Err (VersionConflict current) => ret (PutConflict current)
  | Err e => err (HttpStatus "PUT /vault" (parts e).1)
  | Panic => err Transport
  end.

Definition core {T} (r : Result T) : C T := lift (map_err CoreErr r).

Definition merge_remote (remote : VaultDocument.t) : C unit := fun w =>
  let '(r, v) := LocalVault.merge (vault w) remote in
  (map_err CoreErr (let? _ := r in Ok tt),
   MkWorld (srv w) (kc_access w) (kc_refresh w) (session_key w) v (tick w)).

(** Snapshot the local vault and seal it for the next version. *)
Definition seal_document (vk : VaultKey) (current : Z) : C bytes := fun w =>
  core (Document.encode_sync_blob (nonces (tick w)) vk (LocalVault.to_document (vault w)) (current + 1)) w.

Fixpoint push_loop (n : nat) (vk : VaultKey) (current : Z) : C Z :=
  match n with
  | O => err ConflictPersisted
  | S n =>
      let! blob := seal_document vk current in
      let! r := put_vault current blob in
      match r with
      | PutOk v => ret v
      | PutConflict server_current =>
          let! g := get_vault in
          match g with
          | Some (v, ct) =>
              let! remote := core (Document.decode_sync_blob vk ct v) in
              let! _ := merge_remote remote in
              push_loop n vk v
          | None => push_loop n vk server_current
          end
      end
  end.

Definition push_document (vk : VaultKey) (current : Z) : C Z := push_loop 2 vk current.

Definition session_vault_key : C VaultKey := fun w => (ok_or (session_key w) Locked, w).

Definition sync_device_settings : C unit := fun w =>
  (Ok tt, MkWorld (srv w) (kc_access w) (kc_refresh w) (session_key w) (settings (vault w)) (tick w)).

Definition sync_once : C SyncNowOut :=
  let! vk := session_vault_key in
  let! g := get_vault in
  let! (pulled, current) :=
    match g with
    | Some (v, ct) =>
        let! remote := core (Document.decode_sync_blob vk ct v) in
        let! _ := merge_remote remote in
        ret (true, v)
    | None => ret (false, 0)
    end in
  let! _ := sync_device_settings in
  let! version := push_document vk current in
  ret (MkSyncNowOut true pulled version).
End client.
End Api.

(** * What a run does *)

Section runs.
Context {A : AuthLibs} {P : CryptoPrims} {B : Base64} {SD : Json VaultDocument.t} {ZS : Zstd}.
Variable cfg : Config.
Variables (rqs : nat -> Req) (dws : nat -> Draw) (nonces : nat -> Nonce24).
Variable others : nat -> Srv -> Srv.
Variable settings : LocalVault.t -> LocalVault.t.

Abbreviation send := (Api.send rqs dws others).
Abbreviation authed := (Api.authed cfg rqs dws others).
Abbreviation get_vault := (Api.get_vault cfg rqs dws others).
Abbreviation put_vault := (Api.put_vault cfg rqs dws others).
Abbreviation push_loop := (Api.push_loop cfg rqs dws nonces others).
Abbreviation sync_once := (Api.sync_once cfg rqs dws nonces others settings).

(** The client's own state is as it was, and at least [n] requests were made. *)
Record untouched (n : nat) (w w' : World) : Prop := {
  unt_key : session_key w' = session_key w;
  unt_vault : vault w' = vault w;
  unt_tick : (tick w + n <= tick w')%nat;
}.

Lemma untouched_refl w : untouched 0 w w.
Proof. split; [done..|lia]. Qed.
Lemma untouched_trans n m w1 w2 w3 : untouched n w1 w2 -> untouched m w2 w3 -> untouched (n + m) w1 w3.
Proof. intros [] []. split; [congruence..|lia]. Qed.

Lemma send_run {T} (f : Req -> Draw -> M T) w o w' :
  send f w = (o, w') ->
  untouched 1 w w' /\ kc_access w' = kc_access w /\
  exists r, f (rqs (tick w)) (dws (tick w)) (others (tick w) (srv w)) = (r, srv w')
    /\ o = match r with Panic => Err Transport | r => Ok r end.
Proof.
  unfold Api.send. destruct (f _ _ _) as [r s] eqn:E. intros [= <- <-]. split; [split; cbn; [done..|lia]|].
  split; [done|]. by exists r.
Qed.

Lemma refresh_run w u w' : Api.refresh cfg rqs dws others w = (Ok u, w') -> untouched 1 w w'.
Proof.
  unfold Api.refresh. intros (rt & w1 & Hk & (r & w2 & Hs & H)%mbind_Ok)%mbind_Ok.
  unfold Api.kc_get in Hk. injection Hk as _ <-. apply send_run in Hs as (Hu & _ & _).
  destruct r as [t|e|]; [|done..]. unfold Api.kc_set_tokens in H. injection H as _ <-.
  destruct Hu. split; done.
Qed.

(** The bearer of the token that the keychain holds. *)
Definition signed_in (w : World) (a : Auth) : Prop :=
  exists access t, kc_value (kc_access w) = Some access
    /\ auth.Auth_from_request t (Some (lit "Bearer " ++ access)) = Ok a.

(** An answered request was made, last, by the device the keychain is signed in as. *)
Lemma authed_Ok {T} (f : Req -> Draw -> Auth -> M T) w x w' :
  authed f w = (Ok (Ok x), w') ->
  untouched 1 w w' /\ exists a rq dw s, signed_in w' a /\ f rq dw a s = (Ok x, srv w').
Proof.
  assert (Hlast : forall access w1 w2, kc_value (kc_access w1) = Some access -> send (Api.build f access) w1 = (Ok (Ok x), w2) ->
    untouched 1 w1 w2 /\ exists a rq dw s, signed_in w2 a /\ f rq dw a s = (Ok x, srv w2)).
  { intros access w1 w2 Hk Hs. apply send_run in Hs as (Hu & Hk2 & r & Hf & Hr). split; [done|].
    destruct r as [y|e|]; [|done..]. injection Hr as <-. unfold Api.build in Hf.
    apply mbind_Ok in Hf as (a & s & Ha & Hf). unfold lift in Ha. injection Ha as Ha <-.
    exists a. do 3 eexists. split; [|done]. exists access, (unix (now (rqs (tick w1)))). split; [congruence|done]. }
  unfold Api.authed. intros (access & w1 & Hk & (r & w2 & Hs & H)%mbind_Ok)%mbind_Ok.
  unfold Api.kc_get in Hk. destruct (kc_value (kc_access w)) as [acc|] eqn:Ek; [|done]. injection Hk as -> ->.
  assert (Hcase : (r = Ok x /\ w2 = w') \/ r = Err Unauthorized).
  { destruct r as [y|[]|]; try done; [left|by right]. unfold ret in H. by simplify_eq. }
  destruct Hcase as [[-> ->]| ->]; [by eapply Hlast|].
  apply mbind_Ok in H as (u & w3 & Hr & H). apply mbind_Ok in H as (access2 & w4 & Hk & H).
  unfold Api.kc_get in Hk. destruct (kc_value (kc_access w3)) as [acc3|] eqn:Ek3; [|done]. injection Hk as -> ->.
  apply Hlast in H as [Hu Hx]; [|done]. split; [|done].
  apply send_run in Hs as (Hu1 & _ & _). apply refresh_run in Hr.
  pose proof (untouched_trans _ _ _ _ _ (untouched_trans _ _ _ _ _ Hu1 Hr) Hu) as [? ? ?]. split; [done..|lia].
Qed.

(** Any answer of [authed] leaves the client's state alone. *)
Lemma authed_untouched {T} (f : Req -> Draw -> Auth -> M T) w r w' : authed f w = (Ok r, w') -> untouched 1 w w'.
Proof.
  unfold Api.authed. intros (access & w1 & Hk & (r1 & w2 & Hs & H)%mbind_Ok)%mbind_Ok.
  unfold Api.kc_get in Hk. injection Hk as _ <-. apply send_run in Hs as (Hu1 & _ & _).
  assert (Hcase : w' = w2 \/ exists u w3 access2, Api.refresh cfg rqs dws others w2 = (Ok u, w3)
                                                   /\ send (Api.build f access2) w3 = (Ok r, w')).
  { destruct r1 as [y|[]|]; try (left; unfold ret in H; congruence).
    right. apply mbind_Ok in H as (u & w3 & Hr & H). apply mbind_Ok in H as (access2 & w4 & Hk & H).
    unfold Api.kc_get in Hk. injection Hk as _ <-. eauto. }
  clear H. destruct Hcase as [->|(u & w3 & access2 & Hr & H)]; [done|].
  apply send_run in H as (Hu & _ & _). apply refresh_run in Hr.
  pose proof (untouched_trans _ _ _ _ _ (untouched_trans _ _ _ _ _ Hu1 Hr) Hu) as [? ? ?]. split; [done..|lia].
Qed.

Lemma get_vault_untouched w o w' : get_vault w = (Ok o, w') -> untouched 1 w w'.
Proof.
  unfold Api.get_vault. intros (r & w1 & Ha & H)%mbind_Ok. apply authed_untouched in Ha.
  assert (w' = w1) as ->; [|done]. destruct r as [[[v b]|]|e|]; try done; [destruct (b64_decode _)|]; unfold ret, err in H; congruence.
Qed.

Lemma put_vault_untouched im ct w o w' : put_vault im ct w = (Ok o, w') -> untouched 1 w w'.
Proof.
  unfold Api.put_vault. intros (r & w1 & Ha & H)%mbind_Ok. apply authed_untouched in Ha.
  assert (w' = w1) as ->; [|done]. destruct r as [v|[]|]; try done; unfold ret in H; congruence.
Qed.

(** The server holds, for the account the client is signed in to, the given document sealed for
    the version it is stored at. *)
Definition published (vk : VaultKey) (v : Z) (doc : VaultDocument.t) (w : World) : Prop :=
  exists a row, signed_in w a /\ vaults (db (srv w)) !! account a = Some row /\ version row = v
    /\ Document.decode_sync_blob vk (ciphertext row) v = Ok doc.

Context {BL : Base64Laws}.

Lemma put_vault_Ok im ct w v w' :
  put_vault im ct w = (Ok (PutOk v), w') ->
  untouched 1 w w' /\ v = im + 1 /\
  exists a row, signed_in w' a /\ vaults (db (srv w')) !! account a = Some row /\ version row = v /\ ciphertext row = ct.
Proof.
  unfold Api.put_vault. intros (r & w1 & Ha & H)%mbind_Ok.
  assert (r = Ok v /\ w' = w1) as [-> ->].
  { destruct r as [x|[]|]; try done; unfold ret in H; by simplify_eq. }
  apply authed_Ok in Ha as (Hu & a & rq & dw & s & Hsig & Hput). split; [done|].
  apply vault_put_run in Hput as (ct' & Him & -> & Hct & _ & Hs). rewrite b64_decode_encode in Hct. injection Hct as <-.
  cbn [base.mbind option_bind] in Him. rewrite trim_matches_show_i64 in Him by lia. apply parse_i64_show_i64 in Him. rewrite Him.
  split; [done|]. exists a. eexists. split; [done|]. rewrite Hs. dbsimpl. rewrite lookup_insert_eq.
  split; [reflexivity|]. cbn. by rewrite Him.
Qed.

Context {L : CryptoLaws P} {SL : JsonLaws VaultDocument.t} {ZL : ZstdLaws}.

(** The vault after merging into it, in order, the documents that these blobs open to. *)
Inductive absorbed (vk : VaultKey) : list (Z * bytes) -> LocalVault.t -> LocalVault.t -> Prop :=
| absorbed_nil v : absorbed vk [] v v
| absorbed_cons n ct doc r l v v1 v' :
    Document.decode_sync_blob vk ct n = Ok doc -> LocalVault.merge v doc = (Ok r, v1) ->
    absorbed vk l v1 v' -> absorbed vk ((n, ct) :: l) v v'.
(** What the server answered to some request for the vault. *)
Definition fetched (g : option (Z * bytes)) : Prop := exists w w', get_vault w = (Ok g, w').

Lemma merge_remote_Ok remote w u w' :
  Api.merge_remote remote w = (Ok u, w') -> exists r, LocalVault.merge (vault w) remote = (Ok r, vault w').
Proof.
  unfold Api.merge_remote. destruct (LocalVault.merge (vault w) remote) as [[r|e|] v]; cbn; [|done..]. intros [= _ <-]. by exists r.
Qed.
Lemma core_Ok {T} (r : Result T) w x w' : Api.core r w = (Ok x, w') -> r = Ok x /\ w' = w.
Proof. unfold Api.core, lift. destruct r; cbn; intros H; by simplify_eq. Qed.

Lemma push_loop_Ok n vk cur w v w' :
  push_loop n vk cur w = (Ok v, w') ->
  published vk v (LocalVault.to_document (vault w')) w'
  /\ exists conflicts, absorbed vk conflicts (vault w) (vault w') /\ Forall (fun c => fetched (Some c)) conflicts
       /\ (v = from_option fst cur (last conflicts) + 1 \/ fetched None).
Proof.
  revert cur w; induction n as [|n IH]; intros cur w; cbn [Api.push_loop]; [done|].
  intros (blob & w1 & Hseal & (r & w2 & Hput & H)%mbind_Ok)%mbind_Ok.
  unfold Api.seal_document in Hseal. apply core_Ok in Hseal as [Hblob ->].
  apply put_vault_untouched in Hput as Hu. destruct r as [v'|sc].
  - unfold ret in H. injection H as <- <-. apply put_vault_Ok in Hput as (_ & -> & a & row & Hs & Hrow & Hv & Hct).
    split; [exists a, row; do 3 (split; [done|]); rewrite Hct, (unt_vault _ _ _ Hu); by eapply Document.decode_encode_blob|].
    exists []. rewrite (unt_vault _ _ _ Hu). split; [constructor|]. split; [constructor|by left].
  - apply mbind_Ok in H as (g & w3 & Hg & H). apply get_vault_untouched in Hg as Hu3.
    assert (Hw : vault w3 = vault w) by (by rewrite (unt_vault _ _ _ Hu3), (unt_vault _ _ _ Hu)).
    destruct g as [[v' ct]|].
    + apply mbind_Ok in H as (remote & w4 & [Hdec ->]%core_Ok & H).
      apply mbind_Ok in H as (u & w5 & (r & Hm)%merge_remote_Ok & H). apply IH in H as [Hp (l & Ha & Hf & Hv)]. split; [done|].
      exists ((v', ct) :: l). rewrite Hw in Hm. split; [by econstructor|]. split; [constructor; [by exists w2, w3|done]|].
      rewrite last_cons. by destruct (last l).
    + apply IH in H as [Hp (l & Ha & Hf & _)]. split; [done|]. rewrite Hw in Ha. exists l. do 2 (split; [done|]). right. by exists w2, w3.
Qed.

(** The parts of a successful sync. *)
Lemma sync_once_Ok w out w' :
  sync_once w = (Ok out, w') ->
  exists vk g w1 w2 cur, session_key w = Some vk /\ get_vault w = (Ok g, w1)
    /\ match g with
       | Some (v, ct) => cur = v /\ pulled out = true /\ exists remote r,
           Document.decode_sync_blob vk ct v = Ok remote /\ LocalVault.merge (vault w1) remote = (Ok r, vault w2)
       | None => cur = 0 /\ pulled out = false /\ vault w2 = vault w1
       end
    /\ tick w2 = tick w1
    /\ push_loop 2 vk cur (MkWorld (srv w2) (kc_access w2) (kc_refresh w2) (session_key w2) (settings (vault w2)) (tick w2))
       = (Ok (out_version out), w').
Proof.
  unfold Api.sync_once. intros (vk & w0 & Hk & (g & w1 & Hg & ([pl cur] & w2 & Hp & H)%mbind_Ok)%mbind_Ok)%mbind_Ok.
  apply mbind_Ok in H as (u & w3 & Hset & H).
  unfold Api.session_vault_key in Hk. destruct (session_key w) as [k|] eqn:Ek; [|done]. injection Hk as -> ->.
  unfold Api.sync_device_settings in Hset. injection Hset as _ <-.
  apply mbind_Ok in H as (v & w4 & Hpush & H). unfold ret in H. injection H as <- <-.
  exists vk, g, w1, w2, cur. do 2 (split; [done|]). unfold Api.push_document in Hpush. destruct g as [[v' ct]|].
  - apply mbind_Ok in Hp as (remote & w5 & Hdec & H). apply mbind_Ok in H as (u' & w6 & Hm & H). unfold ret in H. injection H as <- <- <-.
    unfold Api.core, lift in Hdec. injection Hdec as Hdec <-. unfold Api.merge_remote in Hm.
    destruct (LocalVault.merge (vault w1) remote) as [r lv] eqn:Em. injection Hm as Hr <-.
    split; [|done]. do 2 (split; [done|]). exists remote.
    destruct (Document.decode_sync_blob _ _ _) as [rm|e|]; [|done..]. cbn in Hdec. injection Hdec as ->.
    destruct r as [rp|e|]; [|done..]. cbn in Hr. by exists rp.
  - unfold ret in Hp. injection Hp as <- <- <-. done.
Qed.


(** A loop that made one request stored on the first attempt. *)
Lemma push_loop_once n vk cur w v w' :
  push_loop n vk cur w = (Ok v, w') -> (tick w' <= tick w + 1)%nat -> vault w' = vault w.
Proof.
  destruct n as [|n]; cbn [Api.push_loop]; [done|].
  intros (blob & w1 & Hseal & (r & w2 & Hput & H)%mbind_Ok)%mbind_Ok Ht.
  unfold Api.seal_document, Api.core, lift in Hseal. injection Hseal as _ <-.
  apply put_vault_untouched in Hput as [_ Hv Ht2].
  destruct r as [v'|sc]; [unfold ret in H; injection H as _ <-; done|exfalso].
  assert (Hmono : forall n cur w v w', push_loop n vk cur w = (Ok v, w') -> (tick w <= tick w')%nat).
  { clear -BL. induction n as [|n IH]; intros cur w v w'; cbn [Api.push_loop]; [done|].
    intros (blob & w1 & Hseal & (r & w2 & Hput & H)%mbind_Ok)%mbind_Ok.
    unfold Api.seal_document, Api.core, lift in Hseal. injection Hseal as _ <-.
    apply put_vault_untouched in Hput as [_ _ Ht]. destruct r as [v'|sc]; [unfold ret in H; injection H as _ <-; lia|].
    apply mbind_Ok in H as ([[v' ct]|] & w3 & Hg & H); apply get_vault_untouched in Hg as [_ _ Ht3].
    - apply mbind_Ok in H as (rm & w4 & Hd & H). apply mbind_Ok in H as (u & w5 & Hm & H). apply IH in H.
      unfold Api.core, lift in Hd. injection Hd as _ <-. unfold Api.merge_remote in Hm.
      destruct (LocalVault.merge _ _). injection Hm as _ <-. cbn in H. lia.
    - apply IH in H. lia. }
  apply mbind_Ok in H as ([[v' ct]|] & w3 & Hg & H); apply get_vault_untouched in Hg as [_ _ Ht3].
  - apply mbind_Ok in H as (rm & w4 & Hd & H). apply mbind_Ok in H as (u & w5 & Hm & H). apply Hmono in H.
    unfold Api.core, lift in Hd. injection Hd as _ <-. unfold Api.merge_remote in Hm.
    destruct (LocalVault.merge _ _). injection Hm as _ <-. cbn in H. lia.
  - apply Hmono in H. lia.
Qed.

(** A sync undoes a local deletion. The cycle pulls and merges before it pushes, and the
    merge does not look at local tombstones: after deleting an item that the server's document
    still has, a sync that takes its one GET and one PUT brings the item back, erases the
    tombstone, and publishes that. *)
Theorem sync_once_undoes_deletion w v0 id deleted_at v ct w1 vk remote envs env ts out w' :
  LocalVault.wf v0 -> vault w = LocalVault.delete v0 id deleted_at ->
  session_key w = Some vk -> get_vault w = (Ok (Some (v, ct)), w1) ->
  Document.decode_sync_blob vk ct v = Ok remote ->
  VaultDocument.envelopes remote = Ok envs -> Forall LocalVault.has_meta envs ->
  env ∈ envs -> Envelope.envelope_meta env = Ok (id, ts) -> (forall d, (id, d) ∉ VaultDocument.tombstones remote) ->
  (forall lv, LocalVault.items (settings lv) !! id = LocalVault.items lv !! id
              /\ LocalVault.tombstones (settings lv) !! id = LocalVault.tombstones lv !! id) ->
  sync_once w = (Ok out, w') -> tick w' = (tick w + 2)%nat ->
  is_Some (LocalVault.get (vault w') id) /\ LocalVault.tombstones (vault w') !! id = None
  /\ published vk (out_version out) (LocalVault.to_document (vault w')) w'.
Proof.
  intros Hwf Hv Hk Hg Hdec He Hall Hin Hm Htb Hset Hs Ht.
  apply sync_once_Ok in Hs as (vk' & g & w1' & w2 & cur & Hk' & Hg' & Hpull & Ht2 & Hp).
  rewrite Hg in Hg'. injection Hg' as <- <-. rewrite Hk in Hk'. injection Hk' as <-.
  destruct Hpull as (-> & _ & remote' & r & Hdec' & Hmerge). rewrite Hdec in Hdec'. injection Hdec' as <-.
  apply get_vault_untouched in Hg as [_ Hv1 Ht1].
  split; [|split].
  3: by eapply (proj1 (push_loop_Ok _ _ _ _ _ _ Hp)).
  all: rewrite (push_loop_once _ _ _ _ _ _ Hp) by (cbn; lia); cbn [vault].
  all: destruct (LocalVault.merge_brings_back v0 id deleted_at env ts envs remote Hwf He Hall Hin Hm Htb)
    as [(env' & ts' & Hget & _) Htomb].
  all: rewrite Hv1, Hv in Hmerge; rewrite Hmerge in Hget, Htomb; cbn [snd] in Hget, Htomb.
  - unfold LocalVault.get. by rewrite (proj1 (Hset _)).
  - by rewrite (proj2 (Hset _)).
Qed.

(** A pulled blob that does not open ends the sync before anything is merged or sent. *)
Lemma sync_once_undecodable w v ct w1 vk :
  session_key w = Some vk -> get_vault w = (Ok (Some (v, ct)), w1) ->
  (forall doc, Document.decode_sync_blob vk ct v <> Ok doc) ->
  exists e, sync_once w = (Err (CoreErr e), w1).
Proof.
  intros Hk Hg Hd. unfold Api.sync_once, mbind at 1, Api.session_vault_key. rewrite Hk. cbn [ok_or].
  unfold mbind at 1. rewrite Hg. unfold mbind at 1 2, Api.core, lift.
  destruct (Document.decode_sync_blob vk ct v) as [doc|e|] eqn:E.
  - by destruct (Hd doc).
  - by exists e.
  - by apply Document.decode_no_panic in E.
Qed.

(** C32: two pushes that interleave on the server leave a vault no sync can read. The handler reads the row's
    version and then updates the row without repeating the test or locking it: two clients that
    both read version [v] are both answered [v + 1], the first one's ciphertext is lost, and the
    row ends at version [v + 2] with a blob sealed for [v + 1]. Every sync that fetches that row fails
    right after the fetch, with nothing merged or pushed, unless the cipher accepts associated data it
    was not made with; so it stays until something overwrites it without having read it, as a backup
    does. *)
Theorem lost_update_stalls_sync rq1 rq2 a b v ct0 t0 u0 ct1 nonce vk doc ct2 s :
  account b = account a -> vaults (db s) !! account a = Some (MkVaultRow v ct0 t0 u0) ->
  0 <= v -> v + 2 < 2 ^ 64 ->
  Document.encode_sync_blob nonce vk doc (v + 1) = Ok ct2 ->
  exists s1 s2,
    routes.vault_put_read a s = (Ok (Some v), s) /\ routes.vault_put_read b s = (Ok (Some v), s)
    /\ routes.vault_put_write rq1 a v ct1 (Some v) s = (Ok (v + 1), s1)
    /\ routes.vault_put_write rq2 b v ct2 (Some v) s1 = (Ok (v + 1), s2)
    /\ vaults (db s2) !! account a = Some (MkVaultRow (v + 2) ct2 (now rq2) (Some (device b)))
    /\ forall w w1, session_key w = Some vk -> get_vault w = (Ok (Some (v + 2, ct2)), w1) ->
         (exists e, sync_once w = (Err (CoreErr e), w1))
         \/ exists z, crypto.forgery (Document.outer_key vk) nonce (Document.outer_aad (v + 1))
                       (Document.outer_key vk) nonce (Document.outer_aad (v + 2)) z.
Proof.
  intros Hab Hv H0 H1 Henc.
  destruct (vault_put_lost_update rq1 rq2 a b v ct0 t0 u0 ct1 ct2 s Hab Hv) as (s1 & s2 & ? & ? & ? & ? & ?).
  exists s1, s2. do 5 (split; [done|]). intros w w1 Hk Hg.
  destruct (Document.decode_sync_blob vk ct2 (v + 2)) as [doc'|e|] eqn:Ed.
  - right. eapply Document.decode_other_version; [..|exact Henc|exact Ed]; unfold Document.u64_range; lia.
  - left. apply (sync_once_undecodable w (v + 2) ct2 w1 vk); [done..|congruence].
  - left. apply (sync_once_undecodable w (v + 2) ct2 w1 vk); [done..|congruence].
Qed.
End runs.

(** * Concrete runs *)

Module SyncDemo.
#[local] Existing Instances toy_auth toy_base64 toy_zstd.
#[local] Instance doc_json : Json VaultDocument.t := toy_json.

Definition rqs (n : nat) : Req := Demo.at_sec (100 + Z.of_nat n).
Definition dws (n : nat) : Draw := Demo.draw Byte.x21.
Definition nonces (n : nat) : Nonce24 := demo_nonce.
Definition alone (n : nat) (s : Srv) : Srv := s.
Definition keep (v : LocalVault.t) : LocalVault.t := v.

Definition token : text := match auth.issue_access Demo.acc1 Demo.dev1 100 with Ok t => t | _ => [] end.
Definition document : VaultDocument.t := LocalVault.demo_remote 100 [].
Definition blob (v : Z) : bytes :=
  match Document.encode_sync_blob demo_nonce demo_vk document v with Ok b => b | _ => [] end.
Definition stored (v w : Z) : Srv :=
  set_db (set_vaults (fun _ => {[Demo.acc1 := MkVaultRow v (blob w) 0 None]})) Demo.s0.

(** This device deleted the item; the server still has it, at version 4. *)
Definition start : World :=
  MkWorld (stored 4 4) (Some token) None (Some demo_vk)
    (LocalVault.delete LocalVault.demo_store LocalVault.demo_id 1000) 0.

Definition sync := Api.sync_once Demo.cfg rqs dws nonces alone keep.

Lemma run : sync start = (Ok (MkSyncNowOut true true 5), snd (sync start)).
Proof. apply run_answer. vm_compute. reflexivity. Qed.

Lemma fetched : Api.get_vault Demo.cfg rqs dws alone start
  = (Ok (Some (4, blob 4)), snd (Api.get_vault Demo.cfg rqs dws alone start)).
Proof. apply run_answer. vm_compute. reflexivity. Qed.
End SyncDemo.

#[local] Existing Instances toy_auth toy_base64 toy_zstd SyncDemo.doc_json.


Lemma sync_once_undoes_deletion_witness :
  is_Some (LocalVault.get (vault (snd (SyncDemo.sync SyncDemo.start))) LocalVault.demo_id).
Proof.
  eapply (sync_once_undoes_deletion Demo.cfg SyncDemo.rqs SyncDemo.dws SyncDemo.nonces SyncDemo.alone SyncDemo.keep
           (BL := toy_base64_laws) (SL := toy_json_laws) (ZL := toy_zstd_laws)
           SyncDemo.start LocalVault.demo_store LocalVault.demo_id 1000 4 (SyncDemo.blob 4) _ demo_vk SyncDemo.document
           [LocalVault.demo_row 100] (LocalVault.demo_row 100) 100 (MkSyncNowOut true true 5)).
  - apply LocalVault.demo_store_wf.
  - reflexivity.
  - reflexivity.
  - exact SyncDemo.fetched.
  - vm_compute. reflexivity.
  - vm_compute. reflexivity.
  - constructor; [|constructor]. apply LocalVault.demo_row_meta. split; vm_compute; congruence.
  - by constructor.
  - vm_compute. reflexivity.
  - intros d. apply not_elem_of_nil.
  - intros lv. by split.
  - exact SyncDemo.run.
  - vm_compute. reflexivity.
Defined.

Lemma lost_update_stalls_sync_witness :
  exists s1 s2, routes.vault_put_write (Demo.at_sec 100) Demo.me 4 [] (Some 4) (SyncDemo.stored 4 4) = (Ok 5, s1)
    /\ routes.vault_put_write (Demo.at_sec 101) Demo.phone 4 (SyncDemo.blob 5) (Some 4) s1 = (Ok 5, s2)
    /\ vaults (db s2) !! Demo.acc1 = Some (MkVaultRow 6 (SyncDemo.blob 5) (101 * SEC) (Some Demo.dev2)).
Proof.
  destruct (lost_update_stalls_sync Demo.cfg SyncDemo.rqs SyncDemo.dws SyncDemo.nonces SyncDemo.alone SyncDemo.keep
              (Demo.at_sec 100) (Demo.at_sec 101) Demo.me Demo.phone 4 (SyncDemo.blob 4) 0 None []
              demo_nonce demo_vk SyncDemo.document (SyncDemo.blob 5) (SyncDemo.stored 4 4))
    as (s1 & s2 & _ & _ & H1 & H2 & H3 & _);
    [reflexivity|reflexivity|lia|lia|vm_compute; reflexivity|].
  exists s1, s2. split; [exact H1|]. split; [exact H2|exact H3].
Defined.
