(* ===== verification/SyncFlows.v ===== *)
(** [apps/desktop/src-tauri/src/sync.rs], how a device comes by the account's vault key: backup and
    restore with the recovery kit, the escrow of the master password, sign-in with it, joining with a
    device code, and what signing out and forgetting leave behind. The desk is the whole device: its
    keychain entries, [sync-config.json], the app lock with the session, the local vault, and the
    server it talks to. What is drawn at random and which calls of the operating system fail during a
    command is its [Env]; the device code's JSON and the layout of the recovery PDF are parameters. *)
From S2P Require Import Prelude Bytes Text Crypto Totp Toy RecoveryKit Keyring Model Envelope VaultStore Session AppLock Passkey.
From S2P Require Import ApiDb ApiAuth ApiRoutes ApiDemo ApiFacts ApiClaims ApiVault SyncClient.
Local Open Scope Z_scope.

Record SyncConfig : Type := MkSyncConfig {
  server_url : option text;
  sc_google_client_id : option text;
  sc_email : option text;
  pinned_cert_pem : option text;
  server_ip : option text;
}.

Record Desk : Type := MkDesk {
  dk_srv : Srv;
  dk_access : option text;
  dk_refresh : option text;
  dk_pending : option text;
  dk_bootstrap : option text;
  dk_gsecret : option text;
  dk_config : SyncConfig;
  dk_lock : AppLock.Dev;
  dk_vault : LocalVault.t;
  dk_tick : nat;
}.

(** One command: the operating system, whether [sync-config.json] can be written, what is drawn. *)
Record Env : Type := MkEnv {
  os : Os;
  config_ok : bool;
  device_name : text;
  platform_str : text;
  fresh_recovery : RecoveryKey;
  wrap_salt : arr 16;
  wrap_nonce : Nonce24;
  now_unix : Z;
  today_iso : text;
}.

Inductive FlowErr : Type := FromApi (e : SyncErr) | FromLock (e : LockErr) | FromCore (e : CoreError) | Told (m : string).

Definition D (A : Type) : Type := ST Desk FlowErr A.

Record RestoreOut : Type := MkRestoreOut { restored : Z }.
Record BackupOut : Type := MkBackupOut { recovery_code : text; pdf_base64 : text; backup_version : Z }.
Record PasswordSigninOut : Type := MkPasswordSigninOut { totp_required : bool; pw_restored : Z }.
Record PairCompleteOut : Type := MkPairCompleteOut { pair_restored : Z; pair_server_ip : text }.
Record PairCodeOut : Type := MkPairCodeOut { code : text; qr_payload : option (text * text * text * Z); qr_expires_at : option Z }.
Record JoinBundle : Type := MkJoinBundle { v : Z; ip : text; cert : text; token : text; vkey : text; ts : Z }.

(** [format!("https://{SYNC_HOST}")]. *)
Definition SYNC_HOST : text := lit "sentinel-sync".
Definition JOIN_PREFIX : text := lit "SNTL1.".
Definition pinned_url : text := lit "https://" ++ SYNC_HOST.

(** [trim_end_matches('/')]. *)
Definition trim_end_slashes (s : text) : text := reverse (trim_start_char (chr "/") (reverse s)).

(** [Option::filter] on a non-blank text. *)
Definition non_blank (o : option text) : option text :=
  match o with Some s => if bool_decide (trim s = []) then None else Some s | None => None end.
Definition non_empty (o : option text) : option text :=
  match o with Some [] => None | o => o end.

(** The scheme and path are cut off an address; the host is what is left. *)
Definition normalize_addr (address : text) : option (text * text) :=
  let a := trim_end_slashes (trim address) in
  if bool_decide (a = []) then None
  else
    let rest := match strip_prefix (lit "https://") a with
                | Some r => r
                | None => default a (strip_prefix (lit "http://") a)
                end in
    let host := match split_once (chr "/") rest with Some (h, _) => h | None => rest end in
    Some (lit "https://" ++ host, host).

Module Flow.
Section flows.
Context {A : AuthLibs} {P : CryptoPrims} {B : Base64} {BU : Base64Url} {SD : Json VaultDocument.t} {SJ : Json JoinBundle} {ZS : Zstd}.
Variable cfg : Config.
Variables (rqs : nat -> Req) (dws : nat -> Draw) (nonces : nat -> Nonce24).
Variable others : nat -> Srv -> Srv.
Variable settings : LocalVault.t -> LocalVault.t.
Variable render_kit_pdf : text -> text -> text -> bytes.

(** ** The parts of a desk *)

Definition world (d : Desk) : World :=
  MkWorld (dk_srv d) (dk_access d) (dk_refresh d) (VaultSession.vault_key (AppLock.session (dk_lock d))) (dk_vault d) (dk_tick d).
Definition set_world (w : World) (d : Desk) : Desk :=
  MkDesk (srv w) (kc_access w) (kc_refresh w) (dk_pending d) (dk_bootstrap d) (dk_gsecret d) (dk_config d) (dk_lock d)
    (vault w) (tick w).
Definition set_lock (l : AppLock.Dev) (d : Desk) : Desk :=
  MkDesk (dk_srv d) (dk_access d) (dk_refresh d) (dk_pending d) (dk_bootstrap d) (dk_gsecret d) (dk_config d) l
    (dk_vault d) (dk_tick d).
Definition set_config (c : SyncConfig) (d : Desk) : Desk :=
  MkDesk (dk_srv d) (dk_access d) (dk_refresh d) (dk_pending d) (dk_bootstrap d) (dk_gsecret d) c (dk_lock d)
    (dk_vault d) (dk_tick d).
Definition set_tokens (access refresh : option text) (d : Desk) : Desk :=
  MkDesk (dk_srv d) access refresh (dk_pending d) (dk_bootstrap d) (dk_gsecret d) (dk_config d) (dk_lock d)
    (dk_vault d) (dk_tick d).
Definition set_entries (pending bootstrap gsecret : option text) (d : Desk) : Desk :=
  MkDesk (dk_srv d) (dk_access d) (dk_refresh d) pending bootstrap gsecret (dk_config d) (dk_lock d)
    (dk_vault d) (dk_tick d).
Definition set_vault (vt : LocalVault.t) (d : Desk) : Desk :=
  MkDesk (dk_srv d) (dk_access d) (dk_refresh d) (dk_pending d) (dk_bootstrap d) (dk_gsecret d) (dk_config d) (dk_lock d)
    vt (dk_tick d).

Definition get {T} (f : Desk -> T) : D T := fun d => (Ok (f d), d).
Definition put (f : Desk -> Desk) : D unit := fun d => (Ok tt, f d).
Definition tell {T} (m : string) : D T := err (Told m).
Definition or_tell {T} (o : option T) (m : string) : D T := lift (ok_or o (Told m)).

(** A call of the client or of the app lock from a command. *)
Definition api {T} (c : C T) : D T := fun d =>
  let '(r, w) := c (world d) in (map_err FromApi r, set_world w d).
Definition locally {T} (k : K T) : D T := fun d =>
  let '(r, l) := k (dk_lock d) in (map_err FromLock r, set_lock l d).

(** [let _ = ...]: the outcome is dropped, what was done stays. *)
Definition attempt {T} (c : D T) : D (option T) := fun d =>
  match c d with
  | (Ok x, d) => (Ok (Some x), d)
  | (Err _, d) => (Ok None, d)
  | (Panic, d) => (Panic, d)
  end.
Definition map_told {T} (m : string) (c : D T) : D T := fun d =>
  match c d with (Err _, d) => (Err (Told m), d) | r => r end.

(** ** Keychain and configuration *)

(** [kc_set] of a text that is not blank, by [store]; a blank one deletes, and its failure is ignored. *)
Definition kc_set (e : Env) (value : text) (store : option text -> Desk -> Desk) : D unit :=
  match kc_value (Some value) with
  | None => if kc_del_ok (os e) then put (store None) else ret tt
  | Some s => if kc_set_ok (os e) then put (store (Some s)) else tell "keychain"
  end.
Definition kc_del (e : Env) (store : option text -> Desk -> Desk) : D unit :=
  if kc_del_ok (os e) then put (store None) else ret tt.
Definition at_access (o : option text) (d : Desk) : Desk := set_tokens o (dk_refresh d) d.
Definition at_refresh (o : option text) (d : Desk) : Desk := set_tokens (dk_access d) o d.
Definition at_pending (o : option text) (d : Desk) : Desk := set_entries o (dk_bootstrap d) (dk_gsecret d) d.
Definition at_bootstrap (o : option text) (d : Desk) : Desk := set_entries (dk_pending d) o (dk_gsecret d) d.
Definition at_gsecret (o : option text) (d : Desk) : Desk := set_entries (dk_pending d) (dk_bootstrap d) o d.
Definition at_vault_key (o : option text) (d : Desk) : Desk :=
  let l := dk_lock d in
  set_lock (AppLock.MkDev (AppLock.session l) (wrap_file l) o (kc_totp l) (AppLock.settings l)) d.

Definition store_tokens (e : Env) (t : TokensResp) : D unit :=
  let! _ := kc_set e (access_token t) at_access in
  kc_set e (refresh_token t) at_refresh.

Definition save_config (e : Env) (c : SyncConfig) : D unit :=
  if config_ok e then put (set_config c) else tell "write sync-config.json".

(** ** Requests *)

Definition api_for : D unit :=
  let! c := get dk_config in
  let! _ := or_tell (non_blank (server_url c)) "no sync server configured" in
  ret tt.

(** A request without a bearer. *)
Definition bare {T} (f : Req -> Draw -> M T) : D (result T ApiError) := api (Api.send rqs dws others f).

(** A request with the pending token of a sign-in in progress. *)
Definition pending_post {T} (f : Req -> Draw -> Auth -> M T) : D (result T ApiError) :=
  let! p := get (fun d => kc_value (dk_pending d)) in
  let! pending := or_tell p "no sign-in is in progress" in
  bare (fun rq dw => let! a := lift (auth.PendingAuth_from_request (unix (now rq)) (Some (lit "Bearer " ++ pending))) in f rq dw a).

Definition http {T} (what : string) (r : result T ApiError) : D T :=
  match r with
  | Ok x => ret x
  | Err e => err (FromApi (HttpStatus what (parts e).1))
  | Panic => err (FromApi Transport)
  end.

Definition get_vault : D (option (Z * bytes)) := api (Api.get_vault cfg rqs dws others).
Definition session_vault_key : D VaultKey := api Api.session_vault_key.
Definition push_document (vk : VaultKey) (current : Z) : D Z := api (Api.push_document cfg rqs dws nonces others vk current).
Definition sync_device_settings : D unit := api (Api.sync_device_settings settings).

Definition put_wrapped_key (wt : Z) (blob : bytes) : D unit :=
  let! r := api (Api.authed cfg rqs dws others (fun rq _ a => routes.wrapped_put rq a wt (b64_encode blob) None)) in
  http "PUT /wrapped-keys" r.

Definition get_wrapped_key (wt : Z) : D bytes :=
  let! r := api (Api.authed cfg rqs dws others (fun _ _ a => routes.wrapped_get a wt)) in
  let! (_, blob_b64) := http "GET /wrapped-keys" r in
  match b64_decode (trim blob_b64) with
  | Some b => ret b
  | None => err (FromApi BadBody)
  end.

Definition enroll_login_verifier (password : text) (blob_bytes : bytes) : D unit :=
  require negb (length blob_bytes <? 24)%nat else Told "malformed wrapped-key blob" in
  let! salt := or_tell (arr_of (n := 16) (take 16 (drop 8 blob_bytes))) "slice" in
  let proof := PasswordWrapper.login_proof (PasswordWrapper.with_profile password Argon2Profile.Production) salt in
  let! r := api (Api.authed cfg rqs dws others (fun _ _ a => routes.password_enroll a (b64_encode salt) (b64_encode proof))) in
  match r with
  | Err NotFound => tell "this server predates master-password sign-in — update it"
  | r => http "enroll verifier" r
  end.

(** The newest version, and the push of the local vault over it. *)
Definition push_over (vk : VaultKey) : D Z :=
  let! g := get_vault in
  push_document vk (match g with Some (ver, _) => ver | None => 0 end).

Definition try_push_vault : D (option Z) :=
  attempt (let! vk := session_vault_key in let! _ := api_for in push_over vk).
(** ** Backup and restore *)

Definition sync_backup (e : Env) : D BackupOut :=
  let! vk := session_vault_key in
  let rk := fresh_recovery e in
  let wrapper := RecoveryWrapper.MkRecoveryWrapper rk Argon2Profile.Production in
  let! blob := lift (map_err FromCore (RecoveryWrapper.wrap wrapper (wrap_salt e) (wrap_nonce e) vk)) in
  let! _ := api_for in
  let! _ := put_wrapped_key (WrapperType.code WrapperType.Recovery) (blob_bytes blob) in
  let! ver := push_over vk in
  let! code := lift (map_err FromCore (RecoveryKit.encode rk)) in
  let! c := get dk_config in
  let pdf := render_kit_pdf code (default [] (sc_email c)) (today_iso e) in
  ret (MkBackupOut code (b64_encode pdf) ver).

(** Nothing is adopted over an existing vault. *)
Definition require_empty : D unit :=
  let! vt := get dk_vault in
  require bool_decide (LocalVault.list_envelopes vt = []) else Told "this device already has a vault" in
  ret tt.

Definition adopt (vk : VaultKey) : D unit := locally (set_session (VaultSession.unlocked vk)).

(** Fetch, open and merge the account's vault; the answer is the number of items added. *)
Definition pull (vk : VaultKey) : D Z :=
  let! g := get_vault in
  match g with
  | None => ret 0
  | Some (ver, ct) =>
      let! doc := lift (map_err FromCore (Document.decode_sync_blob vk ct ver)) in
      fun d =>
        let '(r, vt) := LocalVault.merge (dk_vault d) doc in
        (map_err FromCore (let? report := r in Ok (Z.of_nat (LocalVault.added report))),
         set_vault vt d)
  end.

Definition sync_restore (e : Env) (recovery_code : text) : D RestoreOut :=
  let! _ := require_empty in
  let! _ := api_for in
  let! b := get_wrapped_key (WrapperType.code WrapperType.Recovery) in
  let blob := MkBlob WrapperType.Recovery b in
  let! rk := lift (map_err FromCore (RecoveryKit.decode (trim recovery_code))) in
  let! vk := lift (map_err FromCore (RecoveryWrapper.unwrap (RecoveryWrapper.MkRecoveryWrapper rk Argon2Profile.Production) blob)) in
  let! _ := require_empty in
  let! _ := adopt vk in
  let! _ := kc_set e (b64_encode vk) at_vault_key in
  let! n := pull vk in
  let! _ := attempt sync_device_settings in
  ret (MkRestoreOut n).

(** ** The master password *)

(** The file holds a password wrapper. *)
Definition is_password_wrap (b : bytes) : bool :=
  (8 <=? length b)%nat && bool_decide (take 4 b = WrappedBlob.MAGIC)
  && bool_decide (byte_to_Z <$> b !! 5%nat = Some (WrapperType.code WrapperType.Password)).

Definition make_password_protected (e : Env) (escrow : bytes) (vk : VaultKey) : D unit :=
  let! p := get (fun d => state.password_protected (dk_lock d)) in
  if p : bool then ret tt
  else
    let! written := if is_password_wrap escrow then attempt (locally (state.write_atomic (os e) escrow)) else ret None in
    match written with
    | Some _ => let! _ := attempt (locally (state.delete_key (os e))) in ret tt
    | None => let! _ := attempt (kc_set e (b64_encode vk) at_vault_key) in ret tt
    end.

Definition sync_enable_password_unlock (e : Env) (password : option text) : D Z :=
  let! w := get (fun d => wrap_file (dk_lock d)) in
  let! blob := or_tell w "Set a master password first, then enable password unlock." in
  require is_password_wrap blob else Told "the local master-password wrapper is missing or malformed" in
  let! vk := session_vault_key in
  let! _ := api_for in
  let! _ := put_wrapped_key (WrapperType.code WrapperType.Password) blob in
  let! _ := match non_empty password with
            | None => ret tt
            | Some pw =>
                let check := MkBlob WrapperType.Password blob in
                let! _ := map_told "that's not this vault's master password"
                            (lift (map_err FromCore (PasswordWrapper.unwrap (PasswordWrapper.with_profile pw Argon2Profile.Production) check))) in
                enroll_login_verifier pw blob
            end in
  push_over vk.

Definition sync_unlock_with_password (e : Env) (password : text) : D RestoreOut :=
  let! _ := require_empty in
  let! _ := api_for in
  let! b := get_wrapped_key (WrapperType.code WrapperType.Password) in
  let blob := MkBlob WrapperType.Password b in
  let! vk := map_told "wrong master password"
               (lift (map_err FromCore (PasswordWrapper.unwrap (PasswordWrapper.with_profile password Argon2Profile.Production) blob))) in
  let! _ := require_empty in
  let! _ := adopt vk in
  let! _ := make_password_protected e b vk in
  let! n := pull vk in
  let! _ := attempt (enroll_login_verifier password b) in
  let! _ := attempt sync_device_settings in
  ret (MkRestoreOut n).

(** The address of the server, pinned when a certificate was probed. *)
Definition point_at (cert_pem : option text) (plain_base host : text) (c : SyncConfig) : SyncConfig :=
  match non_blank cert_pem with
  | Some pem => MkSyncConfig (Some pinned_url) (sc_google_client_id c) (sc_email c) (Some pem) (Some host)
  | None => MkSyncConfig (Some plain_base) (sc_google_client_id c) (sc_email c) None None
  end.

(** The answer of [POST /auth/password]: the session, or that a code is asked for. *)
Definition password_answer (code : option text) (r : result TokensResp ApiError) : D (option TokensResp) :=
  match r with
  | Ok t => ret (Some t)
  | Err (BadRequest m) => if bool_decide (m = "totp_required") then ret None else tell "sign-in rejected"
  | Err Unauthorized =>
      tell (match code with Some _ => "wrong master password or 6-digit code" | None => "wrong master password" end)
  | Err e => err (FromApi (HttpStatus "sign-in failed" (parts e).1))
  | Panic => err (FromApi Transport)
  end.

(** Adopt the key and pull, unless the device has a vault. *)
Definition adopt_if_empty (e : Env) (escrow : bytes) (vk : VaultKey) : D Z :=
  let! vt := get dk_vault in
  if bool_decide (LocalVault.list_envelopes vt = []) then
    let! _ := adopt vk in
    let! _ := make_password_protected e escrow vk in
    pull vk
  else ret 0.

Definition sync_password_signin (e : Env) (address : text) (cert_pem : option text) (password : text) (code : option text)
    : D PasswordSigninOut :=
  let! (plain_base, host) := or_tell (normalize_addr address) "enter your server's address (the IP from the computer that set it up)" in
  let! c := get dk_config in
  let! _ := save_config e (point_at cert_pem plain_base host c) in
  let! r := bare (fun rq _ => routes.password_params cfg rq) in
  let! (salt_b64, _, _, _) := match r with
                              | Err NotFound => tell "Master-password sign-in isn't turned on for this server yet."
                              | r => http "server error" r
                              end in
  let! salt_vec := match b64_decode (trim salt_b64) with Some x => ret x | None => err (FromApi BadBody) end in
  let! salt := or_tell (arr_of (n := 16) salt_vec) "server sent a malformed salt" in
  let proof := PasswordWrapper.login_proof (PasswordWrapper.with_profile password Argon2Profile.Production) salt in
  let sent := match trim <$> code with Some (_ :: _ as x) => Some x | _ => None end in
  let! r := bare (fun rq dw => routes.auth_password cfg rq dw (b64_encode proof) sent (MkDeviceReq (device_name e) (platform_str e))) in
  let! t := password_answer code r in
  match t with
  | None => ret (MkPasswordSigninOut true 0)
  | Some t =>
      let! _ := store_tokens e t in
      let! _ := api_for in
      let! b := get_wrapped_key (WrapperType.code WrapperType.Password) in
      let blob := MkBlob WrapperType.Password b in
      let! vk := map_told "signed in, but the escrowed key didn't unwrap — was the master password changed on another device?"
                   (lift (map_err FromCore (PasswordWrapper.unwrap (PasswordWrapper.with_profile password Argon2Profile.Production) blob))) in
      let! n := adopt_if_empty e b vk in
      let! _ := attempt sync_device_settings in
      ret (MkPasswordSigninOut false n)
  end.

(** ** The one-click server *)

Definition bootstrap_signin (e : Env) : D unit :=
  let! b := get (fun d => kc_value (dk_bootstrap d)) in
  let! token := or_tell b "no bootstrap token — redeploy the sync server" in
  let! c := get dk_config in
  let! _ := or_tell (server_url c) "no sync server configured" in
  let! r := bare (fun rq dw => routes.auth_bootstrap cfg rq dw token (MkDeviceReq (device_name e) (platform_str e))) in
  let! t := http "bootstrap sign-in failed" r in
  store_tokens e t.

(** [probe i] is whether the [i]-th health check is answered. *)
Definition sync_reconnect (e : Env) (probe : nat -> bool) : D bool :=
  let! c := get dk_config in
  require negb (bool_decide (default [] (server_url c) = [])) && bool_decide (is_Some (pinned_cert_pem c))
          && bool_decide (is_Some (server_ip c))
    else Told "No one-click sync server is set up on this device yet" in
  let! b := get (fun d => kc_value (dk_bootstrap d)) in
  require bool_decide (is_Some b) else Told "This device has no saved server login" in
  let! a := get (fun d => kc_value (dk_access d)) in
  if bool_decide (is_Some a) then ret true
  else
    require existsb probe (seq 0 10) else Told "Your sync server is running but its app hasn't answered yet." in
    let! _ := bootstrap_signin e in
    let! _ := try_push_vault in
    ret true.

Definition sync_pair_begin (e : Env) : D PairCodeOut :=
  let! c := get dk_config in
  let! ip := or_tell (non_empty (server_ip c)) "This device isn't connected to a one-click sync server" in
  let! cert := or_tell (non_empty (pinned_cert_pem c)) "Missing the server certificate" in
  let! b := get (fun d => kc_value (dk_bootstrap d)) in
  let! token := or_tell b "Missing this device's server login" in
  let! vk := session_vault_key in
  let! _ := api_for in
  let! g := get_vault in
  let! _ := map_told "Couldn't upload your vault first" (push_document vk (match g with Some (ver, _) => ver | None => 0 end)) in
  let ts := now_unix e in
  let! _ := api_for in
  let! minted := attempt (api (Api.authed cfg rqs dws others (fun rq dw a => routes.enroll_code_mint cfg rq dw a))) in
  let '(payload, expires) := match minted with
                             | Some (Ok (enroll, expires_at)) => (Some (ip, cert, enroll, ts), Some expires_at)
                             | _ => (None, None)
                             end in
  let! json := lift (map_err FromCore (of_sum Serde (to_vec (MkJoinBundle 1 ip cert token (b64_encode vk) ts)))) in
  ret (MkPairCodeOut (JOIN_PREFIX ++ url_encode json) payload expires).

(** Reading a device code changes nothing. *)
Definition read_join_code (code : text) : result (JoinBundle * VaultKey) FlowErr :=
  let? body := ok_or (strip_prefix JOIN_PREFIX (trim code)) (Told "That doesn't look like a NorthKey device code.") in
  let? json := ok_or (url_decode body) (Told "The device code is malformed or was cut off.") in
  let? bundle := match from_slice json with inl _ => Err (Told "The device code is malformed.") | inr b => Ok b end in
  guard v bundle =? 1 else Err (Told "This device code is from a newer version of NorthKey.") in
  let? key_bytes := ok_or (b64_decode (vkey bundle)) (Told "The device code carried an invalid vault key.") in
  let? vk := ok_or (arr_of key_bytes) (Told "The device code carried an invalid vault key.") in
  Ok (bundle, vk).

Definition sync_pair_complete (e : Env) (code : text) : D PairCompleteOut :=
  let! (bundle, vk) := lift (read_join_code code) in
  let! _ := require_empty in
  let! _ := adopt vk in
  let! _ := kc_set e (b64_encode vk) at_vault_key in
  let! c := get dk_config in
  let! _ := save_config e (MkSyncConfig (Some pinned_url) (sc_google_client_id c) (sc_email c) (Some (cert bundle)) (Some (ip bundle))) in
  let! _ := kc_set e (token bundle) at_bootstrap in
  let! _ := bootstrap_signin e in
  let! _ := api_for in
  let! n := pull vk in
  let! escrow := attempt (get_wrapped_key (WrapperType.code WrapperType.Password)) in
  let! _ := match escrow with Some b => make_password_protected e b vk | None => ret tt end in
  let! _ := attempt sync_device_settings in
  ret (MkPairCompleteOut n (ip bundle)).

(** ** Sign-in with Google, signing out and forgetting *)

Definition sync_set_google_secret (e : Env) (secret : text) : D unit := kc_set e secret at_gsecret.

Definition sync_set_config (e : Env) (url client_id : option text) : D unit :=
  let! c := get dk_config in
  save_config e (MkSyncConfig (kc_value url) (kc_value client_id) (sc_email c) (pinned_cert_pem c) (server_ip c)).

Definition auth_totp_enroll : D (text * text) :=
  let! _ := api_for in
  let! r := pending_post (fun _ dw a => routes.totp_enroll cfg dw a) in
  let! er := http "TOTP enrollment failed" r in
  ret (routes.er_otpauth_uri er, routes.secret_base32 er).

Definition auth_totp_verify (e : Env) (code : text) : D unit :=
  let! _ := api_for in
  let! r := pending_post (fun rq dw a => routes.totp_verify cfg rq dw a (trim code)) in
  let! t := http "code rejected" r in
  let! _ := store_tokens e t in
  let! _ := kc_del e at_pending in
  let! _ := try_push_vault in
  ret tt.

Definition clear_email (c : SyncConfig) : SyncConfig :=
  MkSyncConfig (server_url c) (sc_google_client_id c) None (pinned_cert_pem c) (server_ip c).

Definition auth_logout (e : Env) : D unit :=
  let! _ := attempt (
    let! _ := api_for in
    let! a := get (fun d => kc_value (dk_access d)) in
    match a with
    | Some access => let! _ := bare (Api.build (fun rq _ a => routes.auth_logout rq a) access) in ret tt
    | None => ret tt
    end) in
  let! _ := kc_del e at_access in
  let! _ := kc_del e at_refresh in
  let! _ := kc_del e at_pending in
  let! c := get dk_config in
  let! _ := attempt (save_config e (clear_email c)) in
  ret tt.

Definition sync_forget (e : Env) : D unit :=
  let! _ := save_config e (MkSyncConfig None None None None None) in
  let! _ := kc_del e at_bootstrap in
  let! _ := kc_del e at_access in
  let! _ := kc_del e at_refresh in
  let! _ := kc_del e at_pending in
  kc_del e at_gsecret.
End flows.
End Flow.
