(* ===== verification/SyncFlowClaims.v ===== *)
(** What the recovery kit, the escrowed master password and device codes promise: a kit printed by one
    device restores the account's vault on another, an adopted key survives the next launch, and
    nothing is adopted over an existing vault. *)
From S2P Require Import Prelude Bytes Text Crypto Totp Toy RecoveryKit Keyring Model Envelope VaultStore Session AppLock Passkey.
From S2P Require Import ApiDb ApiAuth ApiRoutes ApiDemo ApiFacts ApiClaims ApiVault SyncClient SyncFlows.
Local Open Scope Z_scope.

(** ** A request of a device whose session is valid *)

Section online.
Context {A : AuthLibs} {P : CryptoPrims} {B : Base64} {SD : Json VaultDocument.t} {ZS : Zstd}.
Variable cfg : Config.
Variables (rqs : nat -> Req) (dws : nat -> Draw) (nonces : nat -> Nonce24).
Variable others : nat -> Srv -> Srv.

(** The keychain's token speaks for [a] during the next [k] requests. *)
Definition online (k : nat) (a : Auth) (w : World) : Prop :=
  exists access, kc_value (kc_access w) = Some access
    /\ forall n, (tick w <= n < tick w + k)%nat ->
         auth.Auth_from_request (unix (now (rqs n))) (Some (lit "Bearer " ++ access)) = Ok a.

(** The world after one request that the keychain does not notice. *)
Definition answered (s : Srv) (w : World) : World :=
  MkWorld s (kc_access w) (kc_refresh w) (session_key w) (vault w) (S (tick w)).

Lemma online_answered k a s w : online (S k) a w -> online k a (answered s w).
Proof. intros (access & Hk & Ha). exists access. split; [done|]. cbn. intros n Hn. apply Ha. lia. Qed.

Lemma authed_online {T} (f : Req -> Draw -> Auth -> M T) k a w x s :
  online (S k) a w -> f (rqs (tick w)) (dws (tick w)) a (others (tick w) (srv w)) = (x, s) -> x <> Err Unauthorized ->
  Api.authed cfg rqs dws others f w = (match x with Panic => Err Transport | x => Ok x end, answered s w).
Proof.
  intros (access & Hk & Ha) Hf Hx. unfold Api.authed, mbind at 1, Api.kc_get. rewrite Hk. cbn [ok_or].
  unfold mbind at 1, Api.send, Api.build. unfold mbind at 1, lift. rewrite Ha by lia. rewrite Hf.
  destruct x as [y|[]|]; done.
Qed.

(** ** The handlers on an approved device *)

Lemma approved_run dev s : approved s dev -> routes.require_approved_device dev s = (Ok tt, s).
Proof. intros H. by apply require_Ok. Qed.

Lemma vault_get_run a s :
  approved s (device a) ->
  routes.vault_get a s = (Ok ((fun r => (version r, b64_encode (ciphertext r))) <$> vaults (db s) !! account a), s).
Proof.
  intros H. unfold routes.vault_get, mbind. rewrite approved_run by done. unfold query. by destruct (vaults (db s) !! account a).
Qed.

Lemma vault_put_authorized rq a m ctb s : approved s (device a) -> fst (routes.vault_put rq a m ctb s) <> Err Unauthorized.
Proof.
  intros H. unfold routes.vault_put, routes.vault_put_during, routes.vault_put_check, mbind at 1 2. rewrite approved_run by done.
  unfold mbind at 1, lift, ok_or. destruct (m ≫= _) as [im|]; [|done]. unfold mbind at 1, routes.b64_or, lift, ok_or.
  destruct (b64_decode ctb) as [ct|]; [|done]. destruct (negb _ && negb _); [|done].
  unfold mbind, ret, routes.vault_put_read, query, routes.vault_put_write. destruct (vaults (db s) !! account a) as [row|] eqn:E; cbn.
  - by destruct (im =? version row).
  - destruct (im =? 0); [|done]. unfold mbind, insert_row, mbind, query. by rewrite E.
Qed.

(** The shared row of a wrapper, when no device has one of its own. *)
Definition shared_key (acc : Uuid) (wt : Z) (blob : option bytes) (s : Srv) : Prop :=
  (wk_blob <$> wrapped_keys (db s) !! (acc, wt, None)) = blob /\ forall dev, wrapped_keys (db s) !! (acc, wt, Some dev) = None.

Lemma wrapped_get_run a wt blob s :
  approved s (device a) -> shared_key (account a) wt (Some blob) s -> routes.wrapped_get a wt s = (Ok (wt, b64_encode blob), s).
Proof.
  intros H [Hb Hn]. unfold routes.wrapped_get, mbind. rewrite approved_run by done.
  apply fmap_Some in Hb as (row & Hrow & ->). unfold fetch_or, mbind, query.
  set (l := map_to_list (wrapped_keys (db s))).
  assert (Hl : forall k r, (k, r) ∈ l -> k.1 = (account a, wt) -> r = row).
  { intros [[acc w] dev] r Hin%elem_of_map_to_list [= -> ->]. destruct dev as [d|]; [by rewrite Hn in Hin|congruence]. }
  assert (Hin : ((account a, wt, None), row) ∈ l) by by apply elem_of_map_to_list.
  clearbody l. assert (head (omap (fun r => if bool_decide (r.1.1 = (account a, wt)) then Some (wk_blob r.2) else None) l)
    = Some (wk_blob row)) as ->; [|done].
  induction l as [|[k r] l IH]; [by apply elem_of_nil in Hin|]. cbn. case_bool_decide as Hk.
  - cbn. f_equal. f_equal. apply (Hl k); [by left|done].
  - apply IH; [intros k' r' Hk'; apply Hl; by right|]. apply elem_of_cons in Hin as [[= <- <-]|]; [done|done].
Qed.

Lemma wrapped_put_run rq a wt blob s s' :
  routes.wrapped_put rq a wt (b64_encode blob) None s = (Ok tt, s') -> forall `{!Base64Laws},
  s' = set_db (set_wrapped_keys (insert (account a, wt, None) (MkWrappedKey None blob (now rq)))) s.
Proof.
  intros H ?. unfold routes.wrapped_put in H. inv_run.
  match goal with H : routes.require_approved_device _ _ = _ |- _ => apply require_Ok in H as [_ ->] end.
  unfold routes.b64_or, lift, ok_or in *. rewrite b64_decode_encode in *. by simplify_eq.
Qed.

Context {BL : Base64Laws} {L : CryptoLaws P} {SL : JsonLaws VaultDocument.t} {ZL : ZstdLaws}.

Lemma get_vault_online k a w :
  online (S k) a w -> let s := others (tick w) (srv w) in approved s (device a) ->
  Api.get_vault cfg rqs dws others w
  = (Ok ((fun r => (version r, ciphertext r)) <$> vaults (db s) !! account a), answered s w).
Proof.
  intros Ho s Ha. unfold Api.get_vault, mbind. rewrite (authed_online _ k a w _ s Ho (vault_get_run a s Ha)) by done.
  destruct (vaults (db s) !! account a) as [row|]; [|done]. cbn.
  by rewrite trim_printable, b64_decode_encode by apply b64_printable.
Qed.

Lemma put_vault_online k a im ct w :
  online (S k) a w -> let s := others (tick w) (srv w) in approved s (device a) ->
  exists r s', Api.put_vault cfg rqs dws others im ct w = (r, answered s' w)
    /\ match r with
       | Ok (PutOk ver) => exists row, s' = set_db (set_vaults (insert (account a) row)) s
            /\ version row = ver /\ ver = im + 1 /\ ciphertext row = ct
       | _ => s' = s
       end.
Proof.
  intros Ho s Ha. unfold Api.put_vault, mbind.
  destruct (routes.vault_put (rqs (tick w)) a (Some (34 :: show_i64 im ++ [34])) (b64_encode ct) s) as [x s'] eqn:E.
  pose proof (vault_put_authorized (rqs (tick w)) a (Some (34 :: show_i64 im ++ [34])) (b64_encode ct) s Ha) as Hx. rewrite E in Hx.
  rewrite (authed_online (fun rq _ a => routes.vault_put rq a _ _) k a w x s' Ho E) by done.
  apply vault_put_run in E. destruct x as [ver|e|]; [| |done].
  - destruct E as (ct' & Him & -> & Hct & _ & ->). rewrite b64_decode_encode in Hct. injection Hct as <-. cbn.
    do 2 eexists. split; [done|]. eexists. split; [done|]. split; [done|]. split; [|done].
    cbn [base.mbind option_bind] in Him. rewrite trim_matches_show_i64 in Him by lia. apply parse_i64_show_i64 in Him. cbn. by rewrite Him.
  - exists (match e with VersionConflict c => Ok (PutConflict c) | e => Err (HttpStatus "PUT /vault" (parts e).1) end), s.
    by destruct e; try (destruct E as (-> & _)); subst.
Qed.

(** ** A push that nobody disturbs elsewhere *)

(** The device is approved and the wrapper is as given. *)
Definition standing (a : Auth) (wt : Z) (blob : option bytes) (s : Srv) : Prop :=
  approved s (device a) /\ shared_key (account a) wt blob s.

(** Other devices leave both alone. *)
Definition courteous (a : Auth) (wt : Z) : Prop :=
  forall blob n s, standing a wt blob s -> standing a wt blob (others n s).

Lemma standing_vaults a wt blob f s : standing a wt blob s -> standing a wt blob (set_db (set_vaults f) s).
Proof. done. Qed.

(** The account's row opens to the document. *)
Definition row_opens (acc : Uuid) (vk : VaultKey) (ver : Z) (doc : VaultDocument.t) (s : Srv) : Prop :=
  exists row, vaults (db s) !! acc = Some row /\ version row = ver /\ Document.decode_sync_blob vk (ciphertext row) ver = Ok doc.

Lemma push_online n a wt blob vk cur w ver w' :
  courteous a wt -> online (2 * n) a w -> standing a wt blob (srv w) ->
  Api.push_loop cfg rqs dws nonces others n vk cur w = (Ok ver, w') ->
  standing a wt blob (srv w') /\ row_opens (account a) vk ver (LocalVault.to_document (vault w')) (srv w')
  /\ (LocalVault.wf (vault w) -> LocalVault.wf (vault w')).
Proof.
  intros Hc. revert cur w; induction n as [|n IH]; intros cur w Ho Hs; cbn [Api.push_loop]; [done|].
  replace (2 * S n)%nat with (S (S (2 * n))) in Ho by lia.
  intros (b & w1 & Hseal & (r & w2 & Hput & H)%mbind_Ok)%mbind_Ok.
  unfold Api.seal_document, Api.core, lift in Hseal. injection Hseal as Hblob <-.
  pose proof (Hc blob (tick w) _ Hs) as Hs1.
  destruct (put_vault_online _ a cur b w Ho (proj1 Hs1)) as (x & s2 & Hx & Hs2). rewrite Hx in Hput. injection Hput as -> <-.
  destruct r as [ver'|sc].
  - unfold ret in H. injection H as <- <-. destruct Hs2 as (row & -> & Hv & -> & Hct). split; [by apply standing_vaults|].
    split; [|done]. exists row. cbn. rewrite lookup_insert_eq. split; [done|]. split; [done|]. rewrite Hct.
    destruct (Document.encode_sync_blob _ _ _ _) as [b'|e|] eqn:He; [|done..]. cbn in Hblob. injection Hblob as ->.
    by eapply Document.decode_encode_blob.
  - subst s2. apply online_answered with (s := others (tick w) (srv w)) in Ho.
    apply mbind_Ok in H as (g & w3 & Hg & H).
    pose proof (Hc blob (S (tick w)) _ Hs1) as Hs3.
    rewrite (get_vault_online _ a _ Ho (proj1 Hs3)) in Hg. injection Hg as <- <-. apply online_answered with (s := others (S (tick w)) (others (tick w) (srv w))) in Ho.
    destruct (vaults _ !! _) as [row|]; cbn [fmap option_fmap option_map] in H; [|by apply IH in H; [exact H|exact Ho|exact Hs3]].
    apply mbind_Ok in H as (rm & w4 & Hd & H). unfold Api.core, lift in Hd. injection Hd as _ <-.
    apply mbind_Ok in H as (u & w5 & Hm & H). unfold Api.merge_remote in Hm.
    destruct (LocalVault.merge _ _) as [mr vt] eqn:Em. injection Hm as _ <-.
    apply IH in H as (H1 & H2 & H3); [|destruct Ho as (access & Hk & Ha); by exists access|exact Hs3].
    split_and!; [done..|]. intros Hw. apply H3. pose proof (LocalVault.merge_wf (vault w) rm Hw) as Hw'. cbn in Em. by rewrite Em in Hw'.
Qed.
End online.

(** ** Merging into an empty vault *)

Section fresh.
Context {B : Base64} {BL : Base64Laws}.
Import LocalVault.

Lemma merge_items_added envs r self :
  Forall has_meta envs ->
  (forall id, (length (remote_for id envs) <= 1)%nat /\ (remote_for id envs <> [] -> items self !! id = None)) ->
  exists r', merge_items envs r self = (Ok r', fold_left step envs self) /\ added r' = (added r + length envs)%nat.
Proof.
  intros H. revert r self. induction H as [|env envs [[id ts] Hm] _ IH]; intros r self Hd; cbn [merge_items fold_left length].
  { exists r. split; [done|lia]. }
  assert (Hc : forall i, remote_for i (env :: envs) = (if decide (i = id) then [(env, ts)] else []) ++ remote_for i envs).
  { intros i. rewrite remote_for_cons. unfold remote_for at 1. cbn. rewrite Hm. cbn. repeat case_decide; done. }
  rewrite Hm. destruct (Hd id) as [_ Hn]. rewrite Hc, decide_True in Hn by done. unfold local_ts. rewrite Hn by done. cbn.
  rewrite (upsert_ok _ _ _ _ Hm). unfold step at 2, local_ts. rewrite Hm, Hn by done. cbn.
  edestruct IH as (r' & -> & Ha); [|exists r'; rewrite (upsert_ok _ _ _ _ Hm); split; [done|rewrite Ha; cbn; lia]].
  intros i. destruct (Hd i) as [Hl Hi]. rewrite Hc in Hl, Hi. case_decide as Hii; [|split; [done|]; intros Hr].
  - cbn in Hl. split; [lia|]. destruct (remote_for i envs); [done|cbn in Hl; lia].
  - cbn. rewrite lookup_insert_ne by congruence. by apply Hi.
Qed.

(** An empty vault takes over a well-formed one. *)
Lemma merge_fresh self other :
  items self = ∅ -> wf other ->
  exists r vt, merge self (to_document other) = (Ok r, vt) /\ items vt = items other /\ added r = size (items other).
Proof.
  intros Hs Hw. pose proof (list_envelopes_meta other Hw) as Hm.
  assert (Hi : items (snd (merge self (to_document other))) = items other).
  { apply map_eq. intros id. rewrite merge_document_lookup, Hs, lookup_empty by done.
    destruct (items other !! id) as [[env ts]|] eqn:E; [|done]. cbn.
    assert (existsb (fun t => bool_decide (t.1 = id) && (ts <=? t.2)) (map_to_list (tombstones other)) = false) as ->; [|done].
    apply not_true_iff_false. intros ([i dt] & Hin & Hb)%existsb_exists. apply list_elem_of_In, elem_of_map_to_list in Hin.
    bools. cbn in *. subst. by rewrite (wf_disjoint _ Hw id) in Hin by (by rewrite E). }
  assert (He : VaultDocument.envelopes (to_document other) = Ok (list_envelopes other)) by apply VaultDocument.envelopes_from_envelopes.
  unfold merge in *. rewrite He in *.
  destruct (merge_items_added (list_envelopes other) MergeReport_default self Hm) as (r & Hr & Ha).
  { intros id. rewrite remote_for_document, Hs by done. split; [by destruct (items other !! id); cbn; lia|]. by rewrite lookup_empty. }
  rewrite Hr in *. destruct (merge_tombstones _ r _) as [r' vt] eqn:Et. exists r', vt. split; [done|]. split; [done|].
  assert (Hadd : forall tombs r1 st, added (fst (merge_tombstones tombs r1 st)) = added r1).
  { clear. induction tombs as [|[i d] tombs IH]; intros r1 st; cbn; [done|].
    destruct (local_ts st i) as [l|]; [destruct (l <=? d)|]; by rewrite IH. }
  pose proof (Hadd (VaultDocument.tombstones (to_document other)) r (fold_left step (list_envelopes other) self)) as Hx.
  rewrite Et in Hx. cbn in Hx. rewrite Hx, Ha. cbn.
  rewrite (Permutation_length (list_envelopes_perm other)), !length_map. apply length_map_to_list.
Qed.
End fresh.

(** ** The recovery kit *)

Section kit.
Context {A : AuthLibs} {P : CryptoPrims} {B : Base64} {SD : Json VaultDocument.t} {ZS : Zstd}.
Context {BL : Base64Laws} {L : CryptoLaws P} {SL : JsonLaws VaultDocument.t} {ZL : ZstdLaws}.
Variable cfg : Config.
Variable settings : LocalVault.t -> LocalVault.t.
Variable render_kit_pdf : text -> text -> text -> bytes.

Abbreviation RECOVERY := (WrapperType.code WrapperType.Recovery).

Definition kit_blob (e : Env) (vk : VaultKey) : bytes :=
  blob_bytes (WrappedBlob.seal (wrap_nonce e) WrapperType.Recovery
    (RecoveryWrapper.derive_kek (RecoveryWrapper.MkRecoveryWrapper (fresh_recovery e) Argon2Profile.Production) (wrap_salt e))
    (wrap_salt e) vk).

Lemma kit_opens e vk :
  RecoveryWrapper.unwrap (RecoveryWrapper.MkRecoveryWrapper (fresh_recovery e) Argon2Profile.Production)
    (MkBlob WrapperType.Recovery (kit_blob e vk)) = Ok vk.
Proof.
  unfold RecoveryWrapper.unwrap, kit_blob.
  change (MkBlob WrapperType.Recovery (blob_bytes ?b)) with b. rewrite WrappedBlob.params_seal by (rewrite length_arr; lia).
  cbn. rewrite length_arr. cbn. rewrite copy_from_slice_arr. cbn. by rewrite WrappedBlob.open_seal by (rewrite length_arr; lia).
Qed.

Lemma wrapped_put_authorized rq a wt ctb dev s : approved s (device a) -> fst (routes.wrapped_put rq a wt ctb dev s) <> Err Unauthorized.
Proof.
  intros H. unfold routes.wrapped_put, mbind at 1. rewrite approved_run by done. destruct (_ && _); [|done].
  unfold mbind at 1, routes.b64_or, lift, ok_or. destruct (b64_decode ctb); [|done]. destruct (_ && _); [|done].
  unfold mbind, query. by destruct (match dev with Some id => _ | None => _ end).
Qed.

Lemma api_Ok {T} (c : C T) d x d' :
  Flow.api c d = (Ok x, d') -> exists w, c (Flow.world d) = (Ok x, w) /\ d' = Flow.set_world w d.
Proof. unfold Flow.api. destruct (c (Flow.world d)) as [[y|e|] w]; [|done..]. intros [= -> <-]. by exists w. Qed.

Lemma set_world_same d : Flow.set_world (Flow.world d) d = d.
Proof. by destruct d. Qed.

Lemma session_key_Ok d vk d' :
  Flow.session_vault_key d = (Ok vk, d') -> VaultSession.vault_key (AppLock.session (dk_lock d)) = Some vk /\ d' = d.
Proof.
  intros (w & H & ->)%api_Ok. unfold Api.session_vault_key in H. cbn in H.
  destruct (VaultSession.vault_key _) as [k|]; [|done]. injection H as -> <-. by rewrite set_world_same.
Qed.

Lemma api_for_Ok d u d' : Flow.api_for d = (Ok u, d') -> d' = d.
Proof. unfold Flow.api_for, Flow.get, Flow.or_tell, mbind, lift. destruct (non_blank _); cbn; [|done]. unfold ret. by intros [= _ ->]. Qed.

Lemma lift_core_Ok {T E F} (f : E -> F) (r : result T E) (d : Desk) x d' :
  lift (map_err f r) d = (Ok x, d') <-> r = Ok x /\ d' = d.
Proof. unfold lift. destruct r; cbn; naive_solver. Qed.

Lemma http_Ok {T} what (r : result T ApiError) d x d' : Flow.http what r d = (Ok x, d') -> r = Ok x /\ d' = d.
Proof. destruct r; unfold Flow.http, ret, err; [by intros [= -> ->]|done..]. Qed.

Lemma push_over_online rqs dws nonces others k a wt blob vk d ver d' :
  courteous others a wt -> online rqs (S (4 + k)) a (Flow.world d) -> standing a wt blob (dk_srv d) ->
  Flow.push_over cfg rqs dws nonces others vk d = (Ok ver, d') ->
  standing a wt blob (dk_srv d') /\ row_opens (account a) vk ver (LocalVault.to_document (dk_vault d')) (dk_srv d')
  /\ (LocalVault.wf (dk_vault d) -> LocalVault.wf (dk_vault d')).
Proof.
  intros Hc Ho Hs H. unfold Flow.push_over in H. apply mbind_Ok in H as (g & d1 & (w1 & Hg & ->)%api_Ok & H).
  pose proof (Hc blob (dk_tick d) _ Hs) as Hs1.
  rewrite (get_vault_online cfg rqs dws others _ a _ Ho (proj1 Hs1)) in Hg. injection Hg as <- <-.
  apply api_Ok in H as (w2 & H & ->). apply (push_online cfg rqs dws nonces others 2 a wt blob) in H; [done|done| |exact Hs1].
  destruct Ho as (access & Hk & Ha). exists access. split; [done|]. cbn. intros n Hn. apply Ha. cbn. lia.
Qed.

(** What a backup leaves on the server. *)
Lemma backup_leaves rqs dws nonces others e a b0 d out d' :
  courteous others a RECOVERY -> online rqs 6 a (Flow.world d) -> standing a RECOVERY b0 (dk_srv d) ->
  Flow.sync_backup cfg rqs dws nonces others render_kit_pdf e d = (Ok out, d') ->
  exists vk, VaultSession.vault_key (AppLock.session (dk_lock d)) = Some vk
    /\ RecoveryKit.encode (fresh_recovery e) = Ok (recovery_code out)
    /\ standing a RECOVERY (Some (kit_blob e vk)) (dk_srv d')
    /\ row_opens (account a) vk (backup_version out) (LocalVault.to_document (dk_vault d')) (dk_srv d')
    /\ (LocalVault.wf (dk_vault d) -> LocalVault.wf (dk_vault d')).
Proof.
  intros Hc Ho Hs H. unfold Flow.sync_backup in H.
  apply mbind_Ok in H as (vk & d1 & [Hk ->]%session_key_Ok & H). exists vk. split; [done|].
  apply mbind_Ok in H as (blob & d1 & Hb & H). unfold lift, RecoveryWrapper.wrap in Hb. cbn in Hb. injection Hb as <- <-.
  apply mbind_Ok in H as (u & d1 & ->%api_for_Ok & H). apply mbind_Ok in H as ([] & d2 & Hput & H).
  unfold Flow.put_wrapped_key in Hput. apply mbind_Ok in Hput as (r & d1 & (w1 & Hput & ->)%api_Ok & [-> ->]%http_Ok).
  pose proof (Hc b0 (dk_tick d) _ Hs) as Hs1. set (s1 := others (dk_tick d) (dk_srv d)) in *.
  match type of Hput with Api.authed _ _ _ _ ?f _ = _ =>
    destruct (f (rqs (dk_tick d)) (dws (dk_tick d)) a s1) as [x s2] eqn:E;
    pose proof (wrapped_put_authorized (rqs (dk_tick d)) a RECOVERY (b64_encode (kit_blob e vk)) None s1 (proj1 Hs1)) as Hx;
    fold (kit_blob e vk) in E; rewrite E in Hx; rewrite (authed_online cfg rqs dws others f 5 a _ x s2 Ho E Hx) in Hput end.
  destruct x as [[]|e'|]; [|done..]. injection Hput as <-. apply wrapped_put_run in E; [|done].
  assert (Hs2 : standing a RECOVERY (Some (kit_blob e vk)) s2).
  { rewrite E. split; [apply Hs1|]. split; cbn; [by rewrite lookup_insert_eq|]. intros dev.
    rewrite lookup_insert_ne by done. apply Hs1. }
  apply mbind_Ok in H as (ver & d3 & Hpush & H).
  apply (push_over_online rqs dws nonces others 0 a RECOVERY (Some (kit_blob e vk)) vk) in Hpush as (Hs3 & Hr & Hw);
    [|done|by apply online_answered|done].
  apply mbind_Ok in H as (code & d4 & Hcode & H). apply lift_core_Ok in Hcode as [Hcode ->].
  apply mbind_Ok in H as (c & d5 & [= <- <-] & H). unfold ret in H. injection H as <- <-. by split.
Qed.

(** ** Restoring *)

Lemma get_wrapped_online rqs dws others k a wt blob d :
  courteous others a wt -> online rqs (S k) a (Flow.world d) -> standing a wt (Some blob) (dk_srv d) ->
  let s := others (dk_tick d) (dk_srv d) in
  Flow.get_wrapped_key cfg rqs dws others wt d = (Ok blob, Flow.set_world (answered s (Flow.world d)) d)
  /\ standing a wt (Some blob) s.
Proof.
  intros Hc Ho Hs s. pose proof (Hc _ (dk_tick d) _ Hs) as Hs1. split; [|done].
  unfold Flow.get_wrapped_key, mbind at 1, Flow.api.
  rewrite (authed_online cfg rqs dws others _ k a _ _ s Ho (wrapped_get_run a wt blob s (proj1 Hs1) (proj2 Hs1))) by done.
  cbn. unfold mbind, ret. cbn. by rewrite trim_printable, b64_decode_encode by apply b64_printable.
Qed.

(** Pulling into an empty vault. *)
Lemma pull_fresh rqs dws others k a vk d row other :
  online rqs (S k) a (Flow.world d) -> let s := others (dk_tick d) (dk_srv d) in
  approved s (device a) -> vaults (db s) !! account a = Some row ->
  Document.decode_sync_blob vk (ciphertext row) (version row) = Ok (LocalVault.to_document other) ->
  LocalVault.items (dk_vault d) = ∅ -> LocalVault.wf other ->
  exists vt, Flow.pull cfg rqs dws others vk d
    = (Ok (Z.of_nat (size (LocalVault.items other))), Flow.set_vault vt (Flow.set_world (answered s (Flow.world d)) d))
    /\ LocalVault.items vt = LocalVault.items other.
Proof.
  intros Ho s Ha Hrow Hd He Hw. destruct (merge_fresh (dk_vault d) other He Hw) as (r & vt & Hm & Hi & Hn).
  exists vt. split; [|done]. unfold Flow.pull, mbind at 1, Flow.get_vault, Flow.api.
  rewrite (get_vault_online cfg rqs dws others k a _ Ho Ha). change (others (tick _) (srv _)) with s. rewrite Hrow. cbn.
  unfold mbind, lift. rewrite Hd. cbn. rewrite Hm. cbn. by rewrite Hn.
Qed.

Lemma kc_value_encode (vk : VaultKey) : kc_value (Some (b64_encode vk)) = Some (b64_encode vk).
Proof.
  unfold kc_value. rewrite trim_printable by apply b64_printable. rewrite bool_decide_eq_false_2; [done|].
  intros H%b64_nonempty. pose proof (length_arr vk) as Hl. by rewrite H in Hl.
Qed.

Lemma require_empty_run d : LocalVault.items (dk_vault d) = ∅ -> Flow.require_empty d = (Ok tt, d).
Proof.
  intros H. unfold Flow.require_empty, mbind, Flow.get, LocalVault.list_envelopes. by rewrite H, map_to_list_empty.
Qed.

Lemma restore_code e out typed data :
  RecoveryKit.encode (fresh_recovery e) = Ok (recovery_code out) -> RecoveryKit.normalize (recovery_code out) = Ok data ->
  RecoveryKit.normalize (trim typed) = Ok data -> RecoveryKit.decode (trim typed) = Ok (fresh_recovery e).
Proof.
  intros He Hn Ht. destruct (RecoveryKit.encode_ok (fresh_recovery e)) as (data' & Hd & He'). rewrite He in He'. injection He' as Hg.
  rewrite Hg, (RecoveryKit.normalize_group _ _ Hd) in Hn. injection Hn as <-.
  unfold RecoveryKit.decode. rewrite Ht. by apply RecoveryKit.decode_data_encode.
Qed.

(** The rows of an account that a restore reads. *)
Definition same_rows (acc : Uuid) (wt : Z) (s s' : Srv) : Prop :=
  (forall dev, wrapped_keys (db s') !! (acc, wt, dev) = wrapped_keys (db s) !! (acc, wt, dev)) /\ vaults (db s') !! acc = vaults (db s) !! acc.

(** Other devices leave the account's rows and this device's approval alone. *)
Definition undisturbed (others : nat -> Srv -> Srv) (b : Auth) (wt : Z) : Prop :=
  forall n s, approved s (device b) -> approved (others n s) (device b) /\ same_rows (account b) wt s (others n s).

Lemma undisturbed_courteous others b wt : undisturbed others b wt -> courteous others b wt.
Proof.
  intros H blob n s [Ha [Hb Hn]]. destruct (H n s Ha) as [Ha' [Hr _]]. split; [done|]. split; [by rewrite Hr|]. intros dev. by rewrite Hr.
Qed.

(** C13: the recovery kit brings the vault back. A backup that succeeds on one computer prints a code;
    on any other computer of the account with an empty vault and a working keychain, as long as
    nobody replaces the account's kit or vault in between, restoring with that code, typed in any of
    the forms that read as the printed one, succeeds: the session is unlocked with the first
    computer's vault key, the keychain keeps it, every item of the backup is there and the count
    reported is theirs (what device settings then add aside). *)
Theorem kit_restores_vault rqs dws nonces others e a b0 d out d' rqs' dws' others' e' b t typed :
  courteous others a RECOVERY -> online rqs 6 a (Flow.world d) -> standing a RECOVERY b0 (dk_srv d) ->
  LocalVault.wf (dk_vault d) ->
  Flow.sync_backup cfg rqs dws nonces others render_kit_pdf e d = (Ok out, d') ->
  account b = account a -> undisturbed others' b RECOVERY -> online rqs' 2 b (Flow.world t) ->
  approved (dk_srv t) (device b) -> same_rows (account a) RECOVERY (dk_srv d') (dk_srv t) ->
  is_Some (non_blank (server_url (dk_config t))) -> LocalVault.items (dk_vault t) = ∅ -> kc_set_ok (os e') = true ->
  RecoveryKit.normalize (trim typed) = RecoveryKit.normalize (recovery_code out) ->
  exists vk vt t', VaultSession.vault_key (AppLock.session (dk_lock d)) = Some vk
    /\ Flow.sync_restore cfg rqs' dws' others' settings e' typed t
       = (Ok (MkRestoreOut (Z.of_nat (size (LocalVault.items (dk_vault d'))))), t')
    /\ AppLock.session (dk_lock t') = VaultSession.unlocked vk /\ kc_key (dk_lock t') = Some (b64_encode vk)
    /\ dk_vault t' = settings vt /\ LocalVault.items vt = LocalVault.items (dk_vault d').
Proof.
  intros Hc Ho Hs Hwf Hb Hab Hund Ho' Hap [Hrk Hrv] [url Hurl] He Hkc Htyped.
  destruct (backup_leaves _ _ _ _ _ _ _ _ _ _ Hc Ho Hs Hb) as (vk & Hk & Hcode & [_ Hkit] & (row & Hrow & <- & Hdec) & Hw).
  apply undisturbed_courteous in Hund as Hc'.
  assert (Hst : standing b RECOVERY (Some (kit_blob e vk)) (dk_srv t)).
  { split; [done|]. rewrite Hab. split; [rewrite Hrk; apply Hkit|]. intros dev. rewrite Hrk. apply Hkit. }
  exists vk. unfold Flow.sync_restore.
  unfold mbind at 1. rewrite require_empty_run by done.
  unfold mbind at 1, Flow.api_for, Flow.get, mbind at 1, Flow.or_tell, lift. rewrite Hurl. cbn [ok_or].
  destruct (get_wrapped_online rqs' dws' others' 1 b RECOVERY _ t Hc' Ho' Hst) as [Hget Hst1].
  unfold mbind at 1, ret. unfold mbind at 1. rewrite Hget. set (t1 := Flow.set_world _ t).
  destruct (RecoveryKit.encode_ok (fresh_recovery e)) as (data & Hdata & Henc).
  assert (Hn : RecoveryKit.normalize (recovery_code out) = Ok data).
  { rewrite Hcode in Henc. injection Henc as ->. by apply (RecoveryKit.normalize_group (fresh_recovery e)). }
  unfold mbind at 1, lift. rewrite (restore_code e out typed data Hcode Hn) by (by rewrite Htyped). cbn [map_err].
  unfold mbind at 1, lift. rewrite kit_opens. cbn [map_err].
  unfold mbind at 1. rewrite require_empty_run by done.
  unfold mbind at 1, Flow.adopt, Flow.locally. cbn [set_session modify map_err].
  unfold mbind at 1, Flow.kc_set. rewrite kc_value_encode, Hkc. unfold Flow.put. set (t2 := Flow.at_vault_key _ _).
  unfold mbind at 1.
  destruct (Hund (dk_tick t2) (dk_srv t2) (proj1 Hst1)) as [Hap2 [_ Hv2]]. destruct (Hund (dk_tick t) (dk_srv t) Hap) as [_ [_ Hv1]].
  destruct (pull_fresh rqs' dws' others' 0 b vk t2 row (dk_vault d')) as (vt & Hpull & Hvt); [|done| |done|done|by apply Hw|].
  { by apply online_answered. }
  { rewrite Hv2. change (dk_srv t2) with (others' (dk_tick t) (dk_srv t)). rewrite Hv1, Hab. by rewrite Hrv. }
  rewrite Hpull. exists vt. eexists. split; [done|]. split; [reflexivity|]. cbn. by split_and!.
Qed.
End kit.

(** ** Adopting a key *)

Section adoption.
Context {A : AuthLibs} {P : CryptoPrims} {B : Base64} {BU : Base64Url} {SD : Json VaultDocument.t} {SJ : Json JoinBundle} {ZS : Zstd}.
Variable cfg : Config.
Variables (rqs : nat -> Req) (dws : nat -> Draw).
Variable others : nat -> Srv -> Srv.
Variable settings : LocalVault.t -> LocalVault.t.

(** Computations that leave the app lock alone, and those that leave the local vault alone too. *)
Definition lock_kept {T} (c : D T) : Prop := forall d, dk_lock (snd (c d)) = dk_lock d.
Definition kept {T} (c : D T) : Prop := forall d, dk_lock (snd (c d)) = dk_lock d /\ dk_vault (snd (c d)) = dk_vault d.

Lemma kept_lock {T} (c : D T) : kept c -> lock_kept c.
Proof. intros H d. apply H. Qed.
Lemma kept_bind {T U} (c : D T) (k : T -> D U) : kept c -> (forall x, kept (k x)) -> kept (mbind c k).
Proof.
  intros Hc Hk d. unfold mbind. destruct (Hc d) as [H1 H2]. destruct (c d) as [[x|e|] d1]; cbn in *; [|done..].
  destruct (Hk x d1) as [-> ->]. done.
Qed.
Lemma lock_kept_bind {T U} (c : D T) (k : T -> D U) : lock_kept c -> (forall x, lock_kept (k x)) -> lock_kept (mbind c k).
Proof.
  intros Hc Hk d. unfold mbind. specialize (Hc d). destruct (c d) as [[x|e|] d1]; cbn in *; [|done..]. by rewrite Hk.
Qed.
Lemma kept_if {T} (b : bool) (c k : D T) : kept c -> kept k -> kept (if b then c else k).
Proof. by destruct b. Qed.

Lemma send_vault {T} (f : Req -> Draw -> M T) w : vault (snd (Api.send rqs dws others f w)) = vault w.
Proof. unfold Api.send. by destruct (f _ _ _). Qed.
Lemma refresh_vault w : vault (snd (Api.refresh cfg rqs dws others w)) = vault w.
Proof.
  unfold Api.refresh, mbind at 1, Api.kc_get. destruct (kc_value _) as [rt|]; cbn; [|done]. unfold mbind.
  pose proof (send_vault (fun rq dw => routes.auth_refresh cfg rq dw rt) w) as H.
  destruct (Api.send _ _ _ _ w) as [[[x|e|]|e|] w1]; done.
Qed.
Lemma authed_vault {T} (f : Req -> Draw -> Auth -> M T) w : vault (snd (Api.authed cfg rqs dws others f w)) = vault w.
Proof.
  unfold Api.authed, mbind at 1, Api.kc_get. destruct (kc_value _) as [access|]; cbn; [|done]. unfold mbind at 1.
  pose proof (send_vault (Api.build f access) w) as H. destruct (Api.send _ _ _ _ w) as [[r|e|] w1]; [|done..].
  cbn in H. destruct r as [x|[]|]; try done. unfold mbind at 1.
  pose proof (refresh_vault w1) as H1. destruct (Api.refresh _ _ _ _ w1) as [[u|e|] w2]; cbn in *; [|congruence..].
  unfold mbind. destruct (kc_value (kc_access w2)) as [access2|]; cbn; [|congruence].
  rewrite send_vault. congruence.
Qed.

Lemma api_kept {T} (c : C T) : (forall w, vault (snd (c w)) = vault w) -> kept (Flow.api c).
Proof. intros H d. unfold Flow.api. specialize (H (Flow.world d)). destruct (c (Flow.world d)) as [r w]; cbn in *. by rewrite H. Qed.
Lemma api_lock {T} (c : C T) : lock_kept (Flow.api c).
Proof. intros d. unfold Flow.api. by destruct (c (Flow.world d)). Qed.
Lemma api_for_kept : kept Flow.api_for.
Proof. intros d. unfold Flow.api_for, Flow.get, Flow.or_tell, mbind, lift. by destruct (ok_or _ _). Qed.
Lemma http_kept {T} what (r : result T ApiError) : kept (Flow.http what r).
Proof. intros d. by destruct r. Qed.
Lemma require_empty_kept : kept Flow.require_empty.
Proof. intros d. unfold Flow.require_empty, mbind, Flow.get. by case_bool_decide. Qed.
Lemma bare_kept {T} (f : Req -> Draw -> M T) : kept (Flow.bare rqs dws others f).
Proof. apply api_kept. intros w. apply send_vault. Qed.
Lemma get_wrapped_kept wt : kept (Flow.get_wrapped_key cfg rqs dws others wt).
Proof.
  apply kept_bind; [apply api_kept; intros w; apply authed_vault|]. intros r. apply kept_bind; [apply http_kept|].
  intros [x y] d. by destruct (b64_decode _).
Qed.
Lemma get_vault_lock : lock_kept (Flow.get_vault cfg rqs dws others).
Proof. apply api_lock. Qed.
Lemma pull_lock vk : lock_kept (Flow.pull cfg rqs dws others vk).
Proof.
  apply lock_kept_bind; [apply get_vault_lock|]. intros [[ver ct]|]; [|done]. apply lock_kept_bind; [done|].
  intros doc d. by destruct (LocalVault.merge _ _).
Qed.
Lemma attempt_lock {T} (c : D T) : lock_kept c -> lock_kept (Flow.attempt c).
Proof. intros H d. unfold Flow.attempt. specialize (H d). by destruct (c d) as [[x|e|] d1]. Qed.
Lemma save_config_kept e c : kept (Flow.save_config e c).
Proof. intros d. unfold Flow.save_config. by destruct (config_ok e). Qed.
Lemma kc_set_kept e v st : (forall o d, dk_lock (st o d) = dk_lock d /\ dk_vault (st o d) = dk_vault d) -> kept (Flow.kc_set e v st).
Proof. intros H d. unfold Flow.kc_set. destruct (kc_value (Some v)); [destruct (kc_set_ok _)|destruct (kc_del_ok _)]; cbn; auto. Qed.
Lemma store_tokens_kept e t : kept (Flow.store_tokens e t).
Proof. apply kept_bind; [|intros _]; by apply kc_set_kept. Qed.

Context {BL : Base64Laws} {L : CryptoLaws P}.

(** The session has the key and the next launch finds it. *)
Definition settled (vk : VaultKey) (d : Desk) : Prop :=
  AppLock.session (dk_lock d) = VaultSession.unlocked vk /\ AppLock.holds vk (dk_lock d).

Lemma unwrap_opens pw blob vk :
  PasswordWrapper.unwrap (PasswordWrapper.with_profile pw Argon2Profile.Production) blob = Ok vk ->
  applock.open_with_password blob pw = Ok vk.
Proof.
  unfold PasswordWrapper.unwrap, applock.open_with_password. destruct (WrappedBlob.params blob) as [pr|e|]; [|done..]. cbn.
  destruct (length pr =? 16)%nat; [|done]. unfold copy_from_slice. destruct (arr_of pr) as [salt|]; [|done]. cbn.
  unfold PasswordWrapper.derive_kek. cbn. by intros ->.
Qed.

Lemma key_stored e vk d :
  kc_set_ok (os e) = true -> AppLock.session (dk_lock d) = VaultSession.unlocked vk -> wrap_file (dk_lock d) = None ->
  exists d1, Flow.kc_set e (b64_encode vk) Flow.at_vault_key d = (Ok tt, d1) /\ settled vk d1.
Proof.
  intros Hk Hs Hw. unfold Flow.kc_set. rewrite kc_value_encode, Hk. eexists. split; [reflexivity|].
  split; [done|]. split; cbn; [by right|]. by rewrite Hw.
Qed.

Lemma protected_settled e escrow vk d :
  kc_set_ok (os e) = true -> AppLock.session (dk_lock d) = VaultSession.unlocked vk -> wrap_file (dk_lock d) = None ->
  (exists pw, applock.open_with_password (MkBlob WrapperType.Password escrow) pw = Ok vk) ->
  exists d1, Flow.make_password_protected e escrow vk d = (Ok tt, d1) /\ settled vk d1.
Proof.
  intros Hk Hs Hw Ho. unfold Flow.make_password_protected, mbind at 1, Flow.get, state.password_protected. rewrite Hw. cbn.
  assert (Hkc : forall d1, AppLock.session (dk_lock d1) = VaultSession.unlocked vk -> wrap_file (dk_lock d1) = None ->
    exists d2, (let! _ := Flow.attempt (Flow.kc_set e (b64_encode vk) Flow.at_vault_key) in ret tt) d1 = (Ok tt, d2) /\ settled vk d2).
  { intros d1 Hs1 Hw1. destruct (key_stored e vk d1 Hk Hs1 Hw1) as (d2 & H & Hd2). exists d2. unfold mbind, Flow.attempt. by rewrite H. }
  unfold mbind at 1. destruct (Flow.is_password_wrap escrow); [|by apply Hkc].
  unfold Flow.attempt at 1, Flow.locally at 1, state.write_atomic. destruct (tmp_ok (os e)); [|by apply Hkc].
  unfold mbind at 2. destruct (windows (os e) && remove_ok (os e)); cbn;
    (destruct (rename_ok (os e)); cbn; [|by apply Hkc]);
    unfold mbind, Flow.attempt, Flow.locally, state.delete_key; destruct (kc_del_ok (os e)); cbn;
    (eexists; split; [reflexivity|]; split; [done|]; split; [by right|]; cbn; done).
Qed.

(** A command ended with the lock as it was and nothing adopted, or with an adopted key in place. *)
Definition durable {T} (adopted : T -> bool) (l : AppLock.Dev) (p : result T FlowErr * Desk) : Prop :=
  (dk_lock p.2 = l /\ forall x, p.1 = Ok x -> adopted x = false) \/ exists vk, settled vk p.2.

Lemma durable_bind {T U} (c : D U) (k : U -> D T) f d :
  kept c -> (forall x d1, c d = (Ok x, d1) -> dk_lock d1 = dk_lock d -> dk_vault d1 = dk_vault d -> durable f (dk_lock d) (k x d1)) ->
  durable f (dk_lock d) (mbind c k d).
Proof.
  intros Hc Hk. unfold mbind. destruct (Hc d) as [H1 H2]. destruct (c d) as [[x|e|] d1] eqn:E; cbn in *; [by eauto|by left..].
Qed.

Lemma durable_after {T} (c : D T) f vk l d : settled vk d -> lock_kept c -> durable f l (c d).
Proof. intros Hs Hc. right. exists vk. unfold settled. by rewrite Hc. Qed.

Inductive Adoption : Type :=
| Restore (code : text)
| UnlockWithPassword (pw : text)
| SignIn (address : text) (cert : option text) (pw : text) (code : option text).

(** The command; the answer is whether the key was adopted or a code is still asked for. *)
Definition run_adoption (e : Env) (c : Adoption) : D bool :=
  match c with
  | Restore code => let! _ := Flow.sync_restore cfg rqs dws others settings e code in ret true
  | UnlockWithPassword pw => let! _ := Flow.sync_unlock_with_password cfg rqs dws others settings e pw in ret true
  | SignIn address cert pw code =>
      let! o := Flow.sync_password_signin cfg rqs dws others settings e address cert pw code in ret (negb (totp_required o))
  end.

Lemma lift_kept {T} (r : result T FlowErr) : kept (lift r).
Proof. done. Qed.
Lemma map_told_kept {T} m (c : D T) : kept c -> kept (Flow.map_told m c).
Proof. intros H d. unfold Flow.map_told. specialize (H d). by destruct (c d) as [[x|e|] d1]. Qed.
Lemma map_told_Ok {T} m (c : D T) d x d' : Flow.map_told m c d = (Ok x, d') -> c d = (Ok x, d').
Proof. unfold Flow.map_told. destruct (c d) as [[y|e|] d1]; done. Qed.
Lemma settings_lock : lock_kept (Flow.sync_device_settings settings).
Proof. apply api_lock. Qed.
Lemma enroll_lock pw b : lock_kept (Flow.enroll_login_verifier cfg rqs dws others pw b).
Proof.
  unfold Flow.enroll_login_verifier. destruct (negb _); [|done]. apply lock_kept_bind; [done|]. intros salt.
  apply lock_kept_bind; [apply api_lock|]. intros [x|[]|] d; done.
Qed.

(** Pulling and the settings come after the key is in place. *)
Lemma tail_lock {T} vk (pre : D unit) (x : Z -> T) : lock_kept pre ->
  lock_kept (let! n := Flow.pull cfg rqs dws others vk in
             let! _ := pre in
             let! _ := Flow.attempt (Flow.sync_device_settings settings) in ret (x n)).
Proof.
  intros Hp. apply lock_kept_bind; [apply pull_lock|]. intros n. apply lock_kept_bind; [done|]. intros _.
  apply lock_kept_bind; [apply attempt_lock, settings_lock|]. done.
Qed.

(** Run past a step that leaves the desk aside, carrying what is known of the lock and the vault. *)
Ltac aside_step :=
  apply durable_bind; [first [apply require_empty_kept | apply api_for_kept | apply get_wrapped_kept | apply lift_kept
    | apply save_config_kept | apply store_tokens_kept | apply bare_kept | apply map_told_kept, lift_kept | done]|].
Ltac carry :=
  let E := fresh "E" in let V := fresh "V" in
  intros E V; rewrite <- E;
  match goal with Hw : wrap_file _ = None |- _ => rewrite <- E in Hw end;
  try match goal with Hv : LocalVault.list_envelopes _ = [] |- _ => rewrite <- V in Hv end; clear E V.

Lemma restore_durable e code d :
  kc_set_ok (os e) = true -> wrap_file (dk_lock d) = None ->
  durable (fun _ => true) (dk_lock d) (Flow.sync_restore cfg rqs dws others settings e code d).
Proof.
  intros Hk Hw. unfold Flow.sync_restore.
  aside_step. intros _ d1 _; carry. aside_step. intros _ d2 _; carry. aside_step. intros b d3 _; carry. cbv zeta.
  aside_step. intros rk d4 _; carry. aside_step. intros vk d5 _; carry. aside_step. intros _ d6 _; carry.
  unfold mbind at 1, Flow.adopt, Flow.locally. cbn [set_session modify map_err].
  set (d6' := Flow.set_lock _ d6). destruct (key_stored e vk d6' Hk eq_refl Hw) as (d7 & H7 & Hd7). unfold mbind at 1. rewrite H7.
  apply (durable_after _ _ vk); [done|]. apply lock_kept_bind; [apply pull_lock|]. intros n.
  apply lock_kept_bind; [apply attempt_lock, settings_lock|done].
Qed.

(** After the escrow was opened with the password. *)
Lemma adopt_protect e b pw vk d :
  kc_set_ok (os e) = true -> wrap_file (dk_lock d) = None ->
  applock.open_with_password (MkBlob WrapperType.Password b) pw = Ok vk ->
  exists d1, (let! _ := Flow.adopt vk in Flow.make_password_protected e b vk) d = (Ok tt, d1) /\ settled vk d1.
Proof.
  intros Hk Hw Ho. unfold mbind, Flow.adopt, Flow.locally. cbn [set_session modify map_err].
  apply protected_settled; [done|done|done|by exists pw].
Qed.

Lemma unlock_durable e pw d :
  kc_set_ok (os e) = true -> wrap_file (dk_lock d) = None ->
  durable (fun _ => true) (dk_lock d) (Flow.sync_unlock_with_password cfg rqs dws others settings e pw d).
Proof.
  intros Hk Hw. unfold Flow.sync_unlock_with_password.
  aside_step. intros _ d1 _; carry. aside_step. intros _ d2 _; carry. aside_step. intros b d3 _; carry. cbv zeta.
  aside_step. intros vk d4 Ho%map_told_Ok%lift_core_Ok; carry. destruct Ho as [Ho%unwrap_opens _].
  aside_step. intros _ d5 _; carry.
  destruct (adopt_protect e b pw vk d5 Hk Hw Ho) as (d6 & Hd6 & Hs).
  unfold mbind in Hd6. unfold mbind at 1. destruct (Flow.adopt vk d5) as [[[]|e'|] d5']; [|done..]. unfold mbind at 1. rewrite Hd6.
  apply (durable_after _ _ vk); [done|]. apply lock_kept_bind; [apply pull_lock|]. intros n.
  apply lock_kept_bind; [apply attempt_lock, enroll_lock|]. intros _.
  apply lock_kept_bind; [apply attempt_lock, settings_lock|done].
Qed.

Lemma adopt_if_empty_run e b pw vk d :
  kc_set_ok (os e) = true -> wrap_file (dk_lock d) = None -> LocalVault.list_envelopes (dk_vault d) = [] ->
  applock.open_with_password (MkBlob WrapperType.Password b) pw = Ok vk ->
  exists d1, settled vk d1 /\ Flow.adopt_if_empty cfg rqs dws others e b vk d = Flow.pull cfg rqs dws others vk d1.
Proof.
  intros Hk Hw Hv Ho. destruct (adopt_protect e b pw vk d Hk Hw Ho) as (d1 & Hd1 & Hs). exists d1. split; [done|].
  unfold Flow.adopt_if_empty, mbind at 1, Flow.get. rewrite Hv. rewrite bool_decide_eq_true_2 by done.
  unfold mbind in Hd1 |- *. destruct (Flow.adopt vk d) as [[[]|e'|] d2]; [|done..]. by rewrite Hd1.
Qed.

(** Sign-in up to the opened escrow: it stopped with the device as it was, or it goes on from there. *)
Definition opened (e : Env) (pw : text) (d : Desk) (p : result PasswordSigninOut FlowErr * Desk) : Prop :=
  (dk_lock p.2 = dk_lock d /\ dk_vault p.2 = dk_vault d /\ forall o, p.1 = Ok o -> totp_required o = true)
  \/ exists b vk d1, dk_lock d1 = dk_lock d /\ dk_vault d1 = dk_vault d
       /\ applock.open_with_password (MkBlob WrapperType.Password b) pw = Ok vk
       /\ p = (let! n := Flow.adopt_if_empty cfg rqs dws others e b vk in
               let! _ := Flow.attempt (Flow.sync_device_settings settings) in ret (MkPasswordSigninOut false n)) d1.

Lemma opened_bind {T} e pw (c : D T) k d :
  kept c -> (forall x d1, c d = (Ok x, d1) -> opened e pw d1 (k x d1)) -> opened e pw d (mbind c k d).
Proof.
  intros Hc Hk. unfold mbind. destruct (Hc d) as [H1 H2]. destruct (c d) as [[x|e'|] d1] eqn:E; cbn in *; [|by left..].
  specialize (Hk x d1 eq_refl). unfold opened in *. by rewrite H1, H2 in Hk.
Qed.

Lemma signin_opened e address cert pw code d :
  opened e pw d (Flow.sync_password_signin cfg rqs dws others settings e address cert pw code d).
Proof.
  unfold Flow.sync_password_signin.
  apply opened_bind; [apply lift_kept|]. intros [base host] d1 _. apply opened_bind; [done|]. intros c d2 _.
  apply opened_bind; [apply save_config_kept|]. intros _ d3 _. apply opened_bind; [apply bare_kept|]. intros r d4 _.
  apply opened_bind; [intros d'; by destruct r as [x|[]|]|]. intros [[[salt ?] ?] ?] d5 _.
  apply opened_bind; [intros d'; by destruct (b64_decode _)|]. intros sv d6 _.
  apply opened_bind; [apply lift_kept|]. intros sl d7 _. cbv zeta. apply opened_bind; [apply bare_kept|]. intros r' d8 _.
  apply opened_bind; [intros d'; destruct r' as [x|[]|]; cbn; try done; by case_bool_decide|].
  intros [t|] d9 _; [|left; split_and!; [done..|]; by intros ? [= <-]].
  apply opened_bind; [apply store_tokens_kept|]. intros _ d10 _. apply opened_bind; [apply api_for_kept|]. intros _ d11 _.
  apply opened_bind; [apply get_wrapped_kept|]. intros b d12 _.
  apply opened_bind; [apply map_told_kept, lift_kept|]. intros vk d13 Ho%map_told_Ok%lift_core_Ok.
  destruct Ho as [Ho%unwrap_opens _]. right. by exists b, vk, d13.
Qed.

Lemma signin_durable e address cert pw code d :
  kc_set_ok (os e) = true -> wrap_file (dk_lock d) = None -> LocalVault.list_envelopes (dk_vault d) = [] ->
  durable (fun o => negb (totp_required o)) (dk_lock d) (Flow.sync_password_signin cfg rqs dws others settings e address cert pw code d).
Proof.
  intros Hk Hw Hv. destruct (signin_opened e address cert pw code d) as [(H1 & _ & H2)|(b & vk & d1 & Hl & Hvt & Ho & ->)].
  - left. split; [done|]. intros o Ho. by rewrite (H2 o Ho).
  - rewrite <- Hl in Hw. rewrite <- Hvt in Hv. destruct (adopt_if_empty_run e b pw vk d1 Hk Hw Hv Ho) as (d2 & Hs & Hrun).
    unfold mbind at 1. rewrite Hrun.
    apply (durable_after (let! n := Flow.pull cfg rqs dws others vk in
      let! _ := Flow.attempt (Flow.sync_device_settings settings) in ret (MkPasswordSigninOut false n)) _ vk); [done|].
    apply lock_kept_bind; [apply pull_lock|]. intros n. apply lock_kept_bind; [apply attempt_lock, settings_lock|done].
Qed.


(** Nothing is adopted over an existing vault. On a device that has items, restoring, unlocking
    or signing in with the master password and joining with a device code never change the session,
    the stored key or the wrapper, and the items stay, the settings item of a sign-in aside. *)
Theorem adoption_never_overwrites e c code d :
  LocalVault.list_envelopes (dk_vault d) <> [] ->
  (exists r, Flow.sync_pair_complete cfg rqs dws others settings e code d = (r, d) /\ forall o, r <> Ok o)
  /\ let '(r, d') := run_adoption e c d in
     dk_lock d' = dk_lock d
     /\ match c with SignIn _ _ _ _ => dk_vault d' = dk_vault d \/ dk_vault d' = settings (dk_vault d) | _ => d' = d /\ r <> Ok true end.
Proof.
  intros Hv. assert (Hre : Flow.require_empty d = (Err (Told "this device already has a vault"), d)).
  { unfold Flow.require_empty, mbind, Flow.get. by rewrite bool_decide_eq_false_2. }
  split.
  { unfold Flow.sync_pair_complete, mbind at 1, lift. destruct (Flow.read_join_code code) as [[bd vk]|e'|]; [|by eexists..].
    unfold mbind at 1. rewrite Hre. by eexists. }
  destruct c; cbn [run_adoption]; [unfold Flow.sync_restore, mbind at 1 2; by rewrite Hre
    |unfold Flow.sync_unlock_with_password, mbind at 1 2; by rewrite Hre|].
  destruct (signin_opened e address cert pw code0 d) as [(H1 & H2 & _)|(b & vk & d1 & Hl & Hvt & _ & Hp)]; unfold mbind at 1.
  - destruct (Flow.sync_password_signin _ _ _ _ _ _ _ _ _ _ d) as [[o|e'|] d1]; cbn in *; auto.
  - rewrite Hp. unfold Flow.adopt_if_empty, mbind, Flow.get. rewrite Hvt, bool_decide_eq_false_2 by done. cbn. split; [done|].
    right. by rewrite Hvt.
Qed.
End adoption.

(** * Concrete runs *)

(** Two computers of one account and the server between them, and two ways an adopted key is lost: a
    device that already had a master password keeps the wrapper of its old key, and a device that
    joins with a code trusts whatever escrow the server sends. *)
Module FlowDemo.
#[export] Existing Instances LockDemo.demo_hmac LockDemo.demo_query LockDemo.demo_qr.
#[export] Existing Instances toy_auth toy_base64 toy_base64_laws toy_zstd toy_zstd_laws toy_base64url SyncDemo.doc_json.
#[export] Instance doc_laws : JsonLaws VaultDocument.t := toy_json_laws.
#[export] Instance join_eq_dec : EqDecision JoinBundle.
Proof. solve_decision. Defined.
#[export] Instance join_countable : Countable JoinBundle.
Proof.
  apply (inj_countable' (fun b => (v b, ip b, cert b, token b, vkey b, ts b))
           (fun '(a, b, c, d, e, f) => MkJoinBundle a b c d e f)). by intros [].
Defined.
#[export] Instance join_json : Json JoinBundle := toy_json.

Definition env : Env :=
  MkEnv calm true (lit "laptop") (lit "linux") (arr_fill 16 Byte.x33) demo_salt demo_nonce 100 (lit "2026-01-01").
Definition pdf (code email day : text) : bytes := [].
Definition phone_token : text := match auth.issue_access Demo.acc1 Demo.dev2 100 with Ok t => t | _ => [] end.
Definition at_server : SyncConfig := MkSyncConfig (Some (lit "https://s")) None None None None.

(** The first computer, and an empty one signed in to the same account. *)
Definition desk (s : Srv) (tok : text) (l : AppLock.Dev) (vt : LocalVault.t) : Desk :=
  MkDesk s (Some tok) None None None None at_server l vt 0.
Definition lock_with (k : VaultKey) : AppLock.Dev := AppLock.MkDev (VaultSession.unlocked k) None (Some (b64_encode k)) None NoSettings.
Definition first : Desk := desk Demo.s0 SyncDemo.token (lock_with demo_vk) LocalVault.demo_store.

Definition backup := Flow.sync_backup Demo.cfg SyncDemo.rqs SyncDemo.dws SyncDemo.nonces SyncDemo.alone pdf env.
Definition printed : BackupOut := Eval vm_compute in match fst (backup first) with Ok o => o | _ => MkBackupOut [] [] 0 end.
Definition saved : Desk := snd (backup first).
Definition second : Desk := desk (dk_srv saved) phone_token (lock_with LockDemo.key) LocalVault.open.

(** The code in lower case. *)
Definition typed : text := lit " " ++ map to_ascii_lowercase (recovery_code printed).

Lemma backup_ran : backup first = (Ok printed, saved).
Proof. unfold saved. apply (run_answer backup first). vm_compute. reflexivity. Qed.

Lemma saved_size : Z.of_nat (size (LocalVault.items (dk_vault saved))) = 1.
Proof. vm_compute. reflexivity. Qed.

Lemma saved_item : LocalVault.items (dk_vault saved) !! LocalVault.demo_id = Some (LocalVault.demo_row 100, 100).
Proof. vm_compute. reflexivity. Qed.

Lemma token_online k a d tok :
  dk_access d = Some tok -> kc_value (Some tok) = Some tok -> dk_tick d = 0%nat ->
  forallb (fun n => match auth.Auth_from_request (unix (now (SyncDemo.rqs n))) (Some (lit "Bearer " ++ tok)) with
                    | Ok x => bool_decide (account x = account a) && bool_decide (device x = device a)
                    | _ => false
                    end) (seq 0 k) = true ->
  online SyncDemo.rqs k a (Flow.world d).
Proof.
  intros Hd Hk Ht H. exists tok. cbn. rewrite Hd, Ht. split; [done|]. intros n Hn.
  rewrite forallb_forall in H. specialize (H n). rewrite <- list_elem_of_In, elem_of_seq in H. specialize (H ltac:(lia)).
  destruct (auth.Auth_from_request _ _) as [[x y]|e|]; cbn in *; [|done..]. bools. by destruct a; cbn in *; subst.
Qed.
End FlowDemo.
Import FlowDemo.

Lemma kit_restores_vault_witness :
  exists vt t', Flow.sync_restore Demo.cfg SyncDemo.rqs SyncDemo.dws SyncDemo.alone SyncDemo.keep env typed second
      = (Ok (MkRestoreOut 1), t')
    /\ AppLock.session (dk_lock t') = VaultSession.unlocked demo_vk /\ LocalVault.items vt !! LocalVault.demo_id = Some (LocalVault.demo_row 100, 100).
Proof.
  destruct (kit_restores_vault Demo.cfg SyncDemo.keep pdf SyncDemo.rqs SyncDemo.dws SyncDemo.nonces SyncDemo.alone env Demo.me None
              first printed saved SyncDemo.rqs SyncDemo.dws SyncDemo.alone env Demo.phone second typed)
    as (vk & vt & t' & Hk & Hrun & Hs & _ & Hv & Hi).
  - by intros blob n s.
  - apply (token_online 6 Demo.me first SyncDemo.token); [done|vm_compute; reflexivity|done|vm_compute; reflexivity].
  - split; [apply demo_approved; by left|]. split; [vm_compute; reflexivity|]. intros dev. vm_compute. reflexivity.
  - apply LocalVault.demo_store_wf.
  - exact backup_ran.
  - reflexivity.
  - by intros n s.
  - apply (token_online 2 Demo.phone second phone_token); [done|vm_compute; reflexivity|done|vm_compute; reflexivity].
  - eexists. split; [vm_compute; reflexivity|vm_compute; reflexivity].
  - done.
  - eexists. vm_compute. reflexivity.
  - reflexivity.
  - reflexivity.
  - vm_compute. reflexivity.
  - injection Hk as <-. exists vt, t'. split; [|split; [exact Hs|]].
    + rewrite Hrun, saved_size. reflexivity.
    + rewrite Hi. exact saved_item.
Defined.

Definition restore := run_adoption Demo.cfg SyncDemo.rqs SyncDemo.dws SyncDemo.alone SyncDemo.keep env (Restore typed).

Lemma restored_key : AppLock.session (dk_lock (snd (restore second))) = VaultSession.unlocked demo_vk.
Proof. vm_compute. reflexivity. Qed.

Lemma restored_changed : dk_lock (snd (restore second)) <> dk_lock second.
Proof. intros H%(f_equal AppLock.session). rewrite restored_key in H. vm_compute in H. congruence. Qed.


Lemma adoption_never_overwrites_witness :
  snd (run_adoption Demo.cfg SyncDemo.rqs SyncDemo.dws SyncDemo.alone SyncDemo.keep env (Restore typed) first) = first.
Proof.
  destruct (adoption_never_overwrites Demo.cfg SyncDemo.rqs SyncDemo.dws SyncDemo.alone SyncDemo.keep env (Restore typed) [] first) as [_ H].
  - vm_compute. discriminate.
  - destruct (run_adoption _ _ _ _ _ _ _ _) as [r d']. cbn [snd]. apply H.
Defined.

(** ** A master password set before the restore *)

(** The second computer had set a master password over its own, empty vault. *)
Definition guarded : Desk := Flow.set_lock LockDemo.protected second.

(** Restoring succeeds and the item is pulled, but the next launch asks for the master password and
    opens the wrapper of the old key: the session gets a key that no item is sealed with. *)
Lemma restore_under_password_loses_key :
  let d' := snd (restore guarded) in
  fst (restore guarded) = Ok true
  /\ AppLock.session (dk_lock d') = VaultSession.unlocked demo_vk
  /\ LocalVault.items (dk_vault d') !! LocalVault.demo_id = Some (LocalVault.demo_row 100, 100)
  /\ AppLock.session (snd (exec (UnlockPassword LockDemo.pw None) calm (snd (exec Launch calm (dk_lock d')))))
     = VaultSession.unlocked LockDemo.key.
Proof. vm_compute. split_and!; reflexivity. Qed.

(** ** An escrow nobody can open *)

(** A password wrapper without a salt. *)
Definition junk : bytes := WrappedBlob.header WrapperType.Password [] ++ repeat Byte.x00 72.
Definition hostile : Srv := set_db (set_wrapped_keys (insert (Demo.acc1, 4, None) (MkWrappedKey None junk 0))) (dk_srv saved).
Definition join_code : text :=
  match to_vec (MkJoinBundle 1 (lit "1.2.3.4") (lit "pem") (lit "boot") (b64_encode demo_vk) 100) with
  | inr j => JOIN_PREFIX ++ url_encode j
  | inl _ => []
  end.
Definition joined : Desk :=
  snd (Flow.sync_pair_complete Demo.cfg SyncDemo.rqs SyncDemo.dws SyncDemo.alone SyncDemo.keep env join_code
         (Flow.set_tokens None None (desk hostile [] (lock_with LockDemo.key) LocalVault.open))).

(** Joining succeeds, and then neither the keychain nor any password leads back to the key. *)
Lemma join_trusts_escrow :
  LocalVault.items (dk_vault joined) !! LocalVault.demo_id = Some (LocalVault.demo_row 100, 100)
  /\ kc_key (dk_lock joined) = None /\ wrap_file (dk_lock joined) = Some junk
  /\ forall pw vk, applock.open_with_password (MkBlob WrapperType.Password junk) pw <> Ok vk.
Proof.
  split; [vm_compute; reflexivity|]. split; [vm_compute; reflexivity|]. split; [vm_compute; reflexivity|].
  intros pw vk. unfold applock.open_with_password.
  assert (WrappedBlob.params (MkBlob WrapperType.Password junk) = Ok []) as -> by (vm_compute; reflexivity). cbn. discriminate.
Qed.
