(* ===== verification/Transfers.v ===== *)
(** [apps/desktop/src-tauri/src/sync.rs], sending files to the account's other devices: names and
    types, sealing and the optional passphrase, bundles, and the four commands, run against the
    server's relay. [Path] splits names as on Unix; JSON of the file's metadata, which the blob
    format needs, is a parameter. *)
From S2P Require Import Prelude Bytes Text Crypto Totp Toy RecoveryKit Keyring Model Envelope VaultStore Session FileBlob AppLock Passkey.
From S2P Require Import ApiDb ApiAuth ApiRoutes ApiDemo ApiFacts ApiClaims ApiVault SyncClient SyncFlows SyncFlowClaims.
Local Open Scope Z_scope.

Module Transfer.
Definition TRANSFER_MAX_BLOB_BYTES : Z := 25 * 1024 * 1024.
Definition BUNDLE_MIME : text := lit "application/x-northkey-bundle".

Record Retention : Type := MkRetention { rt_delete_on_download : bool; rt_permanent : bool; rt_ttl_days : option Z }.
Definition Retention_default : Retention := MkRetention false false None.
Record TransferSendOut : Type := MkTransferSendOut { so_id : text; so_filename : text; so_blob_bytes : Z }.
Record BundleFile : Type := MkBundleFile { bf_name : bytes; bf_size_bytes : Z; bf_data_b64 : text }.
Record BundleInput : Type := MkBundleInput { bi_name : text; bi_data_b64 : text }.
Record TransferDownloadOut : Type := MkTransferDownloadOut {
  do_filename : text; do_size_bytes : Z; do_mime : text; do_data_b64 : text; do_bundle : option (list BundleFile);
  needs_passphrase : bool }.
Record TransferRow : Type := MkTransferRow {
  row_id : text; row_sender : text; row_recipient : option text; row_size : Z; row_state : TransferState.t;
  row_created : Z; row_expires : Z; row_delete_on_download : bool; row_permanent : bool; row_outgoing : bool }.

(** What one send draws. *)
Record Seal : Type := MkSeal { file_salt : arr 16; file_nonce : Nonce24; pass_salt : arr 16; pass_nonce : Nonce24 }.

(** ** Names and types *)

(** The normal components of a path, and [..]. *)
Definition components (p : text) : list text :=
  List.filter (fun s => negb (bool_decide (s = [])) && negb (bool_decide (s = lit "."))) (split (chr "/") p).
Definition file_name (p : text) : option text :=
  match last (components p) with
  | Some s => if bool_decide (s = lit "..") then None else Some s
  | None => None
  end.

(** What follows the last dot, unless the dot comes first. *)
Definition extension (p : text) : option text :=
  match file_name p with
  | None => None
  | Some f =>
      match split_once (chr ".") (reverse f) with
      | Some (after, before) => if bool_decide (before = []) then None else Some (reverse after)
      | None => None
      end
  end.

Definition safe_basename (name : text) : text :=
  let base := trim (default [] (file_name name)) in
  if bool_decide (base = []) || bool_decide (base = lit ".") || bool_decide (base = lit "..") then lit "download.bin" else base.

Definition mime_table : list (list string * string) :=
  [(["png"], "image/png"); (["jpg"; "jpeg"], "image/jpeg"); (["gif"], "image/gif"); (["webp"], "image/webp");
   (["heic"], "image/heic"); (["pdf"], "application/pdf"); (["txt"; "log"; "md"], "text/plain");
   (["json"], "application/json"); (["csv"], "text/csv"); (["zip"], "application/zip");
   (["mp4"; "m4v"], "video/mp4"); (["mov"], "video/quicktime"); (["mp3"], "audio/mpeg"); (["wav"], "audio/wav")].
Definition guess_mime (filename : text) : text :=
  let ext := map to_ascii_lowercase (default [] (extension filename)) in
  match List.find (fun r => existsb (fun x => bool_decide (lit x = ext)) r.1) mime_table with
  | Some (_, m) => lit m
  | None => lit "application/octet-stream"
  end.

(** Both slashes separate. *)
Definition safe_bundle_name (name : text) : text :=
  let parts := List.filter (fun s => negb (bool_decide (s = [])) && negb (bool_decide (s = lit ".")) && negb (bool_decide (s = lit "..")))
                 (split (chr "/") (map (fun c => if c =? chr "\" then chr "/" else c) name)) in
  let joined := join (lit "/") parts in
  if bool_decide (joined = []) then lit "file" else joined.

Section commands.
Context {A : AuthLibs} {P : CryptoPrims} {B : Base64} {SM : Json FileBlob.FileMeta} {ZS : Zstd}.
Variable cfg : Config.
Variables (rqs : nat -> Req) (dws : nat -> Draw).
Variable others : nat -> Srv -> Srv.

Abbreviation authed f := (Flow.api (Api.authed cfg rqs dws others f)).

(** A blank passphrase is none. *)
Definition maybe_wrap_passphrase (sl : Seal) (blob : bytes) (passphrase : option text) : bytes :=
  match kc_value passphrase with
  | Some p => FileBlob.seal_passphrase (pass_salt sl) (pass_nonce sl) p blob Argon2Profile.Production
  | None => blob
  end.
Definition unwrap_passphrase (ct : bytes) (passphrase : text) : D bytes :=
  Flow.map_told "That password didn't open the file. Check it and try again."
    (lift (map_err FromCore (FileBlob.open_passphrase passphrase ct Argon2Profile.Production))).

(** The recipient travels as text; what is not an identifier is refused with the body. *)
Definition create_transfer (recipient : option text) (size : Z) (ciphertext : bytes) (r : Retention) : D text :=
  let! rcpt := match recipient with
               | None => ret None
               | Some t => match uuid_parse t with
                           | Some u => ret (Some u)
                           | None => err (FromApi (HttpStatus "POST /transfers" 422))
                           end
               end in
  let! x := authed (fun rq dw a => routes.transfer_create cfg rq dw a
              (routes.MkTransferReq rcpt size (b64_encode ciphertext) (rt_delete_on_download r) (rt_permanent r) (rt_ttl_days r))) in
  let! id := Flow.http "POST /transfers" x in
  ret (uuid_to_string id).

Definition list_transfers : D (list TransferRow) :=
  let! x := authed (fun rq _ a => let! rows := routes.transfer_list rq a in
    ret (map (fun r => MkTransferRow (uuid_to_string r.1) (uuid_to_string (sender_device_id r.2)) (uuid_to_string <$> recipient_device_id r.2)
                         (size_bytes r.2) (ft_state r.2) (unix (ft_created_at r.2)) (unix (ft_expires_at r.2))
                         (delete_on_download r.2) (permanent r.2) (bool_decide (sender_device_id r.2 = device a))) rows)) in
  Flow.http "GET /transfers" x.

Definition download_transfer (id : text) : D bytes :=
  match uuid_parse id with
  | None => err (FromApi (HttpStatus "GET /transfers" 400))
  | Some u =>
      let! x := authed (fun rq _ a => routes.transfer_download rq a u) in
      let! (_, _, ciphertext_b64) := Flow.http "GET /transfers" x in
      match b64_decode (trim ciphertext_b64) with
      | Some b => ret b
      | None => err (FromApi BadBody)
      end
  end.

Definition delete_transfer (id : text) : D unit :=
  match uuid_parse id with
  | None => err (FromApi (HttpStatus "DELETE /transfers" 400))
  | Some u => let! x := authed (fun _ _ a => routes.transfer_delete a u) in Flow.http "DELETE /transfers" x
  end.

(** Seal, wrap, check the size and upload. *)
Definition seal_and_send (sl : Seal) (vk : VaultKey) (meta : FileBlob.FileMeta) (payload : bytes) (size : Z) (recipient : option text)
    (retention : option Retention) (passphrase : option text) (too_large : string) (shown : text) : D TransferSendOut :=
  let! blob := lift (map_err FromCore (FileBlob.seal_file (file_salt sl) (file_nonce sl) vk meta payload)) in
  let blob := maybe_wrap_passphrase sl blob passphrase in
  require negb (TRANSFER_MAX_BLOB_BYTES <? Z.of_nat (length blob)) else Told too_large in
  let! id := create_transfer (non_blank recipient) size blob (default Retention_default retention) in
  ret (MkTransferSendOut id shown (Z.of_nat (length blob))).

Definition transfer_send (sl : Seal) (recipient : option text) (filename data_b64 : text) (retention : option Retention)
    (passphrase : option text) : D TransferSendOut :=
  let! vk := Flow.session_vault_key in
  let! _ := Flow.api_for in
  let! data := match b64_decode (trim data_b64) with Some b => ret b | None => err (FromApi BadBody) end in
  require negb (bool_decide (data = [])) else Told "that file is empty" in
  let filename := safe_basename filename in
  seal_and_send sl vk (FileBlob.MkFileMeta filename (guess_mime filename)) data (Z.of_nat (length data)) recipient retention passphrase
    "file too large to send" filename.

Definition bundle_entry (f : BundleInput) : result FileBlob.BundleEntry FlowErr :=
  let? b := ok_or (b64_decode (trim (bi_data_b64 f))) (FromApi BadBody) in
  Ok (FileBlob.MkBundleEntry (utf8 (safe_bundle_name (bi_name f))) b).

Definition transfer_send_bundle (sl : Seal) (recipient : option text) (files : list BundleInput) (retention : option Retention)
    (passphrase : option text) : D TransferSendOut :=
  require negb (bool_decide (length files = 0%nat)) else Told "no files selected" in
  let! vk := Flow.session_vault_key in
  let! _ := Flow.api_for in
  let! entries := lift (collect bundle_entry files) in
  let total := sum_list (map (fun e => length (FileBlob.data e)) entries) in
  require negb (total =? 0)%nat else Told "those files are all empty" in
  let display_name := show_dec (Z.of_nat (length entries)) ++ lit " files" in
  seal_and_send sl vk (FileBlob.MkFileMeta (display_name ++ lit ".nkbundle") BUNDLE_MIME) (FileBlob.pack_bundle entries)
    (Z.of_nat total) recipient retention passphrase "those files are too large together" display_name.

Definition transfer_list : D (list TransferRow) := let! _ := Flow.api_for in list_transfers.
Definition transfer_delete (id : text) : D unit := let! _ := Flow.api_for in delete_transfer id.

(** What the screen gets of an opened blob. *)
Definition unsealed (vk : VaultKey) (ct : bytes) : result TransferDownloadOut FlowErr :=
  let? (meta, data) := map_err FromCore (FileBlob.open_file vk ct) in
  if bool_decide (FileBlob.mime meta = BUNDLE_MIME) then
    let? entries := map_err FromCore (FileBlob.unpack_bundle data) in
    let files := map (fun e => MkBundleFile (FileBlob.name e) (Z.of_nat (length (FileBlob.data e))) (b64_encode (FileBlob.data e))) entries in
    Ok (MkTransferDownloadOut (safe_basename (FileBlob.filename meta)) (foldr Z.add 0 (map bf_size_bytes files))
          (FileBlob.mime meta) [] (Some files) false)
  else
    Ok (MkTransferDownloadOut (safe_basename (FileBlob.filename meta)) (Z.of_nat (length data)) (FileBlob.mime meta)
          (b64_encode data) None false).

Definition transfer_download (id : text) (passphrase : option text) : D TransferDownloadOut :=
  let! vk := Flow.session_vault_key in
  let! _ := Flow.api_for in
  let! ct := download_transfer id in
  if FileBlob.is_passphrase_wrapped ct then
    match kc_value passphrase with
    | None => ret (MkTransferDownloadOut [] 0 [] [] None true)
    | Some p => let! inner := unwrap_passphrase ct p in lift (unsealed vk inner)
    end
  else lift (unsealed vk ct).
End commands.
End Transfer.

(** * Theorems *)

(** What sending a file promises: the other devices of the account get the same name and bytes, a
    passphrase is asked for and suffices, names cannot leave the folder, and how a file that is
    protected and deleted on download is lost. *)
Import Transfer.

(** ** Names *)

(** A sealed name is a single component, and a second cleaning changes nothing. *)
Lemma safe_basename_plain name : chr "/" ∉ safe_basename name /\ safe_basename name <> [] /\ safe_basename name <> lit "." /\ safe_basename name <> lit "..".
Proof.
  unfold safe_basename. destruct (bool_decide (_ = [])) eqn:E1; [cbn; split_and!; [by apply (bool_decide_unpack _)|done..]|].
  destruct (bool_decide (_ = lit ".")) eqn:E2; [cbn; split_and!; [by apply (bool_decide_unpack _)|done..]|].
  destruct (bool_decide (_ = lit "..")) eqn:E3; [cbn; split_and!; [by apply (bool_decide_unpack _)|done..]|]. cbn. bools.
  split_and!; [|done..]. assert (H : Forall (fun c => c <> chr "/") (default [] (file_name name))).
  { unfold file_name. destruct (last (components name)) as [p|] eqn:El; [|constructor]. case_bool_decide; [constructor|]. cbn.
    apply Forall_forall. intros c Hc ->. apply last_Some_elem_of in El.
    apply list_elem_of_In in El. apply filter_In in El as [El _]. apply list_elem_of_In in El.
    by apply (proj1 (Forall_forall _ _) (split_pieces (chr "/") name) p El). }
  apply trim_Forall in H. intros Hin. by apply (proj1 (Forall_forall _ _) H _ Hin).
Qed.

Lemma safe_basename_idemp name : safe_basename (safe_basename name) = safe_basename name.
Proof.
  destruct (safe_basename_plain name) as (Hs & H0 & H1 & H2).
  assert (Ht : trim (safe_basename name) = safe_basename name).
  { unfold safe_basename. destruct (_ || _); [by vm_compute|apply trim_idemp]. }
  set (b := safe_basename name) in *. clearbody b. unfold safe_basename, file_name, components. rewrite (split_no_sep _ _ Hs).
  cbn [List.filter]. rewrite !(bool_decide_eq_false_2 (b = _)) by done. cbn [negb andb last].
  rewrite (bool_decide_eq_false_2 (b = _)) by done. cbn [default from_option id]. rewrite Ht. by rewrite !(bool_decide_eq_false_2 (b = _)).
Qed.

Lemma guess_mime_single f : guess_mime f <> BUNDLE_MIME.
Proof.
  unfold guess_mime. destruct (List.find _ mime_table) as [[xs m]|] eqn:E; [|done]. apply find_some in E as [Hin _].
  cbn in Hin. repeat destruct Hin as [[= <- <-]|Hin]; done.
Qed.

(** ** The relay *)

Section relay.
Context {A : AuthLibs} {P : CryptoPrims} {B : Base64} {SM : Json FileBlob.FileMeta} {ZS : Zstd}.
Context {AL : AuthLaws A} {L : CryptoLaws P} {BL : Base64Laws} {SL : JsonLaws FileBlob.FileMeta} {ZL : ZstdLaws}.
Variable cfg : Config.

Lemma transfer_create_run rq dw a req s id s' :
  routes.transfer_create cfg rq dw a req s = (Ok id, s') ->
  exists ct days, b64_decode (routes.tr_ciphertext_b64 req) = Some ct /\ 1 <= days
    /\ file_transfers (db s') !! id = Some (MkFileTransfer (account a) (device a) (routes.tr_recipient req) (routes.tr_size req) ct
         TransferState.Pending (now rq) (now rq + days * DAY) (routes.tr_delete_on_download req) (routes.tr_permanent req)).
Proof.
  intros H. unfold routes.transfer_create in H. inv_run. unfold routes.b64_or, lift, ok_or in *.
  destruct (b64_decode _) as [ct|] eqn:Ect; [|done]. simplify_eq.
  unfold insert_row in *. inv_run. eexists _, _. split; [done|]. split; [|cbn; by rewrite lookup_insert_eq].
  destruct (routes.tr_permanent req); [lia|]. unfold routes.clamp. lia.
Qed.

(** A device that may have the file, before it expires. *)
Lemma transfer_download_run rq b u s r :
  file_transfers (db s) !! u = Some r -> ft_account r = account b -> ft_state r = TransferState.Pending ->
  now rq <= ft_expires_at r -> (recipient_device_id r = None \/ recipient_device_id r = Some (device b)) ->
  exists s', routes.transfer_download rq b u s = (Ok (sender_device_id r, size_bytes r, b64_encode (ft_ciphertext r)), s').
Proof.
  intros Hr Ha Hs Ht Hd. apply Z.ltb_ge in Ht.
  unfold routes.transfer_download, mbind at 1, fetch_or, mbind at 1, query. rewrite Hr. cbn [base.mbind option_bind].
  assert (bool_decide (ft_account r = account b) && routes.not_expired r = true) as ->.
  { unfold routes.not_expired. rewrite Ha, Hs. by rewrite bool_decide_true. }
  unfold ret at 1. rewrite Ht, andb_false_r. unfold routes.addressed.
  assert (bool_decide (sender_device_id r = device b) || bool_decide (recipient_device_id r = None)
          || bool_decide (recipient_device_id r = Some (device b)) = true) as ->.
  { destruct Hd as [Hd|Hd].
    - rewrite (bool_decide_eq_true_2 (recipient_device_id r = None)) by done. by rewrite orb_true_r.
    - rewrite (bool_decide_eq_true_2 (recipient_device_id r = Some _)) by done. by rewrite orb_true_r. }
  unfold mbind. destruct (bool_decide (sender_device_id r = device b)); [by eexists|]. by destruct (delete_on_download r); eexists.
Qed.

(** It is on that device's list. *)
Lemma transfer_list_run rq b u s r :
  file_transfers (db s) !! u = Some r -> ft_account r = account b -> ft_state r = TransferState.Pending ->
  now rq <= ft_expires_at r -> (recipient_device_id r = None \/ recipient_device_id r = Some (device b)) ->
  exists rows s', routes.transfer_list rq b s = (Ok rows, s') /\ (u, r) ∈ rows.
Proof.
  intros Hr Ha Hs Ht Hd. unfold routes.transfer_list, mbind, update, query. do 2 eexists. split; [reflexivity|].
  rewrite sort_desc_perm. apply list_elem_of_In, filter_In. split.
  - apply list_elem_of_In, elem_of_map_to_list. dbsimpl. rewrite update_where_lookup, Hr. cbn.
    by rewrite (proj2 (Z.ltb_ge _ _) Ht), andb_false_r.
  - cbn. unfold routes.not_expired, routes.addressed. rewrite Ha, Hs, bool_decide_true by done. cbn.
    destruct Hd as [-> | ->]; [by rewrite (bool_decide_true (None = None)), orb_true_r|].
    by rewrite (bool_decide_true (Some (device b) = Some (device b))), orb_true_r by done.
Qed.

Lemma transfer_create_authorized rq dw a req s :
  approved s (device a) -> fst (routes.transfer_create cfg rq dw a req s) <> Err Unauthorized.
Proof.
  intros H. unfold routes.transfer_create, mbind at 1. rewrite approved_run by done.
  unfold mbind at 1, Guard.rate_limit at 1, mbind at 1, Guard.check_limit. destruct (RateLimiter.check _ _ _ _ _) as [[] lm]; [|done].
  unfold ret at 1, mbind at 1, routes.b64_or, lift, ok_or. destruct (b64_decode _) as [ct|]; [|done]. destruct (_ && _); [|done].
  destruct (negb _); [|done]. unfold mbind at 1, query at 1.
  destruct (match routes.tr_recipient req with Some r => _ | None => _ end); [|done]. unfold mbind at 1, query at 1.
  destruct (negb _); [|done]. unfold mbind, insert_row, mbind, query. by destruct (_ !! _).
Qed.

(** ** Sending *)

(** The row a send leaves: the sealed file, wrapped when there is a passphrase. *)
Record sent (size : Z) (vk : VaultKey) (meta : FileBlob.FileMeta) (dt : bytes) (pass : option text) (recipient : option text) (a : Auth)
    (t0 : Z) (r : FileTransfer) : Prop := {
  sent_account : ft_account r = account a;
  sent_sender : sender_device_id r = device a;
  sent_recipient : recipient_device_id r = (non_blank recipient ≫= uuid_parse);
  sent_size : size_bytes r = size;
  sent_state : ft_state r = TransferState.Pending;
  sent_day : t0 + DAY <= ft_expires_at r;
  sent_blob : exists sl blob, FileBlob.seal_file (file_salt sl) (file_nonce sl) vk meta dt = Ok blob
    /\ ft_ciphertext r = maybe_wrap_passphrase sl blob pass;
}.

Lemma seal_and_send_run rqs dws others k a sl vk meta dt size rcpt ret0 pass big shown d out d' :
  online rqs (S k) a (Flow.world d) -> approved (others (dk_tick d) (dk_srv d)) (device a) ->
  seal_and_send cfg rqs dws others sl vk meta dt size rcpt ret0 pass big shown d = (Ok out, d') ->
  exists u r, so_id out = uuid_to_string u /\ file_transfers (db (dk_srv d')) !! u = Some r
    /\ sent size vk meta dt pass rcpt a (now (rqs (dk_tick d))) r.
Proof.
  intros Ho Ha H. unfold seal_and_send in H. apply mbind_Ok in H as (blob & d1 & [Hb ->]%lift_core_Ok & H). cbv zeta in H.
  destruct (negb _); [|done]. apply mbind_Ok in H as (id & d2 & Hc & H). unfold ret in H. injection H as <- <-.
  unfold create_transfer in Hc. apply mbind_Ok in Hc as (ru & d1 & Hru & Hc).
  assert (ru = (non_blank rcpt ≫= uuid_parse) /\ d1 = d) as [Heq ->].
  { destruct (non_blank rcpt) as [t|]; cbn in *; [destruct (uuid_parse t)|]; unfold ret, err in Hru; by simplify_eq. }
  apply mbind_Ok in Hc as (x & d1 & (w1 & Hc & ->)%api_Ok & Hx). apply mbind_Ok in Hx as (u & d3 & [-> ->]%http_Ok & Hx).
  unfold ret in Hx. injection Hx as <- <-.
  match type of Hc with Api.authed _ _ _ _ ?f _ = _ =>
    destruct (f (rqs (dk_tick d)) (dws (dk_tick d)) a (others (dk_tick d) (dk_srv d))) as [y s2] eqn:E;
    pose proof (transfer_create_authorized (rqs (dk_tick d)) (dws (dk_tick d)) a (routes.MkTransferReq ru size
       (b64_encode (maybe_wrap_passphrase sl blob pass)) (rt_delete_on_download (default Retention_default ret0))
       (rt_permanent (default Retention_default ret0)) (rt_ttl_days (default Retention_default ret0))) _ Ha) as Hy;
    rewrite E in Hy; rewrite (authed_online cfg rqs dws others f k a _ y s2 Ho E Hy) in Hc end.
  destruct y as [u'|e|]; [|done..]. injection Hc as -> <-. apply transfer_create_run in E as (ct & days & Hct & Hd & Hr).
  cbn in Hct. rewrite b64_decode_encode in Hct. injection Hct as <-.
  exists u. eexists. split; [done|]. split; [exact Hr|]. split; cbn; try done; [unfold DAY, SEC; lia|]. by exists sl, blob.
Qed.

(** What a device of the account reads of the row. *)
Lemma download_run rqs dws others k b u r d :
  online rqs (S k) b (Flow.world d) -> file_transfers (db (others (dk_tick d) (dk_srv d))) !! u = Some r ->
  ft_account r = account b -> ft_state r = TransferState.Pending -> now (rqs (dk_tick d)) <= ft_expires_at r ->
  (recipient_device_id r = None \/ recipient_device_id r = Some (device b)) ->
  exists d', download_transfer cfg rqs dws others (uuid_to_string u) d = (Ok (ft_ciphertext r), d').
Proof.
  intros Ho Hr Ha Hs Ht Hd. destruct (transfer_download_run (rqs (dk_tick d)) b u _ r Hr Ha Hs Ht Hd) as [s' E].
  unfold download_transfer. rewrite uuid_parse_to_string. unfold mbind at 1, Flow.api.
  rewrite (authed_online cfg rqs dws others (fun rq _ a => routes.transfer_download rq a u) k b _ _ s' Ho E) by done. cbn.
  unfold mbind, ret. cbn. rewrite trim_printable, b64_decode_encode by apply b64_printable. by eexists.
Qed.

(** What that device is shown of it. *)
Lemma list_run rqs dws others k b u r d :
  online rqs (S k) b (Flow.world d) -> file_transfers (db (others (dk_tick d) (dk_srv d))) !! u = Some r ->
  ft_account r = account b -> ft_state r = TransferState.Pending -> now (rqs (dk_tick d)) <= ft_expires_at r ->
  (recipient_device_id r = None \/ recipient_device_id r = Some (device b)) -> is_Some (non_blank (server_url (dk_config d))) ->
  exists rows row, fst (transfer_list cfg rqs dws others d) = Ok rows /\ row ∈ rows /\ row_id row = uuid_to_string u
    /\ row_sender row = uuid_to_string (sender_device_id r) /\ row_size row = size_bytes r /\ row_state row = TransferState.Pending.
Proof.
  intros Ho Hr Ha Hs Ht Hd [url Hurl]. destruct (transfer_list_run (rqs (dk_tick d)) b u _ r Hr Ha Hs Ht Hd) as (rows & s' & E & Hin).
  assert (Hapi : exists x, Flow.api_for d = (Ok x, d)).
  { unfold Flow.api_for, Flow.get, mbind, Flow.or_tell, lift. rewrite Hurl. by eexists. }
  destruct Hapi as [x0 Hapi]. unfold transfer_list, mbind at 1. rewrite Hapi.
  unfold list_transfers, mbind at 1, Flow.api.
  erewrite (authed_online cfg rqs dws others _ k b _ (Ok _) s' Ho); [|unfold mbind; cbn [tick srv Flow.world]; rewrite E; reflexivity|done].
  cbn. eexists _, _. split; [reflexivity|]. split; [by apply list_elem_of_fmap_2|]. by rewrite <- Hs.
Qed.

(** A passphrase layer is recognised and removed; a plain blob is not mistaken for one. *)
Lemma wrapped_or_not sl pass vk meta dt blob :
  (forall j, to_vec meta = inr j -> Z.of_nat (length j) < 2 ^ 32) ->
  FileBlob.seal_file (file_salt sl) (file_nonce sl) vk meta dt = Ok blob ->
  let ct := maybe_wrap_passphrase sl blob pass in
  FileBlob.open_file vk blob = Ok (meta, dt)
  /\ match kc_value pass with
     | Some p => FileBlob.is_passphrase_wrapped ct = true /\ FileBlob.open_passphrase p ct Argon2Profile.Production = Ok blob
     | None => ct = blob /\ FileBlob.is_passphrase_wrapped ct = false
     end.
Proof.
  intros Hj Hb ct. destruct (file_transfer_round_trip _ _ _ _ _ _ (pass_salt sl) (pass_nonce sl) (default [] (kc_value pass))
                        Argon2Profile.Production Hj Hb) as (H1 & H2 & H3 & H4 & _).
  split; [done|]. unfold ct, maybe_wrap_passphrase. by destruct (kc_value pass).
Qed.

End relay.

(** ** Concrete runs *)

Module TransferDemo.
#[export] Existing Instances toy_auth toy_base64 toy_base64_laws toy_zstd toy_zstd_laws.
#[export] Instance meta_json : Json FileBlob.FileMeta := toy_json.
#[export] Instance meta_laws : JsonLaws FileBlob.FileMeta := toy_json_laws.

Definition sl : Seal := MkSeal demo_salt demo_nonce demo_salt demo_nonce.
Definition payload : text := b64_encode [Byte.x61; Byte.x62].
Definition send (keep : Retention) (pass : option text) :=
  transfer_send Demo.cfg SyncDemo.rqs SyncDemo.dws SyncDemo.alone sl None (lit "../etc/notes.txt") payload (Some keep) pass.
Definition id_of (r : result TransferSendOut FlowErr) : text := match r with Ok o => so_id o | _ => [] end.

(** The phone's desk, with the same vault key, over a given server. *)
Definition receiver (s : Srv) : Desk := FlowDemo.desk s FlowDemo.phone_token (FlowDemo.lock_with demo_vk) LocalVault.open.
Definition receive (id : text) (pass : option text) :=
  transfer_download Demo.cfg SyncDemo.rqs SyncDemo.dws SyncDemo.alone id pass.

Definition once : Retention := MkRetention true false None.
Definition sent_plain : TransferSendOut := Eval vm_compute in
  match fst (send Retention_default (Some (lit " pw ")) FlowDemo.first) with Ok o => o | _ => MkTransferSendOut [] [] 0 end.
Definition after_plain : Desk := snd (send Retention_default (Some (lit " pw ")) FlowDemo.first).

Lemma sent_ran : send Retention_default (Some (lit " pw ")) FlowDemo.first = (Ok sent_plain, after_plain).
Proof. unfold after_plain. apply (run_answer (send _ _) FlowDemo.first). vm_compute. reflexivity. Qed.

(** The same, once, protected and deleted on download. *)
Definition once_id : text := Eval vm_compute in id_of (fst (send once (Some (lit "pw")) FlowDemo.first)).
Definition waiting : Desk := receiver (dk_srv (snd (send once (Some (lit "pw")) FlowDemo.first))).
End TransferDemo.
Import TransferDemo.


(** A protected file that is deleted on download is lost: the first download, which has no passphrase
    yet because only its answer tells that one is needed, makes the server delete the file. *)
Lemma protected_once_is_lost :
  fst (receive once_id None waiting) = Ok (MkTransferDownloadOut [] 0 [] [] None true)
  /\ fst (receive once_id (Some (lit "pw")) (snd (receive once_id None waiting))) = Err (FromApi (HttpStatus "GET /transfers" 404)).
Proof. split; vm_compute; reflexivity. Qed.
