(* ===== verification/SettingsSync.v ===== *)
(** [apps/desktop/src-tauri/src/sync.rs], settings sync: a hidden item of the vault carries the
    device's configuration between computers. With the collectors and appliers it calls in
    [vpn.rs], [servers.rs], [commands.rs] and [ssh.rs]. A device's settings are its keychain entries
    and files; [Fate] is which of the writes of one run succeed. The JSON text of the structured
    fields and the parser of OpenSSH keys are parameters. *)
From S2P Require Import Prelude Bytes Text Crypto Floats Totp Toy RecoveryKit Keyring Model Envelope VaultStore Session AppLock Vpn VpnManager SyncClient.
Local Open Scope Z_scope.

(** [serde_json::to_string] and [from_str] of one type. *)
Class TextJson (A : Type) : Type := { js_encode : A -> text; js_decode : text -> option A }.

(** What is written is read back; it is an object, so it is neither empty nor surrounded by white
    space. *)
Class TextJsonLaws (A : Type) {J : TextJson A} : Prop := {
  js_decode_encode a : js_decode (js_encode a) = Some a;
  js_trimmed a : trim (js_encode a) = js_encode a;
  js_nonempty a : js_encode a <> [];
}.

Record NetdataFileCfg : Type := MkNetdataFileCfg { nd_enabled : bool; nd_port : Z; nd_https : bool; has_auth : bool }.
Record SshServerCfg : Type := MkSshServerCfg { host_key_fingerprint : text; installed : bool }.
Definition SshServerCfg_default : SshServerCfg := MkSshServerCfg [] false.
Record WatchdogFileCfg : Type := MkWatchdogFileCfg {
  wd_enabled : bool; wd_interval_secs : Z; wd_cpu_pct : f64; wd_cpu_sustain_ticks : Z; wd_disk_pct : f64;
  security_alerts : bool; ban_sync : bool }.
Definition WatchdogFileCfg_default : WatchdogFileCfg := MkWatchdogFileCfg false 120 (F64.of_Z 90) 3 (F64.of_Z 90) false false.

Record Local : Type := MkLocal {
  lo_linode : option text;
  lo_hetzner : option text;
  lo_gsecret : option text;
  lo_ssh_key : option text;
  lo_gclient : option text;
  lo_prefs : Settings;
  lo_netdata : gmap text NetdataFileCfg;
  lo_netdata_auth : gmap text text;
  lo_ssh : gmap text SshServerCfg;
  lo_watchdog : WatchdogFileCfg;
  lo_node : option Mgr.PersistentVpnRecord;
  lo_wg_key : option text;
}.

(** Which writes succeed: by keychain account, and to files. *)
Record Fate : Type := MkFate { kc_ok : text -> bool; files_ok : bool }.

Definition KC_LINODE : text := lit "linode-token".
Definition KC_HETZNER : text := lit "hetzner-token".
Definition KC_GSECRET : text := lit "sync-google-secret".
Definition KC_SSH_KEY : text := lit "ssh-terminal-key".
Definition KC_PERSIST_WG : text := lit "vpn-persistent-clientkey".

Module Settings.
Definition SET_LINODE : text := lit "linode_token".
Definition SET_GCLIENT : text := lit "google_client_id".
Definition SET_GSECRET : text := lit "google_client_secret".
Definition SET_HETZNER : text := lit "hetzner_token".
Definition SET_NETDATA : text := lit "netdata_config".
Definition SET_PREFS : text := lit "app_prefs".
Definition SET_WATCHDOG : text := lit "watchdog_cfg".
Definition SET_NDAUTH : text := lit "netdata_auth".
Definition SET_AOVPN : text := lit "always_on_vpn".
Definition SET_SSH_KEY : text := lit "ssh_terminal_key".
Definition SET_SSH_PINS : text := lit "ssh_hostkey_pins".
Definition SYSTEM_TAG : text := lit "northkey:system".

(** a11d0e5e-771e-4b8a-9f30-0c0ffee5e771. *)
Definition settings_item_id : Uuid :=
  default (arr_fill 16 Byte.x00) (arr_of (map byte_of_Z [161; 29; 14; 94; 119; 30; 75; 138; 159; 48; 12; 15; 254; 229; 231; 113])).

(** ** Updates of one setting *)

Definition set_linode o (l : Local) : Local := MkLocal o (lo_hetzner l) (lo_gsecret l) (lo_ssh_key l) (lo_gclient l) (lo_prefs l) (lo_netdata l) (lo_netdata_auth l) (lo_ssh l) (lo_watchdog l) (lo_node l) (lo_wg_key l).
Definition set_hetzner o (l : Local) : Local := MkLocal (lo_linode l) o (lo_gsecret l) (lo_ssh_key l) (lo_gclient l) (lo_prefs l) (lo_netdata l) (lo_netdata_auth l) (lo_ssh l) (lo_watchdog l) (lo_node l) (lo_wg_key l).
Definition set_gsecret o (l : Local) : Local := MkLocal (lo_linode l) (lo_hetzner l) o (lo_ssh_key l) (lo_gclient l) (lo_prefs l) (lo_netdata l) (lo_netdata_auth l) (lo_ssh l) (lo_watchdog l) (lo_node l) (lo_wg_key l).
Definition set_ssh_key o (l : Local) : Local := MkLocal (lo_linode l) (lo_hetzner l) (lo_gsecret l) o (lo_gclient l) (lo_prefs l) (lo_netdata l) (lo_netdata_auth l) (lo_ssh l) (lo_watchdog l) (lo_node l) (lo_wg_key l).
Definition set_gclient o (l : Local) : Local := MkLocal (lo_linode l) (lo_hetzner l) (lo_gsecret l) (lo_ssh_key l) o (lo_prefs l) (lo_netdata l) (lo_netdata_auth l) (lo_ssh l) (lo_watchdog l) (lo_node l) (lo_wg_key l).
Definition set_prefs p (l : Local) : Local := MkLocal (lo_linode l) (lo_hetzner l) (lo_gsecret l) (lo_ssh_key l) (lo_gclient l) p (lo_netdata l) (lo_netdata_auth l) (lo_ssh l) (lo_watchdog l) (lo_node l) (lo_wg_key l).
Definition set_netdata m (l : Local) : Local := MkLocal (lo_linode l) (lo_hetzner l) (lo_gsecret l) (lo_ssh_key l) (lo_gclient l) (lo_prefs l) m (lo_netdata_auth l) (lo_ssh l) (lo_watchdog l) (lo_node l) (lo_wg_key l).
Definition set_netdata_auth m (l : Local) : Local := MkLocal (lo_linode l) (lo_hetzner l) (lo_gsecret l) (lo_ssh_key l) (lo_gclient l) (lo_prefs l) (lo_netdata l) m (lo_ssh l) (lo_watchdog l) (lo_node l) (lo_wg_key l).
Definition set_ssh m (l : Local) : Local := MkLocal (lo_linode l) (lo_hetzner l) (lo_gsecret l) (lo_ssh_key l) (lo_gclient l) (lo_prefs l) (lo_netdata l) (lo_netdata_auth l) m (lo_watchdog l) (lo_node l) (lo_wg_key l).
Definition set_watchdog w (l : Local) : Local := MkLocal (lo_linode l) (lo_hetzner l) (lo_gsecret l) (lo_ssh_key l) (lo_gclient l) (lo_prefs l) (lo_netdata l) (lo_netdata_auth l) (lo_ssh l) w (lo_node l) (lo_wg_key l).
Definition set_node r k (l : Local) : Local := MkLocal (lo_linode l) (lo_hetzner l) (lo_gsecret l) (lo_ssh_key l) (lo_gclient l) (lo_prefs l) (lo_netdata l) (lo_netdata_auth l) (lo_ssh l) (lo_watchdog l) r k.

Section sync.
Context {JN : TextJson (gmap text NetdataFileCfg)} {JA : TextJson (gmap text text)} {JS : TextJson (gmap text SshServerCfg)}
  {JW : TextJson WatchdogFileCfg} {JP : TextJson (gmap string SettingVal)} {JV : TextJson (Mgr.PersistentVpnRecord * text)}.
Context {P : CryptoPrims} {SI : Json Item.t}.
(** [decode_secret_key(pem, None).is_ok()]. *)
Variable valid_ssh_key : text -> bool.

(** ** Collectors *)

Definition netdata_config_json (l : Local) : text :=
  if bool_decide (lo_netdata l = ∅) then [] else js_encode (lo_netdata l).

(** [netdata-auth-{provider}-{id}]. *)
Definition netdata_auth_account (key : text) : option text :=
  match split_once (chr ":") key with
  | Some (provider, id) => Some (lit "netdata-auth-" ++ provider ++ lit "-" ++ id)
  | None => None
  end.

(** The stored credential of a server that has one. *)
Definition netdata_cred (l : Local) (key : text) (nd : NetdataFileCfg) : option text :=
  if has_auth nd then netdata_auth_account key ≫= fun acc => kc_value (lo_netdata_auth l !! acc) else None.
Definition netdata_auth_json (l : Local) : text :=
  let out : gmap text text := map_imap (netdata_cred l) (lo_netdata l) in
  if bool_decide (out = ∅) then [] else js_encode out.

Definition watchdog_config_json (l : Local) : text :=
  let cur := js_encode (lo_watchdog l) in
  if bool_decide (cur = js_encode WatchdogFileCfg_default) then [] else cur.

Definition DEVICE_LOCAL_PREF_KEYS : list string := ["requireHello"; "applockTotpEnabled"; "telemetry"].
Definition syncable (m : gmap string SettingVal) : gmap string SettingVal :=
  base.filter (fun kv => kv.1 ∉ DEVICE_LOCAL_PREF_KEYS) m.
Definition prefs_sync_export (l : Local) : text :=
  match lo_prefs l with
  | Object m => if bool_decide (syncable m = ∅) then [] else js_encode (syncable m)
  | _ => []
  end.

Definition persistent_sync_export (l : Local) : text :=
  match lo_node l with
  | Some r => if bool_decide (trim (Mgr.rec_id r) = []) then [] else js_encode (r, default [] (kc_value (lo_wg_key l)))
  | None => []
  end.

Definition ssh_pins_export (l : Local) : text := if bool_decide (lo_ssh l = ∅) then [] else js_encode (lo_ssh l).

Definition local_settings (l : Local) : list (text * text) :=
  [(SET_LINODE, default [] (kc_value (lo_linode l))); (SET_GCLIENT, default [] (lo_gclient l));
   (SET_GSECRET, default [] (kc_value (lo_gsecret l))); (SET_HETZNER, default [] (kc_value (lo_hetzner l)));
   (SET_NETDATA, netdata_config_json l); (SET_PREFS, prefs_sync_export l); (SET_WATCHDOG, watchdog_config_json l);
   (SET_NDAUTH, netdata_auth_json l); (SET_AOVPN, persistent_sync_export l); (SET_SSH_KEY, default [] (kc_value (lo_ssh_key l)));
   (SET_SSH_PINS, ssh_pins_export l)].

(** ** Appliers *)

(** A token or secret: written when it differs; a failure is noted under its label. *)
Definition apply_secret (f : Fate) (account : text) (label : string) (cur : option text) (store : option text -> Local -> Local)
    (v : text) (l : Local) : Local * list string :=
  if bool_decide (kc_value cur = Some v) then (l, [])
  else if kc_ok f account then (store (Some v) l, []) else (l, [label]).

Definition apply_netdata_config_json (f : Fate) (json : text) (l : Local) : Local :=
  match js_decode json with
  | Some incoming => if files_ok f then set_netdata (incoming ∪ lo_netdata l) l else l
  | None => l
  end.

Definition apply_prefs_sync (f : Fate) (json : text) (l : Local) : Local :=
  match js_decode json with
  | Some incoming =>
      let cur := match lo_prefs l with Object m => m | _ => ∅ end in
      if files_ok f then set_prefs (Object (<["telemetry" := VBool false]> (syncable incoming ∪ cur))) l else l
  | None => l
  end.

Definition apply_watchdog_config_json (f : Fate) (json : text) (l : Local) : Local :=
  match js_decode json with
  | Some wd => if files_ok f then set_watchdog wd l else l
  | None => l
  end.

(** One credential into the keychain. *)
Definition apply_cred (f : Fate) (m : gmap text text) (kv : text * text) : gmap text text :=
  let '(key, cred) := kv in
  if bool_decide (trim cred = []) then m
  else match netdata_auth_account key with
       | Some acc => if kc_ok f acc then <[acc := trim cred]> m else m
       | None => m
       end.
Definition apply_netdata_auth_json (f : Fate) (json : text) (l : Local) : Local :=
  match js_decode json with
  | Some incoming => set_netdata_auth (fold_left (apply_cred f) (map_to_list incoming) (lo_netdata_auth l)) l
  | None => l
  end.

(** Seed only. *)
Definition persistent_sync_import (f : Fate) (json : text) (l : Local) : Local :=
  match lo_node l with
  | Some _ => l
  | None =>
      match js_decode json with
      | Some (record, client_key) =>
          if bool_decide (trim (Mgr.rec_id record) = []) then l
          else if files_ok f then
            set_node (Some record)
              (if negb (bool_decide (trim client_key = [])) && kc_ok f KC_PERSIST_WG then Some (trim client_key) else lo_wg_key l) l
          else l
      | None => l
      end
  end.

(** What is not a key is refused before the store is touched. *)
Definition key_pem_adopt (f : Fate) (pem : text) (l : Local) : Local * list string :=
  let pem := trim pem in
  if bool_decide (pem = []) then (l, [])
  else if negb (valid_ssh_key pem) then (l, ["SSH terminal key"])
  else if bool_decide (kc_value (lo_ssh_key l) = Some pem) then (l, [])
  else if kc_ok f KC_SSH_KEY then (set_ssh_key (Some pem) l, []) else (l, ["SSH terminal key"]).

(** A pin this device has is kept; one it lacks is adopted. *)
Definition merge_pin (mine : option SshServerCfg) (v : SshServerCfg) : SshServerCfg :=
  let e := default SshServerCfg_default mine in
  MkSshServerCfg
    (if bool_decide (trim (host_key_fingerprint e) = []) && negb (bool_decide (trim (host_key_fingerprint v) = []))
     then host_key_fingerprint v else host_key_fingerprint e)
    (installed e || installed v).
Definition pin_changes (mine : option SshServerCfg) (v : SshServerCfg) : bool :=
  let e := default SshServerCfg_default mine in
  (bool_decide (trim (host_key_fingerprint e) = []) && negb (bool_decide (trim (host_key_fingerprint v) = [])))
  || (installed v && negb (installed e)).
Definition ssh_pins_apply (f : Fate) (json : text) (l : Local) : Local :=
  match js_decode json with
  | Some incoming =>
      let merged : gmap text SshServerCfg :=
        merge (fun mine v => match v with Some v => Some (merge_pin mine v) | None => mine end) (lo_ssh l) incoming in
      let changed := existsb (fun kv => pin_changes (lo_ssh l !! kv.1) kv.2) (map_to_list incoming) in
      if changed && files_ok f then set_ssh merged l else l
  | None => l
  end.

(** One field of the item; an empty one is skipped. *)
Definition apply_field (f : Fate) (l : Local) (cf : CustomField.t) : Local * list string :=
  let v := trim (CustomField.value cf) in
  let n := CustomField.name cf in
  if bool_decide (v = []) then (l, [])
  else if bool_decide (n = SET_LINODE) then apply_secret f KC_LINODE "Linode token" (lo_linode l) set_linode v l
  else if bool_decide (n = SET_GCLIENT) then
    (if bool_decide (lo_gclient l = Some v) then l else if files_ok f then set_gclient (Some v) l else l, [])
  else if bool_decide (n = SET_GSECRET) then apply_secret f KC_GSECRET "Google client secret" (lo_gsecret l) set_gsecret v l
  else if bool_decide (n = SET_HETZNER) then apply_secret f KC_HETZNER "Hetzner token" (lo_hetzner l) set_hetzner v l
  else if bool_decide (n = SET_NETDATA) then (apply_netdata_config_json f v l, [])
  else if bool_decide (n = SET_PREFS) then (apply_prefs_sync f v l, [])
  else if bool_decide (n = SET_WATCHDOG) then (apply_watchdog_config_json f v l, [])
  else if bool_decide (n = SET_NDAUTH) then (apply_netdata_auth_json f v l, [])
  else if bool_decide (n = SET_AOVPN) then (persistent_sync_import f v l, [])
  else if bool_decide (n = SET_SSH_KEY) then key_pem_adopt f v l
  else if bool_decide (n = SET_SSH_PINS) then (ssh_pins_apply f v l, [])
  else (l, []).
Fixpoint apply_fields (f : Fate) (cfs : list CustomField.t) (l : Local) (errs : list string) : Local * list string :=
  match cfs with
  | [] => (l, errs)
  | cf :: cfs => let '(l, e) := apply_field f l cf in apply_fields f cfs l (errs ++ e)
  end.

(** ** The item *)

Definition field_of (item : Item.t) (name : text) : option text :=
  CustomField.value <$> List.find (fun c => bool_decide (CustomField.name c = name)) (Item.custom_fields item).

Definition settings_item (g : VaultSession.t) (vt : LocalVault.t) : option Item.t :=
  match LocalVault.get vt settings_item_id with
  | Some env => match VaultSession.open g env with Ok item => Some item | _ => None end
  | None => None
  end.

(** An empty local value keeps the item's. *)
Definition keep_existing (existing : option Item.t) (nv : text * text) : text * text :=
  if bool_decide (trim nv.2 = []) then (nv.1, default [] (existing ≫= fun item => field_of item nv.1)) else nv.

Definition build_item (now : Z) (existing : option Item.t) (values : list (text * text)) : Item.t :=
  let values := map (keep_existing existing) values in
  let created_at := match existing with Some i => Item.created_at i | None => now end in
  let prev_updated := match existing with Some i => Item.updated_at i | None => 0 end in
  Item.MkItem settings_item_id ItemType.Note (lit "NorthKey device settings") [SYSTEM_TAG] []
    (Some (lit "Synced app configuration " ++ [8212] ++ lit " managed automatically, hidden from lists."))
    (map (fun nv => CustomField.MkCustomField nv.1 nv.2 true) values) None None None None
    created_at (Z.max now (prev_updated + 1)) None.

Definition write_settings_item (now : Z) (nonce : Nonce24) (g : VaultSession.t) (values : list (text * text)) (vt : LocalVault.t)
    : Result unit * LocalVault.t :=
  match VaultSession.seal nonce g (build_item now (settings_item g vt) values) with
  | Ok env => LocalVault.upsert vt env
  | Err e => (Err e, vt)
  | Panic => (Panic, vt)
  end.

(** Some local value is set and is not the item's. *)
Definition needs_heal (item : Item.t) (locals : list (text * text)) : bool :=
  existsb (fun nv => negb (bool_decide (trim nv.2 = [])) && negb (bool_decide (trim nv.2 = trim (default [] (field_of item nv.1))))) locals.

(** The settings and the vault afterwards, what could not be stored, and whether the vault changed. *)
Definition sync_device_settings (f : Fate) (now : Z) (nonce : Nonce24) (g : VaultSession.t) (l : Local) (vt : LocalVault.t)
    : Local * LocalVault.t * list string * bool :=
  match settings_item g vt with
  | Some item =>
      let '(l, errs) := apply_fields f (Item.custom_fields item) l [] in
      let locals := local_settings l in
      if needs_heal item locals then
        let '(r, vt) := write_settings_item now nonce g locals vt in (l, vt, errs, is_ok r)
      else (l, vt, errs, false)
  | None =>
      let locals := local_settings l in
      if forallb (fun nv => bool_decide (nv.2 = [])) locals then (l, vt, [], false)
      else let '(r, vt) := write_settings_item now nonce g locals vt in (l, vt, [], is_ok r)
  end.

Record SettingsSyncStatus : Type := MkStatus { present : bool; st_updated_at : Z; linode : bool; google : bool; hetzner : bool; netdata : bool; apply_errors : list string }.

(** The panel sees which settings are there, never what they are, and what the last run could not store. *)
Definition is_set (item : Item.t) (name : text) : bool :=
  existsb (fun c => bool_decide (CustomField.name c = name) && negb (bool_decide (trim (CustomField.value c) = []))) (Item.custom_fields item).
Definition settings_sync_status (errs : list string) (g : VaultSession.t) (vt : LocalVault.t) : SettingsSyncStatus :=
  match settings_item g vt with
  | None => MkStatus false 0 false false false false errs
  | Some item => MkStatus true (Item.updated_at item) (is_set item SET_LINODE) (is_set item SET_GCLIENT) (is_set item SET_HETZNER)
                   (is_set item SET_NETDATA) errs
  end.
End sync.
End Settings.
