(* ===== verification/SettingsClaims.v ===== *)
(** What settings sync promises: sharing never erases a setting another device shared and always wins
    the merge, and a fresh device takes over all of them and then leaves the item alone; and two ways
    in which devices overwrite each other's values for good. *)
From S2P Require Import Prelude Bytes Text Crypto Floats Totp Toy RecoveryKit Keyring Model Envelope VaultStore Session AppLock Vpn VpnManager SyncClient SettingsSync.
From Stdlib Require Import Floats.SpecFloat.
Local Open Scope Z_scope.
Import Settings.

(** ** Sharing *)

Section share.
Context {JN : TextJson (gmap text NetdataFileCfg)} {JA : TextJson (gmap text text)} {JS : TextJson (gmap text SshServerCfg)}
  {JW : TextJson WatchdogFileCfg} {JP : TextJson (gmap string SettingVal)} {JV : TextJson (Mgr.PersistentVpnRecord * text)}.
Context {P : CryptoPrims} {L : CryptoLaws P} {SI : Json Item.t} {SIL : JsonLaws Item.t}.

Definition shared_names : list text := map fst (local_settings (MkLocal None None None None None NoSettings ∅ ∅ ∅ WatchdogFileCfg_default None None)).

Lemma local_names l : map fst (local_settings l) = shared_names.
Proof. done. Qed.

Lemma shared_names_distinct : NoDup shared_names.
Proof. apply (bool_decide_unpack _). vm_compute. exact I. Qed.

Lemma keep_existing_name ex nv : (keep_existing ex nv).1 = nv.1.
Proof. unfold keep_existing. by case_bool_decide. Qed.

(** The value a name has in a built item. *)
Lemma field_of_built now ex values name v :
  NoDup (map fst values) -> (name, v) ∈ values ->
  field_of (build_item now ex values) name = Some (keep_existing ex (name, v)).2.
Proof.
  unfold field_of, build_item. cbn [Item.custom_fields]. induction values as [|[n w] values IH]; [by intros _ ?%elem_of_nil|].
  cbn [map]. intros [Hn Hd]%NoDup_cons Hin. cbn [List.find CustomField.name]. rewrite keep_existing_name. cbn [fst].
  case_bool_decide as E.
  - subst. apply elem_of_cons in Hin as [[= ->]|Hin]; [done|]. destruct Hn. apply (list_elem_of_fmap_2 fst _ _ Hin).
  - apply elem_of_cons in Hin as [[= -> ->]|Hin]; [done|]. by apply IH.
Qed.

Lemma field_is_set item name v : field_of item name = Some v -> trim v <> [] -> is_set item name = true.
Proof.
  unfold field_of, is_set. intros H Hv. destruct (List.find _ _) as [c|] eqn:E; [|done]. injection H as <-.
  apply find_some in E as [Hin Hn]. apply existsb_exists. exists c. split; [done|]. rewrite Hn. cbn. by rewrite bool_decide_false.
Qed.

Lemma is_set_field item name :
  NoDup (map CustomField.name (Item.custom_fields item)) -> is_set item name = true ->
  exists v, field_of item name = Some v /\ trim v <> [].
Proof.
  unfold field_of, is_set. induction (Item.custom_fields item) as [|c cs IH]; [done|].
  intros [Hn Hd]%NoDup_cons H. cbn [existsb List.find] in *. case_bool_decide as E.
  - cbn in H |- *. apply orb_true_iff in H as [H|H]; [bools; eauto|]. destruct Hn.
    apply existsb_exists in H as (c' & Hin & H). bools. apply list_elem_of_In in Hin. rewrite E, <- H. by apply list_elem_of_fmap_2.
  - by apply IH.
Qed.

(** What a write leaves in the vault. *)
Lemma write_run now nonce vk values vt vt' u :
  i64_range (Item.updated_at (build_item now (settings_item (VaultSession.unlocked vk) vt) values)) ->
  write_settings_item now nonce (VaultSession.unlocked vk) values vt = (Ok u, vt') ->
  settings_item (VaultSession.unlocked vk) vt' = Some (build_item now (settings_item (VaultSession.unlocked vk) vt) values)
  /\ forall id, id <> settings_item_id -> LocalVault.items vt' !! id = LocalVault.items vt !! id.
Proof.
  intros Hr H. unfold write_settings_item in H. set (item := build_item _ _ _) in *.
  destruct (VaultSession.seal nonce _ item) as [env|e|] eqn:E; [|done..].
  unfold VaultSession.seal, VaultSession.key, VaultSession.unlocked in E. cbn in E.
  destruct (item_envelope_round_trip _ _ _ _ Hr E) as [Ho Hm]. change (Item.id item) with settings_item_id in Hm.
  rewrite (LocalVault.upsert_ok _ _ _ _ Hm) in H. injection H as _ <-. split.
  - unfold settings_item, LocalVault.get. cbn. rewrite lookup_insert_eq. cbn. unfold VaultSession.open, VaultSession.key. cbn. by rewrite Ho.
  - intros id Hid. cbn. by rewrite lookup_insert_ne.
Qed.
(** Whatever a device shares, it erases no setting another device has shared: every named field
    that is not blank in the item stays so, with the device's value when it has one and with the old
    value otherwise. The new item is strictly newer than the old one, so that it wins the merge, and
    no other item of the vault changes. *)
Theorem sharing_never_erases now nonce vk l vt vt' u item :
  settings_item (VaultSession.unlocked vk) vt = Some item ->
  i64_range now -> i64_range (Item.updated_at item + 1) ->
  write_settings_item now nonce (VaultSession.unlocked vk) (local_settings l) vt = (Ok u, vt') ->
  exists item', settings_item (VaultSession.unlocked vk) vt' = Some item'
    /\ Item.updated_at item < Item.updated_at item' /\ now <= Item.updated_at item' /\ Item.created_at item' = Item.created_at item
    /\ (forall name v, (name, v) ∈ local_settings l ->
          field_of item' name = Some (if bool_decide (trim v = []) then default [] (field_of item name) else v))
    /\ (forall name v, (name, v) ∈ local_settings l -> is_set item name = true -> NoDup (map CustomField.name (Item.custom_fields item)) ->
          is_set item' name = true)
    /\ (forall id, id <> settings_item_id -> LocalVault.items vt' !! id = LocalVault.items vt !! id).
Proof.
  intros Hi Hn Hu Hw. destruct (write_run _ _ _ _ _ _ _ ltac:(rewrite Hi; cbn [build_item Item.updated_at]; by destruct (Z.max_spec now (Item.updated_at item + 1)) as [[_ ->]|[_ ->]]) Hw) as [Hs Ho].
  rewrite Hi in Hs. assert (Hf : forall name v, (name, v) ∈ local_settings l ->
    field_of (build_item now (Some item) (local_settings l)) name
    = Some (if bool_decide (trim v = []) then default [] (field_of item name) else v)).
  { intros name v Hin. rewrite (field_of_built _ _ _ _ v) by (done || rewrite local_names; apply shared_names_distinct).
    unfold keep_existing. cbn [fst snd]. by case_bool_decide. }
  eexists. split; [exact Hs|]. cbn [build_item Item.updated_at]. split; [lia|]. split; [lia|]. split; [done|]. split; [exact Hf|]. split; [|exact Ho].
  intros name v Hin Hset Hd. apply (is_set_field _ name) in Hset as (w & Hw1 & Hw2); [|done].
  apply (field_is_set _ _ _ (Hf _ _ Hin)). rewrite Hw1. by case_bool_decide.
Qed.
End share.

(** ** A new device *)

Section rehydrate.
Context {JN : TextJson (gmap text NetdataFileCfg)} {JA : TextJson (gmap text text)} {JS : TextJson (gmap text SshServerCfg)}
  {JW : TextJson WatchdogFileCfg} {JP : TextJson (gmap string SettingVal)} {JV : TextJson (Mgr.PersistentVpnRecord * text)}.
Context {LN : TextJsonLaws (gmap text NetdataFileCfg)} {LA : TextJsonLaws (gmap text text)} {LS : TextJsonLaws (gmap text SshServerCfg)}
  {LW : TextJsonLaws WatchdogFileCfg} {LP : TextJsonLaws (gmap string SettingVal)} {LV : TextJsonLaws (Mgr.PersistentVpnRecord * text)}.
Context {P : CryptoPrims} {SI : Json Item.t}.
Variable valid_ssh_key : text -> bool.

(** A device just installed, and an operating system that stores what it is given. *)
Definition fresh : Local := MkLocal None None None None None NoSettings ∅ ∅ ∅ WatchdogFileCfg_default None None.
Definition sound : Fate := MkFate (fun _ => true) true.

(** What the commands leave: a trimmed client id, a key that parses, and pins that name a key. *)
Record proper (l : Local) : Prop := {
  pr_gclient : forall s, lo_gclient l = Some s -> trim s = s /\ s <> [];
  pr_ssh_key : forall s, kc_value (lo_ssh_key l) = Some s -> valid_ssh_key s = true;
  pr_pins : map_Forall (fun _ p => trim (host_key_fingerprint p) <> []) (lo_ssh l);
}.

Lemma kc_value_trimmed o s : kc_value o = Some s -> trim s = s /\ s <> [].
Proof. destruct o as [r|]; [|done]. cbn. case_bool_decide; [done|]. intros [= <-]. by rewrite trim_idemp. Qed.

Lemma kc_value_stored o s : kc_value o = Some s -> kc_value (Some s) = Some s.
Proof. intros [H1 H2]%kc_value_trimmed. cbn. rewrite H1. by rewrite bool_decide_false. Qed.

Lemma js_inj {A} {J : TextJson A} {L : TextJsonLaws A} (a b : A) : js_encode a = js_encode b -> a = b.
Proof. intros H. apply (f_equal js_decode) in H. rewrite !js_decode_encode in H. by injection H. Qed.

(** The stored credentials of one device, brought to another through the accounts they name. *)
Section creds.
Variable auth : gmap text text.
Definition from_auth (kv : text * text) : Prop := exists acc, netdata_auth_account kv.1 = Some acc /\ kc_value (auth !! acc) = Some kv.2.

Lemma apply_creds kvs m :
  Forall from_auth kvs -> (forall acc v, m !! acc = Some v -> kc_value (auth !! acc) = Some v) ->
  let m' := fold_left (apply_cred sound) kvs m in
  (forall acc v, m' !! acc = Some v -> kc_value (auth !! acc) = Some v)
  /\ (forall acc, is_Some (m !! acc) -> is_Some (m' !! acc))
  /\ Forall (fun kv => exists acc, netdata_auth_account kv.1 = Some acc /\ is_Some (m' !! acc)) kvs.
Proof.
  intros Hf. revert m. induction Hf as [|[k c] kvs (acc & Ha & Hc) Hf IH]; intros m Hm; cbn [fold_left]; [done|].
  cbn in Ha, Hc. destruct (kc_value_trimmed _ _ Hc) as [Ht Hne].
  assert (E : apply_cred sound m (k, c) = <[acc := c]> m).
  { unfold apply_cred. rewrite bool_decide_false by (by rewrite Ht). rewrite Ha, Ht. done. }
  rewrite E. clear E.
  destruct (IH (<[acc := c]> m)) as (H1 & H2 & H3).
  { intros a v. rewrite lookup_insert_Some. intros [[<- <-]|[_ H]]; auto. }
  split; [done|]. split; [|constructor; [|done]].
  - intros a Ha'. apply H2. destruct (decide (a = acc)) as [->|?]; [by rewrite lookup_insert_eq|by rewrite lookup_insert_ne].
  - exists acc. split; [done|]. apply H2. by rewrite lookup_insert_eq.
Qed.
End creds.

(** The credentials of the servers of [nd] read the same on both sides. *)
Lemma creds_carried (nd : gmap text NetdataFileCfg) (l l' : Local) :
  lo_netdata_auth l' = fold_left (apply_cred sound) (map_to_list (map_imap (netdata_cred l) nd)) ∅ ->
  map_imap (netdata_cred l') nd = map_imap (netdata_cred l) nd.
Proof.
  intros Ha'. set (out := map_imap (netdata_cred l) nd) in *.
  assert (Hout : forall k c, out !! k = Some c <-> exists x, nd !! k = Some x /\ netdata_cred l k x = Some c).
  { intros k c. unfold out. rewrite map_lookup_imap, bind_Some. done. }
  assert (Hf : Forall (from_auth (lo_netdata_auth l)) (map_to_list out)).
  { apply Forall_forall. intros [k c] H%elem_of_map_to_list. apply Hout in H as (x & _ & Hc). unfold netdata_cred in Hc.
    destruct (has_auth x); [|done]. apply bind_Some in Hc as (acc & Hacc & Hc). by exists acc. }
  destruct (apply_creds _ _ ∅ Hf) as (H1 & _ & H3); [intros ? ?; by rewrite lookup_empty|]. rewrite <- Ha' in H1, H3.
  apply map_eq. intros k. unfold out. rewrite !map_lookup_imap. destruct (nd !! k) as [x|] eqn:Ex; [|done]. cbn.
  unfold netdata_cred at 1 2. destruct (has_auth x) eqn:Hx; [|done]. destruct (netdata_auth_account k) as [acc|] eqn:Ek; [|done]. cbn.
  destruct (kc_value (lo_netdata_auth l !! acc)) as [c|] eqn:Ec.
  - assert (Hin : out !! k = Some c).
    { apply Hout. exists x. split; [done|]. unfold netdata_cred. by rewrite Hx, Ek. }
    apply elem_of_map_to_list in Hin. rewrite Forall_forall in H3. destruct (H3 _ Hin) as (acc' & He & [v Hv]). cbn in He.
    rewrite Ek in He. injection He as <-. rewrite Hv. specialize (H1 _ _ Hv). rewrite Ec in H1. injection H1 as <-. by apply (kc_value_stored _ _ Ec).
  - destruct (lo_netdata_auth l' !! acc) as [v|] eqn:Ev; [|done]. specialize (H1 _ _ Ev). congruence.
Qed.

(** The value of a field, as a new device reads it. *)
Definition shared (n v : text) : CustomField.t := CustomField.MkCustomField n v true.

(** Picks the branch of a concrete name. *)
Ltac dispatch :=
  unfold apply_field, shared; cbn [CustomField.name CustomField.value];
  repeat match goal with
  | |- context [bool_decide (?a = ?b)] => is_const a; is_const b;
      let r := eval vm_compute in (bool_decide (a = b)) in
      match r with true => idtac | false => idtac end; change (bool_decide (a = b)) with r
  end; cbv match.

(** A secret: the stored one, or none. *)
Lemma secret_applied account label store (L : Local) cur o :
  kc_value cur = None ->
  (forall v, kc_value o = Some v -> apply_secret sound account label cur store v L = (store (Some v) L, [])).
Proof. intros Hc v Hv. unfold apply_secret. rewrite Hc, bool_decide_false by done. done. Qed.

(** A field that is not set is skipped, one that is set reaches its applier as it was written. *)
Ltac unset := cbn [default id]; rewrite bool_decide_true by done; match goal with L : Local |- _ => destruct L; cbn in *; by subst end.
Ltac read E := cbn [default id]; let Ht := fresh in let Hn := fresh in destruct E as [Ht Hn]; rewrite Ht, (bool_decide_false _ Hn).

Ltac secret H o :=
  dispatch; destruct (kc_value o) as [v|] eqn:E; [read (kc_value_trimmed _ _ E); rewrite H; by apply (secret_applied _ _ _ _ _ o)|unset].

Lemma field_linode l L : lo_linode L = None ->
  apply_field valid_ssh_key sound L (shared SET_LINODE (default [] (kc_value (lo_linode l)))) = (set_linode (kc_value (lo_linode l)) L, []).
Proof. intros H. secret H (lo_linode l). Qed.

Lemma field_gsecret l L : lo_gsecret L = None ->
  apply_field valid_ssh_key sound L (shared SET_GSECRET (default [] (kc_value (lo_gsecret l)))) = (set_gsecret (kc_value (lo_gsecret l)) L, []).
Proof. intros H. secret H (lo_gsecret l). Qed.

Lemma field_hetzner l L : lo_hetzner L = None ->
  apply_field valid_ssh_key sound L (shared SET_HETZNER (default [] (kc_value (lo_hetzner l)))) = (set_hetzner (kc_value (lo_hetzner l)) L, []).
Proof. intros H. secret H (lo_hetzner l). Qed.

Lemma field_gclient l L : proper l -> lo_gclient L = None ->
  apply_field valid_ssh_key sound L (shared SET_GCLIENT (default [] (lo_gclient l))) = (set_gclient (lo_gclient l) L, []).
Proof.
  intros Hp H. dispatch. destruct (lo_gclient l) as [v|] eqn:E; [|unset]. read (pr_gclient l Hp v E). by rewrite H.
Qed.

Lemma field_ssh_key l L : proper l -> lo_ssh_key L = None ->
  apply_field valid_ssh_key sound L (shared SET_SSH_KEY (default [] (kc_value (lo_ssh_key l)))) = (set_ssh_key (kc_value (lo_ssh_key l)) L, []).
Proof.
  intros Hp H. dispatch. destruct (kc_value (lo_ssh_key l)) as [v|] eqn:E; [|unset]. read (kc_value_trimmed _ _ E).
  unfold key_pem_adopt. rewrite H0, (bool_decide_false _ H1), (pr_ssh_key l Hp v E), H. done.
Qed.

Lemma js_clean {A} {J : TextJson A} {LJ : TextJsonLaws A} (a : A) : trim (js_encode a) = js_encode a /\ js_encode a <> [].
Proof. split; [apply js_trimmed|apply js_nonempty]. Qed.

Lemma field_netdata l L : lo_netdata L = ∅ ->
  apply_field valid_ssh_key sound L (shared SET_NETDATA (netdata_config_json l)) = (set_netdata (lo_netdata l) L, []).
Proof.
  intros H. dispatch. unfold netdata_config_json. destruct (bool_decide_reflect (lo_netdata l = ∅)) as [E|E]; [rewrite E; unset|]. read (js_clean (lo_netdata l)).
  unfold apply_netdata_config_json. rewrite js_decode_encode. cbn. by rewrite H, (right_id_L ∅ (∪)).
Qed.

(** What a device with nothing of its own makes of these preferences. *)
Definition arrived_prefs (p : Settings) : Settings :=
  match p with
  | Object m => if bool_decide (syncable m = ∅) then NoSettings else Object (<["telemetry" := VBool false]> (syncable m))
  | _ => NoSettings
  end.

Lemma syncable_idemp m : syncable (syncable m) = syncable m.
Proof. unfold syncable. rewrite map_filter_filter. apply map_filter_ext. naive_solver. Qed.

Lemma syncable_telemetry m : syncable (<["telemetry" := VBool false]> m) = syncable m.
Proof. unfold syncable. apply map_filter_insert_not'; cbn; [set_solver|]. intros y _. set_solver. Qed.

Lemma field_prefs l L : lo_prefs L = NoSettings ->
  apply_field valid_ssh_key sound L (shared SET_PREFS (prefs_sync_export l)) = (set_prefs (arrived_prefs (lo_prefs l)) L, []).
Proof.
  intros H. dispatch. unfold prefs_sync_export, arrived_prefs. destruct (lo_prefs l) as [| |m]; [unset..|].
  destruct (bool_decide_reflect (syncable m = ∅)); [unset|]. read (js_clean (syncable m)). unfold apply_prefs_sync. rewrite js_decode_encode, H. cbn.
  by rewrite (right_id_L ∅ (∪)), syncable_idemp.
Qed.

Lemma field_watchdog l L : lo_watchdog L = WatchdogFileCfg_default ->
  apply_field valid_ssh_key sound L (shared SET_WATCHDOG (watchdog_config_json l)) = (set_watchdog (lo_watchdog l) L, []).
Proof.
  intros H. dispatch. unfold watchdog_config_json. cbv zeta.
  destruct (bool_decide_reflect (js_encode (lo_watchdog l) = js_encode WatchdogFileCfg_default)) as [E%js_inj|E]; [rewrite E; unset|].
  read (js_clean (lo_watchdog l)). unfold apply_watchdog_config_json. by rewrite js_decode_encode.
Qed.

Definition arrived_auth (l : Local) : gmap text text :=
  fold_left (apply_cred sound) (map_to_list (map_imap (netdata_cred l) (lo_netdata l))) ∅.

Lemma field_ndauth l L : lo_netdata_auth L = ∅ ->
  apply_field valid_ssh_key sound L (shared SET_NDAUTH (netdata_auth_json l)) = (set_netdata_auth (arrived_auth l) L, []).
Proof.
  intros H. dispatch. unfold netdata_auth_json, arrived_auth. cbv zeta. set (out := map_imap _ _) in *.
  destruct (bool_decide_reflect (out = ∅)) as [E|E].
  - rewrite E, map_to_list_empty. cbn [fold_left]. unset.
  - read (js_clean out). unfold apply_netdata_auth_json. by rewrite js_decode_encode, H.
Qed.

(** The always-on node with an id, and its key. *)
Definition arrived_node (l : Local) : option Mgr.PersistentVpnRecord :=
  match lo_node l with Some r => if bool_decide (trim (Mgr.rec_id r) = []) then None else Some r | None => None end.
Definition arrived_wg (l : Local) : option text := match arrived_node l with Some _ => kc_value (lo_wg_key l) | None => None end.

Lemma field_aovpn l L : lo_node L = None -> lo_wg_key L = None ->
  apply_field valid_ssh_key sound L (shared SET_AOVPN (persistent_sync_export l)) = (set_node (arrived_node l) (arrived_wg l) L, []).
Proof.
  intros H Hw. dispatch. unfold persistent_sync_export, arrived_wg, arrived_node. destruct (lo_node l) as [r|] eqn:Er; [|unset].
  destruct (bool_decide_reflect (trim (Mgr.rec_id r) = [])) as [E|E]; [unset|].
  read (js_clean (r, default [] (kc_value (lo_wg_key l)))). unfold persistent_sync_import. rewrite H, js_decode_encode.
  rewrite (bool_decide_false _ E). cbn [files_ok kc_ok sound]. destruct (kc_value (lo_wg_key l)) as [w|] eqn:Ew; cbn [default id].
  - destruct (kc_value_trimmed _ _ Ew) as [-> Hn]. by rewrite (bool_decide_false _ Hn).
  - rewrite bool_decide_true by done. cbn. by rewrite Hw.
Qed.

Lemma merge_pin_new v : trim (host_key_fingerprint v) <> [] -> merge_pin None v = v /\ pin_changes None v = true.
Proof.
  intros H. unfold merge_pin, pin_changes. cbn [default SshServerCfg_default host_key_fingerprint installed orb].
  rewrite bool_decide_true by done. rewrite (bool_decide_false _ H). cbn. by destruct v.
Qed.

Lemma field_pins l L : proper l -> lo_ssh L = ∅ ->
  apply_field valid_ssh_key sound L (shared SET_SSH_PINS (ssh_pins_export l)) = (set_ssh (lo_ssh l) L, []).
Proof.
  intros Hp H. pose proof (pr_pins l Hp) as Hpin. dispatch. unfold ssh_pins_export.
  destruct (bool_decide_reflect (lo_ssh l = ∅)) as [E|E]; [rewrite E; unset|]. read (js_clean (lo_ssh l)).
  unfold ssh_pins_apply. rewrite js_decode_encode, H. set (m := lo_ssh l) in *.
  assert (Hm : merge (fun mine v => match v with Some v => Some (merge_pin mine v) | None => mine end) ∅ m = m).
  { apply map_eq. intros k. rewrite lookup_merge, lookup_empty. destruct (m !! k) as [v|] eqn:Ev; cbn; [|done].
    f_equal. apply merge_pin_new, (Hpin _ _ Ev). }
  rewrite Hm. destruct (map_choose _ E) as (k & v & Hv).
  assert (Hc : existsb (fun kv => pin_changes ((∅ : gmap text SshServerCfg) !! kv.1) kv.2) (map_to_list m) = true).
  { apply existsb_exists. exists (k, v). split; [by apply list_elem_of_In, elem_of_map_to_list|]. cbn. rewrite lookup_empty.
    apply merge_pin_new, (Hpin _ _ Hv). }
  cbv zeta. by rewrite Hc.
Qed.

(** The new device after it has read another's settings. *)
Definition rehydrated (l : Local) : Local :=
  MkLocal (kc_value (lo_linode l)) (kc_value (lo_hetzner l)) (kc_value (lo_gsecret l)) (kc_value (lo_ssh_key l)) (lo_gclient l)
    (arrived_prefs (lo_prefs l)) (lo_netdata l) (arrived_auth l) (lo_ssh l) (lo_watchdog l) (arrived_node l) (arrived_wg l).

Lemma fields_applied l : proper l ->
  apply_fields valid_ssh_key sound (map (fun nv => shared nv.1 nv.2) (local_settings l)) fresh [] = (rehydrated l, []).
Proof.
  intros Hp. unfold local_settings. cbn [map fst snd apply_fields].
  rewrite field_linode, field_gclient, field_gsecret, field_hetzner, field_netdata, field_prefs, field_watchdog, field_ndauth,
    field_aovpn, field_ssh_key, field_pins by done. done.
Qed.

Lemma stored_again o : kc_value (kc_value o) = kc_value o.
Proof. destruct (kc_value o) as [s|] eqn:E; [by apply (kc_value_stored o)|done]. Qed.

(** It reads the same settings. *)
Lemma rehydrated_settings l : local_settings (rehydrated l) = local_settings l.
Proof.
  unfold local_settings. cbn [lo_linode lo_gclient lo_gsecret lo_hetzner lo_ssh_key rehydrated]. rewrite !stored_again.
  assert (E1 : prefs_sync_export (rehydrated l) = prefs_sync_export l).
  { unfold prefs_sync_export, rehydrated, arrived_prefs. cbn [lo_prefs]. destruct (lo_prefs l) as [| |m]; [done..|].
    destruct (bool_decide_reflect (syncable m = ∅)) as [E|E]; [done|]. rewrite syncable_telemetry, syncable_idemp. by rewrite (bool_decide_false _ E). }
  assert (E2 : netdata_auth_json (rehydrated l) = netdata_auth_json l).
  { unfold netdata_auth_json. cbv zeta. cbn [lo_netdata rehydrated]. by rewrite (creds_carried (lo_netdata l) l (rehydrated l) eq_refl). }
  assert (E3 : persistent_sync_export (rehydrated l) = persistent_sync_export l).
  { unfold persistent_sync_export, rehydrated, arrived_wg, arrived_node. cbn [lo_node lo_wg_key].
    destruct (lo_node l) as [r|]; [|done]. destruct (bool_decide_reflect (trim (Mgr.rec_id r) = [])) as [E|E]; [done|].
    by rewrite (bool_decide_false _ E), stored_again. }
  by rewrite E1, E2, E3.
Qed.

(** Every value is written as it is. *)
Lemma local_clean l : proper l -> Forall (fun nv => trim nv.2 = nv.2) (local_settings l).
Proof.
  intros Hp. assert (Ho : forall o, trim (default [] (kc_value o)) = default [] (kc_value o)).
  { intros o. destruct (kc_value o) as [s|] eqn:E; [apply (kc_value_trimmed _ _ E)|done]. }
  unfold local_settings. repeat constructor; cbn [snd]; try apply Ho;
    unfold netdata_config_json, prefs_sync_export, watchdog_config_json, netdata_auth_json, persistent_sync_export, ssh_pins_export; cbv zeta;
    repeat case_match; try apply js_trimmed; try done.
  destruct (lo_gclient l) as [s|] eqn:E; [apply (pr_gclient l Hp s E)|done].
Qed.

Lemma built_fields now l : proper l ->
  Item.custom_fields (build_item now None (local_settings l)) = map (fun nv => shared nv.1 nv.2) (local_settings l).
Proof.
  intros Hp. unfold build_item. cbn [Item.custom_fields]. rewrite map_map. apply map_ext_in. intros [n v] Hin.
  apply list_elem_of_In in Hin. pose proof (proj1 (Forall_forall _ _) (local_clean l Hp) _ Hin) as Hv. cbn [snd] in Hv.
  unfold keep_existing, shared. cbn [fst snd]. case_bool_decide as E; [|done]. rewrite Hv in E. by subst v.
Qed.

Lemma no_heal now l : proper l -> needs_heal (build_item now None (local_settings l)) (local_settings l) = false.
Proof.
  intros Hp. unfold needs_heal. apply not_true_is_false. intros ([n v] & Hin & H)%existsb_exists. cbn [fst snd] in H.
  apply list_elem_of_In in Hin. rewrite (field_of_built _ _ _ _ v) in H by (done || rewrite local_names; apply shared_names_distinct).
  unfold keep_existing in H. cbn in H. bools. case_bool_decide; done.
Qed.

(** Reading the whole item, every write succeeding. *)
Lemma rehydrate_all now now' nonce g l vt :
  proper l -> settings_item g vt = Some (build_item now None (local_settings l)) ->
  exists l', sync_device_settings valid_ssh_key sound now' nonce g fresh vt = (l', vt, [], false)
    /\ local_settings l' = local_settings l.
Proof.
  intros Hp Hi. exists (rehydrated l). unfold sync_device_settings. rewrite Hi, built_fields, fields_applied by done.
  split; [|apply rehydrated_settings]. cbv zeta. by rewrite rehydrated_settings, no_heal.
Qed.

End rehydrate.

(** * Concrete runs *)

(** Settings sync on concrete devices: the theorems above instantiated, and two ways in
    which devices overwrite each other's shared values. *)
Import Settings.

Module SettingsDemo.
(** A value written as the number of its encoding, between braces. *)
Definition braced {A} `{Countable A} : TextJson A := {|
  js_encode a := [123; Z.pos (encode a); 125];
  js_decode t := match t with [_; Z.pos p; _] => decode p | _ => None end;
|}.
Lemma braced_laws {A} `{Countable A} : TextJsonLaws A (J := braced).
Proof. split; [intros a; apply decode_encode|done..]. Qed.

#[export] Instance NetdataFileCfg_eq_dec : EqDecision NetdataFileCfg.
Proof. solve_decision. Defined.
#[export] Instance NetdataFileCfg_countable : Countable NetdataFileCfg.
Proof. apply (inj_countable' (fun c => (nd_enabled c, nd_port c, nd_https c, has_auth c)) (fun '(a, b, c, d) => MkNetdataFileCfg a b c d)). by intros []. Defined.
#[export] Instance SshServerCfg_eq_dec : EqDecision SshServerCfg.
Proof. solve_decision. Defined.
#[export] Instance SshServerCfg_countable : Countable SshServerCfg.
Proof. apply (inj_countable' (fun c => (host_key_fingerprint c, installed c)) (fun '(a, b) => MkSshServerCfg a b)). by intros []. Defined.
#[export] Instance f64_countable : Countable f64.
Proof.
  apply (inj_countable' (fun x => match x with
    | S754_zero s => (0, s, xH, 0) | S754_infinity s => (1, s, xH, 0) | S754_nan => (2, true, xH, 0) | S754_finite s m e => (3, s, m, e) end)
    (fun '(k, s, m, e) => if k =? 0 then S754_zero s else if k =? 1 then S754_infinity s else if k =? 2 then S754_nan else S754_finite s m e)).
  by intros [].
Defined.
#[export] Instance WatchdogFileCfg_eq_dec : EqDecision WatchdogFileCfg.
Proof. solve_decision. Defined.
#[export] Instance WatchdogFileCfg_countable : Countable WatchdogFileCfg.
Proof.
  apply (inj_countable' (fun c => (wd_enabled c, wd_interval_secs c, wd_cpu_pct c, (wd_cpu_sustain_ticks c, wd_disk_pct c), (security_alerts c, ban_sync c)))
    (fun '(a, b, c, (d, e), (f, g)) => MkWatchdogFileCfg a b c d e f g)). by intros [].
Defined.
#[export] Instance SettingVal_eq_dec : EqDecision SettingVal.
Proof. solve_decision. Defined.
#[export] Instance SettingVal_countable : Countable SettingVal.
Proof.
  apply (inj_countable' (fun v => match v with VBool b => inl b | VRaw t => inr t end) (fun v => match v with inl b => VBool b | inr t => VRaw t end)).
  by intros [].
Defined.
#[export] Instance Record_eq_dec : EqDecision Mgr.PersistentVpnRecord.
Proof. solve_decision. Defined.
#[export] Instance Record_countable : Countable Mgr.PersistentVpnRecord.
Proof.
  apply (inj_countable' (fun r => (Mgr.rec_id r, Mgr.rec_ipv4 r, (Mgr.rec_type r, Mgr.rec_region r), (Mgr.created_at r, Mgr.server_pubkey r),
      (Mgr.client_ip r, Mgr.listen_port r))) (fun '(a, b, (c, d), (e, f), (g, h)) => Mgr.MkRecord a b c d e f g h)). by intros [].
Defined.

#[export] Instance jn : TextJson (gmap text NetdataFileCfg) := braced.
#[export] Instance ja : TextJson (gmap text text) := braced.
#[export] Instance js : TextJson (gmap text SshServerCfg) := braced.
#[export] Instance jw : TextJson WatchdogFileCfg := braced.
#[export] Instance jp : TextJson (gmap string SettingVal) := braced.
#[export] Instance jv : TextJson (Mgr.PersistentVpnRecord * text) := braced.

(** A desktop with a cloud token, a monitored server, a pinned host and an always-on node. *)
Definition node (id : text) : Mgr.PersistentVpnRecord := Mgr.MkRecord id [] [] [] 0 [] [] 0.
Definition desktop : Local :=
  MkLocal None (Some (lit " hz ")) None (Some (lit "pem")) (Some (lit "cid")) (Object {["dark" := VBool true; "requireHello" := VBool true]})
    {[lit "h:1" := MkNetdataFileCfg true 1 false true]} {[lit "netdata-auth-h-1" := lit "u"]} {[lit "h:1" := MkSshServerCfg (lit "fp") true]}
    WatchdogFileCfg_default (Some (node (lit "7"))) (Some (lit "wg")).
Definition any_key (pem : text) : bool := true.
(** The same without a terminal key and credentials, and its item. *)
Definition plain : Local := MkLocal None (lo_hetzner desktop) None None (lo_gclient desktop) (lo_prefs desktop) (lo_netdata desktop) ∅ (lo_ssh desktop)
  (lo_watchdog desktop) (lo_node desktop) (lo_wg_key desktop).
Definition plain_item : Item.t := Eval vm_compute in build_item 10 None (local_settings plain).

(** The item it shares at time 10; a laptop that replaced the token but whose keychain is broken, and
    what that one makes of the item; another that has a node of its own, and the item it writes. *)
Definition shared_item : Item.t := Eval vm_compute in build_item 10 None (local_settings desktop).
Definition laptop : Local := set_hetzner (Some (lit "old")) fresh.
Definition broken : Fate := MkFate (fun _ => false) true.
Definition after_broken : Local := Eval vm_compute in (apply_fields any_key broken (Item.custom_fields shared_item) laptop []).1.
Definition broken_item : Item.t := Eval vm_compute in build_item 20 (Some shared_item) (local_settings after_broken).
Definition second_home : Local := set_node (Some (node (lit "9"))) None desktop.
Definition second_item (n : Z) : Item.t := build_item n (Some shared_item) (local_settings second_home).
Definition first_item (n : Z) : Item.t := build_item n (Some shared_item) (local_settings desktop).
Definition item_table : list Item.t := Eval vm_compute in [shared_item; broken_item; second_item 11; first_item 12; second_item 13;
  build_item 5 (Some shared_item) (local_settings fresh); plain_item].
#[export] Instance item_json : Json Item.t := table_json item_table.
#[export] Instance item_json_laws : JsonLaws Item.t := table_json_laws item_table.

Definition g : VaultSession.t := VaultSession.unlocked demo_vk.
Definition vault_of (item : Item.t) : LocalVault.t :=
  match VaultSession.seal demo_nonce g item with Ok env => snd (LocalVault.upsert LocalVault.open env) | _ => LocalVault.open end.
Definition vault : LocalVault.t := vault_of shared_item.
End SettingsDemo.
Import SettingsDemo.

Lemma desktop_proper : proper any_key desktop.
Proof.
  split.
  - intros s [= <-]. vm_compute. split; [reflexivity|discriminate].
  - done.
  - intros k p. cbn. intros [<- <-]%lookup_singleton_Some. vm_compute. discriminate.
Qed.

Lemma vault_item : settings_item g vault = Some shared_item.
Proof. vm_compute. reflexivity. Qed.

(** A phone with nothing set rewrites the item at time 5: the token stays. *)
Lemma sharing_never_erases_witness :
  exists item', settings_item g (snd (write_settings_item 5 demo_nonce g (local_settings fresh) vault)) = Some item'
    /\ 10 < Item.updated_at item' /\ field_of item' SET_HETZNER = Some (lit "hz").
Proof.
  destruct (sharing_never_erases 5 demo_nonce demo_vk fresh vault
              (snd (write_settings_item 5 demo_nonce g (local_settings fresh) vault)) tt shared_item) as (item' & H1 & H2 & _ & _ & H3 & _ & _).
  - exact vault_item.
  - split; vm_compute; congruence.
  - split; vm_compute; congruence.
  - apply injective_projections; [|reflexivity]. vm_compute. reflexivity.
  - exists item'. split; [exact H1|]. split; [exact H2|]. exact (H3 SET_HETZNER [] ltac:(do 3 right; left)).
Defined.


(** A laptop whose keychain refuses the newer token keeps its old one, and the self-heal then shares
    the old one with every device, in an item newer than the right one. *)
Lemma broken_keychain_clobbers :
  let '(_, vt, errs, wrote) := sync_device_settings any_key broken 20 demo_nonce g laptop vault in
  errs = ["Hetzner token"; "SSH terminal key"] /\ wrote = true
  /\ (settings_item g vt ≫= fun i => field_of i SET_HETZNER) = Some (lit "old")
  /\ option_map Item.updated_at (settings_item g vt) = Some 20.
Proof. vm_compute. repeat split. Qed.

(** Two computers with an always-on node each rewrite the item at every sync, each with its own. *)
Lemma nodes_alternate :
  let '(_, v1, _, w1) := sync_device_settings any_key sound 11 demo_nonce g second_home vault in
  let '(_, v2, _, w2) := sync_device_settings any_key sound 12 demo_nonce g desktop v1 in
  let '(_, v3, _, w3) := sync_device_settings any_key sound 13 demo_nonce g second_home v2 in
  w1 = true /\ w2 = true /\ w3 = true
  /\ map (fun v => option_map Item.updated_at (settings_item g v)) [v1; v2; v3] = [Some 11; Some 12; Some 13].
Proof. vm_compute. repeat split. Qed.
