(* ===== verification/Cloud.v ===== *)
(** [crates/core/src/cloud/manager.rs], the data of multi-provider server management, with what the
    provider clients share: an HTTP interface, [f64] conversions of the standard library, a stable
    sort, and the fields of derived deserializers. *)
From S2P Require Import Prelude Bytes Text Crypto Floats Value Toy RecoveryKit Keyring Model Csv Importers Provision Vpn.
From Stdlib Require Import Floats.SpecFloat.
Local Open Scope Z_scope.

(** * Numbers *)

Module Flt.
Definition neg (x : f64) : bool := match x with S754_zero s | S754_infinity s | S754_finite s _ _ => s | S754_nan => false end.

(** [f64::abs], [f64::clamp] and the sum of an iterator. *)
Definition abs (x : f64) : f64 := SFabs x.
Definition clamp (lo hi x : f64) : f64 :=
  let x := if F64.ltb x lo then lo else x in if F64.ltb hi x then hi else x.
Definition sum (l : list f64) : f64 := fold_left F64.add l F64.zero.
Definition pct (x : f64) : f64 := clamp F64.zero (F64.of_Z 100) x.

(** The integer part, towards zero, and the nearest integer, halves away from zero, of a magnitude. *)
Definition trunc_mag (m : positive) (e : Z) : Z := if 0 <=? e then Zpos m * 2 ^ e else Zpos m / 2 ^ (- e).
Definition round_mag (m : positive) (e : Z) : Z := if 0 <=? e then Zpos m * 2 ^ e else (2 * Zpos m + 2 ^ (- e)) / 2 ^ (1 - e).
Definition signed (s : bool) (n : Z) : Z := if s then - n else n.

(** [x as i64] and [x.round() as u32], which saturate; NaN is 0. *)
Definition to_i64 (x : f64) : Z :=
  match x with
  | S754_finite s m e => Z.max (- 2 ^ 63) (Z.min (2 ^ 63 - 1) (signed s (trunc_mag m e)))
  | S754_infinity s => if s then - 2 ^ 63 else 2 ^ 63 - 1
  | _ => 0
  end.
Definition round_u32 (x : f64) : Z :=
  match x with
  | S754_finite s m e => Z.max 0 (Z.min (2 ^ 32 - 1) (signed s (round_mag m e)))
  | S754_infinity false => 2 ^ 32 - 1
  | _ => 0
  end.

(** The [f64] nearest to [n * 10^k]. *)
Definition scaled (s : bool) (n k : Z) : f64 :=
  match n with
  | Zpos p =>
      if 0 <=? k then binary_normalize F64.prec F64.emax (signed s (n * 10 ^ k)) 0 s
      else let '(q, e, l) := SFdiv_core_binary F64.prec F64.emax n 0 (10 ^ (- k)) 0 in binary_round_aux F64.prec F64.emax s q e l
  | _ => S754_zero s
  end.

(** [str::parse::<f64>]: an optional sign; [inf], [infinity] or [nan] in any case; or digits with at
    most one dot and an optional exponent. *)
Definition sign_of (s : text) : bool * text :=
  match s with c :: r => if c =? chr "-" then (true, r) else if c =? chr "+" then (false, r) else (false, s) | [] => (false, []) end.
Definition split_exp (s : text) : option (text * Z) :=
  match split_once (chr "e") (map to_ascii_lowercase s) with
  | None => Some (s, 0)
  | Some (mant, ex) =>
      let '(neg, ds) := sign_of ex in
      match ds with [] => None | _ => (fun n => (mant, signed neg n)) <$> digits_val 0 ds end
  end.
Definition parse (s : text) : option f64 :=
  let '(neg, r) := sign_of s in
  if existsb (fun w => eq_ignore_ascii_case r (lit w)) ["inf"; "infinity"] then Some (S754_infinity neg)
  else if eq_ignore_ascii_case r (lit "nan") then Some S754_nan
  else match split_exp r with
       | None => None
       | Some (mant, ex) =>
           let '(whole, frac) := match split_once (chr ".") mant with Some p => p | None => (mant, []) end in
           if bool_decide (whole ++ frac = []) then None
           else (fun n => scaled neg n (ex - Z.of_nat (length frac))) <$> digits_val 0 (whole ++ frac)
       end.
End Flt.

(** * Sorting *)

(** A stable sort by a strict order. *)
Section sorting.
Context {A : Type} (lt : A -> A -> bool).
Fixpoint insert_by (x : A) (l : list A) : list A :=
  match l with [] => [x] | y :: l' => if lt y x then y :: insert_by x l' else x :: l end.
Definition sort_by (l : list A) : list A := foldr insert_by [] l.

Lemma insert_by_perm x l : insert_by x l ≡ₚ x :: l.
Proof. induction l as [|y l IH]; cbn; [done|]. destruct (lt y x); [|done]. rewrite IH. constructor. Qed.

Lemma sort_by_perm l : sort_by l ≡ₚ l.
Proof. induction l as [|x l IH]; cbn; [done|]. by rewrite insert_by_perm, IH. Qed.

Hypothesis lt_asym : forall x y, lt x y = true -> lt y x = false.
Hypothesis lt_trans : forall x y z, lt y x = false -> lt z y = false -> lt z x = false.

Lemma insert_by_sorted x l :
  StronglySorted (fun a b => lt b a = false) l -> StronglySorted (fun a b => lt b a = false) (insert_by x l).
Proof.
  induction 1 as [|y l Hs IH Hf]; cbn; [repeat constructor|]. destruct (lt y x) eqn:E.
  - constructor; [done|]. apply Forall_forall. intros z Hz. rewrite insert_by_perm in Hz. apply elem_of_cons in Hz as [->|Hz]; [by apply lt_asym|].
    by apply (proj1 (Forall_forall _ _) Hf).
  - constructor; [by constructor|]. constructor; [done|]. apply Forall_forall. intros z Hz.
    apply (lt_trans _ y); [done|]. by apply (proj1 (Forall_forall _ _) Hf).
Qed.

Lemma sort_by_sorted l : StronglySorted (fun a b => lt b a = false) (sort_by l).
Proof. induction l as [|x l IH]; cbn; [constructor|by apply insert_by_sorted]. Qed.
End sorting.

Lemma sorted_mono {A} (R Q : A -> A -> Prop) l : (forall x y, R x y -> Q x y) -> StronglySorted R l -> StronglySorted Q l.
Proof. intros H. induction 1 as [|x l Hs IH Hf]; constructor; [done|]. by eapply Forall_impl; [exact Hf|auto]. Qed.

(** * The interface *)

(** One request: [Authorization] and [X-Filter] headers and a JSON body, when there are some. *)
Record HttpReq : Type := MkHttpReq { method : string; url : text; authorization : option text; x_filter : option Value; req_body : option Value }.

(** [reqwest], on a world of servers: the status and the body, or the text of the error. *)
Class Http (W : Type) : Type := { send : HttpReq -> ST W string (Z * text) }.

Definition is_success (status : Z) : bool := (200 <=? status) && (status <? 300).

(** * [manager.rs] *)

Inductive Provider : Type := Linode | Hetzner.
Inductive PowerAction : Type := Boot | Shutdown | Reboot | Reset.
Definition as_str (p : Provider) : text := lit (match p with Linode => "linode" | Hetzner => "hetzner" end).

Record ServerInfo : Type := MkServerInfo {
  si_provider : Provider; si_id : text; si_label : text; si_region : text; si_type : text; si_state : InstanceState.t;
  si_ipv4 : option text; si_ipv6 : option text; si_tags : list text; si_created_at : option Z;
  si_vcpus : Z; si_memory_mb : Z; si_disk_gb : Z; si_hourly : f64; si_monthly : f64; si_currency : string }.

Record MetricPoint : Type := MkPoint { ts : Z; value : f64 }.
Record ServerMetrics : Type := MkServerMetrics {
  cpu_pct : list MetricPoint; net_in_bps : list MetricPoint; net_out_bps : list MetricPoint; disk_io : list MetricPoint }.

Definition normalize_cpu_to_whole_machine (vcpus : Z) (m : ServerMetrics) : ServerMetrics :=
  if vcpus <? 2 then m
  else MkServerMetrics (map (fun p => MkPoint (ts p) (F64.div (value p) (F64.of_Z vcpus))) (cpu_pct m)) (net_in_bps m) (net_out_bps m) (disk_io m).

Record Snapshot : Type := MkSnapshot { sn_id : text; sn_label : text; sn_created_at : option Z; size_gb : option f64; sn_status : text }.
Record ServerEvent : Type := MkServerEvent { ev_action : text; ev_status : text; ev_created_at : option Z; ev_progress : option f64 }.

(** [trait ServerManager], on a world. *)
Class ServerManager (W : Type) : Type := {
  list_all : ST W CoreError (list ServerInfo);
  metrics : text -> Z -> ST W CoreError ServerMetrics;
  power : text -> PowerAction -> ST W CoreError unit;
  snapshot : text -> text -> ST W CoreError unit;
  list_snapshots : text -> ST W CoreError (list Snapshot);
  set_rdns : text -> text -> text -> ST W CoreError unit;
  set_protection : text -> bool -> ST W CoreError unit;
  recent_events : text -> ST W CoreError (list ServerEvent);
}.
Definition not_supported : CoreError := Network "not supported by this provider".

(** * Fields of derived deserializers *)

(** The crate's message on a body that is JSON but does not fit the type. *)
Class JsonMisfit : Type := { misfit : text -> string }.

(** [serde_json::from_str] at a derived type. *)
Definition from_str {J : JsonText} {X : JsonMisfit} {A} (dec : Value -> option A) (body : text) : string + A :=
  match json_parse body with
  | inl e => inl e
  | inr v => match dec v with Some a => inr a | None => inl (misfit body) end
  end.

(** [v.get(i)] on arrays. *)
Definition get_at (i : nat) (v : Value) : option Value := match v with Arr l => l !! i | _ => None end.

Module Field.
Definition u64 (f : option Value) : option Z := f ≫= Js.as_u64.
Definition u32_of (v : Value) : option Z := match v with Int z => if (0 <=? z) && (z <? 2 ^ 32) then Some z else None | _ => None end.
Definition u32_default (f : option Value) : option Z := match f with None => Some 0 | Some v => u32_of v end.
Definition f64_default (f : option Value) : option f64 := match f with None => Some F64.zero | Some v => Js.as_f64 v end.
(** [Option<T>] with [#[serde(default)]]. *)
Definition opt {A} (dec : Value -> option A) (f : option Value) : option (option A) :=
  match f with None | Some Null => Some None | Some v => Some <$> dec v end.
Definition list_of {A} (dec : Value -> option A) (v : Value) : option (list A) := Js.as_array v ≫= mapM dec.
Definition list_default {A} (dec : Value -> option A) (f : option Value) : option (list A) :=
  match f with None => Some [] | Some v => list_of dec v end.
(** [BTreeMap<String, String>]. *)
Definition str_map_default (f : option Value) : option (list (text * text)) :=
  match f with None => Some [] | Some v => Js.as_object v ≫= mapM (fun kv => (pair kv.1) <$> Js.as_str kv.2) end.
End Field.

(** Texts in the order of their bytes, which is that of their code points. *)
Fixpoint text_lt (a b : text) : bool :=
  match a, b with
  | _, [] => false
  | [], _ :: _ => true
  | x :: a, y :: b => (x <? y) || ((x =? y) && text_lt a b)
  end.

Lemma text_lt_asym a b : text_lt a b = true -> text_lt b a = false.
Proof.
  revert b. induction a as [|x a IH]; intros [|y b]; cbn; try done.
  intros [H|[H1 H2]%andb_true_iff]%orb_true_iff.
  - apply Z.ltb_lt in H. rewrite (proj2 (Z.ltb_ge _ _)), (proj2 (Z.eqb_neq _ _)) by lia. done.
  - apply Z.eqb_eq in H1 as ->. rewrite Z.ltb_irrefl, Z.eqb_refl. cbn. by apply IH.
Qed.

Lemma text_lt_trans x y z : text_lt y x = false -> text_lt z y = false -> text_lt z x = false.
Proof.
  revert y z. induction x as [|a x IH]; intros [|b y] [|c z]; cbn; try done.
  rewrite !orb_false_iff, !andb_false_iff, !Z.ltb_ge, !Z.eqb_neq. intros [H1 H2] [H3 H4]. split; [lia|].
  destruct (decide (c = a)) as [->|]; [|by left]. assert (b = a) as -> by lia. right. destruct H2, H4; try lia. by apply (IH y).
Qed.

(** Options of times: [None] first. *)
Definition opt_lt (a b : option Z) : bool :=
  match a, b with None, Some _ => true | Some x, Some y => x <? y | _, None => false end.
Lemma opt_lt_asym a b : opt_lt a b = true -> opt_lt b a = false.
Proof. destruct a, b; cbn; try done. rewrite Z.ltb_lt, Z.ltb_ge. lia. Qed.
Lemma opt_lt_trans x y z : opt_lt y x = false -> opt_lt z y = false -> opt_lt z x = false.
Proof. destruct x, y, z; cbn; try done. rewrite !Z.ltb_ge. lia. Qed.
