(* ===== verification/Netdata.v ===== *)
(** [crates/core/src/cloud/netdata.rs]: the client of a Netdata agent, the readers of its answers and
    the rules that turn a chart's table into percentages and lines. HTTP and the parsing of JSON text
    are parameters. The sum of no numbers is 0. *)
From S2P Require Import Prelude Bytes Text Crypto Floats Value Toy RecoveryKit Keyring Model Csv Importers Provision Vpn NmHost Cloud.
From Stdlib Require Import Floats.SpecFloat.
Local Open Scope Z_scope.

Module Netdata.
Record NetdataEndpoint : Type := MkEndpoint { https : bool; host : text; port : Z; auth_header : option text }.
Record NetdataInfo : Type := MkInfo { version : text; hostname : text }.
Record NetdataSeries : Type := MkSeries { labels : list text; rows : list (Z * list f64) }.
Record NetdataAlarm : Type := MkAlarm { am_name : text; am_status : text; am_value : text }.
Record AlarmLogEntry : Type := MkLogEntry { when : Z; le_name : text; le_status : text; old_status : text; le_value : text }.
Record ChartMeta : Type := MkChart { ch_id : text; ch_title : text; ch_units : text; ch_family : text }.
Definition NamedSeries : Type := list (text * list MetricPoint).

Definition base_url (ep : NetdataEndpoint) : text :=
  lit (if https ep then "https" else "http") ++ lit "://" ++ host ep ++ lit ":" ++ show_dec (port ep).

(** ** Readers *)

Definition str_at (k : string) (v : Value) : text := default [] (Js.get (lit k) v ≫= Js.as_str).
Definition bad {A} (what : string) (e : string) : Result A := Err (Network ("Netdata: bad " +:+ what +:+ " response (" +:+ e +:+ ")")).

Section readers.
Context {J : JsonText} {X : JsonMisfit}.

Definition parse_info (body : text) : Result NetdataInfo :=
  match json_parse body with
  | inl e => bad "info" e
  | inr v =>
      let hostname := match Js.get (lit "hostname") v ≫= Js.as_str with
                      | Some h => Some h
                      | None => (Js.get (lit "mirrored_hosts") v ≫= get_at 0) ≫= Js.as_str
                      end in
      Ok (MkInfo (default (lit "unknown") (Js.get (lit "version") v ≫= Js.as_str)) (default [] hostname))
  end.

(** A row of the table: its first cell is a time; what is not a number counts as 0. *)
Definition row_of (row : list Value) : option (Z * list f64) :=
  match row with
  | [] => None
  | t :: vs => (fun x => (Flt.to_i64 x, map (fun v => default F64.zero (Js.as_f64 v)) vs)) <$> Js.as_f64 t
  end.
Definition raw_of (v : Value) : option (list text * list (list Value)) :=
  match Js.struct_fields ["labels"; "data"] v with
  | Some [l; d] => l ← Js.strs l; d ← d ≫= Field.list_of Js.as_array; Some (l, d)
  | _ => None
  end.
Definition parse_data (body : text) : Result NetdataSeries :=
  match from_str raw_of body with
  | inl e => bad "data" e
  | inr (labels, data) => Ok (MkSeries labels (sort_by (fun a b => a.1 <? b.1) (omap row_of data)))
  end.

Definition alarm_of (ia : text * Value) : NetdataAlarm :=
  MkAlarm (default ia.1 (Js.get (lit "name") ia.2 ≫= Js.as_str)) (default (lit "UNKNOWN") (Js.get (lit "status") ia.2 ≫= Js.as_str))
    (str_at "value_string" ia.2).
Definition parse_alarms (body : text) : Result (list NetdataAlarm) :=
  match json_parse body with
  | inl e => bad "alarms" e
  | inr v => Ok (sort_by (fun a b => text_lt (am_name a) (am_name b)) (map alarm_of (default [] (Js.get (lit "alarms") v ≫= Js.as_object))))
  end.

Definition log_entry_of (e : Value) : option AlarmLogEntry :=
  w ← Js.get (lit "when") e ≫= Js.as_i64;
  Some (MkLogEntry w (str_at "name" e) (str_at "status" e) (str_at "old_status" e) (str_at "value_string" e)).
Definition parse_alarms_log (body : text) : Result (list AlarmLogEntry) :=
  match json_parse body with
  | inl e => bad "alarm_log" e
  | inr v => Ok (sort_by (fun a b => when b <? when a) (omap log_entry_of (default [] (Js.as_array v))))
  end.

Definition chart_of (ic : text * Value) : ChartMeta :=
  MkChart (default ic.1 (Js.get (lit "id") ic.2 ≫= Js.as_str)) (str_at "title" ic.2) (str_at "units" ic.2) (str_at "family" ic.2).
Definition parse_charts (body : text) : Result (list ChartMeta) :=
  match json_parse body with
  | inl e => bad "charts" e
  | inr v => Ok (sort_by (fun a b => text_lt (ch_id a) (ch_id b)) (map chart_of (default [] (Js.get (lit "charts") v ≫= Js.as_object))))
  end.
End readers.

(** [strip_suffix]. *)
Definition strip_suffix (p s : text) : option text := reverse <$> strip_prefix (reverse p) (reverse s).

(** [dedup]: of adjacent equal names one is kept. *)
Fixpoint dedup (l : list text) : list text :=
  match l with
  | x :: ((y :: _) as l') => if bool_decide (x = y) then dedup l' else x :: dedup l'
  | _ => l
  end.
Definition container_of (c : ChartMeta) : option text := strip_prefix (lit "cgroup_") (ch_id c) ≫= strip_suffix (lit ".cpu").
Definition container_names (charts : list ChartMeta) : list text := dedup (sort_by text_lt (omap container_of charts)).

(** ** Aggregation *)

(** The column of a label: labels start with the time. *)
Definition checked_pred (i : nat) : option nat := match i with O => None | S i => Some i end.
Definition column (p : text -> bool) (s : NetdataSeries) : option nat := Importers.position p (labels s) ≫= checked_pred.
Definition named (name : string) (l : text) : bool := bool_decide (l = lit name).

(** A point per row for which [f] has a value. *)
Definition points (f : list f64 -> option f64) (s : NetdataSeries) : list MetricPoint :=
  omap (fun r => MkPoint r.1 <$> f r.2) (rows s).

Definition positive_total (total used : f64) : option f64 :=
  if F64.leb total F64.zero then None else Some (Flt.pct (F64.mul (F64.div used total) (F64.of_Z 100))).

Definition cpu_total_pct (s : NetdataSeries) : list MetricPoint := points (fun vals => Some (Flt.pct (Flt.sum vals))) s.
Definition ram_used_pct (s : NetdataSeries) : list MetricPoint :=
  points (fun vals => i ← column (named "used") s; used ← vals !! i; positive_total (Flt.sum vals) used) s.
Definition disk_used_pct (s : NetdataSeries) : list MetricPoint :=
  match column (named "avail") s, column (named "used") s with
  | Some a, Some u => points (fun vals => avail ← vals !! a; used ← vals !! u; positive_total (F64.add avail used) used) s
  | _, _ => []
  end.
Definition swap_used_pct (s : NetdataSeries) : list MetricPoint :=
  match column (named "free") s, column (named "used") s with
  | Some f, Some u => points (fun vals => free ← vals !! f; used ← vals !! u; positive_total (F64.add free used) used) s
  | _, _ => []
  end.
Definition load1 (s : NetdataSeries) : list MetricPoint := points head s.
Definition net_total_bps (s : NetdataSeries) : list MetricPoint :=
  points (fun vals => Some (F64.mul (Flt.sum (map Flt.abs vals)) (F64.of_Z 1024))) s.

Definition named_dim (s : NetdataSeries) (name : string) : list MetricPoint :=
  match column (named name) s with Some i => points (fun vals => vals !! i) s | None => [] end.
Definition clamp_pct (l : list MetricPoint) : list MetricPoint := map (fun p => MkPoint (ts p) (Flt.pct (value p))) l.
Definition cpu_steal_pct (s : NetdataSeries) : list MetricPoint := clamp_pct (named_dim s "steal").
Definition procs_running (s : NetdataSeries) : list MetricPoint := named_dim s "running".
Definition uptime_secs (s : NetdataSeries) : list MetricPoint := named_dim s "uptime".
Definition psi_some (s : NetdataSeries) : list MetricPoint := clamp_pct (named_dim s "some 60").

Definition non_empty (s : NamedSeries) : NamedSeries := List.filter (fun l => negb (bool_decide (length l.2 = 0%nat))) s.
Definition load_all (s : NetdataSeries) : NamedSeries :=
  non_empty (map (fun '(label, dim) => (lit label, named_dim s dim)) [("1m", "load1"); ("5m", "load5"); ("15m", "load15")]).

Definition abs_column (s : NetdataSeries) (i : nat) : list MetricPoint := points (fun vals => Flt.abs <$> vals !! i) s.
Fixpoint dim_by_alias_abs (s : NetdataSeries) (aliases : list string) : list MetricPoint :=
  match aliases with
  | [] => []
  | a :: aliases =>
      match column (fun l => eq_ignore_ascii_case l (lit a)) s with
      | Some i => abs_column s i
      | None => dim_by_alias_abs s aliases
      end
  end.
Definition all_dims_abs (s : NetdataSeries) : NamedSeries :=
  non_empty (imap (fun i label => (label, abs_column s i)) (drop 1 (labels s))).
Definition two_lines_by_alias (s : NetdataSeries) (a b : string * list string) : NamedSeries :=
  let out := non_empty (map (fun la => (lit la.1, dim_by_alias_abs s la.2)) [a; b]) in
  match out with [] => all_dims_abs s | _ => out end.
Definition chart_all_series (s : NetdataSeries) : NamedSeries := all_dims_abs s.
Definition net_in_out (s : NetdataSeries) : NamedSeries :=
  two_lines_by_alias s ("in", ["InOctets"; "received"; "in"]) ("out", ["OutOctets"; "sent"; "out"]).
Definition disk_io_rw (s : NetdataSeries) : NamedSeries :=
  two_lines_by_alias s ("read", ["in"; "reads"; "read"]) ("write", ["out"; "writes"; "write"]).

(** ** The client *)

Section client.
Context {W : Type} {H : Http W} {J : JsonText} {X : JsonMisfit}.

Definition get_text (ep : NetdataEndpoint) (path : text) : ST W CoreError text := fun w =>
  match send (MkHttpReq "GET" (base_url ep ++ path) (auth_header ep) None None) w with
  | (Ok (status, body), w) =>
      if is_success status then (Ok body, w)
      else (Err (Network (to_string (lit "Netdata HTTP " ++ show_dec status ++ lit ": " ++ take 200 (trim body)))), w)
  | (Err e, w) => (Err (Network e), w)
  | (Panic, w) => (Panic, w)
  end.
Definition info (ep : NetdataEndpoint) : ST W CoreError NetdataInfo :=
  let! t := get_text ep (lit "/api/v1/info") in lift (parse_info t).
Definition data (ep : NetdataEndpoint) (chart : text) (after_secs pts : Z) : ST W CoreError NetdataSeries :=
  let! t := get_text ep (lit "/api/v1/data?chart=" ++ chart ++ lit "&after=-" ++ show_dec after_secs ++ lit "&points=" ++ show_dec pts
                         ++ lit "&format=json&options=seconds") in
  lift (parse_data t).
Definition alarms_active (ep : NetdataEndpoint) : ST W CoreError (list NetdataAlarm) :=
  let! t := get_text ep (lit "/api/v1/alarms?active") in lift (parse_alarms t).
Definition charts (ep : NetdataEndpoint) : ST W CoreError (list ChartMeta) :=
  let! t := get_text ep (lit "/api/v1/charts") in lift (parse_charts t).
Definition alarms_log (ep : NetdataEndpoint) : ST W CoreError (list AlarmLogEntry) :=
  let! t := get_text ep (lit "/api/v1/alarm_log") in lift (parse_alarms_log t).
End client.
End Netdata.

(** * Theorems *)

(** What the readers and rules promise: tables in time order with no reading lost,
    percentages that are percentages, charts that are never blank when the agent has data, and the
    exact list of containers. *)
Import Netdata.

(** * Numbers *)

Definition is_nan (x : f64) : bool := match x with S754_nan => true | _ => false end.

Lemma compare_antisym x y : SFcompare y x = CompOpp <$> SFcompare x y.
Proof.
  destruct x as [s|s| |s m e], y as [s'|s'| |s' m' e']; try destruct s; try destruct s'; cbn; try done;
    rewrite (Z.compare_antisym e e'); destruct (e ?= e'); cbn; try done;
    change (Pos.compare_cont Eq m' m) with (m' ?= m)%positive; change (Pos.compare_cont Eq m m') with (m ?= m')%positive;
    rewrite (Pos.compare_antisym m m'); by destruct (m ?= m')%positive.
Qed.

Lemma leb_not_ltb x y : is_nan x = false -> is_nan y = false -> F64.ltb x y = false -> F64.leb y x = true.
Proof.
  unfold F64.ltb, F64.leb, SFltb, SFleb. intros Hx Hy. rewrite (compare_antisym x y).
  destruct (SFcompare x y) as [[]|] eqn:E; cbn; try done. destruct x as [|[]| |[]], y as [|[]| |[]]; cbn in *; try done.
Qed.

Definition hundred : f64 := F64.of_Z 100.

(** A percentage, unless it is not a number. *)
Definition percentage (x : f64) : Prop := is_nan x = true \/ (F64.leb F64.zero x = true /\ F64.leb x hundred = true).

Lemma pct_percentage x : percentage (Flt.pct x).
Proof.
  unfold percentage. destruct (is_nan (Flt.pct x)) eqn:Hn; [by left|right].
  assert (H : F64.ltb (Flt.pct x) F64.zero = false /\ F64.ltb hundred (Flt.pct x) = false).
  { unfold Flt.pct, Flt.clamp, hundred. destruct (F64.ltb x F64.zero) eqn:E1; [done|].
    destruct (F64.ltb (F64.of_Z 100) x) eqn:E2; [done|]. done. }
  destruct H as [H1 H2]. split; apply leb_not_ltb; try done.
Qed.

Lemma abs_not_negative x : Flt.neg (Flt.abs x) = false.
Proof. by destruct x. Qed.

(** * Points *)

Lemma elem_of_points f s p : p ∈ points f s <-> exists r, r ∈ rows s /\ ts p = r.1 /\ f r.2 = Some (value p).
Proof.
  unfold points. rewrite list_elem_of_omap. split.
  - intros (r & Hr & Hp). apply fmap_Some in Hp as (v & Hv & ->). eauto.
  - intros (r & Hr & Ht & Hv). exists r. split; [done|]. rewrite Hv. cbn. by destruct p; cbn in *; subst.
Qed.

Lemma points_percentage f s : (forall l v, f l = Some v -> percentage v) -> Forall (fun p => percentage (value p)) (points f s).
Proof. intros Hf. apply Forall_forall. intros p (r & _ & _ & Hv)%elem_of_points. eauto. Qed.

Lemma clamp_pct_percentage l : Forall (fun p => percentage (value p)) (clamp_pct l).
Proof. apply Forall_fmap, Forall_true. intros p. apply pct_percentage. Qed.

Lemma positive_total_percentage t u v : positive_total t u = Some v -> percentage v.
Proof. unfold positive_total. destruct (F64.leb t F64.zero); [done|]. intros [= <-]. apply pct_percentage. Qed.

(** A ratio of two columns. *)
Lemma ratio_percentage (f g : NetdataSeries -> option nat) s (h : f64 -> f64 -> f64) :
  let l := match f s, g s with
           | Some a, Some u => points (fun vals => x ← vals !! a; y ← vals !! u; positive_total (h x y) y) s
           | _, _ => []
           end in
  Forall (fun p => percentage (value p)) l /\ forall p, p ∈ l -> exists r, r ∈ rows s /\ ts p = r.1.
Proof.
  destruct (f s) as [a|]; [|by split; [constructor|intros ? ?%elem_of_nil]].
  destruct (g s) as [u|]; [|by split; [constructor|intros ? ?%elem_of_nil]]. split.
  - apply points_percentage. intros l v H. apply bind_Some in H as (i & _ & H). apply bind_Some in H as (j & _ & H). by apply positive_total_percentage in H.
  - intros q (r & ? & ? & _)%elem_of_points. eauto.
Qed.

(** The rules whose result is shown as a percentage. *)
Definition percent_rules : list (NetdataSeries -> list MetricPoint) :=
  [cpu_total_pct; ram_used_pct; disk_used_pct; swap_used_pct; cpu_steal_pct; psi_some].

(** Whatever table an agent sends, every point that the CPU, memory, disk, swap, steal and
    pressure rules compute is between 0 and 100 (or not a number, which only an overflow of the sums
    gives), and carries the time of a row of the table. *)
Theorem percentages_bounded rule s p :
  rule ∈ percent_rules -> p ∈ rule s -> percentage (value p) /\ exists r, r ∈ rows s /\ ts p = r.1.
Proof.
  intros Hr Hp. assert (H : Forall (fun p => percentage (value p)) (rule s) /\ forall p, p ∈ rule s -> exists r, r ∈ rows s /\ ts p = r.1).
  { assert (Ht : forall f p, p ∈ points f s -> exists r, r ∈ rows s /\ ts p = r.1) by (intros f q (r & ? & ? & _)%elem_of_points; eauto).
    assert (Hd : forall name p, p ∈ clamp_pct (named_dim s name) -> exists r, r ∈ rows s /\ ts p = r.1).
    { intros name q (q' & -> & Hq)%list_elem_of_fmap. cbn. unfold named_dim in Hq. destruct (column _ s); [eauto|by apply elem_of_nil in Hq]. }
    unfold percent_rules in Hr. repeat (apply elem_of_cons in Hr as [->|Hr]); [..|by apply elem_of_nil in Hr].
    - split; [|apply Ht]. apply points_percentage. intros l v [= <-]. apply pct_percentage.
    - split; [|apply Ht]. apply points_percentage. intros l v H. apply bind_Some in H as (i & _ & H). apply bind_Some in H as (u & _ & H). by apply positive_total_percentage in H.
    - apply (ratio_percentage (column (named "avail")) (column (named "used")) s F64.add).
    - apply (ratio_percentage (column (named "free")) (column (named "used")) s F64.add).
    - split; [apply clamp_pct_percentage|apply Hd].
    - split; [apply clamp_pct_percentage|apply Hd]. }
  destruct H as [H1 H2]. split; [by apply (proj1 (Forall_forall _ _) H1)|by apply H2].
Qed.

(** * Charts *)

Lemma elem_of_non_empty (s : NamedSeries) l : l ∈ non_empty s <-> l ∈ s /\ l.2 <> [].
Proof.
  unfold non_empty. rewrite !list_elem_of_In, filter_In, negb_true_iff, bool_decide_eq_false, length_zero_iff_nil. done.
Qed.

Lemma abs_column_points s i p : p ∈ abs_column s i <-> exists r v, r ∈ rows s /\ r.2 !! i = Some v /\ p = MkPoint r.1 (Flt.abs v).
Proof.
  unfold abs_column. rewrite elem_of_points. split.
  - intros (r & Hr & Ht & Hv). apply fmap_Some in Hv as (v & Hv & He). exists r, v. split; [done|]. split; [done|]. by destruct p; cbn in *; subst.
  - intros (r & v & Hr & Hv & ->). exists r. by rewrite Hv.
Qed.

Lemma dim_by_alias_points s aliases p : p ∈ dim_by_alias_abs s aliases -> exists i, p ∈ abs_column s i.
Proof. induction aliases as [|a l IH]; cbn; [by intros ?%elem_of_nil|]. destruct (column _ s); eauto. Qed.

Lemma all_dims_lines s l : l ∈ all_dims_abs s -> exists i, labels s !! S i = Some l.1 /\ l.2 = abs_column s i.
Proof.
  unfold all_dims_abs. intros [H _]%elem_of_non_empty. apply elem_of_lookup_imap in H as (i & label & -> & Hl).
  exists i. by rewrite lookup_drop in Hl.
Qed.

(** A table has data when some row has a value under a label. *)
Definition has_data (s : NetdataSeries) : Prop := exists i label r v, labels s !! S i = Some label /\ r ∈ rows s /\ r.2 !! i = Some v.

Lemma all_dims_not_empty s : has_data s -> all_dims_abs s <> [].
Proof.
  intros (i & label & r & v & Hl & Hr & Hv) E. assert (H : (label, abs_column s i) ∈ all_dims_abs s).
  { apply elem_of_non_empty. split.
    - apply elem_of_lookup_imap. exists i, label. by rewrite lookup_drop.
    - cbn. assert (Hp : MkPoint r.1 (Flt.abs v) ∈ abs_column s i) by (apply abs_column_points; eauto). intros E'. rewrite E' in Hp. by apply elem_of_nil in Hp. }
  rewrite E in H. by apply elem_of_nil in H.
Qed.

(** A chart is never blank while the agent has data, whatever its version calls the dimensions:
    the network and disk charts (and any chart of two aliased lines) of a table with a value have a
    line; every line shown has points, none of them negative, each the magnitude of a reading at the
    time of its row. *)
Theorem chart_never_blank s a b :
  has_data s ->
  two_lines_by_alias s a b <> []
  /\ forall l, l ∈ two_lines_by_alias s a b ->
       l.2 <> [] /\ forall p, p ∈ l.2 -> Flt.neg (value p) = false
                                /\ exists r i v, r ∈ rows s /\ r.2 !! i = Some v /\ ts p = r.1 /\ value p = Flt.abs v.
Proof.
  intros Hd. unfold two_lines_by_alias. set (out := non_empty _).
  assert (Hcol : forall i p, p ∈ abs_column s i -> Flt.neg (value p) = false
            /\ exists r i v, r ∈ rows s /\ r.2 !! i = Some v /\ ts p = r.1 /\ value p = Flt.abs v).
  { intros i p (r & v & Hr & Hv & ->)%abs_column_points. split; [apply abs_not_negative|]. by exists r, i, v. }
  destruct out as [|l0 out'] eqn:E.
  - split; [by apply all_dims_not_empty|]. intros l Hl. pose proof Hl as [_ Hne]%elem_of_non_empty. split; [done|].
    apply all_dims_lines in Hl as (i & _ & ->). apply Hcol.
  - split; [done|]. rewrite <- E. intros l Hl. subst out. apply elem_of_non_empty in Hl as [Hl Hne]. split; [done|].
    intros p Hp. apply list_elem_of_fmap in Hl as (la & -> & _). apply dim_by_alias_points in Hp as [i Hi]. by apply (Hcol i).
Qed.

(** * Tables *)

Section tables.
Context {J : JsonText} {X : JsonMisfit}.

(** A table is read whole: the rows with a time, each once, in ascending order. *)
Lemma parse_data_rows body labels data :
  from_str raw_of body = inr (labels, data) ->
  exists s, parse_data body = Ok s /\ Netdata.labels s = labels /\ rows s ≡ₚ omap row_of data /\ StronglySorted (fun a b => a.1 <= b.1) (rows s).
Proof.
  intros H. unfold parse_data. rewrite H. eexists. split; [done|]. split; [done|]. cbn [rows]. split; [apply sort_by_perm|].
  assert (Hs := sort_by_sorted (fun a b : Z * list f64 => a.1 <? b.1) ltac:(intros x y; rewrite Z.ltb_lt, Z.ltb_ge; lia)
    ltac:(intros x y z; rewrite !Z.ltb_ge; lia) (omap row_of data)).
  eapply sorted_mono; [|exact Hs]. intros x y. cbn. by rewrite Z.ltb_ge.
Qed.

(** Alarms newest first, none with a time lost. *)
Lemma alarms_log_newest_first body v :
  json_parse body = inr v ->
  exists l, parse_alarms_log body = Ok l /\ l ≡ₚ omap log_entry_of (default [] (Js.as_array v)) /\ StronglySorted (fun a b => when b <= when a) l.
Proof.
  intros H. unfold parse_alarms_log. rewrite H. eexists. split; [done|]. split; [apply sort_by_perm|].
  assert (Hs := sort_by_sorted (fun a b => when b <? when a) ltac:(intros x y; rewrite Z.ltb_lt, Z.ltb_ge; lia)
    ltac:(intros x y z; rewrite !Z.ltb_ge; lia) (omap log_entry_of (default [] (Js.as_array v)))).
  eapply sorted_mono; [|exact Hs]. intros x y. cbn. by rewrite Z.ltb_ge.
Qed.
End tables.

(** * Containers *)

Lemma strip_suffix_Some p s t : strip_suffix p s = Some t <-> s = t ++ p.
Proof.
  unfold strip_suffix. rewrite fmap_Some. setoid_rewrite strip_prefix_Some. split.
  - intros (r & Hr & ->). apply (f_equal reverse) in Hr. by rewrite reverse_involutive, reverse_app, reverse_involutive in Hr.
  - intros ->. exists (reverse t). by rewrite reverse_app, reverse_involutive.
Qed.

Lemma container_of_Some c n : container_of c = Some n <-> ch_id c = lit "cgroup_" ++ n ++ lit ".cpu".
Proof.
  unfold container_of. rewrite bind_Some. setoid_rewrite strip_prefix_Some. setoid_rewrite strip_suffix_Some. split.
  - by intros (x & -> & ->).
  - eauto.
Qed.

Lemma elem_of_dedup l x : x ∈ dedup l <-> x ∈ l.
Proof.
  induction l as [|y l IH]; [done|]. destruct l as [|z l]; [done|]. cbn [dedup]. case_bool_decide as E.
  - subst. rewrite IH, !elem_of_cons. tauto.
  - rewrite elem_of_cons, IH, !elem_of_cons. tauto.
Qed.

Lemma text_lt_total a b : text_lt a b = false -> text_lt b a = false -> a = b.
Proof.
  revert b. induction a as [|x a IH]; intros [|y b]; cbn; try done. rewrite !orb_false_iff, !andb_false_iff, !Z.ltb_ge, !Z.eqb_neq.
  intros [H1 H2] [H3 H4]. assert (x = y) as -> by lia. f_equal. apply IH; [destruct H2|destruct H4]; done.
Qed.

Lemma dedup_increasing l : StronglySorted (fun a b => text_lt b a = false) l -> StronglySorted (fun a b => text_lt a b = true) (dedup l).
Proof.
  induction 1 as [|x l Hs IH Hf]; [constructor|]. destruct l as [|y l]; [repeat constructor|]. cbn [dedup]. case_bool_decide as E; [done|].
  constructor; [done|]. apply Forall_forall. intros z Hz. apply (proj1 (elem_of_dedup (y :: l) z)) in Hz. rewrite Forall_forall in Hf. destruct (text_lt x z) eqn:Exz; [done|].
  assert (x = z) as <- by (apply text_lt_total; [done|by apply Hf]). apply elem_of_cons in Hz as [->|Hz]; [done|].
  apply StronglySorted_inv in Hs as [_ Hy]. rewrite Forall_forall in Hy. destruct E. apply text_lt_total; [by apply Hy|apply Hf; by left].
Qed.

(** The containers listed are exactly those with a CPU chart, each once, in order. *)
Lemma container_names_exact charts :
  (forall n, n ∈ container_names charts <-> exists c, c ∈ charts /\ ch_id c = lit "cgroup_" ++ n ++ lit ".cpu")
  /\ StronglySorted (fun a b => text_lt a b = true) (container_names charts).
Proof.
  unfold container_names. split.
  - intros n. rewrite elem_of_dedup, sort_by_perm, list_elem_of_omap. by setoid_rewrite container_of_Some.
  - apply dedup_increasing, sort_by_sorted; [apply text_lt_asym|apply text_lt_trans].
Qed.

(** * An agent *)

Definition demo_series : NetdataSeries :=
  MkSeries [lit "time"; lit "rx"; lit "tx"] [(1, [F64.of_Z 100; F64.of_Z (-50)]); (2, [F64.of_Z 90; F64.of_Z 30])].

Lemma chart_never_blank_witness :
  net_in_out demo_series <> [] /\ map fst (net_in_out demo_series) = [lit "rx"; lit "tx"].
Proof.
  split; [|vm_compute; reflexivity].
  apply (chart_never_blank demo_series). exists 0%nat, (lit "rx"), (1, [F64.of_Z 100; F64.of_Z (-50)]), (F64.of_Z 100). split; [done|]. split; [left|done].
Defined.

Lemma percentages_bounded_witness :
  percentage (Flt.pct (F64.of_Z 120)) /\ exists r, r ∈ rows demo_series /\ 2 = r.1.
Proof.
  apply (percentages_bounded cpu_total_pct demo_series (MkPoint 2 (Flt.pct (F64.of_Z 120)))); [left|].
  vm_compute. right. left.
Defined.
