(* ===== verification/Providers.v ===== *)
(** [crates/core/src/cloud/hetzner.rs] and [linode.rs]: the clients of the two cloud APIs, from the
    requests they send to what they read of the answers. HTTP, the parsing of JSON text and of dates
    are parameters. The pages of a listing are read with fuel; [list_all_fuel] pages are enough for a
    million servers. *)
From S2P Require Import Prelude Bytes Text Crypto Floats Value Toy RecoveryKit Keyring Model Csv Importers Provision Vpn Cloud.
Local Open Scope Z_scope.

(** The [time] crate: RFC 3339, and dates without an offset, taken as UTC; the former is also written. *)
Class TimeText : Type := { rfc3339 : text -> option Z; primitive_utc : text -> option Z; show_rfc3339 : Z -> text }.

Definition list_all_fuel : nat := 10000.
Definition bearer (token : text) : option text := Some (lit "Bearer " ++ token).

(** A reader of one page gives its servers and where to go on. *)
Definition network {A} (t : text) : Result A := Err (Network (to_string t)).
Definition non_empty_text (t : text) : option text := if bool_decide (t = []) then None else Some t.

(** [o.and_then(|x| x.f)]. *)
Definition flat {A} (o : option (option A)) : option A := match o with Some x => x | None => None end.

Module Hz.
Definition API : text := lit "https://api.hetzner.cloud/v1".

Section client.
Context {J : JsonText} {X : JsonMisfit} {T : TimeText}.

Definition error_text (body : text) : option text :=
  match json_parse body with
  | inr v =>
      e ← Js.get (lit "error") v; msg ← Js.get (lit "message") e ≫= Js.as_str;
      match Js.get (lit "code") e ≫= Js.as_str with
      | Some code => Some (if bool_decide (code = []) then msg else msg ++ lit " (" ++ code ++ lit ")")
      | None => Some msg
      end
  | inl _ => None
  end.
Definition hetzner_reason (status : Z) (body : text) : CoreError :=
  let reason := default (take 300 (trim body)) (error_text body ≫= non_empty_text) in
  Network (to_string (lit "Hetzner API " ++ show_dec status ++ lit ": " ++ reason)).

Definition map_state (status : text) : InstanceState.t :=
  if bool_decide (status = lit "running") then InstanceState.Running
  else if bool_decide (status ∈ map lit ["initializing"; "starting"]) then InstanceState.Booting
  else if bool_decide (status = lit "off") then InstanceState.Stopped
  else if bool_decide (status ∈ map lit ["stopping"; "deleting"]) then InstanceState.Deleting
  else InstanceState.Provisioning.

(** ** Servers *)

Record PriceEntry : Type := MkPriceEntry { pe_location : option text; price_hourly : option text; price_monthly : option text }.
Record ServerType : Type := MkServerType { st_name : text; cores : Z; memory : f64; disk : Z; prices : list PriceEntry }.
Record HetznerServer : Type := MkHetznerServer {
  hs_id : Z; hs_name : text; hs_status : text; hs_created : option text; hs_ipv4 : option text; hs_ipv6 : option text;
  server_type : ServerType; hs_location : option text; hs_labels : list (text * text) }.

Definition price_of (v : Value) : option text :=
  match Js.struct_fields ["gross"] v with Some [g] => Js.str_default g | _ => None end.
Definition price_entry_of (v : Value) : option PriceEntry :=
  match Js.struct_fields ["location"; "price_hourly"; "price_monthly"] v with
  | Some [l; h; m] => l ← Js.str_option l; h ← Field.opt price_of h; m ← Field.opt price_of m; Some (MkPriceEntry l h m)
  | _ => None
  end.
Definition server_type_of (v : Value) : option ServerType :=
  match Js.struct_fields ["name"; "cores"; "memory"; "disk"; "prices"] v with
  | Some [n; c; m; d; p] =>
      n ← Js.str n; c ← Field.u32_default c; m ← Field.f64_default m; d ← Field.u32_default d;
      p ← Field.list_default price_entry_of p; Some (MkServerType n c m d p)
  | _ => None
  end.
Definition ip_entry_of (v : Value) : option (option text) :=
  match Js.struct_fields ["ip"] v with Some [i] => Js.str_option i | _ => None end.
Definition public_net_of (v : Value) : option (option text * option text) :=
  match Js.struct_fields ["ipv4"; "ipv6"] v with
  | Some [a; b] => a ← Field.opt ip_entry_of a; b ← Field.opt ip_entry_of b; Some (flat a, flat b)
  | _ => None
  end.
Definition location_of (v : Value) : option text := match Js.struct_fields ["name"] v with Some [n] => Js.str n | _ => None end.
Definition datacenter_of (v : Value) : option (option text) :=
  match Js.struct_fields ["location"] v with Some [l] => Field.opt location_of l | _ => None end.
Definition server_of (v : Value) : option HetznerServer :=
  match Js.struct_fields ["id"; "name"; "status"; "created"; "public_net"; "server_type"; "datacenter"; "labels"] v with
  | Some [i; n; s; c; p; t; d; l] =>
      i ← Field.u64 i; n ← Js.str n; s ← Js.str s; c ← Js.str_option c; p ← Field.opt public_net_of p; t ← t ≫= server_type_of;
      d ← Field.opt datacenter_of d; l ← Field.str_map_default l;
      Some (MkHetznerServer i n s c (p ≫= fst) (p ≫= snd) t (flat d) (sort_by (fun a b => text_lt a.1 b.1) l))
  | _ => None
  end.
Definition pagination_of (v : Value) : option (option Z) :=
  match Js.struct_fields ["next_page"] v with Some [n] => Field.opt Field.u32_of n | _ => None end.
Definition meta_of (v : Value) : option (option (option Z)) :=
  match Js.struct_fields ["pagination"] v with Some [p] => Field.opt pagination_of p | _ => None end.
Definition servers_page_of (v : Value) : option (list HetznerServer * option Z) :=
  match Js.struct_fields ["servers"; "meta"] v with
  | Some [s; m] => s ← s ≫= Field.list_of server_of; m ← Field.opt meta_of m; Some (s, flat (flat m))
  | _ => None
  end.

Definition price_f64 (p : option text) : f64 := default F64.zero (p ≫= fun gross => Flt.parse (trim gross)).
Definition price_at (location : text) (l : list PriceEntry) : option PriceEntry :=
  match List.find (fun p => bool_decide (pe_location p = Some location)) l with Some p => Some p | None => head l end.
Definition tag_of (kv : text * text) : text := if bool_decide (kv.2 = []) then kv.1 else kv.1 ++ lit "=" ++ kv.2.
Definition server_info (s : HetznerServer) : ServerInfo :=
  let location := default [] (hs_location s) in
  let price := price_at location (prices (server_type s)) in
  MkServerInfo Hetzner (show_dec (hs_id s)) (hs_name s) location (st_name (server_type s)) (map_state (hs_status s)) (hs_ipv4 s) (hs_ipv6 s)
    (map tag_of (hs_labels s)) (hs_created s ≫= rfc3339) (cores (server_type s))
    (Flt.round_u32 (F64.mul (memory (server_type s)) (F64.of_Z 1024))) (disk (server_type s))
    (match price with Some p => price_f64 (price_hourly p) | None => F64.zero end)
    (match price with Some p => price_f64 (price_monthly p) | None => F64.zero end) "EUR".

Definition bad {A} (e : string) : Result A := Err (Network ("Hetzner API: bad response (" +:+ e +:+ ")")).
Definition read {A B} (dec : Value -> option A) (f : A -> B) (body : text) : Result B :=
  match from_str dec body with inl e => bad e | inr a => Ok (f a) end.
Definition parse_servers_page : text -> Result (list ServerInfo * option Z) :=
  read servers_page_of (fun p => (map server_info p.1, p.2)).

(** ** Metrics *)

Definition metric_pair (pair : Value) : option MetricPoint :=
  t ← get_at 0 pair ≫= Js.as_f64; raw ← get_at 1 pair;
  v ← match Js.as_str raw ≫= Flt.parse with Some x => Some x | None => Js.as_f64 raw end;
  Some (MkPoint (Flt.to_i64 t) v).
Definition metric_series (ts_map : Value) (key : string) : list MetricPoint :=
  omap metric_pair (default [] (Js.get (lit key) ts_map ≫= fun s => Js.get (lit "values") s ≫= Js.as_array)).
Definition sum_points (reads writes : list MetricPoint) : list MetricPoint :=
  match writes with
  | [] => reads
  | _ => zip_with (fun r w => MkPoint (ts r) (F64.add (value r) (value w))) reads writes
  end.
Definition parse_metrics (body : text) : Result ServerMetrics :=
  match json_parse body with
  | inl e => bad e
  | inr v =>
      let m := default Null (Js.get (lit "metrics") v ≫= Js.get (lit "time_series")) in
      Ok (MkServerMetrics (metric_series m "cpu") (metric_series m "network.0.bandwidth.in") (metric_series m "network.0.bandwidth.out")
            (sum_points (metric_series m "disk.0.iops.read") (metric_series m "disk.0.iops.write")))
  end.

(** ** Snapshots and actions *)

Definition image_of (v : Value) : option Snapshot :=
  match Js.struct_fields ["id"; "description"; "created"; "image_size"; "status"] v with
  | Some [i; d; c; s; st] =>
      i ← Field.u64 i; d ← Js.str_option d; c ← Js.str_option c; s ← Field.opt Js.as_f64 s; st ← Js.str_option st;
      Some (MkSnapshot (show_dec i) (default (lit "image " ++ show_dec i) d) (c ≫= rfc3339) s (default [] st))
  | _ => None
  end.
Definition images_page_of (v : Value) : option (list Snapshot) :=
  match Js.struct_fields ["images"] v with Some [i] => Field.list_default image_of i | _ => None end.
Definition newest_snapshot (a b : Snapshot) : bool := opt_lt (sn_created_at b) (sn_created_at a).
Definition parse_images : text -> Result (list Snapshot) := read images_page_of (sort_by newest_snapshot).

Definition action_of (v : Value) : option ServerEvent :=
  match Js.struct_fields ["command"; "status"; "progress"; "started"; "finished"] v with
  | Some [c; s; p; st; f] =>
      c ← Js.str_option c; s ← Js.str_option s; p ← Field.opt Js.as_f64 p; st ← Js.str_option st; f ← Js.str_option f;
      Some (MkServerEvent (default (lit "action") c) (default [] s) (match f with Some x => Some x | None => st end ≫= rfc3339) p)
  | _ => None
  end.
Definition actions_page_of (v : Value) : option (list ServerEvent) :=
  match Js.struct_fields ["actions"] v with Some [a] => Field.list_default action_of a | _ => None end.
Definition newest_event (a b : ServerEvent) : bool := opt_lt (ev_created_at b) (ev_created_at a).
Definition parse_actions : text -> Result (list ServerEvent) := read actions_page_of (sort_by newest_event).

(** ** Firewalls *)

Record FirewallRule : Type := MkRule {
  direction : text; protocol : text; rule_port : option text; source_ips : list text; destination_ips : list text; description : option text }.
Record Firewall : Type := MkFirewall { fw_id : Z; fw_name : text; fw_rules : list FirewallRule; applied_server_ids : list Z }.

Definition rule_of (v : Value) : option FirewallRule :=
  match Js.struct_fields ["direction"; "protocol"; "port"; "source_ips"; "destination_ips"; "description"] v with
  | Some [d; p; o; s; t; e] =>
      d ← Js.str d; p ← Js.str p; o ← Js.str_option o; s ← Js.strs_default s; t ← Js.strs_default t; e ← Js.str_option e;
      Some (MkRule d p o s t e)
  | _ => None
  end.
(** Absent options and empty lists are not written. *)
Definition opt_entry (k : string) (o : option text) : list (string * Value) := match o with Some s => [(k, Str s)] | None => [] end.
Definition list_entry (k : string) (l : list text) : list (string * Value) := match l with [] => [] | _ => [(k, Arr (map Str l))] end.
Definition rule_json (r : FirewallRule) : Value :=
  Js.obj ([("direction", Str (direction r)); ("protocol", Str (protocol r))] ++ opt_entry "port" (rule_port r)
          ++ list_entry "source_ips" (source_ips r) ++ list_entry "destination_ips" (destination_ips r) ++ opt_entry "description" (description r)).
Definition rules_json (l : list FirewallRule) : Value := Arr (map rule_json l).

Definition applied_of (v : Value) : option (option Z) :=
  match Js.struct_fields ["server"] v with
  | Some [s] => Field.opt (fun v => match Js.struct_fields ["id"] v with Some [i] => Field.u64 i | _ => None end) s
  | _ => None
  end.
Definition firewall_of (v : Value) : option Firewall :=
  match Js.struct_fields ["id"; "name"; "rules"; "applied_to"] v with
  | Some [i; n; r; a] =>
      i ← Field.u64 i; n ← Js.str_default n; r ← Field.list_default rule_of r; a ← Field.list_default applied_of a;
      Some (MkFirewall i n r (omap id a))
  | _ => None
  end.
Definition firewalls_page_of (v : Value) : option (list Firewall) :=
  match Js.struct_fields ["firewalls"] v with Some [f] => Field.list_default firewall_of f | _ => None end.
Definition parse_firewalls : text -> Result (list Firewall) := read firewalls_page_of id.

(** ** Requests *)

Context {W : Type} {H : Http W}.

(** Send a request and return the body; another status is an error with the service's reason. *)
Definition body_ok (r : HttpReq) : ST W CoreError text := fun w =>
  match send r w with
  | (Ok (status, body), w) => (if is_success status then Ok body else Err (hetzner_reason status body), w)
  | (Err e, w) => (Err (Network e), w)
  | (Panic, w) => (Panic, w)
  end.
Definition request (token : text) (meth : string) (path : text) (body : option Value) : HttpReq :=
  MkHttpReq meth (API ++ path) (bearer token) None body.
Definition fetch {A} (token path : text) (parse : text -> Result A) : ST W CoreError A :=
  let! b := body_ok (request token "GET" path None) in lift (parse b).
Definition post (token path : text) (body : option Value) : ST W CoreError unit :=
  let! _ := body_ok (request token "POST" path body) in ret tt.

Definition firewalls_req (token : text) : HttpReq := request token "GET" (lit "/firewalls?per_page=50") None.
Definition list_firewalls (token : text) : ST W CoreError (list Firewall) := fetch token (lit "/firewalls?per_page=50") parse_firewalls.
Definition set_rules_req (token : text) (id : Z) (rules : list FirewallRule) : HttpReq :=
  request token "POST" (lit "/firewalls/" ++ show_dec id ++ lit "/actions/set_rules") (Some (Js.obj [("rules", rules_json rules)])).
Definition set_firewall_rules (token : text) (id : Z) (rules : list FirewallRule) : ST W CoreError unit :=
  let! _ := body_ok (set_rules_req token id rules) in ret tt.
Definition create_req (token name : text) (rules : list FirewallRule) (server_id : Z) : HttpReq :=
  request token "POST" (lit "/firewalls")
    (Some (Js.obj [("name", Str name); ("rules", rules_json rules);
                   ("apply_to", Arr [Js.obj [("type", Str (lit "server")); ("server", Js.obj [("id", Int server_id)])]])])).
Definition created_id (body : text) : Result Z :=
  match json_parse body with
  | inr v =>
      match Js.get (lit "firewall") v ≫= fun f => Js.get (lit "id") f ≫= Js.as_u64 with
      | Some i => Ok i
      | None => Err (Network "Hetzner API: firewall create returned no id")
      end
  | inl _ => Err (Network "Hetzner API: firewall create returned no id")
  end.
Definition create_firewall (token name : text) (rules : list FirewallRule) (server_id : Z) : ST W CoreError Z :=
  let! b := body_ok (create_req token name rules server_id) in lift (created_id b).

Definition page_path (page : Z) : text := lit "/servers?page=" ++ show_dec page ++ lit "&per_page=50".
(** The loop over pages; [None] when the fuel is used up. *)
Fixpoint list_pages (fuel : nat) (token : text) (page : Z) (out : list ServerInfo) (w : W) : option (Result (list ServerInfo) * W) :=
  match fuel with
  | O => None
  | S fuel =>
      match fetch token (page_path page) parse_servers_page w with
      | (Ok (servers, next), w) =>
          match next with
          | Some n => if negb (n =? page) then list_pages fuel token n (out ++ servers) w else Some (Ok (out ++ servers), w)
          | None => Some (Ok (out ++ servers), w)
          end
      | (Err e, w) => Some (Err e, w)
      | (Panic, w) => Some (Panic, w)
      end
  end.
Definition list_all (token : text) : ST W CoreError (list ServerInfo) := fun w =>
  match list_pages list_all_fuel token 1 [] w with Some r => r | None => (Panic, w) end.

Definition server_path (id : text) (rest : string) : text := lit "/servers/" ++ id ++ lit rest.
Definition metrics (now : Z) (token id : text) (window_secs : Z) : ST W CoreError ServerMetrics :=
  let start := now - Z.max window_secs 60 in
  let step := Z.max (window_secs / 90) 1 in
  fetch token (lit "/servers/" ++ id ++ lit "/metrics?type=cpu,network,disk&start=" ++ show_rfc3339 start ++ lit "&end=" ++ show_rfc3339 now
               ++ lit "&step=" ++ show_dec step) parse_metrics.
Definition power_path (a : PowerAction) : string :=
  match a with Boot => "poweron" | Shutdown => "shutdown" | Reboot => "reboot" | Reset => "reset" end.
Definition power (token id : text) (a : PowerAction) : ST W CoreError unit :=
  post token (lit "/servers/" ++ id ++ lit "/actions/" ++ lit (power_path a)) None.
Definition snapshot (token id label : text) : ST W CoreError unit :=
  post token (server_path id "/actions/create_image") (Some (Js.obj [("type", Str (lit "snapshot")); ("description", Str label)])).
Definition list_snapshots (token id : text) : ST W CoreError (list Snapshot) :=
  fetch token (lit "/images?type=snapshot&bound_to=" ++ id) parse_images.
Definition set_rdns (token id ip ptr : text) : ST W CoreError unit :=
  post token (server_path id "/actions/change_dns_ptr") (Some (Js.obj [("ip", Str ip); ("dns_ptr", Str ptr)])).
Definition set_protection (token id : text) (on : bool) : ST W CoreError unit :=
  post token (server_path id "/actions/change_protection") (Some (Js.obj [("delete", Bool on); ("rebuild", Bool on)])).
Definition recent_events (token id : text) : ST W CoreError (list ServerEvent) :=
  fetch token (server_path id "/actions?per_page=15&sort=started:desc") parse_actions.

(** [impl ServerManager for HetznerClient]. *)
Definition manager (now : Z) (token : text) : ServerManager W := {|
  Cloud.list_all := list_all token; Cloud.metrics := metrics now token; Cloud.power := power token; Cloud.snapshot := snapshot token;
  Cloud.list_snapshots := list_snapshots token; Cloud.set_rdns := set_rdns token; Cloud.set_protection := set_protection token;
  Cloud.recent_events := recent_events token |}.
End client.
End Hz.

(** The text of a JSON number that is not an integer. *)
Class FloatText : Type := { show_f64 : f64 -> text }.

Record Region : Type := MkRegion { rg_id : text; rg_label : text; rg_country : text }.

Module Li.
Definition API : text := lit "https://api.linode.com/v4".

Definition map_state (status : text) : InstanceState.t :=
  if bool_decide (status ∈ map lit ["provisioning"; "migrating"; "rebuilding"]) then InstanceState.Provisioning
  else if bool_decide (status ∈ map lit ["booting"; "rebooting"]) then InstanceState.Booting
  else if bool_decide (status = lit "running") then InstanceState.Running
  else if bool_decide (status ∈ map lit ["offline"; "stopped"]) then InstanceState.Stopped
  else if bool_decide (status ∈ map lit ["shutting_down"; "deleting"]) then InstanceState.Deleting
  else InstanceState.Provisioning.

Definition price_per_hour (instance_type : text) : f64 :=
  if bool_decide (instance_type = lit "g6-nanode-1") then F64.dec 75 4
  else if bool_decide (instance_type = lit "g6-standard-2") then F64.dec 36 3
  else if bool_decide (instance_type = lit "g6-standard-4") then F64.dec 72 3
  else if bool_decide (instance_type = lit "g6-dedicated-4") then F64.dec 108 3
  else F64.dec 75 4.
Definition linode_monthly (instance_type : text) (hourly : f64) : f64 :=
  if bool_decide (instance_type = lit "g6-nanode-1") then F64.of_Z 5
  else if bool_decide (instance_type = lit "g6-standard-2") then F64.of_Z 24
  else if bool_decide (instance_type = lit "g6-standard-4") then F64.of_Z 48
  else if bool_decide (instance_type = lit "g6-dedicated-4") then F64.of_Z 72
  else F64.mul hourly (F64.of_Z 730).

Record LinodeSpecs : Type := MkSpecs { sp_vcpus : Z; sp_memory : Z; sp_disk : Z }.
Record LinodeInstance : Type := MkLinodeInstance {
  li_id : Z; li_region : text; kind : text; li_status : text; li_ipv4 : list text; li_tags : list text; li_label : option text;
  li_ipv6 : option text; li_created : option text; li_specs : option LinodeSpecs }.

Definition specs_of (v : Value) : option LinodeSpecs :=
  match Js.struct_fields ["vcpus"; "memory"; "disk"] v with
  | Some [c; m; d] => c ← Field.u32_default c; m ← Field.u32_default m; d ← Field.u32_default d; Some (MkSpecs c m d)
  | _ => None
  end.
Definition instance_of (v : Value) : option LinodeInstance :=
  match Js.struct_fields ["id"; "region"; "type"; "status"; "ipv4"; "tags"; "label"; "ipv6"; "created"; "specs"] v with
  | Some [i; r; k; s; a; t; l; b; c; p] =>
      i ← Field.u64 i; r ← Js.str r; k ← Js.str k; s ← Js.str s; a ← Js.strs a; t ← Js.strs t; l ← Js.str_option l;
      b ← Js.str_option b; c ← Js.str_option c; p ← Field.opt specs_of p; Some (MkLinodeInstance i r k s a t l b c p)
  | _ => None
  end.

(** [impl From<LinodeInstance> for Instance]. *)
Definition to_instance (l : LinodeInstance) : Instance_t :=
  MkInstance (show_dec (li_id l)) (li_region l) (kind l) (map_state (li_status l)) (head (li_ipv4 l)) (li_tags l).

Section client.
Context {J : JsonText} {X : JsonMisfit} {T : TimeText} {F : FloatText}.

Definition linode_time (c : text) : option Z := primitive_utc c.

Definition server_info (l : LinodeInstance) (hourly : f64) : ServerInfo :=
  MkServerInfo Linode (show_dec (li_id l)) (default (show_dec (li_id l)) (li_label l)) (li_region l) (kind l) (map_state (li_status l))
    (head (li_ipv4 l)) (li_ipv6 l) (li_tags l) (li_created l ≫= linode_time) (default 0 (sp_vcpus <$> li_specs l))
    (default 0 (sp_memory <$> li_specs l)) (default 0 ((fun s => sp_disk s / 1024) <$> li_specs l)) hourly (linode_monthly (kind l) hourly) "USD".

Definition error_text (body : text) : option text :=
  match json_parse body with
  | inr v =>
      e ← Js.get (lit "errors") v ≫= get_at 0;
      let r := default [] (Js.get (lit "reason") e ≫= Js.as_str) in
      non_empty_text match Js.get (lit "field") e ≫= Js.as_str with
                     | Some f => if bool_decide (f = []) then r else r ++ lit " (" ++ f ++ lit ")"
                     | None => r
                     end
  | inl _ => None
  end.
Definition linode_reason (status : Z) (body : text) : CoreError :=
  Network (to_string (lit "Linode API " ++ show_dec status ++ lit ": " ++ default (take 300 (trim body)) (error_text body))).

Definition bad {A} (e : string) : Result A := Err (Network ("Linode API: bad response (" +:+ e +:+ ")")).
Definition read {A B} (dec : Value -> option A) (f : A -> B) (body : text) : Result B :=
  match from_str dec body with inl e => bad e | inr a => Ok (f a) end.

Definition page_of (v : Value) : option (list LinodeInstance * Z) :=
  match Js.struct_fields ["data"; "pages"] v with
  | Some [d; p] => d ← d ≫= Field.list_of instance_of; p ← Field.u32_default p; Some (d, p)
  | _ => None
  end.
Definition parse_instances_page : text -> Result (list ServerInfo * Z) :=
  read page_of (fun p => (map (fun l => server_info l (price_per_hour (kind l))) p.1, Z.max p.2 1)).

(** Milliseconds to seconds; the values times [scale]. *)
Definition stat_pair (scale : f64) (p : Value) : option MetricPoint :=
  t ← get_at 0 p ≫= Js.as_f64; v ← get_at 1 p ≫= Js.as_f64; Some (MkPoint (Flt.to_i64 (F64.div t (F64.of_Z 1000))) (F64.mul v scale)).
Definition stat_series (val : option Value) (scale : f64) : list MetricPoint := omap (stat_pair scale) (default [] (val ≫= Js.as_array)).
Definition parse_stats (body : text) : Result ServerMetrics :=
  match json_parse body with
  | inl e => bad e
  | inr v =>
      let data := default Null (Js.get (lit "data") v) in
      let eighth := F64.div (F64.of_Z 1) (F64.of_Z 8) in
      let one := F64.of_Z 1 in
      let sub (a b : string) := Js.get (lit a) data ≫= Js.get (lit b) in
      Ok (MkServerMetrics (stat_series (Js.get (lit "cpu") data) one) (stat_series (sub "netv4" "in") eighth)
            (stat_series (sub "netv4" "out") eighth) (stat_series (sub "io" "io") one))
  end.

Definition backup_of (v : Value) : option Snapshot :=
  match Js.struct_fields ["id"; "label"; "status"; "created"; "finished"] v with
  | Some [i; l; s; c; f] =>
      i ← Field.u64 i; l ← Js.str_option l; s ← Js.str_option s; c ← Js.str_option c; f ← Js.str_option f;
      Some (MkSnapshot (show_dec i) (default (lit "snapshot " ++ show_dec i) l)
              (match f with Some x => Some x | None => c end ≫= linode_time) None (default [] s))
  | _ => None
  end.
Definition slot_of (v : Value) : option (option Snapshot * option Snapshot) :=
  match Js.struct_fields ["current"; "in_progress"] v with
  | Some [c; p] => c ← Field.opt backup_of c; p ← Field.opt backup_of p; Some (p, c)
  | _ => None
  end.
Definition backups_of (v : Value) : option (option (option Snapshot * option Snapshot)) :=
  match Js.struct_fields ["snapshot"] v with Some [s] => Field.opt slot_of s | _ => None end.
Definition parse_linode_backups : text -> Result (list Snapshot) :=
  read backups_of (fun r => match r with Some (p, c) => omap id [p; c] | None => [] end).

Record Event : Type := MkEvent { e_action : option text; e_status : option text; e_created : option text; e_percent : option f64;
  e_entity : option (option Value * option text) }.
Definition entity_of (v : Value) : option (option Value * option text) :=
  match Js.struct_fields ["id"; "type"] v with
  | Some [i; k] => i ← Field.opt Some i; k ← Js.str_option k; Some (i, k)
  | _ => None
  end.
Definition event_of (v : Value) : option Event :=
  match Js.struct_fields ["action"; "status"; "created"; "percent_complete"; "entity"] v with
  | Some [a; s; c; p; e] =>
      a ← Js.str_option a; s ← Js.str_option s; c ← Js.str_option c; p ← Field.opt Js.as_f64 p; e ← Field.opt entity_of e; Some (MkEvent a s c p e)
  | _ => None
  end.
Definition events_page_of (v : Value) : option (list Event) :=
  match Js.struct_fields ["data"] v with Some [d] => Field.list_default event_of d | _ => None end.
Definition concerns (linode_id : text) (e : Event) : bool :=
  match e_entity e with
  | Some (i, k) =>
      bool_decide (k = Some (lit "linode"))
      && match i with
         | Some (Int n) => bool_decide (show_i64 n = linode_id)
         | Some (Float x) => bool_decide (show_f64 x = linode_id)
         | Some (Str s) => bool_decide (s = linode_id)
         | _ => false
         end
  | None => false
  end.
Definition event_out (e : Event) : ServerEvent :=
  MkServerEvent (default (lit "event") (e_action e)) (default [] (e_status e)) (e_created e ≫= linode_time) (e_percent e).
Definition parse_linode_events (body linode_id : text) : Result (list ServerEvent) :=
  read events_page_of (fun l => map event_out (List.filter (concerns linode_id) l)) body.

(** ** Requests *)

Context {W : Type} {H : Http W}.

Definition request (token : text) (meth : string) (path : text) (body : option Value) : HttpReq :=
  MkHttpReq meth (API ++ path) (bearer token) None body.
(** The body of a 2xx; [json_ok] and [empty_ok] differ in what they do with it. *)
Definition body_ok (r : HttpReq) : ST W CoreError text := fun w =>
  match send r w with
  | (Ok (status, body), w) => (if is_success status then Ok body else Err (linode_reason status body), w)
  | (Err e, w) => (Err (Network e), w)
  | (Panic, w) => (Panic, w)
  end.
Definition json_ok {A B} (r : HttpReq) (dec : Value -> option A) (f : A -> B) : ST W CoreError B :=
  let! b := body_ok r in lift (read dec f b).
Definition empty_ok (r : HttpReq) : ST W CoreError unit := let! _ := body_ok r in ret tt.
Definition fetch {A} (token path : text) (parse : text -> Result A) : ST W CoreError A :=
  let! b := body_ok (request token "GET" path None) in lift (parse b).

Definition create_req (root_pass token : text) (spec : InstanceSpec) : HttpReq :=
  request token "POST" (lit "/linode/instances")
    (Some (Js.obj [("region", Str (spec_region spec)); ("type", Str (spec_type spec)); ("label", Str (spec_label spec)); ("image", Str (lit "linode/debian12"));
       ("root_pass", Str root_pass); ("tags", Arr (map Str (effective_tags (spec_tags spec)))); ("backups_enabled", Bool false);
       ("private_ip", Bool false); ("metadata", Js.obj [("user_data", Str (user_data spec))])])).
Definition create (root_pass token : text) (spec : InstanceSpec) : ST W CoreError Instance_t :=
  json_ok (create_req root_pass token spec) instance_of to_instance.
Definition get (token id : text) : ST W CoreError Instance_t :=
  json_ok (request token "GET" (lit "/linode/instances/" ++ id) None) instance_of to_instance.
Definition delete_req (token id : text) : HttpReq := request token "DELETE" (lit "/linode/instances/" ++ id) None.
Definition delete (token id : text) : ST W CoreError unit := empty_ok (delete_req token id).
Definition data_of {A} (dec : Value -> option A) (v : Value) : option (list A) :=
  match Js.struct_fields ["data"] v with Some [d] => d ≫= Field.list_of dec | _ => None end.
Definition ephemeral_req (token : text) : HttpReq :=
  MkHttpReq "GET" (API ++ lit "/linode/instances") (bearer token) (Some (Js.obj [("tags", Str EPHEMERAL_TAG)])) None.
Definition list_ephemeral (token : text) : ST W CoreError (list Instance_t) :=
  json_ok (ephemeral_req token) (data_of instance_of) (map to_instance).
Definition region_of (v : Value) : option Region :=
  match Js.struct_fields ["id"; "label"; "country"] v with
  | Some [i; l; c] => i ← Js.str i; l ← Js.str l; c ← Js.str c; Some (MkRegion i l c)
  | _ => None
  end.
Definition regions : ST W CoreError (list Region) :=
  json_ok (MkHttpReq "GET" (API ++ lit "/regions") None None None) (data_of region_of) id.
Definition power_named (token id : text) (action : string) : ST W CoreError unit :=
  empty_ok (request token "POST" (lit "/linode/instances/" ++ id ++ lit "/" ++ lit action) None).
Definition shutdown (token id : text) : ST W CoreError unit := power_named token id "shutdown".
Definition boot (token id : text) : ST W CoreError unit := power_named token id "boot".
Definition reboot (token id : text) : ST W CoreError unit := power_named token id "reboot".

(** [impl CloudProvider for LinodeClient]. *)
Definition provider (root_pass token : text) : CloudProvider W := {|
  Vpn.create := create root_pass token; Vpn.get := get token; Vpn.delete := delete token; Vpn.list_ephemeral := list_ephemeral token;
  Vpn.shutdown := shutdown token; Vpn.boot := boot token; Vpn.reboot := reboot token |}.

Definition page_path (page : Z) : text := lit "/linode/instances?page=" ++ show_dec page ++ lit "&page_size=100".
Fixpoint list_pages (fuel : nat) (token : text) (page : Z) (out : list ServerInfo) (w : W) : option (Result (list ServerInfo) * W) :=
  match fuel with
  | O => None
  | S fuel =>
      match fetch token (page_path page) parse_instances_page w with
      | (Ok (servers, pages), w) => if pages <=? page then Some (Ok (out ++ servers), w) else list_pages fuel token (page + 1) (out ++ servers) w
      | (Err e, w) => Some (Err e, w)
      | (Panic, w) => Some (Panic, w)
      end
  end.
Definition list_all (token : text) : ST W CoreError (list ServerInfo) := fun w =>
  match list_pages list_all_fuel token 1 [] w with Some r => r | None => (Panic, w) end.

Definition metrics (token id : text) (window_secs : Z) : ST W CoreError ServerMetrics :=
  fetch token (lit "/linode/instances/" ++ id ++ lit "/stats") parse_stats.
Definition power_name (a : PowerAction) : string := match a with Boot => "boot" | Shutdown => "shutdown" | Reboot | Reset => "reboot" end.
Definition power (token id : text) (a : PowerAction) : ST W CoreError unit := power_named token id (power_name a).
Definition snapshot (token id label : text) : ST W CoreError unit :=
  empty_ok (request token "POST" (lit "/linode/instances/" ++ id ++ lit "/snapshots") (Some (Js.obj [("label", Str label)]))).
Definition list_snapshots (token id : text) : ST W CoreError (list Snapshot) :=
  fetch token (lit "/linode/instances/" ++ id ++ lit "/backups") parse_linode_backups.
Definition set_rdns (token id ip ptr : text) : ST W CoreError unit :=
  empty_ok (request token "PUT" (lit "/networking/ips/" ++ ip) (Some (Js.obj [("rdns", Str ptr)]))).
Definition recent_events (token id : text) : ST W CoreError (list ServerEvent) :=
  fetch token (lit "/account/events") (fun b => parse_linode_events b id).

(** [impl ServerManager for LinodeClient]; there is no per-instance protection. *)
Definition manager (token : text) : ServerManager W := {|
  Cloud.list_all := list_all token; Cloud.metrics := metrics token; Cloud.power := power token; Cloud.snapshot := snapshot token;
  Cloud.list_snapshots := list_snapshots token; Cloud.set_rdns := set_rdns token; Cloud.set_protection := fun _ _ => err not_supported;
  Cloud.recent_events := recent_events token |}.
End client.
End Li.
