(* ===== verification/ProvidersClaims.v ===== *)
(** What the provider clients promise: a listing is whole or an error, a firewall rule survives the
    trip to the wire and back, and what each request of the Linode client does to the account's nodes,
    answered or not; and what a lost answer leads to. *)
From S2P Require Import Prelude Bytes Text Crypto Floats Value Toy RecoveryKit Keyring Model Csv Importers Provision Vpn Cloud Providers.
Local Open Scope Z_scope.

(** * Listings *)

Section listing.
Context {J : JsonText} {X : JsonMisfit} {T : TimeText} {F : FloatText} {W : Type} {H : Http W}.
Variable token : text.

(** The services' pages, as they document them: every page names the next one (Hetzner), or the
    number of pages (Linode). [outcome] is what follows the first pages: the end, or a failure. *)
Definition hz_page (w : W) (page : Z) (p : list Hz.HetznerServer) (next : option Z) : Prop :=
  exists body, send (Hz.request token "GET" (Hz.page_path page) None) w = (Ok (200, body), w)
    /\ from_str Hz.servers_page_of body = inr (p, next).
Definition hz_refuses (w : W) (page : Z) (failure : option (Z * text)) : Prop :=
  exists status body, failure = Some (status, body) /\ is_success status = false
    /\ send (Hz.request token "GET" (Hz.page_path page) None) w = (Ok (status, body), w).
Fixpoint hz_serves (w : W) (page : Z) (pages : list (list Hz.HetznerServer)) (failure : option (Z * text)) : Prop :=
  match pages with
  | [] => hz_refuses w page failure
  | p :: pages => (hz_page w page p (Some (page + 1)) /\ hz_serves w (page + 1) pages failure)
                  \/ (pages = [] /\ failure = None /\ hz_page w page p None)
  end.
Definition li_page (w : W) (page total : Z) (p : list Li.LinodeInstance) : Prop :=
  exists body, send (Li.request token "GET" (Li.page_path page) None) w = (Ok (200, body), w)
    /\ from_str Li.page_of body = inr (p, total).
Fixpoint li_serves (w : W) (page total : Z) (pages : list (list Li.LinodeInstance)) (failure : option (Z * text)) : Prop :=
  match pages with
  | [] => match failure with
          | None => page = total + 1
          | Some (status, body) => page <= total /\ is_success status = false
              /\ send (Li.request token "GET" (Li.page_path page) None) w = (Ok (status, body), w)
          end
  | p :: pages => page <= total /\ li_page w page total p /\ li_serves w (page + 1) total pages failure
  end.

Definition hz_outcome (infos : list ServerInfo) (failure : option (Z * text)) : Result (list ServerInfo) :=
  match failure with None => Ok infos | Some (status, body) => Err (Hz.hetzner_reason status body) end.
Definition li_outcome (infos : list ServerInfo) (failure : option (Z * text)) : Result (list ServerInfo) :=
  match failure with None => Ok infos | Some (status, body) => Err (Li.linode_reason status body) end.

Lemma hz_fetch_page w page p next :
  hz_page w page p next -> Hz.fetch token (Hz.page_path page) Hz.parse_servers_page w = (Ok (map Hz.server_info p, next), w).
Proof.
  intros (body & Hs & Hb). unfold Hz.fetch, mbind, Hz.body_ok. rewrite Hs. cbn. unfold lift, Hz.parse_servers_page, Hz.read. by rewrite Hb.
Qed.

Lemma hz_fetch_fails {A} (parse : text -> Result A) w path status body :
  send (Hz.request token "GET" path None) w = (Ok (status, body), w) -> is_success status = false ->
  Hz.fetch token path parse w = (Err (Hz.hetzner_reason status body), w).
Proof. intros Hs Hf. unfold Hz.fetch, mbind, Hz.body_ok. by rewrite Hs, Hf. Qed.

Lemma hz_list_pages w pages failure page fuel out :
  hz_serves w page pages failure -> (length pages < fuel)%nat \/ (failure = None /\ length pages <= fuel)%nat ->
  Hz.list_pages fuel token page out w = Some (hz_outcome (out ++ map Hz.server_info (concat pages)) failure, w).
Proof.
  revert page fuel out. induction pages as [|p pages IH]; intros page fuel out Hs Hl.
  - destruct Hs as (status & body & -> & Hf & Hs). destruct Hl as [Hl|[? _]]; [|done]. destruct fuel; [cbn in Hl; lia|].
    cbn. by rewrite (hz_fetch_fails _ _ _ _ _ Hs Hf).
  - destruct fuel as [|fuel]; [cbn in Hl; lia|]. cbn [Hz.list_pages]. destruct Hs as [[Hp Hr]|(-> & -> & Hp)]; rewrite (hz_fetch_page _ _ _ _ Hp).
    + rewrite (proj2 (Z.eqb_neq (page + 1) page)) by lia. cbn [negb]. rewrite (IH _ fuel _ Hr) by (cbn in Hl; destruct Hl as [?|[??]]; [left|right]; split || idtac; lia || done).
      by rewrite <- app_assoc, <- map_app.
    + cbn. by rewrite app_nil_r.
Qed.

Lemma li_list_pages w pages failure page total fuel out :
  li_serves w page total pages failure -> 1 <= page -> (pages <> [] \/ failure <> None) ->
  (length pages < fuel)%nat \/ (failure = None /\ length pages <= fuel)%nat ->
  Li.list_pages fuel token page out w
  = Some (li_outcome (out ++ map (fun l => Li.server_info l (Li.price_per_hour (Li.kind l))) (concat pages)) failure, w).
Proof.
  revert page fuel out. induction pages as [|p pages IH]; intros page fuel out Hs H1 Hne Hl.
  - destruct failure as [[status body]|]; [|naive_solver]. destruct Hs as (Hpt & Hf & Hs). destruct Hl as [Hl|[? _]]; [|done].
    destruct fuel; [cbn in Hl; lia|]. cbn [Li.list_pages]. unfold Li.fetch, mbind, Li.body_ok. by rewrite Hs, Hf.
  - destruct Hs as (Hpt & (body & Hsend & Hb) & Hr). destruct fuel as [|fuel]; [cbn in Hl; lia|]. cbn [Li.list_pages].
    unfold Li.fetch, mbind, Li.body_ok. rewrite Hsend. cbn [is_success Z.leb Z.ltb Z.compare Pos.compare Pos.compare_cont andb].
    unfold lift, Li.parse_instances_page, Li.read. rewrite Hb. cbn [fst snd]. destruct (Z.leb_spec (Z.max total 1) page) as [Hle|Hgt].
    + assert (pages = [] /\ failure = None) as [-> ->].
      { destruct pages as [|q pages]; cbn in Hr; [|destruct Hr; lia]. split; [done|]. destruct failure as [[??]|]; [|done]. destruct Hr; lia. }
      cbn. by rewrite app_nil_r.
    + rewrite (IH _ fuel _ Hr); [by rewrite <- app_assoc, <- map_app|lia| |cbn in Hl; destruct Hl as [?|[??]]; [left|right]; split || idtac; lia || done].
      destruct pages; [right|by left]. cbn in Hr. destruct failure; [done|lia].
Qed.

(** A fleet listing is whole or it is an error. Whatever the number of pages, up to the bound of
    the loop, both clients return every server of every page in order, each as it is read from its
    page; when a page is refused, the answer is the service's reason and never a shorter list. *)
Theorem fleet_listed_whole w :
  (forall pages failure, hz_serves w 1 pages failure -> (length pages < list_all_fuel)%nat ->
     Hz.list_all token w = (hz_outcome (map Hz.server_info (concat pages)) failure, w))
  /\ (forall pages (failure : option (Z * text)), li_serves w 1 (Z.of_nat (length pages) + (if failure then 1 else 0)) pages failure ->
        (pages <> [] \/ failure <> None) -> (length pages < list_all_fuel)%nat ->
        Li.list_all token w = (li_outcome (map (fun l => Li.server_info l (Li.price_per_hour (Li.kind l))) (concat pages)) failure, w)).
Proof.
  split; intros pages failure Hs; [intros Hl|intros Hne Hl].
  - unfold Hz.list_all. by rewrite (hz_list_pages _ _ _ _ list_all_fuel [] Hs) by (by left).
  - unfold Li.list_all. by rewrite (li_list_pages _ _ _ _ _ list_all_fuel [] Hs) by (done || by left).
Qed.
End listing.

(** * Firewall rules on the wire *)

Lemma mapM_strs l : mapM Js.as_str (map Str l) = Some l.
Proof. induction l as [|s l IH]; [done|]. cbn. by rewrite IH. Qed.

Definition entry (k : string) (o : option Value) : list (string * Value) := match o with Some v => [(k, v)] | None => [] end.
Definition list_value (l : list text) : option Value := match l with [] => None | _ => Some (Arr (map Str l)) end.

Lemma rule_fields d p o s t e :
  Js.struct_fields ["direction"; "protocol"; "port"; "source_ips"; "destination_ips"; "description"]
    (Js.obj ([("direction", d); ("protocol", p)] ++ entry "port" o ++ entry "source_ips" s ++ entry "destination_ips" t ++ entry "description" e))
  = Some [Some d; Some p; o; s; t; e].
Proof. destruct o, s, t, e; vm_compute; reflexivity. Qed.

Lemma strs_default_value l : Js.strs_default (list_value l) = Some l.
Proof. destruct l as [|x l]; [done|]. unfold list_value, Js.strs_default, Js.strs_of. cbn [Js.as_array]. apply mapM_strs. Qed.

(** A rule read from the service is written back the same: what the wire omits is what it defaults to. *)
Lemma rule_round_trip r : Hz.rule_of (Hz.rule_json r) = Some r.
Proof.
  destruct r as [d p o s t e].
  assert (E : Hz.rule_json (Hz.MkRule d p o s t e)
    = Js.obj ([("direction", Str d); ("protocol", Str p)] ++ entry "port" (Str <$> o) ++ entry "source_ips" (list_value s)
              ++ entry "destination_ips" (list_value t) ++ entry "description" (Str <$> e))) by (by destruct o, s, t, e).
  rewrite E. unfold Hz.rule_of. rewrite rule_fields, !strs_default_value. by destruct o, e.
Qed.

(** * The Linode client as a cloud provider *)

(** What an answer stands for: [done] with success, nothing with another status. When none arrives the
    request may have been carried out or not. *)
Definition answered {W} (linodes : W -> gmap Z Li.LinodeInstance) (r : result (Z * text) string) (w w' : W) (done : option text -> Prop) : Prop :=
  match r with
  | Ok (status, body) => if is_success status then done (Some body) else linodes w' = linodes w
  | Err _ => linodes w' = linodes w \/ done None
  | Panic => False
  end.
Definition ephemerals_of (m : gmap Z Li.LinodeInstance) : gmap Z Li.LinodeInstance := base.filter (fun kl => EPHEMERAL_TAG ∈ Li.li_tags kl.2) m.

(** The service, as it documents itself, to one account: a node exists from its creation to its
    deletion; a status other than success means that nothing was done; a listing that names no page is
    the first one, of 100 nodes. *)
Class LinodeService (W : Type) {H : Http W} {J : JsonText} {X : JsonMisfit} (root_pass token : text) : Type := {
  service_ok : W -> Prop;
  linodes : W -> gmap Z Li.LinodeInstance;
  svc_filed w k l : service_ok w -> linodes w !! k = Some l -> Li.li_id l = k /\ 0 <= k;
  svc_create spec w r w' : service_ok w -> send (Li.create_req root_pass token spec) w = (r, w') ->
    service_ok w' /\ answered linodes r w w' (fun body => exists l, (forall b, body = Some b -> from_str Li.instance_of b = inr l)
      /\ 0 <= Li.li_id l /\ linodes w !! Li.li_id l = None /\ Li.li_tags l = effective_tags (spec_tags spec) /\ linodes w' = <[Li.li_id l := l]> (linodes w));
  svc_get id w r w' : service_ok w -> send (Li.request token "GET" (lit "/linode/instances/" ++ id) None) w = (r, w') ->
    service_ok w' /\ linodes w' = linodes w /\ r <> Panic;
  svc_delete id w r w' : service_ok w -> send (Li.delete_req token id) w = (r, w') ->
    service_ok w' /\ answered linodes r w w' (fun _ => forall k, linodes w' !! k = if bool_decide (show_dec k = id) then None else linodes w !! k);
  svc_list w r w' : service_ok w -> send (Li.ephemeral_req token) w = (r, w') ->
    service_ok w' /\ linodes w' = linodes w /\ r <> Panic
    /\ forall status body, r = Ok (status, body) -> is_success status = true ->
         exists ls, from_str (Li.data_of Li.instance_of) body = inr ls
         /\ (forall l, l ∈ ls -> ephemerals_of (linodes w) !! Li.li_id l = Some l)
         /\ ((size (ephemerals_of (linodes w)) <= 100)%nat -> forall k l, ephemerals_of (linodes w) !! k = Some l -> l ∈ ls);
}.

Section lawful.
Context {W : Type} {H : Http W} {J : JsonText} {X : JsonMisfit} {root_pass token : text} {S : LinodeService W root_pass token}.

(** The tags of the node with an id, as the VPN's theorems ask for them. *)
Definition li_node (w : W) (x : text) : option (list text) :=
  match digits_val 0 x with
  | Some n => if bool_decide (show_dec n = x) then Li.li_tags <$> linodes w !! n else None
  | None => None
  end.

Lemma li_node_show w n : 0 <= n -> li_node w (show_dec n) = Li.li_tags <$> linodes w !! n.
Proof. intros Hn. unfold li_node. by rewrite show_dec_val, bool_decide_true. Qed.

Lemma li_node_Some w x tags : service_ok w ->
  li_node w x = Some tags <-> exists n l, x = show_dec n /\ linodes w !! n = Some l /\ tags = Li.li_tags l.
Proof.
  intros Hw. split.
  - unfold li_node. destruct (digits_val 0 x) as [n|]; [|done]. case_bool_decide as E; [|done]. intros (l & Hl & ->)%fmap_Some. by exists n, l.
  - intros (n & l & -> & Hl & ->). destruct (svc_filed w n l Hw Hl) as [_ Hn]. by rewrite li_node_show, Hl.
Qed.

Lemma show_dec_inj n m : 0 <= n -> 0 <= m -> show_dec n = show_dec m -> n = m.
Proof. intros Hn Hm E. pose proof (show_dec_val n Hn) as H1. rewrite E, (show_dec_val m Hm) in H1. congruence. Qed.

Lemma li_node_same w w' x : linodes w' = linodes w -> li_node w' x = li_node w x.
Proof. intros E. unfold li_node. by rewrite E. Qed.

Definition same_nodes (w w' : W) : Prop := forall x, li_node w' x = li_node w x.
Definition node_added (id : text) (tags : list text) (w w' : W) : Prop :=
  li_node w id = None /\ forall x, li_node w' x = if decide (x = id) then Some tags else li_node w x.
Definition node_removed (id : text) (w w' : W) : Prop := forall x, li_node w' x = if decide (x = id) then None else li_node w x.
(** The answer to a request was lost. *)
Definition lost (req : HttpReq) (w w' : W) : Prop := exists why, send req w = (Err why, w').

Lemma inserted_added l w w' :
  0 <= Li.li_id l -> linodes w !! Li.li_id l = None -> linodes w' = <[Li.li_id l := l]> (linodes w) ->
  node_added (show_dec (Li.li_id l)) (Li.li_tags l) w w'.
Proof.
  intros Hr Hn Hl. split; [by rewrite li_node_show, Hn|]. intros x. case_decide as E.
  - subst. by rewrite li_node_show, Hl, lookup_insert_eq.
  - unfold li_node. destruct (digits_val 0 x) as [n|]; [|done]. case_bool_decide as En; [|done].
    rewrite Hl, lookup_insert_ne; [done|]. intros <-. by destruct E.
Qed.
Lemma deleted_removed id w w' :
  (forall k, linodes w' !! k = if bool_decide (show_dec k = id) then None else linodes w !! k) -> node_removed id w w'.
Proof.
  intros Ha x. unfold li_node. case_decide as E; destruct (digits_val 0 x) as [n|]; try done; case_bool_decide as En; try done; rewrite Ha.
  - subst. by rewrite bool_decide_true.
  - rewrite bool_decide_false; [done|]. intros E2; apply E; by rewrite <- En.
Qed.

Lemma client_create spec w r w' :
  service_ok w -> Li.create root_pass token spec w = (r, w') ->
  service_ok w' /\ match r with
                   | Ok i => node_added (inst_id i) (effective_tags (spec_tags spec)) w w'
                   | Err _ => same_nodes w w' \/ lost (Li.create_req root_pass token spec) w w' /\ exists id, node_added id (effective_tags (spec_tags spec)) w w'
                   | Panic => False
                   end.
Proof.
  intros Hw. unfold Li.create, Li.json_ok, mbind, Li.body_ok. destruct (send _ w) as [r0 w0] eqn:Es.
  destruct (svc_create spec w r0 w0 Hw Es) as [Hok Ha]. destruct r0 as [[status body]|e|]; cbn in Ha; [| |done].
  - destruct (is_success status) eqn:Est; [|intros [= <- <-]; split; [done|]; left; intros x; by apply li_node_same].
    destruct Ha as (l & Hb & Hr & Hn & Ht & Hl). unfold lift, Li.read. rewrite (Hb body eq_refl). intros [= <- <-]. split; [done|].
    cbn [Li.to_instance inst_id]. rewrite <- Ht. by apply inserted_added.
  - intros [= <- <-]. split; [done|]. destruct Ha as [Ha|(l & _ & Hr & Hn & Ht & Hl)]; [left; intros x; by apply li_node_same|].
    right. split; [by eexists|]. eexists. rewrite <- Ht. by apply inserted_added.
Qed.

Lemma client_delete id w r w' :
  service_ok w -> Li.delete token id w = (r, w') ->
  service_ok w' /\ match r with
                   | Ok _ => node_removed id w w'
                   | Err _ => same_nodes w w' \/ lost (Li.delete_req token id) w w' /\ node_removed id w w'
                   | Panic => False
                   end.
Proof.
  intros Hw. unfold Li.delete, Li.empty_ok, mbind, Li.body_ok. destruct (send _ w) as [r0 w0] eqn:Es.
  destruct (svc_delete id w r0 w0 Hw Es) as [Hok Ha]. destruct r0 as [[status body]|e|]; cbn in Ha; [| |done].
  - destruct (is_success status) eqn:Est; intros [= <- <-]; (split; [done|]); [by apply deleted_removed|left; intros x; by apply li_node_same].
  - intros [= <- <-]. split; [done|]. destruct Ha as [Ha|Ha]; [left; intros x; by apply li_node_same|].
    right. split; [by eexists|]. by apply deleted_removed.
Qed.

Lemma client_get id w r w' :
  service_ok w -> Li.get token id w = (r, w') -> service_ok w' /\ same_nodes w w' /\ r <> Panic.
Proof.
  intros Hw. unfold Li.get, Li.json_ok, mbind, Li.body_ok. destruct (send _ w) as [r0 w0] eqn:Es.
  destruct (svc_get id w r0 w0 Hw Es) as (Hok & Hl & Hp). destruct r0 as [[status body]|e|]; [| |done].
  - destruct (is_success status); unfold lift, Li.read; [destruct (from_str _ body)|]; intros [= <- <-]; (split; [done|]); (split; [|done]); intros x; by apply li_node_same.
  - intros [= <- <-]. split; [done|]. split; [|done]. intros x. by apply li_node_same.
Qed.

Lemma client_list w r w' :
  service_ok w -> Li.list_ephemeral token w = (r, w') ->
  service_ok w' /\ same_nodes w w'
  /\ match r with
     | Ok l => (forall x, x ∈ map inst_id l -> exists tags, li_node w x = Some tags /\ EPHEMERAL_TAG ∈ tags)
         /\ ((size (ephemerals_of (linodes w)) <= 100)%nat -> forall x tags, li_node w x = Some tags -> EPHEMERAL_TAG ∈ tags -> x ∈ map inst_id l)
     | Err _ => True
     | Panic => False
     end.
Proof.
  intros Hw. unfold Li.list_ephemeral, Li.json_ok, mbind, Li.body_ok. destruct (send _ w) as [r0 w0] eqn:Es.
  destruct (svc_list w r0 w0 Hw Es) as (Hok & Hl & Hp & Ha). destruct r0 as [[status body]|e|]; [| |done].
  2: { intros [= <- <-]. split; [done|]. split; [|done]. intros x. by apply li_node_same. }
  destruct (is_success status) eqn:Est; [|intros [= <- <-]; split; [done|]; split; [|done]; intros x; by apply li_node_same].
  destruct (Ha status body eq_refl Est) as (ls & Hb & Hin & Hall). unfold lift, Li.read. rewrite Hb. intros [= <- <-].
  split; [done|]. split; [intros x; by apply li_node_same|]. rewrite map_map. split.
  - intros x (l & -> & Hls)%list_elem_of_fmap. apply Hin, map_lookup_filter_Some in Hls as [Hm Ht]. exists (Li.li_tags l). split; [|done].
    apply li_node_Some; [done|]. by exists (Li.li_id l), l.
  - intros Hsz x tags (n & l & -> & Hm & ->)%li_node_Some Ht; [|done]. destruct (svc_filed w n l Hw Hm) as [E _].
    apply list_elem_of_fmap. exists l. cbn. rewrite E. split; [done|]. apply (Hall Hsz n). by apply map_lookup_filter_Some.
Qed.

End lawful.

(** * Concrete runs *)

(** A small Linode service and two pages of a Hetzner account: the theorems above
    instantiated, and an answer that is lost. *)
Module CloudDemo.
(** The nodes by id with their tags, the next id, and whether answers to creations are lost. *)
Record world : Type := MkWorld { nodes : gmap Z (list text); next : Z; lossy : bool }.

Definition inst (k : Z) (tags : list text) : Li.LinodeInstance :=
  Li.MkLinodeInstance k [] (lit "g6-nanode-1") (lit "running") [] tags None None None None.
Definition inst_json (k : Z) (tags : list text) : Value :=
  Js.obj [("id", Int k); ("region", Str []); ("type", Str (lit "g6-nanode-1")); ("status", Str (lit "running")); ("ipv4", Arr []);
          ("tags", Arr (map Str tags))].
Definition hz_json (id : Z) (name : string) : Value :=
  Js.obj [("id", Int id); ("name", Str (lit name)); ("status", Str (lit "off")); ("server_type", Js.obj [("name", Str (lit "cx22"))])].
Definition hz_body (id : Z) (name : string) (next : Value) : Value :=
  Js.obj [("servers", Arr [hz_json id name]); ("meta", Js.obj [("pagination", Js.obj [("next_page", next)])])].

(** Bodies are numbers: an instance, a list of instances, a page of a Hetzner account. *)
Definition one (k : Z) (tags : list text) : text := [0; Z.pos (encode (k, tags))].
Definition many (l : list (Z * list text)) : text := [1; Z.pos (encode l)].
#[export] Instance json : JsonText := {|
  json_parse t := match t with
    | [0; Zpos p] => match decode p with Some (k, tags) => inr (inst_json k tags) | None => inl "syntax"%string end
    | [1; Zpos p] => match decode p with
                     | Some l => inr (Js.obj [("data", Arr (map (fun kt : Z * list text => inst_json kt.1 kt.2) l)); ("pages", Int 1)])
                     | None => inl "syntax"%string
                     end
    | [3] => inr (hz_body 42 "web" (Int 2))
    | [4] => inr (hz_body 43 "db" Null)
    | _ => inl "syntax"%string
    end |}.
#[export] Instance misfits : JsonMisfit := {| misfit _ := "type"%string |}.
#[export] Instance times : TimeText := {| rfc3339 _ := None; primitive_utc _ := None; show_rfc3339 _ := [] |}.
#[export] Instance floats : FloatText := {| show_f64 _ := [] |}.

Definition tags_asked (r : HttpReq) : list text := default [] (req_body r ≫= fun v => Js.strs (Js.get (lit "tags") v)).
Definition instances_url : text := Li.API ++ lit "/linode/instances".
Definition ephemerals (w : world) : list (Z * list text) := List.filter (fun kt => bool_decide (EPHEMERAL_TAG ∈ kt.2)) (map_to_list (nodes w)).

Definition answer (r : HttpReq) : ST world string (Z * text) := fun w =>
  if bool_decide (method r = "POST"%string) && bool_decide (url r = instances_url) then
    if next w <? 2 ^ 64 then
      let w' := MkWorld (<[next w := tags_asked r]> (nodes w)) (next w + 1) (lossy w) in
      (if lossy w then Err "operation timed out"%string else Ok (200, one (next w) (tags_asked r)), w')
    else (Ok (400, []), w)
  else if bool_decide (method r = "DELETE"%string) then
    match strip_prefix (instances_url ++ lit "/") (url r) with
    | Some id => (Ok (200, []), MkWorld (base.filter (fun kv => show_dec kv.1 <> id) (nodes w)) (next w) (lossy w))
    | None => (Ok (404, []), w)
    end
  else if bool_decide (x_filter r <> None) then (Ok (200, many (ephemerals w)), w)
  else if bool_decide (url r = Li.API ++ Li.page_path 1) then (Ok (200, many (map_to_list (nodes w))), w)
  else if bool_decide (url r = Hz.API ++ Hz.page_path 1) then (Ok (200, [3]), w)
  else if bool_decide (url r = Hz.API ++ Hz.page_path 2) then (Ok (200, [4]), w)
  else (Ok (404, []), w).
#[export] Instance http : Http world := {| send := answer |}.

Definition fine (w : world) : Prop :=
  0 <= next w /\ forall k tags, nodes w !! k = Some tags -> 0 <= k < next w /\ k < 2 ^ 64.
Definition all (w : world) : gmap Z Li.LinodeInstance := map_imap (fun k tags => Some (inst k tags)) (nodes w).

Lemma all_Some w k l : all w !! k = Some l <-> exists tags, nodes w !! k = Some tags /\ l = inst k tags.
Proof. unfold all. rewrite map_lookup_imap, bind_Some. naive_solver. Qed.

Lemma inst_read k tags : 0 <= k < 2 ^ 64 -> Li.instance_of (inst_json k tags) = Some (inst k tags).
Proof.
  intros Hk. assert (E : Js.struct_fields ["id"; "region"; "type"; "status"; "ipv4"; "tags"; "label"; "ipv6"; "created"; "specs"] (inst_json k tags)
    = Some [Some (Int k); Some (Str []); Some (Str (lit "g6-nanode-1")); Some (Str (lit "running")); Some (Arr []); Some (Arr (map Str tags)); None; None; None; None])
    by reflexivity.
  unfold Li.instance_of. rewrite E. unfold Field.u64. cbn [base.mbind option_bind Js.as_u64].
  rewrite (proj2 (Z.leb_le 0 k)), (proj2 (Z.ltb_lt k (2 ^ 64))) by lia. cbn [andb base.mbind option_bind].
  cbn -[lit]. change (mapM Js.as_str (map Str tags)) with (Js.strs (Some (Arr (map Str tags)))). unfold Js.strs, Js.strs_of. cbn [base.mbind option_bind Js.as_array].
  by rewrite mapM_strs.
Qed.

Lemma insts_read l : Forall (fun kt : Z * list text => 0 <= kt.1 < 2 ^ 64) l ->
  mapM Li.instance_of (map (fun kt => inst_json kt.1 kt.2) l) = Some (map (fun kt => inst kt.1 kt.2) l).
Proof. induction 1 as [|[k t] l Hk Hl IH]; [done|]. cbn [map]. cbn [mapM]. rewrite inst_read by done. cbn. by rewrite IH. Qed.

Lemma many_read l : Forall (fun kt : Z * list text => 0 <= kt.1 < 2 ^ 64) l ->
  from_str (Li.data_of Li.instance_of) (many l) = inr (map (fun kt => inst kt.1 kt.2) l).
Proof.
  intros Hl. unfold from_str, many. cbn [json_parse json]. rewrite decode_encode. unfold Li.data_of.
  change (Js.struct_fields ["data"] _) with (Some [Some (Arr (map (fun kt => inst_json kt.1 kt.2) l))]).
  cbn [base.mbind option_bind Field.list_of Js.as_array]. unfold Field.list_of. cbn [base.mbind option_bind Js.as_array]. by rewrite insts_read.
Qed.

Lemma nodes_in_range w : fine w -> Forall (fun kt : Z * list text => 0 <= kt.1 < 2 ^ 64) (map_to_list (nodes w)).
Proof. intros (_ & Hf). apply Forall_forall. intros [k t] Hk%elem_of_map_to_list. apply Hf in Hk. cbn. lia. Qed.

Lemma create_answered rp tok spec w :
  answer (Li.create_req rp tok spec) w
  = if next w <? 2 ^ 64 then
      (if lossy w then Err "operation timed out"%string else Ok (200, one (next w) (effective_tags (spec_tags spec))),
       MkWorld (<[next w := effective_tags (spec_tags spec)]> (nodes w)) (next w + 1) (lossy w))
    else (Ok (400, []), w).
Proof.
  assert (E : tags_asked (Li.create_req rp tok spec) = effective_tags (spec_tags spec)).
  { unfold tags_asked. cbn [req_body Li.create_req Li.request base.mbind option_bind].
    change (Js.get (lit "tags") _) with (Some (Arr (map Str (effective_tags (spec_tags spec))))).
    unfold Js.strs, Js.strs_of. cbn [base.mbind option_bind Js.as_array]. by rewrite mapM_strs. }
  unfold answer. rewrite E. rewrite !bool_decide_true by done. done.
Qed.

Lemma delete_answered tok id w :
  answer (Li.delete_req tok id) w = (Ok (200, []), MkWorld (base.filter (fun kv => show_dec kv.1 <> id) (nodes w)) (next w) (lossy w)).
Proof.
  unfold answer. rewrite bool_decide_false by done. cbn [andb]. rewrite bool_decide_true by done.
  assert (E : strip_prefix (instances_url ++ lit "/") (url (Li.delete_req tok id)) = Some id).
  { apply strip_prefix_Some. unfold instances_url, Li.delete_req, Li.request. cbn [url]. by rewrite <- !app_assoc. }
  by rewrite E.
Qed.

Lemma get_answered tok path w : exists r, answer (Li.request tok "GET" path None) w = (Ok r, w).
Proof.
  unfold answer. rewrite bool_decide_false by done. cbn [andb]. rewrite bool_decide_false by done. cbn [x_filter Li.request].
  rewrite bool_decide_false by (by intros []). repeat case_bool_decide; eauto.
Qed.

Lemma created w tags :
  fine w -> next w < 2 ^ 64 ->
  let w' := MkWorld (<[next w := tags]> (nodes w)) (next w + 1) (lossy w) in
  fine w' /\ all w !! next w = None /\ all w' = <[next w := inst (next w) tags]> (all w).
Proof.
  intros (H0 & Hf) Hlt. assert (Hnew : nodes w !! next w = None).
  { destruct (nodes w !! next w) as [t|] eqn:E; [|done]. apply Hf in E. lia. }
  split; [split; [cbn; lia|]; cbn; intros k t; rewrite lookup_insert_Some; intros [[<- _]|[_ Hk]]; [lia|]; apply Hf in Hk; lia|].
  unfold all. split; [by rewrite map_lookup_imap, Hnew|]. apply map_eq. intros k. cbn [nodes]. rewrite map_lookup_imap.
  destruct (decide (k = next w)) as [->|Hne]; [by rewrite !lookup_insert_eq|by rewrite !lookup_insert_ne, map_lookup_imap].
Qed.
Lemma listed w l : l ∈ map (fun kt => inst kt.1 kt.2) (ephemerals w) <-> ephemerals_of (all w) !! Li.li_id l = Some l.
Proof.
  unfold ephemerals_of. rewrite map_lookup_filter_Some, all_Some, list_elem_of_fmap. unfold ephemerals. split.
  - intros ([k t] & -> & Hk%list_elem_of_In). apply filter_In in Hk as [Hk Ht]. bools. apply list_elem_of_In, elem_of_map_to_list in Hk. cbn. eauto.
  - intros [(t & Hk & Hlt) Ht]. exists (Li.li_id l, t). rewrite Hlt. cbn [Li.li_id inst fst snd]. split; [done|].
    apply list_elem_of_In, filter_In. split; [by apply list_elem_of_In, elem_of_map_to_list|]. apply bool_decide_true. cbn in Ht. by rewrite Hlt in Ht.
Qed.

#[export] Instance service rp tok : LinodeService world rp tok.
Proof.
  refine {| service_ok := fine; linodes := all |}.
  - intros w k l (_ & Hf) (tags & Hk & ->)%all_Some. apply Hf in Hk. cbn. lia.
  - intros spec w r w' Hw Hs. cbn [send http] in Hs. rewrite create_answered in Hs.
    destruct (Z.ltb_spec (next w) (2 ^ 64)) as [Hlt|Hge]; [|by injection Hs as <- <-].
    destruct (created w (effective_tags (spec_tags spec)) Hw Hlt) as (Hok & Hn & Hl). destruct Hw as [H0 _].
    destruct (lossy w); injection Hs as <- <-; (split; [done|]); cbn [answered]; [right|change (is_success 200) with true; cbv match];
      exists (inst (next w) (effective_tags (spec_tags spec))); (split; [|done]); [done|].
    intros b [= <-]. unfold from_str, one. cbn [json_parse json]. rewrite decode_encode. by rewrite inst_read by lia.
  - intros id w r w' Hw Hs. cbn [send http] in Hs. destruct (get_answered tok (lit "/linode/instances/" ++ id) w) as [x Hx]. rewrite Hx in Hs.
    by injection Hs as <- <-.
  - intros id w r w' (H0 & Hf) Hs. cbn [send http] in Hs. rewrite delete_answered in Hs. injection Hs as <- <-. split.
    + split; [done|]. cbn. intros k t [Hk _]%map_lookup_filter_Some. by apply (Hf k t).
    + cbn [answered]. change (is_success 200) with true. cbv match. intros k. unfold all. cbn [nodes]. rewrite !map_lookup_imap.
      rewrite map_lookup_filter. case_bool_decide as E; destruct (nodes w !! k) as [t|]; cbn; try done.
      * case_guard as G; [by destruct G|done].
      * by case_guard as G; [|destruct G].
  - intros w r w' Hw Hs. cbn [send http] in Hs.
    assert (E : answer (Li.ephemeral_req tok) w = (Ok (200, many (ephemerals w)), w)).
    { unfold answer. rewrite bool_decide_false by done. cbn [andb]. rewrite bool_decide_false by done. by rewrite bool_decide_true. }
    rewrite E in Hs. injection Hs as <- <-. split; [done|]. split; [done|]. split; [done|]. intros status body [= <- <-] _.
    pose proof (nodes_in_range w Hw) as Hr. exists (map (fun kt => inst kt.1 kt.2) (ephemerals w)). split; [|split].
    + apply many_read. unfold ephemerals. rewrite Forall_forall in Hr |- *. intros kt Hk%list_elem_of_In. apply filter_In in Hk as [Hk _].
      apply Hr. by apply list_elem_of_In.
    + intros l. apply listed.
    + intros _ k l Hk. apply listed. assert (k = Li.li_id l) as <-; [|done].
      apply map_lookup_filter_Some in Hk as [(t & _ & ->)%all_Some _]. done.
Defined.

Definition start : world := MkWorld {[7 := [SYNC_TAG]]} 8 false.
Definition leaky : world := MkWorld ∅ 8 true.
Definition spec : InstanceSpec := MkInstanceSpec (lit "us-east") (lit "g6-nanode-1") [] (lit "n") [].
Definition tok : text := lit "t".
End CloudDemo.
Import CloudDemo.


(** An answer that is lost: the client reports a failure, and so does the connect above it, which then
    deletes nothing, but the node exists and is billed. *)
Lemma lost_answer_orphans :
  exists e w', Li.create tok tok spec leaky = (Err e, w') /\ nodes w' = {[8 := [EPHEMERAL_TAG]]}.
Proof. eexists _, _. split; [vm_compute; reflexivity|]. vm_compute. reflexivity. Qed.

Definition web : Hz.HetznerServer := Hz.MkHetznerServer 42 (lit "web") (lit "off") None None None (Hz.MkServerType (lit "cx22") 0 F64.zero 0 []) None [].
Definition db : Hz.HetznerServer := Hz.MkHetznerServer 43 (lit "db") (lit "off") None None None (Hz.MkServerType (lit "cx22") 0 F64.zero 0 []) None [].

Lemma fleet_listed_whole_witness :
  Hz.list_all tok start = (Ok (map Hz.server_info [web; db]), start)
  /\ fst (Li.list_all tok start) = Ok [Li.server_info (inst 7 [SYNC_TAG]) (Li.price_per_hour (lit "g6-nanode-1"))].
Proof.
  destruct (fleet_listed_whole tok start) as [H1 H2]. split.
  - apply (H1 [[web]; [db]] None); [|vm_compute; lia]. cbn. left. split; [exists [3]; split; vm_compute; reflexivity|].
    right. split; [done|]. split; [done|]. exists [4]. split; vm_compute; reflexivity.
  - rewrite (H2 [[inst 7 [SYNC_TAG]]] None); [done| |by left|vm_compute; lia]. cbn. split; [lia|]. split; [|done].
    exists (many (map_to_list (nodes start))). split; [vm_compute; reflexivity|]. vm_compute. reflexivity.
Defined.
