(* ===== verification/Servers.v ===== *)
(** [apps/desktop/src-tauri/src/servers.rs]: the commands of the Servers screen over the two provider
    clients, the Netdata bridge and SSH, the per-server configuration file, and the background
    watchdog. Logging and native toasts have no value here; the events the window receives are the
    [Notice]s. *)
From S2P Require Import Prelude Bytes Text Crypto Floats Value Totp Toy RecoveryKit Keyring Model Envelope VaultStore Session Csv Importers Provision.
From S2P Require Import Vpn AppLock Generator Health Passkey NmHost VpnManager SyncClient SettingsSync CrowdSec Watchdog Cloud Netdata Providers.
Local Open Scope Z_scope.

Record ServersFileCfg : Type := MkServersFileCfg {
  fc_watchdog : WatchdogFileCfg;
  fc_netdata : gmap text NetdataFileCfg;
  fc_ssh : gmap text SshServerCfg;
  fc_crowdsec : gmap text bool;
}.
Definition NetdataFileCfg_default : NetdataFileCfg := MkNetdataFileCfg false 19999 false false.

(** The configuration file, the keychain, the active VPN connection, whether the vault is locked, the
    ban ids seen per server, the events sent to the window, and the servers and services outside. *)
Inductive Notice : Type :=
| AlertNotice (a : Alert)
| BanNotice (key label ip scenario : text)
| FleetNotice (propagated : Z).
Record Srv (W : Type) : Type := MkSrv {
  sv_cfg : ServersFileCfg;
  sv_linode : option text;
  sv_hetzner : option text;
  sv_auth : gmap text text;
  sv_vpn : option Mgr.VpnActive;
  sv_locked : bool;
  sv_seen : gmap text (gset Z);
  sv_notices : list Notice;
  sv_world : W;
}.
Arguments MkSrv {W}. Arguments sv_cfg {W}. Arguments sv_linode {W}. Arguments sv_hetzner {W}. Arguments sv_auth {W}. Arguments sv_vpn {W}.
Arguments sv_locked {W}. Arguments sv_seen {W}. Arguments sv_notices {W}. Arguments sv_world {W}.

Module Servers.
(** ** What the window is given *)

Record ServerOut : Type := MkServerOut {
  so_provider : text; so_id : text; so_label : text; so_region : text; so_type : text; so_state : text; so_ipv4 : option text;
  so_ipv6 : option text; so_roles : list text; so_created_at : option Z; so_vcpus : Z; so_memory_mb : Z; so_disk_gb : Z;
  so_hourly : f64; so_monthly : f64; so_currency : text }.
Record ServersListOut : Type := MkServersListOut { lo_servers : list ServerOut; lo_errors : list (text * text) }.
Record MetricsOut : Type := MkMetricsOut {
  mo_cpu_pct : list (f64 * f64); mo_net_in : list (f64 * f64); mo_net_out : list (f64 * f64); mo_disk_io : list (f64 * f64) }.

Definition state_label (s : InstanceState.t) : text :=
  lit match s with
      | InstanceState.Provisioning => "provisioning" | InstanceState.Booting => "booting" | InstanceState.Running => "running"
      | InstanceState.Stopped => "stopped" | InstanceState.Deleting => "deleting" | InstanceState.Gone => "gone"
      end.
Definition role_of (tag : text) : list text :=
  if bool_decide (tag = EPHEMERAL_TAG) then [lit "vpn"]
  else if bool_decide (tag = SYNC_TAG) then [lit "sync"]
  else if bool_decide (tag = PERSISTENT_VPN_TAG) then [lit "vpn-always-on"]
  else [].
Definition roles_for (info : ServerInfo) : list text :=
  match flat_map role_of (si_tags info) with [] => [lit "external"] | roles => roles end.
Definition server_out (info : ServerInfo) : ServerOut :=
  MkServerOut (as_str (si_provider info)) (si_id info) (si_label info) (si_region info) (si_type info) (state_label (si_state info))
    (si_ipv4 info) (si_ipv6 info) (roles_for info) (si_created_at info) (si_vcpus info) (si_memory_mb info) (si_disk_gb info)
    (si_hourly info) (si_monthly info) (lit (si_currency info)).
Definition points_out (l : list MetricPoint) : list (f64 * f64) := map (fun p => (F64.of_Z (ts p), value p)) l.

(** Provider, then label. *)
Definition before (a b : ServerOut) : bool :=
  text_lt (so_provider a) (so_provider b) || (bool_decide (so_provider a = so_provider b) && text_lt (so_label a) (so_label b)).

Definition netdata_key (provider id : text) : text := provider ++ lit ":" ++ id.
Definition netdata_auth_account (provider id : text) : text := lit "netdata-auth-" ++ provider ++ lit "-" ++ id.

Section ops.
Context {W : Type} {H : Http W} {Sh : Ssh W} {I : IpText} {J : JsonText} {X : JsonMisfit} {T : TimeText} {FT : FloatText}.

Definition M (A : Type) : Type := ST (Srv W) text A.

Definition get {A} (f : Srv W -> A) : M A := fun s => (Ok (f s), s).
Definition with_world (w : W) (s : Srv W) : Srv W :=
  MkSrv (sv_cfg s) (sv_linode s) (sv_hetzner s) (sv_auth s) (sv_vpn s) (sv_locked s) (sv_seen s) (sv_notices s) w.
Definition set_cfg (c : ServersFileCfg) (s : Srv W) : Srv W :=
  MkSrv c (sv_linode s) (sv_hetzner s) (sv_auth s) (sv_vpn s) (sv_locked s) (sv_seen s) (sv_notices s) (sv_world s).
Definition set_hetzner_entry (o : option text) (s : Srv W) : Srv W :=
  MkSrv (sv_cfg s) (sv_linode s) o (sv_auth s) (sv_vpn s) (sv_locked s) (sv_seen s) (sv_notices s) (sv_world s).
Definition set_auth (a : gmap text text) (s : Srv W) : Srv W :=
  MkSrv (sv_cfg s) (sv_linode s) (sv_hetzner s) a (sv_vpn s) (sv_locked s) (sv_seen s) (sv_notices s) (sv_world s).
Definition set_seen (m : gmap text (gset Z)) (s : Srv W) : Srv W :=
  MkSrv (sv_cfg s) (sv_linode s) (sv_hetzner s) (sv_auth s) (sv_vpn s) (sv_locked s) m (sv_notices s) (sv_world s).
Definition notify (n : Notice) (s : Srv W) : Srv W :=
  MkSrv (sv_cfg s) (sv_linode s) (sv_hetzner s) (sv_auth s) (sv_vpn s) (sv_locked s) (sv_seen s) (sv_notices s ++ [n]) (sv_world s).

(** A call outside, with the text of its error. *)
Definition outside {E A} (shown : E -> text) (c : ST W E A) : M A := fun s =>
  let '(r, w) := c (sv_world s) in (map_err shown r, with_world w s).
Definition shown (e : CoreError) : text := lit (display e).

(** ** Tokens *)

Definition linode_get_token (s : Srv W) : option text := kc_value (sv_linode s).
Definition hetzner_get_token (s : Srv W) : option text := kc_value (sv_hetzner s).
Definition hetzner_set_token (f : Fate) (token : text) : M unit := fun s =>
  if bool_decide (trim token = []) then (Ok tt, if kc_ok f KC_HETZNER then set_hetzner_entry None s else s)
  else if kc_ok f KC_HETZNER then (Ok tt, set_hetzner_entry (Some (trim token)) s) else (Err (lit "keychain"), s).
Definition servers_set_hetzner_token (f : Fate) (token : text) : M unit := hetzner_set_token f token.
Definition servers_config (s : Srv W) : bool * bool :=
  (bool_decide (is_Some (linode_get_token s)), bool_decide (is_Some (hetzner_get_token s))).

Definition manager_for (now : Z) (provider : text) : M (ServerManager W) := fun s =>
  if bool_decide (provider = lit "linode") then
    (ok_or (Li.manager <$> linode_get_token s) (lit "no Linode token " ++ [8212] ++ lit " set one under Settings " ++ [8594] ++ lit " VPN " ++ [8594] ++ lit " Real VPN"), s)
  else if bool_decide (provider = lit "hetzner") then
    (ok_or (Hz.manager now <$> hetzner_get_token s) (lit "no Hetzner token " ++ [8212] ++ lit " set one under Settings " ++ [8594] ++ lit " VPN " ++ [8594] ++ lit " Hetzner Cloud"), s)
  else (Err (lit "unknown provider: " ++ provider), s).

(** ** The fleet *)

(** One provider's part of the list: its servers, its error, or nothing without a token. *)
Definition fetch_fleet (client : option (ServerManager W)) (w : W) : option (Result (list ServerInfo)) * W :=
  match client with
  | Some m => let '(r, w) := list_all (ServerManager := m) w in (Some r, w)
  | None => (None, w)
  end.
Definition merge_fleet (name : string) (r : option (Result (list ServerInfo))) (acc : list ServerOut * list (text * text))
    : list ServerOut * list (text * text) :=
  match r with
  | Some (Ok l) => (acc.1 ++ map server_out l, acc.2)
  | Some (Err e) => (acc.1, acc.2 ++ [(lit name, shown e)])
  | _ => acc
  end.
Definition servers_list (now : Z) : M ServersListOut := fun s =>
  match linode_get_token s, hetzner_get_token s with
  | None, None => (Err (lit "No provider tokens configured. Add your Linode and/or Hetzner Cloud API token in Settings."), s)
  | lt, ht =>
      let '(lr, w) := fetch_fleet (Li.manager <$> lt) (sv_world s) in
      let '(hr, w) := fetch_fleet (Hz.manager now <$> ht) w in
      match lr, hr with
      | Some Panic, _ | _, Some Panic => (Panic, with_world w s)
      | _, _ =>
          let '(servers, errors) := merge_fleet "hetzner" hr (merge_fleet "linode" lr ([], [])) in
          (Ok (MkServersListOut (sort_by before servers) errors), with_world w s)
      end
  end.

Definition servers_metrics (now : Z) (provider id : text) (window_secs vcpus : Z) : M MetricsOut :=
  let! mgr := manager_for now provider in
  let! m := outside shown (metrics (ServerManager := mgr) id window_secs) in
  let m := normalize_cpu_to_whole_machine vcpus m in
  let cutoff := match last (cpu_pct m) with Some p => ts p - window_secs | None => 0 end in
  let trimmed l := points_out (List.filter (fun p => cutoff <=? ts p) l) in
  ret (MkMetricsOut (trimmed (cpu_pct m)) (trimmed (net_in_bps m)) (trimmed (net_out_bps m)) (trimmed (disk_io m))).

Definition in_active_chain (id : text) (s : Srv W) : bool :=
  match sv_vpn s with Some v => bool_decide (Mgr.instance_id v = id) || bool_decide (id ∈ Mgr.chain v) | None => false end.
Definition action_of (action : text) : option PowerAction :=
  if bool_decide (action = lit "start") then Some Boot else if bool_decide (action = lit "stop") then Some Shutdown
  else if bool_decide (action = lit "reboot") then Some Reboot else if bool_decide (action = lit "reset") then Some Reset else None.
Definition servers_power (now : Z) (provider id action : text) : M unit :=
  let! active := get (in_active_chain id) in
  require negb (bool_decide (provider = lit "linode") && active)
    else lit "This node is carrying your active VPN connection " ++ [8212] ++ lit " disconnect or manage it from the VPN screen instead." in
  let! act := lift (ok_or (action_of action) (lit "unknown action: " ++ action)) in
  let! mgr := manager_for now provider in
  outside shown (power (ServerManager := mgr) id act).

Definition byte_len (s : text) : nat := length (utf8 s).
Definition servers_snapshot (now : Z) (provider id label : text) : M unit :=
  let label := trim label in
  require negb (bool_decide (label = [])) else lit "Enter a name for the snapshot." in
  require (byte_len label <=? 64)%nat else lit "Snapshot name is too long (max 64 characters)." in
  let! mgr := manager_for now provider in
  outside shown (snapshot (ServerManager := mgr) id label).
Definition servers_list_snapshots (now : Z) (provider id : text) : M (list Snapshot) :=
  let! mgr := manager_for now provider in outside shown (list_snapshots (ServerManager := mgr) id).
Definition servers_events (now : Z) (provider id : text) : M (list ServerEvent) :=
  let! mgr := manager_for now provider in outside shown (recent_events (ServerManager := mgr) id).
Definition servers_set_rdns (now : Z) (provider id ip ptr : text) : M unit :=
  require ip_ok ip else lit "That doesn't look like a valid IP address." in
  let ptr := trim ptr in
  require negb (bool_decide (ptr = [])) && (byte_len ptr <=? 253)%nat else lit "Enter a valid hostname for the reverse-DNS record." in
  let! mgr := manager_for now provider in
  outside shown (set_rdns (ServerManager := mgr) id ip ptr).
Definition servers_set_protection (now : Z) (provider id : text) (on : bool) : M unit :=
  let! mgr := manager_for now provider in outside shown (set_protection (ServerManager := mgr) id on).

(** ** The configuration file *)

Definition set_watchdog (w : WatchdogFileCfg) (c : ServersFileCfg) : ServersFileCfg := MkServersFileCfg w (fc_netdata c) (fc_ssh c) (fc_crowdsec c).
Definition set_netdata (m : gmap text NetdataFileCfg) (c : ServersFileCfg) : ServersFileCfg := MkServersFileCfg (fc_watchdog c) m (fc_ssh c) (fc_crowdsec c).
Definition set_ssh (m : gmap text SshServerCfg) (c : ServersFileCfg) : ServersFileCfg := MkServersFileCfg (fc_watchdog c) (fc_netdata c) m (fc_crowdsec c).
Definition set_crowdsec (m : gmap text bool) (c : ServersFileCfg) : ServersFileCfg := MkServersFileCfg (fc_watchdog c) (fc_netdata c) (fc_ssh c) m.

Definition save_cfg (f : Fate) (c : ServersFileCfg) : M unit := fun s => if files_ok f then (Ok tt, set_cfg c s) else (Err (lit "write"), s).
Definition try_save (f : Fate) (c : ServersFileCfg) : M unit := fun s => (Ok tt, if files_ok f then set_cfg c s else s).
Definition load_cfg : M ServersFileCfg := get sv_cfg.

(** [entry(key).or_default()], changed. *)
Definition ssh_entry (key : text) (c : ServersFileCfg) : SshServerCfg := default SshServerCfg_default (fc_ssh c !! key).
Definition ssh_hostkey_get (provider id : text) (s : Srv W) : text := host_key_fingerprint (ssh_entry (netdata_key provider id) (sv_cfg s)).
Definition ssh_hostkey_set (f : Fate) (provider id fp : text) : M unit :=
  let! c := load_cfg in
  let key := netdata_key provider id in
  save_cfg f (set_ssh (<[key := MkSshServerCfg fp (installed (ssh_entry key c))]> (fc_ssh c)) c).
Definition servers_ssh_status (provider id : text) (s : Srv W) : text * bool :=
  let e := ssh_entry (netdata_key provider id) (sv_cfg s) in (host_key_fingerprint e, installed e).
Definition servers_ssh_mark_installed (f : Fate) (provider id : text) (inst : bool) : M unit :=
  let! c := load_cfg in
  let key := netdata_key provider id in
  save_cfg f (set_ssh (<[key := MkSshServerCfg (host_key_fingerprint (ssh_entry key c)) inst]> (fc_ssh c)) c).
Definition servers_ssh_hostkey_reset (f : Fate) (provider id : text) : M unit :=
  let! c := load_cfg in
  let key := netdata_key provider id in
  save_cfg f (match fc_ssh c !! key with Some e => set_ssh (<[key := MkSshServerCfg [] (installed e)]> (fc_ssh c)) c | None => c end).

Definition crowdsec_is_protected (provider id : text) (s : Srv W) : bool := default false (fc_crowdsec (sv_cfg s) !! netdata_key provider id).
Definition watchdog_ban_sync_enabled (s : Srv W) : bool := SettingsSync.ban_sync (fc_watchdog (sv_cfg s)).
Definition crowdsec_protected_keys (s : Srv W) : list text :=
  sort_by text_lt (map fst (List.filter (fun kc => kc.2) (map_to_list (fc_crowdsec (sv_cfg s))))).
Definition crowdsec_set_protected (f : Fate) (provider id : text) (on : bool) : M unit :=
  let! c := load_cfg in try_save f (set_crowdsec (<[netdata_key provider id := on]> (fc_crowdsec c)) c).

Definition servers_watchdog_get (s : Srv W) : WatchdogFileCfg := fc_watchdog (sv_cfg s).
Definition servers_watchdog_set (f : Fate) (cfg : WatchdogFileCfg) : M unit := let! c := load_cfg in save_cfg f (set_watchdog cfg c).

(** ** Netdata *)

Definition netdata_entry (key : text) (c : ServersFileCfg) : NetdataFileCfg := default NetdataFileCfg_default (fc_netdata c !! key).
Definition endpoint_for (provider id host : text) (s : Srv W) : Netdata.NetdataEndpoint * NetdataFileCfg :=
  let cfg := netdata_entry (netdata_key provider id) (sv_cfg s) in
  let auth := if has_auth cfg then sv_auth s !! netdata_auth_account provider id else None in
  (Netdata.MkEndpoint (nd_https cfg) host (nd_port cfg) (auth ≫= fun a => if bool_decide (trim a = []) then None else Some a), cfg).
Definition netdata_get (provider id : text) (s : Srv W) : NetdataFileCfg := netdata_entry (netdata_key provider id) (sv_cfg s).

Definition with_auth (a : bool) (c : NetdataFileCfg) : NetdataFileCfg := MkNetdataFileCfg (nd_enabled c) (nd_port c) (nd_https c) a.
Definition netdata_set (f : Fate) (provider id : text) (cfg : NetdataFileCfg) (auth_value : option text) : M unit :=
  let! file := load_cfg in
  let key := netdata_key provider id in
  let account := netdata_auth_account provider id in
  let prev := match fc_netdata file !! key with Some c => has_auth c | None => false end in
  let! stored :=
    match auth_value with
    | None => ret (with_auth prev cfg)
    | Some v => fun s =>
        if bool_decide (trim v = []) then (Ok (with_auth false cfg), if kc_ok f account then set_auth (base.delete account (sv_auth s)) s else s)
        else if kc_ok f account then (Ok (with_auth true cfg), set_auth (<[account := trim v]> (sv_auth s)) s) else (Err (lit "keychain"), s)
    end in
  save_cfg f (set_netdata (<[key := stored]> (fc_netdata file)) file).

Record NetdataProbeOut : Type := MkProbe { reachable : bool; pr_version : text; pr_hostname : text; pr_url : text; pr_https : bool; pr_error : option text }.
Definition at_scheme (b : bool) (ep : Netdata.NetdataEndpoint) : Netdata.NetdataEndpoint :=
  Netdata.MkEndpoint b (Netdata.host ep) (Netdata.port ep) (Netdata.auth_header ep).
Fixpoint probe_schemes (f : Fate) (key : text) (ep : Netdata.NetdataEndpoint) (cfg : NetdataFileCfg) (schemes : list bool) (last_err : text) : M NetdataProbeOut :=
  fun s =>
  match schemes with
  | [] => (Ok (MkProbe false [] [] (Netdata.base_url ep) (Netdata.https ep) (Some last_err)), s)
  | b :: schemes =>
      match outside shown (Netdata.info (at_scheme b ep)) s with
      | (Ok info, s) =>
          (let! file := load_cfg in
           let! _ := try_save f (set_netdata (<[key := MkNetdataFileCfg (nd_enabled cfg) (nd_port cfg) b (has_auth cfg)]> (fc_netdata file)) file) in
           ret (MkProbe true (Netdata.version info) (Netdata.hostname info) (Netdata.base_url (at_scheme b ep)) b None)) s
      | (Err e, s) => probe_schemes f key ep cfg schemes e s
      | (Panic, s) => (Panic, s)
      end
  end.
Definition netdata_probe (f : Fate) (provider id host : text) : M NetdataProbeOut :=
  let! ec := get (endpoint_for provider id host) in
  probe_schemes f (netdata_key provider id) ec.1 ec.2 [Netdata.https ec.1; negb (Netdata.https ec.1)] [].

Definition metric_kinds : list (string * (string * (Netdata.NetdataSeries -> list MetricPoint))) :=
  [("cpu", ("system.cpu", Netdata.cpu_total_pct)); ("ram", ("system.ram", Netdata.ram_used_pct)); ("net", ("system.net", Netdata.net_total_bps));
   ("load", ("system.load", Netdata.load1)); ("disk", ("disk_space./", Netdata.disk_used_pct)); ("swap", ("mem.swap", Netdata.swap_used_pct));
   ("steal", ("system.cpu", Netdata.cpu_steal_pct)); ("procs", ("system.processes", Netdata.procs_running));
   ("uptime", ("system.uptime", Netdata.uptime_secs)); ("psi_cpu", ("system.cpu_some_pressure", Netdata.psi_some));
   ("psi_mem", ("system.memory_some_pressure", Netdata.psi_some)); ("psi_io", ("system.io_some_pressure", Netdata.psi_some))].
Definition series_kinds : list (string * (string * (Netdata.NetdataSeries -> Netdata.NamedSeries))) :=
  [("load", ("system.load", Netdata.load_all)); ("net", ("system.net", Netdata.net_in_out)); ("diskio", ("system.io", Netdata.disk_io_rw))].
Definition kind_of {A} (kind : text) (table : list (string * A)) : option A := snd <$> List.find (fun ka => bool_decide (lit ka.1 = kind)) table.
Definition clampZ (lo hi x : Z) : Z := Z.max lo (Z.min hi x).

Definition chart_table (provider id host chart : text) (after_secs points : Z) : M Netdata.NetdataSeries :=
  let! ec := get (endpoint_for provider id host) in
  outside shown (Netdata.data ec.1 chart (clampZ 10 86400 after_secs) (clampZ 2 600 points)).
Definition netdata_metric (provider id host kind : text) (after_secs points : Z) : M (list (f64 * f64)) :=
  let! ca := lift (ok_or (kind_of kind metric_kinds) (lit "unknown metric kind: " ++ kind)) in
  let! series := chart_table provider id host (lit ca.1) after_secs points in
  ret (points_out (ca.2 series)).
Definition series_out (l : Netdata.NamedSeries) : list (text * list (f64 * f64)) := map (fun lp => (lp.1, points_out lp.2)) l.
Definition netdata_series (provider id host kind : text) (after_secs points : Z) : M (list (text * list (f64 * f64))) :=
  let! ca := lift (ok_or (kind_of kind series_kinds) (lit "unknown series kind: " ++ kind)) in
  let! series := chart_table provider id host (lit ca.1) after_secs points in
  ret (series_out (ca.2 series)).
Definition netdata_chart_data (provider id host chart : text) (after_secs points : Z) : M (list (text * list (f64 * f64))) :=
  let! series := chart_table provider id host chart after_secs points in ret (series_out (Netdata.chart_all_series series)).
Definition netdata_charts_index (provider id host : text) : M (list Netdata.ChartMeta * list text) :=
  let! ec := get (endpoint_for provider id host) in
  let! charts := outside shown (Netdata.charts ec.1) in
  ret (charts, Netdata.container_names charts).
Definition netdata_alarm_log (now : Z) (provider id host : text) : M (list Netdata.AlarmLogEntry) :=
  let! ec := get (endpoint_for provider id host) in
  let! log := outside shown (Netdata.alarms_log ec.1) in
  ret (take 30 (List.filter (fun e => now - 86400 <=? Netdata.when e) log)).
Definition netdata_alarms (provider id host : text) : M (list Netdata.NetdataAlarm) :=
  let! ec := get (endpoint_for provider id host) in outside shown (Netdata.alarms_active ec.1).

(** ** Firewalls *)

Record FirewallStatusOut : Type := MkFwStatus { attached : bool; firewall_name : option text; fs_rules : list (text * text * option text * list text * option text); supported : bool }.
Definition rule_out (r : Hz.FirewallRule) : text * text * option text * list text * option text :=
  (Hz.direction r, Hz.protocol r, Hz.rule_port r,
   if bool_decide (Hz.direction r = lit "out") then Hz.destination_ips r else Hz.source_ips r, Hz.description r).
Definition attached_to (server_id : Z) (fws : list Hz.Firewall) : option Hz.Firewall :=
  List.find (fun f => bool_decide (server_id ∈ Hz.applied_server_ids f)) fws.
Definition hetzner_firewall_for (server_id : Z) : M (text * option Hz.Firewall) :=
  let! t := get hetzner_get_token in
  let! token := lift (ok_or t (lit "No Hetzner token is set.")) in
  let! fws := outside shown (Hz.list_firewalls token) in
  ret (token, attached_to server_id fws).
Definition u64_of (id : text) : option Z := parse_unsigned (2 ^ 64 - 1) id.
Definition servers_firewall_get (provider id : text) : M FirewallStatusOut :=
  if negb (bool_decide (provider = lit "hetzner")) then ret (MkFwStatus false None [] false)
  else
    let! server_id := lift (ok_or (u64_of id) (lit "bad server id")) in
    let! cf := hetzner_firewall_for server_id in
    ret match cf.2 with
        | Some fw => MkFwStatus true (Some (Hz.fw_name fw)) (map rule_out (Hz.fw_rules fw)) true
        | None => MkFwStatus false None [] true
        end.
Definition sources_of (source : text) : list text :=
  if eq_ignore_ascii_case (trim source) (lit "any") || bool_decide (trim source = []) then [lit "0.0.0.0/0"; lit "::/0"] else [trim source].
Definition port_rule (port : Z) (source : text) : Hz.FirewallRule :=
  Hz.MkRule (lit "in") (lit "tcp") (Some (show_dec port)) (sources_of source) [] (Some (lit "NorthKey: port " ++ show_dec port)).
(** An inbound TCP rule for the port with all these sources. *)
Definition covers (port : Z) (sources : list text) (r : Hz.FirewallRule) : bool :=
  bool_decide (Hz.direction r = lit "in") && bool_decide (Hz.protocol r = lit "tcp") && bool_decide (Hz.rule_port r = Some (show_dec port))
  && forallb (fun ip => bool_decide (ip ∈ Hz.source_ips r)) sources.
Definition servers_firewall_allow_port (provider id : text) (port : Z) (source : text) : M unit :=
  require bool_decide (provider = lit "hetzner") else lit "Firewall management is available for Hetzner servers." in
  let! server_id := lift (ok_or (u64_of id) (lit "bad server id")) in
  let! cf := hetzner_firewall_for server_id in
  match cf.2 with
  | Some fw =>
      if existsb (covers port (sources_of source)) (Hz.fw_rules fw) then ret tt
      else outside shown (Hz.set_firewall_rules cf.1 (Hz.fw_id fw) (Hz.fw_rules fw ++ [port_rule port source]))
  | None =>
      let! _ := outside shown (Hz.create_firewall cf.1 (lit "northkey-" ++ show_dec port) [port_rule port source] server_id) in
      ret tt
  end.

(** ** System updates *)

Record UpdatesOut : Type := MkUpdates { up_locked : bool; pending : Z; security : Z; reboot_required : bool; packages : list text }.
Definition upgradable (line : text) : bool := contains_str (lit "[upgradable from:") line.
(** The first thirty names. *)
Definition add_package (l : list text) (line : text) : list text :=
  match split (chr "/") line with
  | name :: _ => if negb (bool_decide (trim name = [])) && (length l <? 30)%nat then l ++ [trim name] else l
  | [] => l
  end.
Definition parse_updates (out : text) : UpdatesOut :=
  let ups := List.filter upgradable (Hibp.lines out) in
  MkUpdates (contains_str (lit "NK_LOCKED") out) (Z.of_nat (length ups)) (Z.of_nat (length (List.filter (contains_str (lit "-security")) ups)))
    (contains_str (lit "NK_REBOOT_REQUIRED") out) (fold_left add_package ups []).

Definition unlocked_host (host : text) : M text := fun s =>
  if sv_locked s then (Err (lit "Unlock your vault first."), s)
  else if bool_decide (trim host = []) then (Err (lit "This server has no public IP address."), s) else (Ok (trim host), s).
Definition combined (out : ExecOut) : text := stdout out ++ [10] ++ stderr out.
(** The two fixed scripts are parameters. *)
Definition servers_updates_check (check_script provider id host : text) : M UpdatesOut :=
  let! host := unlocked_host host in
  let! out := outside (fun e => e) (exec provider id host check_script) in
  ret (parse_updates (combined out)).
Record UpdatesApplyOut : Type := MkApply { ap_ok : bool; ap_reboot_required : bool; ap_log : text }.
Definition servers_updates_apply (apply_script provider id host : text) : M UpdatesApplyOut :=
  let! host := unlocked_host host in
  let! out := outside (fun e => e) (exec provider id host apply_script) in
  let c := combined out in
  ret (MkApply (contains_str (lit "NK_UPDATES_DONE") c) (contains_str (lit "NK_REBOOT_REQUIRED") c) (CrowdSec.last_lines 40 c)).

(** ** The watchdog *)

(** The bans not seen before; the first sight of a server is silent. *)
Definition crowdsec_seen_new (key : text) (current : list (Z * text * text)) : M (list (text * text)) := fun s =>
  let ids : gset Z := list_to_set (map (fun b => b.1.1) current) in
  let fresh := match sv_seen s !! key with
               | None => []
               | Some seen => map (fun b => (b.1.2, b.2)) (List.filter (fun b => negb (bool_decide (b.1.1 ∈ seen))) current)
               end in
  (Ok fresh, set_seen (<[key := ids]> (sv_seen s)) s).

Definition active_bans (provider id host : text) : M (list (Z * text * text)) :=
  let! out := outside (fun e => e) (exec provider id host CrowdSec.decisions_cmd) in
  ret (map (fun d => (CrowdSec.de_id d, CrowdSec.de_source_ip d, CrowdSec.de_scenario d)) (CrowdSec.parse_decisions (stdout out))).

(** A best-effort call: its value, or nothing. *)
Definition attempt {A} (c : M A) : M (option A) := fun s =>
  match c s with (Ok a, s) => (Ok (Some a), s) | (Err _, s) => (Ok None, s) | (Panic, s) => (Panic, s) end.

Definition Fleet : Type := list (text * list ServerInfo).
Definition list_provider (name : string) (client : option (ServerManager W)) (acc : Fleet) : M Fleet :=
  match client with
  | None => ret acc
  | Some m =>
      let! r := attempt (outside shown (list_all (ServerManager := m))) in
      ret (match r with Some l => acc ++ [(lit name, l)] | None => acc end)
  end.

(** The sample of one server, with Netdata's readings where it is enabled. *)
Definition sample_of (file : ServersFileCfg) (provider : text) (info : ServerInfo) : M ServerSample :=
  let key := netdata_key provider (si_id info) in
  let plain cpu disk alarms := MkServerSample key (si_label info) (si_state info) cpu disk alarms in
  match (match fc_netdata file !! key with Some c => nd_enabled c | None => false end), si_ipv4 info with
  | true, Some host =>
      let! ec := get (endpoint_for provider (si_id info) host) in
      let! cpu := attempt (outside shown (Netdata.data ec.1 (lit "system.cpu") 60 4)) in
      let! disk := attempt (outside shown (Netdata.data ec.1 (lit "disk_space./") 60 2)) in
      let! alarms := attempt (outside shown (Netdata.alarms_active ec.1)) in
      ret (plain (cpu ≫= fun s => value <$> last (Netdata.cpu_total_pct s)) (disk ≫= fun s => value <$> last (Netdata.disk_used_pct s))
             ((fun l => Z.of_nat (length l)) <$> alarms))
  | _, _ => ret (plain None None None)
  end.
Fixpoint samples_of (file : ServersFileCfg) (l : list (text * ServerInfo)) : M (list ServerSample) :=
  match l with
  | [] => ret []
  | (p, i) :: l => let! x := sample_of file p i in let! xs := samples_of file l in ret (x :: xs)
  end.
Definition flatten (fleets : Fleet) : list (text * ServerInfo) := flat_map (fun pl => map (pair pl.1) pl.2) fleets.

Fixpoint emit_all (ns : list Notice) : M unit :=
  match ns with [] => ret tt | n :: ns => let! _ := (fun s => (Ok tt, notify n s)) in emit_all ns end.

(** New bans of one protected server. *)
Definition announce_bans (provider : text) (info : ServerInfo) : M unit :=
  let! prot := get (crowdsec_is_protected provider (si_id info)) in
  match prot, si_ipv4 info with
  | true, Some host =>
      let! bans := attempt (active_bans provider (si_id info) host) in
      match bans with
      | None => ret tt
      | Some bans =>
          let key := netdata_key provider (si_id info) in
          let! fresh := crowdsec_seen_new key bans in
          emit_all (map (fun b => BanNotice key (si_label info) b.1 b.2) fresh)
      end
  | _, _ => ret tt
  end.
Fixpoint announce_all (l : list (text * ServerInfo)) : M unit :=
  match l with [] => ret tt | (p, i) :: l => let! _ := announce_bans p i in announce_all l end.

(** The device as the ban pool sees it. *)
Definition sec_of (s : Srv W) : CrowdSec.Sec W :=
  CrowdSec.MkSec (sv_locked s) (list_to_set (crowdsec_protected_keys s)) (watchdog_ban_sync_enabled s) (sv_world s).
Definition pool (fleet : list CrowdSec.Server) : M CrowdSec.FleetSyncOut := fun s =>
  let '(r, c) := CrowdSec.fleet_sync_given fleet (sec_of s) in (r, with_world (CrowdSec.world c) s).
Definition protected_of (s : Srv W) (l : list (text * ServerInfo)) : list CrowdSec.Server :=
  omap (fun pi => match si_ipv4 pi.2 with
                  | Some host => if crowdsec_is_protected pi.1 (si_id pi.2) s then Some (CrowdSec.MkServer pi.1 (si_id pi.2) host (si_label pi.2)) else None
                  | None => None
                  end) l.

Definition watchdog_cfg (w : WatchdogFileCfg) : WatchdogCfg := MkWatchdogCfg (wd_cpu_pct w) (Z.max (wd_cpu_sustain_ticks w) 1) (wd_disk_pct w).
(** The protected servers exchange their bans. *)
Definition pool_bans (listed : list (text * ServerInfo)) : M unit :=
  let! fleet := get (fun s => protected_of s listed) in
  match fleet with
  | [] => ret tt
  | _ =>
      let! out := pool fleet in
      if 0 <? CrowdSec.fs_propagated out then emit_all [FleetNotice (CrowdSec.fs_propagated out)] else ret tt
  end.
Definition watchdog_tick (now : Z) (file : ServersFileCfg) (wd : WatchdogState) : M WatchdogState :=
  let! lt := get linode_get_token in
  let! fleets := list_provider "linode" (Li.manager <$> lt) [] in
  let! ht := get hetzner_get_token in
  let! fleets := list_provider "hetzner" (Hz.manager now <$> ht) fleets in
  let listed := flatten fleets in
  let! samples := samples_of file listed in
  let '(alerts, wd) := Watchdog.evaluate (watchdog_cfg (fc_watchdog file)) samples (map fst fleets) wd in
  let! _ := emit_all (map AlertNotice alerts) in
  let! _ := (if security_alerts (fc_watchdog file) then announce_all listed else ret tt) in
  let! _ := (if SettingsSync.ban_sync (fc_watchdog file) then pool_bans listed else ret tt) in
  ret wd.

(** One round of [spawn_servers_watchdog]: the configuration is read again, and the time to sleep. *)
Definition poll (now : Z) (wd : WatchdogState) : M (WatchdogState * Z) :=
  let! file := load_cfg in
  let! wd := (if wd_enabled (fc_watchdog file) then watchdog_tick now file wd else ret wd) in
  ret (wd, clampZ 60 3600 (wd_interval_secs (fc_watchdog file))).

(** What a connection attempt came to. *)
Inductive Dial : Type := Connected | Refused | Failed (e : text) | TimedOut.
Definition servers_port_check (resolve : text -> text + bool) (dial : text -> Z -> Dial) (host : text) (port : Z) : result (bool * text) text :=
  let host := trim host in
  if bool_decide (host = []) then Err (lit "no host address")
  else match resolve host with
       | inl e => Err (lit "could not resolve " ++ host ++ lit ": " ++ e)
       | inr false => Err (lit "could not resolve " ++ host)
       | inr true =>
           let p := show_dec port in
           Ok match dial host port with
              | Connected => (true, lit "Port " ++ p ++ lit " is open " ++ [8212] ++ lit " " ++ host ++ lit " accepted the connection.")
              | Refused => (false, lit "Connection refused on port " ++ p ++ lit ". The server is reachable, but nothing is listening on that port "
                              ++ [8212] ++ lit " the service is stopped, or it is bound to 127.0.0.1 instead of all interfaces.")
              | Failed e => (false, lit "Port " ++ p ++ lit " is not reachable: " ++ e)
              | TimedOut => (false, lit "Timed out connecting to port " ++ p ++ lit ". Something is silently dropping the traffic " ++ [8212]
                               ++ lit " usually a firewall ON the server (check `ufw status`), or the provider's cloud firewall missing an inbound rule for this port.")
              end
       end.
End ops.
End Servers.
