(* ===== verification/ServersClaims.v ===== *)
(** What the Servers screen promises: opening a port loses no rule and takes effect, a provider that
    cannot be listed raises no alarm, a ban is announced when it is new and not before, and a dead
    token does not hide the other fleet. *)
From S2P Require Import Prelude Bytes Text Crypto Floats Value Totp Toy RecoveryKit Keyring Model Envelope VaultStore Session Csv Importers Provision.
From S2P Require Import Vpn AppLock Generator Health Passkey NmHost VpnManager SyncClient SettingsSync CrowdSec Watchdog Cloud Netdata Providers Servers.
From S2P Require Import ProvidersClaims.
Local Open Scope Z_scope.
Import Servers.

(** * Firewalls *)

(** The Hetzner service, as it documents itself, to one token: the firewalls of the account, and the
    three requests; one that is not answered with success has had no effect. *)
Class FirewallService (W : Type) {H : Http W} {J : JsonText} {X : JsonMisfit} (token : text) : Type := {
  fws : W -> list Hz.Firewall;
  fw_ids w f : f ∈ fws w -> 0 <= Hz.fw_id f < 2 ^ 64;
  fw_list w r w' : send (Hz.firewalls_req token) w = (r, w') ->
    fws w' = fws w /\ match r with
                      | Ok (status, body) => is_success status = true -> from_str Hz.firewalls_page_of body = inr (fws w)
                      | Err _ => True
                      | Panic => False
                      end;
  fw_set id rules w r w' : 0 <= id < 2 ^ 64 -> send (Hz.set_rules_req token id rules) w = (r, w') ->
    match r with
    | Ok (status, _) =>
        fws w' = if is_success status then map (fun f => if Hz.fw_id f =? id then Hz.MkFirewall id (Hz.fw_name f) rules (Hz.applied_server_ids f) else f) (fws w)
                 else fws w
    | Err _ => fws w' = fws w
    | Panic => False
    end;
  fw_create name rules server_id w r w' : send (Hz.create_req token name rules server_id) w = (r, w') ->
    match r with
    | Ok (status, _) => if is_success status then exists id, id ∉ map Hz.fw_id (fws w) /\ fws w' = fws w ++ [Hz.MkFirewall id name rules [server_id]]
                        else fws w' = fws w
    | Err _ => fws w' = fws w
    | Panic => False
    end;
}.

(** A server without a firewall accepts every connection; one with firewalls, what a rule of one of
    them admits. *)
Definition admits (fs : list Hz.Firewall) (server_id port : Z) (ip : text) : bool :=
  let mine := List.filter (fun f => bool_decide (server_id ∈ Hz.applied_server_ids f)) fs in
  match mine with [] => true | _ => existsb (fun f => existsb (covers port [ip]) (Hz.fw_rules f)) mine end.

Lemma covers_source port sources r ip : covers port sources r = true -> ip ∈ sources -> covers port [ip] r = true.
Proof.
  unfold covers. rewrite !andb_true_iff. intros [Hr Hs] Hip. split; [done|]. cbn. rewrite andb_true_r.
  rewrite forallb_forall in Hs. apply Hs. by apply list_elem_of_In.
Qed.

Lemma port_rule_covers port source : covers port (sources_of source) (port_rule port source) = true.
Proof.
  unfold covers. cbn [port_rule Hz.direction Hz.protocol Hz.rule_port Hz.source_ips]. rewrite !bool_decide_true by done. cbn [andb].
  apply forallb_forall. intros ip Hip. apply bool_decide_true. by apply list_elem_of_In.
Qed.

(** Admitted by a rule of a firewall of the server. *)
Lemma admits_by fs f r server_id port ip :
  f ∈ fs -> server_id ∈ Hz.applied_server_ids f -> r ∈ Hz.fw_rules f -> covers port [ip] r = true -> admits fs server_id port ip = true.
Proof.
  intros Hf Hs Hr Hc. unfold admits.
  assert (Hin : In f (List.filter (fun f => bool_decide (server_id ∈ Hz.applied_server_ids f)) fs)).
  { apply filter_In. split; [by apply list_elem_of_In|by apply bool_decide_true]. }
  destruct (List.filter _ fs) as [|x l] eqn:E; [done|]. rewrite <- E in *. apply existsb_exists. exists f. split; [done|].
  apply existsb_exists. exists r. split; [by apply list_elem_of_In|done].
Qed.

Lemma admits_inv fs server_id port ip f :
  f ∈ fs -> server_id ∈ Hz.applied_server_ids f -> admits fs server_id port ip = true ->
  exists f r, f ∈ fs /\ server_id ∈ Hz.applied_server_ids f /\ r ∈ Hz.fw_rules f /\ covers port [ip] r = true.
Proof.
  intros Hf Hs. unfold admits. destruct (List.filter _ fs) as [|x l] eqn:E.
  - intros _. assert (Hin : In f (List.filter (fun f => bool_decide (server_id ∈ Hz.applied_server_ids f)) fs)).
    { apply filter_In. split; [by apply list_elem_of_In|by apply bool_decide_true]. }
    by rewrite E in Hin.
  - rewrite <- E. intros (g & Hg & (r & Hr & Hc)%existsb_exists)%existsb_exists. apply filter_In in Hg as [Hg Hb]. bools.
    exists g, r. split_and!; [by apply list_elem_of_In|done|by apply list_elem_of_In|done].
Qed.

Lemma attached_to_Some server_id fs f : attached_to server_id fs = Some f -> f ∈ fs /\ server_id ∈ Hz.applied_server_ids f.
Proof. intros H. apply find_some in H as [Hin Hb]. bools. split; [by apply list_elem_of_In|done]. Qed.

Section firewall.
Context {W : Type} {H : Http W} {Sh : Ssh W} {I : IpText} {J : JsonText} {X : JsonMisfit} {T : TimeText} {FT : FloatText}.
Context {token : text} {S : FirewallService W token}.

Lemma list_firewalls_run w r w' :
  Hz.list_firewalls token w = (r, w') -> fws w' = fws w /\ r <> Panic /\ forall l, r = Ok l -> l = fws w.
Proof.
  unfold Hz.list_firewalls, Hz.fetch, mbind, Hz.body_ok. change (Hz.request token "GET" (lit "/firewalls?per_page=50") None) with (Hz.firewalls_req token).
  destruct (send (Hz.firewalls_req token) w) as [r0 w0] eqn:Es. destruct (fw_list w r0 w0 Es) as [Hw Hr]. destruct r0 as [[status body]|e|]; [| |done].
  - destruct (is_success status) eqn:Est; [|by intros [= <- <-]]. specialize (Hr eq_refl). unfold lift, Hz.parse_firewalls, Hz.read. rewrite Hr.
    intros [= <- <-]. split; [done|]. split; [done|]. by intros l [= ->].
  - by intros [= <- <-].
Qed.

Lemma find_firewall s server_id r s' :
  hetzner_get_token s = Some token -> hetzner_firewall_for server_id s = (r, s') ->
  fws (sv_world s') = fws (sv_world s) /\ hetzner_get_token s' = Some token /\ r <> Panic
  /\ forall tk o, r = Ok (tk, o) -> tk = token /\ o = attached_to server_id (fws (sv_world s)).
Proof.
  intros Ht. unfold hetzner_firewall_for, mbind, get, lift. rewrite Ht. cbn [ok_or]. unfold outside.
  destruct (Hz.list_firewalls token (sv_world s)) as [r0 w0] eqn:E. destruct (list_firewalls_run _ _ _ E) as (Hw & Hp & Hl).
  destruct r0 as [l|e|]; cbn; [| |done].
  - rewrite (Hl l eq_refl). intros [= <- <-]. split; [done|]. split; [done|]. split; [done|]. by intros tk o [= <- <-].
  - by intros [= <- <-].
Qed.

(** The firewalls after opening a port on a server that has one. *)
Definition opened (fs : list Hz.Firewall) (f : Hz.Firewall) (port : Z) (source : text) : list Hz.Firewall :=
  map (fun g => if Hz.fw_id g =? Hz.fw_id f then Hz.MkFirewall (Hz.fw_id f) (Hz.fw_name g) (Hz.fw_rules f ++ [port_rule port source]) (Hz.applied_server_ids g) else g) fs.

Lemma allow_port_run s id server_id port source u s' :
  hetzner_get_token s = Some token -> u64_of id = Some server_id ->
  servers_firewall_allow_port (lit "hetzner") id port source s = (Ok u, s') ->
  match attached_to server_id (fws (sv_world s)) with
  | Some f => if existsb (covers port (sources_of source)) (Hz.fw_rules f) then fws (sv_world s') = fws (sv_world s)
              else fws (sv_world s') = opened (fws (sv_world s)) f port source
  | None => exists fid, fws (sv_world s') = fws (sv_world s) ++ [Hz.MkFirewall fid (lit "northkey-" ++ show_dec port) [port_rule port source] [server_id]]
  end.
Proof.
  intros Ht Hid. unfold servers_firewall_allow_port. rewrite bool_decide_true by done. unfold mbind at 1, lift at 1. rewrite Hid. cbn [ok_or].
  unfold mbind at 1. destruct (hetzner_firewall_for server_id s) as [r0 s0] eqn:E. destruct (find_firewall _ _ _ _ Ht E) as (Hw & Ht0 & Hp & Hr).
  destruct r0 as [[tk o]|e|]; [|done..]. destruct (Hr tk o eq_refl) as [-> ->]. cbn [fst snd]. destruct (attached_to server_id (fws (sv_world s))) as [f|] eqn:Ea.
  - destruct (existsb _ _); [by intros [= _ <-]|]. unfold outside. unfold Hz.set_firewall_rules, mbind, Hz.body_ok.
    destruct (send _ (sv_world s0)) as [r1 w1] eqn:Es. apply fw_set in Es; [|by apply (fw_ids _ _ (proj1 (attached_to_Some _ _ _ Ea)))]. destruct r1 as [[status body]|e|]; [| |done].
    + destruct (is_success status); [|done]. intros [= _ <-]. cbn [with_world sv_world]. by rewrite Es, Hw.
    + done.
  - unfold mbind at 1, outside. unfold Hz.create_firewall, mbind, Hz.body_ok.
    destruct (send _ (sv_world s0)) as [r1 w1] eqn:Es. apply fw_create in Es. destruct r1 as [[status body]|e|]; [| |done].
    + destruct (is_success status); [|done]. destruct Es as (fid & _ & Hn). unfold lift. destruct (Hz.created_id body); [|done..]. cbn.
      intros [= _ <-]. cbn [with_world sv_world]. exists fid. by rewrite Hn, Hw.
    + done.
Qed.

(** Opening a port never closes another. On a server that has a firewall, a request that succeeds
    leaves every rule of every firewall in place and appends at most the one rule asked for to the
    firewall of the server: whatever was admitted to any server stays admitted, and the port is
    admitted from each of the sources; asked again, nothing is written. *)
Theorem allow_port_only_opens s id server_id port source u s' f :
  hetzner_get_token s = Some token -> u64_of id = Some server_id -> NoDup (map Hz.fw_id (fws (sv_world s))) ->
  attached_to server_id (fws (sv_world s)) = Some f ->
  servers_firewall_allow_port (lit "hetzner") id port source s = (Ok u, s') ->
  (forall ip, ip ∈ sources_of source -> admits (fws (sv_world s')) server_id port ip = true)
  /\ (forall srv p ip, (exists g, g ∈ fws (sv_world s) /\ srv ∈ Hz.applied_server_ids g) ->
        admits (fws (sv_world s)) srv p ip = true -> admits (fws (sv_world s')) srv p ip = true)
  /\ (existsb (covers port (sources_of source)) (Hz.fw_rules f) = true -> fws (sv_world s') = fws (sv_world s)).
Proof.
  intros Ht Hid Hnd Ha Hrun. pose proof (allow_port_run _ _ _ _ _ _ _ Ht Hid Hrun) as Hfw. rewrite Ha in Hfw.
  destruct (attached_to_Some _ _ _ Ha) as [Hf Hs]. destruct (existsb _ _) eqn:Ec.
  - rewrite Hfw. split; [|done]. intros ip Hip. apply existsb_exists in Ec as (r & Hr & Hc).
    apply (admits_by _ f r); [done|done|by apply list_elem_of_In|by apply (covers_source _ _ _ _ Hc)].
  - rewrite Hfw. clear Hfw Hrun. set (f' := Hz.MkFirewall (Hz.fw_id f) (Hz.fw_name f) (Hz.fw_rules f ++ [port_rule port source]) (Hz.applied_server_ids f)).
    assert (Hin : f' ∈ opened (fws (sv_world s)) f port source).
    { apply list_elem_of_fmap. exists f. by rewrite Z.eqb_refl. }
    split; [|split; [|done]].
    + intros ip Hip. apply (admits_by _ f' (port_rule port source)); [done|done|set_solver|]. by apply (covers_source _ _ _ _ (port_rule_covers port source)).
    + intros srv p ip (g0 & Hg0 & Hsrv0) Hadm. destruct (admits_inv _ _ _ _ _ Hg0 Hsrv0 Hadm) as (g & r & Hg & Hsrv & Hr & Hc).
      destruct (Z.eqb_spec (Hz.fw_id g) (Hz.fw_id f)) as [Eid|Eid].
      * assert (g = f) as ->.
        { apply list_elem_of_lookup in Hg as [i Hi]. apply list_elem_of_lookup in Hf as [j Hj].
          assert (i = j) as ->; [|congruence]. apply (NoDup_lookup _ _ _ (Hz.fw_id f) Hnd); rewrite list_lookup_fmap; [by rewrite Hi, <- Eid|by rewrite Hj]. }
        apply (admits_by _ f' r); [done|done|set_solver|done].
      * apply (admits_by _ g r); [|done..]. apply list_elem_of_fmap. exists g. split; [|done]. by rewrite (proj2 (Z.eqb_neq _ _) Eid).
Qed.

(** Without a firewall the same request closes every other port: the new firewall has the one rule. *)
Lemma first_port_closes_others s id server_id port source u s' p ip :
  hetzner_get_token s = Some token -> u64_of id = Some server_id -> 0 <= port -> 0 <= p -> p <> port ->
  (forall f, f ∈ fws (sv_world s) -> server_id ∉ Hz.applied_server_ids f) ->
  servers_firewall_allow_port (lit "hetzner") id port source s = (Ok u, s') ->
  admits (fws (sv_world s)) server_id p ip = true /\ admits (fws (sv_world s')) server_id p ip = false.
Proof.
  intros Ht Hid Hport Hp Hne Hfree Hrun. pose proof (allow_port_run _ _ _ _ _ _ _ Ht Hid Hrun) as Hfw.
  assert (Hnil : List.filter (fun f => bool_decide (server_id ∈ Hz.applied_server_ids f)) (fws (sv_world s)) = []).
  { destruct (List.filter _ _) as [|x l] eqn:E; [done|]. assert (Hx : In x (x :: l)) by by left. rewrite <- E in Hx. apply filter_In in Hx as [Hx Hb].
    bools. destruct (Hfree x); [by apply list_elem_of_In|done]. }
  assert (Hno : attached_to server_id (fws (sv_world s)) = None).
  { destruct (attached_to _ _) as [f|] eqn:E; [|done]. apply attached_to_Some in E as [Hf Hs]. by destruct (Hfree f). }
  rewrite Hno in Hfw. destruct Hfw as (fid & ->). unfold admits. rewrite List.filter_app, Hnil. cbn [app List.filter Hz.applied_server_ids].
  split; [done|]. rewrite bool_decide_true by (by left). cbn. unfold covers. cbn [port_rule Hz.rule_port Hz.direction Hz.protocol Hz.source_ips].
  rewrite (bool_decide_false (Some (show_dec port) = Some (show_dec p))); [by rewrite !andb_false_r|].
  intros [= E]. pose proof (show_dec_val port Hport) as H1. rewrite E, (show_dec_val p Hp) in H1. congruence.
Qed.
End firewall.

(** * The watchdog *)

Definition alert_key (a : Alert) : text :=
  match a with Down k _ | Recovered k _ | CpuHigh k _ _ | DiskHigh k _ _ | NetdataAlarm k _ _ => k end.

Lemma eval_entry_keys cfg x e : Forall (fun a => alert_key a = ss_key x) (fst (Watchdog.eval_entry cfg x e)).
Proof.
  unfold Watchdog.eval_entry. destruct (Watchdog.eval_down x e) as [a1 e1] eqn:E1. destruct (Watchdog.eval_cpu cfg x e1) as [a2 e2] eqn:E2.
  destruct (Watchdog.eval_disk cfg x e2) as [a3 e3] eqn:E3. destruct (Watchdog.eval_alarm x e3) as [a4 e4] eqn:E4. cbn. rewrite !Forall_app.
  split_and!; [unfold Watchdog.eval_down in E1|unfold Watchdog.eval_cpu in E2|unfold Watchdog.eval_disk in E3|unfold Watchdog.eval_alarm in E4];
    repeat case_match; simplify_eq; by repeat constructor.
Qed.

Lemma eval_samples_keys cfg samples st :
  Forall (fun a => alert_key a ∈ map ss_key samples) (fst (Watchdog.eval_samples cfg samples st)).
Proof.
  revert st; induction samples as [|x samples IH]; intros st; cbn; [constructor|].
  pose proof (eval_entry_keys cfg x (default EntryState_default (st !! ss_key x))) as He. destruct (Watchdog.eval_entry _ _ _) as [a e].
  specialize (IH (<[ss_key x := e]> st)). destruct (Watchdog.eval_samples _ _ _) as [b st']. cbn in *. rewrite Forall_app.
  split; [eapply Forall_impl; [exact He|]|eapply Forall_impl; [exact IH|]]; cbn; set_solver.
Qed.

(** An alert is about a server that was listed, or about one missing from a provider that was. *)
Lemma evaluate_keys cfg samples ok st :
  Forall (fun a => alert_key a ∈ map ss_key samples \/ exists p, p ∈ ok /\ Watchdog.provider_of p (alert_key a) = true)
         (fst (Watchdog.evaluate cfg samples ok st)).
Proof.
  unfold Watchdog.evaluate. set (gone := Watchdog.missing st samples ok). set (st1 := fold_left _ gone st).
  pose proof (eval_samples_keys cfg samples st1) as Hs. destruct (Watchdog.eval_samples cfg samples st1) as [b st2]. cbn in *. rewrite Forall_app. split.
  - apply Forall_forall. intros a Ha. apply list_elem_of_fmap in Ha as (k & -> & Hk). apply Watchdog.missing_spec in Hk as (e & _ & Hm).
    unfold Watchdog.is_missing in Hm. bools. match goal with H : existsb _ _ = true |- _ => apply existsb_exists in H as (p & Hp & Hpk) end.
    right. exists p. by rewrite list_elem_of_In.
  - eapply Forall_impl; [exact Hs|]. cbn. tauto.
Qed.

Section watchdog.
Context {W : Type} {H : Http W} {Sh : Ssh W} {I : IpText} {J : JsonText} {X : JsonMisfit} {T : TimeText} {FT : FloatText}.
Implicit Type s : Srv W.

(** Whatever a computation answers, the events it sends are of one sort, and the tokens stay. *)
Definition sends {A} (P : Notice -> Prop) (c : M (W := W) A) : Prop := forall s r s', c s = (r, s') ->
  linode_get_token s' = linode_get_token s /\ hetzner_get_token s' = hetzner_get_token s
  /\ exists new, sv_notices s' = sv_notices s ++ new /\ Forall P new.

Lemma sends_ret {A} P (a : A) : sends P (ret a).
Proof. intros s r s' [= <- <-]. split; [done|]. split; [done|]. exists []. by rewrite app_nil_r. Qed.
Lemma sends_get {A} P (f : Srv W -> A) : sends P (get f).
Proof. intros s r s' [= <- <-]. split; [done|]. split; [done|]. exists []. by rewrite app_nil_r. Qed.
Lemma sends_outside {E A} P (g : E -> text) (c : ST W E A) : sends P (outside g c).
Proof.
  intros s r s'. unfold outside. destruct (c (sv_world s)) as [r0 w]. intros [= <- <-]. split; [done|]. split; [done|]. exists [].
  by rewrite app_nil_r.
Qed.
Lemma sends_bind {A B} P (c : M (W := W) A) (k : A -> M (W := W) B) : sends P c -> (forall a, sends P (k a)) -> sends P (mbind c k).
Proof.
  intros Hc Hk s r s'. unfold mbind. destruct (c s) as [[a|e|] s1] eqn:E; destruct (Hc _ _ _ E) as (Hl & Hh & n1 & Hn & Hp);
    [|intros [= <- <-]; by eauto..].
  intros E2. destruct (Hk _ _ _ _ E2) as (Hl2 & Hh2 & n2 & Hn2 & Hp2). split; [congruence|]. split; [congruence|].
  exists (n1 ++ n2). rewrite Hn2, Hn, app_assoc. split; [done|]. by apply Forall_app.
Qed.
Lemma sends_attempt {A} P (c : M (W := W) A) : sends P c -> sends P (attempt c).
Proof. intros Hc s r s'. unfold attempt. destruct (c s) as [[a|e|] s1] eqn:E; intros [= <- <-]; by apply (Hc _ _ _ E). Qed.
Lemma sends_emit (P : Notice -> Prop) ns : Forall P ns -> sends P (emit_all (W := W) ns).
Proof.
  induction 1 as [|n ns Hn _ IH]; [apply sends_ret|]. cbn. apply sends_bind; [|done]. intros s r s' [= <- <-].
  split; [done|]. split; [done|]. exists [n]. split; [done|]. by constructor.
Qed.
Lemma sends_weaken {A} (P Q : Notice -> Prop) (c : M (W := W) A) : (forall n, P n -> Q n) -> sends P c -> sends Q c.
Proof.
  intros HPQ Hc s r s' E. destruct (Hc _ _ _ E) as (Hl & Hh & new & Hn & Hp). split; [done|]. split; [done|]. exists new.
  split; [done|]. by eapply Forall_impl.
Qed.
Create HintDb sends.
#[local] Hint Resolve sends_ret sends_get sends_outside sends_bind sends_attempt sends_emit : sends.

Definition not_alert (n : Notice) : Prop := match n with AlertNotice _ => False | _ => True end.

Lemma sends_fetch P name client acc : sends P (list_provider (W := W) name client acc).
Proof. unfold list_provider. destruct client; auto with sends. Qed.
Lemma sends_samples P file l : sends P (samples_of (W := W) file l).
Proof.
  induction l as [|[p i] l IH]; cbn; [auto with sends|]. apply sends_bind; [|intros; apply sends_bind; auto with sends].
  unfold sample_of. destruct (match fc_netdata file !! _ with Some c => _ | None => _ end), (si_ipv4 i); auto 12 with sends.
Qed.
Lemma sends_announce l : sends not_alert (announce_all (W := W) l).
Proof.
  induction l as [|[p i] l IH]; cbn; [auto with sends|]. apply sends_bind; [|done]. unfold announce_bans. apply sends_bind; [auto with sends|].
  intros prot. destruct prot, (si_ipv4 i) as [host|]; [|auto with sends..]. apply sends_bind.
  - apply sends_attempt. unfold active_bans. auto with sends.
  - intros [bans|]; [|auto with sends]. apply sends_bind.
    + intros s r s' [= <- <-]. split; [done|]. split; [done|]. exists []. by rewrite app_nil_r.
    + intros fresh. apply sends_emit, Forall_forall. intros n Hn. apply list_elem_of_fmap in Hn as (b & -> & _). done.
Qed.
Lemma sends_pool P fleet : sends P (pool (W := W) fleet).
Proof.
  intros s r s'. unfold pool. destruct (CrowdSec.fleet_sync_given fleet (sec_of s)) as [r0 c]. intros [= <- <-].
  split; [done|]. split; [done|]. exists []. by rewrite app_nil_r.
Qed.

(** What follows the alerts. *)
Lemma sends_after (file : ServersFileCfg) (listed : list (text * ServerInfo)) (wd : WatchdogState) :
  sends not_alert
    (let! _ := (if security_alerts (fc_watchdog file) then announce_all (W := W) listed else ret tt) in
     let! _ := (if SettingsSync.ban_sync (fc_watchdog file) then pool_bans listed else ret tt) in
     ret wd).
Proof.
  apply sends_bind; [destruct (security_alerts _); [apply sends_announce|auto with sends]|]. intros _.
  apply sends_bind; [|auto with sends]. destruct (SettingsSync.ban_sync _); [|auto with sends]. unfold pool_bans.
  apply sends_bind; [auto with sends|]. intros [|x l]; [auto with sends|]. apply sends_bind; [apply sends_pool|].
  intros out. destruct (0 <? _); [|auto with sends]. apply sends_emit. by repeat constructor.
Qed.

(** The samples are the servers listed. *)
Lemma samples_keys file l s samples s' :
  samples_of file l s = (Ok samples, s') -> map ss_key samples = map (fun pi => netdata_key pi.1 (si_id pi.2)) l.
Proof.
  revert s samples s'; induction l as [|[p i] l IH]; intros s samples s'; cbn [samples_of]; [by intros [= <- <-]|].
  intros (x & s1 & Hx & (xs & s2 & Hxs & [= <- <-])%mbind_Ok)%mbind_Ok. cbn. f_equal; [|by apply (IH _ _ _ Hxs)].
  revert Hx. unfold sample_of. destruct (match fc_netdata file !! _ with Some c => _ | None => _ end), (si_ipv4 i); [|by intros [= <- _]..].
  intros (? & ? & _ & (? & ? & _ & (? & ? & _ & (? & ? & _ & [= <- _])%mbind_Ok)%mbind_Ok)%mbind_Ok)%mbind_Ok. done.
Qed.

Lemma samples_listed file fleets s samples s' k :
  samples_of file (flatten fleets) s = (Ok samples, s') -> k ∈ map ss_key samples -> exists q id, q ∈ map fst fleets /\ k = netdata_key q id.
Proof.
  intros E. rewrite (samples_keys _ _ _ _ _ E). intros (pi & -> & Hpi)%list_elem_of_fmap. unfold flatten in Hpi.
  apply list_elem_of_In, in_flat_map in Hpi as (pl & Hpl & (i & <- & _)%in_map_iff). exists pl.1, (si_id i).
  split; [by apply list_elem_of_In, in_map|done].
Qed.

(** A provider is not listed by a tick: it has no token, or its listing fails. Hetzner is asked in
    the world Linode's listing leaves. *)
Definition unlisted (now : Z) (s : Srv W) (p : text) : Prop :=
  (p = lit "linode" /\ forall t, linode_get_token s = Some t -> exists e, fst (list_all (ServerManager := Li.manager t) (sv_world s)) = Err e)
  \/ (p = lit "hetzner" /\ forall t, hetzner_get_token s = Some t ->
        exists e, fst (list_all (ServerManager := Hz.manager now t) (snd (fetch_fleet (Li.manager <$> linode_get_token s) (sv_world s)))) = Err e).

Lemma fetch_one_run name client acc s fleets s' :
  list_provider name client acc s = (Ok fleets, s') ->
  sv_world s' = snd (fetch_fleet client (sv_world s))
  /\ (fleets = acc \/ exists l m, client = Some m /\ fst (list_all (ServerManager := m) (sv_world s)) = Ok l /\ fleets = acc ++ [(lit name, l)]).
Proof.
  unfold list_provider, fetch_fleet. destruct client as [m|]; [|intros [= <- <-]; by auto]. unfold mbind, attempt, outside.
  destruct (list_all (sv_world s)) as [[l|e|] w] eqn:E; cbn; intros [= <- <-]; (split; [done|]); [right|by left].
  exists l, m. by rewrite E.
Qed.

Lemma provider_of_spec p k : Watchdog.provider_of p k = true <-> exists r, k = (p ++ lit ":") ++ r.
Proof. unfold Watchdog.provider_of, starts_with. rewrite bool_decide_eq_true. unfold is_Some. by setoid_rewrite strip_prefix_Some. Qed.
Lemma provider_prefix p q k : p = lit "linode" \/ p = lit "hetzner" -> q = lit "linode" \/ q = lit "hetzner" ->
  Watchdog.provider_of p k = true -> Watchdog.provider_of q k = true -> p = q.
Proof. intros Hp Hq [r ->]%provider_of_spec [r' E]%provider_of_spec. by destruct Hp as [-> | ->], Hq as [-> | ->]. Qed.

(** The fleets of a tick: no provider that is not listed. *)
Lemma fleets_listed now s f1 s1 fleets s2 p :
  unlisted now s p ->
  list_provider "linode" (Li.manager <$> linode_get_token s) [] s = (Ok f1, s1) ->
  list_provider "hetzner" (Hz.manager now <$> hetzner_get_token s) f1 s1 = (Ok fleets, s2) ->
  p ∉ map fst fleets /\ forall q, q ∈ map fst fleets -> q = lit "linode" \/ q = lit "hetzner".
Proof.
  intros Hu E1 E2. apply fetch_one_run in E1 as [Hw1 E1]. apply fetch_one_run in E2 as [_ E2]. rewrite Hw1 in E2. clear Hw1.
  assert (H1 : f1 = [] \/ exists l, f1 = [(lit "linode", l)]) by (destruct E1 as [->|(l & m & _ & _ & ->)]; eauto).
  assert (H2 : fleets = f1 \/ exists l, fleets = f1 ++ [(lit "hetzner", l)]) by (destruct E2 as [->|(l & m & _ & _ & ->)]; eauto).
  split.
  - destruct Hu as [[-> Hf]|[-> Hf]].
    + assert (f1 = []) as ->.
      { destruct E1 as [->|(l & m & Hm & Hl & _)]; [done|]. apply fmap_Some in Hm as (t & Ht & ->). destruct (Hf t Ht) as [e He]. congruence. }
      destruct H2 as [->|[l ->]]; [apply not_elem_of_nil|]. cbn. by intros [|]%elem_of_cons; [|by apply not_elem_of_nil in H0].
    + assert (fleets = f1) as ->.
      { destruct E2 as [->|(l & m & Hm & Hl & _)]; [done|]. apply fmap_Some in Hm as (t & Ht & ->). destruct (Hf t Ht) as [e He]. congruence. }
      destruct H1 as [->|[l ->]]; [apply not_elem_of_nil|]. cbn. by intros [|]%elem_of_cons; [|by apply not_elem_of_nil in H0].
  - intros q Hq. destruct H1 as [->|[l1 ->]], H2 as [->|[l2 ->]]; cbn in Hq; set_solver.
Qed.

(** An outage of a provider's API raises no alarm. A tick during which a provider cannot be listed
    sends no alert about any of its servers, and leaves what the watchdog knows of them as it was, so
    that a server that did go down meanwhile is still noticed by the first tick that can look. *)
Theorem failed_listing_is_silent now file wd s wd' s' p :
  unlisted now s p -> watchdog_tick now file wd s = (Ok wd', s') ->
  (exists new, sv_notices s' = sv_notices s ++ new
     /\ forall a, AlertNotice a ∈ new -> Watchdog.provider_of p (alert_key a) = false)
  /\ forall k, Watchdog.provider_of p k = true -> wd' !! k = wd !! k.
Proof.
  intros Hu. assert (Hp : p = lit "linode" \/ p = lit "hetzner") by (destruct Hu as [[-> _]|[-> _]]; auto).
  intros (lt & s0 & [= <- <-] & (f1 & s1 & E1 & (ht & s1' & [= <- <-] & (fleets & s2 & E2 & (samples & s3 & E3 & E4)%mbind_Ok)%mbind_Ok)%mbind_Ok)%mbind_Ok)%mbind_Ok.
  destruct (sends_fetch not_alert _ _ _ _ _ _ E1) as (_ & Hh & n1 & Hn1 & Hp1). rewrite Hh in E2.
  destruct (sends_fetch not_alert _ _ _ _ _ _ E2) as (_ & _ & n2 & Hn2 & Hp2).
  destruct (sends_samples not_alert _ _ _ _ _ E3) as (_ & _ & n3 & Hn3 & Hp3).
  destruct (fleets_listed _ _ _ _ _ _ _ Hu E1 E2) as [Hno Hnames].
  pose proof (fun k => samples_listed _ _ _ _ _ k E3) as Hs.
  pose proof (evaluate_keys (watchdog_cfg (fc_watchdog file)) samples (map fst fleets) wd) as Hk.
  pose proof (fun k => Watchdog.evaluate_absent (watchdog_cfg (fc_watchdog file)) samples (map fst fleets) wd k) as Ha.
  destruct (Watchdog.evaluate _ _ _ _) as [alerts wd1]. cbn in Hk, Ha.
  apply mbind_Ok in E4 as (u1 & s4 & E4 & E5).
  assert (Hwd : wd' = wd1) by by apply mbind_Ok in E5 as (_ & _ & _ & (_ & _ & _ & [= -> _])%mbind_Ok).
  assert (Hquiet : forall k q, q ∈ map fst fleets -> Watchdog.provider_of q k = true -> Watchdog.provider_of p k = false).
  { intros k q Hq Hqk. destruct (Watchdog.provider_of p k) eqn:E; [|done]. destruct (Hno). by rewrite (provider_prefix p q k Hp (Hnames q Hq) E Hqk). }
  assert (Hself : forall q id, Watchdog.provider_of q (netdata_key q id) = true).
  { intros. apply provider_of_spec. exists id. apply app_assoc. }
  set (quiet n := match n with AlertNotice a => Watchdog.provider_of p (alert_key a) = false | _ => True end).
  assert (Hw : forall n, not_alert n -> quiet n) by by intros [].
  assert (Hqa : Forall quiet (map AlertNotice alerts)).
  { apply Forall_fmap. eapply Forall_impl; [exact Hk|]. cbn. intros a [Hin|(q & Hq & Hqk)]; [|by apply (Hquiet _ q)].
    destruct (Hs _ Hin) as (q & id & Hq & ->). by apply (Hquiet _ q). }
  destruct (sends_emit quiet _ Hqa _ _ _ E4) as (_ & _ & n4 & Hn4 & Hp4).
  destruct (sends_after file (flatten fleets) wd1 _ _ _ E5) as (_ & _ & n5 & Hn5 & Hp5).
  split.
  - exists (n1 ++ n2 ++ n3 ++ n4 ++ n5). split; [by rewrite Hn5, Hn4, Hn3, Hn2, Hn1, <- !app_assoc|].
    assert (Hall : Forall quiet (n1 ++ n2 ++ n3 ++ n4 ++ n5)).
    { rewrite !Forall_app. split_and!; try done; by eapply Forall_impl. }
    intros a Hin. by apply (proj1 (Forall_forall _ _) Hall _ Hin).
  - intros k Hk'. rewrite Hwd. apply Ha.
    + intros Hin. destruct (Hs _ Hin) as (q & id & Hq & ->). by rewrite (Hquiet _ q Hq (Hself q id)) in Hk'.
    + apply Forall_forall. intros q Hq. destruct (Watchdog.provider_of q k) eqn:E; [|done]. by rewrite (Hquiet _ q Hq E) in Hk'.
Qed.

(** * New bans *)

Notation ban := (Z * text * text)%type.
(** A sequence of sightings: the server, and the bans on it. *)
Fixpoint sightings (l : list (text * list ban)) : M (W := W) (list (list (text * text))) :=
  match l with
  | [] => ret []
  | kc :: l => let! x := crowdsec_seen_new kc.1 kc.2 in let! xs := sightings l in ret (x :: xs)
  end.

(** What a sighting has to announce, given the earlier ones: the bans that the previous sighting of
    the same server did not have. *)
Definition previous (k : text) (past : list (text * list ban)) : option (list ban) :=
  snd <$> last (List.filter (fun kc => bool_decide (kc.1 = k)) past).
Definition to_announce (past : list (text * list ban)) (k : text) (current : list ban) : list (text * text) :=
  match previous k past with
  | None => []
  | Some old => map (fun b => (b.1.2, b.2)) (List.filter (fun b => negb (bool_decide (b.1.1 ∈ map (fun b => b.1.1) old))) current)
  end.

Lemma previous_snoc past k c k' : previous k' (past ++ [(k, c)]) = if bool_decide (k = k') then Some c else previous k' past.
Proof. unfold previous. rewrite List.filter_app. cbn. case_bool_decide; [by rewrite last_snoc|by rewrite app_nil_r]. Qed.

Lemma sightings_from l past s :
  (forall k, sv_seen s !! k = (fun c => list_to_set (map (fun b : ban => b.1.1) c)) <$> previous k past) ->
  exists outs s', sightings l s = (Ok outs, s')
    /\ forall i kc, l !! i = Some kc -> outs !! i = Some (to_announce (past ++ take i l) kc.1 kc.2).
Proof.
  revert past s; induction l as [|[k c] l IH]; intros past s Hs; [by exists [], s|]. cbn [sightings fst snd]. unfold mbind at 1, crowdsec_seen_new at 1.
  rewrite Hs. set (s1 := set_seen _ s). destruct (IH (past ++ [(k, c)]) s1) as (outs & s' & E & Hi).
  { intros k'. rewrite previous_snoc. subst s1. cbn [set_seen sv_seen]. case_bool_decide as Hk.
    - subst. by rewrite lookup_insert_eq.
    - by rewrite lookup_insert_ne. }
  unfold mbind. rewrite E. eexists _, s'. split; [done|]. intros [|i] [k' c'] Hl; cbn in Hl.
  - injection Hl as <- <-. cbn. rewrite app_nil_r. unfold to_announce. destruct (previous k past) as [old|]; [|done]. cbn. do 2 f_equal.
    apply List.filter_ext. intros b. f_equal. apply bool_decide_ext. by rewrite elem_of_list_to_set.
  - change ((_ :: outs) !! S i) with (outs !! i). rewrite (Hi _ _ Hl). cbn [take]. by rewrite <- app_assoc.
Qed.

(** A ban is announced when it is new, and only then. Over any sequence of looks at the servers
    since the app started, each announces exactly the bans the previous look at the same server did
    not show; the first look at a server announces nothing. *)
Theorem bans_announced_once l s :
  sv_seen s = ∅ ->
  exists outs s', sightings l s = (Ok outs, s')
    /\ forall i kc, l !! i = Some kc -> outs !! i = Some (to_announce (take i l) kc.1 kc.2).
Proof. intros Hs. apply (sightings_from l [] s). intros k. by rewrite Hs, lookup_empty. Qed.
End watchdog.

(** * Concrete runs *)

(** A Hetzner account with one firewall, and a Netdata agent that answers plain HTTP only: the theorems
    above instantiated, and a credential sent in the clear. *)
Import Servers.

Module FleetDemo.
(** The rules of firewall 7, which is on server 42, and the requests received. *)
Record world : Type := MkWorld { rules : list Hz.FirewallRule; received : list HttpReq }.
Definition the_firewall (l : list Hz.FirewallRule) : Hz.Firewall := Hz.MkFirewall 7 (lit "web") l [42].

Definition tuple : Type := (text * text * option text * list text * list text * option text)%type.
Definition to_tuple (r : Hz.FirewallRule) : tuple :=
  (Hz.direction r, Hz.protocol r, Hz.rule_port r, Hz.source_ips r, Hz.destination_ips r, Hz.description r).
Definition of_tuple (t : tuple) : Hz.FirewallRule := let '(d, p, o, s, t, e) := t in Hz.MkRule d p o s t e.
Definition page (l : list Hz.FirewallRule) : Value :=
  Js.obj [("firewalls", Arr [Js.obj [("id", Int 7); ("name", Str (lit "web")); ("rules", Hz.rules_json l);
    ("applied_to", Arr [Js.obj [("server", Js.obj [("id", Int 42)])]])]])].

(** Bodies are numbers: a page of firewalls, or what the agent says of itself. *)
Definition body_of (l : list Hz.FirewallRule) : text := [0; Z.pos (encode (map to_tuple l))].
#[export] Instance json : JsonText := {|
  json_parse t := match t with
    | [0; Zpos p] => match decode p with Some l => inr (page (map of_tuple l)) | None => inl "syntax"%string end
    | [1] => inr (Js.obj [("version", Str (lit "1.40"))])
    | _ => inl "syntax"%string
    end |}.
#[export] Instance misfits : JsonMisfit := {| misfit _ := "type"%string |}.
#[export] Instance times : TimeText := {| rfc3339 _ := None; primitive_utc _ := None; show_rfc3339 _ := [] |}.
#[export] Instance floats : FloatText := {| show_f64 _ := [] |}.
#[export] Instance ssh : Ssh world := {| exec _ _ _ _ := err (lit "refused") |}.
#[export] Instance ips : IpText := {| ip_ok _ := true |}.

Definition tok : text := lit "t0k".
Definition rules_asked (r : HttpReq) : option (list Hz.FirewallRule) :=
  req_body r ≫= fun v => match Js.get (lit "rules") v with Some (Arr l) => mapM Hz.rule_of l | _ => None end.
Definition set_url : text := Hz.API ++ lit "/firewalls/7/actions/set_rules".
Definition answer (r : HttpReq) : ST world string (Z * text) := fun w =>
  let w := MkWorld (rules w) (received w ++ [r]) in
  if bool_decide (url r = Hz.API ++ lit "/firewalls?per_page=50") then (Ok (200, body_of (rules w)), w)
  else if bool_decide (url r = set_url) then
    match rules_asked r with
    | Some l => (Ok (201, []), MkWorld l (received w))
    | None => (Ok (422, []), w)
    end
  else if starts_with (lit "https://203.0.113.9:") (url r) then (Err "connection refused"%string, w)
  else if starts_with (lit "http://203.0.113.9:") (url r) then (Ok (200, [1]), w)
  else (Ok (404, []), w).
#[export] Instance http : Http world := {| send := answer |}.

Lemma rules_read l : mapM Hz.rule_of (map Hz.rule_json l) = Some l.
Proof. induction l as [|r l IH]; [done|]. cbn [map mapM]. rewrite rule_round_trip. cbn. by rewrite IH. Qed.

Definition entry_of (l : list Hz.FirewallRule) : Value :=
  Js.obj [("id", Int 7); ("name", Str (lit "web")); ("rules", Hz.rules_json l); ("applied_to", Arr [Js.obj [("server", Js.obj [("id", Int 42)])]])].
Lemma entry_read l : Hz.firewall_of (entry_of l) = Some (the_firewall l).
Proof.
  assert (E : Js.struct_fields ["id"; "name"; "rules"; "applied_to"] (entry_of l)
    = Some [Some (Int 7); Some (Str (lit "web")); Some (Arr (map Hz.rule_json l)); Some (Arr [Js.obj [("server", Js.obj [("id", Int 42)])]])])
    by reflexivity.
  unfold Hz.firewall_of. rewrite E. change (Field.u64 (Some (Int 7))) with (Some 7). change (Js.str_default (Some (Str (lit "web")))) with (Some (lit "web")).
  change (Field.list_default Hz.rule_of (Some (Arr (map Hz.rule_json l)))) with (mapM Hz.rule_of (map Hz.rule_json l)). rewrite rules_read. reflexivity.
Qed.
Lemma page_read l : Hz.firewalls_page_of (page l) = Some [the_firewall l].
Proof.
  assert (E : Js.struct_fields ["firewalls"] (page l) = Some [Some (Arr [entry_of l])]) by reflexivity.
  unfold Hz.firewalls_page_of. rewrite E. unfold Field.list_default, Field.list_of. cbn [base.mbind option_bind Js.as_array mapM]. by rewrite entry_read.
Qed.
Lemma body_read l : from_str Hz.firewalls_page_of (body_of l) = inr [the_firewall l].
Proof.
  unfold from_str, body_of. cbn [json_parse json]. rewrite decode_encode.
  assert (E : map of_tuple (map to_tuple l) = l) by (induction l as [|[] l IH]; [done|]; cbn; by f_equal). by rewrite E, page_read.
Qed.

Lemma set_answered id l w : 0 <= id < 2 ^ 64 ->
  answer (Hz.set_rules_req tok id l) w
  = let w1 := MkWorld (rules w) (received w ++ [Hz.set_rules_req tok id l]) in
    if id =? 7 then (Ok (201, []), MkWorld l (received w1)) else (Ok (404, []), w1).
Proof.
  intros Hid. unfold answer. cbn [rules received]. cbn [url Hz.set_rules_req Hz.request].
  rewrite bool_decide_false by (intros E%app_inv_head; discriminate E).
  change set_url with (Hz.API ++ lit "/firewalls/" ++ show_dec 7 ++ lit "/actions/set_rules"). destruct (Z.eqb_spec id 7) as [->|Hne].
  - rewrite bool_decide_true by done. unfold rules_asked. cbn [req_body Hz.set_rules_req Hz.request base.mbind option_bind].
    change (Js.get (lit "rules") _) with (Some (Arr (map Hz.rule_json l))). cbv match. by rewrite rules_read.
  - rewrite bool_decide_false; [done|]. intros E%app_inv_head%app_inv_head%app_inv_tail. destruct Hne.
    pose proof (show_dec_val id ltac:(lia)) as H1. rewrite E, show_dec_val in H1 by lia. congruence.
Qed.

#[export] Instance service : FirewallService world tok.
Proof.
  refine {| fws w := [the_firewall (rules w)] |}.
  - intros w f ->%list_elem_of_singleton. cbn. lia.
  - intros w r w' [= <- <-]. cbn [rules]. split; [done|]. intros _. apply body_read.
  - intros id l w r w' Hid Hs. cbn [send http] in Hs. rewrite set_answered in Hs by done.
    destruct (Z.eqb_spec id 7) as [->|Hne]; injection Hs as <- <-; [done|]. reflexivity.
  - intros name l srv w r w' [= <- <-]. done.
Defined.


Definition ssh_rule : Hz.FirewallRule := Hz.MkRule (lit "in") (lit "tcp") (Some (lit "22")) [lit "0.0.0.0/0"] [] None.
Definition key : text := netdata_key (lit "hetzner") (lit "42").
Definition account : text := netdata_auth_account (lit "hetzner") (lit "42").
Definition cfg : ServersFileCfg :=
  MkServersFileCfg WatchdogFileCfg_default {[key := MkNetdataFileCfg true 19999 true true]} ∅ ∅.
Definition start : Srv world :=
  MkSrv cfg None (Some tok) {[account := lit "Basic c2VjcmV0"]} None false ∅ [] (MkWorld [ssh_rule] []).

(** Port 443 opens on server 42, and SSH stays open. *)
Lemma allow_port_only_opens_witness :
  exists s', servers_firewall_allow_port (lit "hetzner") (lit "42") 443 (lit "any") start = (Ok tt, s')
  /\ admits (fws (sv_world s')) 42 443 (lit "::/0") = true /\ admits (fws (sv_world s')) 42 22 (lit "0.0.0.0/0") = true.
Proof.
  pose (run := servers_firewall_allow_port (lit "hetzner") (lit "42") 443 (lit "any") start).
  assert (E : run = (Ok tt, snd run)) by (apply run_answer; vm_compute; reflexivity). exists (snd run). split; [exact E|].
  destruct (allow_port_only_opens start (lit "42") 42 443 (lit "any") tt (snd run) (the_firewall [ssh_rule])) as (H1 & H2 & _);
    [reflexivity|reflexivity|apply NoDup_singleton|reflexivity|exact E|].
  split; [apply H1; right; left|]. apply H2; [|vm_compute; reflexivity]. exists (the_firewall [ssh_rule]). split; left.
Defined.

(** The tick of an account whose listing fails: no alert about its servers, and a server known to be
    up is still known to be up. *)
Definition up : WatchdogState := {[key := MkEntryState true false 0 false false false]}.
Lemma failed_listing_is_silent_witness :
  exists wd' s', watchdog_tick 0 cfg up start = (Ok wd', s') /\ wd' !! key = up !! key.
Proof.
  pose (run := watchdog_tick 0 cfg up start). destruct (run_ok (watchdog_tick 0 cfg up) start) as [wd' E]; [vm_compute; reflexivity|].
  exists wd', (snd run). split; [exact E|].
  destruct (failed_listing_is_silent 0 cfg up start wd' (snd run) (lit "hetzner")) as [_ H]; [|exact E|apply H; vm_compute; reflexivity].
  right. split; [reflexivity|]. intros t [= <-]. vm_compute. eauto.
Defined.

(** Three looks at a server: silent, the new ban, nothing. *)
Definition looks : list (text * list (Z * text * text)) :=
  let b1 := (1, lit "198.51.100.1", lit "ssh-bf") in let b2 := (2, lit "198.51.100.2", lit "http-probing") in
  [(key, [b1]); (key, [b1; b2]); (key, [b2])].
Lemma bans_announced_once_witness :
  exists outs s', sightings looks start = (Ok outs, s') /\ outs !! 1%nat = Some [(lit "198.51.100.2", lit "http-probing")] /\ outs !! 2%nat = Some [].
Proof.
  destruct (bans_announced_once looks start eq_refl) as (outs & s' & E & H). exists outs, s'. split; [exact E|].
  split; (erewrite H; [|reflexivity]); vm_compute; reflexivity.
Defined.

(** The agent is configured for HTTPS with a credential and answers plain HTTP: the probe sends the
    credential in the clear, and keeps to plain HTTP afterwards. *)
Lemma probe_downgrades :
  let '(r, s) := netdata_probe (MkFate (fun _ => true) true) (lit "hetzner") (lit "42") (lit "203.0.113.9") start in
  (exists o, r = Ok o /\ reachable o = true)
  /\ (exists q, last (received (sv_world s)) = Some q /\ authorization q = Some (lit "Basic c2VjcmV0") /\ starts_with (lit "http://") (url q) = true)
  /\ nd_https (netdata_entry key (sv_cfg s)) = false.
Proof. vm_compute. repeat split; eexists; repeat split. Qed.
End FleetDemo.
