(* ===== verification/Terminal.v ===== *)
(** [crates/core/src/ssh.rs] and [apps/desktop/src-tauri/src/ssh.rs]: the pinning of host keys, the
    one key of the app, commands run on a server, and the registry and driver tasks of live root
    terminals. The SSH protocol itself ([russh], [ssh_key]) is a parameter. *)
From S2P Require Import Prelude Bytes Text Crypto Floats Value Totp Toy RecoveryKit Keyring Model Envelope VaultStore Session Csv Importers Provision.
From S2P Require Import Vpn AppLock Generator Health Passkey NmHost VpnManager SyncClient SettingsSync CrowdSec Watchdog Cloud Netdata Providers Servers.
Local Open Scope Z_scope.

(** * [String::from_utf8_lossy] *)

Module Lossy.
Definition REPLACEMENT : Z := 65533.
Definition cont (b : Z) : bool := (128 <=? b) && (b <? 192).
Definition within (lo hi b : Z) : bool := (lo <=? b) && (b <=? hi).
(** What may follow the first byte of three or of four. *)
Definition second3 (a b : Z) : bool :=
  if a =? 224 then within 160 191 b else if a =? 237 then within 128 159 b else within 128 191 b.
Definition second4 (a b : Z) : bool :=
  if a =? 240 then within 144 191 b else if a =? 244 then within 128 143 b else within 128 191 b.

(** The first character and how many bytes it takes; of a malformed sequence, the part that could
    have begun a character. *)
Definition next (l : list Z) : Z * nat :=
  match l with
  | [] => (REPLACEMENT, 1%nat)
  | a :: l =>
      if a <? 128 then (a, 1%nat)
      else if within 194 223 a then
        match l with
        | b :: _ => if cont b then ((a - 192) * 64 + (b - 128), 2%nat) else (REPLACEMENT, 1%nat)
        | [] => (REPLACEMENT, 1%nat)
        end
      else if within 224 239 a then
        match l with
        | b :: l =>
            if second3 a b then
              match l with
              | c :: _ => if cont c then ((a - 224) * 4096 + (b - 128) * 64 + (c - 128), 3%nat) else (REPLACEMENT, 2%nat)
              | [] => (REPLACEMENT, 2%nat)
              end
            else (REPLACEMENT, 1%nat)
        | [] => (REPLACEMENT, 1%nat)
        end
      else if within 240 244 a then
        match l with
        | b :: l =>
            if second4 a b then
              match l with
              | c :: l =>
                  if cont c then
                    match l with
                    | d :: _ => if cont d then ((a - 240) * 262144 + (b - 128) * 4096 + (c - 128) * 64 + (d - 128), 4%nat) else (REPLACEMENT, 3%nat)
                    | [] => (REPLACEMENT, 3%nat)
                    end
                  else (REPLACEMENT, 2%nat)
              | [] => (REPLACEMENT, 2%nat)
              end
            else (REPLACEMENT, 1%nat)
        | [] => (REPLACEMENT, 1%nat)
        end
      else (REPLACEMENT, 1%nat)
  end.
Fixpoint decode (fuel : nat) (l : list Z) : text :=
  match fuel, l with
  | O, _ | _, [] => []
  | S fuel, _ => let '(c, n) := next l in c :: decode fuel (drop n l)
  end.
(** Every step takes a byte at least. *)
Definition from_utf8_lossy (b : bytes) : text := decode (length b) (map byte_to_Z b).

(** A [char]: a code point that is no surrogate. *)
Definition scalar (c : Z) : Prop := 0 <= c < 55296 \/ 57344 <= c < 1114112.

Lemma next_char c rest : scalar c -> next (map byte_to_Z (utf8_char c) ++ rest) = (c, length (utf8_char c)).
Proof.
  intros Hc. unfold utf8_char. rewrite map_map, length_map.
  assert (E : forall l, Forall (fun z => 0 <= z < 256) l -> map (fun x => byte_to_Z (byte_of_Z x)) l = l).
  { induction 1 as [|z l Hz _ IH]; [done|]. cbn. by rewrite IH, byte_to_of_Z, Z.mod_small. }
  unfold scalar in Hc.
  assert (Hq : forall k, 0 < k -> 0 <= c mod k < k) by (intros; by apply Z.mod_pos_bound).
  pose proof (Hq 64 eq_refl) as H64. pose proof (Z.mod_pos_bound (c / 64) 64 eq_refl) as H642. pose proof (Z.mod_pos_bound (c / 4096) 64 eq_refl) as H643.
  assert (D1 : c = 64 * (c / 64) + c mod 64) by (apply Z.div_mod; lia).
  assert (D2 : c / 64 = 64 * (c / 4096) + (c / 64) mod 64).
  { rewrite (Z.div_mod (c / 64) 64) at 1 by lia. by rewrite Z.div_div by lia. }
  assert (D3 : c / 4096 = 64 * (c / 262144) + (c / 4096) mod 64).
  { rewrite (Z.div_mod (c / 4096) 64) at 1 by lia. by rewrite Z.div_div by lia. }
  set (x1 := c / 64) in *. set (x2 := c / 4096) in *. set (x3 := c / 262144) in *.
  set (r0 := c mod 64) in *. set (r1 := x1 mod 64) in *. set (r2 := x2 mod 64) in *. clearbody x1 x2 x3 r0 r1 r2. clear Hq.
  destruct (Z.ltb_spec c 128); [|destruct (Z.ltb_spec c 2048); [|destruct (Z.ltb_spec c 65536)]].
  - rewrite E by (repeat constructor; lia). cbn [next app length]. by rewrite (proj2 (Z.ltb_lt c 128)) by lia.
  - rewrite E by (repeat constructor; lia). cbn [next app length].
    rewrite (proj2 (Z.ltb_ge _ _)) by lia. unfold within, cont. rewrite !(proj2 (Z.leb_le _ _)), (proj2 (Z.ltb_lt _ _)) by lia. cbn. f_equal. lia.
  - rewrite E by (repeat constructor; lia). cbn [next app length].
    rewrite (proj2 (Z.ltb_ge _ _)) by lia. unfold within at 1. rewrite (proj2 (Z.leb_gt (224 + x2) 223)) by lia. rewrite andb_false_r.
    unfold within at 1. rewrite !(proj2 (Z.leb_le _ _)) by lia. cbn [andb].
    assert (S3 : second3 (224 + x2) (128 + r1) = true).
    { unfold second3, within. destruct (Z.eqb_spec (224 + x2) 224); [|destruct (Z.eqb_spec (224 + x2) 237)]; rewrite !(proj2 (Z.leb_le _ _)) by lia; done. }
    rewrite S3. unfold cont. rewrite !(proj2 (Z.leb_le _ _)), (proj2 (Z.ltb_lt _ _)) by lia. cbn. f_equal. lia.
  - rewrite E by (repeat constructor; lia). cbn [next app length].
    rewrite (proj2 (Z.ltb_ge _ _)) by lia. unfold within at 1. rewrite (proj2 (Z.leb_gt (240 + x3) 223)) by lia. rewrite andb_false_r.
    unfold within at 1. rewrite (proj2 (Z.leb_gt (240 + x3) 239)) by lia. rewrite andb_false_r.
    unfold within at 1. rewrite !(proj2 (Z.leb_le _ _)) by lia. cbn [andb].
    assert (S4 : second4 (240 + x3) (128 + r2) = true).
    { unfold second4, within. destruct (Z.eqb_spec (240 + x3) 240); [|destruct (Z.eqb_spec (240 + x3) 244)]; rewrite !(proj2 (Z.leb_le _ _)) by lia; done. }
    rewrite S4. unfold cont. rewrite !(proj2 (Z.leb_le _ _)), !(proj2 (Z.ltb_lt _ _)) by lia. cbn. f_equal. lia.
Qed.

Lemma decode_more fuel l : (length l <= fuel)%nat -> decode fuel l = decode (length l) l.
Proof.
  revert l. induction (lt_wf fuel) as [fuel _ IH]. intros l Hl. destruct fuel as [|fuel]; [destruct l; [done|cbn in Hl; lia]|]. destruct l as [|a l]; [done|].
  cbn [decode length]. destruct (next (a :: l)) as [c n] eqn:E.
  assert (Hn : (1 <= n)%nat) by (cbn in E; repeat case_match; injection E as <- <-; lia).
  f_equal. cbn in Hl. rewrite (IH fuel), (IH (length l)); [done|lia| |lia|]; rewrite length_drop; cbn [length]; lia.
Qed.

(** What was written as UTF-8 is read back. *)
Lemma from_utf8_lossy_utf8 s : Forall scalar s -> from_utf8_lossy (utf8 s) = s.
Proof.
  unfold from_utf8_lossy. induction 1 as [|c s Hc Hs IH]; [done|]. change (utf8 (c :: s)) with (utf8_char c ++ utf8 s).
  pose proof (utf8_char_length c) as Hl. pose proof (next_char c (map byte_to_Z (utf8 s)) Hc) as Hn.
  rewrite length_app, map_app. destruct (length (utf8_char c)) as [|k] eqn:Ek; [lia|]. cbn [Nat.add decode].
  destruct (map byte_to_Z (utf8_char c) ++ map byte_to_Z (utf8 s)) as [|a l] eqn:El.
  { destruct (utf8_char c); [cbn in Ek; lia|done]. }
  rewrite Hn, <- El. f_equal. rewrite drop_app_length' by (by rewrite length_map).
  rewrite decode_more by (rewrite length_map; lia). by rewrite length_map.
Qed.
End Lossy.

(** * What the SSH crates give *)

(** [ssh_key]: private keys, their OpenSSH text and the line of their public half. *)
Class SshKeys : Type := {
  SecretKey : Type;
  decode_secret_key : text -> text + SecretKey;
  key_of_seed : arr 32 -> text + SecretKey;
  to_openssh : SecretKey -> text + text;
  public_openssh : SecretKey -> text + text;
}.
Class SshKeyLaws {K : SshKeys} : Prop := {
  decode_to_openssh k pem : to_openssh k = inr pem -> trim pem <> [] /\ decode_secret_key (trim pem) = inr k;
}.
(** The [STANDARD_NO_PAD] engine of [base64]. *)
Class NoPad : Type := { b64_no_pad : bytes -> text }.
Class NoPadLaws {N : NoPad} : Prop := { b64_no_pad_visible b : Forall (fun c => 33 <= c <= 126) (b64_no_pad b) }.

Inductive ChannelMsg : Type :=
| ChData (d : bytes) | ChExtendedData (d : bytes) | ChExitStatus (n : Z) | ChEof | ChClose | ChOther.
(** An attempt that does not finish in its time, or an error. *)
Inductive Trouble : Type := Late | Failed (e : text).

(** [russh] on a world of servers. A connection first learns the key the server presents; if the
    handler accepts it the key exchange is completed. [delivered] is what a channel delivers within
    the time limit, and whether the channel has ended. *)
Class Russh {K : SshKeys} (W : Type) : Type := {
  Conn : Type;
  Chan : Type;
  host_key : text -> ST W Trouble bytes;
  complete : text -> ST W Trouble Conn;
  authenticate_publickey : Conn -> SecretKey -> ST W text bool;
  channel_open_session : Conn -> ST W Trouble Chan;
  chan_exec : Chan -> text -> ST W Trouble unit;
  delivered : Chan -> W -> (list ChannelMsg * bool) * W;
  request_pty : Chan -> ST W text unit;
  request_shell : Chan -> ST W text unit;
  data_bytes : Chan -> bytes -> W -> W;
  window_change : Chan -> Z -> Z -> W -> W;
  chan_eof : Chan -> W -> W;
}.

Module Ssh.
(** * [crates/core/src/ssh.rs] *)

Section fingerprint.
Context {P : CryptoPrims} {N : NoPad}.
Definition sha256_fingerprint (key_blob : bytes) : text := lit "SHA256:" ++ b64_no_pad (sha256 key_blob).
End fingerprint.
Definition fingerprint_matches (pinned presented : text) : bool :=
  negb (bool_decide (trim pinned = [])) && bool_decide (trim pinned = trim presented).

(** * [apps/desktop/src-tauri/src/ssh.rs] *)

Definition KEY_COMMENT : text := lit "northkey".
Definition SSH_PORT : Z := 22.

Inductive Input : Type := InData (d : bytes) | InResize (c r : Z) | InClose.
Record AuditLine : Type := MkAudit { au_ts : Z; au_event : string; au_provider : text; au_id : text; au_host : text; au_fp : text }.
Inductive WinEvent : Type := SshData (sid : text) (b64 : text) | SshClosed (sid : text).
Record SshOpenOut : Type := MkSshOpenOut { session_id : text; fingerprint : text; first_connect : bool }.

Section terminal.
Context {W : Type} {P : CryptoPrims} {N : NoPad} {B : Base64} {K : SshKeys} {R : Russh W}.

(** The driver task of a session, with the channel it owns and what waits in its queue. *)
Record Task : Type := MkTask { tk_provider : text; tk_id : text; tk_host : text; tk_chan : Chan; tk_queue : list Input }.

(** The device: the server configuration and the lock, the keychain entry of the key, the registry of
    senders, the tasks that run, the audit log and the events the window was sent. *)
Record Term : Type := MkTerm {
  tm_srv : Srv W;
  tm_key : option text;
  tm_registry : gset text;
  tm_tasks : gmap text Task;
  tm_audit : list AuditLine;
  tm_events : list WinEvent;
}.
Definition M (A : Type) : Type := ST Term text A.

Definition with_srv (v : Srv W) (s : Term) : Term := MkTerm v (tm_key s) (tm_registry s) (tm_tasks s) (tm_audit s) (tm_events s).
Definition with_key (k : option text) (s : Term) : Term := MkTerm (tm_srv s) k (tm_registry s) (tm_tasks s) (tm_audit s) (tm_events s).
Definition with_registry (g : gset text) (s : Term) : Term := MkTerm (tm_srv s) (tm_key s) g (tm_tasks s) (tm_audit s) (tm_events s).
Definition with_tasks (m : gmap text Task) (s : Term) : Term := MkTerm (tm_srv s) (tm_key s) (tm_registry s) m (tm_audit s) (tm_events s).
Definition with_audit (l : list AuditLine) (s : Term) : Term := MkTerm (tm_srv s) (tm_key s) (tm_registry s) (tm_tasks s) l (tm_events s).
Definition emit (e : WinEvent) (s : Term) : Term := MkTerm (tm_srv s) (tm_key s) (tm_registry s) (tm_tasks s) (tm_audit s) (tm_events s ++ [e]).
Definition world (s : Term) : W := sv_world (tm_srv s).
Definition on_world (f : W -> W) (s : Term) : Term := with_srv (Servers.with_world (f (world s)) (tm_srv s)) s.
Definition read {A} (f : Term -> A) : M A := fun s => (Ok (f s), s).
Definition modify (f : Term -> Term) : M unit := fun s => (Ok tt, f s).

(** A call of the SSH crate, with the text of its error. *)
Definition net {E A} (shown : E -> text) (c : ST W E A) : M A := fun s =>
  let '(r, w) := c (world s) in (map_err shown r, on_world (fun _ => w) s).
Definition srv {A} (c : Servers.M (W := W) A) : M A := fun s => let '(r, v) := c (tm_srv s) in (r, with_srv v s).
Definition or_text {A} (x : text + A) (e : text -> text) : result A text := match x with inl t => Err (e t) | inr a => Ok a end.

(** ** The key of the app *)

Definition kc_set (f : Fate) (v : text) : M unit := fun s => if kc_ok f KC_SSH_KEY then (Ok tt, with_key (Some v) s) else (Err (lit "keychain"), s).
Definition load_or_create_key (f : Fate) (seed : arr 32) : M SecretKey :=
  let! stored := read (fun s => kc_value (tm_key s)) in
  match stored with
  | Some pem => lift (or_text (decode_secret_key pem) (app (lit "read stored SSH key: ")))
  | None =>
      let! key := lift (or_text (key_of_seed seed) (app (lit "build SSH key: "))) in
      let! pem := lift (or_text (to_openssh key) (app (lit "encode SSH key: "))) in
      let! _ := kc_set f pem in
      ret key
  end.
Definition key_pem_export (s : Term) : text := default [] (kc_value (tm_key s)).
Definition public_line (key : SecretKey) : M text := lift (or_text (public_openssh key) (app (lit "encode public key: "))).
Definition ssh_pubkey (f : Fate) (seed : arr 32) : M text := let! key := load_or_create_key f seed in public_line key.

(** ** Connecting *)

(** The handler: the fingerprint it captures, and whether the key is accepted. *)
Definition check_server_key (pinned : text) (blob : bytes) : text * bool :=
  let fp := sha256_fingerprint blob in
  (fp, bool_decide (trim pinned = []) || fingerprint_matches pinned fp).

Definition timed_out (host : text) : text := lit "Timed out connecting to " ++ host ++ lit " on port " ++ show_dec SSH_PORT ++ lit ".".
Definition key_changed (host now : text) : text :=
  lit "HOST KEY CHANGED for " ++ host ++ lit "." ++ [13; 10; 13; 10] ++ lit "The server is presenting a different SSH key (" ++ now
  ++ lit ") than the one NorthKey pinned. If you rebuilt this server this is expected " ++ [8212]
  ++ lit " reset the pinned key in the Access tab, then reconnect. If you did NOT rebuild it, something may be intercepting the connection; do not proceed.".
Definition rejected : text :=
  lit "The server rejected NorthKey's key. Open the Access tab, copy the one-line install command onto this server, then reconnect.".
Definition dialling (host : text) (t : Trouble) : text :=
  match t with Late => timed_out host | Failed e => lit "Could not connect to " ++ host ++ lit ": " ++ e end.
Definition prefixed (what : string) (e : text) : text := lit what ++ e.

Definition connect_authed (f : Fate) (seed : arr 32) (provider id host : text) : M (Conn * text * bool) :=
  let! key := load_or_create_key f seed in
  let! pinned := read (fun s => Servers.ssh_hostkey_get provider id (tm_srv s)) in
  let first := bool_decide (trim pinned = []) in
  let! blob := net (dialling host) (host_key host) in
  let '(fp, accept) := check_server_key pinned blob in
  if negb accept then err (key_changed host fp)
  else
    let! handle := net (dialling host) (complete host) in
    let! auth := net (prefixed "SSH authentication error: ") (authenticate_publickey handle key) in
    if negb auth then err rejected
    else
      let! _ := (if first && negb (bool_decide (fp = [])) then srv (Servers.ssh_hostkey_set f provider id fp) else ret tt) in
      ret (handle, fp, first).

(** ** One command *)

Definition i32_of (n : Z) : Z := if n <? 2 ^ 31 then n else n - 2 ^ 32.
(** The loop over the messages; [None] when neither they nor the channel end. *)
Fixpoint gather (ms : list ChannelMsg) (ended : bool) (out errs : bytes) (code : Z) : option ExecOut :=
  let result := MkExecOut (Lossy.from_utf8_lossy out) (Lossy.from_utf8_lossy errs) code in
  match ms with
  | [] => if ended then Some result else None
  | ChData d :: ms => gather ms ended (out ++ d) errs code
  | ChExtendedData d :: ms => gather ms ended out (errs ++ d) code
  | ChExitStatus n :: ms => gather ms ended out errs (i32_of n)
  | ChEof :: _ | ChClose :: _ => Some result
  | ChOther :: ms => gather ms ended out errs code
  end.
Definition command_late (timeout_secs : Z) (host : text) : text :=
  lit "Command timed out after " ++ show_dec timeout_secs ++ lit "s on " ++ host ++ lit ".".
Definition in_run (timeout_secs : Z) (host : text) (what : string) (t : Trouble) : text :=
  match t with Late => command_late timeout_secs host | Failed e => prefixed what e end.
Definition exec (f : Fate) (seed : arr 32) (provider id host command : text) (timeout_secs : Z) : M ExecOut :=
  let host := trim host in
  require negb (bool_decide (host = [])) else lit "No server address." in
  let! c := connect_authed f seed provider id host in
  let handle := c.1.1 in
  let! channel := net (in_run timeout_secs host "open SSH channel: ") (channel_open_session handle) in
  let! _ := net (in_run timeout_secs host "exec: ") (chan_exec channel command) in
  let! md := (fun s => let '(md, w) := delivered channel (world s) in (Ok md, on_world (fun _ => w) s)) in
  lift (ok_or (gather md.1 md.2 [] [] (-1)) (command_late timeout_secs host)).

(** ** Sessions *)

Definition audit (f : Fate) (ts : Z) (event : string) (provider id host fp : text) (s : Term) : Term :=
  if files_ok f then with_audit (tm_audit s ++ [MkAudit ts event provider id host fp]) s else s.

Definition push (sid : text) (i : Input) (s : Term) : Term :=
  with_tasks (alter (fun t => MkTask (tk_provider t) (tk_id t) (tk_host t) (tk_chan t) (tk_queue t ++ [i])) sid (tm_tasks s)) s.
(** [SshState::send]: a sender whose task is gone fails. *)
Definition send (sid : text) (i : Input) : M unit := fun s =>
  if bool_decide (sid ∈ tm_registry s) then
    match tm_tasks s !! sid with
    | Some _ => (Ok tt, push sid i s)
    | None => (Err (lit "That terminal session has closed."), s)
    end
  else (Err (lit "That terminal session is no longer open."), s).

(** The gates of [ssh_open]; [hello] is the answer of Windows Hello where there is one. *)
Definition open_gate (hello : option (result bool text)) (host : text) : M text :=
  let! locked := read (fun s => sv_locked (tm_srv s)) in
  require negb locked else lit "Unlock your vault before opening a terminal." in
  let host := trim host in
  require negb (bool_decide (host = [])) else lit "No server address." in
  match hello with
  | None => ret host
  | Some r => let! yes := lift r in if (yes : bool) then ret host else err (lit "Cancelled.")
  end.
Definition opening (what : string) (t : Trouble) : text := match t with Late => lit what | Failed e => lit what ++ e end.
(** The rest of it, once the connection is being made; [sid] is a fresh identifier. *)
Definition open_session (f : Fate) (seed : arr 32) (sid : text) (ts : Z) (provider id host : text) : M SshOpenOut :=
  let! c := connect_authed f seed provider id host in
  let '(handle, fp, first) := c in
  let! channel := net (opening "open SSH channel: ") (channel_open_session handle) in
  let! _ := net (prefixed "request PTY: ") (request_pty channel) in
  let! _ := net (prefixed "request shell: ") (request_shell channel) in
  let! _ := modify (audit f ts "open" provider id host fp) in
  let! _ := modify (fun s => with_registry ({[sid]} ∪ tm_registry s) s) in
  let! _ := modify (fun s => with_tasks (<[sid := MkTask provider id host channel []]> (tm_tasks s)) s) in
  ret (MkSshOpenOut sid fp first).
Definition ssh_open (f : Fate) (seed : arr 32) (hello : option (result bool text)) (sid : text) (ts : Z) (provider id host : text) : M SshOpenOut :=
  let! host := open_gate hello host in open_session f seed sid ts provider id host.

(** The end of a driver task. *)
Definition finish (f : Fate) (ts : Z) (sid : text) (t : Task) (s : Term) : Term :=
  emit (SshClosed sid) (audit f ts "close" (tk_provider t) (tk_id t) (tk_host t) []
    (with_tasks (base.delete sid (tm_tasks s)) (with_registry (tm_registry s ∖ {[sid]}) s))).

(** One turn of the driver loop: a message of the channel, or the next input. An empty queue whose
    sender is still registered gives no input. *)
Inductive Turn : Type := FromServer (m : option ChannelMsg) | FromUser.
Definition drive (f : Fate) (ts : Z) (sid : text) (turn : Turn) (s : Term) : Term :=
  match tm_tasks s !! sid with
  | None => s
  | Some t =>
      match turn with
      | FromServer (Some (ChData d)) | FromServer (Some (ChExtendedData d)) => emit (SshData sid (b64_encode d)) s
      | FromServer (Some ChEof) | FromServer (Some ChClose) | FromServer None => finish f ts sid t s
      | FromServer (Some _) => s
      | FromUser =>
          let rest q := with_tasks (<[sid := MkTask (tk_provider t) (tk_id t) (tk_host t) (tk_chan t) q]> (tm_tasks s)) s in
          match tk_queue t with
          | InData d :: q => on_world (data_bytes (tk_chan t) d) (rest q)
          | InResize c r :: q => on_world (window_change (tk_chan t) c r) (rest q)
          | InClose :: q => finish f ts sid t (on_world (chan_eof (tk_chan t)) s)
          | [] => if bool_decide (sid ∈ tm_registry s) then s else finish f ts sid t (on_world (chan_eof (tk_chan t)) s)
          end
      end
  end.

Definition ssh_write (sid data_b64 : text) : M unit :=
  let! d := lift (ok_or (b64_decode data_b64) (lit "bad input encoding: ")) in send sid (InData d).
Definition ssh_resize (sid : text) (cols rows : Z) : M unit := send sid (InResize (Z.max cols 1) (Z.max rows 1)).
Definition ssh_close (sid : text) : M unit := fun s => (Ok tt, (send sid InClose s).2).

(** The registered sessions are taken and told to close; the task may be gone already. *)
Definition close_one (s : Term) (sid : text) : Term := with_registry (tm_registry s ∖ {[sid]}) (push sid InClose s).
Definition close_all (s : Term) : Term := fold_left close_one (elements (tm_registry s)) s.

(** [commands::lock]. *)
Definition lock (s : Term) : Term :=
  let v := tm_srv s in
  close_all (with_srv (MkSrv (sv_cfg v) (sv_linode v) (sv_hetzner v) (sv_auth v) (sv_vpn v) true (sv_seen v) (sv_notices v) (sv_world v)) s).

(** ** The audit log *)

Definition ssh_audit_read (s : Term) : list AuditLine := tm_audit s.
Definition ssh_audit_clear (f : Fate) : M unit := fun s =>
  if negb (bool_decide (tm_audit s = [])) then if files_ok f then (Ok tt, with_audit [] s) else (Err (lit "remove"), s) else (Ok tt, s).
End terminal.
End Ssh.
