(* ===== verification/TerminalClaims.v ===== *)
(** What the root terminals promise: a server is trusted by the key it first showed, a changed key is
    refused before anything is sent, locking the vault ends every terminal and what was typed arrives
    in order. *)
From S2P Require Import Prelude Bytes Text Crypto Floats Value Totp Toy RecoveryKit Keyring Model Envelope VaultStore Session Csv Importers Provision.
From S2P Require Import Vpn AppLock Generator Health Passkey NmHost VpnManager SyncClient SettingsSync CrowdSec Watchdog Cloud Netdata Providers Servers Terminal.
Local Open Scope Z_scope.
Import Terminal.Ssh.

Section claims.
Context {W : Type} {P : CryptoPrims} {N : NoPad} {LN : NoPadLaws} {B : Base64} {K : SshKeys} {R : Russh W}.
Implicit Type s : Term (W := W).

(** * Host keys *)

Lemma fingerprint_clean blob : trim (sha256_fingerprint blob) = sha256_fingerprint blob /\ sha256_fingerprint blob <> [].
Proof.
  split; [|done]. apply trim_printable. unfold sha256_fingerprint. apply Forall_app. split; [|apply b64_no_pad_visible].
  apply (bool_decide_unpack _). vm_compute. exact I.
Qed.

(** The pin of a server, as it is compared. *)
Definition pin_of (provider id : text) s : text := trim (Servers.ssh_hostkey_get provider id (tm_srv s)).

(** What a computation leaves as it was: the pins, the lock and the sessions. *)
Definition calm {A} (c : M (W := W) A) : Prop := forall s r s', c s = (r, s') ->
  sv_cfg (tm_srv s') = sv_cfg (tm_srv s) /\ sv_locked (tm_srv s') = sv_locked (tm_srv s)
  /\ tm_registry s' = tm_registry s /\ tm_tasks s' = tm_tasks s.
Lemma calm_ret {A} (a : A) : calm (ret a).
Proof. by intros s r s' [= <- <-]. Qed.
Lemma calm_lift {A} (x : result A text) : calm (lift x).
Proof. by intros s r s' [= <- <-]. Qed.
Lemma calm_read {A} (f : Term -> A) : calm (read f).
Proof. by intros s r s' [= <- <-]. Qed.
Lemma calm_net {E A} (g : E -> text) (c : ST W E A) : calm (net g c).
Proof. intros s r s'. unfold net. destruct (c (world s)) as [r0 w]. by intros [= <- <-]. Qed.
Lemma calm_kc f v : calm (kc_set f v).
Proof. intros s r s'. unfold kc_set. destruct (kc_ok f KC_SSH_KEY); by intros [= <- <-]. Qed.
Lemma calm_bind {A C} (c : M (W := W) A) (k : A -> M (W := W) C) : calm c -> (forall a, calm (k a)) -> calm (mbind c k).
Proof.
  intros Hc Hk s r s'. unfold mbind. destruct (c s) as [[a|e|] s1] eqn:E; destruct (Hc _ _ _ E) as (E1 & E2 & E3 & E4); [|by intros [= <- <-]..].
  intros E'. destruct (Hk _ _ _ _ E') as (F1 & F2 & F3 & F4). by rewrite F1, F2, F3, F4.
Qed.
Create HintDb calm.
#[local] Hint Resolve calm_ret calm_lift calm_read calm_net calm_kc calm_bind : calm.

Lemma calm_key f seed : calm (load_or_create_key f seed).
Proof. apply calm_bind; [auto with calm|]. intros [pem|]; auto 8 with calm. Qed.
Lemma key_world f seed s r s' : load_or_create_key f seed s = (r, s') -> world s' = world s.
Proof.
  unfold load_or_create_key, mbind, read, lift, or_text, kc_set. destruct (kc_value (tm_key s)) as [pem|].
  - destruct (decode_secret_key pem); by intros [= <- <-].
  - destruct (key_of_seed seed) as [e|k]; [by intros [= <- <-]|]. destruct (to_openssh k); [by intros [= <- <-]|]. destruct (kc_ok _ _); by intros [= <- <-].
Qed.

(** A pin once stored is read back, and no other is touched. *)
Lemma hostkey_set_run f provider id fp (v v' : Srv W) u :
  Servers.ssh_hostkey_set f provider id fp v = (Ok u, v') ->
  sv_locked v' = sv_locked v
  /\ forall p i, Servers.ssh_hostkey_get p i v' = if bool_decide (Servers.netdata_key p i = Servers.netdata_key provider id) then fp else Servers.ssh_hostkey_get p i v.
Proof.
  unfold Servers.ssh_hostkey_set, mbind, Servers.load_cfg, Servers.get, Servers.save_cfg. destruct (files_ok f); [|done]. intros [= _ <-]. split; [done|]. intros p i.
  unfold Servers.ssh_hostkey_get, Servers.ssh_entry. cbn [Servers.set_cfg sv_cfg Servers.set_ssh fc_ssh]. case_bool_decide as E.
  - rewrite E. by rewrite lookup_insert_eq.
  - by rewrite lookup_insert_ne.
Qed.

(** What a connection that is made has checked, and what it leaves. *)
Lemma connect_run f seed provider id host s h fp first s' :
  connect_authed f seed provider id host s = (Ok (h, fp, first), s') ->
  (pin_of provider id s <> [] -> fp = pin_of provider id s)
  /\ pin_of provider id s' = fp /\ fp <> []
  /\ (forall p i, Servers.netdata_key p i <> Servers.netdata_key provider id -> pin_of p i s' = pin_of p i s)
  /\ sv_locked (tm_srv s') = sv_locked (tm_srv s) /\ tm_registry s' = tm_registry s /\ tm_tasks s' = tm_tasks s.
Proof.
  intros (key & s1 & E1 & (pinned & s2 & [= <- <-] & (blob & s3 & E3 & E4)%mbind_Ok)%mbind_Ok)%mbind_Ok.
  destruct (calm_key _ _ _ _ _ E1) as (C1 & L1 & R1 & T1). destruct (calm_net _ _ _ _ _ E3) as (C3 & L3 & R3 & T3).
  unfold check_server_key in E4. set (fp0 := sha256_fingerprint blob) in E4. pose proof (fingerprint_clean blob) as [Hfp Hne]. fold fp0 in Hfp, Hne.
  assert (Hpin : forall p i, pin_of p i s3 = pin_of p i s) by (intros; unfold pin_of, Servers.ssh_hostkey_get; by rewrite C3, C1).
  assert (Hp0 : trim (Servers.ssh_hostkey_get provider id (tm_srv s1)) = pin_of provider id s) by (unfold pin_of, Servers.ssh_hostkey_get; by rewrite C1).
  rewrite Hp0 in E4. unfold fingerprint_matches in E4. rewrite Hp0, Hfp in E4.
  destruct (bool_decide (pin_of provider id s = []) || _) eqn:Ea; cbn [negb] in E4; [|done].
  apply mbind_Ok in E4 as (h0 & s4 & E4 & (auth & s5 & E5 & E6)%mbind_Ok).
  destruct (calm_net _ _ _ _ _ E4) as (C4 & L4 & R4 & T4). destruct (calm_net _ _ _ _ _ E5) as (C5 & L5 & R5 & T5).
  assert (Hpin5 : forall p i, pin_of p i s5 = pin_of p i s) by (intros; rewrite <- Hpin; unfold pin_of, Servers.ssh_hostkey_get; by rewrite C5, C4).
  destruct auth; cbn [negb] in E6; [|done]. rewrite (bool_decide_false (fp0 = []) Hne) in E6. cbn [negb] in E6. rewrite andb_true_r in E6.
  apply mbind_Ok in E6 as (u & s6 & E6 & [= <- <- _ <-]). case_bool_decide as Hfirst.
  - unfold srv in E6. destruct (Servers.ssh_hostkey_set f provider id fp0 (tm_srv s5)) as [r v] eqn:Es. injection E6 as -> <-.
    apply hostkey_set_run in Es as [L6 Hget]. cbn [with_srv tm_srv tm_registry tm_tasks]. split; [done|]. split.
    { unfold pin_of. cbn [with_srv tm_srv]. by rewrite Hget, bool_decide_true. }
    split; [done|]. split; [|split; [congruence|split; congruence]].
    intros p i Hpi. rewrite <- Hpin5. unfold pin_of. cbn [with_srv tm_srv]. by rewrite Hget, bool_decide_false.
  - injection E6 as <- <-. apply orb_true_iff in Ea as [Ea|Ea]; bools; [done|]. rewrite !Hpin5.
    split_and!; try done; congruence.
Qed.

(** A connection that is not made leaves everything as it was. *)
Definition calm_fail {A} (c : M (W := W) A) : Prop := forall s r s', c s = (r, s') -> (forall a, r <> Ok a) ->
  sv_cfg (tm_srv s') = sv_cfg (tm_srv s).
Lemma calm_fail_bind {A C} (c : M (W := W) A) (k : A -> M (W := W) C) : calm c -> (forall a, calm_fail (k a)) -> calm_fail (mbind c k).
Proof.
  intros Hc Hk s r s'. unfold mbind. destruct (c s) as [[a|e|] s1] eqn:E; destruct (Hc _ _ _ E) as (E1 & _); [|by intros [= <- <-]..].
  intros E' Hr. by rewrite (Hk _ _ _ _ E' Hr).
Qed.
Lemma connect_failed f seed provider id host : calm_fail (connect_authed f seed provider id host).
Proof.
  apply calm_fail_bind; [apply calm_key|]. intros key. apply calm_fail_bind; [apply calm_read|]. intros pinned.
  apply calm_fail_bind; [apply calm_net|]. intros blob. destruct (check_server_key pinned blob) as [fp accept]. destruct (negb accept); [by intros s r s' [= <- <-]|].
  apply calm_fail_bind; [apply calm_net|]. intros h. apply calm_fail_bind; [apply calm_net|]. intros auth. destruct (negb auth); [by intros s r s' [= <- <-]|].
  intros s r s'. unfold mbind. destruct (_ && _); [|intros [= <- <-] Hr; by destruct (Hr _ eq_refl)].
  unfold srv, Servers.ssh_hostkey_set, mbind, Servers.load_cfg, Servers.get, Servers.save_cfg. destruct (files_ok f); [|by intros [= <- <-]].
  intros [= <- <-] Hr. by destruct (Hr _ eq_refl).
Qed.

(** What happens to the pins of a device: a connection, before which the network and the servers change
    at will; a reset of a pin by the user; pins that other devices share, merged into the file. *)
Record Attempt : Type := MkAttempt { at_fate : Fate; at_seed : arr 32; at_provider : text; at_id : text; at_host : text; at_before : W -> W }.
Inductive Event : Type :=
| Connect (a : Attempt)
| Reset (f : Fate) (provider id : text)
| Shared (f : Fate) (json : text) (l : SettingsSync.Local).
Definition shared_pins {JS : TextJson (gmap text SshServerCfg)} (f : Fate) (json : text) (l : SettingsSync.Local) s : Term :=
  let c := sv_cfg (tm_srv s) in
  let l' := Settings.ssh_pins_apply f json (Settings.set_ssh (fc_ssh c) l) in
  with_srv (Servers.set_cfg (Servers.set_ssh (SettingsSync.lo_ssh l') c) (tm_srv s)) s.

Context {JS : TextJson (gmap text SshServerCfg)}.
(** The fingerprint of a connection that is made. *)
Definition happens (e : Event) s : option text * Term :=
  match e with
  | Connect a =>
      let '(r, s') := connect_authed (at_fate a) (at_seed a) (at_provider a) (at_id a) (at_host a) (on_world (at_before a) s) in
      (match r with Ok (_, fp, _) => Some fp | _ => None end, s')
  | Reset f p i => (None, (srv (Servers.servers_ssh_hostkey_reset f p i) s).2)
  | Shared f json l => (None, shared_pins f json l s)
  end.
Fixpoint history (l : list Event) s : list (option text) :=
  match l with [] => [] | e :: l => let '(o, s') := happens e s in o :: history l s' end.

Lemma pin_of_key p i p' i' s : Servers.netdata_key p i = Servers.netdata_key p' i' -> pin_of p i s = pin_of p' i' s.
Proof. intros E. unfold pin_of, Servers.ssh_hostkey_get. by rewrite E. Qed.
Lemma pin_of_cfg p i s s' : sv_cfg (tm_srv s') = sv_cfg (tm_srv s) -> pin_of p i s' = pin_of p i s.
Proof. intros E. unfold pin_of, Servers.ssh_hostkey_get. by rewrite E. Qed.

Definition server_of (a : Attempt) : text := Servers.netdata_key (at_provider a) (at_id a).
Definition resets (key : text) (e : Event) : bool := match e with Reset _ p i => bool_decide (Servers.netdata_key p i = key) | _ => false end.

(** Shared pins fill gaps only, and a reset is of one server. *)
Lemma shared_keeps f json l p i s : pin_of p i s <> [] -> pin_of p i (shared_pins f json l s) = pin_of p i s.
Proof.
  intros Hp. unfold shared_pins, Settings.ssh_pins_apply. destruct (js_decode json) as [incoming|]; [|done].
  destruct (_ && _); [|done]. unfold pin_of, Servers.ssh_hostkey_get, Servers.ssh_entry in *. cbn in Hp |- *.
  rewrite lookup_merge. set (mine := fc_ssh (sv_cfg (tm_srv s)) !! Servers.netdata_key p i) in *.
  destruct (incoming !! Servers.netdata_key p i) as [v|]; [|by destruct mine]. unfold diag_None.
  destruct mine as [m|]; cbn in Hp |- *; [|done]. by rewrite bool_decide_false.
Qed.
Lemma reset_keeps f p' i' p i s :
  Servers.netdata_key p' i' <> Servers.netdata_key p i -> pin_of p i (srv (Servers.servers_ssh_hostkey_reset f p' i') s).2 = pin_of p i s.
Proof.
  intros Hne. unfold srv, Servers.servers_ssh_hostkey_reset, mbind, Servers.load_cfg, Servers.get, Servers.save_cfg.
  destruct (files_ok f); [|done]. unfold pin_of, Servers.ssh_hostkey_get, Servers.ssh_entry. cbn.
  destruct (fc_ssh _ !! Servers.netdata_key p' i'); [|done]. cbn. by rewrite lookup_insert_ne.
Qed.

Lemma happens_pinned e p i s :
  pin_of p i s <> [] -> resets (Servers.netdata_key p i) e = false ->
  pin_of p i (happens e s).2 = pin_of p i s
  /\ forall a fp, e = Connect a -> server_of a = Servers.netdata_key p i -> (happens e s).1 = Some fp -> fp = pin_of p i s.
Proof.
  intros Hp Hr. destruct e as [a|f p' i'|f json l]; cbn [happens resets] in *.
  - destruct (connect_authed _ _ _ _ _ _) as [r s'] eqn:E. cbn [fst snd].
    assert (Hs : pin_of p i (on_world (at_before a) s) = pin_of p i s) by (by apply pin_of_cfg).
    destruct r as [[[h fp0] first]|e|]; [|split; [rewrite <- Hs; by apply pin_of_cfg, (connect_failed _ _ _ _ _ _ _ _ E)|done]..].
    apply connect_run in E as (Hpin & Hnew & _ & Hother & _). destruct (decide (Servers.netdata_key p i = server_of a)) as [Eb|Eb].
    + rewrite <- (pin_of_key _ _ _ _ _ Eb), Hs in Hpin. specialize (Hpin Hp). split; [rewrite (pin_of_key _ _ _ _ _ Eb); congruence|].
      intros a' fp [= <-] _ [= <-]. done.
    + split; [by rewrite Hother, Hs|]. intros a' fp [= <-] Ha. by destruct Eb.
  - split; [|done]. apply reset_keeps. by bools.
  - split; [|done]. by apply shared_keeps.
Qed.

(** Every connection to a pinned server shows the pinned key, until that pin is reset. *)
Lemma history_pinned l s p i k a fp :
  pin_of p i s <> [] -> l !! k = Some (Connect a) -> server_of a = Servers.netdata_key p i ->
  Forall (fun e => resets (Servers.netdata_key p i) e = false) (take k l) -> history l s !! k = Some (Some fp) -> fp = pin_of p i s.
Proof.
  revert s k; induction l as [|e l IH]; intros s k Hp Hk Ha Hn; [done|]. cbn [history].
  destruct (happens e s) as [o s'] eqn:E. destruct k as [|k]; cbn.
  - injection Hk as ->. intros [= ->]. destruct (happens_pinned (Connect a) p i s Hp eq_refl) as [_ H]. rewrite E in H. by eapply H.
  - cbn in Hn. apply Forall_cons in Hn as [Hn0 Hn]. destruct (happens_pinned e p i s Hp Hn0) as [H _]. rewrite E in H. cbn in H, Hk.
    intros Hfp. rewrite <- H. apply (IH s' k); [by rewrite H|done..].
Qed.


(** A changed host key is refused before anything is sent. When a pinned server presents another
    key, a command and a terminal both end in the warning; the connection is given up after the key
    was shown, nothing is authenticated or run, and pins and sessions stay as they are. *)
Theorem changed_key_refused f seed provider id host command timeout_secs sid ts s blob w' :
  is_ok (load_or_create_key f seed s).1 = true ->
  trim host = host -> host <> [] -> host_key host (world s) = (Ok blob, w') ->
  pin_of provider id s <> [] -> sha256_fingerprint blob <> pin_of provider id s ->
  exists s', exec f seed provider id host command timeout_secs s = (Err (key_changed host (sha256_fingerprint blob)), s')
    /\ open_session f seed sid ts provider id host s = (Err (key_changed host (sha256_fingerprint blob)), s')
    /\ world s' = w' /\ sv_cfg (tm_srv s') = sv_cfg (tm_srv s) /\ tm_registry s' = tm_registry s /\ tm_tasks s' = tm_tasks s.
Proof.
  intros Hk Hh Hne Hkey Hpin Hdiff.
  assert (E : exists s1, connect_authed f seed provider id host s = (Err (key_changed host (sha256_fingerprint blob)), s1)
    /\ world s1 = w' /\ sv_cfg (tm_srv s1) = sv_cfg (tm_srv s) /\ tm_registry s1 = tm_registry s /\ tm_tasks s1 = tm_tasks s).
  { apply run_ok in Hk as [key Ekey]. set (s1 := (load_or_create_key f seed s).2) in Ekey. destruct (calm_key _ _ _ _ _ Ekey) as (C1 & _ & R1 & T1).
    pose proof (key_world _ _ _ _ _ Ekey) as Hw. unfold connect_authed, mbind at 1. rewrite Ekey. unfold mbind at 1, read. unfold mbind at 1, net.
    rewrite Hw, Hkey. cbn [map_err]. unfold check_server_key, fingerprint_matches. fold (pin_of provider id s1). rewrite (pin_of_cfg _ _ _ _ C1).
    rewrite (proj1 (fingerprint_clean blob)), !bool_decide_false by (done || congruence). eexists. split; [reflexivity|]. cbn. by rewrite C1, R1, T1. }
  destruct E as (s1 & E & Hs1). exists s1. split; [|split; [|done]].
  - unfold exec. rewrite Hh, bool_decide_false by done. cbn [negb]. unfold mbind at 1. by rewrite E.
  - unfold open_session, mbind at 1. by rewrite E.
Qed.

(** * Locking *)

(** What can happen after a lock, short of opening a terminal: keystrokes, resizing, closing, turns of
    the drivers, and anything at all on the network. *)
Inductive Act : Type :=
| Write (sid data_b64 : text) | Resize (sid : text) (cols rows : Z) | CloseIt (sid : text)
| Drive (f : Fate) (ts : Z) (sid : text) (turn : Turn) | Outside (g : W -> W).
Definition act s (a : Act) : Term :=
  match a with
  | Write sid d => (ssh_write sid d s).2
  | Resize sid c r => (ssh_resize sid c r s).2
  | CloseIt sid => (ssh_close sid s).2
  | Drive f ts sid turn => drive f ts sid turn s
  | Outside g => on_world g s
  end.

Lemma send_unregistered sid i s : tm_registry s = ∅ -> send sid i s = (Err (lit "That terminal session is no longer open."), s).
Proof. intros Hr. unfold send. rewrite Hr, bool_decide_false by set_solver. done. Qed.

Definition queue_of s (sid : text) : option (list Input) := tk_queue <$> tm_tasks s !! sid.

Lemma finish_tasks f ts sid t s : tm_tasks (finish f ts sid t s) = base.delete sid (tm_tasks s) /\ tm_registry (finish f ts sid t s) = tm_registry s ∖ {[sid]}.
Proof. unfold finish, audit. by destruct (files_ok f). Qed.

(** One turn takes at most one input off one queue. *)
Lemma drive_tasks f ts sid turn s sid' q :
  queue_of (drive f ts sid turn s) sid' = Some q ->
  tm_registry (drive f ts sid turn s) ⊆ tm_registry s /\ exists done, queue_of s sid' = Some (done ++ q).
Proof.
  unfold drive, queue_of. destruct (tm_tasks s !! sid) as [t|] eqn:Et; [|intros ->; split; [done|by exists []]].
  assert (Hfin : forall s1, tm_tasks s1 = tm_tasks s -> tm_registry s1 = tm_registry s -> tk_queue <$> tm_tasks (finish f ts sid t s1) !! sid' = Some q ->
    tm_registry (finish f ts sid t s1) ⊆ tm_registry s /\ exists done, tk_queue <$> tm_tasks s !! sid' = Some (done ++ q)).
  { intros s1 Ht Hr. destruct (finish_tasks f ts sid t s1) as [-> ->]. rewrite Ht, Hr. intros H. split; [set_solver|].
    destruct (decide (sid' = sid)) as [->|Hne]; [by rewrite lookup_delete_eq in H|]. rewrite lookup_delete_ne in H by done. by exists []. }
  assert (Hpop : forall g i q0, tk_queue t = i :: q0 ->
    let s1 := on_world g (with_tasks (<[sid := MkTask (tk_provider t) (tk_id t) (tk_host t) (tk_chan t) q0]> (tm_tasks s)) s) in
    tk_queue <$> tm_tasks s1 !! sid' = Some q -> tm_registry s1 ⊆ tm_registry s /\ exists done, tk_queue <$> tm_tasks s !! sid' = Some (done ++ q)).
  { intros g i q0 Eq. cbn. intros H. split; [done|]. destruct (decide (sid' = sid)) as [->|Hne].
    - rewrite lookup_insert_eq in H. injection H as <-. exists [i]. rewrite Et. cbn. by rewrite Eq.
    - rewrite lookup_insert_ne in H by done. by exists []. }
  destruct turn as [[[]|]|]; try (intros H; split; [done|by exists []]); try (by apply Hfin).
  destruct (tk_queue t) as [|[d|c r|] q0] eqn:Eq.
  - case_bool_decide; [intros H'; split; [done|by exists []]|]. by apply Hfin.
  - by apply (Hpop _ _ _ eq_refl).
  - by apply (Hpop _ _ _ eq_refl).
  - by apply Hfin.
Qed.

(** With nothing registered, nothing is added to a queue. *)
Lemma act_quiet s a : tm_registry s = ∅ ->
  tm_registry (act s a) = ∅ /\ forall sid q, queue_of (act s a) sid = Some q -> exists done, queue_of s sid = Some (done ++ q).
Proof.
  intros Hr. assert (Hsame : forall s1, s1 = s -> tm_registry s1 = ∅ /\ forall sid q, queue_of s1 sid = Some q -> exists done, queue_of s sid = Some (done ++ q)).
  { intros s1 ->. split; [done|]. intros sid q Hq. by exists []. }
  destruct a as [sid d|sid c r|sid|f ts sid turn|g]; cbn [act].
  - apply Hsame. unfold ssh_write, mbind, lift. destruct (b64_decode d); cbn; [by rewrite send_unregistered|done].
  - apply Hsame. unfold ssh_resize. by rewrite send_unregistered.
  - apply Hsame. unfold ssh_close. by rewrite send_unregistered.
  - split; [|intros sid' q Hq; by apply drive_tasks in Hq as [_ Hq]]. unfold drive. destruct (tm_tasks s !! sid) as [t|]; [|done].
    repeat case_match; try done; rewrite (proj2 (finish_tasks _ _ _ _ _)); cbn; set_solver.
  - split; [done|]. intros sid q Hq. by exists [].
Qed.

Lemma close_one_spec s sid :
  tm_registry (close_one s sid) = tm_registry s ∖ {[sid]}
  /\ forall sid', queue_of (close_one s sid) sid' = (fun q => if bool_decide (sid' = sid) then q ++ [InClose] else q) <$> queue_of s sid'.
Proof.
  split; [done|]. intros sid'. unfold queue_of, close_one, push. cbn. case_bool_decide as E.
  - subst. rewrite lookup_alter_eq. by destruct (tm_tasks s !! sid).
  - rewrite lookup_alter_ne by done. by destruct (tm_tasks s !! sid').
Qed.

Lemma close_list l s : NoDup l ->
  tm_registry (fold_left close_one l s) = tm_registry s ∖ list_to_set l
  /\ forall sid, queue_of (fold_left close_one l s) sid = (fun q => if bool_decide (sid ∈ l) then q ++ [InClose] else q) <$> queue_of s sid.
Proof.
  revert s; induction l as [|x l IH]; intros s Hn; cbn [fold_left].
  - split; [set_solver|]. intros sid. rewrite bool_decide_false by apply not_elem_of_nil. by destruct (queue_of s sid).
  - apply NoDup_cons in Hn as [Hx Hn]. destruct (IH (close_one s x) Hn) as [Hr Hq]. destruct (close_one_spec s x) as [Hr1 Hq1]. split.
    + rewrite Hr, Hr1. set_solver.
    + intros sid. rewrite Hq, Hq1. destruct (queue_of s sid) as [q|]; [|done]. cbn. f_equal. destruct (decide (sid = x)) as [->|Hne].
      * rewrite (bool_decide_false (x ∈ l)), !bool_decide_true by (done || set_solver). done.
      * rewrite (bool_decide_false (sid = x)) by done. by rewrite (bool_decide_ext (sid ∈ x :: l) (sid ∈ l)) by set_solver.
Qed.

Lemma lock_spec s :
  tm_registry (lock s) = ∅ /\ sv_locked (tm_srv (lock s)) = true
  /\ forall sid, queue_of (lock s) sid = (fun q => if bool_decide (sid ∈ tm_registry s) then q ++ [InClose] else q) <$> queue_of s sid.
Proof.
  unfold lock, close_all. set (s1 := with_srv _ s). change (tm_registry s1) with (tm_registry s).
  destruct (close_list (elements (tm_registry s)) s1 (NoDup_elements _)) as [Hr Hq]. split; [|split].
  - rewrite Hr. change (tm_registry s1) with (tm_registry s). rewrite list_to_set_elements_L. set_solver.
  - clear. assert (E : forall l s0, tm_srv (fold_left close_one l s0) = tm_srv s0) by (induction l as [|x l IH]; intros; [done|]; cbn [fold_left]; by rewrite IH).
    by rewrite E.
  - intros sid. rewrite Hq. change (queue_of s1 sid) with (queue_of s sid). by rewrite (bool_decide_ext (sid ∈ elements (tm_registry s)) (sid ∈ tm_registry s)) by set_solver.
Qed.

Lemma drive_absent f ts sid turn s : tm_tasks s !! sid = None -> drive f ts sid turn s = s.
Proof. intros H. unfold drive. by rewrite H. Qed.
Lemma drives_absent f ts sid n s : tm_tasks s !! sid = None -> tm_tasks (Nat.iter n (drive f ts sid FromUser) s) !! sid = None.
Proof. intros H. assert (E : Nat.iter n (drive f ts sid FromUser) s = s); [|by rewrite E]. induction n as [|n IH]; [done|]. rewrite Nat.iter_succ, IH. by apply drive_absent. Qed.

(** A driver whose sender is gone ends once its queue is worked off. *)
Lemma drive_drains f ts sid q s : tm_registry s = ∅ -> queue_of s sid = Some q ->
  tm_tasks (Nat.iter (S (length q)) (drive f ts sid FromUser) s) !! sid = None.
Proof.
  revert s; induction q as [|i q IH]; intros s Hr Hq; apply fmap_Some in Hq as (t & Et & Eq); rewrite Nat.iter_succ_r.
  - cbn [length]. unfold Nat.iter, nat_rect. unfold drive. rewrite Et, <- Eq, bool_decide_false by set_solver. rewrite (proj1 (finish_tasks _ _ _ _ _)). cbn. apply lookup_delete_eq.
  - assert (Hgone : forall s1, tm_tasks s1 !! sid = None -> tm_tasks (Nat.iter (S (length q)) (drive f ts sid FromUser) s1) !! sid = None) by (intros; by apply drives_absent).
    unfold drive at 2. rewrite Et, <- Eq. destruct i as [d|c r|].
    + apply IH; [done|]. unfold queue_of. cbn. by rewrite lookup_insert_eq.
    + apply IH; [done|]. unfold queue_of. cbn. by rewrite lookup_insert_eq.
    + apply Hgone. rewrite (proj1 (finish_tasks _ _ _ _ _)). cbn. apply lookup_delete_eq.
Qed.

(** What can happen while the vault stays locked: those, and the user asking for a terminal. *)
Inductive Later : Type :=
| Acted (a : Act)
| Asked (f : Fate) (seed : arr 32) (hello : option (result bool text)) (sid : text) (ts : Z) (provider id host : text).
Definition later s (x : Later) : Term :=
  match x with Acted a => act s a | Asked f seed hello sid ts p i host => (ssh_open f seed hello sid ts p i host s).2 end.

Lemma act_locked s a : sv_locked (tm_srv (act s a)) = sv_locked (tm_srv s).
Proof.
  assert (Hsend : forall sid i, tm_srv (send sid i s).2 = tm_srv s) by (intros; unfold send; repeat case_match; done).
  destruct a as [sid d|sid c r|sid|f ts sid turn|g]; cbn [act]; [|exact (f_equal _ (Hsend _ _))..| |done].
  - unfold ssh_write, mbind, lift. destruct (b64_decode d); cbn; [by rewrite Hsend|done].
  - unfold drive. destruct (tm_tasks s !! sid) as [t|]; [|done].
    assert (Hfin : forall s1, tm_srv (finish f ts sid t s1) = tm_srv s1) by (intros; unfold finish, audit; by destruct (files_ok f)).
    repeat case_match; rewrite ?Hfin; done.
Qed.
Lemma asked_refused f seed hello sid ts p i host s : sv_locked (tm_srv s) = true ->
  ssh_open f seed hello sid ts p i host s = (Err (lit "Unlock your vault before opening a terminal."), s).
Proof. intros H. unfold ssh_open, open_gate, mbind, read. by rewrite H. Qed.

Lemma laters_quiet l s : tm_registry s = ∅ -> sv_locked (tm_srv s) = true ->
  tm_registry (fold_left later l s) = ∅ /\ forall sid q, queue_of (fold_left later l s) sid = Some q -> exists done, queue_of s sid = Some (done ++ q).
Proof.
  revert s; induction l as [|x l IH]; intros s Hr Hl; cbn [fold_left]; [split; [done|]; intros sid q Hq; by exists []|].
  destruct x as [a|f seed hello sid ts p i host]; cbn [later]; [|rewrite asked_refused by done; by apply IH].
  destruct (act_quiet s a Hr) as [Hr1 Hq1]. destruct (IH _ Hr1) as [Hr2 Hq2]; [by rewrite act_locked|]. split; [done|]. intros sid q Hq.
  destruct (Hq2 _ _ Hq) as [d1 H1]. destruct (Hq1 _ _ H1) as [d2 H2]. exists (d2 ++ d1). by rewrite <- app_assoc.
Qed.

(** C19: locking the vault ends every terminal that is open. As long as the vault stays locked, and unless
    a terminal whose opening had already passed its look at the lock comes up afterwards (see
    [open_outlives_lock]), whatever is typed, clicked, received or asked for: no keystroke is accepted by
    any session; a session's driver still sends at most what had been typed before the lock; and it
    ends, session and task gone, as soon as it has worked that off. *)
Theorem lock_ends_terminals s l :
  let s' := fold_left later l (lock s) in
  (forall sid d, exists e, (ssh_write sid d s').1 = Err e)
  /\ (forall sid q, queue_of s' sid = Some q ->
        exists q0 gone, queue_of s sid = Some q0 /\ gone ++ q = if bool_decide (sid ∈ tm_registry s) then q0 ++ [InClose] else q0)
  /\ (forall f ts sid q, queue_of s' sid = Some q -> tm_tasks (Nat.iter (S (length q)) (drive f ts sid FromUser) s') !! sid = None).
Proof.
  cbn zeta. destruct (lock_spec s) as (Hr & Hl & Hq). destruct (laters_quiet l _ Hr Hl) as [Hr' Hq']. split; [|split].
  - intros sid d. unfold ssh_write, mbind, lift. destruct (b64_decode d); cbn; [rewrite send_unregistered by done|]; by eexists.
  - intros sid q Hs. destruct (Hq' _ _ Hs) as [gone Hg]. rewrite Hq in Hg. apply fmap_Some in Hg as (q0 & Hq0 & Eg). exists q0, gone. by split.
  - intros f ts sid q Hs. by apply drive_drains.
Qed.

(** A terminal whose opening began before the lock and ends after it is live with the vault locked. *)
Lemma open_outlives_lock f seed sid ts provider id host s o s' data_b64 d :
  open_session f seed sid ts provider id host (lock s) = (Ok o, s') -> b64_decode data_b64 = Some d ->
  sv_locked (tm_srv s') = true /\ (ssh_write sid data_b64 s').1 = Ok tt.
Proof.
  intros (c & s1 & E1 & E2)%mbind_Ok Hd. destruct c as [[h fp] first]. apply connect_run in E1 as (_ & _ & _ & _ & Hl & _ & _).
  apply mbind_Ok in E2 as (ch & s2 & E2 & (u1 & s3 & E3 & (u2 & s4 & E4 & (u3 & s5 & [= _ <-] & (u4 & s6 & [= _ <-] & (u5 & s7 & [= _ <-] & [= _ <-])%mbind_Ok)%mbind_Ok)%mbind_Ok)%mbind_Ok)%mbind_Ok).
  destruct (calm_net _ _ _ _ _ E2) as (_ & L2 & _). destruct (calm_net _ _ _ _ _ E3) as (_ & L3 & _). destruct (calm_net _ _ _ _ _ E4) as (_ & L4 & _).
  split.
  - cbn. replace (tm_srv (audit _ _ _ _ _ _ _ _)) with (tm_srv s4) by (unfold audit; by destruct (files_ok f)). rewrite L4, L3, L2, Hl. apply lock_spec.
  - unfold ssh_write, mbind, lift. rewrite Hd. cbn [ok_or]. unfold send. cbn [with_tasks tm_registry tm_tasks with_registry].
    rewrite bool_decide_true by set_solver. by rewrite lookup_insert_eq.
Qed.

(** * Keystrokes *)

(** The inputs a session accepts, and those its driver takes. *)
Definition accepted {A} (r : result A text) (i : list Input) : list Input := if is_ok r then i else [].
Definition typed (sid : text) s (a : Act) : list Input :=
  match a with
  | Write sid' d => if bool_decide (sid' = sid) then accepted (ssh_write sid' d s).1 (match b64_decode d with Some d => [InData d] | None => [] end) else []
  | Resize sid' c r => if bool_decide (sid' = sid) then accepted (ssh_resize sid' c r s).1 [InResize (Z.max c 1) (Z.max r 1)] else []
  | CloseIt sid' => if bool_decide (sid' = sid) then accepted (send sid' InClose s).1 [InClose] else []
  | _ => []
  end.
Definition taken (sid : text) s (a : Act) : list Input :=
  match a with
  | Drive _ _ sid' FromUser => if bool_decide (sid' = sid) then match queue_of s sid with Some (i :: _) => [i] | _ => [] end else []
  | _ => []
  end.
Fixpoint over (f : Term -> Act -> list Input) (l : list Act) s : list Input :=
  match l with [] => [] | a :: l => f s a ++ over f l (act s a) end.

Lemma send_queue sid' i s sid q q' :
  queue_of s sid = Some q -> queue_of (send sid' i s).2 sid = Some q' -> q' = q ++ if bool_decide (sid' = sid) then accepted (send sid' i s).1 [i] else [].
Proof.
  intros Hq. unfold send. case_bool_decide as Hr; [|cbn; rewrite Hq; intros [= <-]; case_bool_decide; by rewrite app_nil_r].
  destruct (tm_tasks s !! sid') as [t|] eqn:Et; [|cbn; rewrite Hq; intros [= <-]; case_bool_decide; by rewrite app_nil_r].
  cbn. unfold queue_of, push in *. cbn. case_bool_decide as E.
  - subst. rewrite lookup_alter_eq, Et in *. cbn in *. congruence.
  - rewrite lookup_alter_ne, Hq, app_nil_r by done. congruence.
Qed.

Lemma act_queue s a sid q q' : queue_of s sid = Some q -> queue_of (act s a) sid = Some q' -> q ++ typed sid s a = taken sid s a ++ q'.
Proof.
  intros Hq. destruct a as [sid' d|sid' c r|sid'|f ts sid' turn|g]; cbn [act typed taken app].
  - unfold ssh_write, mbind, lift. destruct (b64_decode d) as [b|]; cbn [ok_or].
    + intros H. by rewrite (send_queue _ _ _ _ _ _ Hq H).
    + cbn. rewrite Hq. intros [= ->]. case_bool_decide; by rewrite app_nil_r.
  - intros H. by rewrite (send_queue _ _ _ _ _ _ Hq H).
  - intros H. by rewrite (send_queue _ _ _ _ _ _ Hq H).
  - rewrite app_nil_r. rewrite Hq. apply fmap_Some in Hq as (t & Et & ->). unfold drive. destruct (decide (sid' = sid)) as [->|Hne].
    + rewrite Et. assert (Hfin : forall s1, queue_of (finish f ts sid t s1) sid = Some q' -> tk_queue t = q').
      { intros s1. unfold queue_of. rewrite (proj1 (finish_tasks f ts sid t s1)), lookup_delete_eq. done. }
      destruct turn as [[[]|]|]; cbn [app]; try (unfold queue_of; cbn; rewrite Et; cbn; congruence); try apply Hfin.
      rewrite (bool_decide_true (sid = sid)) by done. destruct (tk_queue t) as [|[] q0] eqn:Eq; cbn [app].
      * case_bool_decide; [|apply Hfin]. unfold queue_of. rewrite Et. cbn. congruence.
      * unfold queue_of. cbn. rewrite lookup_insert_eq. cbn. congruence.
      * unfold queue_of. cbn. rewrite lookup_insert_eq. cbn. congruence.
      * intros H. unfold queue_of in H. rewrite (proj1 (finish_tasks f ts sid t _)), lookup_delete_eq in H. done.
    + rewrite (bool_decide_false (sid' = sid)) by done. replace (match turn with FromServer _ => _ | FromUser => _ end) with (@nil Input) by by destruct turn.
      destruct (tm_tasks s !! sid') as [t'|]; [|unfold queue_of; rewrite Et; cbn; congruence].
      repeat case_match; unfold queue_of; rewrite ?(proj1 (finish_tasks f ts sid' _ _)); cbn; rewrite ?lookup_delete_ne, ?lookup_insert_ne by done; rewrite Et; cbn; congruence.
  - rewrite app_nil_r. change (queue_of (on_world g s) sid) with (queue_of s sid). congruence.
Qed.

Lemma act_alive s a sid q' : queue_of (act s a) sid = Some q' -> is_Some (queue_of s sid).
Proof.
  assert (Hsend : forall sid' i, queue_of (send sid' i s).2 sid = Some q' -> is_Some (queue_of s sid)).
  { intros sid' i. unfold send. case_bool_decide; [|by eexists]. destruct (tm_tasks s !! sid') as [t0|]; [|by eexists]. unfold queue_of, push. cbn.
    intros (t & Ht & _)%fmap_Some. apply lookup_alter_Some in Ht as [(_ & x & -> & _)|[_ ->]]; by eexists. }
  destruct a as [sid' d|sid' c r|sid'|f ts sid' turn|g]; cbn [act]; [|by apply Hsend..| |by eexists].
  - unfold ssh_write, mbind, lift. destruct (b64_decode d); cbn [ok_or]; [apply Hsend|by eexists].
  - intros H. apply drive_tasks in H as [_ [done ->]]. by eexists.
Qed.

(** What is typed arrives, in order, once. For any session that is still alive after any sequence
    of keystrokes, resizes and driver turns, among those of other sessions, the inputs its driver took
    followed by those still waiting are those waiting at first followed by those accepted since. *)
Theorem keystrokes_in_order l s sid q' :
  queue_of (fold_left act l s) sid = Some q' ->
  exists q, queue_of s sid = Some q /\ q ++ over (typed sid) l s = over (taken sid) l s ++ q'.
Proof.
  revert s; induction l as [|a l IH]; intros s Hq'; cbn [fold_left over] in *.
  - exists q'. by rewrite app_nil_r.
  - destruct (IH _ Hq') as (q1 & Hq1 & E1). destruct (act_alive _ _ _ _ Hq1) as [q Hq]. exists q. split; [done|].
    rewrite app_assoc, (act_queue _ _ _ _ _ Hq Hq1), <- !app_assoc. by rewrite E1.
Qed.

(** The status of a command that comes after the end of its output is not seen. *)
Lemma eof_hides_status d n rest ended : exit_code <$> gather (ChData d :: ChEof :: ChExitStatus n :: rest) ended [] [] (-1) = Some (-1).
Proof. done. Qed.
End claims.

(** * Concrete runs *)

(** A server that can be replaced by another: the theorems above instantiated, and a
    terminal that opens after the vault is locked. *)
Import Terminal.Ssh.

Module TermDemo.
#[export] Existing Instances toy_prims toy_base64.
(** The host key behind the address, and what the shell was sent. *)
Record net_world : Type := MkNet { presented : bytes; shell_input : list bytes }.
#[export] Instance no_pad : NoPad := {| b64_no_pad b := map (fun x => 33 + byte_to_Z x mod 64) b |}.
#[export] Instance no_pad_laws : NoPadLaws.
Proof. constructor. intros b. apply Forall_fmap, Forall_forall. intros x _. cbn. pose proof (Z.mod_pos_bound (byte_to_Z x) 64 eq_refl). lia. Qed.
#[export] Instance keys : SshKeys :=
  {| SecretKey := unit; decode_secret_key _ := inr tt; key_of_seed _ := inr tt; to_openssh _ := inr (lit "pem"); public_openssh _ := inr (lit "ssh-ed25519") |}.
#[export] Instance key_laws : SshKeyLaws.
Proof. constructor. intros k pem [= <-]. by destruct k. Qed.
#[export] Instance russh : Russh net_world := {|
  Conn := unit; Chan := unit;
  host_key _ w := (Ok (presented w), w);
  complete _ := ret tt;
  authenticate_publickey _ _ := ret true;
  channel_open_session _ := ret tt;
  chan_exec _ _ := ret tt;
  delivered _ w := ([ChData [Byte.x68; Byte.x69]; ChExitStatus 0; ChEof], true, w);
  request_pty _ := ret tt;
  request_shell _ := ret tt;
  data_bytes _ d w := MkNet (presented w) (shell_input w ++ [d]);
  window_change _ _ _ w := w;
  chan_eof _ w := w |}.

Definition fine : Fate := MkFate (fun _ => true) true.
Definition seed : arr 32 := arr_fill 32 Byte.x07.
Definition start_srv (locked : bool) : Srv net_world :=
  MkSrv (MkServersFileCfg WatchdogFileCfg_default ∅ ∅ ∅) None None ∅ None locked ∅ [] (MkNet [Byte.x01] []).
Definition start : Term (W := net_world) := MkTerm (start_srv false) None ∅ ∅ [] [].
Definition hetzner : text := lit "hetzner".
Definition at_42 (g : net_world -> net_world) : Event (W := net_world) := Connect (MkAttempt fine seed hetzner (lit "42") (lit "203.0.113.9") g).
#[local] Instance pins_json : TextJson (gmap text SshServerCfg) := {| js_encode _ := []; js_decode _ := Some {[lit "hetzner:42" := MkSshServerCfg (lit "SHA256:other") false]} |}.

(** The server answers twice with its own key, and once another answers in its place; in between
    another pin is reset and a device shares one of its own. *)
Definition twice (l : SettingsSync.Local) : list Event :=
  [at_42 id; at_42 (fun w => MkNet [Byte.x02] []); Reset fine hetzner (lit "43"); Shared fine (lit "pins") l; at_42 (fun w => MkNet [Byte.x01] [])].

(** A session to the server, then another key behind the address. *)
Definition opened : Term := (ssh_open fine seed None (lit "s1") 0 hetzner (lit "42") (lit "203.0.113.9") start).2.
Lemma changed_key_refused_witness :
  let s := on_world (fun w => MkNet [Byte.x02] []) opened in
  exists s', exec fine seed hetzner (lit "42") (lit "203.0.113.9") (lit "id") 30 s
             = (Err (key_changed (lit "203.0.113.9") (sha256_fingerprint [Byte.x02])), s') /\ tm_registry s' = tm_registry s.
Proof.
  cbn zeta. set (s := on_world _ opened).
  destruct (changed_key_refused fine seed hetzner (lit "42") (lit "203.0.113.9") (lit "id") 30 (lit "s2") 1 s [Byte.x02] (MkNet [Byte.x02] []))
    as (s' & E & _ & _ & _ & Hr & _).
  - vm_compute. reflexivity.
  - vm_compute. reflexivity.
  - discriminate.
  - vm_compute. reflexivity.
  - vm_compute. discriminate.
  - vm_compute. discriminate.
  - exists s'. split; [exact E|exact Hr].
Defined.

(** Two keystrokes, one of which the driver has taken. *)
Definition keys_typed : list (Act (W := net_world)) :=
  [Write (lit "s1") (b64_encode [Byte.x6c]); Write (lit "s1") (b64_encode [Byte.x73]); Drive fine 1 (lit "s1") FromUser].
Lemma keystrokes_in_order_witness :
  exists q', queue_of (fold_left act keys_typed opened) (lit "s1") = Some q'
    /\ [InData [Byte.x6c]; InData [Byte.x73]] = over (taken (lit "s1")) keys_typed opened ++ q'.
Proof.
  destruct (queue_of (fold_left act keys_typed opened) (lit "s1")) as [q'|] eqn:E; [|vm_compute in E; discriminate E].
  exists q'. split; [reflexivity|]. destruct (keystrokes_in_order keys_typed opened (lit "s1") q' E) as (q & Hq & H).
  vm_compute in Hq. injection Hq as <-. rewrite <- H. vm_compute. reflexivity.
Defined.

(** What is typed after a lock is refused, and so is another terminal. *)
Definition after_lock : list (Later (W := net_world)) :=
  map Acted keys_typed ++ [Asked fine seed None (lit "s2") 2 hetzner (lit "42") (lit "203.0.113.9")].
Lemma lock_ends_terminals_witness : exists e, (ssh_write (lit "s2") (b64_encode [Byte.x6c]) (fold_left later after_lock (lock opened))).1 = Err e.
Proof. exact (proj1 (lock_ends_terminals opened after_lock) (lit "s2") (b64_encode [Byte.x6c])). Defined.

(** The vault is locked between the gate and the end of the connection: the shell is live. *)
Lemma lock_race :
  let '(r, s) := open_gate None (lit "203.0.113.9") start in
  let '(o, s) := open_session fine seed (lit "s1") 0 hetzner (lit "42") (lit "203.0.113.9") (lock s) in
  is_ok r = true /\ is_ok o = true /\ sv_locked (tm_srv s) = true /\ (ssh_write (lit "s1") (b64_encode [Byte.x6c]) s).1 = Ok tt.
Proof. vm_compute. by repeat split. Qed.
End TermDemo.
