(* ===== verification/GoogleAuth.v ===== *)
(** [crates/core/src/auth/google.rs] and the browser half of [auth_google_signin] in [sync.rs]: the
    authorization-code flow with PKCE, the loopback listener that receives the redirect, and the
    exchange of the code. The browser, the loopback socket and Google's endpoint are parameters. *)
From S2P Require Import Prelude Bytes Text Crypto Floats Value Totp Toy RecoveryKit Keyring Model Envelope VaultStore Session AppLock Generator Health Passkey.
From S2P Require Import Csv Importers Provision Vpn NmHost VpnManager ApiDb ApiAuth ApiRoutes ApiDemo ApiFacts ApiClaims ApiVault SyncClient SyncFlows SettingsSync CrowdSec Watchdog Cloud Netdata Providers Servers Terminal.
Local Open Scope Z_scope.

Module Google.
(** * [auth/google.rs] *)

Definition AUTH_ENDPOINT : text := lit "https://accounts.google.com/o/oauth2/v2/auth".
Definition SCOPE : text := lit "openid email profile".

Record PkceParams : Type := MkPkce { verifier : text; challenge : text; state : text; redirect_uri : text }.
Record TokenSet : Type := MkTokenSet { id_token : text; gt_access : text; gt_refresh : option text; expires_in : Z }.

(** [urlencode]: bytes that are not unreserved, as two upper-case digits. *)
Definition unreserved (b : Z) : bool :=
  ((65 <=? b) && (b <=? 90)) || ((97 <=? b) && (b <=? 122)) || ((48 <=? b) && (b <=? 57)) || bool_decide (b ∈ [45; 95; 46; 126]).
Definition encode_byte (b : byte) : text := if unreserved (byte_to_Z b) then [byte_to_Z b] else 37 :: Hibp.hex02 b.
Definition urlencode (s : text) : text := flat_map encode_byte (utf8 s).

Section pkce.
Context {P : CryptoPrims} {U : Base64Url}.
Definition generate (vb : arr 32) (sb : arr 16) (port : Z) : PkceParams :=
  let v := url_encode vb in
  MkPkce v (url_encode (sha256 (utf8 v))) (url_encode sb) (lit "http://127.0.0.1:" ++ show_dec port ++ lit "/callback").
End pkce.

(** The pairs of the query, in order. *)
Definition query_of (client_id : text) (p : PkceParams) : list (text * text) :=
  [(lit "client_id", client_id); (lit "response_type", lit "code"); (lit "redirect_uri", redirect_uri p); (lit "scope", SCOPE);
   (lit "code_challenge", challenge p); (lit "code_challenge_method", lit "S256"); (lit "state", state p);
   (lit "access_type", lit "offline"); (lit "prompt", lit "consent")].
Definition authorize_url (client_id : text) (p : PkceParams) : text :=
  AUTH_ENDPOINT ++ lit "?" ++ join (lit "&") (map (fun kv => kv.1 ++ lit "=" ++ urlencode kv.2) (query_of client_id p)).

(** The two traits. *)
Class BrowserOpener (S : Type) : Type := { open_browser : text -> ST S CoreError unit }.
Class TokenExchanger (S : Type) : Type := { exchange : text -> text -> text -> ST S CoreError TokenSet }.

Section flow.
Context {S : Type} {B : BrowserOpener S} {E : TokenExchanger S}.
Definition start (client_id : text) (p : PkceParams) : ST S CoreError unit := open_browser (authorize_url client_id p).
Definition complete (p : PkceParams) (returned_state code : text) : ST S CoreError TokenSet :=
  if negb (bool_decide (returned_state = state p)) then err (Crypto.Unauthorized "oauth state mismatch")
  else exchange code (verifier p) (redirect_uri p).
End flow.

(** The mocks of the source. *)
Definition MockBrowserOpener : BrowserOpener (option text) := {| open_browser url := fun _ => (Ok tt, Some url) |}.
Definition MockTokenExchanger (S : Type) (token : text) : TokenExchanger S := {|
  exchange code v _ :=
    if bool_decide (code = []) || bool_decide (v = []) then err (Crypto.Unauthorized "missing code or verifier")
    else ret (MkTokenSet token (lit "access-for-" ++ code) (Some (lit "refresh-fixture")) 3600) |}.

(** * The redirect, in [sync.rs] *)

Definition hex_val (b : Z) : option Z :=
  if (48 <=? b) && (b <=? 57) then Some (b - 48)
  else if (97 <=? b) && (b <=? 102) then Some (b - 97 + 10)
  else if (65 <=? b) && (b <=? 70) then Some (b - 65 + 10)
  else None.
Fixpoint unescape (l : list Z) : list Z :=
  match l with
  | [] => []
  | c :: tl =>
      if c =? 37 then
        match tl with
        | h :: tl' =>
            match tl' with
            | l :: rest =>
                match hex_val h, hex_val l with
                | Some h, Some l => Z.lor (Z.shiftl h 4) l :: unescape rest
                | _, _ => 37 :: unescape tl
                end
            | [] => 37 :: unescape tl
            end
        | [] => 37 :: unescape tl
        end
      else if c =? 43 then 32 :: unescape tl
      else c :: unescape tl
  end.
Definition percent_decode (s : text) : text :=
  let out := unescape (map byte_to_Z (utf8 s)) in Lossy.decode (length out) out.

Definition pair_of (p : text) : text * text := default (p, []) (split_once (chr "=") p).
Definition pairs_of (query : text) : list (text * text) := map pair_of (split (chr "&") query).
Record Redirect : Type := MkRedirect { rd_code : option text; rd_state : option text; rd_error : option text }.
Definition assign (r : Redirect) (kv : text * text) : Redirect :=
  let v := percent_decode kv.2 in
  if bool_decide (kv.1 = lit "code") then MkRedirect (Some v) (rd_state r) (rd_error r)
  else if bool_decide (kv.1 = lit "state") then MkRedirect (rd_code r) (Some v) (rd_error r)
  else if bool_decide (kv.1 = lit "error") then MkRedirect (rd_code r) (rd_state r) (Some v)
  else r.
(** The request line's target, and its query. *)
Definition target_of (request : bytes) : text :=
  let first := default [] (head (Hibp.lines (Lossy.from_utf8_lossy request))) in
  default [] (Generator.split_whitespace first !! 1%nat).
Definition redirect_of (request : bytes) : Redirect :=
  let query := match split_once (chr "?") (target_of request) with Some (_, q) => q | None => [] end in
  fold_left assign (pairs_of query) (MkRedirect None None None).

(** What is read of the one connection, at most 8192 bytes, and whether the page says signed in. *)
Definition callback_buffer : nat := 8192.
Definition handle_callback (read : result bytes text) : option bool * result (text * text) text :=
  match read with
  | Err e => (None, Err (lit "read callback: " ++ e))
  | Panic => (None, Panic)
  | Ok received =>
      let r := redirect_of (take callback_buffer received) in
      (Some (bool_decide (is_Some (rd_code r)) && negb (bool_decide (is_Some (rd_error r)))),
       match rd_error r with
       | Some e => Err (lit "Google denied sign-in: " ++ e)
       | None =>
           match rd_code r, rd_state r with
           | Some c, Some s => Ok (c, s)
           | None, _ => Err (lit "callback did not include an authorization code")
           | Some _, None => Err (lit "callback did not include a state value")
           end
       end)
  end.
(** What polling the listener gives until the deadline. *)
Inductive Accept : Type := WouldBlock | Stream (read : result bytes text) | AcceptError (e : text).
Fixpoint accept_callback (polls : list Accept) : result (text * text) text :=
  match polls with
  | [] => Err (lit "timed out waiting for the browser callback")
  | WouldBlock :: polls => accept_callback polls
  | Stream read :: _ => snd (handle_callback read)
  | AcceptError e :: _ => Err (lit "accept: " ++ e)
  end.

(** The loopback socket and Google's token endpoint. *)
Class GoogleNet (W : Type) : Type := {
  bind_loopback : ST W text Z;
  incoming : Z -> W -> list Accept * W;
  open_url : text -> ST W string unit;
  post_form : list (text * text) -> ST W string (Z * text);
}.

Definition GOOGLE_TOKEN_FORM (client_id : text) (secret : option text) (code v redirect : text) : list (text * text) :=
  [(lit "grant_type", lit "authorization_code"); (lit "code", code); (lit "code_verifier", v); (lit "client_id", client_id); (lit "redirect_uri", redirect)]
  ++ match secret with Some s => [(lit "client_secret", s)] | None => [] end.

Section net.
Context {W : Type} {G : GoogleNet W} {J : JsonText} {X : JsonMisfit} {P : CryptoPrims} {U : Base64Url}.

Definition token_of (v : Value) : option TokenSet :=
  match Js.struct_fields ["id_token"; "access_token"; "refresh_token"; "expires_in"] v with
  | Some [i; a; r; e] =>
      i ← Js.str i; a ← Js.str a; r ← Js.str_option r; e ← match e with None => Some 0 | e => Field.u64 e end; Some (MkTokenSet i a r e)
  | _ => None
  end.
#[export] Instance SystemBrowserOpener : BrowserOpener W := {|
  open_browser url := fun w => let '(r, w) := open_url url w in (map_err (Provision "browser") r, w) |}.
Definition HttpTokenExchanger (client_id : text) (secret : option text) : TokenExchanger W := {|
  exchange code v redirect := fun w =>
    match post_form (GOOGLE_TOKEN_FORM client_id secret code v redirect) w with
    | (Ok (status, body), w) =>
        if is_success status then
          (match from_str token_of body with inr t => Ok t | inl e => Err (Network e) end, w)
        else (Err (Provision "token" (to_string (lit "google token endpoint returned HTTP " ++ show_dec status ++ lit ": " ++ take 300 (trim body)))), w)
    | (Err e, w) => (Err (Network e), w)
    | (Panic, w) => (Panic, w)
    end |}.

Definition shown {A} (c : ST W CoreError A) : ST W text A := fun w => let '(r, w) := c w in (map_err (fun e => lit (display e)) r, w).
Definition run_pkce_flow (vb : arr 32) (sb : arr 16) (client_id : text) (secret : option text) : ST W text TokenSet :=
  let! port := (fun w => let '(r, w) := bind_loopback w in (map_err (app (lit "bind loopback: ")) r, w)) in
  let p := generate vb sb port in
  let! _ := shown (start client_id p) in
  let! polls := (fun w => let '(l, w) := incoming port w in (Ok l, w)) in
  let! cs := lift (accept_callback polls) in
  shown (complete (E := HttpTokenExchanger client_id secret) p cs.2 cs.1).
End net.

(** ** [auth_google_signin] *)

(** The e-mail shown: read off the token without looking at its signature. *)
Definition email_from_id_token {U : Base64Url} {J : JsonText} (id_token : text) : option text :=
  payload ← split (chr ".") id_token !! 1%nat;
  b ← url_decode (reverse (trim_start_char (chr "=") (reverse payload)));
  let s := Lossy.from_utf8_lossy b in
  match (if bool_decide (utf8 s = b) then json_parse s else inl "invalid utf-8"%string) with
  | inr v => Js.get (lit "email") v ≫= Js.as_str
  | inl _ => None
  end.

Record SigninOut : Type := MkSigninOut { so_email : text; so_totp_required : bool }.
Section signin.
Context {W : Type} {G : GoogleNet W} {J : JsonText} {X : JsonMisfit}.
Context {A : AuthLibs} {P : CryptoPrims} {B : Base64} {U : Base64Url}.
Variable cfg : Config.
Variables (rqs : nat -> Req) (dws : nat -> Draw).
Variable others : nat -> ApiDb.Srv -> ApiDb.Srv.
(** The server's check of an id_token. *)
Variable verify : text -> result routes.GoogleClaims ApiError.

Definition Both : Type := (Desk * W)%type.
Definition on_desk {T} (c : D T) : ST Both FlowErr T := fun s => let '(r, d) := c s.1 in (r, (d, s.2)).
Definition on_net {T} (c : ST W text T) : ST Both FlowErr T := fun s => let '(r, w) := c s.2 in (map_err (fun t => Told (to_string t)) r, (s.1, w)).

Definition with_email (e : option text) (c : SyncConfig) : SyncConfig :=
  MkSyncConfig (server_url c) (sc_google_client_id c) e (pinned_cert_pem c) (server_ip c).
Definition auth_google_signin (e : Env) (vb : arr 32) (sb : arr 16) : ST Both FlowErr SigninOut :=
  let! c := on_desk (Flow.get dk_config) in
  let! _ := on_desk (Flow.or_tell (non_blank (server_url c)) "set the sync server URL first") in
  let! client_id := on_desk (Flow.or_tell (non_blank (sc_google_client_id c)) "set the Google client id first") in
  let! secret := on_desk (Flow.get (fun d => kc_value (dk_gsecret d))) in
  let! tokens := on_net (run_pkce_flow vb sb client_id secret) in
  let email := default [] (email_from_id_token (id_token tokens)) in
  let! r := on_desk (Flow.bare rqs dws others (fun rq dw =>
              routes.auth_google cfg verify rq dw (id_token tokens) (MkDeviceReq (device_name e) (platform_str e)))) in
  let! gr := on_desk (Flow.http "sign-in rejected by server" r) in
  let! _ := on_desk (Flow.kc_set e gr.1 Flow.at_pending) in
  let! c := on_desk (Flow.get dk_config) in
  let! _ := on_desk (Flow.attempt (Flow.save_config e (with_email (if bool_decide (email = []) then None else Some email) c))) in
  ret (MkSigninOut email gr.2).
End signin.
End Google.
