(* ===== verification/GoogleClaims.v ===== *)
(** What the browser sign-in promises: an answer of the authorization server is read exactly as it was
    given, and only the answer to this very request is exchanged for tokens. *)
From S2P Require Import Prelude Bytes Text Crypto Floats Value Totp Toy RecoveryKit Keyring Model Envelope VaultStore Session AppLock Generator Health Passkey.
From S2P Require Import Csv Importers Provision Vpn NmHost VpnManager ApiDb ApiAuth ApiRoutes ApiDemo ApiFacts ApiClaims ApiVault SyncClient SyncFlows SettingsSync CrowdSec Watchdog Cloud Netdata Providers Servers Terminal GoogleAuth.
Local Open Scope Z_scope.
Import Google.

(** * Percent encoding *)

Definition query_char (c : Z) : Prop := unreserved c = true \/ c = 37.

(** Every byte, by evaluation. *)
Definition byte_checked (z : Z) : bool :=
  (if unreserved z then negb (z =? 37) && negb (z =? 43) && (33 <=? z) && (z <=? 126) && negb (bool_decide (z ∈ [38; 61; 63]))
   else unreserved (Hibp.hex_upper (z / 16)) && unreserved (Hibp.hex_upper (z mod 16))
        && bool_decide (hex_val (Hibp.hex_upper (z / 16)) = Some (z / 16)) && bool_decide (hex_val (Hibp.hex_upper (z mod 16)) = Some (z mod 16))
        && (Z.lor (Z.shiftl (z / 16) 4) (z mod 16) =? z)).
Lemma byte_check z : 0 <= z < 256 -> byte_checked z = true.
Proof.
  intros Hz. assert (H : forallb byte_checked (seqZ 0 256) = true) by (vm_compute; reflexivity). rewrite forallb_forall in H.
  apply H, list_elem_of_In, elem_of_seqZ. lia.
Qed.

Lemma unescape_byte b rest : unescape (encode_byte b ++ rest) = byte_to_Z b :: unescape rest.
Proof.
  pose proof (byte_check _ (byte_to_Z_range b)) as H. unfold byte_checked in H. unfold encode_byte, Hibp.hex02. destruct (unreserved (byte_to_Z b)); bools.
  - cbn. by rewrite (proj2 (Z.eqb_neq _ _)), (proj2 (Z.eqb_neq _ _)) by done.
  - cbn [app unescape]. change (37 =? 37) with true. cbv match. repeat match goal with E : hex_val _ = Some _ |- _ => rewrite E; clear E end. congruence.
Qed.

Lemma encode_byte_chars b : Forall query_char (encode_byte b).
Proof.
  pose proof (byte_check _ (byte_to_Z_range b)) as H. unfold byte_checked in H. unfold encode_byte, Hibp.hex02. destruct (unreserved (byte_to_Z b)) eqn:E; bools.
  - apply Forall_singleton. by left.
  - rewrite !Forall_cons. split_and!; [by right|by left..|done].
Qed.
Lemma query_char_range c : query_char c -> 33 <= c <= 126 /\ c ∉ [38; 61; 63].
Proof.
  intros [H| ->]; [|split; [lia|set_solver by lia]].
  assert (Hc : 0 <= c < 256).
  { unfold unreserved in H. rewrite !orb_true_iff, !andb_true_iff, !Z.leb_le, bool_decide_eq_true in H. destruct H as [[[H|H]|H]|H]; [lia..|].
    repeat (apply elem_of_cons in H as [-> | H]; [lia|]). by apply not_elem_of_nil in H. }
  pose proof (byte_check c Hc) as Hb. unfold byte_checked in Hb. rewrite H in Hb. bools. split; [lia|done].
Qed.

Lemma urlencode_chars s : Forall query_char (urlencode s).
Proof. unfold urlencode. induction (utf8 s) as [|b l IH]; cbn; [constructor|]. apply Forall_app. split; [apply encode_byte_chars|done]. Qed.
Lemma chars_ascii l : Forall query_char l -> Forall is_ascii l.
Proof. intros H. eapply Forall_impl; [exact H|]. intros c Hc%query_char_range. unfold is_ascii. lia. Qed.
Lemma ascii_bytes l : Forall is_ascii l -> map byte_to_Z (utf8 l) = l.
Proof.
  intros H. rewrite utf8_ascii by done. induction H as [|c l Hc _ IH]; [done|]. cbn. rewrite IH. f_equal. unfold is_ascii in Hc. rewrite byte_to_of_Z, Z.mod_small; lia.
Qed.

(** What is encoded is decoded to itself. *)
Lemma escape_round_trip s : Forall Lossy.scalar s -> percent_decode (urlencode s) = s.
Proof.
  intros Hs. unfold percent_decode. rewrite ascii_bytes by (apply chars_ascii, urlencode_chars).
  assert (E : forall l, unescape (flat_map encode_byte l) = map byte_to_Z l) by (induction l as [|b l IH]; [done|]; cbn; by rewrite unescape_byte, IH).
  unfold urlencode. rewrite E, length_map. by apply Lossy.from_utf8_lossy_utf8.
Qed.

(** * The redirect *)

Inductive Field : Type := FCode | FState | FError.
Definition key_of (f : Field) : text := match f with FCode => lit "code" | FState => lit "state" | FError => lit "error" end.
Definition field (f : Field) (r : Redirect) : option text := match f with FCode => rd_code r | FState => rd_state r | FError => rd_error r end.

Lemma assign_field f r kv : field f (assign r kv) = if bool_decide (kv.1 = key_of f) then Some (percent_decode kv.2) else field f r.
Proof.
  unfold assign. destruct f; cbn [key_of field]; repeat case_bool_decide; try done; try congruence;
    match goal with H : ?x = lit _, H' : ?x = lit _ |- _ => rewrite H in H'; discriminate H' end.
Qed.
Lemma assigned_absent f l r : key_of f ∉ map fst l -> field f (fold_left assign l r) = field f r.
Proof.
  revert r; induction l as [|kv l IH]; intros r Hn; [done|]. cbn [fold_left map] in *. apply not_elem_of_cons in Hn as [H1 H2].
  by rewrite IH, assign_field, bool_decide_false.
Qed.
Lemma assigned f l r v : NoDup (map fst l) -> (key_of f, v) ∈ l -> field f (fold_left assign l r) = Some (percent_decode v).
Proof.
  revert r; induction l as [|kv l IH]; intros r Hn Hin; [by apply not_elem_of_nil in Hin|]. cbn [fold_left map] in *. apply NoDup_cons in Hn as [H1 H2].
  apply elem_of_cons in Hin as [<-|Hin]; [|by apply IH]. rewrite assigned_absent by done. by rewrite assign_field, bool_decide_true.
Qed.

(** A query as it is written. *)
Definition written (pairs : list (text * text)) : text := join (lit "&") (map (fun kv => kv.1 ++ lit "=" ++ urlencode kv.2) pairs).
Definition clean (pairs : list (text * text)) : Prop := Forall (fun kv => Forall query_char kv.1) pairs.

Lemma query_no c l : Forall query_char l -> c ∈ [38; 61; 63] -> c ∉ l.
Proof. intros Hl Hc Hin. by apply (proj1 (Forall_forall _ _) Hl) in Hin as [_ Hn]%query_char_range. Qed.

Lemma pairs_read pairs : pairs <> [] -> clean pairs -> pairs_of (written pairs) = map (fun kv => (kv.1, urlencode kv.2)) pairs.
Proof.
  intros Hne Hc. unfold pairs_of, written. change (lit "&") with [chr "&"]. rewrite split_join.
  - rewrite map_map. apply map_ext_in. intros [k v] Hin%list_elem_of_In. apply (proj1 (Forall_forall _ _) Hc) in Hin. unfold pair_of. cbn [fst snd].
    change (lit "=" ++ urlencode v) with (chr "=" :: urlencode v). by rewrite split_once_app by (apply (query_no _ _ Hin); set_solver).
  - by destruct pairs.
  - apply Forall_fmap. eapply Forall_impl; [exact Hc|]. intros [k v] Hk. cbn. intros Hin. apply elem_of_app in Hin as [Hin|Hin].
    + by apply (query_no (chr "&") k Hk); [set_solver|].
    + apply elem_of_cons in Hin as [Hin|Hin]; [done|]. by apply (query_no (chr "&") _ (urlencode_chars v)); [set_solver|].
Qed.

Lemma join_Forall (Q : Z -> Prop) sep l : Forall Q sep -> Forall (Forall Q) l -> Forall Q (join sep l).
Proof. intros Hs. induction 1 as [|x l Hx Hl IH]; [constructor|]. cbn. destruct l; [done|]. by rewrite !Forall_app. Qed.
Lemma written_visible pairs : clean pairs -> Forall (fun c => 33 <= c <= 126) (written pairs).
Proof.
  intros Hc. apply join_Forall; [by apply Forall_singleton|]. apply Forall_fmap. eapply Forall_impl; [exact Hc|]. intros [k v] Hk. cbn.
  assert (Hq : forall l, Forall query_char l -> Forall (fun c => 33 <= c <= 126) l) by (intros l Hl; eapply Forall_impl; [exact Hl|]; intros c []%query_char_range; done).
  apply Forall_app. split; [by apply Hq|]. constructor; [done|]. apply Hq, urlencode_chars.
Qed.

(** A word and what follows it. *)
Lemma words_word w word rest : Forall (fun c => is_whitespace c = false) w -> (word <> [] \/ w <> []) ->
  Generator.words_of word (w ++ 32 :: rest) = (reverse word ++ w) :: Generator.words_of [] rest.
Proof.
  revert word; induction w as [|c w IH]; intros word Hw Hne; cbn.
  - destruct word; [by destruct Hne|]. by rewrite app_nil_r.
  - apply Forall_cons in Hw as [Hc Hw]. rewrite Hc, IH by (done || by left). by rewrite reverse_cons, <- app_assoc.
Qed.

Lemma visible_no_space l : Forall (fun c => 33 <= c <= 126) l -> Forall (fun c => is_whitespace c = false) l.
Proof. intros H. eapply Forall_impl; [exact H|]. intros c Hc. cbn beta in *. apply not_true_is_false. unfold is_whitespace. rewrite !orb_true_iff, !andb_true_iff, !Z.eqb_eq, !Z.leb_le. lia. Qed.

(** The request of a browser that follows a redirect to the loopback address. *)
Definition request (pairs : list (text * text)) (rest : text) : text :=
  lit "GET /callback?" ++ written pairs ++ lit " HTTP/1.1" ++ [13; 10] ++ rest.

Lemma second_word a b c rest : Forall (fun x => 33 <= x <= 126) (a :: b) -> Forall (fun x => 33 <= x <= 126) c -> c <> [] ->
  Generator.split_whitespace ((a :: b) ++ 32 :: c ++ 32 :: rest) !! 1%nat = Some c.
Proof.
  intros Ha Hc Hne. unfold Generator.split_whitespace. rewrite words_word; [|by apply visible_no_space|by right]. cbn [lookup list_lookup].
  by rewrite words_word; [|apply visible_no_space|right].
Qed.

Lemma target_read pairs rest : clean pairs -> Forall Lossy.scalar rest -> target_of (utf8 (request pairs rest)) = lit "/callback?" ++ written pairs.
Proof.
  intros Hc Hr. pose proof (written_visible _ Hc) as Hv. set (target := lit "/callback?" ++ written pairs).
  assert (Ht : Forall (fun x => 33 <= x <= 126) target) by (apply Forall_app; split; [by apply (bool_decide_unpack _); vm_compute|done]).
  assert (E : request pairs rest = ([71; 69; 84] ++ 32 :: target ++ 32 :: lit "HTTP/1.1") ++ [13; 10] ++ rest).
  { unfold request, target. rewrite <- !app_assoc. cbn [app]. by rewrite <- !app_assoc. }
  assert (Hline : 10 ∉ [71; 69; 84] ++ 32 :: target ++ 32 :: lit "HTTP/1.1").
  { intros Hin. apply elem_of_app in Hin as [Hin|Hin]; [set_solver|]. apply elem_of_cons in Hin as [|Hin]; [done|].
    apply elem_of_app in Hin as [Hin|Hin]; [apply (proj1 (Forall_forall _ _) Ht) in Hin; lia|set_solver]. }
  unfold target_of. rewrite Lossy.from_utf8_lossy_utf8.
  - rewrite E, Health.lines_crlf by done. change (head (?x :: ?l)) with (Some x). cbn [default].
    match goal with |- default _ ?x = _ => assert (E2 : x = Some target); [|by rewrite E2] end.
    by apply (second_word 71 [69; 84]); [repeat constructor| |].
  - rewrite E. apply Forall_app. split; [|apply Forall_app; split; [rewrite !Forall_cons; split_and!; [left; lia..|constructor]|done]].
    assert (Hs : forall l, Forall (fun x => 33 <= x <= 126) l -> Forall Lossy.scalar l) by (intros l Hl; eapply Forall_impl; [exact Hl|]; intros x Hx; left; cbn in Hx; lia).
    apply Forall_app. split; [apply Hs; by repeat constructor|]. constructor; [left; lia|]. apply Forall_app. split; [by apply Hs|].
    constructor; [left; lia|]. apply Hs. by repeat constructor.
Qed.

(** The answer of the authorization server is read as it was given. Whatever code and state it
    sends back, among other parameters and in any order, in a request that fits the buffer, the
    listener hands on exactly that code and that state, and shows the page of success. *)
Theorem callback_read_exactly pairs rest code st :
  clean pairs -> NoDup (map fst pairs) -> (lit "code", code) ∈ pairs -> (lit "state", st) ∈ pairs -> lit "error" ∉ map fst pairs ->
  Forall Lossy.scalar code -> Forall Lossy.scalar st -> Forall Lossy.scalar rest ->
  (length (utf8 (request pairs rest)) <= callback_buffer)%nat ->
  handle_callback (Ok (utf8 (request pairs rest))) = (Some true, Ok (code, st)).
Proof.
  intros Hc Hn Hcode Hst Herr Hsc Hss Hsr Hlen. unfold handle_callback. rewrite take_ge by done. unfold redirect_of. rewrite target_read by done.
  change (lit "/callback?" ++ written pairs) with (lit "/callback" ++ chr "?" :: written pairs). rewrite split_once_app by set_solver.
  rewrite pairs_read by (by (destruct pairs; [by apply not_elem_of_nil in Hcode|])). set (l := map _ pairs).
  assert (Hk : map fst l = map fst pairs) by (unfold l; by rewrite map_map).
  assert (Hin : forall k v, (k, v) ∈ pairs -> (k, urlencode v) ∈ l) by (intros k v H; apply list_elem_of_fmap; by exists (k, v)).
  set (r := fold_left assign l _).
  assert (E1 : rd_code r = Some code) by (rewrite <- (escape_round_trip code Hsc); apply (assigned FCode); [by rewrite Hk|by apply Hin]).
  assert (E2 : rd_state r = Some st) by (rewrite <- (escape_round_trip st Hss); apply (assigned FState); [by rewrite Hk|by apply Hin]).
  assert (E3 : rd_error r = None) by (apply (assigned_absent FError); by rewrite Hk).
  by rewrite E1, E2, E3.
Qed.

(** * The flow *)

Section flow.
Context {W : Type} {G : GoogleNet W} {J : JsonText} {X : JsonMisfit} {P : CryptoPrims} {U : Base64Url}.

(** Only the answer to this request is exchanged. Once the browser has been sent to the
    authorization server, a callback with any state but the one drawn for this attempt ends the
    sign-in with nothing sent to the token endpoint; the one with that state sends its code together
    with the verifier whose digest the browser was sent out with. *)
Theorem forged_callback_refused vb sb client_id secret w port w1 w2 polls w3 :
  bind_loopback w = (Ok port, w1) ->
  let p := generate vb sb port in
  open_url (authorize_url client_id p) w1 = (Ok tt, w2) -> incoming port w2 = (polls, w3) ->
  challenge p = url_encode (sha256 (utf8 (verifier p)))
  /\ match accept_callback polls with
     | Ok (code, st) =>
         if bool_decide (st = state p)
         then run_pkce_flow vb sb client_id secret w = shown (exchange (TokenExchanger := HttpTokenExchanger client_id secret) code (verifier p) (redirect_uri p)) w3
         else run_pkce_flow vb sb client_id secret w = (Err (lit (display (Crypto.Unauthorized "oauth state mismatch"))), w3)
     | Err e => run_pkce_flow vb sb client_id secret w = (Err e, w3)
     | Panic => run_pkce_flow vb sb client_id secret w = (Panic, w3)
     end.
Proof.
  intros Hb p Ho Hi. split; [done|].
  assert (E : run_pkce_flow vb sb client_id secret w
    = mbind (lift (accept_callback polls)) (fun cs => shown (complete (E := HttpTokenExchanger client_id secret) p cs.2 cs.1)) w3).
  { unfold run_pkce_flow. unfold mbind at 1. rewrite Hb. cbn [map_err]. unfold mbind at 1, shown at 1, start, open_browser, SystemBrowserOpener.
    fold p. rewrite Ho. cbn [map_err]. unfold mbind at 1. by rewrite Hi. }
  rewrite E. unfold mbind, lift. destruct (accept_callback polls) as [[code st]|e|]; [|done..]. cbn [fst snd]. unfold complete.
  case_bool_decide; done.
Qed.
End flow.

(** * A redirect, and a forged one *)

Module GoogleDemo.
#[local] Existing Instances toy_prims toy_base64url.
(** The callback that arrives, and the forms posted to the token endpoint. *)
Record world : Type := MkWorld { callback : bytes; posted : list (list (text * text)) }.
#[export] Instance net : GoogleNet world := {|
  bind_loopback := ret 4711;
  incoming _ w := ([WouldBlock; Stream (Ok (callback w))], w);
  open_url _ := ret tt;
  post_form f := fun w => (Ok (400, lit "invalid_grant"), MkWorld (callback w) (posted w ++ [f])) |}.
#[export] Instance json : JsonText := {| json_parse _ := inl "syntax"%string |}.
#[export] Instance misfits : JsonMisfit := {| misfit _ := "type"%string |}.

Definition pairs : list (text * text) := [(lit "state", lit "x y&z"); (lit "code", lit "4/0Ab=" ++ [233]); (lit "scope", lit "openid email")].
Definition headers : text := lit "Host: 127.0.0.1:4711" ++ [13; 10; 13; 10].

Lemma callback_read_exactly_witness :
  handle_callback (Ok (utf8 (request pairs headers))) = (Some true, Ok (lit "4/0Ab=" ++ [233], lit "x y&z")).
Proof.
  assert (Hs : forall l, forallb (fun c => (0 <=? c) && (c <? 55296)) l = true -> Forall Lossy.scalar l).
  { intros l Hl. apply Forall_forall. intros c Hc%list_elem_of_In. rewrite forallb_forall in Hl. specialize (Hl c Hc). left. bools. lia. }
  apply callback_read_exactly.
  - repeat constructor; left; vm_compute; reflexivity.
  - apply (bool_decide_unpack _). vm_compute. exact I.
  - right. left.
  - left.
  - apply (bool_decide_unpack _). vm_compute. exact I.
  - apply Hs. vm_compute. reflexivity.
  - apply Hs. vm_compute. reflexivity.
  - apply Hs. vm_compute. reflexivity.
  - apply (bool_decide_unpack _). vm_compute. exact I.
Defined.

(** A callback with a state of the attacker's choice: nothing is posted. *)
Lemma forged_callback_refused_witness :
  let w := MkWorld (utf8 (request pairs headers)) [] in
  exists e w', run_pkce_flow (arr_fill 32 Byte.x01) (arr_fill 16 Byte.x02) (lit "client") None w = (Err e, w') /\ posted w' = [].
Proof.
  cbn zeta. set (w := MkWorld _ _). set (p := generate (arr_fill 32 Byte.x01) (arr_fill 16 Byte.x02) 4711).
  destruct (forged_callback_refused (arr_fill 32 Byte.x01) (arr_fill 16 Byte.x02) (lit "client") None w 4711 w w [WouldBlock; Stream (Ok (callback w))] w) as [_ H];
    [reflexivity|reflexivity|reflexivity|].
  assert (E : accept_callback [WouldBlock; Stream (Ok (callback w))] = Ok (lit "4/0Ab=" ++ [233], lit "x y&z")) by (vm_compute; reflexivity).
  rewrite E in H. fold p in H. assert (Hne : lit "x y&z" <> state p) by (vm_compute; discriminate). rewrite bool_decide_false in H by exact Hne.
  eexists _, w. split; [exact H|reflexivity].
Defined.
(** The first connection is taken for the redirect whatever it asks for: a browser that fetches another
    path first ends the sign-in, and the redirect that follows is never read. *)
Lemma stray_connection_ends_signin rest :
  accept_callback (Stream (Ok (utf8 (lit "GET /favicon.ico HTTP/1.1" ++ [13; 10]))) :: Stream (Ok (utf8 (request pairs headers))) :: rest)
  = accept_callback [Stream (Ok (utf8 (lit "GET /favicon.ico HTTP/1.1" ++ [13; 10])))]
  /\ forall x, accept_callback [Stream (Ok (utf8 (lit "GET /favicon.ico HTTP/1.1" ++ [13; 10])))] <> Ok x.
Proof. split; [done|]. vm_compute. discriminate. Qed.
End GoogleDemo.
