(* ===== verification/SyncServer.v ===== *)
(** [sync.rs], the one-click sync server and what the Devices screen asks of it, with the rendering of
    the server's cloud-init in [provision/cloudinit.rs]: deploying a node and signing in to it,
    destroying it, its status, the devices and the attack monitor, and the first contact with a
    server. The site is a desk with the record of the deployed server, the Linode token and the
    account at the provider. *)
From S2P Require Import Prelude Bytes Text Crypto Floats Value Totp Toy RecoveryKit Keyring Model Envelope VaultStore Session AppLock Generator Health Passkey.
From S2P Require Import Csv Importers Template CloudTemplates Provision Vpn NmHost VpnManager ApiDb ApiAuth ApiRoutes ApiDemo ApiFacts ApiClaims ApiVault SyncClient SyncFlows SettingsSync CrowdSec Watchdog Cloud Netdata Providers.
Local Open Scope Z_scope.

(** * [render_sync] *)

Record SyncServerParams : Type := MkSyncServerParams {
  image_ref : text; bootstrap_token : text; db_password : text; tls_cert_b64 : text; tls_key_b64 : text; totp_enc_key : text; sp_google_client_id : text }.

Record SyncServerRecord : Type := MkServerRecord { instance_id : text; sr_ipv4 : text; sr_type : text; sr_region : text; sr_created_at : Z }.

Record Site (W : Type) : Type := MkSite {
  st_desk : Desk;
  st_record : option SyncServerRecord;
  st_linode : option text;
  st_world : W;
  st_stages : list string;
}.
Arguments MkSite {W}. Arguments st_desk {W}. Arguments st_record {W}. Arguments st_linode {W}. Arguments st_world {W}. Arguments st_stages {W}.

Module Deploy.
Section render.
Context {T : Templates} {B : Base64}.
Definition sync_context (p : SyncServerParams) : list (string * JVal) :=
  [("image_ref", JText (image_ref p)); ("bootstrap_token", JText (bootstrap_token p)); ("db_password", JText (db_password p));
   ("tls_cert_b64", JText (tls_cert_b64 p)); ("tls_key_b64", JText (tls_key_b64 p)); ("totp_enc_key", JText (totp_enc_key p));
   ("google_client_id", JText (sp_google_client_id p))].
Definition render_sync (p : SyncServerParams) : Result text :=
  let? _ := CloudInit.added "sync" SYNC_TEMPLATE in
  of_sum (Provision "render") (template_render SYNC_TEMPLATE (sync_context p)).
Definition render_sync_base64 (p : SyncServerParams) : Result text := let? t := render_sync p in Ok (b64_encode (utf8 t)).
End render.

(** [cert_fingerprint]: eight bytes of the digest of the DER, in groups of two. *)
Section cert.
Context {P : CryptoPrims} {B : Base64}.
Definition pem_body (pem : text) : text :=
  concat (List.filter (fun l => negb (starts_with (lit "-----") l) && negb (bool_decide (trim l = []))) (Hibp.lines pem)).
Definition cert_fingerprint (pem : text) : option text :=
  der ← b64_decode (pem_body pem);
  Some (join (lit "-") (map (fun g => concat (map Hibp.hex02 g)) (chunks 2 (take 8 (arr_bytes (sha256 der)))))).
End cert.

(** What one command draws and meets: the desk's [Env], whether the record can be written, the random
    bytes, the certificate, and the answers of the health checks. *)
Record DeployEnv : Type := MkDeployEnv {
  de : Env;
  record_ok : bool;
  image_env : option text;
  draw_token : arr 32;
  draw_db : arr 16;
  draw_totp : arr 32;
  certified : text + (text * text);
  healthz : nat -> bool;
}.
Definition sync_image_ref (env : option text) : text := default (lit "ghcr.io/taco406/sentinel-api:latest") (non_empty env).

Record SyncServerStatusOut : Type := MkServerStatus { ss_deployed : bool; ss_ipv4 : option text; ss_live : option InstanceState.t; ss_hourly : f64; ss_monthly : f64 }.
Record DeviceOut : Type := MkDeviceOut { do_id : Uuid; do_name : text; do_platform : text; do_status : DeviceStatus.t; do_created_at : Z; do_current : bool }.
Record SyncStatusOut : Type := MkSyncStatus {
  so_server_url : option text; so_google_client_id : option text; so_google_secret_set : bool; so_signed_in : bool;
  so_mail : option text; so_server_ip : option text; so_cert_fingerprint : option text }.

Section ops.
(** The client of the stored token is the provider. *)
Context {W : Type} {C : CloudProvider W}.
Context {A : AuthLibs} {P : CryptoPrims} {B : Base64} {BU : Base64Url} {SD : Json VaultDocument.t} {ZS : Zstd} {T : Templates}.
Variable cfg : Config.
Variables (rqs : nat -> Req) (dws : nat -> Draw) (nonces : nat -> Nonce24).
Variable others : nat -> ApiDb.Srv -> ApiDb.Srv.

Definition S_ (X : Type) : Type := ST (Site W) FlowErr X.
Definition set_desk (d : Desk) (s : Site W) : Site W := MkSite d (st_record s) (st_linode s) (st_world s) (st_stages s).
Definition set_record (r : option SyncServerRecord) (s : Site W) : Site W := MkSite (st_desk s) r (st_linode s) (st_world s) (st_stages s).
Definition set_w (w : W) (s : Site W) : Site W := MkSite (st_desk s) (st_record s) (st_linode s) w (st_stages s).
Definition get {X} (f : Site W -> X) : S_ X := fun s => (Ok (f s), s).
Definition desk {X} (c : D X) : S_ X := fun s => let '(r, d) := c (st_desk s) in (r, set_desk d s).
Definition at_cloud {X} (c : ST W CoreError X) : S_ X := fun s => let '(r, w) := c (st_world s) in (map_err FromCore r, set_w w s).
(** [let _ = ...], [if let Ok(..) = ...]. *)
Definition attempt {X} (c : S_ X) : S_ (option X) := fun s =>
  match c s with (Ok x, s) => (Ok (Some x), s) | (Err _, s) => (Ok None, s) | (Panic, s) => (Panic, s) end.
Definition emit_deploy (stage : string) : S_ unit := fun s => (Ok tt, MkSite (st_desk s) (st_record s) (st_linode s) (st_world s) (st_stages s ++ [stage])).
Definition tell {X} (m : string) : S_ X := err (Told m).

Definition linode_token : S_ (option text) := get (fun s => kc_value (st_linode s)).
Definition save_server_record (e : DeployEnv) (r : SyncServerRecord) : S_ unit := fun s =>
  if record_ok e then (Ok tt, set_record (Some r) s) else (Err (Told "write sync-server.json"), s).
(** A failure to remove the file is ignored. *)
Definition delete_server_record (e : DeployEnv) : S_ unit := fun s => (Ok tt, if record_ok e then set_record None s else s).

(** Up to twenty looks at the node until it has an address. *)
Fixpoint poll_ip (n : nat) (id : text) (ip : option text) : S_ (option text) :=
  match n with
  | O => ret ip
  | S n =>
      match non_empty ip with
      | Some _ => ret ip
      | None => let! cur := attempt (at_cloud (Vpn.get id)) in poll_ip n id (match cur with Some i => ipv4 i | None => ip end)
      end
  end.

Definition with_server (url ip cert gclient : option text) (c : SyncConfig) : SyncConfig := MkSyncConfig url gclient (sc_email c) cert ip.

(** The app is wired to the server, which is then waited for and signed in to. *)
Definition connect_deployed (e : DeployEnv) (gclient : option text) (cert ip : text) : S_ unit :=
  let! c := desk (Flow.get dk_config) in
  let! _ := desk (Flow.save_config (de e) (with_server (Some pinned_url) (Some ip) (Some cert) gclient c)) in
  let! _ := desk (Flow.kc_set (de e) (Callback.hex_encode (draw_token e)) Flow.at_bootstrap) in
  let! _ := emit_deploy "provisioning" in
  require existsb (healthz e) (seq 0 80) else Told "the server didn't answer its health check in time." in
  match gclient with
  | Some _ => emit_deploy "ready"
  | None =>
      let! _ := emit_deploy "connecting" in
      let! _ := desk (Flow.bootstrap_signin cfg rqs dws others (de e)) in
      let! _ := desk (Flow.try_push_vault cfg rqs dws nonces others) in
      emit_deploy "ready"
  end.
(** Once the node exists: its address, its record, and the rest. *)
Definition settle (e : DeployEnv) (gclient : option text) (cert itype region : text) (inst : Instance_t) : S_ unit :=
  let! ip := poll_ip 20 (inst_id inst) (ipv4 inst) in
  match non_empty ip with
  | None =>
      let! _ := attempt (at_cloud (Vpn.delete (inst_id inst))) in
      tell "the server never reported an IP; it was destroyed"
  | Some ip =>
      let! _ := save_server_record e (MkServerRecord (inst_id inst) ip itype region (now_unix (de e))) in
      connect_deployed e gclient cert ip
  end.
Definition deploy_params (e : DeployEnv) (gclient : option text) (cert key : text) : SyncServerParams :=
  MkSyncServerParams (sync_image_ref (image_env e)) (Callback.hex_encode (draw_token e)) (Callback.hex_encode (draw_db e))
    (b64_encode (utf8 cert)) (b64_encode (utf8 key)) (b64_encode (draw_totp e)) (default [] gclient).
Definition sync_deploy (e : DeployEnv) (region : text) (instance_type google_client_id google_client_secret : option text) : S_ unit :=
  let! r := get st_record in
  require negb (bool_decide (is_Some r)) else Told "a sync server is already deployed — destroy it first" in
  let! t := linode_token in
  let! _ := lift (ok_or t (Told "set a Linode API token first (Settings → Real VPN) — the deploy reuses it")) in
  let itype := default (lit "g6-nanode-1") instance_type in
  let gclient := trim <$> non_blank google_client_id in
  let! _ := (match gclient, trim <$> non_blank google_client_secret with
             | Some _, Some secret => desk (Flow.kc_set (de e) secret Flow.at_gsecret)
             | _, _ => ret tt
             end) in
  let! _ := emit_deploy "creating" in
  let! ck := lift (match certified e with inl t => Err (Told (to_string (lit "generate cert: " ++ t))) | inr ck => Ok ck end) in
  let! user_data := lift (map_err FromCore (render_sync_base64 (deploy_params e gclient ck.1 ck.2))) in
  let! _ := emit_deploy "creating" in
  let! inst := at_cloud (create (MkInstanceSpec region itype user_data (lit "sentinel-sync") [SYNC_TAG])) in
  settle e gclient ck.1 itype region inst.

Definition sync_server_destroy (e : DeployEnv) : S_ unit :=
  let! r := get st_record in
  let! t := linode_token in
  let! _ := (match r, t with
             | Some rec, Some _ => let! _ := attempt (at_cloud (Vpn.delete (instance_id rec))) in ret tt
             | _, _ => ret tt
             end) in
  let! _ := delete_server_record e in
  let! c := desk (Flow.get dk_config) in
  let! _ := desk (Flow.save_config (de e) (MkSyncConfig None (sc_google_client_id c) None None None)) in
  let! _ := desk (Flow.kc_del (de e) Flow.at_bootstrap) in
  let! _ := desk (Flow.kc_del (de e) Flow.at_access) in
  let! _ := desk (Flow.kc_del (de e) Flow.at_refresh) in
  let! _ := desk (Flow.kc_del (de e) Flow.at_pending) in
  desk (Flow.kc_del (de e) Flow.at_gsecret).

Definition sync_server_status : S_ SyncServerStatusOut :=
  let! r := get st_record in
  match r with
  | None => ret (MkServerStatus false None None F64.zero F64.zero)
  | Some rec =>
      let! t := linode_token in
      let! _ := lift (ok_or t (Told "no Linode token configured")) in
      let hourly := Li.price_per_hour (sr_type rec) in
      let! live := attempt (at_cloud (Vpn.get (instance_id rec))) in
      ret (MkServerStatus true (Some (sr_ipv4 rec)) (inst_state <$> live) hourly (F64.mul (F64.mul hourly (F64.of_Z 24)) (F64.of_Z 30)))
  end.

(** ** Devices and the attack monitor *)

Definition sync_status (s : Site W) : SyncStatusOut :=
  let d := st_desk s in let c := dk_config d in
  MkSyncStatus (server_url c) (sc_google_client_id c) (bool_decide (is_Some (kc_value (dk_gsecret d)))) (bool_decide (is_Some (kc_value (dk_access d))))
    (sc_email c) (server_ip c) (pinned_cert_pem c ≫= cert_fingerprint).

Definition asked {X} (what : string) (f : Req -> Draw -> Auth -> M X) : D X :=
  let! _ := Flow.api_for in
  let! r := Flow.api (Api.authed cfg rqs dws others f) in
  Flow.http what r.
Definition sync_devices : D (list DeviceOut) :=
  let! l := asked "list devices" (fun _ _ a => routes.devices_list a) in
  ret (map (fun i => MkDeviceOut (routes.di_id i) (dev_name (routes.di_device i)) (dev_platform (routes.di_device i)) (dev_status (routes.di_device i))
                       (routes.di_created_at i) (routes.di_current i)) l).
Definition sync_device_revoke (id : Uuid) : D unit := asked "revoke device" (fun rq _ a => routes.device_revoke rq a id).
Definition sync_security_events (since : option Z) : D (list SecurityEvent) := asked "security events" (fun _ _ _ => routes.security_events_list since None).
Definition sync_security_summary : D (list (string * nat) * nat * bool) := asked "security summary" (fun rq _ _ => routes.security_summary cfg rq).
Definition sync_ban_ip (ip : text) (minutes : option Z) : D unit := asked "block IP" (fun rq _ a => routes.security_ban rq a ip minutes).
Definition sync_unban_ip (ip : text) : D unit := asked "unblock IP" (fun _ _ a => routes.security_unban a ip).
End ops.
End Deploy.
