(* ===== verification/SyncServerClaims.v ===== *)
(** What deploying and destroying a sync server promise: a node that was created is on record, and
    destroying the server stops its billing. *)
From S2P Require Import Prelude Bytes Text Crypto Floats Value Totp Toy RecoveryKit Keyring Model Envelope VaultStore Session AppLock Generator Health Passkey.
From S2P Require Import Csv Importers Template Provision Vpn NmHost VpnManager ApiDb ApiAuth ApiRoutes ApiDemo ApiFacts ApiClaims ApiVault SyncClient SyncFlows SettingsSync CrowdSec Watchdog Cloud Netdata Providers SyncServer.
From S2P Require Import SyncFlowClaims.
Local Open Scope Z_scope.
Import Deploy.

Section claims.
Context {W : Type} {C : CloudProvider W} {L : CloudLaws W}.
Context {A : AuthLibs} {P : CryptoPrims} {B : Base64} {BU : Base64Url} {SD : Json VaultDocument.t} {ZS : Zstd} {T : Templates}.
Variable cfg : Config.
Variables (rqs : nat -> Req) (dws : nat -> Draw) (nonces : nat -> Nonce24).
Variable others : nat -> ApiDb.Srv -> ApiDb.Srv.
Implicit Type s : Site W.

(** The same nodes, record and token. *)
Definition still s s' : Prop :=
  (cloud_ok (st_world s) -> cloud_ok (st_world s')) /\ (cloud_ok (st_world s) -> forall x, node (st_world s') x = node (st_world s) x)
  /\ st_record s' = st_record s /\ st_linode s' = st_linode s.
Definition calm {X} (c : S_ (W := W) X) : Prop := forall s r s', c s = (r, s') -> still s s'.
Lemma still_refl s : still s s.
Proof. by repeat split. Qed.
Lemma still_trans s1 s2 s3 : still s1 s2 -> still s2 s3 -> still s1 s3.
Proof.
  intros (O1 & N1 & R1 & L1) (O2 & N2 & R2 & L2). split; [by auto|]. split; [|split; congruence]. intros Ho x. rewrite N2 by auto. by apply N1.
Qed.
Lemma site_ret {X} (x : X) : calm (ret x).
Proof. intros s r s' [= <- <-]. apply still_refl. Qed.
Lemma site_err {X} e : calm (X := X) (err e).
Proof. intros s r s' [= <- <-]. apply still_refl. Qed.
Lemma site_lift {X} (x : result X FlowErr) : calm (lift x).
Proof. intros s r s' [= <- <-]. apply still_refl. Qed.
Lemma site_get {X} (f : Site W -> X) : calm (get f).
Proof. intros s r s' [= <- <-]. apply still_refl. Qed.
Lemma site_desk {X} (c : D X) : calm (desk c).
Proof. intros s r s'. unfold desk. destruct (c (st_desk s)). intros [= <- <-]. by repeat split. Qed.
Lemma site_emit st : calm (emit_deploy (W := W) st).
Proof. intros s r s' [= <- <-]. by repeat split. Qed.
Lemma site_bind {X Y} (c : S_ (W := W) X) (k : X -> S_ (W := W) Y) : calm c -> (forall x, calm (k x)) -> calm (mbind c k).
Proof.
  intros Hc Hk s r s'. unfold mbind. destruct (c s) as [[x|e|] s1] eqn:E; pose proof (Hc _ _ _ E); [|by intros [= <- <-]..].
  intros E'. eapply still_trans; [done|]. by apply (Hk _ _ _ _ E').
Qed.
Lemma site_attempt {X} (c : S_ (W := W) X) : calm c -> calm (attempt c).
Proof. intros Hc s r s'. unfold attempt. destruct (c s) as [[x|e|] s1] eqn:E; intros [= <- <-]; by apply (Hc _ _ _ E). Qed.
Lemma site_look id : calm (at_cloud (Vpn.get id)).
Proof.
  intros s r s'. unfold at_cloud. destruct (Vpn.get id (st_world s)) as [r0 w] eqn:E. intros [= <- <-].
  split; [|split; [|done]]; intros Ho; apply (get_spec id _ _ _ Ho) in E as (Ho' & Hn & _); [done|]. intros x. apply Hn.
Qed.
Create HintDb site.
#[local] Hint Resolve site_ret site_err site_lift site_get site_desk site_emit site_bind site_attempt site_look : site.

Lemma site_poll n id ip : calm (poll_ip n id ip).
Proof. revert ip; induction n as [|n IH]; intros ip; cbn; [auto with site|]. destruct (non_empty ip); auto with site. Qed.

Lemma poll_ok n id ip s : cloud_ok (st_world s) -> exists ip' s', poll_ip n id ip s = (Ok ip', s').
Proof.
  revert ip s; induction n as [|n IH]; intros ip s Ho; [by eexists _, _|]. cbn [poll_ip]. destruct (non_empty ip); [by eexists _, _|].
  unfold mbind, attempt, at_cloud. destruct (Vpn.get id (st_world s)) as [r w] eqn:E. destruct (get_spec _ _ _ _ Ho E) as (Ho' & _ & Hp).
  destruct r; [by apply IH..|done].
Qed.

Lemma site_bind_run {X Y} (c : S_ (W := W) X) (k : X -> S_ (W := W) Y) s r s' :
  calm c -> mbind c k s = (r, s') -> (exists x s1, c s = (Ok x, s1) /\ still s s1 /\ k x s1 = (r, s')) \/ (still s s' /\ forall y, r <> Ok y).
Proof.
  intros Hc. unfold mbind. destruct (c s) as [[x|e|] s1] eqn:E; pose proof (Hc _ _ _ E); [left; by eauto|intros [= <- <-]; by right..].
Qed.

(** The node of a deployment. *)
Definition added (id : text) s s' : Prop :=
  node (st_world s) id = None /\ forall x, node (st_world s') x = if decide (x = id) then Some [SYNC_TAG] else node (st_world s) x.
Definition no_address : FlowErr := Told "the server never reported an IP; it was destroyed".

Lemma site_connect e gclient cert ip : calm (connect_deployed (W := W) cfg rqs dws nonces others e gclient cert ip).
Proof.
  repeat (apply site_bind; [auto with site|intros ?]). destruct (existsb _ _); [|auto with site]. destruct gclient; auto 8 with site.
Qed.

Lemma settle_run e gclient cert itype region inst s r s' :
  record_ok e = true -> cloud_ok (st_world s) -> settle cfg rqs dws nonces others e gclient cert itype region inst s = (r, s') -> r <> Err no_address ->
  (forall x, node (st_world s') x = node (st_world s) x) /\ cloud_ok (st_world s') /\ exists rec, st_record s' = Some rec /\ instance_id rec = inst_id inst.
Proof.
  intros Hrec Ho. unfold settle, mbind at 1. destruct (poll_ok 20 (inst_id inst) (ipv4 inst) s Ho) as (ip & s2 & E2). rewrite E2.
  apply site_poll in E2 as (O2 & N2 & _). destruct (non_empty ip) as [addr|].
  - unfold mbind at 1, save_server_record. rewrite Hrec. intros (O3 & N3 & R3 & _)%site_connect _. cbn [set_record st_world st_record] in *.
    split; [intros x; rewrite N3, N2 by auto; done|]. split; [by auto|]. by eexists.
  - unfold mbind, attempt, at_cloud. destruct (Vpn.delete _ (st_world s2)) as [[u|e0|] w] eqn:E; cbn [map_err]; [by intros [= <- _]..|].
    apply delete_spec in E as [_ []]. by auto.
Qed.

Lemma create_run spec s r s' : spec_tags spec = [SYNC_TAG] -> cloud_ok (st_world s) -> at_cloud (create spec) s = (r, s') ->
  match r with
  | Ok i => added (inst_id i) s s' /\ cloud_ok (st_world s') /\ st_record s' = st_record s
  | _ => still s s'
  end.
Proof.
  intros Htags Ho. unfold at_cloud. destruct (create spec (st_world s)) as [r0 w] eqn:E. pose proof (create_spec _ _ _ _ Ho E) as [Ho1 Hc].
  intros [= <- <-]. destruct r0 as [i|e|]; cbn [map_err]; [|by repeat split|done]. rewrite Htags in Hc. destruct Hc as [Hnew Hnode]. by repeat split.
Qed.

(** How a deployment may end. *)
Definition accounted s (r : result unit FlowErr) s' : Prop :=
  cloud_ok (st_world s')
  /\ (((forall x, node (st_world s') x = node (st_world s) x) /\ st_record s' = st_record s /\ forall u, r <> Ok u)
      \/ exists id rec, added id s s' /\ st_record s' = Some rec /\ instance_id rec = id).

Lemma accounted_bind {X} (c : S_ (W := W) X) (k : X -> S_ (W := W) unit) s r s' :
  calm c -> cloud_ok (st_world s) -> (forall x s1, cloud_ok (st_world s1) -> k x s1 = (r, s') -> accounted s1 r s') -> mbind c k s = (r, s') -> accounted s r s'.
Proof.
  intros Hc Ho Hk [(x & s1 & _ & (O1 & N1 & R1 & _) & Hrun)|[(O1 & N1 & R1 & _) Hno]]%(site_bind_run _ _ _ _ _ Hc).
  - destruct (Hk x s1 (O1 Ho) Hrun) as [Ho' [(Hn & Hr & Hu)|(id & rec & [Hnew Hn] & Hr & Hi)]]; (split; [done|]).
    + left. split; [|split; [congruence|done]]. intros x0. by rewrite Hn, N1.
    + right. exists id, rec. split; [|done]. split; [by rewrite <- N1|]. intros x0. by rewrite Hn, N1.
  - split; [by auto|]. left. auto.
Qed.

Lemma deploy_run e region itype gclient gsecret s r s' :
  record_ok e = true -> cloud_ok (st_world s) -> sync_deploy cfg rqs dws nonces others e region itype gclient gsecret s = (r, s') -> r <> Err no_address ->
  accounted s r s'.
Proof.
  intros Hrec Ho Hrun Hr. revert Ho Hrun. unfold sync_deploy.
  assert (Hstop : forall s0 m, cloud_ok (st_world s0) -> err m s0 = (r, s') -> accounted s0 r s').
  { intros s0 m Ho [= <- <-]. split; [done|]. by left. }
  intros Ho. apply accounted_bind; [auto with site|done|]. clear s Ho. intros rec s Ho. destruct (negb _); [|by apply Hstop].
  apply accounted_bind; [apply site_get|done|]. clear s Ho. intros t s Ho.
  apply accounted_bind; [auto with site|done|]. clear s Ho. intros _ s Ho.
  apply accounted_bind; [destruct (trim <$> non_blank gclient), (trim <$> non_blank gsecret); auto with site|done|]. clear s Ho. intros _ s Ho.
  apply accounted_bind; [auto with site|done|]. clear s Ho. intros _ s Ho.
  apply accounted_bind; [auto with site|done|]. clear s Ho. intros ck s Ho.
  apply accounted_bind; [auto with site|done|]. clear s Ho. intros ud s Ho.
  apply accounted_bind; [auto with site|done|]. clear s Ho. intros _ s Ho.
  unfold mbind at 1. destruct (at_cloud (create _) s) as [r0 s1] eqn:E. apply create_run in E; [|done|done].
  destruct r0 as [i|ce|]; [|intros [= <- <-]; destruct E as (O1 & N1 & R1 & _); split; [by auto|]; left; by auto..].
  destruct E as ([Hnew Hn] & O1 & _). intros (Hn' & Ho' & rec' & Hr' & Hi)%settle_run; [|done..]. split; [done|]. right. exists (inst_id i), rec'.
  split; [|done]. split; [done|]. intros x. by rewrite Hn', Hn.
Qed.

Lemma deploy_world e region itype gclient gsecret s r s' :
  record_ok e = true -> cloud_ok (st_world s) -> sync_deploy cfg rqs dws nonces others e region itype gclient gsecret s = (r, s') -> r <> Err no_address ->
  cloud_ok (st_world s').
Proof. intros Hrec Ho Hrun Hr. apply (deploy_run _ _ _ _ _ _ _ _ Hrec Ho Hrun Hr). Qed.

(** C20: every server that is deployed is on record. When the record can be written, however a
    deployment ends other than by reporting a node that never had an address, the account has the nodes it had, or one more, tagged as the sync server,
    and the record by which the app shows and destroys it names that node; a deployment that succeeds
    has added one. *)
Theorem deploy_accounted e region itype gclient gsecret s r s' :
  record_ok e = true -> cloud_ok (st_world s) -> sync_deploy cfg rqs dws nonces others e region itype gclient gsecret s = (r, s') -> r <> Err no_address ->
  cloud_ok (st_world s')
  /\ (((forall x, node (st_world s') x = node (st_world s) x) /\ st_record s' = st_record s /\ forall u, r <> Ok u)
      \/ exists id rec, added id s s' /\ st_record s' = Some rec /\ instance_id rec = id).
Proof. apply deploy_run. Qed.

(** Destroying the server stops its billing. When the provider deletes the node on record, the
    account has every other node it had and that one no more, the record is gone, and the device is
    signed out, with no token of the server left in its keychain. *)
Theorem destroy_stops_billing e s s' rec w :
  record_ok e = true -> kc_del_ok (os (de e)) = true -> cloud_ok (st_world s) -> st_record s = Some rec -> kc_value (st_linode s) <> None ->
  Vpn.delete (instance_id rec) (st_world s) = (Ok tt, w) -> sync_server_destroy e s = (Ok tt, s') ->
  (forall x, node (st_world s') x = if decide (x = instance_id rec) then None else node (st_world s) x)
  /\ st_record s' = None
  /\ dk_bootstrap (st_desk s') = None /\ dk_access (st_desk s') = None /\ dk_refresh (st_desk s') = None /\ dk_pending (st_desk s') = None
  /\ server_url (dk_config (st_desk s')) = None /\ pinned_cert_pem (dk_config (st_desk s')) = None.
Proof.
  intros Hrec Hkc Ho Hr Htok Hdel. unfold sync_server_destroy, mbind at 1, get. rewrite Hr. unfold mbind at 1, linode_token, get.
  destruct (kc_value (st_linode s)) as [t|]; [|done]. unfold mbind at 1 2, attempt, at_cloud. rewrite Hdel. cbn [map_err ret].
  unfold mbind, delete_server_record, desk, Flow.save_config, Flow.get, Flow.put, Flow.tell, Flow.kc_del, err, ret. rewrite Hrec, Hkc.
  destruct (config_ok (de e)); [|done]. intros [= <-]. cbn. apply (delete_spec _ _ _ _ Ho) in Hdel as [_ Hn]. by repeat split.
Qed.

(** A node the provider does not delete goes on billing with its record gone. *)
Lemma destroy_drops_record e s s' rec ce w :
  record_ok e = true -> cloud_ok (st_world s) -> st_record s = Some rec -> kc_value (st_linode s) <> None ->
  Vpn.delete (instance_id rec) (st_world s) = (Err ce, w) -> sync_server_destroy e s = (Ok tt, s') ->
  (forall x, node (st_world s') x = node (st_world s) x) /\ st_record s' = None.
Proof.
  intros Hrec Ho Hr Htok Hdel. unfold sync_server_destroy, mbind at 1, get. rewrite Hr. unfold mbind at 1, linode_token, get.
  destruct (kc_value (st_linode s)) as [t|]; [|done]. unfold mbind at 1 2, attempt, at_cloud. rewrite Hdel. cbn [map_err ret].
  unfold mbind, delete_server_record, desk, Flow.save_config, Flow.get, Flow.put, Flow.tell, Flow.kc_del, err, ret. rewrite Hrec.
  destruct (config_ok (de e)); [|done]. destruct (kc_del_ok (os (de e))); intros [= <-]; cbn; apply (delete_spec _ _ _ _ Ho) in Hdel as [_ Hn]; by split.
Qed.
(** A node that never gets an address, and that the provider does not delete, is reported as destroyed. *)
Lemma destroyed_is_unchecked e gclient cert itype region inst s s1 ce w :
  cloud_ok (st_world s) -> poll_ip 20 (inst_id inst) (ipv4 inst) s = (Ok None, s1) -> Vpn.delete (inst_id inst) (st_world s1) = (Err ce, w) ->
  settle cfg rqs dws nonces others e gclient cert itype region inst s = (Err no_address, set_w w s1)
  /\ forall x, node w x = node (st_world s) x.
Proof.
  intros Ho Hp Hd. unfold settle, mbind, attempt, at_cloud. rewrite Hp. cbn [non_empty]. rewrite Hd. split; [done|].
  apply site_poll in Hp as (O1 & N1 & _). intros x. apply delete_spec in Hd as [_ Hn]; [|by auto]. by rewrite Hn, N1.
Qed.
End claims.

(** * Concrete runs *)

(** A sync server deployed and destroyed on the mock provider, and the ways a node goes on billing
    that the app has no record of. *)
Module DeployDemo.
Import FlowDemo Deploy.
#[export] Existing Instance VpnDemo.templates.

Definition setting (written : bool) : DeployEnv :=
  MkDeployEnv env written None (arr_fill 32 Byte.x11) (arr_fill 16 Byte.x22) (arr_fill 32 Byte.x33) (inr (lit "cert", lit "key")) (fun n => (2 <=? n)%nat).
Definition site (w : MockCloud.t) : Site MockCloud.t := MkSite first None (Some (lit "token")) w [].
Abbreviation deploy written polls :=
  (sync_deploy Demo.cfg SyncDemo.rqs SyncDemo.dws SyncDemo.nonces SyncDemo.alone (setting written) (lit "us-east") None (Some (lit "client")) None (site (MockCloud.new polls))).
Definition deployed : Site MockCloud.t := snd (deploy true 2).
Definition server : text := lit "inst-1000".

Lemma server_deployed : deploy true 2 = (Ok tt, deployed).
Proof. unfold deployed. rewrite (surjective_pairing (deploy true 2)) at 1. f_equal. Qed.

(** The node is on the account and on record. *)
Lemma deploy_accounted_witness : exists rec, st_record deployed = Some rec /\ node (st_world deployed) (instance_id rec) = Some [SYNC_TAG].
Proof.
  destruct (deploy_accounted (L := mock_cloud_laws) Demo.cfg SyncDemo.rqs SyncDemo.dws SyncDemo.nonces SyncDemo.alone (setting true) (lit "us-east") None
              (Some (lit "client")) None (site (MockCloud.new 2)) (Ok tt) deployed eq_refl (VpnDemo.new_ok 2) server_deployed ltac:(discriminate))
    as [_ [(_ & _ & Hno)|(id & rec & [_ Hn] & Hr & Hi)]]; [by destruct (Hno tt)|].
  exists rec. split; [done|]. rewrite Hn, Hi. by destruct (decide (id = id)).
Defined.

Lemma deployed_world : cloud_ok (CloudLaws := mock_cloud_laws) (st_world deployed).
Proof.
  exact (deploy_world (L := mock_cloud_laws) Demo.cfg SyncDemo.rqs SyncDemo.dws SyncDemo.nonces SyncDemo.alone (setting true) (lit "us-east") None
           (Some (lit "client")) None (site (MockCloud.new 2)) (Ok tt) deployed eq_refl (VpnDemo.new_ok 2) server_deployed ltac:(discriminate)).
Qed.

Definition record : SyncServerRecord := Eval vm_compute in default (MkServerRecord [] [] [] [] 0) (st_record deployed).
Definition destroyed : Site MockCloud.t := snd (sync_server_destroy (setting true) deployed).
Lemma destroyed_ok : sync_server_destroy (setting true) deployed = (Ok tt, destroyed).
Proof. unfold destroyed. rewrite (surjective_pairing (sync_server_destroy _ _)) at 1. f_equal. Qed.

Lemma destroy_stops_billing_witness : node (st_world destroyed) server = None /\ st_record destroyed = None /\ dk_access (st_desk destroyed) = None.
Proof.
  destruct (destroy_stops_billing (L := mock_cloud_laws) (setting true) deployed destroyed record _ eq_refl eq_refl deployed_world
              ltac:(vm_compute; reflexivity) ltac:(vm_compute; discriminate) eq_refl destroyed_ok) as (Hn & Hr & _ & Ha & _).
  split; [|by split]. rewrite Hn. by destruct (decide (server = instance_id record)) as [|[]].
Defined.

(** A record that cannot be written is reported, but the node it was for stays on the account. *)
Lemma unwritten_record_orphans :
  let s := snd (deploy false 2) in
  fst (deploy false 2) = Err (Told "write sync-server.json") /\ st_record s = None /\ node (st_world s) server = Some [SYNC_TAG].
Proof. vm_compute. by split. Qed.
End DeployDemo.
