(* ===== verification/SettingsFlows.v ===== *)
(** [sync.rs], the sync cycle with the device's own settings: [sync_once] with [sync_device_settings]
    in its place, the poller, "Sync now", and the two commands that share the settings. The machine is
    a desk with its local settings; the client identifier, the client secret and the preferences are
    one store that both of them see. *)
From S2P Require Import Prelude Bytes Text Crypto Floats Value Totp Toy RecoveryKit Keyring Model Envelope VaultStore Session AppLock Generator Health Passkey.
From S2P Require Import Csv Importers Provision Vpn NmHost VpnManager ApiDb ApiAuth ApiRoutes ApiDemo ApiFacts ApiClaims ApiVault SyncClient SyncFlows SettingsSync SettingsClaims SyncFlowClaims.
Local Open Scope Z_scope.

Record Machine : Type := MkMachine { mc_desk : Desk; mc_local : Local; mc_errors : list string }.
Record ReshareOut : Type := MkReshareOut { ro_pushed : bool; ro_error : option FlowErr; ro_status : Settings.SettingsSyncStatus }.

(** What one command meets: the fate of its writes, the clock and the nonces of the items it seals. *)
Record Round : Type := MkRound { fate : Fate; unix_now : Z; write_nonce : Nonce24; heal_nonce : Nonce24 }.

Module Share.
Section flows.
Context {JN : TextJson (gmap text NetdataFileCfg)} {JA : TextJson (gmap text text)} {JS : TextJson (gmap text SshServerCfg)}
  {JP : TextJson (gmap string SettingVal)} {JW : TextJson WatchdogFileCfg} {JV : TextJson (Mgr.PersistentVpnRecord * text)}.
Context {A : AuthLibs} {P : CryptoPrims} {B : Base64} {SI : Json Item.t} {SD : Json VaultDocument.t} {ZS : Zstd}.
Variable valid_ssh_key : text -> bool.
Variable cfg : Config.
Variables (rqs : nat -> Req) (dws : nat -> Draw) (nonces : nat -> Nonce24).
Variable others : nat -> Srv -> Srv.

Definition X (T : Type) : Type := ST Machine FlowErr T.
Definition on_desk {T} (c : D T) : X T := fun m => let '(r, d) := c (mc_desk m) in (r, MkMachine d (mc_local m) (mc_errors m)).
Definition get {T} (f : Machine -> T) : X T := fun m => (Ok (f m), m).
Definition session_of (m : Machine) : VaultSession.t := AppLock.session (dk_lock (mc_desk m)).

(** The settings as the files and the keychain have them, and the desk after they have changed. *)
Definition seen (m : Machine) : Local :=
  let d := mc_desk m in
  Settings.set_gclient (sc_google_client_id (dk_config d)) (Settings.set_gsecret (dk_gsecret d) (Settings.set_prefs (AppLock.settings (dk_lock d)) (mc_local m))).
Definition with_gclient (o : option text) (c : SyncConfig) : SyncConfig := MkSyncConfig (server_url c) o (sc_email c) (pinned_cert_pem c) (server_ip c).
Definition with_prefs (p : Settings) (l : AppLock.Dev) : AppLock.Dev :=
  AppLock.MkDev (AppLock.session l) (wrap_file l) (kc_key l) (kc_totp l) p.
Definition stored (l : Local) (vt : LocalVault.t) (d : Desk) : Desk :=
  Flow.set_vault vt (Flow.set_config (with_gclient (lo_gclient l) (dk_config d)) (Flow.at_gsecret (lo_gsecret l) (Flow.set_lock (with_prefs (lo_prefs l) (dk_lock d)) d))).

(** The errors of the last apply are replaced when there was an item to apply. *)
Definition sync_device_settings (k : Round) : X unit := fun m =>
  let vt := dk_vault (mc_desk m) in
  let '(l, vt', errs, _) := Settings.sync_device_settings valid_ssh_key (fate k) (unix_now k) (heal_nonce k) (session_of m) (seen m) vt in
  (Ok tt, MkMachine (stored l vt' (mc_desk m)) l (match Settings.settings_item (session_of m) vt with Some _ => errs | None => mc_errors m end)).

Definition merge_remote (remote : VaultDocument.t) : X unit := on_desk (Flow.api (Api.merge_remote remote)).
Definition core {T} (r : Result T) : X T := lift (map_err (fun e => FromApi (CoreErr e)) r).

Definition sync_once (k : Round) : X SyncNowOut :=
  let! vk := on_desk Flow.session_vault_key in
  let! _ := on_desk Flow.api_for in
  let! g := on_desk (Flow.get_vault cfg rqs dws others) in
  let! (pulled, current) :=
    match g with
    | Some (v, ct) =>
        let! remote := core (Document.decode_sync_blob vk ct v) in
        let! _ := merge_remote remote in
        ret (true, v)
    | None => ret (false, 0)
    end in
  let! _ := sync_device_settings k in
  let! version := on_desk (Flow.push_document cfg rqs dws nonces others vk current) in
  ret (MkSyncNowOut true pulled version).
Definition sync_now (k : Round) : X SyncNowOut := sync_once k.

Definition is_okb {T} (c : X T) (m : Machine) : bool := is_ok (fst (c m)).

(** One tick of the poller: nothing unless signed in and unlocked. *)
Definition poll_tick (k : Round) : X unit := fun m =>
  if bool_decide (kc_value (dk_access (mc_desk m)) = None) || negb (is_okb (on_desk Flow.session_vault_key) m) then (Ok tt, m)
  else match sync_once k m with (Panic, m) => (Panic, m) | (_, m) => (Ok tt, m) end.

Definition write_settings_item (k : Round) (values : list (text * text)) : X unit := fun m =>
  let '(r, vt) := Settings.write_settings_item (unix_now k) (write_nonce k) (session_of m) values (dk_vault (mc_desk m)) in
  (map_err (fun e => FromApi (CoreErr e)) r, MkMachine (Flow.set_vault vt (mc_desk m)) (mc_local m) (mc_errors m)).

Definition attempt {T} (c : X T) : X (result T FlowErr) := fun m =>
  match c m with (Ok x, m) => (Ok (Ok x), m) | (Err e, m) => (Ok (Err e), m) | (Panic, m) => (Panic, m) end.

Definition nothing_set (values : list (text * text)) : bool := forallb (fun nv => bool_decide (nv.2 = [])) values.

Definition settings_sync_write (k : Round) : X unit :=
  let! locals := get (fun m => Settings.local_settings (seen m)) in
  let! had_item := get (fun m => bool_decide (is_Some (LocalVault.get (dk_vault (mc_desk m)) Settings.settings_item_id))) in
  if negb had_item && nothing_set locals then ret tt
  else
    let! _ := write_settings_item k locals in
    let! vk := attempt (on_desk Flow.session_vault_key) in
    let! api := attempt (on_desk Flow.api_for) in
    match vk, api with
    | Ok vk, Ok _ =>
        let! g := on_desk (Flow.get_vault cfg rqs dws others) in
        let! _ := attempt (on_desk (Flow.push_document cfg rqs dws nonces others vk (match g with Some (v, _) => v | None => 0 end))) in
        ret tt
    | _, _ => ret tt
    end.

Definition not_signed_in : FlowErr := Told "This computer isn't signed in to your sync server yet — sign in under Account & Sync, then re-share.".

Definition reshare_status (has_any : bool) (m : Machine) : Settings.SettingsSyncStatus :=
  match Settings.settings_item (session_of m) (dk_vault (mc_desk m)) with
  | Some _ => Settings.settings_sync_status (mc_errors m) (session_of m) (dk_vault (mc_desk m))
  | None => Settings.MkStatus has_any 0 false false false false (mc_errors m)
  end.
Definition settings_reshare (k : Round) : X ReshareOut :=
  let! locals := get (fun m => Settings.local_settings (seen m)) in
  let! _ := write_settings_item k locals in
  let! ready := get (fun m => is_okb (on_desk Flow.session_vault_key) m && is_okb (on_desk Flow.api_for) m) in
  let! (pushed, error) :=
    if ready then
      let! r := attempt (sync_once k) in
      ret (match r with Ok _ => (true, None) | Err e => (false, Some e) | Panic => (false, None) end)
    else ret (false, Some not_signed_in) in
  let! st := get (reshare_status (negb (nothing_set locals))) in
  ret (MkReshareOut pushed error st).
End flows.
End Share.
