(* ===== verification/SettingsFlowClaims.v ===== *)
(** What the sync cycle with settings promises: it is the cycle of the client with the settings in the
    place of its parameter, so what that cycle publishes this one does; and "re-share" tells the truth
    about what reached the server. *)
From S2P Require Import Prelude Bytes Text Crypto Floats Value Totp Toy RecoveryKit Keyring Model Envelope VaultStore Session AppLock Generator Health Passkey.
From S2P Require Import Csv Importers Provision Vpn NmHost VpnManager ApiDb ApiAuth ApiRoutes ApiDemo ApiFacts ApiClaims ApiVault SyncClient SyncFlows SettingsSync SettingsClaims SyncFlowClaims SettingsFlows.
Local Open Scope Z_scope.
Import Share.

Section claims.
Context {JN : TextJson (gmap text NetdataFileCfg)} {JA : TextJson (gmap text text)} {JS : TextJson (gmap text SshServerCfg)}
  {JP : TextJson (gmap string SettingVal)} {JW : TextJson WatchdogFileCfg} {JV : TextJson (Mgr.PersistentVpnRecord * text)}.
Context {A : AuthLibs} {P : CryptoPrims} {B : Base64} {SI : Json Item.t} {SD : Json VaultDocument.t} {ZS : Zstd}.
Variable valid_ssh_key : text -> bool.
Variable cfg : Config.
Variables (rqs : nat -> Req) (dws : nat -> Draw) (nonces : nat -> Nonce24).
Variable others : nat -> Srv -> Srv.

(** ** The client never touches the session *)

Definition keeps {T} (c : C T) : Prop := forall w r w', c w = (r, w') -> session_key w' = session_key w.

Lemma keeps_bind {T U} (c : C T) (f : T -> C U) : keeps c -> (forall x, keeps (f x)) -> keeps (mbind c f).
Proof.
  intros Hc Hf w r w'. unfold mbind. destruct (c w) as [[x|e|] w1] eqn:E; pose proof (Hc _ _ _ E) as H1; [|by intros [= _ <-]..].
  intros H%Hf. congruence.
Qed.
Lemma keeps_lift {T} (r : result T SyncErr) : keeps (lift r).
Proof. by intros w r' w' [= _ <-]. Qed.
Lemma keeps_ret {T} (x : T) : keeps (ret x).
Proof. by intros w r' w' [= _ <-]. Qed.
Lemma keeps_err {T} e : keeps (T := T) (err e).
Proof. by intros w r' w' [= _ <-]. Qed.
Lemma keeps_send {T} (f : Req -> Draw -> M T) : keeps (Api.send rqs dws others f).
Proof. intros w r w'. unfold Api.send. destruct (f _ _ _). by intros [= _ <-]. Qed.
Lemma keeps_kc_get f e : keeps (Api.kc_get f e).
Proof. by intros w r w' [= _ <-]. Qed.
Lemma keeps_tokens t : keeps (Api.kc_set_tokens t).
Proof. by intros w r w' [= _ <-]. Qed.
Lemma keeps_merge doc : keeps (Api.merge_remote doc).
Proof. intros w r w'. unfold Api.merge_remote. destruct (LocalVault.merge _ _). by intros [= _ <-]. Qed.
Lemma keeps_key : keeps Api.session_vault_key.
Proof. by intros w r w' [= _ <-]. Qed.
Lemma keeps_seal vk cur : keeps (Api.seal_document nonces vk cur).
Proof. by intros w r w' [= _ <-]. Qed.
#[local] Hint Resolve keeps_bind keeps_lift keeps_ret keeps_err keeps_send keeps_kc_get keeps_tokens keeps_merge keeps_key keeps_seal : keeps.

Lemma keeps_refresh : keeps (Api.refresh cfg rqs dws others).
Proof. apply keeps_bind; [auto with keeps|]. intros rt. apply keeps_bind; [auto with keeps|]. intros [t|e|]; auto with keeps. Qed.
#[local] Hint Resolve keeps_refresh : keeps.
Lemma keeps_authed {T} (f : Req -> Draw -> Auth -> M T) : keeps (Api.authed cfg rqs dws others f).
Proof.
  apply keeps_bind; [auto with keeps|]. intros a. apply keeps_bind; [auto with keeps|]. intros [t|[]|]; auto with keeps.
Qed.
#[local] Hint Resolve keeps_authed : keeps.
Lemma keeps_get_vault : keeps (Api.get_vault cfg rqs dws others).
Proof. apply keeps_bind; [auto with keeps|]. intros [[[v ct]|]|e|]; try destruct (b64_decode _); auto with keeps. Qed.
Lemma keeps_put_vault im ct : keeps (Api.put_vault cfg rqs dws others im ct).
Proof. apply keeps_bind; [auto with keeps|]. intros [v|[]|]; auto with keeps. Qed.
#[local] Hint Resolve keeps_get_vault keeps_put_vault : keeps.
Lemma keeps_push n vk cur : keeps (Api.push_loop cfg rqs dws nonces others n vk cur).
Proof.
  revert cur; induction n as [|n IH]; intros cur; cbn [Api.push_loop]; [auto with keeps|].
  apply keeps_bind; [auto with keeps|]. intros blob. apply keeps_bind; [auto with keeps|]. intros [v|sc]; [auto with keeps|].
  apply keeps_bind; [auto with keeps|]. intros [[v ct]|]; [|done].
  apply keeps_bind; [apply keeps_lift|]. intros doc. apply keeps_bind; auto with keeps.
Qed.

(** ** The machine simulates the client *)

(** A machine that shows the client's world, with the session and the settings of [m0]. *)
Definition shows (m0 m : Machine) (w : World) : Prop :=
  Flow.world (mc_desk m) = w /\ session_of m = session_of m0 /\ seen m = seen m0 /\ dk_config (mc_desk m) = dk_config (mc_desk m0).
Definition sim (R R' : Machine -> World -> Prop) {T} (x : X T) (c : C T) : Prop := forall m w, R m w ->
  fst (x m) = map_err FromApi (fst (c w)) /\ R' (snd (x m)) (snd (c w)).

Lemma sim_bind R1 R2 R3 {T U} (x : X T) (c : C T) (f : T -> X U) (g : T -> C U) :
  (forall m w, R2 m w -> R3 m w) -> sim R1 R2 x c -> (forall t, sim R2 R3 (f t) (g t)) -> sim R1 R3 (mbind x f) (mbind c g).
Proof.
  intros Hw Hc Hf m w H1. destruct (Hc m w H1) as [Hr H2]. unfold mbind. destruct (x m) as [rx m1], (c w) as [rc w1]. cbn [fst snd] in *. subst.
  destruct rc as [t|e|]; cbn [map_err]; [by apply Hf|split; [done|by apply Hw]..].
Qed.

Lemma world_set d w : session_key w = VaultSession.vault_key (AppLock.session (dk_lock d)) -> Flow.world (Flow.set_world w d) = w.
Proof. intros H. destruct w. unfold Flow.world, Flow.set_world. cbn in *. by rewrite H. Qed.

Lemma sim_api m0 {T} (c : C T) : keeps c -> sim (shows m0) (shows m0) (on_desk (Flow.api c)) c.
Proof.
  intros Hk m w (<- & Hs & Hn). unfold on_desk, Flow.api. destruct (c (Flow.world (mc_desk m))) as [r w'] eqn:E. cbn [fst snd].
  split; [done|]. split; [|done]. cbn [mc_desk]. apply world_set. by rewrite (Hk _ _ _ E).
Qed.
Lemma sim_lift R {T} (r : result T SyncErr) : sim R R (lift (map_err FromApi r)) (lift r).
Proof. intros m w H. split; [by destruct r|done]. Qed.
Lemma sim_core R {T} (r : Result T) : sim R R (core r) (Api.core r).
Proof. intros m w H. split; [by destruct r|done]. Qed.
Lemma api_for_config d d0 : dk_config d = dk_config d0 -> Flow.api_for d = (fst (Flow.api_for d0), d).
Proof. unfold Flow.api_for, mbind, Flow.get, Flow.or_tell, lift. intros ->. by destruct (non_blank _). Qed.
Lemma sim_ret R {T} (t : T) : sim R R (ret t) (ret t).
Proof. by intros m w H. Qed.

(** The settings step as the client sees it. *)
Definition healed (k : Round) (m0 : Machine) (vt : LocalVault.t) : LocalVault.t :=
  let '(_, vt', _, _) := Settings.sync_device_settings valid_ssh_key (fate k) (unix_now k) (heal_nonce k) (session_of m0) (seen m0) vt in vt'.

Lemma sim_settings k m0 :
  sim (shows m0) (fun m w => Flow.world (mc_desk m) = w) (sync_device_settings valid_ssh_key k) (Api.sync_device_settings (healed k m0)).
Proof.
  intros m w (<- & Hs & Hn & _). unfold sync_device_settings, Api.sync_device_settings, healed. rewrite Hs, Hn. cbn [vault Flow.world].
  destruct (Settings.sync_device_settings _ _ _ _ _ _ _) as [[[l vt'] errs] ch]. cbn [fst snd]. done.
Qed.
Lemma sim_push vk cur : sim (fun m w => Flow.world (mc_desk m) = w) (fun m w => Flow.world (mc_desk m) = w)
  (on_desk (Flow.push_document cfg rqs dws nonces others vk cur)) (Api.push_document cfg rqs dws nonces others vk cur).
Proof.
  intros m w <-. destruct (sim_api m (Api.push_document cfg rqs dws nonces others vk cur) (keeps_push 2 vk cur) m (Flow.world (mc_desk m))) as [? (? & _)]; [done|].
  by split.
Qed.

Lemma sync_once_sim k m :
  fst (Flow.api_for (mc_desk m)) = Ok tt ->
  let run := Api.sync_once cfg rqs dws nonces others (healed k m) (Flow.world (mc_desk m)) in
  let run' := sync_once valid_ssh_key cfg rqs dws nonces others k m in
  fst run' = map_err FromApi (fst run) /\ Flow.world (mc_desk (snd run')) = snd run.
Proof.
  intros Hapi run run'. set (Rw := fun m w => Flow.world (mc_desk m) = w).
  assert (Hw : forall m1 w, shows m m1 w -> Rw m1 w) by (by intros m1 w []).
  assert (Hfor : forall {T} (f : X T) (c : C T), sim (shows m) Rw f c -> sim (shows m) Rw (let! _ := on_desk Flow.api_for in f) c).
  { intros T f c Hf m1 w Hm. unfold mbind, on_desk. rewrite (api_for_config _ (mc_desk m)) by apply Hm. rewrite Hapi. destruct m1. by apply Hf. }
  cut (sim (shows m) Rw (sync_once valid_ssh_key cfg rqs dws nonces others k) (Api.sync_once cfg rqs dws nonces others (healed k m))).
  { intros H. by apply (H m (Flow.world (mc_desk m))). }
  unfold sync_once, Api.sync_once. eapply sim_bind; [apply Hw|apply sim_api, keeps_key|]. intros vk. apply Hfor.
  eapply sim_bind; [apply Hw|apply sim_api, keeps_get_vault|]. intros g.
  eapply sim_bind; [apply Hw| |].
  - destruct g as [[v ct]|]; [|apply sim_ret]. eapply sim_bind; [by intros ?? H; apply H| |].
    + apply sim_core.
    + intros doc. eapply sim_bind; [by intros ?? H; apply H|apply sim_api, keeps_merge|]. intros u. apply sim_ret.
  - intros [pl cur]. apply (sim_bind _ Rw); [done|apply sim_settings|]. intros u. apply (sim_bind _ Rw); [done|apply sim_push|]. intros v. apply sim_ret.
Qed.

(** The cycle the app runs is the client's cycle with the device's settings in the place of its
    parameter. On a computer with a server configured, "Sync now" answers as that cycle does, error for
    error, and leaves the server, the tokens and the local vault as that cycle leaves them, whatever
    the settings step stores or fails to store on the way. *)
Theorem sync_once_refines k m :
  fst (Flow.api_for (mc_desk m)) = Ok tt ->
  let run := Api.sync_once cfg rqs dws nonces others (healed k m) (Flow.world (mc_desk m)) in
  let run' := sync_once valid_ssh_key cfg rqs dws nonces others k m in
  fst run' = map_err FromApi (fst run) /\ Flow.world (mc_desk (snd run')) = snd run.
Proof. apply sync_once_sim. Qed.

(** ** What "re-share" reports *)

Context {L : CryptoLaws P} {BL : Base64Laws} {SL : JsonLaws VaultDocument.t} {ZL : ZstdLaws}.

Lemma sync_once_published k m out m' :
  fst (Flow.api_for (mc_desk m)) = Ok tt -> sync_once valid_ssh_key cfg rqs dws nonces others k m = (Ok out, m') ->
  exists vk, VaultSession.vault_key (session_of m) = Some vk
    /\ published vk (out_version out) (LocalVault.to_document (dk_vault (mc_desk m'))) (Flow.world (mc_desk m')).
Proof.
  intros Hapi H. destruct (sync_once_sim k m Hapi) as [Hr Hw]. rewrite H in Hr, Hw. cbn [fst snd] in Hr, Hw.
  destruct (Api.sync_once _ _ _ _ _ _ _) as [[out1|e|] w] eqn:E; [|done..]. injection Hr as <-. cbn [snd] in Hw.
  apply sync_once_Ok in E as (vk & g & w1 & w2 & cur & Hk & _ & _ & _ & Hp). exists vk. split; [done|].
  change (dk_vault (mc_desk m')) with (vault (Flow.world (mc_desk m'))). rewrite Hw. by apply push_loop_Ok in Hp as [Hp _].
Qed.

(** "re-share to all devices" reports what happened. It claims to have pushed exactly when it has no
    error to show; when it claims so, the server stores, for the account this computer is signed in to,
    a blob that opens under the session's key to the document of the local vault with the shared item
    in it; and what it says the item carries is what the settings panel then shows. *)
Theorem reshare_truthful k m out m' :
  settings_reshare valid_ssh_key cfg rqs dws nonces others k m = (Ok out, m') ->
  (ro_pushed out = true <-> ro_error out = None)
  /\ (ro_pushed out = true -> exists vk v, VaultSession.vault_key (session_of m) = Some vk
        /\ published vk v (LocalVault.to_document (dk_vault (mc_desk m'))) (Flow.world (mc_desk m')))
  /\ (Settings.settings_item (session_of m') (dk_vault (mc_desk m')) <> None ->
        ro_status out = Settings.settings_sync_status (mc_errors m') (session_of m') (dk_vault (mc_desk m'))).
Proof.
  unfold settings_reshare. intros (locals & m0 & [= <- <-] & (u & m1 & Hwr & H)%mbind_Ok)%mbind_Ok.
  apply mbind_Ok in H as (ready & m2 & [= <- <-] & ([pushed error] & m3 & Hrun & H)%mbind_Ok).
  apply mbind_Ok in H as (st & m4 & [= <- <-] & [= <- <-]). cbn [ro_pushed ro_error ro_status].
  unfold write_settings_item in Hwr. destruct (Settings.write_settings_item _ _ _ _ _) as [rw vt]. injection Hwr as _ <-.
  set (m1 := MkMachine (Flow.set_vault vt (mc_desk m)) _ _) in *.
  assert (Hst : Settings.settings_item (session_of m3) (dk_vault (mc_desk m3)) <> None ->
    forall b, reshare_status b m3 = Settings.settings_sync_status (mc_errors m3) (session_of m3) (dk_vault (mc_desk m3))).
  { unfold reshare_status. by destruct (Settings.settings_item _ _). }
  destruct (is_okb (on_desk Flow.session_vault_key) m1 && is_okb (on_desk Flow.api_for) m1) eqn:Eready.
  - apply mbind_Ok in Hrun as (r & m4 & Hat & [= Hr <-]). unfold attempt in Hat.
    apply andb_true_iff in Eready as [_ Hf].
    destruct (sync_once _ _ _ _ _ _ _ _) as [[so|e|] m5] eqn:Es; [..|done]; injection Hat as <- <-; injection Hr as <- <-; (split; [done|]); (split; [|by auto]); [intros _|done].
    apply sync_once_published in Es as (vk & Hk & Hp); [by exists vk, (out_version so)|].
    unfold is_okb, on_desk in Hf. destruct (Flow.api_for (mc_desk m1)) as [[[]|e|] d]; done.
  - injection Hrun as <- <- <-. split; [done|]. split; [done|]. by auto.
Qed.

End claims.

(** * Concrete runs *)

(** A computer that shares its settings with the account, and one whose quiet push is not quiet. *)
Module ShareDemo.
Import FlowDemo.
#[export] Existing Instances SettingsDemo.jn SettingsDemo.ja SettingsDemo.js SettingsDemo.jw SettingsDemo.jp SettingsDemo.jv.

Definition machine : Machine := MkMachine first SettingsDemo.desktop [].
Definition item : Item.t := Eval vm_compute in Settings.build_item 10 None (Settings.local_settings (Share.seen machine)).
#[export] Instance item_json : Json Item.t := table_json [item].

Definition round : Round := MkRound (MkFate (fun _ => true) true) 10 demo_nonce demo_nonce.
Abbreviation reshare := (Share.settings_reshare SettingsDemo.any_key Demo.cfg SyncDemo.rqs SyncDemo.dws SyncDemo.nonces SyncDemo.alone round).
Definition write := Share.settings_sync_write Demo.cfg SyncDemo.rqs SyncDemo.dws SyncDemo.nonces SyncDemo.alone round.
Definition after : Machine := snd (reshare machine).
Definition reported : ReshareOut := Eval vm_compute in match fst (reshare machine) with Ok o => o | _ => MkReshareOut false None (Settings.MkStatus false 0 false false false false []) end.

Lemma reshare_ran : reshare machine = (Ok reported, after).
Proof. unfold after. apply run_answer. vm_compute. reflexivity. Qed.

Lemma reshare_truthful_witness :
  exists vk v, VaultSession.vault_key (Share.session_of machine) = Some vk
    /\ published vk v (LocalVault.to_document (dk_vault (mc_desk after))) (Flow.world (mc_desk after)).
Proof.
  destruct (reshare_truthful (L := toy_laws) (BL := toy_base64_laws) (SL := doc_laws) (ZL := toy_zstd_laws) SettingsDemo.any_key Demo.cfg
              SyncDemo.rqs SyncDemo.dws SyncDemo.nonces SyncDemo.alone round machine reported after reshare_ran) as (_ & H & _).
  apply H. reflexivity.
Defined.

Lemma sync_once_refines_witness :
  fst (Share.sync_now SettingsDemo.any_key Demo.cfg SyncDemo.rqs SyncDemo.dws SyncDemo.nonces SyncDemo.alone round machine)
  = map_err FromApi (fst (Api.sync_once Demo.cfg SyncDemo.rqs SyncDemo.dws SyncDemo.nonces SyncDemo.alone
                            (healed SettingsDemo.any_key round machine) (Flow.world (mc_desk machine)))).
Proof.
  apply (sync_once_refines SettingsDemo.any_key Demo.cfg SyncDemo.rqs SyncDemo.dws SyncDemo.nonces SyncDemo.alone round machine).
  vm_compute. reflexivity.
Defined.

(** A device whose session has expired: the item is written, and the command fails where the push was
    to be quiet. *)
Definition expired : Machine := MkMachine (Flow.set_tokens None None first) SettingsDemo.desktop [].
Lemma quiet_push_fails :
  fst (write expired) = Err (FromApi NotSignedIn)
  /\ is_Some (LocalVault.get (dk_vault (mc_desk (snd (write expired)))) Settings.settings_item_id).
Proof. split; [vm_compute; reflexivity|]. vm_compute. by eexists. Qed.
End ShareDemo.
