(* ===== verification/Tunnel.v ===== *)
(** [apps/desktop/src-tauri/src/vpn.rs], the parts that touch the machine: finding the WireGuard tools,
    the tunnel controller over the commands it runs, and the fetcher of a node's public key. The
    controller and the fetcher are instances of the interfaces the VPN manager is proved against. *)
From S2P Require Import Prelude Bytes Text Crypto Floats Value Totp Toy RecoveryKit Keyring Model Envelope VaultStore Session AppLock Generator Health Passkey.
From S2P Require Import Csv Importers Provision Vpn NmHost VpnManager ApiDb ApiAuth ApiRoutes ApiDemo ApiFacts ApiClaims ApiVault SyncClient SyncFlows SettingsSync CrowdSec Watchdog Cloud Netdata Providers Servers Terminal.
Local Open Scope Z_scope.

(** The machine: its environment variables, files, and where the tunnel's file goes. *)
Record Host : Type := MkHost {
  on_windows : bool;
  var : string -> option text;
  path_dirs : option (list text);
  is_file : text -> bool;
  temp_conf : text;
}.

(** A process: the text of the error that kept it from starting, or its exit status and output. *)
Class Process (W : Type) : Type := { spawn : text -> list text -> ST W text (Z * bytes * bytes) }.

(** The world with the tunnel's file, and every command that was run. [no_write] is a failure to write
    the file: its stage, its text and what is then in the file; [stuck] is a file that cannot be removed. *)
Record Tun (W : Type) : Type := MkTun {
  tn_world : W; tn_conf : option text; tn_ran : list (text * list text); no_write : option (string * text * option text); stuck : bool }.
Arguments MkTun {W}. Arguments tn_world {W}. Arguments tn_conf {W}. Arguments tn_ran {W}. Arguments no_write {W}. Arguments stuck {W}.

Module Tunnel.
(** ** Where the tools are *)
Section host.
Variable h : Host.
Definition join_path (dir bin : text) : text :=
  if starts_with (lit "/") bin then bin
  else match last dir with None => bin | Some c => if c =? chr "/" then dir ++ bin else dir ++ lit "/" ++ bin end.
Definition which_on_path (bin : text) : option text :=
  dirs ← path_dirs h; List.find (is_file h) (map (fun d => join_path d bin) dirs).
Definition PACKAGE_DIRS : list text := [lit "/opt/homebrew/bin"; lit "/usr/local/bin"; lit "/opt/local/bin"].
Definition find_bin (bin : text) : option text :=
  match which_on_path bin with
  | Some p => Some p
  | None => if on_windows h then None else List.find (is_file h) (map (fun d => join_path d bin) PACKAGE_DIRS)
  end.
Definition wg_bin : text :=
  match var h "SENTINEL_WG_EXE" with
  | Some p => p
  | None => if on_windows h then lit "C:\Program Files\WireGuard\wg.exe" else default (lit "wg") (find_bin (lit "wg"))
  end.
Definition wireguard_bin : text := default (lit "C:\Program Files\WireGuard\wireguard.exe") (var h "SENTINEL_WIREGUARD_EXE").
Definition wg_quick : text := default (lit "wg-quick") (find_bin (lit "wg-quick")).

(** [Path::exists] on Windows is read as [is_file]: the candidates are programs. *)
Definition wireguard_installed : bool * option text :=
  if on_windows h then
    match List.find (is_file h) [wireguard_bin; wg_bin] with Some c => (true, Some c) | None => (false, None) end
  else if starts_with (lit "/") wg_bin && is_file h wg_bin then (true, Some wg_bin)
  else match find_bin (lit "wg-quick") with
       | Some p => (true, Some p)
       | None => match find_bin (lit "wg") with Some p => (true, Some p) | None => (false, None) end
       end.
End host.

Section controller.
Context {W : Type} {Pr : Process W}.
Variable h : Host.
(** Seconds since 1970, when the counters are read. *)
Variable now_secs : Z.

Definition M (A : Type) : Type := ST (Tun W) CoreError A.
Definition wg_err (detail : text) : CoreError := Provision "wg" (to_string detail).
Definition logged (w : W) (program : text) (args : list text) (s : Tun W) : Tun W :=
  MkTun w (tn_conf s) (tn_ran s ++ [(program, args)]) (no_write s) (stuck s).
Definition set_conf (c : option text) (s : Tun W) : Tun W := MkTun (tn_world s) c (tn_ran s) (no_write s) (stuck s).
Definition words (l : list string) : list text := map lit l.

Definition run (program : text) (args : list text) : M text := fun s =>
  let '(r, w) := spawn program args (tn_world s) in
  (match r with
   | Err e => Err (wg_err (lit "spawn " ++ program ++ lit ": " ++ e))
   | Panic => Panic
   | Ok (code, out, er) =>
       if code =? 0 then Ok (Lossy.from_utf8_lossy out)
       else Err (wg_err (program ++ lit " " ++ join (lit " ") args ++ lit ": " ++ trim (Lossy.from_utf8_lossy er)))
   end, logged w program args s).
(** [.unwrap_or_default()]. *)
Definition or_empty (c : M text) : M text := fun s => match c s with (Err _, s) => (Ok [], s) | r => r end.

(** [net session] succeeds only for an administrator. *)
Definition is_elevated : M bool := fun s =>
  if on_windows h then
    let '(r, w) := spawn (lit "net") [lit "session"] (tn_world s) in
    (match r with Ok (code, _, _) => Ok (code =? 0) | Err _ => Ok false | Panic => Panic end, logged w (lit "net") [lit "session"] s)
  else (Ok true, s).

Definition write_private_conf (contents : text) : M unit := fun s =>
  match no_write s with
  | Some (stage, e, rest) => (Err (wg_err (lit stage ++ lit ": " ++ e)), set_conf rest s)
  | None => (Ok tt, set_conf (Some contents) s)
  end.

Definition u64_or_0 (o : option text) : Z := default 0 (o ≫= parse_unsigned (2 ^ 64 - 1)).
Definition latest_handshake : M Z :=
  let! out := or_empty (run (wg_bin h) [lit "show"; Mgr.TUNNEL; lit "latest-handshakes"]) in
  ret (u64_or_0 (last (Generator.split_whitespace out))).
Definition transfer : M (Z * Z) :=
  let! out := or_empty (run (wg_bin h) [lit "show"; Mgr.TUNNEL; lit "transfer"]) in
  let cols := Generator.split_whitespace out in
  ret (u64_or_0 (cols !! 1%nat), u64_or_0 (cols !! 2%nat)).

(** [flush_wg_network]: the commands on Windows; their outcome is ignored. *)
Definition FLUSH : list (text * list text) :=
  [(lit "route", words ["delete"; "0.0.0.0"; "mask"; "128.0.0.0"]);
   (lit "route", words ["delete"; "128.0.0.0"; "mask"; "128.0.0.0"]);
   (lit "powershell", words ["-NoProfile"; "-NonInteractive"; "-Command";
      "Get-DnsClientNrptRule | Where-Object { $_.NameServers -contains '1.1.1.1' } | Remove-DnsClientNrptRule -Force"]);
   (lit "ipconfig", words ["/flushdns"])].
Definition quiet (s : Tun W) (c : text * list text) : Tun W := logged (snd (spawn c.1 c.2 (tn_world s))) c.1 c.2 s.
Definition flush_commands : list (text * list text) := if on_windows h then FLUSH else [].
Definition flush_wg_network (s : Tun W) : Tun W := fold_left quiet flush_commands s.

Definition install_command : text * list text :=
  if on_windows h then (wireguard_bin h, [lit "/installtunnelservice"; temp_conf h]) else (wg_quick h, [lit "up"; temp_conf h]).
Definition remove_command : text * list text :=
  if on_windows h then (wireguard_bin h, [lit "/uninstalltunnelservice"; Mgr.TUNNEL]) else (wg_quick h, [lit "down"; temp_conf h]).

(** [let _ = std::fs::remove_file(..)]. *)
Definition remove_conf (s : Tun W) : Tun W := if stuck s then s else set_conf None s.
Definition down : M unit := fun s =>
  let '(r, s) := run remove_command.1 remove_command.2 s in
  (let? _ := r in Ok tt, flush_wg_network (remove_conf s)).

Definition needs_admin : CoreError :=
  wg_err (lit "NorthKey must run as Administrator to create the WireGuard tunnel. Close NorthKey, right-click it, choose " ++ [34] ++ lit "Run as administrator" ++ [34] ++ lit ", then Connect again.").
Definition install : M unit := fun s =>
  match run install_command.1 install_command.2 s with
  | (Err e, s) => (Err (if on_windows h && contains_str (lit "denied") (lit (display e)) then needs_admin else e), s)
  | (r, s) => (let? _ := r in Ok tt, s)
  end.

(** Up to [n] looks for a handshake. *)
Fixpoint await (n : nat) : M bool :=
  match n with
  | O => ret false
  | S n => let! hs := latest_handshake in if 0 <? hs then ret true else await n
  end.

Definition no_handshake (rx tx : Z) : CoreError :=
  wg_err (lit "no WireGuard handshake within 120s " ++ [8212] ++ lit " the exit node didn't answer (tx=" ++ show_dec tx ++ lit "B rx=" ++ show_dec rx ++ lit "B)."
    ++ (if tx =? 0 then lit " Your PC never sent any tunnel traffic " ++ [8212] ++ lit " a local WireGuard/driver issue."
        else if rx =? 0 then lit " Your PC sent traffic but the exit node never replied " ++ [8212] ++ lit " a server-side issue." else [])
    ++ lit " The tunnel was removed so your internet is restored; please try Connect again.").

Definition up (conf : Wg.ClientConf) : M unit :=
  let! _ := write_private_conf (Wg.render_client_conf conf) in
  let! _ := install in
  let! ok := await 60 in
  if ok then ret tt
  else
    let! _ := or_empty (run (wg_bin h) [lit "show"; Mgr.TUNNEL]) in
    let! (rx, tx) := transfer in
    let! _ := (fun s => match down s with (Panic, s) => (Panic, s) | (_, s) => (Ok tt, s) end) in
    err (no_handshake rx tx).

Definition counters (elapsed : f64) : M (Z * Z * Z) :=
  let! (rx, tx) := transfer in
  let! hs := latest_handshake in
  ret (rx, tx, if hs =? 0 then 0 else Z.max 0 (now_secs - hs)).
End controller.

(** ** The fetcher *)
Section fetcher.
Context {W : Type} {H : Http W} {J : JsonText} {X : JsonMisfit} {P : CryptoPrims}.

Definition callback_body_of (v : Value) : option Callback.CallbackBody :=
  match Js.struct_fields ["pubkey"; "ip"; "mac"] v with
  | Some [k; i; m] => k ← Js.str k; i ← Js.str i; m ← Js.str m; Some (Callback.MkCallbackBody k i m)
  | _ => None
  end.
Definition callback_request (ip token : text) : HttpReq :=
  MkHttpReq "GET" (lit "http://" ++ ip ++ lit ":443/") (Some (lit "Bearer " ++ token)) None None.
(** What one request decides: the fetch ends with this, or goes on after noting that (a status without
    its reason phrase). *)
Definition judge (hmac_key_hex : text) (r : result (Z * text) string) : Result text + text :=
  match r with
  | Ok (status, body) =>
      if is_success status then
        match from_str callback_body_of body with
        | inr b => inl (Callback.verify_callback b hmac_key_hex)
        | inl e => inr (lit "bad callback json: " ++ lit e)
        end
      else inr (lit "callback HTTP " ++ show_dec status)
  | Err e => inr (lit "callback request: " ++ lit e)
  | Panic => inr []
  end.
Fixpoint fetch_loop (n : nat) (ip token hmac_key_hex last : text) : ST W CoreError text :=
  match n with
  | O => err (Provision "callback" (to_string (lit "server pubkey not retrieved: " ++ last)))
  | S n => fun w =>
      let '(r, w) := send (callback_request ip token) w in
      match judge hmac_key_hex r with
      | inl v => (v, w)
      | inr last => fetch_loop n ip token hmac_key_hex last w
      end
  end.
Definition fetch_pubkey (ip token hmac_key_hex : text) : ST W CoreError text := fetch_loop 90 ip token hmac_key_hex (lit "no response").
End fetcher.

#[export] Instance HttpPubkeyFetcher {W : Type} {H : Http W} {J : JsonText} {X : JsonMisfit} {P : CryptoPrims} : ServerPubkeyFetcher W := {|
  fetch := fetch_pubkey |}.
Definition SystemWgController {W : Type} {Pr : Process W} (h : Host) : WgController (Tun W) := {|
  Vpn.up := up h; Vpn.down := down h |}.
End Tunnel.
