(* ===== verification/TunnelClaims.v ===== *)
(** What the tunnel controller and the key fetcher promise: a tunnel that is reported up has shaken
    hands, one that has not is removed before the error is reported, and a node's key is taken only
    from a reply that its session's secret signs. *)
From S2P Require Import Prelude Bytes Text Crypto Floats Value Totp Toy RecoveryKit Keyring Model Envelope VaultStore Session AppLock Generator Health Passkey.
From S2P Require Import Csv Importers Provision Vpn NmHost VpnManager ApiDb ApiAuth ApiRoutes ApiDemo ApiFacts ApiClaims ApiVault SyncClient SyncFlows SettingsSync CrowdSec Watchdog Cloud Netdata Providers Servers Terminal Tunnel.
Local Open Scope Z_scope.
Import Tunnel.

(** A process answers; it does not take the app down. *)
Class ProcessLaws (W : Type) {Pr : Process W} : Prop := { spawn_returns p args w : fst (spawn p args w) <> Panic }.

Section controller.
Context {W : Type} {Pr : Process W} {PL : ProcessLaws W}.
Variable h : Host.
Implicit Type s : Tun W.

Definition look : text * list text := (wg_bin h, [lit "show"; Mgr.TUNNEL; lit "latest-handshakes"]).
Definition dump : text * list text := (wg_bin h, [lit "show"; Mgr.TUNNEL]).
Definition totals : text * list text := (wg_bin h, [lit "show"; Mgr.TUNNEL; lit "transfer"]).

(** Running [c] appends [l] to the commands, and leaves the file as it is. *)
Definition runs (l : list (text * list text)) s s' : Prop :=
  tn_ran s' = tn_ran s ++ l /\ tn_conf s' = tn_conf s /\ no_write s' = no_write s /\ stuck s' = stuck s.
Lemma runs_refl s : runs [] s s.
Proof. split; [by rewrite app_nil_r|done]. Qed.
Lemma runs_trans l1 l2 s1 s2 s3 : runs l1 s1 s2 -> runs l2 s2 s3 -> runs (l1 ++ l2) s1 s3.
Proof. intros (H1 & C1 & N1 & K1) (H2 & C2 & N2 & K2). split; [by rewrite H2, H1, app_assoc|]. split_and!; congruence. Qed.

Lemma run_runs p args s : runs [(p, args)] s (snd (run p args s)) /\ fst (run p args s) <> Panic.
Proof.
  unfold run. pose proof (spawn_returns p args (tn_world s)) as Hp. destruct (spawn p args (tn_world s)) as [[[[code out] er]|e|] w]; [|done..].
  split; [done|]. cbn. by destruct (code =? 0).
Qed.
Lemma or_empty_runs p args s : exists t s', or_empty (run p args) s = (Ok t, s') /\ runs [(p, args)] s s'.
Proof.
  unfold or_empty. destruct (run_runs p args s) as [Hr Hp]. destruct (run p args s) as [[t|e|] s']; [by eexists _, _..|done].
Qed.
Lemma look_runs s : exists v s', latest_handshake h s = (Ok v, s') /\ runs [look] s s'.
Proof.
  unfold latest_handshake, mbind. destruct (or_empty_runs (wg_bin h) [lit "show"; Mgr.TUNNEL; lit "latest-handshakes"] s) as (t & s' & -> & Hr).
  by eexists _, _.
Qed.
Lemma transfer_runs s : exists v s', transfer h s = (Ok v, s') /\ runs [totals] s s'.
Proof.
  unfold transfer, mbind. destruct (or_empty_runs (wg_bin h) [lit "show"; Mgr.TUNNEL; lit "transfer"] s) as (t & s' & -> & Hr).
  by eexists _, _.
Qed.

(** The handshakes that [n] looks in a row see. *)
Fixpoint seen (n : nat) s : list Z :=
  match n with
  | O => []
  | S n => match latest_handshake h s with (Ok v, s) => v :: seen n s | (_, s) => 0 :: seen n s end
  end.

(** Waiting stops at the first handshake seen. *)
Lemma await_spec n s : exists s', await h n s = (Ok (existsb (Z.ltb 0) (seen n s)), s')
  /\ exists k, (k <= n)%nat /\ (existsb (Z.ltb 0) (seen n s) = false -> k = n) /\ (existsb (Z.ltb 0) (seen n s) = true -> 0 < k)%nat
       /\ runs (repeat look k) s s'.
Proof.
  revert s; induction n as [|n IH]; intros s; cbn [await seen].
  - exists s. split; [done|]. exists 0%nat. do 3 (split; [done|]). apply runs_refl.
  - destruct (look_runs s) as (v & s1 & E & H1). unfold mbind. rewrite E. cbn [existsb]. destruct (0 <? v) eqn:Ev.
    + exists s1. split; [done|]. exists 1%nat. split; [lia|]. split; [done|]. split; [lia|done].
    + destruct (IH s1) as (s' & -> & k & Hk & Hf & Ht & Hr). exists s'. split; [done|]. exists (S k).
      split; [lia|]. split; [intros Hn; by rewrite (Hf Hn)|]. split; [lia|]. cbn [repeat]. by eapply (runs_trans [look]).
Qed.

Lemma flush_ran s : tn_ran (flush_wg_network h s) = tn_ran s ++ flush_commands h /\ tn_conf (flush_wg_network h s) = tn_conf s.
Proof.
  unfold flush_wg_network. generalize (flush_commands h). intros l. revert s; induction l as [|c l IH]; intros s; cbn [fold_left]; [by rewrite app_nil_r|].
  destruct (IH (quiet s c)) as [-> ->]. split; [|done]. cbn. rewrite <- app_assoc. by destruct c.
Qed.

(** Taking the tunnel down never stops half way: the file with the private key is removed whatever the
    tool answers. *)
Lemma down_spec s : exists r s', down h s = (r, s') /\ r <> Panic /\ tn_conf s' = (if stuck s then tn_conf s else None) /\ tn_ran s' = tn_ran s ++ [remove_command h] ++ flush_commands h.
Proof.
  unfold down. destruct (run_runs (remove_command h).1 (remove_command h).2 s) as [(Hr & Hc & _ & Hk) Hp]. destruct (run _ _ s) as [r s1]. cbn [fst snd] in *.
  eexists _, _. split; [done|]. destruct (flush_ran (remove_conf s1)) as [-> ->]. unfold remove_conf. rewrite <- Hk.
  split; [by destruct r|]. destruct (stuck s1); cbn [set_conf tn_conf tn_ran]; rewrite Hr, <- app_assoc; (split; [done|]); by destruct (remove_command h).
Qed.

Lemma install_spec s : exists r s', install h s = (r, s') /\ r <> Panic /\ runs [install_command h] s s'.
Proof.
  unfold install. destruct (run_runs (install_command h).1 (install_command h).2 s) as [Hr Hp]. destruct (run _ _ s) as [[t|e|] s1]; cbn [fst snd] in *;
    [..|done]; eexists _, _; (split; [done|split; [done|]]); by destruct (install_command h).
Qed.

Lemma up_spec conf s r s' :
  up h conf s = (r, s') ->
  let s1 := set_conf (Some (Wg.render_client_conf conf)) s in
  let s2 := snd (install h s1) in
  match r with
  | Ok _ => existsb (Z.ltb 0) (seen 60 s2) = true /\ tn_conf s' = Some (Wg.render_client_conf conf)
      /\ exists k, (0 < k <= 60)%nat /\ tn_ran s' = tn_ran s ++ [install_command h] ++ repeat look k
  | Err _ => (exists stage e rest, no_write s = Some (stage, e, rest) /\ tn_ran s' = tn_ran s /\ tn_conf s' = rest)
      \/ (tn_ran s' = tn_ran s ++ [install_command h] /\ fst (install h s1) = r /\ tn_conf s' = Some (Wg.render_client_conf conf))
      \/ (existsb (Z.ltb 0) (seen 60 s2) = false /\ (stuck s = false -> tn_conf s' = None)
          /\ tn_ran s' = tn_ran s ++ ([install_command h] ++ repeat look 60 ++ [dump; totals]) ++ [remove_command h] ++ flush_commands h)
  | Panic => False
  end.
Proof.
  cbn zeta. unfold up, mbind at 1, write_private_conf. destruct (no_write s) as [[[stage e] rest]|] eqn:Hw.
  { intros [= <- <-]. left. by exists stage, e, rest. }
  set (s1 := set_conf _ s). destruct (install_spec s1) as (ri & s2 & Ei & Hi & R1). rewrite Ei. cbn [fst snd].
  unfold mbind at 1. rewrite Ei. destruct ri as [u|e|]; [|intros [= <- <-]; right; left; destruct R1 as (-> & Hc & _); by rewrite Hc|done].
  destruct (await_spec 60 s2) as (s3 & E3 & k & Hk & Hf & Ht & R3). unfold mbind at 1. rewrite E3.
  pose proof (runs_trans _ _ _ _ _ R1 R3) as (Hran & Hconf & _). destruct (existsb (Z.ltb 0) (seen 60 s2)).
  { intros [= <- <-]. split; [done|]. split; [by rewrite Hconf|]. exists k. split; [split; [by apply Ht|done]|done]. }
  rewrite (Hf eq_refl) in R3. unfold mbind at 1. destruct (or_empty_runs (wg_bin h) [lit "show"; Mgr.TUNNEL] s3) as (t & s4 & -> & R4).
  unfold mbind at 1. destruct (transfer_runs s4) as ([rx tx] & s5 & -> & R5). unfold mbind.
  destruct (down_spec s5) as (rd & s6 & -> & Hd & Hc & Hr). pose proof (runs_trans _ _ _ _ _ (runs_trans _ _ _ _ _ R1 R3) (runs_trans _ _ _ _ _ R4 R5)) as (Hran5 & _ & _ & Hk5).
  destruct rd as [u'|e|]; [| |done]; intros [= <- <-]; right; right; (split; [done|]); (split; [intros Hst; rewrite Hc, Hk5; change (stuck s1) with (stuck s); by rewrite Hst|]); rewrite Hr, Hran5; cbn [tn_ran set_conf];
    by rewrite <- !app_assoc.
Qed.
Lemma up_panics conf s s' : up h conf s <> (Panic, s').
Proof. intros Hu. exact (up_spec _ _ _ _ Hu). Qed.

(** C25: a tunnel is reported up only after a handshake. When the controller succeeds, the tool was started
    on the rendered file and one of its sixty looks saw a handshake. When it fails, one of three things
    happened: the file could not be written and nothing was run; the tool refused and nothing more was
    run, so that the file with the private key stays; or all sixty looks saw no handshake, and then the
    last thing done is to remove the tunnel, its file with the private key, where the system lets it be
    removed, and the routes. *)
Theorem up_never_strands conf s r s' :
  up h conf s = (r, s') ->
  let s1 := set_conf (Some (Wg.render_client_conf conf)) s in
  let s2 := snd (install h s1) in
  match r with
  | Ok _ => existsb (Z.ltb 0) (seen 60 s2) = true /\ tn_conf s' = Some (Wg.render_client_conf conf)
      /\ exists k, (0 < k <= 60)%nat /\ tn_ran s' = tn_ran s ++ [install_command h] ++ repeat look k
  | Err _ => (exists stage e rest, no_write s = Some (stage, e, rest) /\ tn_ran s' = tn_ran s /\ tn_conf s' = rest)
      \/ (tn_ran s' = tn_ran s ++ [install_command h] /\ fst (install h s1) = r /\ tn_conf s' = Some (Wg.render_client_conf conf))
      \/ (existsb (Z.ltb 0) (seen 60 s2) = false /\ (stuck s = false -> tn_conf s' = None)
          /\ tn_ran s' = tn_ran s ++ ([install_command h] ++ repeat look 60 ++ [dump; totals]) ++ [remove_command h] ++ flush_commands h)
  | Panic => False
  end.
Proof. apply up_spec. Qed.

(** A tool that refuses leaves the file with the private key behind. *)
Lemma refused_install_keeps_key conf s e s2 :
  no_write s = None -> install h (set_conf (Some (Wg.render_client_conf conf)) s) = (Err e, s2) ->
  up h conf s = (Err e, s2) /\ tn_conf s2 = Some (Wg.render_client_conf conf).
Proof.
  intros Hw Hi. unfold up, mbind at 1, write_private_conf. rewrite Hw. unfold mbind at 1. rewrite Hi. split; [done|].
  destruct (install_spec (set_conf (Some (Wg.render_client_conf conf)) s)) as (r & s' & E & _ & _ & Hc & _). rewrite Hi in E. injection E as _ <-. done.
Qed.
End controller.

(** ** The fetcher *)

Section fetcher.
Context {W : Type} {H : Http W} {J : JsonText} {X : JsonMisfit} {P : CryptoPrims}.

(** What the node answers to [n] requests in a row. *)
Fixpoint answers (n : nat) (ip token : text) (w : W) : list (result (Z * text) string) :=
  match n with
  | O => []
  | S n => let '(r, w) := send (callback_request ip token) w in r :: answers n ip token w
  end.
(** The first answer that decides. *)
Fixpoint decided (key : text) (rs : list (result (Z * text) string)) : option (Result text) :=
  match rs with
  | [] => None
  | r :: rs => match judge key r with inl v => Some v | inr _ => decided key rs end
  end.

Lemma fetch_loop_decided n ip token key last w :
  match decided key (answers n ip token w) with
  | Some v => fst (fetch_loop n ip token key last w) = v
  | None => exists e, fst (fetch_loop n ip token key last w) = Err e
  end.
Proof.
  revert last w; induction n as [|n IH]; intros last w; cbn [answers decided fetch_loop]; [by eexists|].
  destruct (send (callback_request ip token) w) as [r w1]. cbn [decided]. destruct (judge key r); [done|apply IH].
Qed.

Lemma decided_in key rs v : decided key rs = Some v ->
  exists status body b, Ok (status, body) ∈ rs /\ is_success status = true /\ from_str callback_body_of body = inr b /\ v = Callback.verify_callback b key.
Proof.
  induction rs as [|r rs IH]; cbn [decided]; [done|]. destruct (judge key r) as [v'|n] eqn:E.
  - intros [= ->]. unfold judge in E. destruct r as [[status body]|e|]; [|done..]. destruct (is_success status) eqn:Es; [|done].
    destruct (from_str callback_body_of body) as [e|b] eqn:Eb; [done|]. injection E as <-. exists status, body, b. split; [by left|done].
  - intros (status & body & b & Hin & Hrest)%IH. exists status, body, b. split; [by right|done].
Qed.

(** C26: The key of a node is taken only from a reply that proves it knows the secret of this session.
    The fetch returns what the first well-formed reply within ninety requests leads to; a key it
    returns is that reply's own, under the code, keyed with the session's secret, of that key and
    the address next to it; and any other reply ends in an error. *)
Theorem fetched_key_authentic ip token key w :
  match decided (Callback.hex_encode key) (answers 90 ip token w) with
  | Some v => fst (fetch_pubkey ip token (Callback.hex_encode key) w) = v
  | None => exists e, fst (fetch_pubkey ip token (Callback.hex_encode key) w) = Err e
  end
  /\ forall pk, fst (fetch_pubkey ip token (Callback.hex_encode key) w) = Ok pk ->
       exists status body b, Ok (status, body) ∈ answers 90 ip token w /\ is_success status = true /\ from_str callback_body_of body = inr b
         /\ pk = Callback.pubkey b
         /\ Callback.hex_decode (Callback.mac b) = Ok (arr_bytes (hmac_sha256 key (utf8 pk ++ utf8 (Callback.ip b)))).
Proof.
  pose proof (fetch_loop_decided 90 ip token (Callback.hex_encode key) (lit "no response") w) as Hd. split; [exact Hd|].
  intros pk Hpk. unfold fetch_pubkey in Hpk. destruct (decided _ _) as [v|] eqn:E; [|destruct Hd as [e He]; congruence].
  apply decided_in in E as (status & body & b & Hin & Hs & Hb & ->). exists status, body, b. do 3 (split; [done|]).
  rewrite Hd in Hpk. apply (callback_authentic b _ key) in Hpk as [-> Hm]; [done|apply Callback.hex_decode_encode].
Qed.
End fetcher.

(** * Concrete runs *)

(** The controller on a machine whose node shakes hands at the third look, and on one whose node never
    does; and the desktop's dependencies over the mock provider. *)
Module TunnelDemo.
Import Tunnel.
(** The account, and how many looks the handshake is away. *)
Definition world : Type := (MockCloud.t * nat)%type.
#[export] Instance process : Process world := {|
  spawn p args := fun w =>
    if bool_decide (last args = Some (lit "latest-handshakes"))
    then (Ok (0, utf8 (match w.2 with 0%nat => lit "KEY 1700000000" | _ => lit "KEY 0" end), []), (w.1, pred w.2))
    else (Ok (0, [], []), w) |}.
Lemma process_laws : ProcessLaws world.
Proof. split. intros p args w. cbn. by case_bool_decide. Qed.
#[export] Existing Instance process_laws.

Definition linux : Host := MkHost false (fun _ => None) (Some [lit "/usr/bin"]) (fun p => bool_decide (p = lit "/usr/bin/wg") || bool_decide (p = lit "/usr/bin/wg-quick")) (lit "/tmp/sentinel.conf").
Definition conf : Wg.ClientConf := Wg.MkClientConf (lit "PRIV") (lit "10.66.0.2/32") (lit "1.1.1.1") (lit "PUB") (lit "203.0.113.1:51820") Wg.full_tunnel 25.
Definition start (n : nat) : Tun world := MkTun (MockCloud.new 2, n) None [] None false.

Lemma up_never_strands_witness : tn_conf (snd (up linux conf (start 1000))) = None.
Proof.
  destruct (up linux conf (start 1000)) as [r s'] eqn:E. cbn [snd].
  pose proof (up_never_strands linux conf (start 1000) r s' E) as H. destruct r as [u|e|]; [| |destruct H].
  - destruct H as [H _]. vm_compute in H. discriminate H.
  - destruct H as [(stage & e' & l & H & _)|[(_ & H & _)|(_ & H & _)]]; [discriminate H|vm_compute in H; discriminate H|exact (H eq_refl)].
Defined.

(** The third look sees the handshake: three looks, and the tunnel stays. *)
Lemma third_look_connects :
  fst (up linux conf (start 2)) = Ok tt /\ map fst (tn_ran (snd (up linux conf (start 2)))) = lit "/usr/bin/wg-quick" :: repeat (lit "/usr/bin/wg") 3.
Proof. vm_compute. by split. Qed.

(** A node that is not listening yet, and then answers; the reply is numbered. *)
Definition secret : bytes := replicate 32 Byte.x0b.
Definition body : Value :=
  Js.obj [("pubkey", Str (lit "PUB")); ("ip", Str (lit "203.0.113.1"));
          ("mac", Str (Callback.hex_encode (arr_bytes (hmac_sha256 secret (utf8 (lit "PUB") ++ utf8 (lit "203.0.113.1"))))))].
#[export] Instance http : Http world := {|
  send _ := fun w => match w.2 with 0%nat => (Ok (200, [1]), w) | S n => (Err "connection refused"%string, (w.1, n)) end |}.
#[export] Instance json : JsonText := {| json_parse t := match t with [1] => inr body | _ => inl "syntax"%string end |}.
#[export] Instance misfits : JsonMisfit := {| Cloud.misfit _ := "type"%string |}.

Lemma fetched_key_authentic_witness :
  exists status b, Ok (status, b) ∈ answers 90 (lit "203.0.113.1") (lit "t") (MockCloud.new 2, 2%nat)
    /\ fst (fetch_pubkey (lit "203.0.113.1") (lit "t") (Callback.hex_encode secret) (MockCloud.new 2, 2%nat)) = Ok (lit "PUB").
Proof.
  assert (E : fst (fetch_pubkey (lit "203.0.113.1") (lit "t") (Callback.hex_encode secret) (MockCloud.new 2, 2%nat)) = Ok (lit "PUB"))
    by (vm_compute; reflexivity).
  destruct (proj2 (fetched_key_authentic (lit "203.0.113.1") (lit "t") secret (MockCloud.new 2, 2%nat)) _ E) as (status & b & _ & Hin & _).
  exists status, b. split; [exact Hin|exact E].
Defined.
End TunnelDemo.
