(* ===== verification/NodeImage.v ===== *)
(** What a fresh node does with its cloud-init ([provision/cloudinit.rs]): the files and commands of
    the rendered template read back, the callback that serves the node's public key, and the
    dead-man switch. The shell and Python of the template are translated as definitions beside the
    text they stand in. *)
From S2P Require Import Prelude Bytes Text Crypto Floats Value Toy RecoveryKit Keyring Model Csv Importers.
From S2P Require Import Template CloudTemplates Provision Vpn NmHost VpnManager Cloud Tunnel.
Local Open Scope Z_scope.

Module Image.
(** * Reading user data back *)

(** [write_files] holds blocks of a path, permissions and a literal block indented by six. *)
Fixpoint skip_past (l : text) (ls : list text) : list text :=
  match ls with [] => [] | m :: ls => if bool_decide (m = l) then ls else skip_past l ls end.
Definition indent : text := lit "      ".
Fixpoint literal (ls : list text) : list text :=
  match ls with
  | [] => []
  | l :: ls => match strip_prefix indent l with
               | Some r => r :: literal ls
               | None => if bool_decide (l = []) then [] :: literal ls else []
               end
  end.
Definition file (path : string) (ls : list text) : list text :=
  literal (skip_past (lit "    content: |") (skip_past (lit "  - path: " ++ lit path) ls)).
(** [runcmd] is a list of commands. *)
Definition commands (ls : list text) : list text := omap (strip_prefix (lit "  - ")) (skip_past (lit "runcmd:") ls).

(** The rules of a chain of [nft -f], comments apart. *)
Fixpoint rules (ls : list text) : list text :=
  match ls with
  | [] => []
  | l :: ls =>
      let l := trim_start l in
      if bool_decide (l = lit "}") then []
      else if starts_with (lit "#") l then rules ls else l :: rules ls
  end.
Definition chain (name : string) (ls : list text) : list text := rules (skip_past (lit "  chain " ++ lit name ++ lit " {") ls).

(** [wg-quick]'s format: sections of settings. *)
Fixpoint setting (sec : string) (key : string) (inside : bool) (ls : list text) : option text :=
  match ls with
  | [] => None
  | l :: ls =>
      if starts_with (lit "[") l then setting sec key (bool_decide (l = lit "[" ++ lit sec ++ lit "]")) ls
      else match inside, strip_prefix (lit key ++ lit " = ") l with
           | true, Some v => Some v
           | _, _ => setting sec key inside ls
           end
  end.
Definition conf_get (sec key : string) (ls : list text) : option text := setting sec key false ls.

(** What two ends of a tunnel have to agree on: each knows the other's public key, the caller knows
    where the other listens, and the other expects the caller's address. *)
Record matched {X : Wg.X25519} {B : Base64} (caller callee : list text) (host : text) : Prop := {
  callee_key : exists k, conf_get "Interface" "PrivateKey" callee = Some (b64_encode (arr_bytes k))
    /\ conf_get "Peer" "PublicKey" caller = Some (b64_encode (arr_bytes (Wg.x25519_public k)));
  caller_key : exists k, conf_get "Interface" "PrivateKey" caller = Some (b64_encode (arr_bytes k))
    /\ conf_get "Peer" "PublicKey" callee = Some (b64_encode (arr_bytes (Wg.x25519_public k)));
  endpoint : exists port, conf_get "Interface" "ListenPort" callee = Some port
    /\ conf_get "Peer" "Endpoint" caller = Some (host ++ lit ":" ++ port);
  address : exists a, conf_get "Interface" "Address" caller = Some a /\ conf_get "Peer" "AllowedIPs" callee = Some a;
}.

(** * [callback.py] *)

Definition py_space (c : Z) : bool := is_whitespace c || ((28 <=? c) && (c <=? 31)).
Fixpoint lstrip (s : text) : text := match s with c :: s' => if py_space c then lstrip s' else s | [] => [] end.
Definition strip (s : text) : text := reverse (lstrip (reverse (lstrip s))).

(** [json.dumps] of a dictionary of strings, which [serde_json] reads back. *)
Class PyJson : Type := { dumps : list (text * text) -> text }.
Class PyJsonLaws {J : JsonText} {D : PyJson} : Prop := {
  dumps_parse l : json_parse (dumps l) = inr (Obj (map (fun p => (p.1, Str p.2)) l)) }.

(** A string constant of the script, up to its closing quotation mark. *)
Fixpoint constant (before : text) (ls : list text) : option text :=
  match ls with
  | [] => None
  | l :: ls => match strip_prefix before l with Some r => fst <$> split_once 34 r | None => constant before ls end
  end.
Definition TOKEN (ls : list text) : option text := constant (lit "TOKEN = " ++ [34]) ls.
Definition KEY (ls : list text) : option text := constant (lit "KEY = bytes.fromhex(" ++ [34]) ls.

Section callback.
Context {P : CryptoPrims} {D : PyJson}.
(** The contents of [/etc/wireguard/pub], and what [api.ipify.org] answers. *)
Variables (pub_file : text) (ipify : option text).

Definition pub : text := strip pub_file.
Definition myip : text := match ipify with Some t => strip t | None => [] end.
Definition do_GET (token : text) (key : bytes) (authorization : option text) : Z * text :=
  if negb (bool_decide (default [] authorization = lit "Bearer " ++ token)) then (403, [])
  else
    let p := pub in
    let i := myip in
    let mac := Callback.hex_encode (arr_bytes (hmac_sha256 key (utf8 (p ++ i)))) in
    (200, dumps [(lit "pubkey", p); (lit "ip", i); (lit "mac", mac)]).
End callback.

(** * The dead-man switch *)

(** [wg show wg0 latest-handshakes] prints a line of a key and seconds since 1970 for each peer, zero
    for one that never shook hands; the script tests the second column, of the one peer of a node. *)
Definition deadman_fires (handshake : option Z) (now secs : Z) : bool :=
  match handshake with None => true | Some hs => secs <? now - hs end.
End Image.
