(* ===== verification/NodeImageClaims.v ===== *)
(** What the rendered user data makes of a node: both ends of a tunnel agree, the node's callback is
    the one the client verifies, chained nodes are wired to each other, and the switch that powers a
    node off. *)
From S2P Require Import Prelude Bytes Text Crypto Floats Value Toy RecoveryKit Keyring Model Csv Importers.
From S2P Require Import Template CloudTemplates Provision Vpn NmHost VpnManager Cloud Tunnel NodeImage.
Import Jinja JinjaLines Image.
Local Open Scope Z_scope.

(** * The lines of a node's user data *)

Definition flags (nh dm : bool) (x : string) : bool := if bool_decide (x = "next_hop") then nh else dm.

Definition conditions (l : list tok) : bool :=
  match l with [TIf x] => bool_decide (x = "next_hop") || bool_decide (x = "deadman_secs") | _ => true end.

Lemma go_flags var cond on pend ls :
  forallb conditions ls = true ->
  go var cond on pend ls = go var (flags (cond "next_hop") (cond "deadman_secs")) on pend ls.
Proof.
  revert on pend; induction ls as [|l ls IH]; intros on pend Hl; [done|]. cbn [forallb] in Hl. apply andb_true_iff in Hl as [Hl Hls].
  cbn [go]. destruct l as [|[s|x|x|] [|t l]]; rewrite IH by done; try done.
  cbn in Hl. assert (flags (cond "next_hop") (cond "deadman_secs") x = cond x) as ->; [|done].
  apply orb_true_iff in Hl as [->%bool_decide_eq_true| ->%bool_decide_eq_true]; reflexivity.
Qed.

Definition image (var : string -> text) (nh dm : bool) : list text := rendered var (flags nh dm) TEMPLATE_lines.

(** ** Its files and commands, for any values *)
Section files.
Variable var : string -> text.
Variables nh dm : bool.

Lemma wg0_file :
  file "/etc/wireguard/wg0.conf" (image var nh dm) =
    [lit "[Interface]"; lit "PrivateKey = " ++ var "server_privkey"; lit "Address = 10.66.0.1/24";
     lit "ListenPort = " ++ var "listen_port"; lit "SaveConfig = false"; []; lit "[Peer]";
     lit "PublicKey = " ++ var "client_pubkey"; lit "AllowedIPs = " ++ var "client_ip" ++ lit "/32"; []].
Proof. destruct nh, dm; vm_compute; reflexivity. Qed.
Lemma wg1_file :
  file "/etc/wireguard/wg1.conf" (image var nh dm) =
    if nh then [lit "[Interface]"; lit "PrivateKey = " ++ var "nh_privkey"; lit "Address = " ++ var "nh_address"; []; lit "[Peer]";
      lit "PublicKey = " ++ var "nh_peer_pubkey"; lit "Endpoint = " ++ var "nh_peer_endpoint"; lit "AllowedIPs = 0.0.0.0/0, ::/0";
      lit "PersistentKeepalive = 25"; []] else [].
Proof. destruct nh, dm; vm_compute; reflexivity. Qed.

Lemma callback_constants :
  TOKEN (file "/opt/sentinel/callback.py" (image var nh dm)) = fst <$> split_once 34 (var "callback_token" ++ [34])
  /\ KEY (file "/opt/sentinel/callback.py" (image var nh dm)) = fst <$> split_once 34 (var "callback_hmac_key" ++ 34 :: lit ")").
Proof. destruct nh, dm; vm_compute; split; reflexivity. Qed.

Lemma first_boot :
  commands (image var nh dm) =
    map lit ["systemctl disable ssh || true"; "systemctl stop ssh || true"; "systemctl mask ssh.service || true"]
    ++ (lit "umask 077; echo '" ++ var "server_privkey" ++ lit "' | wg pubkey > /etc/wireguard/pub || true")
    :: map lit ["sysctl -w net.ipv4.ip_forward=1"; "echo 'net.ipv4.ip_forward=1' > /etc/sysctl.d/99-sentinel.conf";
         "nft -f /etc/nftables.conf"; "nft add rule inet filter forward tcp flags syn tcp option maxseg size set rt mtu || true";
         "systemctl enable wg-quick@wg0"; "systemctl start wg-quick@wg0"]
    ++ (if nh then map lit ["systemctl enable wg-quick@wg1"; "systemctl start wg-quick@wg1"] else [])
    ++ map lit ["systemctl daemon-reload"; "systemctl enable --now sentinel-callback.service"]
    ++ (if dm then [lit "systemctl enable --now sentinel-deadman.timer"] else []).
Proof. destruct nh, dm; vm_compute; reflexivity. Qed.

Lemma input_chain :
  chain "input" (file "/etc/nftables.conf" (image var nh dm)) =
    [lit "type filter hook input priority 0; policy drop;"; lit "ct state established,related accept";
     lit "iif " ++ [34] ++ lit "lo" ++ [34] ++ lit " accept"; lit "udp dport " ++ var "listen_port" ++ lit " accept";
     lit "tcp dport 443 accept"; lit "iifname " ++ [34] ++ lit "wg0" ++ [34] ++ lit " accept"].
Proof. destruct nh, dm; vm_compute; reflexivity. Qed.
End files.

(** ** User data of given parameters *)

Definition clean_text (t : text) : Prop := 10 ∉ t.
Record clean (p : CloudInit.CloudInitParams) : Prop := {
  clean_texts : Forall clean_text [CloudInit.server_privkey p; CloudInit.client_pubkey p; CloudInit.client_ip p;
    CloudInit.callback_token p; CloudInit.callback_hmac_key p];
  clean_ints : 0 <= CloudInit.listen_port p /\ 0 <= CloudInit.deadman_secs p;
  clean_hop : match CloudInit.next_hop p with
              | Some n => Forall clean_text [wg1_privkey n; wg1_address n; peer_pubkey n; peer_endpoint n]
              | None => True
              end;
}.

Lemma digits_clean n : 0 <= n -> clean_text (show_dec n).
Proof. intros Hn Hin. pose proof (show_dec_digits n Hn) as H. rewrite Forall_forall in H. apply H in Hin. lia. Qed.

Lemma printable_clean t : Forall (fun c => 33 <= c <= 126) t -> clean_text t.
Proof. rewrite Forall_forall. intros H Hin%H. lia. Qed.

Lemma look_in ctx x v : look ctx x = Some v -> exists y, (y, v) ∈ ctx.
Proof.
  unfold look. destruct (find _ ctx) as [[y w]|] eqn:E; [|done]. intros [= <-]. exists y. by apply find_some in E as [?%list_elem_of_In _].
Qed.

Lemma context_clean p x : clean p -> clean_text (show_var (CloudInit.context p) x).
Proof.
  intros [Ht [Hl Hd] Hh]. unfold show_var. destruct (look (CloudInit.context p) x) as [v|] eqn:E; cbn; [|by apply not_elem_of_nil].
  apply look_in in E as [y E]. unfold CloudInit.context in E. rewrite !Forall_cons in Ht. destruct Ht as (H1 & H2 & H3 & H4 & H5 & _).
  assert (Hs : forall s, clean_text (lit s) <-> contains 10 (lit s) = false).
  { intros s. unfold clean_text, contains. rewrite <- not_true_iff_false, existsb_exists. split; intros H Hin; apply H.
    - destruct Hin as (c & Hc%list_elem_of_In & ->%Z.eqb_eq). exact Hc.
    - exists 10. split; [by apply list_elem_of_In|done]. }
  destruct (CloudInit.next_hop p) as [n|]; [rewrite !Forall_cons in Hh; destruct Hh as (? & ? & ? & ? & _)|];
    rewrite !elem_of_cons in E; destruct_or! E; simplify_eq; cbn [show_val]; try done; try (by apply digits_clean);
    try (by apply Hs); try (by apply not_elem_of_nil in E); try (by apply not_elem_of_nil).
Qed.

(** The values of a node's own names, and of the next hop's. *)
Lemma own_values p :
  let var := show_var (CloudInit.context p) in
  var "server_privkey" = CloudInit.server_privkey p /\ var "client_pubkey" = CloudInit.client_pubkey p
  /\ var "client_ip" = CloudInit.client_ip p /\ var "listen_port" = show_dec (CloudInit.listen_port p)
  /\ var "callback_token" = CloudInit.callback_token p /\ var "callback_hmac_key" = CloudInit.callback_hmac_key p.
Proof. unfold CloudInit.context. by destruct (CloudInit.next_hop p). Qed.
Lemma hop_values p n :
  CloudInit.next_hop p = Some n ->
  let var := show_var (CloudInit.context p) in
  var "nh_privkey" = wg1_privkey n /\ var "nh_address" = wg1_address n
  /\ var "nh_peer_pubkey" = peer_pubkey n /\ var "nh_peer_endpoint" = peer_endpoint n.
Proof. unfold CloudInit.context. by intros ->. Qed.

Section laws.
Context {T : Templates} {TL : TemplateLaws}.

Definition image_of (p : CloudInit.CloudInitParams) : list text :=
  image (show_var (CloudInit.context p)) (bool_decide (is_Some (CloudInit.next_hop p))) (negb (CloudInit.deadman_secs p =? 0)).

Lemma node_lines p : clean p -> exists t, CloudInit.render p = Ok t /\ split 10 t = image_of p.
Proof.
  intros Hc. pose proof (proj1 templates_well_formed) as Hw. unfold CloudInit.render, CloudInit.added, TEMPLATE.
  rewrite add_well_formed, render_well_formed by done. eexists. split; [reflexivity|].
  rewrite rendered_lines; [|done|done|intros x; by apply context_clean|by vm_compute].
  unfold image_of, image, rendered. destruct TEMPLATE_lines as [|l ls] eqn:El; [done|]. apply (f_equal (forallb conditions)) in El.
  rewrite go_flags; [unfold CloudInit.context; by destruct (CloudInit.next_hop p)|].
  cbn [forallb] in El. apply (andb_true_iff (conditions l)). by rewrite <- El.
Qed.
End laws.

(** ** The client's configuration *)

Lemma clean_lit s : contains 10 (lit s) = false -> clean_text (lit s).
Proof.
  unfold clean_text, contains. rewrite <- not_true_iff_false, existsb_exists. intros H Hin. apply H. exists 10.
  split; [by apply list_elem_of_In|done].
Qed.
Lemma clean_app a b : clean_text a -> clean_text b -> clean_text (a ++ b).
Proof. unfold clean_text. rewrite elem_of_app. tauto. Qed.
Lemma clean_join sep l : clean_text sep -> Forall clean_text l -> clean_text (join sep l).
Proof.
  intros Hs. induction 1 as [|x l Hx Hl IH]; [by apply not_elem_of_nil|]. destruct l; [done|].
  cbn [join] in *. auto using clean_app.
Qed.
Create HintDb clean.
#[local] Hint Resolve clean_app clean_join : clean.
#[local] Hint Extern 1 (clean_text (lit _)) => (apply clean_lit; vm_compute; reflexivity) : clean.

Lemma split_line a r : clean_text a -> split 10 (Wg.line a ++ r) = a :: split 10 r.
Proof. intros Ha. unfold Wg.line, Wg.NL. rewrite <- app_assoc. by apply split_app. Qed.

Record clean_conf (c : Wg.ClientConf) : Prop := {
  conf_texts : Forall clean_text [Wg.client_private_key c; Wg.client_address c; Wg.dns c; Wg.server_public_key c; Wg.server_endpoint c];
  conf_ips : Forall clean_text (Wg.allowed_ips c);
  conf_keepalive : 0 <= Wg.keepalive c;
}.

Lemma client_lines c :
  clean_conf c ->
  split 10 (Wg.render_client_conf c) =
    [lit "[Interface]"; lit "PrivateKey = " ++ Wg.client_private_key c; lit "Address = " ++ Wg.client_address c]
    ++ (if bool_decide (trim (Wg.dns c) = []) then [] else [lit "DNS = " ++ Wg.dns c])
    ++ [lit "MTU = 1280"; []; lit "[Peer]"; lit "PublicKey = " ++ Wg.server_public_key c; lit "Endpoint = " ++ Wg.server_endpoint c;
        lit "AllowedIPs = " ++ join (lit ", ") (Wg.allowed_ips c); lit "PersistentKeepalive = " ++ show_dec (Wg.keepalive c); []].
Proof.
  intros [Ht Hi Hk]. rewrite !Forall_cons in Ht. destruct Ht as (H1 & H2 & H3 & H4 & H5 & _).
  pose proof (digits_clean _ Hk) as Hd. unfold Wg.render_client_conf.
  do 3 (rewrite split_line by auto with clean). f_equal. f_equal. f_equal.
  assert (Hn : clean_text []) by apply not_elem_of_nil.
  assert (Htl : forall x, split 10 (x ++ []) = split 10 x) by (intros; by rewrite app_nil_r).
  case_bool_decide; cbn [app]; [|rewrite split_line by auto with clean; f_equal];
    do 6 (rewrite split_line by auto with clean; f_equal); rewrite <- Htl, split_line by auto with clean; done.
Qed.

(** * Both ends of a tunnel *)

Section wired.
Context {T : Templates} {TL : TemplateLaws} {B : Base64} {BL : Base64Laws} {X : Wg.X25519}.

Lemma b64_clean b : clean_text (b64_encode b).
Proof. apply printable_clean, b64_printable. Qed.
Lemma hex_clean b : clean_text (Callback.hex_encode b).
Proof.
  apply printable_clean. induction b as [|x b IH]; [constructor|]. destruct (Callback.byte_nibbles x) as [H1 H2].
  assert (Hd : forall v, 0 <= v < 16 -> 33 <= Callback.hex_digit v <= 126) by (intros v Hv; unfold Callback.hex_digit; destruct (v <? 10) eqn:E; bools; lia).
  change (Callback.hex_encode (x :: b)) with (Callback.hex_digit (byte_to_Z x / 16) :: Callback.hex_digit (byte_to_Z x mod 16) :: Callback.hex_encode b).
  auto.
Qed.
Lemma private_clean k : clean_text (Wg.private_base64 k).
Proof. apply b64_clean. Qed.
Lemma public_clean k : clean_text (Wg.public_base64 k).
Proof. apply b64_clean. Qed.
Lemma rand_hex_clean draw n : clean_text (Mgr.rand_hex draw n).
Proof.
  unfold Mgr.rand_hex, clean_text. intros Hin%elem_of_take. destruct Hin as (k & Hk%list_elem_of_lookup_2 & _). revert Hk.
  induction (seq _ _) as [|j l IH]; cbn; [by apply not_elem_of_nil|]. rewrite elem_of_app. intros [H|H]; [by apply hex_clean in H|auto].
Qed.
#[local] Hint Resolve hex_clean private_clean public_clean : clean.

Lemma params_clean sec : clean (Session.params_of sec).
Proof. split; [|cbn; lia|done]. cbn -[lit Callback.hex_encode]. unfold Session.hex. rewrite ?Forall_cons, Forall_nil. split_and!; auto with clean. Qed.

Lemma conf_clean sec ip ips : clean_text ip -> Forall clean_text ips -> clean_conf (Session.conf_of sec ip ips).
Proof. intros Hip Hips. split; [|done|cbn; lia]. cbn -[lit]. rewrite ?Forall_cons, Forall_nil. split_and!; auto with clean. Qed.

(** What may reach a node: answers to what it asked, its own traffic, the tunnel and what is in it, and
    the port its callback is fetched from; nothing else. *)
Definition tunnel_firewall : list text :=
  [lit "type filter hook input priority 0; policy drop;"; lit "ct state established,related accept";
   lit "iif " ++ [34] ++ lit "lo" ++ [34] ++ lit " accept"; lit "udp dport 51820 accept";
   lit "tcp dport 443 accept"; lit "iifname " ++ [34] ++ lit "wg0" ++ [34] ++ lit " accept"].

(** C23: The node of a session is the other end of the client's tunnel: the files its user data writes and
    the configuration the client installs name each other's keys, port and address, for every address
    of the node and routes of the user without a line feed in them; and the input chain of its firewall
    drops what it does not accept and accepts exactly established connections, the loopback interface,
    udp 51820, tcp 443 and the interface of the tunnel. *)
Theorem session_ends_match sec ip ips :
  clean_text ip -> Forall clean_text ips ->
  exists t, CloudInit.render (Session.params_of sec) = Ok t
    /\ matched (split 10 (Wg.render_client_conf (Session.conf_of sec ip ips))) (file "/etc/wireguard/wg0.conf" (split 10 t)) ip
    /\ chain "input" (file "/etc/nftables.conf" (split 10 t)) = tunnel_firewall.
Proof.
  intros Hip Hips. destruct (node_lines _ (params_clean sec)) as (t & Ht & Hl). exists t. split; [done|].
  rewrite Hl, client_lines by by apply conf_clean. unfold image_of. rewrite wg0_file, input_chain.
  split; [|done].
  - split.
    + by exists (Session.server_secret sec).
    + by exists (Session.client_secret sec).
    + by exists (lit "51820").
    + by exists (lit "10.66.0.2/32").
Qed.

Lemma hop_clean sec i d : (match d with Some (k, a) => clean_text k /\ clean_text a | None => True end) -> clean (Mgr.hop_params sec i d).
Proof.
  intros Hd. unfold Mgr.hop_params.
  assert (H : forall k a, clean_text k -> clean_text a -> clean (CloudInit.MkCloudInitParams (Wg.private_base64 (Wg.generate (Mgr.h_server sec i))) k a 51820
     (Mgr.rand_hex (Mgr.h_token sec i) 16) (Mgr.rand_hex (Mgr.h_hmac sec i) 32) 900
     (match d with
      | Some (npub, nip) => Some (MkNextHop (Wg.private_base64 (Wg.generate (Mgr.h_wg1 sec i))) (lit "10.67.0.2/32") npub (nip ++ lit ":51820"))
      | None => None
      end))).
  { intros k a Hk Ha. split; [|cbn; lia|].
    - cbn -[lit Mgr.rand_hex]. rewrite ?Forall_cons, Forall_nil. split_and!; auto with clean; apply rand_hex_clean.
    - destruct d as [[npub nip]|]; [|done]. destruct Hd. cbn -[lit]. rewrite ?Forall_cons, Forall_nil. split_and!; auto with clean. }
  destruct (i =? 0)%nat; apply H; auto with clean.
Qed.

(** The hops of a chain are wired to each other: the second interface of a hop and the first of the
    one after it are two ends of one tunnel, and the hop brings it up on its first boot. *)
Theorem chain_ends_match sec i ip d :
  clean_text ip -> (match d with Some (k, a) => clean_text k /\ clean_text a | None => True end) ->
  exists near far,
    CloudInit.render (Mgr.hop_params sec i (Some (Wg.public_base64 (Wg.generate (Mgr.h_server sec (S i))), ip))) = Ok near
    /\ CloudInit.render (Mgr.hop_params sec (S i) d) = Ok far
    /\ matched (file "/etc/wireguard/wg1.conf" (split 10 near)) (file "/etc/wireguard/wg0.conf" (split 10 far)) ip
    /\ lit "systemctl start wg-quick@wg1" ∈ commands (split 10 near).
Proof.
  intros Hip Hd. set (near := Mgr.hop_params sec i _). set (far := Mgr.hop_params sec (S i) d).
  destruct (node_lines near) as (t & Ht & Hl); [by apply hop_clean; auto using public_clean|].
  destruct (node_lines far) as (t' & Ht' & Hl'); [by apply hop_clean|].
  exists t, t'. do 2 (split; [done|]). rewrite Hl, Hl'. unfold image_of. rewrite wg0_file, wg1_file, first_boot.
  assert (Hn : CloudInit.next_hop near = Some (MkNextHop (Wg.private_base64 (Wg.generate (Mgr.h_wg1 sec i))) (lit "10.67.0.2/32")
      (Wg.public_base64 (Wg.generate (Mgr.h_server sec (S i)))) (ip ++ lit ":51820")))
    by (unfold near, Mgr.hop_params; by destruct (i =? 0)%nat).
  rewrite bool_decide_true by (rewrite Hn; eauto). split.
  - destruct (hop_values _ _ Hn) as (-> & -> & -> & ->). destruct (own_values far) as (-> & -> & -> & -> & _).
    split.
    + by exists (Mgr.h_server sec (S i)).
    + exists (Mgr.h_wg1 sec i). unfold far, Mgr.hop_params. cbn [Nat.eqb]. by rewrite Nat.sub_succ, Nat.sub_0_r.
    + by exists (lit "51820").
    + by exists (lit "10.67.0.2/32").
  - rewrite !elem_of_app, elem_of_cons, !elem_of_app. right. right. right. left.
    apply list_elem_of_In, in_map. right. by left.
Qed.
End wired.

(** * The callback, the first boot and the switch *)

Lemma lstrip_id s : match s with c :: _ => py_space c = false | [] => True end -> lstrip s = s.
Proof. destruct s as [|c s]; [done|]. cbn. by intros ->. Qed.

Lemma strip_line t : Forall (fun c => 33 <= c <= 126) t -> strip (t ++ [10]) = t.
Proof.
  intros Ht. assert (Hp : forall c, 33 <= c <= 126 -> py_space c = false) by (intros c Hc; apply not_true_iff_false; unfold py_space, is_whitespace;
    rewrite !orb_true_iff, !andb_true_iff, !Z.leb_le, !Z.eqb_eq; lia).
  destruct t as [|c t]; [done|]. unfold strip. rewrite (lstrip_id ((c :: t) ++ [10])) by (apply Forall_cons in Ht as [? _]; by apply Hp).
  rewrite reverse_app. change (lstrip (reverse [10] ++ ?r)) with (lstrip r).
  rewrite lstrip_id; [by rewrite reverse_involutive|].
  apply Forall_reverse in Ht. destruct (reverse (c :: t)); [done|]. apply Forall_cons in Ht as [? _]. auto.
Qed.

Lemma hex_no_quote b : 34 ∉ Session.hex b.
Proof.
  intros Hin. induction b as [|x b IH]; [by apply not_elem_of_nil in Hin|]. destruct (Callback.byte_nibbles x) as [H1 H2].
  assert (Hd : forall v, 0 <= v < 16 -> 34 <> Callback.hex_digit v) by (intros v Hv; unfold Callback.hex_digit; destruct (v <? 10) eqn:E; bools; lia).
  unfold Session.hex, Callback.hex_encode in *. cbn in Hin. rewrite !elem_of_cons in Hin. destruct Hin as [H|[H|H]]; [by apply Hd in H..|auto].
Qed.

Lemma answer_read a b c :
  Tunnel.callback_body_of (Obj [(lit "pubkey", Str a); (lit "ip", Str b); (lit "mac", Str c)]) = Some (Callback.MkCallbackBody a b c).
Proof. reflexivity. Qed.

Section callback.
Context {T : Templates} {TL : TemplateLaws} {B : Base64} {BL : Base64Laws} {X : Wg.X25519}.
Context {P : CryptoPrims} {J : JsonText} {M : JsonMisfit} {D : PyJson} {DL : PyJsonLaws}.
(** [wg pubkey], the public key of a private one. *)
Variable wg_pubkey : text -> text.
Hypothesis wg_pubkey_spec : forall s, wg_pubkey (Wg.private_base64 (Wg.generate s)) = Wg.public_base64 (Wg.generate s) ++ [10].

(** C24: The script a node runs and the client that calls it agree: with the token and the key found in
    the file its user data writes, and the public key its first command stores, the node's answer is
    accepted at the first request, and what is accepted is the key the client pins, whatever address
    the node believes to have; without the token it answers 403. *)
Theorem node_callback_verified sec ip ips ipify :
  exists t token key_hex key, CloudInit.render (Session.params_of sec) = Ok t
    /\ TOKEN (file "/opt/sentinel/callback.py" (split 10 t)) = Some token
    /\ KEY (file "/opt/sentinel/callback.py" (split 10 t)) = Some key_hex /\ Callback.hex_decode key_hex = Ok key
    /\ let answer := do_GET (wg_pubkey (Wg.private_base64 (Wg.generate (Session.server_secret sec)))) ipify token key in
       (forall W (H : Http W) w w',
          let rq := Tunnel.callback_request ip (Session.hex (Session.token_b sec)) in
          send rq w = (Ok (answer (authorization rq)), w') ->
          Tunnel.fetch_pubkey ip (Session.hex (Session.token_b sec)) (Session.hex (Session.hmac_b sec)) w
            = (Ok (Wg.server_public_key (Session.conf_of sec ip ips)), w'))
       /\ (forall auth, auth <> Some (lit "Bearer " ++ token) -> answer auth = (403, [])).
Proof.
  destruct (node_lines _ (params_clean sec)) as (t & Ht & Hl). destruct (own_values (Session.params_of sec)) as (_ & _ & _ & _ & Vt & Vk).
  exists t, (Session.hex (Session.token_b sec)), (Session.hex (Session.hmac_b sec)), (arr_bytes (Session.hmac_b sec)).
  rewrite Hl. unfold image_of. split; [done|].
  edestruct callback_constants as [-> ->]. rewrite Vt, Vk. cbn [CloudInit.callback_token CloudInit.callback_hmac_key Session.params_of CloudInit.single].
  rewrite !split_once_app by apply hex_no_quote. do 2 (split; [done|]). split; [apply Callback.hex_decode_encode|]. cbv zeta. split.
  - intros W H w w' Hsend. unfold Tunnel.fetch_pubkey. cbn [Tunnel.fetch_loop]. rewrite Hsend. cbn [Tunnel.callback_request authorization].
    unfold do_GET. rewrite bool_decide_true by done. cbn [negb]. unfold pub. rewrite wg_pubkey_spec, strip_line by apply b64_printable.
    cbn [Tunnel.judge]. change (is_success 200) with true. unfold from_str. rewrite dumps_parse. cbn [map fst snd].
    rewrite answer_read. f_equal. eapply (callback_authentic _ _ (arr_bytes (Session.hmac_b sec))); [apply Callback.hex_decode_encode|].
    split; [done|]. cbn [Callback.mac Callback.pubkey Callback.ip]. rewrite <- utf8_app. apply Callback.hex_decode_encode.
  - intros auth Ha. unfold do_GET. rewrite bool_decide_false; [done|]. intros He. destruct auth as [a|]; [|done]. by apply Ha; f_equal.
Qed.
End callback.

(** ** The first boot *)

Definition runs_command (c : string) (ls : list text) : bool := existsb (fun l => bool_decide (l = lit c)) (commands ls).

(** What a node starts follows its parameters: SSH is masked on every node, the second tunnel is
    brought up exactly on a hop that has a next one, and the dead-man timer is armed exactly when a
    number of seconds is given; and the firewall lets in the tunnel's port and the callback only. *)
Theorem first_boot_follows_parameters {T : Templates} {TL : TemplateLaws} p :
  clean p ->
  exists t, CloudInit.render p = Ok t
    /\ runs_command "systemctl mask ssh.service || true" (split 10 t) = true
    /\ runs_command "systemctl start wg-quick@wg1" (split 10 t) = bool_decide (is_Some (CloudInit.next_hop p))
    /\ runs_command "systemctl enable --now sentinel-deadman.timer" (split 10 t) = negb (CloudInit.deadman_secs p =? 0)
    /\ chain "input" (file "/etc/nftables.conf" (split 10 t)) =
       [lit "type filter hook input priority 0; policy drop;"; lit "ct state established,related accept";
        lit "iif " ++ [34] ++ lit "lo" ++ [34] ++ lit " accept"; lit "udp dport " ++ show_dec (CloudInit.listen_port p) ++ lit " accept";
        lit "tcp dport 443 accept"; lit "iifname " ++ [34] ++ lit "wg0" ++ [34] ++ lit " accept"].
Proof.
  intros Hc. destruct (node_lines p Hc) as (t & Ht & Hl). exists t. split; [done|]. rewrite Hl. unfold image_of, runs_command.
  rewrite first_boot, input_chain. destruct (own_values p) as (_ & _ & _ & -> & _).
  destruct (bool_decide (is_Some _)), (negb _); vm_compute; auto.
Qed.

(** A peer that never shook hands has its handshake at zero, which is long ago: the switch fires at
    its first check, however many seconds it was given, unless the client was faster. *)
Lemma switch_fires_at_first_check now secs : secs < now -> deadman_fires (Some 0) now secs = true.
Proof. intros H. cbn. apply Z.ltb_lt. lia. Qed.

(** * Concrete nodes *)

Module ImageDemo.
#[local] Existing Instances VpnDemo.x25519 toy_base64 JinjaEngine.jinja JinjaEngine.jinja_laws toy_base64_laws.
Definition ip : text := lit "203.0.113.7".
Lemma ip_clean : clean_text ip.
Proof. by apply clean_lit. Qed.
Lemma full_clean : Forall clean_text Wg.full_tunnel.
Proof. by repeat (constructor; [apply clean_lit; vm_compute|]). Qed.

(** Dictionaries written as one number. *)
Definition read_number (t : text) : string + Value :=
  match t with
  | [Zpos n] => match decode n : option (list (text * text)) with Some l => inr (Obj (map (fun p => (p.1, Str p.2)) l)) | None => inl "no"%string end
  | _ => inl "no"%string
  end.
#[local] Instance json : JsonText := {| json_parse := read_number |}.
#[local] Instance python : PyJson := {| dumps l := [Zpos (encode l)] |}.
#[local] Instance python_laws : PyJsonLaws.
Proof. split. intros l. cbn. by rewrite decode_encode. Qed.
#[local] Instance misfit_ : JsonMisfit := {| misfit _ := "no"%string |}.

Lemma session_ends_match_witness :
  exists t, CloudInit.render (Session.params_of VpnDemo.secrets) = Ok t
    /\ matched (split 10 (Wg.render_client_conf (Session.conf_of VpnDemo.secrets ip Wg.full_tunnel)))
         (file "/etc/wireguard/wg0.conf" (split 10 t)) ip
    /\ chain "input" (file "/etc/nftables.conf" (split 10 t)) = tunnel_firewall.
Proof. apply (session_ends_match VpnDemo.secrets ip Wg.full_tunnel); [exact ip_clean|exact full_clean]. Defined.

Definition hops : Mgr.HopSecrets :=
  Mgr.MkHopSecrets (arr_fill 32 Byte.x01) (fun _ => arr_fill 32 Byte.x02) (fun _ => arr_fill 32 Byte.x03)
    (fun _ _ => arr_fill 16 Byte.x04) (fun _ _ => arr_fill 16 Byte.x05).
Lemma chain_ends_match_witness :
  exists near far,
    CloudInit.render (Mgr.hop_params hops 0 (Some (Wg.public_base64 (Wg.generate (Mgr.h_server hops 1)), ip))) = Ok near
    /\ CloudInit.render (Mgr.hop_params hops 1 None) = Ok far
    /\ matched (file "/etc/wireguard/wg1.conf" (split 10 near)) (file "/etc/wireguard/wg0.conf" (split 10 far)) ip
    /\ lit "systemctl start wg-quick@wg1" ∈ commands (split 10 near).
Proof. apply (chain_ends_match hops 0 ip None); [exact ip_clean|exact I]. Defined.

Lemma wg_demo s : Wg.private_base64 (Wg.generate s) ++ [10] = Wg.public_base64 (Wg.generate s) ++ [10].
Proof. reflexivity. Qed.

Lemma node_callback_verified_witness :
  exists t token key_hex key, CloudInit.render (Session.params_of VpnDemo.secrets) = Ok t
    /\ TOKEN (file "/opt/sentinel/callback.py" (split 10 t)) = Some token
    /\ KEY (file "/opt/sentinel/callback.py" (split 10 t)) = Some key_hex /\ Callback.hex_decode key_hex = Ok key
    /\ do_GET (Wg.private_base64 (Wg.generate (Session.server_secret VpnDemo.secrets)) ++ [10]) (Some ip) token key None = (403, []).
Proof.
  destruct (node_callback_verified (fun t => t ++ [10]) wg_demo VpnDemo.secrets ip Wg.full_tunnel (Some ip))
    as (t & token & key_hex & key & H1 & H2 & H3 & H4 & _ & H5).
  exists t, token, key_hex, key. do 4 (split; [assumption|]). apply H5. discriminate.
Defined.

Lemma first_boot_follows_parameters_witness :
  exists t, CloudInit.render (Session.params_of VpnDemo.secrets) = Ok t
    /\ runs_command "systemctl enable --now sentinel-deadman.timer" (split 10 t) = true.
Proof.
  destruct (first_boot_follows_parameters (Session.params_of VpnDemo.secrets) (params_clean VpnDemo.secrets)) as (t & H1 & _ & _ & H4 & _).
  exists t. split; [exact H1|exact H4].
Defined.
End ImageDemo.
