(* ===== verification/SelfTest.v ===== *)
(** [vpn.rs]: the headless self-test of the shipped binary, with the other small commands of that
    file: the status of the local WireGuard tools, the network's name, opening a link. *)
From S2P Require Import Prelude Bytes Text Crypto Floats Value Toy RecoveryKit Keyring Model Csv Importers.
From S2P Require Import Template Provision Vpn Health NmHost VpnManager VpnManagerClaims Cloud Terminal Tunnel.
Local Open Scope Z_scope.

Module SelfTest.
(** [selftest_region]: the arguments after the program's name. *)
Fixpoint selftest_region (args : list text) : option text :=
  match args with
  | [] => None
  | a :: args => if bool_decide (a = lit "--vpn-selftest") then Some (default (lit "us-east") (head args)) else selftest_region args
  end.

Definition ping_args (windows : bool) (ip : text) : list text := [if windows then lit "-n" else lit "-c"; lit "1"; ip].

Section ops.
Context {S : Type} {C : CloudProvider S} {W : WgController S} {F : ServerPubkeyFetcher S}.
Context {T : Templates} {B : Base64} {X : Wg.X25519}.

(** The world, and what was said. *)
Record Told : Type := MkTold { at_ : S; said : list text }.
Definition R (A : Type) : Type := ST Told text A.
Definition say (msg : text) : R unit := fun t => (Ok tt, MkTold (at_ t) (said t ++ [msg])).
Definition call {A} (m : ST S CoreError A) : R (result A CoreError) := fun t =>
  let '(r, s) := m (at_ t) in (match r with Panic => Panic | r => Ok r end, MkTold s (said t)).
(** An error by its text, under a prefix. *)
Definition or_fail {A} (pre : text) (r : result A CoreError) : R A :=
  match r with Ok a => ret a | Err e => err (pre ++ lit (display e)) | Panic => fun t => (Panic, t) end.

(** A poll that fails is a poll. *)
Fixpoint boot_wait (n : nat) (id : text) : R (option Instance_t) :=
  match n with
  | O => ret None
  | Datatypes.S n =>
      let! r := call (get id) in
      match r with
      | Ok cur => if bool_decide (inst_state cur = InstanceState.Running) then ret (Some cur) else boot_wait n id
      | _ => boot_wait n id
      end
  end.

(** Only the subnet of the tunnel is routed, and no resolver is set. *)
Definition minimal_conf (client server : Wg.WgKeypair) (ip : text) : Wg.ClientConf :=
  Wg.MkClientConf (Wg.private_base64 client) (lit "10.66.0.2/32") [] (Wg.public_base64 server) (ip ++ lit ":51820") [lit "10.66.0.0/24"] 25.

(** [pinged]: whether a ping through the tunnel was answered. *)
Definition selftest_probe (max_boot_polls : nat) (pinged : bool) (id : text) (client server : Wg.WgKeypair) (token hmac : text) : R unit :=
  let! _ := say (lit "waiting for the node to boot" ++ [8230]) in
  let! r := boot_wait max_boot_polls id in
  let! running := lift (ok_or r (lit "node did not reach Running in time")) in
  let! ip := lift (ok_or (ipv4 running) (lit "node reported no IP")) in
  let! _ := say (lit "node running at " ++ ip) in
  let! _ := say (lit "waiting for the HMAC-authenticated readiness callback" ++ [8230]) in
  let! r := call (fetch ip token hmac) in
  let! _ := or_fail (lit "callback: ") r in
  let! _ := say (lit "callback OK " ++ [8212] ++ lit " bringing the tunnel up (minimal routing, no full-tunnel, no DNS)" ++ [8230]) in
  let! r := call (up (minimal_conf client server ip)) in
  let! _ := or_fail [] r in
  let! _ := say (lit "handshake landed " ++ [10003] ++ lit " " ++ [8212] ++ lit " tunnel is up") in
  let! _ := say (if pinged then lit "data-plane ping to 10.66.0.1 replied " ++ [10003]
                 else lit "data-plane ping to 10.66.0.1 got no reply (the handshake alone proves the fix)") in
  let! _ := call down in
  ret tt.

(** [rand_hex(16)] and [rand_hex(32)], and the two key pairs. *)
Record Draws : Type := MkDraws { k_client : arr 32; k_server : arr 32; hex_token : nat -> arr 16; hex_hmac : nat -> arr 16 }.
Definition selftest_params (d : Draws) : CloudInit.CloudInitParams :=
  CloudInit.single (Wg.private_base64 (Wg.generate (k_server d))) (Wg.public_base64 (Wg.generate (k_client d))) (lit "10.66.0.2") 51820
    (Mgr.rand_hex (hex_token d) 16) (Mgr.rand_hex (hex_hmac d) 32) 900.

(** The token of the environment, or the stored one. *)
Definition selftest_token (env stored : option text) : option text :=
  match env with Some (_ :: _) => env | _ => stored end.

(** The exit code; [deps] are those of the token. *)
Definition selftest_inner (max_boot_polls : nat) (preflight : result unit text) (token : option text) (d : Draws) (pinged : bool) (region : text)
    : R Z :=
  let! _ := say (lit "starting VPN self-test in region " ++ region) in
  match preflight with
  | Panic => fun t => (Panic, t)
  | Err e => let! _ := say (lit "FAIL preflight: " ++ e) in ret 1
  | Ok _ =>
      match token with
      | None => let! _ := say (lit "FAIL: no Linode token (set SENTINEL_LINODE_TOKEN, or save one in Settings " ++ [8594] ++ lit " VPN)") in ret 1
      | Some _ =>
          match CloudInit.render_base64 (selftest_params d) with
          | Panic => fun t => (Panic, t)
          | Err e => let! _ := say (lit "FAIL render cloud-init: " ++ lit (display e)) in ret 1
          | Ok user_data =>
              let! _ := say (lit "creating a throwaway Linode (billed only until it's destroyed)" ++ [8230]) in
              let! r := call (create (MkInstanceSpec region Mgr.DEFAULT_INSTANCE_TYPE user_data (lit "sentinel-selftest-" ++ region) [])) in
              match r with
              | Ok inst =>
                  let! _ := say (lit "created node " ++ inst_id inst) in
                  let! outcome := (fun t => let '(r, t) := selftest_probe max_boot_polls pinged (inst_id inst)
                      (Wg.generate (k_client d)) (Wg.generate (k_server d)) (Mgr.rand_hex (hex_token d) 16) (Mgr.rand_hex (hex_hmac d) 32) t in
                    (match r with Panic => Panic | r => Ok r end, t)) in
                  let! _ := say (lit "destroying the node" ++ [8230]) in
                  let! _ := call down in
                  let! _ := call (delete (inst_id inst)) in
                  match outcome with
                  | Ok _ =>
                      let! _ := say (lit "PASS " ++ [10003] ++ lit " " ++ [8212] ++ lit " a real WireGuard handshake succeeded end-to-end; node destroyed.") in
                      ret 0
                  | Err e => let! _ := say (lit "FAIL " ++ [10007] ++ lit " " ++ [8212] ++ lit " " ++ e ++ lit "; node destroyed.") in ret 1
                  | Panic => fun t => (Panic, t)
                  end
              | Err e => let! _ := say (lit "FAIL create instance: " ++ lit (display e)) in ret 1
              | Panic => fun t => (Panic, t)
              end
          end
      end
  end.
End ops.
Arguments MkTold {S}. Arguments at_ {S}. Arguments said {S}.

(** * Small commands *)

Record WgStatus : Type := MkWgStatus { ws_installed : bool; ws_path : option text; ws_elevated : bool; ws_elevation_matters : bool; ws_download_url : text }.
Definition wg_status {W : Type} {Pr : Process W} (h : Host) : ST (Tun W) CoreError WgStatus :=
  let '(installed, path) := Tunnel.wireguard_installed h in
  let! e := Tunnel.is_elevated h in
  ret (MkWgStatus installed path e (on_windows h) Mgr.WG_DOWNLOAD_URL).

Definition vpn_config (token : option text) : bool := bool_decide (is_Some token).

(** The program a link is handed to, with the arguments before it; the link is one argument, which no
    shell reads. *)
Inductive Os : Type := Windows | MacOs | OtherUnix.
Definition opener (os : Os) : text * list text :=
  match os with
  | Windows => (lit "rundll32", [lit "url.dll,FileProtocolHandler"])
  | MacOs => (lit "open", [])
  | OtherUnix => (lit "xdg-open", [])
  end.
Definition open_url (os : Os) (spawn : text -> list text -> result unit text) (url : text) : result unit text :=
  if negb (starts_with (lit "https://") url) && negb (starts_with (lit "http://") url) then Err (lit "refusing to open a non-http URL")
  else map_err (app (lit "open url: ")) (spawn (fst (opener os)) (snd (opener os) ++ [url])).

(** [current_ssid], of what [netsh wlan show interfaces] prints; nowhere but on Windows. *)
Definition ssid_of_line (line : text) : option text :=
  rest ← strip_prefix (lit "SSID") (trim line);
  match rest with
  | c :: _ => if is_whitespace c || (c =? chr ":")
              then p ← split_once (chr ":") rest; if bool_decide (trim p.2 = []) then None else Some (trim p.2)
              else None
  | [] => None
  end.
Definition current_ssid (windows : bool) (out : option bytes) : option text :=
  if windows then b ← out; head (omap ssid_of_line (Hibp.lines (Lossy.from_utf8_lossy b))) else None.
End SelfTest.

(** * What a self-test leaves behind *)

Section claims.
Import SelfTest.
Context {S : Type} {C : CloudProvider S} {L : CloudLaws S} {W : WgController S} {F : ServerPubkeyFetcher S} {FL : FrameLaws S}.
Context {T : Templates} {B : Base64} {X : Wg.X25519}.

(** A step that leaves the nodes alone. *)
Definition still {A} (m : R (S := S) A) : Prop :=
  forall t a t', cloud_ok (at_ t) -> m t = (a, t') -> cloud_ok (at_ t') /\ (forall x, node (at_ t') x = node (at_ t) x) /\ a <> Panic.

Lemma still_bind {A A'} (m : R A) (k : A -> R A') : still m -> (forall a, still (k a)) -> still (mbind m k).
Proof.
  intros Hm Hk t a t' Hok H. unfold mbind in H. destruct (m t) as [[x|e|] t1] eqn:E; apply Hm in E as (H1 & H2 & H3); try done.
  - apply Hk in H as (H1' & H2' & H3'); [|done]. split_and!; try done. intros y. by rewrite H2'.
  - by simplify_eq.
Qed.
Lemma still_ret {A} (x : A) : still (ret x).
Proof. by intros t a t' Hok [= <- <-]. Qed.
Lemma still_err {A} e : still (err (A := A) e).
Proof. by intros t a t' Hok [= <- <-]. Qed.
Lemma still_lift {A} (o : option A) e : still (lift (ok_or o e)).
Proof. intros t a t' Hok [= <- <-]. by destruct o. Qed.
Lemma still_say m : still (say m).
Proof. by intros t a t' Hok [= <- <-]. Qed.
Lemma still_or_fail {A} pre (r : result A CoreError) : r <> Panic -> still (or_fail pre r).
Proof. destruct r; [intros _; apply still_ret|intros _; apply still_err|done]. Qed.

(** A call of the outside, whose answer is then looked at. *)
Lemma still_call {A A'} (m : ST S CoreError A) (k : result A CoreError -> R A') :
  (forall s r s', cloud_ok s -> m s = (r, s') -> cloud_ok s' /\ (forall x, node s' x = node s x) /\ r <> Panic) ->
  (forall r, r <> Panic -> still (k r)) -> still (mbind (call m) k).
Proof.
  intros Hm Hk t a t' Hok. unfold mbind, call. destruct (m (at_ t)) as [r s] eqn:E. apply Hm in E as (H1 & H2 & H3); [|done].
  assert (Hr : forall q, k q (MkTold s (said t)) = (a, t') -> q <> Panic -> cloud_ok (at_ t') /\ (forall x, node (at_ t') x = node (at_ t) x) /\ a <> Panic).
  { intros q Hq Hp. apply (Hk q Hp) in Hq as (H1' & H2' & H3'); [|done]. split_and!; try done. intros x. by rewrite H2'. }
  destruct r as [x|e|]; [by intros H%Hr|by intros H%Hr|done].
Qed.
#[local] Hint Resolve still_bind still_ret still_err still_lift still_say still_or_fail still_call : still.

Lemma still_boot_wait n id : still (boot_wait n id).
Proof.
  induction n as [|n IH]; cbn [boot_wait]; [apply still_ret|]. apply still_call; [apply get_spec|]. intros r Hr.
  destruct r as [cur|e|]; [|done..]. case_bool_decide; auto with still.
Qed.

Lemma still_probe n pinged id cl sv token key : still (selftest_probe n pinged id cl sv token (Callback.hex_encode key)).
Proof.
  unfold selftest_probe. apply still_bind; [auto with still|intros _]. apply still_bind; [apply still_boot_wait|intros r].
  apply still_bind; [auto with still|intros running]. apply still_bind; [auto with still|intros ip].
  do 2 (apply still_bind; [auto with still|intros _]). apply still_call; [apply fetch_frame|intros r1 H1].
  do 2 (apply still_bind; [auto with still|intros _]). apply still_call; [apply up_frame|intros r2 H2].
  do 3 (apply still_bind; [auto with still|intros _]). apply still_call; [apply down_frame|intros r3 H3]. auto with still.
Qed.

Lemma call_Ok {A} (m : ST S CoreError A) t r t' : call m t = (Ok r, t') -> m (at_ t) = (r, at_ t').
Proof. unfold call. destruct (m (at_ t)) as [[x|e|] s']; by intros [= <- <-]. Qed.
Lemma or_fail_Ok {A} pre (r : result A CoreError) (t : Told (S := S)) x t' : or_fail pre r t = (Ok x, t') -> r = Ok x.
Proof. destruct r; by intros [= <- <-]. Qed.

Lemma probe_up n pinged id cl sv token key t u t' :
  selftest_probe n pinged id cl sv token key t = (Ok u, t') ->
  exists ip s1 s2 v, up (minimal_conf cl sv ip) s1 = (Ok v, s2).
Proof.
  unfold selftest_probe. intros (? & ? & _ & (? & ? & _ & (? & ? & _ & (ip & ? & _ & H)%mbind_Ok)%mbind_Ok)%mbind_Ok)%mbind_Ok.
  apply mbind_Ok in H as (? & ? & _ & (? & ? & _ & (? & ? & _ & (? & ? & _ & (? & ? & _ & (r & t1 & Hr & H)%mbind_Ok)%mbind_Ok)%mbind_Ok)%mbind_Ok)%mbind_Ok).
  apply mbind_Ok in H as (v & t2 & Hv%or_fail_Ok & _). apply call_Ok in Hr. subst r. eauto.
Qed.

(** The end of a test: the tunnel down, the node deleted, a last word. *)
Lemma teardown (inst : Instance_t) (t : Told (S := S)) word c code t' :
  cloud_ok (at_ t) ->
  (let! _ := say word in let! _ := call down in let! _ := call (delete (inst_id inst)) in c) t = (code, t') ->
  exists s1 r t1, delete (inst_id inst) s1 = (r, at_ t1) /\ cloud_ok (at_ t1) /\ (c : R Z) t1 = (code, t')
    /\ (forall x, x <> inst_id inst -> node (at_ t1) x = node (at_ t) x)
    /\ match r with Ok _ => node (at_ t1) (inst_id inst) = None | Err _ => node (at_ t1) (inst_id inst) = node (at_ t) (inst_id inst) | Panic => False end.
Proof.
  intros Hok. unfold mbind, say, call. cbn. destruct (down (at_ t)) as [rd s1] eqn:Ed. apply down_frame in Ed as (Hok1 & Hn1 & Hp); [|done].
  destruct rd as [u|e|]; [| |done]; cbn; destruct (delete (inst_id inst) s1) as [r s2] eqn:E; pose proof (delete_spec _ _ _ _ Hok1 E) as [Hok2 Hd];
    (destruct r as [v|e'|]; [| |done]); intros H; exists s1; eexists; exists (MkTold s2 (said t ++ [word])); (split; [exact E|]); (split; [exact Hok2|]); (split; [exact H|]); cbn.
  all: (split; [intros x Hx; rewrite Hd, ?decide_False by done; apply Hn1|]); rewrite Hd; rewrite ?decide_True by done; auto.
Qed.

(** A self-test cleans up after itself: whatever fails on the way, the nodes afterwards are those from
    before, unless the provider refused to delete the one it made, which is the only one that may be
    left; and it exits with success only if the tunnel to its own node shook hands. *)
Theorem selftest_cleans_up n preflight token d pinged region s log code t' :
  cloud_ok s -> preflight <> Panic ->
  selftest_inner n preflight token d pinged region (MkTold s log) = (code, t') ->
  (code = Ok 0 \/ code = Ok 1)
  /\ (code = Ok 0 -> exists ip s1 s2 u, up (minimal_conf (Wg.generate (k_client d)) (Wg.generate (k_server d)) ip) s1 = (Ok u, s2))
  /\ ((forall x, node (at_ t') x = node s x)
      \/ exists id s1 e, node s id = None /\ delete id s1 = (Err e, at_ t') /\ forall x, x <> id -> node (at_ t') x = node s x).
Proof.
  intros Hok Hpre. unfold selftest_inner. unfold mbind at 1, say at 1. cbn [at_ said].
  assert (Hearly : forall m t, (forall x, node (at_ t) x = node s x) -> (let! _ := say (S := S) m in ret 1) t = (code, t') ->
    (code = Ok 0 \/ code = Ok 1) /\ (code = Ok 0 -> exists ip s1 s2 u, up (minimal_conf (Wg.generate (k_client d)) (Wg.generate (k_server d)) ip) s1 = (Ok u, s2))
    /\ ((forall x, node (at_ t') x = node s x) \/ exists id s1 e, node s id = None /\ delete id s1 = (Err e, at_ t') /\ forall x, x <> id -> node (at_ t') x = node s x)).
  { intros m t Ht [= <- <-]. split; [by right|]. split; [done|by left]. }
  destruct preflight as [u|e|]; [|by apply Hearly|done]. destruct token as [tok|]; [|by apply Hearly].
  destruct (CloudInit.render_base64 _) as [ud|e|] eqn:Er; [|by apply Hearly|by apply render_base64_no_panic in Er].
  unfold mbind at 1, say at 1. cbn [at_ said]. unfold mbind at 1, call at 1. cbn [at_ said].
  destruct (create _ s) as [r s1] eqn:Ec. apply create_spec in Ec as [Hok1 Hc]; [|done].
  destruct r as [inst|e|]; [|by apply Hearly|done]. destruct Hc as [Hnew Hc].
  unfold mbind at 1, say at 1. cbn [at_ said]. unfold mbind at 1.
  destruct (selftest_probe _ _ _ _ _ _ _ _) as [o t1] eqn:Ep.
  pose proof (still_probe n pinged (inst_id inst) (Wg.generate (k_client d)) (Wg.generate (k_server d)) (Mgr.rand_hex (hex_token d) 16)) as Hst.
  destruct (rand_hex_bytes (hex_hmac d) 32) as [b Hb]. rewrite Hb in Ep. apply (Hst b) in Ep as Hp; [|done]. destruct Hp as (Hok2 & Hn2 & Hnp). cbn in Hn2.
  assert (Hends : forall fin, (forall t, exists word, fst (fin t) = Ok word /\ at_ (snd (fin t)) = at_ t) ->
    (let! _ := say (lit "destroying the node" ++ [8230]) in let! _ := call down in let! _ := call (delete (inst_id inst)) in fin) t1 = (code, t') ->
    (exists t2, code = fst (fin t2)) /\ ((forall x, node (at_ t') x = node s x)
      \/ exists id s1 e, node s id = None /\ delete id s1 = (Err e, at_ t') /\ forall x, x <> id -> node (at_ t') x = node s x)).
  { intros fin Hfin H. apply teardown in H as (s3 & r & t3 & Hd & _ & Hf & Hx & Hr); [|done]. destruct (Hfin t3) as (w & Hw & Hat).
    rewrite Hf in Hw, Hat. cbn in Hw, Hat. split; [exists t3; by rewrite Hf|]. rewrite Hat.
    assert (Hother : forall x, x <> inst_id inst -> node (at_ t3) x = node s x)
      by (intros x Hne; rewrite Hx, Hn2, Hc, decide_False by done; done).
    destruct r as [v|e|]; [|right; exists (inst_id inst), s3, e; by rewrite Hat in * |done].
    left. intros x. destruct (decide (x = inst_id inst)) as [->|Hne]; [by rewrite Hr, Hnew|auto]. }
  destruct o as [u'|e|]; [| |done].
  - intros H. apply Hends in H as [[t2 ->] Hn]; [|intros t; eexists; split; reflexivity].
    split; [by left|]. split; [intros _; by eapply probe_up|exact Hn].
  - intros H. apply Hends in H as [[t2 ->] Hn]; [|intros t; eexists; split; reflexivity].
    split; [by right|]. split; [done|exact Hn].
Qed.
End claims.

Module SelfTestDemo.
Import VpnDemo.
#[local] Existing Instance toy_prims.
Definition draws : SelfTest.Draws :=
  SelfTest.MkDraws (arr_fill 32 Byte.x01) (arr_fill 32 Byte.x02) (fun _ => arr_fill 16 Byte.x03) (fun _ => arr_fill 16 Byte.x04).
Definition tested := SelfTest.selftest_inner (F := mock_fetcher false) 10 (Ok tt) (Some (lit "token")) draws true (lit "us-east")
  (SelfTest.MkTold (MockCloud.new 2) []).
Lemma passed : tested = (Ok 0, snd tested).
Proof. apply run_answer. vm_compute. reflexivity. Qed.

Lemma selftest_cleans_up_witness :
  (forall x, node (SelfTest.at_ (snd tested)) x = node (MockCloud.new 2) x)
  \/ exists id s1 e, node (MockCloud.new 2) id = None /\ delete id s1 = (Err e, SelfTest.at_ (snd tested))
       /\ forall x, x <> id -> node (SelfTest.at_ (snd tested)) x = node (MockCloud.new 2) x.
Proof.
  exact (proj2 (proj2 (selftest_cleans_up (L := mock_cloud_laws) (FL := mock_frame false) (F := mock_fetcher false) 10 (Ok tt) (Some (lit "token"))
    draws true (lit "us-east") (MockCloud.new 2) [] (Ok 0) (snd tested) (new_ok 2) ltac:(discriminate) passed))).
Defined.
End SelfTestDemo.
