(* ===== verification/Shell.v ===== *)
(** The shell of the desktop application: [applog.rs] (the diagnostics log), [net.rs] (the network
    tools), [main.rs] with [state.rs] (how a process starts and which vault it opens), and the status
    queries of [commands.rs] and [applock.rs]. Sockets, names and files are what the operating system
    answers. *)
From S2P Require Import Prelude Bytes Text Crypto Floats Value Totp Toy RecoveryKit Keyring Model Envelope VaultStore Session FileBlob AppLock Generator Health Passkey.
From S2P Require Import Csv Importers Template Provision Vpn NmHost VpnManager VaultCmds ApiDb ApiAuth ApiRoutes SyncClient SyncFlows SettingsSync CrowdSec Watchdog Cloud Netdata Providers Servers Terminal Tunnel SelfTest.
Local Open Scope Z_scope.

(** * The log *)

Module Log.
Definition MAX_BYTES : Z := 256 * 1024.

(** How the calls of one entry go: whether the file can be cut and opened, and how much of the line is
    written when not all of it is. *)
Record Disk : Type := MkDisk { can_cut : bool; can_open : bool; torn : option nat }.

Definition line (ts level scope msg : text) : text :=
  ts ++ lit " [" ++ level ++ lit "] " ++ scope ++ lit ": " ++ map (fun c => if c =? 10 then 32 else c) msg ++ [10].
(** The file, when there is one. *)
Definition log (d : Disk) (ts level scope msg : text) (file : option bytes) : option bytes :=
  let file := match file with
              | Some b => if (MAX_BYTES <? Z.of_nat (length b)) && can_cut d then Some [] else file
              | None => None
              end in
  if can_open d then
    let l := utf8 (line ts level scope msg) in
    Some (default [] file ++ match torn d with Some n => take n l | None => l end)
  else file.
Definition error d ts scope msg := log d ts (lit "ERROR") scope msg.
Definition info d ts scope msg := log d ts (lit "INFO") scope msg.

(** [read_to_string] fails on a missing file and on broken text. *)
Definition content (file : option bytes) : text :=
  match file with Some b => if is_utf8 b then Lossy.from_utf8_lossy b else [] | None => [] end.
Definition log_tail (limit : nat) (file : option bytes) : text :=
  let ls := Hibp.lines (content file) in join [10] (drop (length ls - Nat.max limit 1) ls).
Definition log_clear (refused : option text) (file : option bytes) : result unit text * option bytes :=
  match refused with Some e => (Err e, file) | None => (Ok tt, Some []) end.
End Log.

(** * The network tools *)

Module NetTools.
(** [str::rsplit_once]. *)
Definition rsplit_once (c : Z) (s : text) : option (text * text) :=
  match split_once c (reverse s) with Some (a, b) => Some (reverse b, reverse a) | None => None end.

Definition clean_host (input : text) : text :=
  let s := trim input in
  let s := match strip_prefix (lit "https://") s with
           | Some r => r
           | None => default s (strip_prefix (lit "http://") s)
           end in
  let s := default s (head (split (chr "/") s)) in
  let s := match rsplit_once (chr ":") s with
           | Some (h, p) => if negb (bool_decide (h = [])) && forallb is_ascii_digit p && negb (contains (chr ":") h) then h else s
           | None => s
           end in
  trim s.

Record MyIp : Type := MkMyIp { my_ip : text; city : text; my_region : text; country : text; org : text; lat : option f64; lon : option f64 }.
Section myip.
Context {W : Type} {H : Http W} {J : JsonText} {X : JsonMisfit}.
Definition member (v : Value) (k : string) : text := default [] (Js.as_str (Js.ix v k)).
Definition net_myip : ST W text MyIp := fun w =>
  match send (MkHttpReq "GET" (lit "https://ipapi.co/json/") None None None) w with
  | (Panic, w) => (Panic, w)
  | (Err e, w) => (Err (lit "lookup failed (no internet, or the geo service is unreachable): " ++ lit e), w)
  | (Ok (status, body), w) =>
      if negb (is_success status) then (Err (lit "geo service returned HTTP " ++ show_dec status), w)
      else match from_str Some body with
           | inl e => (Err (lit e), w)
           | inr v =>
               if default false (Js.get (lit "error") v ≫= Js.as_bool)
               then (Err (default (lit "geo service unavailable") (Js.get (lit "reason") v ≫= Js.as_str)), w)
               else (Ok (MkMyIp (member v "ip") (member v "city") (member v "region") (member v "country_name") (member v "org")
                           (Js.as_f64 (Js.ix v "latitude")) (Js.as_f64 (Js.ix v "longitude"))), w)
           end
  end.
End myip.

Record Addr : Type := MkAddr { addr_ip : text; is_ipv6 : bool }.
Record PingResult : Type := MkPing { pg_host : text; pg_ip : text; pg_port : Z; pg_ms : f64; pg_attempts : nat }.
Section sockets.
(** The resolver, and how long each attempt to connect takes when it succeeds in time, in milliseconds. *)
Variable lookup_host : text -> Z -> list Addr + text.
Variable connect : Addr -> Z -> nat -> option f64.

(** The least of some times. *)
Definition best (l : list (option f64)) : option f64 :=
  fold_left (fun b t => match t with Some ms => Some (match b with Some x => if F64.ltb ms x then ms else x | None => ms end) | None => b end) l None.
Definition ipv4_first (l : list Addr) : list Addr := filter (fun a => is_ipv6 a = false) l ++ filter (fun a => is_ipv6 a = true) l.
Fixpoint ping_ports (host : text) (ports : list Z) : result PingResult text :=
  match ports with
  | [] => Err (host ++ lit " did not answer on port 443 or 80 (it may be down or blocking connections)")
  | port :: ports =>
      match lookup_host host port with
      | inr e => Err (lit "could not resolve " ++ host ++ lit ": " ++ e)
      | inl addrs =>
          match ipv4_first addrs with
          | [] => ping_ports host ports
          | addr :: _ =>
              match best (map (connect addr port) (seq 0 3)) with
              | Some ms => Ok (MkPing host (addr_ip addr) port ms 3)
              | None => ping_ports host ports
              end
          end
      end
  end.
Definition net_ping (host : text) : result PingResult text :=
  let host := clean_host host in
  if bool_decide (host = []) then Err (lit "enter a host, e.g. example.com") else ping_ports host [443; 80].

(** The order of [String] is by bytes, which is by characters. *)
Definition net_dns (host : text) : result (list text) text :=
  let host := clean_host host in
  if bool_decide (host = []) then Err (lit "enter a host, e.g. example.com")
  else match lookup_host host 0 with
       | inr e => Err (lit "could not resolve " ++ host ++ lit ": " ++ e)
       | inl addrs =>
           match Netdata.dedup (sort_by text_lt (map addr_ip addrs)) with
           | [] => Err (lit "no addresses found for " ++ host)
           | ips => Ok ips
           end
       end.
End sockets.
End NetTools.

(** * Starting *)

Module App.
(** What a process is for: Chrome's host, a self-test, or the window. *)
Inductive Mode : Type := HostMode | SelfTestMode (region : text) | Window.
Definition mode_of (args : list text) : Mode :=
  if Host.detect args then HostMode
  else match SelfTest.selftest_region args with Some r => SelfTestMode r | None => Window end.

(** The files of the app lock in a folder; the app's own folder, the system's temporary one and the two
    entries of the keychain. *)
Record Folder : Type := MkFolder { wrap : option bytes; prefs : Settings }.
Record Computer : Type := MkComputer { own : Folder; temp : Folder; key_entry : option text; totp_entry : option text }.
(** The folder an app works in: its own, or the temporary one of the fallback. *)
Inductive Place : Type := Own | Temp.
Definition folder (p : Place) (c : Computer) : Folder := match p with Own => own c | Temp => temp c end.
Definition device (p : Place) (s : VaultSession.t) (c : Computer) : Dev :=
  MkDev s (wrap (folder p c)) (key_entry c) (totp_entry c) (prefs (folder p c)).
(** The computer after an app in [p] has come to [d]. *)
Definition left_by (p : Place) (d : Dev) (c : Computer) : Computer :=
  let f := MkFolder (wrap_file d) (settings d) in
  match p with
  | Own => MkComputer f (temp c) (kc_key d) (kc_totp d)
  | Temp => MkComputer (own c) f (kc_key d) (kc_totp d)
  end.

(** [opens]: whether the folder can be made, its path is text and [vault.db] opens. *)
Section start.
Context {B : Base64}.
Definition new_memory_fallback (os : AppLock.Os) (c : Computer) : Dev := device Temp (VaultSession.unlocked (fresh_key os)) c.
Definition open_state (opens : bool) (os : AppLock.Os) (c : Computer) : Place * Dev :=
  if opens then
    match state.new_persistent os (device Own VaultSession.locked c) with
    | (Ok _, d) => (Own, d)
    | (_, d) => (Temp, new_memory_fallback os (left_by Own d c))
    end
  else (Temp, new_memory_fallback os c).
End start.

(** The window's start-up: rules and routes first, then the vault, then the nodes of a crash. *)
Section setup.
Context {S W : Type} {C : CloudProvider S} {Pr : Process W} {B : Base64}.
Variables (mc : Mgr.Machine) (h : Host).
Record Desktop : Type := MkDesktop { vpn_of : Mgr.t S; tun_of : Tun W; pc : Computer }.
Definition setup (opens : bool) (os : AppLock.Os) (s : Desktop) : Place * Dev * Desktop :=
  let v := snd (Mgr.killswitch_clear_all mc (vpn_of s)) in
  let t := Tunnel.flush_wg_network h (tun_of s) in
  let '(p, d) := open_state opens os (pc s) in
  (p, d, MkDesktop (snd (Mgr.sweep_on_launch v)) t (left_by p d (pc s))).
(** [RunEvent::Exit]. *)
Definition on_exit (s : Desktop) : Desktop := MkDesktop (snd (Mgr.killswitch_clear_all mc (vpn_of s))) (tun_of s) (pc s).
End setup.

(** * Status *)

(** [hello.rs]: what the system says on Windows, and constants elsewhere. *)
Definition available (windows : bool) (asked : option bool) : bool := if windows then default false asked else false.
Definition verify (windows : bool) (answer : result bool text) : result bool text := if windows then answer else Ok true.

Record HelloStatus : Type := MkHelloStatus { hello_on_device : bool; hello_enabled : bool }.
Definition hello_status (windows : bool) (asked : option bool) (d : Dev) : HelloStatus :=
  MkHelloStatus (available windows asked) (state.require_hello d).

Record AuthStatus : Type := MkAuthStatus { is_locked : bool; has_password : bool; has_totp : bool; has_hello : bool }.
Definition auth_status (d : Dev) : AuthStatus :=
  MkAuthStatus (VaultSession.is_locked (session d)) (state.password_protected d) (state.totp_enabled d) (state.require_hello d).

Record WrapperInfo : Type := MkWrapperInfo { kind : text; enrolled : bool; label : text }.
Record KeyringStatus : Type := MkKeyringStatus { ks_locked : bool; wrappers : list WrapperInfo; recovery_verified : bool }.
Definition keyring_status (d : Dev) : KeyringStatus :=
  MkKeyringStatus (VaultSession.is_locked (session d))
    [MkWrapperInfo (lit "platform") true (lit "This device"); MkWrapperInfo (lit "phone") false (lit "iPhone");
     MkWrapperInfo (lit "recovery") false (lit "Recovery Kit")] false.

Definition settings_get (d : Dev) : gmap string SettingVal :=
  let v := match settings d with Object m => m ∪ commands.default_settings | _ => commands.default_settings end in
  <["telemetry" := VBool false]> v.

(** [update_install_health]: the folders of other copies. [canonical] is the resolved form of a folder. *)
Section health.
Variables (var : string -> option text) (exists_ : text -> bool) (canonical : text -> option text) (current_exe_dir : option text).
Definition in_dir (dir name : text) : text := dir ++ lit "\" ++ name.
Definition NORTHKEY : text := lit "NorthKey".
Definition candidates : list text :=
  match var "LOCALAPPDATA" with
  | Some lad => [in_dir lad NORTHKEY; in_dir (in_dir lad (lit "Programs")) NORTHKEY]
  | None => []
  end ++ omap (fun v => (fun d => in_dir d NORTHKEY) <$> var v) ["ProgramFiles"; "ProgramFiles(x86)"]%string.
Definition is_current (dir : text) : bool :=
  match current_exe_dir ≫= canonical, canonical dir with Some c, Some d => bool_decide (c = d) | _, _ => false end.
Definition update_install_health (windows : bool) : list text :=
  if windows then filter (fun dir => exists_ (in_dir dir (lit "NorthKey.exe")) && negb (is_current dir) = true) candidates else [].
End health.
End App.

(** * What the log keeps *)

Section log_claims.
Import Log.

Lemma within_byte lo hi z : 0 <= z < 256 -> FileBlob.within lo hi (byte_of_Z z) = (lo <=? z) && (z <=? hi).
Proof. intros Hz. unfold FileBlob.within. by rewrite byte_to_of_Z, Z.mod_small. Qed.
Lemma within_yes lo hi z : 0 <= z < 256 -> lo <= z <= hi -> FileBlob.within lo hi (byte_of_Z z) = true.
Proof. intros Hz H. rewrite within_byte by done. rewrite !(proj2 (Z.leb_le _ _)) by lia. done. Qed.
Lemma within_no lo hi z : 0 <= z < 256 -> z < lo \/ hi < z -> FileBlob.within lo hi (byte_of_Z z) = false.
Proof. intros Hz H. rewrite within_byte by done. destruct (Z.leb_spec lo z), (Z.leb_spec z hi); try done; lia. Qed.

Lemma is_utf8_char c r : Lossy.scalar c -> is_utf8 (utf8_char c ++ r) = is_utf8 r.
Proof.
  intros Hc. unfold utf8_char, Lossy.scalar in *.
  pose proof (Z.mod_pos_bound c 64 eq_refl) as H64. pose proof (Z.mod_pos_bound (c / 64) 64 eq_refl) as H642. pose proof (Z.mod_pos_bound (c / 4096) 64 eq_refl) as H643.
  assert (D1 : c = 64 * (c / 64) + c mod 64) by (apply Z.div_mod; lia).
  assert (D2 : c / 64 = 64 * (c / 4096) + (c / 64) mod 64).
  { rewrite (Z.div_mod (c / 64) 64) at 1 by lia. by rewrite Z.div_div by lia. }
  assert (D3 : c / 4096 = 64 * (c / 262144) + (c / 4096) mod 64).
  { rewrite (Z.div_mod (c / 4096) 64) at 1 by lia. by rewrite Z.div_div by lia. }
  set (x1 := c / 64) in *. set (x2 := c / 4096) in *. set (x3 := c / 262144) in *.
  set (r0 := c mod 64) in *. set (r1 := x1 mod 64) in *. set (r2 := x2 mod 64) in *. clearbody x1 x2 x3 r0 r1 r2.
  destruct (Z.ltb_spec c 128); [|destruct (Z.ltb_spec c 2048); [|destruct (Z.ltb_spec c 65536)]]; cbn [map app is_utf8].
  - by rewrite within_yes by lia.
  - by rewrite (within_no 0 127), !within_yes by lia.
  - rewrite (within_no 0 127), (within_no 194 223), (within_yes 224 239), (within_yes 128 191 (128 + r0)) by lia. rewrite andb_true_r.
    rewrite within_yes; [done|lia|]. split.
    + destruct (Z.eq_dec x2 0) as [->|Hx]; [rewrite within_yes by lia; lia|rewrite within_no by lia; lia].
    + destruct (Z.eq_dec x2 13) as [->|Hx]; [rewrite within_yes by lia; lia|rewrite within_no by lia; lia].
  - rewrite (within_no 0 127), (within_no 194 223), (within_no 224 239), (within_yes 240 244), (within_yes 128 191 (128 + r0)), (within_yes 128 191 (128 + r1)) by lia.
    rewrite !andb_true_r. rewrite within_yes; [done|lia|]. split.
    + destruct (Z.eq_dec x3 0) as [->|Hx]; [rewrite within_yes by lia; lia|rewrite within_no by lia; lia].
    + destruct (Z.eq_dec x3 4) as [->|Hx]; [rewrite within_yes by lia; lia|rewrite within_no by lia; lia].
Qed.
Lemma is_utf8_utf8 s : Forall Lossy.scalar s -> is_utf8 (utf8 s) = true.
Proof. induction 1 as [|c s Hc Hs IH]; [done|]. change (utf8 (c :: s)) with (utf8_char c ++ utf8 s). by rewrite is_utf8_char. Qed.

(** An entry: its disk, time, level, scope and message. *)
Definition Entry : Type := Disk * text * text * text * text.
Definition entry_line (e : Entry) : text := let '(d, ts, lv, sc, m) := e in line ts lv sc m.
Definition logs (es : list Entry) (file : option bytes) : option bytes :=
  fold_left (fun f '(d, ts, lv, sc, m) => log d ts lv sc m f) es file.
Definition size (file : option bytes) : Z := Z.of_nat (length (default [] file)).

Lemma log_size d ts lv sc m file most :
  can_cut d = true -> Z.of_nat (length (utf8 (line ts lv sc m))) <= most -> size file <= MAX_BYTES + most ->
  size (log d ts lv sc m file) <= MAX_BYTES + most.
Proof.
  unfold log, size. intros Hc Hl Hf. set (l := utf8 (line ts lv sc m)) in *.
  set (file1 := match file with Some b => _ | None => None end).
  assert (H1 : Z.of_nat (length (default [] file1)) <= MAX_BYTES).
  { unfold file1. destruct file as [b|]; [|done]. rewrite Hc. destruct (Z.ltb_spec MAX_BYTES (Z.of_nat (length b))); cbn; unfold MAX_BYTES in *; lia. }
  destruct (can_open d); [|lia]. cbn [from_option id]. destruct (torn d); rewrite length_app, ?length_take; lia.
Qed.

(** The log cannot grow without bound: whatever is logged and however writing goes, as long as the file
    can be cut it is never larger than the cap and one line. *)
Theorem log_stays_bounded most es file :
  Forall (fun '(d, ts, lv, sc, m) => can_cut d = true /\ Z.of_nat (length (utf8 (line ts lv sc m))) <= most) es ->
  size file <= MAX_BYTES + most -> size (logs es file) <= MAX_BYTES + most.
Proof.
  intros Hes. revert file. induction Hes as [|[[[[d ts] lv] sc] m] es [Hc Hl] Hes IH]; intros file Hf; [done|].
  apply IH. by apply log_size.
Qed.

(** A log of whole lines. *)
Definition log_text (ls : list text) : text := concat (map (fun p => p ++ [10]) ls).
Lemma lines_cons p r : 10 ∉ p -> Hibp.lines (p ++ 10 :: r) = Hibp.strip_cr p :: Hibp.lines r.
Proof. intros Hp. unfold Hibp.lines. rewrite split_app by done. rewrite drop_last_cons by apply split_not_nil. done. Qed.
Lemma lines_log ls : Forall (fun p => 10 ∉ p) ls -> Hibp.lines (log_text ls) = map Hibp.strip_cr ls.
Proof. induction 1 as [|p ls Hp Hls IH]; [done|]. unfold log_text in *. cbn [map concat]. rewrite <- app_assoc. cbn [app]. by rewrite lines_cons, IH. Qed.
Lemma log_text_app a b : log_text (a ++ b) = log_text a ++ log_text b.
Proof. unfold log_text. by rewrite map_app, concat_app. Qed.

(** What was logged is what is shown: on a log of whole lines below the cap, the newest line of the
    tail is the entry just written, on one line whatever its message, after those that were there. *)
Theorem tail_shows_entry d ts lv sc m ls n :
  can_open d = true -> torn d = None -> Forall Lossy.scalar (log_text ls ++ line ts lv sc m) ->
  Z.of_nat (length (utf8 (log_text ls))) <= MAX_BYTES -> Forall (fun p => 10 ∉ p) (ts :: lv :: sc :: ls) ->
  log_tail (S n) (log d ts lv sc m (Some (utf8 (log_text ls))))
  = join [10] (drop (length ls - n) (map Hibp.strip_cr ls) ++ [Hibp.strip_cr (removelast (line ts lv sc m))]).
Proof.
  intros Ho Ht Hs Hcap. rewrite !Forall_cons. intros (Hts & Hlv & Hsc & Hls).
  set (msg := map (fun c => if c =? 10 then 32 else c) m).
  set (e := ts ++ lit " [" ++ lv ++ lit "] " ++ sc ++ lit ": " ++ msg).
  assert (El : line ts lv sc m = e ++ [10]) by (unfold line, e; fold msg; by rewrite <- !app_assoc).
  assert (He : 10 ∉ e).
  { unfold e. rewrite !not_elem_of_app. split_and!; try done; try (apply (bool_decide_unpack _); by vm_compute).
    unfold msg. clear. induction m as [|c m IH]; [by apply not_elem_of_nil|]. cbn. apply not_elem_of_cons. split; [destruct (Z.eqb_spec c 10); lia|done]. }
  rewrite El, removelast_last in *.
  assert (Ef : log d ts lv sc m (Some (utf8 (log_text ls))) = Some (utf8 (log_text (ls ++ [e])))).
  { unfold log. rewrite (proj2 (Z.ltb_ge _ _)) by lia. cbn [andb]. rewrite Ho, Ht. cbn [from_option id]. rewrite El, <- utf8_app, log_text_app.
    by rewrite <- (app_nil_r (e ++ [10])). }
  assert (Es : Forall Lossy.scalar (log_text (ls ++ [e]))) by (rewrite log_text_app; by rewrite <- (app_nil_r (e ++ [10])) in Hs).
  rewrite Ef. unfold log_tail, content. rewrite is_utf8_utf8, Lossy.from_utf8_lossy_utf8 by done.
  rewrite lines_log by (rewrite Forall_app; split; [done|by constructor]). rewrite map_app, length_app, length_map. cbn [map length].
  f_equal. rewrite drop_app_le by (rewrite length_map; lia). f_equal. f_equal. lia.
Qed.
End log_claims.

(** * What the network tools answer *)

Section net_claims.
Import NetTools.

(** A lookup answers the addresses the resolver gave, each once, in the order of their texts; and an
    error only when there is no name, no answer or no address. *)
Theorem dns_exact lookup_host host :
  match net_dns lookup_host host with
  | Ok ips => exists addrs, lookup_host (clean_host host) 0 = inl addrs /\ ips <> []
      /\ StronglySorted (fun a b => text_lt a b = true) ips /\ forall ip, ip ∈ ips <-> ip ∈ map addr_ip addrs
  | Err _ => clean_host host = [] \/ (exists e, lookup_host (clean_host host) 0 = inr e) \/ lookup_host (clean_host host) 0 = inl []
  | Panic => False
  end.
Proof.
  unfold net_dns. case_bool_decide as E; [by left|]. destruct (lookup_host (clean_host host) 0) as [addrs|e]; [|by eauto].
  assert (Hs : StronglySorted (fun a b => text_lt a b = true) (Netdata.dedup (sort_by text_lt (map addr_ip addrs))))
    by (apply dedup_increasing, sort_by_sorted; [apply text_lt_asym|apply text_lt_trans]).
  assert (Hm : forall ip, ip ∈ Netdata.dedup (sort_by text_lt (map addr_ip addrs)) <-> ip ∈ map addr_ip addrs)
    by (intros ip; by rewrite elem_of_dedup, sort_by_perm).
  destruct (Netdata.dedup _) as [|ip ips] eqn:Ed; [|by exists addrs].
  right. right. destruct addrs as [|a l]; [done|]. destruct (not_elem_of_nil (addr_ip a)). apply Hm. left.
Qed.

Lemma rsplit_once_app c a b : c ∉ b -> rsplit_once c (a ++ c :: b) = Some (a, b).
Proof.
  intros Hb. unfold rsplit_once. rewrite reverse_app, reverse_cons, <- app_assoc. cbn [app]. rewrite split_once_app by (by rewrite elem_of_reverse).
  by rewrite !reverse_involutive.
Qed.

(** The parts of what a user types. *)
Definition authority (host : text) (port : option text) : text := host ++ match port with Some p => chr ":" :: p | None => [] end.
Definition typed (scheme : string) (host : text) (port path : option text) : text :=
  lit scheme ++ authority host port ++ match path with Some p => chr "/" :: p | None => [] end.

Lemma not_a_scheme w host port path :
  chr ":" ∉ w -> chr "/" ∉ w -> chr ":" ∉ host -> chr "/" ∉ host ->
  (forall p, port = Some p -> p <> [] /\ Forall (fun c => is_ascii_digit c = true) p) ->
  strip_prefix (w ++ lit "://") (typed "" host port path) = None.
Proof.
  intros Hw1 Hw2 Hh1 Hh2 Hp. destruct (strip_prefix _ _) as [t|] eqn:E; [|done]. exfalso. apply strip_prefix_Some in E.
  assert (E1 : authority host port ++ match path with Some p => 47 :: p | None => [] end = w ++ 58 :: 47 :: 47 :: t) by (rewrite <- app_assoc in E; exact E).
  unfold authority in E1. destruct port as [p|].
  - rewrite <- app_assoc in E1. cbn [app] in E1. apply (f_equal (split_once 58)) in E1. rewrite !split_once_app in E1 by done. injection E1 as _ E1.
    destruct (Hp p eq_refl) as [Hne Hd]. destruct p as [|d p]; [done|]. injection E1 as -> _. apply Forall_cons in Hd as [Hd _]. by vm_compute in Hd.
  - rewrite app_nil_r in E1. destruct path as [q|].
    + apply (f_equal (split_once 47)) in E1. rewrite split_once_app in E1 by done. change (w ++ 58 :: 47 :: 47 :: t) with (w ++ [58] ++ 47 :: 47 :: t) in E1.
      rewrite app_assoc, split_once_app in E1 by (rewrite not_elem_of_app; split; [done|apply (bool_decide_unpack _); by vm_compute]).
      injection E1 as -> _. apply Hh1. rewrite elem_of_app. right. left.
    + rewrite app_nil_r in E1. apply Hh1. rewrite E1, elem_of_app. right. left.
Qed.

(** A host is found in what is typed around it: with either scheme or none, a port or none and a path
    or none. *)
Theorem host_of_typed scheme host port path :
  scheme ∈ ["https://"; "http://"; ""]%string -> host <> [] ->
  Forall (fun c => is_whitespace c = false) (typed scheme host port path) -> chr ":" ∉ host -> chr "/" ∉ host ->
  (forall p, port = Some p -> p <> [] /\ Forall (fun c => is_ascii_digit c = true) p) ->
  clean_host (typed scheme host port path) = host.
Proof.
  intros Hs Hne Hw Hc Hsl Hp.
  assert (Htrim : forall s, Forall (fun c => is_whitespace c = false) s -> trim s = s).
  { assert (H1 : forall s, Forall (fun c => is_whitespace c = false) s -> trim_start s = s) by (intros [|c s] H; [done|]; cbn; apply Forall_cons in H as [-> _]; done).
    intros s H. unfold trim, trim_end. rewrite (H1 s) by done. rewrite H1 by (by apply Forall_reverse). apply reverse_involutive. }
  unfold clean_host. rewrite (Htrim (typed scheme host port path)) by done. set (rest := typed "" host port path).
  assert (E : (match strip_prefix (lit "https://") (typed scheme host port path) with
               | Some r => r | None => default (typed scheme host port path) (strip_prefix (lit "http://") (typed scheme host port path)) end) = rest).
  { assert (N1 : strip_prefix (lit "https://") rest = None) by (apply (not_a_scheme (lit "https")); try done; apply (bool_decide_unpack _); by vm_compute).
    assert (N2 : strip_prefix (lit "http://") rest = None) by (apply (not_a_scheme (lit "http")); try done; apply (bool_decide_unpack _); by vm_compute).
    repeat (apply elem_of_cons in Hs as [->|Hs]); [..|by apply not_elem_of_nil in Hs].
    - change (typed "https://" host port path) with (lit "https://" ++ rest). by rewrite (proj2 (strip_prefix_Some _ _ rest)).
    - change (typed "http://" host port path) with (lit "http://" ++ rest). change (strip_prefix (lit "https://") (lit "http://" ++ rest)) with (@None text).
      by rewrite (proj2 (strip_prefix_Some _ _ rest)).
    - fold rest. by rewrite N1, N2. }
  rewrite E.
  assert (Hdig : forall p c, port = Some p -> c ∈ p -> is_ascii_digit c = true).
  { intros p c Hq Hin. destruct (Hp p Hq) as [_ H]. rewrite Forall_forall in H. auto. }
  assert (Ha : chr "/" ∉ authority host port).
  { unfold authority. rewrite not_elem_of_app. split; [done|]. destruct port as [p|]; [|apply not_elem_of_nil]. apply not_elem_of_cons. split; [by vm_compute|].
    intros Hin. by specialize (Hdig p _ eq_refl Hin). }
  assert (E2 : head (split (chr "/") rest) = Some (authority host port)).
  { unfold rest, typed. cbn [lit map String.list_ascii_of_string app]. destruct path as [q|]; [by rewrite split_app|]. by rewrite app_nil_r, split_no_sep. }
  assert (Hnc : contains (chr ":") host = false).
  { unfold contains. apply not_true_is_false. intros H%existsb_exists. destruct H as (c & Hin%list_elem_of_In & <-%Z.eqb_eq). done. }
  assert (Hwh : Forall (fun c => is_whitespace c = false) host)
    by (unfold typed, authority in Hw; rewrite !Forall_app in Hw; by destruct Hw as (_ & (? & _) & _)).
  rewrite E2. cbn [from_option id]. unfold authority in *. destruct port as [p|].
  - rewrite rsplit_once_app by (intros Hin; by specialize (Hdig p _ eq_refl Hin)).
    rewrite bool_decide_false by done. destruct (Hp p eq_refl) as [_ Hd]. rewrite (proj2 (forallb_forall is_ascii_digit p))
      by (intros c Hin%list_elem_of_In; rewrite Forall_forall in Hd; auto).
    rewrite Hnc. by apply Htrim.
  - rewrite app_nil_r. unfold rsplit_once. rewrite split_once_none by (by rewrite elem_of_reverse). by apply Htrim.
Qed.
End net_claims.

(** * What a start does *)

Section app_claims.
Import App.
Context {P : CryptoPrims} {L : CryptoLaws P} {B : Base64} {BL : Base64Laws}.

Definition guarded (c : Computer) : bool :=
  let d := device Own VaultSession.locked c in state.password_protected d || state.require_hello d || state.totp_enabled d.

Lemma left_unchanged p s c : left_by p (device p s c) c = c.
Proof. by destruct p, c as [[] [] ? ?]. Qed.

(** C17: A start opens the right vault or none. In its own folder the app is locked exactly when something
    guards it, else it has the key of the keychain, or on the first start a new one that it stored;
    otherwise it works in memory, under a key of its own, and nothing on the computer has changed. *)
Theorem start_opens_own_vault opens os c :
  match open_state opens os c with
  | (Own, d) =>
      opens = true
      /\ if guarded c then session d = VaultSession.locked /\ left_by Own d c = c
         else exists vk, session d = VaultSession.unlocked vk
           /\ match key_entry c with
              | Some t => state.stored_key t = Ok vk /\ left_by Own d c = c
              | None => vk = fresh_key os /\ left_by Own d c = MkComputer (own c) (temp c) (Some (b64_encode vk)) (totp_entry c)
              end
  | (Temp, d) => session d = VaultSession.unlocked (fresh_key os) /\ left_by Temp d c = c
  end.
Proof.
  unfold open_state. destruct opens; [|split; [done|apply left_unchanged]].
  unfold state.new_persistent, mbind at 1, AppLock.read. cbv beta iota.
  match goal with |- context [state.password_protected ?d || ?x || ?y] => change (state.password_protected d || x || y) with (guarded c) end.
  destruct (guarded c) eqn:Eg.
  - cbn. split; [done|]. split; [done|]. by destruct c as [[] [] ? ?].
  - unfold state.load_or_create_key, state.store_key, mbind, AppLock.read, set_session, AppLock.modify, lift.
    destruct (kc_get_ok os); cbn; [|split; [done|by destruct c as [[] [] ? ?]]]. destruct (key_entry c) as [t|] eqn:Ek.
    + destruct (state.stored_key t) as [vk|e|] eqn:Es; cbn; [|split; [done|destruct c as [[] [] ? ?]; cbn in *; by subst]..].
      split; [done|]. exists vk. split; [done|]. split; [done|]. destruct c as [[] [] ? ?]. cbn in *. by subst.
    + destruct (kc_set_ok os); cbn; [|split; [done|destruct c as [[] [] ? ?]; cbn in *; by subst]].
      split; [done|]. exists (fresh_key os). split; [done|]. split; [done|]. by destruct c as [[] [] ? ?].
Qed.

(** While the vault cannot be opened the app works in the temporary folder but on the same keychain.
    Setting a master password then moves the vault's key out of the keychain into the temporary folder,
    and the next start, which finds neither a wrapper nor an entry, makes a new key for the old vault. *)
Lemma fallback_password_loses_key (vk : VaultKey) c os os' pw :
  guarded c = false -> key_entry c = Some (b64_encode vk) -> wrap (temp c) = None -> (4 <= length (utf8 (trim pw)))%nat ->
  kc_get_ok os = true -> kc_del_ok os = true -> tmp_ok os = true -> rename_ok os = true -> kc_get_ok os' = true -> kc_set_ok os' = true ->
  let '(p, d) := open_state false os c in
  let '(r, d1) := applock.auth_set_password os pw d in
  let c1 := left_by p d1 c in
  let '(p2, d2) := open_state true os' c1 in
  p = Temp /\ r = Ok tt /\ own c1 = own c /\ key_entry c1 = None /\ p2 = Own /\ session d2 = VaultSession.unlocked (fresh_key os').
Proof.
  intros Hg Hk Hw Hpw H1 H2 H3 H4 H5 H6. cbn [open_state]. unfold new_memory_fallback, applock.auth_set_password.
  rewrite (proj2 (Nat.leb_le _ _) Hpw). unfold mbind at 1, AppLock.read, state.password_protected. cbn. rewrite Hw. cbn.
  unfold state.load_or_create_key, mbind at 1 2, AppLock.read. rewrite H1. cbn -[state.stored_key applock.seal_new]. rewrite Hk. unfold lift. rewrite stored_key_encode.
  unfold applock.seal_new, state.write_atomic, state.delete_key, mbind. rewrite H2, H3, H4.
  destruct (windows os && remove_ok os); cbn -[state.password_protected state.require_hello state.totp_enabled];
    (match goal with |- context [state.password_protected ?d || ?x || ?y] => change (state.password_protected d || x || y) with (guarded c) end);
    rewrite Hg; unfold state.load_or_create_key, state.store_key, mbind, AppLock.read; rewrite H5; cbn; rewrite H6; done.
Qed.

(** Saving preferences shows them: what the screen reads afterwards is what it read before with the
    saved values over it, and telemetry stays off. *)
Theorem settings_shown os patch d d' :
  settings d <> NotObject -> commands.settings_set os patch d = (Ok tt, d') ->
  settings_get d' = <["telemetry" := VBool false]> (patch ∪ settings_get d).
Proof.
  intros Hn. unfold commands.settings_set, commands.edit_settings, mbind, AppLock.read. destruct (settings_write_ok os); [|done].
  unfold set_settings, AppLock.modify. intros [= <-]. unfold settings_get. cbn [settings]. generalize commands.default_settings as base. intros base.
  destruct (settings d) as [| |m] eqn:Es; [|done|]; apply map_eq; intros k; destruct (decide (k = "telemetry"%string)) as [->|Hk];
    rewrite ?lookup_insert_eq, ?(lookup_insert_ne _ "telemetry"%string k) by done; try done;
    repeat (rewrite lookup_union || rewrite (lookup_insert_ne _ "telemetry"%string k) by done).
  - by destruct (patch !! k), (base !! k).
  - by destruct (patch !! k), (m !! k), (base !! k).
Qed.

(** A settings file that holds JSON but no object is written back as it is: saving succeeds and saves
    nothing. *)
Lemma settings_lost os patch d : settings d = NotObject -> settings_write_ok os = true -> commands.settings_set os patch d = (Ok tt, d).
Proof.
  intros Hd Ho. unfold commands.settings_set, commands.edit_settings, mbind, AppLock.read. rewrite Ho, Hd. unfold set_settings, AppLock.modify. by destruct d; cbn in *; subst.
Qed.
End app_claims.

Section setup_claims.
Import App.
Context {S W : Type} {C : CloudProvider S} {Pr : Process W} {B : Base64}.
Variables (mc : Mgr.Machine) (h : Host).

Lemma sweep_keeps_rules (v : Mgr.t S) : Mgr.rules (snd (Mgr.sweep_on_launch v)) = Mgr.rules v.
Proof.
  unfold Mgr.sweep_on_launch, Mgr.get_token, Mgr.sweep, Mgr.kept_ids, Mgr.ignore, Mgr.on, Mgr.gets, mbind, ret.
  repeat case_match; simplify_eq; try done.
Qed.

(** A launch undoes what a crash left: whatever was blocked before, no rule blocks traffic once the app
    is up, provided the firewall tool answers its first call, and the routes and names of an old tunnel
    are flushed; a regular exit leaves no rule either. *)
Theorem launch_unblocks opens os (s : Desktop (S := S) (W := W)) :
  Mgr.windows mc = true -> head (Mgr.faults (vpn_of s)) <> Some false ->
  let '(p, d, s1) := setup mc h opens os s in
  Mgr.rules (vpn_of s1) = [] /\ tn_ran (tun_of s1) = tn_ran (tun_of s) ++ Tunnel.flush_commands h
  /\ Mgr.rules (vpn_of (on_exit mc s)) = [].
Proof.
  intros Hw Hf. assert (Hc : Mgr.rules (snd (Mgr.killswitch_clear_all mc (vpn_of s))) = []).
  { unfold Mgr.killswitch_clear_all. rewrite Hw. unfold Mgr.fate, mbind, Mgr.modify, ret.
    destruct (Mgr.faults (vpn_of s)) as [|[] l] eqn:E; [cbn; by rewrite E|cbn|by destruct Hf]. by destruct l. }
  unfold setup, on_exit. destruct (open_state opens os (pc s)) as [p d]. cbn [vpn_of tun_of]. rewrite sweep_keeps_rules. split; [done|]. split; [|done].
  unfold Tunnel.flush_wg_network. generalize (Tunnel.flush_commands h) as l. intros l. generalize (tun_of s) as t. induction l as [|c l IH]; intros t; cbn; [by rewrite app_nil_r|].
  rewrite IH. unfold Tunnel.quiet, Tunnel.logged. cbn. rewrite <- app_assoc. by destruct c.
Qed.
End setup_claims.

(** * Concrete runs *)

Module ShellDemo.
Import Log NetTools App.
Definition disk : Disk := MkDisk true true None.
Definition first : Entry := (disk, lit "2024-05-01T10:00:00Z", lit "INFO", lit "vpn", lit "up").
Lemma log_stays_bounded_witness : size (logs [first; first] None) <= MAX_BYTES + 40.
Proof. apply (log_stays_bounded 40); [repeat constructor; by vm_compute|by vm_compute]. Defined.

Lemma tail_shows_entry_witness :
  log_tail 1 (log disk (lit "t2") (lit "ERROR") (lit "sync") (lit "two" ++ [10] ++ lit "lines") (Some (utf8 (log_text [lit "t1 [INFO] vpn: up"]))))
  = lit "t2 [ERROR] sync: two lines".
Proof.
  refine (tail_shows_entry disk (lit "t2") (lit "ERROR") (lit "sync") (lit "two" ++ [10] ++ lit "lines") [lit "t1 [INFO] vpn: up"] 0 eq_refl eq_refl _ _ _).
  - apply Forall_forall. intros c Hc. left. revert c Hc. apply Forall_forall. apply (bool_decide_unpack _). by vm_compute.
  - by vm_compute.
  - apply (bool_decide_unpack _). by vm_compute.
Defined.

Lemma host_of_typed_witness : clean_host (lit "https://example.com:8443/a?b") = lit "example.com".
Proof.
  apply (host_of_typed "https://" (lit "example.com") (Some (lit "8443")) (Some (lit "a?b"))); try (apply (bool_decide_unpack _); by vm_compute).
  intros p [= <-]. split; [done|]. apply (bool_decide_unpack _). by vm_compute.
Defined.

Definition fresh_dev : Dev := MkDev VaultSession.locked None None None NoSettings.
Definition saved : Dev := snd (commands.settings_set calm {["theme" := VRaw (lit "light")]} fresh_dev).
Lemma settings_shown_witness : settings_get saved !! "theme" = Some (VRaw (lit "light")).
Proof. rewrite (settings_shown calm {["theme" := VRaw (lit "light")]} fresh_dev saved); [by vm_compute|done|done]. Defined.
End ShellDemo.
