(* ===== verification/VpnReports.v ===== *)
(** What the VPN screens show: [vpn/history.rs] (the session store and the monthly report),
    [vpn/metrics.rs] (the detector that suggests a larger instance), [vpn/profiles.rs],
    [vpn/speedtest.rs] and [cloud/latency.rs] with their mocks, and of [vpn.rs] the region catalogue,
    the history listing, the throughput of the metrics loop and the always-on node's status. *)
From S2P Require Import Prelude Bytes Text Crypto Floats Value Toy RecoveryKit Keyring Model Generator Csv Importers Provision Vpn NmHost VpnManager VaultCmds Cloud.
From Stdlib Require Import Floats.SpecFloat.
Local Open Scope Z_scope.

Module History.
Import Mgr.
(** An [i64] sum, which wraps. *)
Definition wrap (z : Z) : Z := (z + 2 ^ 63) mod 2 ^ 64 - 2 ^ 63.

Record Totals : Type := MkTotals { to_sessions : nat; to_hours : f64; to_bytes : Z; to_cost : f64 }.
Record RegionBreakdown : Type := MkBreakdown { rb_region : text; rb_sessions : nat; rb_hours : f64; rb_bytes : Z }.
Record MonthlyReport : Type := MkReport {
  year : Z; month : Z; mr_totals : Totals; by_region : list RegionBreakdown; best_down : Z; worst_down : Z; commercial_vpn_usd : f64 }.
Definition COMMERCIAL_VPN_MONTHLY_USD : f64 := F64.dec 1299 2.

(** The rows in [from, to), newest first; rows of the same second in the order of their ids. *)
Definition newer (a b : SessionRecord) : bool := se_started b <? se_started a.
Definition list_sessions (from upto : Z) (h : gmap text SessionRecord) : list SessionRecord :=
  sort_by newer (List.filter (fun s => (from <=? se_started s) && (se_started s <? upto)) (map snd (map_to_list h))).
Definition all (h : gmap text SessionRecord) : list SessionRecord := list_sessions (- 2 ^ 63) (2 ^ 63 - 1) h.

Definition hours_of (s : SessionRecord) : f64 := F64.div (F64.of_Z (wrap (se_ended s - se_started s))) (F64.of_Z 3600).
Definition moved (s : SessionRecord) : Z := wrap (bytes_rx s + bytes_tx s).
Definition add_session (t : Totals) (s : SessionRecord) : Totals :=
  MkTotals (S (to_sessions t)) (F64.add (to_hours t) (hours_of s)) (wrap (to_bytes t + moved s)) (F64.add (to_cost t) (cost_usd s)).
Definition totals (l : list SessionRecord) : Totals := fold_left add_session l (MkTotals 0 F64.zero 0 F64.zero).

(** [BTreeMap::entry(..).or_insert(..)], and the entry updated. *)
Definition fresh (region : text) : RegionBreakdown := MkBreakdown region 0 F64.zero 0.
Definition count_in (e : RegionBreakdown) (s : SessionRecord) : RegionBreakdown :=
  MkBreakdown (rb_region e) (S (rb_sessions e)) (F64.add (rb_hours e) (hours_of s)) (wrap (rb_bytes e + moved s)).
Fixpoint entry (s : SessionRecord) (l : list RegionBreakdown) : list RegionBreakdown :=
  match l with
  | [] => [count_in (fresh (se_region s)) s]
  | e :: l' =>
      if bool_decide (rb_region e = se_region s) then count_in e s :: l'
      else if text_lt (rb_region e) (se_region s) then e :: entry s l'
      else count_in (fresh (se_region s)) s :: l
  end.
Definition regions_of (l : list SessionRecord) : list RegionBreakdown := fold_left (fun m s => entry s m) l [].
Definition best_of (l : list SessionRecord) : Z := fold_left (fun b s => Z.max b (down_mbps s)) l (- 2 ^ 63).
Definition worst_of (l : list SessionRecord) : Z := fold_left (fun b s => Z.min b (down_mbps s)) l (2 ^ 63 - 1).
Definition build_report (y m : Z) (l : list SessionRecord) : MonthlyReport :=
  MkReport y m (totals l) (regions_of l)
    (if best_of l =? - 2 ^ 63 then 0 else best_of l) (if worst_of l =? 2 ^ 63 - 1 then 0 else worst_of l) COMMERCIAL_VPN_MONTHLY_USD.
Definition monthly_report (y m from upto : Z) (h : gmap text SessionRecord) : MonthlyReport := build_report y m (list_sessions from upto h).

Record SessionRowOut : Type := MkRow {
  ro_id : text; ro_region : text; ro_type : text; ro_started : text; ro_ended : option text; ro_rx : Z; ro_tx : Z; ro_cost : f64;
  ro_cpu : Z; ro_down : Z; ro_up : Z }.
Definition vpn_history {R : Rfc3339} (now : Z) (range : text) (h : gmap text SessionRecord) : list SessionRowOut :=
  let from := if bool_decide (range = lit "week") then now - 7 * 86400 else if bool_decide (range = lit "month") then now - 30 * 86400 else 0 in
  map (fun s => MkRow (se_id s) (se_region s) (se_type s) (iso (se_started s)) (Some (iso (se_ended s))) (bytes_rx s) (bytes_tx s) (cost_usd s)
                  (peak_cpu_pct s) (down_mbps s) (up_mbps s)) (list_sessions from (now + 86400) h).
End History.

(** * Metrics *)

Module Metrics.
Record MetricsSample : Type := MkSample { rx : f64; tx : f64; cpu : f64; mem_pct : f64; nic_pct : f64; latency_ms : f64; at_ : f64 }.
Record UpsizeDetector : Type := MkDetector { threshold_pct : f64; window_secs : f64; high_since : option f64; fired : bool }.
Definition with_ (threshold window : f64) : UpsizeDetector := MkDetector threshold window None false.
Definition new : UpsizeDetector := with_ (F64.of_Z 85) (F64.of_Z 60).
Definition observe (d : UpsizeDetector) (s : MetricsSample) : bool * UpsizeDetector :=
  if fired d then (false, d)
  else if F64.leb (threshold_pct d) (cpu s) then
    match high_since d with
    | None => (false, MkDetector (threshold_pct d) (window_secs d) (Some (at_ s)) false)
    | Some since =>
        if F64.leb (window_secs d) (F64.sub (at_ s) since) then (true, MkDetector (threshold_pct d) (window_secs d) (high_since d) true)
        else (false, d)
    end
  else (false, MkDetector (threshold_pct d) (window_secs d) None false).
Definition armed (d : UpsizeDetector) : bool := fired d.

(** One round of [spawn_metrics_loop]: bytes per second over the two seconds since the last counters. *)
Definition rate (prev : option Z) (cur : Z) : f64 :=
  match prev with Some p => F64.div (F64.of_Z (Z.max 0 (cur - p))) (F64.of_Z 2) | None => F64.zero end.
Definition metrics_round (prev : option (Z * Z)) (cur : Z * Z) : f64 * f64 := (rate (fst <$> prev) cur.1, rate (snd <$> prev) cur.2).
End Metrics.

(** * Profiles and probes *)

Module Profiles.
Record ConnectionProfile : Type := MkProfile {
  pr_id : text; pr_name : text; region_id : text; pr_type : text; kill_switch : bool; split_tunnel_apps : list text; ssid_triggers : list text }.
Definition validate (p : ConnectionProfile) : Result unit :=
  guard negb (bool_decide (trim (pr_name p) = [])) else Err (Invalid "profile name required") in
  guard negb (bool_decide (trim (region_id p) = [])) else Err (Invalid "profile region required") in
  guard negb (bool_decide (trim (pr_type p) = [])) else Err (Invalid "profile instance type required") in
  Ok tt.
Definition triggered_by (p : ConnectionProfile) (ssid : text) : bool := existsb (fun t => bool_decide (t = lit "*") || bool_decide (t = ssid)) (ssid_triggers p).
Definition seeded : list ConnectionProfile :=
  [MkProfile (lit "max-privacy") (lit "Max Privacy") (lit "eu-central") (lit "g6-nanode-1") true [] [lit "*"];
   MkProfile (lit "streaming") (lit "Streaming") (lit "us-east") (lit "g6-standard-2") false [lit "com.netflix.app"] [];
   MkProfile (lit "eu-testing") (lit "EU Testing") (lit "eu-west") (lit "g6-nanode-1") false [] [];
   MkProfile (lit "public-wifi") (lit "Public WiFi") (lit "us-east") (lit "g6-nanode-1") true [] [lit "airport-wifi"; lit "cafe-guest"]].

Record SpeedResult : Type := MkSpeed { sp_down : f64; sp_up : f64; sp_latency : f64 }.
Class SpeedTest (W : Type) : Type := { run_speed : text -> ST W CoreError SpeedResult }.
Class LatencyProbe (W : Type) : Type := { probe : text -> ST W CoreError Z }.
Definition assoc {A} (d : A) (l : list (string * A)) (k : text) : A :=
  match List.find (fun p => bool_decide (lit p.1 = k)) l with Some p => p.2 | None => d end.
Definition MockSpeedTest (W : Type) : SpeedTest W := {|
  run_speed region := fun w =>
    let '(down, lat) := assoc (750, 120) [("us-east", (912, 18)); ("us-west", (861, 62)); ("eu-central", (903, 96)); ("eu-west", (889, 88));
                          ("ap-northeast", (804, 156)); ("ap-southeast", (688, 198)); ("sa-east", (671, 128))]%string region in
    (Ok (MkSpeed (F64.of_Z down) (F64.mul (F64.of_Z down) (F64.dec 4 1)) (F64.of_Z lat)), w) |}.
Definition MockLatencyProbe (W : Type) : LatencyProbe W := {|
  probe region := fun w => (Ok (assoc 120 [("us-east", 18); ("us-west", 62); ("eu-central", 96); ("eu-west", 88); ("ap-south", 214);
                                  ("ap-northeast", 156); ("ap-southeast", 198); ("sa-east", 128)]%string region), w) |}.

(** ** The region catalogue *)
Record RegionRow : Type := MkRegionRow { rr_id : text; rr_label : text; rr_country : text; rr_lat : f64; rr_lon : f64; speedtest_host : text }.
Definition row (id label country : string) (lat lon : Z) (host : string) : RegionRow :=
  MkRegionRow (lit id) (lit label) (lit country) (F64.dec lat 2) (F64.dec lon 2) (lit host).
Definition REGIONS : list RegionRow :=
  [row "us-east" "Newark, NJ" "US" 4074 (-7417) "speedtest.newark.linode.com";
   row "us-central" "Dallas, TX" "US" 3278 (-9680) "speedtest.dallas.linode.com";
   row "us-west" "Fremont, CA" "US" 3755 (-12198) "speedtest.fremont.linode.com";
   row "us-southeast" "Atlanta, GA" "US" 3375 (-8439) "speedtest.atlanta.linode.com";
   row "ca-central" "Toronto" "CA" 4365 (-7938) "speedtest.toronto1.linode.com";
   row "eu-west" "London" "GB" 5151 (-13) "speedtest.london.linode.com";
   row "eu-central" "Frankfurt" "DE" 5011 868 "speedtest.frankfurt.linode.com";
   row "ap-south" "Singapore" "SG" 135 10382 "speedtest.singapore.linode.com";
   row "ap-northeast" "Tokyo" "JP" 3568 13969 "speedtest.tokyo2.linode.com";
   row "ap-southeast" "Sydney" "AU" (-3387) 15121 "speedtest.syd1.linode.com"].
Record RegionOut : Type := MkRegionOut { rg_id : text; rg_label : text; rg_country : text; rg_lat : f64; rg_lon : f64; rg_latency : option Z }.
(** [connected] is how long a connection to the host took, in milliseconds, if it came about in a second. *)
Definition measure_latency (connected : text -> option Z) (host : text) : option Z := Z.min (2 ^ 32 - 1) <$> connected (host ++ lit ":443").
Definition vpn_regions_real (connected : text -> option Z) : list RegionOut :=
  map (fun r => MkRegionOut (rr_id r) (rr_label r) (rr_country r) (rr_lat r) (rr_lon r) (measure_latency connected (speedtest_host r))) REGIONS.
Definition vpn_instance_types_real : list Mgr.TypeRow := Mgr.INSTANCE_TYPES.
End Profiles.

(** * The always-on node *)

Module Status.
Record PersistentStatusOut : Type := MkPersistent {
  ps_deployed : bool; ps_ipv4 : option text; ps_region : option text; ps_state : option text; ps_connected : bool; ps_hourly : f64; ps_monthly : f64 }.
(** [format!("{:?}", state).to_lowercase()]. *)
Definition state_name (s : InstanceState.t) : text :=
  match s with
  | InstanceState.Provisioning => lit "provisioning" | InstanceState.Booting => lit "booting" | InstanceState.Running => lit "running"
  | InstanceState.Stopped => lit "stopped" | InstanceState.Deleting => lit "deleting" | InstanceState.Gone => lit "gone"
  end.
Section status.
Context {S : Type} {C : CloudProvider S}.
Definition vpn_persistent_status : ST (Mgr.t S) text PersistentStatusOut := fun s =>
  match Mgr.record s with
  | None => (Ok (MkPersistent false None None None false F64.zero F64.zero), s)
  | Some rec =>
      let connected := match Mgr.vpn s with Some v => Mgr.persistent v && bool_decide (Mgr.instance_id v = Mgr.rec_id rec) | None => false end in
      let hourly := Mgr.hourly_for (Mgr.rec_type rec) in
      let out live := MkPersistent true (Some (Mgr.rec_ipv4 rec)) (Some (Mgr.rec_region rec)) live connected hourly
                        (F64.mul (F64.mul hourly (F64.of_Z 24)) (F64.of_Z 30)) in
      match Mgr.get_token s with
      | (Ok (Some _), s) =>
          let '(r, w) := Vpn.get (Mgr.rec_id rec) (Mgr.world s) in
          (match r with Ok i => Ok (out (Some (state_name (inst_state i)))) | Err _ => Ok (out None) | Panic => Panic end, Mgr.set_world w s)
      | (_, s) => (Ok (out None), s)
      end
  end.
End status.
End Status.

(** * Theorems *)

(** What the VPN screens promise: the report's parts add up to its totals, the history lists what is in
    range, newest first, and the detector fires exactly when the load has been high for the window. *)
(** ** Texts in order *)

Lemma text_lt_neither a b : text_lt a b = false -> text_lt b a = false -> a = b.
Proof.
  revert b; induction a as [|x a IH]; intros [|y b]; cbn; try done. intros [H1 H2]%orb_false_iff [H3 H4]%orb_false_iff.
  assert (x = y) as -> by lia. rewrite Z.eqb_refl in H2, H4. f_equal. by apply IH.
Qed.
Lemma text_lt_tran a b c : text_lt a b = true -> text_lt b c = true -> text_lt a c = true.
Proof.
  intros Hab Hbc. destruct (text_lt a c) eqn:E; [done|]. rewrite (text_lt_trans b c a) in Hab; [done|by apply text_lt_asym|done].
Qed.
Lemma text_lt_irrefl a : text_lt a a = false.
Proof. destruct (text_lt a a) eqn:E; [|done]. by rewrite (text_lt_asym a a E) in E. Qed.

Section report.
Import History Mgr.
Implicit Types (l : list SessionRecord) (m : list RegionBreakdown) (s : SessionRecord).

Lemma wrap_wrap a b : wrap (wrap a + b) = wrap (a + b).
Proof.
  unfold wrap. f_equal. replace ((a + 2 ^ 63) mod 2 ^ 64 - 2 ^ 63 + b + 2 ^ 63) with ((a + 2 ^ 63) mod 2 ^ 64 + b) by lia.
  rewrite Zplus_mod_idemp_l. f_equal. lia.
Qed.

(** ** The regions *)

Definition before (a b : RegionBreakdown) : Prop := text_lt (rb_region a) (rb_region b) = true.
Definition find_region (reg : text) m : option RegionBreakdown := List.find (fun e => bool_decide (rb_region e = reg)) m.
Definition sum_sessions m : nat := foldr (fun e n => rb_sessions e + n)%nat 0%nat m.
Definition sum_bytes m : Z := foldr (fun e z => rb_bytes e + z) 0 m.

Lemma find_later reg m : Forall (fun e => text_lt reg (rb_region e) = true) m -> find_region reg m = None.
Proof.
  induction 1 as [|e m He _ IH]; cbn; [done|]. case_bool_decide as E; [|done]. subst. by rewrite text_lt_irrefl in He.
Qed.

Lemma entry_region s m : Forall (fun e => rb_region e = se_region s \/ exists e0, e0 ∈ m /\ rb_region e = rb_region e0) (entry s m).
Proof.
  induction m as [|e m IH]; cbn [entry]; [by repeat constructor; left|].
  assert (Hm : Forall (fun x => rb_region x = se_region s \/ exists e0, e0 ∈ e :: m /\ rb_region x = rb_region e0) m).
  { apply Forall_forall. intros x Hx. right. exists x. split; [by right|done]. }
  case_bool_decide as E; [constructor; [by left|done]|]. destruct (text_lt _ _).
  - constructor; [right; exists e; split; [by left|done]|]. eapply Forall_impl; [exact IH|]. cbn. intros x [Hx|(e0 & Hin & Hx)]; [by left|].
    right. exists e0. split; [by right|done].
  - constructor; [by left|]. constructor; [right; exists e; split; [by left|done]|done].
Qed.

Lemma entry_sorted s m : StronglySorted before m -> StronglySorted before (entry s m).
Proof.
  induction 1 as [|e m Hs IH Hf]; cbn [entry]; [by repeat constructor|]. case_bool_decide as E.
  - constructor; [done|]. eapply Forall_impl; [exact Hf|]. done.
  - destruct (text_lt (rb_region e) (se_region s)) eqn:Elt.
    + constructor; [done|]. eapply Forall_impl; [apply entry_region|]. cbn. rewrite Forall_forall in Hf.
      intros x [Hx|(e0 & Hin & Hx)]; unfold before; rewrite Hx; [done|by apply Hf].
    + assert (Hgt : text_lt (se_region s) (rb_region e) = true).
      { destruct (text_lt (se_region s) (rb_region e)) eqn:E2; [done|]. destruct E. by apply text_lt_neither. }
      constructor; [by constructor|]. constructor; [done|]. eapply Forall_impl; [exact Hf|]. intros x Hx. unfold before in *. cbn in *. by eapply text_lt_tran.
Qed.

Lemma find_entry s m reg : StronglySorted before m ->
  find_region reg (entry s m) = if bool_decide (se_region s = reg) then Some (count_in (default (fresh reg) (find_region reg m)) s) else find_region reg m.
Proof.
  unfold find_region. induction 1 as [|e m Hs IH Hf]; cbn [entry List.find rb_region count_in fresh]; [repeat case_bool_decide; by subst|].
  destruct (decide (rb_region e = se_region s)) as [E|E]; [rewrite (bool_decide_true (rb_region e = _)) by done|rewrite (bool_decide_false (rb_region e = _)) by done].
  - rewrite <- E. cbn [List.find rb_region count_in]. by destruct (bool_decide (rb_region e = reg)).
  - destruct (text_lt (rb_region e) (se_region s)) eqn:Elt; cbn [List.find rb_region count_in fresh].
    + destruct (decide (rb_region e = reg)) as [<-|E2]; [by rewrite (bool_decide_true (rb_region e = _)), (bool_decide_false (se_region s = _))|].
      by rewrite (bool_decide_false (rb_region e = _)).
    + destruct (decide (se_region s = reg)) as [<-|E2]; [|by rewrite (bool_decide_false (se_region s = _))].
      rewrite (bool_decide_true (se_region s = _)), (bool_decide_false (rb_region e = _)) by done. do 2 f_equal.
      change (List.find _ m) with (find_region (se_region s) m). rewrite find_later; [done|].
      assert (Hgt : text_lt (se_region s) (rb_region e) = true).
      { destruct (text_lt (se_region s) (rb_region e)) eqn:E3; [done|]. destruct E. by apply text_lt_neither. }
      eapply Forall_impl; [exact Hf|]. intros x Hx. unfold before in *. cbn in *. by eapply text_lt_tran.
Qed.

Lemma entry_sums s m : sum_sessions (entry s m) = S (sum_sessions m) /\ wrap (sum_bytes (entry s m)) = wrap (sum_bytes m + moved s).
Proof.
  unfold sum_sessions, sum_bytes. induction m as [|e m [IH1 IH2]]; cbn [entry foldr].
  - split; [done|]. cbn [rb_bytes count_in fresh]. rewrite wrap_wrap. f_equal. lia.
  - case_bool_decide; [|destruct (text_lt _ _)]; cbn [foldr rb_sessions rb_bytes count_in fresh].
    + split; [done|]. rewrite <- Z.add_assoc, wrap_wrap. f_equal. lia.
    + split; [rewrite IH1; lia|]. rewrite (Z.add_comm (rb_bytes e)), <- wrap_wrap, IH2, wrap_wrap. f_equal. lia.
    + split; [done|]. rewrite wrap_wrap. f_equal. lia.
Qed.

(** What one region's line says: its sessions, counted in order. *)
Definition in_region (reg : text) l : list SessionRecord := List.filter (fun s => bool_decide (se_region s = reg)) l.
Definition line (reg : text) l : option RegionBreakdown :=
  if bool_decide (in_region reg l = []) then None else Some (fold_left count_in (in_region reg l) (fresh reg)).

Lemma regions_spec l :
  StronglySorted before (regions_of l) /\ sum_sessions (regions_of l) = length l
  /\ (forall reg, find_region reg (regions_of l) = line reg l)
  /\ to_sessions (totals l) = length l /\ to_bytes (totals l) = wrap (sum_bytes (regions_of l)).
Proof.
  unfold regions_of, totals. induction l as [|s l (Hs & Hn & Hf & Ht & Hb)] using rev_ind; [split; [constructor|done]|].
  rewrite !fold_left_app. cbn [fold_left]. set (m := fold_left (fun m s => entry s m) l []) in *. destruct (entry_sums s m) as [H1 H2].
  split; [by apply entry_sorted|]. split; [rewrite H1, Hn, length_app; cbn; lia|]. split.
  - intros reg. rewrite find_entry by done. rewrite Hf. unfold line, in_region. rewrite List.filter_app. cbn [List.filter].
    case_bool_decide as E; [|by rewrite app_nil_r]. rewrite (bool_decide_false (_ ++ [_] = [])) by (intros [_ ?]%app_nil; done).
    rewrite fold_left_app. cbn [fold_left]. do 2 f_equal. by case_bool_decide as E2; [rewrite E2|].
  - cbn [add_session to_sessions to_bytes]. rewrite Ht, Hb, H2, wrap_wrap. split; [rewrite length_app; cbn; lia|done].
Qed.

(** ** Best and worst *)

Lemma best_ge l s : s ∈ l -> down_mbps s <= best_of l.
Proof.
  unfold best_of. induction l as [|x l IH] using rev_ind; [by intros ?%elem_of_nil|]. rewrite fold_left_app. cbn [fold_left].
  intros [H%IH|H%list_elem_of_singleton]%elem_of_app; subst; lia.
Qed.
Lemma worst_le l s : s ∈ l -> worst_of l <= down_mbps s.
Proof.
  unfold worst_of. induction l as [|x l IH] using rev_ind; [by intros ?%elem_of_nil|]. rewrite fold_left_app. cbn [fold_left].
  intros [H%IH|H%list_elem_of_singleton]%elem_of_app; subst; lia.
Qed.

(** The monthly report adds up. It counts every session once; there is one line for each region
    that has a session and no other, in alphabetical order, and that line counts exactly the region's
    sessions; the lines add up to the totals (in 64 bits, for the bytes); and no session's speed lies
    outside what is called best and worst. *)
Theorem report_adds_up y mo l :
  let r := build_report y mo l in
  to_sessions (mr_totals r) = length l /\ sum_sessions (by_region r) = length l
  /\ to_bytes (mr_totals r) = wrap (sum_bytes (by_region r))
  /\ StronglySorted before (by_region r) /\ (forall reg, find_region reg (by_region r) = line reg l)
  /\ forall s, s ∈ l -> - 2 ^ 63 <= down_mbps s < 2 ^ 63 -> worst_down r <= down_mbps s <= best_down r.
Proof.
  cbn [build_report mr_totals by_region worst_down best_down]. destruct (regions_spec l) as (? & ? & ? & ? & ?). do 5 (split; [done|]).
  intros s Hs Hr. pose proof (best_ge l s Hs). pose proof (worst_le l s Hs). destruct (Z.eqb_spec (worst_of l) (2 ^ 63 - 1)), (Z.eqb_spec (best_of l) (- 2 ^ 63)); lia.
Qed.

(** ** The history *)

(** The history shows the sessions of the range and no others, the newest first. *)
Theorem history_lists_range from upto h :
  StronglySorted (fun a b => se_started b <= se_started a) (list_sessions from upto h)
  /\ list_sessions from upto h ≡ₚ List.filter (fun s => (from <=? se_started s) && (se_started s <? upto)) (map snd (map_to_list h))
  /\ forall s, s ∈ list_sessions from upto h <-> (exists id, h !! id = Some s) /\ from <= se_started s < upto.
Proof.
  unfold list_sessions. split; [|split; [apply sort_by_perm|]].
  - eapply sorted_mono; [|apply sort_by_sorted]; unfold newer.
    + intros x y Hxy%Z.ltb_ge. exact Hxy.
    + intros x y Hxy%Z.ltb_lt. apply Z.ltb_ge. lia.
    + intros x y z H1%Z.ltb_ge H2%Z.ltb_ge. apply Z.ltb_ge. lia.
  - intros s. rewrite sort_by_perm, list_elem_of_In, filter_In, <- list_elem_of_In, andb_true_iff, Z.leb_le, Z.ltb_lt.
    split; intros [Hin Hr]; (split; [|done]).
    + apply list_elem_of_fmap in Hin as ([id x] & -> & Hin%elem_of_map_to_list). by exists id.
    + destruct Hin as [id Hid]. apply list_elem_of_fmap. exists (id, s). split; [done|]. by apply elem_of_map_to_list.
Qed.
End report.

(** ** The detector *)

Section detector.
Import Metrics.
Variables threshold window : f64.
Implicit Types (l : list MetricsSample) (x : MetricsSample).

Definition high x : bool := F64.leb threshold (cpu x).
(** The samples at the end that were all high. *)
Definition streak l : list MetricsSample := fold_left (fun acc x => if high x then acc ++ [x] else []) l [].
(** After [l], sample [x] completes a window of high load. *)
Definition sustained l x : bool :=
  high x && match streak l with f :: _ => F64.leb window (F64.sub (at_ x) (at_ f)) | [] => false end.
(** Some sample completed one. *)
Fixpoint fires_in (before l : list MetricsSample) : bool :=
  match l with [] => false | x :: l => sustained before x || fires_in (before ++ [x]) l end.
Definition observe_all l (d : UpsizeDetector) : UpsizeDetector := fold_left (fun d x => snd (observe d x)) l d.

Lemma fires_in_app before l x : fires_in before (l ++ [x]) = fires_in before l || sustained (before ++ l) x.
Proof.
  revert before; induction l as [|y l IH]; intros before; cbn [app fires_in]; [by rewrite app_nil_r, orb_false_r|].
  rewrite IH, <- app_assoc, orb_assoc. done.
Qed.

Lemma streak_snoc l x : streak (l ++ [x]) = if high x then streak l ++ [x] else [].
Proof. unfold streak. by rewrite fold_left_app. Qed.

(** What the detector remembers. *)
Lemma detector_state l :
  let d := observe_all l (with_ threshold window) in
  threshold_pct d = threshold /\ window_secs d = window /\ fired d = fires_in [] l
  /\ (fired d = false -> high_since d = at_ <$> head (streak l)).
Proof.
  cbn zeta. unfold observe_all. induction l as [|x l IH] using rev_ind; [done|]. rewrite fold_left_app. cbn [fold_left].
  set (d := fold_left _ l _) in *. destruct IH as (Ht & Hw & Hf & Hs). rewrite fires_in_app, streak_snoc, <- Hf. unfold observe, sustained, high.
  cbn [app]. destruct (fired d) eqn:Ef; [cbn; by rewrite Ef|]. specialize (Hs eq_refl). cbn [orb]. rewrite Ht, Hw, Hs. destruct (F64.leb threshold (cpu x)).
  - destruct (streak l) as [|f r]; cbn [head fmap option_fmap option_map app]; [done|].
    destruct (F64.leb window _) eqn:E; cbn; [done|]. by rewrite Ht, Hw, Ef, Hs.
  - done.
Qed.

(** The suggestion of a larger instance comes exactly once, and exactly when it is due. The
    detector answers yes to a sample if and only if the load is high at that sample, has been high at
    every sample since one at least a window ago, and no earlier sample had already completed such a
    window. *)
Theorem upsize_fires_exactly l x :
  fst (observe (observe_all l (with_ threshold window)) x) = sustained l x && negb (fires_in [] l).
Proof.
  destruct (detector_state l) as (Ht & Hw & Hf & Hs). set (d := observe_all l _) in *. unfold observe. rewrite <- Hf. destruct (fired d); [by rewrite andb_false_r|].
  rewrite andb_true_r. unfold sustained, high. rewrite Ht, Hw, (Hs eq_refl). destruct (F64.leb threshold (cpu x)); [|done].
  destruct (streak l) as [|f r]; cbn [head fmap option_fmap option_map]; [done|]. cbn [andb]. by destruct (F64.leb window _).
Qed.
End detector.

(** The seeded profiles can be saved. *)
Lemma seeded_valid : Forall (fun p => Profiles.validate p = Ok tt) Profiles.seeded.
Proof. repeat constructor. Qed.
