(* ===== verification/Mocks.v ===== *)
(** The stand-ins of the core library and the interfaces they stand in for: [cloud/mock.rs]'s fleet
    behind [ServerManager], the traits of [platform/] with their mocks, the simulated traffic of
    [wg/controller.rs] and the samples of [vpn/metrics.rs]. [f64::sin] and [f64::cos], whose precision
    the standard library leaves open, are parameters. *)
From S2P Require Import Prelude Bytes Text Crypto Floats Value Toy RecoveryKit Keyring Model Csv Importers Generator Provision Vpn NmHost VpnManager VaultCmds Cloud Netdata VpnReports.
From Stdlib Require Import Floats.SpecFloat.
Local Open Scope Z_scope.

Declare Scope f64_scope.
Class Trig : Type := { f_sin : f64 -> f64; f_cos : f64 -> f64 }.

(** * Simulated traffic *)

Module Traffic.
Section traffic.
Context {T : Trig}.
Notation "x + y" := (F64.add x y) : f64_scope.
Notation "x - y" := (F64.sub x y) : f64_scope.
Notation "x * y" := (F64.mul x y) : f64_scope.
Notation "x / y" := (F64.div x y) : f64_scope.
Local Open Scope f64_scope.
Definition n (z : Z) : f64 := F64.of_Z z.

(** [f64::max] and [f64::min]: a NaN is the other operand. *)
Definition max (x y : f64) : f64 := match x, y with S754_nan, _ => y | _, S754_nan => x | _, _ => if F64.ltb x y then y else x end.
Definition min (x y : f64) : f64 := match x, y with S754_nan, _ => y | _, S754_nan => x | _, _ => if F64.ltb y x then y else x end.
(** [x as u64]: towards zero, saturating. *)
Definition to_u64 (x : f64) : Z :=
  match x with
  | S754_finite s m e => Z.max 0 (Z.min (2 ^ 64 - 1) (Flt.signed s (Flt.trunc_mag m e)))
  | S754_infinity s => if s then 0%Z else (2 ^ 64 - 1)%Z
  | _ => 0%Z
  end.

Definition throughput_rate (t : f64) : f64 :=
  let base := n 6000000 in let a := n 3500000 in let b := n 1800000 in let c := n 2200000 in
  max (base + a * f_sin (t / n 7) + b * f_sin (t / F64.dec 23 1) + c * f_sin (t / n 11)) F64.zero.
Definition cumulative_bytes (t : f64) : Z :=
  let terms := [(n 3500000, n 7); (n 1800000, F64.dec 23 1); (n 2200000, n 11)] in
  to_u64 (max (fold_left (fun total '(k, p) => total + k * p * (n 1 - f_cos (t / p))) terms (n 6000000 * t)) F64.zero).

Record Counters : Type := MkCounters { rx_bytes : Z; tx_bytes : Z; last_handshake_secs : Z }.
Definition counters (elapsed_secs : f64) : Counters :=
  let rx := cumulative_bytes elapsed_secs in MkCounters rx (rx / 6)%Z (to_u64 elapsed_secs mod 30)%Z.

Definition sample_at (t : f64) : Metrics.MetricsSample :=
  let rx := throughput_rate t in
  let nic_pct := min (rx / n 118000000 * n 100) (n 100) in
  let cpu_pct := Flt.pct (nic_pct * F64.dec 7 1 + n 12 + n 8 * f_sin (t / n 13)) in
  let mem_pct := Flt.pct (n 28 + n 5 * f_sin (t / n 40)) in
  let latency_ms := n 18 + n 4 * Flt.abs (f_sin (t / n 5)) in
  Metrics.MkSample rx (rx / n 6) cpu_pct mem_pct nic_pct latency_ms t.
Definition total_rx_bytes (t : f64) : Z := cumulative_bytes t.
End traffic.
End Traffic.

(** * A fleet *)

Module MockFleet.
(** Servers with their states in the order of their names, snapshots and protections by server. *)
Record t : Type := MkFleet {
  states : list (text * InstanceState.t); snaps : gmap (list Z) (list Snapshot); protections : gmap (list Z) bool; fleet_of : Provider }.
Definition new (p : Provider) : t :=
  MkFleet [(lit "m-1", InstanceState.Running); (lit "m-2", InstanceState.Running); (lit "m-3", InstanceState.Stopped)] ∅ ∅ p.
Definition end_ : Z := 1700000000.

Definition info (p : Provider) (s : text * InstanceState.t) : ServerInfo :=
  MkServerInfo p s.1 (lit "mock-" ++ s.1) (lit "fsn1") (lit "cx22") s.2 (Some (lit "203.0.113.9")) None [] (Some end_)
    2 4096 40 (F64.dec 8 3) (F64.dec 499 2) "EUR".
Definition after (a : PowerAction) : InstanceState.t := match a with Shutdown => InstanceState.Stopped | _ => InstanceState.Running end.
Definition power (id : text) (a : PowerAction) (s : t) : result unit CoreError * t :=
  if existsb (fun p => bool_decide (p.1 = id)) (states s) then
    (Ok tt, MkFleet (map (fun p => if bool_decide (p.1 = id) then (id, after a) else p) (states s)) (snaps s) (protections s) (fleet_of s))
  else (Err (Network "no such server"), s).
Definition snapshot (id label : text) (s : t) : result unit CoreError * t :=
  let list := default [] (snaps s !! id) in
  let next := 900 + Z.of_nat (length list) in
  (Ok tt, MkFleet (states s) (<[id := MkSnapshot (show_dec next) label (Some (end_ + next)) (Some (F64.dec 25 1)) (lit "available") :: list]> (snaps s))
            (protections s) (fleet_of s)).

Section metrics.
Context {T : Trig}.
(** Ninety points, the last at a fixed time. *)
Definition wave (window_secs : Z) (amp base : f64) : list MetricPoint :=
  let step := Z.max window_secs 90 / 90 in
  map (fun i => MkPoint (end_ - (89 - Z.of_nat i) * step)
                  (F64.add base (F64.mul amp (Flt.abs (f_sin (F64.div (F64.of_Z (Z.of_nat i)) (F64.of_Z 7))))))) (seq 0 90).
Definition metrics (window_secs : Z) : ServerMetrics :=
  let mk := wave window_secs in
  MkServerMetrics (mk (F64.of_Z 35) (F64.of_Z 5)) (mk (F64.of_Z 400000) (F64.of_Z 20000)) (mk (F64.of_Z 150000) (F64.of_Z 10000)) (mk (F64.of_Z 30) (F64.of_Z 2)).
Definition events : list ServerEvent :=
  [MkServerEvent (lit "reboot") (lit "success") (Some end_) (Some (F64.of_Z 100));
   MkServerEvent (lit "create_image") (lit "success") (Some 1699990000) (Some (F64.of_Z 100))].

#[export] Instance manager : ServerManager t := {|
  list_all s := (Ok (map (info (fleet_of s)) (states s)), s);
  Cloud.metrics _ window_secs s := (Ok (metrics window_secs), s);
  Cloud.power := power;
  Cloud.snapshot := snapshot;
  list_snapshots id s := (Ok (default [] (snaps s !! id)), s);
  set_rdns _ _ _ s := (Ok tt, s);
  set_protection id on s := (Ok tt, MkFleet (states s) (snaps s) (<[id := on]> (protections s)) (fleet_of s));
  recent_events _ s := (Ok events, s) |}.
End metrics.
End MockFleet.
#[export] Existing Instance MockFleet.manager.

(** * The platform *)

Module Platform.
(** [trait SecretStore], with what the app relies on. *)
Class SecretStore (W : Type) : Type := {
  get : text -> ST W CoreError (option text); set : text -> text -> ST W CoreError unit; delete : text -> ST W CoreError unit }.
Class SecretLaws (W : Type) {S : SecretStore W} : Prop := {
  get_set name v w w' : set name v w = (Ok tt, w') -> (get name w').1 = Ok (Some v);
  get_delete name w w' : delete name w = (Ok tt, w') -> (get name w').1 = Ok None;
  set_others name v w w' r other : set name v w = (r, w') -> other <> name -> (get other w').1 = (get other w).1;
  delete_others name w w' r other : delete name w = (r, w') -> other <> name -> (get other w').1 = (get other w).1;
  get_reads name w : (get name w).2 = w }.
Definition MemorySecretStore : Type := gmap (list Z) (list Z).
#[export] Instance memory_store : SecretStore MemorySecretStore := {|
  get name m := (Ok (m !! name), m); set name v m := (Ok tt, <[name := v]> m); delete name m := (Ok tt, base.delete name m) |}.

(** [trait KillSwitch]. *)
Record AllowedEndpoint : Type := MkEndpoint { ep_ip : text; ep_port : Z }.
Class KillSwitch (W : Type) : Type := {
  engage : AllowedEndpoint -> ST W CoreError unit; release : ST W CoreError unit; is_engaged : W -> bool }.
Class SwitchLaws (W : Type) {S : KillSwitch W} : Prop := {
  engage_on e w w' : engage e w = (Ok tt, w') -> is_engaged w' = true;
  release_off w w' : release w = (Ok tt, w') -> is_engaged w' = false;
  engage_twice e w w1 : engage e w = (Ok tt, w1) -> engage e w1 = (Ok tt, w1) }.
#[export] Instance mock_switch : KillSwitch bool := {| engage _ _ := (Ok tt, true); release _ := (Ok tt, false); is_engaged w := w |}.

(** [trait NetInfo], and the rule of the core library. *)
Class NetInfo (W : Type) : Type := { ssid_now : ST W CoreError (option text) }.
#[export] Instance mock_netinfo : NetInfo (option text) := {| ssid_now s := (Ok s, s) |}.
Definition default_netinfo : option text := Some (lit "home").
Definition should_auto_connect (current : option text) (trusted : list text) : bool :=
  match current with None => false | Some ssid => negb (existsb (fun t => bool_decide (t = ssid)) trusted) end.
End Platform.
#[export] Existing Instances Platform.memory_store Platform.mock_switch.

(** * What they promise *)

(** What the Servers screen relies on: a power command is seen in the next listing, on its server only,
    and a new snapshot is the first of its server's. *)
Definition with_state (st : InstanceState.t) (i : ServerInfo) : ServerInfo :=
  MkServerInfo (si_provider i) (si_id i) (si_label i) (si_region i) (si_type i) st (si_ipv4 i) (si_ipv6 i) (si_tags i) (si_created_at i)
    (si_vcpus i) (si_memory_mb i) (si_disk_gb i) (si_hourly i) (si_monthly i) (si_currency i).
Class ManagerLaws (W : Type) {M : ServerManager W} : Prop := {
  power_shown id a w w' l : power id a w = (Ok tt, w') -> (list_all w).1 = Ok l ->
    (list_all w').1 = Ok (map (fun i => if bool_decide (si_id i = id) then with_state (MockFleet.after a) i else i) l);
  power_unknown id a w l : (list_all w).1 = Ok l -> id ∉ map si_id l -> is_ok (power id a w).1 = false;
  snapshot_first id label w w' : snapshot id label w = (Ok tt, w') -> exists s l, (list_snapshots id w).1 = Ok l
    /\ (list_snapshots id w').1 = Ok (s :: l) /\ sn_label s = label;
  snapshot_others id label w w' other : snapshot id label w = (Ok tt, w') -> other <> id -> (list_snapshots other w').1 = (list_snapshots other w).1 }.

Section laws.
Context {T : Trig}.
#[export] Instance mock_manager_laws : ManagerLaws MockFleet.t.
Proof.
  constructor.
  - intros id a w w' l. cbn. unfold MockFleet.power. destruct (existsb _ _); [|done]. intros [= <-] [= <-]. cbn. f_equal. rewrite !map_map.
    apply map_ext. intros [i st]. cbn. by case_bool_decide as E; subst.
  - intros id a w l [= <-] Hid. cbn. unfold MockFleet.power. destruct (existsb _ _) eqn:E; [|done]. destruct Hid.
    apply existsb_exists in E as ([i st] & Hin & Hi%bool_decide_eq_true). cbn in Hi. subst i. rewrite map_map. apply list_elem_of_In, in_map_iff. by exists (id, st).
  - intros id label w w' [= <-]. cbn. rewrite lookup_insert_eq. by do 2 eexists.
  - intros id label w w' other [= <-] Ho. cbn. by rewrite lookup_insert_ne.
Qed.

(** The loads of a simulated sample are percentages, whatever the sine computes. *)
Lemma sample_percentages t : let s := Traffic.sample_at t in percentage (Metrics.cpu s) /\ percentage (Metrics.mem_pct s).
Proof. split; apply pct_percentage. Qed.
End laws.

#[export] Instance memory_store_laws : Platform.SecretLaws Platform.MemorySecretStore.
Proof.
  constructor; cbn.
  - intros name v w w' [= <-]. apply f_equal, (lookup_insert_eq (M := gmap (list Z))).
  - intros name w w' [= <-]. apply f_equal, (lookup_delete_eq (M := gmap (list Z))).
  - intros name v w w' r other [= <- <-] Ho. by apply f_equal, (lookup_insert_ne (M := gmap (list Z))).
  - intros name w w' r other [= <- <-] Ho. by apply f_equal, (lookup_delete_ne (M := gmap (list Z))).
  - done.
Qed.
#[export] Instance mock_switch_laws : Platform.SwitchLaws bool.
Proof. constructor; cbn; [by intros e w w' [= <-]|by intros w w' [= <-]|by intros e w w1 [= <-]]. Qed.

(** The desktop compares names of networks without case, the core library with: the desktop connects
    only where the library would, and not everywhere. *)
Lemma desktop_trusts_more ssid trusted : Mgr.ssid_is_trusted ssid trusted = false -> Platform.should_auto_connect (Some ssid) trusted = true.
Proof.
  unfold Mgr.ssid_is_trusted, Platform.should_auto_connect. intros H. apply negb_true_iff, not_true_is_false. intros E%existsb_exists.
  destruct E as (t & Hin & ->%bool_decide_eq_true). apply not_true_iff_false in H. apply H, existsb_exists. exists ssid. split; [done|].
  by apply bool_decide_eq_true.
Qed.
