(* ===== verification/Seed.v ===== *)
(** [crates/core/src/seed.rs], the demo data, and [crates/cli/src/main.rs], the tool that prints it. The
    text of times, JSON and URLs, the PDF writer and the random source are parameters. *)
From S2P Require Import Prelude Bytes Text Crypto Floats Value Totp Toy RecoveryKit Keyring Model Envelope VaultStore Session Csv Importers Generator Health Provision Vpn NmHost VpnManager VaultCmds Cloud VpnReports.
Local Open Scope Z_scope.

Module Seed.
Definition DEMO_NOW : Z := 1780660800.
Definition DAY : Z := 86400.
Definition uid (n : Z) : Uuid := arr_fill 16 (byte_of_Z n).

Definition login (n : Z) (title url user pass : text) (changed_days_ago : Z) : Item.t :=
  let it := Item.new_login (uid n) title DEMO_NOW in
  Item.MkItem (uid n) (Item.item_type it) (Item.title it) (Item.tags it) [UrlMatch.MkUrlMatch url UrlMode.Domain] (Item.notes it) (Item.custom_fields it)
    (Some (Login.MkLogin (Some user) (Some pass) None)) (Item.card it) (Item.identity it) (Item.passkey it) (Item.created_at it) (Item.updated_at it)
    (Some (DEMO_NOW - changed_days_ago * DAY)).

Definition first_logins : list Item.t :=
  [login 1 (lit "GitHub") (lit "https://github.com") (lit "octocat") (lit "Gh-9x!Kp2vLm@2026") 40;
   login 2 (lit "GitLab") (lit "https://gitlab.com") (lit "octocat") (lit "hunter2-reused") 320;
   login 3 (lit "Bitbucket") (lit "https://bitbucket.org") (lit "octocat") (lit "hunter2-reused") 300;
   login 4 (lit "NPM") (lit "https://npmjs.com") (lit "octocat") (lit "hunter2-reused") 280;
   login 5 (lit "AWS Console") (lit "https://aws.amazon.com") (lit "sentinel-ops") (lit "Aws#Prod-7431-xQ!z") 20;
   login 6 (lit "Google") (lit "https://accounts.google.com") (lit "jackson@example.com") (lit "G00gle-strong-Pass-91!") 55;
   login 7 (lit "Cloudflare") (lit "https://dash.cloudflare.com") (lit "jackson@example.com") (lit "Cf!edge-2026-Zx7q") 15;
   login 8 (lit "Linode") (lit "https://cloud.linode.com") (lit "sentinel-ops") (lit "Ln0de-Ephemeral-88!x") 10;
   login 9 (lit "Fastmail") (lit "https://fastmail.com") (lit "jackson") (lit "Fm-secure-mail-42-Qz!") 70;
   login 10 (lit "Reddit") (lit "https://reddit.com") (lit "throwaway99") (lit "password") 400;
   login 11 (lit "Old Forum") (lit "https://forum.example") (lit "jb5470") (lit "12345678") 500;
   login 12 (lit "Stripe") (lit "https://dashboard.stripe.com") (lit "jackson@example.com") (lit "Str!pe-live-key-guard-7") 5;
   login 13 (lit "Vercel") (lit "https://vercel.com") (lit "jackson") (lit "Vrc3l-deploy-Zx91!q") 30;
   login 14 (lit "Discord") (lit "https://discord.com") (lit "jack#0001") (lit "D!scord-chat-2026-Kp7") 90;
   login 15 (lit "Steam") (lit "https://store.steampowered.com") (lit "jbgamer") (lit "St3am-lib-guard-Qx8!") 120].
Definition last_logins : list Item.t :=
  [login 20 (lit "Netflix") (lit "https://netflix.com") (lit "jackson@example.com") (lit "N3tflix-stream-Qz!7") 100;
   login 21 (lit "Spotify") (lit "https://spotify.com") (lit "jackson") (lit "Sp0tify-music-guard-9!") 110;
   login 22 (lit "Amazon") (lit "https://amazon.com") (lit "jackson@example.com") (lit "Amz!shop-2026-Kx7q") 45;
   login 23 (lit "PayPal") (lit "https://paypal.com") (lit "jackson@example.com") (lit "PyPl-pay-secure-Zx9!q") 25;
   login 24 (lit "Bank of Example") (lit "https://bankofexample.com") (lit "jb5470") (lit "B@nk-vault-2026-Qp7!z") 12].

(** [Item::new_login] with the given parts in the place of the login. *)
Definition other (n : Z) (title : text) (ty : ItemType.t) (notes : option text) (tags : list text) (card : option Card.t) (identity : option Identity.t) : Item.t :=
  let it := Item.new_login (uid n) title DEMO_NOW in
  Item.MkItem (uid n) ty (Item.title it) tags (Item.urls it) notes (Item.custom_fields it) None card identity (Item.passkey it)
    (Item.created_at it) (Item.updated_at it) (Item.password_changed_at it).
Definition proton : Item.t :=
  let it := login 16 (lit "Proton Mail") (lit "https://proton.me") (lit "jackson@proton.me") (lit "Pr0ton-e2e-mail-Zq9!") 60 in
  Item.MkItem (Item.id it) (Item.item_type it) (Item.title it) (Item.tags it) (Item.urls it) (Item.notes it) (Item.custom_fields it)
    ((fun l => Login.MkLogin (Login.username l) (Login.password l) (Some (lit "otpauth://totp/Proton:jackson?secret=JBSWY3DPEHPK3PXP&issuer=Proton"))) <$> Item.login it)
    (Item.card it) (Item.identity it) (Item.passkey it) (Item.created_at it) (Item.updated_at it) (Item.password_changed_at it).
Definition note : Item.t :=
  other 17 (lit "Server Recovery Codes") ItemType.Note (Some (lit "sentinel-demo-note-body: backup codes 4821-9930, 5567-1180")) [lit "infra"] None None.
Definition card : Item.t :=
  other 18 (lit "Personal Visa") ItemType.Card None [lit "finance"]
    (Some (Card.MkCard (Some (lit "Jackson B")) (Some (lit "4242 4242 4242 4242")) (Some (lit "Visa")) (Some 8) (Some 2029) (Some (lit "831")))) None.
Definition identity : Item.t :=
  other 19 (lit "Primary Identity") ItemType.Identity None [] None
    (Some (Identity.MkIdentity (Some (lit "Jackson B")) (Some (lit "jackson@example.com")) (Some (lit "+1 555 0142")) (Some (lit "221B Baker Street")))).
Definition demo_items : list Item.t := first_logins ++ [proton; note; card; identity] ++ last_logins.

(** * The bundle *)

Record DemoItem : Type := MkDemoItem {
  d_id : text; d_type : text; d_title : text; d_username : option text; d_password : option text; d_tags : list text; d_favicon : option text;
  has_totp : bool; totp_uri : option text; d_urls : list text; d_notes : option text; d_updated_at : text; d_changed_at : option text }.
Record DemoRegion : Type := MkRegion { r_id : text; r_label : text; r_country : text; r_lat : f64; r_lon : f64; r_latency_ms : Z; median_down_mbps : Z }.
Record DemoInstanceType : Type := MkType { t_id : text; t_label : text; t_vcpus : Z; t_memory_mb : Z; t_hourly : f64 }.
Record DemoSession : Type := MkDemoSession {
  s_id : text; s_region : text; s_type : text; s_started_at : text; s_ended_at : text; s_rx : Z; s_tx : Z; s_cost : f64; s_peak_cpu : Z; s_down : Z; s_up : Z }.
Record DemoBundle : Type := MkBundle {
  generated_note : text; b_items : list DemoItem; b_regions : list DemoRegion; b_types : list DemoInstanceType; b_history : list DemoSession;
  b_profiles : list Profiles.ConnectionProfile }.

Definition demo_regions : list DemoRegion :=
  [MkRegion (lit "us-east") (lit "Newark, NJ") (lit "US") (F64.dec 4074 2) (F64.dec (-7417) 2) 18 940;
   MkRegion (lit "us-west") (lit "Fremont, CA") (lit "US") (F64.dec 3755 2) (F64.dec (-12199) 2) 62 880;
   MkRegion (lit "eu-central") (lit "Frankfurt") (lit "DE") (F64.dec 5011 2) (F64.dec 868 2) 96 910;
   MkRegion (lit "eu-west") (lit "London") (lit "GB") (F64.dec 5151 2) (F64.dec (-13) 2) 88 900;
   MkRegion (lit "ap-south") (lit "Singapore") (lit "SG") (F64.dec 135 2) (F64.dec 10382 2) 214 760;
   MkRegion (lit "ap-northeast") (lit "Tokyo") (lit "JP") (F64.dec 3568 2) (F64.dec 13969 2) 156 820;
   MkRegion (lit "ap-southeast") (lit "Sydney") (lit "AU") (F64.dec (-3387) 2) (F64.dec 15121 2) 198 700;
   MkRegion (lit "sa-east") ((lit "S" ++ [227] ++ lit "o Paulo")) (lit "BR") (F64.dec (-2355) 2) (F64.dec (-4663) 2) 128 680].
Definition demo_instance_types : list DemoInstanceType :=
  [MkType (lit "g6-nanode-1") (lit "Nanode 1GB") 1 1024 (F64.dec 75 4);
   MkType (lit "g6-standard-2") (lit "Linode 4GB") 2 4096 (F64.dec 36 3);
   MkType (lit "g6-standard-4") (lit "Linode 8GB") 4 8192 (F64.dec 72 3);
   MkType (lit "g6-dedicated-4") (lit "Dedicated 8GB") 4 8192 (F64.dec 108 3)].
(** The profiles have the fields of a connection profile. *)
Definition demo_profiles : list Profiles.ConnectionProfile :=
  [Profiles.MkProfile (lit "max-privacy") (lit "Max Privacy") (lit "eu-central") (lit "g6-nanode-1") true [] [lit "*"];
   Profiles.MkProfile (lit "streaming") (lit "Streaming") (lit "us-east") (lit "g6-standard-2") false [lit "com.netflix.app"] [];
   Profiles.MkProfile (lit "eu-testing") (lit "EU Testing") (lit "eu-west") (lit "g6-nanode-1") false [] [];
   Profiles.MkProfile (lit "public-wifi") (lit "Public WiFi") (lit "us-east") (lit "g6-nanode-1") true [] [lit "airport-wifi"; lit "cafe-guest"]].

Section bundle.
Context {F : Rfc3339} {U : UuidText} {L : UrlLib}.
Definition favicon_domain (urls : list UrlMatch.t) : option text := u ← head urls; p ← url_parse (UrlMatch.url u); host_str p.
Definition type_name (t : ItemType.t) : text :=
  lit (match t with ItemType.Login => "login" | ItemType.Note => "note" | ItemType.Card => "card" | ItemType.Identity => "identity" | ItemType.Passkey => "passkey" end).
Definition shown (it : Item.t) : DemoItem :=
  let totp := Item.login it ≫= Login.totp in
  MkDemoItem (uuid_show (Item.id it)) (type_name (Item.item_type it)) (Item.title it) (Item.username it) (Item.password it) (Item.tags it)
    (favicon_domain (Item.urls it)) (bool_decide (is_Some totp)) totp (map UrlMatch.url (Item.urls it)) (Item.notes it)
    (iso (Item.updated_at it)) (iso <$> Item.password_changed_at it).

Definition history_regions : list text := [lit "us-east"; lit "eu-central"; lit "eu-west"; lit "ap-northeast"; lit "us-east"; lit "us-west"].
Definition demo_session (i : Z) : DemoSession :=
  let start := (DEMO_NOW - 20 * DAY) + i * DAY + (i mod 3) * 3600 in
  let dur := 1800 + (i mod 5) * 1200 in
  let rx := 200000000 + i * 47000000 in
  MkDemoSession (lit "sess-" ++ show_padded 2 i) (default [] (history_regions !! Z.to_nat (i mod 6)))
    (if i mod 4 =? 0 then lit "g6-standard-2" else lit "g6-nanode-1") (iso start) (iso (start + dur)) rx (rx / 6)
    (F64.mul (F64.div (F64.of_Z dur) (F64.of_Z 3600)) (F64.dec 75 4)) (30 + (i * 7) mod 60) (420 + (i * 23) mod 500) (180 + (i * 11) mod 220).
Definition demo_history : list DemoSession := map (fun i => demo_session (Z.of_nat i)) (seq 0 18).
Definition demo_bundle : DemoBundle :=
  MkBundle (lit "Generated by `sentinel-cli seed --json`.") (map shown demo_items) demo_regions demo_instance_types demo_history demo_profiles.
End bundle.
End Seed.

(** * The tool *)

Module Cli.
Section run.
Context {F : Rfc3339} {U : UuidText} {L : UrlLib} {Z : Zxcvbn} {P : CryptoPrims}.
(** JSON of the bundle and the PDF of a kit; the key that is drawn; whether the file can be written. *)
Variables (pretty : Seed.DemoBundle -> text) (render_kit_pdf : text -> text -> text -> bytes) (drawn : arr 16) (writable : text -> bool).

(** What the tool prints on its two outputs, the file it writes and its exit code; a write that fails is a panic. *)
Record Ran : Type := MkRan { out : list text; err_out : list text; wrote : option (text * bytes); code : BinNums.Z }.
Definition count {A} (l : list A) : text := show_dec (Z.of_nat (length l)).
Definition cmd_seed (args : list text) : result Ran Empty_set :=
  let bundle := Seed.demo_bundle in
  if existsb (fun a => bool_decide (a = lit "--json")) args then Ok (MkRan [pretty bundle] [] None 0)
  else Ok (MkRan [] [count (Seed.b_items bundle) ++ lit " demo items, " ++ count (Seed.b_regions bundle) ++ lit " regions"] None 0).
Definition cmd_recovery_pdf (args : list text) : result Ran Empty_set :=
  let path := default (lit "recovery-kit.pdf") (head args) in
  match RecoveryKit.encode drawn with
  | Ok display =>
      let b := render_kit_pdf display (lit "demo@example.com") (lit "2026-06-01") in
      if writable path then Ok (MkRan [] [lit "wrote " ++ path ++ lit " (" ++ display ++ lit ")"] (Some (path, b)) 0) else Panic
  | _ => Panic
  end.
Definition cmd_audit : result Ran Empty_set :=
  let report := Audit.run_audit Seed.demo_items Seed.DEMO_NOW Hibp.MockHibp in
  Ok (MkRan [lit "Health score: " ++ show_dec (Audit.score report) ++ lit "/100";
             lit "  reused groups: " ++ count (Audit.reused report); lit "  weak:          " ++ count (Audit.weak report);
             lit "  old:           " ++ count (Audit.old report); lit "  breached:      " ++ count (Audit.breached report)] [] None 0).
Definition VERSION : text := lit "0.1.0".
Definition main (args : list text) : result Ran Empty_set :=
  match args with
  | [] => Ok (MkRan [lit "sentinel-cli " ++ VERSION] [] None 0)
  | a :: rest =>
      if bool_decide (a = lit "seed") then cmd_seed rest
      else if bool_decide (a = lit "recovery-pdf") then cmd_recovery_pdf rest
      else if bool_decide (a = lit "audit") then cmd_audit
      else if bool_decide (a = lit "version") then Ok (MkRan [lit "sentinel-cli " ++ VERSION] [] None 0)
      else Ok (MkRan [] [lit "unknown subcommand: " ++ a] None 2)
  end.
End run.
End Cli.

(** * What the demo shows *)

Section demo_claims.
Import Seed.

(** The items have identifiers of their own, so each is one row of a vault. *)
Lemma demo_ids_distinct : NoDup (map Item.id demo_items) /\ length demo_items = 24%nat.
Proof. split; [|reflexivity]. apply (bool_decide_unpack _). vm_compute. exact I. Qed.

Section audit.
Context {Zx : Zxcvbn}.
Definition demo_report : Audit.AuditReport := Audit.run_audit demo_items DEMO_NOW Hibp.MockHibp.
Lemma demo_groups :
  List.filter (fun ids => (1 <? length ids)%nat) (map snd (map_to_list (Audit.by_password demo_items))) = [[uid 2; uid 3; uid 4]].
Proof. vm_compute. reflexivity. Qed.
Lemma report_lists items now hibp :
  let f {A} (g : Item.t -> text -> list A) := flat_map (fun it => match Item.password it with Some pw => g it pw | None => [] end) items in
  let r := Audit.run_audit items now hibp in
  Audit.reused r = List.filter (fun ids => (1 <? length ids)%nat) (map snd (map_to_list (Audit.by_password items)))
  /\ Audit.old r = f (fun it _ => Audit.old_of now it) /\ Audit.breached r = f (Audit.breached_of hibp).
Proof.
  unfold Audit.run_audit. cbn [Audit.reused Audit.old Audit.breached].
  destruct (scan_lists now hibp items (Audit.MkAuditReport (List.filter (fun ids => (1 <? length ids)%nat)
    (map snd (map_to_list (Audit.by_password items)))) [] [] [] 0)) as (-> & _ & -> & ->). done.
Qed.
Lemma demo_scan :
  Audit.reused demo_report = [[uid 2; uid 3; uid 4]]
  /\ Audit.old demo_report = [(uid 2, 320); (uid 3, 300); (uid 4, 280); (uid 10, 400); (uid 11, 500)]
  /\ Audit.breached demo_report = [(uid 2, 4210); (uid 3, 4210); (uid 4, 4210); (uid 10, 9659365)].
Proof.
  unfold demo_report. destruct (report_lists demo_items DEMO_NOW Hibp.MockHibp) as (-> & -> & ->). rewrite demo_groups.
  split; [exact eq_refl|]. split; vm_compute; reflexivity.
Qed.
Lemma points_of r g o b : Audit.reused r = g -> Audit.old r = o -> Audit.breached r = b ->
  points r = Z.of_nat (list_sum (map (fun g : Audit.ReusedGroup => length g) g)) * 8 + Z.of_nat (length (Audit.weak r)) * 6
    + Z.of_nat (length b) * 12 + Z.of_nat (length o) * 3.
Proof. by intros <- <- <-. Qed.

(** Whatever the strength estimate, the audit the tool prints finds the one password three logins
    share, the five that are older than 180 days and the four the lookup knows. *)
Lemma demo_audit :
  Audit.reused demo_report = [[uid 2; uid 3; uid 4]]
  /\ Audit.old demo_report = [(uid 2, 320); (uid 3, 300); (uid 4, 280); (uid 10, 400); (uid 11, 500)]
  /\ Audit.breached demo_report = [(uid 2, 4210); (uid 3, 4210); (uid 4, 4210); (uid 10, 9659365)]
  /\ Audit.score demo_report = Z.max 0 (13 - 6 * Z.of_nat (length (Audit.weak demo_report))).
Proof.
  destruct demo_scan as (H1 & H2 & H3). split; [exact H1|]. split; [exact H2|]. split; [exact H3|].
  assert (Hp := points_of demo_report _ _ _ H1 H2 H3).
  assert (Hb := points_bound demo_items DEMO_NOW Hibp.MockHibp). rewrite (proj2 demo_ids_distinct) in Hb.
  unfold demo_report at 1. rewrite score_run_audit, (proj2 demo_ids_distinct). fold demo_report in Hb |- *.
  rewrite compute_score_points; [|lia..]. rewrite Hp. generalize (length (Audit.weak demo_report)). intros n. cbn [length map list_sum fold_right Nat.add]. lia.
Qed.
End audit.

(** What a demo session is said to have cost is the price of the smallest type, also for the sessions on another. *)
Lemma demo_costs_nanode `{Rfc3339} :
  Forall (fun s => exists secs, s_cost s = F64.mul (F64.div (F64.of_Z secs) (F64.of_Z 3600)) (F64.dec 75 4)) demo_history
  /\ s_type (demo_session 4) = lit "g6-standard-2".
Proof. split; [|reflexivity]. apply Forall_map, Forall_forall. intros i _. by eexists. Qed.
End demo_claims.
