(* ===== verification/ApiStart.v ===== *)
(** [services/api]: how the server comes up. [config.rs] reads the environment, [main.rs] refuses to start
    in production without its secrets and chooses the verifier of Google sign-ins, [lib.rs] decides
    which browser origins are admitted, and [auth.rs] holds the two verifiers: the one that checks a
    token against Google's published keys, and the one for development that accepts fixtures. *)
From S2P Require Import Prelude Bytes Text Crypto Floats Value Totp Toy RecoveryKit Keyring Model Csv Importers Provision Vpn ApiDb ApiAuth ApiRoutes Cloud.
Local Open Scope Z_scope.

(** The process's surroundings: its environment, the files it can read, and the bytes it draws. *)
Record Proc : Type := MkProc { var : string -> option text; read_file : text -> option text; drawn_key : arr 32 }.

Record Settings : Type := MkSettings {
  cf : Config; bind : text; database_url : text; cors_allowed_origins : list text; tls_cert_pem : option text }.
Inductive Verifier : Type := Jwks (client_id : text) | Fixtures.
Inductive SigningKey : Type := FromPem (pem : text) | EphemeralKey.
Inductive Listener : Type := Https (cert key : text) | PlainHttp.
Record Server : Type := MkServer { sv_settings : Settings; sv_keys : SigningKey; sv_google : Verifier; sv_migrated : option text; sv_listener : Listener }.

Module Start.
Section env.
Variable p : Proc.
Context {B : Base64}.
Definition filled (name : string) : option text := match var p name with Some [] => None | o => o end.
Definition env_set (name : string) : bool := bool_decide (is_Some (filled name)).
Definition env_flag (name : string) : bool :=
  match var p name with Some v => bool_decide (v = lit "1") || eq_ignore_ascii_case v (lit "true") | None => false end.
Definition read_pem_env (name : string) : option text := (fun v => default v (read_file p v)) <$> filled name.

Definition env_i64 (name : string) (dflt : Z) : Z :=
  match var p name ≫= (fun v => parse_i64 (trim v)) with Some n => if 0 <? n then n else dflt | None => dflt end.
Definition totp_key : result Key32 text :=
  match filled "SENTINEL_TOTP_ENC_KEY" with
  | Some b64 =>
      let? b := ok_or (b64_decode b64) (lit "SENTINEL_TOTP_ENC_KEY must be base64") in
      ok_or (arr_of (n := 32) b) (lit "SENTINEL_TOTP_ENC_KEY must decode to 32 bytes")
  | None => Ok (drawn_key p)
  end.
Definition from_env : result Settings text :=
  let? database_url := ok_or (var p "DATABASE_URL") (lit "DATABASE_URL is required") in
  let? key := totp_key in
  Ok (MkSettings
    (MkConfig (filled "GOOGLE_OAUTH_CLIENT_ID") (filled "SENTINEL_BOOTSTRAP_TOKEN") key
      (match var p "SENTINEL_ENV" with Some v => eq_ignore_ascii_case v (lit "production") | None => false end)
      (env_flag "SENTINEL_TRUST_FORWARDED_FOR")
      (default 0 (var p "SENTINEL_AUTOBAN_THRESHOLD" ≫= fun v => parse_unsigned (2 ^ 32 - 1) (trim v)))
      (env_i64 "SENTINEL_AUTOBAN_WINDOW_SECS" 300) (env_i64 "SENTINEL_AUTOBAN_MINUTES" 60) (filled "SENTINEL_UPDATE_FLAG_DIR"))
    (default (lit "127.0.0.1:8787") (var p "SENTINEL_API_BIND")) database_url
    (match var p "SENTINEL_CORS_ALLOWED_ORIGINS" with
     | Some v => List.filter (fun s => negb (bool_decide (s = []))) (map trim (split (chr ",") v))
     | None => []
     end)
    (read_pem_env "SENTINEL_TLS_CERT_PEM")).

Definition check_production_secrets (c : Config) (jwt_pem_set totp_key_set : bool) : list string :=
  if negb (production c) then []
  else
    let has_identity := bool_decide (is_Some (google_client_id c)) || bool_decide (is_Some (bootstrap_token c)) in
    map fst (List.filter (fun np => negb np.2)
      [("SENTINEL_JWT_ES256_PEM", jwt_pem_set); ("GOOGLE_OAUTH_CLIENT_ID or SENTINEL_BOOTSTRAP_TOKEN", has_identity);
       ("SENTINEL_TOTP_ENC_KEY", totp_key_set)]%string).

(** The libraries' part of starting: whether a PEM is a signing key, the database answers, the
    migrations run, the address can be bound and the certificate and key fit. *)
Record Libs : Type := MkLibs {
  pem_ok : text -> result unit text; connect_ok : text -> result unit text; migrate_ok : text -> result unit text;
  bind_ok : text -> result unit text; tls_ok : text -> text -> result unit text }.
Variable lib : Libs.

Definition refuse (missing : list string) : text :=
  lit "SENTINEL_ENV=production but required secrets are unset: " ++ join (lit ", ") (map lit missing)
  ++ lit ". Refusing to start with insecure dev fallbacks.".
Definition signing_key : result SigningKey text :=
  match read_pem_env "SENTINEL_JWT_ES256_PEM" with
  | Some pem => let? _ := pem_ok lib pem in Ok (FromPem pem)
  | None => Ok EphemeralKey
  end.
Definition migrations : result (option text) text :=
  if env_flag "SENTINEL_AUTO_MIGRATE" then
    let dir := default (lit "/opt/sentinel/migrations") (var p "SENTINEL_MIGRATIONS_DIR") in
    let? _ := migrate_ok lib dir in Ok (Some dir)
  else Ok None.
Definition listener (at_ : text) : result Listener text :=
  match read_pem_env "SENTINEL_TLS_CERT_PEM", read_pem_env "SENTINEL_TLS_KEY_PEM" with
  | Some cert, Some key => let? _ := bind_ok lib at_ in let? _ := tls_ok lib cert key in Ok (Https cert key)
  | _, _ => let? _ := bind_ok lib at_ in Ok PlainHttp
  end.
Definition choose_verifier (c : Config) : Verifier := match google_client_id c with Some id => Jwks id | None => Fixtures end.

(** [main] up to serving. *)
Definition main : result Server text :=
  let? config := from_env in
  let missing := check_production_secrets (cf config) (env_set "SENTINEL_JWT_ES256_PEM") (env_set "SENTINEL_TOTP_ENC_KEY") in
  guard bool_decide (missing = []) else Err (refuse missing) in
  let? keys := signing_key in
  let? _ := connect_ok lib (database_url config) in
  let? migrated := migrations in
  let? l := listener (bind config) in
  Ok (MkServer config keys (choose_verifier (cf config)) migrated l).
End env.

(** [build_app]: which origins a browser may call from; [header] is what the HTTP crate accepts as a
    header value. *)
Inductive Cors : Type := Permissive | Only (origins : list text).
Definition cors (header : text -> bool) (s : Settings) : Cors :=
  if production (cf s) then Only (List.filter header (cors_allowed_origins s)) else Permissive.
End Start.

(** * Google's verifiers *)

Record Validation : Type := MkValidation { va_audience : text; va_issuers : list text; va_required : list text; va_leeway : Z }.
(** [jsonwebtoken]: a key from its modulus and exponent, a token's algorithm and key id, and the subject
    and e-mail of a token that a key verifies, at a time. *)
Class IdTokens : Type := {
  RsaKey : Type;
  from_rsa_components : text -> text -> option RsaKey;
  decode_header : text -> option (string * option text);
  decode_claims : RsaKey -> Validation -> Z -> text -> option (text * option text);
}.

Module Gv.
Definition GOOGLE_JWKS_URL : text := lit "https://www.googleapis.com/oauth2/v3/certs".
Definition GOOGLE_ISSUERS : list text := [lit "https://accounts.google.com"; lit "accounts.google.com"].
Definition JWKS_TTL : Z := 3600.
Definition CLOCK_LEEWAY_SECS : Z := 60.

(** The development verifier: [fixture:<sub>:<email>]. *)
Definition MockGoogleVerifier (id_token : text) : result routes.GoogleClaims ApiError :=
  match split_once (chr ":") id_token with
  | Some (tag, rest) =>
      match split_once (chr ":") rest with
      | Some (sub, email) => if bool_decide (tag = lit "fixture") then Ok (routes.MkGoogleClaims sub email) else Err Unauthorized
      | None => Err Unauthorized
      end
  | None => Err Unauthorized
  end.

Record Jwk : Type := MkJwk { kid : text; jn : text; je : text; kty : text; alg : option text }.
Definition jwk_of (v : Value) : option Jwk :=
  match Js.struct_fields ["kid"; "n"; "e"; "kty"; "alg"] v with
  | Some [k; n; e; t; a] => k ← Js.str k; n ← Js.str n; e ← Js.str e; t ← Js.str_default t; a ← Js.str_option a; Some (MkJwk k n e t a)
  | _ => None
  end.
Definition jwk_set_of (v : Value) : option (list Jwk) :=
  match Js.struct_fields ["keys"%string] v with Some [Some l] => Js.as_array l ≫= mapM jwk_of | _ => None end.

Section verifier.
Context {W : Type} {H : Http W} {J : JsonText} {X : JsonMisfit} {T : IdTokens}.

Record JwksCache : Type := MkCache { ca_keys : gmap text RsaKey; fetched_at : Z }.
Record State : Type := MkState { gv_world : W; gv_cache : option JwksCache }.
Definition M (A : Type) : Type := ST State ApiError A.

Definition usable (k : Jwk) : bool := (bool_decide (kty k = []) || bool_decide (kty k = lit "RSA")) && match alg k with Some a => bool_decide (a = lit "RS256") | None => true end.
Definition keep (m : gmap text RsaKey) (k : Jwk) : gmap text RsaKey :=
  if usable k then match from_rsa_components (jn k) (je k) with Some key => <[kid k := key]> m | None => m end else m.
Definition keys_of (l : list Jwk) : gmap text RsaKey := fold_left keep l ∅.

(** The keys that Google serves; a failure is the server's, not the token's. *)
Definition jwks_request : HttpReq := MkHttpReq "GET" GOOGLE_JWKS_URL None None None.
Definition served (r : result (Z * text) string) : option (list Jwk) :=
  match r with
  | Ok (status, body) => if 400 <=? status then None else match from_str jwk_set_of body with inr l => Some l | inl _ => None end
  | _ => None
  end.
Definition refresh (now : Z) : M unit := fun s =>
  let '(r, w) := send jwks_request (gv_world s) in
  match served r with
  | Some l => (Ok tt, MkState w (Some (MkCache (keys_of l) now)))
  | None => (Err Internal, MkState w (gv_cache s))
  end.
Definition fresh_key (now : Z) (id : text) (c : option JwksCache) : option RsaKey :=
  cache ← c; if now - fetched_at cache <? JWKS_TTL then ca_keys cache !! id else None.
Definition key_for (now : Z) (id : text) : M RsaKey := fun s =>
  match fresh_key now id (gv_cache s) with
  | Some key => (Ok key, s)
  | None =>
      match refresh now s with
      | (Ok _, s) => (ok_or (gv_cache s ≫= fun c => ca_keys c !! id) Unauthorized, s)
      | (Err e, s) => (Err e, s)
      | (Panic, s) => (Panic, s)
      end
  end.
Definition validation (client_id : text) : Validation :=
  MkValidation client_id GOOGLE_ISSUERS (map lit ["exp"; "aud"; "iss"; "sub"]) CLOCK_LEEWAY_SECS.
Definition verify (client_id : text) (now : Z) (id_token : text) : M routes.GoogleClaims :=
  let! h := lift (ok_or (decode_header id_token) Unauthorized) in
  require bool_decide (h.1 = "RS256"%string) else Unauthorized in
  let! id := lift (ok_or h.2 Unauthorized) in
  let! key := key_for now id in
  let! claims := lift (ok_or (decode_claims key (validation client_id) now id_token) Unauthorized) in
  let! email := lift (ok_or claims.2 Unauthorized) in
  ret (routes.MkGoogleClaims claims.1 email).
End verifier.
End Gv.
