(* ===== verification/ApiStartClaims.v ===== *)
(** What starting the server promises, and what it does not: in production it comes up only with its
    secrets, and a Google identity is believed only under a key that Google served; but a production
    server without a Google client id, such as the one-click deployment, believes anyone. *)
From S2P Require Import Prelude Bytes Text Crypto Floats Value Totp Toy RecoveryKit Keyring Model Csv Importers Provision Vpn ApiDb ApiAuth ApiRoutes ApiDemo ApiFacts Cloud ApiStart.
Local Open Scope Z_scope.

Section start.
Import Start.
Context {B : Base64}.
Variables (p : Proc) (lib : Libs).

Lemma main_run s : main p lib = Ok s ->
  from_env p = Ok (sv_settings s)
  /\ check_production_secrets (cf (sv_settings s)) (env_set p "SENTINEL_JWT_ES256_PEM") (env_set p "SENTINEL_TOTP_ENC_KEY") = []
  /\ signing_key p lib = Ok (sv_keys s) /\ sv_google s = choose_verifier (cf (sv_settings s)).
Proof.
  unfold main. intros (c & Hc & H)%rbind_Ok. cbn zeta in H. case_bool_decide as Hm; [|done].
  apply rbind_Ok in H as (k & Hk & H). apply rbind_Ok in H as (u & _ & H). apply rbind_Ok in H as (mg & _ & H). apply rbind_Ok in H as (l & _ & [= <-]).
  by repeat split.
Qed.

(** In production the server comes up only with real secrets: a signing key read from its PEM, the
    key that seals authenticator secrets decoded from the environment rather than drawn, and a way for
    accounts to get in. Otherwise it refuses to start and names what is missing. *)
Theorem production_boot_checked s :
  main p lib = Ok s -> production (cf (sv_settings s)) = true ->
  (exists pem, sv_keys s = FromPem pem /\ read_pem_env p "SENTINEL_JWT_ES256_PEM" = Some pem)
  /\ (exists t, filled p "SENTINEL_TOTP_ENC_KEY" = Some t /\ b64_decode t = Some (arr_bytes (totp_enc_key (cf (sv_settings s)))))
  /\ (google_client_id (cf (sv_settings s)) <> None \/ bootstrap_token (cf (sv_settings s)) <> None).
Proof.
  intros (Hc & Hm & Hk & _)%main_run Hp. unfold check_production_secrets in Hm. rewrite Hp in Hm. cbn [negb] in Hm.
  destruct (env_set p "SENTINEL_JWT_ES256_PEM") eqn:E1, (_ || _) eqn:E2, (env_set p "SENTINEL_TOTP_ENC_KEY") eqn:E3; try discriminate Hm.
  unfold env_set in E1, E3. bools. split; [|split].
  - destruct E1 as [t Ht]. unfold signing_key, read_pem_env in *. rewrite Ht in *. cbn [fmap option_fmap option_map] in *.
    apply rbind_Ok in Hk as (u & _ & [= <-]). by eexists.
  - destruct E3 as [t Ht]. exists t. split; [done|]. unfold from_env in Hc. apply rbind_Ok in Hc as (url & _ & Hc). apply rbind_Ok in Hc as (key & Hkey & [= <-]).
    cbn. unfold totp_key in Hkey. rewrite Ht in Hkey. apply rbind_Ok in Hkey as (b & Hb & Ha). destruct (b64_decode t) as [b'|]; [|done].
    injection Hb as ->. f_equal. unfold ok_or in Ha. destruct (arr_of b) as [a|] eqn:Ea; [|done]. injection Ha as <-. by apply arr_of_Some in Ea.
  - apply orb_true_iff in E2 as [E|E]; bools; destruct E as [x Hx]; [left|right]; by rewrite Hx.
Qed.

(** Without a client id the development verifier is in place, in production too. *)
Lemma no_client_id_believes_fixtures s : main p lib = Ok s -> google_client_id (cf (sv_settings s)) = None -> sv_google s = Fixtures.
Proof. intros (_ & _ & _ & ->)%main_run H. unfold choose_verifier. by rewrite H. Qed.
End start.

(** ** The real verifier *)

Section verifier.
Import Gv.
Context {W : Type} {H : Http W} {J : JsonText} {X : JsonMisfit} {T : IdTokens}.

(** The keys in use come from Google, now or within the hour. *)
Definition from_google (now : Z) (s s' : State (W := W)) : Prop :=
  s' = s \/ exists r l, fst (send jwks_request (gv_world s)) = r /\ served r = Some l /\ gv_cache s' = Some (MkCache (keys_of l) now).

(** The second half of [key_for]. *)
Definition refetched (now : Z) (id : text) : M (W := W) RsaKey := fun s =>
  match refresh now s with
  | (Ok _, s) => (ok_or (gv_cache s ≫= fun c => ca_keys c !! id) Unauthorized, s)
  | (Err e, s) => (Err e, s)
  | (Panic, s) => (Panic, s)
  end.
Definition vouched (now : Z) (id : text) (key : RsaKey) (s s' : State (W := W)) : Prop :=
  exists c, gv_cache s' = Some c /\ ca_keys c !! id = Some key /\ now - fetched_at c < JWKS_TTL /\ from_google now s s'.

Lemma refetched_run now id s key s' : refetched now id s = (Ok key, s') -> vouched now id key s s'.
Proof.
  unfold refetched, refresh. destruct (send jwks_request (gv_world s)) as [r w] eqn:Es. destruct (served r) as [l|] eqn:El; [|done]. cbn.
  destruct (keys_of l !! id) as [k|] eqn:Ek'; [|done]. intros [= <- <-]. eexists. split; [done|]. split; [done|]. split; [cbn; unfold JWKS_TTL; lia|].
  right. exists r, l. by rewrite Es.
Qed.

Lemma key_for_run now id s key s' : key_for now id s = (Ok key, s') -> vouched now id key s s'.
Proof.
  assert (E : key_for now id s = match fresh_key now id (gv_cache s) with Some k => (Ok k, s) | None => refetched now id s end) by done.
  rewrite E. destruct (fresh_key now id (gv_cache s)) as [k|] eqn:Ek; [|apply refetched_run]. intros [= <- <-].
  unfold fresh_key in Ek. destruct (gv_cache s) as [c|] eqn:Ec; [|done]. cbn in Ek.
  destruct (Z.ltb_spec (now - fetched_at c) JWKS_TTL); [|done]. exists c. do 3 (split; [done|]). by left.
Qed.

(** An identity is believed only under a key of Google's. When the verifier accepts a token, the
    token names RS256 and a key that is in the cache, which was filled from what Google served less
    than an hour ago; that key verifies the token for this server's client id, Google's issuers and the
    current time; and the subject and e-mail returned are the token's own. *)
Theorem google_identity_genuine client_id now tok s claims s' :
  verify client_id now tok s = (Ok claims, s') ->
  exists id key c, decode_header tok = Some ("RS256"%string, Some id) /\ gv_cache s' = Some c /\ ca_keys c !! id = Some key
    /\ now - fetched_at c < JWKS_TTL /\ from_google now s s'
    /\ decode_claims key (validation client_id) now tok = Some (routes.g_sub claims, Some (routes.g_email claims)).
Proof.
  unfold verify. intros ([alg kd] & s1 & Hh & H1)%mbind_Ok. unfold lift in Hh. injection Hh as Hh <-. destruct (decode_header tok) as [hd|]; [|done]. injection Hh as ->.
  case_bool_decide as Ea; [|done]. cbn in Ea. subst. apply mbind_Ok in H1 as (id & s1 & Hid & H1). unfold lift in Hid. injection Hid as Hid <-.
  destruct kd as [kd|]; [|done]. injection Hid as <-. apply mbind_Ok in H1 as (key & s2 & (c & Hc & Hk & Ht & Hf)%key_for_run & H1).
  apply mbind_Ok in H1 as ([sub em] & s3 & Hd & H1). unfold lift in Hd. injection Hd as Hd <-. destruct (decode_claims _ _ _ _) as [cl|] eqn:Ed; [|done]. injection Hd as ->.
  apply mbind_Ok in H1 as (email & s4 & He & H1). unfold lift in He. injection He as He <-. cbn in He. destruct em as [em|]; [|done]. injection He as <-.
  injection H1 as <- <-. exists kd, key, c. by repeat split.
Qed.
End verifier.

(** * Concrete runs *)

(** The server as the one-click deployment starts it, and what a stranger can then do: sign in as its
    owner. *)
Module StartDemo.
Import Start.
#[export] Existing Instances toy_auth toy_base64.
#[export] Instance queries : QueryPairs := {| query_pairs _ := None |}.

(** The environment of [start-api.sh], with no Google client id. *)
Definition secret_key : arr 32 := arr_fill 32 Byte.x05.
Definition one_click : Proc :=
  MkProc (fun n => match n with
    | "DATABASE_URL" => Some (lit "postgres://sentinel:pw@sentinel-db:5432/sentinel")
    | "SENTINEL_ENV" => Some (lit "production")
    | "SENTINEL_API_BIND" => Some (lit "0.0.0.0:8787")
    | "SENTINEL_BOOTSTRAP_TOKEN" => Some (lit "boot")
    | "SENTINEL_TOTP_ENC_KEY" => Some (b64_encode secret_key)
    | "GOOGLE_OAUTH_CLIENT_ID" => Some []
    | "SENTINEL_TLS_CERT_PEM" => Some (lit "/tls/cert.pem")
    | "SENTINEL_TLS_KEY_PEM" => Some (lit "/tls/key.pem")
    | "SENTINEL_JWT_ES256_PEM" => Some (lit "/tls/jwt.pem")
    | "SENTINEL_AUTO_MIGRATE" => Some (lit "1")
    | "SENTINEL_UPDATE_FLAG_DIR" => Some (lit "/flags")
    | _ => None
    end%string) (fun path => Some (lit "PEM of " ++ path)) (arr_fill 32 Byte.x00).
Definition libs : Libs := MkLibs (fun _ => Ok tt) (fun _ => Ok tt) (fun _ => Ok tt) (fun _ => Ok tt) (fun _ _ => Ok tt).

Definition started : option Server := match main one_click libs with Ok s => Some s | _ => None end.
Definition server : Server := Eval vm_compute in default (MkServer (MkSettings Demo.cfg [] [] [] None) EphemeralKey (Jwks []) None PlainHttp) started.
Lemma server_up : main one_click libs = Ok server.
Proof. vm_compute. reflexivity. Qed.

Lemma production_boot_checked_witness :
  exists pem, sv_keys server = FromPem pem /\ read_pem_env one_click "SENTINEL_JWT_ES256_PEM" = Some pem.
Proof. exact (proj1 (production_boot_checked one_click libs server server_up eq_refl)). Defined.

(** ** The owner, and a stranger *)

Definition cfg : Config := cf (sv_settings server).
Definition ok {A E} (d : A) (r : result A E) : A := match r with Ok x => x | _ => d end.
Definition no_tokens : TokensResp := MkTokens [] [] 0.
Definition nobody : Auth := MkAuth Demo.acc1 Demo.acc1.

(** The owner's laptop signs in with the bootstrap token and uploads the vault. *)
Definition at_home (t : Z) : Req := MkReq None (Some (lit "10.0.0.9")) (t * SEC).
Definition first_login := routes.auth_bootstrap cfg (at_home 100) (Demo.draw Byte.x01) (lit "boot") Demo.laptop (MkSrv empty_db ∅).
Definition owner : Auth := ok nobody (auth.Auth_from_request 101 (Some (lit "Bearer " ++ access_token (ok no_tokens (fst first_login))))).
Definition ciphertext : bytes := repeat Byte.x2a 40.
Definition uploaded := routes.vault_put (at_home 101) owner (Some (34 :: lit "0" ++ [34])) (b64_encode ciphertext) (snd first_login).

(** The stranger writes an identity, chooses an authenticator secret and answers with its code. *)
Definition abroad (t : Z) : Req := MkReq None (Some (lit "198.51.100.7")) (t * SEC).
Definition fixture : text := lit "fixture:stranger:stranger@example.com".
Definition google_login := routes.auth_google cfg Gv.MockGoogleVerifier (abroad 200) (Demo.draw Byte.x02) fixture Demo.laptop (snd uploaded).
Definition pending : Auth := ok nobody (auth.PendingAuth_from_request 201 (Some (lit "Bearer " ++ fst (ok ([], false) (fst google_login))))).
Definition enrolled := routes.totp_enroll cfg (Demo.draw Byte.x03) pending (snd google_login).
Definition code : text :=
  match fst enrolled with
  | Ok e => match TotpSecret.parse (routes.secret_base32 e) with Ok item => ok [] (TotpSecret.code_at item 202) | _ => [] end
  | _ => []
  end.
Definition signed_in := routes.totp_verify cfg (abroad 202) (Demo.draw Byte.x04) pending code (snd enrolled).
Definition thief : Auth := ok nobody (auth.Auth_from_request 203 (Some (lit "Bearer " ++ access_token (ok no_tokens (fst signed_in))))).

(** The stranger is the owner, on an approved device, and is handed the vault. *)
Lemma stranger_signs_in_as_owner :
  sv_google server = Fixtures /\ account thief = account owner /\ device thief <> device owner
  /\ fst (routes.vault_get thief (snd signed_in)) = Ok (Some (1, b64_encode ciphertext)).
Proof. split; [reflexivity|]. split; [vm_compute; reflexivity|]. split; [vm_compute; congruence|]. vm_compute. reflexivity. Qed.

(** ** A token of Google's *)

#[export] Instance tokens : IdTokens := {|
  RsaKey := text; from_rsa_components n e := Some n; decode_header t := Some ("RS256"%string, Some (lit "k1"));
  decode_claims key v now t := if bool_decide (key = lit "n1") then Some (lit "sub", Some (lit "a@b.c")) else None |}.
#[export] Instance json : JsonText := {|
  json_parse _ := inr (Js.obj [("keys"%string, Arr [Js.obj [("kid", Str (lit "k1")); ("n", Str (lit "n1")); ("e", Str (lit "AQAB")); ("kty", Str (lit "RSA"))]%string])]) |}.
#[export] Instance misfits : JsonMisfit := {| Cloud.misfit _ := "type"%string |}.
#[export] Instance google : Http unit := {| send _ := ret (200, lit "keys") |}.

Definition cold : Gv.State (W := unit) := Gv.MkState tt None.
Definition verified := Gv.verify (lit "client") 5000 (lit "token") cold.
Definition believed : routes.GoogleClaims := routes.MkGoogleClaims (lit "sub") (lit "a@b.c").
Lemma verified_ok : verified = (Ok believed, snd verified).
Proof. apply run_answer. vm_compute. reflexivity. Qed.

Lemma google_identity_genuine_witness :
  exists key c, Gv.gv_cache (snd verified) = Some c /\ Gv.ca_keys c !! lit "k1" = Some key /\ 5000 - Gv.fetched_at c < Gv.JWKS_TTL.
Proof.
  destruct (google_identity_genuine (lit "client") 5000 (lit "token") cold believed (snd verified) verified_ok) as (id & key & c & Hh & Hc & Hk & Ht & _).
  injection Hh as <-. exists key, c. by repeat split.
Defined.
End StartDemo.
