(* ===== verification/HostImage.v ===== *)
(** The machine of a one-click sync server: what its user data ([SYNC_TEMPLATE] of
    [provision/cloudinit.rs]) makes of it, the script that updates it, and the requests that concern the
    server itself: [healthz], [meta] and [admin_update] of [routes.rs], [sync_probe_server] and
    [sync_server_update] of [sync.rs]. *)
From S2P Require Import Prelude Bytes Text Crypto Floats Value Totp Toy RecoveryKit Keyring Model Envelope VaultStore Session AppLock Generator Health Passkey.
From S2P Require Import Csv Importers Template CloudTemplates Provision Vpn NmHost VpnManager ApiDb ApiAuth ApiRoutes ApiDemo ApiFacts ApiClaims ApiVault SyncClient SyncFlows SettingsSync CrowdSec Watchdog Cloud Netdata Providers SyncServer Tunnel NodeImage ApiStart.
Local Open Scope Z_scope.

Module HostBox.
(** * The first boot *)

(** [start-api.sh] hands the container an environment: [-e NAME=VALUE], a word of the shell. *)
Fixpoint env_line (name : string) (ls : list text) : option text :=
  match ls with
  | [] => None
  | l :: ls => match strip_prefix (lit "  -e " ++ lit name ++ lit "=") l with
               | Some r => fst <$> split_once 32 r
               | None => env_line name ls
               end
  end.
Definition start_script (ls : list text) : list text := Image.file "/opt/sentinel/start-api.sh" ls.
Definition env_word (ls : list text) (name : string) : option text := env_line name (start_script ls).

(** The characters the shell passes on as they are, anywhere in an unquoted word. *)
Definition shell_safe (c : Z) : bool :=
  is_ascii_digit c || ((65 <=? c) && (c <=? 90)) || ((97 <=? c) && (c <=? 122)) || bool_decide (c ∈ lit "+,-./:=@_%").
(** A line of words of such characters, that may go on in the next one. *)
Definition literal_line (l : text) : bool :=
  match reverse l with
  | [] => true
  | c :: r => (shell_safe c || (c =? 32) || (c =? 92)) && forallb (fun c => shell_safe c || (c =? 32)) r
  end.

(** The container's environment. A script with anything else in it is left to the shell: what bash would
    expand or split there has no meaning here. *)
Definition env_of (ls : list text) : option (string -> option text) :=
  if forallb literal_line (drop 1 (start_script ls)) then Some (env_word ls) else None.

(** [run.sh] decodes what it echoes into files; the container sees [/opt/sentinel/tls] as [/tls]. *)
Definition pipes (ls : list text) : list text := omap (strip_prefix (lit "echo " ++ [34])) (Image.file "/opt/sentinel/run.sh" ls).
Section tls.
Context {B : Base64}.
Definition decoded_to (path : string) (ls : list text) : option bytes :=
  head (omap (fun r => p ← split_once 34 r;
                       if bool_decide (p.2 = lit " | base64 -d > /opt/sentinel" ++ lit path) then b64_decode p.1 else None) (pipes ls)).
End tls.

(** * [update.sh] *)

(** [sqlx]'s migrator, which a starting server runs: whether it accepts a database with these
    migrations applied, when its image ships those. A migration is its version and its checksum. *)
Class Migrator : Type := { accepts : gset (Z * Z) -> gset (Z * Z) -> bool }.
(** It is documented to refuse a database with a migration applied that it does not ship, or ships
    with another checksum, and no other. *)
Class MigratorLaws (M : Migrator) : Prop := { accepts_iff shipped applied : accepts shipped applied = true <-> applied ⊆ shipped }.

Section update.
Context {M : Migrator}.
(** Images; whether a container of one starts, the migrations it ships, those of them its server gets
    applied on a database it accepts, and how that server then answers the health checks. *)
Variable I : Type.
Variable starts : I -> bool.
Variables ships lands : I -> gset (Z * Z).
Variable healthy : I -> nat -> bool.

(** The image the reference names here and the one kept for going back, the container with its image and
    whether it was started, the flag that asks for an update, and the migrations of the database. *)
Record Box : Type := MkBox {
  tagged : option I; prev : option I; container : option (I * bool); flag : bool; applied : gset (Z * Z) }.
Definition set_tagged i (b : Box) : Box := MkBox i (prev b) (container b) (flag b) (applied b).
Definition set_container c (b : Box) : Box := MkBox (tagged b) (prev b) c (flag b) (applied b).

(** The server of a container that was started brings the database up to date, or ends there. *)
Definition boot (i : I) (b : Box) : Box :=
  if starts i && accepts (ships i) (applied b)
  then MkBox (tagged b) (prev b) (container b) (flag b) (applied b ∪ lands i) else b.
(** A health check of a running server of image [i]. *)
Definition healthz_ok (i : I) (b : Box) (n : nat) : bool := accepts (ships i) (applied b) && healthy i n.

(** [start-api.sh]: [docker run] refuses a name that is taken, and fetches an image it does not have. A
    container that does not start is left behind. *)
Definition start_api (registry : option I) (b : Box) : bool * Box :=
  match container b with
  | Some _ => (false, b)
  | None =>
      match (match tagged b with Some i => Some i | None => registry end) with
      | Some i => (starts i, boot i (set_container (Some (i, starts i)) (set_tagged (Some i) b)))
      | None => (false, b)
      end
  end.

(** The exit code; [set -e] ends the script at the first command that fails. *)
Definition update_sh (registry : option I) (b : Box) : Z * Box :=
  let b := MkBox (tagged b) (match tagged b with Some i => Some i | None => prev b end) (container b) false (applied b) in
  match registry with
  | None => (1, b)
  | Some i =>
      let '(ok, b) := start_api registry (set_container None (set_tagged (Some i) b)) in
      if negb ok then (1, b)
      else if existsb (healthz_ok i b) (seq 0 30) then (0, b)
      else
        let b := set_container None b in
        match prev b with
        | None => (1, b)
        | Some q => let '(_, b) := start_api registry (set_tagged (Some q) b) in (1, b)
        end
  end.

(** [sentinel-update.path] runs the script while the flag is there, [sentinel-update.timer] every day. *)
Inductive Trigger : Type := PathUnit | Timer.
Definition triggered (t : Trigger) (registry : option I) (b : Box) : Box :=
  match t with
  | PathUnit => if flag b then (update_sh registry b).2 else b
  | Timer => (update_sh registry b).2
  end.
End update.
Arguments MkBox {I}. Arguments tagged {I}. Arguments prev {I}. Arguments container {I}. Arguments flag {I}. Arguments applied {I}.

(** * The requests *)

Definition healthz (database_up : bool) : M unit := if database_up then ret tt else err Internal.

Definition CARGO_PKG_VERSION : text := lit "0.1.0".
Definition meta (s : Settings) : Value :=
  Obj [(lit "version", Str CARGO_PKG_VERSION); (lit "cert_pem", match tls_cert_pem s with Some c => Str c | None => Null end)].

(** [writable]: whether the flag can be written. It is there once the handler answers. *)
Definition admin_update (cfg : Config) (writable : bool) (a : Auth) : M unit :=
  let! _ := routes.require_approved_device (device a) in
  match update_flag_dir cfg with
  | None => err (BadRequest "this server predates in-place updates — redeploy it once to get the updater")
  | Some _ => if writable then ret tt else err Internal
  end.
Definition flagged {I A E} (r : result A E) (b : Box I) : Box I :=
  match r with Ok _ => MkBox (tagged b) (prev b) (container b) true (applied b) | _ => b end.

Section client.
Context {A : AuthLibs} {P : CryptoPrims} {B : Base64}.
Variable cfg : Config.
Variables (rqs : nat -> Req) (dws : nat -> Draw).
Variable others : nat -> Srv -> Srv.

(** Statuses are shown without their reason phrase. *)
Definition sync_server_update (writable : bool) : D unit :=
  let! _ := Flow.api_for in
  let! r := Flow.api (Api.authed cfg rqs dws others (fun _ _ a => admin_update cfg writable a)) in
  match r with
  | Ok _ => ret tt
  | Err (BadRequest _) =>
      err (Told "This server was deployed before in-place updates existed. Destroy + redeploy it once (your vault re-uploads automatically after sign-in) — every server after that updates itself.")
  | Err e => err (Told (to_string (lit "update request failed: HTTP " ++ show_dec (parts e).1)))
  | Panic => err (FromApi Transport)
  end.
End client.

Record ProbeOut : Type := MkProbeOut {
  pr_cert_pem : option text; pr_fingerprint : option text; pr_server_version : option text; pr_password_signin_ready : bool }.

Section probe.
Context {W : Type} {H : Http W} {J : JsonText} {X : JsonMisfit} {P : CryptoPrims} {B : Base64}.
Definition ask (base : text) (path : string) : HttpReq := MkHttpReq "GET" (base ++ lit path) None None None.
(** The connection does not check certificates; nothing secret is sent on it. *)
Definition sync_probe_server (address : text) : ST W text ProbeOut := fun w =>
  match normalize_addr address with
  | None => (Err (lit "enter your server's address (the IP from the computer that set it up)"), w)
  | Some (base, _) =>
      let '(r, w) := send (ask base "/v1/meta") w in
      match r with
      | Panic => (Panic, w)
      | Err e => (Err (lit "couldn't reach " ++ base ++ lit ": " ++ lit e), w)
      | Ok (status, body) =>
          if (400 <=? status) && (status <? 600) then
            (Err (lit "that server didn't identify itself " ++ [8212] ++ lit " it may be too old (update or redeploy it), or the address is wrong"), w)
          else
            match from_str Some body with
            | inl e => (Err (lit e), w)
            | inr m =>
                let cert := Js.as_str (Js.ix m "cert_pem") in
                let '(r, w) := send (ask base "/v1/auth/password/params") w in
                (Ok (MkProbeOut cert (cert ≫= Deploy.cert_fingerprint) (Js.as_str (Js.ix m "version"))
                       (match r with Ok (status, _) => is_success status | _ => false end)), w)
            end
      end
  end.
End probe.
End HostBox.
