(* ===== verification/HostImageClaims.v ===== *)
(** What the user data of a one-click sync server makes of it: the server that comes up holds the
    secrets the app has, presents the certificate the app pins and can be updated; and what an update
    can and cannot break. *)
From S2P Require Import Prelude Bytes Text Crypto Floats Value Totp Toy RecoveryKit Keyring Model Envelope VaultStore Session AppLock Generator Health Passkey.
From S2P Require Import Csv Importers Template CloudTemplates Provision Vpn NmHost VpnManager ApiDb ApiAuth ApiRoutes ApiDemo ApiFacts ApiClaims ApiVault SyncClient SyncFlows SettingsSync CrowdSec Watchdog Cloud Netdata Providers SyncFlowClaims SyncServer Tunnel NodeImage NodeImageClaims ApiStart ApiStartClaims HostImage.
From S2P Require Import SyncFlowClaims SyncServerClaims.
Import Jinja JinjaLines HostBox.
Local Open Scope Z_scope.

(** * The user data *)

Definition simage (var : string -> text) : list text := rendered var (fun _ => false) SYNC_TEMPLATE_lines.

Lemma go_no_conditions var cond cond' on pend ls :
  forallb (forallb inline) ls = true -> go var cond on pend ls = go var cond' on pend ls.
Proof.
  revert on pend; induction ls as [|l ls IH]; intros on pend Hl; [done|]. cbn [forallb] in Hl. apply andb_true_iff in Hl as [Hl Hls].
  cbn [go]. destruct l as [|[s|x|x|] [|t l]]; try done; by rewrite (IH on) by done.
Qed.

(** ** What it says, for any values *)
Section files.
Variable var : string -> text.

Definition reads (name : string) (v : option text) : Prop := env_word (simage var) name = v.
Definition fixed : list (string * option text) :=
  [("SENTINEL_ENV", Some (lit "production")); ("SENTINEL_API_BIND", Some (lit "0.0.0.0:8787"));
   ("SENTINEL_TLS_CERT_PEM", Some (lit "/tls/cert.pem")); ("SENTINEL_TLS_KEY_PEM", Some (lit "/tls/key.pem"));
   ("SENTINEL_JWT_ES256_PEM", Some (lit "/tls/jwt.pem")); ("SENTINEL_AUTO_MIGRATE", Some (lit "1"));
   ("SENTINEL_UPDATE_FLAG_DIR", Some (lit "/flags"))]%string.
Definition absent : list string :=
  ["SENTINEL_TRUST_FORWARDED_FOR"; "SENTINEL_AUTOBAN_THRESHOLD"; "SENTINEL_AUTOBAN_WINDOW_SECS"; "SENTINEL_AUTOBAN_MINUTES";
   "SENTINEL_CORS_ALLOWED_ORIGINS"; "SENTINEL_MIGRATIONS_DIR"]%string.

Lemma env_fixed : Forall (fun p => reads p.1 p.2) fixed.
Proof. unfold fixed. repeat (apply Forall_cons; split; [vm_compute; reflexivity|]). by apply Forall_nil. Qed.

(** Only the reference of the image, the last line, could still be an option. *)
Lemma env_absent :
  Forall (fun n => reads n (match strip_prefix (lit "-e " ++ lit n ++ lit "=") (var "image_ref") with
                            | Some r => fst <$> split_once 32 r | None => None end)) absent.
Proof. unfold absent. repeat (apply Forall_cons; split; [vm_compute; reflexivity|]). by apply Forall_nil. Qed.

Lemma env_given :
  reads "SENTINEL_BOOTSTRAP_TOKEN" (fst <$> split_once 32 (var "bootstrap_token" ++ lit " \"))
  /\ reads "SENTINEL_TOTP_ENC_KEY" (fst <$> split_once 32 (var "totp_enc_key" ++ lit " \"))
  /\ reads "GOOGLE_OAUTH_CLIENT_ID" (fst <$> split_once 32 (var "google_client_id" ++ lit " \"))
  /\ reads "DATABASE_URL" (fst <$> split_once 32 (lit "postgres://sentinel:" ++ var "db_password" ++ lit "@sentinel-db:5432/sentinel \")).
Proof. unfold reads. split_and!; vm_compute; reflexivity. Qed.

(** The script after its first line: the constant lines, and those with a value. *)
Definition constant_lines : list text :=
  drop 1 (start_script (simage (fun _ => []))).
Definition value_lines : list (nat * (text * string * text)) :=
  [(5%nat, (lit "  -e SENTINEL_BOOTSTRAP_TOKEN=", "bootstrap_token"%string, lit " "));
   (6%nat, (lit "  -e SENTINEL_TOTP_ENC_KEY=", "totp_enc_key"%string, lit " "));
   (7%nat, (lit "  -e GOOGLE_OAUTH_CLIENT_ID=", "google_client_id"%string, lit " "));
   (13%nat, (lit "  -e DATABASE_URL=postgres://sentinel:", "db_password"%string, lit "@sentinel-db:5432/sentinel "))].
Definition valued (ls : list text) : list text :=
  fold_left (fun ls '(i, (a, x, b)) => <[i := a ++ var x ++ b ++ [92]]> ls) value_lines ls.

Lemma script_lines : drop 1 (start_script (simage var)) = <[16%nat := lit "  " ++ var "image_ref"]> (valued constant_lines).
Proof. vm_compute. reflexivity. Qed.

(** The Google client id goes into the script as it is, whatever it is. *)
Lemma client_id_line :
  drop 1 (start_script (simage var)) !! 7%nat = Some (lit "  -e GOOGLE_OAUTH_CLIENT_ID=" ++ var "google_client_id" ++ lit " \").
Proof. vm_compute. reflexivity. Qed.

Lemma tls_pipes :
  pipes (simage var) = [var "tls_cert_b64" ++ 34 :: lit " | base64 -d > /opt/sentinel/tls/cert.pem";
                        var "tls_key_b64" ++ 34 :: lit " | base64 -d > /opt/sentinel/tls/key.pem"].
Proof. vm_compute. reflexivity. Qed.
End files.

(** A word the shell passes on as it is: letters, digits and [+,-./:=@_%]. *)
Definition word (t : text) : Prop := Forall (fun c => shell_safe c = true) t.

Lemma word_not t c : word t -> shell_safe c = false -> c ∉ t.
Proof. unfold word. rewrite Forall_forall. intros H Hc Hi%H. congruence. Qed.
Lemma word_clean t : word t -> clean_text t.
Proof. intros H. by apply (word_not _ 10) in H. Qed.
Lemma word_no_space t : word t -> 32 ∉ t.
Proof. intros H. by apply (word_not _ 32) in H. Qed.
Lemma word_no_quote t : word t -> 34 ∉ t.
Proof. intros H. by apply (word_not _ 34) in H. Qed.
Lemma hex_safe v : 0 <= v < 16 -> shell_safe (Callback.hex_digit v) = true.
Proof.
  intros Hv. assert (H : forallb (fun v => shell_safe (Callback.hex_digit v)) (seqZ 0 16) = true) by (vm_compute; reflexivity).
  rewrite forallb_forall in H. apply H, list_elem_of_In, elem_of_seqZ. lia.
Qed.
Lemma hex_word b : word (Callback.hex_encode b).
Proof.
  induction b as [|x b IH]; [constructor|]. destruct (Callback.byte_nibbles x) as [H1 H2].
  constructor; [by apply hex_safe|]. constructor; [by apply hex_safe|exact IH].
Qed.

(** A line of the script with such a word in it is literal. *)
Lemma literal_given a t b :
  forallb (fun c => shell_safe c || (c =? 32)) a = true -> word t -> forallb (fun c => shell_safe c || (c =? 32)) b = true ->
  literal_line (a ++ t ++ b ++ [92]) = true.
Proof.
  intros Ha Ht Hb. unfold literal_line. rewrite !app_assoc, reverse_snoc. change (shell_safe 92 || (92 =? 32) || (92 =? 92)) with true. cbn [andb].
  apply forallb_forall. intros c Hc%list_elem_of_In. rewrite elem_of_reverse in Hc. rewrite forallb_forall in Ha, Hb.
  rewrite !elem_of_app in Hc. destruct Hc as [[Hc|Hc]|Hc]; [by apply Ha, list_elem_of_In| |by apply Hb, list_elem_of_In].
  unfold word in Ht. rewrite Forall_forall in Ht. by rewrite (Ht _ Hc).
Qed.
Lemma literal_last a t : forallb (fun c => shell_safe c || (c =? 32)) a = true -> word t -> literal_line (a ++ t) = true.
Proof.
  intros Ha Ht. assert (Hall : Forall (fun c => shell_safe c || (c =? 32) = true) (a ++ t)).
  { apply Forall_app. split; [by apply Forall_forall; intros c Hc; rewrite forallb_forall in Ha; apply Ha, list_elem_of_In|].
    eapply Forall_impl; [exact Ht|]. cbn. by intros c ->. }
  unfold literal_line. apply Forall_reverse in Hall. destruct Hall as [|c r -> Hr]; [done|]. cbn [orb andb].
  apply forallb_forall. intros x Hx%list_elem_of_In. rewrite Forall_forall in Hr. by apply Hr.
Qed.

Section deployed.
Context {T : Templates} {TL : TemplateLaws} {B : Base64} {BL : Base64Laws}.
(** Base64 text holds no quotation mark. *)
Hypothesis b64_word : forall b, word (b64_encode b).

Record words (p : SyncServerParams) : Prop := {
  given : Forall word [image_ref p; SyncServer.bootstrap_token p; db_password p; tls_cert_b64 p; tls_key_b64 p; SyncServer.totp_enc_key p; sp_google_client_id p] }.

Lemma sync_context_clean p x : words p -> 10 ∉ show_var (Deploy.sync_context p) x.
Proof.
  intros [Hw]. unfold show_var. destruct (look _ x) as [v|] eqn:E; cbn; [|by apply not_elem_of_nil]. apply look_in in E as [y E].
  rewrite !Forall_cons in Hw. destruct Hw as (? & ? & ? & ? & ? & ? & ? & _).
  unfold Deploy.sync_context in E. rewrite !elem_of_cons in E. destruct_or! E; simplify_eq; cbn [show_val]; try (by apply word_clean).
  by apply not_elem_of_nil in E.
Qed.

Lemma sync_inline : forallb (forallb inline) SYNC_TEMPLATE_lines = true.
Proof. vm_compute. reflexivity. Qed.

Lemma sync_lines p : words p -> exists t, Deploy.render_sync p = Ok t /\ split 10 t = simage (show_var (Deploy.sync_context p)).
Proof.
  intros Hw. unfold Deploy.render_sync, CloudInit.added, SYNC_TEMPLATE.
  rewrite add_well_formed, render_well_formed by apply templates_well_formed. eexists. split; [reflexivity|].
  rewrite rendered_lines; [|done|done|intros x; by apply sync_context_clean|by vm_compute].
  pose proof sync_inline as Hi. unfold simage, rendered. destruct SYNC_TEMPLATE_lines as [|l ls]; [done|].
  apply go_no_conditions. by apply andb_true_iff in Hi as [_ Hi].
Qed.

(** Everything the libraries do on the machine goes well. *)
Record all_well (lib : Start.Libs) : Prop := {
  pems : forall x, Start.pem_ok lib x = Ok tt; database : forall x, Start.connect_ok lib x = Ok tt; migrates : forall x, Start.migrate_ok lib x = Ok tt;
  binds : forall x, Start.bind_ok lib x = Ok tt; fits : forall c k, Start.tls_ok lib c k = Ok tt }.

Lemma split_word t r : word t -> fst <$> split_once 32 (t ++ 32 :: r) = Some t.
Proof. intros Hw%word_no_space. by rewrite split_once_app. Qed.
Lemma context_value p :
  let var := show_var (Deploy.sync_context p) in
  var "image_ref" = image_ref p /\ var "bootstrap_token" = SyncServer.bootstrap_token p /\ var "db_password" = db_password p
  /\ var "tls_cert_b64" = tls_cert_b64 p /\ var "tls_key_b64" = tls_key_b64 p /\ var "totp_enc_key" = SyncServer.totp_enc_key p
  /\ var "google_client_id" = sp_google_client_id p.
Proof. done. Qed.

Lemma strip_prefix_space a b t r : 32 ∉ t -> strip_prefix (a ++ 32 :: b) t = Some r -> False.
Proof. intros Ht ->%strip_prefix_Some. set_solver. Qed.

(** The environment of the container. *)
Lemma env_read p n : words p -> n ∈ absent -> env_word (simage (show_var (Deploy.sync_context p))) n = None.
Proof.
  intros [Hw] Hn. pose proof (env_absent (show_var (Deploy.sync_context p))) as H. rewrite Forall_forall in H. rewrite (H n Hn).
  destruct (strip_prefix _ _) as [r|] eqn:E; [|done]. exfalso. apply Forall_cons in Hw as [Hi%word_no_space _].
  change (lit "-e " ++ lit n ++ lit "=") with (lit "-e" ++ 32 :: (lit n ++ lit "=")) in E. by eapply strip_prefix_space.
Qed.
Lemma env_constant p n v : (n, v) ∈ fixed -> env_word (simage (show_var (Deploy.sync_context p))) n = v.
Proof. intros Hn. pose proof (env_fixed (show_var (Deploy.sync_context p))) as H. rewrite Forall_forall in H. exact (H _ Hn). Qed.
Lemma env_value p :
  words p ->
  let env := env_word (simage (show_var (Deploy.sync_context p))) in
  env "SENTINEL_BOOTSTRAP_TOKEN"%string = Some (SyncServer.bootstrap_token p)
  /\ env "SENTINEL_TOTP_ENC_KEY"%string = Some (SyncServer.totp_enc_key p)
  /\ env "GOOGLE_OAUTH_CLIENT_ID"%string = Some (sp_google_client_id p)
  /\ env "DATABASE_URL"%string = Some (lit "postgres://sentinel:" ++ db_password p ++ lit "@sentinel-db:5432/sentinel").
Proof.
  intros [Hw]. cbv zeta. destruct (env_given (show_var (Deploy.sync_context p))) as (-> & -> & -> & ->).
  destruct (context_value p) as (_ & -> & -> & _ & _ & -> & ->). rewrite !Forall_cons in Hw. destruct Hw as (? & ? & Hd & ? & ? & ? & ? & _).
  change (lit " \") with (32 :: lit "\"). rewrite !split_word by done. split_and!; try done.
  change (lit "@sentinel-db:5432/sentinel \") with (lit "@sentinel-db:5432/sentinel" ++ 32 :: lit "\").
  rewrite !app_assoc. rewrite split_once_app; [by rewrite <- !app_assoc|]. apply word_no_space in Hd.
  rewrite !not_elem_of_app. split_and!; [by apply (bool_decide_unpack _)|done|by apply (bool_decide_unpack _)].
Qed.

(** The whole script is literal. *)
Lemma env_defined p :
  words p -> env_of (simage (show_var (Deploy.sync_context p))) = Some (env_word (simage (show_var (Deploy.sync_context p)))).
Proof.
  intros [Hw]. rewrite !Forall_cons in Hw. destruct Hw as (? & ? & ? & ? & ? & ? & ? & _).
  destruct (context_value p) as (Vi & Vb & Vd & _ & _ & Vt & Vg).
  unfold env_of. rewrite script_lines. replace (forallb _ _) with true; [done|]. symmetry. apply forallb_forall, List.Forall_forall.
  apply Forall_insert; [|by rewrite Vi; apply literal_last].
  unfold valued, value_lines. cbn [fold_left]. rewrite Vb, Vt, Vg, Vd.
  repeat (apply Forall_insert; [|by apply literal_given; [vm_compute| |vm_compute]]).
  apply List.Forall_forall, forallb_forall. vm_compute. reflexivity.
Qed.

(** The files of the first script. *)
Lemma decoded_files p c k :
  words p -> b64_decode (tls_cert_b64 p) = Some c -> b64_decode (tls_key_b64 p) = Some k ->
  decoded_to "/tls/cert.pem" (simage (show_var (Deploy.sync_context p))) = Some c
  /\ decoded_to "/tls/key.pem" (simage (show_var (Deploy.sync_context p))) = Some k.
Proof.
  intros [Hw] Hc Hk. destruct (context_value p) as (_ & _ & _ & Vc & Vk & _). rewrite !Forall_cons in Hw.
  destruct Hw as (_ & _ & _ & Hcw%word_no_quote & Hkw%word_no_quote & _). unfold decoded_to. rewrite tls_pipes, Vc, Vk.
  cbn -[lit]. rewrite !split_once_app by done. cbn -[lit]. rewrite Hc, Hk. split; vm_compute; reflexivity.
Qed.

(** Membership of a constant list. *)
Ltac listed := solve [done | apply (bool_decide_unpack _); vm_compute; exact I].

(** What the server reads of its environment. *)
Section started.
Variables (p : SyncServerParams) (cert key jwt : text) (totp drawn : arr 32) (files : text -> option text) (lib : Start.Libs).
Hypothesis Hp : words p.
Hypothesis Htotp : SyncServer.totp_enc_key p = b64_encode (arr_bytes totp).
Hypothesis Hboot : SyncServer.bootstrap_token p <> [].
Hypothesis Hl : all_well lib.
Hypothesis Hc : files (lit "/tls/cert.pem") = Some cert.
Hypothesis Hk : files (lit "/tls/key.pem") = Some key.
Hypothesis Hj : files (lit "/tls/jwt.pem") = Some jwt.
Definition proc : Proc := MkProc (env_word (simage (show_var (Deploy.sync_context p)))) files drawn.
Definition config : Config :=
  MkConfig (non_empty (Some (sp_google_client_id p))) (Some (SyncServer.bootstrap_token p)) totp true false 0 300 60 (Some (lit "/flags")).
Definition url : text := lit "postgres://sentinel:" ++ db_password p ++ lit "@sentinel-db:5432/sentinel".

Lemma totp_filled : Start.filled proc "SENTINEL_TOTP_ENC_KEY" = Some (b64_encode (arr_bytes totp)).
Proof.
  destruct (env_value p Hp) as (_ & H & _). unfold Start.filled. cbn [var proc]. rewrite H, Htotp.
  destruct (b64_encode (arr_bytes totp)) eqn:E; [|done]. apply b64_nonempty in E. pose proof (length_arr totp) as L. by rewrite E in L.
Qed.
Lemma pem_read n path pem : (n, Some path) ∈ fixed -> path <> [] -> files path = Some pem -> Start.read_pem_env proc n = Some pem.
Proof.
  intros Hn Hne Hf. unfold Start.read_pem_env, Start.filled. cbn [var proc]. rewrite (env_constant p _ _ Hn).
  destruct path; [done|]. cbn. by rewrite Hf.
Qed.

Lemma env_read_back : Start.from_env proc = Ok (MkSettings config (lit "0.0.0.0:8787") url [] (Some cert)).
Proof.
  destruct (env_value p Hp) as (Hb & _ & Hg & Hd). unfold Start.from_env. cbn [var proc]. rewrite Hd. cbn [ok_or rbind].
  unfold Start.totp_key. rewrite totp_filled, b64_decode_encode. cbn [ok_or rbind]. rewrite arr_of_bytes. cbn [ok_or rbind].
  rewrite (pem_read "SENTINEL_TLS_CERT_PEM" (lit "/tls/cert.pem") cert) by listed.
  unfold Start.filled, Start.env_flag, Start.env_i64. cbn [var proc]. rewrite Hb, Hg.
  rewrite (env_read p "SENTINEL_TRUST_FORWARDED_FOR"), (env_read p "SENTINEL_AUTOBAN_THRESHOLD"), (env_read p "SENTINEL_AUTOBAN_WINDOW_SECS"),
    (env_read p "SENTINEL_AUTOBAN_MINUTES"), (env_read p "SENTINEL_CORS_ALLOWED_ORIGINS") by listed.
  rewrite (env_constant p "SENTINEL_ENV" (Some (lit "production"))) by listed.
  rewrite (env_constant p "SENTINEL_API_BIND" (Some (lit "0.0.0.0:8787"))) by listed.
  rewrite (env_constant p "SENTINEL_UPDATE_FLAG_DIR" (Some (lit "/flags"))) by listed.
  destruct (SyncServer.bootstrap_token p) eqn:E; [done|]. unfold config. rewrite E. destruct (sp_google_client_id p); reflexivity.
Qed.

Lemma server_started :
  Start.main proc lib = Ok (MkServer (MkSettings config (lit "0.0.0.0:8787") url [] (Some cert)) (FromPem jwt)
    (Start.choose_verifier config) (Some (lit "/opt/sentinel/migrations")) (Https cert key)).
Proof.
  unfold Start.main. rewrite env_read_back. cbn [rbind]. unfold Start.check_production_secrets. cbn [production cf config negb].
  assert (Start.env_set proc "SENTINEL_JWT_ES256_PEM" = true) as ->.
  { apply bool_decide_eq_true. unfold Start.filled. cbn [var proc].
    rewrite (env_constant p _ (Some (lit "/tls/jwt.pem"))) by listed. by eexists. }
  assert (Start.env_set proc "SENTINEL_TOTP_ENC_KEY" = true) as -> by (apply bool_decide_eq_true; rewrite totp_filled; by eexists).
  rewrite (bool_decide_true (is_Some (ApiDb.bootstrap_token _))), orb_true_r by by eexists. cbn -[lit Start.signing_key Start.migrations Start.listener].
  unfold Start.signing_key. rewrite (pem_read _ (lit "/tls/jwt.pem") jwt) by listed.
  rewrite (pems _ Hl). cbn [rbind]. rewrite (database _ Hl). cbn [rbind].
  unfold Start.migrations, Start.env_flag. cbn [var proc].
  rewrite (env_constant p "SENTINEL_AUTO_MIGRATE" (Some (lit "1"))) by listed.
  rewrite (env_read p "SENTINEL_MIGRATIONS_DIR") by listed. change (bool_decide (lit "1" = lit "1")) with true. cbn [orb default].
  rewrite (migrates _ Hl). cbn [rbind].
  unfold Start.listener. rewrite (pem_read _ (lit "/tls/cert.pem") cert), (pem_read _ (lit "/tls/key.pem") key) by listed.
  rewrite (binds _ Hl), (fits _ Hl). done.
Qed.
End started.

End deployed.

(** * Updates *)

Section updates.
Context {M : Migrator} {ML : MigratorLaws M}.
Variable I : Type.
Variable starts : I -> bool.
Variables ships lands : I -> gset (Z * Z).
Variable healthy : I -> nat -> bool.
Notation update_sh := (update_sh I starts ships lands healthy).
Notation triggered := (triggered I starts ships lands healthy).
Notation boot := (boot I starts ships lands).

(** Once its migrations went through, the server of [i] answers a health check within the minute. *)
Definition answers (i : I) : bool := existsb (healthy i) (seq 0 30).

(** A container of [i] is running, the reference names that image, and its server accepts the database,
    now and whenever it is started again. *)
Record serves (i : I) (b : Box I) : Prop := {
  running : container b = Some (i, true); named : tagged b = Some i; startable : starts i = true;
  current : applied b ⊆ ships i }.

Lemma accepts_true s a : a ⊆ s -> accepts s a = true.
Proof. by rewrite accepts_iff. Qed.
Lemma accepts_false s a : ~ a ⊆ s -> accepts s a = false.
Proof. rewrite <- accepts_iff. by destruct (accepts s a). Qed.
Lemma health_loop i b ns : accepts (ships i) (applied b) = true -> existsb (healthz_ok I ships healthy i b) ns = existsb (healthy i) ns.
Proof. intros Ha. induction ns as [|n ns IH]; [done|]. cbn [existsb]. rewrite IH. unfold healthz_ok. by rewrite Ha. Qed.
Lemma health_loop_refused i b ns : accepts (ships i) (applied b) = false -> existsb (healthz_ok I ships healthy i b) ns = false.
Proof. intros Ha. induction ns as [|n ns IH]; [done|]. cbn [existsb]. rewrite IH. unfold healthz_ok. by rewrite Ha. Qed.

(** An image applies only what it ships. *)
Hypothesis own : forall i, lands i ⊆ ships i.

Lemma boot_started j c :
  starts j = true ->
  boot j c = if accepts (ships j) (applied c) then MkBox (tagged c) (prev c) (container c) (flag c) (applied c ∪ lands j) else c.
Proof. intros Hj. unfold HostBox.boot. by rewrite Hj. Qed.

(** One run of the script on an image whose container starts. *)
Lemma update_run b i j :
  serves i b -> starts j = true ->
  update_sh (Some j) b
  = if accepts (ships j) (applied b)
    then if answers j then (0, MkBox (Some j) (Some i) (Some (j, true)) false (applied b ∪ lands j))
         else (1, boot i (MkBox (Some i) (Some i) (Some (i, true)) false (applied b ∪ lands j)))
    else (1, boot i (MkBox (Some i) (Some i) (Some (i, true)) false (applied b))).
Proof.
  intros [Hr Hn Hs Hc] Hj. unfold HostBox.update_sh, answers. rewrite Hn.
  cbn -[existsb seq HostBox.boot]. rewrite !Hj. cbn [negb]. unfold set_container, set_tagged. cbn -[existsb seq HostBox.boot].
  rewrite !(boot_started j) by done. cbn -[existsb seq HostBox.boot]. destruct (accepts (ships j) (applied b)) eqn:Ha.
  - rewrite health_loop.
    + destruct (existsb _ _); [done|]. cbn -[HostBox.boot]. by rewrite Hs.
    + cbn. apply accepts_true. apply accepts_iff in Ha. pose proof (own j). set_solver.
  - rewrite health_loop_refused by done. cbn -[HostBox.boot]. by rewrite Hs.
Qed.

Lemma update_offline b :
  update_sh None b = (1, MkBox (tagged b) (match tagged b with Some i => Some i | None => prev b end) (container b) false (applied b)).
Proof. done. Qed.

(** Going back to an image that accepts the database. *)
Lemma boot_serves i p c :
  starts i = true -> applied c ⊆ ships i -> tagged c = Some i -> container c = Some (i, true) -> prev c = p -> serves i (boot i c) /\ applied c ⊆ applied (boot i c).
Proof.
  intros Hs Hc Ht Hr _. unfold HostBox.boot. rewrite Hs, accepts_true by done. cbn. split; [|set_solver].
  split; cbn; try done. pose proof (own i). set_solver.
Qed.

(** A history of updates: each is set off by the flag or by the timer, and finds an image or no network. *)
Definition updates (l : list (Trigger * option I)) (b : Box I) : Box I := fold_left (fun b p => triggered p.1 p.2 b) l b.

(** An image that may be published over a database with the migrations [a]: a container of it starts,
    and unless its server then answers it applies no migration that is not among those. *)
Definition harmless (a : gset (Z * Z)) (j : I) : Prop := starts j = true /\ (answers j = false -> lands j ⊆ a).

Lemma update_step a t o b i :
  serves i b -> answers i = true -> a ⊆ applied b -> (forall j, o = Some j -> harmless a j) ->
  exists k, serves k (triggered t o b) /\ answers k = true /\ a ⊆ applied (triggered t o b) /\ (k = i \/ o = Some k).
Proof.
  intros Hb Hi Ha Ho.
  assert (Hu : exists k, serves k (update_sh o b).2 /\ answers k = true /\ a ⊆ applied (update_sh o b).2 /\ (k = i \/ o = Some k)).
  { destruct o as [j|].
    - destruct (Ho j eq_refl) as [Hj Hharm]. rewrite (update_run b i j Hb Hj). pose proof (own j) as Hown. destruct Hb as [Hr Hn Hs Hc].
      destruct (accepts (ships j) (applied b)) eqn:Hacc; [apply accepts_iff in Hacc; destruct (answers j) eqn:Ej|].
      + exists j. split; [split; cbn; try done; set_solver|]. cbn. split; [done|]. split; [set_solver|by right].
      + specialize (Hharm eq_refl). exists i. edestruct (boot_serves i) as [H1 H2]; [done|..|split; [exact H1|]]; try done; cbn; [set_solver|].
        split; [done|]. split; [|by left]. cbn in H2. set_solver.
      + exists i. edestruct (boot_serves i) as [H1 H2]; [done|..|split; [exact H1|]]; try done.
        split; [done|]. split; [|by left]. cbn in H2. set_solver.
    - exists i. rewrite update_offline. destruct Hb as [Hr Hn Hs Hc]. split; [by split|]. by auto. }
  destruct t; cbn; [|done]. destruct (flag b); [done|]. exists i. by auto.
Qed.


(** An update that is asked for happens: the flag is gone, and the newest image runs if it accepts the
    database and answers. *)
Theorem requested_update_runs b i j :
  serves i b -> starts j = true -> answers j = true -> applied b ⊆ ships j ->
  triggered PathUnit (Some j) (flagged (Ok (E := ApiError) tt) b)
  = MkBox (Some j) (Some i) (Some (j, true)) false (applied b ∪ lands j).
Proof.
  intros [Hr Hn Hs Hc] Hj Ha Hd. unfold HostBox.triggered, flagged. cbn [flag].
  by rewrite (update_run _ i j), Ha, accepts_true by (done || by split).
Qed.

(** An image whose container does not start strands the machine: the script ends there, the old
    container gone; and the next run makes that image the one to go back to. *)
Lemma unstartable_image_strands b i j :
  serves i b -> starts j = false ->
  let b1 := (update_sh (Some j) b).2 in
  container b1 = Some (j, false) /\ prev (update_sh (Some j) b1).2 = Some j.
Proof.
  intros [Hr Hn Hs Hc] Hj. unfold HostBox.update_sh, start_api, HostBox.boot. rewrite Hn.
  do 4 (cbn -[existsb seq]; rewrite ?Hj). done.
Qed.

(** So does one that migrates the database and then does not answer: the image the script goes back to
    refuses the database it finds, and no health check succeeds any more. *)
Lemma migration_defeats_rollback b i j :
  serves i b -> starts j = true -> applied b ⊆ ships j -> answers j = false -> ~ lands j ⊆ ships i ->
  let b1 := (update_sh (Some j) b).2 in
  container b1 = Some (i, true) /\ forall n, healthz_ok I ships healthy i b1 n = false.
Proof.
  intros Hb Hj Hd Ha Hl. cbv zeta. rewrite (update_run b i j Hb Hj), accepts_true, Ha by done. cbn [snd].
  assert (Hr : accepts (ships i) (applied b ∪ lands j) = false) by (apply accepts_false; set_solver).
  unfold HostBox.boot. cbn [applied]. rewrite Hr, andb_false_r. split; [done|]. intros n. unfold healthz_ok. cbn. by rewrite Hr.
Qed.
End updates.

(** * Asking for an update *)

Section request.
Context {A : AuthLibs} {P : CryptoPrims} {B : Base64}.
Variable cfg : Config.
Variables (rqs : nat -> Req) (dws : nat -> Draw).
Variable others : nat -> Srv -> Srv.

(** The app reports that an update was asked for only when an approved device asked a server that can
    write the flag. *)
Theorem update_request_truthful writable d d' :
  sync_server_update cfg rqs dws others writable d = (Ok tt, d') ->
  exists a, signed_in (Flow.world d') a /\ writable = true /\ is_Some (update_flag_dir cfg)
    /\ dev_status <$> devices (db (srv (Flow.world d'))) !! device a = Some DeviceStatus.Approved.
Proof.
  unfold sync_server_update. intros (u & d1 & ->%api_for_Ok & (r & d2 & H2 & H3)%mbind_Ok)%mbind_Ok.
  destruct r as [v|e|]; [|by destruct e|done]. injection H3 as <-. apply api_Ok in H2 as (w & Hw & ->).
  apply authed_Ok in Hw as (_ & a & rq & dw & s & Hs & Hf). exists a. split; [done|]. unfold admin_update in Hf.
  apply mbind_Ok in Hf as (u' & s1 & Hd & Hf). unfold routes.require_approved_device in Hd. apply mbind_Ok in Hd as (st & s2 & Hst & Hd).
  apply fetch_or_Ok in Hst as [Hst ->]. case_bool_decide as Ha; [|done]. injection Hd as <- <-.
  destruct (update_flag_dir cfg) as [dir|]; [|done]. destruct writable; [|done]. injection Hf as _ Hw.
  split; [done|]. split; [by eexists|]. change (srv (Flow.world (Flow.set_world w d))) with (srv w). by rewrite <- Hw, Hst, Ha.
Qed.
End request.

(** * Concrete runs *)

(** A deployed sync server that starts, updates that keep it up, and a computer that asks for one. *)
Import Jinja JinjaLines HostBox.

Module BoxDemo.
#[local] Existing Instances toy_base64 JinjaEngine.jinja JinjaEngine.jinja_laws toy_base64_laws.

Lemma toy_safe v : 0 <= v < 16 -> shell_safe (65 + v) = true.
Proof.
  intros Hv. assert (H : forallb (fun v => shell_safe (65 + v)) (seqZ 0 16) = true) by (vm_compute; reflexivity).
  rewrite forallb_forall in H. apply H, list_elem_of_In, elem_of_seqZ. lia.
Qed.
Lemma toy_word b : word (b64_encode b).
Proof.
  induction b as [|x b IH]; [constructor|]. pose proof (Callback.byte_nibbles x) as [H1 H2].
  change (b64_encode (x :: b)) with ((65 + byte_to_Z x / 16) :: (65 + byte_to_Z x mod 16) :: b64_encode b).
  constructor; [by apply toy_safe|]. constructor; [by apply toy_safe|exact IH].
Qed.

Definition libs : Start.Libs := Start.MkLibs (fun _ => Ok tt) (fun _ => Ok tt) (fun _ => Ok tt) (fun _ => Ok tt) (fun _ _ => Ok tt).
Lemma libs_well : all_well libs.
Proof. by split. Qed.
Definition files (path : text) : option text := Some (lit "PEM of " ++ path).
Lemma demo_word s : forallb shell_safe (lit s) = true -> word (lit s).
Proof. intros H. apply Forall_forall. intros c Hc. rewrite forallb_forall in H. by apply H, list_elem_of_In. Qed.


#[export] Instance migrator : Migrator := {| accepts shipped applied := bool_decide (applied ⊆ shipped) |}.
#[export] Instance migrator_laws : MigratorLaws migrator.
Proof. constructor. intros. apply bool_decide_eq_true. Qed.

(** Three images: the one that runs; a good one with one more migration; a bad one without. *)
Definition landed (i : nat) : gset (Z * Z) :=
  match i with 1%nat => {[ (1, 10); (2, 20) ]} | _ => {[ (1, 10) ]} end.
Definition fine (i _ : nat) : bool := (i <? 2)%nat.
Definition box : Box nat := MkBox (Some 0%nat) None (Some (0%nat, true)) false {[ (1, 10) ]}.
Definition history : list (Trigger * option nat) := [(Timer, Some 2%nat); (Timer, None); (Timer, Some 1%nat); (PathUnit, Some 2%nat)].
Lemma box_serves : serves nat (fun _ => true) landed 0%nat box.
Proof. split; done. Qed.

Lemma requested_update_runs_witness :
  triggered nat (fun _ => true) landed landed fine PathUnit (Some 1%nat) (flagged (Ok (E := ApiError) tt) box)
  = MkBox (Some 1%nat) (Some 0%nat) (Some (1%nat, true)) false ({[ (1, 10) ]} ∪ {[ (1, 10); (2, 20) ]}).
Proof.
  apply (requested_update_runs nat (fun _ => true) landed landed fine (fun i => reflexivity (R := (⊆)) (landed i)) box 0%nat 1%nat box_serves);
    [reflexivity|reflexivity|].
  apply (bool_decide_unpack _). vm_compute. exact Logic.I.
Defined.

(** The first computer asks its server for an update. *)
Import SyncFlowClaims.FlowDemo.
Definition cfg : Config :=
  MkConfig None (Some (lit "boot")) (arr_fill 32 Byte.x05) false false 5 600 30 (Some (lit "/flags")).
Definition asked := sync_server_update cfg SyncDemo.rqs SyncDemo.dws SyncDemo.alone true FlowDemo.first.
Lemma update_request_truthful_witness :
  exists a, signed_in (Flow.world (snd asked)) a
    /\ dev_status <$> devices (db (srv (Flow.world (snd asked)))) !! device a = Some DeviceStatus.Approved.
Proof.
  assert (H : asked = (Ok tt, snd asked)) by (apply run_answer; vm_compute; reflexivity).
  destruct (update_request_truthful cfg SyncDemo.rqs SyncDemo.dws SyncDemo.alone true FlowDemo.first (snd asked) H) as (a & H1 & _ & _ & H2).
  exists a. split; [exact H1|exact H2].
Defined.
End BoxDemo.
